(* ===== verification/_CoqProject ===== *)
-Q . S2P
Prelude.v
Cpu.v
Synch.v
KState.v
Stats.v
Tlb.v
Swap.v
Coremap.v
Blocks.v
Paging.v
Replacement.v
Kpages.v
PageTable.v
PageIn.v
PtLife.v
UserMem.v
AddrSpace.v
Loader.v
VmFault.v
FaultTheory.v
FirstTouch.v
Proc.v
ProcTheory.v
Kmalloc.v
HeapLists.v
PagerefPool.v
HeapTheory.v
HeapAlloc.v
HeapFree.v
Bitmap.v
Uio.v
Lhd.v
SfsData.v
Sfs.v
SfsOps.v
SfsBlocks.v
SfsMap.v
SfsFile.v
SfsReadWrite.v
SfsDir.v
SfsTrunc.v
SfsSync.v
Millicode.v
Qdivrem.v
MilliTheory.v
DivTheory.v
Hangman.v
Threadlist.v
Array.v
Vnode.v
Vfs.v
VfsPath.v
VfsLaws.v
VfsTheory.v
VfsCalls.v
VfsSafe.v
VfsTable.v
VfsAdd.v
VfsNames.v
Semfs.v
SemfsLaws.v
SemfsInst.v
SemfsCreat.v
SemfsTokens.v
Sched.v
SchedInv.v
SchedMoves.v
SchedWake.v
SchedSwitch.v
SchedPark.v
SchedFrame.v
SchedTrap.v
SchedMig.v
SchedMachine.v
SchedSteps.v
SchedTheory.v
Qsort.v
Umalloc.v
Mksfs.v
Printf.v
