(* ===== verification/Prelude.v ===== *)
(** * OS/161 with demand paging: a verification development

    The program is the OS/161 2.0.3 teaching kernel (src/os161-base-2.0.3/kern) with a virtual
    memory system of its own (kern/vm, option paging) in place of the original one.  The
    development models the kernel's own logic as functions over explicit state and proves
    what makes each component correct.

    ** How the kernel is modelled

    A kernel function is a computation [M S A] of the state [S] it may touch.  It ends in one
    of the ways kernel C code ends ([outcome]): it returns, panics (a failed KASSERT
    included), leaves through thread_exit, goes to sleep, does something C leaves undefined
    (a NULL or wild access), or runs out of the fuel of a loop.  [wp] is total correctness:
    it excludes every outcome but a return, so a theorem that uses it also says that the
    code ends, panics nowhere and follows no wild pointer; [wps] also allows the one panic
    for a full swap file.  Integers are [Z] with the wrap-around of their C type written out
    ([u32], [u16], [u8], [u20] for a bit field).  A structure reached through a pointer is a
    record in a finite map from addresses; 0 is NULL.  A component's state sits inside a
    larger one through a [Lens], and [zoom] runs its operations there.  [Vnode], [KPages],
    [LhdHw], [UserSpace], [Sbrk], [DiskFile] and [FileSystems] with [FsOpsLaws] are the
    interfaces between
    components or to hardware: clients are proved against the class, and the instances
    discharge it.

    ** The parts of the program and the files that model them

    - Interrupt levels and spinlocks (thread/spl.c, spinlock.c): Cpu.v.  Semaphores, locks,
      condition variables and wait channels (thread/synch.c, thread.c): Synch.v.
    - The VM system.  KState.v has its data types and shared state; Stats.v the counters
      (vm_stats.c); Tlb.v the TLB (vm_tlb.c); Swap.v the swap file (swapfile.c); Coremap.v the
      frame allocator and page replacement (coremap.c); Kpages.v kernel pages and start-up
      (vm_project.c, ram.c); PageTable.v two-level page tables (pt.c) and load_from_swap;
      UserMem.v accesses to user memory (copyinout.c); AddrSpace.v address spaces
      (addrspace.c); Loader.v executables and demand loading (loadelf.c, load_page);
      VmFault.v the fault handler.  A fault asks the page table for a frame, which comes from
      the coremap (swapping out a victim), is filled by the loader or from the swap file, and
      is entered into the TLB.
    - Processes (proc.c, proc_syscalls.c, runprogram.c, thread_fork and thread_exit): Proc.v.
    - The kernel heap (kmalloc.c): Kmalloc.v.
    - Bitmaps, I/O vectors, arrays (lib/bitmap.c, uio.c, array.c): Bitmap.v, Uio.v, Array.v.
    - The disk driver (dev/lamebus/lhd.c): Lhd.v.
    - The file system SFS (fs/sfs): SfsData.v has the on-disk format, Sfs.v blocks, the block
      map and file input and output, SfsOps.v inodes, directories, volumes, vnode operations.
    - Thread lists (thread/threadlist.c): Threadlist.v.  The deadlock detector
      (thread/hangman.c): Hangman.v.
    - 64-bit arithmetic (common/gcc-millicode): Millicode.v, and Qdivrem.v for division.
    - The VFS layer (kern/vfs): Vnode.v has vnodes, devices and the tables of operations
      (vnode.c, vfsfail.c, device.c, devnull.c), Vfs.v the device table (vfslist.c), VfsPath.v
      path lookup and the calls on path names (vfslookup.c, vfspath.c, vfscwd.c).  The
      semaphore file system (fs/semfs): Semfs.v.
    - The thread system (thread/thread.c, clock.c, the interrupt part of locore/trap.c): Sched.v.
      Every function names the CPU it runs on; the state has all CPUs, threads, wait channels
      and spinlocks, a thread that does not run has the context it will resume in, and the
      lists of threads are those of Threadlist.v.
    - User level.  Qsort.v: the sort of the C library (stdlib/qsort.c).  Umalloc.v: its
      allocator (stdlib/malloc.c), blocks with headers in the memory sbrk gives.  Mksfs.v: the
      program that makes an SFS volume (sbin/mksfs), in the format the kernel mounts.
    - Printf.v: printf's engine, snprintf and atoi (common/libc/printf, stdlib/atoi.c), which
      kernel and C library share.

    ** What the theorems show

    - Blocks.v, Paging.v, Replacement.v: the coremap array encodes a list of blocks on which
      allocation is first fit with splitting and freeing coalesces; allocating a frame, with
      whatever replacement that takes, changes no page of any process; a frame can be
      reclaimed whenever one is swappable; allocating and freeing is a round trip.
    - PageIn.v, PtLife.v, FaultTheory.v, FirstTouch.v: swap-in gives back what swap-out
      stored; fork copies pages (and where it copies the wrong frame); destruction releases
      frames and slots; a fault ends with the TLB translating the page, with the bytes the
      layout of the segments gives it on first touch.
    - ProcTheory.v: process identifiers, exit and wait, which frees the memory of the process.
    - HeapLists.v, PagerefPool.v, HeapTheory.v, HeapAlloc.v, HeapFree.v: kmalloc hands
      out disjoint aligned blocks and kfree gives them back, and whole pages when their last
      block is freed; its module KmallocPages shows that the
      page allocator keeps the promise the heap relies on.
    - SfsBlocks.v, SfsMap.v, SfsFile.v, SfsReadWrite.v: files are arrays of bytes, what is
      written is read back, other files keep theirs; SfsDir.v: directories are maps from
      names; SfsTrunc.v: which blocks truncation frees; SfsSync.v: sync brings the medium up to
      date and mounting reads it back.  The module SfsToy of SfsBlocks.v is the small volume of
      the witnesses.
    - MilliTheory.v, DivTheory.v: every 64-bit routine is the operation on integers, modulo
      2^64; algorithm D is division.
    - Hangman.v, Threadlist.v, Array.v, Bitmap.v, Uio.v, Cpu.v, UserMem.v, AddrSpace.v and Loader.v
      have their theorems in the file of the component.
    - VfsPath.v to VfsNames.v: against the laws of the interface to file systems (VfsLaws.v),
      every VFS call leaves the reference counts and the lock balanced, the operations on the
      device table do what their results say, names resolve as documented and paths parse as
      the syntax says.  The end of VfsNames.v has volumes that can be mounted and unmounted,
      which keep the laws.
      SemfsLaws.v, SemfsInst.v, SemfsCreat.v: semfs keeps the laws.  Its module
      SemfsTheory: the booted name space satisfies the invariants.  SemfsTokens.v: threads
      on a semaphore conserve its tokens, and can lose a wakeup.
    - SchedInv.v has the invariant of the thread system: where each thread is, which locks each
      CPU holds, when interrupts are on.  SchedMoves.v: moving threads
      between lists.  SchedWake.v, SchedSwitch.v, SchedPark.v, SchedFrame.v,
      SchedTrap.v, SchedMig.v: one operation each (wakeup, switch, sleep and exit, fork,
      interrupts, migration) keeps it.  SchedMachine.v is the machine whose steps are the
      operations of the CPUs in any order, a migration being several steps; SchedSteps.v:
      its steps keep the invariant and boot establishes it.  SchedTheory.v: no operation fails,
      a thread is in one place, no wakeup of an idle CPU is lost, run queues are served in
      order, the clock interrupt returns.
    - Qsort.v: the array is sorted.  Umalloc.v: malloc and free are first fit and coalescing on a
      list of blocks, for requests that keep the amount of sbrk below 2^31, and a program that
      keeps to its blocks keeps its data.  Mksfs.v: the
      kernel mounts what mksfs wrote.  Printf.v: snprintf prints the text its format stands for
      and stays inside its buffer; atoi reads back what it printed.

    ** Bounds and fuel

    Loops that are not structural take fuel, and running out is the outcome [OutOfFuel], which
    [wp] excludes.  The coremap loops have fuel of the number of frames (each step passes a
    block); a fault nests at most once, so the handler has depth 2; sfs_rwblock retries at
    most ten times and has fuel 12; algorithm D corrects a digit at most twice and has fuel 4,
    normalises in at most 15 steps and has fuel 17; the walk of the deadlock detector has one
    step per actor and one more; array growth doubles at most 32 times and has fuel 40 (with
    more than 2^29 elements its arithmetic wraps, so the theorem stops there); the lists of
    the heap are walked with fuel beyond their length, and those of the thread system with
    fuel of the number of threads to move.  There are at most 32 CPUs, as on the machine.
    qsort and the loops of malloc have fuel of the number of elements or blocks, mksfs writes
    a block with at most 512 calls, and a number of 64 bits prints in at most 22 digits, with
    fuel 65.
    Offsets of a uio are non-negative.

    ** What is not modelled

    One CPU runs at a time and a kernel function is one step of its thread up to where it
    sleeps, but in the thread system, where CPUs interleave between critical sections.  The
    interleaving within critical sections is not modelled, and neither are the instructions
    and device registers below the C code (context switch, exception entry, LAMEbus).  Writing to the console has
    no state.  The kernel's tests and menu, and the
    other programs and libraries of user level are left out.  PROJECT.json lists every part with
    what is modelled of it. *)

From stdpp Require Export base option list gmap strings fin_maps numbers.
From stdpp Require Export list_numbers.

#[global] Set Default Proof Using "Type".
#[global] Open Scope Z_scope.

(** ** The kernel monad

    A kernel function runs on the state it may touch and either returns, or
    stops in one of the ways kernel C code stops. *)

(** How a call ends. *)
Inductive outcome (S A : Type) : Type :=
  | Ret (a : A) (s : S)          (* the function returned *)
  | Panic (msg : string)         (* panic() or a failed KASSERT *)
  | Exited (code : Z) (s : S)    (* the thread left through sys__exit / thread_exit *)
  | Waiting (s : S)              (* the thread went to sleep or spins for another thread *)
  | Undef                        (* undefined behaviour: NULL or out-of-range access *)
  | OutOfFuel.                   (* a loop ran longer than the bound of the model *)

Arguments Ret {S A} a s.
Arguments Panic {S A} msg.
Arguments Exited {S A} code s.
Arguments Waiting {S A} s.
Arguments Undef {S A}.
Arguments OutOfFuel {S A}.

(** A computation over the state [S]. *)
Definition M (S A : Type) : Type := S -> outcome S A.

#[global] Instance M_ret {S} : MRet (M S) := fun A a s => Ret a s.
#[global] Instance M_bind {S} : MBind (M S) := fun A B f m s =>
  match m s with
  | Ret a s' => f a s'
  | Panic msg => Panic msg
  | Exited c s' => Exited c s'
  | Waiting s' => Waiting s'
  | Undef => Undef
  | OutOfFuel => OutOfFuel
  end.

Definition get {S} : M S S := fun s => Ret s s.
Definition gets {S A} (f : S -> A) : M S A := fun s => Ret (f s) s.
Definition put {S} (s' : S) : M S unit := fun _ => Ret tt s'.
Definition modify {S} (f : S -> S) : M S unit := fun s => Ret tt (f s).
Definition panic {S A} (msg : string) : M S A := fun _ => Panic msg.
Definition undef {S A} : M S A := fun _ => Undef.
Definition waiting {S A} : M S A := fun s => Waiting s.
Definition exited {S A} (code : Z) : M S A := fun s => Exited code s.
Definition out_of_fuel {S A} : M S A := fun _ => OutOfFuel.

(** KASSERT: the kernel panics when the condition is false. *)
Definition KASSERT {S} (b : bool) : M S unit :=
  if b then mret tt else panic "KASSERT".

(** A pointer or array read: [None] is a NULL or out-of-range access. *)
Definition deref {S A} (o : option A) : M S A :=
  match o with Some a => mret a | None => undef end.

(** [when b m]: the C statement [if (b) m]. *)
Definition when {S} (b : bool) (m : M S unit) : M S unit :=
  if b then m else mret tt.

(** [for (i = from; i < from + n; i++) body i]. *)
Fixpoint for_loop {S} (n : nat) (from : Z) (body : Z -> M S unit) : M S unit :=
  match n with
  | O => mret tt
  | S n' => _ ← body from; for_loop n' (from + 1) body
  end.

(** The same loop whose body may leave the function early with a value. *)
Fixpoint for_early {S R} (n : nat) (from : Z) (body : Z -> M S (option R))
    : M S (option R) :=
  match n with
  | O => mret None
  | S n' =>
      r ← body from;
      match r with
      | Some v => mret (Some v)
      | None => for_early n' (from + 1) body
      end
  end.

(** ** Lenses: a component's state inside a larger state *)

Class Lens (S T : Type) : Type := {
  lens_get : S -> T;
  lens_set : T -> S -> S;
  lens_get_set : forall t s, lens_get (lens_set t s) = t;
  lens_set_get : forall s, lens_set (lens_get s) s = s;
  lens_set_set : forall t t' s, lens_set t (lens_set t' s) = lens_set t s
}.

(** Runs an operation of a component on the state that contains it. *)
Definition zoom {S T A} `{Lens S T} (m : M T A) : M S A := fun s =>
  match m (lens_get s) with
  | Ret a t => Ret a (lens_set t s)
  | Panic msg => Panic msg
  | Exited c t => Exited c (lens_set t s)
  | Waiting t => Waiting (lens_set t s)
  | Undef => Undef
  | OutOfFuel => OutOfFuel
  end.

(** ** Total-correctness triples

    [wp m s Q]: from [s] the computation returns, and its result and final
    state satisfy [Q]. *)
Definition wp {S A} (m : M S A) (s : S) (Q : A -> S -> Prop) : Prop :=
  match m s with Ret a s' => Q a s' | _ => False end.

(** The one panic the paging system keeps for a resource that ran out. *)
Definition OUT_OF_SWAP : string := "swap_init: Out of swap space".

(** [wps F m s Q]: as [wp], except that when [F] holds (the swap file may be full) the
    computation may also stop with that panic. *)
Definition wps {S A} (F : Prop) (m : M S A) (s : S) (Q : A -> S -> Prop) : Prop :=
  match m s with
  | Ret a s' => Q a s'
  | Panic msg => msg = OUT_OF_SWAP /\ F
  | _ => False
  end.

(** ** Machine integers and addresses *)

(** Wrap-around of [uint32_t], of a 20-bit field and of [uint8_t]. *)
Definition u32 (x : Z) : Z := x mod 2 ^ 32.
Definition u20 (x : Z) : Z := x mod 2 ^ 20.
Definition u16 (x : Z) : Z := x mod 2 ^ 16.
Definition u8 (x : Z) : Z := x mod 2 ^ 8.

(** kern/arch/mips/include/vm.h *)
Definition PAGE_SIZE : Z := 4096.
Definition PAGE_FRAME : Z := 0xfffff000.
Definition MIPS_KSEG0 : Z := 0x80000000.
Definition PADDR_TO_KVADDR (paddr : Z) : Z := u32 (paddr + MIPS_KSEG0).
Definition USERSTACK : Z := MIPS_KSEG0.

(** kern/include/kern/errno.h *)
Definition ENOSYS : Z := 1.
Definition ENOMEM : Z := 3.
Definition EFAULT : Z := 6.
Definition EINVAL : Z := 8.
Definition EPERM : Z := 9.
Definition ENOEXEC : Z := 13.
Definition ENOSPC : Z := 36.

(** A physical page: 4096 bytes. *)
Abbreviation page := (list Z) (only parsing).
Definition zero_page : page := replicate 4096 0.

(** ** Laws of the monad and of [wp] *)

Lemma wp_ret {S A} (a : A) (s : S) Q : Q a s -> wp (mret a) s Q.
Proof. done. Qed.

Lemma wp_bind {S A B} (m : M S A) (f : A -> M S B) s Q :
  wp m s (fun a s' => wp (f a) s' Q) -> wp (m ≫= f) s Q.
Proof. unfold wp, mbind, M_bind. by destruct (m s). Qed.

Lemma wp_bind_inv {S A B} (m : M S A) (f : A -> M S B) s Q :
  wp (m ≫= f) s Q -> wp m s (fun a s' => wp (f a) s' Q).
Proof. unfold wp, mbind, M_bind. by destruct (m s). Qed.

Lemma wp_mono {S A} (m : M S A) s (Q Q' : A -> S -> Prop) :
  wp m s Q -> (forall a s', Q a s' -> Q' a s') -> wp m s Q'.
Proof. unfold wp. destruct (m s); naive_solver. Qed.

Lemma wp_and {S A} (m : M S A) s (Q Q' : A -> S -> Prop) :
  wp m s Q -> wp m s Q' -> wp m s (fun a s' => Q a s' /\ Q' a s').
Proof. unfold wp. destruct (m s); naive_solver. Qed.

Lemma wp_run {S A} (m : M S A) s Q :
  wp m s Q <-> exists a s', m s = Ret a s' /\ Q a s'.
Proof. unfold wp. destruct (m s); naive_solver. Qed.

Lemma wp_gets {S A} (f : S -> A) s Q : Q (f s) s -> wp (gets f) s Q.
Proof. done. Qed.

Lemma wp_modify {S} (f : S -> S) s Q : Q tt (f s) -> wp (modify f) s Q.
Proof. done. Qed.

Lemma wp_KASSERT {S} (b : bool) (s : S) Q : b = true -> Q tt s -> wp (KASSERT b) s Q.
Proof. by intros ->. Qed.

Lemma wp_deref {S A} (o : option A) a (s : S) Q : o = Some a -> Q a s -> wp (deref o) s Q.
Proof. by intros ->. Qed.

Lemma wp_zoom {S T A} `{Lens S T} (m : M T A) (s : S) (Q : A -> S -> Prop) :
  wp m (lens_get s) (fun a t => Q a (lens_set t s)) -> wp (zoom m) s Q.
Proof. unfold wp, zoom. by destruct (m (lens_get s)). Qed.

(** A loop preserves an invariant that says how far it is. *)
Lemma wp_for_loop {S} (I : Z -> S -> Prop) n from (body : Z -> M S unit) s :
  I from s ->
  (forall i s', from <= i < from + Z.of_nat n -> I i s' ->
     wp (body i) s' (fun _ s'' => I (i + 1) s'')) ->
  wp (for_loop n from body) s (fun _ s' => I (from + Z.of_nat n) s').
Proof.
  revert from s. induction n as [|n IH]; intros from s HI Hbody; simpl.
  - apply wp_ret. by rewrite Z.add_0_r.
  - apply wp_bind. eapply wp_mono; [apply Hbody; [lia|done]|].
    intros [] s' HI'. eapply wp_mono.
    + apply (IH (from + 1)); [done|]. intros i s'' Hi. apply Hbody. lia.
    + intros [] s'' H. by replace (from + Z.of_nat (Datatypes.S n))
        with (from + 1 + Z.of_nat n) by lia.
Qed.

(** The first index of a range that has a property, if any. *)
Lemma first_index (P : Z -> Prop) `{!forall i, Decision (P i)} n from :
  (exists k, from <= k < from + Z.of_nat n /\ P k /\ forall i, from <= i < k -> ~ P i) \/
  (forall i, from <= i < from + Z.of_nat n -> ~ P i).
Proof.
  revert from. induction n as [|n IH]; intros from; [right; lia|]. destruct (decide (P from)) as [Hp|Hp].
  - left. exists from. split; [lia|]. split; [done|]. lia.
  - destruct (IH (from + 1)) as [(k & Hk & Hpk & Hlt)|Hno].
    + left. exists k. split; [lia|]. split; [done|]. intros i Hi.
      destruct (decide (i = from)) as [->|]; [done|]. apply Hlt. lia.
    + right. intros i Hi. destruct (decide (i = from)) as [->|]; [done|]. apply Hno. lia.
Qed.

(** A loop skips the indices at which its body does nothing. *)
Lemma for_early_skip {S R} n from k (body : Z -> M S (option R)) s :
  from <= k <= from + Z.of_nat n -> (forall i, from <= i < k -> body i s = Ret None s) ->
  for_early n from body s = for_early (n - Z.to_nat (k - from)) k body s.
Proof.
  revert from. induction n as [|n IH]; intros from Hk Hb.
  - by replace k with from by lia.
  - destruct (decide (k = from)) as [->|Hne].
    + by rewrite Z.sub_diag.
    + simpl. unfold mbind at 1, M_bind at 1. rewrite Hb by lia. rewrite (IH (from + 1)) by (try (intros; apply Hb); lia).
      replace (Z.to_nat (k - from)) with (Datatypes.S (Z.to_nat (k - (from + 1)))) by lia. done.
Qed.

Lemma run_bind {S A B} (m : M S A) (f : A -> M S B) s a s' :
  m s = Ret a s' -> (m ≫= f) s = f a s'.
Proof. intros H. unfold mbind, M_bind. by rewrite H. Qed.

(** The first two parts of a sequence as one. *)
Lemma run_bind2 {S A B C} (m : M S A) (f : A -> M S B) (g : B -> M S C) s b s' :
  (m ≫= f) s = Ret b s' -> (m ≫= (fun a => f a ≫= g)) s = g b s'.
Proof. unfold mbind, M_bind. destruct (m s) as [a s1| | | | |]; try done. by intros ->. Qed.

Lemma run_bind_panic {S A B} (m : M S A) (f : A -> M S B) s msg :
  m s = Panic msg -> (m ≫= f) s = Panic msg.
Proof. intros H. unfold mbind, M_bind. by rewrite H. Qed.

Lemma run_bind_exited {S A B} (m : M S A) (f : A -> M S B) s c s' :
  m s = Exited c s' -> (m ≫= f) s = Exited c s'.
Proof. intros H. unfold mbind, M_bind. by rewrite H. Qed.

Lemma wps_of_wp {S A} F (m : M S A) s Q : wp m s Q -> wps F m s Q.
Proof. unfold wp, wps. by destruct (m s). Qed.

Lemma wps_ret {S A} F (a : A) (s : S) Q : Q a s -> wps F (mret a) s Q.
Proof. done. Qed.

Lemma wps_bind {S A B} F (m : M S A) (f : A -> M S B) s Q :
  wps F m s (fun a s' => wps F (f a) s' Q) -> wps F (m ≫= f) s Q.
Proof. unfold wps, mbind, M_bind. by destruct (m s). Qed.

Lemma wps_mono {S A} (F F' : Prop) (m : M S A) s (Q Q' : A -> S -> Prop) :
  wps F m s Q -> (F -> F') -> (forall a s', Q a s' -> Q' a s') -> wps F' m s Q'.
Proof. unfold wps. destruct (m s); naive_solver. Qed.

Lemma wps_eq {S A} F (m : M S A) s a s' (Q : A -> S -> Prop) : m s = Ret a s' -> Q a s' -> wps F m s Q.
Proof. unfold wps. by intros ->. Qed.

Lemma wps_eqn {S A} F (m : M S A) s Q : wps F m s Q -> wps F m s (fun a s' => m s = Ret a s' /\ Q a s').
Proof. unfold wps. by destruct (m s). Qed.

(** Without the excuse, [wps] is [wp]. *)
Lemma wps_wp {S A} (F : Prop) (m : M S A) s Q : wps F m s Q -> ~ F -> wp m s Q.
Proof. unfold wps, wp. destruct (m s); naive_solver. Qed.

(** A first part that returns, by [wp]. *)
Lemma wps_step {S A B} F (m : M S A) (f : A -> M S B) s Q :
  wp m s (fun a s' => wps F (f a) s' Q) -> wps F (m ≫= f) s Q.
Proof. intros H. by apply wps_bind, wps_of_wp. Qed.

(** A loop that leaves at the first index where its body does something. *)
Lemma wps_early {S R} F n from k (body : Z -> M S (option R)) s Q :
  from <= k < from + Z.of_nat n -> (forall i, from <= i < k -> body i s = Ret None s) ->
  wps F (body k) s (fun r s' => exists v, r = Some v /\ Q (Some v) s') -> wps F (for_early n from body) s Q.
Proof.
  intros Hk Hskip Hbody. unfold wps. rewrite (for_early_skip n from k) by (try done; lia).
  replace (n - Z.to_nat (k - from))%nat with (Datatypes.S (n - Z.to_nat (k - from) - 1)) by lia.
  cbn [for_early]. change (wps F (r ← body k; match r with Some v => mret (Some v)
    | None => for_early (n - Z.to_nat (k - from) - 1) (k + 1) body end) s Q).
  apply wps_bind. eapply wps_mono; [exact Hbody|done|]. by intros r s' (v & -> & Hv).
Qed.

(** ** Arithmetic facts used everywhere *)

Lemma u32_small x : 0 <= x < 2 ^ 32 -> u32 x = x.
Proof. apply Z.mod_small. Qed.

Lemma u20_small x : 0 <= x < 2 ^ 20 -> u20 x = x.
Proof. apply Z.mod_small. Qed.

Lemma u8_small x : 0 <= x < 2 ^ 8 -> u8 x = x.
Proof. apply Z.mod_small. Qed.

Lemma u32_range x : 0 <= u32 x < 2 ^ 32.
Proof. apply Z.mod_pos_bound. lia. Qed.

Lemma page_of_addr i : i * PAGE_SIZE / PAGE_SIZE = i.
Proof. unfold PAGE_SIZE. by apply Z.div_mul. Qed.

(** A field of [n] bits starting at bit [lo]. *)
Lemma land_window a lo n : 0 <= lo -> 0 <= n ->
  Z.land a (Z.shiftl (Z.ones n) lo) = ((a / 2 ^ lo) mod 2 ^ n) * 2 ^ lo.
Proof.
  intros Hlo Hn. rewrite <- Z.land_ones, <- Z.shiftr_div_pow2, <- Z.shiftl_mul_pow2 by lia.
  apply Z.bits_inj'. intros i Hi. rewrite Z.land_spec, !Z.shiftl_spec by lia.
  destruct (Z.lt_ge_cases i lo).
  - rewrite !(Z.testbit_neg_r _ (i - lo)) by lia. apply andb_false_r.
  - rewrite Z.land_spec, Z.shiftr_spec by lia. by replace (i - lo + lo) with i by lia.
Qed.

(** The page of an address. *)
Lemma land_page a : 0 <= a < 2 ^ 32 -> Z.land a PAGE_FRAME = a / PAGE_SIZE * PAGE_SIZE.
Proof.
  intros Ha. change PAGE_FRAME with (Z.shiftl (Z.ones 20) 12). rewrite land_window by lia.
  change (2 ^ 12) with PAGE_SIZE. rewrite Z.mod_small; [done|]. unfold PAGE_SIZE. split; [apply Z.div_pos; lia|].
  apply Z.div_lt_upper_bound; lia.
Qed.

(** ** Automation *)

Create HintDb kernel.
#[export] Hint Resolve u32_small u20_small u8_small wp_ret wp_gets wp_modify : kernel.

(** Splits the conjunctions of the context and the goal. *)
Ltac split_all :=
  repeat match goal with
  | H : _ /\ _ |- _ => destruct H
  | H : exists _, _ |- _ => destruct H
  | |- _ /\ _ => split
  end.

(** One step of symbolic execution under [wp]. *)
Ltac wp_step :=
  match goal with
  | |- wp (_ ≫= _) _ _ => apply wp_bind
  | |- wp (mret _) _ _ => apply wp_ret
  | |- wp (gets _) _ _ => apply wp_gets
  | |- wp get _ _ => unfold get; apply (wp_gets (fun x => x))
  | |- wp (modify _) _ _ => apply wp_modify
  | |- wp (zoom _) _ _ => apply wp_zoom
  | |- wp (KASSERT _) _ _ => apply wp_KASSERT
  end.
Ltac wp_run := repeat wp_step.

(** Symbolic execution by computation, for short straight-line code. *)
Ltac msimpl :=
  unfold KASSERT, deref, when;
  unfold mbind, M_bind, mret, M_ret, get, gets, put, modify, panic, undef,
    waiting, exited, out_of_fuel; simpl.

Lemma wp_eq {S A} (m : M S A) s a s' (Q : A -> S -> Prop) : m s = Ret a s' -> Q a s' -> wp m s Q.
Proof. unfold wp. by intros ->. Qed.
