(* ===== verification/Cpu.v ===== *)
(** * Interrupt priority and spinlocks

    Models kern/thread/spl.c ([splraise], [spllower], [splx], with [splhigh] and
    [spl0] of kern/include/spl.h) and kern/thread/spinlock.c.  The state is the
    part of [struct cpu] and of the current [struct thread] these functions use.
    [splk] gives the CPU that holds a spinlock. *)

From S2P Require Import Prelude.

Module Cpu.

(** A spinlock: a static one by its name, one inside an object by its kind and the
    object. *)
Abbreviation splid := (string * Z)%type.

Record cpu := mk_cpu {
  curcpu_exists : bool;        (* CURCPU_EXISTS() *)
  c_self : Z;                  (* this CPU *)
  curthread : Z;               (* the running thread *)
  t_in_interrupt : bool;
  t_curspl : Z;                (* curthread->t_curspl *)
  t_iplhigh_count : Z;         (* curthread->t_iplhigh_count *)
  irqs_on : bool;              (* effect of cpu_irqon / cpu_irqoff *)
  c_spinlocks : Z;             (* curcpu->c_spinlocks *)
  splk : gmap splid Z         (* splk_lock = 1 with its splk_holder *)
}.

Definition IPL_NONE : Z := 0.
Definition IPL_HIGH : Z := 1.

(** *** Field updates *)
Definition set_spl (v : Z) (c : cpu) : cpu :=
  mk_cpu (curcpu_exists c) (c_self c) (curthread c) (t_in_interrupt c) v
    (t_iplhigh_count c) (irqs_on c) (c_spinlocks c) (splk c).
Definition set_count (v : Z) (irq : bool) (c : cpu) : cpu :=
  mk_cpu (curcpu_exists c) (c_self c) (curthread c) (t_in_interrupt c) (t_curspl c)
    v irq (c_spinlocks c) (splk c).
Definition set_splk (n : Z) (l : gmap splid Z) (c : cpu) : cpu :=
  mk_cpu (curcpu_exists c) (c_self c) (curthread c) (t_in_interrupt c) (t_curspl c)
    (t_iplhigh_count c) (irqs_on c) n l.

(** *** spl.c *)

(** Interrupts go off on the first raise only. *)
Definition splraise (oldspl newspl : Z) : M cpu unit :=
  _ ← KASSERT (oldspl =? IPL_NONE);
  _ ← KASSERT (newspl =? IPL_HIGH);
  c ← get;
  if negb (curcpu_exists c) then mret tt
  else
    modify (set_count (t_iplhigh_count c + 1)
              (if t_iplhigh_count c =? 0 then false else irqs_on c)).

(** Interrupts go on again on the last lower only. *)
Definition spllower (oldspl newspl : Z) : M cpu unit :=
  _ ← KASSERT (oldspl =? IPL_HIGH);
  _ ← KASSERT (newspl =? IPL_NONE);
  c ← get;
  if negb (curcpu_exists c) then mret tt
  else
    let n := t_iplhigh_count c - 1 in
    modify (set_count n (if n =? 0 then true else irqs_on c)).

Definition splx (spl : Z) : M cpu Z :=
  c ← get;
  if negb (curcpu_exists c) then mret spl
  else if t_curspl c <? spl then
    _ ← splraise (t_curspl c) spl;
    _ ← modify (set_spl spl);
    mret (t_curspl c)
  else if spl <? t_curspl c then
    _ ← modify (set_spl spl);
    _ ← spllower (t_curspl c) spl;
    mret (t_curspl c)
  else mret spl.

Definition splhigh : M cpu Z := splx IPL_HIGH.
Definition spl0 : M cpu Z := splx IPL_NONE.

(** *** spinlock.c *)

Definition spinlock_init (l : splid) : M cpu unit :=
  modify (fun c => set_splk (c_spinlocks c) (delete l (splk c)) c).

Definition spinlock_cleanup (l : splid) : M cpu unit :=
  c ← get;
  KASSERT (match splk c !! l with Some _ => false | None => true end).

(** [splk->splk_holder == curcpu->c_self] *)
Definition is_holder (l : splid) (c : cpu) : bool :=
  match splk c !! l with Some h => h =? c_self c | None => false end.

(** The test-and-set loop ends at once when the lock word is 0; a lock that
    another CPU holds keeps this one spinning. *)
Definition spinlock_acquire (l : splid) : M cpu unit :=
  _ ← splraise IPL_NONE IPL_HIGH;
  c ← get;
  if curcpu_exists c then
    if is_holder l c then panic "Deadlock on spinlock"
    else
      _ ← modify (set_splk (c_spinlocks c + 1) (splk c));
      match splk c !! l with
      | Some _ => waiting
      | None => modify (fun c => set_splk (c_spinlocks c) (<[l := c_self c]> (splk c)) c)
      end
  else
    match splk c !! l with
    | Some _ => waiting
    | None => modify (fun c => set_splk (c_spinlocks c) (<[l := c_self c]> (splk c)) c)
    end.

Definition spinlock_release (l : splid) : M cpu unit :=
  c ← get;
  _ ← (if curcpu_exists c then
         _ ← KASSERT (is_holder l c);
         _ ← KASSERT (0 <? c_spinlocks c);
         modify (set_splk (c_spinlocks c - 1) (splk c))
       else mret tt);
  _ ← modify (fun c => set_splk (c_spinlocks c) (delete l (splk c)) c);
  spllower IPL_HIGH IPL_NONE.

Definition spinlock_do_i_hold (l : splid) : M cpu bool :=
  c ← get;
  if negb (curcpu_exists c) then mret true
  else mret (is_holder l c).

(** *** The invariant of the interrupt state *)

(** Spinlocks this CPU holds. *)
Definition held (c : cpu) : gmap splid Z :=
  filter (fun kv => kv.2 = c_self c) (splk c).

(** Interrupts are on exactly when nothing raised the level, and the count is the
    spl level plus one per held spinlock. *)
Definition cpu_wf (c : cpu) : Prop :=
  curcpu_exists c = true /\
  (t_curspl c = IPL_NONE \/ t_curspl c = IPL_HIGH) /\
  c_spinlocks c = Z.of_nat (size (held c)) /\
  t_iplhigh_count c = t_curspl c + c_spinlocks c /\
  irqs_on c = (t_iplhigh_count c =? 0).

(** The operations, as one type, for sequences of them. *)
Inductive cpu_op :=
  | OpSplx (spl : Z)
  | OpAcquire (l : splid)
  | OpRelease (l : splid).

Definition run_op (o : cpu_op) : M cpu unit :=
  match o with
  | OpSplx spl => _ ← splx spl; mret tt
  | OpAcquire l => spinlock_acquire l
  | OpRelease l => spinlock_release l
  end.

Fixpoint run_ops (os : list cpu_op) : M cpu unit :=
  match os with
  | [] => mret tt
  | o :: os' => _ ← run_op o; run_ops os'
  end.

(** The levels that exist are 0 and 1. *)
Definition op_valid (o : cpu_op) : Prop :=
  match o with OpSplx spl => spl = IPL_NONE \/ spl = IPL_HIGH | _ => True end.

(** *** Exact effect on a well-formed CPU *)

(** The state inside a [spinlock_acquire]/[spinlock_release] section. *)
Definition acq (l : splid) (c : cpu) : cpu :=
  mk_cpu (curcpu_exists c) (c_self c) (curthread c) (t_in_interrupt c) (t_curspl c)
    (t_iplhigh_count c + 1) (if t_iplhigh_count c =? 0 then false else irqs_on c)
    (c_spinlocks c + 1) (<[l := c_self c]> (splk c)).

(** The state after [splhigh]. *)
Definition high (c : cpu) : cpu :=
  if t_curspl c <? IPL_HIGH then
    mk_cpu (curcpu_exists c) (c_self c) (curthread c) (t_in_interrupt c) IPL_HIGH
      (t_iplhigh_count c + 1) (if t_iplhigh_count c =? 0 then false else irqs_on c)
      (c_spinlocks c) (splk c)
  else c.

(** *** Lemmas *)

Lemma held_insert c l :
  splk c !! l = None ->
  size (filter (fun kv => kv.2 = c_self c) (<[l := c_self c]> (splk c))) = S (size (held c)).
Proof.
  intros Hl. unfold held. rewrite map_filter_insert_True by done.
  apply map_size_insert_None. by apply map_lookup_filter_None_2; left.
Qed.

Lemma held_delete c l :
  splk c !! l = Some (c_self c) ->
  S (size (filter (fun kv => kv.2 = c_self c) (delete l (splk c)))) = size (held c).
Proof.
  intros Hl. unfold held. rewrite map_filter_delete.
  assert (Hin : filter (fun kv => kv.2 = c_self c) (splk c) !! l = Some (c_self c))
    by by apply map_lookup_filter_Some_2.
  rewrite (map_size_delete_Some _ _ (ex_intro _ _ Hin)).
  assert (size (filter (fun kv : splid * Z => kv.2 = c_self c) (splk c)) <> 0%nat); [|lia].
  intros Hz. apply map_size_empty_inv in Hz. by rewrite Hz in Hin.
Qed.

(** [splx] to a level that exists returns and keeps the invariant; the old level
    is returned. *)
Lemma splx_spec c spl :
  cpu_wf c -> spl = IPL_NONE \/ spl = IPL_HIGH ->
  wp (splx spl) c (fun r c' =>
    r = t_curspl c /\ cpu_wf c' /\ t_curspl c' = spl /\ splk c' = splk c /\
    curthread c' = curthread c).
Proof.
  destruct c as [ex self th int spl0 n irq k l].
  unfold cpu_wf, held, IPL_NONE, IPL_HIGH; simpl. intros (-> & Hspl & Hk & Hn & Hirq) Hs.
  unfold wp, splx, splraise, spllower; msimpl.
  destruct Hspl as [-> | ->], Hs as [-> | ->]; simpl; subst; simpl;
    repeat match goal with
    | |- context [?a =? ?b] => destruct (Z.eqb_spec a b); simpl
    end; split_all; unfold held; simpl; try done; try lia;
    repeat match goal with |- context [?a =? ?b] => destruct (Z.eqb_spec a b) end;
    auto; lia.
Qed.

Lemma spinlock_acquire_spec c l :
  cpu_wf c -> splk c !! l = None ->
  wp (spinlock_acquire l) c (fun _ c' =>
    cpu_wf c' /\ splk c' = <[l := c_self c]> (splk c) /\ t_curspl c' = t_curspl c /\
    c_self c' = c_self c /\ curthread c' = curthread c).
Proof.
  intros Hwf Hl. pose proof (held_insert c l Hl) as Hsz.
  destruct c as [ex self th int spl0 n irq k m]. revert Hwf.
  unfold cpu_wf, held, IPL_NONE, IPL_HIGH; simpl in *. intros (-> & Hspl & Hk & Hn & Hirq).
  unfold wp, spinlock_acquire, splraise; msimpl.
  unfold is_holder; simpl. rewrite Hl. simpl.
  split_all; try done; unfold held in *; simpl in *; try lia.
  destruct (Z.eqb_spec n 0), (Z.eqb_spec (n + 1) 0); try lia; done.
Qed.

Lemma spinlock_release_spec c l :
  cpu_wf c -> splk c !! l = Some (c_self c) ->
  wp (spinlock_release l) c (fun _ c' =>
    cpu_wf c' /\ splk c' = delete l (splk c) /\ t_curspl c' = t_curspl c /\
    c_self c' = c_self c /\ curthread c' = curthread c).
Proof.
  intros Hwf Hl. pose proof (held_delete c l Hl) as Hsz.
  destruct c as [ex self th int spl0 n irq k m]. revert Hwf.
  unfold cpu_wf, held, IPL_NONE, IPL_HIGH; simpl in *. intros (-> & Hspl & Hk & Hn & Hirq).
  unfold wp, spinlock_release, spllower; msimpl.
  unfold is_holder; simpl. rewrite Hl, Z.eqb_refl. simpl.
  destruct (Z.ltb_spec 0 k); [|unfold held in *; simpl in *; lia]. simpl.
  split_all; try done; unfold held in *; simpl in *; try lia.
  destruct (Z.eqb_spec (n - 1) 0); [done|].
  destruct (Z.eqb_spec n 0); [lia|done].
Qed.

Lemma spinlock_acquire_eq c l :
  cpu_wf c -> splk c !! l = None -> spinlock_acquire l c = Ret tt (acq l c).
Proof.
  intros (Hex & _) Hl. destruct c; simpl in *; subst.
  unfold spinlock_acquire, splraise; msimpl. unfold is_holder; simpl. by rewrite Hl.
Qed.

Lemma spinlock_release_acq c l :
  cpu_wf c -> splk c !! l = None -> spinlock_release l (acq l c) = Ret tt c.
Proof.
  intros Hwf Hl. pose proof Hwf as (Hex & Hspl & Hk & Hn & Hirq).
  destruct c as [ex self th int spl0 n irq k m]; unfold IPL_NONE, IPL_HIGH in *; simpl in *; subst ex.
  unfold spinlock_release, spllower; msimpl.
  unfold is_holder; simpl. rewrite lookup_insert_eq, Z.eqb_refl. simpl.
  destruct (Z.ltb_spec 0 (k + 1)); [|lia]. unfold set_count, set_splk; simpl.
  rewrite delete_insert_id by done.
  replace (k + 1 - 1) with k by lia. replace (n + 1 - 1) with n by lia.
  rewrite Hirq. by destruct (n =? 0).
Qed.

Lemma splhigh_eq c : cpu_wf c -> splhigh c = Ret (t_curspl c) (high c).
Proof.
  intros (Hex & Hspl & _). destruct c; simpl in *; subst. unfold splhigh, splx, splraise, high.
  msimpl. unfold IPL_NONE, IPL_HIGH in *. by destruct Hspl; subst.
Qed.

Lemma splx_high c : cpu_wf c -> exists r, splx (t_curspl c) (high c) = Ret r c.
Proof.
  intros Hwf. pose proof Hwf as (Hex & Hspl & Hk & Hn & Hirq).
  destruct c as [ex self th int spl0 n irq k m]; unfold IPL_NONE, IPL_HIGH in *; simpl in *; subst ex.
  unfold splx, spllower, high, IPL_HIGH; msimpl.
  destruct Hspl; subst spl0; simpl; [|by eexists].
  eexists. unfold set_count, set_spl; simpl. replace (n + 1 - 1) with n by lia.
  rewrite Hirq. by destruct (n =? 0).
Qed.

Lemma high_count c : cpu_wf c -> 0 < t_iplhigh_count (high c).
Proof.
  intros (Hex & Hspl & Hk & Hn & Hirq). unfold high, IPL_NONE, IPL_HIGH in *.
  destruct Hspl as [E|E]; rewrite E in *; simpl; lia.
Qed.

Lemma high_wf c : cpu_wf c -> cpu_wf (high c).
Proof.
  intros Hwf. pose proof (splx_spec c IPL_HIGH Hwf (or_intror eq_refl)) as H.
  unfold wp in H. fold splhigh in H. rewrite splhigh_eq in H by done. tauto.
Qed.

Lemma high_splk c : splk (high c) = splk c /\ curthread (high c) = curthread c /\
  t_in_interrupt (high c) = t_in_interrupt c.
Proof. unfold high. by destruct (_ <? _). Qed.

(** One operation that returns keeps the invariant. *)
Lemma run_op_wf o c c' :
  cpu_wf c -> op_valid o -> run_op o c = Ret tt c' -> cpu_wf c'.
Proof.
  intros Hwf Hv. pose proof Hwf as (Hex & _). destruct o as [spl|l|l]; simpl in *.
  - pose proof (splx_spec c spl Hwf Hv) as H. unfold wp in H. unfold mbind, M_bind.
    destruct (splx spl c); try done. intros [=<-]. tauto.
  - destruct (splk c !! l) as [h|] eqn:Hl.
    + unfold spinlock_acquire, splraise; msimpl.
      rewrite Hex; simpl. rewrite Hex. unfold is_holder; simpl. rewrite Hl. by destruct (_ =? _).
    + pose proof (spinlock_acquire_spec c l Hwf Hl) as H. unfold wp in H.
      destruct (spinlock_acquire l c); try done. intros [=-> <-]. tauto.
  - destruct (decide (splk c !! l = Some (c_self c))) as [Hl|Hl].
    + pose proof (spinlock_release_spec c l Hwf Hl) as H. unfold wp in H.
      destruct (spinlock_release l c); try done. intros [=-> <-]. tauto.
    + unfold spinlock_release; msimpl. rewrite Hex. simpl.
      unfold is_holder. destruct (splk c !! l) as [h|]; [|done].
      destruct (Z.eqb_spec h (c_self c)); [congruence|done].
Qed.

(** ** Properties *)

(** Whatever sequence of [splx], [spinlock_acquire] and [spinlock_release] calls
    runs (nested or not, in any order), as long as each returns, interrupts are enabled
    exactly when the priority level is [IPL_NONE] and this CPU holds no spinlock. *)
Theorem spl_spinlock_sequence_wf os c c' :
  cpu_wf c -> Forall op_valid os -> run_ops os c = Ret tt c' ->
  cpu_wf c' /\ (irqs_on c' = true <-> t_curspl c' = IPL_NONE /\ held c' = ∅).
Proof.
  intros Hwf Hv Hrun.
  assert (Hwf' : cpu_wf c').
  { revert c Hwf Hrun. induction Hv as [|o os Ho _ IH]; intros c Hwf Hrun; simpl in Hrun.
    - by injection Hrun as <-.
    - unfold mbind, M_bind in Hrun. destruct (run_op o c) as [[] c1| | | | |] eqn:E; try done.
      eapply IH; [|done]. by eapply run_op_wf. }
  split; [done|]. destruct Hwf' as (_ & Hspl & Hk & Hn & Hirq).
  rewrite Hirq, Z.eqb_eq, <- map_size_empty_iff.
  unfold IPL_NONE, IPL_HIGH in *. lia.
Qed.

Definition boot_cpu : cpu := mk_cpu true 0 1 false 0 0 true 0 ∅.

Lemma spl_spinlock_sequence_wf_witness :
  exists c', run_ops [OpAcquire ("red", 0); OpSplx 1; OpAcquire ("blue", 0); OpSplx 0;
                      OpRelease ("red", 0); OpRelease ("blue", 0)] boot_cpu = Ret tt c' /\
    cpu_wf c' /\ (irqs_on c' = true <-> t_curspl c' = IPL_NONE /\ held c' = ∅).
Proof.
  eexists. split; [vm_compute; reflexivity|].
  apply (spl_spinlock_sequence_wf
    [OpAcquire ("red", 0); OpSplx 1; OpAcquire ("blue", 0); OpSplx 0; OpRelease ("red", 0); OpRelease ("blue", 0)]
    boot_cpu).
  - unfold cpu_wf. split_all; [reflexivity|left; reflexivity|reflexivity..].
  - repeat apply Forall_cons_2; simpl; auto using Forall_nil_2.
  - vm_compute; reflexivity.
Defined.

#[global] Arguments splx : simpl never.
#[global] Arguments splhigh : simpl never.
#[global] Arguments spinlock_acquire : simpl never.
#[global] Arguments spinlock_release : simpl never.
#[global] Arguments spinlock_init : simpl never.
#[global] Arguments spinlock_cleanup : simpl never.
#[global] Arguments spinlock_do_i_hold : simpl never.

End Cpu.
