(* ===== verification/Synch.v ===== *)
(** * Wait channels, semaphores, sleep locks and condition variables

    Models kern/thread/synch.c and the wait-channel part of kern/thread/thread.c
    ([thread_make_runnable], [wchan_sleep], [wchan_wakeone], [wchan_wakeall]) on one
    CPU.  Objects are named by integers; an object's wait channel and its spinlock
    carry the object's name.  A call that puts the running thread to sleep ends in
    [Waiting]: the thread is then on the wait channel and the object's spinlock is
    free again.  A woken thread continues in the [.._enter] part of the same call,
    which takes the spinlock again and repeats the test of the loop. *)

From S2P Require Import Prelude Cpu.

Module Synch.
Import Cpu.

Record sync := mk_sync {
  s_cpu : cpu;
  s_runq : list Z;                    (* curcpu->c_runqueue *)
  s_wchan : gmap splid (list Z);      (* threads sleeping on each wait channel *)
  s_sem : gmap Z Z;                   (* sem_count of each semaphore *)
  s_lock : gmap Z (option Z)          (* lk_owner of each lock; absent: no such lock *)
}.

#[refine, export] Instance sync_cpu : Lens sync cpu := {
  lens_get := s_cpu;
  lens_set := fun c s => mk_sync c (s_runq s) (s_wchan s) (s_sem s) (s_lock s)
}.
Proof. all: by intros; destruct s. Defined.

Definition set_runq (v : list Z) (s : sync) : sync :=
  mk_sync (s_cpu s) v (s_wchan s) (s_sem s) (s_lock s).
Definition set_wchan (v : gmap splid (list Z)) (s : sync) : sync :=
  mk_sync (s_cpu s) (s_runq s) v (s_sem s) (s_lock s).
Definition set_sem (v : gmap Z Z) (s : sync) : sync :=
  mk_sync (s_cpu s) (s_runq s) (s_wchan s) v (s_lock s).
Definition set_lock (v : gmap Z (option Z)) (s : sync) : sync :=
  mk_sync (s_cpu s) (s_runq s) (s_wchan s) (s_sem s) v.

(** Threads on a wait channel, in order of arrival. *)
Definition sleepers (wc : splid) (s : sync) : list Z := default [] (s_wchan s !! wc).

Definition runqueue_lock : splid := ("c_runqueue_lock", 0).
Definition sem_spl (sem : Z) : splid := ("sem_lock", sem).
Definition lk_spl (lock : Z) : splid := ("lk_lock", lock).
Definition cv_spl (cv : Z) : splid := ("cv_lock", cv).

(** ** thread.c: wait channels *)

(** [thread_make_runnable(target, false)] on the only CPU. *)
Definition thread_make_runnable (target : Z) : M sync unit :=
  _ ← zoom (spinlock_acquire runqueue_lock);
  _ ← modify (fun s => set_runq (s_runq s ++ [target]) s);
  zoom (spinlock_release runqueue_lock).

(** The sleeping half of [wchan_sleep]: the checks, then [thread_switch(S_SLEEP)],
    which queues the thread and releases the spinlock; the run queue lock and the
    priority level are given back by the thread switched to. *)
Definition wchan_sleep {A} (wc : splid) : M sync A :=
  c ← gets s_cpu;
  _ ← KASSERT (negb (t_in_interrupt c));
  h ← zoom (spinlock_do_i_hold wc);
  _ ← KASSERT h;
  _ ← KASSERT (c_spinlocks c =? 1);
  _ ← zoom (spinlock_acquire runqueue_lock);
  _ ← modify (fun s => set_wchan (<[wc := sleepers wc s ++ [curthread c]]> (s_wchan s)) s);
  _ ← zoom (spinlock_release wc);
  _ ← zoom (spinlock_release runqueue_lock);
  waiting.

Definition wchan_wakeone (wc : splid) : M sync unit :=
  h ← zoom (spinlock_do_i_hold wc);
  _ ← KASSERT h;
  s ← get;
  match sleepers wc s with
  | [] => mret tt
  | target :: rest =>
      _ ← modify (fun s => set_wchan (<[wc := rest]> (s_wchan s)) s);
      thread_make_runnable target
  end.

(** The private list keeps the order of the channel. *)
Fixpoint make_all_runnable (ts : list Z) : M sync unit :=
  match ts with
  | [] => mret tt
  | t :: ts' => _ ← thread_make_runnable t; make_all_runnable ts'
  end.

Definition wchan_wakeall (wc : splid) : M sync unit :=
  h ← zoom (spinlock_do_i_hold wc);
  _ ← KASSERT h;
  s ← get;
  _ ← modify (fun s => set_wchan (<[wc := []]> (s_wchan s)) s);
  make_all_runnable (sleepers wc s).

Definition wchan_isempty (wc : splid) : M sync bool :=
  h ← zoom (spinlock_do_i_hold wc);
  _ ← KASSERT h;
  s ← get;
  mret (match sleepers wc s with [] => true | _ => false end).

(** ** synch.c: semaphores *)

(** [ok]: whether the allocations (the object, its name, its wait channel) succeed;
    when one fails the earlier ones are freed and NULL (false) is returned. *)
Definition sem_create (ok : bool) (sem : Z) (initial_count : Z) : M sync bool :=
  if negb ok then mret false
  else
    _ ← modify (fun s => set_wchan (<[sem_spl sem := []]> (s_wchan s)) s);
    _ ← zoom (spinlock_init (sem_spl sem));
    _ ← modify (fun s => set_sem (<[sem := initial_count]> (s_sem s)) s);
    mret true.

Definition sem_destroy (sem : Z) : M sync unit :=
  s ← get;
  _ ← KASSERT (match s_sem s !! sem with Some _ => true | None => false end);
  _ ← zoom (spinlock_cleanup (sem_spl sem));
  _ ← KASSERT (match sleepers (sem_spl sem) s with [] => true | _ => false end);
  modify (fun s => set_sem (delete sem (s_sem s)) s).

(** The loop of [P] from the point where the spinlock is (re)taken. *)
Definition P_enter (sem : Z) : M sync unit :=
  _ ← zoom (spinlock_acquire (sem_spl sem));
  s ← get;
  n ← deref (s_sem s !! sem);
  if n =? 0 then wchan_sleep (sem_spl sem)
  else
    _ ← KASSERT (0 <? n);
    _ ← modify (set_sem (<[sem := n - 1]> (s_sem s)));
    zoom (spinlock_release (sem_spl sem)).

Definition P (sem : Z) : M sync unit :=
  s ← get;
  _ ← KASSERT (match s_sem s !! sem with Some _ => true | None => false end);
  _ ← KASSERT (negb (t_in_interrupt (s_cpu s)));
  P_enter sem.

Definition V (sem : Z) : M sync unit :=
  s ← get;
  _ ← KASSERT (match s_sem s !! sem with Some _ => true | None => false end);
  _ ← zoom (spinlock_acquire (sem_spl sem));
  n ← deref (s_sem s !! sem);
  let n' := u32 (n + 1) in
  _ ← modify (fun s => set_sem (<[sem := n']> (s_sem s)) s);
  _ ← KASSERT (0 <? n');
  _ ← wchan_wakeone (sem_spl sem);
  zoom (spinlock_release (sem_spl sem)).

(** ** synch.c: locks *)

(** [ok] as in [sem_create]. *)
Definition lock_create (ok : bool) (lock : Z) : M sync bool :=
  if negb ok then mret false
  else
    _ ← modify (fun s => set_wchan (<[lk_spl lock := []]> (s_wchan s)) s);
    _ ← modify (fun s => set_lock (<[lock := None]> (s_lock s)) s);
    _ ← zoom (spinlock_init (lk_spl lock));
    mret true.

Definition lock_destroy (lock : Z) : M sync unit :=
  s ← get;
  _ ← KASSERT (match s_lock s !! lock with Some _ => true | None => false end);
  _ ← zoom (spinlock_cleanup (lk_spl lock));
  _ ← KASSERT (match sleepers (lk_spl lock) s with [] => true | _ => false end);
  modify (fun s => set_lock (delete lock (s_lock s)) s).

(** [lock->lk_owner == curthread] *)
Definition lock_do_i_hold (lock : Z) : M sync bool :=
  s ← get;
  o ← deref (s_lock s !! lock);
  mret (match o with Some t => t =? curthread (s_cpu s) | None => false end).

(** The loop of [lock_acquire] from the point where the spinlock is (re)taken. *)
Definition lock_enter (lock : Z) : M sync unit :=
  _ ← zoom (spinlock_acquire (lk_spl lock));
  s ← get;
  o ← deref (s_lock s !! lock);
  match o with
  | Some _ => wchan_sleep (lk_spl lock)
  | None =>
      _ ← modify (set_lock (<[lock := Some (curthread (s_cpu s))]> (s_lock s)));
      zoom (spinlock_release (lk_spl lock))
  end.

Definition lock_acquire (lock : Z) : M sync unit :=
  s ← get;
  _ ← KASSERT (match s_lock s !! lock with Some _ => true | None => false end);
  h ← lock_do_i_hold lock;
  _ ← KASSERT (negb h);
  _ ← KASSERT (negb (t_in_interrupt (s_cpu s)));
  lock_enter lock.

Definition lock_release (lock : Z) : M sync unit :=
  s ← get;
  _ ← KASSERT (match s_lock s !! lock with Some _ => true | None => false end);
  h ← lock_do_i_hold lock;
  _ ← KASSERT h;
  _ ← zoom (spinlock_acquire (lk_spl lock));
  _ ← modify (fun s => set_lock (<[lock := None]> (s_lock s)) s);
  _ ← wchan_wakeone (lk_spl lock);
  zoom (spinlock_release (lk_spl lock)).

(** ** synch.c: condition variables *)

(** [cv_wait] up to the sleep; a woken thread then calls [lock_acquire]. *)
Definition cv_wait {A} (cv lock : Z) : M sync A :=
  h ← lock_do_i_hold lock;
  _ ← KASSERT h;
  _ ← zoom (spinlock_acquire (cv_spl cv));
  _ ← lock_release lock;
  wchan_sleep (cv_spl cv).

(** What a thread woken out of [cv_wait] does. *)
Definition cv_wait_resume (cv lock : Z) : M sync unit :=
  _ ← zoom (spinlock_acquire (cv_spl cv));
  _ ← zoom (spinlock_release (cv_spl cv));
  lock_acquire lock.

Definition cv_signal (cv lock : Z) : M sync unit :=
  h ← lock_do_i_hold lock;
  _ ← KASSERT h;
  _ ← zoom (spinlock_acquire (cv_spl cv));
  _ ← wchan_wakeone (cv_spl cv);
  zoom (spinlock_release (cv_spl cv)).

Definition cv_broadcast (cv lock : Z) : M sync unit :=
  h ← lock_do_i_hold lock;
  _ ← KASSERT h;
  _ ← zoom (spinlock_acquire (cv_spl cv));
  _ ← wchan_wakeall (cv_spl cv);
  zoom (spinlock_release (cv_spl cv)).

(** ** Exact effect of each call from a quiet CPU *)

(** No spinlock is held and no interrupt handler runs. *)
Definition quiet (c : cpu) : Prop :=
  cpu_wf c /\ splk c = ∅ /\ t_in_interrupt c = false.

Lemma quiet_free c l : quiet c -> splk c !! l = None.
Proof. intros (_ & -> & _). apply lookup_empty. Qed.

Lemma zoom_eq {S T A} `{Lens S T} (m : M T A) (s : S) a t :
  m (lens_get s) = Ret a t -> zoom m s = Ret a (lens_set t s).
Proof. unfold zoom. by intros ->. Qed.

Lemma thread_make_runnable_eq s t :
  cpu_wf (s_cpu s) -> splk (s_cpu s) !! runqueue_lock = None ->
  thread_make_runnable t s = Ret tt (set_runq (s_runq s ++ [t]) s).
Proof.
  intros Hwf Hl. destruct s as [c q w m k]; simpl in *.
  unfold thread_make_runnable, zoom; msimpl.
  rewrite spinlock_acquire_eq by done. simpl. by rewrite spinlock_release_acq.
Qed.

(** A free lock is taken, and nothing else changes. *)
Lemma lock_acquire_free s l :
  quiet (s_cpu s) -> s_lock s !! l = Some None ->
  lock_acquire l s = Ret tt (set_lock (<[l := Some (curthread (s_cpu s))]> (s_lock s)) s).
Proof.
  intros Hq Hl. pose proof Hq as (Hwf & _ & Hint). destruct s as [c q w m k]; simpl in *.
  unfold lock_acquire, lock_do_i_hold, lock_enter, zoom; msimpl.
  repeat (rewrite Hl; simpl). rewrite Hint; simpl.
  rewrite spinlock_acquire_eq by auto using quiet_free. simpl. rewrite Hl. simpl.
  unfold set_lock; simpl. by rewrite spinlock_release_acq by auto using quiet_free.
Qed.

(** Wakes the longest sleeper of the lock, if any. *)
Definition wake_first (wc : splid) (s : sync) : sync :=
  match sleepers wc s with
  | [] => s
  | t :: ts => set_runq (s_runq s ++ [t]) (set_wchan (<[wc := ts]> (s_wchan s)) s)
  end.

Lemma acq_wf c l : cpu_wf c -> splk c !! l = None -> cpu_wf (acq l c).
Proof.
  intros Hwf Hl. pose proof (spinlock_acquire_spec c l Hwf Hl) as H.
  unfold wp in H. rewrite spinlock_acquire_eq in H by done. tauto.
Qed.

Lemma wchan_wakeone_acq s wc :
  quiet (s_cpu s) -> wc <> runqueue_lock ->
  wchan_wakeone wc (lens_set (acq wc (s_cpu s)) s) =
    Ret tt (lens_set (acq wc (s_cpu s)) (wake_first wc s)).
Proof.
  intros Hq Hne. pose proof Hq as (Hwf & _). pose proof Hwf as (Hex & _).
  destruct s as [c q w m k]; simpl in *. unfold wchan_wakeone, spinlock_do_i_hold, zoom; msimpl.
  rewrite Hex; simpl. unfold is_holder; simpl. rewrite lookup_insert_eq, Z.eqb_refl; simpl.
  unfold wake_first, sleepers; simpl. destruct (default [] (w !! wc)) as [|t ts]; [done|].
  rewrite thread_make_runnable_eq; simpl.
  - done.
  - apply acq_wf; auto using quiet_free.
  - rewrite lookup_insert_ne by done. by apply quiet_free.
Qed.

(** The owner gives the lock back: the owner field is cleared and one sleeper made
    runnable. *)
Lemma lock_release_held s l :
  quiet (s_cpu s) -> s_lock s !! l = Some (Some (curthread (s_cpu s))) ->
  lock_release l s = Ret tt (wake_first (lk_spl l) (set_lock (<[l := None]> (s_lock s)) s)).
Proof.
  intros Hq Hl. pose proof Hq as (Hwf & _).
  unfold lock_release, lock_do_i_hold; msimpl. repeat (rewrite Hl; simpl). rewrite Z.eqb_refl; simpl.
  rewrite (zoom_eq (S := sync) _ s tt (acq (lk_spl l) (s_cpu s)))
    by (apply spinlock_acquire_eq; auto using quiet_free).
  change (set_lock (<[l := None]> (s_lock (lens_set (acq (lk_spl l) (s_cpu s)) s)))
            (lens_set (acq (lk_spl l) (s_cpu s)) s))
    with (lens_set (acq (lk_spl l) (s_cpu (set_lock (<[l := None]> (s_lock s)) s)))
            (set_lock (<[l := None]> (s_lock s)) s)).
  rewrite wchan_wakeone_acq by done. set (s1 := set_lock _ s).
  assert (Hc : s_cpu (wake_first (lk_spl l) s1) = s_cpu s)
    by (unfold wake_first; destruct (sleepers _ _); done).
  erewrite zoom_eq; [|apply spinlock_release_acq; [done|by apply quiet_free]].
  rewrite lens_set_set. simpl. f_equal. by destruct (wake_first _ _); simpl in *; subst.
Qed.

Lemma lock_do_i_hold_eq s l o :
  s_lock s !! l = Some o ->
  lock_do_i_hold l s =
    Ret (match o with Some t => t =? curthread (s_cpu s) | None => false end) s.
Proof. intros Hl. unfold lock_do_i_hold; msimpl. by rewrite Hl. Qed.

End Synch.
