(* ===== verification/KState.v ===== *)
(** * The state of the virtual memory system

    The data types of kern/include/{coremap,pt,swapfile,addrspace}.h, the vnode
    interface the VM system relies on, and the state that the functions of kern/vm
    share: static variables, heap objects reached through pointers, physical memory.

    C arrays are finite maps from the valid indices, so an access out of range is
    visible ([Undef]).  A [struct pt_entry *] is the triple (page table, first-level
    index, second-level index) it points to; the coremap and the page tables share
    these entries through such pointers. *)

From S2P Require Import Prelude Cpu Synch.

Module KState.
Import Cpu Synch.

(** ** Vnodes

    What kern/vm uses of a file: [VOP_READ] and [VOP_WRITE] on a byte range.  A read
    returns an error number and the bytes it transferred (fewer than asked at the end
    of the file); a write returns an error number and the new file. *)
Class Vnode : Type := {
  vfile : Type;
  vop_read : vfile -> Z -> Z -> Z * list Z;
  vop_write : vfile -> Z -> list Z -> Z * vfile;
  vop_read_length : forall f o n e bs,
    vop_read f o n = (e, bs) -> Z.of_nat (length bs) <= Z.max 0 n;
  vop_read_written : forall f o bs f',
    0 <= o -> vop_write f o bs = (0, f') ->
    vop_read f' o (Z.of_nat (length bs)) = (0, bs);
  vop_read_other : forall f o bs e f' o' n' bs',
    0 <= o -> 0 <= o' -> vop_write f o bs = (e, f') ->
    o' + n' <= o \/ o + Z.of_nat (length bs) <= o' ->
    vop_read f o' n' = (0, bs') -> Z.of_nat (length bs') = n' ->
    vop_read f' o' n' = (0, bs')
}.

(** ** Data types *)

(** &table->table[exte][inte] *)
Abbreviation pteptr := (Z * Z * Z)%type.

(** The indices of a virtual address (pt.h). *)
Definition TABLE_SIZE : Z := 1024.
Definition GET_EXT_INDEX (addr : Z) : Z := Z.shiftr addr 22.
Definition GET_INT_INDEX (addr : Z) : Z := Z.shiftr (Z.land addr 0x3ff000) 12.

(** The entry of page table [pt] for an address. *)
Definition addr_pte (pt addr : Z) : pteptr := (pt, GET_EXT_INDEX addr, GET_INT_INDEX addr).

(** struct cm_entry *)
Record cm_entry := mk_cm {
  occ : bool;
  fixed : bool;
  nframes : Z;                    (* a 20-bit field *)
  cm_pte : option pteptr          (* pt_entry; None is NULL *)
}.

(** struct pt_entry *)
Record pt_entry := mk_pte {
  frame_no : Z;                   (* a 20-bit field *)
  valid : bool;
  swp : bool;
  swapping : bool
}.

(** A page table entry in a page fresh from [bzero]. *)
Definition zero_pte : pt_entry := mk_pte 0 false false false.

(** struct segment *)
Record segment := mk_seg {
  p_vaddr : Z;
  p_file_start : Z;
  p_file_end : Z;
  p_memsz : Z;
  readable : bool;
  writable : bool;
  executable : bool
}.

Definition zero_seg : segment := mk_seg 0 0 0 0 false false false.

Section State.
Context `{VN : Vnode}.

(** struct addrspace: [as_index] is the union of [index] and [ignore_permissions]. *)
Record addrspace := mk_as {
  segments : gmap Z segment;
  as_index : Z;
  as_file : option vfile;
  as_active : bool;
  page_table : Z                  (* the struct pt it points to *)
}.

(** struct swap_file *)
Record swap_file := mk_swap {
  sw_file : option vfile;         (* None: NULL, the open failed *)
  refs : gmap Z Z                 (* uint8_t refs[SWAP_MAX] *)
}.

(** Static variables of coremap.c. *)
Record cm_st := mk_cm_st {
  coremap : option (gmap Z cm_entry);
  npages : Z;
  first_page : Z;
  prev_victim : Z                 (* static in get_victim *)
}.

(** The page tables in the kernel heap. *)
Record pt_st := mk_pt_st {
  pt_table : gmap Z Z;            (* kernel address of each first-level table *)
  pt_rows : gmap (Z * Z) Z;       (* kernel address of each second-level table *)
  ptes : gmap pteptr pt_entry;    (* entries that differ from the zeroed page *)
  pt_next : Z                     (* static id in pt_create *)
}.

(** The TLB and the static of tlb_get_rr_victim. *)
Record tlb_st := mk_tlb {
  tlb_entries : gmap Z (Z * Z);   (* (entryhi, entrylo) *)
  next_victim : Z
}.

Record swap_st := mk_swap_st {
  swap : option swap_file;
  swap_inited : bool              (* static bool init *)
}.

Record as_st := mk_as_st {
  as_heap : gmap Z addrspace;
  curproc_as : option (option Z); (* None: no curproc; Some p: its p_addrspace *)
  vm_inited : bool                (* static bool init of vm_project.c *)
}.

(** Static variables of kern/arch/mips/vm/ram.c. *)
Record ram_st := mk_ram {
  firstpaddr : Z;
  lastpaddr : Z
}.

Record kstate := mk_k {
  k_sync : sync;
  k_stats : gmap Z Z;
  k_tlb : tlb_st;
  k_cm : cm_st;
  k_pt : pt_st;
  k_swap : swap_st;
  k_as : as_st;
  k_mem : gmap Z page;            (* frame number -> contents *)
  k_ram : ram_st
}.

Definition set_sync (v : sync) (k : kstate) : kstate :=
  mk_k v (k_stats k) (k_tlb k) (k_cm k) (k_pt k) (k_swap k) (k_as k) (k_mem k) (k_ram k).
Definition set_stats (v : gmap Z Z) (k : kstate) : kstate :=
  mk_k (k_sync k) v (k_tlb k) (k_cm k) (k_pt k) (k_swap k) (k_as k) (k_mem k) (k_ram k).
Definition set_tlb (v : tlb_st) (k : kstate) : kstate :=
  mk_k (k_sync k) (k_stats k) v (k_cm k) (k_pt k) (k_swap k) (k_as k) (k_mem k) (k_ram k).
Definition set_cm (v : cm_st) (k : kstate) : kstate :=
  mk_k (k_sync k) (k_stats k) (k_tlb k) v (k_pt k) (k_swap k) (k_as k) (k_mem k) (k_ram k).
Definition set_pt (v : pt_st) (k : kstate) : kstate :=
  mk_k (k_sync k) (k_stats k) (k_tlb k) (k_cm k) v (k_swap k) (k_as k) (k_mem k) (k_ram k).
Definition set_swap (v : swap_st) (k : kstate) : kstate :=
  mk_k (k_sync k) (k_stats k) (k_tlb k) (k_cm k) (k_pt k) v (k_as k) (k_mem k) (k_ram k).
Definition set_as (v : as_st) (k : kstate) : kstate :=
  mk_k (k_sync k) (k_stats k) (k_tlb k) (k_cm k) (k_pt k) (k_swap k) v (k_mem k) (k_ram k).
Definition set_mem (v : gmap Z page) (k : kstate) : kstate :=
  mk_k (k_sync k) (k_stats k) (k_tlb k) (k_cm k) (k_pt k) (k_swap k) (k_as k) v (k_ram k).
Definition set_ram (v : ram_st) (k : kstate) : kstate :=
  mk_k (k_sync k) (k_stats k) (k_tlb k) (k_cm k) (k_pt k) (k_swap k) (k_as k) (k_mem k) v.

#[refine, export] Instance k_sync_lens : Lens kstate sync := {
  lens_get := k_sync; lens_set := set_sync
}.
Proof. all: by intros; destruct s. Defined.

#[refine, export] Instance k_cpu_lens : Lens kstate cpu := {
  lens_get := fun k => s_cpu (k_sync k);
  lens_set := fun c k => set_sync (lens_set c (k_sync k)) k
}.
Proof. all: by intros; destruct s as [[]]. Defined.

#[refine, export] Instance k_stats_lens : Lens kstate (gmap Z Z) := {
  lens_get := k_stats; lens_set := set_stats
}.
Proof. all: by intros; destruct s. Defined.

#[refine, export] Instance k_tlb_lens : Lens kstate tlb_st := {
  lens_get := k_tlb; lens_set := set_tlb
}.
Proof. all: by intros; destruct s. Defined.

#[refine, export] Instance k_cm_lens : Lens kstate cm_st := {
  lens_get := k_cm; lens_set := set_cm
}.
Proof. all: by intros; destruct s. Defined.

#[refine, export] Instance k_ram_lens : Lens kstate ram_st := {
  lens_get := k_ram; lens_set := set_ram
}.
Proof. all: by intros; destruct s. Defined.

(** ** Page table entries through pointers *)

Definition pte_at (k : kstate) (p : pteptr) : pt_entry :=
  default zero_pte (ptes (k_pt k) !! p).

Definition set_ptes (v : gmap pteptr pt_entry) (k : kstate) : kstate :=
  set_pt (mk_pt_st (pt_table (k_pt k)) (pt_rows (k_pt k)) v (pt_next (k_pt k))) k.

(** [*p = e] *)
Definition write_pte (p : pteptr) (e : pt_entry) : M kstate unit :=
  modify (fun k => set_ptes (<[p := e]> (ptes (k_pt k))) k).

(** Reads [*p] where the row that holds it is allocated. *)
Definition read_pte (p : pteptr) : M kstate pt_entry :=
  k ← get;
  match pt_rows (k_pt k) !! p.1 with
  | Some _ => mret (pte_at k p)
  | None => undef
  end.

(** Writes [*p] where the row that holds it is allocated. *)
Definition update_pte (p : pteptr) (f : pt_entry -> pt_entry) : M kstate unit :=
  e ← read_pte p;
  write_pte p (f e).

(** ** Physical memory *)

Definition frame_data (k : kstate) (f : Z) : page := default zero_page (k_mem k !! f).

Definition write_frame (f : Z) (p : page) : M kstate unit :=
  modify (fun k => set_mem (<[f := p]> (k_mem k)) k).

(** The frame a kernel virtual address of kseg0 lies in. *)
Definition kvaddr_frame (va : Z) : Z := u32 (va - MIPS_KSEG0) / PAGE_SIZE.

End State.

#[global] Arguments addrspace _ : clear implicits.
#[global] Arguments addrspace {VN}.
#[global] Arguments kstate _ : clear implicits.
#[global] Arguments kstate {VN}.
#[global] Arguments swap_file {VN}.
#[global] Arguments swap_st {VN}.
#[global] Arguments as_st {VN}.

(** ** An in-memory file, as a concrete vnode *)

(** Zero-fills up to the offset, then overwrites. *)
Definition list_write (f : list Z) (o : Z) (bs : list Z) : list Z :=
  let n := Z.to_nat o in
  take n (f ++ replicate (n - length f) 0) ++ bs ++ drop (n + length bs) f.

Definition list_read (f : list Z) (o n : Z) : list Z :=
  take (Z.to_nat n) (drop (Z.to_nat o) f).

Lemma length_list_write_prefix (f : list Z) n :
  length (take n (f ++ replicate (n - length f) 0)) = n.
Proof. rewrite length_take, length_app, length_replicate. lia. Qed.

Lemma list_read_written f o bs :
  0 <= o -> list_read (list_write f o bs) o (Z.of_nat (length bs)) = bs.
Proof.
  intros Ho. unfold list_read, list_write.
  rewrite drop_app_length' by by rewrite length_list_write_prefix.
  rewrite Nat2Z.id. by rewrite take_app_length.
Qed.

Lemma list_read_other f o bs o' n' bs' :
  0 <= o -> 0 <= o' -> o' + n' <= o \/ o + Z.of_nat (length bs) <= o' ->
  list_read f o' n' = bs' -> Z.of_nat (length bs') = n' ->
  list_read (list_write f o bs) o' n' = bs'.
Proof.
  intros Ho Ho' Hd Hr Hlen. subst bs'. unfold list_read, list_write in *.
  rewrite length_take, length_drop in Hlen.
  destruct (decide (n' = 0)) as [->|Hn]; [done|].
  destruct Hd as [Hd|Hd].
  - rewrite drop_app_le by (rewrite length_list_write_prefix; lia).
    rewrite take_app_le by (rewrite length_drop, length_list_write_prefix; lia).
    rewrite skipn_firstn_comm, take_take, Nat.min_l by lia.
    rewrite drop_app_le by lia. rewrite take_app_le by (rewrite length_drop; lia). done.
  - rewrite drop_app_ge by (rewrite length_list_write_prefix; lia).
    rewrite length_list_write_prefix. rewrite drop_app_ge by lia.
    rewrite drop_drop. do 2 f_equal. lia.
Qed.

#[refine, global] Instance mem_vnode : Vnode := {
  vfile := list Z;
  vop_read := fun f o n => (0, list_read f o n);
  vop_write := fun f o bs => (0, list_write f o bs)
}.
Proof.
  - intros f o n e bs [= <- <-]. unfold list_read. rewrite length_take. lia.
  - intros f o bs f' Ho [= <-]. f_equal. by apply list_read_written.
  - intros f o bs e f' o' n' bs' Ho Ho' [= <- <-] Hd [= Hr] Hl. f_equal.
    by apply list_read_other.
Defined.

End KState.
