(* ===== verification/Stats.v ===== *)
(** * VM statistics: kern/vm/vm_stats.c and kern/include/vm_stats.h *)

From S2P Require Import Prelude.

Module Stats.

Definition tlb_faults : Z := 0.
Definition tlb_faults_with_free : Z := 1.
Definition tlb_faults_with_replace : Z := 2.
Definition tlb_invalidations : Z := 3.
Definition tlb_reloads : Z := 4.
Definition page_faults_zeroed : Z := 5.
Definition page_faults_disk : Z := 6.
Definition page_faults_from_elf : Z := 7.
Definition page_faults_from_swap : Z := 8.
Definition swap_file_writes : Z := 9.

(** [static unsigned long long counters[10] = {0}]: an absent index holds 0. *)
Abbreviation counters := (gmap Z Z) (only parsing).
Definition counter (c : counters) (position : Z) : Z := default 0 (c !! position).

(** Wrap-around of [unsigned long long]. *)
Definition u64 (x : Z) : Z := x mod 2 ^ 64.

Definition bump (position : Z) (c : counters) : counters :=
  <[position := u64 (counter c position + 1)]> c.

Definition inc_counter (position : Z) : M counters unit :=
  _ ← KASSERT (position <? 10);
  modify (bump position).

(** A line of [print_stats]: a counter with its message, or one of the warnings. *)
Inductive line :=
  | Line (message : string) (value : Z)
  | Warning (property : string).

Definition messages (i : Z) : string :=
  match i with
  | 0 => "tlb_faults                :"
  | 1 => "tlb_faults_with_free      :"
  | 2 => "tlb_faults_with_replace   :"
  | 3 => "tlb_invalidations         :"
  | 4 => "tlb_reloads               :"
  | 5 => "page_faults_zeroed        :"
  | 6 => "page_faults_disk          :"
  | 7 => "page_faults_from_elf      :"
  | 8 => "page_faults_from_swap     :"
  | _ => "swap_file_writes          :"
  end.

Definition print_stats (c : counters) : list line :=
  ((fun i => Line (messages i) (counter c i)) <$> seqZ 0 10) ++
  (if negb (counter c tlb_faults =?
            u64 (counter c tlb_faults_with_free + counter c tlb_faults_with_replace))
   then [Warning "tlb_faults = tlb_faults_with_free + tlb_faults_with_replace"] else []) ++
  (if negb (counter c tlb_faults =?
            u64 (u64 (counter c tlb_reloads + counter c page_faults_zeroed)
                 + counter c page_faults_disk))
   then [Warning "tlb_faults = tlb_reloads + page_faults_zeroed + page_faults_disk"] else []) ++
  (if negb (counter c page_faults_disk =?
            u64 (counter c page_faults_from_elf + counter c page_faults_from_swap))
   then [Warning "page_faults_disk = page_faults_from_elf + page_faults_from_swap"] else []).

(** The three identities, in the arithmetic of the counters. *)
Definition stats_ok (c : counters) : Prop :=
  counter c tlb_faults =
    u64 (counter c tlb_faults_with_free + counter c tlb_faults_with_replace) /\
  counter c tlb_faults =
    u64 (counter c tlb_reloads + counter c page_faults_zeroed + counter c page_faults_disk) /\
  counter c page_faults_disk =
    u64 (counter c page_faults_from_elf + counter c page_faults_from_swap).

Lemma u64_add_l a b : u64 (u64 a + b) = u64 (a + b).
Proof. apply Zplus_mod_idemp_l. Qed.

Lemma counter_bump c i j :
  counter (bump i c) j = if decide (i = j) then u64 (counter c i + 1) else counter c j.
Proof. unfold bump, counter. rewrite lookup_insert. by case_decide. Qed.

(** Evaluates counters after [bump]s of known positions. *)
Ltac stat_cases :=
  repeat rewrite counter_bump; unfold tlb_faults, tlb_faults_with_free, tlb_faults_with_replace, tlb_invalidations,
    tlb_reloads, page_faults_zeroed, page_faults_disk, page_faults_from_elf, page_faults_from_swap,
    swap_file_writes in *; repeat (case_decide; try lia).

(** [print_stats] prints no warning when the identities hold. *)
Lemma print_stats_no_warning c :
  stats_ok c -> forall w, ~ In (Warning w) (print_stats c).
Proof.
  intros (H1 & H2 & H3) w. unfold print_stats. rewrite u64_add_l, <- H1, <- H2, <- H3.
  rewrite !Z.eqb_refl. simpl. intuition discriminate.
Qed.

End Stats.
