(* ===== verification/Tlb.v ===== *)
(** * The TLB: kern/vm/vm_tlb.c over the TLB of kern/arch/mips

    [tlb_read] and [tlb_write] are the MIPS instructions that move a pair
    (entryhi, entrylo) between registers and one of the 64 slots. *)

From S2P Require Import Prelude Cpu Synch KState Stats.

Module Tlb.
Import Cpu Synch KState.

Definition NUM_TLB : Z := 64.
Definition TLBLO_DIRTY : Z := 0x00000400.
Definition TLBLO_VALID : Z := 0x00000200.
Definition TLBHI_INVALID (entryno : Z) : Z := u32 (Z.shiftl (0x80000 + entryno) 12).
Definition TLBLO_INVALID : Z := 0.

(** The contents of a slot; a slot never written holds zeros. *)
Definition tlb_slot (t : tlb_st) (i : Z) : Z * Z := default (0, 0) (tlb_entries t !! i).

Definition tlb_read (i : Z) : M tlb_st (Z * Z) := gets (fun t => tlb_slot t i).

Definition tlb_write (hi lo i : Z) : M tlb_st unit :=
  modify (fun t => mk_tlb (<[i := (hi, lo)]> (tlb_entries t)) (next_victim t)).

(** A slot that translates: its valid bit is set. *)
Definition slot_valid (e : Z * Z) : bool := negb (Z.land e.2 TLBLO_VALID =? 0).

Section Ops.
Context `{VN : Vnode}.

Definition iplhigh (k : kstate) : Z := t_iplhigh_count (s_cpu (k_sync k)).

(** Round-robin replacement. *)
Definition tlb_get_rr_victim : M kstate Z :=
  k ← get;
  _ ← KASSERT (0 <? iplhigh k);
  let victim := next_victim (k_tlb k) in
  _ ← modify (fun k => set_tlb (mk_tlb (tlb_entries (k_tlb k))
                                  (u32 (victim + 1) mod NUM_TLB)) k);
  mret victim.

(** Slot [i] and the following ones: the first slot that maps the frame is
    overwritten with an invalid entry, and the search stops. *)
Fixpoint invalidate_from (n : nat) (i : Z) (paddr : Z) (t : tlb_st) : tlb_st :=
  match n with
  | O => t
  | S n' =>
      if paddr =? Z.land (tlb_slot t i).2 PAGE_FRAME
      then mk_tlb (<[i := (TLBHI_INVALID i, TLBLO_INVALID)]> (tlb_entries t)) (next_victim t)
      else invalidate_from n' (i + 1) paddr t
  end.

Definition invalidate_entry_by_paddr (paddr : Z) : M kstate unit :=
  k ← get;
  _ ← KASSERT (0 <? iplhigh k);
  modify (fun k => set_tlb (invalidate_from (Z.to_nat NUM_TLB) 0 paddr (k_tlb k)) k).

End Ops.

(** ** Lemmas *)

Lemma tlb_slot_write t hi lo i j :
  tlb_slot (mk_tlb (<[i := (hi, lo)]> (tlb_entries t)) (next_victim t)) j =
    if decide (i = j) then (hi, lo) else tlb_slot t j.
Proof. unfold tlb_slot; simpl. rewrite lookup_insert. by case_decide. Qed.

(** The effect of the search: no slot matches and nothing changes, or exactly the
    first matching slot becomes invalid. *)
Lemma invalidate_from_spec n i paddr t :
  (invalidate_from n i paddr t = t /\
   forall j, i <= j < i + Z.of_nat n -> Z.land (tlb_slot t j).2 PAGE_FRAME <> paddr) \/
  (exists j, i <= j < i + Z.of_nat n /\ Z.land (tlb_slot t j).2 PAGE_FRAME = paddr /\
   (forall j', i <= j' < j -> Z.land (tlb_slot t j').2 PAGE_FRAME <> paddr) /\
   forall j', tlb_slot (invalidate_from n i paddr t) j' =
     if decide (j = j') then (TLBHI_INVALID j, TLBLO_INVALID) else tlb_slot t j').
Proof.
  revert i. induction n as [|n IH]; intros i; simpl.
  - left. split; [done|]. intros j Hj. lia.
  - destruct (Z.eqb_spec paddr (Z.land (tlb_slot t i).2 PAGE_FRAME)) as [E|E].
    + right. exists i. repeat split; try lia; try done.
      intros j'. apply tlb_slot_write.
    + destruct (IH (i + 1)) as [[Heq Hno]|(j & Hj & Hm & Hfirst & Heq)].
      * left. split; [done|]. intros j Hj. destruct (decide (j = i)) as [->|]; [congruence|].
        apply Hno. lia.
      * right. exists j. repeat split; try lia; try done.
        intros j' Hj'. destruct (decide (j' = i)) as [->|]; [congruence|]. apply Hfirst. lia.
Qed.

End Tlb.
