(* ===== verification/Swap.v ===== *)
(** * The swap file: kern/vm/swapfile.c (all but load_from_swap, see PageIn.v)

    A slot of the swap file holds one page; [refs] counts the page table entries that
    refer to it (several after a fork), 0 for a free slot. *)

From S2P Require Import Prelude Cpu Synch KState Stats.

Module Swap.
Import Cpu Synch KState Stats.

Section Ops.
Context `{VN : Vnode}.

(** 9 * 1024 * 1024 / PAGE_SIZE *)
Definition SWAP_MAX : Z := 2304.

(** The lock object [swap_lock]; the lock of page table [p] is the object [p > 0]. *)
Definition swap_lock : Z := 0.

(** [bool lock_hold = lock_do_i_hold(l); if (!lock_hold) lock_acquire(l); ...], with
    [if (!lock_hold) lock_release(l)] on every way out. *)
Definition with_lock {A} (l : Z) (body : M kstate A) : M kstate A :=
  lock_hold ← zoom (lock_do_i_hold l);
  _ ← when (negb lock_hold) (zoom (lock_acquire l));
  r ← body;
  _ ← when (negb lock_hold) (zoom (lock_release l));
  mret r.

(** [swap->refs[index] = v] *)
Definition set_ref (index v : Z) (sw : swap_file) : M kstate unit :=
  modify (set_swap (mk_swap_st (Some (mk_swap (sw_file sw) (<[index := v]> (refs sw)))) true)).

(** The counts of a zeroed [struct swap_file]. *)
Definition zero_refs : gmap Z Z := list_to_map ((fun i => (i, 0)) <$> seqZ 0 SWAP_MAX).

(** [ok1], [ok2]: the allocation of the structure and of the lock succeed; [opened]: the
    file that [vfs_open] gives (its error is not looked at).  The structure is larger
    than half a page, so [kmalloc] takes it from zeroed pages: every count is 0. *)
Definition swap_init (ok1 ok2 : bool) (opened : option vfile) : M kstate Z :=
  if negb ok1 then panic "swap_init: OUT OF MEMORY" else
  ok ← zoom (lock_create ok2 swap_lock);
  if negb ok then panic "swap_init: OUT OF MEMORY" else
  _ ← zoom (lock_acquire swap_lock);
  _ ← modify (set_swap (mk_swap_st
        (Some (mk_swap opened zero_refs)) true));
  _ ← zoom (lock_release swap_lock);
  mret 0.

(** Reads slot [index] into the page at kernel address [address] and drops one
    reference; with a NULL address it only drops the reference. *)
Definition swap_get (address index : Z) : M kstate Z :=
  with_lock swap_lock (
    k ← get;
    if negb (swap_inited (k_swap k)) then mret EPERM else
    sw ← deref (swap (k_swap k));
    r ← deref (refs sw !! index);
    _ ← KASSERT (0 <? r);
    _ ← set_ref index (u8 (r - 1)) sw;
    if address =? 0 then mret 0 else
    f ← deref (sw_file sw);
    let '(err, bs) := vop_read f (u32 (index * PAGE_SIZE)) PAGE_SIZE in
    let frame := kvaddr_frame address in
    _ ← write_frame frame (bs ++ drop (length bs) (frame_data k frame));
    mret err).

(** [for (; index < SWAP_MAX && swap->refs[index] > 0; index++)]; [None] is an access
    out of range, which the loop bound excludes. *)
Fixpoint swap_scan (fuel : nat) (index : Z) (r : gmap Z Z) : option Z :=
  match fuel with
  | O => Some index
  | S fuel' =>
      if negb (index <? SWAP_MAX) then Some index
      else match r !! index with
           | None => None
           | Some n => if 0 <? n then swap_scan fuel' (index + 1) r else Some index
           end
  end.

(** Writes the page at kernel address [address] into the first free slot; returns the
    error and the slot. *)
Definition swap_set (address : Z) : M kstate (Z * Z) :=
  with_lock swap_lock (
    k ← get;
    if negb (swap_inited (k_swap k)) then mret (EPERM, 0) else
    sw ← deref (swap (k_swap k));
    index ← deref (swap_scan (Z.to_nat SWAP_MAX) 0 (refs sw));
    if index =? SWAP_MAX then panic OUT_OF_SWAP else
    _ ← set_ref index 1 sw;
    f ← deref (sw_file sw);
    let '(err, f') := vop_write f (u32 (index * PAGE_SIZE))
                        (frame_data k (kvaddr_frame address)) in
    _ ← modify (set_swap (mk_swap_st (Some (mk_swap (Some f') (<[index := 1]> (refs sw)))) true));
    _ ← when (err =? 0) (zoom (inc_counter swap_file_writes));
    mret (err, index)).

Definition swap_inc_ref (index : Z) : M kstate unit :=
  _ ← KASSERT (index <? SWAP_MAX);
  with_lock swap_lock (
    k ← get;
    sw ← deref (swap (k_swap k));
    r ← deref (refs sw !! index);
    modify (set_swap (mk_swap_st (Some (mk_swap (sw_file sw) (<[index := u8 (r + 1)]> (refs sw))))
                        (swap_inited (k_swap k))))).

Definition swap_close : M kstate unit :=
  _ ← zoom (lock_acquire swap_lock);
  k ← get;
  _ ← (if swap_inited (k_swap k)
       then modify (set_swap (mk_swap_st None false)) else mret tt);
  zoom (lock_release swap_lock).

(** ** The view of the swap file *)

(** The page in a slot, when it can be read in full. *)
Definition slot_data (sw : swap_file) (index : Z) : option page :=
  f ← sw_file sw;
  let '(err, bs) := vop_read f (u32 (index * PAGE_SIZE)) PAGE_SIZE in
  if (err =? 0) && (Z.of_nat (length bs) =? PAGE_SIZE) then Some bs else None.

(** A file that accepts every write. *)
Definition writes_ok : Prop := forall (f : vfile) o bs, (vop_write f o bs).1 = 0.

(** The counts exist for every slot and fit their byte. *)
Definition swap_wf (sw : swap_file) : Prop :=
  (exists f, sw_file sw = Some f) /\
  forall i, 0 <= i < SWAP_MAX -> exists r, refs sw !! i = Some r /\ 0 <= r < 2 ^ 8.

Definition swap_ready (k : kstate) (sw : swap_file) : Prop :=
  k_swap k = mk_swap_st (Some sw) true /\ swap_wf sw.

(** The locks a call may take without waiting: free or already held by this thread. *)
Definition lock_avail (k : kstate) (l : Z) : Prop :=
  exists o, s_lock (k_sync k) !! l = Some o /\
    (o = None \/ o = Some (curthread (s_cpu (k_sync k)))).

(** What a call leaves of the scheduler state: same CPU state, same lock owners, same
    semaphores (a sleeper may have become runnable, nobody falls asleep). *)
Definition same_sync (s s' : sync) : Prop :=
  s_cpu s' = s_cpu s /\ s_lock s' = s_lock s /\ s_sem s' = s_sem s /\
  forall wc, sleepers wc s = [] -> sleepers wc s' = [].

(** ** Lemmas *)

Lemma same_sync_refl s : same_sync s s.
Proof. done. Qed.

Lemma same_sync_trans s1 s2 s3 : same_sync s1 s2 -> same_sync s2 s3 -> same_sync s1 s3.
Proof. intros (A1 & B1 & C1 & D1) (A2 & B2 & C2 & D2). split; [congruence|]. split; [congruence|]. split; [congruence|]. auto. Qed.

Lemma wake_first_same wc s : same_sync s (wake_first wc s).
Proof.
  unfold wake_first. destruct (sleepers wc s) as [|t ts] eqn:E; [done|]. split_and!; try done. intros wc' Hw. unfold sleepers in *. simpl.
  rewrite lookup_insert_ne; [done|]. intros ->. by rewrite Hw in E.
Qed.

(** A body that leaves the scheduler alone runs under the lock as it would alone, and
    the lock is as before afterwards. *)
Lemma wp_with_lock {A} (l : Z) (body : M kstate A) k (Q : A -> kstate -> Prop) :
  quiet (s_cpu (k_sync k)) -> lock_avail k l ->
  (forall sy, s_cpu sy = s_cpu (k_sync k) ->
     wp body (set_sync sy k) (fun r k' => k_sync k' = sy /\ Q r k')) ->
  wp (with_lock l body) k (fun r k' => exists sy k1,
    same_sync (k_sync k) sy /\ k' = set_sync sy k1 /\ Q r k1).
Proof.
  intros Hq (o & Ho & Hc) Hbody. unfold with_lock. apply wp_bind.
  unfold wp at 1. rewrite (zoom_eq _ _ _ _ (lock_do_i_hold_eq _ _ _ Ho)).
  replace (lens_set (k_sync k) k) with k by by destruct k.
  destruct Hc as [-> | ->]; [|rewrite Z.eqb_refl]; simpl negb; unfold when.
  - apply wp_bind. unfold wp at 1.
    rewrite (zoom_eq _ _ _ _ (lock_acquire_free _ _ Hq Ho)). apply wp_bind.
    eapply wp_mono; [by apply Hbody|]. intros r k' [Hs HQ]. simpl in Hs.
    apply wp_bind. unfold wp at 1. rewrite (zoom_eq _ _ tt
      (wake_first (lk_spl l) (set_lock (<[l := None]> (s_lock (k_sync k'))) (k_sync k')))).
    + apply wp_ret. eexists _, k'. split; [|by split].
      eapply same_sync_trans; [|apply wake_first_same]. rewrite Hs.
      split_and!; try done. simpl. by rewrite insert_insert_eq, insert_id.
    + apply lock_release_held; rewrite Hs; simpl; [done|]. by rewrite lookup_insert_eq.
  - apply wp_bind, wp_ret, wp_bind.
    specialize (Hbody (k_sync k) eq_refl).
    replace (set_sync (k_sync k) k) with k in Hbody by by destruct k.
    eapply wp_mono; [apply Hbody|].
    intros r k' [Hs HQ]. apply wp_bind, wp_ret, wp_ret. exists (k_sync k), k'.
    repeat split; try done. rewrite <- Hs. by destruct k'.
Qed.

(** The scan stops at the first free slot, or at the end when there is none. *)
Lemma swap_scan_spec sw fuel i :
  swap_wf sw -> 0 <= i -> SWAP_MAX - i <= Z.of_nat fuel -> i <= SWAP_MAX ->
  exists j, swap_scan fuel i (refs sw) = Some j /\ i <= j <= SWAP_MAX /\
    (forall j', i <= j' < j -> exists r, refs sw !! j' = Some r /\ 0 < r) /\
    (j < SWAP_MAX -> refs sw !! j = Some 0).
Proof.
  intros [_ Hwf]. revert i. induction fuel as [|fuel IH]; intros i Hi Hf Hle; simpl.
  - exists i. repeat split; try lia.
  - destruct (Z.ltb_spec i SWAP_MAX); simpl; [|exists i; repeat split; lia].
    destruct (Hwf i) as (r & Hr & Hrr); [lia|]. rewrite Hr.
    destruct (Z.ltb_spec 0 r) as [Hpos|Hz].
    + destruct (IH (i + 1)) as (j & Hj & Hb & Hlow & Hfree); try lia.
      exists j. repeat split; try done; try lia.
      intros j' Hj'. destruct (decide (j' = i)) as [->|]; [eauto|]. apply Hlow. lia.
    + exists i. repeat split; try lia. intros _. rewrite Hr. f_equal. lia.
Qed.

Lemma zero_refs_lookup i : 0 <= i < SWAP_MAX -> zero_refs !! i = Some 0.
Proof.
  intros Hi. apply elem_of_list_to_map.
  - rewrite <- list_fmap_compose. rewrite (list_fmap_ext _ id) by done. rewrite list_fmap_id.
    apply NoDup_seqZ.
  - apply list_elem_of_fmap. exists i. split; [done|]. by apply elem_of_seqZ.
Qed.

Lemma zero_refs_inv i n : zero_refs !! i = Some n -> n = 0.
Proof.
  intros Hn. apply elem_of_list_to_map_2, list_elem_of_fmap in Hn as (j & E & _). by injection E.
Qed.

#[global] Opaque zero_refs.
#[global] Arguments swap_scan : simpl never.
#[global] Arguments SWAP_MAX : simpl never.

Lemma slot_off i : 0 <= i < SWAP_MAX -> u32 (i * PAGE_SIZE) = i * PAGE_SIZE.
Proof. intros Hi. apply u32_small. unfold SWAP_MAX, PAGE_SIZE in *. lia. Qed.

(** Writing one slot leaves the pages of the others readable and unchanged. *)
Lemma slot_data_write sw f f' i data r j p :
  sw_file sw = Some f -> 0 <= i < SWAP_MAX -> 0 <= j < SWAP_MAX ->
  Z.of_nat (length data) = PAGE_SIZE ->
  (exists e, vop_write f (u32 (i * PAGE_SIZE)) data = (e, f')) ->
  i <> j -> slot_data sw j = Some p -> slot_data (mk_swap (Some f') r) j = Some p.
Proof.
  intros Hf Hi Hj Hlen [e Hw] Hne. unfold slot_data; simpl. rewrite Hf; simpl.
  rewrite !slot_off in * by done.
  destruct (vop_read f (j * PAGE_SIZE) PAGE_SIZE) as [e1 bs] eqn:Hr.
  destruct (Z.eqb_spec e1 0) as [->|]; [|done]. simpl.
  destruct (Z.eqb_spec (Z.of_nat (length bs)) PAGE_SIZE) as [Hl|]; [|done].
  intros [= <-].
  erewrite (vop_read_other f (i * PAGE_SIZE) data e f' (j * PAGE_SIZE) PAGE_SIZE bs); simpl;
    try done; unfold PAGE_SIZE in *; try lia.
  by rewrite Hl.
Qed.

Lemma slot_data_written f f' i data r :
  0 <= i < SWAP_MAX -> Z.of_nat (length data) = PAGE_SIZE ->
  vop_write f (u32 (i * PAGE_SIZE)) data = (0, f') ->
  slot_data (mk_swap (Some f') r) i = Some data.
Proof.
  intros Hi Hlen Hw. rewrite slot_off in Hw by done.
  assert (H0 : 0 <= i * PAGE_SIZE) by (unfold PAGE_SIZE; lia).
  pose proof (vop_read_written _ _ _ _ H0 Hw) as H.
  rewrite Hlen in H. unfold slot_data; simpl. rewrite slot_off, H by done. simpl.
  by rewrite Hlen.
Qed.

Lemma swap_wf_update sw f i v :
  swap_wf sw -> 0 <= v < 2 ^ 8 -> swap_wf (mk_swap (Some f) (<[i := v]> (refs sw))).
Proof.
  intros [_ Hwf] Hv. split; [by eexists|]. intros j Hj. simpl. rewrite lookup_insert.
  case_decide; eauto.
Qed.

(** The state a swap operation leaves: only the swap file, the statistics, one frame and
    the scheduler's queues may differ. *)
Definition swap_post (k k' : kstate) (sw' : swap_file) (st : gmap Z Z) (m : gmap Z page) : Prop :=
  exists sy, same_sync (k_sync k) sy /\
    k' = set_sync sy (set_mem m (set_stats st (set_swap (mk_swap_st (Some sw') true) k))).

(** [swap_set] takes the first free slot, stores the page there, and leaves every other
    slot as it was. *)
Lemma swap_set_spec k sw address :
  quiet (s_cpu (k_sync k)) -> lock_avail k swap_lock -> swap_ready k sw ->
  (exists i, 0 <= i < SWAP_MAX /\ refs sw !! i = Some 0) ->
  let data := frame_data k (kvaddr_frame address) in
  Z.of_nat (length data) = PAGE_SIZE ->
  wp (swap_set address) k (fun r k' => exists sw',
    0 <= r.2 < SWAP_MAX /\ refs sw !! r.2 = Some 0 /\
    (forall j, 0 <= j < r.2 -> exists n, refs sw !! j = Some n /\ 0 < n) /\
    swap_post k k' sw' (if r.1 =? 0 then bump swap_file_writes (k_stats k) else k_stats k)
      (k_mem k) /\
    refs sw' = <[r.2 := 1]> (refs sw) /\ swap_wf sw' /\
    (r.1 = 0 -> slot_data sw' r.2 = Some data) /\
    (forall j p, 0 <= j < SWAP_MAX -> j <> r.2 ->
       slot_data sw j = Some p -> slot_data sw' j = Some p) /\
    (writes_ok -> r.1 = 0)).
Proof.
  intros Hq Hl [Hsw Hwf] (i0 & Hi0 & Hfree) data Hlen.
  destruct (proj1 Hwf) as [f Hf].
  destruct (swap_scan_spec sw (Z.to_nat SWAP_MAX) 0 Hwf) as (idx & Hscan & Hb & Hlow & Hz);
    try (unfold SWAP_MAX; lia).
  assert (Hidx : idx < SWAP_MAX).
  { destruct (Z.lt_ge_cases idx SWAP_MAX); [done|]. destruct (Hlow i0) as (r & Hr & ?); [lia|].
    rewrite Hr in Hfree. simplify_eq. lia. }
  destruct (vop_write f (u32 (idx * PAGE_SIZE)) data) as [err f'] eqn:Hw.
  set (sw' := mk_swap (Some f') (<[idx := 1]> (refs sw))).
  set (st := if err =? 0 then bump swap_file_writes (k_stats k) else k_stats k).
  eapply wp_mono.
  - unfold swap_set. apply (wp_with_lock swap_lock _ k
      (fun r k1 => r = (err, idx) /\ exists sy, k1 = set_sync sy
         (set_stats st (set_swap (mk_swap_st (Some sw') true) k)))); [done..|].
    intros sy _. apply wp_bind. unfold wp at 1, get; cbv beta iota.
    change (k_swap (set_sync sy k)) with (k_swap k). rewrite Hsw; simpl negb; cbv iota.
    apply wp_bind, (wp_deref _ sw); [done|]. apply wp_bind, (wp_deref _ idx); [done|].
    destruct (Z.eqb_spec idx SWAP_MAX); [lia|]. apply wp_bind, wp_modify.
    apply wp_bind, (wp_deref _ f); [done|].
    change (frame_data (set_sync sy k)) with (frame_data k). fold data. rewrite Hw.
    apply wp_bind, wp_modify, wp_bind. unfold when, st.
    destruct (err =? 0); [apply wp_zoom; unfold inc_counter; apply wp_bind, wp_KASSERT;
      [done|]; apply wp_modify|apply wp_ret]; apply wp_ret; (split; [done|split; [done|]]);
      exists sy; by destruct k.
  - intros r k' (sy & k1 & Hsync & -> & -> & sy1 & ->). exists sw'. simpl.
    repeat split; try done; try lia; eauto.
    + exists sy. split; [done|]. by destruct k.
    + by apply (swap_wf_update sw f' idx 1).
    + intros ->. apply (slot_data_written f); [lia|done..].
    + intros j p Hj Hne. eapply (slot_data_write sw f f' idx data); eauto; lia.
    + intros Hok. pose proof (Hok f (u32 (idx * PAGE_SIZE)) data) as H. by rewrite Hw in H.
Qed.

(** A full swap file stops the kernel. *)
Lemma swap_set_full k sw address :
  quiet (s_cpu (k_sync k)) -> lock_avail k swap_lock -> swap_ready k sw ->
  (forall i, 0 <= i < SWAP_MAX -> refs sw !! i <> Some 0) ->
  swap_set address k = Panic OUT_OF_SWAP.
Proof.
  intros Hq (o & Ho & Hc) [Hsw Hwf] Hfull.
  destruct (swap_scan_spec sw (Z.to_nat SWAP_MAX) 0 Hwf) as (idx & Hscan & Hb & Hlow & Hz);
    try (unfold SWAP_MAX; lia).
  assert (idx = SWAP_MAX) as ->.
  { destruct (Z.lt_ge_cases idx SWAP_MAX); [|lia]. destruct (Hfull idx); [lia|auto]. }
  unfold swap_set, with_lock.
  rewrite (run_bind _ _ _ _ _ (zoom_eq _ _ _ _ (lock_do_i_hold_eq _ _ _ Ho))).
  replace (lens_set (k_sync k) k) with k by by destruct k.
  set (body := get ≫= _).
  assert (Hbody : forall sy, body (set_sync sy k) = Panic OUT_OF_SWAP).
  { intros sy. unfold body; msimpl. rewrite Hsw; simpl. by rewrite Hscan. }
  destruct Hc as [-> | ->]; [|rewrite Z.eqb_refl]; simpl negb; unfold when.
  - rewrite (run_bind _ _ _ _ _ (zoom_eq _ _ _ _ (lock_acquire_free _ _ Hq Ho))).
    apply run_bind_panic, Hbody.
  - rewrite (run_bind _ _ _ tt k) by done. apply run_bind_panic.
    replace (body k) with (body (set_sync (k_sync k) k)) by by destruct k. by rewrite Hbody.
Qed.

(** [swap_get] with an address drops one reference and, when the slot can be read,
    fills the frame with the slot's page. *)
Lemma swap_get_spec k sw address i r data :
  quiet (s_cpu (k_sync k)) -> lock_avail k swap_lock -> swap_ready k sw ->
  0 <= i < SWAP_MAX -> refs sw !! i = Some r -> 0 < r -> address <> 0 ->
  slot_data sw i = Some data ->
  wp (swap_get address i) k (fun err k' =>
    err = 0 /\
    swap_post k k' (mk_swap (sw_file sw) (<[i := r - 1]> (refs sw))) (k_stats k)
      (<[kvaddr_frame address := data ++ drop (length data) (frame_data k (kvaddr_frame address))]>
         (k_mem k))).
Proof.
  intros Hq Hl [Hsw Hwf] Hi Hr Hpos Ha Hdata.
  destruct (proj2 Hwf i Hi) as (r' & Hr' & Hrr). rewrite Hr in Hr'. simplify_eq.
  destruct (proj1 Hwf) as [f Hf]. unfold slot_data in Hdata. rewrite Hf in Hdata. simpl in Hdata.
  destruct (vop_read f (u32 (i * PAGE_SIZE)) PAGE_SIZE) as [e bs] eqn:Hread.
  destruct (Z.eqb_spec e 0) as [->|]; [|done]. simpl in Hdata. destruct (_ =? _); [|done].
  simplify_eq. eapply wp_mono.
  - unfold swap_get. apply (wp_with_lock swap_lock _ k (fun err k1 => err = 0 /\ exists sy,
      k1 = set_sync sy (set_mem (<[kvaddr_frame address := data ++ drop (length data)
             (frame_data k (kvaddr_frame address))]> (k_mem k))
        (set_swap (mk_swap_st (Some (mk_swap (sw_file sw) (<[i := r' - 1]> (refs sw)))) true) k))));
      [done..|].
    intros sy _. apply wp_bind. unfold wp at 1, get; cbv beta iota.
    change (k_swap (set_sync sy k)) with (k_swap k). rewrite Hsw; simpl negb; cbv iota.
    apply wp_bind, (wp_deref _ sw); [done|]. apply wp_bind, (wp_deref _ r'); [done|].
    apply wp_bind, wp_KASSERT; [lia|]. apply wp_bind, wp_modify.
    destruct (Z.eqb_spec address 0); [done|]. apply wp_bind, (wp_deref _ f); [done|].
    rewrite Hread. apply wp_bind, wp_modify, wp_ret. rewrite u8_small by lia.
    split; [done|]. split; [done|]. exists sy. by destruct k.
  - intros err k' (sy & k1 & Hsync & -> & -> & sy1 & ->). split; [done|].
    exists sy. split; [done|]. by destruct k.
Qed.

(** [swap_get(NULL, i)] only drops the reference. *)
Lemma swap_drop_spec k sw i r :
  quiet (s_cpu (k_sync k)) -> lock_avail k swap_lock -> swap_ready k sw ->
  0 <= i < SWAP_MAX -> refs sw !! i = Some r -> 0 < r ->
  wp (swap_get 0 i) k (fun err k' =>
    err = 0 /\
    swap_post k k' (mk_swap (sw_file sw) (<[i := r - 1]> (refs sw))) (k_stats k) (k_mem k)).
Proof.
  intros Hq Hl [Hsw Hwf] Hi Hr Hpos.
  destruct (proj2 Hwf i Hi) as (r' & Hr' & Hrr). rewrite Hr in Hr'. simplify_eq.
  eapply wp_mono.
  - unfold swap_get. apply (wp_with_lock swap_lock _ k (fun err k1 => err = 0 /\ exists sy,
      k1 = set_sync sy (set_swap (mk_swap_st
             (Some (mk_swap (sw_file sw) (<[i := r' - 1]> (refs sw)))) true) k))); [done..|].
    intros sy _. apply wp_bind. unfold wp at 1, get; cbv beta iota.
    change (k_swap (set_sync sy k)) with (k_swap k). rewrite Hsw; simpl negb; cbv iota.
    apply wp_bind, (wp_deref _ sw); [done|]. apply wp_bind, (wp_deref _ r'); [done|].
    apply wp_bind, wp_KASSERT; [lia|]. apply wp_bind, wp_modify. simpl Z.eqb; cbv iota.
    apply wp_ret. rewrite u8_small by lia. split; [done|]. split; [done|]. by exists sy.
  - intros err k' (sy & k1 & Hsync & -> & -> & sy1 & ->). split; [done|].
    exists sy. split; [done|]. by destruct k.
Qed.

(** [swap_inc_ref] adds one reference. *)
Lemma swap_inc_ref_spec k sw i r :
  quiet (s_cpu (k_sync k)) -> lock_avail k swap_lock -> swap_ready k sw ->
  0 <= i < SWAP_MAX -> refs sw !! i = Some r -> r + 1 < 2 ^ 8 ->
  wp (swap_inc_ref i) k (fun _ k' =>
    swap_post k k' (mk_swap (sw_file sw) (<[i := r + 1]> (refs sw))) (k_stats k) (k_mem k)).
Proof.
  intros Hq Hl [Hsw Hwf] Hi Hr Hbound.
  destruct (proj2 Hwf i Hi) as (r' & Hr' & Hrr). rewrite Hr in Hr'. simplify_eq.
  unfold swap_inc_ref. apply wp_bind, wp_KASSERT; [lia|]. eapply wp_mono.
  - apply (wp_with_lock swap_lock _ k (fun _ k1 => exists sy,
      k1 = set_sync sy (set_swap (mk_swap_st
             (Some (mk_swap (sw_file sw) (<[i := r' + 1]> (refs sw)))) true) k))); [done..|].
    intros sy _. apply wp_bind. unfold wp at 1, get; cbv beta iota.
    change (k_swap (set_sync sy k)) with (k_swap k). rewrite Hsw.
    apply wp_bind, (wp_deref _ sw); [done|]. apply wp_bind, (wp_deref _ r'); [done|].
    apply wp_modify. rewrite u8_small by lia. split; [done|]. by exists sy.
  - intros err k' (sy & k1 & Hsync & -> & sy1 & ->). exists sy. split; [done|]. by destruct k.
Qed.

End Ops.
End Swap.
