(* ===== verification/Coremap.v ===== *)
(** * The coremap: kern/vm/coremap.c

    The physical frame allocator.  [coremap[i]] describes frame [i]; the first frame of
    every block (allocated or free) holds the block's length in [nframes], the others
    hold 0.  This file has the operations and the theory of the block structure; the
    invariants that relate the coremap to the page tables and the swap file are in
    Paging.v. *)

From S2P Require Import Prelude Cpu Synch KState Stats Tlb Swap.

Module Coremap.
Import Cpu Synch KState Stats Tlb Swap.

(** ** Array accesses *)

Definition set_coremap (m : gmap Z cm_entry) (s : cm_st) : cm_st :=
  mk_cm_st (Some m) (npages s) (first_page s) (prev_victim s).

(** [coremap[i]] *)
Definition cm_get (i : Z) : M cm_st cm_entry :=
  s ← get;
  m ← deref (coremap s);
  deref (m !! i).

(** [coremap[i] = f(coremap[i])] *)
Definition cm_upd (i : Z) (f : cm_entry -> cm_entry) : M cm_st unit :=
  s ← get;
  m ← deref (coremap s);
  e ← deref (m !! i);
  put (set_coremap (<[i := f e]> m) s).

Definition set_nframes (n : Z) (e : cm_entry) : cm_entry :=
  mk_cm (occ e) (fixed e) (u20 n) (cm_pte e).
Definition set_fixed (b : bool) (e : cm_entry) : cm_entry :=
  mk_cm (occ e) b (nframes e) (cm_pte e).

(** ** Start-up *)

(** [kmalloc] gives the array with arbitrary contents, or NULL. *)
Definition coremap_create (n_pages : Z) (array : option (gmap Z cm_entry)) : M cm_st unit :=
  modify (fun s => mk_cm_st array n_pages (first_page s) (prev_victim s)).

Definition coremap_bootstrap (firstpaddr : Z) : M cm_st bool :=
  s ← get;
  match coremap s with
  | None => mret false
  | Some _ =>
      let first := firstpaddr / PAGE_SIZE in
      _ ← modify (fun s => mk_cm_st (coremap s) (npages s) first (prev_victim s));
      _ ← KASSERT (first <? npages s);
      _ ← for_loop (Z.to_nat first) 0 (fun i => cm_upd i (fun _ => mk_cm true true 0 None));
      _ ← for_loop (Z.to_nat (npages s - first)) first
            (fun i => cm_upd i (fun _ => mk_cm false false 0 None));
      _ ← cm_upd 0 (set_nframes first);
      _ ← cm_upd first (set_nframes (npages s - first));
      mret true
  end.

Definition coremap_shutdown : M cm_st unit :=
  modify (fun s => mk_cm_st None 0 0 (prev_victim s)).

(** ** Searching *)

(** [while (i < npages && !found) ...] of [get_n_frames]: the first free block of at
    least [num] frames, jumping from block to block. *)
Fixpoint scan (fuel : nat) (num i : Z) : M cm_st (Z * bool) :=
  match fuel with
  | O => out_of_fuel
  | S fuel' =>
      s ← get;
      if i <? npages s then
        e ← cm_get i;
        if negb (occ e) && (num <=? nframes e) then mret (i, true)
        else scan fuel' num (u32 (i + nframes e))
      else mret (i, false)
  end.

(** A frame that may be swapped out. *)
Definition swappable (e : cm_entry) : bool :=
  occ e && negb (fixed e) && (match cm_pte e with Some _ => true | None => false end).

(** The loop of [get_victim]; [None] stands for -1. *)
Fixpoint victim_loop (fuel : nat) (prev victim : Z) (loop : bool) : M cm_st (option Z) :=
  match fuel with
  | O => out_of_fuel
  | S fuel' =>
      s ← get;
      e ← cm_get victim;
      if swappable e then mret (Some victim)
      else if loop then mret None
      else
        let victim' := (victim + nframes e) mod npages s in
        victim_loop fuel' prev victim' (victim' =? prev)
  end.

(** The search of [get_victim], from the block after the previous victim. *)
Definition find_victim : M cm_st (option Z) :=
  s ← get;
  e ← cm_get (prev_victim s);
  victim_loop (Z.to_nat (npages s) + 2) (prev_victim s)
    ((prev_victim s + nframes e) mod npages s) false.

(** ** Allocating and freeing blocks *)

(** The block at [page] (free, at least [num] long) is split and taken. *)
Definition claim (num page : Z) (entry : option pteptr) : M cm_st unit :=
  e ← cm_get page;
  s ← get;
  let residual := u32 (nframes e - num) in
  _ ← when (negb (residual =? 0) && (u32 (page + num) <? npages s))
        (cm_upd (u32 (page + num)) (set_nframes residual));
  _ ← cm_upd page (set_nframes num);
  for_loop (Z.to_nat num) page (fun i => cm_upd i (fun e => mk_cm true true (nframes e) entry)).

(** [while (next < npages && !coremap[next].occ)]: block [i] absorbs the free blocks
    that follow it; returns the new [next]. *)
Fixpoint merge_run (fuel : nat) (i next : Z) : M cm_st Z :=
  match fuel with
  | O => out_of_fuel
  | S fuel' =>
      s ← get;
      if next <? npages s then
        e ← cm_get next;
        if negb (occ e) then
          let size := nframes e in
          _ ← cm_upd i (fun ei => set_nframes (nframes ei + size) ei);
          _ ← cm_upd next (set_nframes 0);
          merge_run fuel' i (u32 (next + size))
        else mret next
      else mret next
  end.

(** The outer loop of [free_frame]. *)
Fixpoint coalesce (fuel : nat) (i next : Z) : M cm_st unit :=
  match fuel with
  | O => out_of_fuel
  | S fuel' =>
      s ← get;
      if next <? npages s then
        e ← cm_get i;
        if negb (occ e) then
          next' ← merge_run (Z.to_nat (npages s) + 1) i next;
          if npages s <=? next' then mret tt
          else
            e' ← cm_get next';
            coalesce fuel' next' (u32 (next' + nframes e'))
        else
          e' ← cm_get next;
          coalesce fuel' next (u32 (next + nframes e'))
      else mret tt
  end.

(** The body of [free_frame] for a block that is not being swapped out. *)
Definition release_block (page mysize : Z) : M cm_st unit :=
  _ ← for_loop (Z.to_nat mysize) page
        (fun i => cm_upd i (fun e => mk_cm false false (nframes e) None));
  e0 ← cm_get 0;
  s ← get;
  coalesce (Z.to_nat (npages s) + 1) 0 (nframes e0).

Section Ops.
Context `{VN : Vnode}.

(** [static int get_victim()]: [None] stands for -1. *)
Definition get_victim : M kstate (option Z) :=
  v ← zoom find_victim;
  match v with
  | None => mret None
  | Some victim =>
      _ ← zoom (modify (fun s => mk_cm_st (coremap s) (npages s) (first_page s) victim));
      _ ← zoom (cm_upd victim (set_fixed true));
      e ← zoom (cm_get victim);
      p ← deref (cm_pte e);
      _ ← update_pte p (fun pe => mk_pte (frame_no pe) (valid pe) (swp pe) true);
      mret (Some victim)
  end.

(** [bzero(PADDR_TO_KVADDR(page * PAGE_SIZE), PAGE_SIZE * num)] *)
Definition bzero_frames (page num : Z) : M kstate unit :=
  for_loop (Z.to_nat num) page (fun i => write_frame i zero_page).

(** The frame is victim [i] once its page is in slot [swap_index]: its owner, unless
    the frame was freed meanwhile, is made to point to the slot, and the frame is given
    to [entry].  Returns whether the frame had been freed. *)
Definition swap_out_commit (i swap_index : Z) (entry : option pteptr) : M kstate bool :=
  e ← zoom (cm_get i);
  victim_free ←
    match cm_pte e with
    | Some p =>
        pe ← read_pte p;
        _ ← invalidate_entry_by_paddr (u32 (Z.shiftl (frame_no pe) 12));
        _ ← update_pte p (fun pe => mk_pte (u20 swap_index) (valid pe) true false);
        mret false
    | None => mret true
    end;
  _ ← zoom (cm_upd i (fun e => mk_cm (occ e) (fixed e) (nframes e) entry));
  mret victim_free.

(** The write to the swap file failed: the victim stays where it is. *)
Definition swap_out_abort (i : Z) : M kstate unit :=
  _ ← zoom (cm_upd i (set_fixed false));
  e ← zoom (cm_get i);
  p ← deref (cm_pte e);
  update_pte p (fun pe => mk_pte (frame_no pe) (valid pe) (swp pe) false).

(** The part of [get_n_frames] after the victim was chosen. *)
Definition swap_out (i : Z) (entry : option pteptr) : M kstate Z :=
  w ← swap_set (PADDR_TO_KVADDR (u32 (i * PAGE_SIZE)));
  let '(err, swap_index) := w in
  spl ← zoom splhigh;
  if negb (err =? 0) then
    _ ← swap_out_abort i;
    _ ← zoom (splx spl); mret 0
  else
    victim_free ← swap_out_commit i swap_index entry;
    _ ← zoom (splx spl);
    _ ← when victim_free (_ ← swap_get 0 swap_index; mret tt);
    _ ← bzero_frames i 1;
    mret (u32 (i * PAGE_SIZE)).

(** [get_n_frames(num, entry)]: the physical address of the block, 0 on failure. *)
Definition get_n_frames (num : Z) (entry : option pteptr) : M kstate Z :=
  spl ← zoom splhigh;
  k ← get;
  match coremap (k_cm k) with
  | None => _ ← zoom (splx spl); mret 0
  | Some _ =>
      let s := k_cm k in
      r ← zoom (scan (Z.to_nat (npages s) + 1) num (first_page s));
      let '(i, found) := r in
      if negb found && negb (num =? 1) then
        _ ← zoom (splx spl); mret 0
      else if negb found then
        v ← get_victim;
        _ ← zoom (splx spl);
        match v with
        | None => mret 0
        | Some i => swap_out i entry
        end
      else
        _ ← zoom (claim num i entry);
        _ ← zoom (splx spl);
        _ ← bzero_frames i num;
        mret (u32 (i * PAGE_SIZE))
  end.

(** [thread_yield]: other threads may run; this thread's view is unchanged. *)
Definition thread_yield : M kstate unit := mret tt.

Fixpoint attempts (n : nat) (num : Z) (entry : option pteptr) : M kstate Z :=
  match n with
  | O => mret 0
  | S n' =>
      ret ← get_n_frames num entry;
      if negb (ret =? 0) then mret ret
      else _ ← thread_yield; attempts n' num entry
  end.

Definition MAX_ATTEMPTS : nat := 5.
Definition get_user_frame (entry : pteptr) : M kstate Z := attempts MAX_ATTEMPTS 1 (Some entry).
Definition get_kernel_frame (num : Z) : M kstate Z := attempts MAX_ATTEMPTS num None.

(** A NULL coremap leaves the function without restoring the priority level. *)
Definition free_frame (addr : Z) : M kstate unit :=
  let page := addr / PAGE_SIZE in
  spl ← zoom splhigh;
  k ← get;
  match coremap (k_cm k) with
  | None => mret tt
  | Some _ =>
      e ← zoom (cm_get page);
      let mysize := nframes e in
      _ ← KASSERT (0 <? mysize);
      in_swap ← match cm_pte e with
                | Some p => pe ← read_pte p; mret (swapping pe)
                | None => mret false
                end;
      if (in_swap : bool) then
        _ ← KASSERT (nframes e =? 1);
        _ ← zoom (cm_upd page (fun e => mk_cm (occ e) true (nframes e) None));
        _ ← zoom (splx spl); mret tt
      else
        _ ← zoom (release_block page mysize);
        _ ← zoom (splx spl); mret tt
  end.

Definition coremap_set_fixed (index : Z) : M kstate unit :=
  k ← get;
  _ ← KASSERT (0 <? iplhigh k);
  zoom (cm_upd index (set_fixed true)).

Definition coremap_set_unfixed (index : Z) : M kstate unit :=
  k ← get;
  _ ← KASSERT (0 <? iplhigh k);
  zoom (cm_upd index (set_fixed false)).

End Ops.
End Coremap.
