(* ===== verification/Blocks.v ===== *)
(** * The block structure of the coremap

    An abstract allocator over the list of blocks (its layout), and the proof that the
    loops of coremap.c implement it: first fit with splitting, freeing with
    coalescing, and a victim search that visits every block. *)

From S2P Require Import Prelude Cpu Synch KState Stats Tlb Swap Coremap.

Module Blocks.
Import KState Coremap.

(** ** The abstract allocator *)

Record block := mk_block { b_len : Z; b_occ : bool }.

Definition fits (num : Z) (b : block) : bool := negb (b_occ b) && (num <=? b_len b).

(** Position of the first block that fits, from position [pos]. *)
Fixpoint first_fit (num pos : Z) (bs : list block) : option Z :=
  match bs with
  | [] => None
  | b :: bs' => if fits num b then Some pos else first_fit num (pos + b_len b) bs'
  end.

(** What is left of a free block of [len] frames after taking [num] of them. *)
Definition remainder (num len : Z) : list block :=
  if len =? num then [] else [mk_block (len - num) false].

Fixpoint alloc_layout (num : Z) (bs : list block) : list block :=
  match bs with
  | [] => []
  | b :: bs' =>
      if fits num b then mk_block num true :: remainder num (b_len b) ++ bs'
      else b :: alloc_layout num bs'
  end.

Definition merge2 (b : block) (bs : list block) : list block :=
  match bs with
  | b' :: r => if negb (b_occ b) && negb (b_occ b')
               then mk_block (b_len b + b_len b') false :: r else b :: bs
  | [] => [b]
  end.

(** Adjacent free blocks become one. *)
Definition coalesce_layout (bs : list block) : list block := foldr merge2 [] bs.

(** The block at position [p] becomes free. *)
Fixpoint free_at (p pos : Z) (bs : list block) : list block :=
  match bs with
  | [] => []
  | b :: bs' =>
      if pos =? p then mk_block (b_len b) false :: bs'
      else b :: free_at p (pos + b_len b) bs'
  end.

Definition free_layout (p : Z) (bs : list block) : list block :=
  coalesce_layout (free_at p 0 bs).

(** ** The layout of a coremap *)

Definition block_at (m : gmap Z cm_entry) (i : Z) (b : block) : Prop :=
  0 < b_len b /\
  (exists e, m !! i = Some e /\ nframes e = b_len b /\ occ e = b_occ b) /\
  (forall j, i < j < i + b_len b ->
     exists e, m !! j = Some e /\ nframes e = 0 /\ occ e = b_occ b).

Fixpoint tiles (m : gmap Z cm_entry) (i : Z) (bs : list block) (n : Z) : Prop :=
  match bs with
  | [] => i = n
  | b :: bs' => block_at m i b /\ tiles m (i + b_len b) bs' n
  end.

(** The invariant of the coremap: the array has [npages] entries; blocks tile it, the
    first one being the kernel image; a free frame is not fixed and belongs to nobody;
    a frame that belongs to a page table entry is a block by itself. *)
Record cm_wf (s : cm_st) (m : gmap Z cm_entry) (bs : list block) : Prop := mk_wf {
  wf_map : coremap s = Some m;
  wf_pages : 0 < first_page s < npages s;
  wf_bound : npages s < 2 ^ 19;
  wf_dom : forall i, is_Some (m !! i) <-> 0 <= i < npages s;
  wf_tiles : tiles m 0 bs (npages s);
  wf_kernel : exists bs', bs = mk_block (first_page s) true :: bs';
  wf_image : forall i e, 0 <= i < first_page s -> m !! i = Some e ->
               fixed e = true /\ cm_pte e = None;
  wf_free : forall i e, m !! i = Some e -> occ e = false -> fixed e = false /\ cm_pte e = None;
  wf_user : forall i e p, m !! i = Some e -> cm_pte e = Some p -> nframes e = 1
}.

(** ** Lemmas on tilings *)

Lemma tiles_le m i bs n : tiles m i bs n -> i <= n.
Proof.
  revert i. induction bs as [|b bs IH]; intros i; simpl; [lia|].
  intros [(Hl & _) Ht]. apply IH in Ht. lia.
Qed.

Lemma tiles_length m i bs n : tiles m i bs n -> Z.of_nat (length bs) <= n - i.
Proof.
  revert i. induction bs as [|b bs IH]; intros i; simpl; [lia|].
  intros [(Hl & _) Ht]. apply IH in Ht. lia.
Qed.

Lemma tiles_app m i bs1 bs2 n :
  tiles m i (bs1 ++ bs2) n <-> exists k, tiles m i bs1 k /\ tiles m k bs2 n.
Proof.
  revert i. induction bs1 as [|b bs1 IH]; intros i; simpl.
  - split; [eauto|]. intros (k & -> & H). done.
  - rewrite IH. naive_solver.
Qed.

(** A tiling only reads [nframes] and [occ] of the frames it covers. *)
Definition same_shape (e e' : cm_entry) : Prop := nframes e = nframes e' /\ occ e = occ e'.

Lemma block_at_ext m m' i b :
  (forall j e, i <= j < i + b_len b -> m !! j = Some e ->
     exists e', m' !! j = Some e' /\ same_shape e e') ->
  block_at m i b -> block_at m' i b.
Proof.
  intros Hext (Hl & (e & He & Hn & Ho) & Hrest). split; [done|]. split.
  - destruct (Hext i e) as (e' & He' & Hs1 & Hs2); [lia|done|]. exists e'. by rewrite <- Hs1, <- Hs2.
  - intros j Hj. destruct (Hrest j Hj) as (ej & Hej & Hnj & Hoj).
    destruct (Hext j ej) as (e' & He' & Hs1 & Hs2); [lia|done|]. exists e'. by rewrite <- Hs1, <- Hs2.
Qed.

Lemma tiles_ext m m' i bs n :
  (forall j e, i <= j < n -> m !! j = Some e ->
     exists e', m' !! j = Some e' /\ same_shape e e') ->
  tiles m i bs n -> tiles m' i bs n.
Proof.
  revert i. induction bs as [|b bs IH]; intros i Hext; simpl; [done|].
  intros [Hb Ht]. pose proof (tiles_le _ _ _ _ Ht). pose proof (proj1 Hb).
  split.
  - eapply block_at_ext; [|done]. intros j e Hj. apply Hext. lia.
  - apply IH; [|done]. intros j e Hj. apply Hext. lia.
Qed.

(** Frames outside a range are untouched. *)
Lemma tiles_frame m m' i bs n :
  (forall j, i <= j < n -> m' !! j = m !! j) -> tiles m i bs n -> tiles m' i bs n.
Proof.
  intros Hext. apply tiles_ext. intros j e Hj He. exists e. by rewrite Hext.
Qed.

(** Every frame in range lies in a block, whose occupation it shares. *)
Lemma tiles_lookup m i bs n j :
  tiles m i bs n -> i <= j < n ->
  exists bs1 b bs2 p, bs = bs1 ++ b :: bs2 /\ tiles m i bs1 p /\ block_at m p b /\
    tiles m (p + b_len b) bs2 n /\ p <= j < p + b_len b.
Proof.
  revert i. induction bs as [|b bs IH]; intros i; simpl; [lia|].
  intros [Hb Ht] Hj. destruct (Z.lt_ge_cases j (i + b_len b)).
  - exists [], b, bs, i. simpl. split_and!; try done; lia.
  - destruct (IH _ Ht) as (bs1 & b' & bs2 & p & -> & H1 & H2 & H3 & H4); [lia|].
    exists (b :: bs1), b', bs2, p. simpl. split_and!; try done; lia.
Qed.

Lemma block_at_occ m p b j e :
  block_at m p b -> p <= j < p + b_len b -> m !! j = Some e -> occ e = b_occ b.
Proof.
  intros (_ & (e0 & He0 & _ & Ho) & Hrest) Hj He. destruct (decide (j = p)) as [->|].
  - congruence.
  - destruct (Hrest j) as (e' & He' & _ & Ho'); [lia|]. congruence.
Qed.

(** A frame with a nonzero length starts a block. *)
Lemma tiles_head m i bs n j e :
  tiles m i bs n -> i <= j < n -> m !! j = Some e -> 0 < nframes e ->
  exists bs1 b bs2, bs = bs1 ++ b :: bs2 /\ tiles m i bs1 j /\ block_at m j b /\
    tiles m (j + b_len b) bs2 n /\ b_len b = nframes e /\ b_occ b = occ e.
Proof.
  intros Ht Hj He Hn. destruct (tiles_lookup _ _ _ _ _ Ht Hj)
    as (bs1 & b & bs2 & p & -> & H1 & H2 & H3 & H4).
  destruct (decide (j = p)) as [->|].
  - exists bs1, b, bs2. split_and!; try done; try apply H2.
    + destruct H2 as (_ & (e' & He' & Hn' & _) & _). congruence.
    + symmetry. eapply block_at_occ; eauto.
  - destruct H2 as (_ & _ & Hr). destruct (Hr j) as (e' & He' & Hn' & _); [lia|].
    rewrite He in He'. simplify_eq. lia.
Qed.

Lemma free_at_app p i bs1 b bs2 m n :
  tiles m i bs1 p -> tiles m p (b :: bs2) n ->
  free_at p i (bs1 ++ b :: bs2) = bs1 ++ mk_block (b_len b) false :: bs2.
Proof.
  revert i. induction bs1 as [|b1 bs1 IH]; intros i; simpl.
  - intros -> _. by rewrite Z.eqb_refl.
  - intros [(Hl & _) Ht] Hb. pose proof (tiles_le _ _ _ _ Ht).
    destruct (Z.eqb_spec i p); [lia|]. f_equal. by apply IH.
Qed.

Lemma free_at_pos p i bs1 b bs2 m :
  tiles m i bs1 p -> free_at p i (bs1 ++ b :: bs2) = bs1 ++ mk_block (b_len b) false :: bs2.
Proof.
  revert i. induction bs1 as [|b1 bs1 IH]; intros i; simpl.
  - intros ->. by rewrite Z.eqb_refl.
  - intros [Hb Ht]. pose proof (tiles_le _ _ _ _ Ht). destruct Hb as (Hl & _).
    destruct (Z.eqb_spec i p); [lia|]. f_equal. by apply IH.
Qed.

Lemma merge2_assoc b b1 bs :
  b_occ b = false -> b_occ b1 = false ->
  merge2 b (merge2 b1 bs) = merge2 (mk_block (b_len b + b_len b1) false) bs.
Proof.
  destruct b as [l o], b1 as [l1 o1]; simpl. intros -> ->.
  destruct bs as [|[l2 [|]] r]; simpl; [done..|]. by rewrite Z.add_assoc.
Qed.

(** The layout's total length does not change. *)
Definition total (bs : list block) : Z := foldr (fun b n => b_len b + n) 0 bs.

Lemma tiles_total m i bs n : tiles m i bs n -> n = i + total bs.
Proof.
  revert i. induction bs as [|b bs IH]; intros i; simpl; [lia|].
  intros [_ Ht]. apply IH in Ht. lia.
Qed.

(** ** The array operations *)

Lemma cm_get_eq s m i e : coremap s = Some m -> m !! i = Some e -> cm_get i s = Ret e s.
Proof. intros Hm He. unfold cm_get; msimpl. rewrite Hm. by rewrite He. Qed.

Lemma cm_upd_eq s m i f e :
  coremap s = Some m -> m !! i = Some e ->
  cm_upd i f s = Ret tt (set_coremap (<[i := f e]> m) s).
Proof. intros Hm He. unfold cm_upd; msimpl. rewrite Hm. by rewrite He. Qed.

(** Applies [f] to the entries of a range. *)
Definition on_range (f : cm_entry -> cm_entry) (from n : Z) (m m' : gmap Z cm_entry) : Prop :=
  forall j, m' !! j = if decide (from <= j < from + n) then f <$> m !! j else m !! j.

Lemma for_upd_eq s m f n from :
  coremap s = Some m ->
  (forall j, from <= j < from + Z.of_nat n -> is_Some (m !! j)) ->
  exists m', for_loop n from (fun i => cm_upd i f) s = Ret tt (set_coremap m' s) /\
    on_range f from (Z.of_nat n) m m'.
Proof.
  revert s m from. induction n as [|n IH]; intros s m from Hm Hall; simpl.
  - exists m. split; [by destruct s; simpl in *; subst|]. intros j. case_decide; [lia|done].
  - destruct (Hall from) as [e He]; [lia|].
    rewrite (run_bind _ _ _ _ _ (cm_upd_eq _ _ _ f _ Hm He)).
    destruct (IH (set_coremap (<[from := f e]> m) s) (<[from := f e]> m) (from + 1))
      as (m' & Hrun & Hm'); [done| |].
    + intros j Hj. rewrite lookup_insert_ne by lia. apply Hall. lia.
    + exists m'. split; [done|]. intros j. rewrite Hm', lookup_insert.
      repeat case_decide; subst; try lia; try done. by rewrite He.
Qed.

(** ** First fit *)

Lemma scan_spec s m fuel num i bs :
  coremap s = Some m -> 0 <= i -> npages s < 2 ^ 19 ->
  tiles m i bs (npages s) -> (length bs < fuel)%nat ->
  scan fuel num i s =
    Ret (match first_fit num i bs with Some p => (p, true) | None => (npages s, false) end) s.
Proof.
  intros Hm. revert i bs. induction fuel as [|fuel IH]; intros i bs Hi Hb Ht Hf; [lia|].
  cbn [scan]. rewrite (run_bind _ _ s s s) by done. destruct bs as [|b bs]; simpl in Ht.
  - subst i. by rewrite Z.ltb_irrefl.
  - destruct Ht as [(Hl & (e & He & Hn & Ho) & Hr) Ht]. pose proof (tiles_le _ _ _ _ Ht).
    rewrite (proj2 (Z.ltb_lt _ _)) by lia. rewrite (run_bind _ _ _ _ _ (cm_get_eq _ _ _ _ Hm He)).
    simpl. unfold fits. rewrite Ho, Hn. destruct (negb (b_occ b) && (num <=? b_len b)); [done|].
    rewrite u32_small by lia. apply IH; try done; simpl in *; lia.
Qed.

Lemma first_fit_split num i bs p m n :
  tiles m i bs n -> first_fit num i bs = Some p ->
  exists bs1 b bs2, bs = bs1 ++ b :: bs2 /\ fits num b = true /\
    tiles m i bs1 p /\ block_at m p b /\ tiles m (p + b_len b) bs2 n /\
    alloc_layout num bs = bs1 ++ mk_block num true :: remainder num (b_len b) ++ bs2.
Proof.
  revert i. induction bs as [|b bs IH]; intros i; simpl; [done|].
  intros [Hb Ht]. destruct (fits num b) eqn:Hfit.
  - intros [= ->]. exists [], b, bs. simpl. split_and!; done.
  - intros Hff. destruct (IH _ Ht Hff) as (bs1 & b' & bs2 & -> & H1 & H2 & H3 & H4 & H5).
    exists (b :: bs1), b', bs2. simpl. split_and!; try done. by rewrite H5.
Qed.

(** ** Splitting and taking a block *)

(** The array after [claim num p entry] on a free block of [len] frames. *)
Definition claimed (num p len : Z) (entry : option pteptr) (m m' : gmap Z cm_entry) : Prop :=
  forall j, m' !! j =
    if decide (p <= j < p + num) then Some (mk_cm true true (if decide (j = p) then num else 0) entry)
    else if decide (j = p + num /\ num < len) then set_nframes (len - num) <$> m !! j
    else m !! j.

Lemma claim_spec s m p b num entry :
  coremap s = Some m -> block_at m p b -> 0 <= p -> p + b_len b <= npages s ->
  npages s < 2 ^ 19 -> 0 < num <= b_len b ->
  exists m', claim num p entry s = Ret tt (set_coremap m' s) /\ claimed num p (b_len b) entry m m'.
Proof.
  intros Hm (Hl & (e & He & Hn & Ho) & Hr) Hp Hle Hb Hnum. unfold claim.
  rewrite (run_bind _ _ _ _ _ (cm_get_eq _ _ _ _ Hm He)). rewrite (run_bind _ _ s s s) by done.
  cbv zeta. rewrite Hn, !u32_small by lia.
  set (m1 := if decide (num < b_len b) then
               match m !! (p + num) with
               | Some e' => <[p + num := set_nframes (b_len b - num) e']> m | None => m end
             else m).
  rewrite (run_bind _ _ _ tt (set_coremap m1 s)).
  2: { unfold m1. destruct (decide (num < b_len b)) as [Hlt|Hge].
       - destruct (Hr (p + num)) as (e' & He' & _); [lia|].
         destruct (Z.eqb_spec (b_len b - num) 0); [lia|]. simpl.
         rewrite (proj2 (Z.ltb_lt _ _)) by lia. simpl. rewrite He'. by apply cm_upd_eq.
       - destruct (Z.eqb_spec (b_len b - num) 0); [|lia]. simpl. unfold mret, M_ret. f_equal.
         by destruct s; simpl in *; subst. }
  assert (Hp1 : m1 !! p = Some e).
  { unfold m1. case_decide; [|done]. destruct (m !! (p + num)); [|done].
    by rewrite lookup_insert_ne by lia. }
  rewrite (run_bind _ _ _ _ _ (cm_upd_eq (set_coremap m1 s) m1 p (set_nframes num) e eq_refl Hp1)).
  destruct (for_upd_eq (set_coremap (<[p := set_nframes num e]> m1) (set_coremap m1 s))
    (<[p := set_nframes num e]> m1) (fun e => mk_cm true true (nframes e) entry)
    (Z.to_nat num) p eq_refl) as (m' & Hrun & Hm').
  - intros j Hj. destruct (decide (j = p)) as [->|]; [by rewrite lookup_insert_eq|].
    rewrite lookup_insert_ne by done. destruct (Hr j) as (ej & Hej & _); [lia|].
    unfold m1. case_decide; [|eauto]. destruct (m !! (p + num)); [|eauto].
    rewrite lookup_insert_ne by lia. eauto.
  - exists m'. split; [done|]. intros j. rewrite Hm', Z2Nat.id by lia. rewrite lookup_insert.
    destruct (decide (p <= j < p + num)) as [Hin|Hout].
    + destruct (decide (p = j)) as [->|Hne].
      * rewrite decide_True by done. simpl. by rewrite u20_small by lia.
      * rewrite (decide_False (P := j = p)) by congruence.
        destruct (Hr j) as (ej & Hej & Hnj & _); [lia|].
        assert (m1 !! j = Some ej) as ->.
        { unfold m1. case_decide; [|done]. destruct (m !! (p + num)); [|done].
          by rewrite lookup_insert_ne by lia. }
        simpl. by rewrite Hnj.
    + rewrite decide_False by lia. unfold m1.
      destruct (decide (num < b_len b)); [|by rewrite (decide_False (P := _ /\ _)) by lia].
      destruct (Hr (p + num)) as (e' & He' & _); [lia|]. rewrite He', lookup_insert.
      destruct (decide (p + num = j)) as [<-|].
      * by rewrite decide_True, He' by lia.
      * by rewrite decide_False by lia.
Qed.

(** The tiling of the array after [claim]. *)
Lemma claimed_tiles m m' num p b entry :
  block_at m p b -> b_occ b = false -> 0 < num <= b_len b -> b_len b < 2 ^ 20 ->
  claimed num p (b_len b) entry m m' ->
  block_at m' p (mk_block num true) /\ tiles m' (p + num) (remainder num (b_len b)) (p + b_len b).
Proof.
  intros (Hl & (e & He & Hn & Ho) & Hr) Hocc Hnum Hb Hc. split.
  - split; [simpl; lia|]. split; simpl.
    + eexists. rewrite Hc, decide_True by lia. split; [done|]. simpl. by rewrite decide_True.
    + intros j Hj. eexists. rewrite Hc, decide_True by lia. split; [done|]. simpl.
      by rewrite decide_False by lia.
  - unfold remainder. destruct (Z.eqb_spec (b_len b) num); simpl; [lia|].
    split; [|lia]. split; [simpl; lia|]. split; simpl.
    + destruct (Hr (p + num)) as (e' & He' & _ & Ho'); [lia|].
      eexists. rewrite Hc, decide_False, decide_True, He' by lia. split; [done|]. simpl.
      rewrite u20_small by lia. rewrite Ho'. done.
    + intros j Hj. destruct (Hr j) as (e' & He' & Hn' & Ho'); [lia|].
      exists e'. rewrite Hc, !decide_False by lia. by rewrite Ho', Hocc.
Qed.

(** ** Preservation of the invariant by an allocation *)

Lemma cm_wf_block s m bs bs1 b bs2 p :
  cm_wf s m bs -> bs = bs1 ++ b :: bs2 -> tiles m 0 bs1 p -> block_at m p b ->
  0 <= p /\ p + b_len b <= npages s /\ b_len b < 2 ^ 19.
Proof.
  intros Hwf -> H1 Hb. pose proof (wf_tiles _ _ _ Hwf) as Ht. apply tiles_app in Ht as (q & Hq & Ht).
  pose proof (tiles_total _ _ _ _ H1) as E1. pose proof (tiles_total _ _ _ _ Hq) as E2.
  pose proof (tiles_le _ _ _ _ H1). simpl in Ht. destruct Ht as [_ Ht].
  pose proof (tiles_le _ _ _ _ Ht). pose proof (wf_bound _ _ _ Hwf). lia.
Qed.

(** The scan of [get_n_frames] finds what first fit finds on the whole layout. *)
Lemma first_fit_kernel s m bs num :
  cm_wf s m bs -> exists bs0, bs = mk_block (first_page s) true :: bs0 /\
    tiles m (first_page s) bs0 (npages s) /\
    first_fit num 0 bs = first_fit num (first_page s) bs0.
Proof.
  intros Hwf. destruct (wf_kernel _ _ _ Hwf) as [bs0 ->]. exists bs0. split; [done|].
  pose proof (wf_tiles _ _ _ Hwf) as Ht. simpl in Ht. destruct Ht as [_ Ht]. split; [done|].
  done.
Qed.

Lemma first_fit_above s m bs num p :
  cm_wf s m bs -> first_fit num 0 bs = Some p -> 0 < p < npages s.
Proof.
  intros Hwf Hff. destruct (first_fit_kernel _ _ _ num Hwf) as (bs0 & _ & Ht & E). rewrite E in Hff.
  destruct (first_fit_split _ _ _ _ _ _ Ht Hff) as (bs1 & b & bs2 & _ & _ & H1 & (Hl & _) & H2 & _).
  apply tiles_le in H1, H2. pose proof (wf_pages _ _ _ Hwf). lia.
Qed.

Lemma scan_wf s m bs num :
  cm_wf s m bs ->
  scan (Z.to_nat (npages s) + 1) num (first_page s) s =
    Ret (match first_fit num 0 bs with Some p => (p, true) | None => (npages s, false) end) s.
Proof.
  intros Hwf. destruct (first_fit_kernel s m bs num Hwf) as (bs0 & -> & Ht & ->).
  pose proof (wf_pages _ _ _ Hwf). pose proof (wf_bound _ _ _ Hwf).
  eapply scan_spec; try lia; [apply Hwf|done|].
  apply tiles_length in Ht. lia.
Qed.

Lemma claim_wf s m bs num p entry :
  cm_wf s m bs -> first_fit num 0 bs = Some p -> 0 < num -> (entry = None \/ num = 1) ->
  exists m' b, claim num p entry s = Ret tt (set_coremap m' s) /\
    cm_wf (set_coremap m' s) m' (alloc_layout num bs) /\
    claimed num p (b_len b) entry m m' /\ block_at m p b /\ b_occ b = false /\
    num <= b_len b /\ first_page s <= p /\ p + b_len b <= npages s.
Proof.
  intros Hwf Hff Hnum Hentry. pose proof Hwf as [Hm Hpg Hbd Hdom Ht [bs0 Hk] Himg Hfree Huser].
  destruct (first_fit_split _ _ _ _ _ _ Ht Hff) as (bs1 & b & bs2 & Hbs & Hfit & H1 & Hb & H2 & Hal).
  destruct (cm_wf_block _ _ _ _ _ _ _ Hwf Hbs H1 Hb) as (Hp & Hpn & Hbl).
  unfold fits in Hfit. apply andb_true_iff in Hfit as [Hocc Hlen].
  apply negb_true_iff in Hocc. apply Z.leb_le in Hlen.
  destruct (claim_spec s m p b num entry Hm Hb Hp Hpn Hbd) as (m' & Hrun & Hc); [lia|].
  destruct (claimed_tiles m m' num p b entry Hb Hocc ltac:(lia) ltac:(lia) Hc) as [Hb' Hrem].
  assert (Hfirst : exists bs1', bs1 = mk_block (first_page s) true :: bs1').
  { destruct bs1 as [|b1 bs1']; simpl in Hbs; rewrite Hk in Hbs; simplify_eq; eauto. }
  assert (Hfp : first_page s <= p).
  { destruct Hfirst as [bs1' ->]. simpl in H1. destruct H1 as [_ H1].
    by apply tiles_le in H1. }
  exists m', b. split_and!; try done. constructor; simpl; try done.
  - intros i. rewrite <- Hdom, Hc.
    destruct (decide (p <= i < p + num)).
    + split; intros _; [|by eexists]. apply Hdom. lia.
    + case_decide; [by rewrite fmap_is_Some|done].
  - rewrite Hal, tiles_app. exists p. split.
    + eapply tiles_frame; [|done]. intros j Hj. rewrite Hc, !decide_False by lia. done.
    + simpl. split; [done|]. rewrite tiles_app. exists (p + b_len b). split; [done|].
      eapply tiles_frame; [|done]. intros j Hj. rewrite Hc, !decide_False by lia. done.
  - destruct Hfirst as [bs1' ->]. rewrite Hal. by eexists.
  - intros i e Hi He. rewrite Hc, !decide_False in He by lia. by eapply Himg.
  - intros i e. rewrite Hc. case_decide; [by intros [= <-]|]. case_decide as Hd.
    + intros (e0 & He0 & ->)%fmap_Some. simpl. by eapply Hfree.
    + by apply Hfree.
  - intros i e q. rewrite Hc. case_decide.
    + intros [= <-]. simpl. intros ->. destruct Hentry as [ | -> ]; [done|].
      by rewrite decide_True by lia.
    + case_decide as Hd.
      * destruct Hd as [-> Hlt]. intros (e0 & He0 & ->)%fmap_Some. simpl. intros Hq.
        destruct Hb as (_ & _ & Hr). destruct (Hr (p + num)) as (e1 & He1 & _ & Ho1); [lia|].
        rewrite He0 in He1. simplify_eq. destruct (Hfree _ _ He0) as [_ ?]; [congruence|].
        congruence.
      * by apply Huser.
Qed.

(** ** Merging *)

(** Two adjacent free blocks after the two assignments of the inner loop. *)
Lemma merge_blocks m i b b1 e e1 :
  block_at m i b -> block_at m (i + b_len b) b1 -> b_occ b = false -> b_occ b1 = false ->
  b_len b + b_len b1 < 2 ^ 20 -> m !! i = Some e -> m !! (i + b_len b) = Some e1 ->
  block_at (<[i + b_len b := set_nframes 0 e1]> (<[i := set_nframes (b_len b + b_len b1) e]> m))
    i (mk_block (b_len b + b_len b1) false).
Proof.
  intros (Hl & (e' & He' & Hn & Ho) & Hr) (Hl1 & (e1' & He1' & Hn1 & Ho1) & Hr1)
    Hb Hb1 Hbd He He1. rewrite He in He'. rewrite He1 in He1'. simplify_eq.
  split; [simpl; lia|]. split; simpl.
  - eexists. rewrite lookup_insert_ne, lookup_insert_eq by lia. split; [done|]. simpl.
    by rewrite u20_small, Ho by lia.
  - intros j Hj. rewrite lookup_insert. case_decide as Hd.
    + eexists. split; [done|]. simpl. by rewrite Ho1.
    + rewrite lookup_insert_ne by lia. destruct (Z.lt_ge_cases j (i + b_len b)).
      * destruct (Hr j) as (ej & Hej & ? & ?); [lia|]. exists ej. by rewrite <- Hb.
      * destruct (Hr1 j) as (ej & Hej & ? & ?); [lia|]. exists ej. by rewrite <- Hb1.
Qed.

(** What the loops of [free_frame] change: only lengths of free frames. *)
Definition only_lengths (m m' : gmap Z cm_entry) : Prop :=
  forall j, match m !! j, m' !! j with
            | Some e, Some e' => occ e' = occ e /\ fixed e' = fixed e /\ cm_pte e' = cm_pte e /\
                                 (occ e = true -> e' = e)
            | None, None => True
            | _, _ => False
            end.

Lemma only_lengths_refl m : only_lengths m m.
Proof. intros j. by destruct (m !! j). Qed.

Lemma only_lengths_trans m1 m2 m3 :
  only_lengths m1 m2 -> only_lengths m2 m3 -> only_lengths m1 m3.
Proof.
  intros H1 H2 j. specialize (H1 j). specialize (H2 j).
  destruct (m1 !! j) as [e1|], (m2 !! j) as [e2|], (m3 !! j) as [e3|]; try done.
  destruct H1 as (? & ? & ? & H1), H2 as (? & ? & ? & H2). split_and!; try congruence.
  intros Ho. rewrite H2, H1; congruence.
Qed.

Lemma only_lengths_set (m : gmap Z cm_entry) i n e :
  m !! i = Some e -> occ e = false -> only_lengths m (<[i := set_nframes n e]> m).
Proof.
  intros He Ho j. rewrite lookup_insert. case_decide; subst; [|by destruct (m !! j)].
  rewrite He. simpl. rewrite Ho. by split_and!.
Qed.

Lemma tiles_end m i bs n : tiles m i bs n -> n <= i -> bs = [].
Proof.
  destruct bs as [|b bs]; [done|]. simpl. intros [(Hl & _) Ht] Hn.
  apply tiles_le in Ht. lia.
Qed.

Lemma tiles_more m i bs n : tiles m i bs n -> i < n -> exists b bs', bs = b :: bs'.
Proof. destruct bs as [|b bs]; simpl; [lia|]. eauto. Qed.

(** The inner loop absorbs the free blocks after block [i]. *)
Lemma merge_run_spec fuel s m i b bs :
  coremap s = Some m -> 0 <= i -> npages s < 2 ^ 19 -> b_occ b = false ->
  block_at m i b -> tiles m (i + b_len b) bs (npages s) -> (length bs < fuel)%nat ->
  exists m' b' bs',
    merge_run fuel i (i + b_len b) s = Ret (i + b_len b') (set_coremap m' s) /\
    b_occ b' = false /\ block_at m' i b' /\ tiles m' (i + b_len b') bs' (npages s) /\
    coalesce_layout (b :: bs) = coalesce_layout (b' :: bs') /\
    (forall b1 r, bs' = b1 :: r -> b_occ b1 = true) /\
    (length bs' <= length bs)%nat /\ only_lengths m m' /\ (forall j, j < i -> m' !! j = m !! j).
Proof.
  intros Hm Hi Hn. revert s m b bs Hm Hn.
  induction fuel as [|fuel IH]; intros s m b bs Hm Hn Hocc Hb Ht Hf; [lia|].
  cbn [merge_run]. rewrite (run_bind _ _ s s s) by done.
  destruct (Z.ltb_spec (i + b_len b) (npages s)) as [Hlt|Hge].
  2: { assert (bs = []) as -> by (eapply tiles_end; [done|lia]). exists m, b, [].
       split_and!; try done; auto using only_lengths_refl.
       by destruct s; simpl in *; subst. }
  destruct (tiles_more _ _ _ _ Ht Hlt) as (b1 & bs1 & ->). simpl in Ht.
  destruct Ht as [Hb1 Ht]. pose proof Hb as (Hl & (e & He & Hne & Hoe) & _).
  pose proof Hb1 as (Hl1 & (e1 & He1 & Hn1 & Ho1) & _).
  rewrite (run_bind _ _ _ _ _ (cm_get_eq _ _ _ _ Hm He1)). rewrite Ho1.
  destruct (b_occ b1) eqn:Hocc1; cbn [negb].
  { exists m, b, (b1 :: bs1). split_and!; try done; auto using only_lengths_refl.
    - by destruct s; simpl in *; subst.
    - naive_solver. }
  pose proof (tiles_le _ _ _ _ Ht) as Hle. cbv zeta. rewrite Hn1.
  rewrite (run_bind _ _ _ _ _ (cm_upd_eq s m i _ e Hm He)). rewrite Hne.
  set (m1 := <[i := set_nframes (b_len b + b_len b1) e]> m).
  assert (He1' : m1 !! (i + b_len b) = Some e1) by (unfold m1; by rewrite lookup_insert_ne by lia).
  rewrite (run_bind _ _ _ _ _ (cm_upd_eq (set_coremap m1 s) m1 (i + b_len b) _ e1 eq_refl He1')).
  pose proof (merge_blocks m i b b1 e e1 Hb Hb1 Hocc Hocc1 ltac:(lia) He He1) as Hmb.
  fold m1 in Hmb. set (m2 := <[i + b_len b := _]> m1) in *.
  assert (Hsame : forall j, j <> i -> j <> i + b_len b -> m2 !! j = m !! j)
    by (intros j ??; unfold m2, m1; by rewrite !lookup_insert_ne by lia).
  rewrite u32_small by lia.
  destruct (IH (set_coremap m2 s) m2 (mk_block (b_len b + b_len b1) false) bs1)
    as (m' & b' & bs' & Hrun & H1 & H2 & H3 & H4 & H5 & H6 & H7 & H8); try done.
  - simpl. rewrite Z.add_assoc. eapply tiles_frame; [|done]. intros j Hj. apply Hsame; lia.
  - simpl in Hf. lia.
  - exists m', b', bs'. split_and!; try done.
    + simpl in Hrun. by rewrite Z.add_assoc in Hrun.
    + rewrite <- H4. simpl. by apply merge2_assoc.
    + simpl. lia.
    + eapply only_lengths_trans; [|done].
      eapply only_lengths_trans; apply only_lengths_set; congruence.
    + intros j Hj. rewrite H8 by done. apply Hsame; lia.
Qed.

Lemma merge2_occ b bs : b_occ b = true -> merge2 b bs = b :: bs.
Proof. intros H. destruct bs; simpl; [done|]. by rewrite H. Qed.

Lemma merge2_occ_next b b1 bs : b_occ b1 = true -> merge2 b (b1 :: bs) = b :: b1 :: bs.
Proof. intros H. simpl. rewrite H. by rewrite andb_false_r. Qed.

(** The outer loop computes the coalesced layout. *)
Lemma coalesce_spec fuel s m i b bs :
  coremap s = Some m -> 0 <= i -> npages s < 2 ^ 19 ->
  block_at m i b -> tiles m (i + b_len b) bs (npages s) -> (length bs < fuel)%nat ->
  exists m', coalesce fuel i (i + b_len b) s = Ret tt (set_coremap m' s) /\
    tiles m' i (coalesce_layout (b :: bs)) (npages s) /\ only_lengths m m' /\
    (forall j, j < i -> m' !! j = m !! j).
Proof.
  revert s m i b bs. induction fuel as [|fuel IH]; intros s m i b bs Hm Hi Hn Hb Ht Hf; [lia|].
  cbn [coalesce]. rewrite (run_bind _ _ s s s) by done. pose proof Hb as (Hl & (e & He & Hne & Hoe) & _).
  destruct (Z.ltb_spec (i + b_len b) (npages s)) as [Hlt|Hge].
  2: { assert (bs = []) as -> by (eapply tiles_end; [done|lia]). exists m.
       split_and!; try done; auto using only_lengths_refl.
       by destruct s; simpl in *; subst. }
  rewrite (run_bind _ _ _ _ _ (cm_get_eq _ _ _ _ Hm He)). rewrite Hoe.
  destruct (b_occ b) eqn:Hocc; cbn [negb].
  - destruct (tiles_more _ _ _ _ Ht Hlt) as (b1 & bs1 & ->). simpl in Ht. destruct Ht as [Hb1 Ht].
    pose proof Hb1 as (Hl1 & (e1 & He1 & Hn1 & _) & _). pose proof (tiles_le _ _ _ _ Ht).
    rewrite (run_bind _ _ _ _ _ (cm_get_eq _ _ _ _ Hm He1)), Hn1, u32_small by lia.
    destruct (IH s m (i + b_len b) b1 bs1) as (m' & Hrun & Ht' & Hol & Hlow); try done;
      [lia|simpl in Hf; lia|].
    exists m'. split_and!; try done; [|intros j Hj; apply Hlow; lia].
    change (coalesce_layout (b :: b1 :: bs1)) with (merge2 b (coalesce_layout (b1 :: bs1))).
    rewrite merge2_occ by done. simpl. split; [|done].
    eapply block_at_ext; [|done]. intros j ej Hj Hej. exists ej. rewrite Hlow by lia. done.
  - destruct (merge_run_spec (Z.to_nat (npages s) + 1) s m i b bs)
      as (m1 & b' & bs' & Hrun & H1 & H2 & H3 & H4 & H5 & H6 & H7 & H8); try done.
    { apply tiles_length in Ht. lia. }
    rewrite (run_bind _ _ _ _ _ Hrun), H4. simpl npages.
    destruct (Z.leb_spec (npages s) (i + b_len b')) as [Hend|Hmore].
    + assert (bs' = []) as -> by (eapply tiles_end; [done|lia]). exists m1. by split_and!.
    + destruct (tiles_more _ _ _ _ H3 Hmore) as (b1 & bs1 & ->). simpl in H3. destruct H3 as [Hb1 Ht1].
      pose proof Hb1 as (Hl1 & (e1 & He1 & Hn1 & _) & _). pose proof (tiles_le _ _ _ _ Ht1).
      pose proof (proj1 H2) as Hl'.
      rewrite (run_bind _ _ _ _ _ (cm_get_eq (set_coremap m1 s) m1 _ _ eq_refl He1)), Hn1, u32_small by lia.
      destruct (IH (set_coremap m1 s) m1 (i + b_len b') b1 bs1) as (m' & Hrun' & Ht' & Hol & Hlow);
        try done; [lia|simpl in *; lia|].
      exists m'. split_and!; try done.
      * specialize (H5 _ _ eq_refl).
        change (coalesce_layout (b' :: b1 :: bs1)) with (merge2 b' (merge2 b1 (coalesce_layout bs1))).
        rewrite (merge2_occ b1) by done. rewrite merge2_occ_next by done.
        change (coalesce_layout (b1 :: bs1)) with (merge2 b1 (coalesce_layout bs1)) in Ht'.
        rewrite merge2_occ in Ht' by done. cbn [tiles]. split; [|done].
        eapply block_at_ext; [|done]. intros j ej Hj Hej. exists ej. rewrite Hlow by lia. done.
      * by eapply only_lengths_trans.
      * intros j Hj. rewrite Hlow by lia. by apply H8.
Qed.

(** ** Freeing a block *)

(** The entries after freeing the block [p, p + n): those of the block are free, the
    others keep all but, for free ones, their length. *)
Definition released (p n : Z) (m m' : gmap Z cm_entry) : Prop :=
  forall j e, m !! j = Some e -> exists e', m' !! j = Some e' /\
    if decide (p <= j < p + n) then occ e' = false /\ fixed e' = false /\ cm_pte e' = None
    else occ e' = occ e /\ fixed e' = fixed e /\ cm_pte e' = cm_pte e /\ (occ e = true -> e' = e).

(** The frames of a block are marked free. *)
Lemma mark_free_tiles m m1 bs1 b bs2 p n :
  tiles m 0 bs1 p -> block_at m p b -> tiles m (p + b_len b) bs2 n ->
  on_range (fun e => mk_cm false false (nframes e) None) p (b_len b) m m1 ->
  tiles m1 0 (bs1 ++ mk_block (b_len b) false :: bs2) n.
Proof.
  intros H1 (Hl & (e & He & Hn & _) & Hr) H2 Hm1. rewrite tiles_app. exists p. split.
  { eapply tiles_frame; [|exact H1]. intros j Hj. by rewrite Hm1, decide_False by lia. }
  simpl. split.
  2: { eapply tiles_frame; [|exact H2]. intros j Hj. by rewrite Hm1, decide_False by lia. }
  split; [done|]. simpl. split.
  - eexists. rewrite Hm1, decide_True, He by lia. by simpl.
  - intros j Hj. destruct (Hr j Hj) as (ej & Hej & Hnj & _).
    eexists. rewrite Hm1, decide_True, Hej by lia. by simpl.
Qed.

(** The invariant after a release, from the tiling. *)
Lemma released_wf s m m' bs bs' p n :
  cm_wf s m bs -> first_page s <= p -> released p n m m' ->
  (forall j, m !! j = None -> m' !! j = None) ->
  tiles m' 0 bs' (npages s) -> (exists r, bs' = mk_block (first_page s) true :: r) ->
  cm_wf (set_coremap m' s) m' bs'.
Proof.
  intros [Hm Hpg Hbd Hdom Ht _ Himg Hfree Huser] Hfp Hrel Hnone Ht' Hk.
  assert (Hold : forall i e', m' !! i = Some e' -> exists e, m !! i = Some e /\
    if decide (p <= i < p + n) then occ e' = false /\ fixed e' = false /\ cm_pte e' = None
    else occ e' = occ e /\ fixed e' = fixed e /\ cm_pte e' = cm_pte e /\ (occ e = true -> e' = e)).
  { intros i e' He'. destruct (m !! i) as [e|] eqn:Hmi; [|by rewrite Hnone in He'].
    exists e. split; [done|]. destruct (Hrel i e Hmi) as (e2 & He2 & Hr). by simplify_eq. }
  constructor; simpl; try done.
  - intros i. rewrite <- Hdom. destruct (m !! i) as [ei|] eqn:Hi.
    + destruct (Hrel i ei Hi) as (e' & -> & _). split; intros _; by eexists.
    + by rewrite Hnone.
  - intros i ei Hi (e & He & Hr)%Hold. rewrite decide_False in Hr by lia.
    destruct (Himg i e Hi He) as [? ?], Hr as (_ & -> & -> & _). done.
  - intros i ei (e & He & Hr)%Hold Ho. case_decide; [tauto|].
    destruct Hr as (Ho' & -> & -> & _). apply (Hfree i e He). congruence.
  - intros i ei q (e & He & Hr)%Hold Hq. case_decide; [intuition congruence|].
    destruct Hr as (Ho' & _ & Hc & Heq). rewrite Hc in Hq. pose proof (Huser i e q He Hq).
    destruct (occ e) eqn:Hoo; [by rewrite Heq|]. destruct (Hfree i e He Hoo). congruence.
Qed.

Lemma release_wf s m bs p e :
  cm_wf s m bs -> first_page s <= p -> m !! p = Some e -> 0 < nframes e ->
  exists m', release_block p (nframes e) s = Ret tt (set_coremap m' s) /\
    cm_wf (set_coremap m' s) m' (free_layout p bs) /\ released p (nframes e) m m'.
Proof.
  intros Hwf Hfp He Hn. pose proof Hwf as [Hm Hpg Hbd Hdom Ht [bs0 Hk] _ _ _].
  assert (Hp : 0 <= p < npages s) by (apply Hdom; eauto).
  destruct (tiles_head _ _ _ _ _ _ Ht Hp He Hn) as (bs1 & b & bs2 & Hbs & H1 & Hb & H2 & Hbl & Hbo).
  destruct (cm_wf_block _ _ _ _ _ _ _ Hwf Hbs H1 Hb) as (_ & Hpn & _).
  destruct (for_upd_eq s m (fun e => mk_cm false false (nframes e) None)
    (Z.to_nat (nframes e)) p Hm) as (m1 & Hrun1 & Hm1); [intros j Hj; apply Hdom; lia|].
  rewrite Z2Nat.id, <- Hbl in Hm1 by lia. unfold release_block. rewrite (run_bind _ _ _ _ _ Hrun1).
  pose proof (mark_free_tiles _ _ _ _ _ _ _ H1 Hb H2 Hm1) as Ht1.
  assert (Hfirst : exists bs1', bs1 = mk_block (first_page s) true :: bs1').
  { destruct bs1 as [|b1 bs1']; simpl in Hbs; rewrite Hk in Hbs; simplify_eq; eauto.
    simpl in H1. lia. }
  destruct Hfirst as [bs1' ->].
  pose proof Ht1 as [(Hl0 & (e0 & He0 & Hn0 & _) & _) Ht1'].
  rewrite (run_bind _ _ _ _ _ (cm_get_eq (set_coremap m1 s) m1 0 e0 eq_refl He0)).
  rewrite (run_bind _ _ _ (set_coremap m1 s) (set_coremap m1 s)) by done. rewrite Hn0.
  destruct (coalesce_spec (Z.to_nat (npages s) + 1) (set_coremap m1 s) m1 0
    (mk_block (first_page s) true) (bs1' ++ mk_block (b_len b) false :: bs2))
    as (m' & Hrun' & Ht' & Hol & _); try done.
  { apply Ht1. }
  { apply tiles_length in Ht1'. simpl in *. lia. }
  assert (Hrel : released p (nframes e) m m').
  { intros j ej Hej. specialize (Hol j). rewrite Hm1, Hej, Hbl in Hol.
    case_decide; simpl in Hol; destruct (m' !! j) as [e'|]; try done;
      destruct Hol as (? & ? & ? & ?); exists e'; by split_and!. }
  exists m'. split; [exact Hrun'|]. split; [|done].
  eapply released_wf; try done.
  - intros j Hj. specialize (Hol j). rewrite Hm1, Hj in Hol.
    case_decide; simpl in Hol; by destruct (m' !! j).
  - unfold free_layout. rewrite Hbs.
    by rewrite (free_at_app p 0 (mk_block (first_page s) true :: bs1') b bs2 m (npages s)).
  - unfold free_layout. rewrite Hbs.
    rewrite (free_at_app p 0 (mk_block (first_page s) true :: bs1') b bs2 m (npages s)) by done.
    eexists. simpl app.
    change (coalesce_layout (?b :: ?r)) with (merge2 b (coalesce_layout r)). by rewrite merge2_occ.
Qed.

(** ** The victim search *)

(** No frame of the range may be swapped out. *)
Definition none_in (m : gmap Z cm_entry) (i j : Z) : Prop :=
  forall f e, i <= f < j -> m !! f = Some e -> swappable e = false.

Lemma block_none_in m p b e :
  (forall f e p, m !! f = Some e -> cm_pte e = Some p -> nframes e = 1) ->
  block_at m p b -> m !! p = Some e -> swappable e = false -> none_in m p (p + b_len b).
Proof.
  intros Huser (_ & _ & Hr) He Hsw f ef Hf Hef. destruct (decide (f = p)) as [->|]; [congruence|].
  destruct (Hr f) as (ef' & Hef' & Hnf & _); [lia|]. rewrite Hef in Hef'. injection Hef' as <-.
  unfold swappable. destruct (cm_pte ef) as [pt|] eqn:Hc; [|by rewrite andb_false_r].
  pose proof (Huser _ _ _ Hef Hc). lia.
Qed.

(** Walking over the blocks from [i] to [q] either stops at a swappable frame or goes
    on at [q], having seen no swappable frame. *)
Lemma victim_walk s m prev bs i q fuel :
  coremap s = Some m -> 0 <= i -> q <= npages s -> (prev <= i \/ q <= prev) ->
  (forall f e p, m !! f = Some e -> cm_pte e = Some p -> nframes e = 1) ->
  tiles m i bs q -> bs <> [] -> (length bs <= fuel)%nat ->
  (exists v e, victim_loop fuel prev i false s = Ret (Some v) s /\ i <= v < q /\
     m !! v = Some e /\ swappable e = true) \/
  (none_in m i q /\
   victim_loop fuel prev i false s =
     victim_loop (fuel - length bs) prev (q mod npages s) (q mod npages s =? prev) s).
Proof.
  intros Hm Hi Hq Hprev Huser. revert i fuel Hi Hprev.
  induction bs as [|b bs IH]; intros i fuel Hi Hprev Ht Hne Hf; [done|].
  destruct fuel as [|fuel]; simpl in Hf; [lia|]. simpl in Ht.
  destruct Ht as [Hb Ht]. pose proof Hb as (Hl & (e & He & Hn & Ho) & Hr).
  pose proof (tiles_le _ _ _ _ Ht) as Hle. cbn [victim_loop]. rewrite (run_bind _ _ s s s) by done.
  rewrite (run_bind _ _ _ _ _ (cm_get_eq _ _ _ _ Hm He)).
  destruct (swappable e) eqn:Hsw.
  { left. exists i, e. split_and!; try done; lia. }
  rewrite Hn. cbv zeta.
  pose proof (block_none_in _ _ _ _ Huser Hb He Hsw) as Hhead.
  destruct bs as [|b2 bs].
  - simpl in Ht. right. rewrite <- Ht. split; [done|].
    cbn [length]. by replace (S fuel - 1)%nat with fuel by lia.
  - pose proof Ht as [(Hl2 & _) Ht2]. pose proof (tiles_le _ _ _ _ Ht2).
    assert ((i + b_len b) mod npages s = i + b_len b) as -> by (apply Z.mod_small; lia).
    rewrite (proj2 (Z.eqb_neq _ _)) by lia.
    destruct (IH (i + b_len b) fuel) as [(v & ev & H1 & H2 & H3 & H4)|[H1 H2]]; try done;
      try lia; try (simpl in *; lia).
    + left. exists v, ev. split_and!; try done; lia.
    + right. split; [|done]. intros f ef Hfr Hef.
      destruct (Z.lt_ge_cases f (i + b_len b)); [eapply Hhead|eapply H1]; eauto; lia.
Qed.

(** A right answer of the search over [n] frames. *)
Definition victim_ok (m : gmap Z cm_entry) (n : Z) (r : option Z) : Prop :=
  match r with
  | Some v => exists e, m !! v = Some e /\ swappable e = true
  | None => none_in m 0 n
  end.

Lemma none_in_join m i j k : none_in m i j -> none_in m j k -> none_in m i k.
Proof.
  intros H1 H2 f e Hf He. destruct (Z.lt_ge_cases f j); [eapply H1|eapply H2]; eauto; lia.
Qed.

(** The last step: the previous victim itself is tested, with the loop flag set. *)
Lemma victim_last s m prev e n fuel :
  coremap s = Some m -> m !! prev = Some e -> (0 < fuel)%nat ->
  (swappable e = false -> none_in m 0 n) ->
  exists r, victim_loop fuel prev prev true s = Ret r s /\ victim_ok m n r.
Proof.
  intros Hm He Hf Hnone. destruct fuel as [|fuel]; [lia|]. cbn [victim_loop].
  rewrite (run_bind _ _ s s s) by done. rewrite (run_bind _ _ _ _ _ (cm_get_eq _ _ _ _ Hm He)).
  destruct (swappable e) eqn:Hsw.
  - exists (Some prev). split; [done|]. by exists e.
  - exists None. split; [done|]. by apply Hnone.
Qed.

(** The second half of the round: from frame 0 to the previous victim. *)
Lemma victim_from_zero s m prev e n bs1 fuel :
  coremap s = Some m -> m !! prev = Some e -> n = npages s -> 0 < prev < n ->
  (forall f e p, m !! f = Some e -> cm_pte e = Some p -> nframes e = 1) ->
  tiles m 0 bs1 prev -> (length bs1 + 1 <= fuel)%nat ->
  (swappable e = false -> none_in m prev n) ->
  exists r, victim_loop fuel prev 0 false s = Ret r s /\ victim_ok m n r.
Proof.
  intros Hm He -> Hp Huser Ht Hf Hhigh.
  destruct (victim_walk s m prev bs1 0 prev fuel) as [(v & ev & Hv & _ & ? & ?)|[Hlow Heq]];
    try done; try lia.
  - intros ->. simpl in Ht. lia.
  - exists (Some v). split; [done|]. by exists ev.
  - rewrite Z.mod_small, Z.eqb_refl in Heq by lia. rewrite Heq.
    eapply victim_last; [done..|lia|]. intros Hsw. eapply none_in_join; eauto.
Qed.

(** From a previous victim that still starts a block, the search ends, and finds a
    swappable frame when there is one. *)
Lemma find_victim_spec s m bs e :
  cm_wf s m bs -> m !! prev_victim s = Some e -> 0 < nframes e ->
  exists r, find_victim s = Ret r s /\ victim_ok m (npages s) r.
Proof.
  intros [Hm Hpg Hbd Hdom Ht [bs0 Hk] _ _ Huser] He Hn. set (prev := prev_victim s) in *.
  assert (Hp : 0 <= prev < npages s) by (apply Hdom; eauto).
  destruct (tiles_head _ _ _ _ _ _ Ht Hp He Hn) as (bs1 & b & bs2 & Hbs & H1 & Hb & H2 & Hbl & Hbo).
  pose proof (tiles_length _ _ _ _ Ht) as Hlen. rewrite Hbs, length_app in Hlen. simpl in Hlen.
  pose proof (tiles_le _ _ _ _ H2) as Hle2.
  assert (Hhere : swappable e = false -> none_in m prev (prev + b_len b))
    by (intros; by eapply block_none_in).
  assert (Hrun : find_victim s = victim_loop (Z.to_nat (npages s) + 2) prev
                   ((prev + b_len b) mod npages s) false s).
  { unfold find_victim. rewrite (run_bind _ _ s s s) by done.
    by rewrite (run_bind _ _ _ _ _ (cm_get_eq _ _ _ _ Hm He)), <- Hbl. }
  rewrite Hrun. destruct (decide (prev + b_len b = npages s)) as [Hend|Hend].
  - rewrite Hend, Z.mod_same by lia. eapply (victim_from_zero _ _ _ _ _ bs1); try done; try lia.
    + split; [|lia]. destruct (Z.eq_dec prev 0) as [Hz|]; [|lia].
      destruct bs1 as [|b1 bs1']; simpl in Hbs; rewrite Hk in Hbs; simplify_eq; simpl in *; [lia|].
      destruct H1 as [_ H1]. apply tiles_le in H1. lia.
    + by rewrite <- Hend.
  - rewrite Z.mod_small by lia.
    destruct (victim_walk s m prev bs2 (prev + b_len b) (npages s) (Z.to_nat (npages s) + 2))
      as [(v & ev & Hv & _ & ? & ?)|[Hhigh Heq]]; try done; try lia.
    + intros ->. simpl in H2. lia.
    + exists (Some v). split; [done|]. by exists ev.
    + rewrite Heq, Z.mod_same by lia. destruct (Z.eqb_spec 0 prev) as [E|E].
      * destruct (victim_last s m prev e (npages s) (Z.to_nat (npages s) + 2 - length bs2))
          as (r & Hr & Hok); try done; [lia| |exists r; by rewrite <- Hr, <- E].
        intros Hsw. rewrite E. eapply none_in_join; eauto.
      * eapply (victim_from_zero _ _ _ _ _ bs1); try done; try lia.
        intros Hsw. eapply none_in_join; eauto.
Qed.

(** From a previous victim that is now inside a block the search gives up at once. *)
Lemma find_victim_stale s m bs e :
  cm_wf s m bs -> 0 <= prev_victim s < npages s -> m !! prev_victim s = Some e -> nframes e = 0 ->
  find_victim s = Ret None s.
Proof.
  intros Hwf Hp He Hn. pose proof (wf_map _ _ _ Hwf) as Hm. set (prev := prev_victim s) in *.
  assert (Hsw : swappable e = false).
  { unfold swappable. destruct (cm_pte e) as [p|] eqn:Hpte; [|by rewrite andb_false_r].
    pose proof (wf_user _ _ _ Hwf _ _ _ He Hpte). lia. }
  unfold find_victim. rewrite (run_bind _ _ s s s) by done. fold prev.
  rewrite (run_bind _ _ _ _ _ (cm_get_eq _ _ _ _ Hm He)), Hn, Z.add_0_r, Z.mod_small by done.
  rewrite Nat.add_comm. cbn [victim_loop Nat.add]. rewrite (run_bind _ _ s s s) by done.
  rewrite (run_bind _ _ _ _ _ (cm_get_eq _ _ _ _ Hm He)), Hsw, Hn, Z.add_0_r, Z.mod_small, Z.eqb_refl by done.
  cbv iota. rewrite (run_bind _ _ s s s) by done.
  by rewrite (run_bind _ _ _ _ _ (cm_get_eq _ _ _ _ Hm He)), Hsw.
Qed.

Lemma find_victim_total s m bs :
  cm_wf s m bs -> 0 <= prev_victim s < npages s ->
  exists r, find_victim s = Ret r s /\
    (forall v, r = Some v -> exists e, m !! v = Some e /\ swappable e = true) /\
    (r = None -> forall e, m !! prev_victim s = Some e -> 0 < nframes e -> none_in m 0 (npages s)).
Proof.
  intros Hwf Hp. destruct (proj2 (wf_dom _ _ _ Hwf _) Hp) as [e He].
  destruct (Z.eq_dec (nframes e) 0) as [Hz|Hnz].
  - exists None. split; [by eapply find_victim_stale|]. split; [done|].
    intros _ e' He' Hn. simplify_eq. lia.
  - assert (Hn : 0 < nframes e).
    { destruct (tiles_lookup _ _ _ _ _ (wf_tiles _ _ _ Hwf) Hp)
        as (bs1 & b & bs2 & p & _ & _ & (Hl & (e0 & He0 & Hn0 & _) & Hin) & _ & Hr).
      destruct (Z.eq_dec (prev_victim s) p) as [E|E]; [rewrite E in He; simplify_eq; lia|].
      destruct (Hin (prev_victim s)) as (e1 & He1 & Hn1 & _); [lia|]. by simplify_eq. }
    destruct (find_victim_spec _ _ _ _ Hwf He Hn) as (r & Hr & Hok). exists r.
    split; [done|]. split; [intros v ->; done|]. intros -> e' _ _. done.
Qed.

(** Changing the owner or the [fixed] flag of an allocated frame keeps the layout; the
    previous victim may move. *)
Lemma cm_wf_set s m bs v ev e' pv :
  cm_wf s m bs -> m !! v = Some ev -> occ ev = true -> same_shape ev e' -> first_page s <= v ->
  (forall p, cm_pte e' = Some p -> nframes ev = 1) ->
  cm_wf (mk_cm_st (Some (<[v := e']> m)) (npages s) (first_page s) pv) (<[v := e']> m) bs.
Proof.
  intros [Hm Hpg Hbd Hdom Ht Hk Himg Hfree Huser] Hv Hocc [Hn Ho] Hfirst Hu. split; simpl; try done.
  - intros i. rewrite lookup_insert_is_Some, <- Hdom. split; [|destruct (decide (v = i)); auto].
    intros [<-|[_ ?]]; [by eexists|done].
  - eapply tiles_ext; [|done]. intros j e _ Hj. rewrite lookup_insert. case_decide; [subst j|].
    + exists e'. by simplify_eq.
    + by exists e.
  - intros i e Hi. rewrite lookup_insert_ne by lia. by apply Himg.
  - intros i e. rewrite lookup_insert. case_decide; [|apply Hfree]. intros [= <-]. congruence.
  - intros i e p. rewrite lookup_insert. case_decide; [|apply Huser]. intros [= <-] Hp.
    rewrite <- Hn. by eapply Hu.
Qed.

Lemma cm_wf_prev s m bs pv :
  cm_wf s m bs -> cm_wf (mk_cm_st (Some m) (npages s) (first_page s) pv) m bs.
Proof. by intros [? ? ? ? ? ? ? ? ?]; split. Qed.

(** A frame with an owner is above the kernel image. *)
Lemma owned_above s m bs v ev p :
  cm_wf s m bs -> m !! v = Some ev -> cm_pte ev = Some p -> first_page s <= v < npages s.
Proof.
  intros Hwf Hv Hp. assert (0 <= v < npages s) by (apply (wf_dom _ _ _ Hwf); eauto).
  destruct (Z.lt_ge_cases v (first_page s)); [|lia].
  destruct (wf_image _ _ _ Hwf v ev); [lia|done|congruence].
Qed.

(** ** No fragmentation *)

(** No two free blocks are neighbours. *)
Fixpoint coalesced (bs : list block) : bool :=
  match bs with
  | b :: ((b' :: _) as r) => (b_occ b || b_occ b') && coalesced r
  | _ => true
  end.

Lemma coalesced_cons b b' r :
  coalesced (b :: b' :: r) = (b_occ b || b_occ b') && coalesced (b' :: r).
Proof. done. Qed.

Lemma coalesced_merge2 b bs : coalesced bs = true -> coalesced (merge2 b bs) = true.
Proof.
  destruct bs as [|b' r]; [done|]. unfold merge2. intros H.
  destruct (b_occ b) eqn:Eb, (b_occ b') eqn:Eb'; cbn [negb andb]; try (rewrite coalesced_cons, Eb, ?Eb', H; done).
  destruct r as [|b2 r']; [done|]. rewrite coalesced_cons in H |- *. by rewrite Eb' in H.
Qed.

Lemma coalesced_coalesce bs : coalesced (coalesce_layout bs) = true.
Proof. induction bs as [|b bs IH]; [done|]. by apply coalesced_merge2. Qed.

Lemma coalesced_tail b bs : coalesced (b :: bs) = true -> coalesced bs = true.
Proof. destruct bs as [|b' r]; [done|]. rewrite coalesced_cons. by intros [_ H]%andb_true_iff. Qed.

Lemma coalesce_id bs : coalesced bs = true -> coalesce_layout bs = bs.
Proof.
  induction bs as [|b bs IH]; [done|]. intros H.
  change (coalesce_layout (b :: bs)) with (merge2 b (coalesce_layout bs)).
  rewrite IH by by eapply coalesced_tail. destruct bs as [|b' r]; [done|]. rewrite coalesced_cons in H.
  unfold merge2. by destruct (b_occ b), (b_occ b').
Qed.

Lemma fits_free num b : fits num b = true -> b_occ b = false.
Proof. unfold fits. by destruct (b_occ b). Qed.

(** Taking frames from a free block leaves no neighbours free. *)
Lemma coalesced_alloc num bs : coalesced bs = true -> coalesced (alloc_layout num bs) = true.
Proof.
  induction bs as [|b bs IH]; [done|]. intros H. pose proof (coalesced_tail _ _ H) as Ht. simpl.
  destruct (fits num b) eqn:Hf.
  - unfold remainder. destruct (b_len b =? num); cbn [app].
    + destruct bs as [|b' r]; [done|]. by rewrite coalesced_cons.
    + rewrite coalesced_cons. cbn [b_occ orb andb]. destruct bs as [|b' r]; [done|].
      rewrite coalesced_cons in H |- *. by rewrite (fits_free _ _ Hf) in H.
  - pose proof (IH Ht) as IH'. destruct bs as [|b' r]; [done|]. rewrite coalesced_cons in H.
    apply andb_true_iff in H as [Ho _]. simpl in IH' |- *. destruct (fits num b') eqn:Hf'.
    + rewrite IH'. cbn [b_occ]. by rewrite orb_true_r.
    + by rewrite Ho, IH'.
Qed.

(** Freeing the block just allocated gives the layout back. *)
Lemma free_alloc_layout num bs p m n :
  tiles m 0 bs n -> coalesced bs = true -> first_fit num 0 bs = Some p -> 0 < num ->
  free_layout p (alloc_layout num bs) = bs.
Proof.
  intros Ht Hco Hff Hnum. destruct (first_fit_split _ _ _ _ _ _ Ht Hff)
    as (bs1 & b & bs2 & Hbs & Hfit & H1 & Hb & H2 & Halloc).
  unfold fits in Hfit. apply andb_true_iff in Hfit as [Hfree%negb_true_iff Hle].
  unfold free_layout. rewrite Halloc. rewrite (free_at_pos p 0 bs1 _ _ m) by done.
  rewrite <- (coalesce_id bs Hco), Hbs. unfold coalesce_layout. rewrite !foldr_app. f_equal.
  cbn [foldr b_len]. destruct b as [len o]; simpl in *; subst o. unfold remainder.
  destruct (Z.eqb_spec len num) as [->|Hne]; [done|]. cbn [app foldr].
  rewrite merge2_assoc by done. cbn [b_len]. by replace (num + (len - num)) with len by lia.
Qed.

(** ** Start-up *)

Definition boot_layout (first n : Z) : list block :=
  [mk_block first true; mk_block (n - first) false].

(** The array after the two loops and the two assignments of [coremap_bootstrap]. *)
Lemma boot_wf s m' first :
  coremap s = Some m' -> first_page s = first -> 0 < first < npages s -> npages s < 2 ^ 19 ->
  (forall j, m' !! j = if decide (0 <= j < first)
                       then Some (mk_cm true true (if decide (j = 0) then first else 0) None)
                       else if decide (first <= j < npages s)
                       then Some (mk_cm false false (if decide (j = first) then npages s - first else 0) None)
                       else None) ->
  cm_wf s m' (boot_layout first (npages s)).
Proof.
  intros Hm <- Hpg Hbd Hm'. constructor; try done.
  - intros i. rewrite Hm'. repeat case_decide; split; intros; try lia; by eexists.
  - unfold boot_layout, tiles, block_at; simpl. split_and!; try lia.
    + eexists. rewrite Hm', decide_True by lia. split; [done|]. simpl. by rewrite ?decide_True.
    + intros j Hj. eexists. rewrite Hm', decide_True by lia. split; [done|]. simpl.
      by rewrite decide_False by lia.
    + eexists. rewrite Hm', decide_False, decide_True by lia. split; [done|]. simpl.
      by rewrite ?decide_True.
    + intros j Hj. eexists. rewrite Hm', decide_False, decide_True by lia. split; [done|]. simpl.
      by rewrite decide_False by lia.
  - by eexists.
  - intros i e Hi. rewrite Hm', decide_True by lia. by intros [= <-].
  - intros i e. rewrite Hm'. repeat case_decide; by intros [= <-].
  - intros i e p. rewrite Hm'. repeat case_decide; by intros [= <-].
Qed.

Lemma coremap_bootstrap_spec s m firstpaddr :
  coremap s = Some m -> (forall i, is_Some (m !! i) <-> 0 <= i < npages s) ->
  let first := firstpaddr / PAGE_SIZE in
  0 < first < npages s -> npages s < 2 ^ 19 ->
  exists m', let s' := mk_cm_st (Some m') (npages s) first (prev_victim s) in
    coremap_bootstrap firstpaddr s = Ret true s' /\ cm_wf s' m' (boot_layout first (npages s)).
Proof.
  intros Hm Hdom first Hpg Hbd. unfold coremap_bootstrap.
  rewrite (run_bind _ _ s s s) by done. rewrite Hm. cbv zeta. fold first.
  set (s1 := mk_cm_st (coremap s) (npages s) first (prev_victim s)).
  rewrite (run_bind _ _ _ tt s1) by done.
  rewrite (run_bind _ _ _ tt s1) by (rewrite (proj2 (Z.ltb_lt _ _)) by lia; done).
  destruct (for_upd_eq s1 m (fun _ => mk_cm true true 0 None) (Z.to_nat first) 0)
    as (m1 & Hr1 & Hm1); [done|intros j Hj; apply Hdom; lia|].
  rewrite (run_bind _ _ _ _ _ Hr1).
  destruct (for_upd_eq (set_coremap m1 s1) m1 (fun _ => mk_cm false false 0 None)
    (Z.to_nat (npages s - first)) first) as (m2 & Hr2 & Hm2); [done| |].
  { intros j Hj. rewrite Hm1, decide_False by lia. apply Hdom. lia. }
  rewrite (run_bind _ _ _ _ _ Hr2).
  rewrite Z2Nat.id in Hm1, Hm2 by lia.
  assert (Hl2 : forall j, m2 !! j = if decide (0 <= j < first) then Some (mk_cm true true 0 None)
    else if decide (first <= j < npages s) then Some (mk_cm false false 0 None) else None).
  { intros j. rewrite Hm2, Hm1. destruct (m !! j) eqn:Hj.
    - assert (0 <= j < npages s) by (apply Hdom; eauto). repeat case_decide; try done; lia.
    - assert (~ 0 <= j < npages s) by (intros [? Hx]%Hdom; congruence).
      repeat case_decide; try done; lia. }
  rewrite (run_bind _ _ _ _ _ (cm_upd_eq (set_coremap m2 (set_coremap m1 s1)) m2 0
    (set_nframes first) (mk_cm true true 0 None) eq_refl
    ltac:(by rewrite Hl2, decide_True by lia))).
  set (m3 := <[0 := _]> m2).
  assert (H3 : m3 !! first = Some (mk_cm false false 0 None)).
  { unfold m3. by rewrite lookup_insert_ne, Hl2, decide_False, decide_True by lia. }
  set (s3 := set_coremap m3 (set_coremap m2 (set_coremap m1 s1))).
  rewrite (run_bind _ _ _ _ _ (cm_upd_eq s3 m3 first (set_nframes (npages s - first))
    (mk_cm false false 0 None) eq_refl H3)).
  eexists. split; [reflexivity|].
  eapply (boot_wf (mk_cm_st _ (npages s) first (prev_victim s)) _ first);
    [reflexivity|reflexivity|exact Hpg|exact Hbd|]. intros j. simpl.
  rewrite lookup_insert. unfold m3. rewrite lookup_insert, Hl2. unfold set_nframes; simpl.
  rewrite !u20_small by lia. repeat case_decide; subst; try done; lia.
Qed.

End Blocks.
