(* ===== verification/Paging.v ===== *)
(** * Page replacement: the coremap, the page tables and the swap file together

    The invariant that relates the three components, the contents of a user page as the
    process sees it wherever the page is, and the proof that allocating a frame, with or
    without swapping out a victim, changes no page's contents. *)

From S2P Require Import Prelude Cpu Synch KState Stats Tlb Swap Coremap Blocks.

Module Paging.
Import Cpu Synch KState Stats Tlb Swap Coremap Blocks.

Abbreviation cpu_of k := (s_cpu (k_sync k)).

Section Paging.
Context `{VN : Vnode}.

(** The state with another CPU part. *)
Definition with_cpu (c : cpu) (k : kstate) : kstate :=
  set_sync (mk_sync c (s_runq (k_sync k)) (s_wchan (k_sync k)) (s_sem (k_sync k))
              (s_lock (k_sync k))) k.

(** ** What a process sees

    [t] holds the page table entries that are in use: all of them between operations,
    all but the one under construction while a page table is copied, all but the ones
    already freed while one is destroyed. *)

(** The page behind a page table entry: in a frame or in a slot of the swap file. *)
Definition page_data (k : kstate) (t : gmap pteptr pt_entry) (sw : swap_file) (p : pteptr)
    : option page :=
  match t !! p with
  | Some e =>
      if valid e then
        if swp e then slot_data sw (frame_no e) else Some (frame_data k (frame_no e))
      else None
  | None => None
  end.

(** An entry that refers to slot [i]. *)
Definition uses (i : Z) (e : pt_entry) : bool := valid e && swp e && (frame_no e =? i).

Definition slot_users (t : gmap pteptr pt_entry) (i : Z) : gmap pteptr pt_entry :=
  filter (fun pe => uses i pe.2 = true) t.

(** ** The invariant *)

(** The live page table entries [t], the frames [m] and the slots [sw] agree. *)
Record pages_inv (t : gmap pteptr pt_entry) (m : gmap Z cm_entry) (sw : swap_file) : Prop :=
  mk_pages {
  (* a resident page owns its frame *)
  pi_resident : forall p e, t !! p = Some e -> valid e = true -> swp e = false ->
    exists c, m !! frame_no e = Some c /\ cm_pte c = Some p;
  (* a frame that may be swapped out belongs to the entry that points to it *)
  pi_owner : forall f c p, m !! f = Some c -> cm_pte c = Some p -> fixed c = false ->
    t !! p = Some (mk_pte f true false false);
  (* no swap-out is going on *)
  pi_idle : forall p e, t !! p = Some e -> swapping e = false;
  (* every entry that refers to a slot is counted *)
  pi_refs : forall i n, refs sw !! i = Some n -> Z.of_nat (size (slot_users t i)) <= n;
  (* a swapped page is in the file *)
  pi_slots : forall p e, t !! p = Some e -> valid e = true -> swp e = true ->
    0 <= frame_no e < SWAP_MAX /\ is_Some (slot_data sw (frame_no e))
}.

(** The state between steps of one thread. *)
Record vm_inv (k : kstate) (t : gmap pteptr pt_entry) (m : gmap Z cm_entry) (bs : list block)
    (sw : swap_file) : Prop := mk_inv {
  inv_cpu : quiet (cpu_of k);
  inv_lock : lock_avail k swap_lock;
  inv_cm : cm_wf (k_cm k) m bs;
  inv_swap : swap_ready k sw;
  inv_prev : 0 <= prev_victim (k_cm k) < npages (k_cm k);
  inv_pages : pages_inv t m sw;
  inv_live : t ⊆ ptes (k_pt k);
  (* the entries the coremap points to exist *)
  inv_rows : forall f c p, m !! f = Some c -> cm_pte c = Some p ->
    is_Some (pt_rows (k_pt k) !! p.1);
  inv_trows : forall p e, t !! p = Some e -> is_Some (pt_rows (k_pt k) !! p.1);
  (* pages are 4096 bytes *)
  inv_mem : forall f, Z.of_nat (length (frame_data k f)) = PAGE_SIZE
}.

(** No slot is counted as used without a user. *)
Definition exact_refs (t : gmap pteptr pt_entry) (sw : swap_file) : Prop :=
  forall i, 0 <= i < SWAP_MAX -> refs sw !! i = Some (Z.of_nat (size (slot_users t i))).

(** Every slot is taken. *)
Definition swap_full (sw : swap_file) : Prop :=
  forall i, 0 <= i < SWAP_MAX -> refs sw !! i <> Some 0.

(** ** The TLB and the page tables *)

(** Slot contents that translate page [vp] to frame [f]. *)
Definition slot_page (e : Z * Z) : Z := Z.land e.1 PAGE_FRAME.
Definition slot_frame (e : Z * Z) : Z := Z.land e.2 PAGE_FRAME.

(** Every translation of the running process (page table [pt]) agrees with the page
    table, no page is translated twice, and a slot that does not translate is empty. *)
Record tlb_ok (pt : Z) (tlb : tlb_st) (t : gmap pteptr pt_entry) : Prop := mk_tlb_ok {
  to_mapped : forall i, 0 <= i < NUM_TLB -> slot_valid (tlb_slot tlb i) = true ->
    exists f, slot_frame (tlb_slot tlb i) = f * PAGE_SIZE /\
      t !! addr_pte pt (slot_page (tlb_slot tlb i)) = Some (mk_pte f true false false);
  to_once : forall i j, 0 <= i < NUM_TLB -> 0 <= j < NUM_TLB -> slot_valid (tlb_slot tlb i) = true ->
    slot_valid (tlb_slot tlb j) = true -> slot_page (tlb_slot tlb i) = slot_page (tlb_slot tlb j) -> i = j;
  to_empty : forall i, 0 <= i < NUM_TLB -> slot_valid (tlb_slot tlb i) = false -> slot_frame (tlb_slot tlb i) = 0;
  to_user : forall i, 0 <= i < NUM_TLB -> slot_valid (tlb_slot tlb i) = true ->
    0 <= slot_page (tlb_slot tlb i) < MIPS_KSEG0
}.

(** An address is its two indices and its offset. *)
Lemma addr_split a : 0 <= a < 2 ^ 32 ->
  GET_EXT_INDEX a = a / 2 ^ 22 /\ GET_INT_INDEX a = (a / 2 ^ 12) mod 2 ^ 10.
Proof.
  intros Ha. unfold GET_EXT_INDEX, GET_INT_INDEX. rewrite Z.shiftr_div_pow2 by lia. split; [done|].
  change 0x3ff000 with (Z.shiftl (Z.ones 10) 12). rewrite land_window, Z.shiftr_div_pow2 by lia.
  apply Z.div_mul. lia.
Qed.

(** Pages of one process have entries of their own. *)
Lemma addr_pte_inj pt a b : 0 <= a < 2 ^ 32 -> 0 <= b < 2 ^ 32 ->
  addr_pte pt a = addr_pte pt b -> a / PAGE_SIZE = b / PAGE_SIZE.
Proof.
  intros Ha Hb [= E1 E2]. destruct (addr_split a Ha) as [A1 A2]. destruct (addr_split b Hb) as [B1 B2].
  rewrite A1, B1 in E1. rewrite A2, B2 in E2. unfold PAGE_SIZE.
  change (2 ^ 22) with (2 ^ 12 * 2 ^ 10) in E1. rewrite <- !Z.div_div in E1 by lia.
  change 4096 with (2 ^ 12). rewrite (Z.div_mod (a / 2 ^ 12) (2 ^ 10)), (Z.div_mod (b / 2 ^ 12) (2 ^ 10)) by lia.
  congruence.
Qed.

(** Swapping out the page of [p], with the matching slot invalidated, keeps the TLB and
    the page tables in agreement. *)
Lemma tlb_ok_swapped pt tlb t m sw v ev p idx :
  tlb_ok pt tlb t -> pages_inv t m sw -> m !! v = Some ev -> cm_pte ev = Some p ->
  t !! p = Some (mk_pte v true false false) -> 0 < v ->
  tlb_ok pt (invalidate_from (Z.to_nat NUM_TLB) 0 (v * PAGE_SIZE) tlb) (<[p := mk_pte idx true true false]> t).
Proof.
  intros [Hmap Honce Hempty Huser] Hpg Hv Hp Ht Hpos.
  assert (Hfr : forall i f, slot_frame (tlb_slot tlb i) = f * PAGE_SIZE -> f = v <-> slot_frame (tlb_slot tlb i) = v * PAGE_SIZE)
    by (intros i f ->; unfold PAGE_SIZE; lia).
  destruct (invalidate_from_spec (Z.to_nat NUM_TLB) 0 (v * PAGE_SIZE) tlb)
    as [[-> Hno]|(j & Hj & Hm & _ & Heq)]; rewrite ?Z2Nat.id in * by (unfold NUM_TLB; lia).
  - split; try done. intros i Hi Hs. destruct (Hmap i Hi Hs) as (f & Hf & Hq). exists f. split; [done|].
    rewrite lookup_insert_ne; [done|]. intros E. rewrite <- E, Ht in Hq. injection Hq as <-.
    by destruct (Hno i Hi).
  - assert (Hvj : slot_valid (tlb_slot tlb j) = true).
    { destruct (slot_valid (tlb_slot tlb j)) eqn:E; [done|]. pose proof (Hempty j Hj E) as H0.
      unfold slot_frame in H0. rewrite Hm in H0. unfold PAGE_SIZE in H0. lia. }
    destruct (Hmap j Hj Hvj) as (fj & Hfj & Hqj). unfold slot_frame in Hfj. rewrite Hm in Hfj.
    assert (fj = v) as -> by (unfold PAGE_SIZE in Hfj; lia).
    assert (Hold : forall i, slot_valid (tlb_slot (invalidate_from (Z.to_nat NUM_TLB) 0 (v * PAGE_SIZE) tlb) i) = true ->
      i <> j /\ tlb_slot (invalidate_from (Z.to_nat NUM_TLB) 0 (v * PAGE_SIZE) tlb) i = tlb_slot tlb i).
    { intros i. rewrite Heq. by case_decide. }
    split.
    + intros i Hi Hs. destruct (Hold i Hs) as [Hne E]. rewrite E in Hs |- *.
      destruct (Hmap i Hi Hs) as (f & Hf & Hq). exists f. split; [done|]. rewrite lookup_insert_ne; [done|].
      intros Ep. apply Hne. apply Honce; try done. rewrite <- Ep, Ht in Hq. injection Hq as <-.
      destruct (pi_resident _ _ _ Hpg _ _ Hqj eq_refl eq_refl) as (c & Hc & Hcp). simpl in Hc.
      assert (Epj : addr_pte pt (slot_page (tlb_slot tlb j)) = p) by congruence.
      rewrite Ep in Epj. pose proof (Huser i Hi Hs). pose proof (Huser j Hj Hvj).
      apply addr_pte_inj in Epj; [|unfold MIPS_KSEG0 in *; lia..].
      assert (Hal : forall x, slot_page x = slot_page x / PAGE_SIZE * PAGE_SIZE).
      { intros x. unfold slot_page. change PAGE_FRAME with (Z.shiftl (Z.ones 20) 12).
        rewrite land_window by lia. change (2 ^ 12) with PAGE_SIZE. by rewrite Z.div_mul. }
      rewrite (Hal (tlb_slot tlb i)), (Hal (tlb_slot tlb j)). by rewrite Epj.
    + intros a b Ha Hb Hsa Hsb. destruct (Hold a Hsa) as [_ Ea]. destruct (Hold b Hsb) as [_ Eb].
      rewrite Ea, Eb in *. by apply Honce.
    + intros i Hi. rewrite Heq. case_decide; [done|]. by apply Hempty.
    + intros i Hi Hs. destruct (Hold i Hs) as [_ E]. rewrite E in *. by apply Huser.
Qed.

(** An entry that is not resident is in no slot, so it may change. *)
Lemma tlb_ok_insert pt tlb t p e :
  tlb_ok pt tlb t -> (forall f, t !! p <> Some (mk_pte f true false false)) -> tlb_ok pt tlb (<[p := e]> t).
Proof.
  intros [Hmap Honce Hempty Huser] Hp. split; try done. intros i Hi Hs.
  destruct (Hmap i Hi Hs) as (f & Hf & Hq). exists f. split; [done|]. rewrite lookup_insert_ne; [done|].
  intros E. apply (Hp f). by rewrite E.
Qed.

(** ** Atomic pieces *)

Lemma zoom_cpu {A} (m : M cpu A) k a c' :
  m (cpu_of k) = Ret a c' -> zoom (T := cpu) m k = Ret a (with_cpu c' k).
Proof. intros H. unfold zoom; simpl. by rewrite H. Qed.

Lemma zoom_cm {A} (m : M cm_st A) k a s' :
  m (k_cm k) = Ret a s' -> zoom (T := cm_st) m k = Ret a (set_cm s' k).
Proof. intros H. unfold zoom; simpl. by rewrite H. Qed.

Lemma set_cm_same k : set_cm (k_cm k) k = k.
Proof. by destruct k. Qed.

Lemma with_cpu_same k : with_cpu (cpu_of k) k = k.
Proof. by destruct k as [[]]. Qed.

(** The section between [splhigh] and [splx]. *)
Lemma wp_splhigh k (Q : Z -> kstate -> Prop) :
  quiet (cpu_of k) -> Q (t_curspl (cpu_of k)) (with_cpu (high (cpu_of k)) k) ->
  wp (zoom splhigh) k Q.
Proof. intros (Hwf & _). apply wp_eq. by apply zoom_cpu, splhigh_eq. Qed.

Lemma wp_splx c k (Q : Z -> kstate -> Prop) :
  cpu_wf c -> cpu_of k = high c -> (forall r, Q r (with_cpu c k)) ->
  wp (zoom (splx (t_curspl c))) k Q.
Proof.
  intros Hwf Hk HQ. destruct (splx_high c Hwf) as [r Hr]. eapply wp_eq; [|apply (HQ r)].
  apply zoom_cpu. by rewrite Hk.
Qed.

Lemma iplhigh_high c k : cpu_wf c -> 0 < iplhigh (with_cpu (high c) k).
Proof. apply high_count. Qed.

Lemma read_pte_eq k p :
  is_Some (pt_rows (k_pt k) !! p.1) -> read_pte p k = Ret (pte_at k p) k.
Proof. intros [a Ha]. unfold read_pte; msimpl. by rewrite Ha. Qed.

Lemma update_pte_eq k p f :
  is_Some (pt_rows (k_pt k) !! p.1) ->
  update_pte p f k = Ret tt (set_ptes (<[p := f (pte_at k p)]> (ptes (k_pt k))) k).
Proof. intros Hr. unfold update_pte. by rewrite (run_bind _ _ _ _ _ (read_pte_eq k p Hr)). Qed.

Lemma pte_at_set k p e q :
  pte_at (set_ptes (<[p := e]> (ptes (k_pt k))) k) q = if decide (p = q) then e else pte_at k q.
Proof. unfold pte_at; simpl. rewrite lookup_insert. by case_decide. Qed.

(** The victim is marked: fixed in the coremap, [swapping] in its page table entry. *)
Definition victim_marked (k : kstate) (m : gmap Z cm_entry) (v : Z) (ev : cm_entry) (p : pteptr)
    : kstate :=
  set_ptes (<[p := mk_pte v true false true]> (ptes (k_pt k)))
    (set_cm (mk_cm_st (Some (<[v := set_fixed true ev]> m)) (npages (k_cm k))
               (first_page (k_cm k)) v) k).

Lemma swappable_pte e : swappable e = true -> exists p, cm_pte e = Some p /\ fixed e = false /\ occ e = true.
Proof.
  unfold swappable. destruct (cm_pte e) as [p|]; [|by rewrite andb_false_r].
  rewrite andb_true_r, andb_true_iff, negb_true_iff. intros [? ?]. by exists p.
Qed.

(** The search and the marking of the victim.  The search is complete only from a
    [prev_victim] that starts a block; from inside a block it gives up. *)
Lemma get_victim_spec k t m bs sw :
  vm_inv k t m bs sw ->
  (exists v ev p, get_victim k = Ret (Some v) (victim_marked k m v ev p) /\
     m !! v = Some ev /\ swappable ev = true /\ cm_pte ev = Some p) \/
  (get_victim k = Ret None k /\
   forall e, m !! prev_victim (k_cm k) = Some e -> 0 < nframes e -> none_in m 0 (npages (k_cm k))).
Proof.
  intros Hinv. pose proof (inv_cm _ _ _ _ _ Hinv) as Hwf. pose proof (inv_pages _ _ _ _ _ Hinv) as Hpg.
  destruct (find_victim_total _ _ _ Hwf (inv_prev _ _ _ _ _ Hinv)) as (r & Hr & Hok & Hnone).
  unfold get_victim. rewrite (run_bind _ _ _ _ _ (zoom_cm _ _ _ _ Hr)), set_cm_same.
  destruct r as [v|]; [left|right; split; [done|by apply Hnone]]. destruct (Hok v eq_refl) as (ev & Hev & Hsw).
  destruct (swappable_pte _ Hsw) as (p & Hp & Hfx & _).
  set (s1 := mk_cm_st (coremap (k_cm k)) (npages (k_cm k)) (first_page (k_cm k)) v).
  rewrite (run_bind _ _ _ tt (set_cm s1 k)) by done.
  pose proof (wf_map _ _ _ Hwf) as Hm.
  rewrite (run_bind _ _ _ _ _ (zoom_cm _ (set_cm s1 k) _ _ (cm_upd_eq s1 m v (set_fixed true) ev Hm Hev))).
  set (m' := <[v := set_fixed true ev]> m).
  set (k2 := set_cm (set_coremap m' s1) (set_cm s1 k)).
  assert (Hev' : m' !! v = Some (set_fixed true ev)) by apply lookup_insert_eq.
  rewrite (run_bind _ _ _ _ _ (zoom_cm _ k2 _ _ (cm_get_eq (set_coremap m' s1) m' v _ eq_refl Hev'))).
  rewrite (run_bind _ _ _ p (set_cm (set_coremap m' s1) k2)) by (simpl; by rewrite Hp).
  pose proof (inv_rows _ _ _ _ _ Hinv _ _ _ Hev Hp) as Hrow.
  rewrite (run_bind _ _ _ _ _ (update_pte_eq (set_cm (set_coremap m' s1) k2) p _ Hrow)).
  exists v, ev, p. split_and!; try done. unfold mret, M_ret. f_equal.
  unfold victim_marked. change (pte_at (set_cm (set_coremap m' s1) k2) p) with (pte_at k p).
  unfold pte_at. by rewrite (lookup_weaken _ _ _ _ (pi_owner _ _ _ Hpg _ _ _ Hev Hp Hfx) (inv_live _ _ _ _ _ Hinv)).
Qed.

(** The victim's page is in slot [idx] and its entry points there; the frame is given
    to [entry]. *)
Definition victim_gone (k : kstate) (m : gmap Z cm_entry) (v idx : Z) (ev : cm_entry)
    (p : pteptr) (entry : option pteptr) : kstate :=
  set_ptes (<[p := mk_pte idx true true false]> (ptes (k_pt k)))
    (set_tlb (invalidate_from (Z.to_nat NUM_TLB) 0 (v * PAGE_SIZE) (k_tlb k))
      (set_cm (set_coremap (<[v := mk_cm true true (nframes ev) entry]> m) (k_cm k)) k)).

Lemma shift_page v : Z.shiftl v 12 = v * PAGE_SIZE.
Proof. rewrite Z.shiftl_mul_pow2 by lia. done. Qed.

Lemma swap_out_commit_spec k m v idx ev p entry :
  coremap (k_cm k) = Some m -> m !! v = Some ev -> cm_pte ev = Some p ->
  occ ev = true -> fixed ev = true -> pte_at k p = mk_pte v true false true ->
  is_Some (pt_rows (k_pt k) !! p.1) -> 0 < iplhigh k -> 0 <= v < 2 ^ 19 -> 0 <= idx < SWAP_MAX ->
  swap_out_commit v idx entry k = Ret false (victim_gone k m v idx ev p entry).
Proof.
  intros Hm Hev Hp Hocc Hfix Hpte Hrow Hipl Hv Hidx. unfold swap_out_commit.
  rewrite (run_bind _ _ _ _ _ (zoom_cm _ k _ _ (cm_get_eq _ _ _ _ Hm Hev))), set_cm_same, Hp.
  set (t := invalidate_from (Z.to_nat NUM_TLB) 0 (v * PAGE_SIZE) (k_tlb k)).
  assert (Hinvd : invalidate_entry_by_paddr (u32 (Z.shiftl v 12)) k = Ret tt (set_tlb t k)).
  { unfold invalidate_entry_by_paddr; msimpl. rewrite (proj2 (Z.ltb_lt _ _)) by done.
    rewrite shift_page, u32_small by (unfold PAGE_SIZE; lia). done. }
  set (k1 := set_ptes (<[p := mk_pte idx true true false]> (ptes (k_pt k))) (set_tlb t k)).
  rewrite (run_bind _ _ _ false k1).
  2: { rewrite (run_bind _ _ _ _ _ (read_pte_eq k p Hrow)), Hpte. simpl frame_no.
       rewrite (run_bind _ _ _ _ _ Hinvd).
       rewrite (run_bind _ _ _ _ _ (update_pte_eq (set_tlb t k) p _ Hrow)).
       change (pte_at (set_tlb t k) p) with (pte_at k p). rewrite Hpte. simpl.
       rewrite u20_small by (unfold SWAP_MAX in Hidx; lia). done. }
  rewrite (run_bind _ _ _ _ _ (zoom_cm _ k1 _ _ (cm_upd_eq (k_cm k) m v _ ev Hm Hev))).
  unfold victim_gone. rewrite Hocc, Hfix. by destruct k.
Qed.

(** ** Counting the users of a slot *)

Definition use_count (i : Z) (o : option pt_entry) : nat :=
  match o with Some e => if uses i e then 1 else 0 | None => 0 end.

(** One law covers swap-out, swap-in and copying: replacing an entry moves one user. *)
Lemma slot_users_fresh t p e i :
  t !! p = None ->
  size (slot_users (<[p := e]> t) i) = (size (slot_users t i) + use_count i (Some e))%nat.
Proof.
  intros Hp. unfold slot_users, use_count. destruct (uses i e) eqn:Hu.
  - rewrite map_filter_insert_True by done. rewrite map_size_insert_None; [lia|].
    apply map_lookup_filter_None. by left.
  - rewrite map_filter_insert_False by (simpl; congruence). by rewrite delete_id, Nat.add_0_r by done.
Qed.

Lemma slot_users_insert t p e i :
  (size (slot_users (<[p := e]> t) i) + use_count i (t !! p) =
   size (slot_users t i) + use_count i (Some e))%nat.
Proof.
  assert (Hnone : delete p t !! p = None) by apply lookup_delete_eq.
  rewrite <- insert_delete_eq, slot_users_fresh by done.
  destruct (t !! p) as [e0|] eqn:E.
  - rewrite <- (insert_delete_id t p e0 E) at 2. rewrite (slot_users_fresh _ _ e0 i Hnone). lia.
  - rewrite delete_id by done. simpl. lia.
Qed.

Lemma slot_users_delete t p i :
  (size (slot_users (delete p t) i) + use_count i (t !! p) = size (slot_users t i))%nat.
Proof.
  pose proof (slot_users_insert (delete p t) p zero_pte i) as H1.
  rewrite insert_delete_eq, lookup_delete_eq in H1.
  pose proof (slot_users_insert t p zero_pte i) as H2. simpl in *. lia.
Qed.

Lemma slot_users_in t p e i : t !! p = Some e -> uses i e = true -> (0 < size (slot_users t i))%nat.
Proof. intros Hp Hu. pose proof (slot_users_delete t p i) as H. rewrite Hp in H; simpl in H. rewrite Hu in H. lia. Qed.

Lemma uses_spec i e : uses i e = true <-> valid e = true /\ swp e = true /\ frame_no e = i.
Proof. unfold uses. rewrite !andb_true_iff, Z.eqb_eq. tauto. Qed.

(** ** Allocation from a free block *)

(** [bzero] on whole frames. *)
Lemma bzero_frames_eq n from k :
  exists mem, bzero_frames from (Z.of_nat n) k = Ret tt (set_mem mem k) /\
    forall j, mem !! j = if decide (from <= j < from + Z.of_nat n) then Some zero_page else k_mem k !! j.
Proof.
  unfold bzero_frames. rewrite Nat2Z.id. revert from k. induction n as [|n IH]; intros from k.
  - exists (k_mem k). split; [by destruct k|]. intros j. case_decide; [lia|done].
  - simpl for_loop. rewrite (run_bind _ _ k tt (set_mem (<[from := zero_page]> (k_mem k)) k)) by done.
    destruct (IH (from + 1) (set_mem (<[from := zero_page]> (k_mem k)) k)) as (mem & Hr & Hm).
    exists mem. split; [by rewrite Hr; destruct k|]. intros j. rewrite Hm; simpl.
    rewrite lookup_insert. repeat case_decide; try done; lia.
Qed.

Lemma zero_page_length : Z.of_nat (length zero_page) = PAGE_SIZE.
Proof. done. Qed.

(** A frame of a free block holds no page. *)
Lemma free_frame_unused t m sw p b s bs q e j :
  pages_inv t m sw -> cm_wf s m bs -> block_at m p b -> b_occ b = false -> p <= j < p + b_len b ->
  t !! q = Some e -> valid e = true -> swp e = false -> frame_no e <> j.
Proof.
  intros Hpg Hwf Hb Hocc Hj Hq Hv Hs E. destruct (pi_resident _ _ _ Hpg _ _ Hq Hv Hs) as (c & Hc & Hpte).
  rewrite E in Hc. pose proof (block_at_occ _ _ _ _ _ Hb Hj Hc) as Ho. rewrite Hocc in Ho.
  destruct (wf_free _ _ _ Hwf _ _ Hc Ho). congruence.
Qed.

Lemma pages_inv_claimed t m m' sw s bs p b num entry :
  pages_inv t m sw -> cm_wf s m bs -> block_at m p b -> b_occ b = false -> 0 < num <= b_len b ->
  claimed num p (b_len b) entry m m' -> pages_inv t m' sw.
Proof.
  intros Hpg Hwf Hb Hocc Hnum Hcl. pose proof Hpg as [Hres Hown Hidle Hrefs Hslots].
  split; try done.
  - intros q e Hq Hv Hs. destruct (Hres q e Hq Hv Hs) as (c & Hc & Hpte).
    assert (Hout : forall j, p <= j < p + b_len b -> frame_no e <> j)
      by (intros; by eapply free_frame_unused).
    rewrite Hcl. repeat case_decide; try (exfalso; eapply (Hout (frame_no e)); [lia|done]). by exists c.
  - intros f c q. rewrite Hcl. case_decide; [by intros [= <-]|]. case_decide; [|apply Hown].
    intros (c0 & Hc0 & ->)%fmap_Some. simpl. by apply Hown.
Qed.

(** ** What an allocation promises *)

(** The entry a frame is allocated for is in an allocated row. *)
Definition entry_row (k : kstate) (entry : option pteptr) : Prop :=
  forall q, entry = Some q -> is_Some (pt_rows (k_pt k) !! q.1).

(** Slots may only have become invalid. *)
Definition tlb_shrinks (t t' : tlb_st) : Prop :=
  next_victim t' = next_victim t /\
  forall i, slot_valid (tlb_slot t' i) = true -> tlb_slot t' i = tlb_slot t i.

Lemma tlb_shrinks_trans t1 t2 t3 : tlb_shrinks t1 t2 -> tlb_shrinks t2 t3 -> tlb_shrinks t1 t3.
Proof.
  intros [E1 H1] [E2 H2]. split; [congruence|]. intros i Hi. rewrite H2 by done. apply H1. by rewrite <- H2.
Qed.

Lemma invalidate_next n i pa t : next_victim (invalidate_from n i pa t) = next_victim t.
Proof. revert i. induction n as [|n IH]; intros i; simpl; [done|]. destruct (_ =? _); [done|apply IH]. Qed.

Lemma invalidate_shrinks n i pa t : tlb_shrinks t (invalidate_from n i pa t).
Proof.
  split; [apply invalidate_next|]. intros j.
  destruct (invalidate_from_spec n i pa t) as [[-> _]|(j0 & _ & _ & _ & Heq)]; [done|].
  rewrite Heq. by case_decide.
Qed.

(** The rest of the kernel is as before, and so are the entries not in use. *)
Record vm_frame (k k' : kstate) (t t' : gmap pteptr pt_entry) : Prop := mk_frame {
  fr_rows : pt_rows (k_pt k') = pt_rows (k_pt k);
  fr_tables : pt_table (k_pt k') = pt_table (k_pt k);
  fr_as : k_as k' = k_as k;
  fr_sync : same_sync (k_sync k) (k_sync k');
  fr_pages : npages (k_cm k') = npages (k_cm k);
  fr_first : first_page (k_cm k') = first_page (k_cm k);
  fr_dom : forall p, is_Some (t' !! p) <-> is_Some (t !! p);
  fr_dead : forall p, t !! p = None -> ptes (k_pt k') !! p = ptes (k_pt k) !! p;
  fr_tlb : forall pt, tlb_ok pt (k_tlb k) t -> tlb_ok pt (k_tlb k') t';
  fr_slots : tlb_shrinks (k_tlb k) (k_tlb k')
}.

(** A block of [num] zeroed frames, fixed, that belongs to [entry] and holds no page. *)
Record fresh_block (k : kstate) (t : gmap pteptr pt_entry) (m : gmap Z cm_entry) (f num : Z)
    (entry : option pteptr) : Prop := mk_fresh {
  fb_range : first_page (k_cm k) <= f /\ f + num <= npages (k_cm k);
  fb_zero : forall j, f <= j < f + num -> frame_data k j = zero_page;
  fb_cm : forall j, f <= j < f + num ->
    m !! j = Some (mk_cm true true (if decide (j = f) then num else 0) entry);
  fb_unused : forall j p e, f <= j < f + num -> t !! p = Some e -> valid e = true ->
    swp e = false -> frame_no e <> j
}.

(** No fault was counted: only the count of swap writes may differ. *)
Definition same_faults (c c' : gmap Z Z) : Prop :=
  forall i, i <> swap_file_writes -> counter c' i = counter c i.

Lemma same_faults_trans c1 c2 c3 : same_faults c1 c2 -> same_faults c2 c3 -> same_faults c1 c3.
Proof. intros H1 H2 i Hi. by rewrite H2, H1. Qed.

Lemma same_faults_bump c : same_faults c (bump swap_file_writes c).
Proof. intros i Hi. by rewrite counter_bump, decide_False. Qed.

(** The frames the kernel holds stay as they are, and are not given out again. *)
Definition kernel_kept (k : kstate) (addr num : Z) (m' : gmap Z cm_entry) : Prop :=
  forall m j c, coremap (k_cm k) = Some m -> m !! j = Some c -> occ c = true -> cm_pte c = None ->
    m' !! j = Some c /\ (addr <> 0 -> forall f, addr = f * PAGE_SIZE -> ~ f <= j < f + num).

(** The result of [get_n_frames]: whatever happened to the frames, every page of every
    process reads as before. *)
Record alloc_post (k : kstate) (t : gmap pteptr pt_entry) (sw : swap_file) (num : Z)
    (entry : option pteptr) (addr : Z) (k' : kstate) (t' : gmap pteptr pt_entry)
    (m' : gmap Z cm_entry) (bs' : list block) (sw' : swap_file) : Prop := mk_alloc {
  ap_inv : vm_inv k' t' m' bs' sw';
  ap_frame : vm_frame k k' t t';
  ap_data : forall p, page_data k' t' sw' p = page_data k t sw p;
  ap_valid : forall p, valid <$> t' !! p = valid <$> t !! p;
  ap_keep : forall p e, t !! p = Some e -> (valid e = true -> swp e = true) -> t' !! p = Some e;
  ap_block : addr = 0 \/ exists f, addr = f * PAGE_SIZE /\ fresh_block k' t' m' f num entry;
  ap_refs : writes_ok -> exact_refs t sw -> exact_refs t' sw';
  ap_stats : same_faults (k_stats k) (k_stats k');
  ap_kernel : kernel_kept k addr num m'
}.

Lemma vm_frame_refl k k' t :
  k_pt k' = k_pt k -> k_as k' = k_as k -> k_tlb k' = k_tlb k -> same_sync (k_sync k) (k_sync k') ->
  npages (k_cm k') = npages (k_cm k) -> first_page (k_cm k') = first_page (k_cm k) ->
  vm_frame k k' t t.
Proof. intros Hpt Has Htl Hs Hn Hf. split; try done; rewrite ?Hpt, ?Htl; done. Qed.

Lemma vm_inv_cpu k t m bs sw c :
  vm_inv k t m bs sw -> quiet c -> curthread c = curthread (cpu_of k) ->
  vm_inv (with_cpu c k) t m bs sw.
Proof.
  intros [Hq (o & Ho & Hc) Hcm Hsw Hprev Hpg Hlive Hrows Htrows Hmem] Hc' Hth.
  split; try done. exists o. split; [done|]. simpl. by rewrite Hth.
Qed.

Lemma quiet_high c : quiet c -> quiet (high c).
Proof.
  intros (Hwf & Hs & Hi). destruct (high_splk c) as (H1 & _ & H3).
  split; [by apply high_wf|]. by rewrite H1, H3.
Qed.

Lemma frame_addr s m bs f : cm_wf s m bs -> 0 <= f < npages s -> u32 (f * PAGE_SIZE) = f * PAGE_SIZE.
Proof. intros Hwf Hf. apply u32_small. pose proof (wf_bound _ _ _ Hwf). unfold PAGE_SIZE. lia. Qed.

(** The rest of [get_n_frames] once a free block was found. *)
Lemma alloc_found k t m bs sw num p entry :
  vm_inv k t m bs sw -> first_fit num 0 bs = Some p -> 0 < num -> (entry = None \/ num = 1) ->
  entry_row k entry ->
  exists m' mem,
    zoom (claim num p entry) k = Ret tt (set_cm (set_coremap m' (k_cm k)) k) /\
    bzero_frames p num (set_cm (set_coremap m' (k_cm k)) k) =
      Ret tt (set_mem mem (set_cm (set_coremap m' (k_cm k)) k)) /\
    alloc_post k t sw num entry (u32 (p * PAGE_SIZE))
      (set_mem mem (set_cm (set_coremap m' (k_cm k)) k)) t m' (alloc_layout num bs) sw.
Proof.
  intros Hinv Hff Hnum Hentry Hrow. pose proof Hinv as [Hq Hl Hwf Hsw Hprev Hpg Hlive Hrows Htrows Hmem].
  destruct (claim_wf _ _ _ _ _ entry Hwf Hff Hnum Hentry)
    as (m' & b & Hcl & Hwf' & Hclaimed & Hb & Hocc & Hle & Hfirst & Hend).
  destruct (bzero_frames_eq (Z.to_nat num) p (set_cm (set_coremap m' (k_cm k)) k)) as (mem & Hz & Hmem').
  rewrite Z2Nat.id in Hz, Hmem' by lia. exists m', mem.
  split; [by apply zoom_cm|]. split; [done|].
  pose proof (wf_pages _ _ _ Hwf) as Hpgs.
  set (k' := set_mem mem _).
  assert (Hfd : forall j, frame_data k' j = if decide (p <= j < p + num) then zero_page else frame_data k j).
  { intros j. unfold frame_data. change (k_mem k') with mem. rewrite Hmem'. by case_decide. }
  assert (Hun : forall j q e, p <= j < p + num -> t !! q = Some e -> valid e = true ->
    swp e = false -> frame_no e <> j).
  { intros j q e Hj. eapply free_frame_unused; try done. lia. }
  rewrite (frame_addr _ _ _ _ Hwf) by lia. split.
  - split; try done.
    + by eapply pages_inv_claimed.
    + intros f c q. rewrite Hclaimed. case_decide; [intros [= <-] Hpte; by apply Hrow|].
      case_decide; [|apply Hrows]. intros (c0 & Hc0 & ->)%fmap_Some. simpl. by eapply Hrows.
    + intros f. rewrite Hfd. case_decide; [apply zero_page_length|apply Hmem].
  - by apply vm_frame_refl.
  - intros q. unfold page_data. destruct (t !! q) as [e|] eqn:Hq'; [|done].
    destruct (valid e) eqn:Hv; [|done]. destruct (swp e) eqn:Hs; [done|].
    rewrite Hfd. case_decide as Hj; [|done]. by destruct (Hun _ _ _ Hj Hq' Hv Hs).
  - done.
  - done.
  - right. exists p. split; [done|]. split; simpl; try lia; try done.
    + intros j Hj. rewrite Hfd. by case_decide.
    + intros j Hj. rewrite Hclaimed. by case_decide.
  - done.
  - done.
  - intros m0 j c Hm0 Hj Ho _. rewrite (wf_map _ _ _ Hwf) in Hm0. injection Hm0 as <-.
    assert (Hout : ~ p <= j < p + b_len b).
    { intros Hr. pose proof (block_at_occ m p b j c Hb Hr Hj). congruence. }
    rewrite Hclaimed, !decide_False by lia. split; [done|]. intros _ f Hf. unfold PAGE_SIZE in Hf. lia.
Qed.

(** ** Allocation by swapping out a page *)

Lemma kvaddr_frame_paddr f : 0 <= f < 2 ^ 19 -> kvaddr_frame (PADDR_TO_KVADDR (f * PAGE_SIZE)) = f.
Proof.
  intros Hf. unfold kvaddr_frame, PADDR_TO_KVADDR, MIPS_KSEG0, PAGE_SIZE.
  rewrite (u32_small (f * 4096 + 0x80000000)) by lia. rewrite u32_small by lia.
  replace (f * 4096 + 0x80000000 - 0x80000000) with (f * 4096) by lia. apply Z.div_mul. lia.
Qed.

(** The slots other than [idx] keep their pages; [idx] is taken. *)
Record slot_taken (idx : Z) (sw sw' : swap_file) : Prop := mk_taken {
  st_range : 0 <= idx < SWAP_MAX;
  st_free : refs sw !! idx = Some 0;
  st_refs : refs sw' = <[idx := 1]> (refs sw);
  st_wf : swap_wf sw';
  st_data : forall j p, 0 <= j < SWAP_MAX -> j <> idx -> slot_data sw j = Some p -> slot_data sw' j = Some p
}.

(** A free slot has no user, so every swapped page keeps its contents. *)
Lemma slot_taken_data t m sw sw' idx p e :
  pages_inv t m sw -> slot_taken idx sw sw' -> t !! p = Some e -> valid e = true -> swp e = true ->
  slot_data sw' (frame_no e) = slot_data sw (frame_no e) /\ frame_no e <> idx.
Proof.
  intros Hpg Hst Hp Hv Hs. destruct (pi_slots _ _ _ Hpg _ _ Hp Hv Hs) as (Hr & d & Hd).
  assert (frame_no e <> idx).
  { intros E. pose proof (pi_refs _ _ _ Hpg _ _ (st_free _ _ _ Hst)).
    assert (0 < size (slot_users t idx))%nat; [|lia].
    eapply slot_users_in; [done|]. by apply uses_spec. }
  split; [|done]. rewrite Hd. by eapply st_data.
Qed.

Lemma pages_inv_taken t m sw sw' idx :
  pages_inv t m sw -> slot_taken idx sw sw' -> pages_inv t m sw'.
Proof.
  intros Hpg Hst. pose proof Hpg as [Hres Hown Hidle Hrefs Hslots]. split; try done.
  - intros i n. rewrite (st_refs _ _ _ Hst). rewrite lookup_insert. case_decide as E.
    + intros [= <-]. subst i. pose proof (Hrefs _ _ (st_free _ _ _ Hst)). lia.
    + apply Hrefs.
  - intros p e Hp Hv Hs. destruct (Hslots p e Hp Hv Hs) as [Hr Hd]. split; [done|].
    by rewrite (proj1 (slot_taken_data _ _ _ _ _ _ _ Hpg Hst Hp Hv Hs)).
Qed.

(** The page of entry [p] moved from frame [v] to slot [idx]; the frame went to [entry]. *)
Lemma pages_inv_swapped t m sw sw' idx v ev p entry :
  pages_inv t m sw -> slot_taken idx sw sw' -> m !! v = Some ev -> cm_pte ev = Some p ->
  fixed ev = false -> is_Some (slot_data sw' idx) ->
  pages_inv (<[p := mk_pte idx true true false]> t) (<[v := mk_cm true true 1 entry]> m) sw'.
Proof.
  intros Hpg Hst Hv Hp Hfx Hd. pose proof (pages_inv_taken _ _ _ _ _ Hpg Hst) as [Hres Hown Hidle Hrefs Hslots].
  pose proof (Hown _ _ _ Hv Hp Hfx) as Htp. split.
  - intros q e. rewrite lookup_insert. case_decide as E; [by intros [= <-]|]. intros Hq Hval Hs.
    destruct (Hres q e Hq Hval Hs) as (c & Hc & Hpte). exists c. split; [|done].
    rewrite lookup_insert_ne; [done|]. intros Ev. rewrite <- Ev in Hc. simplify_eq.
  - intros f c q. rewrite lookup_insert. case_decide as E; [by intros [= <-]|]. intros Hc Hpte Hf.
    pose proof (Hown _ _ _ Hc Hpte Hf) as Hq. rewrite lookup_insert_ne; [done|].
    intros Eq. subst q. simplify_eq.
  - intros q e. rewrite lookup_insert. case_decide; [by intros [= <-]|apply Hidle].
  - intros i n Hn. pose proof (slot_users_insert t p (mk_pte idx true true false) i) as Hcount.
    rewrite Htp in Hcount. unfold use_count, uses in Hcount; simpl in Hcount.
    rewrite (st_refs _ _ _ Hst), lookup_insert in Hn.
    pose proof (pi_refs _ _ _ Hpg _ _ (st_free _ _ _ Hst)) as H0.
    destruct (Z.eqb_spec idx i) as [E|E]; [subst i|]; case_decide; try done.
    + simplify_eq. lia.
    + pose proof (pi_refs _ _ _ Hpg _ _ Hn). lia.
  - intros q e. rewrite lookup_insert. case_decide; [|apply Hslots].
    intros [= <-] _ _. simpl. split; [apply (st_range _ _ _ Hst)|done].
Qed.

Lemma exact_refs_swapped t sw sw' idx v p :
  exact_refs t sw -> slot_taken idx sw sw' -> t !! p = Some (mk_pte v true false false) ->
  exact_refs (<[p := mk_pte idx true true false]> t) sw'.
Proof.
  intros Hex Hst Htp i Hi. rewrite (st_refs _ _ _ Hst), lookup_insert.
  pose proof (slot_users_insert t p (mk_pte idx true true false) i) as Hcount.
  rewrite Htp in Hcount. unfold use_count, uses in Hcount; simpl in Hcount.
  pose proof (Hex idx (st_range _ _ _ Hst)) as H0. rewrite (st_free _ _ _ Hst) in H0. simplify_eq.
  destruct (Z.eqb_spec idx i) as [E|E]; [subst i|]; case_decide; try done; [f_equal; lia|].
  rewrite Hex by done. do 2 f_equal. lia.
Qed.

Lemma swap_full_or_free sw :
  swap_wf sw -> swap_full sw \/ exists i, 0 <= i < SWAP_MAX /\ refs sw !! i = Some 0.
Proof.
  intros Hwf. destruct (swap_scan_spec sw (Z.to_nat SWAP_MAX) 0 Hwf) as (j & _ & Hb & Hlow & Hfree);
    try (unfold SWAP_MAX; lia).
  destruct (Z.lt_ge_cases j SWAP_MAX); [right; exists j; split; [lia|auto]|left].
  intros i Hi E. destruct (Hlow i) as (r & Hr & Hpos); [lia|]. rewrite E in Hr. simplify_eq. lia.
Qed.

(** [swap_set] on a state that is [k] as far as the swap file and the locks go. *)
Lemma swap_set_total k sw f :
  quiet (cpu_of k) -> lock_avail k swap_lock -> swap_ready k sw -> 0 <= f < 2 ^ 19 ->
  Z.of_nat (length (frame_data k f)) = PAGE_SIZE ->
  wps (swap_full sw) (swap_set (PADDR_TO_KVADDR (f * PAGE_SIZE))) k (fun r k' =>
    exists sw' st sy, slot_taken r.2 sw sw' /\ same_faults (k_stats k) st /\
      (r.1 = 0 -> slot_data sw' r.2 = Some (frame_data k f)) /\ (writes_ok -> r.1 = 0) /\
      same_sync (k_sync k) sy /\ k' = set_sync sy (set_stats st (set_swap (mk_swap_st (Some sw') true) k))).
Proof.
  intros Hq Hl Hsw Hf Hlen. destruct (swap_full_or_free sw (proj2 Hsw)) as [Hfull|Hfree].
  - unfold wps. by rewrite (swap_set_full k sw).
  - apply wps_of_wp. eapply wp_mono.
    + eapply swap_set_spec; try done. by rewrite kvaddr_frame_paddr.
    + intros r k' (sw' & Hr & Hz & _ & (sy & Hsy & ->) & Href & Hwf & Hd & Ho & Hok).
      rewrite kvaddr_frame_paddr in Hd by done.
      exists sw', (if r.1 =? 0 then bump swap_file_writes (k_stats k) else k_stats k), sy.
      split; [by split|]. split; [destruct (r.1 =? 0); [apply same_faults_bump|by intros i]|].
      split; [done|]. split; [done|]. split; [done|]. by destruct k.
Qed.

(** The write failed: [swap_out_abort] undoes the marking. *)
Lemma swap_out_abort_spec k k3 t m bs sw v ev p :
  vm_inv k t m bs sw -> m !! v = Some ev -> cm_pte ev = Some p -> fixed ev = false ->
  k_cm k3 = k_cm (victim_marked k m v ev p) -> k_pt k3 = k_pt (victim_marked k m v ev p) ->
  swap_out_abort v k3 = Ret tt (set_pt (k_pt k)
    (set_cm (mk_cm_st (Some m) (npages (k_cm k)) (first_page (k_cm k)) v) k3)).
Proof.
  intros Hinv Hv Hp Hfx Hcm Hpt. pose proof Hinv as [_ _ Hwf _ _ Hpg Hlive Hrows _ _].
  unfold swap_out_abort. set (m1 := <[v := set_fixed true ev]> m).
  assert (Hm1 : m1 !! v = Some (set_fixed true ev)) by apply lookup_insert_eq.
  assert (Hc3 : coremap (k_cm k3) = Some m1) by by rewrite Hcm.
  rewrite (run_bind _ _ _ _ _ (zoom_cm _ k3 _ _ (cm_upd_eq _ m1 v _ _ Hc3 Hm1))).
  assert (Hback : <[v := set_fixed false (set_fixed true ev)]> m1 = m).
  { unfold m1. rewrite insert_insert_eq. apply insert_id. rewrite Hv. destruct ev; simpl in *. by subst. }
  rewrite Hback. set (k4 := set_cm _ k3).
  rewrite (run_bind _ _ _ _ _ (zoom_cm _ k4 _ _ (cm_get_eq (set_coremap m (k_cm k3)) m v _ eq_refl Hv))).
  rewrite (run_bind _ _ _ p (set_cm (set_coremap m (k_cm k3)) k4)) by (simpl; by rewrite Hp).
  assert (Hrow : is_Some (pt_rows (k_pt (set_cm (set_coremap m (k_cm k3)) k4)) !! p.1)).
  { simpl. rewrite Hpt. simpl. by eapply Hrows. }
  rewrite (update_pte_eq _ p _ Hrow).
  assert (Hpte : pte_at (set_cm (set_coremap m (k_cm k3)) k4) p = mk_pte v true false true).
  { unfold pte_at. simpl. rewrite Hpt. simpl. by rewrite lookup_insert_eq. }
  rewrite Hpte. simpl. unfold set_ptes. simpl. rewrite Hpt; simpl.
  rewrite insert_insert_eq, insert_id.
  2: { eapply lookup_weaken; [|done]. by eapply (pi_owner _ _ _ Hpg). }
  unfold k4, set_coremap, set_cm, set_pt; simpl. rewrite Hcm; simpl. by destruct k as [? ? ? ? []].
Qed.

(** The parts of the state an allocation that touched the swap file keeps. *)
Record same_rest (k k' : kstate) (sw' : swap_file) : Prop := mk_rest {
  sr_as : k_as k' = k_as k;
  sr_swap : k_swap k' = mk_swap_st (Some sw') true;
  sr_sync : same_sync (k_sync k) (k_sync k')
}.

Lemma same_sync_inv k k' l :
  same_sync (k_sync k) (k_sync k') -> quiet (cpu_of k) -> lock_avail k l ->
  quiet (cpu_of k') /\ lock_avail k' l.
Proof.
  intros (Hc & Hl & _) Hq (o & Ho & Hav). rewrite Hc. split; [done|]. exists o. by rewrite Hl, Hc.
Qed.

Lemma alloc_aborted k k' t m bs sw sw' idx v num entry :
  vm_inv k t m bs sw -> slot_taken idx sw sw' -> 0 <= v < npages (k_cm k) ->
  k_cm k' = mk_cm_st (Some m) (npages (k_cm k)) (first_page (k_cm k)) v ->
  k_pt k' = k_pt k -> k_mem k' = k_mem k -> k_tlb k' = k_tlb k -> same_rest k k' sw' -> ~ writes_ok ->
  same_faults (k_stats k) (k_stats k') ->
  alloc_post k t sw num entry 0 k' t m bs sw'.
Proof.
  intros [Hq Hl Hwf Hsw Hprev Hpg Hlive Hrows Htrows Hmem] Hst Hv Hcm Hpt Hmm Htl [Has Hswp Hsy] Hfail Hstats.
  destruct (same_sync_inv _ _ _ Hsy Hq Hl) as [Hq' Hl'].
  assert (Hfd : forall f, frame_data k' f = frame_data k f) by (intros; unfold frame_data; by rewrite Hmm).
  split; try done.
  - split; try done.
    + rewrite Hcm. by apply cm_wf_prev.
    + split; [done|apply (st_wf _ _ _ Hst)].
    + by rewrite Hcm.
    + by eapply pages_inv_taken.
    + by rewrite Hpt.
    + by rewrite Hpt.
    + by rewrite Hpt.
    + intros f. by rewrite Hfd.
  - apply vm_frame_refl; try done; by rewrite Hcm.
  - intros q. unfold page_data. destruct (t !! q) as [e|] eqn:Hq''; [|done].
    destruct (valid e) eqn:Hv'; [|done]. destruct (swp e) eqn:Hs; [|by rewrite Hfd].
    by eapply slot_taken_data.
  - by left.
  - intros m0 j c Hm0 Hj _ _. rewrite (wf_map _ _ _ Hwf) in Hm0. injection Hm0 as <-. done.
Qed.

Lemma alloc_swapped k k' t m bs sw sw' idx v ev p entry :
  vm_inv k t m bs sw -> slot_taken idx sw sw' -> m !! v = Some ev -> swappable ev = true ->
  cm_pte ev = Some p -> slot_data sw' idx = Some (frame_data k v) -> entry_row k entry ->
  k_cm k' = mk_cm_st (Some (<[v := mk_cm true true 1 entry]> m)) (npages (k_cm k))
              (first_page (k_cm k)) v ->
  ptes (k_pt k') = <[p := mk_pte idx true true false]> (ptes (k_pt k)) ->
  pt_rows (k_pt k') = pt_rows (k_pt k) -> pt_table (k_pt k') = pt_table (k_pt k) ->
  k_mem k' = <[v := zero_page]> (k_mem k) ->
  k_tlb k' = invalidate_from (Z.to_nat NUM_TLB) 0 (v * PAGE_SIZE) (k_tlb k) -> same_rest k k' sw' ->
  same_faults (k_stats k) (k_stats k') ->
  alloc_post k t sw 1 entry (v * PAGE_SIZE) k' (<[p := mk_pte idx true true false]> t)
    (<[v := mk_cm true true 1 entry]> m) bs sw'.
Proof.
  intros Hinv Hst Hv Hswappable Hp Hd Hrow Hcm Hptes Hrw Htb Hmm Htl [Has Hswp Hsy] Hstats.
  pose proof Hinv as [Hq Hl Hwf Hsw Hprev Hpg Hlive Hrows Htrows Hmem].
  destruct (swappable_pte _ Hswappable) as (p' & Hp' & Hfx & Hocc). simplify_eq.
  destruct (same_sync_inv _ _ _ Hsy Hq Hl) as [Hq' Hl'].
  pose proof (owned_above _ _ _ _ _ _ Hwf Hv Hp) as Hrange.
  pose proof (wf_user _ _ _ Hwf _ _ _ Hv Hp) as Hn1.
  pose proof (pi_owner _ _ _ Hpg _ _ _ Hv Hp Hfx) as Htp.
  assert (Hpages := pages_inv_swapped _ _ _ _ _ _ _ _ entry Hpg Hst Hv Hp Hfx (mk_is_Some _ _ Hd)).
  assert (Hfd : forall f, frame_data k' f = if decide (f = v) then zero_page else frame_data k f).
  { intros f. unfold frame_data. rewrite Hmm, lookup_insert. by repeat case_decide. }
  assert (Hother : forall q e, t !! q = Some e -> valid e = true -> swp e = false -> frame_no e = v -> q = p).
  { intros q e Hq0 Hv0 Hs0 E. destruct (pi_resident _ _ _ Hpg _ _ Hq0 Hv0 Hs0) as (c & Hc & Hc').
    rewrite E in Hc. congruence. }
  split.
  - split; try done.
    + rewrite Hcm. eapply cm_wf_set; try done; lia.
    + split; [done|apply (st_wf _ _ _ Hst)].
    + rewrite Hcm. simpl. pose proof (wf_pages _ _ _ Hwf). lia.
    + rewrite Hptes. by apply insert_mono.
    + rewrite Hrw. intros f c q. rewrite lookup_insert. case_decide; [|apply Hrows].
      intros [= <-]. apply Hrow.
    + rewrite Hrw. intros q e. rewrite lookup_insert. case_decide as E; [|apply Htrows].
      subst q. intros _. by eapply Htrows.
    + intros f. rewrite Hfd. case_decide; [apply zero_page_length|apply Hmem].
  - split; try done; try (by rewrite Hcm).
    + intros q. rewrite lookup_insert_is_Some. destruct (decide (p = q)) as [<-|]; [|tauto].
      rewrite Htp. split; intros; [by eexists|by left].
    + intros q Hq0. rewrite Hptes, lookup_insert_ne; [done|]. congruence.
    + intros pt Hok. rewrite Htl. eapply tlb_ok_swapped; try done. pose proof (wf_pages _ _ _ Hwf). lia.
    + rewrite Htl. apply invalidate_shrinks.
  - intros q. unfold page_data. rewrite lookup_insert. case_decide as E.
    + subst q. rewrite Htp. simpl. by rewrite Hd.
    + destruct (t !! q) as [e|] eqn:Hq0; [|done]. destruct (valid e) eqn:Hv0; [|done].
      destruct (swp e) eqn:Hs0; [by eapply slot_taken_data|]. rewrite Hfd.
      case_decide as E2; [|done]. by destruct E; rewrite (Hother q e).
  - intros q. rewrite lookup_insert. case_decide as E; [|done]. subst q. by rewrite Htp.
  - intros q e Hq0 Hns. rewrite lookup_insert_ne; [done|]. intros <-. rewrite Htp in Hq0. injection Hq0 as <-.
    by specialize (Hns eq_refl).
  - right. exists v. split; [done|]. split.
    + rewrite Hcm. simpl. lia.
    + intros j Hj. rewrite Hfd. by rewrite decide_True by lia.
    + intros j Hj. replace j with v by lia. rewrite lookup_insert_eq. by rewrite decide_True by lia.
    + intros j q e Hj. replace j with v by lia. rewrite lookup_insert. case_decide; [by intros [= <-]|].
      intros Hq0 Hv0 Hs0 E. by destruct (Hother q e Hq0 Hv0 Hs0 E).
  - intros _ Hex. by eapply exact_refs_swapped.
  - done.
  - intros m0 j c Hm0 Hj _ Hnone. rewrite (wf_map _ _ _ Hwf) in Hm0. injection Hm0 as <-.
    assert (j <> v) by (intros ->; congruence). rewrite lookup_insert_ne by done. split; [done|].
    intros _ f Hf. unfold PAGE_SIZE in Hf. lia.
Qed.

(** ** [get_n_frames] *)

(** Nothing was found and nothing changed. *)
Lemma alloc_none k t m bs sw num entry :
  vm_inv k t m bs sw -> alloc_post k t sw num entry 0 k t m bs sw.
Proof.
  intros Hinv. split; try done; [by left|]. intros m0 j c Hm0 Hj _ _.
  rewrite (wf_map _ _ _ (inv_cm _ _ _ _ _ Hinv)) in Hm0. by injection Hm0 as <-.
Qed.

(** The only reasons for which an allocation fails. *)
Definition alloc_fails (k : kstate) (m : gmap Z cm_entry) (bs : list block) (num : Z) : Prop :=
  first_fit num 0 bs = None /\
  (num <> 1 \/ ~ writes_ok \/
   forall e, m !! prev_victim (k_cm k) = Some e -> 0 < nframes e -> none_in m 0 (npages (k_cm k))).

Lemma swap_out_spec k t m bs sw v ev p entry :
  vm_inv k t m bs sw -> m !! v = Some ev -> swappable ev = true -> cm_pte ev = Some p ->
  entry_row k entry ->
  wps (swap_full sw) (swap_out v entry) (victim_marked k m v ev p) (fun addr k' =>
    (addr = 0 -> ~ writes_ok) /\
    exists t' m' bs' sw', alloc_post k t sw 1 entry addr k' t' m' bs' sw').
Proof.
  intros Hinv Hv Hsw Hp Hrow. pose proof Hinv as [Hq Hl Hwf Hswr Hprev Hpg Hlive Hrows Htrows Hmem].
  destruct (swappable_pte _ Hsw) as (p' & Hp' & Hfx & Hocc). simplify_eq.
  pose proof (owned_above _ _ _ _ _ _ Hwf Hv Hp) as Hrange. pose proof (wf_bound _ _ _ Hwf) as Hbd.
  pose proof (wf_pages _ _ _ Hwf) as Hpgs. pose proof (wf_user _ _ _ Hwf _ _ _ Hv Hp) as Hn1.
  set (kv := victim_marked k m v ev p).
  unfold swap_out. rewrite (frame_addr _ _ _ v Hwf) by lia.
  apply wps_bind. eapply wps_mono.
  { apply (swap_set_total kv sw v); try done; try lia. apply Hmem. }
  { done. }
  intros [err idx] k3 (sw' & st & sy & Hst & Hstats & Hd & Hok & Hsy & ->). simpl in Hst, Hstats, Hd, Hok, Hsy.
  set (k3 := set_sync sy _). assert (Hc3 : cpu_of k3 = cpu_of k) by apply Hsy.
  apply wps_of_wp. apply wp_bind. apply wp_splhigh; [by rewrite Hc3|]. rewrite Hc3.
  set (k4 := with_cpu (high (cpu_of k)) k3). destruct (Z.eqb_spec err 0) as [Herr|Herr]; cbn [negb].
  - apply wp_bind. eapply wp_eq.
    { apply (swap_out_commit_spec k4 (<[v := set_fixed true ev]> m) v idx (set_fixed true ev) p entry);
        try done; try lia.
      - apply lookup_insert_eq.
      - unfold pte_at; simpl. by rewrite lookup_insert_eq.
      - by eapply Hrows.
      - by apply iplhigh_high, Hq.
      - apply (st_range _ _ _ Hst). }
    apply wp_bind. apply wp_splx; [apply Hq|done|]. intros r. apply wp_bind, wp_ret, wp_bind, wp_modify, wp_ret.
    split; [unfold PAGE_SIZE; lia|]. eexists _, _, bs, sw'. simpl. eapply (alloc_swapped k _ t m bs sw sw' idx v ev p entry); try done.
    + by apply Hd.
    + simpl. unfold set_coremap; simpl. rewrite insert_insert_eq. by rewrite Hn1.
    + simpl. by rewrite insert_insert_eq.
    + split; try done. simpl. destruct Hsy as (_ & Hlk & Hsem). by split.
  - apply wp_bind. eapply wp_eq; [by apply (swap_out_abort_spec k k4 t m bs sw v ev p)|].
    apply wp_bind. apply wp_splx; [apply Hq|done|]. intros r. apply wp_ret.
    split; [by intros _ Hw; apply Herr, Hok|]. exists t, m, bs, sw'. eapply (alloc_aborted k _ t m bs sw sw' idx v); try done; [lia| |by intros Hw; apply Herr, Hok].
    split; try done. simpl. destruct Hsy as (_ & Hlk & Hsem). by split.
Qed.

Lemma victim_marked_cpu k m v ev p c :
  with_cpu c (victim_marked k m v ev p) = victim_marked (with_cpu c k) m v ev p.
Proof. by destruct k. Qed.

Lemma with_cpu_twice c c' k : with_cpu c (with_cpu c' k) = with_cpu c k.
Proof. by destruct k. Qed.

Lemma with_cpu_restore c k : with_cpu (cpu_of k) (with_cpu c k) = k.
Proof. rewrite with_cpu_twice. apply with_cpu_same. Qed.

(** A free block is found: the result is exact. *)
Lemma get_n_frames_found k t m bs sw num entry p :
  vm_inv k t m bs sw -> 0 < num -> (entry = None \/ num = 1) -> entry_row k entry ->
  first_fit num 0 bs = Some p ->
  exists m' k', get_n_frames num entry k = Ret (p * PAGE_SIZE) k' /\
    alloc_post k t sw num entry (p * PAGE_SIZE) k' t m' (alloc_layout num bs) sw.
Proof.
  intros Hinv Hnum Hentry Hrow Hff. pose proof (inv_cpu _ _ _ _ _ Hinv) as Hq.
  pose proof (inv_cm _ _ _ _ _ Hinv) as Hwf.
  destruct (alloc_found k t m bs sw num p entry) as (m' & mem & Hcl & Hz & Hpost); try done.
  destruct (first_fit_above _ _ _ _ _ Hwf Hff) as [Hp0 Hp1].
  assert (Ha : u32 (p * PAGE_SIZE) = p * PAGE_SIZE) by (apply (frame_addr _ _ _ _ Hwf); lia).
  exists m', (set_mem mem (set_cm (set_coremap m' (k_cm k)) k)). rewrite Ha in Hpost. split; [|done].
  set (kh := with_cpu (high (cpu_of k)) k).
  assert (Hback := with_cpu_restore (high (cpu_of k)) k). fold kh in Hback.
  unfold get_n_frames. rewrite (run_bind _ _ k (t_curspl (cpu_of k)) kh) by (apply zoom_cpu, splhigh_eq, Hq).
  rewrite (run_bind _ _ kh kh kh) by done. change (k_cm kh) with (k_cm k). rewrite (wf_map _ _ _ Hwf).
  rewrite (run_bind _ _ _ _ _ (zoom_cm _ kh _ _ (scan_wf _ _ _ num Hwf))), Hff.
  change (set_cm (k_cm k) kh) with (set_cm (k_cm kh) kh). rewrite set_cm_same. cbn [negb andb].
  rewrite (run_bind _ _ kh tt (set_cm (set_coremap m' (k_cm k)) kh)).
  2: { apply zoom_cm. change (k_cm kh) with (k_cm k). unfold zoom in Hcl; simpl in Hcl.
       destruct (claim num p entry (k_cm k)) as [[] s'| | | | |]; try done. by injection Hcl as ->. }
  destruct (splx_high (cpu_of k)) as [r Hx]; [apply Hq|].
  rewrite (run_bind _ _ _ _ _ (zoom_cpu _ (set_cm (set_coremap m' (k_cm k)) kh) _ _ Hx)).
  change (with_cpu (cpu_of k) (set_cm (set_coremap m' (k_cm k)) kh))
    with (set_cm (set_coremap m' (k_cm k)) (with_cpu (cpu_of k) kh)).
  rewrite Hback, (run_bind _ _ _ _ _ Hz). unfold mret, M_ret. by rewrite Ha.
Qed.

(** No free block: nothing happens, or one page is swapped out. *)
Lemma get_n_frames_none k t m bs sw num entry :
  vm_inv k t m bs sw -> 0 < num -> (entry = None \/ num = 1) -> entry_row k entry ->
  first_fit num 0 bs = None ->
  wps (swap_full sw) (get_n_frames num entry) k (fun addr k' =>
    (addr = 0 -> alloc_fails k m bs num) /\
    exists t' m' bs' sw', alloc_post k t sw num entry addr k' t' m' bs' sw').
Proof.
  intros Hinv Hnum Hentry Hrow Hff. pose proof (inv_cpu _ _ _ _ _ Hinv) as Hq.
  pose proof (inv_cm _ _ _ _ _ Hinv) as Hwf. set (kh := with_cpu (high (cpu_of k)) k).
  assert (Hback := with_cpu_restore (high (cpu_of k)) k). fold kh in Hback.
  unfold get_n_frames. apply wps_step, wp_splhigh; [done|]. fold kh.
  apply wps_step. unfold wp at 1, get. change (k_cm kh) with (k_cm k). rewrite (wf_map _ _ _ Hwf).
  apply wps_step. eapply wp_eq; [apply zoom_cm, (scan_wf _ _ _ num Hwf)|].
  change (set_cm (k_cm k) kh) with (set_cm (k_cm kh) kh). rewrite set_cm_same, Hff. cbn [negb andb].
  assert (Hfail : num <> 1 \/ ~ writes_ok \/
      (forall e, m !! prev_victim (k_cm k) = Some e -> 0 < nframes e -> none_in m 0 (npages (k_cm k))) ->
    wps (swap_full sw) (mret 0) (with_cpu (cpu_of k) kh) (fun addr k' => (addr = 0 -> alloc_fails k m bs num) /\
      exists t' m' bs' sw', alloc_post k t sw num entry addr k' t' m' bs' sw')).
  { intros Hr. rewrite Hback. apply wps_ret. split; [by split|]. exists t, m, bs, sw. by apply alloc_none. }
  destruct (Z.eqb_spec num 1) as [->|Hne]; cbn [negb].
  - assert (Hinvh : vm_inv kh t m bs sw).
    { apply vm_inv_cpu; [done|by apply quiet_high|]. apply high_splk. }
    destruct (get_victim_spec kh t m bs sw Hinvh) as [(v & ev & p & Hrun & Hv & Hsw & Hp)|[Hrun Hnone]].
    + apply wps_step. eapply wp_eq; [exact Hrun|]. apply wps_step, wp_splx; [apply Hq|done|]. intros r.
      rewrite victim_marked_cpu, Hback. eapply wps_mono;
        [by apply (swap_out_spec k t m bs sw v ev p entry)|done|].
      intros addr k' [Hf Hpost]. split; [intros E; split; [done|auto]|done].
    + apply wps_step. eapply wp_eq; [exact Hrun|]. apply wps_step, wp_splx; [apply Hq|done|]. intros r.
      apply Hfail. by right; right.
  - apply wps_step, wp_splx; [apply Hq|done|]. intros r. apply Hfail. by left.
Qed.

Lemma get_n_frames_spec k t m bs sw num entry :
  vm_inv k t m bs sw -> 0 < num -> (entry = None \/ num = 1) -> entry_row k entry ->
  wps (swap_full sw) (get_n_frames num entry) k (fun addr k' =>
    exists t' m' bs' sw', alloc_post k t sw num entry addr k' t' m' bs' sw').
Proof.
  intros Hinv Hnum Hentry Hrow. destruct (first_fit num 0 bs) as [p|] eqn:Hff.
  - destruct (get_n_frames_found k t m bs sw num entry p) as (m' & k' & Hrun & Hpost); try done.
    eapply wps_eq; [exact Hrun|]. by eexists _, _, _, _.
  - eapply wps_mono; [by eapply get_n_frames_none|done|]. intros addr k' [_ H]. done.
Qed.

(** ** The retry loops *)

Lemma vm_frame_trans k1 k2 k3 t1 t2 t3 :
  vm_frame k1 k2 t1 t2 -> vm_frame k2 k3 t2 t3 -> vm_frame k1 k3 t1 t3.
Proof.
  intros [R1 T1 A1 S1 P1 F1 D1 X1 L1 W1] [R2 T2 A2 S2 P2 F2 D2 X2 L2 W2]. split; try congruence.
  - by eapply same_sync_trans.
  - intros p. by rewrite D2, D1.
  - intros p Hp. rewrite <- X1 by done. apply X2.
    rewrite eq_None_not_Some, D1, <- eq_None_not_Some. done.
  - auto.
  - by eapply tlb_shrinks_trans.
Qed.

(** An attempt that failed is invisible to the processes, so attempts compose. *)
Lemma alloc_post_trans k1 k2 k3 t1 t2 t3 sw1 sw2 sw3 m2 bs2 m3 bs3 num entry r addr :
  alloc_post k1 t1 sw1 num entry r k2 t2 m2 bs2 sw2 ->
  alloc_post k2 t2 sw2 num entry addr k3 t3 m3 bs3 sw3 ->
  alloc_post k1 t1 sw1 num entry addr k3 t3 m3 bs3 sw3.
Proof.
  intros [I1 F1 D1 V1 K1 _ R1 S1 N1] [I2 F2 D2 V2 K2 B2 R2 S2 N2]. split; try done.
  - by eapply vm_frame_trans.
  - intros p. by rewrite D2.
  - intros p. by rewrite V2.
  - auto.
  - auto.
  - by eapply same_faults_trans.
  - intros m j c Hm Hj Ho Hn. destruct (N1 m j c Hm Hj Ho Hn) as [Hj2 _].
    by apply (N2 m2 j c (wf_map _ _ _ (inv_cm _ _ _ _ _ I1))).
Qed.

Lemma attempts_spec n k t m bs sw num entry :
  vm_inv k t m bs sw -> 0 < num -> (entry = None \/ num = 1) -> entry_row k entry ->
  wps True (attempts n num entry) k (fun addr k' =>
    exists t' m' bs' sw', alloc_post k t sw num entry addr k' t' m' bs' sw').
Proof.
  revert k t m bs sw. induction n as [|n IH]; intros k t m bs sw Hinv Hnum Hentry Hrow; simpl.
  - apply wps_ret. exists t, m, bs, sw. by apply alloc_none.
  - apply wps_bind. eapply wps_mono; [by eapply get_n_frames_spec|done|].
    intros addr k1 (t1 & m1 & bs1 & sw1 & Hpost). destruct (Z.eqb_spec addr 0) as [E|E]; cbn [negb].
    + unfold thread_yield. apply wps_bind, wps_ret. eapply wps_mono.
      * eapply IH; try done; [apply Hpost|]. intros q Hq.
        rewrite (fr_rows _ _ _ _ (ap_frame _ _ _ _ _ _ _ _ _ _ _ Hpost)). by apply Hrow.
      * done.
      * intros addr' k2 (t2 & m2 & bs2 & sw2 & Hpost2). exists t2, m2, bs2, sw2.
        by eapply alloc_post_trans.
    + apply wps_ret. by exists t1, m1, bs1, sw1.
Qed.

(** ** Freeing *)

(** A block is released and the entries [t] that remain do not use it. *)
Lemma pages_inv_released t t' m m' sw f n :
  pages_inv t m sw -> released f n m m' -> t' ⊆ t ->
  (forall i, m !! i = None -> m' !! i = None) ->
  (forall i, (size (slot_users t' i) <= size (slot_users t i))%nat) ->
  (forall q e, t' !! q = Some e -> valid e = true -> swp e = false -> ~ f <= frame_no e < f + n) ->
  (forall j c q, ~ f <= j < f + n -> m !! j = Some c -> cm_pte c = Some q -> fixed c = false ->
     t' !! q = t !! q) ->
  pages_inv t' m' sw.
Proof.
  intros [Hres Hown Hidle Hrefs Hslots] Hrel Hsub Hnone Hsz Hout Hkeep.
  assert (Hin : forall q e, t' !! q = Some e -> t !! q = Some e)
    by (intros; by eapply lookup_weaken).
  split; eauto.
  - intros q e Hq Hv Hs. destruct (Hres q e) as (c & Hc & Hp); eauto.
    destruct (Hrel _ _ Hc) as (c' & Hc' & Hcase). exists c'. split; [done|].
    rewrite decide_False in Hcase by eauto. destruct Hcase as (_ & _ & -> & _). done.
  - intros j c' q Hc' Hp Hfx. destruct (m !! j) as [c|] eqn:Hc; [|by rewrite Hnone in Hc'].
    destruct (Hrel _ _ Hc) as (c0 & Hc0 & Hcase). simplify_eq.
    case_decide as Hj; [destruct Hcase as (_ & _ & E); congruence|].
    destruct Hcase as (_ & E1 & E2 & _). erewrite Hkeep; [apply (Hown j c)|..]; try done; congruence.
  - intros i r Hr. specialize (Hrefs i r Hr). specialize (Hsz i). lia.
Qed.

Lemma released_none p n m m' s s' bs bs' i :
  cm_wf s m bs -> cm_wf s' m' bs' -> npages s' = npages s -> released p n m m' ->
  m !! i = None -> m' !! i = None.
Proof.
  intros Hwf Hwf' Hn _. rewrite !eq_None_not_Some, (wf_dom _ _ _ Hwf), (wf_dom _ _ _ Hwf'), Hn. done.
Qed.

(** [free_frame] on a block whose owner, if any, is not being swapped out. *)
Lemma free_frame_eq k m bs f c :
  quiet (cpu_of k) -> cm_wf (k_cm k) m bs -> first_page (k_cm k) <= f ->
  m !! f = Some c -> 0 < nframes c ->
  (forall q, cm_pte c = Some q -> is_Some (pt_rows (k_pt k) !! q.1) /\ swapping (pte_at k q) = false) ->
  exists m', free_frame (f * PAGE_SIZE) k = Ret tt (set_cm (set_coremap m' (k_cm k)) k) /\
    cm_wf (set_coremap m' (k_cm k)) m' (free_layout f bs) /\ released f (nframes c) m m'.
Proof.
  intros Hq Hwf Hf Hc Hn Hown. destruct (release_wf _ _ _ _ _ Hwf Hf Hc Hn) as (m' & Hrel & Hwf' & Hr).
  exists m'. split; [|done]. unfold free_frame. rewrite page_of_addr.
  set (kh := with_cpu (high (cpu_of k)) k).
  rewrite (run_bind _ _ k (t_curspl (cpu_of k)) kh) by (apply zoom_cpu, splhigh_eq, Hq).
  rewrite (run_bind _ _ kh kh kh) by done. change (k_cm kh) with (k_cm k).
  rewrite (wf_map _ _ _ Hwf).
  rewrite (run_bind _ _ _ _ _ (zoom_cm _ kh _ _ (cm_get_eq _ _ _ _ (wf_map _ _ _ Hwf) Hc))).
  change (set_cm (k_cm k) kh) with (set_cm (k_cm kh) kh). rewrite set_cm_same.
  rewrite (run_bind _ _ kh tt kh) by (unfold KASSERT; by rewrite (proj2 (Z.ltb_lt _ _) Hn)).
  rewrite (run_bind _ _ kh false kh).
  2: { destruct (cm_pte c) as [q|]; [|done]. destruct (Hown q eq_refl) as [Hrow Hsg].
       rewrite (run_bind _ _ _ _ _ (read_pte_eq kh q Hrow)). change (pte_at kh q) with (pte_at k q).
       by rewrite Hsg. }
  rewrite (run_bind _ _ _ _ _ (zoom_cm _ kh _ _ Hrel)).
  destruct (splx_high (cpu_of k)) as [r Hx]; [apply Hq|].
  rewrite (run_bind _ _ _ _ _ (zoom_cpu _ (set_cm (set_coremap m' (k_cm k)) kh) _ _ Hx)).
  unfold mret, M_ret. f_equal. unfold kh. by destruct k as [[]].
Qed.

(** What freeing does to the memory the processes see: [t'] are the entries that remain. *)
Record free_post (k k' : kstate) (t' : gmap pteptr pt_entry) (f : Z) (bs : list block)
    (sw : swap_file) (m' : gmap Z cm_entry) : Prop := mk_free {
  fp_inv : vm_inv k' t' m' (free_layout f bs) sw;
  fp_state : k' = set_cm (set_coremap m' (k_cm k)) k;
  fp_free : exists c, m' !! f = Some c /\ occ c = false /\ cm_pte c = None;
  (* the frames in use outside the block stay as they are *)
  fp_kept : forall m c j c', coremap (k_cm k) = Some m -> m !! f = Some c -> m !! j = Some c' -> occ c' = true ->
    ~ f <= j < f + nframes c -> m' !! j = Some c';
  (* no frame gets an owner *)
  fp_owner : forall m j c q, coremap (k_cm k) = Some m -> m' !! j = Some c -> cm_pte c = Some q -> m !! j = Some c
}.

Lemma vm_inv_freed k t t' m m' bs sw f c :
  vm_inv k t m bs sw -> m !! f = Some c -> 0 < nframes c ->
  cm_wf (set_coremap m' (k_cm k)) m' (free_layout f bs) -> released f (nframes c) m m' ->
  pages_inv t' m' sw -> t' ⊆ t ->
  free_post k (set_cm (set_coremap m' (k_cm k)) k) t' f bs sw m'.
Proof.
  intros [Hq Hl Hwf Hsw Hprev Hpg Hlive Hrows Htrows Hmem] Hc Hn Hwf' Hrel Hpg' Hsub. split; [|done| | |].
  - split; try done; [by etrans|..].
    2: { intros q e Hq0. eapply Htrows. by eapply lookup_weaken. }
    intros j c' q Hc' Hp.
    destruct (m !! j) as [c0|] eqn:Hc0.
    2: { by rewrite (released_none _ _ _ _ _ _ _ _ _ Hwf Hwf' eq_refl Hrel Hc0) in Hc'. }
    destruct (Hrel _ _ Hc0) as (c1 & Hc1 & Hcase). simplify_eq. case_decide; [naive_solver|].
    destruct Hcase as (_ & _ & E & _). eapply Hrows; [done|congruence].
  - destruct (Hrel _ _ Hc) as (c1 & Hc1 & Hcase). exists c1. rewrite decide_True in Hcase by lia. tauto.
  - intros m0 c0 j c' Hm0 Hf0 Hj Ho Hout. rewrite (wf_map _ _ _ Hwf) in Hm0. injection Hm0 as <-.
    rewrite Hc in Hf0. injection Hf0 as <-. destruct (Hrel _ _ Hj) as (c1 & Hc1 & Hcase).
    rewrite decide_False in Hcase by done. destruct Hcase as (_ & _ & _ & E). by rewrite <- (E Ho).
  - intros m0 j c' q Hm0 Hj Hp. rewrite (wf_map _ _ _ Hwf) in Hm0. injection Hm0 as <-. destruct (m !! j) as [c0|] eqn:Hc0.
    2: { by rewrite (released_none _ _ _ _ _ _ _ _ _ Hwf Hwf' eq_refl Hrel Hc0) in Hj. }
    destruct (Hrel _ _ Hc0) as (c1 & Hc1 & Hcase). rewrite Hj in Hc1. injection Hc1 as <-. case_decide; [naive_solver congruence|]. destruct Hcase as (E1 & _ & E3 & E4).
    rewrite E4; [done|]. destruct (occ c0) eqn:Ho; [done|]. destruct (wf_free _ _ _ Hwf _ _ Hc0 Ho). congruence.
Qed.

(** The frame of a user page, when its entry is dropped. *)
Lemma free_frame_user k t m bs sw p e :
  vm_inv k t m bs sw -> t !! p = Some e -> valid e = true -> swp e = false ->
  wp (free_frame (frame_no e * PAGE_SIZE)) k (fun _ k' =>
    exists m', free_post k k' (delete p t) (frame_no e) bs sw m').
Proof.
  intros Hinv Hp Hv Hs. pose proof Hinv as [Hq Hl Hwf Hsw Hprev Hpg Hlive Hrows Htrows Hmem].
  destruct (pi_resident _ _ _ Hpg _ _ Hp Hv Hs) as (c & Hc & Hpte).
  pose proof (owned_above _ _ _ _ _ _ Hwf Hc Hpte) as Hr. pose proof (wf_user _ _ _ Hwf _ _ _ Hc Hpte) as Hn1.
  destruct (free_frame_eq k m bs (frame_no e) c) as (m' & Hrun & Hwf' & Hrel); try done; try lia.
  { intros q Hq'. rewrite Hpte in Hq'. injection Hq' as <-. split; [by eapply Hrows|].
    unfold pte_at. erewrite lookup_weaken by done. simpl. by eapply (pi_idle _ _ _ Hpg). }
  eapply wp_eq; [exact Hrun|]. exists m'. apply (vm_inv_freed k t (delete p t) m m' bs sw (frame_no e) c); try done; [lia| |apply delete_subseteq].
  eapply pages_inv_released; try done; [apply delete_subseteq|intros i; exact (released_none _ _ _ _ _ _ _ _ i Hwf Hwf' eq_refl Hrel)|..].
  - intros i. pose proof (slot_users_delete t p i). lia.
  - rewrite Hn1. intros q e' Hq' Hv' Hs' Hj. apply lookup_delete_Some in Hq' as [Hne Hq'].
    destruct (pi_resident _ _ _ Hpg _ _ Hq' Hv' Hs') as (c' & Hc' & Hpte').
    replace (frame_no e') with (frame_no e) in Hc' by lia. congruence.
  - intros j c' q Hj Hc' Hpte' Hfx'. rewrite lookup_delete_ne; [done|]. intros <-.
    pose proof (pi_owner _ _ _ Hpg _ _ _ Hc' Hpte' Hfx') as E. rewrite Hp in E. injection E as ->. simpl in *. lia.
Qed.

(** A block of kernel frames. *)
Lemma free_frame_kernel k t m bs sw f c :
  vm_inv k t m bs sw -> first_page (k_cm k) <= f -> m !! f = Some c -> 0 < nframes c ->
  (forall j c', f <= j < f + nframes c -> m !! j = Some c' -> cm_pte c' = None) ->
  wp (free_frame (f * PAGE_SIZE)) k (fun _ k' => exists m', free_post k k' t f bs sw m').
Proof.
  intros Hinv Hf Hc Hn Hk. pose proof Hinv as [Hq Hl Hwf Hsw Hprev Hpg Hlive Hrows Htrows Hmem].
  destruct (free_frame_eq k m bs f c) as (m' & Hrun & Hwf' & Hrel); try done.
  { intros q Hq'. rewrite (Hk f c) in Hq'; [done|lia|done]. }
  eapply wp_eq; [exact Hrun|]. exists m'. apply (vm_inv_freed k t t m m' bs sw f c); try done.
  eapply pages_inv_released; try done; [intros i; exact (released_none _ _ _ _ _ _ _ _ i Hwf Hwf' eq_refl Hrel)|].
  intros q e Hq' Hv Hs Hj. destruct (pi_resident _ _ _ Hpg _ _ Hq' Hv Hs) as (c' & Hc' & Hp').
  rewrite (Hk _ _ Hj Hc') in Hp'. done.
Qed.

(** With a free frame the first attempt succeeds and no page moves. *)
Lemma get_user_frame_spec k t m bs sw p :
  vm_inv k t m bs sw -> is_Some (pt_rows (k_pt k) !! p.1) ->
  wps (first_fit 1 0 bs = None) (get_user_frame p) k (fun addr k' => exists t' m' bs' sw',
    alloc_post k t sw 1 (Some p) addr k' t' m' bs' sw' /\ (first_fit 1 0 bs <> None -> t' = t /\ addr <> 0)).
Proof.
  intros Hinv Hrow. assert (Hr : entry_row k (Some p)) by by intros q [= <-].
  destruct (first_fit 1 0 bs) as [f|] eqn:Hff.
  - destruct (get_n_frames_found _ _ _ _ _ 1 _ _ Hinv eq_refl (or_intror eq_refl) Hr Hff) as (m' & k' & Hrun & Hpost).
    pose proof (first_fit_above _ _ _ _ _ (inv_cm _ _ _ _ _ Hinv) Hff).
    unfold get_user_frame, MAX_ATTEMPTS. cbn [attempts]. eapply wps_eq.
    + rewrite (run_bind _ _ _ _ _ Hrun). destruct (Z.eqb_spec (f * PAGE_SIZE) 0); [unfold PAGE_SIZE in *; lia|].
      reflexivity.
    + eexists t, m', _, sw. split; [exact Hpost|]. intros _. split; [done|]. unfold PAGE_SIZE. lia.
  - eapply wps_mono; [apply (attempts_spec MAX_ATTEMPTS k t m bs sw 1 (Some p)); [done..|by right|done]|done|].
    intros addr k' (t' & m' & bs' & sw' & Hpost). by exists t', m', bs', sw'.
Qed.

End Paging.
End Paging.
