(* ===== verification/Replacement.v ===== *)
(** * Theorems on frame allocation and page replacement

    What the users of the coremap (page tables, kernel heap) rely on, for
    [get_user_frame], [get_kernel_frame] and [free_frame] of kern/vm/coremap.c. *)

From S2P Require Import Prelude Cpu Synch KState Stats Tlb Swap Coremap Blocks Paging.

Module Replacement.
Import Cpu Synch KState Stats Tlb Swap Coremap Blocks Paging.

(** ** A small machine, for examples

    Four frames, the kernel image in the first; one page table with one row; nothing
    allocated, an empty swap file. *)

Definition row0 : Z * Z := (1, 0).
Definition pte0 (j : Z) : pteptr := (row0, j).

Definition boot_map : gmap Z cm_entry :=
  {[ 0 := mk_cm true true 1 None; 1 := mk_cm false false 3 None;
     2 := mk_cm false false 0 None; 3 := mk_cm false false 0 None ]}.

Definition boot_cm : cm_st := mk_cm_st (Some boot_map) 4 1 0.

Definition boot_sync : sync := mk_sync boot_cpu [] ∅ ∅ {[ swap_lock := None; 1 := None ]}.

Definition boot_swap : swap_file := mk_swap (VN := mem_vnode) (Some []) zero_refs.

Definition boot_state : kstate :=
  mk_k boot_sync ∅ (mk_tlb ∅ 0) boot_cm
    (mk_pt_st {[ 1 := 0x80001000 ]} {[ row0 := 0x80002000 ]} ∅ 1)
    (mk_swap_st (Some boot_swap) true) (mk_as_st ∅ None true) ∅ (mk_ram 0 0).

Lemma boot_cpu_quiet : quiet boot_cpu.
Proof. split_and!; try done. unfold cpu_wf. split_and!; try done. by left. Qed.

Lemma boot_map_wf : cm_wf boot_cm boot_map (boot_layout 1 4).
Proof.
  apply boot_wf; try done. intros j. cbn [npages boot_cm]. unfold boot_map.
  rewrite !lookup_insert, lookup_singleton. repeat case_decide; try done; lia.
Qed.

Lemma boot_swap_ready : swap_ready boot_state boot_swap.
Proof.
  split; [done|]. split; [by eexists|]. intros i Hi. exists 0. split; [by apply zero_refs_lookup|lia].
Qed.

Lemma boot_no_owner f c p : boot_map !! f = Some c -> cm_pte c = Some p -> False.
Proof.
  unfold boot_map. rewrite !lookup_insert, lookup_singleton.
  repeat case_decide; intros; simplify_eq/=.
Qed.

Lemma boot_pages : pages_inv ∅ boot_map boot_swap.
Proof.
  split.
  - intros p e Hp. by rewrite lookup_empty in Hp.
  - intros f c p Hc Hp. by destruct (boot_no_owner f c p).
  - intros p e Hp. by rewrite lookup_empty in Hp.
  - intros i n Hn. apply zero_refs_inv in Hn as ->. done.
  - intros p e Hp. by rewrite lookup_empty in Hp.
Qed.

Lemma boot_inv : vm_inv boot_state ∅ boot_map (boot_layout 1 4) boot_swap.
Proof.
  split; [apply boot_cpu_quiet| |apply boot_map_wf|apply boot_swap_ready|simpl; lia|apply boot_pages|..].
  - exists None. split; [reflexivity|by left].
  - apply map_empty_subseteq.
  - intros f c p Hc Hp. by destruct (boot_no_owner f c p).
  - intros p e Hp. by rewrite lookup_empty in Hp.
  - intros f. apply zero_page_length.
Qed.

(** A machine with one user frame, in use by page 0. *)
Definition full_map : gmap Z cm_entry :=
  {[ 0 := mk_cm true true 1 None; 1 := mk_cm true false 1 (Some (pte0 0)) ]}.

Definition full_ptes : gmap pteptr pt_entry := {[ pte0 0 := mk_pte 1 true false false ]}.

Definition full_state : kstate :=
  set_ptes full_ptes (set_cm (mk_cm_st (Some full_map) 2 1 0) boot_state).

Definition full_layout : list block := [mk_block 1 true; mk_block 1 true].

Lemma full_lookup f c : full_map !! f = Some c ->
  f = 0 /\ c = mk_cm true true 1 None \/ f = 1 /\ c = mk_cm true false 1 (Some (pte0 0)).
Proof.
  unfold full_map. rewrite lookup_insert, lookup_singleton. repeat case_decide; intros; simplify_eq; auto.
Qed.

Lemma full_map_wf : cm_wf (k_cm full_state) full_map full_layout.
Proof.
  split; try done.
  - intros i. unfold full_map. rewrite lookup_insert_is_Some, lookup_singleton_is_Some. simpl. lia.
  - split; [|split; [|done]]; (split; [done|split; [by eexists|]]); simpl; intros j Hj; lia.
  - by exists [mk_block 1 true].
  - intros i e Hi [[-> ->]|[-> ->]]%full_lookup; [done|]. simpl in Hi. lia.
  - by intros i e [[-> ->]|[-> ->]]%full_lookup.
  - by intros i e p [[-> ->]|[-> ->]]%full_lookup.
Qed.

Lemma full_pages : pages_inv full_ptes full_map boot_swap.
Proof.
  assert (Hp : forall p e, full_ptes !! p = Some e -> p = pte0 0 /\ e = mk_pte 1 true false false)
    by (unfold full_ptes; by intros p e [<- <-]%lookup_singleton_Some).
  split.
  - intros p e [-> ->]%Hp _ _. by eexists.
  - by intros f c p [[-> ->]|[-> ->]]%full_lookup [= <-].
  - by intros p e [-> ->]%Hp.
  - intros i n Hn. apply zero_refs_inv in Hn as ->. done.
  - by intros p e [-> ->]%Hp.
Qed.

Lemma full_inv : vm_inv full_state full_ptes full_map full_layout boot_swap.
Proof.
  split; [apply boot_cpu_quiet| |apply full_map_wf|apply boot_swap_ready|simpl; lia|apply full_pages|..].
  - exists None. split; [reflexivity|by left].
  - done.
  - intros f c p [[-> ->]|[-> ->]]%full_lookup; [done|]. intros [= <-]. by eexists.
  - intros p e Hp. unfold full_ptes in Hp. apply lookup_singleton_Some in Hp as [<- _]. by eexists.
  - intros f. apply zero_page_length.
Qed.

(** A machine whose frames are free, with page 0 in slot 0 of the swap file; the page
    table 2 has an empty row.  [lk] is the state of the swap lock. *)
Definition slot_bytes : list Z := replicate 4096 5.
Definition swapped_swap : swap_file := mk_swap (VN := mem_vnode) (Some slot_bytes) (<[0 := 1]> zero_refs).
Definition swapped_ptes : gmap pteptr pt_entry := {[ pte0 0 := mk_pte 0 true true false ]}.
Definition swapped_state (lk : option Z) : kstate :=
  mk_k (mk_sync boot_cpu [] ∅ ∅ {[ swap_lock := lk; 1 := None; 2 := None ]}) ∅ (mk_tlb ∅ 0)
    boot_cm
    (mk_pt_st ∅ {[ row0 := 0x80002000; (2, 0) := 0x80003000 ]} swapped_ptes 3)
    (mk_swap_st (Some swapped_swap) true) (mk_as_st ∅ None true) ∅ (mk_ram 0 0).

Lemma swapped_ptes_lookup p e : swapped_ptes !! p = Some e -> p = pte0 0 /\ e = mk_pte 0 true true false.
Proof. unfold swapped_ptes. by intros [<- <-]%lookup_singleton_Some. Qed.

Lemma swapped_users i : size (slot_users swapped_ptes i) = if decide (i = 0) then 1%nat else 0%nat.
Proof.
  unfold slot_users, swapped_ptes. destruct (decide (i = 0)) as [->|Hi].
  - by rewrite map_filter_singleton_True, map_size_singleton by done.
  - rewrite map_filter_singleton_False, map_size_empty; [done|]. rewrite uses_spec. simpl. lia.
Qed.

Lemma swapped_refs_lookup i : 0 <= i < SWAP_MAX ->
  refs swapped_swap !! i = Some (if decide (i = 0) then 1 else 0).
Proof.
  intros Hi. change (refs swapped_swap) with (<[0 := 1]> zero_refs). rewrite lookup_insert, zero_refs_lookup by exact Hi.
  do 2 case_decide; congruence.
Qed.

Lemma swapped_exact : exact_refs swapped_ptes swapped_swap.
Proof. intros i Hi. rewrite swapped_refs_lookup, swapped_users by done. by case_decide. Qed.

Lemma swapped_inv lk : lk = None \/ lk = Some 1 ->
  vm_inv (swapped_state lk) swapped_ptes boot_map (boot_layout 1 4) swapped_swap.
Proof.
  intros Hlk. split; [exact boot_cpu_quiet| |exact boot_map_wf| |split; reflexivity || done| |..].
  - exists lk. split; [reflexivity|exact Hlk].
  - split; [reflexivity|]. split; [exists slot_bytes; reflexivity|]. intros i Hi. rewrite swapped_refs_lookup by done.
    case_decide; eexists; (split; [done|lia]).
  - split.
    + by intros p e [-> ->]%swapped_ptes_lookup.
    + intros f c p Hc Hp. by destruct (boot_no_owner f c p).
    + by intros p e [-> ->]%swapped_ptes_lookup.
    + intros i n. change (refs swapped_swap) with (<[0 := 1]> zero_refs).
      rewrite swapped_users, lookup_insert. case_decide as E; intros Hn.
      * injection Hn as <-. subst i. case_decide; lia.
      * apply zero_refs_inv in Hn. case_decide; [congruence|]. lia.
    + intros p e [-> ->]%swapped_ptes_lookup _ _. split; [unfold SWAP_MAX; simpl; lia|].
      exists slot_bytes. vm_compute. reflexivity.
  - done.
  - intros f c p Hc Hp. by destruct (boot_no_owner f c p).
  - intros p e [-> ->]%swapped_ptes_lookup. by eexists.
  - intros f. apply zero_page_length.
Qed.

Lemma boot_swap_not_full : ~ swap_full boot_swap.
Proof. intros H. apply (H 0); [unfold SWAP_MAX; lia|]. apply zero_refs_lookup. unfold SWAP_MAX. lia. Qed.

Section Theorems.
Context `{VN : Vnode}.

(** C1: page replacement is invisible.  Whatever [get_user_frame] has to do to find a
    frame (up to five attempts, each of which may swap a page of any process out), it
    returns or the kernel stops because the swap file is full; every page of every
    process reads as before; the frame it hands out is zeroed, fixed, belongs to the
    entry it was asked for and backs no page; the system invariant holds again. *)
Theorem get_user_frame_transparent k t m bs sw entry :
  vm_inv k t m bs sw -> is_Some (pt_rows (k_pt k) !! entry.1) ->
  wps True (get_user_frame entry) k (fun addr k' => exists t' m' bs' sw',
    vm_inv k' t' m' bs' sw' /\
    (forall p, page_data k' t' sw' p = page_data k t sw p) /\
    (addr <> 0 -> exists f, addr = f * PAGE_SIZE /\ 0 < f < npages (k_cm k) /\
       frame_data k' f = zero_page /\ m' !! f = Some (mk_cm true true 1 (Some entry)) /\
       (forall p e, t' !! p = Some e -> valid e = true -> swp e = false -> frame_no e <> f))).
Proof.
  intros Hinv Hrow. eapply wps_mono.
  - apply (attempts_spec MAX_ATTEMPTS k t m bs sw 1 (Some entry)); try done; [by right|].
    by intros q [= <-].
  - done.
  - intros addr k' (t' & m' & bs' & sw' & Hpost). exists t', m', bs', sw'.
    destruct Hpost as [Hinv' Hfr Hdata _ _ Hblock _ _]. split_and!; try done. intros Ha.
    destruct Hblock as [?|(f & -> & [Hr Hz Hc Hu])]; [done|]. exists f.
    rewrite <- (fr_pages _ _ _ _ Hfr). pose proof (wf_pages _ _ _ (inv_cm _ _ _ _ _ Hinv')).
    split_and!; try done; try lia.
    + apply Hz. lia.
    + rewrite Hc by lia. by rewrite decide_True by done.
    + intros p e. apply Hu. lia.
Qed.

(** C2: [get_n_frames] implements first-fit allocation on the list of blocks.  When the
    specification finds a free block of [num] frames at [p], the call returns [p] and the
    blocks become the ones the specification computes; no page and no slot is touched. *)
Theorem get_n_frames_first_fit k t m bs sw num entry p :
  vm_inv k t m bs sw -> 0 < num -> (entry = None \/ num = 1) -> entry_row k entry ->
  first_fit num 0 bs = Some p ->
  exists m' k', get_n_frames num entry k = Ret (p * PAGE_SIZE) k' /\
    vm_inv k' t m' (alloc_layout num bs) sw /\ fresh_block k' t m' p num entry /\
    (forall q, page_data k' t sw q = page_data k t sw q).
Proof.
  intros Hinv Hnum Hentry Hrow Hff.
  destruct (get_n_frames_found _ _ _ _ _ _ _ _ Hinv Hnum Hentry Hrow Hff) as (m' & k' & Hrun & [Hi _ Hd _ _ Hb _ _ _]).
  exists m', k'. split_and!; try done. destruct Hb as [E|(f & E & Hf)].
  - pose proof (first_fit_above _ _ _ _ _ (inv_cm _ _ _ _ _ Hinv) Hff). unfold PAGE_SIZE in E. lia.
  - by replace p with f by (unfold PAGE_SIZE in E; lia).
Qed.

(** C3: a single frame is found as long as some page can be swapped out.  With all
    frames in use, a previous victim that still starts a block, a swap file that accepts
    writes and has a free slot, and a swappable frame anywhere, the call succeeds. *)
Theorem get_n_frames_reclaims k t m bs sw entry e f c :
  vm_inv k t m bs sw -> entry_row k entry ->
  m !! prev_victim (k_cm k) = Some e -> 0 < nframes e ->
  m !! f = Some c -> swappable c = true -> writes_ok -> ~ swap_full sw ->
  wp (get_n_frames 1 entry) k (fun addr k' => addr <> 0 /\
    exists t' m' bs' sw', vm_inv k' t' m' bs' sw').
Proof.
  intros Hinv Hrow He Hn Hf Hc Hw Hfull. pose proof (inv_cm _ _ _ _ _ Hinv) as Hwf.
  assert (Hone : entry = None \/ 1 = 1) by by right.
  destruct (first_fit 1 0 bs) as [p|] eqn:Hff.
  - destruct (get_n_frames_found _ _ _ _ _ 1 _ _ Hinv eq_refl Hone Hrow Hff) as (m' & k' & Hrun & [Hi _ _ _ _ _ _ _ _]).
    eapply wp_eq; [exact Hrun|]. pose proof (first_fit_above _ _ _ _ _ Hwf Hff).
    split; [unfold PAGE_SIZE; lia|]. by eexists _, _, _, _.
  - eapply wp_mono; [eapply wps_wp; [by eapply (get_n_frames_none k t m bs sw 1)|done]|].
    intros addr k' [Hfail (t' & m' & bs' & sw' & [Hi _ _ _ _ _ _ _ _])]. split; [|by eexists _, _, _, _].
    intros Ha. destruct (Hfail Ha) as [_ [?|[?|Hnone]]]; try done.
    pose proof (Hnone _ He Hn f c) as Hx. rewrite Hx in Hc; try done.
    apply (wf_dom _ _ _ Hwf). by eexists.
Qed.

(** C4: what is freed can be allocated again without fragmentation.  A kernel block that
    is allocated and then freed leaves exactly the layout there was, and no two free
    blocks are ever neighbours. *)
Theorem kernel_alloc_free_roundtrip k t m bs sw num p :
  vm_inv k t m bs sw -> 0 < num -> first_fit num 0 bs = Some p -> coalesced bs = true ->
  wp (addr ← get_kernel_frame num; _ ← free_frame addr; mret addr) k (fun addr k' =>
    addr = p * PAGE_SIZE /\ (forall q, page_data k' t sw q = page_data k t sw q) /\
    exists m', vm_inv k' t m' bs sw).
Proof.
  intros Hinv Hnum Hff Hco. pose proof (inv_cm _ _ _ _ _ Hinv) as Hwf.
  assert (Hrow : entry_row k None) by done.
  destruct (get_n_frames_found _ _ _ _ _ _ _ _ Hinv Hnum (or_introl eq_refl) Hrow Hff)
    as (m' & k' & Hrun & [Hi _ Hd _ _ Hb _ _ _]).
  pose proof (first_fit_above _ _ _ _ _ Hwf Hff) as Hp.
  apply wp_bind. eapply wp_eq.
  { unfold get_kernel_frame, MAX_ATTEMPTS. cbn [attempts]. rewrite (run_bind _ _ _ _ _ Hrun).
    destruct (Z.eqb_spec (p * PAGE_SIZE) 0); [unfold PAGE_SIZE in *; lia|]. reflexivity. }
  destruct Hb as [E|(f & E & [Hr Hz Hc Hu])]; [unfold PAGE_SIZE in E; lia|].
  assert (f = p) as -> by (unfold PAGE_SIZE in E; lia).
  pose proof (Hc p ltac:(lia)) as Hcp. rewrite decide_True in Hcp by done.
  apply wp_bind. eapply wp_mono.
  - eapply (free_frame_kernel k' t m' (alloc_layout num bs) sw p _ Hi); [lia|exact Hcp|done|].
    simpl. intros j c' Hj Hc'. rewrite Hc in Hc' by lia. by injection Hc' as <-.
  - intros [] k2 (m2 & [Hi2 -> _ _]). apply wp_ret. split; [done|]. split; [exact Hd|].
    exists m2. rewrite (free_alloc_layout num bs p m _ (wf_tiles _ _ _ Hwf)) in Hi2 by done. done.
Qed.

End Theorems.

(** ** Witnesses *)

Lemma get_user_frame_transparent_witness :
  wps True (get_user_frame (pte0 5)) boot_state (fun addr k' => exists t' m' bs' sw',
    vm_inv k' t' m' bs' sw' /\
    (forall p, page_data k' t' sw' p = page_data boot_state ∅ boot_swap p) /\
    (addr <> 0 -> exists f, addr = f * PAGE_SIZE /\ 0 < f < npages (k_cm boot_state) /\
       frame_data k' f = zero_page /\ m' !! f = Some (mk_cm true true 1 (Some (pte0 5))) /\
       (forall p e, t' !! p = Some e -> valid e = true -> swp e = false -> frame_no e <> f))).
Proof.
  apply (get_user_frame_transparent boot_state ∅ boot_map (boot_layout 1 4) boot_swap (pte0 5) boot_inv).
  by eexists.
Defined.

Lemma get_n_frames_first_fit_witness :
  exists m' k', get_n_frames 2 None boot_state = Ret (1 * PAGE_SIZE) k' /\
    vm_inv k' ∅ m' (alloc_layout 2 (boot_layout 1 4)) boot_swap /\ fresh_block k' ∅ m' 1 2 None /\
    (forall q, page_data k' ∅ boot_swap q = page_data boot_state ∅ boot_swap q).
Proof.
  apply (get_n_frames_first_fit boot_state ∅ boot_map (boot_layout 1 4) boot_swap 2 None 1 boot_inv).
  - lia.
  - by left.
  - by intros q [=].
  - reflexivity.
Defined.

Lemma get_n_frames_reclaims_witness :
  wp (get_n_frames 1 (Some (pte0 7))) full_state (fun addr k' => addr <> 0 /\
    exists t' m' bs' sw', vm_inv k' t' m' bs' sw').
Proof.
  apply (get_n_frames_reclaims full_state full_ptes full_map full_layout boot_swap (Some (pte0 7))
    (mk_cm true true 1 None) 1 (mk_cm true false 1 (Some (pte0 0))) full_inv).
  - intros q [= <-]. by eexists.
  - reflexivity.
  - simpl. lia.
  - reflexivity.
  - reflexivity.
  - by intros f o bs.
  - apply boot_swap_not_full.
Defined.

Lemma kernel_alloc_free_roundtrip_witness :
  wp (addr ← get_kernel_frame 2; _ ← free_frame addr; mret addr) boot_state (fun addr k' =>
    addr = 1 * PAGE_SIZE /\
    (forall q, page_data k' ∅ boot_swap q = page_data boot_state ∅ boot_swap q) /\
    exists m', vm_inv k' ∅ m' (boot_layout 1 4) boot_swap).
Proof.
  apply (kernel_alloc_free_roundtrip boot_state ∅ boot_map (boot_layout 1 4) boot_swap 2 1 boot_inv).
  - lia.
  - reflexivity.
  - reflexivity.
Defined.

End Replacement.
