(* ===== verification/Kpages.v ===== *)
(** * Kernel pages: kern/arch/mips/vm/ram.c and the page part of kern/vm/vm_project.c

    Before [vm_bootstrap] pages are stolen from the end of the kernel image and never
    given back; afterwards they come from the coremap.  [kmalloc] of half a page or more
    goes straight to [alloc_kpages]; smaller objects come from the subpage allocator
    (Kmalloc.v), and the functions below take a flag that says whether such an
    allocation succeeded. *)

From S2P Require Import Prelude Cpu Synch KState Stats Tlb Swap Coremap Blocks Paging.

Module Kpages.
Import Cpu Synch KState Stats Tlb Swap Coremap Blocks Paging.

(** ** kern/arch/mips/vm/ram.c *)

Definition ram_bootstrap (mainbus_ramsize firstfree : Z) : M ram_st unit :=
  let ramsize := if 512 * 1024 * 1024 <? mainbus_ramsize then 512 * 1024 * 1024 else mainbus_ramsize in
  put (mk_ram (u32 (firstfree - MIPS_KSEG0)) ramsize).

Definition ram_stealmem (npages : Z) : M ram_st Z :=
  r ← get;
  let size := u32 (npages * PAGE_SIZE) in
  if lastpaddr r <? u32 (firstpaddr r + size) then mret 0
  else _ ← put (mk_ram (u32 (firstpaddr r + size)) (lastpaddr r)); mret (firstpaddr r).

Definition ram_getsize : M ram_st Z := gets lastpaddr.

Definition ram_getfirstfree : M ram_st Z :=
  r ← get;
  _ ← put (mk_ram 0 0);
  mret (firstpaddr r).

(** The static [vm_lock] of vm_project.c. *)
Definition vm_lock : splid := ("vm_lock", 0).

Section Ops.
Context `{VN : Vnode}.

(** ** kern/vm/vm_project.c *)

(** [array]: what [kmalloc] gives [coremap_create] for the array (arbitrary contents, or
    NULL); [ok1], [ok2] and [opened]: as for [swap_init]. *)
Definition vm_bootstrap (array : option (gmap Z cm_entry)) (ok1 ok2 : bool) (opened : option vfile)
    : M kstate unit :=
  _ ← zoom (spinlock_acquire vm_lock);
  ramsize ← zoom ram_getsize;
  let npages := ramsize / PAGE_SIZE in
  _ ← zoom (spinlock_release vm_lock);
  _ ← zoom (coremap_create npages array);
  _ ← zoom (spinlock_acquire vm_lock);
  first ← zoom ram_getfirstfree;
  ok ← zoom (coremap_bootstrap first);
  if negb ok then panic "vm_bootstrap: No space left on the device to allocate the coremap table" else
  _ ← modify (fun k => set_as (mk_as_st (as_heap (k_as k)) (curproc_as (k_as k)) true) k);
  _ ← zoom (spinlock_release vm_lock);
  err ← swap_init ok1 ok2 opened;
  if negb (err =? 0) then panic "vm_bootstrap: Error during swap init" else mret tt.

Definition getppages (npages : Z) : M kstate Z :=
  _ ← zoom (spinlock_acquire vm_lock);
  k ← get;
  if negb (vm_inited (k_as k)) then
    addr ← zoom (ram_stealmem npages);
    _ ← zoom (spinlock_release vm_lock);
    mret addr
  else
    _ ← zoom (spinlock_release vm_lock);
    get_kernel_frame npages.

Definition alloc_kpages (npages : Z) : M kstate Z :=
  pa ← getppages npages;
  if pa =? 0 then mret 0 else mret (PADDR_TO_KVADDR pa).

Definition free_kpages (addr : Z) : M kstate unit :=
  if addr =? 0 then mret tt else
  _ ← zoom (spinlock_acquire vm_lock);
  k ← get;
  if vm_inited (k_as k) then
    _ ← zoom (spinlock_release vm_lock);
    free_frame (u32 (addr - MIPS_KSEG0))
  else zoom (spinlock_release vm_lock).

Definition vm_tlbshootdown {A} : M kstate A := panic "vm_project tried to do tlb shootdown?!".

Definition vm_shutdown : M kstate (list line) :=
  _ ← swap_close;
  _ ← zoom (spinlock_acquire vm_lock);
  k ← get;
  out ← (if vm_inited (k_as k) then
           _ ← zoom coremap_shutdown;
           _ ← modify (fun k => set_as (mk_as_st (as_heap (k_as k)) (curproc_as (k_as k)) false) k);
           k ← get;
           mret (print_stats (k_stats k))
         else mret []);
  _ ← zoom (spinlock_release vm_lock);
  mret out.

(** ** Effects once the VM system runs *)

Lemma vm_lock_section {A} k (f : kstate -> M kstate A) (Q : A -> kstate -> Prop) F :
  quiet (cpu_of k) ->
  wps F (f (with_cpu (acq vm_lock (cpu_of k)) k)) (with_cpu (acq vm_lock (cpu_of k)) k) Q ->
  wps F (_ ← zoom (spinlock_acquire vm_lock); k ← get; f k) k Q.
Proof.
  intros Hq H. apply wps_step. eapply wp_eq.
  - apply zoom_cpu. apply spinlock_acquire_eq; [apply Hq|by apply quiet_free].
  - apply wps_step. exact H.
Qed.

Lemma vm_lock_release k :
  quiet (cpu_of k) ->
  zoom (spinlock_release vm_lock) (with_cpu (acq vm_lock (cpu_of k)) k) = Ret tt k.
Proof.
  intros Hq. rewrite (zoom_cpu _ _ tt (cpu_of k)), with_cpu_restore; [done|].
  apply spinlock_release_acq; [apply Hq|by apply quiet_free].
Qed.

(** [alloc_kpages] gives zeroed kernel pages and changes no user page. *)
Lemma alloc_kpages_spec k t m bs sw num :
  vm_inv k t m bs sw -> vm_inited (k_as k) = true -> 0 < num ->
  wps True (alloc_kpages num) k (fun va k' => exists addr t' m' bs' sw',
    alloc_post k t sw num None addr k' t' m' bs' sw' /\
    va = if addr =? 0 then 0 else PADDR_TO_KVADDR addr).
Proof.
  intros Hinv Hinit Hnum. pose proof (inv_cpu _ _ _ _ _ Hinv) as Hq. unfold alloc_kpages, getppages.
  apply wps_bind, (vm_lock_section k); [done|]. simpl vm_inited. rewrite Hinit. cbn [negb].
  apply wps_step. eapply wp_eq; [by apply vm_lock_release|].
  eapply wps_mono; [eapply (attempts_spec MAX_ATTEMPTS k t m bs sw num None); [done..|by left|done]|done|].
  intros addr k' (t' & m' & bs' & sw' & Hpost). destruct (addr =? 0) eqn:E; apply wps_ret;
    exists addr, t', m', bs', sw'; by rewrite E.
Qed.

(** The kernel address of a frame. *)
Lemma kvaddr_sub f : 0 <= f < 2 ^ 19 -> u32 (PADDR_TO_KVADDR (f * PAGE_SIZE) - MIPS_KSEG0) = f * PAGE_SIZE.
Proof.
  intros Hf. unfold PADDR_TO_KVADDR, MIPS_KSEG0, PAGE_SIZE.
  rewrite (u32_small (f * 4096 + 0x80000000)) by lia. rewrite u32_small; lia.
Qed.

Lemma kvaddr_nonzero f : 0 <= f < 2 ^ 19 -> PADDR_TO_KVADDR (f * PAGE_SIZE) <> 0.
Proof. intros Hf. unfold PADDR_TO_KVADDR, MIPS_KSEG0, PAGE_SIZE. rewrite u32_small; lia. Qed.

Lemma free_kpages_spec k t m bs sw f c :
  vm_inv k t m bs sw -> vm_inited (k_as k) = true ->
  first_page (k_cm k) <= f -> m !! f = Some c -> 0 < nframes c ->
  (forall j c', f <= j < f + nframes c -> m !! j = Some c' -> cm_pte c' = None) ->
  wp (free_kpages (PADDR_TO_KVADDR (f * PAGE_SIZE))) k (fun _ k' => exists m', free_post k k' t f bs sw m').
Proof.
  intros Hinv Hinit Hf Hc Hn Hk. pose proof (inv_cpu _ _ _ _ _ Hinv) as Hq.
  pose proof (inv_cm _ _ _ _ _ Hinv) as Hwf. pose proof (wf_bound _ _ _ Hwf). pose proof (wf_pages _ _ _ Hwf).
  assert (0 <= f < npages (k_cm k)) by (apply (wf_dom _ _ _ Hwf); by eexists).
  unfold free_kpages. rewrite (proj2 (Z.eqb_neq _ _)) by (apply kvaddr_nonzero; lia).
  apply (wps_wp False); [|tauto]. apply (vm_lock_section k); [done|]. simpl vm_inited. rewrite Hinit.
  apply wps_step. eapply wp_eq; [by apply vm_lock_release|]. rewrite kvaddr_sub by lia.
  apply wps_of_wp. by eapply free_frame_kernel.
Qed.

(** Before [vm_bootstrap]: disjoint pages, in increasing order, below the end of RAM. *)
Lemma ram_stealmem_spec r npages :
  0 < npages -> 0 <= firstpaddr r <= lastpaddr r -> lastpaddr r < 2 ^ 31 -> npages * PAGE_SIZE < 2 ^ 31 ->
  exists a r', ram_stealmem npages r = Ret a r' /\ lastpaddr r' = lastpaddr r /\
    firstpaddr r <= firstpaddr r' <= lastpaddr r' /\
    (a = 0 /\ r' = r \/
     a = firstpaddr r /\ firstpaddr r' = a + npages * PAGE_SIZE /\ firstpaddr r' <= lastpaddr r).
Proof.
  intros Hn Hf Hl Hs. destruct r as [f l]; simpl in *. unfold ram_stealmem; msimpl.
  unfold PAGE_SIZE in *. rewrite (u32_small (npages * 4096)), u32_small by lia.
  destruct (Z.ltb_spec l (f + npages * 4096)); eexists _, _; (split; [reflexivity|]); simpl;
    (split; [done|split; [lia|]]); [by left|right; lia].
Qed.

End Ops.
End Kpages.
