(* ===== verification/PageTable.v ===== *)
(** * Page tables: kern/vm/pt.c, and load_from_swap of kern/vm/swapfile.c

    Two-level page tables.  A [struct pt *] is a positive number (0 is NULL), which also
    names its lock.  [pt_table] maps a page table to the kernel page of its first level,
    [pt_rows] maps (page table, first-level index) to the kernel page of a second-level
    table, and the entries are in [ptes] (absent: as zeroed by the allocator).

    [load_page] (kern/vm/addrspace.c) reads the executable into user memory, which faults
    on the page that is being loaded; it is a parameter here and is tied to the fault
    handler in VmFault.v. *)

From S2P Require Import Prelude Cpu Synch KState Stats Tlb Swap Coremap Blocks Paging Kpages.

Module PageTable.
Import Cpu Synch KState Stats Tlb Swap Coremap Blocks Paging Kpages.

Definition N_SEGMENTS : Z := 2.
Definition PROJECT_STACK_MIN_ADDRESS : Z := USERSTACK - 18 * PAGE_SIZE.

Definition spinlock_faults_from_disk : splid := ("spinlock_faults_from_disk", 0).
Definition spinlock_zeroed_stats : splid := ("spinlock_zeroed_stats", 0).

Section Ops.
Context `{VN : Vnode}.

(** [proc_getas()]: NULL (0) without a process or without an address space. *)
Definition proc_getas : M kstate Z :=
  gets (fun k => default 0 (default None (curproc_as (k_as k)))).

(** ** Creation and destruction *)

Definition set_pt_table (v : gmap Z Z) (k : kstate) : kstate :=
  set_pt (mk_pt_st v (pt_rows (k_pt k)) (ptes (k_pt k)) (pt_next (k_pt k))) k.
Definition set_pt_rows (v : gmap (Z * Z) Z) (k : kstate) : kstate :=
  set_pt (mk_pt_st (pt_table (k_pt k)) v (ptes (k_pt k)) (pt_next (k_pt k))) k.

(** [ok1], [ok2]: the small allocations (struct pt, the lock) succeed. *)
Definition pt_create (ok1 ok2 : bool) : M kstate Z :=
  if negb ok1 then mret 0 else
  table ← alloc_kpages 1;
  if table =? 0 then mret 0 else
  k ← get;
  let ret := pt_next (k_pt k) in
  _ ← modify (fun k => set_pt (mk_pt_st (pt_table (k_pt k)) (pt_rows (k_pt k)) (ptes (k_pt k))
                                 (ret + 1)) k);
  ok ← zoom (lock_create ok2 ret);
  if negb ok then _ ← free_kpages table; mret 0
  else
    _ ← modify (fun k => set_pt_table (<[ret := table]> (pt_table (k_pt k))) k);
    mret ret.

(** The body of the inner loop of [pt_destroy]. *)
Definition destroy_entry (p : pteptr) : M kstate unit :=
  e ← read_pte p;
  _ ← when (valid e && negb (swp e)) (free_frame (u32 (Z.shiftl (frame_no e) 12)));
  e ← read_pte p;
  when (valid e && swp e) (_ ← swap_get 0 (frame_no e); mret tt).

(** [kfree] of a second-level table: its entries are gone. *)
Definition drop_row (table i : Z) (k : kstate) : kstate :=
  set_pt (mk_pt_st (pt_table (k_pt k)) (delete (table, i) (pt_rows (k_pt k)))
            (filter (fun pe => pe.1.1 <> (table, i)) (ptes (k_pt k))) (pt_next (k_pt k))) k.

Definition destroy_row (table i : Z) : M kstate unit :=
  k ← get;
  match pt_rows (k_pt k) !! (table, i) with
  | None => mret tt
  | Some row =>
      _ ← for_loop (Z.to_nat TABLE_SIZE) 0 (fun j => destroy_entry (table, i, j));
      _ ← free_kpages row;
      modify (drop_row table i)
  end.

Definition pt_destroy (table : Z) : M kstate unit :=
  if table =? 0 then mret tt else
  _ ← zoom (lock_acquire swap_lock);
  k ← get;
  tab ← deref (pt_table (k_pt k) !! table);
  _ ← for_loop (Z.to_nat TABLE_SIZE) 0 (destroy_row table);
  _ ← free_kpages tab;
  _ ← zoom (lock_destroy table);
  _ ← modify (fun k => set_pt_table (delete table (pt_table (k_pt k))) k);
  zoom (lock_release swap_lock).

(** ** Faults *)

Definition init_rows (table index : Z) : M kstate Z :=
  let index := GET_EXT_INDEX index in
  row ← alloc_kpages 1;
  if row =? 0 then mret ENOMEM
  else
    _ ← modify (fun k => set_pt_rows (<[(table, index) := row]> (pt_rows (k_pt k))) k);
    mret 0.

(** Two counters under a static spinlock. *)
Definition count_disk_fault (source : Z) : M kstate unit :=
  _ ← zoom (spinlock_acquire spinlock_faults_from_disk);
  _ ← zoom (inc_counter source);
  _ ← zoom (inc_counter page_faults_disk);
  zoom (spinlock_release spinlock_faults_from_disk).

Definition set_frame_no (f : Z) (e : pt_entry) : pt_entry :=
  mk_pte (u20 f) (valid e) (swp e) (swapping e).

(** Swap-in: a frame for the entry, then the slot's page into it. *)
Definition load_from_swap (entry : pteptr) : M kstate Z :=
  e ← read_pte entry;
  _ ← KASSERT (swp e);
  frame ← get_user_frame entry;
  if frame =? 0 then mret ENOMEM else
  e ← read_pte entry;
  err ← swap_get (PADDR_TO_KVADDR frame) (frame_no e);
  _ ← when (err =? 0) (update_pte entry (fun e =>
        mk_pte (u20 (Z.shiftr frame 12)) (valid e) false (swapping e)));
  mret err.

Section Load.
Variable load_page : Z -> Z -> M kstate Z.

Definition load_frame (table exte inte fault_addr : Z) : M kstate Z :=
  let p := (table, exte, inte) in
  frame ← get_user_frame p;
  _ ← update_pte p (set_frame_no (Z.shiftr frame 12));
  e ← read_pte p;
  if frame_no e =? 0 then mret ENOMEM else
  _ ← update_pte p (fun e => mk_pte (frame_no e) true (swp e) (swapping e));
  if fault_addr <? PROJECT_STACK_MIN_ADDRESS then
    as_ ← proc_getas;
    err ← load_page as_ fault_addr;
    _ ← when (err =? 0) (count_disk_fault page_faults_from_elf);
    mret err
  else
    _ ← zoom (spinlock_acquire spinlock_zeroed_stats);
    _ ← zoom (inc_counter page_faults_zeroed);
    _ ← zoom (spinlock_release spinlock_zeroed_stats);
    mret 0.

(** The valid entry [p]: swap-in, or fix the frame. *)
Definition fetch_valid (p : pteptr) : M kstate Z :=
  spl ← zoom splhigh;
  e ← read_pte p;
  if swapping e then _ ← zoom (splx spl); waiting
  else if swp e then
    _ ← zoom (splx spl);
    err ← load_from_swap p;
    _ ← when (err =? 0) (count_disk_fault page_faults_from_swap);
    mret err
  else
    _ ← coremap_set_fixed (frame_no e);
    _ ← zoom (inc_counter tlb_reloads);
    _ ← zoom (splx spl);
    mret 0.

(** The error number and, when it is 0, the frame's address. *)
Definition pt_get_frame_from_page (table fault_addr : Z) : M kstate (Z * Z) :=
  let exte := GET_EXT_INDEX fault_addr in
  let inte := GET_INT_INDEX fault_addr in
  let p := (table, exte, inte) in
  _ ← KASSERT (fault_addr <? MIPS_KSEG0);
  lock_hold ← zoom (lock_do_i_hold table);
  _ ← when lock_hold (
        k ← get;
        _ ← KASSERT (match pt_rows (k_pt k) !! (table, exte) with Some _ => true | None => false end);
        e ← read_pte p;
        _ ← KASSERT (valid e);
        KASSERT (negb (frame_no e =? 0)));
  _ ← when (negb lock_hold) (zoom (lock_acquire table));
  k ← get;
  err ← match pt_rows (k_pt k) !! (table, exte) with
        | None => init_rows table fault_addr
        | Some _ => mret 0
        end;
  if negb (err =? 0) then
    _ ← when (negb lock_hold) (zoom (lock_release table)); mret (err, 0)
  else
  e ← read_pte p;
  if negb (valid e) then
    err ← load_frame table exte inte fault_addr;
    if negb (err =? 0) then _ ← zoom (lock_release table); mret (err, 0)
    else
      e ← read_pte p;
      _ ← zoom (lock_release table);
      mret (0, u32 (Z.shiftl (frame_no e) 12))
  else
    err ← fetch_valid p;
    if negb (err =? 0) then
      _ ← when (negb lock_hold) (zoom (lock_release table)); mret (err, 0)
    else
      e ← read_pte p;
      _ ← when (negb lock_hold) (zoom (lock_release table));
      mret (0, u32 (Z.shiftl (frame_no e) 12)).

End Load.

(** ** Copying a page table (fork) *)

(** The body of the inner loop of [pt_copy] for one entry; [Some err]: the function
    returns.  The resident case reads the parent's [frame_no] after the allocation. *)
Definition copy_entry (old new : pteptr) : M kstate (option Z) :=
  o ← read_pte old;
  if negb (valid o) then mret None else
  _ ← update_pte new (fun n => mk_pte (frame_no n) (valid o) (swp o) (swapping n));
  if swp o then
    _ ← update_pte new (set_frame_no (frame_no o));
    _ ← swap_inc_ref (frame_no o);
    mret None
  else
    frame ← get_user_frame new;
    _ ← update_pte new (set_frame_no (Z.shiftr frame 12));
    n ← read_pte new;
    if frame_no n =? 0 then
      _ ← zoom (lock_release swap_lock);
      mret (Some ENOMEM)
    else
      spl ← zoom splhigh;
      o ← read_pte old;
      k ← get;
      _ ← write_frame (kvaddr_frame (PADDR_TO_KVADDR (u32 (Z.shiftl (frame_no n) 12))))
            (frame_data k (kvaddr_frame (PADDR_TO_KVADDR (u32 (Z.shiftl (frame_no o) 12)))));
      _ ← coremap_set_unfixed (frame_no n);
      _ ← zoom (splx spl);
      mret None.

Definition copy_row (old new i : Z) : M kstate (option Z) :=
  k ← get;
  match pt_rows (k_pt k) !! (old, i) with
  | None => mret None
  | Some _ =>
      err ← init_rows new (u32 (Z.shiftl i 22));
      if negb (err =? 0) then
        _ ← zoom (lock_release swap_lock);
        mret (Some ENOMEM)
      else for_early (Z.to_nat TABLE_SIZE) 0 (fun j => copy_entry (old, i, j) (new, i, j))
  end.

(** The error returns leave [old->pt_lock] held. *)
Definition pt_copy (old new : Z) : M kstate Z :=
  _ ← zoom (lock_acquire old);
  _ ← zoom (lock_acquire swap_lock);
  r ← for_early (Z.to_nat TABLE_SIZE) 0 (copy_row old new);
  match r with
  | Some err => mret err
  | None =>
      _ ← zoom (lock_release swap_lock);
      _ ← zoom (lock_release old);
      mret 0
  end.

End Ops.
End PageTable.
