(* ===== verification/PageIn.v ===== *)
(** * Theory of page-in: swap-in of a page and of the page tables' own operations *)

From S2P Require Import Prelude Cpu Synch KState Stats Tlb Swap Coremap Blocks Paging Kpages PageTable.
From S2P Require Import Replacement.

Module PageIn.
Import Cpu Synch KState Stats Tlb Swap Coremap Blocks Paging Kpages PageTable.

Section PageIn.
Context `{VN : Vnode}.

(** ** Swap-in *)

Lemma slot_data_refs sw r i : slot_data (mk_swap (sw_file sw) r) i = slot_data sw i.
Proof. done. Qed.

(** Entry [p], in slot [i], moves to frame [f], which was allocated for it. *)
Lemma pages_inv_loaded t m sw p i f n :
  pages_inv t m sw -> t !! p = Some (mk_pte i true true false) ->
  m !! f = Some (mk_cm true true 1 (Some p)) -> refs sw !! i = Some n ->
  pages_inv (<[p := mk_pte f true false false]> t) m (mk_swap (sw_file sw) (<[i := n - 1]> (refs sw))).
Proof.
  intros [Hres Hown Hidle Hrefs Hslots] Hp Hf Hn. split.
  - intros q e. rewrite lookup_insert. case_decide as E; [|apply Hres].
    intros [= <-] _ _. subst q. by eexists.
  - intros g c q Hc Hpte Hfx. rewrite lookup_insert. case_decide as E; [|by apply (Hown g c)].
    subst q. pose proof (Hown g c p Hc Hpte Hfx). simplify_eq.
  - intros q e. rewrite lookup_insert. case_decide; [by intros [= <-]|apply Hidle].
  - intros j r. simpl. rewrite lookup_insert.
    pose proof (slot_users_insert t p (mk_pte f true false false) j) as Hc. rewrite Hp in Hc.
    unfold use_count, uses in Hc; simpl in Hc. destruct (Z.eqb_spec i j) as [E|E]; case_decide; try done.
    + intros [= <-]. subst j. specialize (Hrefs _ _ Hn). lia.
    + intros Hr. specialize (Hrefs _ _ Hr). lia.
  - intros q e. rewrite lookup_insert. case_decide; [by intros [= <-]|]. rewrite slot_data_refs. apply Hslots.
Qed.

Lemma exact_refs_loaded t sw p i f n :
  exact_refs t sw -> t !! p = Some (mk_pte i true true false) -> refs sw !! i = Some n -> 0 <= i < SWAP_MAX ->
  exact_refs (<[p := mk_pte f true false false]> t) (mk_swap (sw_file sw) (<[i := n - 1]> (refs sw))).
Proof.
  intros Hex Hp Hn Hi j Hj. simpl. rewrite lookup_insert.
  pose proof (slot_users_insert t p (mk_pte f true false false) j) as Hc. rewrite Hp in Hc.
  unfold use_count, uses in Hc; simpl in Hc. rewrite Hex in Hn by done.
  destruct (Z.eqb_spec i j) as [E|E]; case_decide; try done; simplify_eq.
  - f_equal. lia.
  - rewrite Hex by done. f_equal. lia.
Qed.

(** A slot in use is counted. *)
Lemma used_slot t m sw p i :
  pages_inv t m sw -> swap_wf sw -> t !! p = Some (mk_pte i true true false) ->
  0 <= i < SWAP_MAX /\ exists n d, refs sw !! i = Some n /\ 0 < n < 2 ^ 8 /\ slot_data sw i = Some d /\
    Z.of_nat (length d) = PAGE_SIZE.
Proof.
  intros Hpg [_ Hwf] Hp. destruct (pi_slots _ _ _ Hpg _ _ Hp eq_refl eq_refl) as (Hi & d & Hd). simpl in *.
  split; [done|]. destruct (Hwf i Hi) as (n & Hn & Hr). exists n, d. split; [done|].
  pose proof (pi_refs _ _ _ Hpg _ _ Hn). assert (0 < size (slot_users t i))%nat.
  { eapply slot_users_in; [done|]. by apply uses_spec. }
  split; [lia|]. split; [done|]. unfold slot_data in Hd. destruct (sw_file sw); [|done]. simpl in Hd.
  destruct (vop_read _ _ _) as [err bs]. destruct (err =? 0); [|done]. simpl in Hd.
  destruct (Z.eqb_spec (Z.of_nat (length bs)) PAGE_SIZE); [|done]. by injection Hd as <-.
Qed.

(** What a page-in operation leaves behind: the invariant, and the same pages. *)
Record pagein_post (k : kstate) (t : gmap pteptr pt_entry) (sw : swap_file) (k' : kstate)
    (t' : gmap pteptr pt_entry) (m' : gmap Z cm_entry) (bs' : list block) (sw' : swap_file) : Prop :=
  mk_pagein {
  pg_inv : vm_inv k' t' m' bs' sw';
  pg_frame : vm_frame k k' t t';
  pg_data : forall p, page_data k' t' sw' p = page_data k t sw p;
  pg_valid : forall p, valid <$> t' !! p = valid <$> t !! p;
  pg_refs : writes_ok -> exact_refs t sw -> exact_refs t' sw'
}.

Lemma alloc_pagein k t sw num entry addr k' t' m' bs' sw' :
  alloc_post k t sw num entry addr k' t' m' bs' sw' -> pagein_post k t sw k' t' m' bs' sw'.
Proof. by intros [Hi Hf Hd Hv Hk Hb Hr _ _]; split. Qed.

Lemma pagein_trans k1 t1 sw1 k2 t2 m2 bs2 sw2 k3 t3 m3 bs3 sw3 :
  pagein_post k1 t1 sw1 k2 t2 m2 bs2 sw2 -> pagein_post k2 t2 sw2 k3 t3 m3 bs3 sw3 ->
  pagein_post k1 t1 sw1 k3 t3 m3 bs3 sw3.
Proof.
  intros [I1 F1 D1 V1 R1] [I2 F2 D2 V2 R2]. split; try done; eauto using vm_frame_trans.
  - intros p. by rewrite D2.
  - intros p. by rewrite V2.
Qed.

(** *** Statistics *)

(** One page was fetched: exactly one of the three kinds of fetch was counted. *)
Definition fetched (c c' : gmap Z Z) : Prop :=
  u64 (counter c' tlb_reloads + counter c' page_faults_zeroed + counter c' page_faults_disk) =
    u64 (counter c tlb_reloads + counter c page_faults_zeroed + counter c page_faults_disk + 1) /\
  (counter c page_faults_disk = u64 (counter c page_faults_from_elf + counter c page_faults_from_swap) ->
   counter c' page_faults_disk = u64 (counter c' page_faults_from_elf + counter c' page_faults_from_swap)) /\
  (forall i, i = tlb_faults \/ i = tlb_faults_with_free \/ i = tlb_faults_with_replace ->
     counter c' i = counter c i).

Lemma fetched_same c c1 c2 : same_faults c c1 -> fetched c1 c2 -> fetched c c2.
Proof.
  intros Hs (H1 & H2 & H3). split; [|split].
  - rewrite H1. by rewrite !Hs.
  - intros Hd. apply H2. by rewrite !Hs.
  - intros i Hi. rewrite H3 by done. apply Hs. unfold tlb_faults, tlb_faults_with_free, tlb_faults_with_replace, swap_file_writes in *. lia.
Qed.

Lemma u64_add_r a b : u64 (a + u64 b) = u64 (a + b).
Proof. apply Zplus_mod_idemp_r. Qed.

Lemma fetched_reload c : fetched c (bump tlb_reloads c).
Proof.
  split; [stat_cases; rewrite <- Z.add_assoc, u64_add_l; f_equal; lia|].
  split; [by stat_cases|]. intros i Hi. by stat_cases.
Qed.

Lemma fetched_zeroed c : fetched c (bump page_faults_zeroed c).
Proof.
  split; [stat_cases; rewrite (Z.add_comm (counter c 4)), <- Z.add_assoc, u64_add_l; f_equal; lia|].
  split; [by stat_cases|]. intros i Hi. by stat_cases.
Qed.

Lemma fetched_disk c src : src = page_faults_from_elf \/ src = page_faults_from_swap ->
  fetched c (bump page_faults_disk (bump src c)).
Proof.
  intros Hsrc. split; [|split].
  - destruct Hsrc as [ -> | -> ]; stat_cases; rewrite u64_add_r; f_equal; lia.
  - intros Hd. destruct Hsrc as [ -> | -> ]; stat_cases; rewrite Hd, u64_add_l, ?u64_add_r, ?u64_add_l; f_equal; lia.
  - intros i Hi. destruct Hsrc as [ -> | -> ]; by stat_cases.
Qed.

(** The second half of [load_from_swap], from the frame [f] that was allocated. *)
Lemma load_slot_post k t m bs sw p i f d n sy st :
  vm_inv k t m bs sw -> t !! p = Some (mk_pte i true true false) ->
  fresh_block k t m f 1 (Some p) -> refs sw !! i = Some n -> 0 < n < 2 ^ 8 ->
  slot_data sw i = Some d -> Z.of_nat (length d) = PAGE_SIZE -> same_sync (k_sync k) sy ->
  let sw' := mk_swap (sw_file sw) (<[i := n - 1]> (refs sw)) in
  let t' := <[p := mk_pte f true false false]> t in
  pagein_post k t sw
    (set_ptes (<[p := mk_pte f true false false]> (ptes (k_pt k)))
      (set_sync sy (set_mem (<[f := d]> (k_mem k))
        (set_stats st (set_swap (mk_swap_st (Some sw') true) k))))) t' m bs sw'.
Proof.
  intros Hinv Hp [Hrg Hz Hcm Hun] Hn Hnr Hd Hlen Hsy sw' t'.
  pose proof Hinv as [Hq Hl Hwf Hsw Hprev Hpg Hlive Hrows Htrows Hmem].
  assert (Hf : m !! f = Some (mk_cm true true 1 (Some p)))
    by (rewrite Hcm by lia; by rewrite decide_True by done).
  destruct (used_slot _ _ _ _ _ Hpg (proj2 Hsw) Hp) as (Hi & _).
  destruct (proj1 (proj2 Hsw)) as [fl Hfl]. set (k' := set_ptes _ _).
  destruct (same_sync_inv k k' swap_lock Hsy Hq Hl) as [Hq' Hl'].
  assert (Hfd : forall g, frame_data k' g = if decide (f = g) then d else frame_data k g).
  { intros g. unfold frame_data; simpl. rewrite lookup_insert. by case_decide. }
  split.
  - split; try done.
    + split; [done|]. unfold sw'. rewrite Hfl. apply swap_wf_update; [apply Hsw|lia].
    + by apply pages_inv_loaded.
    + by apply insert_mono.
    + intros q e. unfold t'. rewrite lookup_insert. case_decide as E; [|apply Htrows].
      subst q. intros _. by eapply Htrows.
    + intros g. rewrite Hfd. case_decide; [done|apply Hmem].
  - split; try done.
    + intros q. unfold t'. rewrite lookup_insert_is_Some. destruct (decide (p = q)) as [<-|]; [|tauto].
      rewrite Hp. split; intros; [by eexists|by left].
    + intros q Hq0. simpl. rewrite lookup_insert_ne; [done|]. congruence.
    + intros pt Hok. apply tlb_ok_insert; [done|]. intros g. rewrite Hp. by intros [=].
  - intros q. unfold page_data, t'. rewrite lookup_insert. case_decide as E.
    + subst q. rewrite Hp. simpl. rewrite Hfd, Hd. by rewrite decide_True by done.
    + destruct (t !! q) as [e|] eqn:Hq0; [|done]. destruct (valid e) eqn:Hv; [|done].
      destruct (swp e) eqn:Hs; [done|]. rewrite Hfd. case_decide as E2; [|done].
      by destruct (Hun f q e ltac:(lia) Hq0 Hv Hs).
  - intros q. unfold t'. rewrite lookup_insert. case_decide as E; [|done]. subst q. by rewrite Hp.
  - intros _ Hex. by apply exact_refs_loaded.
Qed.

Lemma frame_shift f : Z.shiftr (f * PAGE_SIZE) 12 = f.
Proof. rewrite Z.shiftr_div_pow2 by lia. unfold PAGE_SIZE. by apply Z.div_mul. Qed.

Lemma live_pte k t m bs sw p e :
  vm_inv k t m bs sw -> t !! p = Some e -> read_pte p k = Ret e k.
Proof.
  intros Hinv Hp. rewrite read_pte_eq by (by eapply (inv_trows _ _ _ _ _ Hinv)).
  unfold pte_at. by erewrite lookup_weaken by (done || apply (inv_live _ _ _ _ _ Hinv)).
Qed.

Lemma load_from_swap_spec k t m bs sw p i :
  vm_inv k t m bs sw -> t !! p = Some (mk_pte i true true false) ->
  wps True (load_from_swap p) k (fun err k' => exists t' m' bs' sw',
    pagein_post k t sw k' t' m' bs' sw' /\ (err = 0 \/ err = ENOMEM) /\
    same_faults (k_stats k) (k_stats k') /\
    (err = 0 -> exists f, t' !! p = Some (mk_pte f true false false) /\
       m' !! f = Some (mk_cm true true 1 (Some p)) /\ 0 < f < npages (k_cm k'))).
Proof.
  intros Hinv Hp. pose proof (inv_trows _ _ _ _ _ Hinv _ _ Hp) as Hrow.
  unfold load_from_swap. apply wps_step. eapply wp_eq; [by eapply live_pte|].
  apply wps_step, wp_KASSERT; [done|]. apply wps_bind. eapply wps_mono.
  { apply (attempts_spec MAX_ATTEMPTS k t m bs sw 1 (Some p)); [done..|by right|]. by intros q [= <-]. }
  { done. }
  intros addr k1 (t1 & m1 & bs1 & sw1 & Hpost). pose proof (alloc_pagein _ _ _ _ _ _ _ _ _ _ _ Hpost) as Hpg1.
  destruct (Z.eqb_spec addr 0) as [E|E].
  { apply wps_ret. exists t1, m1, bs1, sw1. split; [done|]. split; [by right|].
    split; [apply Hpost|done]. }
  destruct Hpost as [Hinv1 Hfr _ _ Hkeep Hblock _ Hst1].
  destruct Hblock as [?|(f & -> & Hfresh)]; [done|].
  pose proof (Hkeep p _ Hp ltac:(done)) as Hp1.
  pose proof Hinv1 as [Hq1 Hl1 Hwf1 Hsw1 _ Hpages1 _ _ _ Hmem1].
  destruct (used_slot _ _ _ _ _ Hpages1 (proj2 Hsw1) Hp1) as (Hi & n & d & Hn & Hnr & Hd & Hlen).
  pose proof (fb_range _ _ _ _ _ _ Hfresh) as Hfr1. pose proof (wf_bound _ _ _ Hwf1). pose proof (wf_pages _ _ _ Hwf1).
  apply wps_step. eapply wp_eq; [by eapply live_pte|]. apply wps_of_wp, wp_bind. eapply wp_mono.
  { eapply (swap_get_spec k1 sw1 _ i n d); try done; try lia. apply kvaddr_nonzero. lia. }
  intros err k2 [-> (sy & Hsy & ->)]. rewrite kvaddr_frame_paddr by lia.
  assert (Hdd : d ++ drop (length d) (frame_data k1 f) = d).
  { rewrite drop_ge, app_nil_r; [done|]. pose proof (Hmem1 f). lia. }
  rewrite Hdd. apply wp_bind. cbn [when Z.eqb]. set (k2 := set_sync sy _).
  assert (Hrow2 : is_Some (pt_rows (k_pt k2) !! p.1)).
  { simpl. by eapply (inv_trows _ _ _ _ _ Hinv1). }
  eapply wp_eq; [by apply update_pte_eq|]. apply wp_ret.
  assert (Hpte : pte_at k2 p = mk_pte i true true false).
  { unfold pte_at. change (ptes (k_pt k2)) with (ptes (k_pt k1)).
    by erewrite lookup_weaken by (done || apply (inv_live _ _ _ _ _ Hinv1)). }
  rewrite Hpte. cbn [valid swapping]. rewrite frame_shift, u20_small by lia.
  change (ptes (k_pt k2)) with (ptes (k_pt k1)).
  eexists (<[p := mk_pte f true false false]> t1), m1, bs1, _.
  split; [eapply pagein_trans; [done|by eapply (load_slot_post k1 t1 m1 bs1 sw1 p i f d n sy)]|].
  split; [by left|]. split; [exact Hst1|]. intros _. exists f. split; [apply lookup_insert_eq|].
  split; [rewrite (fb_cm _ _ _ _ _ _ Hfresh) by lia; by rewrite decide_True by done|]. simpl. lia.
Qed.

(** C5: swap-in gives back what swap-out stored.  On an entry that is in the swap file,
    [load_from_swap] either leaves everything as it was and reports ENOMEM, or makes the
    entry resident in a fixed frame of its own, drops exactly one reference to the slot,
    and every page of every process (this one included) reads as before. *)
Theorem load_from_swap_roundtrip k t m bs sw p i :
  vm_inv k t m bs sw -> t !! p = Some (mk_pte i true true false) -> writes_ok -> exact_refs t sw ->
  wps True (load_from_swap p) k (fun err k' => exists t' m' bs' sw',
    vm_inv k' t' m' bs' sw' /\ exact_refs t' sw' /\
    (forall q, page_data k' t' sw' q = page_data k t sw q) /\
    (err = ENOMEM \/ err = 0 /\ exists f d,
       t' !! p = Some (mk_pte f true false false) /\ frame_data k' f = d /\
       slot_data sw i = Some d /\ m' !! f = Some (mk_cm true true 1 (Some p)))).
Proof.
  intros Hinv Hp Hw Hex. eapply wps_mono; [by apply (load_from_swap_spec k t m bs sw p i)|done|].
  intros err k' (t' & m' & bs' & sw' & [Hi Hf Hd Hv Hr] & Herr & _ & Hres). exists t', m', bs', sw'.
  split; [done|]. split; [auto|]. split; [done|]. destruct Herr as [ -> | -> ]; [right|by left].
  split; [done|]. destruct (Hres eq_refl) as (f & Ht' & Hm' & _). exists f, (frame_data k' f).
  split; [done|]. split; [done|]. split; [|done]. specialize (Hd p). unfold page_data in Hd.
  by rewrite Ht', Hp in Hd.
Qed.

(** ** Statistics, and the [fixed] flag *)

Lemma vm_inv_stats k t m bs sw st : vm_inv k t m bs sw -> vm_inv (set_stats st k) t m bs sw.
Proof. by intros [? ? ? ? ? ? ? ? ? ?]; split. Qed.

Lemma pagein_stats k t sw k' t' m' bs' sw' st :
  pagein_post k t sw k' t' m' bs' sw' -> pagein_post k t sw (set_stats st k') t' m' bs' sw'.
Proof.
  intros [Hi [] Hd Hv Hr]. split; try done. by apply vm_inv_stats.
Qed.

Lemma pagein_refl k t m bs sw : vm_inv k t m bs sw -> pagein_post k t sw k t m bs sw.
Proof. intros Hinv. by split. Qed.

(** A counter or two bumped inside a spinlock section. *)
Lemma counted_section l (m : M kstate unit) k st :
  quiet (cpu_of k) ->
  m (with_cpu (acq l (cpu_of k)) k) = Ret tt (set_stats st (with_cpu (acq l (cpu_of k)) k)) ->
  (_ ← zoom (spinlock_acquire l); _ ← m; zoom (spinlock_release l)) k = Ret tt (set_stats st k).
Proof.
  intros Hq Hm. pose proof Hq as (Hwf & _).
  rewrite (run_bind _ _ _ _ _ (zoom_cpu _ k _ _ (spinlock_acquire_eq _ l Hwf (quiet_free _ l Hq)))).
  rewrite (run_bind _ _ _ _ _ Hm).
  rewrite (zoom_cpu _ _ tt (cpu_of k)) by (by apply spinlock_release_acq; [|apply quiet_free]).
  f_equal. by destruct k as [[]].
Qed.

Lemma count_disk_fault_eq src k :
  quiet (cpu_of k) -> src < 10 ->
  count_disk_fault src k = Ret tt (set_stats (bump page_faults_disk (bump src (k_stats k))) k).
Proof.
  intros Hq Hsrc.
  pose proof (counted_section spinlock_faults_from_disk
    (_ ← zoom (inc_counter src); zoom (inc_counter page_faults_disk)) k
    (bump page_faults_disk (bump src (k_stats k))) Hq) as H.
  rewrite <- H.
  - unfold count_disk_fault. unfold mbind, M_bind. destruct (zoom (spinlock_acquire _) k); try done.
    by destruct (zoom (inc_counter src) s).
  - unfold inc_counter, zoom; msimpl. rewrite (proj2 (Z.ltb_lt _ _) Hsrc). by destruct k.
Qed.

(** The owner fixes its frame. *)
Lemma pages_inv_fix t m sw f c :
  pages_inv t m sw -> m !! f = Some c -> pages_inv t (<[f := set_fixed true c]> m) sw.
Proof.
  intros [Hres Hown Hidle Hrefs Hslots] Hf. split; try done.
  - intros p e Hp Hv Hs. destruct (Hres p e Hp Hv Hs) as (c' & Hc' & Hpte).
    rewrite lookup_insert. case_decide as E; [|by exists c']. rewrite E in Hf. simplify_eq. by eexists.
  - intros g c' p. rewrite lookup_insert. case_decide; [by intros [= <-]|apply Hown].
Qed.

(** The owner gives its frame up for replacement. *)
Lemma pages_inv_unfix t m sw f c p :
  pages_inv t m sw -> m !! f = Some c -> cm_pte c = Some p -> t !! p = Some (mk_pte f true false false) ->
  pages_inv t (<[f := set_fixed false c]> m) sw.
Proof.
  intros [Hres Hown Hidle Hrefs Hslots] Hf Hp Ht. split; try done.
  - intros q e Hq Hv Hs. destruct (Hres q e Hq Hv Hs) as (c' & Hc' & Hpte).
    rewrite lookup_insert. case_decide as E; [|by exists c']. rewrite E in Hf. simplify_eq. by eexists.
  - intros g c' q. rewrite lookup_insert. case_decide as E; [|apply Hown].
    intros [= <-] Hq _. simpl in Hq. rewrite Hp in Hq. injection Hq as <-. by subst g.
Qed.

(** Either change of the flag, on a frame with an owner. *)
Lemma vm_inv_set_fixed k t m bs sw f c p b :
  vm_inv k t m bs sw -> m !! f = Some c -> cm_pte c = Some p -> occ c = true ->
  pages_inv t (<[f := set_fixed b c]> m) sw ->
  pagein_post k t sw (set_cm (set_coremap (<[f := set_fixed b c]> m) (k_cm k)) k) t
    (<[f := set_fixed b c]> m) bs sw.
Proof.
  intros Hinv Hf Hp Hocc Hpg'. pose proof Hinv as [Hq Hl Hwf Hsw Hprev Hpg Hlive Hrows Htrows Hmem].
  split; try done. split; try done.
  - eapply cm_wf_set; try done.
    + by eapply owned_above.
    + intros q _. by eapply (wf_user _ _ _ Hwf).
  - intros g c' q. rewrite lookup_insert. case_decide as E; [|apply Hrows].
    intros [= <-]. simpl. by eapply Hrows.
Qed.

(** A frame with an owner is allocated. *)
Lemma owned_occ s m bs f c p : cm_wf s m bs -> m !! f = Some c -> cm_pte c = Some p -> occ c = true.
Proof.
  intros Hwf Hf Hp. destruct (occ c) eqn:E; [done|]. destruct (wf_free _ _ _ Hwf _ _ Hf E). congruence.
Qed.

(** ** A valid entry is fetched *)

Lemma fetch_resident k t m bs sw p f :
  vm_inv k t m bs sw -> t !! p = Some (mk_pte f true false false) ->
  exists c, m !! f = Some c /\ cm_pte c = Some p /\ 0 < f < npages (k_cm k) /\
    fetch_valid p k = Ret 0 (set_stats (bump tlb_reloads (k_stats k))
      (set_cm (set_coremap (<[f := set_fixed true c]> m) (k_cm k)) k)) /\
    pagein_post k t sw (set_cm (set_coremap (<[f := set_fixed true c]> m) (k_cm k)) k) t
      (<[f := set_fixed true c]> m) bs sw.
Proof.
  intros Hinv Hp. pose proof Hinv as [Hq Hl Hwf Hsw Hprev Hpg Hlive Hrows Htrows Hmem].
  destruct (pi_resident _ _ _ Hpg _ _ Hp eq_refl eq_refl) as (c & Hc & Hpte). simpl in Hc.
  pose proof (owned_above _ _ _ _ _ _ Hwf Hc Hpte). pose proof (wf_pages _ _ _ Hwf).
  exists c. split; [done|]. split; [done|]. split; [lia|]. split.
  - unfold fetch_valid. set (kh := with_cpu (high (cpu_of k)) k).
    rewrite (run_bind _ _ k (t_curspl (cpu_of k)) kh) by (apply zoom_cpu, splhigh_eq, Hq).
    assert (Hinvh : vm_inv kh t m bs sw).
    { apply vm_inv_cpu; [done|by apply quiet_high|]. apply high_splk. }
    rewrite (run_bind _ _ _ _ _ (live_pte _ _ _ _ _ _ _ Hinvh Hp)). cbn [swapping swp frame_no].
    set (cm' := set_coremap (<[f := set_fixed true c]> m) (k_cm k)).
    rewrite (run_bind _ _ kh tt (set_cm cm' kh)).
    2: { unfold coremap_set_fixed. rewrite (run_bind _ _ kh kh kh) by done.
         rewrite (run_bind _ _ kh tt kh).
         - apply zoom_cm. by apply (cm_upd_eq _ m f _ c (wf_map _ _ _ Hwf)).
         - unfold KASSERT, kh. by rewrite (proj2 (Z.ltb_lt _ _) (iplhigh_high _ k (proj1 Hq))). }
    rewrite (run_bind _ _ _ tt (set_stats (bump tlb_reloads (k_stats k)) (set_cm cm' kh))) by done.
    destruct (splx_high (cpu_of k)) as [r Hx]; [apply Hq|].
    rewrite (run_bind _ _ _ _ _ (zoom_cpu _ (set_stats _ (set_cm cm' kh)) _ _ Hx)).
    unfold mret, M_ret. f_equal. unfold kh. by destruct k as [[]].
  - eapply vm_inv_set_fixed; try done; [by eapply owned_occ|by apply pages_inv_fix].
Qed.

(** Whatever the state of the page, fetching it gives a fixed frame with its contents. *)
Lemma fetch_valid_spec k t m bs sw p e :
  vm_inv k t m bs sw -> t !! p = Some e -> valid e = true ->
  wps True (fetch_valid p) k (fun err k' => exists t' m' bs' sw',
    pagein_post k t sw k' t' m' bs' sw' /\ (err = 0 \/ err = ENOMEM) /\
    (err = 0 -> fetched (k_stats k) (k_stats k') /\
     exists f c, t' !! p = Some (mk_pte f true false false) /\
       m' !! f = Some c /\ cm_pte c = Some p /\ fixed c = true /\ 0 < f < npages (k_cm k'))).
Proof.
  intros Hinv Hp Hv. pose proof Hinv as [Hq Hl Hwf Hsw Hprev Hpg Hlive Hrows Htrows Hmem].
  pose proof (pi_idle _ _ _ Hpg _ _ Hp) as Hidle. destruct e as [f v s g]; simpl in *; subst v g.
  destruct s.
  - unfold fetch_valid. apply wps_step, wp_splhigh; [done|]. set (kh := with_cpu (high (cpu_of k)) k).
    assert (Hinvh : vm_inv kh t m bs sw).
    { apply vm_inv_cpu; [done|by apply quiet_high|]. apply high_splk. }
    apply wps_step. eapply wp_eq; [by eapply (live_pte kh)|]. cbn [swapping swp].
    apply wps_step, wp_splx; [apply Hq|done|]. intros r. unfold kh. rewrite with_cpu_restore.
    apply wps_bind. eapply wps_mono; [by apply (load_from_swap_spec k t m bs sw p f)|done|].
    intros err k1 (t1 & m1 & bs1 & sw1 & Hpost & Herr & Hsf & Hres).
    apply wps_step. destruct (Z.eqb_spec err 0) as [E|E]; cbn [when].
    + eapply wp_eq; [apply count_disk_fault_eq; [apply (inv_cpu _ _ _ _ _ (pg_inv _ _ _ _ _ _ _ _ Hpost))|done]|].
      apply wps_ret. exists t1, m1, bs1, sw1. split; [by apply pagein_stats|]. split; [done|].
      intros _. split; [eapply fetched_same; [done|]; apply fetched_disk; by right|].
      destruct (Hres E) as (f1 & H1 & H2 & H3). exists f1. by eexists.
    + apply wp_ret, wps_ret. exists t1, m1, bs1, sw1. by split_and!.
  - destruct (fetch_resident k t m bs sw p f Hinv Hp) as (c & Hc & Hpte & Hf & Hrun & Hpost).
    eapply wps_eq; [exact Hrun|]. exists t, (<[f := set_fixed true c]> m), bs, sw.
    split; [by apply pagein_stats|]. split; [by left|]. intros _. split; [apply fetched_reload|]. exists f, (set_fixed true c).
    split; [done|]. split; [apply lookup_insert_eq|]. split; [exact Hpte|]. split; [done|exact Hf].
Qed.

End PageIn.

(** ** Witnesses *)

Import Replacement.

Lemma load_from_swap_roundtrip_witness :
  wps True (load_from_swap (pte0 0)) (swapped_state None) (fun err k' => exists t' m' bs' sw',
    vm_inv k' t' m' bs' sw' /\ exact_refs t' sw' /\
    (forall q, page_data k' t' sw' q = page_data (swapped_state None) swapped_ptes swapped_swap q) /\
    (err = ENOMEM \/ err = 0 /\ exists f d,
       t' !! pte0 0 = Some (mk_pte f true false false) /\ frame_data k' f = d /\
       slot_data swapped_swap 0 = Some d /\ m' !! f = Some (mk_cm true true 1 (Some (pte0 0))))).
Proof.
  apply (load_from_swap_roundtrip (swapped_state None) swapped_ptes boot_map (boot_layout 1 4)
    swapped_swap (pte0 0) 0).
  - apply swapped_inv. by left.
  - reflexivity.
  - by intros f o bs.
  - apply swapped_exact.
Defined.

End PageIn.
