(* ===== verification/PtLife.v ===== *)
(** * Page tables over a process's life: copying entries at fork, freeing them at exit *)

From S2P Require Import Prelude Cpu Synch KState Stats Tlb Swap Coremap Blocks Paging Kpages PageTable PageIn.
From S2P Require Import Replacement.

Module PtLife.
Import Cpu Synch KState Stats Tlb Swap Coremap Blocks Paging Kpages PageTable PageIn.

Section PtLife.
Context `{VN : Vnode}.

(** ** Freeing entries *)

(** The entries [t'] remain; their pages read as before, and the rest of the kernel that
    page tables depend on is the same. *)
Record drop_post (k : kstate) (t : gmap pteptr pt_entry) (sw : swap_file) (k' : kstate)
    (t' : gmap pteptr pt_entry) (m' : gmap Z cm_entry) (bs' : list block) (sw' : swap_file) : Prop :=
  mk_drop {
  dp_inv : vm_inv k' t' m' bs' sw';
  dp_sub : t' ⊆ t;
  dp_pt : k_pt k' = k_pt k;
  dp_as : k_as k' = k_as k;
  dp_sync : same_sync (k_sync k) (k_sync k');
  dp_data : forall p, is_Some (t' !! p) -> page_data k' t' sw' p = page_data k t sw p;
  dp_refs : exact_refs t sw -> exact_refs t' sw';
  (* the kernel's frames stay, and no frame gets an owner *)
  dp_first : first_page (k_cm k') = first_page (k_cm k);
  dp_kernel : forall m f c, coremap (k_cm k) = Some m -> m !! f = Some c -> occ c = true -> cm_pte c = None -> m' !! f = Some c;
  dp_owner : forall m f c q, coremap (k_cm k) = Some m -> m' !! f = Some c -> cm_pte c = Some q -> m !! f = Some c
}.

Lemma drop_trans k1 t1 sw1 k2 t2 m2 bs2 sw2 k3 t3 m3 bs3 sw3 :
  drop_post k1 t1 sw1 k2 t2 m2 bs2 sw2 -> drop_post k2 t2 sw2 k3 t3 m3 bs3 sw3 ->
  drop_post k1 t1 sw1 k3 t3 m3 bs3 sw3.
Proof.
  intros [I1 S1 P1 A1 Y1 D1 R1 F1 K1 O1] [I2 S2 P2 A2 Y2 D2 R2 F2 K2 O2]. pose proof (wf_map _ _ _ (inv_cm _ _ _ _ _ I1)) as M2. split; try done; try congruence; auto.
  - by etrans.
  - by eapply same_sync_trans.
  - intros p [e He]. rewrite D2 by by eexists. apply D1. exists e. by eapply lookup_weaken.
  - intros m f c Hm Hc Ho Hp. eapply K2; [done| |done|done]. by eapply K1.
  - intros m f c q Hm Hc Hp. eapply O1; [done| |done]. by eapply O2.
Qed.

(** An entry that is not valid uses nothing. *)
Lemma drop_invalid k t m bs sw p :
  vm_inv k t m bs sw -> (forall e, t !! p = Some e -> valid e = false) ->
  drop_post k t sw k (delete p t) m bs sw.
Proof.
  intros Hinv Hp. pose proof Hinv as [Hq Hl Hwf Hsw Hprev [Hres Hown Hidle Hrefs Hslots] Hlive Hrows Htrows Hmem].
  assert (Hin : forall q e, delete p t !! q = Some e -> t !! q = Some e)
    by (intros q e Hqe; by apply lookup_delete_Some in Hqe as [_ ?]).
  assert (Hu : forall i, use_count i (t !! p) = 0%nat).
  { intros i. destruct (t !! p) as [e|] eqn:E; [|done]. simpl. unfold uses. by rewrite (Hp e eq_refl). }
  split; try done; [|apply delete_subseteq|..].
  - split; try done; eauto.
    + split; eauto.
      * intros f c q Hc Hpte Hfx. pose proof (Hown _ _ _ Hc Hpte Hfx) as Ht. rewrite lookup_delete_ne; [done|].
        intros <-. by specialize (Hp _ Ht).
      * intros i n Hn. specialize (Hrefs _ _ Hn). pose proof (slot_users_delete t p i). rewrite Hu in *. lia.
    + etrans; [apply delete_subseteq|done].
  - intros q [e He]. unfold page_data. by rewrite He, (Hin _ _ He).
  - intros Hex i Hi. rewrite Hex by done. pose proof (slot_users_delete t p i). rewrite Hu in *. do 2 f_equal. lia.
  - intros m0 f c Hm0. rewrite (wf_map _ _ _ Hwf) in Hm0. by injection Hm0 as <-.
  - intros m0 f c q Hm0. rewrite (wf_map _ _ _ Hwf) in Hm0. by injection Hm0 as <-.
Qed.

Lemma drop_resident k t m bs sw p f m' :
  vm_inv k t m bs sw -> t !! p = Some (mk_pte f true false false) ->
  free_post k (set_cm (set_coremap m' (k_cm k)) k) (delete p t) f bs sw m' ->
  drop_post k t sw (set_cm (set_coremap m' (k_cm k)) k) (delete p t) m' (free_layout f bs) sw.
Proof.
  intros Hinv Hp [Hi _ _ Hk Ho]. split; try done; [apply delete_subseteq|..].
  - intros q [e He]. unfold page_data. rewrite He. by apply lookup_delete_Some in He as [_ ->].
  - intros Hex i Hi0. rewrite Hex by done. pose proof (slot_users_delete t p i) as Hc.
    rewrite Hp in Hc. unfold use_count, uses in Hc; simpl in Hc. do 2 f_equal. lia.
  - intros m0 g c Hm0 Hc Hoc Hn. pose proof (wf_map _ _ _ (inv_cm _ _ _ _ _ Hinv)) as Hm. rewrite Hm in Hm0. injection Hm0 as <-.
    destruct (pi_resident _ _ _ (inv_pages _ _ _ _ _ Hinv) _ _ Hp eq_refl eq_refl) as (cf & Hcf & Hpf). simpl in Hcf.
    eapply (Hk m); [done|done|done|done|]. rewrite (wf_user _ _ _ (inv_cm _ _ _ _ _ Hinv) _ _ _ Hcf Hpf). intros Hr. assert (g = f) as -> by lia. rewrite Hcf in Hc. injection Hc as <-. congruence.
Qed.

(** One reference to the slot less. *)
Lemma drop_swapped k t m bs sw p i n sy :
  vm_inv k t m bs sw -> t !! p = Some (mk_pte i true true false) -> refs sw !! i = Some n -> 0 < n < 2 ^ 8 ->
  same_sync (k_sync k) sy ->
  let sw' := mk_swap (sw_file sw) (<[i := n - 1]> (refs sw)) in
  drop_post k t sw (set_sync sy (set_mem (k_mem k) (set_stats (k_stats k)
    (set_swap (mk_swap_st (Some sw') true) k)))) (delete p t) m bs sw'.
Proof.
  intros Hinv Hp Hn Hnr Hsy sw'.
  pose proof Hinv as [Hq Hl Hwf Hsw Hprev [Hres Hown Hidle Hrefs Hslots] Hlive Hrows Htrows Hmem].
  assert (Hin : forall q e, delete p t !! q = Some e -> t !! q = Some e)
    by (intros q e Hqe; by apply lookup_delete_Some in Hqe as [_ ?]).
  set (k' := set_sync sy _). destruct (same_sync_inv k k' swap_lock Hsy Hq Hl) as [Hq' Hl'].
  destruct (proj1 (proj2 Hsw)) as [fl Hfl].
  assert (Hu : forall j, (size (slot_users (delete p t) j) + (if decide (i = j) then 1 else 0) = size (slot_users t j))%nat).
  { intros j. pose proof (slot_users_delete t p j) as Hc. rewrite Hp in Hc. unfold use_count, uses in Hc; simpl in Hc.
    destruct (Z.eqb_spec i j); case_decide; try done; lia. }
  split; try done; [|apply delete_subseteq|..].
  - split; try done; eauto.
    + split; [done|]. unfold sw'. rewrite Hfl. apply swap_wf_update; [apply Hsw|lia].
    + split; eauto.
      * intros f c q Hc Hpte Hfx. pose proof (Hown _ _ _ Hc Hpte Hfx) as Ht. rewrite lookup_delete_ne; [done|].
        intros <-. simplify_eq.
      * intros j r. simpl. rewrite lookup_insert. specialize (Hu j). repeat case_decide; try done.
        -- intros [= <-]. subst j. specialize (Hrefs _ _ Hn). lia.
        -- intros Hr. specialize (Hrefs _ _ Hr). lia.
    + etrans; [apply delete_subseteq|done].
  - intros q [e He]. unfold page_data. by rewrite He, (Hin _ _ He).
  - intros Hex j Hj. simpl. rewrite lookup_insert. specialize (Hu j). pose proof (Hex j Hj) as Hej. case_decide.
    + subst j. rewrite Hej in Hn. injection Hn as <-. f_equal. lia.
    + rewrite Hej. do 2 f_equal. lia.
  - intros m0 f c Hm0. simpl in *. rewrite (wf_map _ _ _ Hwf) in Hm0. by injection Hm0 as <-.
  - intros m0 f c q Hm0. simpl in *. rewrite (wf_map _ _ _ Hwf) in Hm0. by injection Hm0 as <-.
Qed.

(** All that is live in [ptes] is in [t], as far as entry [p] is concerned. *)
Definition entry_live (k : kstate) (t : gmap pteptr pt_entry) (p : pteptr) : Prop :=
  forall e, ptes (k_pt k) !! p = Some e -> valid e = true -> t !! p = Some e.

Lemma destroy_entry_spec k t m bs sw p :
  vm_inv k t m bs sw -> is_Some (pt_rows (k_pt k) !! p.1) -> entry_live k t p ->
  wp (destroy_entry p) k (fun _ k' => exists m' bs' sw',
    drop_post k t sw k' (delete p t) m' bs' sw').
Proof.
  intros Hinv Hrow Hlv. pose proof Hinv as [Hq Hl Hwf Hsw Hprev Hpg Hlive Hrows Htrows Hmem].
  unfold destroy_entry. apply wp_bind. eapply wp_eq; [by apply read_pte_eq|].
  destruct (valid (pte_at k p)) eqn:Hv.
  2: { cbn [andb when]. apply wp_bind, wp_ret, wp_bind. eapply wp_eq; [by apply read_pte_eq|]. rewrite Hv.
       apply wp_ret. exists m, bs, sw. apply drop_invalid; [done|]. intros e He.
       unfold pte_at in Hv. by erewrite lookup_weaken in Hv by done. }
  assert (Hp : t !! p = Some (pte_at k p)).
  { unfold pte_at in *. destruct (ptes (k_pt k) !! p) as [e|] eqn:E; [|done]. by apply Hlv. }
  pose proof (pi_idle _ _ _ Hpg _ _ Hp) as Hidle.
  destruct (pte_at k p) as [f v s g] eqn:Hpte; simpl in *; subst v g. destruct s; cbn [negb andb when].
  - apply wp_bind, wp_ret, wp_bind. eapply wp_eq; [by apply read_pte_eq|]. rewrite Hpte. cbn [valid swp andb when frame_no].
    destruct (used_slot _ _ _ _ _ Hpg (proj2 Hsw) Hp) as (Hi & n & d & Hn & Hnr & _).
    apply wp_bind. eapply wp_mono; [eapply (swap_drop_spec k sw f n); [done..|lia]|].
    intros err k' [_ (sy & Hsy & ->)]. apply wp_ret. eexists m, bs, _.
    by apply (drop_swapped k t m bs sw p f n sy).
  - destruct (pi_resident _ _ _ Hpg _ _ Hp eq_refl eq_refl) as (c & Hc & Hown). simpl in Hc.
    pose proof (owned_above _ _ _ _ _ _ Hwf Hc Hown). pose proof (wf_bound _ _ _ Hwf). pose proof (wf_pages _ _ _ Hwf).
    apply wp_bind. rewrite shift_page, u32_small by (unfold PAGE_SIZE; lia).
    eapply wp_mono; [by apply (free_frame_user k t m bs sw p (mk_pte f true false false))|].
    intros [] k' (m' & Hfree). pose proof (fp_state _ _ _ _ _ _ _ Hfree) as ->.
    apply wp_bind. eapply wp_eq; [by apply read_pte_eq|].
    change (pte_at (set_cm (set_coremap m' (k_cm k)) k) p) with (pte_at k p). rewrite Hpte. apply wp_ret.
    eexists m', _, sw. by eapply drop_resident.
Qed.

(** The entries of a row from index [j] on are removed. *)
Fixpoint without (row : Z * Z) (n : nat) (j : Z) (t : gmap pteptr pt_entry) : gmap pteptr pt_entry :=
  match n with
  | O => t
  | S n' => without row n' (j + 1) (delete (row, j) t)
  end.

Lemma without_lookup row n j t p :
  without row n j t !! p =
    if decide (p.1 = row /\ j <= p.2 < j + Z.of_nat n) then None else t !! p.
Proof.
  revert j t. induction n as [|n IH]; intros j t; simpl.
  - case_decide; [lia|done].
  - rewrite IH. destruct p as [r i]; simpl. destruct (decide (r = row /\ i = j)) as [[-> ->]|Hne].
    + rewrite lookup_delete_eq. repeat case_decide; try done; exfalso; intuition lia.
    + rewrite lookup_delete_ne by (intros [= <- <-]; by apply Hne).
      repeat case_decide; try done; exfalso; intuition lia.
Qed.

(** The inner loop of [pt_destroy]. *)
Lemma destroy_entries_spec n row j k t m bs sw :
  vm_inv k t m bs sw -> is_Some (pt_rows (k_pt k) !! row) ->
  (forall i, j <= i < j + Z.of_nat n -> entry_live k t (row, i)) ->
  wp (for_loop n j (fun i => destroy_entry (row, i))) k (fun _ k' => exists m' bs' sw',
    drop_post k t sw k' (without row n j t) m' bs' sw').
Proof.
  revert j k t m bs sw. induction n as [|n IH]; intros j k t m bs sw Hinv Hrow Hlv; simpl.
  - apply wp_ret. exists m, bs, sw. pose proof (wf_map _ _ _ (inv_cm _ _ _ _ _ Hinv)) as Hm. split; try done.
    + intros m0 f c Hm0. rewrite Hm in Hm0. by injection Hm0 as <-.
    + intros m0 f c q Hm0. rewrite Hm in Hm0. by injection Hm0 as <-.
  - apply wp_bind. eapply wp_mono; [apply (destroy_entry_spec k t m bs sw (row, j)); [done..|apply Hlv; lia]|].
    intros [] k1 (m1 & bs1 & sw1 & Hd). pose proof (dp_pt _ _ _ _ _ _ _ _ Hd) as Hpt.
    eapply wp_mono.
    + apply (IH (j + 1) k1 (delete (row, j) t) m1 bs1 sw1); [apply Hd|by rewrite Hpt|].
      intros i Hi e He Hv. rewrite Hpt in He. rewrite lookup_delete_ne by (intros [= E]; lia).
      by apply Hlv; [lia|..].
    + intros [] k2 (m2 & bs2 & sw2 & Hd2). exists m2, bs2, sw2. by eapply drop_trans.
Qed.

(** ** Destroying a page table *)

(** A kernel page: one frame, in use, of no process. *)
Definition kpage (first : Z) (m : gmap Z cm_entry) (va : Z) : Prop :=
  exists f c, va = PADDR_TO_KVADDR (f * PAGE_SIZE) /\ first <= f /\ m !! f = Some c /\ occ c = true /\ nframes c = 1 /\ cm_pte c = None.

(** The page table [table] of a process that runs no more: its first level is the page [tab],
    its rows are pages of their own, none of its pages is on its way in or out, and [t] has
    its valid entries. *)
Record held_table (k : kstate) (t : gmap pteptr pt_entry) (m : gmap Z cm_entry) (table tab : Z) : Prop := mk_held {
  ht_tab : kpage (first_page (k_cm k)) m tab;
  ht_row : forall i row, pt_rows (k_pt k) !! (table, i) = Some row -> 0 <= i < TABLE_SIZE /\ kpage (first_page (k_cm k)) m row /\ row <> tab;
  ht_inj : forall i j row, pt_rows (k_pt k) !! (table, i) = Some row -> pt_rows (k_pt k) !! (table, j) = Some row -> i = j;
  ht_idle : forall f c q, m !! f = Some c -> cm_pte c = Some q -> q.1.1 = table -> fixed c = false;
  ht_range : forall q e, t !! q = Some e -> q.1.1 = table -> 0 <= q.2 < TABLE_SIZE;
  ht_live : forall q, q.1.1 = table -> entry_live k t q
}.

Lemma vm_inv_drop_row k t m bs sw table i :
  vm_inv k t m bs sw -> (forall q e, t !! q = Some e -> q.1 <> (table, i)) -> (forall f c q, m !! f = Some c -> cm_pte c = Some q -> q.1 <> (table, i)) ->
  vm_inv (drop_row table i k) t m bs sw.
Proof.
  intros [Hq Hl Hwf Hsw Hprev Hpg Hlive Hrows Htrows Hmem] Ht Hm. split; try done.
  - apply map_subseteq_spec. intros q e Hqe. cbn. apply map_lookup_filter_Some. split; [by eapply lookup_weaken|]. by eapply Ht.
  - intros f c q Hc Hp. cbn. rewrite lookup_delete_ne; [by eapply Hrows|]. intros E. by apply (Hm f c q Hc Hp).
  - intros q e Hqe. cbn. rewrite lookup_delete_ne; [by eapply Htrows|]. intros E. by apply (Ht q e Hqe).
Qed.

(** What destroying rows of [table] leaves alone. *)
Record row_post (table : Z) (k : kstate) (t : gmap pteptr pt_entry) (sw : swap_file) (k' : kstate) (t' : gmap pteptr pt_entry) (sw' : swap_file) : Prop := mk_rp {
  rp_as : k_as k' = k_as k;
  rp_tab : pt_table (k_pt k') = pt_table (k_pt k);
  rp_sync : same_sync (k_sync k) (k_sync k');
  rp_data : forall p, p.1.1 <> table -> page_data k' t' sw' p = page_data k t sw p;
  rp_entries : forall p, p.1.1 <> table -> t' !! p = t !! p
}.

Lemma row_post_trans table k1 t1 sw1 k2 t2 sw2 k3 t3 sw3 :
  row_post table k1 t1 sw1 k2 t2 sw2 -> row_post table k2 t2 sw2 k3 t3 sw3 -> row_post table k1 t1 sw1 k3 t3 sw3.
Proof.
  intros [A1 B1 C1 D1 E1] [A2 B2 C2 D2 E2]. split; try congruence; [by eapply same_sync_trans|..].
  - intros p Hp. by rewrite D2, D1.
  - intros p Hp. by rewrite E2, E1.
Qed.

Lemma kpage_other k k1 m1 t f bs sw m2 va :
  free_post k1 k t f bs sw m2 -> coremap (k_cm k1) = Some m1 -> (exists c, m1 !! f = Some c /\ nframes c = 1) -> 0 <= f < 2 ^ 19 -> npages (k_cm k1) < 2 ^ 19 ->
  va <> PADDR_TO_KVADDR (f * PAGE_SIZE) -> kpage (first_page (k_cm k1)) m1 va -> kpage (first_page (k_cm k)) m2 va.
Proof.
  intros Hf Hm (c0 & Hc0 & Hn0) Hfr Hnp Hne (g & c & -> & Hg & Hc & Ho & Hn & Hp). exists g, c. rewrite (fp_state _ _ _ _ _ _ _ Hf). split_and!; try done.
  eapply (fp_kept _ _ _ _ _ _ _ Hf m1); [done|done|done|done|]. rewrite Hn0. intros Hr. apply Hne. by replace g with f by lia.
Qed.

Lemma destroy_row_spec k t m bs sw table tab i :
  vm_inv k t m bs sw -> vm_inited (k_as k) = true -> held_table k t m table tab ->
  wp (destroy_row table i) k (fun _ k' => exists t' m' bs' sw',
    vm_inv k' t' m' bs' sw' /\ row_post table k t sw k' t' sw' /\ held_table k' t' m' table tab /\ pt_rows (k_pt k') = delete (table, i) (pt_rows (k_pt k))).
Proof.
  intros Hinv Hin Hh. unfold destroy_row. apply wp_bind. unfold wp at 1, get. destruct (pt_rows (k_pt k) !! (table, i)) as [row|] eqn:Hrow.
  2: { apply wp_ret. exists t, m, bs, sw. split; [done|]. split; [by split|]. split; [done|]. by rewrite delete_id. }
  pose proof Hh as [Htab Hrows Hinj Hidle Hrange Hlv]. destruct (Hrows i row Hrow) as (Hi & Hkp & Hrt).
  apply wp_bind. eapply wp_mono; [apply (destroy_entries_spec (Z.to_nat TABLE_SIZE) (table, i) 0 k t m bs sw Hinv); [by eexists|by intros j _; apply Hlv]|].
  intros [] k1 (m1 & bs1 & sw1 & [Hi1 Hs1 Hp1 Ha1 Hy1 Hd1 _ Hf1 Hk1 Ho1]). set (t1 := without (table, i) (Z.to_nat TABLE_SIZE) 0 t) in *.
  assert (Hw : forall p, t1 !! p = if decide (p.1 = (table, i) /\ 0 <= p.2 < TABLE_SIZE) then None else t !! p) by (intros p; unfold t1; rewrite without_lookup, Z2Nat.id by discriminate; reflexivity). clearbody t1.
  pose proof (wf_map _ _ _ (inv_cm _ _ _ _ _ Hinv)) as Hm. pose proof (inv_cm _ _ _ _ _ Hi1) as Hwf1. pose proof (wf_bound _ _ _ Hwf1) as Hbd1. pose proof (wf_pages _ _ _ Hwf1).
  assert (Hkeep : forall va, kpage (first_page (k_cm k)) m va -> kpage (first_page (k_cm k1)) m1 va).
  { intros va (f & c & -> & Hf & Hc & Ho & Hn & Hp). exists f, c. rewrite Hf1. split_and!; [reflexivity|exact Hf|exact (Hk1 m f c Hm Hc Ho Hp)|exact Ho|exact Hn|exact Hp]. }
  destruct (Hkeep row Hkp) as (f & c & Erow & Hf & Hc & Ho & Hn & Hcp). assert (Hfr : 0 <= f < npages (k_cm k1)) by (apply (wf_dom _ _ _ Hwf1); by eexists).
  assert (Ht1 : forall q e, t1 !! q = Some e -> q.1 <> (table, i)).
  { intros q e Hq E. assert (Hq0 : t !! q = Some e) by (by eapply lookup_weaken). assert (Hr : 0 <= q.2 < TABLE_SIZE) by (apply (Hrange q e Hq0); by rewrite E).
    rewrite Hw, decide_True in Hq; [discriminate|]. by split. }
  assert (Hm1 : forall g c' q, m1 !! g = Some c' -> cm_pte c' = Some q -> q.1 <> (table, i)).
  { intros g c' q Hg Hq E. pose proof (Ho1 m g c' q Hm Hg Hq) as Hg0. assert (Hfx : fixed c' = false) by (apply (Hidle g c' q Hg0 Hq); by rewrite E).
    pose proof (pi_owner _ _ _ (inv_pages _ _ _ _ _ Hi1) _ _ _ Hg Hq Hfx) as Htq. by apply (Ht1 _ _ Htq). }
  apply wp_bind. rewrite Erow. eapply wp_mono.
  { apply (free_kpages_spec k1 t1 m1 bs1 sw1 f c Hi1); [by rewrite Ha1|done|done|lia|]. intros j c' Hj Hc'. assert (j = f) as -> by lia. rewrite Hc in Hc'. by injection Hc' as <-. }
  intros [] k2 (m2 & Hfree). pose proof (fp_inv _ _ _ _ _ _ _ Hfree) as Hi2. pose proof (fp_state _ _ _ _ _ _ _ Hfree) as Ek2.
  assert (Hm2 : forall g c' q, m2 !! g = Some c' -> cm_pte c' = Some q -> m1 !! g = Some c') by (intros; eapply (fp_owner _ _ _ _ _ _ _ Hfree m1); [apply Hwf1|done|done]).
  assert (Hkeep2 : forall va, va <> row -> kpage (first_page (k_cm k)) m va -> kpage (first_page (k_cm k2)) m2 va).
  { intros va Hva Hkv. rewrite Erow in Hva. eapply (kpage_other k2 k1); [exact Hfree|apply Hwf1|by eexists|lia|done|done|by apply Hkeep]. }
  apply wp_modify. exists t1, m2, (free_layout f bs1), sw1. assert (Hpt2 : k_pt k2 = k_pt k) by (rewrite Ek2; exact Hp1). split; [apply vm_inv_drop_row; [done|done|]; intros g c' q Hg Hq; eapply Hm1; [by eapply Hm2|done]|].
  assert (Hne : forall p : pteptr, p.1.1 <> table -> t1 !! p = t !! p) by (intros p Hp; rewrite Hw, decide_False; [reflexivity|]; intros [E _]; apply Hp; by rewrite E).
  split; [|split].
  - split.
    + change (k_as k2 = k_as k). rewrite Ek2. exact Ha1.
    + change (pt_table (k_pt k2) = pt_table (k_pt k)). by rewrite Hpt2.
    + change (same_sync (k_sync k) (k_sync k2)). rewrite Ek2. exact Hy1.
    + intros p Hp. rewrite Ek2. transitivity (page_data k1 t1 sw1 p); [done|]. destruct (t1 !! p) as [e|] eqn:E; [apply Hd1; by eexists|]. unfold page_data. rewrite <- (Hne p Hp). by rewrite E.
    + done.
  - split; cbn [k_cm k_pt pt_rows drop_row set_pt].
    + apply Hkeep2; [congruence|done].
    + intros j r. rewrite Hpt2. intros [Hnj Hj]%lookup_delete_Some. destruct (Hrows j r Hj) as (? & ? & ?). split; [done|]. split; [|done]. apply Hkeep2; [|done]. intros ->. apply Hnj. f_equal. by eapply Hinj.
    + intros j j' r. rewrite Hpt2. intros [_ Hj]%lookup_delete_Some [_ Hj']%lookup_delete_Some. by eapply Hinj.
    + intros g c' q Hg Hq Et. pose proof (Hm2 g c' q Hg Hq) as Hg1. pose proof (Ho1 m g c' q Hm Hg1 Hq) as Hg0. by eapply Hidle.
    + intros q e Hq Et. eapply Hrange; [|done]. by eapply lookup_weaken.
    + intros q Et e. cbn. rewrite Hpt2. intros [He Hne']%map_lookup_filter_Some Hv. cbn in Hne'. rewrite Hw, decide_False; [by apply Hlv|]. by intros [E _].
  - cbn. by rewrite Hpt2.
Qed.

Lemma destroy_rows_spec n i k t m bs sw table tab :
  vm_inv k t m bs sw -> vm_inited (k_as k) = true -> held_table k t m table tab ->
  wp (for_loop n i (destroy_row table)) k (fun _ k' => exists t' m' bs' sw',
    vm_inv k' t' m' bs' sw' /\ row_post table k t sw k' t' sw' /\ held_table k' t' m' table tab /\
    (forall j row, pt_rows (k_pt k') !! (table, j) = Some row -> pt_rows (k_pt k) !! (table, j) = Some row /\ ~ i <= j < i + Z.of_nat n)).
Proof.
  revert i k t m bs sw. induction n as [|n IH]; intros i k t m bs sw Hinv Hin Hh; cbn [for_loop].
  - apply wp_ret. exists t, m, bs, sw. split; [done|]. split; [by split|]. split; [done|]. intros j row Hj. split; [done|]. lia.
  - apply wp_bind. eapply wp_mono; [by apply (destroy_row_spec k t m bs sw table tab i)|]. intros [] k1 (t1 & m1 & bs1 & sw1 & Hi1 & Hr1 & Hh1 & Er1).
    eapply wp_mono; [apply (IH (i + 1) k1 t1 m1 bs1 sw1 Hi1); [by rewrite (rp_as _ _ _ _ _ _ _ Hr1)|done]|]. intros [] k2 (t2 & m2 & bs2 & sw2 & Hi2 & Hr2 & Hh2 & Er2).
    exists t2, m2, bs2, sw2. split; [done|]. split; [by eapply row_post_trans|]. split; [done|]. intros j row Hj. destruct (Er2 j row Hj) as [Hj1 Hout]. rewrite Er1 in Hj1. apply lookup_delete_Some in Hj1 as [Hne Hj1]. split; [done|]. assert (i <> j) by congruence. lia.
Qed.

Lemma vm_inv_resync k t m bs sw sy :
  vm_inv k t m bs sw -> s_cpu sy = s_cpu (k_sync k) -> (exists o, s_lock sy !! swap_lock = Some o /\ (o = None \/ o = Some (curthread (s_cpu sy)))) -> vm_inv (set_sync sy k) t m bs sw.
Proof. intros [Hq Hl Hwf Hsw Hprev Hpg Hlive Hrows Htrows Hmem] Hc Ho. split; try done. unfold cpu_of in *. simpl. by rewrite Hc. Qed.

(** [pt_destroy] returns: the frames and slots of the table's pages, its rows and its first
    level are given back, and nothing else changes. *)
Lemma pt_destroy_spec k t m bs sw table tab :
  vm_inv k t m bs sw -> vm_inited (k_as k) = true -> table <> 0 -> pt_table (k_pt k) !! table = Some tab -> held_table k t m table tab ->
  s_lock (k_sync k) !! swap_lock = Some None -> is_Some (s_lock (k_sync k) !! table) -> sleepers (lk_spl table) (k_sync k) = [] ->
  wp (pt_destroy table) k (fun _ k' => exists t' m' bs' sw',
    vm_inv k' t' m' bs' sw' /\ k_as k' = k_as k /\
    s_cpu (k_sync k') = s_cpu (k_sync k) /\ s_sem (k_sync k') = s_sem (k_sync k) /\ s_lock (k_sync k') = delete table (s_lock (k_sync k)) /\
    (forall wc, sleepers wc (k_sync k) = [] -> sleepers wc (k_sync k') = []) /\
    (forall p, p.1.1 <> table -> page_data k' t' sw' p = page_data k t sw p) /\
    (forall p e, t' !! p = Some e -> p.1.1 <> table) /\
    (forall f c q, m' !! f = Some c -> cm_pte c = Some q -> q.1.1 <> table)).
Proof.
  intros Hinv Hin Hnz Htab Hh Hsl [lo Hlo] Hslp. pose proof (inv_cpu _ _ _ _ _ Hinv) as Hq. unfold pt_destroy. rewrite (proj2 (Z.eqb_neq table 0) Hnz).
  apply wp_bind. eapply wp_eq; [by apply (zoom_eq (S := kstate) (T := sync)), lock_acquire_free|]. set (sy1 := set_lock (<[swap_lock := Some (curthread (s_cpu (k_sync k)))]> (s_lock (k_sync k))) (k_sync k)). change (lens_set sy1 k) with (set_sync sy1 k). set (k1 := set_sync sy1 k).
  assert (Hi1 : vm_inv k1 t m bs sw) by (apply vm_inv_resync; [done|done|]; eexists; split; [apply lookup_insert_eq|by right]).
  assert (Hh1 : held_table k1 t m table tab) by (destruct Hh; by split).
  apply wp_bind. unfold wp at 1, get. apply wp_bind. eapply wp_deref; [exact Htab|]. apply wp_bind.
  eapply wp_mono; [apply (destroy_rows_spec (Z.to_nat TABLE_SIZE) 0 k1 t m bs sw table tab Hi1 Hin Hh1)|]. intros [] k2 (t2 & m2 & bs2 & sw2 & Hi2 & [Ra Rt Ry Rd Re] & [Htb Hrw _ Hid _ _] & Er).
  assert (Hnone : forall j, pt_rows (k_pt k2) !! (table, j) = None).
  { intros j. destruct (pt_rows (k_pt k2) !! (table, j)) as [row|] eqn:E; [|done]. destruct (Hrw j row E) as [Hj _]. destruct (Er j row E) as [_ Hout]. rewrite Z2Nat.id in Hout by done. lia. }
  assert (Ht2 : forall p e, t2 !! p = Some e -> p.1.1 <> table) by (intros p e Hp E; destruct (inv_trows _ _ _ _ _ Hi2 _ _ Hp) as [r Hr]; destruct p as [[a b] j]; cbn in *; subst; by rewrite Hnone in Hr).
  assert (Hm2 : forall f c q, m2 !! f = Some c -> cm_pte c = Some q -> q.1.1 <> table) by (intros f c q Hc Hp E; destruct (inv_rows _ _ _ _ _ Hi2 _ _ _ Hc Hp) as [r Hr]; destruct q as [[a b] j]; cbn in *; subst; by rewrite Hnone in Hr).
  pose proof (inv_cm _ _ _ _ _ Hi2) as Hwf2. destruct Htb as (f & c & -> & Hf & Hc & Ho & Hn & Hcp).
  apply wp_bind. eapply wp_mono.
  { apply (free_kpages_spec k2 t2 m2 bs2 sw2 f c Hi2); [by rewrite Ra|done|done|lia|]. intros j c' Hj Hc'. assert (j = f) as -> by lia. rewrite Hc in Hc'. by injection Hc' as <-. }
  intros [] k3 (m3 & Hfree). pose proof (fp_inv _ _ _ _ _ _ _ Hfree) as Hi3. pose proof (fp_state _ _ _ _ _ _ _ Hfree) as Ek3.
  assert (Hsy3 : same_sync sy1 (k_sync k3)) by (rewrite Ek3; exact Ry). destruct Hsy3 as (Yc & Yl & Ys & Yw).
  assert (Hq3 : quiet (s_cpu (k_sync k3))) by (rewrite Yc; exact Hq).
  assert (Hts : table <> swap_lock) by exact Hnz.
  apply wp_bind. eapply wp_eq.
  { apply (zoom_eq (S := kstate) (T := sync) _ k3 tt (set_lock (delete table (s_lock (k_sync k3))) (k_sync k3))). unfold lock_destroy. rewrite (run_bind get _ _ _ _ eq_refl). cbn [lens_get k_sync_lens].
    rewrite Yl. unfold sy1 at 1. cbn [s_lock set_lock]. rewrite lookup_insert_ne, Hlo by done. rewrite (run_bind (KASSERT true) _ _ _ _ eq_refl).
    rewrite (run_bind _ _ _ tt (k_sync k3)). 2: { unfold zoom, spinlock_cleanup. msimpl. rewrite (quiet_free _ _ Hq3). cbn. by destruct (k_sync k3). }
    rewrite (Yw (lk_spl table)) by exact Hslp. rewrite (run_bind (KASSERT true) _ _ _ _ eq_refl). unfold modify. by rewrite Yl. }
  set (sy4 := set_lock (delete table (s_lock (k_sync k3))) (k_sync k3)). change (lens_set sy4 k3) with (set_sync sy4 k3). apply wp_bind, wp_modify.
  eapply wp_eq. { apply (zoom_eq (S := kstate) (T := sync)). apply lock_release_held; [exact Hq3|]. cbn. rewrite lookup_delete_ne by done. rewrite Yl. cbn. rewrite lookup_insert_eq. do 2 f_equal. by rewrite Yc. }
  set (sy5 := wake_first _ _). assert (W : same_sync (set_lock (<[swap_lock := None]> (s_lock sy4)) sy4) sy5) by exact (wake_first_same (lk_spl swap_lock) _). destruct W as (Wc & Wl & Ws & Ww). clearbody sy5.
  assert (El : s_lock sy5 = delete table (s_lock (k_sync k))).
  { rewrite Wl. cbn. rewrite Yl. cbn. apply map_eq. intros l. rewrite lookup_insert, !lookup_delete, lookup_insert. repeat case_decide; try done; try congruence. }
  exists t2, m3, (free_layout f bs2), sw2. split.
  { match goal with |- vm_inv ?a _ _ _ _ => change a with (set_sync sy5 (set_pt_table (delete table (pt_table (k_pt k3))) k3)) end.
    apply vm_inv_resync; [destruct Hi3; by split|by rewrite Wc|]. exists None. split; [|by left]. rewrite El, lookup_delete_ne by done. exact Hsl. }
  split; [cbn; rewrite Ek3; exact Ra|]. split; [cbn; rewrite Wc; cbn; rewrite Yc; done|]. split; [cbn; rewrite Ws; cbn; rewrite Ys; done|]. split; [exact El|]. split.
  { intros wc Hwc. apply Ww. cbn. by apply Yw. }
  split; [|split; [done|]].
  - intros p Hp. transitivity (page_data k2 t2 sw2 p); [rewrite Ek3; reflexivity|exact (Rd p Hp)].
  - intros g c' q Hg Hp. eapply Hm2; [|exact Hp]. eapply (fp_owner _ _ _ _ _ _ _ Hfree m2); [apply Hwf2|done|done].
Qed.

(** ** Copying an entry *)

(** An entry not in use may change. *)
Lemma vm_inv_dead k t m bs sw p e :
  vm_inv k t m bs sw -> t !! p = None -> vm_inv (set_ptes (<[p := e]> (ptes (k_pt k))) k) t m bs sw.
Proof.
  intros [Hq Hl Hwf Hsw Hprev Hpg Hlive Hrows Htrows Hmem] Hp. split; try done.
  simpl. apply map_subseteq_spec. intros q e' Hq'. rewrite lookup_insert_ne by congruence.
  by eapply lookup_weaken.
Qed.

(** A new entry for a slot: one more reference. *)
Lemma vm_inv_share k t m bs sw new old i n sy :
  vm_inv k t m bs sw -> t !! old = Some (mk_pte i true true false) -> t !! new = None ->
  is_Some (pt_rows (k_pt k) !! new.1) -> ptes (k_pt k) !! new = Some (mk_pte i true true false) ->
  refs sw !! i = Some n -> n + 1 < 2 ^ 8 -> same_sync (k_sync k) sy ->
  let sw' := mk_swap (sw_file sw) (<[i := n + 1]> (refs sw)) in
  vm_inv (set_sync sy (set_mem (k_mem k) (set_stats (k_stats k) (set_swap (mk_swap_st (Some sw') true) k))))
    (<[new := mk_pte i true true false]> t) m bs sw'.
Proof.
  intros [Hq Hl Hwf Hsw Hprev [Hres Hown Hidle Hrefs Hslots] Hlive Hrows Htrows Hmem] Ho Hnew Hrow Hpt Hn Hnr Hsy sw'.
  set (k' := set_sync sy _). destruct (same_sync_inv k k' swap_lock Hsy Hq Hl) as [Hq' Hl'].
  destruct (proj1 (proj2 Hsw)) as [fl Hfl]. destruct (Hslots _ _ Ho eq_refl eq_refl) as [Hi Hd]. simpl in Hi, Hd.
  split; try done.
  - split; [done|]. unfold sw'. rewrite Hfl. apply swap_wf_update; [apply Hsw|].
    destruct (proj2 (proj2 Hsw) i Hi) as (r & Hr & ?). simplify_eq. lia.
  - split.
    + intros p e. rewrite lookup_insert. case_decide; [by intros [= <-]|apply Hres].
    + intros f c p Hc Hp Hfx. pose proof (Hown _ _ _ Hc Hp Hfx). rewrite lookup_insert_ne; [done|congruence].
    + intros p e. rewrite lookup_insert. case_decide; [by intros [= <-]|apply Hidle].
    + intros j r. simpl. rewrite lookup_insert.
      pose proof (slot_users_insert t new (mk_pte i true true false) j) as Hc. rewrite Hnew in Hc.
      unfold use_count, uses in Hc; simpl in Hc. destruct (Z.eqb_spec i j); case_decide; try done.
      * intros [= <-]. subst j. specialize (Hrefs _ _ Hn). lia.
      * intros Hr. specialize (Hrefs _ _ Hr). lia.
    + intros p e. unfold sw'. rewrite lookup_insert, slot_data_refs. case_decide; [by intros [= <-]|apply Hslots].
  - simpl. apply map_subseteq_spec. intros q e. rewrite lookup_insert. case_decide as E.
    + intros [= <-]. by rewrite <- E.
    + intros Hq0. by eapply lookup_weaken.
  - intros q e. rewrite lookup_insert. case_decide as E; [by rewrite <- E|apply Htrows].
Qed.

(** A new resident entry with the frame [f] that was allocated for it, filled with [d],
    and unfixed. *)
Lemma vm_inv_adopt k t m bs sw new f d :
  vm_inv k t m bs sw -> t !! new = None -> is_Some (pt_rows (k_pt k) !! new.1) ->
  fresh_block k t m f 1 (Some new) -> Z.of_nat (length d) = PAGE_SIZE ->
  let m' := <[f := mk_cm true false 1 (Some new)]> m in
  let t' := <[new := mk_pte f true false false]> t in
  let k' := set_ptes (<[new := mk_pte f true false false]> (ptes (k_pt k)))
    (set_cm (set_coremap m' (k_cm k)) (set_mem (<[f := d]> (k_mem k)) k)) in
  vm_inv k' t' m' bs sw /\
  forall p, page_data k' t' sw p = if decide (p = new) then Some d else page_data k t sw p.
Proof.
  intros [Hq Hl Hwf Hsw Hprev [Hres Hown Hidle Hrefs Hslots] Hlive Hrows Htrows Hmem] Hnew Hrow
    [Hrg Hz Hcm Hun] Hlen m' t' k'.
  assert (Hf : m !! f = Some (mk_cm true true 1 (Some new)))
    by (rewrite Hcm by lia; by rewrite decide_True by done).
  assert (Hfd : forall g, frame_data k' g = if decide (f = g) then d else frame_data k g).
  { intros g. unfold frame_data; simpl. rewrite lookup_insert. by case_decide. }
  split.
  - split; try done.
    + eapply cm_wf_set; try done. lia.
    + split.
      * intros p e. unfold t', m'. rewrite lookup_insert. case_decide as E.
        -- intros [= <-] _ _. simpl. rewrite lookup_insert_eq, <- E. by eexists.
        -- intros Hp Hv Hs. rewrite lookup_insert_ne; [by apply Hres|]. intros E2. by apply (Hun f p e ltac:(lia)).
      * intros g c p. unfold m', t'. rewrite lookup_insert. case_decide as E.
        -- intros [= <-] Hp _. simpl in Hp. injection Hp as <-. rewrite lookup_insert_eq. by subst g.
        -- intros Hc Hp Hfx. pose proof (Hown _ _ _ Hc Hp Hfx). rewrite lookup_insert_ne; [done|congruence].
      * intros p e. unfold t'. rewrite lookup_insert. case_decide; [by intros [= <-]|apply Hidle].
      * intros i n Hn. pose proof (slot_users_insert t new (mk_pte f true false false) i) as Hc. rewrite Hnew in Hc.
        unfold use_count, uses in Hc; simpl in Hc. specialize (Hrefs _ _ Hn). unfold t'. lia.
      * intros p e. unfold t'. rewrite lookup_insert. case_decide; [by intros [= <-]|apply Hslots].
    + by apply insert_mono.
    + intros g c p. unfold m'. rewrite lookup_insert. case_decide; [|apply Hrows].
      intros [= <-] Hp. simpl in Hp. by injection Hp as <-.
    + intros q e. unfold t'. rewrite lookup_insert. case_decide as E; [by rewrite <- E|apply Htrows].
    + intros g. rewrite Hfd. case_decide; [done|apply Hmem].
  - intros p. unfold page_data, t'. rewrite lookup_insert. case_decide as E; case_decide as E2; try congruence.
    + simpl. rewrite Hfd. by rewrite decide_True by done.
    + destruct (t !! p) as [e|] eqn:Hp; [|done]. destruct (valid e) eqn:Hv; [|done].
      destruct (swp e) eqn:Hs; [done|]. rewrite Hfd. case_decide as E3; [|done].
      by destruct (Hun f p e ltac:(lia) Hp Hv Hs).
Qed.

(** What [copy_entry] promises: while a frame is free it goes on to the next entry and the
    parent's entry stays; it stops, with ENOMEM, only when [get_user_frame] found no frame for
    the child; the child's page is the parent's if the parent's entry is still of the same
    kind.  Otherwise it is the frame with the number in that entry. *)
Definition child_entry (new : pteptr) (k : kstate) : kstate := set_ptes (<[new := mk_pte 0 true false false]> (ptes (k_pt k))) k.
Definition copied (k : kstate) (t : gmap pteptr pt_entry) (bs : list block) (sw : swap_file)
    (old new : pteptr) (o : pt_entry) (r : option Z) (k' : kstate) : Prop :=
  (first_fit 1 0 bs <> None -> r = None) /\
  (r <> None -> r = Some ENOMEM /\ exists k1, get_user_frame new (child_entry new k) = Ret 0 k1) /\
  (r = None -> exists t' m' bs' sw', vm_inv k' t' m' bs' sw' /\
    (forall p, p <> new -> page_data k' t' sw' p = page_data k t sw p) /\
    (t' !! old = Some o -> page_data k' t' sw' new = page_data k t sw old) /\
    (first_fit 1 0 bs <> None -> t' !! old = Some o) /\
    (swp o = false -> exists o', t' !! old = Some o' /\ page_data k' t' sw' new = Some (frame_data k' (frame_no o')))).

Lemma copy_swapped k t m bs sw old new i n :
  vm_inv k t m bs sw -> old <> new -> t !! old = Some (mk_pte i true true false) -> t !! new = None ->
  is_Some (pt_rows (k_pt k) !! new.1) -> pte_at k new = zero_pte ->
  refs sw !! i = Some n -> n + 1 < 2 ^ 8 ->
  wp (copy_entry old new) k (copied k t bs sw old new (mk_pte i true true false)).
Proof.
  intros Hinv Hne Ho Hnew Hrow Hz Hn Hnr. unfold copy_entry. apply wp_bind.
  eapply wp_eq; [by eapply live_pte|]. cbn [valid negb swp frame_no].
  apply wp_bind. eapply wp_eq; [by apply update_pte_eq|]. rewrite Hz. cbn [frame_no swapping zero_pte].
  set (k1 := set_ptes _ k). apply wp_bind. eapply wp_eq; [by apply update_pte_eq|].
  set (k2 := set_ptes _ k1).
  destruct (pi_slots _ _ _ (inv_pages _ _ _ _ _ Hinv) _ _ Ho eq_refl eq_refl) as [Hi _]. simpl in Hi.
  assert (Hpte2 : ptes (k_pt k2) !! new = Some (mk_pte i true true false)).
  { simpl. rewrite lookup_insert_eq. unfold k1. rewrite pte_at_set, decide_True by done.
    unfold set_frame_no; simpl. rewrite u20_small; [done|]. unfold SWAP_MAX in Hi. lia. }
  assert (Hinv2 : vm_inv k2 t m bs sw) by (by apply vm_inv_dead; [apply vm_inv_dead|]).
  apply wp_bind. eapply wp_mono.
  { eapply (swap_inc_ref_spec k2 sw i n); try done; apply Hinv2. }
  intros [] k3 (sy & Hsy & ->). apply wp_ret. split; [done|]. split; [done|]. intros _.
  eexists _, m, bs, _. split; [by apply (vm_inv_share k2 t m bs sw new old i n sy)|]. split.
  - intros p Hp. unfold page_data. by rewrite lookup_insert_ne.
  - split; [|split; [by rewrite lookup_insert_ne|done]]. intros _. unfold page_data. by rewrite lookup_insert_eq, Ho.
Qed.

(** The number in a valid entry is small, whether of a frame or of a slot. *)
Lemma entry_number k t m bs sw p e : vm_inv k t m bs sw -> t !! p = Some e -> valid e = true -> 0 <= frame_no e < 2 ^ 19.
Proof.
  intros Hinv Hp Hv. pose proof (inv_pages _ _ _ _ _ Hinv) as Hpg. destruct (swp e) eqn:Hs.
  - destruct (pi_slots _ _ _ Hpg _ _ Hp Hv Hs) as [Hi _]. unfold SWAP_MAX in Hi. lia.
  - destruct (pi_resident _ _ _ Hpg _ _ Hp Hv Hs) as (c & Hc & Hc'). pose proof (owned_above _ _ _ _ _ _ (inv_cm _ _ _ _ _ Hinv) Hc Hc'). pose proof (wf_bound _ _ _ (inv_cm _ _ _ _ _ Hinv)). pose proof (wf_pages _ _ _ (inv_cm _ _ _ _ _ Hinv)). lia.
Qed.

(** The copy of a resident page, once a frame was allocated for the child. *)
Lemma copy_resident k t m bs sw old new fo :
  vm_inv k t m bs sw -> old <> new -> t !! old = Some (mk_pte fo true false false) -> t !! new = None ->
  is_Some (pt_rows (k_pt k) !! new.1) -> pte_at k new = zero_pte ->
  s_lock (k_sync k) !! swap_lock = Some (Some (curthread (cpu_of k))) ->
  wps (first_fit 1 0 bs = None) (copy_entry old new) k (copied k t bs sw old new (mk_pte fo true false false)).
Proof.
  intros Hinv Hne Ho Hnew Hrow Hz Hlk. unfold copy_entry. apply wps_step.
  eapply wp_eq; [by eapply live_pte|]. cbn [valid negb swp].
  apply wps_step. eapply wp_eq; [by apply update_pte_eq|]. rewrite Hz. cbn [frame_no swapping zero_pte].
  set (k1 := set_ptes _ k). assert (Hinv1 : vm_inv k1 t m bs sw) by by apply vm_inv_dead.
  apply wps_bind. eapply wps_mono.
  { apply wps_eqn. by apply (get_user_frame_spec k1 t m bs sw new). }
  { done. }
  intros addr k2 (Eg & t2 & m2 & bs2 & sw2 & Hpost & Hstay).
  pose proof Hpost as [Hinv2 Hfr Hdata _ _ Hblock _ _]. pose proof (fr_rows _ _ _ _ Hfr) as Hrows2.
  assert (Hnew2 : t2 !! new = None).
  { rewrite eq_None_not_Some, (fr_dom _ _ _ _ Hfr), <- eq_None_not_Some. done. }
  assert (Hrow2 : is_Some (pt_rows (k_pt k2) !! new.1)) by by rewrite Hrows2.
  assert (Hpn2 : pte_at k2 new = mk_pte 0 true false false).
  { unfold pte_at. rewrite (fr_dead _ _ _ _ Hfr new Hnew). simpl. by rewrite lookup_insert_eq. }
  apply wps_step. eapply wp_eq; [by apply update_pte_eq|]. rewrite Hpn2. set (k3 := set_ptes _ k2).
  assert (Hread3 : read_pte new k3 = Ret (mk_pte (u20 (Z.shiftr addr 12)) true false false) k3).
  { rewrite read_pte_eq by done. unfold k3. by rewrite pte_at_set, decide_True by done. }
  apply wps_step. eapply wp_eq; [exact Hread3|]. cbn [frame_no].
  assert (Hinv3 : vm_inv k3 t2 m2 bs2 sw2) by by apply vm_inv_dead.
  destruct Hblock as [->|(f & -> & Hfresh)].
  { cbn [Z.eqb]. apply wps_of_wp, wp_bind. eapply wp_eq.
    - apply (zoom_eq (S := kstate) (T := sync)). apply lock_release_held; [apply Hinv3|].
      destruct (fr_sync _ _ _ _ Hfr) as (E1 & E2 & _). simpl in *. by rewrite E1, E2.
    - apply wp_ret. split; [intros Hff; by destruct (proj2 (Hstay Hff))|]. split; [intros _; split; [done|]; by exists k2|by intros [=]]. }
  pose proof Hinv2 as [Hq2 Hl2 Hwf2 Hsw2 Hprev2 Hpg2 Hlive2 Hr2 Htr2 Hmem2].
  pose proof (fb_range _ _ _ _ _ _ Hfresh) as Hrg. pose proof (wf_pages _ _ _ Hwf2). pose proof (wf_bound _ _ _ Hwf2).
  rewrite frame_shift, u20_small by lia. destruct (Z.eqb_spec f 0); [lia|].
  apply wps_of_wp, wp_bind, wp_splhigh; [done|]. set (kh := with_cpu _ k3).
  destruct (t2 !! old) as [o2|] eqn:Ho2.
  2: { exfalso. apply eq_None_not_Some in Ho2. apply Ho2, (fr_dom _ _ _ _ Hfr). by eexists. }
  assert (Hread : read_pte old kh = Ret o2 kh).
  { eapply (live_pte kh t2 m2 bs2 sw2); [|done]. apply vm_inv_cpu; [done|by apply quiet_high|apply high_splk]. }
  apply wp_bind. eapply wp_eq; [exact Hread|]. apply wp_bind. unfold wp at 1, get.
  apply wp_bind, wp_modify. rewrite shift_page, u32_small, kvaddr_frame_paddr by (unfold PAGE_SIZE; lia).
  set (d := frame_data kh _). set (kw := set_mem _ kh).
  pose proof (fb_cm _ _ _ _ _ _ Hfresh f ltac:(lia)) as Hcm. rewrite decide_True in Hcm by done.
  apply wp_bind. eapply wp_eq.
  { unfold coremap_set_unfixed. rewrite (run_bind _ _ kw kw kw) by done. rewrite (run_bind _ _ kw tt kw).
    - apply zoom_cm. by apply (cm_upd_eq _ m2 f _ _ (wf_map _ _ _ Hwf2) Hcm).
    - unfold KASSERT. change (iplhigh kw) with (iplhigh kh). unfold kh.
      by rewrite (proj2 (Z.ltb_lt _ _) (iplhigh_high (cpu_of k3) k3 (proj1 Hq2))). }
  apply wp_bind, wp_splx; [apply Hq2|done|]. intros r. apply wp_ret. split; [done|]. split; [done|]. intros _.
  assert (Hlen : Z.of_nat (length d) = PAGE_SIZE) by apply (Hmem2 _).
  destruct (vm_inv_adopt k2 t2 m2 bs2 sw2 new f d Hinv2 Hnew2 Hrow2 Hfresh Hlen) as [Hinv' Hdata'].
  eexists _, _, bs2, sw2. split; [|split; [|split; [|split]]].
  - match goal with |- vm_inv ?a _ _ _ _ => match type of Hinv' with vm_inv ?b _ _ _ _ =>
      replace a with b; [exact Hinv'|] end end.
    unfold kw, kh, k3. unfold set_frame_no; cbn [valid swp swapping].
    rewrite frame_shift, u20_small by lia. by destruct k2 as [[]].
  - intros p Hp. pose proof (Hdata' p) as Hd. rewrite decide_False in Hd by done.
    transitivity (page_data k2 t2 sw2 p); [rewrite <- Hd; done|exact (Hdata p)].
  - intros Hsame. rewrite lookup_insert_ne in Hsame by done. rewrite Ho2 in Hsame. injection Hsame as ->.
    pose proof (Hdata' new) as Hd. rewrite decide_True in Hd by done.
    match goal with |- ?a = _ => match type of Hd with ?b = _ => replace a with b by done end end.
    rewrite Hd. transitivity (page_data k2 t2 sw2 old); [|exact (Hdata old)].
    unfold page_data. rewrite Ho2. cbn [valid swp]. f_equal. unfold d. cbn [frame_no].
    destruct (pi_resident _ _ _ Hpg2 _ _ Ho2 eq_refl eq_refl) as (co & Hco & Hco').
    pose proof (owned_above _ _ _ _ _ _ Hwf2 Hco Hco'). simpl in *.
    rewrite shift_page, u32_small, kvaddr_frame_paddr by (unfold PAGE_SIZE; lia). done.
  - intros Hff. rewrite lookup_insert_ne by done. by rewrite <- (proj1 (Hstay Hff)) in Ho.
  - intros _. exists o2. split; [by rewrite lookup_insert_ne|]. pose proof (Hdata' new) as Hd. rewrite decide_True in Hd by done.
    match goal with |- ?a = _ => match type of Hd with ?b = _ => replace a with b by done end end. rewrite Hd. f_equal.
    assert (Hb : 0 <= frame_no o2 < 2 ^ 19) by (eapply entry_number; [exact Hinv2|exact Ho2|]; pose proof (ap_valid _ _ _ _ _ _ _ _ _ _ _ Hpost old) as Hv; rewrite Ho, Ho2 in Hv; by injection Hv).
    assert (Ed : d = frame_data kh (frame_no o2)) by (unfold d; by rewrite shift_page, u32_small, kvaddr_frame_paddr by (unfold PAGE_SIZE; lia)).
    rewrite Ed. unfold kw, frame_data. cbn. rewrite lookup_insert. case_decide; [|done]. by rewrite Ed.
Qed.

(** ** Theorems *)

Lemma copy_entry_spec k t m bs sw old new o :
  vm_inv k t m bs sw -> old <> new -> t !! old = Some o -> valid o = true -> t !! new = None ->
  is_Some (pt_rows (k_pt k) !! new.1) -> pte_at k new = zero_pte ->
  s_lock (k_sync k) !! swap_lock = Some (Some (curthread (cpu_of k))) ->
  (forall n, refs sw !! frame_no o = Some n -> n + 1 < 2 ^ 8) ->
  wps (first_fit 1 0 bs = None) (copy_entry old new) k (copied k t bs sw old new o).
Proof.
  intros Hinv Hne Ho Hv Hnew Hrow Hz Hlk Hn. pose proof (inv_pages _ _ _ _ _ Hinv) as Hpg. pose proof (pi_idle _ _ _ Hpg _ _ Ho) as Hg.
  destruct o as [f v [] g]; simpl in *; subst v g.
  - destruct (used_slot _ _ _ _ _ Hpg (proj2 (inv_swap _ _ _ _ _ Hinv)) Ho) as (_ & n & d & Hr & _).
    apply wps_of_wp. by apply (copy_swapped k t m bs sw old new f n); auto.
  - by apply (copy_resident k t m bs sw old new f).
Qed.

(** C7: fork copies a page.  With a free frame (so that copying does not swap anything
    out), one step of the loop of [pt_copy] on a valid page of the parent, resident or in the
    swap file, returns and goes on to the next entry: the child's page then has the parent's
    contents, every other page is as before and the invariant holds.  The swap slot of a page
    in the swap file has fewer than 255 users. *)
Theorem copy_entry_copies_page k t m bs sw old new o :
  vm_inv k t m bs sw -> old <> new -> t !! old = Some o -> valid o = true -> t !! new = None ->
  is_Some (pt_rows (k_pt k) !! new.1) -> pte_at k new = zero_pte ->
  s_lock (k_sync k) !! swap_lock = Some (Some (curthread (cpu_of k))) ->
  (forall n, refs sw !! frame_no o = Some n -> n + 1 < 2 ^ 8) -> first_fit 1 0 bs <> None ->
  wp (copy_entry old new) k (fun r k' => r = None /\ exists t' m' bs' sw',
    vm_inv k' t' m' bs' sw' /\ t' !! old = Some o /\
    page_data k' t' sw' new = page_data k t sw old /\
    (forall p, p <> new -> page_data k' t' sw' p = page_data k t sw p)).
Proof.
  intros Hinv Hne Ho Hv Hnew Hrow Hz Hlk Hn Hff. eapply wp_mono; [eapply wps_wp; [by apply (copy_entry_spec k t m bs sw old new o)|done]|].
  intros r k' (Hr & _ & Hc). specialize (Hr Hff). split; [done|]. destruct (Hc Hr) as (t' & m' & bs' & sw' & Hi & Hoth & Hd & Hst & _). exists t', m', bs', sw'. split; [done|]. split; [by apply Hst|]. split; [by apply Hd, Hst|done].
Qed.


(** Exit gives everything back.  The inner loop of [pt_destroy] over a row leaves no
    frame that belongs to a page of the row, drops one reference per swapped page (the
    reference counts stay exact), and changes no other page. *)
Lemma destroy_row_entries_releases k m bs sw row :
  vm_inv k (ptes (k_pt k)) m bs sw -> is_Some (pt_rows (k_pt k) !! row) ->
  exact_refs (ptes (k_pt k)) sw ->
  wp (for_loop (Z.to_nat TABLE_SIZE) 0 (fun j => destroy_entry (row, j))) k (fun _ k' =>
    exists t' m' bs' sw', vm_inv k' t' m' bs' sw' /\ exact_refs t' sw' /\
      (forall j, 0 <= j < TABLE_SIZE -> t' !! (row, j) = None) /\
      (forall p, p.1 <> row -> page_data k' t' sw' p = page_data k (ptes (k_pt k)) sw p) /\
      (forall f c j, 0 <= j < TABLE_SIZE -> m' !! f = Some c -> cm_pte c = Some (row, j) ->
         fixed c = true)).
Proof.
  intros Hinv Hrow Hex. eapply wp_mono.
  - apply (destroy_entries_spec (Z.to_nat TABLE_SIZE) row 0 k _ m bs sw Hinv Hrow). by intros i _ e He _.
  - intros [] k' (m' & bs' & sw' & [Hi Hsub Hpt Has Hsy Hd Hr _ _ _]).
    exists (without row (Z.to_nat TABLE_SIZE) 0 (ptes (k_pt k))), m', bs', sw'.
    split; [exact Hi|]. split; [exact (Hr Hex)|]. split; [|split].
    + intros j Hj. rewrite without_lookup. rewrite decide_True; [reflexivity|]. split; [done|]. cbn [snd]. rewrite Z2Nat.id by done. lia.
    + intros p Hp. assert (E : without row (Z.to_nat TABLE_SIZE) 0 (ptes (k_pt k)) !! p = ptes (k_pt k) !! p).
      { rewrite without_lookup, decide_False; [reflexivity|]. intros [E _]. exact (Hp E). }
      destruct (ptes (k_pt k) !! p) as [e|] eqn:Hp0; [apply Hd; rewrite E; by eexists|].
      unfold page_data. rewrite E, Hp0. reflexivity.
    + intros f c j Hj Hc Hpte. destruct (fixed c) eqn:Hfx; [done|].
      pose proof (pi_owner _ _ _ (inv_pages _ _ _ _ _ Hi) _ _ _ Hc Hpte Hfx) as Ht.
      rewrite without_lookup in Ht. rewrite decide_True in Ht; [discriminate|]. split; [done|]. cbn [snd]. rewrite Z2Nat.id by done. lia.
Qed.

End PtLife.

(** ** Examples *)

Import Replacement.

Definition pte1 (j : Z) : pteptr := ((2, 0), j).

(** The parent's page is in the first user frame; the child's row is allocated and
    [pt_copy] holds the swap lock. *)
Definition fork_state (cm : cm_st) : kstate :=
  mk_k (mk_sync boot_cpu [] ∅ ∅ {[ swap_lock := Some 1; 1 := Some 1; 2 := None ]}) ∅ (mk_tlb ∅ 0) cm
    (mk_pt_st {[ 1 := 0x80001000; 2 := 0x80001000 ]} {[ (1, 0) := 0x80002000; (2, 0) := 0x80003000 ]}
      full_ptes 3)
    (mk_swap_st (Some boot_swap) true) (mk_as_st ∅ None true)
    {[ 0 := replicate 4096 9; 1 := replicate 4096 7 ]} (mk_ram 0 0).

Definition roomy_map : gmap Z cm_entry := <[2 := mk_cm false false 1 None]> full_map.
Definition roomy_cm : cm_st := mk_cm_st (Some roomy_map) 3 1 0.
Definition roomy_layout : list block := [mk_block 1 true; mk_block 1 true; mk_block 1 false].

Lemma roomy_lookup f c : roomy_map !! f = Some c ->
  f = 0 /\ c = mk_cm true true 1 None \/ f = 1 /\ c = mk_cm true false 1 (Some (pte0 0)) \/ f = 2 /\ c = mk_cm false false 1 None.
Proof. unfold roomy_map. rewrite lookup_insert. case_decide; [intros; simplify_eq; auto|]. intros [?|?]%full_lookup; auto. Qed.

Lemma roomy_map_wf : cm_wf roomy_cm roomy_map roomy_layout.
Proof.
  split; try done.
  - intros i. unfold roomy_map, full_map. rewrite !lookup_insert_is_Some, lookup_singleton_is_Some. simpl. lia.
  - split; [|split; [|split; [|done]]]; (split; [done|split; [by eexists|]]); simpl; intros j Hj; lia.
  - by exists [mk_block 1 true; mk_block 1 false].
  - intros i e Hi [[-> ->]|[[-> ->]|[-> ->]]]%roomy_lookup; [done|simpl in Hi; lia|simpl in Hi; lia].
  - by intros i e [[-> ->]|[[-> ->]|[-> ->]]]%roomy_lookup.
  - by intros i e p [[-> ->]|[[-> ->]|[-> ->]]]%roomy_lookup.
Qed.

Lemma roomy_pages : pages_inv full_ptes roomy_map boot_swap.
Proof.
  destruct full_pages as [H1 H2 H3 H4 H5]. split; try done.
  - intros p e Hp Hv Hs. destruct (H1 p e Hp Hv Hs) as (c & Hc & Hc'). exists c. split; [|done]. unfold roomy_map. rewrite lookup_insert_ne; [done|]. intros E. rewrite <- E in Hc. by vm_compute in Hc.
  - by intros f c p [[-> ->]|[[-> ->]|[-> ->]]]%roomy_lookup [= <-].
Qed.

Lemma fork_inv cm m bs :
  cm_wf cm m bs -> prev_victim cm = 0 -> pages_inv full_ptes m boot_swap ->
  (forall f c p, m !! f = Some c -> cm_pte c = Some p -> p = pte0 0) ->
  vm_inv (fork_state cm) full_ptes m bs boot_swap.
Proof.
  intros Hwf Hpv Hpg Hown. split; [apply boot_cpu_quiet| |exact Hwf|apply boot_swap_ready|..|exact Hpg|done| | |].
  - eexists. split; [reflexivity|by right].
  - pose proof (wf_pages _ _ _ Hwf). simpl. lia.
  - intros f c p Hc Hp. rewrite (Hown f c p Hc Hp). by eexists.
  - intros p e Hp. unfold full_ptes in Hp. apply lookup_singleton_Some in Hp as [<- _]. by eexists.
  - intros f. unfold frame_data. simpl. rewrite lookup_insert, lookup_singleton. repeat case_decide; reflexivity.
Qed.

Lemma roomy_inv : vm_inv (fork_state roomy_cm) full_ptes roomy_map roomy_layout boot_swap.
Proof.
  apply fork_inv; [apply roomy_map_wf|done|apply roomy_pages|]. by intros f c p [[-> ->]|[[-> ->]|[-> ->]]]%roomy_lookup [= <-].
Qed.

(** The frame of the child's page after the copy, and its first byte. *)
Definition child_byte (o : outcome kstate (option Z)) : option (Z * Z) :=
  match o with
  | Ret None k => f ← ptes (k_pt k) !! pte1 0; b ← head (frame_data k (frame_no f)); Some (frame_no f, b)
  | _ => None
  end.

(** A resident page, copied to the free frame. *)
Lemma copy_entry_copies_page_witness :
  child_byte (copy_entry (pte0 0) (pte1 0) (fork_state roomy_cm)) = Some (2, 7) /\
  wp (copy_entry (pte0 0) (pte1 0)) (fork_state roomy_cm) (fun r k' => r = None /\ exists t' m' bs' sw',
    vm_inv k' t' m' bs' sw' /\ t' !! pte0 0 = Some (mk_pte 1 true false false) /\
    page_data k' t' sw' (pte1 0) = page_data (fork_state roomy_cm) full_ptes boot_swap (pte0 0) /\
    (forall p, p <> pte1 0 ->
       page_data k' t' sw' p = page_data (fork_state roomy_cm) full_ptes boot_swap p)).
Proof.
  split; [vm_compute; reflexivity|].
  apply (copy_entry_copies_page (fork_state roomy_cm) full_ptes roomy_map roomy_layout boot_swap (pte0 0) (pte1 0) (mk_pte 1 true false false)).
  - apply roomy_inv.
  - discriminate.
  - reflexivity.
  - reflexivity.
  - reflexivity.
  - by eexists.
  - reflexivity.
  - reflexivity.
  - intros n Hn. apply zero_refs_inv in Hn as ->. lia.
  - discriminate.
Defined.


Lemma destroy_row_entries_releases_witness :
  wp (for_loop (Z.to_nat TABLE_SIZE) 0 (fun j => destroy_entry (row0, j))) (swapped_state None) (fun _ k' =>
    exists t' m' bs' sw', vm_inv k' t' m' bs' sw' /\ exact_refs t' sw' /\
      (forall j, 0 <= j < TABLE_SIZE -> t' !! (row0, j) = None) /\
      (forall p, p.1 <> row0 ->
         page_data k' t' sw' p = page_data (swapped_state None) swapped_ptes swapped_swap p) /\
      (forall f c j, 0 <= j < TABLE_SIZE -> m' !! f = Some c -> cm_pte c = Some (row0, j) ->
         fixed c = true)).
Proof.
  apply (destroy_row_entries_releases (swapped_state None) boot_map (boot_layout 1 4) swapped_swap row0).
  - apply swapped_inv. by left.
  - by eexists.
  - apply swapped_exact.
Defined.

End PtLife.
