(* ===== verification/UserMem.v ===== *)
(** * User memory as the kernel sees it: kern/vm/copyinout.c over the MIPS TLB

    A load or store to a user address goes through the TLB; a miss, or a store through an
    entry that is not dirty, traps to [vm_fault] (the TLB cases of mips_trap), and the
    access is restarted when the handler returns 0.  When it returns an error the access
    was made by copyin/copyout, which recover through [copyfail] and return EFAULT. *)

From S2P Require Import Prelude Cpu Synch KState Stats Tlb Swap Coremap Blocks Paging.

Module UserMem.
Import Cpu Synch KState Stats Tlb Swap Coremap Blocks Paging.

Definition VM_FAULT_READ : Z := 0.
Definition VM_FAULT_WRITE : Z := 1.
Definition VM_FAULT_READONLY : Z := 2.
Definition ENAMETOOLONG : Z := 7.
Definition USERSPACETOP : Z := MIPS_KSEG0.

(** The slot that translates a page. *)
Fixpoint tlb_find (n : nat) (i : Z) (vpage : Z) (t : tlb_st) : option (Z * Z) :=
  match n with
  | O => None
  | S n' =>
      if slot_valid (tlb_slot t i) && (slot_page (tlb_slot t i) =? vpage) then Some (tlb_slot t i)
      else tlb_find n' (i + 1) vpage t
  end.

(** Bytes [off, off + length bs) of a page are overwritten. *)
Definition page_write (p : page) (off : Z) (bs : list Z) : page :=
  take (Z.to_nat off) p ++ bs ++ drop (Z.to_nat off + length bs) p.

Definition page_read (p : page) (off n : Z) : list Z :=
  take (Z.to_nat n) (drop (Z.to_nat off) p).

Section Access.
Context `{VN : Vnode}.
Variable vm_fault : Z -> Z -> M kstate Z.

(** The physical address behind a user address, or the error of the fault handler. *)
Fixpoint translate (fuel : nat) (store : bool) (va : Z) : M kstate (Z * Z) :=
  match fuel with
  | O => out_of_fuel
  | S fuel' =>
      k ← get;
      match tlb_find (Z.to_nat NUM_TLB) 0 (Z.land va PAGE_FRAME) (k_tlb k) with
      | Some e =>
          if store && (Z.land e.2 TLBLO_DIRTY =? 0) then
            err ← vm_fault VM_FAULT_READONLY va;
            if negb (err =? 0) then mret (err, 0) else translate fuel' store va
          else mret (0, slot_frame e + va mod PAGE_SIZE)
      | None =>
          err ← vm_fault (if store then VM_FAULT_WRITE else VM_FAULT_READ) va;
          if negb (err =? 0) then mret (err, 0) else translate fuel' store va
      end
  end.

(** An access is restarted once after a fault that was handled. *)
Definition RESTARTS : nat := 2.

(** [memcpy] to and from user memory, page by page; the fuel is the number of pages. *)
Fixpoint user_write (fuel : nat) (va : Z) (bs : list Z) : M kstate Z :=
  match bs with
  | [] => mret 0
  | _ =>
      match fuel with
      | O => out_of_fuel
      | S fuel' =>
          let room := PAGE_SIZE - va mod PAGE_SIZE in
          r ← translate RESTARTS true va;
          let '(err, pa) := r in
          if negb (err =? 0) then mret EFAULT else
          k ← get;
          let f := pa / PAGE_SIZE in
          _ ← write_frame f (page_write (frame_data k f) (pa mod PAGE_SIZE) (take (Z.to_nat room) bs));
          user_write fuel' (va + room) (drop (Z.to_nat room) bs)
      end
  end.

Fixpoint user_read (fuel : nat) (va n : Z) : M kstate (Z * list Z) :=
  if n <=? 0 then mret (0, []) else
  match fuel with
  | O => out_of_fuel
  | S fuel' =>
      let room := Z.min n (PAGE_SIZE - va mod PAGE_SIZE) in
      r ← translate RESTARTS false va;
      let '(err, pa) := r in
      if negb (err =? 0) then mret (EFAULT, []) else
      k ← get;
      let bs := page_read (frame_data k (pa / PAGE_SIZE)) (pa mod PAGE_SIZE) room in
      w ← user_read fuel' (va + room) (n - room);
      let '(err, rest) := w in
      if negb (err =? 0) then mret (EFAULT, []) else mret (0, bs ++ rest)
  end.

(** The error, and the length that can be copied. *)
Definition copycheck (userptr len : Z) : Z * Z :=
  let top := u32 (userptr + len - 1) in
  if top <? userptr then (EFAULT, len)
  else if USERSPACETOP <=? userptr then (EFAULT, len)
  else if USERSPACETOP <=? top then (0, USERSPACETOP - userptr)
  else (0, len).

Definition pages_of (len : Z) : nat := Z.to_nat (len / PAGE_SIZE) + 2.

Definition copyin (usersrc len : Z) : M kstate (Z * list Z) :=
  let '(err, stoplen) := copycheck usersrc len in
  if negb (err =? 0) then mret (err, [])
  else if negb (stoplen =? len) then mret (EFAULT, [])
  else user_read (pages_of len) usersrc len.

Definition copyout (src : list Z) (userdest : Z) : M kstate Z :=
  let len := Z.of_nat (length src) in
  let '(err, stoplen) := copycheck userdest len in
  if negb (err =? 0) then mret err
  else if negb (stoplen =? len) then mret EFAULT
  else user_write (pages_of len) userdest src.

(** [copystr] from user memory: byte by byte up to the NUL.  The string without its NUL,
    and the length with it. *)
Fixpoint copyinstr_loop (fuel : nat) (va maxlen stoplen i : Z) : M kstate (Z * list Z) :=
  match fuel with
  | O => out_of_fuel
  | S fuel' =>
      if (i <? maxlen) && (i <? stoplen) then
        w ← user_read 1 (va + i) 1;
        let '(err, bs) := w in
        if negb (err =? 0) then mret (EFAULT, []) else
        match bs with
        | [0] => mret (0, [])
        | _ =>
            r ← copyinstr_loop fuel' va maxlen stoplen (i + 1);
            let '(err, rest) := r in
            mret (err, bs ++ rest)
        end
      else if stoplen <? maxlen then mret (EFAULT, []) else mret (ENAMETOOLONG, [])
  end.

Definition copyinstr (usersrc len : Z) : M kstate (Z * list Z) :=
  let '(err, stoplen) := copycheck usersrc len in
  if negb (err =? 0) then mret (err, [])
  else copyinstr_loop (Z.to_nat len + 1) usersrc len stoplen 0.

(** [copystr] to user memory. *)
Fixpoint copyoutstr_loop (src : list Z) (va maxlen stoplen i : Z) : M kstate Z :=
  if (i <? maxlen) && (i <? stoplen) then
    let c := default 0 (head src) in
    err ← user_write 1 (va + i) [c];
    if negb (err =? 0) then mret EFAULT
    else if c =? 0 then mret 0
    else match src with
         | [] => mret 0
         | _ :: src' => copyoutstr_loop src' va maxlen stoplen (i + 1)
         end
  else if stoplen <? maxlen then mret EFAULT else mret ENAMETOOLONG.

Definition copyoutstr (src : list Z) (userdest len : Z) : M kstate Z :=
  let '(err, stoplen) := copycheck userdest len in
  if negb (err =? 0) then mret err
  else copyoutstr_loop src userdest len stoplen 0.

End Access.

(** ** Bounds *)

(** No user pointer makes the kernel touch kernel memory.  When [copycheck] accepts a
    block of at least one byte, every byte of the part that may be copied lies below
    USERSPACETOP, and the part is the whole block exactly when the block does. *)
Lemma copycheck_user_only userptr len err stoplen :
  0 <= userptr < 2 ^ 32 -> 0 < len < 2 ^ 32 -> copycheck userptr len = (err, stoplen) ->
  (err = 0 \/ err = EFAULT) /\
  (err = 0 <-> userptr < USERSPACETOP /\ userptr + len <= 2 ^ 32) /\
  (err = 0 -> 0 < stoplen <= len /\ userptr + stoplen <= USERSPACETOP /\
     (stoplen = len <-> userptr + len <= USERSPACETOP)).
Proof.
  intros Hp Hl. unfold copycheck, USERSPACETOP, MIPS_KSEG0, EFAULT, u32.
  destruct (Z.lt_ge_cases (userptr + len - 1) (2 ^ 32)) as [Hs|Hs].
  - rewrite Z.mod_small by lia.
    repeat match goal with |- context [?a <? ?b] => destruct (Z.ltb_spec a b) end;
    repeat match goal with |- context [?a <=? ?b] => destruct (Z.leb_spec a b) end;
    intros [= <- <-]; lia.
  - replace ((userptr + len - 1) mod 2 ^ 32) with (userptr + len - 1 - 2 ^ 32).
    2: { rewrite <- (Z.mod_small (userptr + len - 1 - 2 ^ 32) (2 ^ 32)) by lia.
         replace (userptr + len - 1) with (userptr + len - 1 - 2 ^ 32 + 1 * 2 ^ 32) at 2 by lia.
         by rewrite Z.mod_add by lia. }
    destruct (Z.ltb_spec (userptr + len - 1 - 2 ^ 32) userptr); [|lia]. intros [= <- <-]. lia.
Qed.

Lemma copycheck_user_only_witness :
  copycheck 0x7ffff000 0x2000 = (0, 0x1000) /\
  (0 = 0 \/ 0 = EFAULT) /\
  (0 = 0 <-> 0x7ffff000 < USERSPACETOP /\ 0x7ffff000 + 0x2000 <= 2 ^ 32) /\
  (0 = 0 -> 0 < 0x1000 <= 0x2000 /\ 0x7ffff000 + 0x1000 <= USERSPACETOP /\
     (0x1000 = 0x2000 <-> 0x7ffff000 + 0x2000 <= USERSPACETOP)).
Proof.
  split; [reflexivity|]. apply (copycheck_user_only 0x7ffff000 0x2000 0 0x1000).
  - lia.
  - lia.
  - reflexivity.
Defined.

End UserMem.
