(* ===== verification/AddrSpace.v ===== *)
(** * Address spaces: kern/vm/addrspace.c (all but load_page, see Loader.v)

    [struct addrspace] objects live in [as_heap]; [kmalloc] does not clear them, so the
    creation takes the previous contents of the memory it gets. *)

From S2P Require Import Prelude Cpu Synch KState Stats Tlb Swap Coremap Blocks Paging Kpages PageTable PageIn.
From S2P Require Import Replacement.

Module AddrSpace.
Import Cpu Synch KState Stats Tlb Swap Coremap Blocks Paging Kpages PageTable PageIn.

Section Ops.
Context `{VN : Vnode}.

(** Accesses through a [struct addrspace *]. *)
Definition get_as (a : Z) : M kstate addrspace :=
  k ← get; deref (as_heap (k_as k) !! a).

Definition put_as (a : Z) (x : addrspace) : M kstate unit :=
  modify (fun k => set_as (mk_as_st (<[a := x]> (as_heap (k_as k))) (curproc_as (k_as k))
                             (vm_inited (k_as k))) k).

Definition upd_as (a : Z) (f : addrspace -> addrspace) : M kstate unit :=
  x ← get_as a; put_as a (f x).

Definition with_index (i : Z) (a : addrspace) : addrspace :=
  mk_as (segments a) i (as_file a) (as_active a) (page_table a).

(** [mem]: the memory [kmalloc] returns with its previous contents, or NULL; [ok1],
    [ok2]: as for [pt_create].  A NULL page table is not noticed. *)
Definition as_create (mem : option (Z * addrspace)) (ok1 ok2 : bool) : M kstate Z :=
  match mem with
  | None => mret 0
  | Some (a, junk) =>
      _ ← put_as a junk;
      pt ← pt_create ok1 ok2;
      _ ← upd_as a (fun x => mk_as (segments x) 0 (as_file x) true pt);
      mret a
  end.

Definition as_destroy (a : Z) : M kstate unit :=
  if a =? 0 then mret tt else
  x ← get_as a;
  _ ← pt_destroy (page_table x);
  modify (fun k => set_as (mk_as_st (delete a (as_heap (k_as k))) (curproc_as (k_as k))
                             (vm_inited (k_as k))) k).

(** The error, and the copy (0 on an error). *)
Definition as_copy (old : Z) (mem : option (Z * addrspace)) (ok1 ok2 : bool) : M kstate (Z * Z) :=
  newas ← as_create mem ok1 ok2;
  if newas =? 0 then mret (ENOMEM, 0) else
  o ← get_as old;
  s0 ← deref (segments o !! 0);
  s1 ← deref (segments o !! 1);
  _ ← upd_as newas (fun n => mk_as (<[1 := s1]> (<[0 := s0]> (segments n))) (as_index o)
                               (as_file o) true (page_table n));
  n ← get_as newas;
  err ← pt_copy (page_table o) (page_table n);
  if negb (err =? 0) then _ ← as_destroy newas; mret (err, 0)
  else mret (0, newas).

(** The TLB is emptied. *)
Definition as_activate : M kstate unit :=
  a ← proc_getas;
  if a =? 0 then mret tt else
  spl ← zoom splhigh;
  _ ← zoom (inc_counter tlb_invalidations);
  _ ← for_loop (Z.to_nat NUM_TLB) 0 (fun i => zoom (tlb_write (TLBHI_INVALID i) TLBLO_INVALID i));
  _ ← zoom (splx spl);
  mret tt.

(** Without an address space this is an access through NULL. *)
Definition as_deactivate : M kstate unit :=
  a ← proc_getas;
  upd_as a (fun x => mk_as (segments x) (as_index x) (as_file x) false (page_table x)).

(** A region becomes segment [index]; an index out of range is caught only from 3 on. *)
Definition as_define_region (a vaddr memsize readable writable executable : Z) : M kstate Z :=
  x ← get_as a;
  if N_SEGMENTS <? as_index x then panic "Too many regions!" else
  s ← deref (segments x !! as_index x);
  let s' := mk_seg vaddr (p_file_start s) (p_file_end s) memsize
              (negb (readable =? 0)) (negb (writable =? 0)) (negb (executable =? 0)) in
  _ ← put_as a (mk_as (<[as_index x := s']> (segments x)) (as_index x) (as_file x) (as_active x)
                  (page_table x));
  mret 0.

Definition as_prepare_load (a : Z) : M kstate Z := _ ← upd_as a (with_index 1); mret 0.
Definition as_complete_load (a : Z) : M kstate Z := _ ← upd_as a (with_index 0); mret 0.

Definition as_define_stack (a : Z) : M kstate (Z * Z) := mret (0, USERSTACK).

(** ** A context switch leaves no translation behind *)

Lemma tlb_flush_eq n i k :
  exists tl, for_loop n i (fun i => zoom (tlb_write (TLBHI_INVALID i) TLBLO_INVALID i)) k =
      Ret tt (set_tlb tl k) /\
    forall j, tlb_slot tl j = if decide (i <= j < i + Z.of_nat n) then (TLBHI_INVALID j, TLBLO_INVALID)
                              else tlb_slot (k_tlb k) j.
Proof.
  revert i k. induction n as [|n IH]; intros i k; simpl.
  - exists (k_tlb k). split; [by destruct k|]. intros j. case_decide; [lia|done].
  - rewrite (run_bind _ _ k tt (set_tlb (mk_tlb (<[i := (TLBHI_INVALID i, TLBLO_INVALID)]>
      (tlb_entries (k_tlb k))) (next_victim (k_tlb k))) k)) by done.
    destruct (IH (i + 1) (set_tlb (mk_tlb (<[i := (TLBHI_INVALID i, TLBLO_INVALID)]>
      (tlb_entries (k_tlb k))) (next_victim (k_tlb k))) k)) as (tl & Hrun & Htl).
    exists tl. split; [rewrite Hrun; by destruct k|]. intros j. rewrite Htl. simpl k_tlb.
    rewrite tlb_slot_write. repeat case_decide; try done; try lia. by subst j.
Qed.

Lemma empty_slot_invalid i : slot_valid (TLBHI_INVALID i, TLBLO_INVALID) = false.
Proof. done. Qed.

(** Switching to a process leaves the TLB empty: after [as_activate] no slot
    translates, so the TLB agrees with any page table, whatever was there before; memory
    and page tables are untouched. *)
Lemma as_activate_flushes k a pt t :
  quiet (cpu_of k) -> curproc_as (k_as k) = Some (Some a) -> a <> 0 ->
  exists k', as_activate k = Ret tt k' /\ tlb_ok pt (k_tlb k') t /\
    (forall i, 0 <= i < NUM_TLB -> slot_valid (tlb_slot (k_tlb k') i) = false) /\
    k_mem k' = k_mem k /\ k_pt k' = k_pt k /\ k_cm k' = k_cm k /\ k_swap k' = k_swap k /\
    k_sync k' = k_sync k /\ k_stats k' = bump tlb_invalidations (k_stats k).
Proof.
  intros Hq Has Ha. unfold as_activate, proc_getas. rewrite (run_bind _ _ k a k) by (unfold gets; by rewrite Has).
  rewrite (proj2 (Z.eqb_neq a 0) Ha). set (kh := with_cpu (high (cpu_of k)) k).
  rewrite (run_bind _ _ k (t_curspl (cpu_of k)) kh) by (apply zoom_cpu, splhigh_eq, Hq).
  set (ks := set_stats (bump tlb_invalidations (k_stats k)) kh).
  rewrite (run_bind _ _ kh tt ks) by done.
  destruct (tlb_flush_eq (Z.to_nat NUM_TLB) 0 ks) as (tl & Hrun & Htl).
  rewrite (run_bind _ _ _ _ _ Hrun). destruct (splx_high (cpu_of k)) as [r Hx]; [apply Hq|].
  rewrite (run_bind _ _ _ _ _ (zoom_cpu _ (set_tlb tl ks) _ _ Hx)).
  eexists. split; [reflexivity|]. simpl k_tlb.
  assert (Hslot : forall i, 0 <= i < NUM_TLB -> tlb_slot tl i = (TLBHI_INVALID i, TLBLO_INVALID)).
  { intros i Hi. rewrite Htl, decide_True; [done|]. rewrite Z2Nat.id by done. lia. }
  split.
  - split; intros i; try (intros j Hi Hj); try intros Hi; rewrite Hslot by done; done.
  - split; [intros i Hi; by rewrite Hslot|]. clear Hslot Htl Hrun Hx. unfold ks, kh. clear ks kh.
    destruct k as [[] ? ? ? ? ? ? ? ?]. split_and!; reflexivity.
Qed.

(** ** Segments *)

(** C9: [as_define_region] records a region in the next free segment, up to the number
    of segments there are; the check lets one more through, and the third region of a
    program is written outside the array instead of being refused. *)
Theorem as_define_region_bounds k a x vaddr memsize r w e :
  as_heap (k_as k) !! a = Some x -> (forall i, is_Some (segments x !! i) <-> 0 <= i < N_SEGMENTS) ->
  0 <= as_index x ->
  (as_index x < N_SEGMENTS -> exists k' x' s', as_define_region a vaddr memsize r w e k = Ret 0 k' /\
     as_heap (k_as k') !! a = Some x' /\ segments x' !! as_index x = Some s' /\
     p_vaddr s' = vaddr /\ p_memsz s' = memsize /\ as_index x' = as_index x /\
     (forall i, i <> as_index x -> segments x' !! i = segments x !! i)) /\
  (as_index x = N_SEGMENTS -> as_define_region a vaddr memsize r w e k = Undef) /\
  (N_SEGMENTS < as_index x -> as_define_region a vaddr memsize r w e k = Panic "Too many regions!").
Proof.
  intros Ha Hseg Hi.
  assert (Hget : get_as a k = Ret x k) by (unfold get_as; msimpl; by rewrite Ha).
  unfold as_define_region. rewrite (run_bind _ _ _ _ _ Hget). split_and!.
  - intros Hlt. rewrite (proj2 (Z.ltb_ge _ _)) by lia. destruct (proj2 (Hseg (as_index x))) as [s Hs]; [lia|].
    rewrite (run_bind _ _ k s k) by (unfold deref; by rewrite Hs).
    rewrite (run_bind _ _ k tt _) by reflexivity.
    eexists _, _, _. split; [reflexivity|]. simpl. rewrite lookup_insert_eq. split; [reflexivity|]. simpl.
    rewrite lookup_insert_eq. split_and!; try reflexivity. intros i Hne. by rewrite lookup_insert_ne.
  - intros ->. rewrite (proj2 (Z.ltb_ge _ _)) by lia.
    destruct (segments x !! N_SEGMENTS) eqn:E; [|unfold mbind, M_bind, deref; reflexivity].
    assert (0 <= N_SEGMENTS < N_SEGMENTS) by (apply Hseg; by eexists). lia.
  - intros Hgt. by rewrite (proj2 (Z.ltb_lt _ _) Hgt).
Qed.

End Ops.

(** ** Witnesses *)

Import Replacement.

Definition example_as (i : Z) : addrspace :=
  mk_as (VN := mem_vnode) {[ 0 := zero_seg; 1 := zero_seg ]} i None true 1.

Definition as_state (i : Z) : kstate :=
  set_as (mk_as_st {[ 5 := example_as i ]} (Some (Some 5)) true) boot_state.

Lemma as_activate_flushes_witness :
  exists k', as_activate (as_state 0) = Ret tt k' /\ tlb_ok 1 (k_tlb k') ∅ /\
    (forall i, 0 <= i < NUM_TLB -> slot_valid (tlb_slot (k_tlb k') i) = false) /\
    k_mem k' = k_mem (as_state 0) /\ k_pt k' = k_pt (as_state 0) /\ k_cm k' = k_cm (as_state 0) /\
    k_swap k' = k_swap (as_state 0) /\ k_sync k' = k_sync (as_state 0) /\
    k_stats k' = bump tlb_invalidations (k_stats (as_state 0)).
Proof.
  apply (as_activate_flushes (as_state 0) 5 1 ∅).
  - exact boot_cpu_quiet.
  - reflexivity.
  - lia.
Defined.

Lemma as_define_region_bounds_witness :
  (2 < N_SEGMENTS -> exists k' x' s', as_define_region 5 0x400000 8192 4 0 1 (as_state 2) = Ret 0 k' /\
     as_heap (k_as k') !! 5 = Some x' /\ segments x' !! 2 = Some s' /\
     p_vaddr s' = 0x400000 /\ p_memsz s' = 8192 /\ as_index x' = 2 /\
     (forall i, i <> 2 -> segments x' !! i = segments (example_as 2) !! i)) /\
  (2 = N_SEGMENTS -> as_define_region 5 0x400000 8192 4 0 1 (as_state 2) = Undef) /\
  (N_SEGMENTS < 2 -> as_define_region 5 0x400000 8192 4 0 1 (as_state 2) = Panic "Too many regions!").
Proof.
  apply (as_define_region_bounds (as_state 2) 5 (example_as 2) 0x400000 8192 4 0 1).
  - reflexivity.
  - intros i. unfold example_as. cbn [segments]. rewrite lookup_insert_is_Some, lookup_singleton_is_Some.
    unfold N_SEGMENTS. lia.
  - simpl. lia.
Defined.

End AddrSpace.
