(* ===== verification/Loader.v ===== *)
(** * Loading executables: kern/syscall/loadelf.c and load_page of kern/vm/addrspace.c

    [load_elf] only records where the segments are; [load_page] reads one page of a
    segment into user memory when the page is first touched.  Reads into user memory go
    through [copyout], whose faults call the handler that is a parameter here. *)

From S2P Require Import Prelude Cpu Synch KState Stats Tlb Swap Coremap Blocks Paging Kpages PageTable.
From S2P Require Import UserMem AddrSpace.

Module Loader.
Import Cpu Synch KState Stats Tlb Swap Coremap Blocks Paging Kpages PageTable UserMem AddrSpace.

(** ** ELF headers, as big-endian bytes *)

Definition byte_at (bs : list Z) (i : nat) : Z := nth i bs 0.
Definition be16 (bs : list Z) (i : nat) : Z := byte_at bs i * 256 + byte_at bs (i + 1).
Definition be32 (bs : list Z) (i : nat) : Z := be16 bs i * 65536 + be16 bs (i + 2).

Record Elf_Ehdr := mk_ehdr {
  e_ident : list Z;
  e_type : Z;
  e_machine : Z;
  e_version : Z;
  e_entry : Z;
  e_phoff : Z;
  e_phentsize : Z;
  e_phnum : Z
}.

Record Elf_Phdr := mk_phdr {
  ph_type : Z;
  ph_offset : Z;
  ph_vaddr : Z;
  ph_filesz : Z;
  ph_memsz : Z;
  ph_flags : Z
}.

Definition EHDR_SIZE : Z := 52.
Definition PHDR_SIZE : Z := 32.

Definition parse_ehdr (bs : list Z) : Elf_Ehdr :=
  mk_ehdr (take 16 bs) (be16 bs 16) (be16 bs 18) (be32 bs 20) (be32 bs 24) (be32 bs 28)
    (be16 bs 42) (be16 bs 44).

Definition parse_phdr (bs : list Z) : Elf_Phdr :=
  mk_phdr (be32 bs 0) (be32 bs 4) (be32 bs 8) (be32 bs 16) (be32 bs 20) (be32 bs 24).

(** A 32-bit big-endian version-1 MIPS executable. *)
Definition ehdr_ok (eh : Elf_Ehdr) : bool :=
  (byte_at (e_ident eh) 0 =? 0x7f) && (byte_at (e_ident eh) 1 =? 69) &&
  (byte_at (e_ident eh) 2 =? 76) && (byte_at (e_ident eh) 3 =? 70) &&
  (byte_at (e_ident eh) 4 =? 1) && (byte_at (e_ident eh) 5 =? 2) &&
  (byte_at (e_ident eh) 6 =? 1) && (e_version eh =? 1) && (e_type eh =? 2) && (e_machine eh =? 8).

Definition PT_NULL : Z := 0.
Definition PT_LOAD : Z := 1.
Definition PT_PHDR : Z := 6.
Definition PT_MIPS_REGINFO : Z := 0x70000000.

(** ** What one page of a segment needs *)

(** [vaddr >= p_vaddr && vaddr < p_vaddr + p_memsz] *)
Definition in_segment (s : segment) (vaddr : Z) : bool :=
  (p_vaddr s <=? vaddr) && (vaddr <? u32 (p_vaddr s + p_memsz s)).

Record extent := mk_extent {
  x_vaddr : Z;          (* first address to fill *)
  x_msize : Z;          (* bytes of the segment in the page *)
  x_offset : Z;         (* where they start in the file *)
  x_fsize : Z           (* how many of them the file has *)
}.

(** The computation of [load_page] for the page of [vaddr]; [None]: the page has no bytes
    in the file. *)
Definition load_extent (s : segment) (vaddr : Z) : option extent :=
  let vaddr := Z.land vaddr PAGE_FRAME in
  let vaddr := if vaddr <? p_vaddr s then p_vaddr s else vaddr in
  let m_size := u32 (PAGE_SIZE - Z.land vaddr 0xfff) in
  let m_size := if u32 (p_vaddr s + p_memsz s) <? u32 (vaddr + m_size)
                then u32 (u32 (p_vaddr s + p_memsz s) - vaddr) else m_size in
  let first_offset := u32 (p_file_start s + (vaddr - p_vaddr s)) in
  if p_file_end s <=? first_offset then None
  else
    let f_size := if u32 (p_file_end s - first_offset) <? m_size
                  then u32 (p_file_end s - first_offset) else m_size in
    Some (mk_extent vaddr m_size first_offset f_size).

Section Ops.
Context `{VN : Vnode}.

(** ** load_elf *)

(** The switch on the segment type: skip, load, or an error. *)
Definition load_phdr (a : Z) (v : vfile) (eh : Elf_Ehdr) (i : Z) : M kstate (option Z) :=
  let offset := u32 (e_phoff eh + i * e_phentsize eh) in
  let '(err, bs) := vop_read v offset PHDR_SIZE in
  if negb (err =? 0) then mret (Some err)
  else if negb (Z.of_nat (length bs) =? PHDR_SIZE) then mret (Some ENOEXEC)
  else
  let ph := parse_phdr bs in
  if (ph_type ph =? PT_NULL) || (ph_type ph =? PT_PHDR) || (ph_type ph =? PT_MIPS_REGINFO) then mret None
  else if negb (ph_type ph =? PT_LOAD) then mret (Some ENOEXEC)
  else
  result ← as_define_region a (ph_vaddr ph) (ph_memsz ph) (Z.land (ph_flags ph) 4)
             (Z.land (ph_flags ph) 2) (Z.land (ph_flags ph) 1);
  if negb (result =? 0) then mret (Some result)
  else
  x ← get_as a;
  s ← deref (segments x !! as_index x);
  let s' := mk_seg (p_vaddr s) (ph_offset ph) (u32 (ph_offset ph + ph_filesz ph)) (p_memsz s)
              (readable s) (writable s) (executable s) in
  _ ← put_as a (mk_as (<[as_index x := s']> (segments x)) (as_index x + 1) (as_file x) (as_active x)
                  (page_table x));
  mret None.

(** The error, and the entry point. *)
Definition load_elf (v : vfile) : M kstate (Z * Z) :=
  a ← proc_getas;
  _ ← upd_as a (fun x => mk_as (segments x) (as_index x) (Some v) (as_active x) (page_table x));
  let '(err, bs) := vop_read v 0 EHDR_SIZE in
  if negb (err =? 0) then mret (err, 0)
  else if negb (Z.of_nat (length bs) =? EHDR_SIZE) then mret (ENOEXEC, 0)
  else
  let eh := parse_ehdr bs in
  if negb (ehdr_ok eh) then mret (ENOEXEC, 0) else
  r ← for_early (Z.to_nat (e_phnum eh)) 0 (load_phdr a v eh);
  match r with
  | Some err => mret (err, 0)
  | None => mret (0, e_entry eh)
  end.

(** ** Loading bytes *)

Section Fault.
Variable vm_fault : Z -> Z -> M kstate Z.

(** [uiomove] requires the address space of the read to be the current one. *)
Definition load_segment (a : Z) (v : vfile) (offset vaddr memsize filesize : Z) : M kstate Z :=
  let filesize := if memsize <? filesize then memsize else filesize in
  let '(err, bs) := vop_read v offset filesize in
  result ← (match bs with
            | [] => mret 0
            | _ =>
                cur ← proc_getas;
                _ ← KASSERT (a =? cur);
                copyout vm_fault bs vaddr
            end);
  if negb (result =? 0) then mret result
  else if negb (err =? 0) then mret err
  else if negb (filesize - Z.of_nat (length bs) =? 0) then mret ENOEXEC
  else mret 0.

Definition load_page (a vaddr : Z) : M kstate Z :=
  x ← get_as a;
  s0 ← deref (segments x !! 0);
  s1 ← deref (segments x !! 1);
  _ ← KASSERT (in_segment s0 vaddr || in_segment s1 vaddr);
  let s := if in_segment s0 vaddr then s0 else s1 in
  match load_extent s vaddr with
  | None => mret 0
  | Some e =>
      _ ← as_prepare_load a;
      f ← deref (as_file x);
      err ← load_segment a f (x_offset e) (x_vaddr e) (x_msize e) (x_fsize e);
      _ ← as_complete_load a;
      mret err
  end.

End Fault.
End Ops.

(** ** The extent is right *)

(** A segment as the linker makes them: above address 0 and below the stack, no wrap-around, no more bytes
    in the file than in memory. *)
Definition seg_wf (s : segment) : Prop :=
  0 < p_vaddr s /\ 0 < p_memsz s /\ p_vaddr s + p_memsz s <= PROJECT_STACK_MIN_ADDRESS /\
  0 <= p_file_start s <= p_file_end s /\ p_file_end s < 2 ^ 31 /\
  p_file_end s - p_file_start s <= p_memsz s.

Lemma land_offset a : 0 <= a -> Z.land a 0xfff = a mod PAGE_SIZE.
Proof. intros Ha. change 0xfff with (Z.ones 12). by rewrite Z.land_ones. Qed.

(** The address the page starts at, clipped to the segment. *)
Definition page_start (s : segment) (vaddr : Z) : Z := Z.max (p_vaddr s) (vaddr / PAGE_SIZE * PAGE_SIZE).

Lemma page_start_range s vaddr :
  seg_wf s -> in_segment s vaddr = true ->
  let v := page_start s vaddr in
  p_vaddr s <= v <= vaddr /\ vaddr < p_vaddr s + p_memsz s /\ v / PAGE_SIZE = vaddr / PAGE_SIZE /\
  0 <= v < 2 ^ 31 /\
  Z.land vaddr PAGE_FRAME = vaddr / PAGE_SIZE * PAGE_SIZE.
Proof.
  intros (Hv & Hm & Hs & Hf & He & Hfm) Hin v. unfold in_segment in Hin.
  apply andb_true_iff in Hin as [H1%Z.leb_le H2%Z.ltb_lt].
  unfold PROJECT_STACK_MIN_ADDRESS, USERSTACK, MIPS_KSEG0 in *.
  change (0x80000000 - 18 * PAGE_SIZE) with 0x7ffee000 in Hs.
  rewrite u32_small in H2 by lia.
  assert (Hd : vaddr / PAGE_SIZE * PAGE_SIZE <= vaddr < vaddr / PAGE_SIZE * PAGE_SIZE + PAGE_SIZE).
  { pose proof (Z.div_mod vaddr PAGE_SIZE) as E. pose proof (Z.mod_pos_bound vaddr PAGE_SIZE) as B.
    unfold PAGE_SIZE in *. lia. }
  unfold v, page_start. split; [lia|]. split; [lia|]. split.
  - symmetry. apply (Z.div_unique _ _ _ (Z.max (p_vaddr s) (vaddr / PAGE_SIZE * PAGE_SIZE) - vaddr / PAGE_SIZE * PAGE_SIZE));
      unfold PAGE_SIZE in *; lia.
  - split; [lia|]. apply land_page. lia.
Qed.

Lemma load_extent_spec s vaddr :
  seg_wf s -> in_segment s vaddr = true ->
  let page a := a / PAGE_SIZE = vaddr / PAGE_SIZE in
  let in_mem a := p_vaddr s <= a < p_vaddr s + p_memsz s in
  let in_file a := in_mem a /\ p_file_start s + (a - p_vaddr s) < p_file_end s in
  match load_extent s vaddr with
  | Some e =>
      (forall a, x_vaddr e <= a < x_vaddr e + x_msize e <-> page a /\ in_mem a) /\
      (forall a, x_vaddr e <= a < x_vaddr e + x_fsize e <-> page a /\ in_file a) /\
      x_offset e = p_file_start s + (x_vaddr e - p_vaddr s) /\
      0 < x_fsize e <= x_msize e /\ x_msize e <= PAGE_SIZE
  | None => forall a, page a -> in_mem a -> ~ in_file a
  end.
Proof.
  intros Hwf Hin page in_mem in_file.
  destruct (page_start_range s vaddr Hwf Hin) as (Hv1 & Hv2 & Hpg & Hv3 & Hland).
  destruct Hwf as (Hv & Hm & Hs & Hf & He & Hfm).
  unfold PROJECT_STACK_MIN_ADDRESS, USERSTACK, MIPS_KSEG0 in Hs.
  change (0x80000000 - 18 * PAGE_SIZE) with 0x7ffee000 in Hs.
  unfold load_extent. rewrite Hland.
  assert (Hstart : (if vaddr / PAGE_SIZE * PAGE_SIZE <? p_vaddr s then p_vaddr s else vaddr / PAGE_SIZE * PAGE_SIZE)
            = page_start s vaddr) by (unfold page_start; destruct (Z.ltb_spec (vaddr / PAGE_SIZE * PAGE_SIZE) (p_vaddr s)); lia).
  rewrite Hstart. set (v := page_start s vaddr) in *.
  rewrite land_offset by lia.
  pose proof (Z.mod_pos_bound v PAGE_SIZE ltac:(done)) as Hmod. pose proof (Z.div_mod v PAGE_SIZE ltac:(done)) as Hdm.
  assert (Hpage : forall a, page a <-> v - v mod PAGE_SIZE <= a < v - v mod PAGE_SIZE + PAGE_SIZE).
  { intros a. unfold page. rewrite <- Hpg. pose proof (Z.div_mod a PAGE_SIZE ltac:(done)).
    pose proof (Z.mod_pos_bound a PAGE_SIZE ltac:(done)). split; [intros E; rewrite E in *; lia|].
    intros Ha. symmetry. apply (Z.div_unique _ _ _ (a - (v - v mod PAGE_SIZE))); lia. }
  assert (Hlow : forall a, page a -> p_vaddr s <= a -> v <= a).
  { intros a Ha%Hpage. unfold v, page_start in *. rewrite Hpg in Hdm. lia. }
  unfold PAGE_SIZE in Hmod, Hdm, Hpage |- *.
  rewrite (u32_small (4096 - v mod 4096)), (u32_small (p_vaddr s + p_memsz s)),
    (u32_small (v + (4096 - v mod 4096))), (u32_small (p_file_start s + (v - p_vaddr s))) by lia.
  set (msize := if _ <? _ then _ else 4096 - v mod 4096).
  assert (Hms : msize = Z.min (4096 - v mod 4096) (p_vaddr s + p_memsz s - v)).
  { unfold msize. destruct (Z.ltb_spec (p_vaddr s + p_memsz s) (v + (4096 - v mod 4096))); [|lia].
    rewrite u32_small; lia. }
  assert (Hmem : forall a, v <= a < v + msize <-> page a /\ in_mem a).
  { intros a. rewrite Hms. split.
    - intros Ha. split; [apply Hpage; lia|unfold in_mem; lia].
    - intros [Ha Hma]. pose proof (Hlow a Ha). apply Hpage in Ha. unfold in_mem in Hma. lia. }
  destruct (Z.leb_spec (p_file_end s) (p_file_start s + (v - p_vaddr s))) as [Hnone|Hsome].
  - intros a Ha Hma [_ Hfa]. pose proof (Hlow a Ha). unfold in_mem in Hma. lia.
  - cbn [x_vaddr x_msize x_offset x_fsize]. rewrite (u32_small (p_file_end s - _)) by lia.
    set (fsize := if _ <? _ then _ else msize).
    assert (Hfs : fsize = Z.min (p_file_end s - (p_file_start s + (v - p_vaddr s))) msize)
      by (unfold fsize; destruct (Z.ltb_spec (p_file_end s - (p_file_start s + (v - p_vaddr s))) msize); lia).
    split; [exact Hmem|]. split; [|split; [lia|split; lia]].
    intros a. unfold in_file. pose proof (Hmem a) as Hma. rewrite Hfs. split.
    + intros Ha. destruct (proj1 Hma) as [H1 H2]; [lia|]. split; [done|]. split; [done|lia].
    + intros [H1 [H2 H3]]. pose proof (proj2 Hma (conj H1 H2)). lia.
Qed.

(** Demand loading reads exactly the right bytes.  For an address in a segment, the
    extent that [load_page] computes starts and ends in the page of the address; it
    covers precisely the addresses of that page that belong to the segment; the bytes
    read from the file are precisely those of them that the file has, from the offset
    that corresponds to the first one; with no extent, the page is past the file part. *)
Lemma load_extent_exact s vaddr :
  seg_wf s -> in_segment s vaddr = true ->
  let page a := a / PAGE_SIZE = vaddr / PAGE_SIZE in
  let in_mem a := p_vaddr s <= a < p_vaddr s + p_memsz s in
  let in_file a := in_mem a /\ p_file_start s + (a - p_vaddr s) < p_file_end s in
  match load_extent s vaddr with
  | Some e =>
      (forall a, x_vaddr e <= a < x_vaddr e + x_msize e <-> page a /\ in_mem a) /\
      (forall a, x_vaddr e <= a < x_vaddr e + x_fsize e <-> page a /\ in_file a) /\
      x_offset e = p_file_start s + (x_vaddr e - p_vaddr s) /\
      0 < x_fsize e <= x_msize e /\ x_msize e <= PAGE_SIZE
  | None => forall a, page a -> in_mem a -> ~ in_file a
  end.
Proof. apply load_extent_spec. Qed.

Lemma load_extent_exact_witness :
  let s := mk_seg 0x400010 100 6000 9000 true false true in
  let page a := a / PAGE_SIZE = 0x401234 / PAGE_SIZE in
  let in_mem a := p_vaddr s <= a < p_vaddr s + p_memsz s in
  let in_file a := in_mem a /\ p_file_start s + (a - p_vaddr s) < p_file_end s in
  match load_extent s 0x401234 with
  | Some e =>
      (forall a, x_vaddr e <= a < x_vaddr e + x_msize e <-> page a /\ in_mem a) /\
      (forall a, x_vaddr e <= a < x_vaddr e + x_fsize e <-> page a /\ in_file a) /\
      x_offset e = p_file_start s + (x_vaddr e - p_vaddr s) /\
      0 < x_fsize e <= x_msize e /\ x_msize e <= PAGE_SIZE
  | None => forall a, page a -> in_mem a -> ~ in_file a
  end.
Proof.
  apply (load_extent_exact (mk_seg 0x400010 100 6000 9000 true false true) 0x401234).
  - unfold seg_wf, PROJECT_STACK_MIN_ADDRESS, USERSTACK, MIPS_KSEG0, PAGE_SIZE. simpl. lia.
  - reflexivity.
Defined.

End Loader.
