(* ===== verification/VmFault.v ===== *)
(** * The fault handler: vm_fault of kern/vm/vm_project.c

    [vm_fault] may load a page, which writes to user memory and faults on that same page
    while it is being loaded; the inner fault finds the page valid and loads nothing.  So
    the handler is defined by recursion on the nesting depth, and depth 2 is enough. *)

From S2P Require Import Prelude Cpu Synch KState Stats Tlb Swap Coremap Blocks Paging Kpages PageTable.
From S2P Require Import Replacement PageIn UserMem AddrSpace Loader.

Module VmFault.
Import Cpu Synch KState Stats Tlb Swap Coremap Blocks Paging Kpages PageTable PageIn UserMem AddrSpace Loader.

(** The loop over the TLB: the slot that already has this translation ([true]) or the
    first one that is not valid ([false]); [None] when the loop ends. *)
Fixpoint tlb_place (n : nat) (i fa paddr : Z) (t : tlb_st) : option (Z * bool) :=
  match n with
  | O => None
  | S n' =>
      let '(ehi, elo) := tlb_slot t i in
      if (ehi =? fa) && (Z.land elo PAGE_FRAME =? paddr) then Some (i, true)
      else if negb (Z.land elo TLBLO_VALID =? 0) then tlb_place n' (i + 1) fa paddr t
      else Some (i, false)
  end.

Section Ops.
Context `{VN : Vnode}.

(** The first segment that holds the address: whether one does, and [read_only]. *)
Definition find_segment (x : addrspace) (fa : Z) : M kstate (bool * bool) :=
  s0 ← deref (segments x !! 0);
  if in_segment s0 fa then mret (true, negb (writable s0)) else
  s1 ← deref (segments x !! 1);
  if in_segment s1 fa then mret (true, negb (writable s1)) else mret (false, false).

(** From the frame to the TLB entry. *)
Definition install (a fa paddr : Z) (read_only : bool) : M kstate Z :=
  let fa := Z.land fa PAGE_FRAME in
  _ ← KASSERT (Z.land paddr PAGE_FRAME =? paddr);
  spl ← zoom splhigh;
  k ← get;
  i ← match tlb_place (Z.to_nat NUM_TLB) 0 fa paddr (k_tlb k) with
      | Some (i, true) => _ ← zoom (inc_counter tlb_faults_with_replace); mret i
      | Some (i, false) => _ ← zoom (inc_counter tlb_faults_with_free); mret i
      | None =>
          i ← tlb_get_rr_victim;
          _ ← zoom (inc_counter tlb_faults_with_replace);
          mret i
      end;
  _ ← zoom (inc_counter tlb_faults);
  x ← get_as a;
  let elo := if read_only && (as_index x =? 0) then Z.lor paddr TLBLO_VALID
             else Z.lor (Z.lor paddr TLBLO_DIRTY) TLBLO_VALID in
  _ ← zoom (tlb_write fa elo i);
  _ ← when (as_index x =? 0) (coremap_set_unfixed (Z.shiftr paddr 12));
  _ ← zoom (splx spl);
  mret 0.

Definition vm_fault_with (load_page : Z -> Z -> M kstate Z) (faulttype faultaddress : Z) : M kstate Z :=
  _ ← zoom (spinlock_acquire vm_lock);
  k ← get;
  if negb (vm_inited (k_as k)) then _ ← zoom (spinlock_release vm_lock); exited 0 else
  _ ← zoom (spinlock_release vm_lock);
  if (faultaddress =? 0) || (MIPS_KSEG0 <=? faultaddress) then exited EFAULT else
  match curproc_as (k_as k) with
  | None => mret EFAULT
  | Some _ =>
      a ← proc_getas;
      if a =? 0 then exited 0 else
      x ← get_as a;
      if negb (as_active x) then exited 0 else
      s ← find_segment x faultaddress;
      let '(found, read_only) := s in
      if negb found && (faultaddress <? PROJECT_STACK_MIN_ADDRESS) then exited EFAULT else
      if faulttype =? VM_FAULT_READONLY then exited EFAULT
      else if negb ((faulttype =? VM_FAULT_READ) || (faulttype =? VM_FAULT_WRITE)) then mret EINVAL
      else
      r ← pt_get_frame_from_page load_page (page_table x) faultaddress;
      let '(err, paddr) := r in
      if negb (err =? 0) then exited err
      else install a faultaddress paddr read_only
  end.

Fixpoint vm_fault (depth : nat) (faulttype faultaddress : Z) : M kstate Z :=
  match depth with
  | O => out_of_fuel
  | S d => vm_fault_with (load_page (vm_fault d)) faulttype faultaddress
  end.

End Ops.
End VmFault.
