(* ===== verification/FaultTheory.v ===== *)
(** * Theory of the fault handler: what the TLB and the page tables are after a fault *)

From S2P Require Import Prelude Cpu Synch KState Stats Tlb Swap Coremap Blocks Paging Kpages PageTable.
From S2P Require Import Replacement PageIn UserMem AddrSpace Loader VmFault.

Module FaultTheory.
Import Cpu Synch KState Stats Tlb Swap Coremap Blocks Paging Kpages PageTable PageIn UserMem AddrSpace Loader VmFault.

(** ** The bits of a TLB entry *)

Definition entry_lo (f : Z) (read_only : bool) : Z :=
  if read_only then Z.lor (f * PAGE_SIZE) TLBLO_VALID
  else Z.lor (Z.lor (f * PAGE_SIZE) TLBLO_DIRTY) TLBLO_VALID.

Lemma land_frame_flag f b : 0 <= b < 12 -> Z.land (f * PAGE_SIZE) (Z.shiftl (Z.ones 1) b) = 0.
Proof.
  intros Hb. rewrite land_window by lia. replace (f * PAGE_SIZE) with (f * 2 ^ (12 - b) * 2 ^ b).
  2: { rewrite <- Z.mul_assoc, <- Z.pow_add_r by lia. by replace (12 - b + b) with 12 by lia. }
  rewrite Z.div_mul by lia. replace (12 - b) with (11 - b + 1) by lia. rewrite Z.pow_add_r by lia.
  replace (f * (2 ^ (11 - b) * 2 ^ 1)) with (f * 2 ^ (11 - b) * 2 ^ 1) by lia. by rewrite Z.mod_mul.
Qed.

Lemma land_frame_page f : 0 <= f < 2 ^ 19 -> Z.land (f * PAGE_SIZE) PAGE_FRAME = f * PAGE_SIZE.
Proof. intros Hf. rewrite land_page by (unfold PAGE_SIZE; lia). by rewrite page_of_addr. Qed.

Lemma entry_lo_bits f ro hi :
  0 <= f < 2 ^ 19 ->
  slot_frame (hi, entry_lo f ro) = f * PAGE_SIZE /\ slot_valid (hi, entry_lo f ro) = true /\
  (Z.land (entry_lo f ro) TLBLO_DIRTY =? 0) = ro.
Proof.
  intros Hf.
  pose proof (land_frame_page f Hf) as Hp.
  pose proof (land_frame_flag f 9 ltac:(lia)) as Hv. change (Z.shiftl (Z.ones 1) 9) with TLBLO_VALID in Hv.
  pose proof (land_frame_flag f 10 ltac:(lia)) as Hd. change (Z.shiftl (Z.ones 1) 10) with TLBLO_DIRTY in Hd.
  unfold slot_frame, slot_valid, entry_lo; simpl.
  destruct ro; rewrite !Z.land_lor_distr_l, ?Hp, ?Hv, ?Hd.
  - change (Z.land TLBLO_VALID PAGE_FRAME) with 0. by rewrite Z.lor_0_r.
  - change (Z.land TLBLO_VALID PAGE_FRAME) with 0. change (Z.land TLBLO_DIRTY PAGE_FRAME) with 0.
    by rewrite !Z.lor_0_r.
Qed.

(** ** Choosing a slot *)

Lemma tlb_place_spec n i fa pa t :
  match tlb_place n i fa pa t with
  | Some (j, true) => i <= j < i + Z.of_nat n /\ (tlb_slot t j).1 = fa /\ slot_frame (tlb_slot t j) = pa
  | Some (j, false) => i <= j < i + Z.of_nat n /\ slot_valid (tlb_slot t j) = false /\
      forall j', i <= j' < j -> slot_valid (tlb_slot t j') = true
  | None => forall j, i <= j < i + Z.of_nat n -> slot_valid (tlb_slot t j) = true
  end.
Proof.
  revert i. induction n as [|n IH]; intros i; simpl; [lia|].
  destruct (tlb_slot t i) as [hi lo] eqn:E.
  destruct ((hi =? fa) && (Z.land lo PAGE_FRAME =? pa)) eqn:Hm.
  - apply andb_true_iff in Hm as [H1%Z.eqb_eq H2%Z.eqb_eq]. rewrite E. split; [lia|]. by split.
  - destruct (Z.land lo TLBLO_VALID =? 0) eqn:Hv; cbn [negb].
    + split; [lia|]. rewrite E. unfold slot_valid; simpl. rewrite Hv. split; [done|lia].
    + assert (Hvi : slot_valid (tlb_slot t i) = true) by (rewrite E; unfold slot_valid; simpl; by rewrite Hv).
      specialize (IH (i + 1)). destruct (tlb_place n (i + 1) fa pa t) as [[j []]|].
      * destruct IH as (? & ? & ?). split; [lia|]. done.
      * destruct IH as (? & ? & Hlow). split; [lia|]. split; [done|]. intros j' Hj'.
        destruct (decide (j' = i)) as [->|]; [done|]. apply Hlow. lia.
      * intros j Hj. destruct (decide (j = i)) as [->|]; [done|]. apply IH. lia.
Qed.

(** Once a translation is in a slot and in no other, [tlb_find] finds it. *)
Lemma tlb_find_spec n i vp t j :
  i <= j < i + Z.of_nat n -> slot_valid (tlb_slot t j) = true -> slot_page (tlb_slot t j) = vp ->
  (forall j', i <= j' < i + Z.of_nat n -> slot_valid (tlb_slot t j') = true ->
     slot_page (tlb_slot t j') = vp -> j' = j) ->
  tlb_find n i vp t = Some (tlb_slot t j).
Proof.
  revert i. induction n as [|n IH]; intros i Hj Hv Hp Hu; [lia|]. simpl.
  destruct (slot_valid (tlb_slot t i) && (slot_page (tlb_slot t i) =? vp)) eqn:Hm.
  - apply andb_true_iff in Hm as [H1 H2%Z.eqb_eq]. by rewrite (Hu i ltac:(lia) H1 H2).
  - destruct (decide (j = i)) as [->|Hne].
    + rewrite Hv, Hp, Z.eqb_refl in Hm. done.
    + apply IH; try done; [lia|]. intros j' Hj'. apply Hu. lia.
Qed.

Lemma tlb_find_none n i vp t :
  (forall j, i <= j < i + Z.of_nat n -> slot_valid (tlb_slot t j) = true -> slot_page (tlb_slot t j) <> vp) ->
  tlb_find n i vp t = None.
Proof.
  revert i. induction n as [|n IH]; intros i H; [done|]. simpl.
  destruct (slot_valid (tlb_slot t i)) eqn:Hv; simpl.
  - destruct (Z.eqb_spec (slot_page (tlb_slot t i)) vp); [by destruct (H i ltac:(lia) Hv)|].
    apply IH. intros j Hj. apply H. lia.
  - apply IH. intros j Hj. apply H. lia.
Qed.

(** ** Installing a translation *)

(** The page [vp] is in no slot, or only in the one the handler will choose. *)
Definition tlb_once (vp pa : Z) (t : tlb_st) : Prop :=
  forall j, 0 <= j < NUM_TLB -> slot_valid (tlb_slot t j) = true -> slot_page (tlb_slot t j) = vp ->
    tlb_place (Z.to_nat NUM_TLB) 0 vp pa t = Some (j, true).

(** No slot translates the page. *)
Definition tlb_miss (tlb : tlb_st) (vp : Z) : Prop :=
  forall i, 0 <= i < NUM_TLB -> slot_valid (tlb_slot tlb i) = true -> slot_page (tlb_slot tlb i) <> vp.

(** The translation of [vp], and the only one. *)
Definition tlb_maps (t : tlb_st) (vp : Z) (lo : Z) : Prop :=
  tlb_find (Z.to_nat NUM_TLB) 0 vp t = Some (vp, lo).

Lemma page_idem a : Z.land (Z.land a PAGE_FRAME) PAGE_FRAME = Z.land a PAGE_FRAME.
Proof. rewrite <- Z.land_assoc. by rewrite Z.land_diag. Qed.

Lemma tlb_ok_install pt t tlb i vp f ro nv :
  tlb_ok pt tlb t -> 0 <= i < NUM_TLB -> Z.land vp PAGE_FRAME = vp -> 0 <= vp < MIPS_KSEG0 ->
  0 <= f < 2 ^ 19 -> t !! addr_pte pt vp = Some (mk_pte f true false false) ->
  (forall j, 0 <= j < NUM_TLB -> slot_valid (tlb_slot tlb j) = true -> slot_page (tlb_slot tlb j) = vp -> j = i) ->
  let tlb' := mk_tlb (<[i := (vp, entry_lo f ro)]> (tlb_entries tlb)) nv in
  tlb_ok pt tlb' t /\ tlb_maps tlb' vp (entry_lo f ro).
Proof.
  intros [Hmap Honce Hempty Huser] Hi Hal Hvp Hf Ht Huniq tlb'.
  destruct (entry_lo_bits f ro vp Hf) as (Hfr & Hvl & _).
  assert (Hslot : forall j, tlb_slot tlb' j = if decide (i = j) then (vp, entry_lo f ro) else tlb_slot tlb j).
  { intros j. unfold tlb_slot; simpl. rewrite lookup_insert. by case_decide. }
  assert (Hpage : slot_page (vp, entry_lo f ro) = vp) by done.
  split.
  - split.
    + intros j Hj. rewrite Hslot. case_decide as E; [|by apply Hmap]. intros _. exists f. by rewrite Hpage.
    + intros a b Ha Hb. rewrite !Hslot. case_decide as E1; case_decide as E2; try congruence.
      * intros _ Hsb Hp. symmetry in Hp. rewrite Hpage in Hp. subst i. symmetry. by apply Huniq.
      * intros Hsa _ Hp. rewrite Hpage in Hp. subst i. by apply Huniq.
      * by apply Honce.
    + intros j Hj. rewrite Hslot. case_decide; [by rewrite Hvl|]. by apply Hempty.
    + intros j Hj. rewrite Hslot. case_decide; [by rewrite Hpage|]. by apply Huser.
  - unfold tlb_maps. rewrite (tlb_find_spec _ 0 vp tlb' i); rewrite ?Z2Nat.id by done; rewrite ?Hslot, ?decide_True by done; try done.
    intros j Hj. rewrite Hslot. case_decide; [done|]. intros Hs Hp. symmetry in Hp. by apply Huniq.
Qed.

Lemma addr_pte_page pt a : 0 <= a < 2 ^ 32 -> addr_pte pt (Z.land a PAGE_FRAME) = addr_pte pt a.
Proof.
  intros Ha. rewrite land_page by done. pose proof (Z.div_mod a PAGE_SIZE ltac:(done)).
  pose proof (Z.mod_pos_bound a PAGE_SIZE ltac:(done)). pose proof (Z.div_pos a PAGE_SIZE ltac:(lia) ltac:(done)).
  unfold addr_pte. destruct (addr_split a Ha) as [-> ->].
  destruct (addr_split (a / PAGE_SIZE * PAGE_SIZE)) as [-> ->]; [unfold PAGE_SIZE in *; lia|].
  change (2 ^ 12) with PAGE_SIZE. rewrite page_of_addr. f_equal. f_equal.
  change (2 ^ 22) with (PAGE_SIZE * 2 ^ 10). rewrite <- !Z.div_div by done. by rewrite page_of_addr.
Qed.

(** ** Statistics of a fault *)

Lemma stats_ok_fault c c1 s :
  stats_ok c -> fetched c c1 -> s = tlb_faults_with_free \/ s = tlb_faults_with_replace ->
  stats_ok (bump tlb_faults (bump s c1)).
Proof.
  intros (H1 & H2 & H3) (F1 & F2 & F3) Hs. specialize (F2 H3).
  pose proof (F3 tlb_faults ltac:(tauto)) as G1. pose proof (F3 tlb_faults_with_free ltac:(tauto)) as G2.
  pose proof (F3 tlb_faults_with_replace ltac:(tauto)) as G3.
  split; [|split].
  - destruct Hs as [ -> | -> ]; stat_cases; rewrite G1, G2, G3, H1, u64_add_l, ?u64_add_l, ?u64_add_r; f_equal; lia.
  - destruct Hs as [ -> | -> ]; stat_cases; rewrite F1, G1, H2, u64_add_l; f_equal; lia.
  - destruct Hs as [ -> | -> ]; stat_cases; done.
Qed.

Section Theory.
Context `{VN : Vnode}.

(** What [install] does, apart from the TLB. *)
Record installed (k k' : kstate) (f : Z) (c : cm_entry) (m : gmap Z cm_entry) (unfix : bool) : Prop :=
  mk_installed {
  in_pt : k_pt k' = k_pt k;
  in_mem : k_mem k' = k_mem k;
  in_swap : k_swap k' = k_swap k;
  in_as : k_as k' = k_as k;
  in_sync : k_sync k' = k_sync k;
  in_cm : k_cm k' = if unfix then set_coremap (<[f := set_fixed false c]> m) (k_cm k) else k_cm k;
  in_stats : exists s, (s = tlb_faults_with_free \/ s = tlb_faults_with_replace) /\
    k_stats k' = bump tlb_faults (bump s (k_stats k))
}.

(** A slot that holds the translation is found when the slots before it are valid and
    hold something else. *)
Lemma tlb_place_hit n i j vp pa t :
  i <= j < i + Z.of_nat n -> (tlb_slot t j).1 = vp -> slot_frame (tlb_slot t j) = pa ->
  (forall j', i <= j' < j -> slot_valid (tlb_slot t j') = true /\ (tlb_slot t j').1 <> vp) ->
  tlb_place n i vp pa t = Some (j, true).
Proof.
  revert i. induction n as [|n IH]; intros i Hj H1 H2 Hlow; [lia|]. simpl.
  destruct (tlb_slot t i) as [hi lo] eqn:E. destruct (decide (j = i)) as [->|Hne].
  - rewrite E in H1, H2. unfold slot_frame in H2. simpl in H1, H2. by rewrite H1, H2, !Z.eqb_refl.
  - destruct (Hlow i ltac:(lia)) as [Hv Hn]. rewrite E in Hv, Hn. simpl in Hn.
    rewrite (proj2 (Z.eqb_neq _ _) Hn). cbn [andb]. unfold slot_valid in Hv. simpl in Hv. rewrite Hv.
    apply IH; try done; [lia|]. intros j' Hj'. apply Hlow. lia.
Qed.

(** The slot [install] chooses. *)
Definition choose (vp pa : Z) (t : tlb_st) : Z * Z * Z :=
  match tlb_place (Z.to_nat NUM_TLB) 0 vp pa t with
  | Some (i, true) => (i, tlb_faults_with_replace, next_victim t)
  | Some (i, false) => (i, tlb_faults_with_free, next_victim t)
  | None => (next_victim t, tlb_faults_with_replace, u32 (next_victim t + 1) mod NUM_TLB)
  end.

Lemma choose_range vp pa t :
  0 <= next_victim t < NUM_TLB ->
  0 <= (choose vp pa t).1.1 < NUM_TLB /\ 0 <= (choose vp pa t).2 < NUM_TLB /\
  ((choose vp pa t).1.2 = tlb_faults_with_free \/ (choose vp pa t).1.2 = tlb_faults_with_replace).
Proof.
  intros Hn. unfold choose. pose proof (tlb_place_spec (Z.to_nat NUM_TLB) 0 vp pa t) as H.
  rewrite Z2Nat.id in H by done. destruct (tlb_place _ _ _ _ _) as [[i []]|]; simpl.
  - split; [lia|]. split; [lia|]. by right.
  - split; [lia|]. split; [lia|]. by left.
  - split; [lia|]. split; [apply Z.mod_pos_bound; done|]. by right.
Qed.

(** The only slot that may hold the page is the chosen one. *)
Lemma choose_only vp pa t j :
  tlb_once vp pa t -> 0 <= j < NUM_TLB -> slot_valid (tlb_slot t j) = true -> slot_page (tlb_slot t j) = vp ->
  j = (choose vp pa t).1.1.
Proof. intros Ho Hj Hv Hp. unfold choose. by rewrite (Ho j Hj Hv Hp). Qed.

(** After a miss, the slot that was chosen is the one a second installation finds. *)
Lemma choose_again vp f ro pt t tlb :
  tlb_ok pt tlb t -> tlb_miss tlb vp -> 0 <= next_victim tlb < NUM_TLB -> Z.land vp PAGE_FRAME = vp ->
  0 < f < 2 ^ 19 ->
  let '(i, _, nv) := choose vp (f * PAGE_SIZE) tlb in
  tlb_once vp (f * PAGE_SIZE) (mk_tlb (<[i := (vp, entry_lo f ro)]> (tlb_entries tlb)) nv).
Proof.
  intros Hok Hmiss Hnv Hal Hf.
  pose proof (choose_range vp (f * PAGE_SIZE) tlb Hnv) as (Hi & _).
  assert (Hlow : forall j', 0 <= j' < (choose vp (f * PAGE_SIZE) tlb).1.1 -> slot_valid (tlb_slot tlb j') = true).
  { unfold choose in *. pose proof (tlb_place_spec (Z.to_nat NUM_TLB) 0 vp (f * PAGE_SIZE) tlb) as Hp.
    rewrite Z2Nat.id in Hp by done. destruct (tlb_place _ _ _ _ _) as [[j []]|]; simpl in *.
    - destruct Hp as (Hj & Hhi & Hfr).
      assert (Hv : slot_valid (tlb_slot tlb j) = true).
      { destruct (slot_valid (tlb_slot tlb j)) eqn:E; [done|]. pose proof (to_empty _ _ _ Hok j ltac:(lia) E) as H0.
        unfold PAGE_SIZE in *. lia. }
      destruct (Hmiss j ltac:(lia) Hv). unfold slot_page. by rewrite Hhi.
    - apply Hp.
    - intros j' Hj'. apply Hp. lia. }
  destruct (choose vp (f * PAGE_SIZE) tlb) as [[i s] nv]. simpl in Hi, Hlow.
  destruct (entry_lo_bits f ro vp ltac:(lia)) as (Hfr & Hvl & _).
  set (tlb' := mk_tlb _ nv).
  assert (Hslot : forall j, tlb_slot tlb' j = if decide (i = j) then (vp, entry_lo f ro) else tlb_slot tlb j).
  { intros j. unfold tlb_slot; simpl. rewrite lookup_insert. by case_decide. }
  intros j Hj Hv Hp. assert (j = i) as ->.
  { rewrite Hslot in Hv, Hp. case_decide; [done|]. by destruct (Hmiss j Hj Hv). }
  apply tlb_place_hit; rewrite ?Z2Nat.id by done; [lia| | |].
  - by rewrite Hslot, decide_True by done.
  - by rewrite Hslot, decide_True by done.
  - intros j' Hj'. rewrite Hslot, decide_False by lia. split; [by apply Hlow|]. intros E.
    apply (Hmiss j' ltac:(lia) (Hlow j' Hj')). unfold slot_page. by rewrite E.
Qed.

Definition with_slot (k : kstate) (i hi lo nv s : Z) : kstate :=
  set_tlb (mk_tlb (<[i := (hi, lo)]> (tlb_entries (k_tlb k))) nv)
    (set_stats (bump tlb_faults (bump s (k_stats k))) k).

Lemma install_eq k m a x fa f c ro :
  quiet (cpu_of k) -> coremap (k_cm k) = Some m -> as_heap (k_as k) !! a = Some x ->
  m !! f = Some c -> 0 <= f < 2 ^ 19 ->
  let vp := Z.land fa PAGE_FRAME in
  let '(i, s, nv) := choose vp (f * PAGE_SIZE) (k_tlb k) in
  let k' := with_slot k i vp (entry_lo f (ro && (as_index x =? 0))) nv s in
  install a fa (f * PAGE_SIZE) ro k =
    Ret 0 (if as_index x =? 0 then set_cm (set_coremap (<[f := set_fixed false c]> m) (k_cm k)) k' else k').
Proof.
  intros Hq Hm Hx Hc Hf vp. destruct (choose vp (f * PAGE_SIZE) (k_tlb k)) as [[i s] nv] eqn:Hch.
  intros k'. unfold install. fold vp.
  rewrite (run_bind _ _ k tt k) by (by rewrite land_frame_page, Z.eqb_refl).
  set (kh := with_cpu (high (cpu_of k)) k).
  rewrite (run_bind _ _ k (t_curspl (cpu_of k)) kh) by (apply zoom_cpu, splhigh_eq, Hq).
  rewrite (run_bind _ _ kh kh kh) by reflexivity.
  assert (Hipl : 0 < iplhigh kh) by (unfold kh; apply iplhigh_high, Hq).
  set (k1 := set_tlb (mk_tlb (tlb_entries (k_tlb k)) nv) (set_stats (bump s (k_stats k)) kh)).
  rewrite (run_bind _ _ kh i k1).
  2: { unfold choose in Hch. change (k_tlb kh) with (k_tlb k). unfold k1.
       destruct (tlb_place _ _ _ _ _) as [[j []]|].
       - injection Hch as <- <- <-. unfold kh. by destruct k as [? ? []].
       - injection Hch as <- <- <-. unfold kh. by destruct k as [? ? []].
       - unfold tlb_get_rr_victim. msimpl. rewrite (proj2 (Z.ltb_lt _ _) Hipl). simpl.
         injection Hch as <- <- <-. unfold kh. by destruct k as [? ? []]. }
  set (k2 := set_stats (bump tlb_faults (k_stats k1)) k1).
  rewrite (run_bind _ _ k1 tt k2) by reflexivity.
  rewrite (run_bind _ _ k2 x k2) by (unfold get_as; msimpl; by rewrite Hx).
  assert (Helo : (if ro && (as_index x =? 0) then Z.lor (f * PAGE_SIZE) TLBLO_VALID
      else Z.lor (Z.lor (f * PAGE_SIZE) TLBLO_DIRTY) TLBLO_VALID) = entry_lo f (ro && (as_index x =? 0))) by reflexivity.
  rewrite Helo. set (lo := entry_lo f _) in *.
  set (k3 := set_tlb (mk_tlb (<[i := (vp, lo)]> (tlb_entries (k_tlb k))) nv) k2).
  rewrite (run_bind _ _ k2 tt k3) by reflexivity.
  set (k4 := if as_index x =? 0 then set_cm (set_coremap (<[f := set_fixed false c]> m) (k_cm k)) k3 else k3).
  rewrite (run_bind _ _ k3 tt k4).
  2: { unfold k4. destruct (as_index x =? 0); [|reflexivity]. cbn [when]. unfold coremap_set_unfixed.
       rewrite (run_bind _ _ k3 k3 k3) by reflexivity.
       rewrite (run_bind _ _ k3 tt k3) by (unfold KASSERT; change (iplhigh k3) with (iplhigh kh); by rewrite (proj2 (Z.ltb_lt _ _) Hipl)).
       rewrite frame_shift. apply zoom_cm. by apply (cm_upd_eq (k_cm k) m f _ c). }
  destruct (splx_high (cpu_of k)) as [r Hx']; [apply Hq|].
  assert (Hc4 : cpu_of k4 = high (cpu_of k)) by (unfold k4; by destruct (as_index x =? 0)).
  rewrite (run_bind _ _ k4 r (with_cpu (cpu_of k) k4)) by (apply zoom_cpu; by rewrite Hc4).
  unfold mret, M_ret. f_equal. unfold k4, k', k3, k2, k1, kh, with_slot.
  destruct (as_index x =? 0); by destruct k as [[] ? [] ? ? ? ? ? ?].
Qed.

(** ** The page table's lock *)

Definition locked (l : Z) (k : kstate) : kstate :=
  set_sync (set_lock (<[l := Some (curthread (cpu_of k))]> (s_lock (k_sync k))) (k_sync k)) k.

Lemma vm_inv_sync k t m bs sw sy :
  vm_inv k t m bs sw -> s_cpu sy = cpu_of k -> lock_avail (set_sync sy k) swap_lock ->
  vm_inv (set_sync sy k) t m bs sw.
Proof. intros [Hq Hl Hwf Hsw Hprev Hpg Hlive Hrows Htrows Hmem] Hc Hav. split; try done. simpl. by rewrite Hc. Qed.

Lemma vm_inv_locked k t m bs sw l :
  vm_inv k t m bs sw -> l <> swap_lock -> vm_inv (locked l k) t m bs sw.
Proof.
  intros Hinv Hl. apply vm_inv_sync; [done|done|]. destruct (inv_lock _ _ _ _ _ Hinv) as (o & Ho & Hav).
  exists o. split; [|done]. simpl. by rewrite lookup_insert_ne.
Qed.

Lemma acquire_locked k l :
  quiet (cpu_of k) -> s_lock (k_sync k) !! l = Some None -> zoom (T := sync) (lock_acquire l) k = Ret tt (locked l k).
Proof. intros Hq Hl. by rewrite (zoom_eq (S := kstate) (T := sync) _ _ _ _ (lock_acquire_free _ _ Hq Hl)). Qed.

Lemma release_locked k k2 l :
  quiet (cpu_of k) -> s_lock (k_sync k) !! l = Some None -> same_sync (k_sync (locked l k)) (k_sync k2) ->
  exists sy, zoom (T := sync) (lock_release l) k2 = Ret tt (set_sync sy k2) /\ same_sync (k_sync k) sy.
Proof.
  intros Hq Hl (Hc & Hlk & Hsem). simpl in Hc, Hlk, Hsem.
  exists (wake_first (lk_spl l) (set_lock (<[l := None]> (s_lock (k_sync k2))) (k_sync k2))). split.
  - rewrite (zoom_eq (S := kstate) (T := sync) _ k2 _ _ (lock_release_held (k_sync k2) l
      ltac:(simpl; by rewrite Hc) ltac:(rewrite Hlk, Hc; by rewrite lookup_insert_eq))). done.
  - eapply same_sync_trans; [|apply wake_first_same]. split; [done|]. split; [|done]. simpl.
    rewrite Hlk, insert_insert_eq. by apply insert_id.
Qed.

Lemma pagein_unlocked k l k2 t sw t2 m2 bs2 sw2 sy :
  quiet (cpu_of k) -> lock_avail k swap_lock ->
  pagein_post (locked l k) t sw k2 t2 m2 bs2 sw2 -> same_sync (k_sync k) sy ->
  pagein_post k t sw (set_sync sy k2) t2 m2 bs2 sw2.
Proof.
  intros Hq Hav [Hi [R T A S P F D X L W] Hd Hv Hr] Hsy. split; try done.
  destruct (same_sync_inv k (set_sync sy k2) swap_lock Hsy Hq Hav) as [Hq2 Hav2].
  destruct Hi as [? ? ? ? ? ? ? ? ? ?]. by split.
Qed.

(** ** Fetching a page that was loaded before *)

(** The frame of a page after a successful fetch. *)
Definition fetched_frame (k : kstate) (t : gmap pteptr pt_entry) (m : gmap Z cm_entry) (p : pteptr) (f : Z) : Prop :=
  exists c, t !! p = Some (mk_pte f true false false) /\ m !! f = Some c /\ cm_pte c = Some p /\
    fixed c = true /\ 0 < f < npages (k_cm k).

Lemma pt_get_frame_valid load k t m bs sw pt fa e :
  vm_inv k t m bs sw -> t !! addr_pte pt fa = Some e -> valid e = true -> fa < MIPS_KSEG0 ->
  s_lock (k_sync k) !! pt = Some None -> pt <> swap_lock ->
  wps True (pt_get_frame_from_page load pt fa) k (fun r k' => exists t' m' bs' sw',
    pagein_post k t sw k' t' m' bs' sw' /\ (r.1 = 0 \/ r.1 = ENOMEM) /\
    (r.1 = 0 -> fetched (k_stats k) (k_stats k') /\
       exists f, r.2 = f * PAGE_SIZE /\ fetched_frame k' t' m' (addr_pte pt fa) f)).
Proof.
  intros Hinv Ht Hv Hfa Hl Hpt. pose proof (inv_cpu _ _ _ _ _ Hinv) as Hq.
  pose proof (inv_lock _ _ _ _ _ Hinv) as Hav.
  unfold pt_get_frame_from_page. fold (addr_pte pt fa). set (p := addr_pte pt fa) in *.
  apply wps_step, wp_KASSERT; [lia|]. apply wps_step. eapply wp_eq.
  { apply (zoom_eq (S := kstate) (T := sync)). by apply lock_do_i_hold_eq. }
  replace (lens_set (k_sync k) k) with k by by destruct k. cbn [negb when].
  apply wps_step, wp_ret, wps_step. eapply wp_eq; [by apply acquire_locked|].
  pose proof (vm_inv_locked k t m bs sw pt Hinv Hpt) as Hinv1.
  destruct (inv_trows _ _ _ _ _ Hinv _ _ Ht) as [row Hrow].
  apply wps_step. unfold wp at 1, get. change (pt_rows (k_pt (locked pt k))) with (pt_rows (k_pt k)).
  unfold p, addr_pte in Hrow. simpl in Hrow. rewrite Hrow. apply wps_step, wp_ret. cbn [Z.eqb negb].
  apply wps_step. eapply wp_eq; [by eapply live_pte|]. rewrite Hv. cbn [negb].
  apply wps_bind. eapply wps_mono; [by apply (fetch_valid_spec (locked pt k) t m bs sw p e)|done|].
  intros err k2 (t2 & m2 & bs2 & sw2 & Hpost & Herr & Hres).
  destruct (release_locked k k2 pt Hq Hl (fr_sync _ _ _ _ (pg_frame _ _ _ _ _ _ _ _ Hpost))) as (sy & Hrel & Hsy).
  pose proof (pagein_unlocked k pt k2 t sw t2 m2 bs2 sw2 sy Hq Hav Hpost Hsy) as Hpost'.
  destruct (Z.eqb_spec err 0) as [E|E]; cbn [negb].
  - destruct (Hres E) as (Hf & f & c & Htf & Hm & Hp & Hfx & Hr).
    apply wps_step. eapply wp_eq; [eapply (live_pte k2); [apply Hpost|exact Htf]|].
    apply wps_step. eapply wp_eq; [exact Hrel|]. apply wps_ret. exists t2, m2, bs2, sw2.
    split; [done|]. split; [by left|]. intros _. split; [done|]. exists f.
    pose proof (wf_bound _ _ _ (inv_cm _ _ _ _ _ (pg_inv _ _ _ _ _ _ _ _ Hpost))).
    split; [simpl; rewrite shift_page, u32_small by (unfold PAGE_SIZE; lia); done|].
    exists c. exact (conj Htf (conj Hm (conj Hp (conj Hfx Hr)))).
  - apply wps_step. eapply wp_eq; [exact Hrel|]. apply wps_ret. exists t2, m2, bs2, sw2.
    split; [done|]. split; [|by intros]. destruct Herr; [done|by right].
Qed.

(** ** A fault of a running process *)

(** The process that faults, and the address: in a segment ([found]) or in the stack. *)
Record fault_ctx (k : kstate) (a : Z) (x : addrspace) (ft fa : Z) (found ro : bool) : Prop := mk_ctx {
  fc_init : vm_inited (k_as k) = true;
  fc_cur : curproc_as (k_as k) = Some (Some a);
  fc_null : a <> 0;
  fc_as : as_heap (k_as k) !! a = Some x;
  fc_active : as_active x = true;
  fc_addr : 0 < fa < MIPS_KSEG0;
  fc_seg : forall k0, find_segment x fa k0 = Ret (found, ro) k0;
  fc_found : found = true \/ PROJECT_STACK_MIN_ADDRESS <= fa;
  fc_type : ft = VM_FAULT_READ \/ ft = VM_FAULT_WRITE
}.

(** The checks before the page table is consulted. *)
Lemma vm_fault_checks load k a x ft fa found ro :
  quiet (cpu_of k) -> fault_ctx k a x ft fa found ro ->
  vm_fault_with load ft fa k =
    (r ← pt_get_frame_from_page load (page_table x) fa;
     let '(err, paddr) := r in
     if negb (err =? 0) then exited err else install a fa paddr ro) k.
Proof.
  intros Hq [Hin Hcur Hnull Has Hact Hfa Hseg Hfound Hty]. unfold vm_fault_with.
  pose proof Hq as (Hwf & _). set (k1 := with_cpu (acq vm_lock (cpu_of k)) k).
  rewrite (run_bind _ _ k tt k1) by (apply zoom_cpu, spinlock_acquire_eq; [done|by apply quiet_free]).
  rewrite (run_bind _ _ k1 k1 k1) by reflexivity.
  change (vm_inited (k_as k1)) with (vm_inited (k_as k)). rewrite Hin. cbn [negb].
  rewrite (run_bind _ _ k1 tt k) by (by apply vm_lock_release).
  rewrite (proj2 (Z.eqb_neq fa 0)), (proj2 (Z.leb_gt MIPS_KSEG0 fa)) by lia. cbn [orb].
  change (curproc_as (k_as k1)) with (curproc_as (k_as k)). rewrite Hcur.
  rewrite (run_bind _ _ k a k) by (unfold proc_getas, gets; by rewrite Hcur).
  rewrite (proj2 (Z.eqb_neq a 0) Hnull).
  rewrite (run_bind _ _ k x k) by (unfold get_as; msimpl; by rewrite Has). rewrite Hact. cbn [negb].
  rewrite (run_bind _ _ _ _ _ (Hseg k)).
  assert (negb found && (fa <? PROJECT_STACK_MIN_ADDRESS) = false) as ->.
  { destruct Hfound as [->|H]; [done|]. rewrite (proj2 (Z.ltb_ge _ _) H). apply andb_false_r. }
  by destruct Hty as [ -> | -> ].
Qed.

(** The state after [install]: the frame is the page's, the TLB translates the page, and
    the frame may be replaced again unless a page is being loaded. *)
Lemma install_post k t m bs sw a x pt fa f ro :
  vm_inv k t m bs sw -> as_heap (k_as k) !! a = Some x -> 0 < fa < MIPS_KSEG0 ->
  tlb_ok pt (k_tlb k) t -> tlb_once (Z.land fa PAGE_FRAME) (f * PAGE_SIZE) (k_tlb k) ->
  0 <= next_victim (k_tlb k) < NUM_TLB -> fetched_frame k t m (addr_pte pt fa) f ->
  exists k' m', install a fa (f * PAGE_SIZE) ro k = Ret 0 k' /\ pagein_post k t sw (set_tlb (k_tlb k) k') t m' bs sw /\
    tlb_ok pt (k_tlb k') t /\ tlb_maps (k_tlb k') (Z.land fa PAGE_FRAME) (entry_lo f (ro && (as_index x =? 0))) /\
    0 <= next_victim (k_tlb k') < NUM_TLB /\
    m' !! f = Some (mk_cm true (negb (as_index x =? 0)) 1 (Some (addr_pte pt fa))) /\
    exists s, (s = tlb_faults_with_free \/ s = tlb_faults_with_replace) /\
      k_stats k' = bump tlb_faults (bump s (k_stats k)).
Proof.
  intros Hinv Hx Hfa Htlb Hone Hnv (c & Htf & Hm & Hp & Hfx & Hr).
  pose proof Hinv as [Hq Hl Hwf Hsw Hprev Hpg Hlive Hrows Htrows Hmem].
  pose proof (wf_bound _ _ _ Hwf) as Hbd.
  pose proof (install_eq k m a x fa f c ro Hq (wf_map _ _ _ Hwf) Hx Hm ltac:(lia)) as Heq. cbv zeta in Heq.
  pose proof (choose_range (Z.land fa PAGE_FRAME) (f * PAGE_SIZE) (k_tlb k) Hnv) as (Hci & Hcn & Hcs).
  pose proof (choose_only (Z.land fa PAGE_FRAME) (f * PAGE_SIZE) (k_tlb k)) as Honly.
  destruct (choose _ _ _) as [[i s] nv]. simpl in Hci, Hcn, Hcs, Honly, Heq.
  set (vp := Z.land fa PAGE_FRAME) in *. set (lo := entry_lo f _) in *.
  assert (Hvp : 0 <= vp < MIPS_KSEG0).
  { unfold vp, MIPS_KSEG0 in *. rewrite land_page by lia. pose proof (Z.div_mod fa PAGE_SIZE ltac:(done)).
    pose proof (Z.mod_pos_bound fa PAGE_SIZE ltac:(done)). pose proof (Z.div_pos fa PAGE_SIZE ltac:(lia) ltac:(done)).
    unfold PAGE_SIZE in *. lia. }
  assert (Htv : t !! addr_pte pt vp = Some (mk_pte f true false false)).
  { unfold vp. rewrite addr_pte_page by (unfold MIPS_KSEG0 in *; lia). done. }
  destruct (tlb_ok_install pt t (k_tlb k) i vp f (ro && (as_index x =? 0)) nv Htlb Hci (page_idem fa) Hvp ltac:(lia) Htv)
    as [Hok' Hmaps]; [by intros j Hj Hv' Hp'; apply Honly|]. fold lo in Hok', Hmaps.
  pose proof (owned_occ _ _ _ _ _ _ Hwf Hm Hp) as Hocc. pose proof (wf_user _ _ _ Hwf _ _ _ Hm Hp) as Hn1.
  destruct c as [oc fx nf pe]; simpl in *; subst oc fx nf pe.
  destruct (as_index x =? 0).
  - eexists _, _. split; [exact Heq|]. split.
    + apply (pagein_stats _ _ _ (set_cm (set_coremap (<[f := mk_cm true false 1 (Some (addr_pte pt fa))]> m) (k_cm k)) k)).
      apply (vm_inv_set_fixed k t m bs sw f (mk_cm true true 1 (Some (addr_pte pt fa))) (addr_pte pt fa) false); try done.
      by apply (pages_inv_unfix t m sw f (mk_cm true true 1 (Some (addr_pte pt fa))) (addr_pte pt fa)).
    + split; [done|]. split; [done|]. split; [done|]. split; [apply lookup_insert_eq|]. by exists s.
  - eexists _, m. split; [exact Heq|]. split.
    + replace (set_tlb (k_tlb k) (with_slot k i vp lo nv s))
        with (set_stats (bump tlb_faults (bump s (k_stats k))) k) by by destruct k.
      apply pagein_stats. by apply pagein_refl.
    + split; [done|]. split; [done|]. split; [done|]. split; [done|]. by exists s.
Qed.

Lemma vm_inv_tlb k t m bs sw tl : vm_inv (set_tlb tl k) t m bs sw -> vm_inv k t m bs sw.
Proof. by intros [? ? ? ? ? ? ? ? ? ?]; split. Qed.

Lemma vm_inv_as k t m bs sw v : vm_inv k t m bs sw -> vm_inv (set_as v k) t m bs sw.
Proof. by intros [? ? ? ? ? ? ? ? ? ?]; split. Qed.

(** A page that is in no slot stays in no slot while slots only become invalid. *)
Lemma miss_shrinks tl tl' vp pa : tlb_miss tl vp -> tlb_shrinks tl tl' -> tlb_once vp pa tl'.
Proof.
  intros Hm [_ Hs] j Hj Hv Hp. pose proof (Hs j Hv) as E. rewrite E in Hv, Hp. by destruct (Hm j Hj).
Qed.

(** The outcome of a fault that the process survives, or the two ways it may not. *)
Definition fault_outcome (k : kstate) (t : gmap pteptr pt_entry) (sw : swap_file) (pt fa : Z)
    (P : kstate -> gmap pteptr pt_entry -> gmap Z cm_entry -> swap_file -> Z -> Prop)
    (o : outcome kstate Z) : Prop :=
  match o with
  | Ret r k' => r = 0 /\ exists t' m' bs' sw' f, vm_inv k' t' m' bs' sw' /\
      t' !! addr_pte pt fa = Some (mk_pte f true false false) /\ tlb_ok pt (k_tlb k') t' /\
      (stats_ok (k_stats k) -> stats_ok (k_stats k')) /\ P k' t' m' sw' f
  | Exited code _ => code = ENOMEM
  | Panic msg => msg = OUT_OF_SWAP
  | _ => False
  end.

Lemma vm_fault_valid load k t m bs sw a x ft fa found ro e :
  vm_inv k t m bs sw -> fault_ctx k a x ft fa found ro -> let pt := page_table x in
  s_lock (k_sync k) !! pt = Some None -> pt <> swap_lock ->
  t !! addr_pte pt fa = Some e -> valid e = true ->
  tlb_ok pt (k_tlb k) t -> tlb_miss (k_tlb k) (Z.land fa PAGE_FRAME) -> 0 <= next_victim (k_tlb k) < NUM_TLB ->
  fault_outcome k t sw pt fa (fun k' t' m' sw' f =>
    (forall p, page_data k' t' sw' p = page_data k t sw p) /\
    tlb_maps (k_tlb k') (Z.land fa PAGE_FRAME) (entry_lo f (ro && (as_index x =? 0))) /\
    m' !! f = Some (mk_cm true (negb (as_index x =? 0)) 1 (Some (addr_pte pt fa))))
    (vm_fault_with load ft fa k).
Proof.
  intros Hinv Hctx pt Hlk Hpt Ht Hv Htlb Hmiss Hnv. pose proof (inv_cpu _ _ _ _ _ Hinv) as Hq.
  rewrite (vm_fault_checks load k a x ft fa found ro Hq Hctx). destruct Hctx as [Hin Hcur Hnull Has Hact Hfa Hseg Hfound Hty].
  pose proof (pt_get_frame_valid load k t m bs sw pt fa e Hinv Ht Hv ltac:(lia) Hlk Hpt) as Hget.
  unfold wps in Hget. fold pt. unfold mbind, M_bind.
  destruct (pt_get_frame_from_page load pt fa k) as [[err pa] k1| | | | |]; try done; [|by destruct Hget as [-> _]].
  destruct Hget as (t1 & m1 & bs1 & sw1 & Hpost & Herr & Hres). simpl in Herr, Hres.
  destruct (Z.eqb_spec err 0) as [E|E]; cbn [negb]; [|simpl; by destruct Herr].
  destruct (Hres E) as (Hfet & f & -> & Hff).
  pose proof Hpost as [Hinv1 Hfr Hd1 _ _].
  destruct (install_post k1 t1 m1 bs1 sw1 a x pt fa f ro Hinv1) as (k2 & m2 & Hrun & Hpost2 & Hok2 & Hmaps & _ & Hm2 & s & Hs & Hst);
    try done.
  - by rewrite (fr_as _ _ _ _ Hfr).
  - by apply (fr_tlb _ _ _ _ Hfr).
  - by eapply miss_shrinks; [|apply (fr_slots _ _ _ _ Hfr)].
  - by rewrite (proj1 (fr_slots _ _ _ _ Hfr)).
  - rewrite Hrun. split; [done|]. exists t1, m2, bs1, sw1, f. destruct Hpost2 as [Hinv2 _ Hd2 _ _].
    split; [by eapply vm_inv_tlb|]. split; [by destruct Hff as (c & ? & _)|]. split; [done|].
    split; [intros Hso; rewrite Hst; by apply (stats_ok_fault (k_stats k))|].
    split; [|done]. intros p. rewrite <- Hd1, <- Hd2. done.
Qed.

(** C10: a fault on a page that was loaded before, wherever the page is now.  The handler
    returns with the page in a frame, the TLB translating exactly that page to that frame
    (writable only if the segment is, or a load is in progress), every page of every
    process as before, the frame up for replacement again, the invariants and the
    statistics identities kept; otherwise memory ran out (the process is killed) or the
    swap file is full (the kernel stops). *)
Theorem vm_fault_revisit d k t m bs sw a x ft fa found ro e :
  vm_inv k t m bs sw -> fault_ctx k a x ft fa found ro ->
  s_lock (k_sync k) !! page_table x = Some None -> page_table x <> swap_lock ->
  t !! addr_pte (page_table x) fa = Some e -> valid e = true -> as_index x = 0 ->
  tlb_ok (page_table x) (k_tlb k) t -> tlb_miss (k_tlb k) (Z.land fa PAGE_FRAME) ->
  0 <= next_victim (k_tlb k) < NUM_TLB ->
  fault_outcome k t sw (page_table x) fa (fun k' t' m' sw' f =>
    (forall p, page_data k' t' sw' p = page_data k t sw p) /\
    tlb_maps (k_tlb k') (Z.land fa PAGE_FRAME) (entry_lo f ro) /\
    m' !! f = Some (mk_cm true false 1 (Some (addr_pte (page_table x) fa))))
    (vm_fault (S d) ft fa k).
Proof.
  intros Hinv Hctx Hlk Hpt Ht Hv Hidx Htlb Hmiss Hnv.
  pose proof (vm_fault_valid (load_page (vm_fault d)) k t m bs sw a x ft fa found ro e Hinv Hctx Hlk Hpt Ht Hv Htlb Hmiss Hnv) as H.
  rewrite Hidx, Z.eqb_refl, andb_true_r in H. exact H.
Qed.

End Theory.

(** ** Witness *)

Import Replacement.

(** A TLB none of whose slots is valid. *)
Lemma tlb_ok_none pt tl t :
  (forall i, slot_valid (tlb_slot tl i) = false /\ slot_frame (tlb_slot tl i) = 0) -> tlb_ok pt tl t.
Proof. intros H. split; intros i; destruct (H i) as [E1 E2]; intros; congruence. Qed.

Lemma no_slots i : slot_valid (tlb_slot (mk_tlb ∅ 0) i) = false /\ slot_frame (tlb_slot (mk_tlb ∅ 0) i) = 0.
Proof. unfold tlb_slot. simpl. rewrite lookup_empty. done. Qed.

Lemma no_slots_valid i : slot_valid (tlb_slot (mk_tlb ∅ 0) i) = true -> False.
Proof. by rewrite (proj1 (no_slots i)). Qed.

(** A process whose only page is in the swap file. *)
Definition low_seg : segment := mk_seg 16 0 0 64 true true false.
Definition low_as : addrspace := mk_as (VN := mem_vnode) {[ 0 := low_seg; 1 := zero_seg ]} 0 None true 1.
Definition revisit_state : kstate := set_as (mk_as_st {[ 5 := low_as ]} (Some (Some 5)) true) (swapped_state None).

Lemma vm_fault_revisit_witness :
  fault_outcome revisit_state swapped_ptes swapped_swap 1 32 (fun k' t' m' sw' f =>
    (forall p, page_data k' t' sw' p = page_data revisit_state swapped_ptes swapped_swap p) /\
    tlb_maps (k_tlb k') (Z.land 32 PAGE_FRAME) (entry_lo f false) /\
    m' !! f = Some (mk_cm true false 1 (Some (addr_pte 1 32))))
    (vm_fault 1 VM_FAULT_WRITE 32 revisit_state).
Proof.
  apply (vm_fault_revisit 0 revisit_state swapped_ptes boot_map (boot_layout 1 4) swapped_swap 5 low_as
           VM_FAULT_WRITE 32 true false (mk_pte 0 true true false)); try reflexivity.
  - apply vm_inv_as, swapped_inv. by left.
  - split; try reflexivity; [lia|done|by left|by right].
  - done.
  - apply tlb_ok_none, no_slots.
  - by intros i _ ?%no_slots_valid.
  - done.
Defined.

End FaultTheory.
