(* ===== verification/FirstTouch.v ===== *)
(** * First touch of a page: allocation, demand loading and the nested fault *)

From S2P Require Import Prelude Cpu Synch KState Stats Tlb Swap Coremap Blocks Paging Kpages PageTable.
From S2P Require Import Replacement PageIn PtLife UserMem AddrSpace Loader VmFault FaultTheory.

Module FirstTouch.
Import Cpu Synch KState Stats Tlb Swap Coremap Blocks Paging Kpages PageTable PageIn PtLife UserMem AddrSpace
  Loader VmFault FaultTheory.

Section FirstTouch.
Context `{VN : Vnode}.

(** ** A zeroed frame for a new page *)

(** The entry [p], not in use before, is now resident in frame [f], which is fixed. *)
Record new_page (k : kstate) (t : gmap pteptr pt_entry) (sw : swap_file) (p : pteptr)
    (k' : kstate) (t' : gmap pteptr pt_entry) (m' : gmap Z cm_entry) (bs' : list block)
    (sw' : swap_file) (f : Z) : Prop := mk_new {
  np_inv : vm_inv k' t' m' bs' sw';
  np_entry : t' !! p = Some (mk_pte f true false false);
  np_cm : m' !! f = Some (mk_cm true true 1 (Some p));
  np_range : 0 < f < npages (k_cm k');
  np_data : forall q, q <> p -> page_data k' t' sw' q = page_data k t sw q;
  np_tlb : forall pt, tlb_ok pt (k_tlb k) t -> tlb_ok pt (k_tlb k') t';
  np_slots : tlb_shrinks (k_tlb k) (k_tlb k');
  np_as : k_as k' = k_as k;
  np_sync : same_sync (k_sync k) (k_sync k')
}.

(** Entry [p] takes the fresh block [f]. *)
Lemma vm_inv_take k t m bs sw p f :
  vm_inv k t m bs sw -> t !! p = None -> is_Some (pt_rows (k_pt k) !! p.1) ->
  fresh_block k t m f 1 (Some p) ->
  vm_inv (set_ptes (<[p := mk_pte f true false false]> (ptes (k_pt k))) k)
    (<[p := mk_pte f true false false]> t) m bs sw.
Proof.
  intros [Hq Hl Hwf Hsw Hprev [Hres Hown Hidle Hrefs Hslots] Hlive Hrows Htrows Hmem] Hp Hrow [Hrg Hz Hcm Hun].
  assert (Hf : m !! f = Some (mk_cm true true 1 (Some p)))
    by (rewrite Hcm by lia; by rewrite decide_True by done).
  split; try done.
  - split.
    + intros q e. rewrite lookup_insert. case_decide as E; [|apply Hres].
      intros [= <-] _ _. subst q. by eexists.
    + intros g c q Hc Hq' Hfx. pose proof (Hown _ _ _ Hc Hq' Hfx). rewrite lookup_insert_ne; [done|congruence].
    + intros q e. rewrite lookup_insert. case_decide; [by intros [= <-]|apply Hidle].
    + intros i n Hn. pose proof (slot_users_insert t p (mk_pte f true false false) i) as Hc. rewrite Hp in Hc.
      unfold use_count, uses in Hc; simpl in Hc. specialize (Hrefs _ _ Hn). lia.
    + intros q e. rewrite lookup_insert. case_decide; [by intros [= <-]|apply Hslots].
  - by apply insert_mono.
  - intros q e. rewrite lookup_insert. case_decide as E; [by rewrite <- E|apply Htrows].
Qed.

(** The first part of [load_frame]: frame, [frame_no], [valid]. *)
Definition claim_frame (p : pteptr) : M kstate Z :=
  frame ← get_user_frame p;
  _ ← update_pte p (set_frame_no (Z.shiftr frame 12));
  e ← read_pte p;
  if frame_no e =? 0 then mret ENOMEM else
  _ ← update_pte p (fun e => mk_pte (frame_no e) true (swp e) (swapping e));
  mret 0.

Lemma claim_frame_spec k t m bs sw p :
  vm_inv k t m bs sw -> t !! p = None -> is_Some (pt_rows (k_pt k) !! p.1) -> pte_at k p = zero_pte ->
  wps True (claim_frame p) k (fun err k' =>
    (err = 0 \/ err = ENOMEM) /\ same_faults (k_stats k) (k_stats k') /\
    same_sync (k_sync k) (k_sync k') /\
    (err = 0 -> exists t' m' bs' sw' f, new_page k t sw p k' t' m' bs' sw' f /\
       frame_data k' f = zero_page)).
Proof.
  intros Hinv Hp Hrow Hz. unfold claim_frame. apply wps_bind.
  eapply wps_mono; [by apply (get_user_frame_spec k t m bs sw p)|done|].
  intros addr k1 (t1 & m1 & bs1 & sw1 & [Hinv1 Hfr Hdata _ _ Hblock _ Hst _] & _).
  assert (Hp1 : t1 !! p = None).
  { rewrite eq_None_not_Some, (fr_dom _ _ _ _ Hfr), <- eq_None_not_Some. done. }
  assert (Hrow1 : is_Some (pt_rows (k_pt k1) !! p.1)) by by rewrite (fr_rows _ _ _ _ Hfr).
  assert (Hz1 : pte_at k1 p = zero_pte).
  { unfold pte_at in *. by rewrite (fr_dead _ _ _ _ Hfr p Hp). }
  apply wps_step. eapply wp_eq; [by apply update_pte_eq|]. rewrite Hz1. set (k2 := set_ptes _ k1).
  assert (Hread : read_pte p k2 = Ret (mk_pte (u20 (Z.shiftr addr 12)) false false false) k2).
  { rewrite read_pte_eq by done. unfold k2. by rewrite pte_at_set, decide_True by done. }
  apply wps_step. eapply wp_eq; [exact Hread|]. cbn [frame_no].
  destruct Hblock as [->|(f & -> & Hfresh)].
  { cbn [Z.eqb]. apply wps_ret. split; [by right|]. split; [done|]. split; [apply Hfr|]. by intros [=]. }
  pose proof (fb_range _ _ _ _ _ _ Hfresh) as Hrg. pose proof (wf_pages _ _ _ (inv_cm _ _ _ _ _ Hinv1)).
  pose proof (wf_bound _ _ _ (inv_cm _ _ _ _ _ Hinv1)).
  rewrite frame_shift, u20_small by lia. destruct (Z.eqb_spec f 0); [lia|].
  apply wps_step. eapply wp_eq; [by apply update_pte_eq|]. apply wps_ret.
  split; [by left|]. split; [done|]. split; [apply Hfr|]. intros _.
  assert (Hpte : pte_at k2 p = mk_pte f false false false).
  { unfold k2. rewrite pte_at_set, decide_True by done. unfold set_frame_no; simpl.
    by rewrite frame_shift, u20_small by lia. }
  rewrite Hpte. cbn [frame_no swp swapping].
  assert (Heq : set_ptes (<[p := mk_pte f true false false]> (ptes (k_pt k2))) k2 =
                set_ptes (<[p := mk_pte f true false false]> (ptes (k_pt k1))) k1).
  { unfold k2, set_ptes; simpl. by rewrite insert_insert_eq. }
  rewrite Heq. exists (<[p := mk_pte f true false false]> t1), m1, bs1, sw1, f.
  split; [|apply (fb_zero _ _ _ _ _ _ Hfresh); lia]. split.
  - by apply vm_inv_take.
  - apply lookup_insert_eq.
  - rewrite (fb_cm _ _ _ _ _ _ Hfresh) by lia. by rewrite decide_True by done.
  - simpl. lia.
  - intros q Hq. unfold page_data. rewrite lookup_insert_ne by done. apply Hdata.
  - intros pt Hok. simpl. apply tlb_ok_insert; [by apply (fr_tlb _ _ _ _ Hfr)|]. intros g. by rewrite Hp1.
  - apply Hfr.
  - apply Hfr.
  - apply Hfr.
Qed.

(** [load_frame] starts with [claim_frame]. *)
Lemma load_frame_claim load pt exte inte fa k :
  load_frame load pt exte inte fa k =
    (err ← claim_frame (pt, exte, inte);
     if negb (err =? 0) then mret err else
     if fa <? PROJECT_STACK_MIN_ADDRESS then
       as_ ← proc_getas;
       err ← load as_ fa;
       _ ← when (err =? 0) (count_disk_fault page_faults_from_elf);
       mret err
     else
       _ ← zoom (spinlock_acquire spinlock_zeroed_stats);
       _ ← zoom (inc_counter page_faults_zeroed);
       _ ← zoom (spinlock_release spinlock_zeroed_stats);
       mret 0) k.
Proof.
  unfold load_frame, claim_frame, mbind, M_bind.
  destruct (get_user_frame (pt, exte, inte) k) as [fr k1| | | | |]; try done.
  destruct (update_pte _ _ k1) as [[] k2| | | | |]; try done.
  destruct (read_pte _ k2) as [e k3| | | | |]; try done.
  destruct (frame_no e =? 0); [done|].
  by destruct (update_pte _ _ k3) as [[] k4| | | | |].
Qed.

(** ** The nested fault *)

(** The page table's lock is held and the page is resident and fixed: the frame is
    returned and a reload is counted, nothing else. *)
Lemma pt_get_frame_held load k t m bs sw pt fa f :
  vm_inv k t m bs sw -> let p := addr_pte pt fa in
  t !! p = Some (mk_pte f true false false) -> m !! f = Some (mk_cm true true 1 (Some p)) ->
  s_lock (k_sync k) !! pt = Some (Some (curthread (cpu_of k))) -> fa < MIPS_KSEG0 ->
  pt_get_frame_from_page load pt fa k =
    Ret (0, f * PAGE_SIZE) (set_stats (bump tlb_reloads (k_stats k)) k).
Proof.
  intros Hinv p Ht Hm Hl Hfa. destruct (fetch_resident k t m bs sw p f Hinv Ht) as (c & Hc & _ & Hf & Hrun & _).
  rewrite Hm in Hc. injection Hc as <-.
  assert (Hcm : set_coremap (<[f := mk_cm true true 1 (Some p)]> m) (k_cm k) = k_cm k).
  { rewrite insert_id by done. pose proof (wf_map _ _ _ (inv_cm _ _ _ _ _ Hinv)) as E.
    unfold set_coremap. rewrite <- E. by destruct (k_cm k). }
  unfold set_fixed in Hrun; simpl in Hrun. rewrite Hcm, set_cm_same in Hrun.
  pose proof (wf_bound _ _ _ (inv_cm _ _ _ _ _ Hinv)) as Hbd.
  destruct (inv_trows _ _ _ _ _ Hinv _ _ Ht) as [row Hrow].
  pose proof (live_pte _ _ _ _ _ _ _ Hinv Ht) as Hread.
  unfold pt_get_frame_from_page. fold (addr_pte pt fa). fold p.
  rewrite (run_bind _ _ k tt k) by (unfold KASSERT; by rewrite (proj2 (Z.ltb_lt _ _) Hfa)).
  rewrite (run_bind _ _ k true k).
  2: { rewrite (zoom_eq (S := kstate) (T := sync) _ k _ _ (lock_do_i_hold_eq _ _ _ Hl)).
       rewrite Z.eqb_refl. by destruct k. }
  cbn [when negb]. unfold p, addr_pte in Hrow. simpl in Hrow.
  rewrite (run_bind _ _ k tt k).
  2: { rewrite (run_bind _ _ k k k) by reflexivity. rewrite Hrow.
       rewrite (run_bind _ _ k tt k) by reflexivity. rewrite (run_bind _ _ _ _ _ Hread).
       cbn [valid frame_no]. rewrite (run_bind _ _ k tt k) by reflexivity.
       unfold KASSERT. by rewrite (proj2 (Z.eqb_neq f 0)) by lia. }
  rewrite (run_bind _ _ k tt k) by reflexivity. rewrite (run_bind _ _ k k k) by reflexivity. rewrite Hrow.
  rewrite (run_bind _ _ k 0 k) by reflexivity. cbn [Z.eqb negb].
  rewrite (run_bind _ _ _ _ _ Hread). cbn [valid negb].
  rewrite (run_bind _ _ _ _ _ Hrun). cbn [Z.eqb negb]. set (k1 := set_stats _ k).
  assert (Hread1 : read_pte p k1 = Ret (mk_pte f true false false) k1).
  { eapply live_pte; [apply vm_inv_stats; exact Hinv|done]. }
  rewrite (run_bind _ _ _ _ _ Hread1). cbn [frame_no].
  rewrite (run_bind _ _ k1 tt k1) by reflexivity. rewrite shift_page, u32_small by (unfold PAGE_SIZE; lia). done.
Qed.

(** A fault on the page that is being loaded: only the TLB and the statistics change, and
    a second installation will find the same slot. *)
Lemma nested_fault load k t m bs sw a x va found ro f :
  vm_inv k t m bs sw -> fault_ctx k a x VM_FAULT_WRITE va found ro ->
  let pt := page_table x in let p := addr_pte pt va in let vp := Z.land va PAGE_FRAME in
  t !! p = Some (mk_pte f true false false) -> m !! f = Some (mk_cm true true 1 (Some p)) ->
  s_lock (k_sync k) !! pt = Some (Some (curthread (cpu_of k))) -> as_index x = 1 ->
  tlb_ok pt (k_tlb k) t -> tlb_miss (k_tlb k) vp -> 0 <= next_victim (k_tlb k) < NUM_TLB ->
  exists tl st, vm_fault_with load VM_FAULT_WRITE va k = Ret 0 (set_tlb tl (set_stats st k)) /\
    tlb_ok pt tl t /\ tlb_maps tl vp (entry_lo f false) /\ tlb_once vp (f * PAGE_SIZE) tl /\
    0 <= next_victim tl < NUM_TLB /\ (stats_ok (k_stats k) -> stats_ok st).
Proof.
  intros Hinv Hctx pt p vp Ht Hm Hl Hidx Htlb Hmiss Hnv.
  pose proof Hinv as [Hq _ Hwf _ _ Hpg _ _ _ _]. pose proof (wf_bound _ _ _ Hwf) as Hbd.
  pose proof (owned_above _ _ _ _ _ _ Hwf Hm eq_refl) as Hr. pose proof (wf_pages _ _ _ Hwf) as Hpgs.
  rewrite (vm_fault_checks load k a x _ va found ro Hq Hctx).
  destruct Hctx as [Hin Hcur Hnull Has Hact Hva Hseg Hfound Hty].
  rewrite (run_bind _ _ _ _ _ (pt_get_frame_held load k t m bs sw pt va f Hinv Ht Hm Hl ltac:(lia))).
  cbn [Z.eqb negb]. set (k1 := set_stats _ k).
  pose proof (install_eq k1 m a x va f _ ro Hq (wf_map _ _ _ Hwf) Has Hm ltac:(lia)) as Heq.
  cbv zeta in Heq. rewrite Hidx in Heq. change (1 =? 0) with false in Heq. rewrite andb_false_r in Heq.
  pose proof (choose_range vp (f * PAGE_SIZE) (k_tlb k) Hnv) as (Hci & Hcn & Hcs).
  pose proof (choose_again vp f false pt t (k_tlb k) Htlb Hmiss Hnv (page_idem va) ltac:(lia)) as Hagain.
  change (k_tlb k1) with (k_tlb k) in Heq. fold vp in Heq.
  destruct (choose vp (f * PAGE_SIZE) (k_tlb k)) as [[i s] nv]. simpl in Hci, Hcn, Hcs.
  assert (Hvp : 0 <= vp < MIPS_KSEG0).
  { unfold vp, MIPS_KSEG0 in *. rewrite land_page by lia. pose proof (Z.div_mod va PAGE_SIZE ltac:(done)).
    pose proof (Z.mod_pos_bound va PAGE_SIZE ltac:(done)). pose proof (Z.div_pos va PAGE_SIZE ltac:(lia) ltac:(done)).
    unfold PAGE_SIZE in *. lia. }
  assert (Htv : t !! addr_pte pt vp = Some (mk_pte f true false false)).
  { unfold vp. rewrite addr_pte_page by (unfold MIPS_KSEG0 in *; lia). done. }
  destruct (tlb_ok_install pt t (k_tlb k) i vp f false nv Htlb Hci (page_idem va) Hvp ltac:(lia) Htv) as [Hok' Hmaps].
  { intros j Hj Hv Hp. by destruct (Hmiss j Hj Hv). }
  eexists _, _. split; [exact Heq|]. split; [exact Hok'|]. split; [exact Hmaps|]. split; [exact Hagain|].
  split; [done|]. intros Hso. apply (stats_ok_fault (k_stats k) (k_stats k1) s Hso); [apply fetched_reload|done].
Qed.

(** ** Writing the bytes of the page *)

(** A store that misses, with a handler that installs a dirty translation to [f]. *)
Lemma translate_miss handler k k1 va f :
  tlb_miss (k_tlb k) (Z.land va PAGE_FRAME) -> handler VM_FAULT_WRITE va k = Ret 0 k1 ->
  tlb_maps (k_tlb k1) (Z.land va PAGE_FRAME) (entry_lo f false) -> 0 <= f < 2 ^ 19 ->
  translate handler RESTARTS true va k = Ret (0, f * PAGE_SIZE + va mod PAGE_SIZE) k1.
Proof.
  intros Hmiss Hrun Hmaps Hf. destruct (entry_lo_bits f false (Z.land va PAGE_FRAME) Hf) as (Hfr & _ & Hd).
  unfold RESTARTS. cbn [translate]. rewrite (run_bind _ _ k k k) by reflexivity.
  rewrite (tlb_find_none (Z.to_nat NUM_TLB) 0 (Z.land va PAGE_FRAME) (k_tlb k)).
  2: { intros j Hj Hv. apply Hmiss; [|done]. rewrite Z2Nat.id in Hj by done. lia. }
  rewrite (run_bind _ _ _ _ _ Hrun). cbn [Z.eqb negb]. rewrite (run_bind _ _ k1 k1 k1) by reflexivity.
  unfold tlb_maps in Hmaps. rewrite Hmaps. cbn [snd andb]. rewrite Hd.
  unfold mret, M_ret. by rewrite Hfr.
Qed.

(** A copy within one page. *)
Lemma copyout_one_page handler k k1 va f bs :
  bs <> [] -> 0 <= va -> va + Z.of_nat (length bs) <= (va / PAGE_SIZE + 1) * PAGE_SIZE ->
  va + Z.of_nat (length bs) <= USERSPACETOP -> 0 <= f < 2 ^ 19 ->
  translate handler RESTARTS true va k = Ret (0, f * PAGE_SIZE + va mod PAGE_SIZE) k1 ->
  copyout handler bs va k =
    Ret 0 (set_mem (<[f := page_write (frame_data k1 f) (va mod PAGE_SIZE) bs]> (k_mem k1)) k1).
Proof.
  intros Hne Hva Hroom Htop Hf Htr. destruct bs as [|b0 bs0] eqn:Ebs; [done|]. rewrite <- Ebs in *. clear Hne.
  assert (Hlen : 0 < Z.of_nat (length bs)) by (rewrite Ebs; simpl; lia).
  pose proof (Z.div_mod va PAGE_SIZE ltac:(done)) as Hdm. pose proof (Z.mod_pos_bound va PAGE_SIZE ltac:(done)) as Hmb.
  unfold copyout. unfold copycheck, USERSPACETOP, MIPS_KSEG0 in *.
  rewrite u32_small by lia. rewrite (proj2 (Z.ltb_ge _ _)), (proj2 (Z.leb_gt _ va)), (proj2 (Z.leb_gt _ (va + _ - 1))) by lia.
  cbn [Z.eqb negb]. rewrite Z.eqb_refl. cbn [negb].
  assert (Hpg : exists n, pages_of (Z.of_nat (length bs)) = S n) by (unfold pages_of; rewrite Nat.add_comm; by eexists).
  destruct Hpg as [n ->]. cbn [user_write]. rewrite Ebs. rewrite <- Ebs.
  rewrite (run_bind _ _ _ _ _ Htr). cbn [Z.eqb negb]. rewrite (run_bind _ _ k1 k1 k1) by reflexivity.
  assert (Hdiv : (f * PAGE_SIZE + va mod PAGE_SIZE) / PAGE_SIZE = f).
  { rewrite Z.div_add_l by done. rewrite (Z.div_small (va mod PAGE_SIZE)) by done. lia. }
  assert (Hmod : (f * PAGE_SIZE + va mod PAGE_SIZE) mod PAGE_SIZE = va mod PAGE_SIZE).
  { rewrite Z.add_comm, Z.mod_add by done. by apply Z.mod_mod. }
  rewrite Hdiv, Hmod.
  assert (Hfit : (length bs <= Z.to_nat (PAGE_SIZE - va mod PAGE_SIZE))%nat) by (unfold PAGE_SIZE in *; lia).
  rewrite take_ge by done. rewrite drop_ge by done.
  rewrite (run_bind _ _ k1 tt (set_mem (<[f := page_write (frame_data k1 f) (va mod PAGE_SIZE) bs]> (k_mem k1)) k1)) by reflexivity.
  by destruct n.
Qed.

(** A process with two segments and its executable. *)
Record proc_image (k : kstate) (a : Z) (x : addrspace) (s0 s1 : segment) (fl : vfile) : Prop := mk_image {
  im_init : vm_inited (k_as k) = true;
  im_cur : curproc_as (k_as k) = Some (Some a);
  im_null : a <> 0;
  im_as : as_heap (k_as k) !! a = Some x;
  im_active : as_active x = true;
  im_seg0 : segments x !! 0 = Some s0;
  im_seg1 : segments x !! 1 = Some s1;
  im_file : as_file x = Some fl
}.

Definition segment_of (s0 s1 : segment) (fa : Z) : segment := if in_segment s0 fa then s0 else s1.

(** Where the extent of a page lies. *)
Lemma extent_page s fa e :
  seg_wf s -> in_segment s fa = true -> load_extent s fa = Some e ->
  let va := x_vaddr e in
  0 < va < MIPS_KSEG0 /\ in_segment s va = true /\ va / PAGE_SIZE = fa / PAGE_SIZE /\
  0 < x_fsize e /\ va + x_fsize e <= (va / PAGE_SIZE + 1) * PAGE_SIZE /\ va + x_fsize e <= USERSPACETOP /\
  x_fsize e <= x_msize e.
Proof.
  intros Hwf Hin He va. pose proof (load_extent_spec s fa Hwf Hin) as H. rewrite He in H. cbv zeta in H.
  destruct H as (Hmem & Hfile & _ & Hsz & _). destruct Hwf as (Hv & Hm & Hs & _).
  destruct (proj1 (Hmem va)) as [Hp Hin']; [unfold va; lia|].
  destruct (proj1 (Hfile (va + x_fsize e - 1))) as [Hp2 [Hin2 _]]; [unfold va; lia|].
  unfold PROJECT_STACK_MIN_ADDRESS, USERSTACK, MIPS_KSEG0 in Hs. change (0x80000000 - 18 * PAGE_SIZE) with 0x7ffee000 in Hs.
  unfold USERSPACETOP, MIPS_KSEG0. split; [lia|]. split.
  { unfold in_segment. rewrite u32_small by lia. rewrite (proj2 (Z.leb_le _ _)), (proj2 (Z.ltb_lt _ _)) by lia. done. }
  split; [done|]. split; [lia|]. split; [|lia].
  pose proof (Z.div_mod (va + x_fsize e - 1) PAGE_SIZE ltac:(done)) as Hdm.
  pose proof (Z.mod_pos_bound (va + x_fsize e - 1) PAGE_SIZE ltac:(done)). rewrite Hp2, <- Hp in Hdm. lia.
Qed.

Lemma find_segment_in x s0 s1 va k0 :
  segments x !! 0 = Some s0 -> segments x !! 1 = Some s1 ->
  in_segment s0 va = true \/ in_segment s1 va = true ->
  find_segment x va k0 = Ret (true, negb (writable (segment_of s0 s1 va))) k0.
Proof.
  intros H0 H1 Hin. unfold find_segment, segment_of. msimpl. rewrite H0. destruct (in_segment s0 va); [done|].
  rewrite H1. destruct Hin as [|E]; [done|]. by rewrite E.
Qed.

Lemma load_page_bytes d k t m bs sw a x s0 s1 fl fa f e data :
  vm_inv k t m bs sw -> proc_image k a x s0 s1 fl ->
  let pt := page_table x in let p := addr_pte pt fa in let s := segment_of s0 s1 fa in
  0 < fa < MIPS_KSEG0 -> in_segment s fa = true -> seg_wf s -> load_extent s fa = Some e ->
  vop_read fl (x_offset e) (x_fsize e) = (0, data) -> Z.of_nat (length data) = x_fsize e ->
  t !! p = Some (mk_pte f true false false) -> m !! f = Some (mk_cm true true 1 (Some p)) ->
  s_lock (k_sync k) !! pt = Some (Some (curthread (cpu_of k))) ->
  tlb_ok pt (k_tlb k) t -> tlb_miss (k_tlb k) (Z.land fa PAGE_FRAME) -> 0 <= next_victim (k_tlb k) < NUM_TLB ->
  exists tl st, load_page (vm_fault (S d)) a fa k = Ret 0
      (set_as (mk_as_st (<[a := with_index 0 x]> (as_heap (k_as k))) (curproc_as (k_as k)) (vm_inited (k_as k)))
        (set_mem (<[f := page_write (frame_data k f) (x_vaddr e mod PAGE_SIZE) data]> (k_mem k))
          (set_tlb tl (set_stats st k)))) /\
    tlb_ok pt tl t /\ tlb_once (Z.land fa PAGE_FRAME) (f * PAGE_SIZE) tl /\
    0 <= next_victim tl < NUM_TLB /\ (stats_ok (k_stats k) -> stats_ok st).
Proof.
  intros Hinv Him pt p s Hfa Hin Hwf He Hread Hlen Ht Hm Hl Htlb Hmiss Hnv.
  destruct (extent_page s fa e Hwf Hin He) as (Hva & Hinva & Hpage & Hfs & Hroom & Htop & Hfm).
  set (va := x_vaddr e) in *. destruct Him as [Hini Hcur Hnull Has Hact Hs0 Hs1 Hfl].
  assert (Hvp : Z.land va PAGE_FRAME = Z.land fa PAGE_FRAME)
    by (rewrite !land_page by (unfold MIPS_KSEG0 in *; lia); by rewrite Hpage).
  assert (Hpe : addr_pte pt va = p).
  { unfold p. rewrite <- (addr_pte_page pt va), <- (addr_pte_page pt fa), Hvp by (unfold MIPS_KSEG0 in *; lia). done. }
  pose proof (owned_above _ _ _ _ _ _ (inv_cm _ _ _ _ _ Hinv) Hm eq_refl) as Hr.
  pose proof (wf_bound _ _ _ (inv_cm _ _ _ _ _ Hinv)). pose proof (wf_pages _ _ _ (inv_cm _ _ _ _ _ Hinv)).
  set (heap1 := <[a := with_index 1 x]> (as_heap (k_as k))).
  set (k1 := set_as (mk_as_st heap1 (curproc_as (k_as k)) (vm_inited (k_as k))) k).
  assert (Hctx : fault_ctx k1 a (with_index 1 x) VM_FAULT_WRITE va true (negb (writable (segment_of s0 s1 va)))).
  { split; try done; [simpl; apply lookup_insert_eq| |by left|by right].
    intros k0. apply find_segment_in; [done..|]. unfold s, segment_of in Hinva. destruct (in_segment s0 fa); auto. }
  assert (Hnest := nested_fault (load_page (vm_fault d)) k1 t m bs sw a (with_index 1 x) va true _ f
    (vm_inv_as _ _ _ _ _ _ Hinv) Hctx). cbv zeta in Hnest. change (page_table (with_index 1 x)) with pt in Hnest.
  rewrite Hpe, Hvp in Hnest. destruct (Hnest Ht Hm Hl eq_refl Htlb Hmiss Hnv)
    as (tl & st & Hrun & Hok & Hmaps & Hone & Hnv' & Hst).
  exists tl, st. split; [|exact (conj Hok (conj Hone (conj Hnv' Hst)))].
  set (k2 := set_tlb tl (set_stats st k1)) in *.
  assert (Htr : translate (vm_fault (S d)) RESTARTS true va k1 = Ret (0, f * PAGE_SIZE + va mod PAGE_SIZE) k2).
  { apply translate_miss; [by rewrite Hvp|exact Hrun|by rewrite Hvp|lia]. }
  assert (Hne : data <> []) by (intros ->; simpl in Hlen; lia).
  pose proof (copyout_one_page (vm_fault (S d)) k1 k2 va f data Hne ltac:(lia) ltac:(lia) ltac:(lia) ltac:(lia) Htr) as Hcp.
  change (frame_data k2 f) with (frame_data k f) in Hcp. change (k_mem k2) with (k_mem k) in Hcp.
  set (k3 := set_mem _ k2) in Hcp.
  unfold load_page. assert (Hget : get_as a k = Ret x k) by (unfold get_as; msimpl; by rewrite Has).
  rewrite (run_bind _ _ _ _ _ Hget).
  rewrite (run_bind _ _ k s0 k) by (unfold deref; by rewrite Hs0).
  rewrite (run_bind _ _ k s1 k) by (unfold deref; by rewrite Hs1).
  rewrite (run_bind _ _ k tt k).
  2: { unfold s, segment_of in Hin. destruct (in_segment s0 fa); [done|]. simpl. by rewrite Hin. }
  change (if in_segment s0 fa then s0 else s1) with s. rewrite He.
  rewrite (run_bind _ _ k 0 k1).
  2: { unfold as_prepare_load, upd_as. unfold mbind at 1 2, M_bind. rewrite Hget. reflexivity. }
  rewrite (run_bind _ _ k1 fl k1) by (unfold deref; by rewrite Hfl).
  rewrite (run_bind _ _ k1 0 k3).
  2: { unfold load_segment. rewrite (proj2 (Z.ltb_ge _ _)) by lia. rewrite Hread.
       rewrite (run_bind _ _ k1 0 k3).
       - rewrite Hlen, Z.sub_diag. done.
       - destruct data as [|b0 data0]; [done|].
         rewrite (run_bind _ _ k1 a k1) by (unfold proc_getas, gets; simpl; by rewrite Hcur).
         rewrite (run_bind _ _ k1 tt k1) by (by rewrite Z.eqb_refl). exact Hcp. }
  unfold as_complete_load, upd_as. assert (Hget3 : get_as a k3 = Ret (with_index 1 x) k3).
  { unfold get_as; msimpl. unfold heap1. by rewrite lookup_insert_eq. }
  unfold mbind at 1 2 3, M_bind. rewrite Hget3. cbn. unfold heap1. rewrite insert_insert_eq. by destruct k.
Qed.

(** ** The first contents of a page *)

Definition first_contents (s0 s1 : segment) (fl : vfile) (fa : Z) : page :=
  if in_segment s0 fa || in_segment s1 fa then
    match load_extent (segment_of s0 s1 fa) fa with
    | None => zero_page
    | Some e => page_write zero_page (x_vaddr e mod PAGE_SIZE) (vop_read fl (x_offset e) (x_fsize e)).2
    end
  else zero_page.

(** The address is in a well-formed segment whose bytes the file has, or in the stack. *)
Definition mapped (s0 s1 : segment) (fl : vfile) (fa : Z) : Prop :=
  (in_segment s0 fa = true \/ in_segment s1 fa = true) /\ seg_wf (segment_of s0 s1 fa) /\
    (forall e, load_extent (segment_of s0 s1 fa) fa = Some e -> exists data,
       vop_read fl (x_offset e) (x_fsize e) = (0, data) /\ Z.of_nat (length data) = x_fsize e) \/
  in_segment s0 fa = false /\ in_segment s1 fa = false /\ PROJECT_STACK_MIN_ADDRESS <= fa.

Lemma segment_of_in s0 s1 fa :
  in_segment s0 fa = true \/ in_segment s1 fa = true -> in_segment (segment_of s0 s1 fa) fa = true.
Proof. unfold segment_of. destruct (in_segment s0 fa) eqn:E; naive_solver. Qed.

Lemma seg_below s fa : seg_wf s -> in_segment s fa = true -> fa < PROJECT_STACK_MIN_ADDRESS.
Proof.
  intros (Hv & Hm & Hs & _) [_ H2%Z.ltb_lt]%andb_true_iff. rewrite u32_small in H2; [lia|].
  unfold PROJECT_STACK_MIN_ADDRESS, USERSTACK, MIPS_KSEG0, PAGE_SIZE in *. lia.
Qed.

Lemma same_faults_ok c c' : same_faults c c' -> stats_ok c -> stats_ok c'.
Proof. intros H (H1 & H2 & H3). unfold stats_ok. by rewrite !H. Qed.

(** The page is loaded: resident in [f], which is fixed, with its first contents. *)
Record loaded (k : kstate) (t : gmap pteptr pt_entry) (sw : swap_file) (a : Z) (x : addrspace) (fa : Z)
    (contents : page) (k' : kstate) (t' : gmap pteptr pt_entry) (m' : gmap Z cm_entry)
    (bs' : list block) (sw' : swap_file) (f : Z) : Prop := mk_loaded {
  ld_inv : vm_inv k' t' m' bs' sw';
  ld_entry : t' !! addr_pte (page_table x) fa = Some (mk_pte f true false false);
  ld_cm : m' !! f = Some (mk_cm true true 1 (Some (addr_pte (page_table x) fa)));
  ld_contents : frame_data k' f = contents;
  ld_data : forall q, q <> addr_pte (page_table x) fa -> page_data k' t' sw' q = page_data k t sw q;
  ld_tlb : tlb_ok (page_table x) (k_tlb k') t';
  ld_once : tlb_once (Z.land fa PAGE_FRAME) (f * PAGE_SIZE) (k_tlb k');
  ld_nv : 0 <= next_victim (k_tlb k') < NUM_TLB;
  ld_as : as_heap (k_as k') !! a = Some (with_index 0 x);
  ld_sync : same_sync (k_sync k) (k_sync k');
  ld_stats : stats_ok (k_stats k) -> exists c, stats_ok c /\ fetched c (k_stats k')
}.

Lemma with_index_same x : as_index x = 0 -> with_index 0 x = x.
Proof. intros <-. by destruct x. Qed.

(** A page of zeros: the state right after [claim_frame], with one more fetch counted. *)
Lemma loaded_zero k t sw a x s0 s1 fl fa k1 t1 m1 bs1 sw1 f st :
  new_page k t sw (addr_pte (page_table x) fa) k1 t1 m1 bs1 sw1 f -> frame_data k1 f = zero_page ->
  proc_image k a x s0 s1 fl -> as_index x = 0 -> tlb_ok (page_table x) (k_tlb k) t ->
  tlb_miss (k_tlb k) (Z.land fa PAGE_FRAME) -> 0 <= next_victim (k_tlb k) < NUM_TLB ->
  same_faults (k_stats k) (k_stats k1) -> fetched (k_stats k1) st ->
  loaded k t sw a x fa zero_page (set_stats st k1) t1 m1 bs1 sw1 f.
Proof.
  intros [Hi He Hc Hr Hd Ht Hs Ha Hsy] Hz Him Hidx Hok Hmiss Hnv Hsf Hfe. split; try done.
  - by apply vm_inv_stats.
  - by apply Ht.
  - by eapply miss_shrinks.
  - simpl. by rewrite (proj1 Hs).
  - simpl. rewrite Ha, with_index_same by done. apply Him.
  - intros Hso. exists (k_stats k1). split; [by eapply same_faults_ok|done].
Qed.

Lemma load_frame_spec d k t m bs sw a x s0 s1 fl fa :
  vm_inv k t m bs sw -> proc_image k a x s0 s1 fl -> as_index x = 0 -> 0 < fa < MIPS_KSEG0 ->
  mapped s0 s1 fl fa -> let pt := page_table x in let p := addr_pte pt fa in
  t !! p = None -> pte_at k p = zero_pte -> is_Some (pt_rows (k_pt k) !! p.1) ->
  s_lock (k_sync k) !! pt = Some (Some (curthread (cpu_of k))) -> tlb_ok pt (k_tlb k) t ->
  tlb_miss (k_tlb k) (Z.land fa PAGE_FRAME) -> 0 <= next_victim (k_tlb k) < NUM_TLB ->
  wps True (load_frame (load_page (vm_fault (S d))) pt (GET_EXT_INDEX fa) (GET_INT_INDEX fa) fa) k (fun err k' =>
    (err = 0 \/ err = ENOMEM) /\ same_sync (k_sync k) (k_sync k') /\
    (err = 0 -> exists t' m' bs' sw' f,
       loaded k t sw a x fa (first_contents s0 s1 fl fa) k' t' m' bs' sw' f)).
Proof.
  intros Hinv Him Hidx Hfa Hmap pt p Hp Hz Hrow Hl Hok Hmiss Hnv. unfold wps. rewrite load_frame_claim.
  apply wps_bind. eapply wps_mono; [by apply (claim_frame_spec k t m bs sw p)|done|].
  intros err k1 (Herr & Hsf & Hsy & Hnew). destruct (Z.eqb_spec err 0) as [E|E]; cbn [negb].
  2: { apply wps_ret. split; [done|]. split; [done|]. by intros. }
  destruct (Hnew E) as (t1 & m1 & bs1 & sw1 & f & Hnp & Hzero). clear Hnew Herr E.
  pose proof Hnp as [Hi1 He1 Hc1 Hr1 Hd1 Ht1 Hs1 Ha1 _]. pose proof (inv_cpu _ _ _ _ _ Hi1) as Hq1.
  apply wps_of_wp. destruct Hmap as [(Hin & Hwf & Hfile)|(Hn0 & Hn1 & Hstack)].
  - pose proof (segment_of_in _ _ _ Hin) as Hseg. pose proof (seg_below _ _ Hwf Hseg) as Hlow.
    assert (Hb : in_segment s0 fa || in_segment s1 fa = true) by (apply orb_true_iff; tauto).
    rewrite (proj2 (Z.ltb_lt _ _) Hlow). apply wp_bind.
    unfold wp at 1, proc_getas, gets. rewrite Ha1, (im_cur _ _ _ _ _ _ Him). simpl default.
    unfold first_contents. rewrite Hb.
    assert (Him1 : proc_image k1 a x s0 s1 fl) by (destruct Him; split; by rewrite ?Ha1).
    destruct (load_extent (segment_of s0 s1 fa) fa) as [e|] eqn:He.
    + destruct (Hfile e eq_refl) as (data & Hread & Hlen).
      destruct (load_page_bytes d k1 t1 m1 bs1 sw1 a x s0 s1 fl fa f e data Hi1 Him1 Hfa Hseg Hwf He Hread Hlen He1 Hc1)
        as (tl & st & Hrun & Htl & Hone & Hnv' & Hst).
      * destruct Hsy as (E1 & E2 & _). by rewrite E1, E2.
      * by apply Ht1.
      * intros i Hv Hpg. pose proof (proj2 Hs1 i Hpg) as Es. rewrite Es in *. by apply Hmiss.
      * by rewrite (proj1 Hs1).
      * apply wp_bind. eapply wp_eq; [exact Hrun|]. cbn [Z.eqb when]. apply wp_bind.
        eapply wp_eq; [apply count_disk_fault_eq; [exact Hq1|done]|]. apply wp_ret.
        split; [by left|]. split; [exact Hsy|]. intros _. exists t1, m1, bs1, sw1, f.
        rewrite Hzero, Hread. cbn [snd]. set (k2 := set_stats _ _).
        assert (Hpl : Z.of_nat (length (page_write zero_page (x_vaddr e mod PAGE_SIZE) data)) = PAGE_SIZE).
        { destruct (extent_page _ _ _ Hwf Hseg He) as (_ & _ & _ & _ & Hroom & _).
          pose proof (Z.mod_pos_bound (x_vaddr e) PAGE_SIZE ltac:(done)). pose proof (Z.div_mod (x_vaddr e) PAGE_SIZE ltac:(done)).
          pose proof zero_page_length. unfold page_write. rewrite !length_app, length_take, length_drop.
          unfold PAGE_SIZE in *. lia. }
        assert (Hfd : forall g, frame_data k2 g =
          if decide (f = g) then page_write zero_page (x_vaddr e mod PAGE_SIZE) data else frame_data k1 g).
        { intros g. unfold frame_data at 1. simpl k_mem. rewrite lookup_insert. by case_decide. }
        split; try done.
        -- destruct Hi1 as [I1 I2 I3 I4 I5 I6 I7 I8 I9 I10]. split; try done.
           intros g. rewrite Hfd. case_decide; [exact Hpl|apply I10].
        -- rewrite Hfd. by rewrite decide_True by done.
        -- intros q Hq'. rewrite <- Hd1 by done. unfold page_data. destruct (t1 !! q) as [eq|] eqn:Eq; [|done].
           destruct (valid eq) eqn:Hv; [|done]. destruct (swp eq) eqn:Hsp; [done|]. rewrite Hfd.
           case_decide as Ef; [|done]. exfalso. apply Hq'.
           destruct (pi_resident _ _ _ (inv_pages _ _ _ _ _ Hi1) _ _ Eq Hv Hsp) as (c & Hc & Hcp).
           rewrite <- Ef, Hc1 in Hc. injection Hc as <-. by injection Hcp.
        -- simpl. apply lookup_insert_eq.
        -- intros Hso. exists st. split; [apply Hst; by eapply same_faults_ok|]. apply fetched_disk. by left.
    + apply wp_bind. eapply wp_eq.
      { unfold load_page. unfold get_as. msimpl. rewrite Ha1, (im_as _ _ _ _ _ _ Him), (im_seg0 _ _ _ _ _ _ Him), (im_seg1 _ _ _ _ _ _ Him), Hb.
        change (if in_segment s0 fa then s0 else s1) with (segment_of s0 s1 fa). rewrite He. reflexivity. }
      cbn [Z.eqb when]. apply wp_bind. eapply wp_eq; [by apply count_disk_fault_eq|]. apply wp_ret.
      split; [by left|]. split; [exact Hsy|]. intros _. exists t1, m1, bs1, sw1, f.
      eapply loaded_zero; try done. apply fetched_disk. by left.
  - rewrite (proj2 (Z.ltb_ge _ _) Hstack).
    pose proof (counted_section spinlock_zeroed_stats (zoom (inc_counter page_faults_zeroed)) k1
      (bump page_faults_zeroed (k_stats k1)) Hq1 eq_refl) as Hsec.
    eapply wp_eq.
    { instantiate (2 := 0). instantiate (1 := set_stats (bump page_faults_zeroed (k_stats k1)) k1).
      revert Hsec. unfold mbind, M_bind. destruct (zoom (spinlock_acquire _) k1); try done.
      destruct (zoom (inc_counter _) _); try done. by intros ->. }
    split; [by left|]. split; [exact Hsy|]. intros _. exists t1, m1, bs1, sw1, f.
    unfold first_contents. rewrite Hn0, Hn1. cbn [orb].
    eapply loaded_zero; try done. apply fetched_zeroed.
Qed.

(** ** The second-level table *)

(** The row of the page exists; every page is as before. *)
Record ready (k : kstate) (t : gmap pteptr pt_entry) (sw : swap_file) (p : pteptr) (k' : kstate)
    (t' : gmap pteptr pt_entry) (m' : gmap Z cm_entry) (bs' : list block) (sw' : swap_file) : Prop := mk_ready {
  rd_inv : vm_inv k' t' m' bs' sw';
  rd_row : is_Some (pt_rows (k_pt k') !! p.1);
  rd_data : forall q, page_data k' t' sw' q = page_data k t sw q;
  rd_as : k_as k' = k_as k;
  rd_sync : same_sync (k_sync k) (k_sync k');
  rd_none : t !! p = None -> t' !! p = None /\ pte_at k' p = pte_at k p;
  rd_tlb : forall pt, tlb_ok pt (k_tlb k) t -> tlb_ok pt (k_tlb k') t';
  rd_slots : tlb_shrinks (k_tlb k) (k_tlb k');
  rd_stats : same_faults (k_stats k) (k_stats k')
}.

Lemma row_ready k t m bs sw pt fa :
  vm_inv k t m bs sw -> vm_inited (k_as k) = true ->
  wps True (match pt_rows (k_pt k) !! (pt, GET_EXT_INDEX fa) with
            | None => init_rows pt fa | Some _ => mret 0 end) k (fun err k' =>
    (err = 0 \/ err = ENOMEM) /\ same_sync (k_sync k) (k_sync k') /\
    (err = 0 -> exists t' m' bs' sw', ready k t sw (addr_pte pt fa) k' t' m' bs' sw')).
Proof.
  intros Hinv Hinit. destruct (pt_rows (k_pt k) !! (pt, GET_EXT_INDEX fa)) as [row|] eqn:Hrow.
  - apply wps_ret. split; [by left|]. split; [apply same_sync_refl|]. intros _. exists t, m, bs, sw.
    split; try done.
  - unfold init_rows. apply wps_bind. eapply wps_mono; [by eapply (alloc_kpages_spec k t m bs sw 1)|done|].
    intros va k1 (addr & t1 & m1 & bs1 & sw1 & [Hi Hfr Hd _ _ _ _ Hst _] & ->).
    set (row := if addr =? 0 then _ else _). destruct (row =? 0).
    + apply wps_ret. split; [by right|]. split; [apply Hfr|]. by intros [=].
    + apply wps_step, wp_modify, wps_ret. split; [by left|]. split; [apply Hfr|]. intros _.
      exists t1, m1, bs1, sw1. destruct Hi as [I1 I2 I3 I4 I5 I6 I7 I8 I9 I10].
      assert (Hup : forall i, is_Some (pt_rows (k_pt k1) !! i) ->
        is_Some (<[(pt, GET_EXT_INDEX fa) := row]> (pt_rows (k_pt k1)) !! i)).
      { intros i Hi. rewrite lookup_insert_is_Some. destruct (decide ((pt, GET_EXT_INDEX fa) = i)); auto. }
      split; try done; try apply Hfr.
      * split; try done.
        -- intros g c p Hc Hp. apply Hup. by eapply I8.
        -- intros p e Hp. apply Hup. by eapply I9.
      * simpl. rewrite lookup_insert_eq. by eexists.
      * intros Hp. split.
        -- rewrite eq_None_not_Some, (fr_dom _ _ _ _ Hfr), <- eq_None_not_Some. done.
        -- unfold pte_at. simpl. by rewrite (fr_dead _ _ _ _ Hfr).
Qed.

(** ** The whole fault *)

Lemma pt_get_frame_new d k t m bs sw a x s0 s1 fl fa :
  vm_inv k t m bs sw -> proc_image k a x s0 s1 fl -> as_index x = 0 -> 0 < fa < MIPS_KSEG0 ->
  mapped s0 s1 fl fa -> let pt := page_table x in let p := addr_pte pt fa in
  t !! p = None -> pte_at k p = zero_pte -> s_lock (k_sync k) !! pt = Some None -> pt <> swap_lock ->
  tlb_ok pt (k_tlb k) t -> tlb_miss (k_tlb k) (Z.land fa PAGE_FRAME) -> 0 <= next_victim (k_tlb k) < NUM_TLB ->
  wps True (pt_get_frame_from_page (load_page (vm_fault (S d))) pt fa) k (fun r k' =>
    (r.1 = 0 \/ r.1 = ENOMEM) /\
    (r.1 = 0 -> exists t' m' bs' sw' f, r.2 = f * PAGE_SIZE /\
       loaded k t sw a x fa (first_contents s0 s1 fl fa) k' t' m' bs' sw' f)).
Proof.
  intros Hinv Him Hidx Hfa Hmap pt p Hp Hz Hl Hpt Hok Hmiss Hnv.
  pose proof (inv_cpu _ _ _ _ _ Hinv) as Hq. pose proof (inv_lock _ _ _ _ _ Hinv) as Hav.
  unfold pt_get_frame_from_page. fold (addr_pte pt fa). fold p.
  apply wps_step, wp_KASSERT; [lia|]. apply wps_step. eapply wp_eq.
  { apply (zoom_eq (S := kstate) (T := sync)). by apply lock_do_i_hold_eq. }
  replace (lens_set (k_sync k) k) with k by by destruct k. cbn [negb when].
  apply wps_step, wp_ret, wps_step. eapply wp_eq; [by apply acquire_locked|].
  pose proof (vm_inv_locked k t m bs sw pt Hinv Hpt) as Hinv1.
  apply wps_step. unfold wp at 1, get. apply wps_bind.
  eapply wps_mono; [apply (row_ready (locked pt k) t m bs sw pt fa Hinv1), Him|done|].
  intros err k1 (Herr & Hsy1 & Hready). destruct (Z.eqb_spec err 0) as [E|E]; cbn [negb].
  2: { destruct (release_locked k k1 pt Hq Hl Hsy1) as (sy & Hrel & _).
       apply wps_step. eapply wp_eq; [exact Hrel|]. apply wps_ret. split; [simpl; tauto|]. by intros. }
  destruct (Hready E) as (t1 & m1 & bs1 & sw1 & [Hi1 Hr1 Hd1 Ha1 _ Hn1 Ht1 Hs1 Hst1]).
  destruct (Hn1 Hp) as [Hp1 Hpte1].
  assert (Hz1 : pte_at k1 p = zero_pte) by (unfold p in *; by rewrite Hpte1).
  apply wps_step. eapply wp_eq; [by apply read_pte_eq|]. rewrite Hz1. cbn [valid zero_pte negb].
  apply wps_bind. eapply wps_mono.
  { apply (load_frame_spec d k1 t1 m1 bs1 sw1 a x s0 s1 fl fa Hi1); try done.
    - destruct Him; split; by rewrite ?Ha1.
    - destruct Hsy1 as (E1 & E2 & _). simpl in E1, E2. fold pt. rewrite E1, E2. by rewrite lookup_insert_eq.
    - by apply Ht1.
    - intros i Hv Hpg. pose proof (proj2 Hs1 i Hpg) as Es. rewrite Es in *. by apply Hmiss.
    - by rewrite (proj1 Hs1). }
  { done. }
  intros err2 k2 (Herr2 & Hsy2 & Hld). 
  destruct (release_locked k k2 pt Hq Hl (same_sync_trans _ _ _ Hsy1 Hsy2)) as (sy & Hrel & Hsy).
  destruct (Z.eqb_spec err2 0) as [E2|E2]; cbn [negb].
  2: { apply wps_step. eapply wp_eq; [exact Hrel|]. apply wps_ret. split; [simpl; tauto|]. by intros. }
  destruct (Hld E2) as (t2 & m2 & bs2 & sw2 & f & Hloaded).
  pose proof Hloaded as [L1 L2 L3 L4 L5 L6 L7 L8 L9 L10 L11].
  apply wps_step. eapply wp_eq; [by eapply live_pte|].
  apply wps_step. eapply wp_eq; [exact Hrel|]. apply wps_ret. split; [by left|]. intros _.
  exists t2, m2, bs2, sw2, f.
  pose proof (owned_above _ _ _ _ _ _ (inv_cm _ _ _ _ _ L1) L3 eq_refl). pose proof (wf_bound _ _ _ (inv_cm _ _ _ _ _ L1)).
  pose proof (wf_pages _ _ _ (inv_cm _ _ _ _ _ L1)).
  split; [simpl; rewrite shift_page, u32_small by (unfold PAGE_SIZE; lia); done|].
  destruct (same_sync_inv k (set_sync sy k2) swap_lock Hsy Hq Hav) as [Hq2 Hav2].
  split; try done.
  - destruct L1 as [? ? ? ? ? ? ? ? ? ?]. by split.
  - intros q Hq'. rewrite <- (Hd1 q : page_data k1 t1 sw1 q = page_data k t sw q). by rewrite <- L5.
  - intros Hso. apply L11. by eapply same_faults_ok.
Qed.

(** The first access, with the contents as the loader computes them. *)
Lemma first_touch_loads d k t m bs sw a x s0 s1 fl ft fa :
  vm_inv k t m bs sw -> proc_image k a x s0 s1 fl -> as_index x = 0 -> 0 < fa < MIPS_KSEG0 ->
  mapped s0 s1 fl fa -> (ft = VM_FAULT_READ \/ ft = VM_FAULT_WRITE) ->
  t !! addr_pte (page_table x) fa = None -> pte_at k (addr_pte (page_table x) fa) = zero_pte ->
  s_lock (k_sync k) !! page_table x = Some None -> page_table x <> swap_lock ->
  tlb_ok (page_table x) (k_tlb k) t -> tlb_miss (k_tlb k) (Z.land fa PAGE_FRAME) ->
  0 <= next_victim (k_tlb k) < NUM_TLB ->
  fault_outcome k t sw (page_table x) fa (fun k' t' m' sw' f =>
    frame_data k' f = first_contents s0 s1 fl fa /\
    (forall q, q <> addr_pte (page_table x) fa -> page_data k' t' sw' q = page_data k t sw q) /\
    (exists ro, tlb_maps (k_tlb k') (Z.land fa PAGE_FRAME) (entry_lo f ro) /\
       (in_segment s0 fa || in_segment s1 fa = true -> ro = negb (writable (segment_of s0 s1 fa)))) /\
    m' !! f = Some (mk_cm true false 1 (Some (addr_pte (page_table x) fa))))
    (vm_fault (S (S d)) ft fa k).
Proof.
  intros Hinv Him Hidx Hfa Hmap Hty Hp Hz Hl Hpt Hok Hmiss Hnv. pose proof (inv_cpu _ _ _ _ _ Hinv) as Hq.
  assert (Hctx : exists found ro, fault_ctx k a x ft fa found ro /\
    (in_segment s0 fa || in_segment s1 fa = true -> ro = negb (writable (segment_of s0 s1 fa)))).
  { destruct Him as [A1 A2 A3 A4 A5 A6 A7 A8]. destruct Hmap as [(Hin & _)|(Hn0 & Hn1 & Hst)].
    - exists true, (negb (writable (segment_of s0 s1 fa))). split; [|done]. split; try done; [|by left].
      intros k0. by apply find_segment_in.
    - exists false, false. split; [|by rewrite Hn0, Hn1]. split; try done; [|by right].
      intros k0. unfold find_segment. msimpl. by rewrite A6, Hn0, A7, Hn1. }
  destruct Hctx as (found & ro & Hctx & Hro).
  change (vm_fault (S (S d)) ft fa k) with (vm_fault_with (load_page (vm_fault (S d))) ft fa k).
  rewrite (vm_fault_checks _ k a x ft fa found ro Hq Hctx).
  pose proof (pt_get_frame_new d k t m bs sw a x s0 s1 fl fa Hinv Him Hidx Hfa Hmap Hp Hz Hl Hpt Hok Hmiss Hnv) as Hget.
  unfold wps in Hget. unfold mbind, M_bind.
  destruct (pt_get_frame_from_page _ (page_table x) fa k) as [[err pa] k1| | | | |]; try done; [|by destruct Hget as [-> _]].
  destruct Hget as [Herr Hres]. simpl in Herr, Hres.
  destruct (Z.eqb_spec err 0) as [E|E]; cbn [negb]; [|simpl; by destruct Herr].
  destruct (Hres E) as (t1 & m1 & bs1 & sw1 & f & -> & [L1 L2 L3 L4 L5 L6 L7 L8 L9 L10 L11]).
  assert (Hff : fetched_frame k1 t1 m1 (addr_pte (page_table x) fa) f).
  { pose proof (owned_above _ _ _ _ _ _ (inv_cm _ _ _ _ _ L1) L3 eq_refl).
    pose proof (wf_pages _ _ _ (inv_cm _ _ _ _ _ L1)). eexists. split_and!; [exact L2|exact L3|done|done|lia..]. }
  destruct (install_post k1 t1 m1 bs1 sw1 a (with_index 0 x) (page_table x) fa f ro L1 L9 Hfa L6 L7 L8 Hff)
    as (k2 & m2 & Hrun & Hpost2 & Hok2 & Hmaps & _ & Hm2 & s & Hs & Hst).
  rewrite Hrun. split; [done|]. exists t1, m2, bs1, sw1, f. destruct Hpost2 as [Hinv2 _ Hd2 _ _].
  simpl in Hmaps, Hm2. rewrite andb_true_r in Hmaps.
  split; [by eapply vm_inv_tlb|]. split; [done|]. split; [done|]. split.
  { intros Hso. destruct (L11 Hso) as (c & Hc & Hfe). rewrite Hst. by apply (stats_ok_fault c). }
  split.
  { specialize (Hd2 (addr_pte (page_table x) fa)). unfold page_data in Hd2. rewrite L2 in Hd2. cbn in Hd2.
    injection Hd2 as Hd2. rewrite <- L4, <- Hd2. done. }
  split; [|split; [|done]].
  - intros q Hq'. rewrite <- L5 by done. by rewrite <- Hd2.
  - exists ro. by split.
Qed.

Lemma fault_outcome_mono (k : kstate) (t : gmap pteptr pt_entry) (sw : swap_file) (pt fa : Z) (P Q : kstate -> gmap pteptr pt_entry -> gmap Z cm_entry -> swap_file -> Z -> Prop) o :
  fault_outcome k t sw pt fa P o -> (forall k' t' m' sw' f, P k' t' m' sw' f -> Q k' t' m' sw' f) -> fault_outcome k t sw pt fa Q o.
Proof. unfold fault_outcome. destruct o; try done. intros [-> (t1 & m1 & bs1 & sw1 & f1 & H1 & H2 & H3 & H4 & H5)] HPQ. split; [done|]. exists t1, m1, bs1, sw1, f1. exact (conj H1 (conj H2 (conj H3 (conj H4 (HPQ _ _ _ _ _ H5))))). Qed.

(** ** The layout of the executable *)

(** The file is there and its bytes are [image]. *)
Definition byte_file (fl : vfile) (image : list Z) : Prop :=
  forall o n, 0 <= o -> 0 <= n -> vop_read fl o n = (0, take (Z.to_nat n) (drop (Z.to_nat o) image)).

Definition covers (s : segment) (a : Z) : Prop := p_vaddr s <= a < p_vaddr s + p_memsz s.
#[local] Instance covers_dec s a : Decision (covers s a).
Proof. unfold covers. apply _. Defined.
Definition seg_fits (s : segment) : Prop := 0 <= p_vaddr s + p_memsz s < 2 ^ 32.

(** The segment an address belongs to; none: the stack. *)
Definition owner (s0 s1 : segment) (fa : Z) : option segment :=
  if decide (covers s0 fa) then Some s0 else if decide (covers s1 fa) then Some s1 else None.

(** The initial byte at address [a]: that of the file where the segment has one, else 0. *)
Definition initial_byte (s : segment) (image : list Z) (a : Z) : Z :=
  if decide (covers s a) then
    let off := p_file_start s + (a - p_vaddr s) in
    if decide (off < p_file_end s) then default 0 (image !! Z.to_nat off) else 0
  else 0.
Definition initial_page (o : option segment) (image : list Z) (fa : Z) : page :=
  map (fun i => match o with Some s => initial_byte s image (fa / PAGE_SIZE * PAGE_SIZE + i) | None => 0 end) (seqZ 0 PAGE_SIZE).

Lemma in_segment_covers s a : seg_fits s -> in_segment s a = true <-> covers s a.
Proof. intros Hs. unfold in_segment, covers. rewrite andb_true_iff, Z.leb_le, Z.ltb_lt, u32_small by exact Hs. done. Qed.

Lemma owner_segment s0 s1 fa : seg_fits s0 -> seg_fits s1 ->
  match owner s0 s1 fa with
  | Some s => (in_segment s0 fa = true \/ in_segment s1 fa = true) /\ segment_of s0 s1 fa = s /\ covers s fa
  | None => in_segment s0 fa = false /\ in_segment s1 fa = false
  end.
Proof.
  intros H0 H1. pose proof (in_segment_covers s0 fa H0) as E0. pose proof (in_segment_covers s1 fa H1) as E1. unfold owner, segment_of.
  destruct (decide (covers s0 fa)); [rewrite (proj2 E0) by done; by split; [left|]|]. assert (in_segment s0 fa = false) as -> by (destruct (in_segment s0 fa); naive_solver).
  destruct (decide (covers s1 fa)); [rewrite (proj2 E1) by done; by split; [right|]|]. split; [done|]. destruct (in_segment s1 fa); naive_solver.
Qed.

Lemma initial_page_lookup o image fa i : 0 <= i < PAGE_SIZE ->
  initial_page o image fa !! Z.to_nat i = Some (match o with Some s => initial_byte s image (fa / PAGE_SIZE * PAGE_SIZE + i) | None => 0 end).
Proof.
  intros Hi. unfold initial_page. rewrite list_lookup_fmap, lookup_seqZ_lt by lia. cbn [fmap option_fmap option_map]. by replace (0 + Z.of_nat (Z.to_nat i)) with i by lia.
Qed.

Lemma zero_page_lookup i : 0 <= i < PAGE_SIZE -> zero_page !! Z.to_nat i = Some 0.
Proof. intros Hi. apply lookup_replicate_2. unfold PAGE_SIZE in Hi. lia. Qed.

Lemma page_ext (p q : page) : length p = Z.to_nat PAGE_SIZE -> length q = Z.to_nat PAGE_SIZE -> (forall i, 0 <= i < PAGE_SIZE -> p !! Z.to_nat i = q !! Z.to_nat i) -> p = q.
Proof.
  intros Hp Hq H. apply list_eq. intros i. destruct (decide (i < Z.to_nat PAGE_SIZE)%nat) as [Hi|Hi].
  - rewrite <- (Nat2Z.id i). apply H. lia.
  - rewrite !lookup_ge_None_2 by lia. done.
Qed.

Lemma page_write_lookup (p : page) off bs i : 0 <= off -> 0 <= i < PAGE_SIZE -> off + Z.of_nat (length bs) <= PAGE_SIZE -> length p = Z.to_nat PAGE_SIZE ->
  page_write p off bs !! Z.to_nat i = if decide (off <= i < off + Z.of_nat (length bs)) then bs !! Z.to_nat (i - off) else p !! Z.to_nat i.
Proof.
  intros Ho Hi Hl Hp. unfold page_write. assert (Hk : length (take (Z.to_nat off) p) = Z.to_nat off) by (rewrite length_take; lia). case_decide as Hd.
  - rewrite lookup_app_r by lia. rewrite lookup_app_l by lia. f_equal. lia.
  - destruct (decide (i < off)); [rewrite lookup_app_l by lia; apply lookup_take_lt; lia|]. rewrite lookup_app_r by lia. rewrite lookup_app_r by lia. rewrite lookup_drop. f_equal. lia.
Qed.

Lemma length_page_write (p : page) off bs : 0 <= off -> off + Z.of_nat (length bs) <= PAGE_SIZE -> length p = Z.to_nat PAGE_SIZE -> length (page_write p off bs) = Z.to_nat PAGE_SIZE.
Proof. intros Ho Hl Hp. unfold page_write. rewrite !length_app, length_take, length_drop. lia. Qed.

(** The loader reads the bytes the layout asks for. *)
Lemma first_contents_layout s0 s1 fl image fa :
  seg_fits s0 -> seg_fits s1 -> byte_file fl image ->
  match owner s0 s1 fa with Some s => seg_wf s /\ p_file_end s <= Z.of_nat (length image) | None => True end ->
  first_contents s0 s1 fl fa = initial_page (owner s0 s1 fa) image fa.
Proof.
  intros H0 H1 Hfl Ho. pose proof (owner_segment s0 s1 fa H0 H1) as Hw. assert (Hz : length zero_page = Z.to_nat PAGE_SIZE) by apply length_replicate.
  assert (Hi : forall o, length (initial_page o image fa) = Z.to_nat PAGE_SIZE) by (intros o; unfold initial_page; by rewrite length_map, length_seqZ).
  unfold first_contents. destruct (owner s0 s1 fa) as [s|].
  2: { destruct Hw as [-> ->]. apply page_ext; [done|done|]. intros i Hr. rewrite initial_page_lookup, zero_page_lookup by done. done. }
  destruct Hw as (Hin & Hs & Hc). destruct Ho as [Hwf Hend]. assert (in_segment s0 fa || in_segment s1 fa = true) as -> by (apply orb_true_iff; done). rewrite Hs.
  assert (Hin' : in_segment s fa = true) by (rewrite <- Hs; unfold segment_of; destruct (in_segment s0 fa) eqn:E; [done|by destruct Hin]).
  pose proof (load_extent_spec s fa Hwf Hin') as Hx. cbv zeta in Hx. set (b := fa / PAGE_SIZE * PAGE_SIZE).
  assert (Hpage : forall i, 0 <= i < PAGE_SIZE -> (b + i) / PAGE_SIZE = fa / PAGE_SIZE) by (intros i Hr; unfold b; rewrite Z.div_add_l by done; rewrite (Z.div_small i) by done; lia).
  destruct (load_extent s fa) as [e|] eqn:Ee.
  - destruct Hx as (Hmem & Hfile & Hoff & Hsz & Hms). destruct (extent_page s fa e Hwf Hin' Ee) as (Hv & _ & Hpg & _ & Hroom & _).
    destruct Hwf as (W1 & W2 & W3 & W4 & W5 & W6). destruct (proj1 (Hmem (x_vaddr e)) ltac:(lia)) as [_ Hcv].
    rewrite (Hfl (x_offset e) (x_fsize e)) by lia. cbn [snd]. set (data := take _ _). pose proof (Z.div_mod (x_vaddr e) PAGE_SIZE ltac:(done)) as Hdm. pose proof (Z.mod_pos_bound (x_vaddr e) PAGE_SIZE ltac:(done)) as Hmb. rewrite Hpg in Hdm.
    assert (Hlast : p_file_start s + (x_vaddr e + x_fsize e - 1 - p_vaddr s) < p_file_end s) by (destruct (proj1 (Hfile (x_vaddr e + x_fsize e - 1)) ltac:(lia)) as [_ [_ ?]]; done).
    assert (Hlen : Z.of_nat (length data) = x_fsize e) by (unfold data; rewrite length_take, length_drop; lia).
    assert (Hb : x_vaddr e = b + x_vaddr e mod PAGE_SIZE) by (unfold b; lia).
    apply page_ext; [apply length_page_write; [lia|rewrite Hpg in Hroom; unfold b in Hb; lia|done]|done|].
    intros i Hr. rewrite initial_page_lookup by done. rewrite page_write_lookup; [|lia|done|rewrite Hpg in Hroom; unfold b in Hb; lia|done]. fold b. rewrite Hlen. unfold initial_byte.
    assert (Hiff : x_vaddr e <= b + i < x_vaddr e + x_fsize e <-> covers s (b + i) /\ p_file_start s + (b + i - p_vaddr s) < p_file_end s).
    { rewrite Hfile. unfold covers. pose proof (Hpage i Hr). tauto. }
    case_decide as Hd.
    + destruct (proj1 Hiff) as [Hc1 Hc2]; [lia|]. rewrite decide_True by done. rewrite decide_True by done. unfold data. rewrite lookup_take_lt by lia. rewrite lookup_drop.
      replace (Z.to_nat (x_offset e) + Z.to_nat (i - x_vaddr e mod PAGE_SIZE))%nat with (Z.to_nat (p_file_start s + (b + i - p_vaddr s))) by (unfold covers in Hc1; lia).
      destruct (lookup_lt_is_Some_2 image (Z.to_nat (p_file_start s + (b + i - p_vaddr s)))) as [c ->]; [unfold covers in Hc1; lia|done].
    + rewrite zero_page_lookup by done. case_decide as Hc1; [|done]. rewrite decide_False; [done|]. intros Hc2. apply Hd. destruct (proj2 Hiff (conj Hc1 Hc2)). lia.
  - apply page_ext; [done|done|]. intros i Hr. rewrite initial_page_lookup, zero_page_lookup by done. fold b. unfold initial_byte. case_decide as Hc1; [|done]. rewrite decide_False; [done|]. intros Hc2. by apply (Hx (b + i) (Hpage i Hr) Hc1).
Qed.

Lemma owner_mapped s0 s1 fl image fa :
  seg_fits s0 -> seg_fits s1 -> byte_file fl image ->
  match owner s0 s1 fa with Some s => seg_wf s /\ p_file_end s <= Z.of_nat (length image) | None => PROJECT_STACK_MIN_ADDRESS <= fa end -> mapped s0 s1 fl fa.
Proof.
  intros H0 H1 Hfl Ho. pose proof (owner_segment s0 s1 fa H0 H1) as Hw. destruct (owner s0 s1 fa) as [s|]; [left|right; by destruct Hw]. destruct Hw as (Hin & -> & Hc). destruct Ho as [Hwf Hend]. split; [done|]. split; [done|]. intros e Ee.
  assert (Hin' : in_segment s fa = true) by (unfold in_segment; destruct Hc; destruct Hwf as (? & ? & Hs & ?); unfold PROJECT_STACK_MIN_ADDRESS, USERSTACK, MIPS_KSEG0, PAGE_SIZE in Hs; rewrite u32_small by lia; apply andb_true_iff; rewrite Z.leb_le, Z.ltb_lt; lia).
  pose proof (load_extent_spec s fa Hwf Hin') as Hx. rewrite Ee in Hx. cbv zeta in Hx. destruct Hx as (Hmem & Hfile & Hoff & Hsz & Hms). destruct Hwf as (W1 & W2 & W3 & W4 & W5 & W6). destruct (proj1 (Hmem (x_vaddr e)) ltac:(lia)) as [_ Hcv].
  destruct (proj1 (Hfile (x_vaddr e + x_fsize e - 1)) ltac:(lia)) as [_ [_ Hlast]]. eexists. split; [apply Hfl; lia|]. rewrite length_take, length_drop. lia.
Qed.

(** C6: demand paging.  The first access to a page of a running process, in one of its
    segments or in its stack, brings the page in: the handler returns (two levels of
    nesting are enough) with the page in a frame in which every address of the page that the
    segment has in the file holds the byte of the file at its place in the segment, and every
    other address holds zero; the page is translated by the TLB (writable only if the
    segment is), every other page of every process is as before, the frame is up for
    replacement, the invariants and the statistics identities are kept; otherwise memory ran
    out and the process is killed, or the swap file is full and the kernel stops.  The
    executable is a file that can be read, its segments are well formed and in the file, and
    the process is not already loading a page ([as_index] is 0). *)
Theorem vm_fault_first_touch d k t m bs sw a x s0 s1 fl image ft fa :
  vm_inv k t m bs sw -> proc_image k a x s0 s1 fl -> as_index x = 0 -> 0 < fa < MIPS_KSEG0 ->
  seg_fits s0 -> seg_fits s1 -> byte_file fl image ->
  match owner s0 s1 fa with
  | Some s => seg_wf s /\ p_file_end s <= Z.of_nat (length image)
  | None => PROJECT_STACK_MIN_ADDRESS <= fa
  end ->
  (ft = VM_FAULT_READ \/ ft = VM_FAULT_WRITE) ->
  t !! addr_pte (page_table x) fa = None -> pte_at k (addr_pte (page_table x) fa) = zero_pte ->
  s_lock (k_sync k) !! page_table x = Some None -> page_table x <> swap_lock ->
  tlb_ok (page_table x) (k_tlb k) t -> tlb_miss (k_tlb k) (Z.land fa PAGE_FRAME) ->
  0 <= next_victim (k_tlb k) < NUM_TLB ->
  fault_outcome k t sw (page_table x) fa (fun k' t' m' sw' f =>
    frame_data k' f = initial_page (owner s0 s1 fa) image fa /\
    (forall q, q <> addr_pte (page_table x) fa -> page_data k' t' sw' q = page_data k t sw q) /\
    (exists ro, tlb_maps (k_tlb k') (Z.land fa PAGE_FRAME) (entry_lo f ro) /\
       (forall s, owner s0 s1 fa = Some s -> ro = negb (writable s))) /\
    m' !! f = Some (mk_cm true false 1 (Some (addr_pte (page_table x) fa))))
    (vm_fault (S (S d)) ft fa k).
Proof.
  intros Hinv Him Hidx Hfa H0 H1 Hfl Ho Hty Hp Hz Hl Hpt Hok Hmiss Hnv.
  pose proof (first_touch_loads d k t m bs sw a x s0 s1 fl ft fa Hinv Him Hidx Hfa (owner_mapped s0 s1 fl image fa H0 H1 Hfl Ho) Hty Hp Hz Hl Hpt Hok Hmiss Hnv) as H.
  rewrite (first_contents_layout s0 s1 fl image fa H0 H1 Hfl) in H by (destruct (owner s0 s1 fa); done). eapply fault_outcome_mono; [exact H|].
  intros k' t' m' sw' f (Hc & Hd & (ro & Hm & Hro) & Hf). split; [done|]. split; [done|]. split; [|done]. exists ro. split; [done|]. intros s Es.
  pose proof (owner_segment s0 s1 fa H0 H1) as Hw. rewrite Es in Hw. destruct Hw as (Hin & <- & _). apply Hro. by apply orb_true_iff.
Qed.

End FirstTouch.

(** ** Witness *)

Import Replacement.

(** A program with a text segment of one page and a half, all of the first page of it and part
    of the second in the file. *)
Definition program : list Z := map (fun i => Z.of_nat i mod 251) (seq 0 5000).
Definition text_seg : segment := mk_seg 0x400010 100 5000 6000 true false true.
Definition data_seg : segment := mk_seg 0x10000000 5000 5000 4096 true true false.
Definition program_as : addrspace :=
  mk_as (VN := mem_vnode) {[ 0 := text_seg; 1 := data_seg ]} 0 (Some program) true 1.
Definition program_state : kstate := set_as (mk_as_st {[ 5 := program_as ]} (Some (Some 5)) true) boot_state.

(** The second page of the text: its bytes begin at offset 100 + 4096 - 16 of the file. *)
Lemma vm_fault_first_touch_witness :
  fault_outcome program_state ∅ boot_swap 1 0x401020 (fun k' t' m' sw' f =>
    frame_data k' f = take 820 (drop 4180 program) ++ replicate 3276 0 /\
    (forall q, q <> addr_pte 1 0x401020 -> page_data k' t' sw' q = page_data program_state ∅ boot_swap q) /\
    (exists ro, tlb_maps (k_tlb k') (Z.land 0x401020 PAGE_FRAME) (entry_lo f ro) /\
       (forall s, Some text_seg = Some s -> ro = negb (writable s))) /\
    m' !! f = Some (mk_cm true false 1 (Some (addr_pte 1 0x401020))))
    (vm_fault 2 VM_FAULT_READ 0x401020 program_state).
Proof.
  assert (Eo : Some text_seg = owner text_seg data_seg 0x401020) by (vm_compute; reflexivity).
  assert (Ei : take 820 (drop 4180 program) ++ replicate 3276 0 = initial_page (Some text_seg) program 0x401020) by (vm_compute; reflexivity).
  rewrite Ei, Eo.
  apply (vm_fault_first_touch 0 program_state ∅ boot_map (boot_layout 1 4) boot_swap 5 program_as
           text_seg data_seg program program VM_FAULT_READ 0x401020).
  - apply vm_inv_as, boot_inv.
  - by split.
  - reflexivity.
  - by split.
  - by split.
  - by split.
  - intros o n _ _. reflexivity.
  - rewrite <- Eo. split; [split_and!; vm_compute; congruence|vm_compute; congruence].
  - by left.
  - reflexivity.
  - reflexivity.
  - reflexivity.
  - done.
  - apply tlb_ok_none, no_slots.
  - by intros i _ ?%no_slots_valid.
  - clear. split; [discriminate|reflexivity].
Defined.

End FirstTouch.
