(* ===== verification/Proc.v ===== *)
(** * Processes: kern/proc/proc.c, kern/syscall/proc_syscalls.c, and the thread life
    cycle of kern/thread/thread.c

    [struct proc] and [struct thread] objects live in heaps; a pointer is a number and 0
    is NULL.  The rest of the kernel is the state of KState.v.  The VM system sees the
    address space of the current process as [curproc_as]; here that field is recomputed
    from [curproc->p_addrspace] whenever one of the two changes. *)

From S2P Require Import Prelude Cpu Synch KState Stats Tlb Swap Coremap Blocks Paging Kpages PageTable.
From S2P Require Import Replacement PageIn UserMem AddrSpace Loader VmFault.

Module Proc.
Import Cpu Synch KState Stats Tlb Swap Coremap Kpages PageTable UserMem AddrSpace Loader VmFault.

Definition MAX_PROC : Z := 100.

(** struct proc *)
Record proc := mk_proc {
  p_name : string;
  p_numthreads : Z;
  p_addrspace : Z;
  p_cwd : Z;                      (* a vnode *)
  p_status : Z;
  p_pid : Z;
  p_sem : Z
}.

(** struct thread: its process, and for a forked thread the trap frame it starts from. *)
Record thread := mk_thread {
  t_proc : Z;
  t_start : option (list Z)
}.

Section Ops.
Context `{VN : Vnode}.

Record pstate := mk_p {
  p_k : kstate;
  proc_heap : gmap Z proc;
  thread_heap : gmap Z thread;
  proc_tab : gmap Z Z;            (* processTable.proc[0 .. MAX_PROC] *)
  last_i : Z;                     (* processTable.last_i *)
  tab_active : Z;                 (* processTable.active *)
  kproc : Z;
  vrefs : gmap Z Z;               (* vn_refcount of directories *)
  zombies : list Z                (* curcpu->c_zombies *)
}.

Definition set_k (k : kstate) (s : pstate) : pstate :=
  mk_p k (proc_heap s) (thread_heap s) (proc_tab s) (last_i s) (tab_active s) (kproc s) (vrefs s) (zombies s).
Definition set_tab (t : gmap Z Z) (last : Z) (s : pstate) : pstate :=
  mk_p (p_k s) (proc_heap s) (thread_heap s) t last (tab_active s) (kproc s) (vrefs s) (zombies s).
Definition set_vrefs (v : gmap Z Z) (s : pstate) : pstate :=
  mk_p (p_k s) (proc_heap s) (thread_heap s) (proc_tab s) (last_i s) (tab_active s) (kproc s) v (zombies s).
Definition set_zombies (z : list Z) (s : pstate) : pstate :=
  mk_p (p_k s) (proc_heap s) (thread_heap s) (proc_tab s) (last_i s) (tab_active s) (kproc s) (vrefs s) z.

(** [curthread->t_proc] *)
Definition curthread_of (s : pstate) : Z := curthread (s_cpu (k_sync (p_k s))).
Definition curproc_of (s : pstate) : Z := default 0 (t_proc <$> thread_heap s !! curthread_of s).

(** What [proc_getas] finds. *)
Definition seen_as (s : pstate) : option (option Z) :=
  if curproc_of s =? 0 then None
  else Some (match proc_heap s !! curproc_of s with
             | Some p => if p_addrspace p =? 0 then None else Some (p_addrspace p)
             | None => None
             end).

Definition refresh (s : pstate) : pstate :=
  set_k (set_as (mk_as_st (as_heap (k_as (p_k s))) (seen_as s) (vm_inited (k_as (p_k s)))) (p_k s)) s.

Definition set_procs (h : gmap Z proc) (s : pstate) : pstate :=
  refresh (mk_p (p_k s) h (thread_heap s) (proc_tab s) (last_i s) (tab_active s) (kproc s) (vrefs s) (zombies s)).
Definition set_threads (h : gmap Z thread) (s : pstate) : pstate :=
  refresh (mk_p (p_k s) (proc_heap s) h (proc_tab s) (last_i s) (tab_active s) (kproc s) (vrefs s) (zombies s)).

#[refine, export] Instance p_k_lens : Lens pstate kstate := { lens_get := p_k; lens_set := set_k }.
Proof. all: by intros; destruct s. Defined.

#[refine, export] Instance p_sync_lens : Lens pstate sync := {
  lens_get := fun s => k_sync (p_k s); lens_set := fun v s => set_k (set_sync v (p_k s)) s
}.
Proof. all: by intros; destruct s as [[]]. Defined.

#[refine, export] Instance p_cpu_lens : Lens pstate cpu := {
  lens_get := fun s => s_cpu (k_sync (p_k s));
  lens_set := fun c s => set_k (set_sync (lens_set c (k_sync (p_k s))) (p_k s)) s
}.
Proof. all: by intros; destruct s as [[[]]]. Defined.

Definition get_proc (p : Z) : M pstate proc := s ← get; deref (proc_heap s !! p).
Definition upd_proc (p : Z) (f : proc -> proc) : M pstate unit :=
  x ← get_proc p;
  modify (fun s => set_procs (<[p := f x]> (proc_heap s)) s).
Definition get_thread (t : Z) : M pstate thread := s ← get; deref (thread_heap s !! t).
Definition set_t_proc (t p : Z) : M pstate unit :=
  x ← get_thread t;
  modify (fun s => set_threads (<[t := mk_thread p (t_start x)]> (thread_heap s)) s).

Definition p_lock (p : Z) : splid := ("p_lock", p).
Definition table_lk : splid := ("processTable.lk", 0).
Definition vn_countlock (v : Z) : splid := ("vn_countlock", v).

(** ** Directory references: kern/vfs/vnode.c *)

Definition vnode_incref (v : Z) : M pstate unit :=
  _ ← KASSERT (negb (v =? 0));
  _ ← zoom (spinlock_acquire (vn_countlock v));
  s ← get;
  n ← deref (vrefs s !! v);
  _ ← modify (fun s => set_vrefs (<[v := n + 1]> (vrefs s)) s);
  zoom (spinlock_release (vn_countlock v)).

(** The last reference is passed to the file system, which reclaims the vnode. *)
Definition vnode_decref (v : Z) : M pstate unit :=
  _ ← KASSERT (negb (v =? 0));
  _ ← zoom (spinlock_acquire (vn_countlock v));
  s ← get;
  n ← deref (vrefs s !! v);
  _ ← KASSERT (0 <? n);
  _ ← modify (fun s => if 1 <? n then set_vrefs (<[v := n - 1]> (vrefs s)) s
                       else set_vrefs (delete v (vrefs s)) s);
  zoom (spinlock_release (vn_countlock v)).

(** ** Pids *)

Definition proc_search_pid (pid : Z) : M pstate Z :=
  _ ← KASSERT ((0 <=? pid) && (pid <? MAX_PROC));
  s ← get;
  p ← deref (proc_tab s !! pid);
  x ← get_proc p;
  _ ← KASSERT (p_pid x =? pid);
  mret p.

(** [i++; if (i > MAX_PROC) i = 1;] *)
Definition next_pid (i : Z) : Z := if MAX_PROC <? i + 1 then 1 else i + 1.

(** The circular search of [proc_init_waitpid]. *)
Fixpoint pid_loop (fuel : nat) (i : Z) : M pstate (option Z) :=
  match fuel with
  | O => out_of_fuel
  | S fuel' =>
      s ← get;
      if i =? last_i s then mret None
      else
        p ← deref (proc_tab s !! i);
        if p =? 0 then mret (Some i) else pid_loop fuel' (next_pid i)
  end.

Definition with_pid (pid : Z) (x : proc) : proc :=
  mk_proc (p_name x) (p_numthreads x) (p_addrspace x) (p_cwd x) (p_status x) pid (p_sem x).
Definition with_status (st : Z) (x : proc) : proc :=
  mk_proc (p_name x) (p_numthreads x) (p_addrspace x) (p_cwd x) st (p_pid x) (p_sem x).
Definition with_sem (sem : Z) (x : proc) : proc :=
  mk_proc (p_name x) (p_numthreads x) (p_addrspace x) (p_cwd x) (p_status x) (p_pid x) sem.
Definition with_threads (n : Z) (x : proc) : proc :=
  mk_proc (p_name x) n (p_addrspace x) (p_cwd x) (p_status x) (p_pid x) (p_sem x).
Definition with_as (a : Z) (x : proc) : proc :=
  mk_proc (p_name x) (p_numthreads x) a (p_cwd x) (p_status x) (p_pid x) (p_sem x).
Definition with_cwd (v : Z) (x : proc) : proc :=
  mk_proc (p_name x) (p_numthreads x) (p_addrspace x) v (p_status x) (p_pid x) (p_sem x).

(** [sem]: the semaphore [sem_create] allocates, 0 when it cannot (not checked). *)
Definition proc_init_waitpid (p sem : Z) : M pstate unit :=
  _ ← zoom (spinlock_acquire table_lk);
  s ← get;
  _ ← upd_proc p (with_pid 0);
  r ← pid_loop (Z.to_nat MAX_PROC + 1) (next_pid (last_i s));
  _ ← match r with
      | Some i =>
          _ ← modify (fun s => set_tab (<[i := p]> (proc_tab s)) i s);
          upd_proc p (with_pid i)
      | None => mret tt
      end;
  _ ← zoom (spinlock_release table_lk);
  x ← get_proc p;
  if p_pid x =? 0 then panic "too many processes. proc table is full" else
  _ ← upd_proc p (with_status 0);
  _ ← zoom (sem_create (negb (sem =? 0)) sem 0);
  upd_proc p (with_sem sem).

Definition proc_end_waitpid (p : Z) : M pstate unit :=
  _ ← zoom (spinlock_acquire table_lk);
  x ← get_proc p;
  let i := p_pid x in
  _ ← KASSERT ((0 <? i) && (i <=? MAX_PROC));
  _ ← modify (fun s => set_tab (<[i := 0]> (proc_tab s)) (last_i s) s);
  _ ← zoom (spinlock_release table_lk);
  zoom (sem_destroy (p_sem x)).

(** ** Creation and destruction *)

(** [mem]: the address and old contents of what [kmalloc] returns, or NULL; [okname]:
    [kstrdup] succeeds. *)
Definition proc_create (name : string) (mem : option (Z * proc)) (okname : bool) (sem : Z) : M pstate Z :=
  match mem with
  | None => mret 0
  | Some (p, junk) =>
      if negb okname then mret 0 else
      _ ← modify (fun s => set_procs
            (<[p := mk_proc name 0 0 0 (p_status junk) (p_pid junk) (p_sem junk)]> (proc_heap s)) s);
      _ ← zoom (spinlock_init (p_lock p));
      _ ← proc_init_waitpid p sem;
      mret p
  end.

Definition proc_setas (newas : Z) : M pstate Z :=
  s ← get;
  let p := curproc_of s in
  _ ← KASSERT (negb (p =? 0));
  _ ← zoom (spinlock_acquire (p_lock p));
  x ← get_proc p;
  _ ← upd_proc p (with_as newas);
  _ ← zoom (spinlock_release (p_lock p));
  mret (p_addrspace x).

(** The address space of [p] is detached, then destroyed. *)
Definition release_as (p : Z) : M pstate unit :=
  x ← get_proc p;
  if p_addrspace x =? 0 then mret tt else
  s ← get;
  a ← (if p =? curproc_of s then
         a ← proc_setas 0;
         _ ← zoom as_deactivate;
         mret a
       else
         _ ← upd_proc p (with_as 0);
         mret (p_addrspace x));
  zoom (as_destroy a).

Definition proc_destroy (p : Z) : M pstate unit :=
  _ ← KASSERT (negb (p =? 0));
  s ← get;
  _ ← KASSERT (negb (p =? kproc s));
  x ← get_proc p;
  _ ← (if p_cwd x =? 0 then mret tt
       else _ ← vnode_decref (p_cwd x); upd_proc p (with_cwd 0));
  _ ← release_as p;
  x ← get_proc p;
  _ ← KASSERT (p_numthreads x =? 0);
  _ ← zoom (spinlock_cleanup (p_lock p));
  _ ← proc_end_waitpid p;
  modify (fun s => set_procs (delete p (proc_heap s)) s).

Definition proc_bootstrap (mem : option (Z * proc)) (okname : bool) (sem : Z) : M pstate unit :=
  p ← proc_create "[kernel]" mem okname sem;
  if p =? 0 then panic "proc_create for kproc failed" else
  _ ← modify (fun s => mk_p (p_k s) (proc_heap s) (thread_heap s) (proc_tab s) (last_i s) 1 p (vrefs s) (zombies s));
  zoom (spinlock_init table_lk).

Definition proc_create_runprogram (name : string) (mem : option (Z * proc)) (okname : bool) (sem : Z)
    : M pstate Z :=
  p ← proc_create name mem okname sem;
  if p =? 0 then mret 0 else
  _ ← upd_proc p (with_as 0);
  s ← get;
  let cur := curproc_of s in
  _ ← zoom (spinlock_acquire (p_lock cur));
  x ← get_proc cur;
  _ ← (if p_cwd x =? 0 then mret tt
       else _ ← vnode_incref (p_cwd x); upd_proc p (with_cwd (p_cwd x)));
  _ ← zoom (spinlock_release (p_lock cur));
  mret p.

(** ** Threads of a process *)

Definition proc_addthread (p t : Z) : M pstate Z :=
  x ← get_thread t;
  _ ← KASSERT (t_proc x =? 0);
  _ ← zoom (spinlock_acquire (p_lock p));
  _ ← upd_proc p (fun x => with_threads (u32 (p_numthreads x + 1)) x);
  _ ← zoom (spinlock_release (p_lock p));
  spl ← zoom splhigh;
  _ ← set_t_proc t p;
  _ ← zoom (splx spl);
  mret 0.

Definition proc_remthread (t : Z) : M pstate unit :=
  x ← get_thread t;
  let p := t_proc x in
  _ ← KASSERT (negb (p =? 0));
  _ ← zoom (spinlock_acquire (p_lock p));
  y ← get_proc p;
  _ ← KASSERT (0 <? p_numthreads y);
  _ ← upd_proc p (fun x => with_threads (p_numthreads x - 1) x);
  _ ← zoom (spinlock_release (p_lock p));
  spl ← zoom splhigh;
  _ ← set_t_proc t 0;
  _ ← zoom (splx spl);
  mret tt.

(** thread.c.  The stack guard words are not modelled.  [mem]: the thread structure, or
    NULL when it or its name cannot be allocated; [okstack]: the stack can be. *)
Definition thread_fork (p : Z) (start : option (list Z)) (mem : option Z) (okstack : bool) : M pstate Z :=
  match mem with
  | None => mret ENOMEM
  | Some t =>
      if negb okstack then mret ENOMEM else
      _ ← modify (fun s => set_threads (<[t := mk_thread 0 start]> (thread_heap s)) s);
      s ← get;
      let p := if p =? 0 then curproc_of s else p in
      result ← proc_addthread p t;
      if negb (result =? 0) then
        _ ← modify (fun s => set_threads (delete t (thread_heap s)) s); mret result
      else
        _ ← zoom (thread_make_runnable t);
        mret 0
  end.

(** Detaches from the process and becomes a zombie; the CPU goes to another thread. *)
Definition thread_exit {A} (code : Z) : M pstate A :=
  s ← get;
  let cur := curthread_of s in
  x ← get_thread cur;
  _ ← when (negb (t_proc x =? 0)) (proc_remthread cur);
  x ← get_thread cur;
  _ ← KASSERT (t_proc x =? 0);
  _ ← zoom splhigh;
  _ ← zoom (spinlock_acquire runqueue_lock);
  _ ← modify (fun s => set_zombies (zombies s ++ [cur]) s);
  exited code.

(** [while ((z = threadlist_remhead(...)) != NULL)]; the state of a zombie is S_ZOMBIE. *)
Fixpoint exorcise_list (zs : list Z) : M pstate unit :=
  match zs with
  | [] => mret tt
  | z :: zs' =>
      s ← get;
      _ ← KASSERT (negb (z =? curthread_of s));
      x ← get_thread z;
      _ ← KASSERT (t_proc x =? 0);
      _ ← modify (fun s => set_threads (delete z (thread_heap s)) s);
      exorcise_list zs'
  end.

Definition exorcise : M pstate unit :=
  s ← get;
  _ ← exorcise_list (zombies s);
  modify (set_zombies []).

(** ** Waiting for a process *)

Definition proc_wait (p : Z) : M pstate Z :=
  _ ← KASSERT (negb (p =? 0));
  s ← get;
  _ ← KASSERT (negb (p =? kproc s));
  x ← get_proc p;
  _ ← zoom (P (p_sem x));
  x ← get_proc p;
  _ ← proc_destroy p;
  mret (p_status x).

Definition proc_signal_end (p : Z) : M pstate unit :=
  x ← get_proc p;
  zoom (V (p_sem x)).

(** ** System calls *)

Definition sys__exit {A} (status : Z) : M pstate A :=
  s ← get;
  let p := curproc_of s in
  _ ← upd_proc p (with_status (Z.land status 0xff));
  _ ← zoom as_deactivate;
  _ ← proc_remthread (curthread_of s);
  _ ← proc_signal_end p;
  thread_exit status.

(** [*(int * )statusp = s]: through the TLB below kseg0, straight to memory in it. *)
Definition be_bytes (v : Z) : list Z :=
  [Z.land (Z.shiftr v 24) 0xff; Z.land (Z.shiftr v 16) 0xff; Z.land (Z.shiftr v 8) 0xff; Z.land v 0xff].

Definition store_word (va v : Z) : M kstate unit :=
  if va <? MIPS_KSEG0 then
    err ← user_write (vm_fault 2) 2 va (be_bytes v);
    if negb (err =? 0) then panic "Fatal exception in kernel mode" else mret tt
  else
    k ← get;
    let f := kvaddr_frame va in
    write_frame f (page_write (frame_data k f) (va mod PAGE_SIZE) (be_bytes v)).

Definition sys_waitpid (pid statusp : Z) : M pstate Z :=
  p ← proc_search_pid pid;
  if p =? 0 then mret (-1) else
  st ← proc_wait p;
  _ ← when (negb (statusp =? 0)) (zoom (store_word statusp st));
  mret pid.

Definition sys_getpid : M pstate Z :=
  s ← get;
  _ ← KASSERT (negb (curproc_of s =? 0));
  x ← get_proc (curproc_of s);
  mret (p_pid x).

(** What the allocations of one [sys_fork] return. *)
Record fork_mem := mk_fork_mem {
  fm_proc : option (Z * proc);
  fm_name : bool;
  fm_sem : Z;
  fm_as : option (Z * addrspace);
  fm_pt : bool;
  fm_ptlock : bool;
  fm_tf : bool;
  fm_thread : option Z;
  fm_stack : bool
}.

(** The error, and the pid of the child.  [ctf]: the trap frame of the caller. *)
Definition sys_fork (ctf : list Z) (mem : fork_mem) : M pstate (Z * Z) :=
  s ← get;
  let cur := curproc_of s in
  _ ← KASSERT (negb (cur =? 0));
  x ← get_proc cur;
  newp ← proc_create_runprogram (p_name x) (fm_proc mem) (fm_name mem) (fm_sem mem);
  if newp =? 0 then mret (ENOMEM, 0) else
  r ← zoom (as_copy (p_addrspace x) (fm_as mem) (fm_pt mem) (fm_ptlock mem));
  _ ← upd_proc newp (with_as r.2);
  if r.2 =? 0 then _ ← proc_destroy newp; mret (ENOMEM, 0) else
  if negb (fm_tf mem) then _ ← proc_destroy newp; mret (ENOMEM, 0) else
  result ← thread_fork newp (Some ctf) (fm_thread mem) (fm_stack mem);
  if negb (result =? 0) then _ ← proc_destroy newp; mret (ENOMEM, 0) else
  y ← get_proc newp;
  mret (0, p_pid y).

(** [runprogram] up to the jump to user mode.  [opened]: the error and the file of
    [vfs_open].  The error, the entry point and the stack pointer. *)
Definition runprogram (opened : Z * option vfile) (mem : option (Z * addrspace)) (okpt okptlock : bool)
    : M pstate (Z * Z * Z) :=
  let '(result, file) := opened in
  if negb (result =? 0) then
    s ← get;
    x ← get_thread (curthread_of s);
    _ ← proc_remthread (curthread_of s);
    _ ← proc_signal_end (t_proc x);
    mret (result, 0, 0)
  else
  v ← deref file;
  cur ← zoom proc_getas;
  _ ← KASSERT (cur =? 0);
  a ← zoom (as_create mem okpt okptlock);
  if a =? 0 then mret (ENOMEM, 0, 0) else
  _ ← proc_setas a;
  _ ← zoom as_activate;
  r ← zoom (load_elf v);
  let '(result, entrypoint) := r in
  if negb (result =? 0) then mret (result, 0, 0) else
  d ← zoom (as_define_stack a);
  let '(result, stackptr) := d in
  if negb (result =? 0) then mret (result, 0, 0) else
  mret (0, entrypoint, stackptr).

End Ops.
End Proc.
