(* ===== verification/ProcTheory.v ===== *)
(** * Process identifiers, exit and wait: theorems on Proc.v *)

From S2P Require Import Prelude Cpu Synch KState Stats Tlb Swap Coremap Blocks Paging Kpages PageTable.
From S2P Require Import Replacement PageIn PtLife UserMem AddrSpace Loader VmFault Proc.

Module ProcTheory.
Import Cpu Synch KState Stats Tlb Swap Coremap Blocks Paging Kpages PageTable PageIn PtLife UserMem AddrSpace Loader VmFault Proc.

(** ** The circular order of pids *)

(** How far pid [i] is from the one after [last]. *)
Definition circ (last i : Z) : Z := (i - last - 1) mod MAX_PROC.

Lemma next_pid_circ last i :
  0 <= last <= MAX_PROC -> 1 <= i <= MAX_PROC -> i <> last -> (last = 0 -> i < MAX_PROC) ->
  1 <= next_pid i <= MAX_PROC /\ circ last (next_pid i) = circ last i + 1.
Proof.
  unfold next_pid, circ, MAX_PROC. intros Hl Hi Hne H0. destruct (Z.ltb_spec 100 (i + 1)).
  - split; [lia|]. assert (i = 100) as -> by lia.
    destruct (decide (last = 0)) as [->|]; [lia|].
    rewrite (Z.mod_small (100 - last - 1)) by lia.
    replace (1 - last - 1) with (100 - last + -1 * 100) by lia. rewrite Z.mod_add by lia.
    rewrite Z.mod_small by lia. lia.
  - split; [lia|]. destruct (decide (last < i)).
    + rewrite !Z.mod_small by lia. lia.
    + replace (i + 1 - last - 1) with (i - last + 100 + -1 * 100) by lia.
      replace (i - last - 1) with (i - last - 1 + 100 + -1 * 100) by lia.
      rewrite !Z.mod_add, !Z.mod_small by lia. lia.
Qed.

Lemma circ_range last i : 0 <= circ last i < MAX_PROC.
Proof. by apply Z.mod_pos_bound. Qed.

Lemma circ_first last : 0 <= last <= MAX_PROC -> circ last (next_pid last) = 0.
Proof.
  unfold circ, next_pid, MAX_PROC. intros Hl. destruct (Z.ltb_spec 100 (last + 1)).
  - by assert (last = 100) as -> by lia.
  - by replace (last + 1 - last - 1) with 0 by lia.
Qed.

Lemma circ_inj last i j :
  1 <= i <= MAX_PROC -> 1 <= j <= MAX_PROC -> circ last i = circ last j -> i = j.
Proof.
  unfold circ, MAX_PROC. intros Hi Hj Heq.
  pose proof (Z.div_mod (i - last - 1) 100 ltac:(lia)). pose proof (Z.div_mod (j - last - 1) 100 ltac:(lia)). lia.
Qed.

Lemma circ_last last i : 1 <= last <= MAX_PROC -> 1 <= i <= MAX_PROC -> circ last i = MAX_PROC - 1 <-> i = last.
Proof.
  unfold circ, MAX_PROC. intros Hl Hi. split; [|intros ->; by replace (last - last - 1) with (-1) by lia].
  intros Heq. pose proof (Z.div_mod (i - last - 1) 100 ltac:(lia)). lia.
Qed.

Section Theory.
Context `{VN : Vnode}.

(** ** The process table *)

Record ptab_wf (s : pstate) : Prop := mk_ptab {
  pt_dom : forall i, is_Some (proc_tab s !! i) <-> 0 <= i <= MAX_PROC;
  pt_last : 0 <= last_i s <= MAX_PROC;
  pt_start : last_i s = 0 -> forall i, 0 <= i <= MAX_PROC -> proc_tab s !! i = Some 0;
  pt_live : forall i p, proc_tab s !! i = Some p -> p <> 0 ->
    exists x, proc_heap s !! p = Some x /\ p_pid x = i;
  pt_reg : forall p x, proc_heap s !! p = Some x -> p <> 0 /\ 1 <= p_pid x /\ proc_tab s !! p_pid x = Some p
}.

(** No two live processes have the same pid. *)
Lemma pids_unique s p q x y :
  ptab_wf s -> proc_heap s !! p = Some x -> proc_heap s !! q = Some y -> p_pid x = p_pid y -> p = q.
Proof.
  intros Hwf Hx Hy He. destruct (pt_reg s Hwf _ _ Hx) as (_ & _ & Hp). destruct (pt_reg s Hwf _ _ Hy) as (_ & _ & Hq).
  rewrite He in Hp. congruence.
Qed.

(** The search from pid [i], all pids before it being taken, finds the first free one. *)
Lemma pid_loop_spec s fuel i :
  (forall j, is_Some (proc_tab s !! j) <-> 0 <= j <= MAX_PROC) -> 0 <= last_i s <= MAX_PROC ->
  (last_i s = 0 -> proc_tab s !! 1 = Some 0) -> 1 <= i <= MAX_PROC ->
  circ (last_i s) i + Z.of_nat fuel >= MAX_PROC -> (last_i s = 0 -> i = 1) -> fuel <> O ->
  (forall j, 1 <= j <= MAX_PROC -> circ (last_i s) j < circ (last_i s) i -> proc_tab s !! j <> Some 0) ->
  match pid_loop fuel i s with
  | Ret (Some j) s' => s' = s /\ 1 <= j <= MAX_PROC /\ j <> last_i s /\ proc_tab s !! j = Some 0 /\
      (forall j', 1 <= j' <= MAX_PROC -> circ (last_i s) j' < circ (last_i s) j -> proc_tab s !! j' <> Some 0)
  | Ret None s' => s' = s /\ forall j, 1 <= j <= MAX_PROC -> j <> last_i s -> proc_tab s !! j <> Some 0
  | _ => False
  end.
Proof.
  intros Hdom Hlast Hz. revert i. induction fuel as [|fuel IH]; [done|]. intros i Hi Hf H0 _ Hb. simpl.
  unfold mbind at 1, M_bind at 1, get at 1. destruct (Z.eqb_spec i (last_i s)) as [E|E].
  - split; [done|]. intros j Hj Hne. apply Hb; [done|]. pose proof (circ_range (last_i s) j).
    pose proof (proj2 (circ_last (last_i s) i ltac:(lia) Hi) E). rewrite <- E in *.
    destruct (decide (circ i j = MAX_PROC - 1)) as [Ej|]; [|lia].
    apply (proj1 (circ_last i j Hi Hj)) in Ej. congruence.
  - destruct (proj2 (Hdom i)) as [p Hp]; [lia|]. rewrite Hp. unfold mbind, M_bind; simpl.
    destruct (Z.eqb_spec p 0) as [->|Hp0]; [exact (conj eq_refl (conj Hi (conj E (conj Hp Hb))))|].
    assert (last_i s <> 0) as Hl0. { intros E0. rewrite (H0 E0), (Hz E0) in Hp. congruence. }
    destruct (decide (next_pid i = last_i s)) as [En|En].
    + assert (Hc : circ (last_i s) i = MAX_PROC - 2).
      { rewrite <- En. unfold circ, next_pid, MAX_PROC in *. destruct (Z.ltb_spec 100 (i + 1)).
        - assert (i = 100) as -> by lia. done.
        - replace (i - (i + 1) - 1) with (98 + -1 * 100) by lia. by rewrite Z.mod_add by lia. }
      destruct fuel as [|fuel]; [lia|]. clear IH. simpl. unfold mbind, M_bind, get. rewrite En, Z.eqb_refl.
      split; [done|]. intros j Hj Hne. pose proof (circ_range (last_i s) j).
      destruct (decide (circ (last_i s) j = MAX_PROC - 1)) as [Ej|];
        [apply (proj1 (circ_last (last_i s) j ltac:(lia) Hj)) in Ej; congruence|].
      destruct (decide (circ (last_i s) j = MAX_PROC - 2)) as [Ej|]; [|apply Hb; [done|lia]].
      rewrite <- Hc in Ej. apply circ_inj in Ej; [|done..]. subst j. rewrite Hp. congruence.
    + destruct (next_pid_circ (last_i s) i Hlast Hi E ltac:(lia)) as [Hr Hc].
      apply IH; try done; [lia| |].
      * intros ->. pose proof (circ_range (last_i s) (next_pid i)). lia.
      * intros j Hj Hlt. destruct (decide (circ (last_i s) j = circ (last_i s) i)) as [Ej|]; [|apply Hb; [done|lia]].
        apply circ_inj in Ej; [|done..]. subst j. rewrite Hp. congruence.
Qed.

(** ** Steps that leave the process table alone *)

Definition pcpu (s : pstate) : cpu := s_cpu (k_sync (p_k s)).
Definition with_pcpu (c : cpu) (s : pstate) : pstate := lens_set c s.

Lemma p_acquire l s :
  quiet (pcpu s) -> zoom (spinlock_acquire l) s = Ret tt (with_pcpu (acq l (pcpu s)) s).
Proof. intros Hq. apply zoom_eq, spinlock_acquire_eq; [apply Hq|by apply quiet_free]. Qed.

Lemma p_release l c s :
  quiet c -> pcpu s = acq l c -> zoom (spinlock_release l) s = Ret tt (with_pcpu c s).
Proof. intros Hq Hc. apply zoom_eq. simpl. fold (pcpu s). rewrite Hc. apply spinlock_release_acq; [apply Hq|by apply quiet_free]. Qed.

Lemma p_sync {A} (m : M sync A) a sy s :
  m (k_sync (p_k s)) = Ret a sy -> zoom m s = Ret a (set_k (set_sync sy (p_k s)) s).
Proof. intros H. unfold zoom. simpl. by rewrite H. Qed.

Lemma p_kst {A} (m : M kstate A) a k s : m (p_k s) = Ret a k -> zoom m s = Ret a (set_k k s).
Proof. intros H. unfold zoom. simpl. by rewrite H. Qed.

Lemma with_pcpu_same s : with_pcpu (pcpu s) s = s.
Proof. by destruct s as [[[]]]. Qed.

(** An unlocked section as one step. *)
Lemma p_init l s : quiet (pcpu s) -> zoom (spinlock_init l) s = Ret tt s.
Proof.
  intros (_ & Hs & _). rewrite (zoom_eq (S := pstate) (T := cpu) _ s tt (pcpu s)).
  - f_equal. apply with_pcpu_same.
  - unfold spinlock_init, modify. f_equal. unfold pcpu in *. simpl. destruct (s_cpu _) eqn:E; simpl in *. subst. 
    unfold set_splk; simpl. by rewrite delete_empty.
Qed.

Lemma upd_proc_eq p f x s :
  proc_heap s !! p = Some x -> upd_proc p f s = Ret tt (set_procs (<[p := f x]> (proc_heap s)) s).
Proof. intros Hx. unfold upd_proc, get_proc. msimpl. by rewrite Hx. Qed.

Lemma get_proc_eq p x s : proc_heap s !! p = Some x -> get_proc p s = Ret x s.
Proof. intros Hx. unfold get_proc. msimpl. by rewrite Hx. Qed.

(** Creating a semaphore: only the wait channels and the semaphores change. *)
Lemma sem_create_eq ok sem n sy :
  quiet (s_cpu sy) -> exists sy', sem_create ok sem n sy = Ret ok sy' /\ s_cpu sy' = s_cpu sy /\
    s_lock sy' = s_lock sy /\ s_runq sy' = s_runq sy /\ (ok = true -> s_sem sy' = <[sem := n]> (s_sem sy)) /\
    (ok = true -> sleepers (sem_spl sem) sy' = []).
Proof.
  intros (_ & Hs & _). destruct sy as [c q w m lk]. simpl in *. destruct ok.
  - eexists. unfold sem_create. cbn [negb]. split.
    { rewrite (run_bind _ _ _ tt (mk_sync c q (<[sem_spl sem := []]> w) m lk)) by reflexivity.
      rewrite (run_bind _ _ _ tt (mk_sync c q (<[sem_spl sem := []]> w) m lk)).
      2: { rewrite (zoom_eq (S := sync) (T := cpu) _ _ tt c); [done|]. unfold spinlock_init, modify. f_equal.
           destruct c; simpl in *; subst. unfold set_splk; simpl. by rewrite delete_empty. }
      reflexivity. }
    split_and!; try done. intros _. unfold sleepers. simpl. by rewrite lookup_insert_eq.
  - eexists. by split_and!.
Qed.

(** ** Creating a process *)

(** The state once process [p] has pid [i]. *)
Definition registered (p : Z) (x : proc) (s s' : pstate) : Prop :=
  proc_heap s' = <[p := x]> (proc_heap s) /\ proc_tab s' = <[p_pid x := p]> (proc_tab s) /\
  last_i s' = p_pid x /\ thread_heap s' = thread_heap s /\ kproc s' = kproc s /\ pcpu s' = pcpu s.

Lemma registered_wf p x s s' :
  ptab_wf s -> p <> 0 -> proc_heap s !! p = None -> 1 <= p_pid x <= MAX_PROC ->
  proc_tab s !! p_pid x = Some 0 -> registered p x s s' -> ptab_wf s'.
Proof.
  intros [Hd Hl Hs Hli Hr] Hp Hn Hi Hf (Eh & Et & El & _). split; rewrite ?Eh, ?Et, ?El.
  - intros i. rewrite lookup_insert_is_Some, Hd. lia.
  - lia.
  - lia.
  - intros i q. rewrite !lookup_insert_Some. intros [[<- <-]|[Hne Hq]] Hq0.
    + exists x. by rewrite lookup_insert_eq.
    + destruct (Hli i q Hq Hq0) as (y & Hy & Ey). exists y. rewrite lookup_insert_ne by congruence. done.
  - intros q y. rewrite !lookup_insert_Some. intros [[<- <-]|[Hne Hq]].
    + split; [done|]. split; [lia|]. by left.
    + destruct (Hr q y Hq) as (? & ? & Hy). split; [done|]. split; [done|]. right. split; [|done].
      intros E. rewrite E in Hf. congruence.
Qed.

Lemma proc_init_waitpid_spec p sem x s :
  (forall i, is_Some (proc_tab s !! i) <-> 0 <= i <= MAX_PROC) -> 0 <= last_i s <= MAX_PROC ->
  (last_i s = 0 -> proc_tab s !! 1 = Some 0) -> quiet (pcpu s) -> proc_heap s !! p = Some x ->
  match proc_init_waitpid p sem s with
  | Ret _ s' => exists i, 1 <= i <= MAX_PROC /\ i <> last_i s /\ proc_tab s !! i = Some 0 /\
      (forall j, 1 <= j <= MAX_PROC -> circ (last_i s) j < circ (last_i s) i -> proc_tab s !! j <> Some 0) /\
      registered p (with_sem sem (with_status 0 (with_pid i x))) s s'
  | Panic _ => forall j, 1 <= j <= MAX_PROC -> j <> last_i s -> proc_tab s !! j <> Some 0
  | _ => False
  end.
Proof.
  intros Hd Hl Hz Hq Hx. unfold proc_init_waitpid. rewrite (run_bind _ _ _ _ _ (p_acquire table_lk s Hq)).
  set (s1 := with_pcpu (acq table_lk (pcpu s)) s). rewrite (run_bind _ _ s1 s1 s1) by reflexivity.
  rewrite (run_bind _ _ _ _ _ (upd_proc_eq p (with_pid 0) x s1 Hx)).
  set (s2 := set_procs _ s1).
  assert (Hnext : 1 <= next_pid (last_i s) <= MAX_PROC).
  { unfold next_pid. destruct (Z.ltb_spec MAX_PROC (last_i s + 1)); unfold MAX_PROC in *; lia. }
  pose proof (pid_loop_spec s2 (Z.to_nat MAX_PROC + 1) (next_pid (last_i s)) Hd Hl Hz Hnext) as Hloop.
  pose proof (circ_first (last_i s) Hl) as Hc0.
  change (last_i s2) with (last_i s) in Hloop. change (proc_tab s2) with (proc_tab s) in Hloop.
  specialize (Hloop ltac:(unfold MAX_PROC; lia)). 
  specialize (Hloop ltac:(intros E; rewrite E; done) ltac:(unfold MAX_PROC; lia)).
  specialize (Hloop ltac:(intros j Hj Hlt; pose proof (circ_range (last_i s) j); lia)).
  unfold mbind at 1, M_bind at 1. change (last_i s1) with (last_i s).
  destruct (pid_loop _ _ s2) as [[i|] s'| | | | |]; try done.
  - destruct Hloop as (-> & Hi & Hne & Hf & Hfirst).
    rewrite (run_bind _ _ s2 tt (set_procs (<[p := with_pid i x]> (proc_heap s)) (set_tab (<[i := p]> (proc_tab s)) i s2))).
    2: { rewrite (run_bind _ _ s2 tt (set_tab (<[i := p]> (proc_tab s)) i s2)) by reflexivity.
         rewrite (upd_proc_eq p _ (with_pid 0 x)); [|simpl; apply lookup_insert_eq].
         simpl. by rewrite insert_insert_eq. }
    set (s3 := set_procs _ (set_tab _ _ s2)).
    rewrite (run_bind _ _ _ _ _ (p_release table_lk (pcpu s) s3 Hq eq_refl)).
    set (s4 := with_pcpu _ s3). assert (H4 : proc_heap s4 !! p = Some (with_pid i x)) by apply lookup_insert_eq.
    rewrite (run_bind _ _ _ _ _ (get_proc_eq p _ s4 H4)). change (p_pid (with_pid i x)) with i.
    rewrite (proj2 (Z.eqb_neq i 0)) by lia. rewrite (run_bind _ _ _ _ _ (upd_proc_eq p (with_status 0) _ s4 H4)).
    set (s5 := set_procs _ s4).
    destruct (sem_create_eq (negb (sem =? 0)) sem 0 (k_sync (p_k s5)) Hq) as (sy & Hrun & Hc & _).
    rewrite (run_bind _ _ s5 (negb (sem =? 0)) (set_k (set_sync sy (p_k s5)) s5)) by (by apply p_sync).
    rewrite (upd_proc_eq p _ (with_status 0 (with_pid i x))) by apply lookup_insert_eq.
    exists i. split_and!; try done; try lia. split_and!; try done; simpl.
    + by rewrite !insert_insert_eq.
  - destruct Hloop as (-> & Hall). rewrite (run_bind _ _ s2 tt s2) by reflexivity.
    rewrite (run_bind _ _ _ _ _ (p_release table_lk (pcpu s) s2 Hq eq_refl)).
    rewrite (run_bind _ _ _ _ _ (get_proc_eq p (with_pid 0 x) _ (lookup_insert_eq _ _ _))). done.
Qed.

(** A new process gets a pid of its own.  [proc_create] gives the process the first
    free pid in circular order after the last one given; no live process has it, and the
    table and the heap of processes stay consistent.  It stops the kernel only when every
    pid but the last one given is in use (the last one is not tried even if it is free). *)
Theorem proc_create_pid name p junk sem s :
  ptab_wf s -> quiet (pcpu s) -> p <> 0 -> proc_heap s !! p = None ->
  match proc_create name (Some (p, junk)) true sem s with
  | Ret r s' => r = p /\ ptab_wf s' /\ pcpu s' = pcpu s /\ exists i, 1 <= i <= MAX_PROC /\ i <> last_i s /\
      proc_heap s' = <[p := mk_proc name 0 0 0 0 i sem]> (proc_heap s) /\
      (forall q x, proc_heap s !! q = Some x -> p_pid x <> i) /\
      (forall j, 1 <= j <= MAX_PROC -> circ (last_i s) j < circ (last_i s) i ->
         exists q x, proc_heap s !! q = Some x /\ p_pid x = j)
  | Panic _ => forall j, 1 <= j <= MAX_PROC -> j <> last_i s -> exists q x, proc_heap s !! q = Some x /\ p_pid x = j
  | _ => False
  end.
Proof.
  intros Hwf Hq Hp Hn. unfold proc_create. cbn [negb].
  set (x0 := mk_proc name 0 0 0 (p_status junk) (p_pid junk) (p_sem junk)).
  set (s1 := set_procs (<[p := x0]> (proc_heap s)) s). rewrite (run_bind _ _ s tt s1) by reflexivity.
  rewrite (run_bind _ _ s1 tt s1) by (by apply p_init).
  pose proof (proc_init_waitpid_spec p sem x0 s1 (pt_dom s Hwf) (pt_last s Hwf)) as H.
  specialize (H ltac:(intros E; apply (pt_start s Hwf E); unfold MAX_PROC; lia) Hq (lookup_insert_eq _ _ _)).
  assert (Hown : forall j, 1 <= j <= MAX_PROC -> proc_tab s !! j <> Some 0 ->
    exists q x, proc_heap s !! q = Some x /\ p_pid x = j).
  { intros j Hj Hj0. destruct (proj2 (pt_dom s Hwf j)) as [q Hq']; [lia|].
    destruct (pt_live s Hwf j q Hq') as (y & Hy & Ey); [congruence|]. eauto. }
  unfold mbind, M_bind. destruct (proc_init_waitpid p sem s1) as [[] s'| | | | |]; try done.
  - destruct H as (i & Hi & Hne & Hf & Hfirst & Hreg). split; [done|].
    assert (Hreg' : registered p (mk_proc name 0 0 0 0 i sem) s s').
    { destruct Hreg as (E1 & E2 & E3 & E4 & E5 & E6). simpl in E1. rewrite insert_insert_eq in E1. by split_and!. }
    split; [eapply (registered_wf p (mk_proc name 0 0 0 0 i sem) s s'); done|]. split; [apply Hreg'|].
    exists i. split; [done|]. split; [done|]. split; [apply Hreg'|]. split.
    + intros q x Hx E. destruct (pt_reg s Hwf q x Hx) as (? & _ & Hy). rewrite E in Hy.
      change (proc_tab s1) with (proc_tab s) in Hf. congruence.
    + intros j Hj Hlt. apply Hown; [done|]. by apply Hfirst.
  - intros j Hj Hne. apply Hown; [done|]. by apply H.
Qed.

(** ** Exit *)

(** [V] from a quiet CPU: one more unit, and the longest sleeper is made runnable. *)
Lemma V_eq sy sem n :
  quiet (s_cpu sy) -> s_sem sy !! sem = Some n -> 0 <= n < 2 ^ 32 - 1 ->
  V sem sy = Ret tt (wake_first (sem_spl sem) (set_sem (<[sem := n + 1]> (s_sem sy)) sy)).
Proof.
  intros Hq Hn Hr. pose proof Hq as (Hwf & _). unfold V.
  rewrite (run_bind _ _ sy sy sy) by reflexivity. rewrite (run_bind _ _ sy tt sy) by (by rewrite Hn).
  rewrite (run_bind _ _ sy tt (lens_set (acq (sem_spl sem) (s_cpu sy)) sy)).
  2: { apply zoom_eq, spinlock_acquire_eq; [done|by apply quiet_free]. }
  set (s1 := lens_set _ sy). rewrite (run_bind _ _ s1 n s1) by (by rewrite Hn). cbv zeta.
  rewrite u32_small by lia.
  set (s2 := set_sem (<[sem := n + 1]> (s_sem sy)) sy).
  rewrite (run_bind _ _ s1 tt (lens_set (acq (sem_spl sem) (s_cpu s2)) s2)) by (by destruct sy).
  rewrite (run_bind _ _ _ tt (lens_set (acq (sem_spl sem) (s_cpu s2)) s2)).
  2: { unfold KASSERT. by rewrite (proj2 (Z.ltb_lt 0 (n + 1))) by lia. }
  rewrite (run_bind _ _ _ _ _ (wchan_wakeone_acq s2 (sem_spl sem) Hq ltac:(done))).
  rewrite (zoom_eq (S := sync) (T := cpu) _ _ tt (s_cpu sy)).
  - f_equal. rewrite lens_set_set. unfold wake_first. by destruct (sleepers _ _), sy.
  - rewrite lens_get_set. apply spinlock_release_acq; [done|by apply quiet_free].
Qed.

Lemma wake_first_fields wc sy :
  s_cpu (wake_first wc sy) = s_cpu sy /\ s_sem (wake_first wc sy) = s_sem sy /\
  s_lock (wake_first wc sy) = s_lock sy /\ s_runq (wake_first wc sy) = s_runq sy ++ take 1 (sleepers wc sy) /\
  sleepers wc (wake_first wc sy) = drop 1 (sleepers wc sy).
Proof.
  unfold wake_first. destruct (sleepers wc sy) as [|t ts] eqn:E; simpl; [by rewrite app_nil_r, E|].
  split_and!; try done. unfold sleepers. simpl. by rewrite lookup_insert_eq, drop_0.
Qed.

Lemma proc_remthread_eq t st p x s :
  quiet (pcpu s) -> thread_heap s !! t = Some (mk_thread p st) -> p <> 0 ->
  proc_heap s !! p = Some x -> 0 < p_numthreads x ->
  proc_remthread t s = Ret tt (set_threads (<[t := mk_thread 0 st]> (thread_heap s))
    (set_procs (<[p := with_threads (p_numthreads x - 1) x]> (proc_heap s)) s)).
Proof.
  intros Hq Ht Hp Hx Hn. pose proof Hq as (Hwf & _). unfold proc_remthread.
  assert (Hget : get_thread t s = Ret (mk_thread p st) s) by (unfold get_thread; msimpl; by rewrite Ht).
  rewrite (run_bind _ _ _ _ _ Hget). cbv zeta. cbn [t_proc].
  rewrite (run_bind _ _ s tt s) by (unfold KASSERT; by rewrite (proj2 (Z.eqb_neq p 0) Hp)).
  rewrite (run_bind _ _ _ _ _ (p_acquire (p_lock p) s Hq)). set (s1 := with_pcpu _ s).
  rewrite (run_bind _ _ _ _ _ (get_proc_eq p x s1 Hx)).
  rewrite (run_bind _ _ s1 tt s1) by (unfold KASSERT; by rewrite (proj2 (Z.ltb_lt 0 _) Hn)).
  rewrite (run_bind _ _ _ _ _ (upd_proc_eq p _ x s1 Hx)). set (s2 := set_procs _ s1).
  rewrite (run_bind _ _ _ _ _ (p_release (p_lock p) (pcpu s) s2 Hq eq_refl)). set (s3 := with_pcpu _ s2).
  rewrite (run_bind _ _ s3 (t_curspl (pcpu s)) (with_pcpu (high (pcpu s)) s3)) by (by apply zoom_eq, splhigh_eq).
  set (s4 := with_pcpu _ s3).
  rewrite (run_bind _ _ s4 tt (set_threads (<[t := mk_thread 0 st]> (thread_heap s)) s4)).
  2: { unfold set_t_proc. rewrite (run_bind _ _ s4 (mk_thread p st) s4); [reflexivity|].
       unfold get_thread. msimpl. by rewrite Ht. }
  destruct (splx_high (pcpu s) Hwf) as [r Hr].
  rewrite (run_bind _ _ _ r (with_pcpu (pcpu s) (set_threads (<[t := mk_thread 0 st]> (thread_heap s)) s4)))
    by (by apply zoom_eq).
  subst s4 s3 s2 s1. clear. destruct s as [[[c q w m lk] ? ? ? ? ? ? ? ?]]. unfold high.
  destruct (t_curspl _ <? IPL_HIGH); reflexivity.
Qed.

Lemma seen_as_of s p x :
  curproc_of s = p -> p <> 0 -> proc_heap s !! p = Some x -> p_addrspace x <> 0 ->
  seen_as s = Some (Some (p_addrspace x)).
Proof.
  intros Hc Hp Hx Ha. unfold seen_as. rewrite Hc, (proj2 (Z.eqb_neq p 0) Hp), Hx.
  by rewrite (proj2 (Z.eqb_neq _ 0) Ha).
Qed.

Lemma as_deactivate_eq k a xa :
  curproc_as (k_as k) = Some (Some a) -> as_heap (k_as k) !! a = Some xa ->
  as_deactivate k = Ret tt (set_as (mk_as_st
    (<[a := mk_as (segments xa) (as_index xa) (as_file xa) false (page_table xa)]> (as_heap (k_as k)))
    (curproc_as (k_as k)) (vm_inited (k_as k))) k).
Proof.
  intros Hc Ha. unfold as_deactivate, proc_getas. rewrite (run_bind _ _ k a k) by (unfold gets; by rewrite Hc).
  unfold upd_as. rewrite (run_bind _ _ k xa k); [reflexivity|]. unfold get_as. msimpl. by rewrite Ha.
Qed.

Lemma thread_exit_eq {A} code t st s :
  quiet (pcpu s) -> curthread_of s = t -> thread_heap s !! t = Some (mk_thread 0 st) ->
  exists c, thread_exit (A := A) code s = Exited code (set_zombies (zombies s ++ [t]) (with_pcpu c s)).
Proof.
  intros Hq Ht Hh. pose proof Hq as (Hwf & Hs & _). unfold thread_exit.
  rewrite (run_bind _ _ s s s) by reflexivity. cbv zeta. rewrite Ht.
  assert (Hget : get_thread t s = Ret (mk_thread 0 st) s) by (unfold get_thread; msimpl; by rewrite Hh).
  rewrite (run_bind _ _ _ _ _ Hget). cbn [t_proc negb Z.eqb]. rewrite (run_bind _ _ s tt s) by reflexivity.
  rewrite (run_bind _ _ _ _ _ Hget). rewrite (run_bind _ _ s tt s) by reflexivity.
  rewrite (run_bind _ _ s (t_curspl (pcpu s)) (with_pcpu (high (pcpu s)) s)) by (by apply zoom_eq, splhigh_eq).
  assert (Hwf' : cpu_wf (high (pcpu s)) /\ splk (high (pcpu s)) = ∅).
  { destruct Hwf as (W1 & W2 & W3 & W4 & W5). unfold high. destruct (Z.ltb_spec (t_curspl (pcpu s)) IPL_HIGH); [|exact (conj (conj W1 (conj W2 (conj W3 (conj W4 W5)))) Hs)].
    unfold IPL_NONE, IPL_HIGH in *. unfold cpu_wf, IPL_NONE, IPL_HIGH. simpl. rewrite W5.
    split; [|done]. split_and!; try done; [by right|lia|]. destruct (Z.eqb_spec (t_iplhigh_count (pcpu s)) 0); lia. }
  destruct Hwf' as [Hwf' Hs'].
  exists (acq runqueue_lock (high (pcpu s))). unfold mbind, M_bind.
  rewrite (zoom_eq (S := pstate) (T := cpu) _ _ tt (acq runqueue_lock (high (pcpu s)))); [done|].
  apply spinlock_acquire_eq; [done|]. simpl. by rewrite Hs', lookup_empty.
Qed.

(** Exit.  [sys__exit] does not return: the thread becomes a zombie detached from its
    process, whose address space is deactivated and whose status is the low 8 bits of the
    argument; the process's semaphore gets a unit and its longest waiter is made runnable.
    No other process is touched. *)
Theorem sys__exit_posts s t st p x xa n status :
  quiet (pcpu s) -> curthread_of s = t -> thread_heap s !! t = Some (mk_thread p st) -> p <> 0 ->
  proc_heap s !! p = Some x -> 0 < p_numthreads x -> p_addrspace x <> 0 ->
  as_heap (k_as (p_k s)) !! p_addrspace x = Some xa ->
  s_sem (k_sync (p_k s)) !! p_sem x = Some n -> 0 <= n < 2 ^ 32 - 1 ->
  exists s', sys__exit (A := unit) status s = Exited status s' /\
    proc_heap s' = <[p := with_threads (p_numthreads x - 1) (with_status (status mod 256) x)]> (proc_heap s) /\
    proc_tab s' = proc_tab s /\ thread_heap s' !! t = Some (mk_thread 0 st) /\ zombies s' = zombies s ++ [t] /\
    (exists xa', as_heap (k_as (p_k s')) !! p_addrspace x = Some xa' /\ as_active xa' = false) /\
    s_sem (k_sync (p_k s')) = <[p_sem x := n + 1]> (s_sem (k_sync (p_k s))) /\
    s_runq (k_sync (p_k s')) =
      s_runq (k_sync (p_k s)) ++ take 1 (sleepers (sem_spl (p_sem x)) (k_sync (p_k s))).
Proof.
  intros Hq Ht Hth Hp Hx Hn Ha Hxa Hsem Hr. unfold sys__exit.
  assert (Hcur : curproc_of s = p) by (unfold curproc_of; by rewrite Ht, Hth).
  assert (Hland : Z.land status 0xff = status mod 256) by (change 0xff with (Z.ones 8); by apply Z.land_ones).
  rewrite (run_bind _ _ s s s) by reflexivity. cbv zeta. rewrite Hcur, Ht, Hland.
  rewrite (run_bind _ _ _ _ _ (upd_proc_eq p _ x s Hx)). set (x1 := with_status _ x). set (s1 := set_procs _ s).
  assert (H1 : proc_heap s1 !! p = Some x1) by apply lookup_insert_eq.
  assert (Has : curproc_as (k_as (p_k s1)) = Some (Some (p_addrspace x))).
  { change (p_addrspace x) with (p_addrspace x1). by apply (seen_as_of _ p x1). }
  rewrite (run_bind _ _ s1 tt (set_k (set_as (mk_as_st (<[p_addrspace x := mk_as (segments xa) (as_index xa)
    (as_file xa) false (page_table xa)]> (as_heap (k_as (p_k s1)))) (curproc_as (k_as (p_k s1)))
    (vm_inited (k_as (p_k s1)))) (p_k s1)) s1)).
  2: { apply p_kst. by apply (as_deactivate_eq _ (p_addrspace x) xa). }
  set (s2 := set_k _ s1).
  rewrite (run_bind _ _ _ _ _ (proc_remthread_eq t st p x1 s2 Hq Hth Hp H1 Hn)). set (s3 := set_threads _ _).
  assert (H3 : proc_heap s3 !! p = Some (with_threads (p_numthreads x - 1) x1)) by apply lookup_insert_eq.
  set (sy := wake_first (sem_spl (p_sem x)) (set_sem (<[p_sem x := n + 1]> (s_sem (k_sync (p_k s)))) (k_sync (p_k s)))).
  rewrite (run_bind _ _ s3 tt (set_k (set_sync sy (p_k s3)) s3)).
  2: { unfold proc_signal_end. rewrite (run_bind _ _ _ _ _ (get_proc_eq p _ s3 H3)).
       apply p_sync. exact (V_eq (k_sync (p_k s)) (p_sem x) n Hq Hsem Hr). }
  set (s4 := set_k _ s3).
  destruct (wake_first_fields (sem_spl (p_sem x)) (set_sem (<[p_sem x := n + 1]> (s_sem (k_sync (p_k s)))) (k_sync (p_k s))))
    as (F1 & F2 & F3 & F4 & F5). fold sy in F1, F2, F3, F4.
  assert (Hc4 : pcpu s4 = pcpu s) by exact F1.
  destruct (thread_exit_eq (A := unit) status t st s4) as [c Hex].
  { by rewrite Hc4. }
  { unfold curthread_of. fold (pcpu s4). by rewrite Hc4. }
  { apply lookup_insert_eq. }
  rewrite Hex. eexists. split; [reflexivity|]. split; [simpl; by rewrite insert_insert_eq|].
  split; [done|]. split; [apply lookup_insert_eq|]. split; [done|]. split.
  { eexists. split; [apply lookup_insert_eq|done]. }
  split; [exact F2|exact F4].
Qed.

(** ** Wait *)

(** [P] from a quiet CPU with a unit to take. *)
Lemma P_eq sy sem n :
  quiet (s_cpu sy) -> s_sem sy !! sem = Some n -> 0 < n ->
  P sem sy = Ret tt (set_sem (<[sem := n - 1]> (s_sem sy)) sy).
Proof.
  intros Hq Hn Hr. pose proof Hq as (Hwf & _ & Hint). unfold P.
  rewrite (run_bind _ _ sy sy sy) by reflexivity. rewrite (run_bind _ _ sy tt sy) by (by rewrite Hn).
  rewrite (run_bind _ _ sy tt sy) by (by rewrite Hint). unfold P_enter.
  rewrite (run_bind _ _ sy tt (lens_set (acq (sem_spl sem) (s_cpu sy)) sy)).
  2: { apply zoom_eq, spinlock_acquire_eq; [done|by apply quiet_free]. }
  set (s1 := lens_set _ sy). rewrite (run_bind _ _ s1 s1 s1) by reflexivity.
  change (s_sem s1) with (s_sem sy). rewrite (run_bind _ _ s1 n s1) by (by rewrite Hn). destruct (Z.eqb_spec n 0); [lia|].
  rewrite (run_bind _ _ s1 tt s1) by (unfold KASSERT; by rewrite (proj2 (Z.ltb_lt 0 n))).
  rewrite (run_bind _ _ s1 tt (set_sem (<[sem := n - 1]> (s_sem sy)) s1)) by reflexivity.
  rewrite (zoom_eq (S := sync) (T := cpu) _ _ tt (s_cpu sy)); [by destruct sy|].
  apply spinlock_release_acq; [done|by apply quiet_free].
Qed.

Lemma sem_destroy_eq sy sem n :
  quiet (s_cpu sy) -> s_sem sy !! sem = Some n -> sleepers (sem_spl sem) sy = [] ->
  sem_destroy sem sy = Ret tt (set_sem (delete sem (s_sem sy)) sy).
Proof.
  intros Hq Hn Hs. unfold sem_destroy. rewrite (run_bind _ _ sy sy sy) by reflexivity.
  rewrite (run_bind _ _ sy tt sy) by (by rewrite Hn). rewrite (run_bind _ _ sy tt sy).
  - rewrite (run_bind _ _ sy tt sy) by (by rewrite Hs). done.
  - rewrite (zoom_eq (S := sync) (T := cpu) _ _ tt (s_cpu sy)); [by destruct sy|].
    unfold spinlock_cleanup. msimpl. by rewrite quiet_free.
Qed.

(** *** The memory of the process *)

(** Changes that the process table makes to the kernel state: semaphores, and which address
    space is current. *)
Definition mild (k k' : kstate) : Prop :=
  exists ca sems, k' = set_as (mk_as_st (as_heap (k_as k)) ca (vm_inited (k_as k))) (set_sync (set_sem sems (k_sync k)) k).
Definition mild_closed (R : kstate -> Prop) : Prop := forall k k', R k -> mild k k' -> R k'.

Lemma mild_refl k : mild k k.
Proof. exists (curproc_as (k_as k)), (s_sem (k_sync k)). by destruct k as [[] ? ? ? ? ? []]. Qed.

Lemma mild_trans k1 k2 k3 : mild k1 k2 -> mild k2 k3 -> mild k1 k3.
Proof. intros (ca & se & ->) (ca' & se' & ->). exists ca', se'. by destruct k1 as [[] ? ? ? ? ? []]. Qed.

Lemma mild_procs s h : mild (p_k s) (p_k (set_procs h s)).
Proof. eexists (curproc_as (k_as (p_k (set_procs h s)))), (s_sem (k_sync (p_k s))). unfold set_procs, refresh. cbn [p_k set_k k_as set_as curproc_as as_heap vm_inited]. f_equal. by destruct (p_k s) as [[]]. Qed.

Lemma vm_inv_mild k k' t m bs sw : vm_inv k t m bs sw -> mild k k' -> vm_inv k' t m bs sw.
Proof. intros Hinv (ca & se & ->). destruct Hinv. by split. Qed.

(** The address space [a] with the page table [table], in a VM system in order. *)
Definition owns_memory (k : kstate) (t : gmap pteptr pt_entry) (m : gmap Z cm_entry) (bs : list block) (sw : swap_file) (a table : Z) : Prop :=
  vm_inv k t m bs sw /\ vm_inited (k_as k) = true /\ s_lock (k_sync k) !! swap_lock = Some None /\
  (exists xa, as_heap (k_as k) !! a = Some xa /\ page_table xa = table) /\ table <> 0 /\
  (exists tab, pt_table (k_pt k) !! table = Some tab /\ held_table k t m table tab) /\
  is_Some (s_lock (k_sync k) !! table) /\ sleepers (lk_spl table) (k_sync k) = [].

Lemma owns_mild k k' t m bs sw a table : owns_memory k t m bs sw a table -> mild k k' -> owns_memory k' t m bs sw a table.
Proof.
  intros (H1 & H2 & H3 & H4 & H5 & (tab & H6 & H6') & H7 & H8) Hm. split; [by eapply vm_inv_mild|]. destruct Hm as (ca & se & ->). split_and!; try done. exists tab. split; [done|]. destruct H6'. by split.
Qed.

(** The address space is gone with all its frames, and every other page is as it was. *)
Definition memory_freed (k : kstate) (t : gmap pteptr pt_entry) (sw : swap_file) (a table : Z) (k' : kstate) : Prop :=
  as_heap (k_as k') = delete a (as_heap (k_as k)) /\
  exists t' m' bs' sw', vm_inv k' t' m' bs' sw' /\
    (forall q, q.1.1 <> table -> page_data k' t' sw' q = page_data k t sw q) /\
    (forall f c q, m' !! f = Some c -> cm_pte c = Some q -> q.1.1 <> table).

Lemma freed_closed k t sw a table : mild_closed (memory_freed k t sw a table).
Proof.
  intros k1 k2 (H1 & t' & m' & bs' & sw' & H2 & H3 & H4) Hm. split; [destruct Hm as (ca & se & ->); done|]. exists t', m', bs', sw'. split; [by eapply vm_inv_mild|]. split; [|done].
  destruct Hm as (ca & se & ->). exact H3.
Qed.

Lemma freed_start k k0 t sw a table k' : mild k0 k -> memory_freed k t sw a table k' -> memory_freed k0 t sw a table k'.
Proof. by intros (ca & se & ->). Qed.

(** Destroying the address space [a] of another process returns, and leaves the CPU and the
    semaphores alone; the kernel state then satisfies [R]. *)
Definition destroys_as (a : Z) (R : kstate -> Prop) (k : kstate) : Prop :=
  wp (as_destroy a) k (fun _ k' => s_cpu (k_sync k') = s_cpu (k_sync k) /\
    s_sem (k_sync k') = s_sem (k_sync k) /\
    (forall sem, sleepers (sem_spl sem) (k_sync k) = [] -> sleepers (sem_spl sem) (k_sync k') = []) /\ R k').

Lemma as_destroy_frees k t m bs sw a table : a <> 0 -> owns_memory k t m bs sw a table -> destroys_as a (memory_freed k t sw a table) k.
Proof.
  intros Ha (H1 & H2 & H3 & (xa & H4 & H4') & H5 & (tab & H6 & H6') & H7 & H8). unfold destroys_as, as_destroy. rewrite (proj2 (Z.eqb_neq a 0) Ha).
  apply wp_bind. eapply (wp_eq _ k xa k); [unfold get_as; msimpl; by rewrite H4|]. apply wp_bind. rewrite H4'.
  eapply wp_mono; [by apply (pt_destroy_spec k t m bs sw table tab)|]. intros [] k1 (t' & m' & bs' & sw' & E1 & E2 & E3 & E4 & E5 & E6 & E7 & E8 & E9). apply wp_modify.
  split; [exact E3|]. split; [exact E4|]. split; [intros sem; apply E6|]. split; [cbn; by rewrite E2|]. exists t', m', bs', sw'. split; [destruct E1; by split|]. split; [exact E7|exact E9].
Qed.

(** What the parts of [proc_destroy] leave alone. *)
Record same_procs (s s' : pstate) : Prop := mk_same {
  sp_threads : thread_heap s' = thread_heap s;
  sp_tab : proc_tab s' = proc_tab s;
  sp_last : last_i s' = last_i s;
  sp_kproc : kproc s' = kproc s;
  sp_cpu : pcpu s' = pcpu s;
  sp_sem : s_sem (k_sync (p_k s')) = s_sem (k_sync (p_k s));
  sp_sleep : forall sem, sleepers (sem_spl sem) (k_sync (p_k s)) = [] -> sleepers (sem_spl sem) (k_sync (p_k s')) = []
}.

Lemma drop_cwd p x s :
  quiet (pcpu s) -> proc_heap s !! p = Some x ->
  (p_cwd x = 0 \/ exists m, vrefs s !! p_cwd x = Some m /\ 0 < m) ->
  wp (if p_cwd x =? 0 then mret tt else _ ← vnode_decref (p_cwd x); upd_proc p (with_cwd 0)) s (fun _ s' =>
    same_procs s s' /\ proc_heap s' = <[p := with_cwd 0 x]> (proc_heap s) /\
    exists ca, p_k s' = set_as (mk_as_st (as_heap (k_as (p_k s))) ca (vm_inited (k_as (p_k s)))) (p_k s)).
Proof.
  intros Hq Hx Hc. destruct (Z.eqb_spec (p_cwd x) 0) as [E|E].
  - apply wp_ret. split; [done|]. split.
    + rewrite insert_id; [done|]. rewrite Hx. f_equal. destruct x; simpl in *. by subst.
    + exists (curproc_as (k_as (p_k s))). by destruct s as [[? ? ? ? ? ? []]].
  - destruct Hc as [|(m & Hm & Hpos)]; [done|]. apply wp_bind. eapply wp_eq.
    { unfold vnode_decref. rewrite (run_bind _ _ s tt s) by (unfold KASSERT; by rewrite (proj2 (Z.eqb_neq _ 0) E)).
      rewrite (run_bind _ _ _ _ _ (p_acquire _ s Hq)). set (s1 := with_pcpu _ s).
      rewrite (run_bind _ _ s1 s1 s1) by reflexivity. rewrite (run_bind _ _ s1 m s1) by (simpl; by rewrite Hm).
      rewrite (run_bind _ _ s1 tt s1) by (unfold KASSERT; by rewrite (proj2 (Z.ltb_lt 0 m) Hpos)).
      set (v := if 1 <? m then <[p_cwd x := m - 1]> (vrefs s) else delete (p_cwd x) (vrefs s)).
      rewrite (run_bind _ _ s1 tt (set_vrefs v s1)) by (unfold modify, v; by destruct (1 <? m)).
      apply (p_release _ (pcpu s) (set_vrefs v s1) Hq). done. }
    eapply wp_eq; [by apply upd_proc_eq|]. split; [by split|]. split; [done|].
    eexists. destruct s as [[[] ? ? ? ? ? []]]. reflexivity.
Qed.

Lemma release_as_spec p x s R :
  quiet (pcpu s) -> proc_heap s !! p = Some x -> curproc_of s <> p ->
  (p_addrspace x <> 0 -> forall k, mild (p_k s) k -> destroys_as (p_addrspace x) R k) ->
  wp (release_as p) s (fun _ s' => same_procs s s' /\ proc_heap s' = <[p := with_as 0 x]> (proc_heap s) /\ (p_addrspace x <> 0 -> R (p_k s'))).
Proof.
  intros Hq Hx Hc Hd. unfold release_as. apply wp_bind. eapply wp_eq; [by apply get_proc_eq|].
  destruct (Z.eqb_spec (p_addrspace x) 0) as [E|E].
  - apply wp_ret. split; [done|]. split; [|done]. rewrite insert_id; [done|]. rewrite Hx. f_equal. destruct x; simpl in *. by subst.
  - apply wp_bind. eapply wp_eq; [reflexivity|]. destruct (Z.eqb_spec p (curproc_of s)); [congruence|].
    apply wp_bind, wp_bind. eapply wp_eq; [by apply upd_proc_eq|]. apply wp_ret, wp_zoom.
    eapply wp_mono; [apply (Hd E); apply mild_procs|]. intros [] k' (H1 & H2 & H3 & H4). split; [by split|]. by split.
Qed.

(** Process [p] is gone. *)
Definition unregistered (p : Z) (x : proc) (s s' : pstate) : Prop :=
  proc_heap s' = delete p (proc_heap s) /\ proc_tab s' = <[p_pid x := 0]> (proc_tab s) /\
  last_i s' = last_i s /\ s_sem (k_sync (p_k s')) = delete (p_sem x) (s_sem (k_sync (p_k s))).

Lemma unregistered_wf p x s s' :
  ptab_wf s -> proc_heap s !! p = Some x -> unregistered p x s s' -> ptab_wf s'.
Proof.
  intros Hwf Hx (Eh & Et & El & _). destruct (pt_reg s Hwf p x Hx) as (Hp & Hpid & Htab).
  assert (Hpid' : p_pid x <= MAX_PROC) by (apply (pt_dom s Hwf); by eexists).
  split; rewrite ?Eh, ?Et, ?El.
  - intros i. rewrite lookup_insert_is_Some, (pt_dom s Hwf). lia.
  - apply (pt_last s Hwf).
  - intros H0 i Hi. rewrite lookup_insert. case_decide; [done|]. by apply (pt_start s Hwf).
  - intros i q. rewrite lookup_insert_Some. intros [[<- <-]|[Hne Hq]] Hq0; [done|].
    destruct (pt_live s Hwf i q Hq Hq0) as (y & Hy & Ey). exists y. split; [|done].
    rewrite lookup_delete_ne; [done|]. intros <-. rewrite Hx in Hy. by injection Hy as <-.
  - intros q y [Hne Hq]%lookup_delete_Some. destruct (pt_reg s Hwf q y Hq) as (? & ? & Hy).
    split_and!; try done. rewrite lookup_insert_ne; [done|]. intros E. apply Hne.
    by apply (pids_unique s p q x y).
Qed.

Lemma proc_end_waitpid_spec p x n s :
  quiet (pcpu s) -> proc_heap s !! p = Some x -> 1 <= p_pid x <= MAX_PROC ->
  s_sem (k_sync (p_k s)) !! p_sem x = Some n -> sleepers (sem_spl (p_sem x)) (k_sync (p_k s)) = [] ->
  wp (proc_end_waitpid p) s (fun _ s' => proc_heap s' = proc_heap s /\
    proc_tab s' = <[p_pid x := 0]> (proc_tab s) /\ last_i s' = last_i s /\
    s_sem (k_sync (p_k s')) = delete (p_sem x) (s_sem (k_sync (p_k s))) /\ mild (p_k s) (p_k s')).
Proof.
  intros Hq Hx Hpid Hn Hsl. unfold proc_end_waitpid. apply wp_bind. eapply wp_eq; [by apply p_acquire|].
  set (s4 := with_pcpu _ s). apply wp_bind. eapply wp_eq; [by apply (get_proc_eq p x)|]. cbv zeta.
  apply wp_bind, wp_KASSERT; [rewrite (proj2 (Z.ltb_lt 0 _)), (proj2 (Z.leb_le _ _)) by lia; done|].
  apply wp_bind, wp_modify. apply wp_bind. eapply wp_eq; [by apply (p_release table_lk (pcpu s))|].
  eapply wp_eq; [apply p_sync; apply (sem_destroy_eq _ (p_sem x) n); [exact Hq|exact Hn|exact Hsl]|]. split_and!; try done. exists (curproc_as (k_as (p_k s))), (delete (p_sem x) (s_sem (k_sync (p_k s)))). destruct s as [[[] ? ? ? ? ? []]]. reflexivity.
Qed.

Lemma proc_destroy_spec s p x n R :
  ptab_wf s -> quiet (pcpu s) -> p <> kproc s -> curproc_of s <> p -> proc_heap s !! p = Some x ->
  p_numthreads x = 0 -> s_sem (k_sync (p_k s)) !! p_sem x = Some n ->
  sleepers (sem_spl (p_sem x)) (k_sync (p_k s)) = [] ->
  (p_cwd x = 0 \/ exists m, vrefs s !! p_cwd x = Some m /\ 0 < m) ->
  mild_closed R -> (p_addrspace x <> 0 -> forall k, mild (p_k s) k -> destroys_as (p_addrspace x) R k) ->
  wp (proc_destroy p) s (fun _ s' => unregistered p x s s' /\ (p_addrspace x <> 0 -> R (p_k s'))).
Proof.
  intros Hwf Hq Hk Hcur Hx Hnt Hn Hsl Hcwd HR Hdes. destruct (pt_reg s Hwf p x Hx) as (Hp & Hpid & Htab).
  assert (Hpid' : p_pid x <= MAX_PROC) by (apply (pt_dom s Hwf); by eexists).
  unfold proc_destroy. apply wp_bind, wp_KASSERT; [by rewrite (proj2 (Z.eqb_neq p 0) Hp)|].
  apply wp_bind. eapply wp_eq; [reflexivity|].
  apply wp_bind, wp_KASSERT; [by rewrite (proj2 (Z.eqb_neq p _) Hk)|].
  apply wp_bind. eapply wp_eq; [by apply (get_proc_eq p x)|]. apply wp_bind.
  eapply wp_mono; [by apply (drop_cwd p x s)|]. intros [] s2 ([A1 A2 A3 A4 A5 A6 A7] & Hh2 & ca & Hk2).
  apply wp_bind. eapply wp_mono.
  { apply (release_as_spec p (with_cwd 0 x) s2 R); [by rewrite A5|rewrite Hh2; apply lookup_insert_eq| |].
    - unfold curproc_of, curthread_of. fold (pcpu s2). rewrite A1, A5. exact Hcur.
    - intros E k Hkm. apply (Hdes E). eapply mild_trans; [|exact Hkm]. rewrite Hk2. exists ca, (s_sem (k_sync (p_k s))). by destruct s as [[[] ? ? ? ? ? []]]. }
  intros [] s3 ([B1 B2 B3 B4 B5 B6 B7] & Hh3 & HR3). set (x3 := with_as 0 (with_cwd 0 x)) in *.
  assert (Hx3 : proc_heap s3 !! p = Some x3) by (rewrite Hh3; apply lookup_insert_eq).
  assert (Hq3 : quiet (pcpu s3)) by (by rewrite B5, A5).
  apply wp_bind. eapply wp_eq; [by apply (get_proc_eq p x3)|]. apply wp_bind, wp_KASSERT; [by apply Z.eqb_eq|].
  apply wp_bind. eapply (wp_eq _ _ tt s3).
  { rewrite (zoom_eq (S := pstate) (T := cpu) _ _ tt (pcpu s3)); [by rewrite with_pcpu_same|].
    unfold spinlock_cleanup. msimpl. fold (pcpu s3). by rewrite quiet_free. }
  apply wp_bind. eapply wp_mono.
  { apply (proc_end_waitpid_spec p x3 n s3 Hq3 Hx3); [exact (conj Hpid Hpid')|by rewrite B6, A6|by apply B7, A7]. }
  intros [] s4 (C1 & C2 & C3 & C4 & C5). apply wp_modify. split.
  2: { intros E. apply (HR (p_k s3)); [by apply HR3|]. eapply mild_trans; [exact C5|]. apply mild_procs. }
  unfold unregistered.
  change (proc_tab (set_procs (delete p (proc_heap s4)) s4)) with (proc_tab s4).
  change (s_sem (k_sync (p_k (set_procs (delete p (proc_heap s4)) s4)))) with (s_sem (k_sync (p_k s4))).
  rewrite C2, C4, B6, A6, B2, A2. split; [|split; [done|split; [|done]]].
  - change (delete p (proc_heap s4) = delete p (proc_heap s)). by rewrite C1, Hh3, Hh2, !delete_insert_eq.
  - change (last_i s4 = last_i s). by rewrite C3, B3, A3.
Qed.

(** C11: wait collects an exited process.  Once a process has exited (it has no thread and
    its semaphore a unit), [proc_wait] by another process returns its exit status at once,
    the process is gone from the heap and the table, so its pid can be given again, and
    its semaphore is destroyed; the other processes and the table stay consistent.  If it has
    an address space (in a VM system whose invariant holds, with the swap lock free, and
    whose pages are not on their way in or out), that is gone too: no frame belongs to its page
    table, every page of every other page table is as before and the invariant of the VM
    system holds. *)
Theorem proc_wait_collects s p x n t m bs sw table :
  ptab_wf s -> quiet (pcpu s) -> p <> kproc s -> curproc_of s <> p -> proc_heap s !! p = Some x ->
  p_numthreads x = 0 -> s_sem (k_sync (p_k s)) !! p_sem x = Some n -> 0 < n ->
  sleepers (sem_spl (p_sem x)) (k_sync (p_k s)) = [] ->
  (p_cwd x = 0 \/ exists m, vrefs s !! p_cwd x = Some m /\ 0 < m) ->
  (p_addrspace x <> 0 -> owns_memory (p_k s) t m bs sw (p_addrspace x) table) ->
  wp (proc_wait p) s (fun r s' => r = p_status x /\ proc_heap s' = delete p (proc_heap s) /\
    proc_tab s' = <[p_pid x := 0]> (proc_tab s) /\ ptab_wf s' /\
    s_sem (k_sync (p_k s')) = delete (p_sem x) (s_sem (k_sync (p_k s))) /\
    (p_addrspace x <> 0 -> memory_freed (p_k s) t sw (p_addrspace x) table (p_k s'))).
Proof.
  intros Hwf Hq Hk Hcur Hx Hnt Hn Hpos Hsl Hcwd Hmem. destruct (pt_reg s Hwf p x Hx) as (Hp & _).
  unfold proc_wait. apply wp_bind, wp_KASSERT; [by rewrite (proj2 (Z.eqb_neq p 0) Hp)|].
  apply wp_bind. eapply wp_eq; [reflexivity|]. apply wp_bind, wp_KASSERT; [by rewrite (proj2 (Z.eqb_neq p _) Hk)|].
  apply wp_bind. eapply wp_eq; [by apply get_proc_eq|]. apply wp_bind.
  eapply wp_eq; [apply p_sync; by apply (P_eq _ _ n)|]. set (s1 := set_k _ s).
  apply wp_bind. eapply wp_eq; [by apply (get_proc_eq p x)|]. apply wp_bind.
  assert (Hwf1 : ptab_wf s1) by (destruct Hwf; by split).
  assert (Hm1 : mild (p_k s) (p_k s1)) by (exists (curproc_as (k_as (p_k s))), (<[p_sem x := n - 1]> (s_sem (k_sync (p_k s)))); unfold s1; destruct s as [[[] ? ? ? ? ? []]]; reflexivity).
  eapply wp_mono; [apply (proc_destroy_spec s1 p x (n - 1) (memory_freed (p_k s) t sw (p_addrspace x) table) Hwf1); try done; [apply lookup_insert_eq|apply freed_closed|]|].
  { intros E k Hkm. pose proof (mild_trans _ _ _ Hm1 Hkm) as Hm0. eapply wp_mono; [apply (as_destroy_frees k t m bs sw _ table E); by eapply owns_mild; [apply Hmem|]|].
    intros [] k' (F1 & F2 & F3 & F4). split_and!; try done. by eapply freed_start. }
  intros [] s' [Hun HRf]. pose proof (unregistered_wf p x s1 s' Hwf1 Hx Hun) as Hwf'. destruct Hun as (E1 & E2 & _ & E4).
  apply wp_ret. split_and!; try done. rewrite E4. apply delete_insert_eq.
Qed.

End Theory.

(** ** Witnesses *)

Import Replacement.

Definition null_tab : gmap Z Z := list_to_map ((fun i => (i, 0)) <$> seqZ 0 (MAX_PROC + 1)).

Lemma null_tab_lookup i : null_tab !! i = if decide (0 <= i <= MAX_PROC) then Some 0 else None.
Proof.
  unfold null_tab. case_decide as Hi.
  - apply elem_of_list_to_map_1.
    + rewrite <- list_fmap_compose, (list_fmap_ext _ id), list_fmap_id by done. apply NoDup_seqZ.
    + apply list_elem_of_fmap. exists i. split; [done|]. apply elem_of_seqZ. lia.
  - apply not_elem_of_list_to_map_1. rewrite <- list_fmap_compose, (list_fmap_ext _ id), list_fmap_id by done.
    rewrite elem_of_seqZ. lia.
Qed.

(** A kernel process and a user process; the running thread belongs to [cur]. *)
Definition kernel_proc : proc := mk_proc "[kernel]" 1 0 0 0 1 21.
Definition user_proc (threads : Z) : proc := mk_proc "/bin/true" threads 5 0 7 2 22.
Definition two_tab : gmap Z Z := <[2 := 11]> (<[1 := 10]> null_tab).

(** The user's page table is in frames 1 and 2, its only page in frame 3. *)
Definition used_map : gmap Z cm_entry :=
  {[ 0 := mk_cm true true 1 None; 1 := mk_cm true true 1 None; 2 := mk_cm true true 1 None; 3 := mk_cm true false 1 (Some (pte0 0)) ]}.
Definition used_cm : cm_st := mk_cm_st (Some used_map) 4 1 0.
Definition used_ptes : gmap pteptr pt_entry := {[ pte0 0 := mk_pte 3 true false false ]}.
Definition used_layout : list block := [mk_block 1 true; mk_block 1 true; mk_block 1 true; mk_block 1 true].
Definition two_k (n : Z) : kstate :=
  mk_k (mk_sync boot_cpu [] ∅ {[ 21 := 0; 22 := n ]} {[ swap_lock := None; 1 := None ]}) ∅ (mk_tlb ∅ 0) used_cm
    (mk_pt_st {[ 1 := 0x80001000 ]} {[ row0 := 0x80002000 ]} used_ptes 2)
    (mk_swap_st (Some boot_swap) true) (mk_as_st {[ 5 := example_as 0 ]} None true) ∅ (mk_ram 0 0).
Definition two_procs (cur threads n : Z) : pstate :=
  mk_p (two_k n) {[ 10 := kernel_proc; 11 := user_proc threads ]} {[ 1 := mk_thread cur None ]} two_tab 2 1 10 ∅ [].

Lemma two_heap cur threads n p x :
  proc_heap (two_procs cur threads n) !! p = Some x -> p = 10 /\ x = kernel_proc \/ p = 11 /\ x = user_proc threads.
Proof. cbn [proc_heap two_procs]. rewrite lookup_insert, lookup_singleton. repeat case_decide; intros; simplify_eq; auto. Qed.

Lemma two_procs_wf cur threads n : ptab_wf (two_procs cur threads n).
Proof.
  split; cbn [proc_tab last_i two_procs]; unfold two_tab.
  - intros i. rewrite !lookup_insert_is_Some, null_tab_lookup. unfold MAX_PROC.
    case_decide; (split; [|intros]); try lia; intros; split_and?; try naive_solver lia.
    destruct (decide (2 = i)); [by left|right]. split; [done|]. destruct (decide (1 = i)); [by left|right]. by split; eauto.
  - unfold MAX_PROC. lia.
  - done.
  - intros i p. rewrite !lookup_insert_Some, null_tab_lookup.
    intros [[<- <-]|[_ [[<- <-]|[_ Hn]]]] Hp; [by exists (user_proc threads)|by exists kernel_proc|].
    by case_decide; simplify_eq.
  - by intros p x [[-> ->]|[-> ->]]%two_heap.
Qed.

Lemma proc_create_pid_witness :
  match proc_create "init" (Some (12, kernel_proc)) true 30 (two_procs 10 1 0) with
  | Ret r s' => r = 12 /\ ptab_wf s' /\ pcpu s' = pcpu (two_procs 10 1 0) /\ exists i, 1 <= i <= MAX_PROC /\ i <> 2 /\
      proc_heap s' = <[12 := mk_proc "init" 0 0 0 0 i 30]> (proc_heap (two_procs 10 1 0)) /\
      (forall q x, proc_heap (two_procs 10 1 0) !! q = Some x -> p_pid x <> i) /\
      (forall j, 1 <= j <= MAX_PROC -> circ 2 j < circ 2 i ->
         exists q x, proc_heap (two_procs 10 1 0) !! q = Some x /\ p_pid x = j)
  | Panic _ => forall j, 1 <= j <= MAX_PROC -> j <> 2 ->
      exists q x, proc_heap (two_procs 10 1 0) !! q = Some x /\ p_pid x = j
  | _ => False
  end.
Proof.
  apply (proc_create_pid "init" 12 kernel_proc 30 (two_procs 10 1 0) (two_procs_wf 10 1 0) boot_cpu_quiet); done.
Defined.

Lemma sys__exit_posts_witness :
  exists s', sys__exit (A := unit) 263 (two_procs 11 1 0) = Exited 263 s' /\
    proc_heap s' = <[11 := with_threads 0 (with_status 7 (user_proc 1))]> (proc_heap (two_procs 11 1 0)) /\
    proc_tab s' = two_tab /\ thread_heap s' !! 1 = Some (mk_thread 0 None) /\ zombies s' = [1] /\
    (exists xa', as_heap (k_as (p_k s')) !! 5 = Some xa' /\ as_active xa' = false) /\
    s_sem (k_sync (p_k s')) = <[22 := 1]> (s_sem (k_sync (two_k 0))) /\
    s_runq (k_sync (p_k s')) = [] ++ take 1 (sleepers (sem_spl 22) (k_sync (two_k 0))).
Proof.
  apply (sys__exit_posts (two_procs 11 1 0) 1 None 11 (user_proc 1) (example_as 0) 0 263 boot_cpu_quiet);
    try reflexivity; done.
Defined.

Lemma used_lookup f c : used_map !! f = Some c ->
  (f = 0 \/ f = 1 \/ f = 2) /\ c = mk_cm true true 1 None \/ f = 3 /\ c = mk_cm true false 1 (Some (pte0 0)).
Proof. unfold used_map. rewrite !lookup_insert, lookup_singleton. repeat case_decide; intros; simplify_eq; auto. Qed.

Lemma used_inv n : vm_inv (two_k n) used_ptes used_map used_layout boot_swap.
Proof.
  assert (Hp : forall p e, used_ptes !! p = Some e -> p = pte0 0 /\ e = mk_pte 3 true false false) by (unfold used_ptes; by intros p e [<- <-]%lookup_singleton_Some).
  split; [apply boot_cpu_quiet| | |apply boot_swap_ready|simpl; lia| |done|..].
  - exists None. split; [reflexivity|by left].
  - split; try done.
    + intros i. unfold used_map. rewrite !lookup_insert_is_Some, lookup_singleton_is_Some. simpl. lia.
    + do 4 (split; [split; [done|split; [by eexists|]]; simpl; intros j Hj; lia|]). done.
    + by eexists.
    + intros i e Hi [[_ ->]|[-> ->]]%used_lookup; [done|]. simpl in Hi. lia.
    + by intros i e [[_ ->]|[-> ->]]%used_lookup.
    + by intros i e p [[_ ->]|[-> ->]]%used_lookup.
  - split.
    + intros p e [-> ->]%Hp _ _. by eexists.
    + by intros f c p [[_ ->]|[-> ->]]%used_lookup [= <-].
    + by intros p e [-> ->]%Hp.
    + intros i k Hk. apply zero_refs_inv in Hk as ->. done.
    + by intros p e [-> ->]%Hp.
  - intros f c p [[_ ->]|[-> ->]]%used_lookup; [done|]. intros [= <-]. by eexists.
  - intros p e [-> ->]%Hp. by eexists.
  - intros f. apply zero_page_length.
Qed.

Lemma two_owns : owns_memory (two_k 1) used_ptes used_map used_layout boot_swap 5 1.
Proof.
  split; [apply used_inv|]. split; [done|]. split; [done|]. split; [by exists (example_as 0)|]. split; [done|]. split; [|split; [by eexists|done]].
  exists 0x80001000. split; [done|]. split.
  - exists 1, (mk_cm true true 1 None). done.
  - intros i row H. change (({[ row0 := 0x80002000 ]} : gmap (Z * Z) Z) !! (1, i) = Some row) in H. apply lookup_singleton_Some in H as [E <-]. injection E as <-. split; [done|]. split; [|done]. exists 2, (mk_cm true true 1 None). done.
  - intros i j row H H'. change (({[ row0 := 0x80002000 ]} : gmap (Z * Z) Z) !! (1, i) = Some row) in H. change (({[ row0 := 0x80002000 ]} : gmap (Z * Z) Z) !! (1, j) = Some row) in H'. apply lookup_singleton_Some in H as [E _]. apply lookup_singleton_Some in H' as [E' _]. unfold row0 in *. congruence.
  - by intros f c q [[_ ->]|[-> ->]]%used_lookup.
  - intros q e H _. unfold used_ptes in H. apply lookup_singleton_Some in H as [<- _]. done.
  - intros q _ e He _. exact He.
Qed.

Lemma proc_wait_collects_witness :
  wp (proc_wait 11) (two_procs 10 0 1) (fun r s' => r = 7 /\
    proc_heap s' = delete 11 (proc_heap (two_procs 10 0 1)) /\ proc_tab s' = <[2 := 0]> two_tab /\ ptab_wf s' /\
    s_sem (k_sync (p_k s')) = delete 22 (s_sem (k_sync (two_k 1))) /\
    (5 <> 0 -> memory_freed (two_k 1) used_ptes boot_swap 5 1 (p_k s'))).
Proof.
  apply (proc_wait_collects (two_procs 10 0 1) 11 (user_proc 0) 1 used_ptes used_map used_layout boot_swap 1 (two_procs_wf 10 0 1) boot_cpu_quiet);
    [discriminate|discriminate|reflexivity..|left; reflexivity|].
  - intros _. apply two_owns.
Defined.

End ProcTheory.
