(* ===== verification/Kmalloc.v ===== *)
(** * The kernel heap: kern/vm/kmalloc.c

    The subpage allocator: pages cut into blocks of one size, each with a free list
    threaded through the first word of its free blocks, described by [struct pageref]s
    that are themselves taken from pages found through [kheaproots].

    Pointers are addresses and 0 is NULL.  The pages come from [alloc_kpages] and go back
    with [free_kpages], through the interface [KPages]: the theorems on the heap hold for
    any page allocator that keeps its promise, and KmallocPages (HeapFree.v) shows that the one of
    vm_project.c does.  The debugging modes (SLOW, SLOWER, GUARDS, LABELS, CHECKBEEF) are
    off, as in the source. *)

From S2P Require Import Prelude Cpu Synch.

Module Kmalloc.
Import Cpu Synch.

(** ** The page allocator *)

(** A page allocator on the state [P], with a CPU for the spinlock.  [kp_inv p live]: the
    state is good, and [live] (address to number of pages) has been handed out. *)
Class KPages (P : Type) : Type := {
  kp_cpu :: Lens P cpu;
  alloc_kpages : Z -> M P Z;
  free_kpages : Z -> M P unit;
  kp_inv : P -> gmap Z Z -> Prop;
  kp_quiet : forall p live, kp_inv p live -> quiet (lens_get p);
  kp_range : forall p live va n, kp_inv p live -> live !! va = Some n ->
    MIPS_KSEG0 < va < 2 ^ 32 - n * PAGE_SIZE /\ va mod PAGE_SIZE = 0 /\ 0 < n;
  kp_disjoint : forall p live va n va' n', kp_inv p live -> live !! va = Some n -> live !! va' = Some n' ->
    va <> va' -> va + n * PAGE_SIZE <= va' \/ va' + n' * PAGE_SIZE <= va;
  kp_alloc : forall p live n, kp_inv p live -> 0 < n ->
    wps True (alloc_kpages n) p (fun va p' => (va = 0 /\ kp_inv p' live) \/
      (va <> 0 /\ live !! va = None /\ kp_inv p' (<[va := n]> live)));
  kp_free : forall p live va n, kp_inv p live -> live !! va = Some n ->
    wp (free_kpages va) p (fun _ p' => kp_inv p' (delete va live))
}.

(** ** Data *)

Definition NSIZES : Z := 8.
Definition sizes : list Z := [16; 32; 64; 128; 256; 512; 1024; 2048].
Definition size_of (blktype : Z) : Z := nth (Z.to_nat blktype) sizes 0.
Definition LARGEST_SUBPAGE_SIZE : Z := 2048.
Definition INVALID_OFFSET : Z := 0xffff.
Definition PAGEREF_SIZE : Z := 16.
Definition NPAGEREFS_PER_PAGE : Z := PAGE_SIZE / PAGEREF_SIZE.
Definition INUSE_WORDS : Z := NPAGEREFS_PER_PAGE / 32.
Definition NUM_PAGEREFPAGES : Z := 16.

(** struct pageref *)
Record pageref := mk_pr {
  next_samesize : Z;
  next_all : Z;
  pageaddr_and_blocktype : Z;
  freelist_offset : Z;            (* uint16_t *)
  nfree : Z                       (* uint16_t *)
}.
Definition zero_pr : pageref := mk_pr 0 0 0 0 0.

Definition PR_PAGEADDR (pr : pageref) : Z := Z.land (pageaddr_and_blocktype pr) PAGE_FRAME.
Definition PR_BLOCKTYPE (pr : pageref) : Z := Z.land (pageaddr_and_blocktype pr) 0xfff.
Definition MKPAB (pa blk : Z) : Z := Z.lor (Z.land pa PAGE_FRAME) (Z.land blk 0xfff).

(** struct kheap_root *)
Record kheap_root := mk_root {
  root_page : Z;
  pagerefs_inuse : gmap Z Z;      (* INUSE_WORDS words *)
  numinuse : Z
}.

(** The static variables, the pagerefs and the words of the heap pages. *)
Record kheap := mk_heap {
  kheaproots : gmap Z kheap_root;
  prefs : gmap Z pageref;
  sizebases : gmap Z Z;
  allbase : Z;
  words : gmap Z Z
}.

(** The static variables at boot: all zero. *)
Definition seqZ_map {A} (n : Z) (a : A) : gmap Z A := list_to_map ((fun i => (i, a)) <$> seqZ 0 n).
Definition zero_root : kheap_root := mk_root 0 (seqZ_map INUSE_WORDS 0) 0.
Definition heap0 : kheap := mk_heap (seqZ_map NUM_PAGEREFPAGES zero_root) ∅ (seqZ_map NSIZES 0) 0 ∅.

Definition kmalloc_spinlock : splid := ("kmalloc_spinlock", 0).

(** [for (k=1,j=0; k!=0; k<<=1,j++) if ((w & k) == 0)]: the first clear bit. *)
Fixpoint zero_bit (n : nat) (j w : Z) : option Z :=
  match n with
  | O => None
  | S n' => if Z.land w (Z.shiftl 1 j) =? 0 then Some j else zero_bit n' (j + 1) w
  end.

(** The index into [sizes] of the first size that fits. *)
Fixpoint blocktype_from (szs : list Z) (i clientsz : Z) : option Z :=
  match szs with
  | [] => None
  | sz :: szs' => if clientsz <=? sz then Some i else blocktype_from szs' (i + 1) clientsz
  end.

Section Ops.
Context {P : Type} `{KP : KPages P}.

Record kmst := mk_km {
  km_heap : kheap;
  km_pool : P
}.

#[refine, export] Instance km_heap_lens : Lens kmst kheap := {
  lens_get := km_heap; lens_set := fun h s => mk_km h (km_pool s)
}.
Proof. all: by intros; destruct s. Defined.

#[refine, export] Instance km_pool_lens : Lens kmst P := {
  lens_get := km_pool; lens_set := fun p s => mk_km (km_heap s) p
}.
Proof. all: by intros; destruct s. Defined.

#[refine, export] Instance km_cpu_lens : Lens kmst cpu := {
  lens_get := fun s => lens_get (km_pool s);
  lens_set := fun c s => mk_km (km_heap s) (lens_set c (km_pool s))
}.
Proof using KP.
  - intros c s. simpl. apply lens_get_set.
  - intros []. simpl. by rewrite lens_set_get.
  - intros c c' s. simpl. by rewrite lens_set_set.
Defined.

(** *** Accesses *)

Definition get_root (r : Z) : M kheap kheap_root := h ← get; deref (kheaproots h !! r).
Definition put_root (r : Z) (x : kheap_root) : M kheap unit :=
  modify (fun h => mk_heap (<[r := x]> (kheaproots h)) (prefs h) (sizebases h) (allbase h) (words h)).
Definition get_pr (p : Z) : M kheap pageref := h ← get; deref (prefs h !! p).
Definition put_pr (p : Z) (x : pageref) : M kheap unit :=
  modify (fun h => mk_heap (kheaproots h) (<[p := x]> (prefs h)) (sizebases h) (allbase h) (words h)).
Definition put_word (a v : Z) : M kheap unit :=
  modify (fun h => mk_heap (kheaproots h) (prefs h) (sizebases h) (allbase h) (<[a := v]> (words h))).
Definition get_word (a : Z) : M kheap Z := h ← get; deref (words h !! a).
Definition get_base (t : Z) : M kheap Z := h ← get; deref (sizebases h !! t).
Definition put_base (t v : Z) : M kheap unit :=
  modify (fun h => mk_heap (kheaproots h) (prefs h) (<[t := v]> (sizebases h)) (allbase h) (words h)).
Definition put_all (v : Z) : M kheap unit :=
  modify (fun h => mk_heap (kheaproots h) (prefs h) (sizebases h) v (words h)).

Definition fill_deadbeef (a len : Z) : M kheap unit :=
  for_loop (Z.to_nat (len / 4)) 0 (fun i => put_word (a + i * 4) 0xdeadbeef).

(** *** Pagerefs *)

(** Without the spinlock another thread may have set the page meanwhile; the second test
    is the code's. *)
Definition allocpagerefpage (r : Z) : M kmst unit :=
  root ← zoom (get_root r);
  _ ← KASSERT (root_page root =? 0);
  _ ← zoom (spinlock_release kmalloc_spinlock);
  va ← zoom (alloc_kpages 1);
  _ ← zoom (spinlock_acquire kmalloc_spinlock);
  if va =? 0 then mret tt else
  _ ← KASSERT (va mod PAGE_SIZE =? 0);
  root ← zoom (get_root r);
  if negb (root_page root =? 0) then
    _ ← zoom (spinlock_release kmalloc_spinlock);
    _ ← zoom (free_kpages va);
    _ ← zoom (spinlock_acquire kmalloc_spinlock);
    root ← zoom (get_root r);
    KASSERT (negb (root_page root =? 0))
  else zoom (put_root r (mk_root va (pagerefs_inuse root) (numinuse root))).

(** The pageref of bit [j] of word [i] of root [r], once its bit is set. *)
Definition take_pageref (r i j w : Z) : M kmst Z :=
  root ← zoom (get_root r);
  _ ← zoom (put_root r (mk_root (root_page root)
        (<[i := Z.lor w (Z.shiftl 1 j)]> (pagerefs_inuse root)) (numinuse root + 1)));
  _ ← when (root_page root =? 0) (allocpagerefpage r);
  root ← zoom (get_root r);
  if root_page root =? 0 then mret 0
  else mret (root_page root + PAGEREF_SIZE * (i * 32 + j)).

(** 0 (NULL) when none is left. *)
Definition allocpageref : M kmst Z :=
  p ← for_early (Z.to_nat NUM_PAGEREFPAGES) 0 (fun whichroot =>
        root ← zoom (get_root whichroot);
        if NPAGEREFS_PER_PAGE <=? numinuse root then mret None else
        for_early (Z.to_nat INUSE_WORDS) 0 (fun i =>
          root ← zoom (get_root whichroot);
          w ← deref (pagerefs_inuse root !! i);
          if w =? 0xffffffff then mret None
          else match zero_bit 32 0 w with
               | None => panic "KASSERT"
               | Some j => p ← take_pageref whichroot i j w; mret (Some p)
               end));
  mret (default 0 p).

Definition freepageref (p : Z) : M kheap unit :=
  r ← for_early (Z.to_nat NUM_PAGEREFPAGES) 0 (fun whichroot =>
        root ← get_root whichroot;
        if root_page root =? 0 then
          _ ← KASSERT (numinuse root =? 0); mret None
        else
          let j := u32 ((p - root_page root) / PAGEREF_SIZE) in
          if j <? NPAGEREFS_PER_PAGE then
            let i := j / 32 in
            let k := Z.shiftl 1 (j mod 32) in
            w ← deref (pagerefs_inuse root !! i);
            _ ← KASSERT (negb (Z.land w k =? 0));
            _ ← KASSERT (0 <? numinuse root);
            _ ← put_root whichroot (mk_root (root_page root)
                  (<[i := Z.ldiff w k]> (pagerefs_inuse root)) (numinuse root - 1));
            mret (Some tt)
          else mret None);
  KASSERT (match r with Some _ => true | None => false end).

(** *** Lists of pagerefs *)

(** The loop of [remove_lists] over one of the two lists: the pointer [guy] that leads to
    [pr] is made to lead to its successor.  Returns the new base.  [prev] is the pageref
    whose link [guy] is, 0 for the base itself. *)
Fixpoint unlink (fuel : nat) (nxt : pageref -> Z) (set_nxt : Z -> pageref -> pageref) (prev cur pr base : Z)
    : M kheap Z :=
  match fuel with
  | O => out_of_fuel
  | S fuel' =>
      if cur =? 0 then mret base
      else
        x ← get_pr cur;
        if cur =? pr then
          if prev =? 0 then mret (nxt x)
          else
            y ← get_pr prev;
            _ ← put_pr prev (set_nxt (nxt x) y);
            mret base
        else unlink fuel' nxt set_nxt cur (nxt x) pr base
  end.

Definition set_samesize (v : Z) (x : pageref) : pageref :=
  mk_pr v (next_all x) (pageaddr_and_blocktype x) (freelist_offset x) (nfree x).
Definition set_all (v : Z) (x : pageref) : pageref :=
  mk_pr (next_samesize x) v (pageaddr_and_blocktype x) (freelist_offset x) (nfree x).
Definition set_free (off n : Z) (x : pageref) : pageref :=
  mk_pr (next_samesize x) (next_all x) (pageaddr_and_blocktype x) off n.

(** No list is longer than the pagerefs there are. *)
Definition TOTAL_PAGEREFS : nat := Z.to_nat (NUM_PAGEREFPAGES * NPAGEREFS_PER_PAGE).

Definition remove_lists (pr blktype : Z) : M kheap unit :=
  _ ← KASSERT ((0 <=? blktype) && (blktype <? NSIZES));
  b ← get_base blktype;
  b' ← unlink (S TOTAL_PAGEREFS) next_samesize set_samesize 0 b pr b;
  _ ← put_base blktype b';
  h ← get;
  a' ← unlink (S TOTAL_PAGEREFS) next_all set_all 0 (allbase h) pr (allbase h);
  put_all a'.

(** *** Allocation *)

Definition blocktype (clientsz : Z) : M kmst Z :=
  match blocktype_from sizes 0 clientsz with
  | Some i => mret i
  | None => panic "Subpage allocator cannot handle allocation of size"
  end.

(** The first page of the size with a free block (0: none). *)
Fixpoint find_page (fuel : nat) (pr blktype : Z) : M kheap Z :=
  match fuel with
  | O => out_of_fuel
  | S fuel' =>
      if pr =? 0 then mret 0
      else
        x ← get_pr pr;
        _ ← KASSERT (PR_BLOCKTYPE x =? blktype);
        if 0 <? nfree x then mret pr else find_page fuel' (next_samesize x) blktype
  end.

(** doalloc: takes the first block of the page's free list. *)
Definition doalloc (pr : Z) : M kheap Z :=
  x ← get_pr pr;
  _ ← KASSERT (freelist_offset x <? PAGE_SIZE);
  let prpage := PR_PAGEADDR x in
  let retptr := u32 (prpage + freelist_offset x) in
  fl ← get_word retptr;
  let n := u16 (nfree x - 1) in
  if negb (fl =? 0) then
    _ ← KASSERT (0 <? n);
    _ ← KASSERT (u32 (fl - prpage) <? PAGE_SIZE);
    _ ← put_pr pr (set_free (u16 (u32 (fl - prpage))) n x);
    mret retptr
  else
    _ ← KASSERT (n =? 0);
    _ ← put_pr pr (set_free INVALID_OFFSET n x);
    mret retptr.

(** The free list of a fresh page, and the page at the head of both lists. *)
Definition setup_page (pr prpage blktype : Z) : M kheap unit :=
  let sz := size_of blktype in
  let n := PAGE_SIZE / sz in
  _ ← put_word prpage 0;
  _ ← for_loop (Z.to_nat (n - 1)) 1 (fun i =>
        _ ← put_word (u32 (prpage + i * sz)) (u32 (prpage + (i - 1) * sz));
        KASSERT (negb (u32 (prpage + i * sz) =? u32 (prpage + (i - 1) * sz))));
  let off := u16 ((n - 1) * sz) in
  _ ← KASSERT (off =? (n - 1) * sz);
  b ← get_base blktype;
  h ← get;
  _ ← put_pr pr (mk_pr b (allbase h) (MKPAB prpage blktype) off (u16 n));
  _ ← put_base blktype pr;
  put_all pr.

Definition subpage_kmalloc (sz : Z) : M kmst Z :=
  blktype ← blocktype sz;
  _ ← zoom (spinlock_acquire kmalloc_spinlock);
  b ← zoom (get_base blktype);
  pr ← zoom (find_page (S TOTAL_PAGEREFS) b blktype);
  if negb (pr =? 0) then
    ret ← zoom (doalloc pr);
    _ ← zoom (spinlock_release kmalloc_spinlock);
    mret ret
  else
    _ ← zoom (spinlock_release kmalloc_spinlock);
    prpage ← zoom (alloc_kpages 1);
    if prpage =? 0 then mret 0 else
    _ ← KASSERT (prpage mod PAGE_SIZE =? 0);
    _ ← zoom (spinlock_acquire kmalloc_spinlock);
    pr ← allocpageref;
    if pr =? 0 then
      _ ← zoom (spinlock_release kmalloc_spinlock);
      _ ← zoom (free_kpages prpage);
      mret 0
    else
      _ ← zoom (setup_page pr prpage blktype);
      ret ← zoom (doalloc pr);
      _ ← zoom (spinlock_release kmalloc_spinlock);
      mret ret.

(** *** Freeing *)

(** The page that holds the address (0: none). *)
Fixpoint find_owner (fuel : nat) (pr ptraddr : Z) : M kheap Z :=
  match fuel with
  | O => out_of_fuel
  | S fuel' =>
      if pr =? 0 then mret 0
      else
        x ← get_pr pr;
        _ ← KASSERT ((0 <=? PR_BLOCKTYPE x) && (PR_BLOCKTYPE x <? NSIZES));
        if (PR_PAGEADDR x <=? ptraddr) && (ptraddr <? u32 (PR_PAGEADDR x + PAGE_SIZE)) then mret pr
        else find_owner fuel' (next_all x) ptraddr
  end.

(** The block goes to the head of the free list; true when the whole page is free. *)
Definition push_block (pr ptraddr : Z) : M kheap bool :=
  x ← get_pr pr;
  let prpage := PR_PAGEADDR x in
  let sz := size_of (PR_BLOCKTYPE x) in
  let offset := u32 (ptraddr - prpage) in
  if (PAGE_SIZE <=? offset) || negb (offset mod sz =? 0) then panic "kfree: subpage free of invalid addr" else
  _ ← fill_deadbeef ptraddr sz;
  let fl := u32 (prpage + offset) in
  _ ← (if freelist_offset x =? INVALID_OFFSET then put_word fl 0
       else
         _ ← put_word fl (u32 (prpage + freelist_offset x));
         KASSERT (negb (fl =? u32 (prpage + freelist_offset x))));
  let n := u16 (nfree x + 1) in
  _ ← put_pr pr (set_free (u16 offset) n x);
  _ ← KASSERT (n <=? PAGE_SIZE / sz);
  mret (n =? PAGE_SIZE / sz).

(** 0, or -1 when the address is on no page of the heap. *)
Definition subpage_kfree (ptr : Z) : M kmst Z :=
  _ ← zoom (spinlock_acquire kmalloc_spinlock);
  h ← zoom (get (S := kheap));
  pr ← zoom (find_owner (S TOTAL_PAGEREFS) (allbase h) ptr);
  if pr =? 0 then
    _ ← zoom (spinlock_release kmalloc_spinlock);
    mret (-1)
  else
    x ← zoom (get_pr pr);
    whole ← zoom (push_block pr ptr);
    if (whole : bool) then
      _ ← zoom (remove_lists pr (PR_BLOCKTYPE x));
      _ ← zoom (freepageref pr);
      _ ← zoom (spinlock_release kmalloc_spinlock);
      _ ← zoom (free_kpages (PR_PAGEADDR x));
      mret 0
    else
      _ ← zoom (spinlock_release kmalloc_spinlock);
      mret 0.

Definition kmalloc (sz : Z) : M kmst Z :=
  if LARGEST_SUBPAGE_SIZE <=? sz then
    let npages := u32 (sz + PAGE_SIZE - 1) / PAGE_SIZE in
    address ← zoom (alloc_kpages npages);
    if address =? 0 then mret 0 else
    _ ← KASSERT (address mod PAGE_SIZE =? 0);
    mret address
  else subpage_kmalloc sz.

Definition kfree (ptr : Z) : M kmst unit :=
  if ptr =? 0 then mret tt
  else
    r ← subpage_kfree ptr;
    if negb (r =? 0) then
      _ ← KASSERT (ptr mod PAGE_SIZE =? 0);
      zoom (free_kpages ptr)
    else mret tt.

End Ops.
#[global] Arguments kmst P : clear implicits.
End Kmalloc.
