(* ===== verification/HeapLists.v ===== *)
(** * Linked lists and pageref pools of the kernel heap

    The lists of kmalloc.c as sequences: what [find_page], [find_owner] and [unlink] do on
    a chain of links, and what [allocpageref] and [freepageref] do on the bitmaps. *)

From S2P Require Import Prelude Cpu Synch Kmalloc.

Module HeapLists.
Import Cpu Synch Kmalloc.

(** ** Chains *)

(** Starting from [b] and following [nxt] one meets exactly [l], then NULL. *)
Fixpoint chain (nxt : Z -> option Z) (b : Z) (l : list Z) : Prop :=
  match l with
  | [] => b = 0
  | x :: l' => b = x /\ x <> 0 /\ exists b', nxt x = Some b' /\ chain nxt b' l'
  end.

Lemma chain_ext nxt nxt' b l :
  chain nxt b l -> (forall x, x ∈ l -> nxt' x = nxt x) -> chain nxt' b l.
Proof.
  revert b. induction l as [|x l IH]; simpl; [done|]. intros b (-> & Hx & b' & Hn & Hc) He.
  split; [done|]. split; [done|]. exists b'. split; [rewrite He; [done|by left]|].
  apply IH; [done|]. intros y Hy. apply He. by right.
Qed.

Lemma chain_nil_iff nxt b l : chain nxt b l -> b = 0 <-> l = [].
Proof. destruct l; simpl; [done|]. intros (-> & Hx & _). done. Qed.

(** The list minus one element: its predecessor is made to skip it. *)
Lemma chain_app nxt b l1 l2 :
  chain nxt b (l1 ++ l2) -> exists b2, chain nxt b2 l2 /\
    forall nxt', (forall x, x ∈ l1 -> nxt' x = nxt x) -> forall l3, chain nxt' b2 l3 -> chain nxt' b (l1 ++ l3).
Proof.
  revert b. induction l1 as [|x l1 IH]; simpl; intros b H; [by exists b|].
  destruct H as (-> & Hx & b' & Hn & Hc). destruct (IH b' Hc) as (b2 & H2 & Hg).
  exists b2. split; [done|]. intros nxt' He l3 H3. split; [done|]. split; [done|]. exists b'.
  split; [rewrite He; [done|by left]|]. apply Hg; [|done]. intros y Hy. apply He. by right.
Qed.

Lemma chain_cons nxt b x l :
  x <> 0 -> nxt x = Some b -> chain nxt b l -> chain nxt x (x :: l).
Proof. simpl. eauto. Qed.

Lemma in_split (p : Z) l : p ∈ l -> NoDup l -> exists l1 l2, l = l1 ++ (p :: l2) /\ (p ∉ l1) /\ (p ∉ l2).
Proof.
  intros (l1 & l2 & ->)%list_elem_of_split Hnd. exists l1, l2. split; [done|].
  apply NoDup_app in Hnd as (_ & Hd & Hnd). apply NoDup_cons in Hnd as [H2 _].
  split; [|done]. intros H1. apply (Hd p H1). by left.
Qed.

(** ** Walking the lists *)

Definition with_prefs (P : gmap Z pageref) (h : kheap) : kheap :=
  mk_heap (kheaproots h) P (sizebases h) (allbase h) (words h).

Lemma get_pr_eq h p x : prefs h !! p = Some x -> get_pr p h = Ret x h.
Proof. intros Hx. unfold get_pr. msimpl. by rewrite Hx. Qed.

(** The link of a list, as a function of the address. *)
Definition link (P : gmap Z pageref) (f : pageref -> Z) (p : Z) : option Z := f <$> P !! p.

Lemma link_some P f p v : link P f p = Some v -> exists x, P !! p = Some x /\ f x = v.
Proof. unfold link. destruct (P !! p); simpl; [|done]. intros [= <-]. eauto. Qed.

Lemma find_page_spec h t l : forall b fuel,
  chain (link (prefs h) next_samesize) b l -> (length l < fuel)%nat ->
  (forall p x, p ∈ l -> prefs h !! p = Some x -> PR_BLOCKTYPE x = t) ->
  exists p, find_page fuel b t h = Ret p h /\
    (p = 0 \/ p ∈ l /\ exists x, prefs h !! p = Some x /\ 0 < nfree x).
Proof.
  induction l as [|q l IH]; intros b fuel Hc Hf Ht; (destruct fuel as [|fuel]; [simpl in Hf; lia|]).
  - simpl in Hc. subst b. exists 0. split; [done|by left].
  - destruct Hc as (-> & Hq & b' & Hl & Hc). apply link_some in Hl as (x & Hx & <-).
    cbn [find_page]. rewrite (proj2 (Z.eqb_neq q 0) Hq). rewrite (run_bind _ _ _ _ _ (get_pr_eq h q x Hx)).
    rewrite (run_bind _ _ h tt h) by (unfold KASSERT; rewrite (Ht q x ltac:(by left) Hx); by rewrite Z.eqb_refl).
    destruct (Z.ltb_spec 0 (nfree x)).
    + exists q. split; [done|]. right. split; [by left|eauto].
    + destruct (IH (next_samesize x) fuel Hc) as (p & Hp & Hor); [simpl in Hf; lia| |].
      { intros p y Hp. apply Ht. by right. }
      exists p. split; [done|]. destruct Hor as [|[Hin Hex]]; [by left|right]. split; [by right|done].
Qed.

(** The page that holds an address, if there is one. *)
Definition holds (x : pageref) (a : Z) : bool :=
  (PR_PAGEADDR x <=? a) && (a <? u32 (PR_PAGEADDR x + PAGE_SIZE)).

Lemma find_owner_spec h a l : forall b fuel,
  chain (link (prefs h) next_all) b l -> (length l < fuel)%nat ->
  (forall p x, p ∈ l -> prefs h !! p = Some x -> 0 <= PR_BLOCKTYPE x < NSIZES) ->
  exists p, find_owner fuel b a h = Ret p h /\
    (p = 0 /\ (forall q x, q ∈ l -> prefs h !! q = Some x -> holds x a = false) \/
     p <> 0 /\ p ∈ l /\ exists x, prefs h !! p = Some x /\ holds x a = true).
Proof.
  induction l as [|q l IH]; intros b fuel Hc Hf Ht; (destruct fuel as [|fuel]; [simpl in Hf; lia|]).
  - simpl in Hc. subst b. exists 0. split; [done|]. left. split; [done|]. by intros q x ?%not_elem_of_nil.
  - destruct Hc as (-> & Hq & b' & Hl & Hc). apply link_some in Hl as (x & Hx & <-).
    cbn [find_owner]. rewrite (proj2 (Z.eqb_neq q 0) Hq). rewrite (run_bind _ _ _ _ _ (get_pr_eq h q x Hx)).
    destruct (Ht q x ltac:(by left) Hx) as [T1 T2].
    rewrite (run_bind _ _ h tt h) by (unfold KASSERT; by rewrite (proj2 (Z.leb_le _ _) T1), (proj2 (Z.ltb_lt _ _) T2)).
    fold (holds x a). destruct (holds x a) eqn:Eh.
    + exists q. split; [done|]. right. split; [done|]. split; [by left|eauto].
    + destruct (IH (next_all x) fuel Hc) as (p & Hp & Hor); [simpl in Hf; lia| |].
      { intros p y Hp. apply Ht. by right. }
      exists p. split; [done|]. destruct Hor as [[-> Hno]|(Hp0 & Hin & Hex)].
      * left. split; [done|]. intros r y [->|Hr]%elem_of_cons Hy; [congruence|by eapply Hno].
      * right. split; [done|]. split; [by right|done].
Qed.

(** ** Unlinking *)

(** Only the link of some pagerefs changed. *)
Definition relinked (set_nxt : Z -> pageref -> pageref) (P P' : gmap Z pageref) : Prop :=
  forall p, P' !! p = P !! p \/ exists x v, P !! p = Some x /\ P' !! p = Some (set_nxt v x).

Lemma unlink_spec nxt set_nxt pr v l2 h base :
  (forall v x, nxt (set_nxt v x) = v) ->
  forall l1 prev cur fuel,
  chain (link (prefs h) nxt) cur (l1 ++ pr :: l2) -> pr ∉ l1 -> (length l1 < fuel)%nat ->
  link (prefs h) nxt pr = Some v -> (prev = 0 \/ is_Some (prefs h !! prev)) ->
  let q := default prev (last l1) in
  exists P', unlink fuel nxt set_nxt prev cur pr base h =
      Ret (if q =? 0 then v else base) (with_prefs P' h) /\
    (q = 0 -> P' = prefs h) /\
    (q <> 0 -> exists y, prefs h !! q = Some y /\ P' = <[q := set_nxt v y]> (prefs h)).
Proof.
  intros Hlens. induction l1 as [|r l1 IH]; intros prev cur fuel Hc Hnot Hf Hv Hprev;
    (destruct fuel as [|fuel]; [simpl in Hf; lia|]); destruct Hc as (-> & Hr & b' & Hl & Hc).
  - apply link_some in Hl as (x & Hx & <-). apply link_some in Hv as (x' & Hx' & <-).
    rewrite Hx in Hx'. injection Hx' as <-. cbn [unlink].
    rewrite (proj2 (Z.eqb_neq pr 0) Hr). rewrite (run_bind _ _ _ _ _ (get_pr_eq h pr x Hx)), Z.eqb_refl. simpl.
    destruct (Z.eqb_spec prev 0) as [->|Hp0].
    + exists (prefs h). split; [by destruct h|]. by split.
    + destruct Hprev as [|[y Hy]]; [done|]. rewrite (run_bind _ _ _ _ _ (get_pr_eq h prev y Hy)).
      exists (<[prev := set_nxt (nxt x) y]> (prefs h)). split; [done|]. split; [done|]. eauto.
  - apply link_some in Hl as (x & Hx & <-). cbn [unlink].
    rewrite (proj2 (Z.eqb_neq r 0) Hr). rewrite (run_bind _ _ _ _ _ (get_pr_eq h r x Hx)).
    destruct (Z.eqb_spec r pr) as [->|Hne]; [exfalso; apply Hnot; by left|].
    assert (Hn : pr ∉ l1) by (intros ?; apply Hnot; by right).
    specialize (IH r (nxt x) fuel Hc Hn ltac:(simpl in Hf; lia) Hv ltac:(right; by eexists)).
    replace (default prev (last (r :: l1))) with (default r (last l1)); [exact IH|].
    rewrite last_cons. by destruct (last l1).
Qed.

Lemma relinked_one set_nxt P q y v : P !! q = Some y -> relinked set_nxt P (<[q := set_nxt v y]> P).
Proof.
  intros Hy p. destruct (decide (q = p)) as [<-|Hne].
  - right. exists y, v. by rewrite lookup_insert_eq.
  - left. by rewrite lookup_insert_ne.
Qed.

(** From the base, the chain loses exactly [pr]. *)
Lemma unlink_top nxt set_nxt pr l1 l2 h base fuel :
  (forall v x, nxt (set_nxt v x) = v) ->
  chain (link (prefs h) nxt) base (l1 ++ pr :: l2) -> NoDup (l1 ++ pr :: l2) -> (length l1 < fuel)%nat ->
  exists base' P', unlink fuel nxt set_nxt 0 base pr base h = Ret base' (with_prefs P' h) /\
    chain (link P' nxt) base' (l1 ++ l2) /\ relinked set_nxt (prefs h) P' /\
    (forall p, p ∉ l1 -> P' !! p = prefs h !! p).
Proof.
  intros Hlens Hc Hnd Hf. pose proof Hnd as (Hnd1 & Hdis & Hnd2)%NoDup_app. apply NoDup_cons in Hnd2 as [Hp2 Hnd2].
  assert (Hp1 : pr ∉ l1) by (intros H; apply (Hdis pr H); by left).
  destruct (chain_app _ _ _ _ Hc) as (b2 & H2 & _). destruct H2 as (-> & Hpr & v & Hv & Hc2).
  destruct (unlink_spec nxt set_nxt pr v l2 h base Hlens l1 0 base fuel Hc Hp1 Hf Hv ltac:(by left)) as (P' & Hrun & Hz & Hnz).
  eexists _, P'. split; [exact Hrun|]. clear Hrun Hf. destruct l1 as [|q l1 _] using rev_ind.
  - simpl in *. rewrite (Hz eq_refl). split; [|split; [by left|done]].
    destruct Hc as (-> & _ & v' & Hv' & Hc). congruence.
  - rewrite last_snoc in *. simpl in Hz, Hnz |- *. rewrite <- app_assoc in Hc. simpl in Hc.
    destruct (chain_app _ _ _ _ Hc) as (b3 & (-> & Hq & b4 & Hl & _) & Hg).
    destruct (Hnz Hq) as (y & Hy & ->). rewrite (proj2 (Z.eqb_neq q 0) Hq).
    apply NoDup_app in Hnd1 as (_ & Hd1 & _).
    assert (Hq1 : q ∉ l1) by (intros H; apply (Hd1 q H); by left).
    assert (Hq2 : q ∉ l2) by (intros H; apply (Hdis q); [apply elem_of_app; right; by left|by right]).
    split; [|split; [by apply relinked_one|]].
    + rewrite <- app_assoc. simpl. apply Hg.
      * intros x Hx. unfold link. rewrite lookup_insert_ne; [done|]. by intros <-.
      * split; [done|]. split; [done|]. exists v. unfold link at 1. rewrite lookup_insert_eq. simpl.
        rewrite Hlens. split; [done|]. eapply chain_ext; [done|]. intros x Hx. unfold link.
        rewrite lookup_insert_ne; [done|]. by intros <-.
    + intros p Hp. rewrite lookup_insert_ne; [done|]. intros <-. apply Hp, elem_of_app. right. by left.
Qed.

(** ** Bits *)

Lemma land_bit w j : 0 <= j -> (Z.land w (Z.shiftl 1 j) =? 0) = negb (Z.testbit w j).
Proof.
  intros Hj. rewrite Z.shiftl_1_l. destruct (Z.testbit w j) eqn:E; simpl.
  - apply Z.eqb_neq. intros H0. assert (Hb : Z.testbit (Z.land w (2 ^ j)) j = true).
    { rewrite Z.land_spec, E, Z.pow2_bits_true by done. done. }
    by rewrite H0, Z.testbit_0_l in Hb.
  - apply Z.eqb_eq, Z.bits_inj'. intros i Hi. rewrite Z.land_spec, Z.testbit_0_l, Z.pow2_bits_eqb by done.
    destruct (Z.eqb_spec j i) as [<-|]; [by rewrite E|apply andb_false_r].
Qed.

(** A 32-bit word. *)
Definition word_ok (w : Z) : Prop := 0 <= w /\ forall i, 32 <= i -> Z.testbit w i = false.

Lemma zero_bit_spec n : forall j w, 0 <= j ->
  match zero_bit n j w with
  | Some i => j <= i < j + Z.of_nat n /\ Z.testbit w i = false
  | None => forall i, j <= i < j + Z.of_nat n -> Z.testbit w i = true
  end.
Proof.
  induction n as [|n IH]; intros j w Hj; simpl; [lia|]. rewrite land_bit by done.
  destruct (Z.testbit w j) eqn:E; simpl; [|split; [lia|done]].
  specialize (IH (j + 1) w ltac:(lia)). destruct (zero_bit n (j + 1) w) as [i|].
  - split; [lia|apply IH].
  - intros i Hi. destruct (decide (i = j)) as [->|]; [done|]. apply IH. lia.
Qed.

Lemma word_full w : word_ok w -> (forall i, 0 <= i < 32 -> Z.testbit w i = true) -> w = 0xffffffff.
Proof.
  intros [_ Hhi] Hlo. change 0xffffffff with (Z.ones 32). apply Z.bits_inj'. intros i Hi.
  destruct (decide (i < 32)).
  - rewrite Hlo, Z.ones_spec_low by lia. done.
  - rewrite Hhi, Z.ones_spec_high by lia. done.
Qed.

Lemma zero_bit_found w : word_ok w -> w <> 0xffffffff ->
  exists j, zero_bit 32 0 w = Some j /\ 0 <= j < 32 /\ Z.testbit w j = false.
Proof.
  intros Hw Hne. pose proof (zero_bit_spec 32 0 w ltac:(lia)) as H. destruct (zero_bit 32 0 w) as [j|].
  - exists j. split; [done|]. split; [lia|apply H].
  - exfalso. apply Hne, word_full; [done|]. intros i Hi. apply H. lia.
Qed.

Lemma set_bit_ok w j : word_ok w -> 0 <= j < 32 -> word_ok (Z.lor w (Z.shiftl 1 j)) /\
  forall i, 0 <= i -> Z.testbit (Z.lor w (Z.shiftl 1 j)) i = bool_decide (i = j) || Z.testbit w i.
Proof.
  intros [H0 Hhi] Hj. change (Z.lor w (Z.shiftl 1 j)) with (Z.setbit w j).
  assert (Hb : forall i, 0 <= i -> Z.testbit (Z.setbit w j) i = bool_decide (i = j) || Z.testbit w i).
  { intros i Hi. rewrite Z.setbit_eqb by lia. f_equal. rewrite bool_decide_decide.
    destruct (Z.eqb_spec j i), (decide (i = j)); congruence. }
  split; [|done]. split.
  - apply Z.lor_nonneg. split; [done|]. apply Z.shiftl_nonneg. lia.
  - intros i Hi. rewrite Hb, Hhi, bool_decide_eq_false_2 by lia. done.
Qed.

Lemma clear_bit_ok w j : word_ok w -> 0 <= j < 32 -> word_ok (Z.ldiff w (Z.shiftl 1 j)) /\
  forall i, 0 <= i -> Z.testbit (Z.ldiff w (Z.shiftl 1 j)) i = negb (bool_decide (i = j)) && Z.testbit w i.
Proof.
  intros [H0 Hhi] Hj. change (Z.ldiff w (Z.shiftl 1 j)) with (Z.clearbit w j).
  assert (Hb : forall i, 0 <= i -> Z.testbit (Z.clearbit w j) i = negb (bool_decide (i = j)) && Z.testbit w i).
  { intros i Hi. rewrite Z.clearbit_eqb by lia. rewrite andb_comm. f_equal. f_equal. rewrite bool_decide_decide.
    destruct (Z.eqb_spec j i), (decide (i = j)); congruence. }
  split; [|done]. split.
  - apply Z.ldiff_nonneg. left. done.
  - intros i Hi. rewrite Hb, Hhi by lia. apply andb_false_r.
Qed.

(** ** One page of pagerefs *)

(** [X]: the indices in use. *)
Record root_wf (x : kheap_root) (X : gset Z) : Prop := mk_root_wf {
  ro_dom : forall i, is_Some (pagerefs_inuse x !! i) <-> 0 <= i < INUSE_WORDS;
  ro_word : forall i w, pagerefs_inuse x !! i = Some w -> word_ok w;
  ro_bits : forall j, j ∈ X <-> 0 <= j < NPAGEREFS_PER_PAGE /\
    exists w, pagerefs_inuse x !! (j / 32) = Some w /\ Z.testbit w (j mod 32) = true;
  ro_count : numinuse x = Z.of_nat (size X)
}.

Lemma bit_index i j : 0 <= j < 32 -> (i * 32 + j) / 32 = i /\ (i * 32 + j) mod 32 = j.
Proof.
  intros Hj. split; [rewrite Z.div_add_l, Z.div_small by lia; lia|].
  rewrite Z.add_comm, Z.mod_add, Z.mod_small by lia. done.
Qed.

(** Word [i] is replaced by one that differs in bit [j]. *)
Lemma bits_upd x X i j w w' (b : bool) :
  root_wf x X -> pagerefs_inuse x !! i = Some w -> 0 <= j < 32 ->
  (forall k, 0 <= k -> Z.testbit w' k = if decide (k = j) then b else Z.testbit w k) ->
  forall k, (0 <= k < NPAGEREFS_PER_PAGE /\ exists w0, <[i := w']> (pagerefs_inuse x) !! (k / 32) = Some w0 /\
      Z.testbit w0 (k mod 32) = true) <-> (if decide (k = i * 32 + j) then b = true else k ∈ X).
Proof.
  intros [Hd Hw Hb Hc] Hi Hj Ht k. assert (Hir : 0 <= i < INUSE_WORDS) by (apply Hd; by eexists).
  destruct (bit_index i j Hj) as [E1 E2]. case_decide as Ek.
  - subst k. rewrite E1, E2, lookup_insert_eq. split.
    + intros (_ & w0 & [= <-] & H). rewrite Ht, decide_True in H by (try done; lia). done.
    + intros ->. split; [change NPAGEREFS_PER_PAGE with 256; change INUSE_WORDS with 8 in Hir; lia|].
      exists w'. split; [done|]. rewrite Ht, decide_True by (try done; lia). done.
  - rewrite Hb. f_equiv. pose proof (Z.mod_pos_bound k 32 ltac:(lia)).
    destruct (decide (i = k / 32)) as [Ei|Hne]; [|by rewrite lookup_insert_ne].
    rewrite <- Ei, lookup_insert_eq, Hi. pose proof (Z.div_mod k 32 ltac:(lia)).
    assert (Hs : Z.testbit w' (k mod 32) = Z.testbit w (k mod 32)) by (rewrite Ht, decide_False by lia; done).
    split; intros (w0 & [= <-] & H1); eexists; split; (done || congruence).
Qed.

Lemma root_wf_set x X i j w pg :
  root_wf x X -> pagerefs_inuse x !! i = Some w -> 0 <= j < 32 -> Z.testbit w j = false ->
  (i * 32 + j ∉ X) /\
  root_wf (mk_root pg (<[i := Z.lor w (Z.shiftl 1 j)]> (pagerefs_inuse x)) (numinuse x + 1)) ({[i * 32 + j]} ∪ X).
Proof.
  intros Hwf Hi Hj Hbit. pose proof Hwf as [Hd Hw Hb Hc].
  assert (Hnin : i * 32 + j ∉ X).
  { intros (_ & w' & Hw' & Ht)%Hb. destruct (bit_index i j Hj) as [E1 E2]. rewrite E1, E2 in *. congruence. }
  split; [done|]. destruct (set_bit_ok w j (Hw _ _ Hi) Hj) as [Hok Hset]. split; simpl.
  - intros i'. rewrite lookup_insert_is_Some, Hd. destruct (decide (i = i')) as [<-|]; [|naive_solver].
    split; [|by left]. intros _. apply Hd. by eexists.
  - intros i' w' [[<- <-]|[_ H]]%lookup_insert_Some; [done|by eapply Hw].
  - intros k. rewrite (bits_upd x X i j w _ true Hwf Hi Hj).
    + rewrite elem_of_union, elem_of_singleton. case_decide; naive_solver.
    + intros k' Hk'. rewrite Hset by done. case_decide; [by rewrite bool_decide_eq_true_2|by rewrite bool_decide_eq_false_2].
  - rewrite size_union, size_singleton, Hc by set_solver. lia.
Qed.

Lemma root_wf_clear x X i j w pg :
  root_wf x X -> pagerefs_inuse x !! i = Some w -> 0 <= j < 32 -> i * 32 + j ∈ X ->
  0 < numinuse x /\
  root_wf (mk_root pg (<[i := Z.ldiff w (Z.shiftl 1 j)]> (pagerefs_inuse x)) (numinuse x - 1)) (X ∖ {[i * 32 + j]}).
Proof.
  intros Hwf Hi Hj Hin. pose proof Hwf as [Hd Hw Hb Hc].
  assert (Hsz : size X = S (size (X ∖ {[i * 32 + j]}))).
  { rewrite (union_difference_L {[i * 32 + j]} X) at 1 by set_solver.
    rewrite size_union, size_singleton by set_solver. lia. }
  split; [lia|]. destruct (clear_bit_ok w j (Hw _ _ Hi) Hj) as [Hok Hset]. split; simpl.
  - intros i'. rewrite lookup_insert_is_Some, Hd. destruct (decide (i = i')) as [<-|]; [|naive_solver].
    split; [|by left]. intros _. apply Hd. by eexists.
  - intros i' w' [[<- <-]|[_ H]]%lookup_insert_Some; [done|by eapply Hw].
  - intros k. rewrite (bits_upd x X i j w _ false Hwf Hi Hj).
    + rewrite elem_of_difference, elem_of_singleton. case_decide; naive_solver.
    + intros k' Hk'. rewrite Hset by done. case_decide; [by rewrite bool_decide_eq_true_2|by rewrite bool_decide_eq_false_2].
  - rewrite Hc. lia.
Qed.

(** A page that is not full has a word that is not full. *)
Lemma root_not_full x X :
  root_wf x X -> numinuse x < NPAGEREFS_PER_PAGE ->
  exists i w, 0 <= i < INUSE_WORDS /\ pagerefs_inuse x !! i = Some w /\ w <> 0xffffffff /\
    forall i' w', 0 <= i' < i -> pagerefs_inuse x !! i' = Some w' -> w' = 0xffffffff.
Proof.
  intros [Hd Hw Hb Hc] Hlt.
  destruct (first_index (fun i => pagerefs_inuse x !! i <> Some 0xffffffff) (Z.to_nat INUSE_WORDS) 0)
    as [(i & Hi & Hne & Hleast)|Hall].
  - change (0 + Z.of_nat (Z.to_nat INUSE_WORDS)) with INUSE_WORDS in Hi. destruct (proj2 (Hd i) Hi) as [w Hiw].
    exists i, w. split; [done|]. split; [done|]. split; [congruence|]. intros i' w' Hi' Hw'.
    destruct (decide (w' = 0xffffffff)); [done|]. exfalso. apply (Hleast i' Hi'). congruence.
  - exfalso. assert (Hfull : forall j, 0 <= j < NPAGEREFS_PER_PAGE -> j ∈ X).
    { intros j Hj. apply Hb. split; [done|]. exists 0xffffffff. change NPAGEREFS_PER_PAGE with 256 in Hj.
      pose proof (Z.mod_pos_bound j 32 ltac:(lia)).
      assert (0 <= j / 32 < 8) by (split; [apply Z.div_pos; lia|apply Z.div_lt_upper_bound; lia]).
      split; [|change 0xffffffff with (Z.ones 32); by rewrite Z.ones_spec_low by lia].
      destruct (decide (pagerefs_inuse x !! (j / 32) = Some 0xffffffff)); [done|].
      exfalso. eapply (Hall (j / 32)); [|done]. change INUSE_WORDS with 8. lia. }
    assert (Hsub : list_to_set (seqZ 0 NPAGEREFS_PER_PAGE) ⊆ X).
    { intros j. rewrite elem_of_list_to_set, elem_of_seqZ. intros Hj. apply Hfull. lia. }
    apply subseteq_size in Hsub. rewrite size_list_to_set in Hsub by apply NoDup_seqZ.
    rewrite length_seqZ in Hsub. lia.
Qed.

End HeapLists.
