(* ===== verification/PagerefPool.v ===== *)
(** * The pool of pagerefs of the kernel heap: [allocpageref] and [freepageref] *)

From S2P Require Import Prelude Cpu Synch Kmalloc HeapLists.

Module PagerefPool.
Import Cpu Synch Kmalloc HeapLists.

(** What the page allocator promises about the pages it handed out. *)
Record live_ok (live : gmap Z Z) : Prop := mk_live {
  lv_range : forall va n, live !! va = Some n ->
    MIPS_KSEG0 < va < 2 ^ 32 - n * PAGE_SIZE /\ va mod PAGE_SIZE = 0 /\ 0 < n;
  lv_disjoint : forall va n va' n', live !! va = Some n -> live !! va' = Some n' ->
    va <> va' -> va + n * PAGE_SIZE <= va' \/ va' + n' * PAGE_SIZE <= va
}.

(** The pagerefs [L] are in use; each is on the page of a root, with its bit set.  A root
    without a page comes after all those with one, and only the first of them can have
    bits set (left by allocations that failed), not all of them. *)
Record roots_wf (roots : gmap Z kheap_root) (L : list Z) (live : gmap Z Z) : Prop := mk_roots {
  rw_dom : forall r, is_Some (roots !! r) <-> 0 <= r < NUM_PAGEREFPAGES;
  rw_bits : forall r x, roots !! r = Some x -> exists X, root_wf x X /\
    forall j, 0 <= j < NPAGEREFS_PER_PAGE -> root_page x <> 0 -> root_page x + PAGEREF_SIZE * j ∈ L -> j ∈ X;
  rw_cover : forall p, p ∈ L -> exists r x j, roots !! r = Some x /\ root_page x <> 0 /\
    0 <= j < NPAGEREFS_PER_PAGE /\ p = root_page x + PAGEREF_SIZE * j;
  rw_live : forall r x, roots !! r = Some x -> root_page x <> 0 -> live !! root_page x = Some 1;
  rw_distinct : forall r r' x x', roots !! r = Some x -> roots !! r' = Some x' ->
    root_page x <> 0 -> root_page x = root_page x' -> r = r';
  rw_order : forall r r' x x', r < r' -> roots !! r = Some x -> roots !! r' = Some x' ->
    root_page x = 0 -> root_page x' = 0 /\ numinuse x' = 0;
  rw_leak : forall r x, roots !! r = Some x -> root_page x = 0 -> numinuse x < NPAGEREFS_PER_PAGE
}.

Lemma pageref_nonzero roots L live p : roots_wf roots L live -> live_ok live -> p ∈ L -> p <> 0.
Proof.
  intros Hw Hl Hp. destruct (rw_cover _ _ _ Hw p Hp) as (r & x & j & Hx & Hpg & Hj & ->).
  destruct (lv_range _ Hl _ _ (rw_live _ _ _ Hw r x Hx Hpg)) as [? _]. unfold MIPS_KSEG0, PAGEREF_SIZE in *. lia.
Qed.

(** No more pagerefs than the roots have. *)
Lemma pagerefs_bounded roots L live : roots_wf roots L live -> NoDup L -> (length L <= TOTAL_PAGEREFS)%nat.
Proof.
  intros Hw Hnd.
  set (all := r ← seqZ 0 NUM_PAGEREFPAGES;
    (fun j => default 0 (root_page <$> roots !! r) + PAGEREF_SIZE * j) <$> seqZ 0 NPAGEREFS_PER_PAGE).
  assert (Hlen : length all = TOTAL_PAGEREFS).
  { unfold all. generalize (fun r => default 0 (root_page <$> roots !! r)). intros f. reflexivity. }
  rewrite <- Hlen. apply submseteq_length, NoDup_submseteq; [done|]. intros p Hp.
  destruct (rw_cover _ _ _ Hw p Hp) as (r & x & j & Hx & Hpg & Hj & ->). unfold all.
  apply list_elem_of_bind. exists r. split.
  - apply list_elem_of_fmap. exists j. rewrite Hx. split; [done|]. apply elem_of_seqZ. lia.
  - apply elem_of_seqZ. rewrite Z.add_0_l. apply (rw_dom _ _ _ Hw). by eexists.
Qed.

Definition with_roots (R : gmap Z kheap_root) (h : kheap) : kheap :=
  mk_heap R (prefs h) (sizebases h) (allbase h) (words h).

Lemma get_root_eq h r x : kheaproots h !! r = Some x -> get_root r h = Ret x h.
Proof. intros Hx. unfold get_root. msimpl. by rewrite Hx. Qed.

(** ** Freeing *)

(** A root page that does not hold [p] is passed over. *)
Lemma other_root (pg pg' j : Z) live :
  live_ok live -> live !! pg = Some 1 -> live !! pg' = Some 1 -> pg <> pg' ->
  0 <= j < NPAGEREFS_PER_PAGE -> NPAGEREFS_PER_PAGE <= u32 ((pg + PAGEREF_SIZE * j - pg') / PAGEREF_SIZE).
Proof.
  intros Hl Hp Hp' Hne Hj. pose proof (lv_range _ Hl _ _ Hp) as (R1 & _). pose proof (lv_range _ Hl _ _ Hp') as (R2 & _).
  pose proof (lv_disjoint _ Hl _ _ _ _ Hp Hp' Hne) as Hd. unfold PAGEREF_SIZE, PAGE_SIZE, MIPS_KSEG0 in *.
  change NPAGEREFS_PER_PAGE with 256 in *.
  pose proof (Z.div_mod (pg + 16 * j - pg') 16 ltac:(lia)). pose proof (Z.mod_pos_bound (pg + 16 * j - pg') 16 ltac:(lia)).
  unfold u32. destruct Hd.
  - assert (Hq : (pg + 16 * j - pg') / 16 < 0) by lia.
    rewrite <- (Z.mod_add _ 1) by lia. rewrite Z.mod_small by lia. lia.
  - rewrite Z.mod_small by lia. lia.
Qed.

Lemma this_root pg j live :
  live_ok live -> live !! pg = Some 1 -> 0 <= j < NPAGEREFS_PER_PAGE ->
  u32 ((pg + PAGEREF_SIZE * j - pg) / PAGEREF_SIZE) = j.
Proof.
  intros _ _ Hj. replace (pg + PAGEREF_SIZE * j - pg) with (j * PAGEREF_SIZE) by lia.
  rewrite Z.div_mul by done. apply u32_small. change NPAGEREFS_PER_PAGE with 256 in Hj. lia.
Qed.

(** Pageref [j] of root [r] is given back. *)
Lemma roots_wf_drop R L live r x x' X j :
  roots_wf R L live -> R !! r = Some x -> root_page x <> 0 -> root_page x' = root_page x ->
  root_wf x' (X ∖ {[j]}) ->
  (forall k, 0 <= k < NPAGEREFS_PER_PAGE -> root_page x <> 0 -> root_page x + PAGEREF_SIZE * k ∈ L -> k ∈ X) ->
  roots_wf (<[r := x']> R) (filter (fun q => q <> root_page x + PAGEREF_SIZE * j) L) live.
Proof.
  intros [W1 W2 W3 W4 W5 W6 W7] Hx Hpg Epg HX' Hin. split.
  - intros i. rewrite lookup_insert_is_Some, W1. destruct (decide (r = i)) as [<-|]; [|naive_solver].
    split; [|by left]. intros _. apply W1. by eexists.
  - intros i y [[<- <-]|[Hne Hy]]%lookup_insert_Some.
    + exists (X ∖ {[j]}). split; [done|]. rewrite Epg. intros k Hk _ [Hkp HkL]%list_elem_of_filter.
      apply elem_of_difference. split; [by apply Hin|]. rewrite elem_of_singleton. intros ->. done.
    + destruct (W2 i y Hy) as (Y & HY & Hin'). exists Y. split; [done|].
        intros k Hk Hpk [_ HkL]%list_elem_of_filter. by apply Hin'.
  - intros q [_ Hq]%list_elem_of_filter. destruct (W3 q Hq) as (i & y & k & Hy & Hpy & Hk & ->).
      destruct (decide (r = i)) as [<-|Hne].
    + exists r, x', k. rewrite lookup_insert_eq. rewrite Hx in Hy. injection Hy as <-. rewrite Epg. done.
    + exists i, y, k. by rewrite lookup_insert_ne.
  - intros i y [[<- <-]|[Hne Hy]]%lookup_insert_Some; [rewrite Epg; by apply (W4 r x)|by apply (W4 i)].
  - intros i i' y y' [[<- <-]|[Hne Hy]]%lookup_insert_Some [[<- <-]|[Hne' Hy']]%lookup_insert_Some Hpy E; try done.
    + eapply (W5 r i' x y'); congruence.
    + eapply (W5 i r y x); congruence.
    + by eapply (W5 i i' y y').
  - intros i i' y y' Hlt [[<- <-]|[Hne Hy]]%lookup_insert_Some [[<- <-]|[Hne' Hy']]%lookup_insert_Some E.
    + lia.
    + congruence.
    + destruct (W6 i r y x Hlt Hy Hx E). done.
    + by eapply (W6 i i').
  - intros i y [[<- <-]|[Hne Hy]]%lookup_insert_Some E; [congruence|by apply (W7 i y)].
Qed.

Lemma freepageref_spec h p L live :
  live_ok live -> roots_wf (kheaproots h) L live -> NoDup L -> p ∈ L ->
  exists R, freepageref p h = Ret tt (with_roots R h) /\
    roots_wf R (filter (fun q => q <> p) L) live /\
    (forall r, root_page <$> R !! r = root_page <$> kheaproots h !! r).
Proof.
  intros Hl Hw Hnd Hp. destruct (rw_cover _ _ _ Hw p Hp) as (r & x & j & Hx & Hpg & Hj & ->).
  destruct (rw_bits _ _ _ Hw r x Hx) as (X & HX & Hin). pose proof (Hin j Hj Hpg Hp) as HjX.
  pose proof (rw_live _ _ _ Hw r x Hx Hpg) as Hlx.
  pose proof (proj1 (ro_bits _ _ HX j) HjX) as (_ & w & Hword & Hbit).
  assert (Hr : 0 <= r < NUM_PAGEREFPAGES) by (apply (rw_dom _ _ _ Hw); by eexists).
  pose proof (Z.mod_pos_bound j 32 ltac:(lia)) as Hm. pose proof (Z.div_mod j 32 ltac:(lia)) as Hdm.
  assert (Ej : j / 32 * 32 + j mod 32 = j) by lia.
  destruct (root_wf_clear x X (j / 32) (j mod 32) w (root_page x) HX Hword Hm) as [Hpos HX']; [by rewrite Ej|].
  rewrite Ej in HX'. set (x' := mk_root _ _ _) in HX'.
  exists (<[r := x']> (kheaproots h)). split; [|split].
  - unfold freepageref. rewrite (run_bind _ _ h (Some tt) (with_roots (<[r := x']> (kheaproots h)) h)); [done|].
    rewrite (for_early_skip _ 0 r).
    + replace (Z.to_nat NUM_PAGEREFPAGES - Z.to_nat (r - 0))%nat
        with (S (Z.to_nat NUM_PAGEREFPAGES - Z.to_nat (r - 0) - 1)) by (unfold NUM_PAGEREFPAGES in *; lia).
      cbn [for_early]. rewrite (run_bind _ _ h (Some tt) (with_roots (<[r := x']> (kheaproots h)) h)); [done|].
      rewrite (run_bind _ _ _ _ _ (get_root_eq h r x Hx)), (proj2 (Z.eqb_neq _ 0) Hpg).
      cbv zeta. rewrite (this_root _ j live Hl Hlx Hj), (proj2 (Z.ltb_lt _ _) (proj2 Hj)).
      rewrite (run_bind _ _ h w h) by (by rewrite Hword).
      rewrite (run_bind _ _ h tt h) by (unfold KASSERT; by rewrite land_bit, Hbit by lia).
      rewrite (run_bind _ _ h tt h) by (unfold KASSERT; by rewrite (proj2 (Z.ltb_lt _ _) Hpos)).
      done.
    + unfold NUM_PAGEREFPAGES in *. lia.
    + intros i Hi. destruct (proj2 (rw_dom _ _ _ Hw i)) as [y Hy]; [lia|].
      rewrite (run_bind _ _ _ _ _ (get_root_eq h i y Hy)). destruct (Z.eqb_spec (root_page y) 0) as [E|E].
      { destruct (rw_order _ _ _ Hw i r y x ltac:(lia) Hy Hx E). congruence. }
      cbv zeta. rewrite (proj2 (Z.ltb_ge _ _)); [done|]. eapply other_root; try done.
      * by eapply (rw_live _ _ _ Hw).
      * intros E'. assert (r = i); [|lia]. by eapply (rw_distinct _ _ _ Hw).
  - by apply (roots_wf_drop _ L live r x x' X j).
  - intros i. destruct (decide (r = i)) as [<-|Hne]; [by rewrite lookup_insert_eq, Hx|by rewrite lookup_insert_ne].
Qed.

(** ** Allocating *)

(** The root gets its page now, or had one. *)
Definition page_from (x : kheap_root) (pg : Z) (live live' : gmap Z Z) : Prop :=
  root_page x <> 0 /\ pg = root_page x /\ live' = live \/
  root_page x = 0 /\ live !! pg = None /\ live' = <[pg := 1]> live.

Lemma page_from_live R L live live' x pg va n :
  roots_wf R L live -> page_from x pg live live' -> live !! va = Some n -> live' !! va = Some n.
Proof.
  intros _ [(_ & _ & ->)|(_ & Hn & ->)] Hv; [done|]. rewrite lookup_insert_ne; [done|]. congruence.
Qed.

Lemma page_from_here R L live live' r x pg :
  roots_wf R L live -> R !! r = Some x -> page_from x pg live live' -> live' !! pg = Some 1.
Proof.
  intros Hw Hx [(H0 & E & ->)|(H0 & Hn & ->)]; [rewrite E; by eapply (rw_live _ _ _ Hw)|apply lookup_insert_eq].
Qed.

Lemma other_page R L live live' r x pg :
  roots_wf R L live -> R !! r = Some x -> page_from x pg live live' ->
  forall i y, i <> r -> R !! i = Some y -> root_page y <> 0 -> root_page y <> pg.
Proof.
  intros Hw Hx Hfrom i y Hi Hy H0 E. destruct Hfrom as [(Hx0 & E' & _)|(_ & Hn & _)].
  - apply Hi. eapply (rw_distinct _ _ _ Hw i r); [done|done|done|congruence].
  - by rewrite <- E, (rw_live _ _ _ Hw i y Hy H0) in Hn.
Qed.

(** A pageref in use on the page of root [r] is one of its bits. *)
Lemma root_slot_in R L live live' r x pg (X : gset Z) j :
  roots_wf R L live -> live_ok live' -> R !! r = Some x -> page_from x pg live live' ->
  (forall j, 0 <= j < NPAGEREFS_PER_PAGE -> root_page x <> 0 -> root_page x + PAGEREF_SIZE * j ∈ L -> j ∈ X) ->
  0 <= j < NPAGEREFS_PER_PAGE -> pg + PAGEREF_SIZE * j ∈ L -> j ∈ X.
Proof.
  intros Hw Hl Hx Hfrom Hin Hj Hp. destruct (rw_cover _ _ _ Hw _ Hp) as (i & y & j' & Hy & Hpy & Hj' & E).
  destruct (decide (i = r)) as [->|Hne].
  - rewrite Hx in Hy. injection Hy as <-. destruct Hfrom as [(_ & E' & _)|(H0 & _)]; [|done].
    rewrite E' in E, Hp. by apply Hin.
  - pose proof (page_from_live _ _ _ _ _ _ _ _ Hw Hfrom (rw_live _ _ _ Hw i y Hy Hpy)) as Hly.
    pose proof (page_from_here _ _ _ _ _ _ _ Hw Hx Hfrom) as Hlive.
    pose proof (lv_disjoint _ Hl _ _ _ _ Hly Hlive (other_page _ _ _ _ _ _ _ Hw Hx Hfrom i y Hne Hy Hpy)).
    unfold PAGEREF_SIZE, PAGE_SIZE in *. change NPAGEREFS_PER_PAGE with 256 in *. lia.
Qed.

Lemma roots_wf_add R L live live' r x x' X k :
  roots_wf R L live -> live_ok live' -> R !! r = Some x -> root_page x' <> 0 -> page_from x (root_page x') live live' ->
  root_wf x' ({[k]} ∪ X) -> 0 <= k < NPAGEREFS_PER_PAGE ->
  (forall j, 0 <= j < NPAGEREFS_PER_PAGE -> root_page x <> 0 -> root_page x + PAGEREF_SIZE * j ∈ L -> j ∈ X) ->
  (forall i y, i < r -> R !! i = Some y -> root_page y <> 0) ->
  roots_wf (<[r := x']> R) (root_page x' + PAGEREF_SIZE * k :: L) live'.
Proof.
  intros Hw Hl Hx Hpg Hfrom HX' Hk Hin Hbefore. pose proof Hw as [W1 W2 W3 W4 W5 W6 W7].
  pose proof (page_from_here _ _ _ _ _ _ _ Hw Hx Hfrom) as Hlive.
  pose proof (other_page _ _ _ _ _ _ _ Hw Hx Hfrom) as Hother.
  split.
  - intros i. rewrite lookup_insert_is_Some, W1. destruct (decide (r = i)) as [<-|]; [|naive_solver].
    split; [|by left]. intros _. apply W1. by eexists.
  - intros i y [[<- <-]|[Hne Hy]]%lookup_insert_Some.
    + exists ({[k]} ∪ X). split; [done|]. intros j Hj _ [E|Hp]%elem_of_cons.
      * apply elem_of_union. left. apply elem_of_singleton. unfold PAGEREF_SIZE in E. lia.
      * apply elem_of_union. right. by eapply (root_slot_in R L live live' r x (root_page x') X j).
    + destruct (W2 i y Hy) as (Y & HY & Hin'). exists Y. split; [done|]. intros j Hj Hpy [E|Hp]%elem_of_cons; [|by apply Hin'].
      exfalso. pose proof (page_from_live _ _ _ _ _ _ _ _ Hw Hfrom (W4 i y Hy Hpy)) as Hly.
      pose proof (lv_disjoint _ Hl _ _ _ _ Hly Hlive (Hother i y ltac:(congruence) Hy Hpy)).
      unfold PAGEREF_SIZE, PAGE_SIZE in *. change NPAGEREFS_PER_PAGE with 256 in *. lia.
  - intros q [->|Hq]%elem_of_cons.
    + exists r, x', k. by rewrite lookup_insert_eq.
    + destruct (W3 q Hq) as (i & y & j & Hy & Hpy & Hj & ->). destruct (decide (r = i)) as [<-|Hne].
      * exists r, x', j. rewrite lookup_insert_eq. rewrite Hx in Hy. injection Hy as <-.
        destruct Hfrom as [(_ & E & _)|(H0 & _)]; [|done]. rewrite E. done.
      * exists i, y, j. by rewrite lookup_insert_ne.
  - intros i y [[<- <-]|[Hne Hy]]%lookup_insert_Some Hpy; [done|].
    eapply page_from_live; [done|done|]. by eapply W4.
  - intros i i' y y' [[<- <-]|[Hne Hy]]%lookup_insert_Some [[<- <-]|[Hne' Hy']]%lookup_insert_Some Hpy E; try done.
    + exfalso. eapply (Hother i' y'); [done|done|congruence|done].
    + exfalso. by eapply (Hother i y).
    + by eapply (W5 i i' y y').
  - intros i i' y y' Hlt [[<- <-]|[Hne Hy]]%lookup_insert_Some [[<- <-]|[Hne' Hy']]%lookup_insert_Some E; try done.
    + exfalso. by eapply (Hbefore i y).
    + by eapply (W6 i i').
  - intros i y [[<- <-]|[Hne Hy]]%lookup_insert_Some E; [done|by apply (W7 i y)].
Qed.

(** A bit stays set in a root that could not get its page. *)
Definition leak_ok (R : gmap Z kheap_root) : Prop :=
  forall r x, R !! r = Some x -> root_page x = 0 -> numinuse x < NPAGEREFS_PER_PAGE.

Lemma roots_wf_leak R L live r x x' X :
  roots_wf R L live -> R !! r = Some x -> root_page x = 0 -> root_page x' = 0 -> root_wf x' X ->
  (forall i y, i < r -> R !! i = Some y -> root_page y <> 0) -> leak_ok (<[r := x']> R) ->
  roots_wf (<[r := x']> R) L live.
Proof.
  intros [W1 W2 W3 W4 W5 W6 W7] Hx H0 H0' HX Hbefore Hleak. split; try done.
  - intros i. rewrite lookup_insert_is_Some, W1. destruct (decide (r = i)) as [<-|]; [|naive_solver].
    split; [|by left]. intros _. apply W1. by eexists.
  - intros i y [[<- <-]|[Hne Hy]]%lookup_insert_Some; [by exists X|by apply (W2 i y)].
  - intros q Hq. destruct (W3 q Hq) as (i & y & j & Hy & Hpy & Hj & ->). exists i, y, j.
    rewrite lookup_insert_ne; [done|]. intros <-. congruence.
  - intros i y [[<- <-]|[Hne Hy]]%lookup_insert_Some Hpy; [done|by eapply W4].
  - intros i i' y y' [[<- <-]|[Hne Hy]]%lookup_insert_Some [[<- <-]|[Hne' Hy']]%lookup_insert_Some Hpy E; try done.
    + congruence.
    + by eapply (W5 i i' y y').
  - intros i i' y y' Hlt [[<- <-]|[Hne Hy]]%lookup_insert_Some [[<- <-]|[Hne' Hy']]%lookup_insert_Some E; [lia| | |].
    + by eapply (W6 r i' x y').
    + exfalso. by eapply (Hbefore i y).
    + by eapply (W6 i i').
Qed.

Section Alloc.
Context {P : Type} `{KP : KPages P}.

Lemma live_ok_of p live : kp_inv p live -> live_ok live.
Proof using KP. intros Hi. split; intros; [by eapply kp_range|by eapply kp_disjoint]. Qed.

(** The pool while the heap's spinlock is held. *)
Definition lockp (p : P) : P := lens_set (acq kmalloc_spinlock (lens_get p)) p.

Lemma km_acquire h p live : kp_inv p live ->
  zoom (spinlock_acquire kmalloc_spinlock) (mk_km h p) = Ret tt (mk_km h (lockp p)).
Proof using KP.
  intros Hi. apply kp_quiet in Hi. unfold zoom. simpl.
  rewrite spinlock_acquire_eq; [done|apply Hi|by apply quiet_free].
Qed.

Lemma km_release h p live : kp_inv p live ->
  zoom (spinlock_release kmalloc_spinlock) (mk_km h (lockp p)) = Ret tt (mk_km h p).
Proof using KP.
  intros Hi. apply kp_quiet in Hi. unfold zoom, lockp. simpl. rewrite lens_get_set.
  rewrite spinlock_release_acq; [|apply Hi|by apply quiet_free]. by rewrite lens_set_set, lens_set_get.
Qed.

Lemma km_alloc h p live n : kp_inv p live -> 0 < n ->
  wps True (zoom (alloc_kpages n)) (mk_km h p) (fun va s => exists p', s = mk_km h p' /\
    ((va = 0 /\ kp_inv p' live) \/ (va <> 0 /\ live !! va = None /\ kp_inv p' (<[va := n]> live)))).
Proof using KP.
  intros Hi Hn. pose proof (kp_alloc p live n Hi Hn) as H. unfold wps, zoom in *. simpl.
  destruct (alloc_kpages n p); naive_solver.
Qed.

Lemma km_heap_eq {A} (m : M kheap A) a h h' (p : P) : m h = Ret a h' -> zoom m (mk_km h p) = Ret a (mk_km h' p).
Proof using KP. intros H. unfold zoom. simpl. by rewrite H. Qed.

Lemma allocpagerefpage_spec h p live r x :
  kp_inv p live -> kheaproots h !! r = Some x -> root_page x = 0 ->
  wps True (allocpagerefpage r) (mk_km h (lockp p)) (fun _ s => exists p', (s = mk_km h (lockp p') /\ kp_inv p' live) \/
    (exists va, va <> 0 /\ live !! va = None /\ kp_inv p' (<[va := 1]> live) /\
       s = mk_km (with_roots (<[r := mk_root va (pagerefs_inuse x) (numinuse x)]> (kheaproots h)) h) (lockp p'))).
Proof using KP.
  intros Hi Hx H0. unfold allocpagerefpage.
  apply wps_step. eapply wp_eq; [apply km_heap_eq, get_root_eq, Hx|].
  apply wps_step, wp_KASSERT; [by apply Z.eqb_eq|]. apply wps_step. eapply wp_eq; [by eapply km_release|].
  apply wps_bind. eapply wps_mono; [by apply (km_alloc h p live 1)|done|].
  intros va s (p' & -> & [[-> Hi']|(Hva & Hn & Hi')]); apply wps_step; (eapply wp_eq; [by eapply km_acquire|]).
  - apply wps_ret. exists p'. by left.
  - rewrite (proj2 (Z.eqb_neq va 0) Hva). apply wps_step, wp_KASSERT.
    { apply Z.eqb_eq. eapply kp_range; [done|]. apply lookup_insert_eq. }
    apply wps_step. eapply wp_eq; [apply km_heap_eq, get_root_eq, Hx|]. rewrite H0. cbn [Z.eqb negb].
    eapply wps_eq; [apply km_heap_eq; reflexivity|]. exists p'. right. by exists va.
Qed.

(** *** The result of [allocpageref] *)

Definition pageref_result (h : kheap) (L : list Z) (live : gmap Z Z) (p : Z) (s : kmst P) : Prop :=
  exists R pool live', s = mk_km (with_roots R h) (lockp pool) /\ kp_inv pool live' /\
    (p = 0 /\ live' = live /\ (leak_ok R -> roots_wf R L live) /\
       (forall r, root_page <$> R !! r = root_page <$> kheaproots h !! r) \/
     p <> 0 /\ (p ∉ L) /\ roots_wf R (p :: L) live' /\
       (forall va n, live !! va = Some n -> live' !! va = Some n) /\
       (forall va n, live' !! va = Some n -> live !! va = Some n \/ exists r x, R !! r = Some x /\ root_page x = va) /\
       (forall r x, R !! r = Some x -> root_page x <> 0 ->
          (exists x0, kheaproots h !! r = Some x0 /\ root_page x0 = root_page x) \/ live !! root_page x = None) /\
       (forall r x, kheaproots h !! r = Some x -> root_page x <> 0 ->
          exists x', R !! r = Some x' /\ root_page x' = root_page x)).

Lemma pageref_result_ok h L live live' pool r x x' X k :
  kp_inv pool live' -> roots_wf (kheaproots h) L live -> kheaproots h !! r = Some x -> root_page x' <> 0 ->
  page_from x (root_page x') live live' -> root_wf x' ({[k]} ∪ X) -> k ∉ X -> 0 <= k < NPAGEREFS_PER_PAGE ->
  (forall j, 0 <= j < NPAGEREFS_PER_PAGE -> root_page x <> 0 -> root_page x + PAGEREF_SIZE * j ∈ L -> j ∈ X) ->
  (forall i y, i < r -> kheaproots h !! i = Some y -> root_page y <> 0) ->
  pageref_result h L live (root_page x' + PAGEREF_SIZE * k) (mk_km (with_roots (<[r := x']> (kheaproots h)) h) (lockp pool)).
Proof using KP.
  intros Hi Hw Hx Hpg Hfrom HX Hk Hkr Hin Hbefore. pose proof (live_ok_of _ _ Hi) as Hl.
  pose proof (page_from_here _ _ _ _ _ _ _ Hw Hx Hfrom) as Hlive.
  exists (<[r := x']> (kheaproots h)), pool, live'. split; [done|]. split; [done|]. right. split.
  { pose proof (lv_range _ Hl _ _ Hlive) as [? _]. unfold MIPS_KSEG0, PAGEREF_SIZE in *. lia. }
  split; [intros Hp; apply Hk; by eapply root_slot_in|]. split; [by eapply roots_wf_add|]. split.
  { intros va n Hv. by eapply page_from_live. }
  split; [|split].
  - intros va n Hv. destruct Hfrom as [(_ & _ & ->)|(_ & Hn & ->)]; [by left|].
    apply lookup_insert_Some in Hv as [[<- <-]|[_ Hv]]; [|by left]. right. exists r, x'. by rewrite lookup_insert_eq.
  - intros i y [[<- <-]|[Hne Hy]]%lookup_insert_Some Hpy; [|left; by exists y].
    destruct Hfrom as [(_ & E & _)|(_ & Hn & _)]; [left; by exists x|by right].
  - intros i y Hy Hpy. destruct (decide (r = i)) as [<-|]; [|rewrite lookup_insert_ne by done; by exists y].
    rewrite lookup_insert_eq. exists x'. split; [done|]. destruct Hfrom as [(_ & E & _)|(H0 & _)]; congruence.
Qed.

Lemma take_pageref_spec h L live pool r x X i j w :
  kp_inv pool live -> roots_wf (kheaproots h) L live -> kheaproots h !! r = Some x -> root_wf x X ->
  (forall j, 0 <= j < NPAGEREFS_PER_PAGE -> root_page x <> 0 -> root_page x + PAGEREF_SIZE * j ∈ L -> j ∈ X) ->
  (forall i y, i < r -> kheaproots h !! i = Some y -> root_page y <> 0) ->
  pagerefs_inuse x !! i = Some w -> 0 <= i < INUSE_WORDS -> 0 <= j < 32 -> Z.testbit w j = false ->
  wps True (take_pageref r i j w) (mk_km h (lockp pool)) (pageref_result h L live).
Proof using KP.
  intros Hi Hw Hx HX Hin Hbefore Hword Hir Hj Hbit.
  assert (Hk : 0 <= i * 32 + j < NPAGEREFS_PER_PAGE) by (change NPAGEREFS_PER_PAGE with 256; change INUSE_WORDS with 8 in Hir; lia).
  set (B := <[i := Z.lor w (Z.shiftl 1 j)]> (pagerefs_inuse x)).
  assert (HX' : forall pg, (i * 32 + j ∉ X) /\ root_wf (mk_root pg B (numinuse x + 1)) ({[i * 32 + j]} ∪ X))
    by (intros pg; by apply root_wf_set).
  unfold take_pageref. apply wps_step. eapply wp_eq; [apply km_heap_eq, get_root_eq, Hx|].
  apply wps_step. eapply wp_eq; [apply km_heap_eq; reflexivity|]. fold B. set (x1 := mk_root _ B _).
  set (h1 := with_roots (<[r := x1]> (kheaproots h)) h). change (mk_heap _ _ _ _ _) with h1.
  assert (H1 : kheaproots h1 !! r = Some x1) by apply lookup_insert_eq.
  destruct (Z.eqb_spec (root_page x) 0) as [H0|H0]; cbn [when].
  - apply wps_bind. eapply wps_mono; [apply (allocpagerefpage_spec h1 pool live r x1 Hi H1 H0)|done|].
    intros [] s (pool' & [[-> Hi']|(va & Hva & Hn & Hi' & ->)]); apply wps_step.
    + eapply wp_eq; [apply km_heap_eq, get_root_eq, H1|]. rewrite (proj2 (Z.eqb_eq _ 0) H0 : (root_page x1 =? 0) = true).
      apply wps_ret. exists (<[r := x1]> (kheaproots h)), pool', live. split; [done|]. split; [done|]. left.
      split; [done|]. split; [done|]. split.
      * intros Hleak. by eapply (roots_wf_leak _ L live r x x1 _ Hw Hx H0 H0 (proj2 (HX' _))).
      * intros r'. destruct (decide (r = r')) as [<-|Hne]; [by rewrite lookup_insert_eq, Hx|by rewrite lookup_insert_ne].
    + set (x2 := mk_root va (pagerefs_inuse x1) (numinuse x1)).
      set (h2 := with_roots (<[r := x2]> (kheaproots h1)) h1).
      assert (E2 : h2 = with_roots (<[r := x2]> (kheaproots h)) h)
        by (unfold h2, h1, with_roots; simpl; by rewrite insert_insert_eq).
      eapply wp_eq; [apply km_heap_eq, get_root_eq, (lookup_insert_eq _ r x2)|].
      change (root_page x2) with va. rewrite (proj2 (Z.eqb_neq va 0) Hva). apply wps_ret. rewrite E2.
      apply (pageref_result_ok h L live (<[va := 1]> live) pool' r x x2 X (i * 32 + j)); try done; [by right|apply HX'|by apply (HX' 0)].
  - apply wps_step, wp_ret, wps_step. eapply wp_eq; [apply km_heap_eq, get_root_eq, H1|].
    rewrite (proj2 (Z.eqb_neq _ 0) H0 : (root_page x1 =? 0) = false). apply wps_ret.
    apply (pageref_result_ok h L live live pool r x x1 X (i * 32 + j)); try done; [by left|apply HX'|by apply (HX' 0)].
Qed.

Lemma allocpageref_spec h L live pool :
  kp_inv pool live -> roots_wf (kheaproots h) L live ->
  wps True allocpageref (mk_km h (lockp pool)) (pageref_result h L live).
Proof using KP.
  intros Hi Hw. unfold allocpageref.
  destruct (first_index (fun r => default 0 (numinuse <$> kheaproots h !! r) < NPAGEREFS_PER_PAGE) (Z.to_nat NUM_PAGEREFPAGES) 0)
    as [(r & Hr & Hlt & Hfirst)|Hall].
  - change (0 + Z.of_nat (Z.to_nat NUM_PAGEREFPAGES)) with NUM_PAGEREFPAGES in Hr.
    destruct (proj2 (rw_dom _ _ _ Hw r) Hr) as [x Hx]. rewrite Hx in Hlt. simpl in Hlt.
    assert (Hbefore : forall i y, i < r -> kheaproots h !! i = Some y -> NPAGEREFS_PER_PAGE <= numinuse y).
    { intros i y Hir Hy. assert (0 <= i < NUM_PAGEREFPAGES) by (apply (rw_dom _ _ _ Hw); by eexists).
      specialize (Hfirst i ltac:(lia)). rewrite Hy in Hfirst. simpl in Hfirst. lia. }
    destruct (rw_bits _ _ _ Hw r x Hx) as (X & HX & Hin).
    destruct (root_not_full x X HX Hlt) as (i & w & Hir & Hword & Hwne & Hfull).
    destruct (zero_bit_found w (ro_word _ _ HX _ _ Hword) Hwne) as (j & Hz & Hj & Hbit).
    apply wps_bind. apply (wps_early True _ 0 r).
    + change (0 + Z.of_nat (Z.to_nat NUM_PAGEREFPAGES)) with NUM_PAGEREFPAGES. done.
    + intros i' Hi'. destruct (proj2 (rw_dom _ _ _ Hw i')) as [y Hy]; [lia|].
      rewrite (run_bind _ _ _ _ _ (km_heap_eq _ _ _ _ _ (get_root_eq h i' y Hy))).
      by rewrite (proj2 (Z.leb_le _ _) (Hbefore i' y ltac:(lia) Hy)).
    + apply wps_step. eapply wp_eq; [apply km_heap_eq, get_root_eq, Hx|]. rewrite (proj2 (Z.leb_gt _ _) Hlt).
      apply (wps_early True _ 0 i).
      * change (0 + Z.of_nat (Z.to_nat INUSE_WORDS)) with INUSE_WORDS. done.
      * intros i' Hi'. rewrite (run_bind _ _ _ _ _ (km_heap_eq _ _ _ _ _ (get_root_eq h r x Hx))).
        destruct (proj2 (ro_dom _ _ HX i')) as [w' Hw']; [lia|]. rewrite Hw'.
        rewrite (run_bind _ _ (mk_km h (lockp pool)) w' (mk_km h (lockp pool))) by reflexivity.
        by rewrite (Hfull i' w' Hi' Hw').
      * apply wps_step. eapply wp_eq; [apply km_heap_eq, get_root_eq, Hx|]. rewrite Hword. apply wps_step, wp_ret.
        rewrite (proj2 (Z.eqb_neq _ _) Hwne), Hz. apply wps_bind.
        eapply wps_mono; [eapply (take_pageref_spec h L live pool r x X i j w); try done|done|].
        -- intros i' y Hi' Hy E. pose proof (Hbefore i' y Hi' Hy). pose proof (rw_leak _ _ _ Hw i' y Hy E). lia.
        -- intros p s Hres. apply wps_ret. exists p. split; [done|]. eexists. split; [done|]. by apply wps_ret.
  - apply wps_step. eapply (wp_eq _ _ None (mk_km h (lockp pool))).
    + rewrite (for_early_skip _ 0 NUM_PAGEREFPAGES); [done|unfold NUM_PAGEREFPAGES; lia|].
      intros i Hi'. destruct (proj2 (rw_dom _ _ _ Hw i)) as [y Hy]; [lia|].
      rewrite (run_bind _ _ _ _ _ (km_heap_eq _ _ _ _ _ (get_root_eq h i y Hy))).
      specialize (Hall i ltac:(unfold NUM_PAGEREFPAGES in *; lia)). rewrite Hy in Hall. simpl in Hall.
      by rewrite (proj2 (Z.leb_le _ _)) by lia.
    + apply wps_ret. exists (kheaproots h), pool, live. split; [by destruct h|]. split; [done|]. left. by split_and!.
Qed.

End Alloc.
End PagerefPool.
