(* ===== verification/HeapTheory.v ===== *)
(** * The kernel heap hands out disjoint blocks: theorems on Kmalloc.v *)

From S2P Require Import Prelude Cpu Synch Kmalloc HeapLists PagerefPool.

Module HeapTheory.
Import Cpu Synch Kmalloc HeapLists PagerefPool.

(** ** Sizes *)

Lemma size_cases t : 0 <= t < NSIZES -> size_of t ∈ [16; 32; 64; 128; 256; 512; 1024; 2048] /\ size_of t = 16 * 2 ^ t.
Proof.
  unfold NSIZES. intros Ht. assert (t ∈ seqZ 0 8) as Hin by (apply elem_of_seqZ; lia).
  repeat (apply elem_of_cons in Hin as [->|Hin]; [split; [set_solver|done]|]). by apply not_elem_of_nil in Hin.
Qed.

(** The page is a whole number of blocks. *)
Lemma size_divides t : 0 <= t < NSIZES ->
  16 <= size_of t <= 2048 /\ PAGE_SIZE = size_of t * (PAGE_SIZE / size_of t) /\ 2 <= PAGE_SIZE / size_of t <= 256 /\
  size_of t mod 16 = 0.
Proof.
  intros Ht. destruct (size_cases t Ht) as [Hin _].
  repeat (apply elem_of_cons in Hin as [->|Hin]; [split_and!; vm_compute; congruence|]). by apply not_elem_of_nil in Hin.
Qed.

Lemma blocktype_spec sz : 0 <= sz <= LARGEST_SUBPAGE_SIZE ->
  exists t, blocktype_from sizes 0 sz = Some t /\ 0 <= t < NSIZES /\ sz <= size_of t.
Proof.
  unfold LARGEST_SUBPAGE_SIZE, NSIZES, sizes. intros Hs. cbn [blocktype_from].
  repeat match goal with |- context [sz <=? ?n] => destruct (Z.leb_spec sz n) end; try lia;
    eexists; (split; [reflexivity|]); unfold size_of, sizes; simpl; lia.
Qed.

(** ** The packed field of a pageref *)

Lemma low_bits_page a : Z.land a 0xfff = a mod PAGE_SIZE.
Proof. change 0xfff with (Z.ones 12). by rewrite Z.land_ones. Qed.

Lemma mkpab_fields pa t a b c d :
  0 <= pa < 2 ^ 32 -> pa mod PAGE_SIZE = 0 -> 0 <= t < NSIZES ->
  PR_PAGEADDR (mk_pr a b (MKPAB pa t) c d) = pa /\ PR_BLOCKTYPE (mk_pr a b (MKPAB pa t) c d) = t.
Proof.
  intros Hpa Hm Ht. unfold PR_PAGEADDR, PR_BLOCKTYPE, MKPAB, NSIZES in *. cbn [pageaddr_and_blocktype].
  assert (Ep : Z.land pa PAGE_FRAME = pa).
  { rewrite land_page by done. pose proof (Z.div_mod pa PAGE_SIZE ltac:(done)). lia. }
  assert (Et : Z.land t 0xfff = t) by (rewrite low_bits_page; apply Z.mod_small; unfold PAGE_SIZE; lia).
  rewrite !Z.land_lor_distr_l, Ep, Et. split.
  - rewrite Ep, land_page by lia. rewrite Z.div_small by (unfold PAGE_SIZE; lia). apply Z.lor_0_r.
  - rewrite Et, low_bits_page, Hm. done.
Qed.

(** ** Pages *)

(** First free block (0: none). *)
Definition fhead (x : pageref) : Z :=
  if freelist_offset x =? INVALID_OFFSET then 0 else PR_PAGEADDR x + freelist_offset x.

(** [a] is the address of a block of the page. *)
Definition is_block (x : pageref) (a : Z) : Prop :=
  PR_PAGEADDR x <= a < PR_PAGEADDR x + PAGE_SIZE /\ (a - PR_PAGEADDR x) mod size_of (PR_BLOCKTYPE x) = 0.

(** The free blocks of the page are [fl], in this order. *)
Record page_wf (w : gmap Z Z) (x : pageref) (fl : list Z) : Prop := mk_page_wf {
  pg_type : 0 <= PR_BLOCKTYPE x < NSIZES;
  pg_list : chain (fun a => w !! a) (fhead x) fl;
  pg_nodup : NoDup fl;
  pg_blocks : forall a, a ∈ fl -> is_block x a;
  pg_count : nfree x = Z.of_nat (length fl);
  pg_offset : freelist_offset x = INVALID_OFFSET \/ 0 <= freelist_offset x < PAGE_SIZE
}.

(** The blocks of a page, listed. *)
Lemma blocks_bound x (l : list Z) :
  0 <= PR_BLOCKTYPE x < NSIZES -> NoDup l -> (forall a, a ∈ l -> is_block x a) ->
  Z.of_nat (length l) <= PAGE_SIZE / size_of (PR_BLOCKTYPE x).
Proof.
  intros Ht Hnd Hb. destruct (size_divides _ Ht) as (Hs & Hp & Hn & _). set (sz := size_of (PR_BLOCKTYPE x)) in *.
  set (all := (fun i => PR_PAGEADDR x + i * sz) <$> seqZ 0 (PAGE_SIZE / sz)).
  assert (Hlen : length all = Z.to_nat (PAGE_SIZE / sz)) by (unfold all; by rewrite length_fmap, length_seqZ).
  assert (length l <= length all)%nat; [|lia]. apply submseteq_length, NoDup_submseteq; [done|].
  intros a Ha. destruct (Hb a Ha) as [Hr Hm]. fold sz in Hm. unfold all. apply list_elem_of_fmap.
  exists ((a - PR_PAGEADDR x) / sz). pose proof (Z.div_mod (a - PR_PAGEADDR x) sz ltac:(lia)).
  split; [lia|]. apply elem_of_seqZ. split; [apply Z.div_pos; lia|]. rewrite Z.add_0_l.
  apply Z.div_lt_upper_bound; lia.
Qed.

(** Two blocks of a page do not overlap. *)
Lemma blocks_apart x a b :
  0 <= PR_BLOCKTYPE x < NSIZES -> is_block x a -> is_block x b -> a <> b ->
  a + size_of (PR_BLOCKTYPE x) <= b \/ b + size_of (PR_BLOCKTYPE x) <= a.
Proof.
  intros Ht [Ha Hma] [Hb Hmb] Hne. destruct (size_divides _ Ht) as (Hs & _). set (sz := size_of _) in *.
  pose proof (Z.div_mod (a - PR_PAGEADDR x) sz ltac:(lia)). pose proof (Z.div_mod (b - PR_PAGEADDR x) sz ltac:(lia)).
  set (i := (a - PR_PAGEADDR x) / sz) in *. set (j := (b - PR_PAGEADDR x) / sz) in *.
  destruct (Z.lt_total i j) as [|[E|]]; [left; nia|exfalso; apply Hne; rewrite E in *; lia|right; nia].
Qed.

Lemma block_end x a :
  0 <= PR_BLOCKTYPE x < NSIZES -> is_block x a -> a + size_of (PR_BLOCKTYPE x) <= PR_PAGEADDR x + PAGE_SIZE.
Proof.
  intros Ht [Ha Hm]. destruct (size_divides _ Ht) as (Hs & Hp & _). set (sz := size_of _) in *.
  pose proof (Z.div_mod (a - PR_PAGEADDR x) sz ltac:(lia)). set (i := (a - PR_PAGEADDR x) / sz) in *.
  set (n := PAGE_SIZE / sz) in *. assert (i < n) by nia. nia.
Qed.

(** ** Taking and giving back a block of a page *)

Definition page_rng (x : pageref) : Prop := MIPS_KSEG0 < PR_PAGEADDR x < 2 ^ 32 - PAGE_SIZE.

Definition with_words (w : gmap Z Z) (h : kheap) : kheap :=
  mk_heap (kheaproots h) (prefs h) (sizebases h) (allbase h) w.

Lemma u16_small x : 0 <= x < 2 ^ 16 -> u16 x = x.
Proof. apply Z.mod_small. Qed.

Lemma chain_head nxt b a l : chain nxt b (a :: l) -> b = a /\ exists b', nxt a = Some b' /\ chain nxt b' l.
Proof. intros (-> & _ & H). done. Qed.

Lemma doalloc_spec h pr x fl :
  prefs h !! pr = Some x -> page_wf (words h) x fl -> page_rng x -> 0 < nfree x ->
  exists a fl' off, fl = a :: fl' /\
    doalloc pr h = Ret a (with_prefs (<[pr := set_free off (nfree x - 1) x]> (prefs h)) h) /\
    page_wf (words h) (set_free off (nfree x - 1) x) fl'.
Proof.
  intros Hx [Ht Hc Hnd Hb Hn Ho] Hr Hpos. pose proof (blocks_bound x fl Ht Hnd Hb) as Hmax.
  destruct (size_divides _ Ht) as (Hs & Hp & Hcnt & _).
  destruct fl as [|a fl']; [simpl in Hn; lia|]. destruct (chain_head _ _ _ _ Hc) as (Ehead & b & Hw & Hc').
  assert (Hoff : freelist_offset x <> INVALID_OFFSET /\ PR_PAGEADDR x + freelist_offset x = a).
  { unfold fhead in Ehead. destruct (Z.eqb_spec (freelist_offset x) INVALID_OFFSET); [|done].
    destruct Hc as (_ & Ha & _). congruence. }
  destruct Hoff as [Hoff Ea]. destruct Ho as [|Ho]; [done|].
  unfold page_rng, MIPS_KSEG0, PAGE_SIZE in Hr. apply NoDup_cons in Hnd as [Ha' Hnd'].
  assert (Hn' : u16 (nfree x - 1) = nfree x - 1) by (apply u16_small; lia).
  exists a, fl'. unfold doalloc. rewrite (run_bind _ _ _ _ _ (get_pr_eq h pr x Hx)).
  rewrite (run_bind _ _ h tt h) by (unfold KASSERT; by rewrite (proj2 (Z.ltb_lt _ _) (proj2 Ho))). cbv zeta.
  rewrite Ea, u32_small by (destruct (Hb a ltac:(by left)) as [? _]; unfold PAGE_SIZE in *; lia).
  rewrite (run_bind _ _ h b h) by (unfold get_word; msimpl; by rewrite Hw). rewrite Hn'.
  destruct (Z.eqb_spec b 0) as [->|Hb0]; cbn [negb].
  - assert (fl' = []) as -> by (by apply (chain_nil_iff _ _ _ Hc')). simpl in Hn.
    exists INVALID_OFFSET. split; [done|]. split.
    + rewrite (run_bind _ _ h tt h) by (unfold KASSERT; by rewrite (proj2 (Z.eqb_eq _ _)) by lia). done.
    + split; try done; [by intros ? ?%not_elem_of_nil|simpl; lia|by left].
  - destruct fl' as [|b0 fl'']; [simpl in Hc'; congruence|]. destruct (chain_head _ _ _ _ Hc') as (-> & _).
    destruct (Hb b0 ltac:(right; by left)) as [Hrb Hmb]. unfold PAGE_SIZE in Hrb.
    assert (Hd : u32 (b0 - PR_PAGEADDR x) = b0 - PR_PAGEADDR x) by (apply u32_small; lia).
    exists (b0 - PR_PAGEADDR x). split; [done|]. split.
    + rewrite (run_bind _ _ h tt h) by (unfold KASSERT; rewrite (proj2 (Z.ltb_lt _ _)); [done|simpl in Hn; lia]).
      rewrite Hd. rewrite (run_bind _ _ h tt h) by
        (unfold KASSERT; rewrite (proj2 (Z.ltb_lt _ _)); [done|unfold PAGE_SIZE; lia]).
      rewrite u16_small by lia. done.
    + split; try done.
      * unfold fhead. cbn [freelist_offset set_free]. rewrite (proj2 (Z.eqb_neq _ _)) by (unfold INVALID_OFFSET; lia).
        change (PR_PAGEADDR (set_free _ _ x)) with (PR_PAGEADDR x). by replace (PR_PAGEADDR x + (b0 - PR_PAGEADDR x)) with b0 by lia.
      * intros c Hc0. apply (Hb c). by right.
      * simpl in *. lia.
      * right. simpl. unfold PAGE_SIZE. lia.
Qed.

Lemma fill_deadbeef_spec a len h :
  exists w, fill_deadbeef a len h = Ret tt (with_words w h) /\
    forall b, b < a \/ a + Z.max 0 len <= b -> w !! b = words h !! b.
Proof.
  enough (H : wp (fill_deadbeef a len) h (fun _ h' => exists w, h' = with_words w h /\
    forall b, b < a \/ a + Z.max 0 len <= b -> w !! b = words h !! b)).
  { apply wp_run in H as ([] & h' & Hrun & w & -> & Hw). eauto. }
  unfold fill_deadbeef. apply (wp_for_loop (fun _ h' => exists w, h' = with_words w h /\
    forall b, b < a \/ a + Z.max 0 len <= b -> w !! b = words h !! b)).
  - exists (words h). split; [by destruct h|done].
  - intros i h' Hi (w & -> & Hw). eexists. split; [reflexivity|]. intros b Hb. rewrite lookup_insert_ne; [by apply Hw|].
    pose proof (Z.div_mod len 4 ltac:(lia)). pose proof (Z.mod_pos_bound len 4 ltac:(lia)). lia.
Qed.

(** What a page's blocks may change: the words of one block. *)
Lemma push_block_spec h pr x fl a :
  prefs h !! pr = Some x -> page_wf (words h) x fl -> page_rng x -> is_block x a -> a ∉ fl ->
  exists w, push_block pr a h =
      Ret (nfree x + 1 =? PAGE_SIZE / size_of (PR_BLOCKTYPE x))
        (mk_heap (kheaproots h) (<[pr := set_free (a - PR_PAGEADDR x) (nfree x + 1) x]> (prefs h))
           (sizebases h) (allbase h) w) /\
    page_wf w (set_free (a - PR_PAGEADDR x) (nfree x + 1) x) (a :: fl) /\
    (forall b, b < a \/ a + size_of (PR_BLOCKTYPE x) <= b -> w !! b = words h !! b).
Proof.
  intros Hx [Ht Hc Hnd Hb Hn Ho] Hr [Har Ham] Hnin. destruct (size_divides _ Ht) as (Hs & Hp & Hcnt & _).
  assert (Hnd' : NoDup (a :: fl)) by (by apply NoDup_cons).
  assert (Hb' : forall c, c ∈ a :: fl -> is_block x c) by (intros c [->|?]%elem_of_cons; [done|by apply Hb]).
  pose proof (blocks_bound x (a :: fl) Ht Hnd' Hb') as Hmax. rewrite length_cons, Nat2Z.inj_succ, <- Hn in Hmax.
  set (sz := size_of (PR_BLOCKTYPE x)) in *. unfold page_rng, MIPS_KSEG0, PAGE_SIZE in Hr.
  assert (Hoff : u32 (a - PR_PAGEADDR x) = a - PR_PAGEADDR x) by (apply u32_small; unfold PAGE_SIZE in Har; lia).
  unfold push_block. rewrite (run_bind _ _ _ _ _ (get_pr_eq h pr x Hx)). cbv zeta. fold sz. rewrite Hoff, Ham.
  rewrite (proj2 (Z.leb_gt PAGE_SIZE _)) by lia. cbn [orb negb Z.eqb].
  destruct (fill_deadbeef_spec a sz h) as (w & Hfill & Hw). rewrite (run_bind _ _ _ _ _ Hfill).
  replace (PR_PAGEADDR x + (a - PR_PAGEADDR x)) with a by lia. rewrite (u32_small a) by (unfold PAGE_SIZE in Har; lia).
  assert (Hn' : u16 (nfree x + 1) = nfree x + 1) by (apply u16_small; lia).
  set (h1 := with_words w h). set (w1 := <[a := fhead x]> w).
  rewrite (run_bind _ _ h1 tt (with_words w1 h)).
  2: { unfold w1, fhead. destruct (Z.eqb_spec (freelist_offset x) INVALID_OFFSET) as [|E]; [done|].
       destruct Ho as [|Ho]; [done|]. rewrite u32_small by (unfold PAGE_SIZE in Ho; lia).
       rewrite (run_bind _ _ h1 tt (with_words (<[a := PR_PAGEADDR x + freelist_offset x]> w) h)) by reflexivity.
       unfold KASSERT. rewrite (proj2 (Z.eqb_neq _ _)); [done|]. intros E'. apply Hnin.
       unfold fhead in Hc. rewrite (proj2 (Z.eqb_neq _ _) E) in Hc. destruct fl as [|c fl'].
       - simpl in Hc. lia.
       - apply chain_head in Hc as (<- & _). rewrite E'. by left. }
  rewrite Hn', u16_small by (unfold PAGE_SIZE in Har; lia). exists w1.
  rewrite (run_bind _ _ (with_words w1 h) tt (mk_heap (kheaproots h)
    (<[pr := set_free (a - PR_PAGEADDR x) (nfree x + 1) x]> (prefs h)) (sizebases h) (allbase h) w1)) by reflexivity.
  split; [|split].
  - set (h2 := mk_heap _ _ _ _ w1). rewrite (run_bind _ _ h2 tt h2); [done|].
    unfold KASSERT. by rewrite (proj2 (Z.leb_le _ _)) by lia.
  - split; try done.
    + unfold fhead. cbn [freelist_offset set_free]. rewrite (proj2 (Z.eqb_neq _ _)) by (unfold INVALID_OFFSET, PAGE_SIZE in *; lia).
      change (PR_PAGEADDR (set_free _ _ x)) with (PR_PAGEADDR x). replace (PR_PAGEADDR x + (a - PR_PAGEADDR x)) with a by lia.
      split; [done|]. split; [lia|]. exists (fhead x). unfold w1. rewrite lookup_insert_eq. split; [done|].
      eapply chain_ext; [done|]. intros c Hc0. assert (c <> a) by (by intros ->). rewrite lookup_insert_ne by done.
      apply Hw. destruct (blocks_apart x a c Ht) as [Hac|Hac]; [done|by apply Hb|done|right|left]; fold sz in Hac; lia.
    + simpl. rewrite Hn. lia.
    + right. simpl. lia.
  - intros b Hbr. unfold w1. rewrite lookup_insert_ne by lia. apply Hw. lia.
Qed.

(** ** A fresh page *)

(** The blocks of a page, last one first. *)
Fixpoint blocks_rev (pg sz : Z) (n : nat) : list Z :=
  match n with O => [] | S n' => pg + Z.of_nat n' * sz :: blocks_rev pg sz n' end.

Lemma blocks_rev_in pg sz n a : a ∈ blocks_rev pg sz n <-> exists k, 0 <= k < Z.of_nat n /\ a = pg + k * sz.
Proof.
  induction n as [|n IH]; simpl.
  - split; [by intros ?%not_elem_of_nil|]. intros (k & Hk & _). lia.
  - rewrite elem_of_cons, IH. split.
    + intros [->|(k & Hk & ->)]; [exists (Z.of_nat n)|exists k]; (split; [lia|done]).
    + intros (k & Hk & ->). destruct (decide (k = Z.of_nat n)) as [->|]; [by left|right]. exists k. split; [lia|done].
Qed.

Lemma blocks_rev_nodup pg sz n : 0 < sz -> NoDup (blocks_rev pg sz n).
Proof.
  intros Hs. induction n as [|n IH]; simpl; constructor; [|done].
  intros (k & Hk & E)%blocks_rev_in. assert (k = Z.of_nat n) by nia. lia.
Qed.

Lemma blocks_rev_length pg sz n : length (blocks_rev pg sz n) = n.
Proof. induction n; simpl; congruence. Qed.

Lemma thread_blocks pg sz n h :
  0 < pg -> 16 <= sz -> pg + Z.of_nat (S n) * sz <= 2 ^ 32 ->
  wp (_ ← put_word pg 0;
      for_loop n 1 (fun i =>
        _ ← put_word (u32 (pg + i * sz)) (u32 (pg + (i - 1) * sz));
        KASSERT (negb (u32 (pg + i * sz) =? u32 (pg + (i - 1) * sz))))) h
    (fun _ h' => exists w, h' = with_words w h /\
       chain (fun a => w !! a) (pg + Z.of_nat n * sz) (blocks_rev pg sz (S n)) /\
       (forall b, b < pg \/ pg + Z.of_nat (S n) * sz <= b -> w !! b = words h !! b)).
Proof.
  intros Hpg Hsz Hend. apply wp_bind, wp_modify.
  set (h0 := mk_heap _ _ _ _ _).
  eapply wp_mono.
  - apply (wp_for_loop (fun i h' => exists w, h' = with_words w h /\
      chain (fun a => w !! a) (pg + (i - 1) * sz) (blocks_rev pg sz (Z.to_nat i)) /\
      (forall b, b < pg \/ pg + Z.of_nat (S n) * sz <= b -> w !! b = words h !! b))).
    + exists (<[pg := 0]> (words h)). split; [done|]. split.
      * simpl. rewrite !Z.mul_0_l, !Z.add_0_r. split; [done|]. split; [lia|]. exists 0. by rewrite lookup_insert_eq.
      * intros b Hb. rewrite lookup_insert_ne; [done|]. nia.
    + intros i h' Hi (w & -> & Hc & Hw). rewrite !u32_small by nia. apply wp_bind, wp_modify.
      apply wp_KASSERT; [rewrite (proj2 (Z.eqb_neq _ _)); [done|nia]|].
      exists (<[pg + i * sz := pg + (i - 1) * sz]> w). split; [done|]. split.
      * replace (Z.to_nat (i + 1)) with (S (Z.to_nat i)) by lia. cbn [blocks_rev].
        replace (i + 1 - 1) with i by lia. rewrite Z2Nat.id by lia.
        split; [done|]. split; [nia|]. exists (pg + (i - 1) * sz). rewrite lookup_insert_eq. split; [done|].
        eapply chain_ext; [done|]. intros a (k & Hk & ->)%blocks_rev_in. rewrite lookup_insert_ne; [done|]. nia.
      * intros b Hb. rewrite lookup_insert_ne; [by apply Hw|]. nia.
  - intros [] h' (w & -> & Hc & Hw). exists w. split; [done|]. split; [|done].
    replace (1 + Z.of_nat n - 1) with (Z.of_nat n) in Hc by lia.
    by replace (Z.to_nat (1 + Z.of_nat n)) with (S n) in Hc by lia.
Qed.

Lemma setup_page_spec h pr pg t b :
  MIPS_KSEG0 < pg < 2 ^ 32 - PAGE_SIZE -> pg mod PAGE_SIZE = 0 -> 0 <= t < NSIZES -> sizebases h !! t = Some b ->
  let x := mk_pr b (allbase h) (MKPAB pg t) (PAGE_SIZE - size_of t) (PAGE_SIZE / size_of t) in
  exists w, setup_page pr pg t h =
      Ret tt (mk_heap (kheaproots h) (<[pr := x]> (prefs h)) (<[t := pr]> (sizebases h)) pr w) /\
    page_wf w x (blocks_rev pg (size_of t) (Z.to_nat (PAGE_SIZE / size_of t))) /\ PR_PAGEADDR x = pg /\ PR_BLOCKTYPE x = t /\
    (forall a, a < pg \/ pg + PAGE_SIZE <= a -> w !! a = words h !! a).
Proof.
  intros Hr Hm Ht Hb x. destruct (size_divides t Ht) as (Hs & Hp & Hn & _). set (sz := size_of t) in *.
  set (n := PAGE_SIZE / sz) in *. unfold MIPS_KSEG0 in Hr.
  destruct (mkpab_fields pg t b (allbase h) (PAGE_SIZE - sz) n ltac:(lia) Hm Ht) as [Epg Et]. fold x in Epg, Et.
  pose proof (thread_blocks pg sz (Z.to_nat (n - 1)) h ltac:(lia) ltac:(lia)) as Hloop.
  replace (Z.of_nat (S (Z.to_nat (n - 1)))) with n in Hloop by lia. rewrite (Z.mul_comm n sz), <- Hp in Hloop.
  specialize (Hloop ltac:(lia)). apply wp_run in Hloop as ([] & h1 & Hrun & w & -> & Hc & Hw).
  replace (Z.of_nat (Z.to_nat (n - 1))) with (n - 1) in Hc by lia.
  replace (S (Z.to_nat (n - 1))) with (Z.to_nat n) in Hc by lia.
  assert (Hoff : (n - 1) * sz = PAGE_SIZE - sz) by lia. exists w. split.
  - unfold setup_page. cbv zeta. fold sz n.
    rewrite (run_bind2 _ _ _ _ _ _ Hrun). rewrite Hoff, u16_small by (unfold PAGE_SIZE in *; lia).
    rewrite (run_bind _ _ (with_words w h) tt (with_words w h)) by (unfold KASSERT; by rewrite Z.eqb_refl).
    rewrite (run_bind _ _ (with_words w h) b (with_words w h)) by (unfold get_base; msimpl; by rewrite Hb).
    rewrite (u16_small n) by lia. done.
  - split; [|split; [done|split; [done|done]]]. split.
    + by rewrite Et.
    + unfold fhead. change (freelist_offset x) with (PAGE_SIZE - sz).
      rewrite (proj2 (Z.eqb_neq _ _)) by (unfold INVALID_OFFSET, PAGE_SIZE in *; lia). rewrite Epg, <- Hoff. done.
    + apply blocks_rev_nodup. lia.
    + intros a (k & Hk & ->)%blocks_rev_in. unfold is_block. rewrite Epg, Et. fold sz. split; [nia|].
      replace (pg + k * sz - pg) with (k * sz) by lia. apply Z.mod_mul. lia.
    + rewrite blocks_rev_length. change (nfree x) with n. lia.
    + right. change (freelist_offset x) with (PAGE_SIZE - sz). unfold PAGE_SIZE in *. lia.
Qed.

End HeapTheory.

(** * The invariant of the kernel heap, and what [kmalloc] and [kfree] do to it *)


Module HeapInv.
Import Cpu Synch Kmalloc HeapLists PagerefPool HeapTheory.

(** ** The heap as lists *)

Lemma filter_ext_in (P1 P2 : Z -> Prop) `{!forall x, Decision (P1 x), !forall x, Decision (P2 x)} (l : list Z) :
  (forall x, x ∈ l -> P1 x <-> P2 x) -> filter P1 l = filter P2 l.
Proof.
  induction l as [|x l IH]; intros Hp; [done|]. rewrite !filter_cons.
  rewrite IH by (intros y Hy; apply Hp; by right). assert (P1 x <-> P2 x) by (apply Hp; by left).
  by destruct (decide (P1 x)), (decide (P2 x)); try tauto.
Qed.

Definition ptype (P : gmap Z pageref) (p : Z) : Z := from_option PR_BLOCKTYPE (-1) (P !! p).

(** [L]: the pagerefs on the list of all pages; [F]: the free blocks of each. *)
Record heap_wf (h : kheap) (L : list Z) (F : gmap Z (list Z)) (live : gmap Z Z) : Prop := mk_hw {
  hw_nodup : NoDup L;
  hw_all : chain (link (prefs h) next_all) (allbase h) L;
  hw_size : forall t, 0 <= t < NSIZES -> exists b, sizebases h !! t = Some b /\
    chain (link (prefs h) next_samesize) b (filter (fun p => ptype (prefs h) p = t) L);
  hw_page : forall p, p ∈ L -> exists x fl, prefs h !! p = Some x /\ F !! p = Some fl /\
    page_wf (words h) x fl /\ live !! PR_PAGEADDR x = Some 1;
  hw_distinct : forall p q x y, p ∈ L -> q ∈ L -> prefs h !! p = Some x -> prefs h !! q = Some y ->
    PR_PAGEADDR x = PR_PAGEADDR y -> p = q;
  hw_roots : roots_wf (kheaproots h) L live;
  hw_notroot : forall r y p x, kheaproots h !! r = Some y -> root_page y <> 0 -> p ∈ L ->
    prefs h !! p = Some x -> PR_PAGEADDR x <> root_page y
}.

Lemma live_page_rng live x : live_ok live -> live !! PR_PAGEADDR x = Some 1 -> page_rng x.
Proof. intros Hl Hx. destruct (lv_range _ Hl _ _ Hx) as [Hr _]. unfold page_rng. lia. Qed.

(** ** Blocks *)

(** [a] is an allocated block of a heap page. *)
Definition sub_block (h : kheap) (L : list Z) (F : gmap Z (list Z)) (a n : Z) : Prop :=
  exists p x fl, p ∈ L /\ prefs h !! p = Some x /\ F !! p = Some fl /\ is_block x a /\ (a ∉ fl) /\
    n = size_of (PR_BLOCKTYPE x).

(** The page is one of the heap's own. *)
Definition own_page (h : kheap) (L : list Z) (va : Z) : Prop :=
  (exists p x, p ∈ L /\ prefs h !! p = Some x /\ PR_PAGEADDR x = va) \/
  (exists r y, kheaproots h !! r = Some y /\ root_page y = va /\ va <> 0).

(** [a] is an allocation of whole pages. *)
Definition big_block (h : kheap) (L : list Z) (live : gmap Z Z) (a n : Z) : Prop :=
  exists k, live !! a = Some k /\ ~ own_page h L a /\ n = k * PAGE_SIZE.

Lemma own_page_live h L F live va : heap_wf h L F live -> own_page h L va -> live !! va = Some 1.
Proof.
  intros Hw [(p & x & Hp & Hx & <-)|(r & y & Hy & <- & H0)].
  - destruct (hw_page _ _ _ _ Hw p Hp) as (x' & fl & Hx' & _ & _ & Hl). congruence.
  - by eapply (rw_live _ _ _ (hw_roots _ _ _ _ Hw)).
Qed.

Lemma sub_block_page h L F live a n :
  heap_wf h L F live -> live_ok live -> sub_block h L F a n ->
  exists p x, p ∈ L /\ prefs h !! p = Some x /\ is_block x a /\ n = size_of (PR_BLOCKTYPE x) /\
    0 <= PR_BLOCKTYPE x < NSIZES /\ live !! PR_PAGEADDR x = Some 1 /\ page_rng x.
Proof.
  intros Hw Hl (p & x & fl & Hp & Hx & HF & Hb & _ & ->).
  destruct (hw_page _ _ _ _ Hw p Hp) as (x' & fl' & Hx' & _ & Hpg & Hlx). rewrite Hx in Hx'. injection Hx' as <-.
  exists p, x. split_and!; try done; [by apply Hpg..|by apply (live_page_rng live)].
Qed.

(** Two blocks do not overlap. *)
Lemma blocks_disjoint h L F live a n a' n' :
  heap_wf h L F live -> live_ok live ->
  (sub_block h L F a n \/ big_block h L live a n) -> (sub_block h L F a' n' \/ big_block h L live a' n') ->
  a <> a' -> a + n <= a' \/ a' + n' <= a.
Proof.
  intros Hw Hl H H' Hne.
  assert (Hsb : forall a n a' n', sub_block h L F a n -> big_block h L live a' n' -> a + n <= a' \/ a' + n' <= a).
  { intros b m b' m' Hs (k & Hk & Hown & ->).
    destruct (sub_block_page _ _ _ _ _ _ Hw Hl Hs) as (p & x & Hp & Hx & Hb & -> & Ht & Hlx & _).
    pose proof (block_end x b Ht Hb). destruct Hb as [Hr _].
    assert (Hpg : PR_PAGEADDR x <> b') by (intros E; apply Hown; left; eauto).
    destruct (lv_disjoint _ Hl _ _ _ _ Hlx Hk Hpg); lia. }
  destruct H as [H|H], H' as [H'|H'].
  - destruct (sub_block_page _ _ _ _ _ _ Hw Hl H) as (p & x & Hp & Hx & Hb & -> & Ht & Hlx & _).
    destruct (sub_block_page _ _ _ _ _ _ Hw Hl H') as (p' & x' & Hp' & Hx' & Hb' & -> & Ht' & Hlx' & _).
    destruct (decide (p = p')) as [<-|Hpp].
    + rewrite Hx in Hx'. injection Hx' as <-. by apply blocks_apart.
    + pose proof (block_end x a Ht Hb). pose proof (block_end x' a' Ht' Hb'). destruct Hb as [Hr _], Hb' as [Hr' _].
      assert (Hpg : PR_PAGEADDR x <> PR_PAGEADDR x') by (intros E; apply Hpp; by eapply (hw_distinct _ _ _ _ Hw)).
      destruct (lv_disjoint _ Hl _ _ _ _ Hlx Hlx' Hpg); lia.
  - by apply Hsb.
  - destruct (Hsb a' n' a n H' H); lia.
  - destruct H as (k & Hk & _ & ->), H' as (k' & Hk' & _ & ->). by eapply (lv_disjoint _ Hl).
Qed.

(** ** Changing the free list of one page *)

(** The fields of [pr] that place it in the lists stay; the words outside its page stay. *)
Lemma heap_wf_page h L F live pr x off n w fl' :
  heap_wf h L F live -> live_ok live -> pr ∈ L -> prefs h !! pr = Some x ->
  page_wf w (set_free off n x) fl' ->
  (forall b, b < PR_PAGEADDR x \/ PR_PAGEADDR x + PAGE_SIZE <= b -> w !! b = words h !! b) ->
  heap_wf (mk_heap (kheaproots h) (<[pr := set_free off n x]> (prefs h)) (sizebases h) (allbase h) w)
    L (<[pr := fl']> F) live.
Proof.
  intros [W1 W2 W3 W4 W5 W6 W7] Hl Hpr Hx Hpg Hw.
  assert (Hlook : forall p y, <[pr := set_free off n x]> (prefs h) !! p = Some y -> exists y0, prefs h !! p = Some y0 /\
    next_all y = next_all y0 /\ next_samesize y = next_samesize y0 /\ PR_PAGEADDR y = PR_PAGEADDR y0 /\ PR_BLOCKTYPE y = PR_BLOCKTYPE y0).
  { intros p y [[<- <-]|[_ Hy]]%lookup_insert_Some; [by exists x|by exists y]. }
  assert (Hlink : forall f, (forall o m y, f (set_free o m y) = f y) -> forall p,
    link (<[pr := set_free off n x]> (prefs h)) f p = link (prefs h) f p).
  { intros f Hf p. unfold link. destruct (decide (pr = p)) as [<-|]; [|by rewrite lookup_insert_ne].
    rewrite lookup_insert_eq, Hx. simpl. by rewrite Hf. }
  assert (Htype : forall p, ptype (<[pr := set_free off n x]> (prefs h)) p = ptype (prefs h) p).
  { intros p. unfold ptype. destruct (decide (pr = p)) as [<-|]; [by rewrite lookup_insert_eq, Hx|by rewrite lookup_insert_ne]. }
  split; simpl; try done.
  - eapply chain_ext; [done|]. intros p _. by apply Hlink.
  - intros t Ht. destruct (W3 t Ht) as (b & Hb & Hc). exists b. split; [done|].
    rewrite (list_filter_iff _ (fun p => ptype (prefs h) p = t)) by (intros p; by rewrite Htype).
    eapply chain_ext; [done|]. intros p _. by apply Hlink.
  - intros p Hp. destruct (decide (pr = p)) as [<-|Hne].
    + exists (set_free off n x), fl'. rewrite !lookup_insert_eq. split_and!; try done.
      destruct (W4 pr Hp) as (x' & ? & Hx' & _ & _ & Hlx). rewrite Hx in Hx'. injection Hx' as <-. exact Hlx.
    + destruct (W4 p Hp) as (y & fl & Hy & HF & Hpy & Hly). exists y, fl. rewrite !lookup_insert_ne by done.
      split_and!; try done. destruct Hpy as [P1 P2 P3 P4 P5 P6]. split; try done.
      eapply chain_ext; [done|]. intros a Ha. apply Hw. destruct (P4 a Ha) as [Hr _].
      destruct (W4 pr Hpr) as (x' & ? & Hx' & _ & _ & Hlx). rewrite Hx in Hx'. injection Hx' as <-.
      assert (Hd : PR_PAGEADDR y <> PR_PAGEADDR x) by (intros E; apply Hne; symmetry; by eapply (W5 p pr)).
      destruct (lv_disjoint _ Hl _ _ _ _ Hly Hlx Hd); lia.
  - intros p q y z Hp Hq Hy Hz E. destruct (Hlook p y Hy) as (y0 & Hy0 & _ & _ & Ey & _).
    destruct (Hlook q z Hz) as (z0 & Hz0 & _ & _ & Ez & _). eapply (W5 p q); try done. congruence.
  - intros r y p z Hy H0 Hp Hz. destruct (Hlook p z Hz) as (z0 & Hz0 & _ & _ & Ez & _). rewrite Ez. by eapply W7.
Qed.

(** ** The blocks of the heap *)

Definition block (h : kheap) (L : list Z) (F : gmap Z (list Z)) (live : gmap Z Z) (a n : Z) : Prop :=
  sub_block h L F a n \/ big_block h L live a n.

(** A page is found by any address in it. *)
Lemma one_page h L F live p q x y a :
  heap_wf h L F live -> live_ok live -> p ∈ L -> q ∈ L -> prefs h !! p = Some x -> prefs h !! q = Some y ->
  PR_PAGEADDR x <= a < PR_PAGEADDR x + PAGE_SIZE -> PR_PAGEADDR y <= a < PR_PAGEADDR y + PAGE_SIZE -> p = q.
Proof.
  intros Hw Hl Hp Hq Hx Hy Ha Ha'. eapply (hw_distinct _ _ _ _ Hw); try done.
  destruct (decide (PR_PAGEADDR x = PR_PAGEADDR y)) as [|Hne]; [done|].
  pose proof (own_page_live _ _ _ _ _ Hw (or_introl (ex_intro _ p (ex_intro _ x (conj Hp (conj Hx eq_refl)))))) as Hlx.
  pose proof (own_page_live _ _ _ _ _ Hw (or_introl (ex_intro _ q (ex_intro _ y (conj Hq (conj Hy eq_refl)))))) as Hly.
  destruct (lv_disjoint _ Hl _ _ _ _ Hlx Hly Hne); lia.
Qed.

(** An address in a page of the heap is not an allocation of whole pages. *)
Lemma in_page_not_big h L F live p x a n :
  heap_wf h L F live -> live_ok live -> p ∈ L -> prefs h !! p = Some x ->
  PR_PAGEADDR x <= a < PR_PAGEADDR x + PAGE_SIZE -> ~ big_block h L live a n.
Proof.
  intros Hw Hl Hp Hx Ha (k & Hk & Hown & _). 
  assert (Hox : own_page h L (PR_PAGEADDR x)) by (left; eauto).
  pose proof (own_page_live _ _ _ _ _ Hw Hox) as Hlx.
  destruct (decide (PR_PAGEADDR x = a)) as [E|Hne]; [by rewrite E in Hox|].
  pose proof (lv_range _ Hl _ _ Hk) as (_ & _ & ?). change PAGE_SIZE with 4096 in *.
  destruct (lv_disjoint _ Hl _ _ _ _ Hlx Hk Hne); change PAGE_SIZE with 4096 in *; lia.
Qed.

(** The heap stays well formed when the pages it does not own change hands. *)
Lemma heap_wf_live h L F live live' :
  heap_wf h L F live -> (forall va, own_page h L va -> live' !! va = Some 1) -> heap_wf h L F live'.
Proof.
  intros [W1 W2 W3 W4 W5 W6 W7] Hown. split; try done.
  - intros p Hp. destruct (W4 p Hp) as (x & fl & Hx & HF & Hpg & _). exists x, fl. split_and!; try done.
    apply Hown. left. eauto.
  - destruct W6 as [R1 R2 R3 R4 R5 R6 R7]. split; try done. intros r x Hr H0. apply Hown. right. eauto.
Qed.

Lemma own_page_set h L pr x off n w va :
  prefs h !! pr = Some x ->
  own_page (mk_heap (kheaproots h) (<[pr := set_free off n x]> (prefs h)) (sizebases h) (allbase h) w) L va <->
  own_page h L va.
Proof.
  intros Hx. unfold own_page. simpl. apply or_iff_compat_r, exist_proper. intros p.
  destruct (decide (pr = p)) as [<-|Hne]; [|by setoid_rewrite lookup_insert_ne].
  rewrite lookup_insert_eq, Hx. split; intros (y & Hp & [= <-] & E); eauto.
Qed.

(** What a change of the free list of the page of [pr] does to the blocks. *)
Lemma block_page h L F live pr x off n w fl fl' a m :
  heap_wf h L F live -> live_ok live -> pr ∈ L -> prefs h !! pr = Some x -> F !! pr = Some fl -> is_block x a ->
  m = size_of (PR_BLOCKTYPE x) ->
  let h' := mk_heap (kheaproots h) (<[pr := set_free off n x]> (prefs h)) (sizebases h) (allbase h) w in
  let F' := <[pr := fl']> F in
  (fl = a :: fl' -> NoDup fl -> forall a' n', block h' L F' live a' n' <-> (a' = a /\ n' = m) \/ block h L F live a' n') /\
  (fl' = a :: fl -> forall a' n', block h' L F' live a' n' <-> a' <> a /\ block h L F live a' n').
Proof.
  intros Hw Hl Hpr Hx HF Ha -> h' F'.
  assert (Hbig : forall a' n', big_block h' L live a' n' <-> big_block h L live a' n').
  { intros a' n'. unfold big_block, h'. apply exist_proper. intros k. rewrite (own_page_set h L pr x off n w a' Hx). done. }
  assert (Hsub : forall a' n', sub_block h' L F' a' n' <->
    (is_block x a' /\ (a' ∉ fl') /\ n' = size_of (PR_BLOCKTYPE x)) \/
    (exists p y gl, p <> pr /\ p ∈ L /\ prefs h !! p = Some y /\ F !! p = Some gl /\ is_block y a' /\ (a' ∉ gl) /\
       n' = size_of (PR_BLOCKTYPE y))).
  { intros a' n'. unfold h', F'. split.
    - intros (p & y & gl & Hp & Hy & Hg & Hb & Hn & ->). simpl in Hy.
      destruct (decide (pr = p)) as [<-|Hne].
      + left. rewrite lookup_insert_eq in Hy. rewrite lookup_insert_eq in Hg. injection Hy as <-. injection Hg as <-. done.
      + right. rewrite lookup_insert_ne in Hy by done. rewrite lookup_insert_ne in Hg by done. exists p, y, gl. split_and!; done.
    - intros [(Hb & Hn & ->)|(p & y & gl & Hne & Hp & Hy & Hg & Hb & Hn & ->)].
      + exists pr, (set_free off n x), fl'. simpl. rewrite !lookup_insert_eq. done.
      + exists p, y, gl. simpl. rewrite !lookup_insert_ne by done. done. }
  assert (Hother : forall p y n', p <> pr -> p ∈ L -> prefs h !! p = Some y -> ~ is_block y a /\ ~ big_block h L live a n').
  { intros p y n' Hne Hp Hy. split; [|by eapply (in_page_not_big _ _ _ _ pr); [..|apply Ha]].
    intros Hb. apply Hne. by eapply (one_page _ _ _ _ p pr y x a Hw Hl); [..|apply Hb|apply Ha]. }
  unfold block. split.
  - intros -> Hnd a' n'. rewrite Hsub, Hbig.
    split.
    + intros [[(Hb & Hn & ->)|(p & y & gl & Hne & Hp & Hy & Hg & Hb & Hn & ->)]|Hb]; [|right; left; by exists p, y, gl|by right; right].
      destruct (decide (a' = a)) as [->|Hna]; [by left|]. right. left. exists pr, x, (a :: fl'). split_and!; try done. set_solver.
    + intros [[-> ->]|[(p & y & gl & Hp & Hy & Hg & Hb & Hn & ->)|Hb]]; [|left|by right].
      * left. left. split_and!; [done| |done]. by apply NoDup_cons in Hnd as [? _].
      * destruct (decide (p = pr)) as [->|Hne]; [left|right; by exists p, y, gl].
        rewrite Hx in Hy. injection Hy as <-. rewrite HF in Hg. injection Hg as <-. split_and!; [done|set_solver|done].
  - intros -> a' n'. rewrite Hsub, Hbig. split.
    + intros [[(Hb & Hn & ->)|(p & y & gl & Hne & Hp & Hy & Hg & Hb & Hn & ->)]|Hb].
      * split; [set_solver|]. left. exists pr, x, fl. split_and!; try done. set_solver.
      * split; [|left; by exists p, y, gl]. intros ->. by destruct (Hother p y 0 Hne Hp Hy).
      * split; [|by right]. intros ->. by eapply (in_page_not_big _ _ _ _ pr); [..|apply Ha|].
    + intros [Hna [(p & y & gl & Hp & Hy & Hg & Hb & Hn & ->)|Hb]]; [left|by right].
      destruct (decide (p = pr)) as [->|Hne]; [left|right; by exists p, y, gl].
      rewrite Hx in Hy. injection Hy as <-. rewrite HF in Hg. injection Hg as <-. split_and!; [done|set_solver|done].
Qed.

End HeapInv.
