(* ===== verification/HeapAlloc.v ===== *)
(** * What [kmalloc] does to the heap (kern/vm/kmalloc.c) *)

From S2P Require Import Prelude Cpu Synch Kmalloc HeapLists PagerefPool HeapTheory.

Module HeapAlloc.
Import Cpu Synch Kmalloc HeapLists PagerefPool HeapTheory HeapInv.

(** ** A block of a page that has one *)

Lemma block_aligned x a : 0 <= PR_BLOCKTYPE x < NSIZES -> PR_PAGEADDR x mod PAGE_SIZE = 0 -> is_block x a -> a mod 16 = 0.
Proof.
  intros Ht Hp [_ Hm]. destruct (size_divides _ Ht) as (? & _ & _ & Hs).
  apply Z.mod_divide in Hp; [|done]. apply Z.mod_divide in Hs; [|done]. apply Z.mod_divide in Hm; [|lia].
  destruct Hp as [u Hu], Hs as [v Hv], Hm as [k Hk]. apply Z.mod_divide; [done|].
  exists (u * 256 + k * v). change PAGE_SIZE with 4096 in Hu. rewrite Hv in Hk. lia.
Qed.

(** An address in the page of [x]; every page of the heap has a block of [B]. *)
Definition in_page (x : pageref) (a : Z) : Prop := PR_PAGEADDR x <= a < PR_PAGEADDR x + PAGE_SIZE.
Definition pages_used (h : kheap) (L : list Z) (B : gmap Z Z) : Prop :=
  forall q x, q ∈ L -> prefs h !! q = Some x -> exists a n, B !! a = Some n /\ in_page x a.

Lemma pages_used_insert h h' L B a n :
  pages_used h L B -> B !! a = None -> (forall q y, prefs h' !! q = Some y -> exists y0, prefs h !! q = Some y0 /\ PR_PAGEADDR y = PR_PAGEADDR y0) -> pages_used h' L (<[a := n]> B).
Proof.
  intros Hu Ha Hp q y Hq Hy. destruct (Hp q y Hy) as (y0 & Hy0 & E). destruct (Hu q y0 Hq Hy0) as (b & m & Hb & Hin). exists b, m. rewrite lookup_insert_ne by congruence. split; [done|]. unfold in_page in *. by rewrite E.
Qed.

Lemma doalloc_heap h L F live pr x :
  heap_wf h L F live -> live_ok live -> pr ∈ L -> prefs h !! pr = Some x -> 0 < nfree x ->
  exists a h' F', doalloc pr h = Ret a h' /\ heap_wf h' L F' live /\ kheaproots h' = kheaproots h /\
    a <> 0 /\ a mod 16 = 0 /\ (forall n, ~ block h L F live a n) /\
    (forall a' n', block h' L F' live a' n' <-> (a' = a /\ n' = size_of (PR_BLOCKTYPE x)) \/ block h L F live a' n') /\
    in_page x a /\ (forall q y, prefs h' !! q = Some y -> exists y0, prefs h !! q = Some y0 /\ PR_PAGEADDR y = PR_PAGEADDR y0).
Proof.
  intros Hw Hl Hpr Hx Hn. destruct (hw_page _ _ _ _ Hw pr Hpr) as (x' & fl & Hx' & HF & Hpg & Hlx).
  rewrite Hx in Hx'. injection Hx' as <-. pose proof (live_page_rng live x Hl Hlx) as Hr.
  destruct (doalloc_spec h pr x fl Hx Hpg Hr Hn) as (a & fl' & off & -> & Hd & Hpg').
  assert (Ha : is_block x a) by (apply (pg_blocks _ _ _ Hpg); set_solver).
  exists a, (with_prefs (<[pr := set_free off (nfree x - 1) x]> (prefs h)) h), (<[pr := fl']> F).
  split; [done|]. split; [by eapply (heap_wf_page h L F live pr x off _ (words h))|]. split; [done|].
  split; [destruct Ha; unfold page_rng, MIPS_KSEG0 in Hr; lia|].
  split; [apply (block_aligned x); [apply Hpg|by eapply (lv_range _ Hl)|done]|]. split; [|split; [|split; [apply Ha|]]].
  - intros n [(p & y & gl & Hp & Hy & Hg & Hb & Hni & ->)|Hbig]; [|by eapply (in_page_not_big _ _ _ _ pr x a n Hw Hl); try done; apply Ha].
    assert (p = pr) as -> by (by eapply (one_page _ _ _ _ p pr y x a Hw Hl); [..|apply Hb|apply Ha]).
    rewrite HF in Hg. injection Hg as <-. set_solver.
  - eapply (block_page h L F live pr x off _ (words h) (a :: fl') fl' a); try done. apply Hpg.
  - intros q y Hy. change (<[pr := set_free off (nfree x - 1) x]> (prefs h) !! q = Some y) in Hy. apply lookup_insert_Some in Hy as [[<- <-]|[_ Hy]]; [by exists x|by exists y].
Qed.

Lemma find_page_heap h L F live t b :
  heap_wf h L F live -> live_ok live -> 0 <= t < NSIZES -> sizebases h !! t = Some b ->
  exists pr, find_page (S TOTAL_PAGEREFS) b t h = Ret pr h /\
    (pr = 0 \/ pr <> 0 /\ pr ∈ L /\ exists x, prefs h !! pr = Some x /\ 0 < nfree x /\ PR_BLOCKTYPE x = t).
Proof.
  intros Hw Hl Ht Hb. destruct (hw_size _ _ _ _ Hw t Ht) as (b' & Hb' & Hc). rewrite Hb in Hb'. injection Hb' as <-.
  pose proof (pagerefs_bounded _ _ _ (hw_roots _ _ _ _ Hw) (hw_nodup _ _ _ _ Hw)) as Hlen.
  pose proof (length_filter (fun p => ptype (prefs h) p = t) L) as Hlf.
  destruct (find_page_spec h t _ b (S TOTAL_PAGEREFS) Hc) as (pr & Hf & Hor); [lia| |].
  { intros p x [Hp _]%list_elem_of_filter Hx. unfold ptype in Hp. by rewrite Hx in Hp. }
  exists pr. split; [done|]. destruct Hor as [|(Hin & x & Hx & Hn)]; [by left|right].
  apply list_elem_of_filter in Hin as [Hp Hin]. unfold ptype in Hp. rewrite Hx in Hp.
  split; [by eapply (pageref_nonzero _ _ _ _ (hw_roots _ _ _ _ Hw) Hl)|]. split; [done|]. by exists x.
Qed.

(** ** A fresh page *)

(** The pageref [pr] is new; its page [pg] is not one of the heap's.  [R] and [live'] are
    those after the pageref has been taken. *)
Record fresh_page (h : kheap) (L : list Z) (live live' : gmap Z Z) (R : gmap Z kheap_root) (pr pg : Z) : Prop := mk_fresh {
  fp_pr : pr <> 0 /\ (pr ∉ L);
  fp_roots : roots_wf R (pr :: L) live';
  fp_live : forall va n, live !! va = Some n -> live' !! va = Some n;
  fp_back : forall va n, live' !! va = Some n -> live !! va = Some n \/ exists r x, R !! r = Some x /\ root_page x = va;
  fp_new : forall r x, R !! r = Some x -> root_page x <> 0 ->
    (exists x0, kheaproots h !! r = Some x0 /\ root_page x0 = root_page x) \/ live !! root_page x = None;
  fp_old : forall r x, kheaproots h !! r = Some x -> root_page x <> 0 ->
    exists x', R !! r = Some x' /\ root_page x' = root_page x;
  fp_page : live !! pg = Some 1 /\ ~ own_page h L pg
}.

Lemma fresh_not_root h L F live live' R pr pg r x va :
  heap_wf h L F live -> fresh_page h L live live' R pr pg -> R !! r = Some x -> root_page x <> 0 ->
  live !! va = Some 1 -> (va = pg \/ exists p y, p ∈ L /\ prefs h !! p = Some y /\ PR_PAGEADDR y = va) -> va <> root_page x.
Proof.
  intros Hw Hf Hx H0 Hva Hor ->. destruct (fp_new _ _ _ _ _ _ _ Hf r x Hx H0) as [(x0 & Hx0 & E)|Hn]; [|congruence].
  destruct Hor as [Hpg|(p & y & Hp & Hy & E')].
  - apply (fp_page _ _ _ _ _ _ _ Hf). right. exists r, x0. split_and!; congruence.
  - eapply (hw_notroot _ _ _ _ Hw r x0 p y); try done; congruence.
Qed.

Lemma heap_wf_add h L F live live' R pr pg t b x w fl :
  heap_wf h L F live -> live_ok live' -> fresh_page h L live live' R pr pg -> 0 <= t < NSIZES -> sizebases h !! t = Some b ->
  page_wf w x fl -> PR_PAGEADDR x = pg -> PR_BLOCKTYPE x = t -> next_samesize x = b -> next_all x = allbase h ->
  (forall a, a < pg \/ pg + PAGE_SIZE <= a -> w !! a = words h !! a) ->
  heap_wf (mk_heap R (<[pr := x]> (prefs h)) (<[t := pr]> (sizebases h)) pr w) (pr :: L) (<[pr := fl]> F) live'.
Proof.
  intros Hw Hl Hf Ht Hb Hpg Hx Hxt Hns Hna Hword. pose proof Hw as [W1 W2 W3 W4 W5 W6 W7].
  destruct (fp_pr _ _ _ _ _ _ _ Hf) as [H0 Hnin]. destruct (fp_page _ _ _ _ _ _ _ Hf) as [Hlpg Hown].
  assert (Hne : forall p, p ∈ L -> pr <> p) by (intros p Hp ->; done).
  assert (Hpne : forall p y, p ∈ L -> prefs h !! p = Some y -> PR_PAGEADDR y <> pg)
    by (intros p y Hp Hy E; apply Hown; left; eauto).
  split; simpl.
  - by apply NoDup_cons.
  - split; [done|]. split; [done|]. exists (allbase h). split; [unfold link; rewrite lookup_insert_eq; simpl; congruence|].
    eapply chain_ext; [done|]. intros p Hp. unfold link. rewrite lookup_insert_ne by auto. done.
  - intros t' Ht'. destruct (W3 t' Ht') as (b' & Hb' & Hc).
    assert (Hc' : chain (link (<[pr := x]> (prefs h)) next_samesize) b'
      (filter (fun p => ptype (<[pr := x]> (prefs h)) p = t') L)).
    { rewrite (filter_ext_in _ (fun p => ptype (prefs h) p = t')).
      2:{ intros p Hp. unfold ptype. rewrite lookup_insert_ne by auto. done. }
      eapply chain_ext; [done|]. intros p [_ Hp]%list_elem_of_filter. unfold link. rewrite lookup_insert_ne by auto. done. }
    assert (Hpt : ptype (<[pr := x]> (prefs h)) pr = t) by (unfold ptype; by rewrite lookup_insert_eq).
    destruct (decide (t = t')) as [<-|Htt].
    + exists pr. rewrite lookup_insert_eq, filter_cons_True by done. split; [done|]. apply (chain_cons _ b'); [done| |done].
      unfold link. rewrite lookup_insert_eq. simpl. congruence.
    + exists b'. by rewrite lookup_insert_ne, filter_cons_False by congruence.
  - intros p [->|Hp]%elem_of_cons.
    + exists x, fl. rewrite !lookup_insert_eq. split_and!; try done. rewrite Hx. by apply (fp_live _ _ _ _ _ _ _ Hf).
    + destruct (W4 p Hp) as (y & gl & Hy & HF & Hpy & Hly). exists y, gl. rewrite !lookup_insert_ne by auto.
      split_and!; try done; [|by apply (fp_live _ _ _ _ _ _ _ Hf)].
      destruct Hpy as [P1 P2 P3 P4 P5 P6]. split; try done. eapply chain_ext; [done|]. intros a Ha. apply Hword.
      destruct (P4 a Ha) as [Hr _]. apply (fp_live _ _ _ _ _ _ _ Hf) in Hly, Hlpg.
      destruct (lv_disjoint _ Hl _ _ _ _ Hly Hlpg (Hpne p y Hp Hy)); lia.
  - intros p q y z Hp Hq Hy Hz E.
    destruct (decide (pr = p)) as [<-|Hnp], (decide (pr = q)) as [<-|Hnq]; [done|..];
      rewrite ?lookup_insert_eq in Hy; rewrite ?lookup_insert_eq in Hz;
      rewrite ?lookup_insert_ne in Hy by done; rewrite ?lookup_insert_ne in Hz by done.
    + injection Hy as <-. exfalso. apply elem_of_cons in Hq as [->|Hq]; [done|]. apply (Hpne q z Hq Hz). congruence.
    + injection Hz as <-. exfalso. apply elem_of_cons in Hp as [->|Hp]; [done|]. apply (Hpne p y Hp Hy). congruence.
    + eapply W5; try done; set_solver.
  - apply Hf.
  - intros r y p z Hy Hy0 Hp Hz. destruct (decide (pr = p)) as [<-|Hnp].
    + rewrite lookup_insert_eq in Hz. injection Hz as <-. rewrite Hx. eapply fresh_not_root; try done. by left.
    + rewrite lookup_insert_ne in Hz by done. apply elem_of_cons in Hp as [->|Hp]; [done|].
      destruct (W4 p Hp) as (z' & _ & Hz' & _ & _ & Hlz). rewrite Hz in Hz'. injection Hz' as <-.
      eapply fresh_not_root; try done. right. eauto.
Qed.

(** A page all of whose blocks are free adds no block. *)
Lemma block_add h L F live live' R pr pg x w fl t a n :
  heap_wf h L F live -> live_ok live' -> fresh_page h L live live' R pr pg -> PR_PAGEADDR x = pg ->
  (forall b, is_block x b -> b ∈ fl) ->
  block (mk_heap R (<[pr := x]> (prefs h)) (<[t := pr]> (sizebases h)) pr w) (pr :: L) (<[pr := fl]> F) live' a n <->
  block h L F (delete pg live) a n.
Proof.
  intros Hw Hl' Hf Hx Hfl. destruct (fp_pr _ _ _ _ _ _ _ Hf) as [H0 Hnin]. destruct (fp_page _ _ _ _ _ _ _ Hf) as [Hlpg Hown].
  assert (Hne : forall p, p ∈ L -> pr <> p) by (intros p Hp ->; done).
  unfold block. split; (intros [Hs|Hb]; [left|right]).
  - destruct Hs as (p & y & gl & Hp & Hy & HF & Hbl & Hn & ->). simpl in Hy.
    destruct (decide (pr = p)) as [<-|Hnp].
    + rewrite lookup_insert_eq in Hy. rewrite lookup_insert_eq in HF. injection Hy as <-. injection HF as <-.
      by destruct Hn; apply Hfl.
    + rewrite lookup_insert_ne in Hy by done. rewrite lookup_insert_ne in HF by done.
      exists p, y, gl. split_and!; try done. set_solver.
  - destruct Hb as (k & Hk & Ho & ->). exists k. split_and!; [|intros Ho'; apply Ho|done].
    + destruct (fp_back _ _ _ _ _ _ _ Hf a k Hk) as [Hk'|(r & y & Hy & E)].
      * rewrite lookup_delete_ne; [done|]. intros <-. apply Ho. left. exists pr, x. simpl.
        rewrite lookup_insert_eq. split_and!; [set_solver|done|done].
      * destruct Ho. right. exists r, y. split_and!; [done|done|]. intros ->.
        destruct (lv_range _ Hl' _ _ Hk) as [? _]. unfold MIPS_KSEG0 in *. lia.
    + destruct Ho' as [(p & y & Hp & Hy & E)|(r & y & Hy & E & Hz)].
      * left. exists p, y. simpl. rewrite lookup_insert_ne by auto. split_and!; [set_solver|done|done].
      * right. destruct (fp_old _ _ _ _ _ _ _ Hf r y Hy) as (y' & Hy' & E'); [congruence|]. exists r, y'. split_and!; simpl; congruence.
  - destruct Hs as (p & y & gl & Hp & Hy & HF & Hbl & Hn & ->). exists p, y, gl. simpl.
    rewrite !lookup_insert_ne by auto. split_and!; try done. set_solver.
  - destruct Hb as (k & Hk & Ho & ->). apply lookup_delete_Some in Hk as [Hkne Hk].
    exists k. split_and!; [by apply (fp_live _ _ _ _ _ _ _ Hf)| |done]. intros Ho'. apply Ho.
    destruct Ho' as [(p & y & Hp & Hy & E)|(r & y & Hy & E & Hz)].
    + simpl in Hy. destruct (decide (pr = p)) as [<-|Hnp].
      * rewrite lookup_insert_eq in Hy. injection Hy as <-. congruence.
      * rewrite lookup_insert_ne in Hy by done. left. exists p, y. split_and!; [set_solver|done|done].
    + simpl in Hy. destruct (fp_new _ _ _ _ _ _ _ Hf r y Hy) as [(y0 & Hy0 & E0)|Hnone]; [congruence| |congruence].
      right. exists r, y0. split_and!; congruence.
Qed.

(** ** The map of allocated blocks *)

Lemma insert_blocks (B : gmap Z Z) (b1 b2 : Z -> Z -> Prop) a n :
  (forall a' n', B !! a' = Some n' <-> b1 a' n') -> (forall a' n', b2 a' n' <-> (a' = a /\ n' = n) \/ b1 a' n') ->
  (forall n', ~ b1 a n') ->
  B !! a = None /\ forall a' n', <[a := n]> B !! a' = Some n' <-> b2 a' n'.
Proof.
  intros HB H2 Hn. split.
  - destruct (B !! a) as [m|] eqn:E; [|done]. apply HB in E. by destruct (Hn m).
  - intros a' n'. rewrite lookup_insert_Some, H2, HB. split; [naive_solver|].
    intros [[-> ->]|Hb]; [by left|]. right. split; [|done]. intros <-. by destruct (Hn n').
Qed.

Lemma delete_blocks (B : gmap Z Z) (b1 b2 : Z -> Z -> Prop) a :
  (forall a' n', B !! a' = Some n' <-> b1 a' n') -> (forall a' n', b2 a' n' <-> a' <> a /\ b1 a' n') ->
  forall a' n', delete a B !! a' = Some n' <-> b2 a' n'.
Proof. intros HB H2 a' n'. rewrite lookup_delete_Some, H2, HB. naive_solver. Qed.

(** The heap at boot. *)
Lemma seqZ_map_lookup {A} n (a : A) i : seqZ_map n a !! i = if decide (0 <= i < n) then Some a else None.
Proof.
  unfold seqZ_map. case_decide as Hi.
  - apply elem_of_list_to_map_1.
    + rewrite <- list_fmap_compose. change (fst ∘ (fun i => (i, a))) with (fun i : Z => i). rewrite list_fmap_id. apply NoDup_seqZ.
    + apply list_elem_of_fmap. exists i. split; [done|]. apply elem_of_seqZ. lia.
  - apply not_elem_of_list_to_map_1. rewrite <- list_fmap_compose.
    change (fst ∘ (fun i => (i, a))) with (fun i : Z => i). rewrite list_fmap_id, elem_of_seqZ. lia.
Qed.

Lemma heap0_bases t : 0 <= t < NSIZES -> sizebases heap0 !! t = Some 0.
Proof. intros Ht. unfold heap0; simpl. by rewrite seqZ_map_lookup, decide_True. Qed.

Lemma roots_wf_init : roots_wf (kheaproots heap0) [] ∅.
Proof.
  assert (Hr : forall r x, kheaproots heap0 !! r = Some x -> x = zero_root).
  { intros r x. unfold heap0; simpl. rewrite seqZ_map_lookup. case_decide; congruence. }
  split.
  - intros r. unfold heap0; simpl. rewrite seqZ_map_lookup. case_decide; [by split|split; [by intros []|done]].
  - intros r x ->%Hr. exists ∅. split; [|set_solver]. split.
    + intros i. simpl. rewrite seqZ_map_lookup. case_decide; [by split|split; [by intros []|done]].
    + intros i w. simpl. rewrite seqZ_map_lookup. case_decide; [|done]. intros [= <-]. split; [done|]. intros. apply Z.testbit_0_l.
    + intros j. split; [set_solver|]. intros [_ (w & Hw & Hb)]. simpl in Hw. rewrite seqZ_map_lookup in Hw.
      case_decide; [|done]. injection Hw as <-. by rewrite Z.testbit_0_l in Hb.
    + done.
  - set_solver.
  - intros r x ->%Hr. done.
  - intros r r' x x' ->%Hr. done.
  - intros r r' x x' _ ->%Hr ->%Hr. done.
  - intros r x ->%Hr. done.
Qed.

Section Spec.
Context {P : Type} `{KP : KPages P}.

(** The heap and its page allocator are in order, and [B] (address to size) are the blocks
    the kernel holds; every page of the heap has one of them, so each page that the page
    allocator has handed out is in use. *)
Definition heap_inv (s : kmst P) (B : gmap Z Z) : Prop :=
  exists L F live, kp_inv (km_pool s) live /\ heap_wf (km_heap s) L F live /\
    (forall a n, B !! a = Some n <-> block (km_heap s) L F live a n) /\ pages_used (km_heap s) L B.

Lemma heap_inv_disjoint s B a n b m :
  heap_inv s B -> B !! a = Some n -> B !! b = Some m -> a <> b -> a + n <= b \/ b + m <= a.
Proof using KP.
  intros (L & F & live & Hi & Hw & HB & _) Ha Hb Hne. apply HB in Ha, Hb.
  eapply (blocks_disjoint _ _ _ _ _ _ _ _ Hw); try done. by eapply live_ok_of.
Qed.

(** At boot. *)
Lemma heap_inv_init p : kp_inv p ∅ -> heap_inv (mk_km heap0 p) ∅.
Proof using KP.
  intros Hi. exists [], ∅, ∅. split; [done|]. split; [|split; [|intros q x Hq; set_solver]].
  - split; try done; [constructor| |set_solver|apply roots_wf_init].
    intros t Ht. exists 0. split; [|done]. by rewrite heap0_bases.
  - intros a n. rewrite lookup_empty. split; [done|]. intros [(q & x & fl & Hq & _)|(k & Hk & _)]; [set_solver|done].
Qed.

(** What an allocation of [sz] bytes may leave. *)
Definition alloc_post (sz : Z) (B : gmap Z Z) (a : Z) (s' : kmst P) : Prop :=
  (a = 0 /\ (leak_ok (kheaproots (km_heap s')) -> heap_inv s' B)) \/
  (a <> 0 /\ a mod 16 = 0 /\ B !! a = None /\ exists n, sz <= n /\ heap_inv s' (<[a := n]> B)).

(** An allocation from a page that has a free block. *)
Lemma doalloc_post h p L F live B pr x sz :
  kp_inv p live -> heap_wf h L F live -> (forall a n, B !! a = Some n <-> block h L F live a n) ->
  (forall q y, q ∈ L -> q <> pr -> prefs h !! q = Some y -> exists a n, B !! a = Some n /\ in_page y a) ->
  pr ∈ L -> prefs h !! pr = Some x -> 0 < nfree x -> sz <= size_of (PR_BLOCKTYPE x) ->
  wps True (ret ← zoom (doalloc pr); _ ← zoom (spinlock_release kmalloc_spinlock); mret ret) (mk_km h (lockp p)) (alloc_post sz B).
Proof using KP.
  intros Hi Hw HB Hu Hpr Hx Hn Hsz.
  destruct (doalloc_heap h L F live pr x Hw (live_ok_of _ _ Hi) Hpr Hx Hn) as (a & h' & F' & Hd & Hw' & _ & Ha0 & Ha & Hfree & Hbl & Hina & Hpa).
  apply wps_step. eapply wp_eq; [apply km_heap_eq, Hd|]. apply wps_step. eapply wp_eq; [by eapply km_release|].
  apply wps_ret. right. destruct (insert_blocks B _ _ a _ HB Hbl Hfree) as [HBa HB'].
  split_and!; [done..|]. exists (size_of (PR_BLOCKTYPE x)). split; [done|]. exists L, F', live. split_and!; [done..|].
  intros q y Hq Hy. destruct (Hpa q y Hy) as (y0 & Hy0 & E). destruct (decide (q = pr)) as [->|Hne].
  - exists a, (size_of (PR_BLOCKTYPE x)). split; [apply lookup_insert_eq|]. rewrite Hx in Hy0. injection Hy0 as <-. unfold in_page in *. by rewrite E.
  - destruct (Hu q y0 Hq Hne Hy0) as (b & m & Hb & Hin). exists b, m. rewrite lookup_insert_ne by congruence. split; [done|]. unfold in_page in *. by rewrite E.
Qed.

(** An allocation from the fresh page [pg], whose pageref [pr] has been taken. *)
Lemma setup_post h p L F live live' R B pr pg t sz :
  kp_inv p live' -> heap_wf h L F live -> fresh_page h L live live' R pr pg -> 0 <= t < NSIZES ->
  (forall a n, B !! a = Some n <-> block h L F (delete pg live) a n) -> pages_used h L B -> sz <= size_of t ->
  wps True (_ ← zoom (setup_page pr pg t);
            ret ← zoom (doalloc pr); _ ← zoom (spinlock_release kmalloc_spinlock); mret ret)
    (mk_km (with_roots R h) (lockp p)) (alloc_post sz B).
Proof using KP.
  intros Hi Hw Hf Ht HB Hu Hsz. pose proof (live_ok_of _ _ Hi) as Hl.
  destruct (hw_size _ _ _ _ Hw t Ht) as (b & Hb & _). destruct (fp_page _ _ _ _ _ _ _ Hf) as [Hlpg _].
  destruct (lv_range _ Hl pg 1 (fp_live _ _ _ _ _ _ _ Hf _ _ Hlpg)) as (Hr & Hal & _).
  destruct (setup_page_spec (with_roots R h) pr pg t b ltac:(lia) Hal Ht Hb) as (w & Hs & Hpg & Hxa & Hxt & Hout).
  apply wps_step. eapply wp_eq; [apply km_heap_eq, Hs|]. clear Hs.
  set (x := mk_pr _ _ _ _ _) in *.
  destruct (size_divides t Ht) as (Hs16 & Hdiv & Hcnt & _).
  pose proof (heap_wf_add h L F live live' R pr pg t b x w _ Hw Hl Hf Ht Hb Hpg Hxa Hxt eq_refl eq_refl Hout) as Hw'.
  eapply (doalloc_post _ _ _ _ live' B pr x sz Hi Hw').
  - intros a n. rewrite HB. symmetry. apply (block_add h L F live live' R pr pg x w _ t a n Hw Hl Hf Hxa).
    intros c [Hc Hm]. apply blocks_rev_in. rewrite Hxa, Hxt in *. exists ((c - pg) / size_of t).
    pose proof (Z.div_mod (c - pg) (size_of t) ltac:(lia)). split; [|lia]. rewrite Z2Nat.id by lia. split; [apply Z.div_pos; lia|].
    apply Z.div_lt_upper_bound; lia.
  - intros q y [->|Hq]%elem_of_cons Hne Hy; [done|]. simpl in Hy. rewrite lookup_insert_ne in Hy by done. by eapply Hu.
  - by left.
  - simpl. apply lookup_insert_eq.
  - simpl. lia.
  - by rewrite Hxt.
Qed.

(** The heap after the roots changed and no pageref was taken. *)
Lemma heap_wf_roots h R L F live live' :
  heap_wf h L F live -> roots_wf R L live' -> (forall r, root_page <$> R !! r = root_page <$> kheaproots h !! r) ->
  heap_wf (with_roots R h) L F live /\ forall a n, block (with_roots R h) L F live a n <-> block h L F live a n.
Proof using Type.
  intros [W1 W2 W3 W4 W5 W6 W7] HR HE.
  assert (Hback : forall r y, R !! r = Some y -> exists y', kheaproots h !! r = Some y' /\ root_page y' = root_page y).
  { intros r y Hy. specialize (HE r). rewrite Hy in HE. destruct (kheaproots h !! r) as [y'|]; [|done].
    exists y'. split; [done|]. by injection HE. }
  assert (Hforth : forall r y, kheaproots h !! r = Some y -> exists y', R !! r = Some y' /\ root_page y' = root_page y).
  { intros r y Hy. specialize (HE r). rewrite Hy in HE. destruct (R !! r) as [y'|]; [|done].
    exists y'. split; [done|]. by injection HE. }
  split.
  - split; try done.
    + destruct HR as [R1 R2 R3 R4 R5 R6 R7]. split; try done. intros r y Hy H0.
      destruct (Hback r y Hy) as (y' & Hy' & E). rewrite <- E. eapply (rw_live _ _ _ W6); try done. congruence.
    + intros r y q x Hy H0 Hq Hx. destruct (Hback r y Hy) as (y' & Hy' & E). rewrite <- E. eapply W7; try done. congruence.
  - intros a n. apply or_iff_compat_l, exist_proper. intros k.
    assert (Hown : own_page (with_roots R h) L a <-> own_page h L a); [|by rewrite Hown].
    apply or_iff_compat_l. split; intros (r & y & Hy & E & H0).
    + destruct (Hback r y Hy) as (y' & Hy' & E'). exists r, y'. split_and!; congruence.
    + destruct (Hforth r y Hy) as (y' & Hy' & E'). exists r, y'. split_and!; simpl; congruence.
Qed.

(** Pages that are not the heap's own come and go. *)
Lemma big_alloc h L F live va k :
  heap_wf h L F live -> live !! va = None ->
  heap_wf h L F (<[va := k]> live) /\ ~ own_page h L va /\ (forall n, ~ big_block h L live va n) /\
  forall a n, block h L F (<[va := k]> live) a n <-> (a = va /\ n = k * PAGE_SIZE) \/ block h L F live a n.
Proof using Type.
  intros Hw Hn. assert (Hown : ~ own_page h L va) by (intros Ho; by rewrite (own_page_live _ _ _ _ _ Hw Ho) in Hn).
  split_and!.
  - eapply heap_wf_live; [done|]. intros v Hv. rewrite lookup_insert_ne by (intros <-; done). by eapply own_page_live.
  - done.
  - intros n (k' & Hk & _). congruence.
  - intros a n. unfold block, big_block. setoid_rewrite lookup_insert_Some. naive_solver.
Qed.

Lemma subpage_kmalloc_spec sz s B :
  heap_inv s B -> 0 <= sz <= LARGEST_SUBPAGE_SIZE -> wps True (subpage_kmalloc sz) s (alloc_post sz B).
Proof using KP.
  destruct s as [h p]. intros (L & F & live & Hi & Hw & HB & Hu) Hsz. simpl in Hi, Hw, HB, Hu.
  pose proof (live_ok_of _ _ Hi) as Hl.
  destruct (blocktype_spec sz Hsz) as (t & Hbt & Ht & Hszt). destruct (hw_size _ _ _ _ Hw t Ht) as (b & Hb & _).
  destruct (find_page_heap h L F live t b Hw Hl Ht Hb) as (pr & Hfp & Hpr).
  unfold subpage_kmalloc, blocktype. rewrite Hbt. apply wps_step, wp_ret, wps_step.
  eapply wp_eq; [by eapply km_acquire|]. apply wps_step. eapply wp_eq; [apply km_heap_eq; unfold get_base; msimpl; by rewrite Hb|].
  apply wps_step. eapply wp_eq; [apply km_heap_eq, Hfp|].
  destruct Hpr as [->|(H0 & Hin & x & Hx & Hn & Hxt)].
  2:{ rewrite (proj2 (Z.eqb_neq pr 0) H0). cbn [negb]. eapply doalloc_post; try done; [by intros q y Hq _; apply Hu|by rewrite Hxt]. }
  cbn [Z.eqb negb]. apply wps_step. eapply wp_eq; [by eapply km_release|].
  apply wps_bind. eapply wps_mono; [by apply (km_alloc h p live 1 Hi)|done|].
  intros va s (p' & -> & [[-> Hi']|(H0 & Hfresh & Hi')]).
  { cbn [Z.eqb]. apply wps_ret. left. split; [done|]. intros _. by exists L, F, live. }
  rewrite (proj2 (Z.eqb_neq va 0) H0). pose proof (live_ok_of _ _ Hi') as Hl'.
  destruct (lv_range _ Hl' va 1 (lookup_insert_eq _ _ _)) as (_ & Hal & _).
  rewrite Hal. apply wps_step, wp_ret, wps_step. eapply wp_eq; [by eapply km_acquire|].
  destruct (big_alloc h L F live va 1 Hw Hfresh) as (Hw1 & Hown & _).
  apply wps_bind. eapply wps_mono; [apply (allocpageref_spec h L (<[va := 1]> live) p' Hi' (hw_roots _ _ _ _ Hw1))|done|].
  intros pr s (R & p2 & live2 & -> & Hi2 & [(-> & -> & Hleak & HE)|(Hpr0 & Hnin & HR & Hfw & Hbk & Hnew & Hold)]).
  - cbn [Z.eqb]. apply wps_step. eapply wp_eq; [by eapply km_release|]. apply wps_step.
    pose proof (kp_free p2 _ va 1 Hi2 (lookup_insert_eq _ _ _)) as Hfree. unfold wp in Hfree |- *. unfold zoom. simpl.
    destruct (free_kpages va p2) as [[] p3| | | | |]; try done. simpl. rewrite delete_insert_id in Hfree by done.
    apply wps_ret. left. split; [done|]. intros Hlk.
    destruct (heap_wf_roots h R L F live _ Hw (Hleak Hlk) HE) as [Hw2 Hbl2].
    exists L, F, live. split_and!; [done..| |done]. intros a n. by rewrite Hbl2.
  - rewrite (proj2 (Z.eqb_neq pr 0) Hpr0). eapply (setup_post h p2 L F (<[va := 1]> live)); try done.
    + split; try done. by rewrite lookup_insert_eq.
    + by rewrite delete_insert_id.
Qed.

(** C17: [kmalloc] of any size below 2 GB returns, unless the page allocator ran out of
    swap space: either 0, or a 16-byte aligned address that was not allocated, of a
    block of at least the size asked for that overlaps no block the kernel holds.  In both
    cases the heap stays in order with exactly the blocks held before, plus the new one
    (when 0 is returned this needs that the pagerefs lost by failed allocations of a
    pageref page have not used up a root). *)
Theorem kmalloc_fresh sz s B :
  heap_inv s B -> 0 <= sz < 2 ^ 31 ->
  wps True (kmalloc sz) s (fun a s' =>
    (a = 0 /\ (leak_ok (kheaproots (km_heap s')) -> heap_inv s' B)) \/
    (a <> 0 /\ a mod 16 = 0 /\ exists n, sz <= n /\ heap_inv s' (<[a := n]> B) /\
       forall b m, B !! b = Some m -> a <> b /\ (a + n <= b \/ b + m <= a))).
Proof using KP.
  intros HI Hsz. eapply wps_mono with (Q := alloc_post sz B) (F := True); [|done|].
  2:{ intros a s' [|(H0 & Hal & HBa & n & Hn & HI')]; [by left|right]. split_and!; [done..|]. exists n. split_and!; [done..|].
      intros b m Hb. assert (Hne : a <> b) by (intros <-; rewrite HBa in Hb; done). split; [done|].
      eapply (heap_inv_disjoint s'); [done|apply lookup_insert_eq|by rewrite lookup_insert_ne|done]. }
  unfold kmalloc. destruct (Z.leb_spec LARGEST_SUBPAGE_SIZE sz) as [Hbig|Hsmall]; [|apply subpage_kmalloc_spec; [done|lia]].
  destruct s as [h p], HI as (L & F & live & Hi & Hw & HB & Hu). simpl in Hi, Hw, HB, Hu.
  change LARGEST_SUBPAGE_SIZE with 2048 in Hbig.
  assert (Hsz4 : u32 (sz + PAGE_SIZE - 1) = sz + 4095) by (rewrite u32_small; change PAGE_SIZE with 4096; lia).
  rewrite Hsz4. set (np := (sz + 4095) / PAGE_SIZE).
  assert (Hnp : 0 < np /\ sz <= np * 4096) by (unfold np; change PAGE_SIZE with 4096; split; Z.to_euclidean_division_equations; lia).
  apply wps_bind. eapply wps_mono; [apply (km_alloc h p live np Hi (proj1 Hnp))|done|].
  intros va s (p' & -> & [[-> Hi']|(H0 & Hfresh & Hi')]).
  { apply wps_ret. left. split; [done|]. intros _. by exists L, F, live. }
  rewrite (proj2 (Z.eqb_neq va 0) H0).
  destruct (lv_range _ (live_ok_of _ _ Hi') va np (lookup_insert_eq _ _ _)) as (_ & Hal & _).
  rewrite Hal. apply wps_step, wp_ret, wps_ret. right.
  destruct (big_alloc h L F live va np Hw Hfresh) as (Hw' & Hown & Hnb & Hbl).
  assert (Hno : forall n, ~ block h L F live va n).
  { intros n [(q & x & fl & Hq & Hx & _ & [Hr _] & _)|Hb]; [|by eapply Hnb].
    eapply (in_page_not_big h L F _ q x va (np * PAGE_SIZE) Hw' (live_ok_of _ _ Hi') Hq Hx Hr).
    exists np. by rewrite lookup_insert_eq. }
  destruct (insert_blocks B _ _ va _ HB Hbl Hno) as [HBa HB'].
  split_and!; [done| |done|exists (np * PAGE_SIZE); split; [apply Hnp|exists L, F, (<[va := np]> live); split_and!; try done; apply (pages_used_insert h); try done; by intros q y Hy; exists y]].
  apply Z.mod_divide in Hal as [u ->]; [|done]. change PAGE_SIZE with (256 * 16). by rewrite Z.mul_assoc, Z.mod_mul.
Qed.

End Spec.
End HeapAlloc.
