(* ===== verification/HeapFree.v ===== *)
(** * What [kfree] does to the heap (kern/vm/kmalloc.c) *)

From S2P Require Import Prelude Cpu Synch KState Swap Coremap Blocks Paging Replacement Kpages Kmalloc HeapLists PagerefPool HeapTheory HeapAlloc.

Module HeapFree.
Import Cpu Synch Kmalloc HeapLists PagerefPool HeapTheory HeapInv HeapAlloc.

(** ** Taking a page out of the lists *)

(** The two pagerefs describe the same page; only their links may differ. *)
Definition same_page (y y' : pageref) : Prop :=
  pageaddr_and_blocktype y' = pageaddr_and_blocktype y /\ freelist_offset y' = freelist_offset y /\ nfree y' = nfree y.

Definition same_pages (P P' : gmap Z pageref) : Prop :=
  forall p, option_Forall2 same_page (P !! p) (P' !! p).

#[export] Instance same_page_preorder : PreOrder same_page.
Proof. split; [by intros y|]. intros x y z (? & ? & ?) (? & ? & ?). split_and!; congruence. Qed.

#[export] Instance same_pages_preorder : PreOrder same_pages.
Proof.
  split; [intros P p; destruct (P !! p); by constructor|].
  intros P Q R H1 H2 p. specialize (H1 p). specialize (H2 p).
  destruct (P !! p), (Q !! p), (R !! p); inversion H1; inversion H2; subst; constructor. by etrans.
Qed.

Lemma relinked_same set_nxt P P' :
  (forall v x, same_page x (set_nxt v x)) -> relinked set_nxt P P' -> same_pages P P'.
Proof.
  intros Hs Hr p. destruct (Hr p) as [->|(x & v & -> & ->)]; [by destruct (P !! p); constructor|by constructor].
Qed.

Lemma same_page_addr y y' : same_page y y' -> PR_PAGEADDR y' = PR_PAGEADDR y /\ PR_BLOCKTYPE y' = PR_BLOCKTYPE y.
Proof. intros (E & _). unfold PR_PAGEADDR, PR_BLOCKTYPE. by rewrite E. Qed.

Lemma same_page_wf w y y' fl : same_page y y' -> page_wf w y fl -> page_wf w y' fl.
Proof.
  intros Hs [P1 P2 P3 P4 P5 P6]. destruct (same_page_addr _ _ Hs) as [Ea Et]. destruct Hs as (_ & Eo & En).
  split; [by rewrite Et|unfold fhead in *; by rewrite Eo, Ea|done|unfold is_block in *; by rewrite Ea, Et|congruence|by rewrite Eo].
Qed.

Lemma same_pages_some P P' p y : same_pages P P' -> P !! p = Some y -> exists y', P' !! p = Some y' /\ same_page y y'.
Proof. intros Hs Hy. specialize (Hs p). rewrite Hy in Hs. inversion Hs; subst. eauto. Qed.

Lemma same_pages_back P P' p y' : same_pages P P' -> P' !! p = Some y' -> exists y, P !! p = Some y /\ same_page y y'.
Proof. intros Hs Hy. specialize (Hs p). rewrite Hy in Hs. inversion Hs; subst. eauto. Qed.

Lemma same_pages_type P P' p : same_pages P P' -> ptype P' p = ptype P p.
Proof.
  intros Hs. unfold ptype. specialize (Hs p). destruct Hs as [y y' Hy|]; [|done]. by apply same_page_addr.
Qed.

Lemma filter_all (P : Z -> Prop) `{!forall x, Decision (P x)} (l : list Z) : (forall x, x ∈ l -> P x) -> filter P l = l.
Proof.
  induction l as [|x l IH]; intros Hl; [done|]. rewrite filter_cons_True by (apply Hl; by left).
  f_equal. apply IH. intros y Hy. apply Hl. by right.
Qed.

Lemma filter_out (l1 l2 : list Z) p : NoDup (l1 ++ p :: l2) -> filter (fun q => q <> p) (l1 ++ p :: l2) = l1 ++ l2.
Proof.
  intros Hnd. apply NoDup_app in Hnd as (H1 & H2 & [H3 H4]%NoDup_cons).
  rewrite filter_app, filter_cons_False by auto. 
  rewrite !filter_all; [done|intros x Hx ->; done|intros x Hx ->]. apply (H2 p Hx). by left.
Qed.

Lemma filter_swap (P Q : Z -> Prop) `{!forall x, Decision (P x), !forall x, Decision (Q x)} (l : list Z) :
  filter P (filter Q l) = filter Q (filter P l).
Proof. rewrite !list_filter_filter. apply list_filter_iff. naive_solver. Qed.

Lemma remove_lists_spec h L F live pr x :
  heap_wf h L F live -> pr ∈ L -> prefs h !! pr = Some x ->
  exists P' S' a', remove_lists pr (PR_BLOCKTYPE x) h = Ret tt (mk_heap (kheaproots h) P' S' a' (words h)) /\
    same_pages (prefs h) P' /\ chain (link P' next_all) a' (filter (fun q => q <> pr) L) /\
    forall t, 0 <= t < NSIZES -> exists b, S' !! t = Some b /\
      chain (link P' next_samesize) b (filter (fun p => ptype P' p = t) (filter (fun q => q <> pr) L)).
Proof.
  intros Hw Hin Hx. pose proof Hw as [W1 W2 W3 W4 W5 W6 W7].
  pose proof (pagerefs_bounded _ _ _ W6 W1) as Hlen.
  destruct (W4 pr Hin) as (x' & fl & Hx' & _ & Hpg & _). rewrite Hx in Hx'. injection Hx' as <-.
  pose proof (pg_type _ _ _ Hpg) as Ht. set (t := PR_BLOCKTYPE x) in *.
  assert (Hpt : ptype (prefs h) pr = t) by (unfold ptype; by rewrite Hx).
  destruct (W3 t Ht) as (b & Hb & Hc).
  pose proof (length_filter (fun p => ptype (prefs h) p = t) L) as Hlf.
  assert (Hndf : NoDup (filter (fun p => ptype (prefs h) p = t) L)) by by apply NoDup_filter.
  destruct (in_split pr (filter (fun p => ptype (prefs h) p = t) L)) as (k1 & k2 & Ek & Hk1 & _); [by apply list_elem_of_filter|done|].
  destruct (in_split pr L Hin W1) as (l1 & l2 & El & Hl1 & Hl2).
  rewrite Ek in Hc, Hndf, Hlf.
  destruct (unlink_top next_samesize set_samesize pr k1 k2 h b (S TOTAL_PAGEREFS)) as (b' & P1 & Hu1 & Hc1 & Hr1 & Ho1); [done..| |].
  { rewrite length_app in Hlf. simpl in Hlf. lia. }
  set (h1 := mk_heap (kheaproots h) P1 (<[t := b']> (sizebases h)) (allbase h) (words h)).
  assert (Hs1 : same_pages (prefs h) P1) by (eapply (relinked_same set_samesize); [by intros v []|done]).
  assert (Hall1 : forall p, link P1 next_all p = link (prefs h) next_all p).
  { intros p. unfold link. destruct (Hr1 p) as [->|(y & v & -> & ->)]; done. }
  destruct (unlink_top next_all set_all pr l1 l2 h1 (allbase h) (S TOTAL_PAGEREFS)) as (a' & P2 & Hu2 & Hc2 & Hr2 & _); [done| | | |].
  { simpl. eapply chain_ext; [by rewrite <- El|]. intros p _. apply Hall1. }
  { by rewrite <- El. }
  { rewrite El, length_app in Hlen. simpl in Hlen. lia. }
  change (prefs h1) with P1 in Hr2. assert (Hs2 : same_pages P1 P2) by (eapply (relinked_same set_all); [by intros v []|done]).
  exists P2, (<[t := b']> (sizebases h)), a'. split_and!.
  - unfold remove_lists. rewrite (proj2 (Z.leb_le 0 t)), (proj2 (Z.ltb_lt t NSIZES)) by lia. cbn [andb].
    rewrite (run_bind _ _ h tt h) by done. rewrite (run_bind _ _ h b h) by (unfold get_base; msimpl; by rewrite Hb).
    rewrite (run_bind _ _ h b' _ Hu1). rewrite (run_bind _ _ _ tt h1) by done. rewrite (run_bind _ _ h1 h1 h1) by done.
    rewrite (run_bind _ _ h1 a' _ Hu2). done.
  - by etrans.
  - rewrite El, filter_out by (by rewrite <- El). done.
  - intros t' Ht'.
    assert (Hsame2 : forall p, link P2 next_samesize p = link P1 next_samesize p).
    { intros p. unfold link. destruct (Hr2 p) as [->|(y & v & -> & ->)]; done. }
    assert (Hty : forall p, ptype P2 p = ptype (prefs h) p) by (intros p; apply same_pages_type; by etrans).
    rewrite (list_filter_iff _ (fun p => ptype (prefs h) p = t')) by (intros p; by rewrite Hty).
    rewrite filter_swap. destruct (decide (t = t')) as [<-|Hne].
    + exists b'. rewrite lookup_insert_eq. split; [done|]. rewrite Ek, filter_out by done.
      eapply chain_ext; [done|]. intros p _. apply Hsame2.
    + destruct (W3 t' Ht') as (b2 & Hb2 & Hcc). exists b2. rewrite lookup_insert_ne by done. split; [done|].
      rewrite filter_all.
      * eapply chain_ext; [done|]. intros p [Hp _]%list_elem_of_filter. rewrite Hsame2. unfold link. rewrite Ho1; [done|].
        intros Hk. assert (Hk' : p ∈ filter (fun p => ptype (prefs h) p = t) L) by (rewrite Ek; apply elem_of_app; by left).
        apply list_elem_of_filter in Hk' as [Hk' _]. congruence.
      * intros p [Hp _]%list_elem_of_filter ->. congruence.
Qed.

(** A page whose blocks are all free leaves the heap, and its page the live ones. *)
Lemma heap_wf_drop h L F live pr x fl P' S' a' R :
  heap_wf h L F live -> pr ∈ L -> prefs h !! pr = Some x -> F !! pr = Some fl -> (forall a, is_block x a -> a ∈ fl) ->
  same_pages (prefs h) P' -> chain (link P' next_all) a' (filter (fun q => q <> pr) L) ->
  (forall t, 0 <= t < NSIZES -> exists b, S' !! t = Some b /\
      chain (link P' next_samesize) b (filter (fun p => ptype P' p = t) (filter (fun q => q <> pr) L))) ->
  roots_wf R (filter (fun q => q <> pr) L) live -> (forall r, root_page <$> R !! r = root_page <$> kheaproots h !! r) ->
  let h' := mk_heap R P' S' a' (words h) in
  heap_wf h' (filter (fun q => q <> pr) L) F (delete (PR_PAGEADDR x) live) /\
  forall a n, block h' (filter (fun q => q <> pr) L) F (delete (PR_PAGEADDR x) live) a n <-> block h L F live a n.
Proof.
  intros Hw Hin Hx HF Hfull Hs Hc Hsz HR HE h'. pose proof Hw as [W1 W2 W3 W4 W5 W6 W7].
  assert (Hroot : forall r y, R !! r = Some y <-> exists y', kheaproots h !! r = Some y' /\ R !! r = Some y /\ root_page y' = root_page y).
  { intros r y. split; [|naive_solver]. intros Hy. specialize (HE r). rewrite Hy in HE.
    destruct (kheaproots h !! r) as [y'|]; [|done]. exists y'. split_and!; [done..|]. by injection HE. }
  assert (Hpne : forall p y, p ∈ L -> p <> pr -> prefs h !! p = Some y -> PR_PAGEADDR y <> PR_PAGEADDR x)
    by (intros p y Hp Hne Hy E; apply Hne; by eapply (W5 p pr)).
  assert (Hrne : forall r y, R !! r = Some y -> root_page y <> 0 -> root_page y <> PR_PAGEADDR x).
  { intros r y (y' & Hy' & _ & E)%Hroot H0 E'. eapply (W7 r y' pr x); try done; congruence. }
  assert (Hown : forall va, own_page h' (filter (fun q => q <> pr) L) va <-> own_page h L va /\ va <> PR_PAGEADDR x).
  { intros va. unfold own_page. simpl. split.
    - intros [(p & y' & [Hne Hp]%list_elem_of_filter & Hy' & E)|(r & y & Hy & E & H0)].
      + destruct (same_pages_back _ _ _ _ Hs Hy') as (y & Hy & Hyy). destruct (same_page_addr _ _ Hyy) as [Ea _].
        split; [left; exists p, y; split_and!; [done|done|congruence]|]. rewrite <- E, Ea. by eapply Hpne.
      + split; [|rewrite <- E; eapply Hrne; [exact Hy|congruence]]. right. apply Hroot in Hy as (y' & Hy' & _ & E'). exists r, y'. split_and!; congruence.
    - intros [[(p & y & Hp & Hy & E)|(r & y & Hy & E & H0)] Hne].
      + left. destruct (same_pages_some _ _ _ _ Hs Hy) as (y' & Hy' & Hyy). destruct (same_page_addr _ _ Hyy) as [Ea _].
        exists p, y'. split_and!; [|done|congruence]. apply list_elem_of_filter. split; [|done]. intros ->. congruence.
      + right. specialize (HE r). rewrite Hy in HE. destruct (R !! r) as [y'|] eqn:Hy'; [|done]. injection HE as E'.
        exists r, y'. split_and!; [done|congruence|done]. }
  split; [split; simpl|].
  - by apply NoDup_filter.
  - done.
  - done.
  - intros p [Hne Hp]%list_elem_of_filter. destruct (W4 p Hp) as (y & gl & Hy & HG & Hpg & Hly).
    destruct (same_pages_some _ _ _ _ Hs Hy) as (y' & Hy' & Hyy). destruct (same_page_addr _ _ Hyy) as [Ea _].
    exists y', gl. split_and!; [done..|by eapply same_page_wf|]. rewrite Ea, lookup_delete_ne; [done|].
    intros E. by eapply (Hpne p y).
  - intros p q y z [_ Hp]%list_elem_of_filter [_ Hq]%list_elem_of_filter Hy Hz E.
    destruct (same_pages_back _ _ _ _ Hs Hy) as (y0 & Hy0 & Hyy). destruct (same_page_addr _ _ Hyy) as [Ey _].
    destruct (same_pages_back _ _ _ _ Hs Hz) as (z0 & Hz0 & Hzz). destruct (same_page_addr _ _ Hzz) as [Ez _].
    eapply (W5 p q); try done; congruence.
  - destruct HR as [R1 R2 R3 R4 R5 R6 R7]. split; try done. intros r y Hy H0.
    rewrite lookup_delete_ne; [by eapply R4|]. intros E. by eapply Hrne.
  - intros r y p z (y' & Hy' & _ & E)%Hroot H0 [_ Hp]%list_elem_of_filter Hz.
    destruct (same_pages_back _ _ _ _ Hs Hz) as (z0 & Hz0 & Hzz). destruct (same_page_addr _ _ Hzz) as [Ez _].
    rewrite Ez, <- E. eapply (W7 r y' p z0); try done; congruence.
  - intros a n. unfold block. apply (Morphisms_Prop.or_iff_morphism).
    + split.
      * intros (p & y' & gl & [Hne Hp]%list_elem_of_filter & Hy' & HG & Hb & Hn & ->).
        destruct (same_pages_back _ _ _ _ Hs Hy') as (y & Hy & Hyy). destruct (same_page_addr _ _ Hyy) as [Ea Et].
        exists p, y, gl. unfold is_block in *. rewrite Ea, Et in *. done.
      * intros (p & y & gl & Hp & Hy & HG & Hb & Hn & ->). assert (Hne : p <> pr).
        { intros ->. rewrite Hx in Hy. injection Hy as <-. rewrite HF in HG. injection HG as <-. by apply Hn, Hfull. }
        destruct (same_pages_some _ _ _ _ Hs Hy) as (y' & Hy' & Hyy). destruct (same_page_addr _ _ Hyy) as [Ea Et].
        exists p, y', gl. unfold is_block in *. rewrite Ea, Et. split_and!; try done; [by apply list_elem_of_filter|apply Hb..].
    + unfold big_block. apply exist_proper. intros k. rewrite Hown. rewrite lookup_delete_Some.
      assert (Hox : own_page h L (PR_PAGEADDR x)) by (left; eauto).
      split; [intros ((Hne & Hk) & Ho & ->); split_and!; try done; intros Ho'; apply Ho; by split|].
      intros (Hk & Ho & ->). split_and!; try done; [by intros <-|]. by intros [? _].
Qed.

Lemma blocks_full w x fl :
  page_wf w x fl -> nfree x = PAGE_SIZE / size_of (PR_BLOCKTYPE x) -> forall a, is_block x a -> a ∈ fl.
Proof.
  intros [P1 P2 P3 P4 P5 P6] Hn a Ha. destruct (decide (a ∈ fl)) as [|Hnin]; [done|].
  pose proof (blocks_bound x (a :: fl) P1) as Hb. simpl length in Hb.
  assert (Z.of_nat (S (length fl)) <= PAGE_SIZE / size_of (PR_BLOCKTYPE x)); [|lia].
  apply Hb; [by apply NoDup_cons|]. intros c [->|Hc]%elem_of_cons; [done|by apply P4].
Qed.

(** ** The page of an address *)

Lemma holds_page live x a : live_ok live -> live !! PR_PAGEADDR x = Some 1 ->
  holds x a = true <-> PR_PAGEADDR x <= a < PR_PAGEADDR x + PAGE_SIZE.
Proof.
  intros Hl Hx. destruct (lv_range _ Hl _ _ Hx) as [Hr _]. unfold holds. change PAGE_SIZE with 4096 in *.
  rewrite u32_small by (unfold MIPS_KSEG0 in Hr; lia). rewrite andb_true_iff. lia.
Qed.

Lemma find_owner_heap h L F live a :
  heap_wf h L F live -> live_ok live ->
  exists pr, find_owner (S TOTAL_PAGEREFS) (allbase h) a h = Ret pr h /\
    (pr = 0 /\ (forall q x, q ∈ L -> prefs h !! q = Some x -> ~ is_block x a) \/
     pr <> 0 /\ pr ∈ L /\ exists x, prefs h !! pr = Some x /\ PR_PAGEADDR x <= a < PR_PAGEADDR x + PAGE_SIZE).
Proof.
  intros Hw Hl. pose proof (pagerefs_bounded _ _ _ (hw_roots _ _ _ _ Hw) (hw_nodup _ _ _ _ Hw)) as Hlen.
  assert (Hpg : forall p x, p ∈ L -> prefs h !! p = Some x -> 0 <= PR_BLOCKTYPE x < NSIZES /\ live !! PR_PAGEADDR x = Some 1).
  { intros p x Hp Hx. destruct (hw_page _ _ _ _ Hw p Hp) as (x' & fl & Hx' & _ & Hpg & Hlx). rewrite Hx in Hx'. injection Hx' as <-.
    split; [apply Hpg|done]. }
  destruct (find_owner_spec h a L (allbase h) (S TOTAL_PAGEREFS) (hw_all _ _ _ _ Hw)) as (pr & Hf & Hor); [lia|intros; by eapply Hpg|].
  exists pr. split; [done|]. destruct Hor as [[-> Hno]|(H0 & Hin & x & Hx & Hh)]; [left|right].
  - split; [done|]. intros q x Hq Hx [Hr _]. destruct (Hpg q x Hq Hx) as [_ Hlx].
    apply (holds_page live x a Hl Hlx) in Hr. by rewrite (Hno q x Hq Hx) in Hr.
  - split_and!; [done..|]. exists x. split; [done|]. destruct (Hpg pr x Hin Hx) as [_ Hlx]. by apply (holds_page live).
Qed.

(** A page that is not full of free blocks has a block in use. *)
Lemma blocks_left w x fl :
  page_wf w x fl -> nfree x <> PAGE_SIZE / size_of (PR_BLOCKTYPE x) -> exists a, is_block x a /\ (a ∉ fl).
Proof.
  intros Hpg Hn. pose proof Hpg as [P1 P2 P3 P4 P5 P6]. destruct (size_divides _ P1) as (Hs & Hp & Hc & _). set (sz := size_of (PR_BLOCKTYPE x)) in *.
  set (all := blocks_rev (PR_PAGEADDR x) sz (Z.to_nat (PAGE_SIZE / sz))).
  assert (Hall : forall a, a ∈ all -> is_block x a).
  { intros a (k & Hk & ->)%blocks_rev_in. unfold is_block. fold sz. split; [nia|]. replace (PR_PAGEADDR x + k * sz - PR_PAGEADDR x) with (k * sz) by lia. apply Z.mod_mul. lia. }
  destruct (decide (Exists (fun a => a ∉ fl) all)) as [He|He]; [apply Exists_exists in He as (a & Ha & Hna); exists a; split; [by apply Hall|done]|].
  exfalso. apply Hn. assert (Hsub : all ⊆ fl) by (intros a Ha; destruct (decide (a ∈ fl)) as [|Hna]; [done|exfalso; apply He, Exists_exists; eauto]).
  pose proof (submseteq_length all fl (NoDup_submseteq all fl (blocks_rev_nodup (PR_PAGEADDR x) sz (Z.to_nat (PAGE_SIZE / sz)) ltac:(lia)) Hsub)) as Hle. unfold all in Hle. rewrite blocks_rev_length in Hle.
  pose proof (blocks_bound x fl P1 P3 P4). fold sz in H. lia.
Qed.

(** The blocks of the other pages are not the one that is freed. *)
Lemma used_other h L F live B q y pr x a :
  heap_wf h L F live -> live_ok live -> pages_used h L B -> pr ∈ L -> prefs h !! pr = Some x -> in_page x a ->
  q ∈ L -> q <> pr -> prefs h !! q = Some y -> exists b n, delete a B !! b = Some n /\ in_page y b.
Proof.
  intros Hw Hl Hu Hpr Hx Ha Hq Hne Hy. destruct (Hu q y Hq Hy) as (b & n & Hb & Hin). exists b, n. split; [|done]. apply lookup_delete_Some. split; [|done].
  intros <-. apply Hne. by eapply (one_page h L F live q pr y x a).
Qed.

Section Spec.
Context {P : Type} `{KP : KPages P}.

Lemma km_free h p live va n (Q : unit -> kmst P -> Prop) :
  kp_inv p live -> live !! va = Some n -> (forall p', kp_inv p' (delete va live) -> Q tt (mk_km h p')) ->
  wp (zoom (free_kpages va)) (mk_km h p) Q.
Proof using KP.
  intros Hi Hn HQ. pose proof (kp_free p live va n Hi Hn) as Hf. unfold wp, zoom in *. simpl.
  destruct (free_kpages va p) as [[] p'| | | | |]; try done. simpl. by apply HQ.
Qed.

Lemma subpage_kfree_sub h p L F live B a n :
  kp_inv p live -> heap_wf h L F live -> (forall a n, B !! a = Some n <-> block h L F live a n) -> pages_used h L B -> sub_block h L F a n ->
  wp (subpage_kfree a) (mk_km h p) (fun r s' => r = 0 /\ heap_inv s' (delete a B)).
Proof using KP.
  intros Hi Hw HB Hu (pr & x & fl & Hin & Hx & HF & Hb & Hnin & ->). pose proof (live_ok_of _ _ Hi) as Hl.
  destruct (find_owner_heap h L F live a Hw Hl) as (pr' & Hfo & Hor).
  assert (pr' = pr /\ pr' <> 0) as [-> H0].
  { destruct Hor as [[_ Hno]|(H0 & Hin' & x' & Hx' & Hr)]; [by destruct (Hno pr x Hin Hx)|]. split; [|done].
    by eapply (one_page _ _ _ _ pr' pr x' x a Hw Hl); [..|apply Hb]. }
  clear Hor. destruct (hw_page _ _ _ _ Hw pr Hin) as (x' & fl' & Hx' & HF' & Hpg & Hlx).
  rewrite Hx in Hx'. injection Hx' as <-. rewrite HF in HF'. injection HF' as <-.
  pose proof (live_page_rng live x Hl Hlx) as Hr.
  destruct (push_block_spec h pr x fl a Hx Hpg Hr Hb Hnin) as (w & Hpush & Hpg' & Hout).
  set (x1 := set_free _ _ x) in *. set (h1 := mk_heap _ _ _ _ w) in Hpush.
  pose proof (block_end x a (pg_type _ _ _ Hpg) Hb) as Hend.
  assert (Hw1 : heap_wf h1 L (<[pr := a :: fl]> F) live).
  { apply heap_wf_page; try done. intros b Hbo. apply Hout. destruct Hb as [? _]. lia. }
  destruct (block_page h L F live pr x (a - PR_PAGEADDR x) (nfree x + 1) w fl (a :: fl) a _ Hw Hl Hin Hx HF Hb eq_refl) as [_ Hbl].
  pose proof (delete_blocks B _ _ a HB (Hbl eq_refl)) as HB1.
  assert (Hx1 : prefs h1 !! pr = Some x1) by apply lookup_insert_eq.
  unfold subpage_kfree. apply wp_bind. eapply wp_eq; [by eapply km_acquire|].
  apply wp_bind. eapply wp_eq; [apply km_heap_eq; reflexivity|].
  apply wp_bind. eapply wp_eq; [apply km_heap_eq, Hfo|]. rewrite (proj2 (Z.eqb_neq pr 0) H0).
  apply wp_bind. eapply wp_eq; [apply km_heap_eq, get_pr_eq, Hx|].
  apply wp_bind. eapply wp_eq; [apply km_heap_eq, Hpush|]. fold h1.
  destruct (Z.eqb_spec (nfree x + 1) (PAGE_SIZE / size_of (PR_BLOCKTYPE x))) as [Hwhole|Hpart].
  2:{ apply wp_bind. eapply wp_eq; [by eapply km_release|]. apply wp_ret. split; [done|]. exists L, (<[pr := a :: fl]> F), live. split_and!; [done..|].
      intros q y Hq Hy. destruct (decide (q = pr)) as [->|Hne].
      - simpl in Hy. rewrite lookup_insert_eq in Hy. injection Hy as <-. destruct (blocks_left _ _ _ Hpg' Hpart) as (b & Hbb & Hbn).
        exists b, (size_of (PR_BLOCKTYPE x1)). split; [|apply Hbb]. apply HB1. left. exists pr, x1, (a :: fl). split_and!; try done. apply lookup_insert_eq.
      - simpl in Hy. rewrite lookup_insert_ne in Hy by done. by eapply (used_other h L F live B q y pr x a); try done; apply Hb. }
  destruct (remove_lists_spec h1 L _ live pr x1 Hw1 Hin Hx1) as (P' & S' & a' & Hrm & Hs & Hc & Hsz).
  apply wp_bind. eapply wp_eq; [apply km_heap_eq, Hrm|]. set (h2 := mk_heap _ P' S' a' _).
  destruct (freepageref_spec h2 pr L live Hl (hw_roots _ _ _ _ Hw1) (hw_nodup _ _ _ _ Hw1) Hin) as (R & Hfr & HR & HE).
  apply wp_bind. eapply wp_eq; [apply km_heap_eq, Hfr|]. apply wp_bind. eapply wp_eq; [by eapply km_release|].
  destruct (heap_wf_drop h1 L _ live pr x1 (a :: fl) P' S' a' R Hw1 Hin Hx1 (lookup_insert_eq _ _ _)
    (blocks_full _ _ _ Hpg' Hwhole) Hs Hc Hsz HR HE) as [Hw2 Hbl2].
  apply wp_bind. eapply (km_free _ p live (PR_PAGEADDR x) 1 _ Hi Hlx). intros p' Hi'. apply wp_ret. split; [done|].
  exists (filter (fun q => q <> pr) L), (<[pr := a :: fl]> F), (delete (PR_PAGEADDR x) live).
  split; [done|]. split; [exact Hw2|]. split; [intros b m; rewrite HB1; symmetry; apply Hbl2|].
  intros q y [Hne Hq]%list_elem_of_filter Hy. simpl in Hy. destruct (same_pages_back _ _ _ _ Hs Hy) as (y1 & Hy1 & Hyy). destruct (same_page_addr _ _ Hyy) as [Ea _].
  simpl in Hy1. rewrite lookup_insert_ne in Hy1 by done. unfold in_page. rewrite Ea. by eapply (used_other h L F live B q y1 pr x a); try done; apply Hb.
Qed.

(** C18: [kfree] of a block the kernel holds returns (no assertion fails, no page is missed)
    and the heap then has exactly the other blocks: a block of a page goes back to the page's
    free list, and the page itself to the page allocator when it was the last one (in the heap
    that is left every page has a block in use); an allocation of whole pages goes back to the
    page allocator. *)
Theorem kfree_releases s B a n :
  heap_inv s B -> B !! a = Some n -> wp (kfree a) s (fun _ s' => heap_inv s' (delete a B)).
Proof using KP.
  destruct s as [h p]. intros (L & F & live & Hi & Hw & HB & Hu) Ha. simpl in Hi, Hw, HB, Hu.
  pose proof (live_ok_of _ _ Hi) as Hl. unfold kfree. destruct (proj1 (HB a n) Ha) as [Hs|Hb].
  - destruct (sub_block_page _ _ _ _ _ _ Hw Hl Hs) as (q & x & _ & _ & [Hr _] & _ & _ & _ & Hpr).
    rewrite (proj2 (Z.eqb_neq a 0)) by (unfold page_rng, MIPS_KSEG0 in Hpr; lia).
    apply wp_bind. eapply wp_mono; [by eapply subpage_kfree_sub|]. intros r s' [-> HI]. by apply wp_ret.
  - pose proof Hb as (k & Hk & Hown & ->). destruct (lv_range _ Hl _ _ Hk) as (Hr & Hal & _).
    rewrite (proj2 (Z.eqb_neq a 0)) by (unfold MIPS_KSEG0 in Hr; lia).
    destruct (find_owner_heap h L F live a Hw Hl) as (pr & Hfo & Hor).
    destruct Hor as [[-> _]|(_ & Hin & x & Hx & Hra)]; [|by destruct (in_page_not_big _ _ _ _ pr x a (k * PAGE_SIZE) Hw Hl Hin Hx Hra)].
    apply wp_bind. unfold subpage_kfree. apply wp_bind. eapply wp_eq; [by eapply km_acquire|].
    apply wp_bind. eapply wp_eq; [apply km_heap_eq; reflexivity|].
    apply wp_bind. eapply wp_eq; [apply km_heap_eq, Hfo|]. cbn [Z.eqb]. apply wp_bind. eapply wp_eq; [by eapply km_release|].
    apply wp_ret. cbn [Z.eqb negb]. rewrite Hal. apply wp_bind, wp_ret.
    eapply (km_free _ p live a k _ Hi Hk). intros p' Hi'. exists L, F, (delete a live). split; [done|]. split; [|split].
    + eapply heap_wf_live; [done|]. intros va Hva. rewrite lookup_delete_ne by (intros <-; done). by eapply own_page_live.
    + eapply delete_blocks; [done|]. intros b m. unfold block, big_block. setoid_rewrite lookup_delete_Some.
      split; [|intros [Hne [?|(k' & Hk' & Ho & ->)]]; [by left|right; eauto]].
      intros [Hsb|(k' & (Hne & Hk') & Ho & ->)]; [|split; [done|]; right; eauto].
      split; [|by left]. intros ->. destruct Hsb as (q & x & gl & Hq & Hx & _ & [Hra _] & _).
      by destruct (in_page_not_big _ _ _ _ q x a (k * PAGE_SIZE) Hw Hl Hq Hx Hra).
    + intros q y Hq Hy. destruct (Hu q y Hq Hy) as (b & m & Hbm & Hib). exists b, m. split; [|done]. apply lookup_delete_Some. split; [|done]. intros <-.
      by apply (in_page_not_big _ _ _ _ q y a (k * PAGE_SIZE) Hw Hl Hq Hy Hib).
Qed.

End Spec.
End HeapFree.

(** * The pages of the kernel heap come from the coremap

    The page allocator of vm_project.c ([alloc_kpages], [free_kpages] on the coremap) keeps
    the promise that the heap of kmalloc.c relies on ([KPages]), so that what is proved of
    the heap against the interface holds of the heap on top of the paging system. *)


Module KmallocPages.
Import Cpu Synch KState Swap Coremap Blocks Paging Replacement Kpages.

Section Instance_.
Context `{VN : Vnode}.

(** The kernel holds the [n] frames from [f] on. *)
Record kblock (k : kstate) (m : gmap Z cm_entry) (f n : Z) : Prop := mk_kblock {
  kb_range : first_page (k_cm k) <= f /\ f + n <= npages (k_cm k) /\ 0 < n;
  kb_cm : forall j, f <= j < f + n -> m !! j = Some (mk_cm true true (if decide (j = f) then n else 0) None)
}.

Definition pages_held (k : kstate) (live : gmap Z Z) : Prop :=
  vm_inited (k_as k) = true /\ exists t m bs sw, vm_inv k t m bs sw /\
    forall va n, live !! va = Some n -> exists f, va = PADDR_TO_KVADDR (f * PAGE_SIZE) /\ kblock k m f n.

Lemma kblock_addr k m bs f n : cm_wf (k_cm k) m bs -> kblock k m f n ->
  PADDR_TO_KVADDR (f * PAGE_SIZE) = MIPS_KSEG0 + f * PAGE_SIZE /\ 0 < f /\ f + n < 2 ^ 19.
Proof using Type.
  intros Hwf [(H1 & H2 & H3) _]. pose proof (wf_pages _ _ _ Hwf). pose proof (wf_bound _ _ _ Hwf).
  split; [|lia]. unfold PADDR_TO_KVADDR, MIPS_KSEG0, PAGE_SIZE. rewrite u32_small; lia.
Qed.

Lemma kblock_disjoint k m f n f' n' : kblock k m f n -> kblock k m f' n' -> f <> f' -> f + n <= f' \/ f' + n' <= f.
Proof using Type.
  assert (Hno : forall f n f' n', kblock k m f n -> kblock k m f' n' -> ~ f < f' < f + n).
  { intros g a g' b [_ Hc] [Hr' Hc'] Hlt. pose proof (Hc g' ltac:(lia)) as E. rewrite (Hc' g') in E by lia.
    rewrite decide_True, decide_False in E by lia. injection E as E. lia. }
  intros H H' Hne. pose proof (Hno _ _ _ _ H H'). pose proof (Hno _ _ _ _ H' H). lia.
Qed.

Lemma pages_alloc k live n : pages_held k live -> 0 < n ->
  wps True (alloc_kpages n) k (fun va k' => (va = 0 /\ pages_held k' live) \/
    (va <> 0 /\ live !! va = None /\ pages_held k' (<[va := n]> live))).
Proof using Type.
  intros (Hin & t & m & bs & sw & Hi & Hb) Hn. eapply wps_mono; [by apply (alloc_kpages_spec k t m bs sw)|done|].
  intros va k' (addr & t' & m' & bs' & sw' & [Hi' Hfr _ _ _ Hblk _ _ Hker] & ->).
  pose proof (wf_map _ _ _ (inv_cm _ _ _ _ _ Hi)) as Hmap.
  assert (Hin' : vm_inited (k_as k') = true) by by rewrite (fr_as _ _ _ _ Hfr).
  assert (Hkeep : forall f j, kblock k m f j -> kblock k' m' f j).
  { intros f j [Hr Hc]. split; [by rewrite (fr_first _ _ _ _ Hfr), (fr_pages _ _ _ _ Hfr)|].
    intros i Hir. by apply (Hker m i _ Hmap (Hc i Hir)). }
  destruct (Z.eqb_spec addr 0) as [->|Hne].
  { left. split; [done|]. split; [done|]. exists t', m', bs', sw'. split; [done|].
    intros va j Hva. destruct (Hb va j Hva) as (f & E & Hk). eauto. }
  right. destruct Hblk as [?|(f & -> & [Hr _ Hc _])]; [done|].
  assert (Hkb : kblock k' m' f n) by (split; [lia|done]).
  destruct (kblock_addr _ _ _ _ _ (inv_cm _ _ _ _ _ Hi') Hkb) as (E & Hf0 & _).
  split; [rewrite E; unfold MIPS_KSEG0, PAGE_SIZE; lia|]. split.
  - destruct (live !! PADDR_TO_KVADDR (f * PAGE_SIZE)) as [n'|] eqn:Hlive; [|done]. exfalso.
    destruct (Hb _ _ Hlive) as (f' & E' & Hk').
    destruct (kblock_addr _ _ _ _ _ (inv_cm _ _ _ _ _ Hi) Hk') as (E2 & _). rewrite E, E2 in E'.
    assert (f' = f) as -> by (unfold PAGE_SIZE in E'; lia). destruct Hk' as [Hr' Hc'].
    destruct (Hker m f _ Hmap (Hc' f ltac:(lia))) as [_ Hd]; [done..|]. apply (Hd Hne f); [done|lia].
  - split; [done|]. exists t', m', bs', sw'. split; [done|].
    intros va j [[<- <-]|[_ Hva]]%lookup_insert_Some; [by exists f|]. destruct (Hb va j Hva) as (g & E' & Hk). eauto.
Qed.

Lemma pages_free k live va n : pages_held k live -> live !! va = Some n ->
  wp (free_kpages va) k (fun _ k' => pages_held k' (delete va live)).
Proof using Type.
  intros (Hin & t & m & bs & sw & Hi & Hb) Hva. destruct (Hb va n Hva) as (f & -> & Hk). pose proof Hk as [Hr Hc].
  pose proof (wf_map _ _ _ (inv_cm _ _ _ _ _ Hi)) as Hmap.
  pose proof (Hc f ltac:(lia)) as Hf. rewrite decide_True in Hf by done.
  eapply wp_mono; [eapply (free_kpages_spec k t m bs sw f _ Hi Hin); [lia|exact Hf|simpl; lia|]|].
  { simpl. intros j c' Hj Hcj. rewrite Hc in Hcj by lia. by injection Hcj as <-. }
  intros [] k' (m' & [Hi' -> _ Hkept]). split; [done|]. exists t, m', (free_layout f bs), sw. split; [done|].
  intros va' n' [Hne Hva']%lookup_delete_Some. destruct (Hb va' n' Hva') as (f' & -> & Hk'). exists f'. split; [done|].
  assert (Hff : f <> f') by (intros ->; done). pose proof (kblock_disjoint _ _ _ _ _ _ Hk Hk' Hff).
  destruct Hk' as [Hr' Hc']. split; [done|]. intros j Hj. eapply (Hkept m _ j _ Hmap Hf); [by apply Hc'|done|simpl; lia].
Qed.

#[export] Instance kstate_pages : Kmalloc.KPages kstate.
Proof.
  refine (Kmalloc.Build_KPages kstate _ alloc_kpages free_kpages pages_held _ _ _ pages_alloc pages_free).
  - intros k live (_ & t & m & bs & sw & Hi & _). exact (inv_cpu _ _ _ _ _ Hi).
  - intros k live va n (_ & t & m & bs & sw & Hi & Hb) Hva. destruct (Hb va n Hva) as (f & -> & Hk).
    destruct (kblock_addr _ _ _ _ _ (inv_cm _ _ _ _ _ Hi) Hk) as (-> & Hf & Hfn). destruct Hk as [Hr _].
    unfold MIPS_KSEG0, PAGE_SIZE. split_and!; [lia..| |lia].
    change 0x80000000 with (524288 * 4096). by rewrite <- Z.mul_add_distr_r, Z.mod_mul.
  - intros k live va n va' n' (_ & t & m & bs & sw & Hi & Hb) Hva Hva' Hne.
    destruct (Hb va n Hva) as (f & -> & Hk), (Hb va' n' Hva') as (f' & -> & Hk').
    destruct (kblock_addr _ _ _ _ _ (inv_cm _ _ _ _ _ Hi) Hk) as (-> & _).
    destruct (kblock_addr _ _ _ _ _ (inv_cm _ _ _ _ _ Hi) Hk') as (-> & _).
    assert (Hff : f <> f') by (intros ->; done). pose proof (kblock_disjoint _ _ _ _ _ _ Hk Hk' Hff). unfold PAGE_SIZE. lia.
Defined.

End Instance_.

(** ** Witnesses: the heap on the kernel of the coremap at boot *)

Definition km0 : Kmalloc.kmst kstate := Kmalloc.mk_km Kmalloc.heap0 boot_state.

Lemma boot_pages_held : pages_held boot_state ∅.
Proof. split; [done|]. exists ∅, boot_map, (boot_layout 1 4), boot_swap. split; [apply boot_inv|done]. Qed.

Lemma km0_inv : HeapAlloc.heap_inv km0 ∅.
Proof. apply HeapAlloc.heap_inv_init, boot_pages_held. Qed.

Lemma kmalloc_fresh_witness :
  wps True (Kmalloc.kmalloc 100) km0 (fun a s' =>
    (a = 0 /\ (PagerefPool.leak_ok (Kmalloc.kheaproots (Kmalloc.km_heap s')) -> HeapAlloc.heap_inv s' ∅)) \/
    (a <> 0 /\ a mod 16 = 0 /\ exists n, 100 <= n /\ HeapAlloc.heap_inv s' (<[a := n]> ∅) /\
       forall b m, (∅ : gmap Z Z) !! b = Some m -> a <> b /\ (a + n <= b \/ b + m <= a))).
Proof. apply (HeapAlloc.kmalloc_fresh 100 km0 ∅ km0_inv). lia. Defined.

(** The state after the first allocation. *)
Definition addr1 : Z := 0x80001f80.
Definition km1 : Kmalloc.kmst kstate :=
  match Kmalloc.subpage_kmalloc 100 km0 with Ret _ s => s | _ => km0 end.

Definition run_addr (r : outcome (Kmalloc.kmst kstate) Z) : option Z := match r with Ret a _ => Some a | _ => None end.

Lemma km1_eq : Kmalloc.subpage_kmalloc 100 km0 = Ret addr1 km1.
Proof.
  assert (E : run_addr (Kmalloc.subpage_kmalloc 100 km0) = Some addr1) by (vm_compute; reflexivity).
  unfold km1. destruct (Kmalloc.subpage_kmalloc 100 km0) as [a s| | | | |]; simpl in E; congruence.
Qed.

Lemma kfree_releases_witness :
  exists n, wp (Kmalloc.kfree addr1) km1 (fun _ s' => HeapAlloc.heap_inv s' (delete addr1 (<[addr1 := n]> ∅))).
Proof.
  assert (HI : exists n, HeapAlloc.heap_inv km1 (<[addr1 := n]> ∅)).
  { pose proof (HeapAlloc.subpage_kmalloc_spec 100 km0 ∅ km0_inv ltac:(vm_compute; split; discriminate)) as H.
    unfold wps in H. rewrite km1_eq in H. destruct H as [[H _]|(_ & _ & _ & n & _ & H)]; [discriminate H|by exists n]. }
  destruct HI as [n HI]. exists n. apply (HeapFree.kfree_releases km1 (<[addr1 := n]> ∅) addr1 n HI).
  apply lookup_insert_eq.
Defined.

End KmallocPages.
