(* ===== verification/Bitmap.v ===== *)
(** * Bitmaps: kern/lib/bitmap.c

    The bits are kept in bytes.  [bit_set] is the abstract bitmap; the theorems say which
    bit each operation finds or changes. *)

From S2P Require Import Prelude.

Module Bitmap.

Definition BITS_PER_WORD : Z := 8.
Definition WORD_ALLBITS : Z := 0xff.
Definition DIVROUNDUP (a b : Z) : Z := u32 (a + b - 1) / b.

(** struct bitmap *)
Record bitmap := mk_bitmap {
  nbits : Z;
  v : list Z                     (* WORD_TYPE: unsigned char *)
}.

Definition get_byte (ix : Z) : M bitmap Z := b ← get; deref (v b !! Z.to_nat ix).
Definition put_byte (ix w : Z) : M bitmap unit :=
  b ← get;
  if ix <? Z.of_nat (length (v b)) then put (mk_bitmap (nbits b) (<[Z.to_nat ix := w]> (v b))) else undef.

(** [ok1], [ok2]: whether the two allocations succeed; [None] is NULL. *)
Definition bitmap_create (ok1 ok2 : bool) (n : Z) : M unit (option bitmap) :=
  let words := DIVROUNDUP n BITS_PER_WORD in
  if negb ok1 || negb ok2 then mret None else
  let zeroed := replicate (Z.to_nat words) 0 in
  if n / BITS_PER_WORD <? words then
    let ix := words - 1 in
    let overbits := n - ix * BITS_PER_WORD in
    _ ← KASSERT (n / BITS_PER_WORD =? words - 1);
    _ ← KASSERT ((0 <? overbits) && (overbits <? BITS_PER_WORD));
    mret (Some (mk_bitmap n
      (alter (fun w => foldl (fun w j => Z.lor w (Z.shiftl 1 j)) w
                         (seqZ overbits (BITS_PER_WORD - overbits))) (Z.to_nat ix) zeroed)))
  else mret (Some (mk_bitmap n zeroed)).

(** 0 and the index, or ENOSPC. *)
Definition bitmap_alloc : M bitmap (Z * Z) :=
  b ← get;
  let maxix := DIVROUNDUP (nbits b) BITS_PER_WORD in
  r ← for_early (Z.to_nat maxix) 0 (fun ix =>
        w ← get_byte ix;
        if w =? WORD_ALLBITS then mret None else
        r ← for_early 8 0 (fun offset =>
              let mask := Z.shiftl 1 offset in
              if Z.land w mask =? 0 then
                _ ← put_byte ix (Z.lor w mask);
                let index := ix * BITS_PER_WORD + offset in
                _ ← KASSERT (index <? nbits b);
                mret (Some index)
              else mret None);
        match r with Some i => mret (Some i) | None => panic "KASSERT" end);
  mret (match r with Some i => (0, i) | None => (ENOSPC, 0) end).

Definition bitmap_translate (bitno : Z) : Z * Z :=
  (bitno / BITS_PER_WORD, Z.shiftl 1 (bitno mod BITS_PER_WORD)).

Definition bitmap_mark (index : Z) : M bitmap unit :=
  b ← get;
  _ ← KASSERT (index <? nbits b);
  let '(ix, mask) := bitmap_translate index in
  w ← get_byte ix;
  _ ← KASSERT (Z.land w mask =? 0);
  put_byte ix (Z.lor w mask).

Definition bitmap_unmark (index : Z) : M bitmap unit :=
  b ← get;
  _ ← KASSERT (index <? nbits b);
  let '(ix, mask) := bitmap_translate index in
  w ← get_byte ix;
  _ ← KASSERT (negb (Z.land w mask =? 0));
  put_byte ix (Z.ldiff w mask).

(** Zero or not. *)
Definition bitmap_isset (index : Z) : M bitmap Z :=
  let '(ix, mask) := bitmap_translate index in
  w ← get_byte ix;
  mret (Z.land w mask).

(** ** The abstract bitmap *)

Definition bit_set (b : bitmap) (i : Z) : bool :=
  match v b !! Z.to_nat (i / 8) with Some w => Z.testbit w (i mod 8) | None => false end.

(** The array has a byte for every eight bits, and the bits past the end are set. *)
Record bitmap_wf (b : bitmap) : Prop := mk_bwf {
  bm_range : 0 < nbits b < 2 ^ 31;
  bm_len : Z.of_nat (length (v b)) = (nbits b + 7) / 8;
  bm_byte : forall i w, v b !! i = Some w -> 0 <= w < 256;
  bm_over : forall i, nbits b <= i < 8 * Z.of_nat (length (v b)) -> bit_set b i = true
}.

Lemma bit_land w j : 0 <= j -> (Z.land w (Z.shiftl 1 j) =? 0) = negb (Z.testbit w j).
Proof.
  intros Hj. rewrite Z.shiftl_1_l. destruct (Z.testbit w j) eqn:E; simpl.
  - apply Z.eqb_neq. intros H0. assert (Hb : Z.testbit (Z.land w (2 ^ j)) j = true)
      by (by rewrite Z.land_spec, E, Z.pow2_bits_true).
    by rewrite H0, Z.testbit_0_l in Hb.
  - apply Z.eqb_eq, Z.bits_inj'. intros i Hi. rewrite Z.land_spec, Z.testbit_0_l, Z.pow2_bits_eqb by done.
    destruct (Z.eqb_spec j i) as [<-|]; [by rewrite E|apply andb_false_r].
Qed.

Lemma byte_bits w : 0 <= w < 256 <-> 0 <= w /\ forall i, 8 <= i -> Z.testbit w i = false.
Proof.
  split.
  - intros Hw. split; [lia|]. intros i Hi. destruct (decide (w = 0)) as [->|]; [apply Z.testbit_0_l|].
    apply Z.bits_above_log2; [lia|]. assert (Z.log2 w < 8) by (apply Z.log2_lt_pow2; lia). lia.
  - intros [H0 Hb]. split; [done|]. destruct (decide (w < 256)) as [|Hge]; [done|].
    assert (Hl : 8 <= Z.log2 w) by (apply Z.log2_le_pow2; lia).
    pose proof (Z.bit_log2 w ltac:(lia)) as E. by rewrite Hb in E.
Qed.

Lemma set_byte_bit w j : 0 <= w < 256 -> 0 <= j < 8 -> 0 <= Z.lor w (Z.shiftl 1 j) < 256 /\
  forall i, 0 <= i -> Z.testbit (Z.lor w (Z.shiftl 1 j)) i = (j =? i) || Z.testbit w i.
Proof.
  intros Hw Hj. assert (Hb : forall i, 0 <= i -> Z.testbit (Z.lor w (Z.shiftl 1 j)) i = (j =? i) || Z.testbit w i)
    by (intros i Hi; by rewrite <- Z.setbit_eqb by lia).
  split; [|done]. apply byte_bits in Hw as [H0 Hhi]. apply byte_bits. split.
  - apply Z.lor_nonneg. split; [done|]. apply Z.shiftl_nonneg. lia.
  - intros i Hi. rewrite Hb, Hhi by lia. rewrite orb_false_r. lia.
Qed.

Lemma clear_byte_bit w j : 0 <= w < 256 -> 0 <= j < 8 -> 0 <= Z.ldiff w (Z.shiftl 1 j) < 256 /\
  forall i, 0 <= i -> Z.testbit (Z.ldiff w (Z.shiftl 1 j)) i = Z.testbit w i && negb (j =? i).
Proof.
  intros Hw Hj. assert (Hb : forall i, 0 <= i -> Z.testbit (Z.ldiff w (Z.shiftl 1 j)) i = Z.testbit w i && negb (j =? i))
    by (intros i Hi; by rewrite <- Z.clearbit_eqb by lia).
  split; [|done]. apply byte_bits in Hw as [H0 Hhi]. apply byte_bits. split.
  - apply Z.ldiff_nonneg. by left.
  - intros i Hi. by rewrite Hb, Hhi by lia.
Qed.

(** Changing one bit of one byte. *)
Lemma bit_set_put b ix off w w' (c : bool) :
  bitmap_wf b -> 0 <= ix -> 0 <= off < 8 -> v b !! Z.to_nat ix = Some w -> 0 <= w' < 256 ->
  (forall i, 0 <= i -> Z.testbit w' i = if decide (i = off) then c else Z.testbit w i) ->
  let b' := mk_bitmap (nbits b) (<[Z.to_nat ix := w']> (v b)) in
  put_byte ix w' b = Ret tt b' /\
  (forall i, 0 <= i -> bit_set b' i = if decide (i = ix * 8 + off) then c else bit_set b i) /\
  (ix * 8 + off < nbits b -> bitmap_wf b').
Proof.
  intros Hwf Hix Hoff Hw Hw' Hbits b'. pose proof (lookup_lt_Some _ _ _ Hw) as Hlt.
  assert (Hbs : forall i, 0 <= i -> bit_set b' i = if decide (i = ix * 8 + off) then c else bit_set b i).
  { intros i Hi. unfold bit_set, b'; simpl. destruct (decide (i / 8 = ix)) as [E|Hne].
    - rewrite E, list_lookup_insert_eq by done. rewrite Hw, Hbits by (apply Z.mod_pos_bound; lia).
      destruct (decide (i mod 8 = off)), (decide (i = ix * 8 + off)); try done; Z.to_euclidean_division_equations; lia.
    - rewrite list_lookup_insert_ne by (intros E; apply Hne; Z.to_euclidean_division_equations; lia).
      rewrite decide_False; [done|]. intros ->. apply Hne. rewrite Z.div_add_l, Z.div_small by lia. lia. }
  split_and!; [|done|].
  - unfold put_byte. msimpl. by rewrite (proj2 (Z.ltb_lt ix _)) by lia.
  - intros Hn. destruct Hwf as [B1 B2 B3 B4]. split; simpl; try done.
    + by rewrite length_insert.
    + intros i x Hx. apply list_lookup_insert_Some in Hx as [(_ & <- & _)|[_ Hx]]; [done|by eapply B3].
    + rewrite length_insert. intros i Hi. fold b'. rewrite Hbs, decide_False by lia. by apply B4.
Qed.

Lemma get_byte_eq b ix w : v b !! Z.to_nat ix = Some w -> get_byte ix b = Ret w b.
Proof. intros Hw. unfold get_byte. msimpl. by rewrite Hw. Qed.

Lemma byte_of b i : bitmap_wf b -> 0 <= i < 8 * Z.of_nat (length (v b)) ->
  exists w, v b !! Z.to_nat (i / 8) = Some w /\ 0 <= w < 256 /\ bit_set b i = Z.testbit w (i mod 8).
Proof.
  intros Hwf Hi. destruct (lookup_lt_is_Some_2 (v b) (Z.to_nat (i / 8))) as [w Hw].
  { Z.to_euclidean_division_equations; lia. }
  exists w. split; [done|]. split; [by eapply (bm_byte b Hwf)|]. unfold bit_set. by rewrite Hw.
Qed.

Lemma maxix_eq b : bitmap_wf b -> DIVROUNDUP (nbits b) BITS_PER_WORD = Z.of_nat (length (v b)).
Proof.
  intros Hwf. destruct (bm_range b Hwf). unfold DIVROUNDUP, BITS_PER_WORD. rewrite u32_small by lia.
  rewrite (bm_len b Hwf). f_equal. lia.
Qed.

Lemma index_small b i : bitmap_wf b -> 0 <= i < nbits b -> 0 <= i < 8 * Z.of_nat (length (v b)).
Proof. intros Hwf Hi. rewrite (bm_len b Hwf). Z.to_euclidean_division_equations; lia. Qed.

Lemma bitmap_mark_spec b i : bitmap_wf b -> 0 <= i < nbits b -> bit_set b i = false ->
  wp (bitmap_mark i) b (fun _ b' => bitmap_wf b' /\ nbits b' = nbits b /\
    forall j, 0 <= j -> bit_set b' j = if decide (j = i) then true else bit_set b j).
Proof.
  intros Hwf Hi Hc. destruct (byte_of b i Hwf (index_small b i Hwf Hi)) as (w & Hw & Hr & Hb).
  pose proof (Z.mod_pos_bound i 8 ltac:(lia)) as Hm. unfold bitmap_mark. apply wp_bind. eapply wp_eq; [reflexivity|].
  apply wp_bind, wp_KASSERT; [lia|]. cbn [bitmap_translate]. unfold BITS_PER_WORD.
  apply wp_bind. eapply wp_eq; [by apply get_byte_eq|].
  apply wp_bind, wp_KASSERT; [rewrite bit_land by lia; by rewrite <- Hb, Hc|].
  destruct (set_byte_bit w (i mod 8) Hr Hm) as [Hr' Hbits].
  destruct (bit_set_put b (i / 8) (i mod 8) w _ true Hwf ltac:(apply Z.div_pos; lia) Hm Hw Hr') as (Hrun & Hset & Hwf').
  { intros j Hj. rewrite Hbits by done. destruct (Z.eqb_spec (i mod 8) j), (decide (j = i mod 8)); try done; lia. }
  eapply wp_eq; [exact Hrun|]. replace (i / 8 * 8 + i mod 8) with i in * by (Z.to_euclidean_division_equations; lia).
  split_and!; [apply Hwf'; lia|done|exact Hset].
Qed.

Lemma bitmap_unmark_spec b i : bitmap_wf b -> 0 <= i < nbits b -> bit_set b i = true ->
  wp (bitmap_unmark i) b (fun _ b' => bitmap_wf b' /\ nbits b' = nbits b /\
    forall j, 0 <= j -> bit_set b' j = if decide (j = i) then false else bit_set b j).
Proof.
  intros Hwf Hi Hc. destruct (byte_of b i Hwf (index_small b i Hwf Hi)) as (w & Hw & Hr & Hb).
  pose proof (Z.mod_pos_bound i 8 ltac:(lia)) as Hm. unfold bitmap_unmark. apply wp_bind. eapply wp_eq; [reflexivity|].
  apply wp_bind, wp_KASSERT; [lia|]. cbn [bitmap_translate]. unfold BITS_PER_WORD.
  apply wp_bind. eapply wp_eq; [by apply get_byte_eq|].
  apply wp_bind, wp_KASSERT; [rewrite bit_land by lia; by rewrite <- Hb, Hc|].
  destruct (clear_byte_bit w (i mod 8) Hr Hm) as [Hr' Hbits].
  destruct (bit_set_put b (i / 8) (i mod 8) w _ false Hwf ltac:(apply Z.div_pos; lia) Hm Hw Hr') as (Hrun & Hset & Hwf').
  { intros j Hj. rewrite Hbits by done. destruct (Z.eqb_spec (i mod 8) j), (decide (j = i mod 8)); try lia; by rewrite ?andb_false_r, ?andb_true_r. }
  eapply wp_eq; [exact Hrun|]. replace (i / 8 * 8 + i mod 8) with i in * by (Z.to_euclidean_division_equations; lia).
  split_and!; [apply Hwf'; lia|done|exact Hset].
Qed.

Lemma bitmap_isset_spec b i : bitmap_wf b -> 0 <= i < nbits b ->
  exists r, bitmap_isset i b = Ret r b /\ (r =? 0) = negb (bit_set b i).
Proof.
  intros Hwf Hi. destruct (byte_of b i Hwf (index_small b i Hwf Hi)) as (w & Hw & Hr & Hb).
  pose proof (Z.mod_pos_bound i 8 ltac:(lia)). unfold bitmap_isset. cbn [bitmap_translate]. unfold BITS_PER_WORD.
  rewrite (run_bind _ _ b w b) by (by apply get_byte_eq). eexists. split; [reflexivity|]. rewrite bit_land by lia. by rewrite Hb.
Qed.

(** A byte that is not all ones has a first clear bit. *)
Lemma byte_clear w : 0 <= w < 256 -> w <> WORD_ALLBITS ->
  exists j, 0 <= j < 8 /\ Z.testbit w j = false /\ forall i, 0 <= i < j -> Z.testbit w i = true.
Proof.
  intros Hw Hne. destruct (first_index (fun j => Z.testbit w j = false) 8 0) as [(j & Hj & Hc & Hlt)|Hno].
  - exists j. split; [lia|]. split; [done|]. intros i Hi. by apply not_false_is_true, Hlt.
  - destruct Hne. apply Z.bits_inj'. intros i Hi. change WORD_ALLBITS with (Z.ones 8).
    rewrite Z.testbit_ones_nonneg by lia. destruct (Z.ltb_spec i 8).
    + apply not_false_is_true, Hno. lia.
    + apply byte_bits in Hw as [_ Hhi]. by apply Hhi.
Qed.

Lemma byte_full w i : w = WORD_ALLBITS -> 0 <= i < 8 -> Z.testbit w i = true.
Proof. intros -> Hi. change WORD_ALLBITS with (Z.ones 8). rewrite Z.testbit_ones_nonneg by lia. lia. Qed.

(** The first clear bit, or none. *)
Lemma bitmap_alloc_spec b : bitmap_wf b -> wp bitmap_alloc b (fun r b' =>
  (exists i, r = (0, i) /\ 0 <= i < nbits b /\ bit_set b i = false /\ (forall j, 0 <= j < i -> bit_set b j = true) /\
     bitmap_wf b' /\ nbits b' = nbits b /\ forall j, 0 <= j -> bit_set b' j = if decide (j = i) then true else bit_set b j) \/
  (r = (ENOSPC, 0) /\ b' = b /\ forall j, 0 <= j < nbits b -> bit_set b j = true)).
Proof.
  intros Hwf. apply (wps_wp False); [|tauto]. unfold bitmap_alloc. apply wps_step. eapply wp_eq; [reflexivity|].
  rewrite (maxix_eq b Hwf), Nat2Z.id. set (body := fun ix : Z => _).
  assert (Hskip : forall ix, 0 <= ix < Z.of_nat (length (v b)) -> v b !! Z.to_nat ix = Some WORD_ALLBITS -> body ix b = Ret None b).
  { intros ix _ Hfull. unfold body. rewrite (run_bind _ _ b WORD_ALLBITS b) by (by apply get_byte_eq). done. }
  destruct (first_index (fun ix => v b !! Z.to_nat ix <> Some WORD_ALLBITS) (length (v b)) 0) as [(ix & Hix & Hc & Hlt)|Hno].
  - destruct (lookup_lt_is_Some_2 (v b) (Z.to_nat ix)) as [w Hw]; [lia|].
    pose proof (bm_byte b Hwf _ _ Hw) as Hr. assert (Hne : w <> WORD_ALLBITS) by congruence.
    destruct (byte_clear w Hr Hne) as (off & Hoff & Hclear & Hbelow).
    destruct (set_byte_bit w off Hr Hoff) as [Hr' Hbits].
    destruct (bit_set_put b ix off w _ true Hwf ltac:(lia) Hoff Hw Hr') as (Hrun & Hset & Hwf').
    { intros j Hj. rewrite Hbits by done. destruct (Z.eqb_spec off j), (decide (j = off)); try done; lia. }
    assert (Hold : forall j, ix * 8 <= j < ix * 8 + 8 -> bit_set b j = Z.testbit w (j - ix * 8)).
    { intros j Hj. unfold bit_set. replace (j / 8) with ix by (Z.to_euclidean_division_equations; lia).
      rewrite Hw. f_equal. Z.to_euclidean_division_equations; lia. }
    assert (Hin : ix * 8 + off < nbits b).
    { destruct (decide (ix * 8 + off < nbits b)) as [|Hge]; [done|].
      pose proof (bm_over b Hwf (ix * 8 + off) ltac:(lia)) as Hov. rewrite Hold in Hov by lia.
      replace (ix * 8 + off - ix * 8) with off in Hov by lia. congruence. }
    apply wps_bind, (wps_early _ _ _ ix); [lia|intros j Hj; apply Hskip; [lia|apply dec_stable, Hlt; lia]|].
    unfold body at 1. apply wps_step. eapply wp_eq; [by apply get_byte_eq|]. rewrite (proj2 (Z.eqb_neq _ _) Hne).
    apply wps_bind, (wps_early _ _ _ off); [lia| |].
    { intros j Hj. rewrite bit_land by lia. by rewrite Hbelow by lia. }
    rewrite bit_land by lia. rewrite Hclear. cbn [negb]. apply wps_step. eapply wp_eq; [exact Hrun|].
    apply wps_step. apply wp_KASSERT; [unfold BITS_PER_WORD; lia|]. apply wps_ret.
    eexists. split; [reflexivity|]. cbn beta iota. apply wps_ret. eexists. split; [reflexivity|]. apply wps_ret.
    left. unfold BITS_PER_WORD. exists (ix * 8 + off). split; [done|]. split; [lia|]. split; [|split; [|split; [auto|split; [done|exact Hset]]]].
    + rewrite Hold by lia. by replace (ix * 8 + off - ix * 8) with off by lia.
    + intros j Hj. destruct (decide (ix * 8 <= j)) as [|Hlow]; [rewrite Hold by lia; apply Hbelow; lia|].
      unfold bit_set. assert (v b !! Z.to_nat (j / 8) = Some WORD_ALLBITS) as ->
        by (apply dec_stable, Hlt; Z.to_euclidean_division_equations; lia).
      apply byte_full; [done|apply Z.mod_pos_bound; lia].
  - assert (Hall : forall ix, 0 <= ix < 0 + Z.of_nat (length (v b)) -> v b !! Z.to_nat ix = Some WORD_ALLBITS)
      by (intros ix Hix; by apply dec_stable, Hno).
    apply wps_step. eapply wp_eq.
    { rewrite (for_early_skip _ _ (0 + Z.of_nat (length (v b)))); [|lia|intros i Hi; apply Hskip; [lia|by apply Hall]].
      replace (length (v b) - _)%nat with 0%nat by lia. reflexivity. }
    apply wps_ret. right. split_and!; [done..|]. intros j Hj. pose proof (index_small b j Hwf Hj).
    unfold bit_set. rewrite Hall by (Z.to_euclidean_division_equations; lia). apply byte_full; [done|apply Z.mod_pos_bound; lia].
Qed.

(** ** A bitmap is a set *)

Inductive op := OpAlloc | OpMark (i : Z) | OpUnmark (i : Z) | OpIsset (i : Z).

(** What the operation answers: its result, and whether the bit is set for [OpIsset]. *)
Definition run_op (o : op) : M bitmap Z :=
  match o with
  | OpAlloc => r ← bitmap_alloc; mret (if r.1 =? 0 then r.2 else -1)
  | OpMark i => _ ← bitmap_mark i; mret 0
  | OpUnmark i => _ ← bitmap_unmark i; mret 0
  | OpIsset i => r ← bitmap_isset i; mret (if r =? 0 then 0 else 1)
  end.

Fixpoint run_ops (os : list op) : M bitmap (list Z) :=
  match os with
  | [] => mret []
  | o :: os' => a ← run_op o; r ← run_ops os'; mret (a :: r)
  end.

(** The same operations on a set of numbers below [n]. *)
Inductive set_step (n : Z) : gset Z -> op -> Z -> gset Z -> Prop :=
  | step_alloc X i : 0 <= i < n -> i ∉ X -> (forall j, 0 <= j < i -> j ∈ X) -> set_step n X OpAlloc i ({[i]} ∪ X)
  | step_full X : (forall j, 0 <= j < n -> j ∈ X) -> set_step n X OpAlloc (-1) X
  | step_mark X i : set_step n X (OpMark i) 0 ({[i]} ∪ X)
  | step_unmark X i : set_step n X (OpUnmark i) 0 (X ∖ {[i]})
  | step_isset X i : set_step n X (OpIsset i) (if decide (i ∈ X) then 1 else 0) X.

(** The callers' side of the contract. *)
Definition op_ok (n : Z) (X : gset Z) (o : op) : Prop :=
  match o with
  | OpAlloc => True
  | OpMark i => 0 <= i < n /\ i ∉ X
  | OpUnmark i => 0 <= i < n /\ i ∈ X
  | OpIsset i => 0 <= i < n
  end.

Inductive set_steps (n : Z) : gset Z -> list op -> list Z -> gset Z -> Prop :=
  | steps_nil X : set_steps n X [] [] X
  | steps_cons X o a X1 os r X2 : set_step n X o a X1 -> set_steps n X1 os r X2 -> set_steps n X (o :: os) (a :: r) X2.

(** The sequence is one the callers may issue: whatever the earlier operations answered. *)
Inductive ops_ok (n : Z) : gset Z -> list op -> Prop :=
  | ok_nil X : ops_ok n X []
  | ok_cons X o os : op_ok n X o -> (forall a X', set_step n X o a X' -> ops_ok n X' os) -> ops_ok n X (o :: os).

Definition represents (b : bitmap) (X : gset Z) : Prop :=
  bitmap_wf b /\ forall i, 0 <= i < nbits b -> bit_set b i = bool_decide (i ∈ X).

Lemma represents_upd b b' X X' i (c : bool) :
  represents b X -> bitmap_wf b' -> nbits b' = nbits b ->
  (forall j, 0 <= j -> bit_set b' j = if decide (j = i) then c else bit_set b j) ->
  (forall j, j ∈ X' <-> if decide (j = i) then c = true else j ∈ X) -> represents b' X'.
Proof.
  intros [_ Hb] Hwf Hn Hset HX. split; [done|]. intros j Hj. rewrite Hset by lia. specialize (HX j).
  destruct (decide (j = i)) as [->|]; [|rewrite Hb by lia; by apply bool_decide_ext].
  destruct c; symmetry; [by apply bool_decide_eq_true_2, HX|]. apply bool_decide_eq_false_2. by intros ?%HX.
Qed.

Lemma run_op_refines b X o : represents b X -> op_ok (nbits b) X o ->
  wp (run_op o) b (fun a b' => nbits b' = nbits b /\ exists X', set_step (nbits b) X o a X' /\ represents b' X').
Proof.
  intros HR Hok. pose proof HR as [Hwf Hb]. destruct o as [|i|i|i]; simpl in Hok; unfold run_op; apply wp_bind.
  - eapply wp_mono; [by apply bitmap_alloc_spec|].
    intros r b' [(i & -> & Hi & Hc & Hlt & Hwf' & Hn & Hset)|(-> & -> & Hall)]; apply wp_ret; split; try done.
    + rewrite Hb in Hc by done. apply bool_decide_eq_false in Hc. exists ({[i]} ∪ X). split.
      * apply step_alloc; [done|done|]. intros j Hj. specialize (Hlt j Hj). rewrite Hb in Hlt by lia. by apply bool_decide_eq_true in Hlt.
      * eapply represents_upd; try done. intros j. destruct (decide (j = i)); set_solver.
    + exists X. split; [|done]. apply step_full. intros j Hj. specialize (Hall j Hj). rewrite Hb in Hall by lia.
      by apply bool_decide_eq_true in Hall.
  - destruct Hok as [Hi Hn]. eapply wp_mono; [apply bitmap_mark_spec; [done|done|]|].
    { rewrite Hb by done. by apply bool_decide_eq_false_2. }
    intros [] b' (Hwf' & Hn' & Hset). apply wp_ret. split; [done|]. exists ({[i]} ∪ X). split; [constructor|].
    eapply represents_upd; try done. intros j. destruct (decide (j = i)); set_solver.
  - destruct Hok as [Hi Hin]. eapply wp_mono; [apply bitmap_unmark_spec; [done|done|]|].
    { rewrite Hb by done. by apply bool_decide_eq_true_2. }
    intros [] b' (Hwf' & Hn' & Hset). apply wp_ret. split; [done|]. exists (X ∖ {[i]}). split; [constructor|].
    eapply represents_upd; try done. intros j. destruct (decide (j = i)); set_solver.
  - destruct (bitmap_isset_spec b i Hwf Hok) as (r & Hrun & Hr). eapply wp_eq; [exact Hrun|]. apply wp_ret.
    split; [done|]. exists X. split; [|done]. rewrite Hr, Hb by done. pose proof (step_isset (nbits b) X i) as Hs.
    destruct (decide (i ∈ X)); [by rewrite bool_decide_eq_true_2|by rewrite bool_decide_eq_false_2].
Qed.

(** C26: a bitmap is a set.  Any sequence of [bitmap_alloc], [bitmap_mark], [bitmap_unmark]
    and [bitmap_isset] calls in which no bit is marked twice or unmarked when clear runs
    without an assertion failing, gives the answers the same operations give on a set of
    numbers below [nbits] (an allocation the least number not in the set, ENOSPC only when
    all are), and ends with the bits of that set. *)
Theorem bitmap_refines_set os : forall b X, represents b X -> ops_ok (nbits b) X os ->
  wp (run_ops os) b (fun r b' => nbits b' = nbits b /\ exists X', set_steps (nbits b) X os r X' /\ represents b' X').
Proof.
  induction os as [|o os IH]; intros b X HR Hok; inversion Hok as [|? ? ? Ho Hos]; subst; simpl.
  - apply wp_ret. split; [done|]. exists X. split; [constructor|done].
  - apply wp_bind. eapply wp_mono; [by apply run_op_refines|]. intros a b1 (Hn & X1 & Hst & HR1).
    apply wp_bind. eapply wp_mono; [apply (IH b1 X1 HR1); rewrite Hn; by eapply Hos|].
    intros r b2 (Hn2 & X2 & Hst2 & HR2). apply wp_ret. split; [congruence|]. exists X2. split; [|done].
    rewrite Hn in Hst2. by econstructor.
Qed.

Definition map10 : bitmap := mk_bitmap 10 [0; 0xfc].

Lemma map10_rep : represents map10 ∅.
Proof.
  split.
  - split; simpl; [lia|reflexivity| |].
    + intros [|[|i]] w [= <-]; lia.
    + intros i Hi. assert (i = 10 \/ i = 11 \/ i = 12 \/ i = 13 \/ i = 14 \/ i = 15) as [->|[->|[->|[->|[->| ->]]]]] by lia; reflexivity.
  - intros i Hi. simpl in Hi. rewrite bool_decide_eq_false_2 by set_solver.
    assert (i = 0 \/ i = 1 \/ i = 2 \/ i = 3 \/ i = 4 \/ i = 5 \/ i = 6 \/ i = 7 \/ i = 8 \/ i = 9)
      as [->|[->|[->|[->|[->|[->|[->|[->|[->| ->]]]]]]]]] by lia; reflexivity.
Qed.

Lemma bitmap_refines_set_witness :
  wp (run_ops [OpMark 0; OpAlloc; OpUnmark 0; OpIsset 0]) map10
    (fun r b' => nbits b' = nbits map10 /\ exists X', set_steps (nbits map10) ∅ [OpMark 0; OpAlloc; OpUnmark 0; OpIsset 0] r X' /\ represents b' X').
Proof.
  apply (bitmap_refines_set [OpMark 0; OpAlloc; OpUnmark 0; OpIsset 0] map10 ∅ map10_rep).
  constructor; [simpl; split; [lia|set_solver]|]. intros a1 X1 Hs1. inversion Hs1; subst.
  constructor; [done|]. intros a2 X2 Hs2. inversion Hs2; subst.
  - constructor; [simpl; split; [lia|set_solver]|]. intros a3 X3 Hs3. inversion Hs3; subst.
    constructor; [simpl; lia|]. intros. constructor.
  - constructor; [simpl; split; [lia|set_solver]|]. intros a3 X3 Hs3. inversion Hs3; subst.
    constructor; [simpl; lia|]. intros. constructor.
Defined.

End Bitmap.
