(* ===== verification/Uio.v ===== *)
(** * Transfers between kernel buffers and I/O vectors: kern/lib/uio.c

    A kernel buffer is its contents.  The region an iovec of the kernel refers to is kept
    in the iovec, split at [iov_kbase]; a region of user space is an address, reached
    through [copyin] and [copyout] of the interface [UserSpace]. *)

From S2P Require Import Prelude.

Module Uio.

(** User space as uio.c sees it: the two copies (an error number and, for [copyin], the
    bytes) and the current address space (0: none). *)
Class UserSpace (U : Type) : Type := {
  copyin : Z -> Z -> M U (Z * list Z);
  copyout : list Z -> Z -> M U Z;
  proc_getas : U -> Z
}.

Inductive uio_rw := UIO_READ | UIO_WRITE.
Inductive uio_seg := UIO_USERISPACE | UIO_USERSPACE | UIO_SYSSPACE.

(** The union of struct iovec: the bytes before and after [iov_kbase], or [iov_ubase]. *)
Inductive iobase := KBuf (before after : list Z) | UBuf (addr : Z).

Record iovec := mk_iov {
  iov_base : iobase;
  iov_len : Z
}.

(** struct uio.  [uio_past]: the iovecs [uio_iov] has moved past. *)
Record uio := mk_uio {
  uio_past : list iovec;
  uio_iov : list iovec;
  uio_offset : Z;
  uio_resid : Z;
  uio_segflg : uio_seg;
  uio_dir : uio_rw;
  uio_space : Z
}.

#[export] Instance uio_rw_eq : EqDecision uio_rw.
Proof. solve_decision. Defined.
#[export] Instance uio_seg_eq : EqDecision uio_seg.
Proof. solve_decision. Defined.

Definition is_read (u : uio) : bool := bool_decide (uio_dir u = UIO_READ).

Definition set_iov (past iov : list iovec) (u : uio) : uio :=
  mk_uio past iov (uio_offset u) (uio_resid u) (uio_segflg u) (uio_dir u) (uio_space u).

(** The bookkeeping after [size] bytes were moved through the first iovec. *)
Definition advance (b : iobase) (size : Z) (u : uio) : uio :=
  match uio_iov u with
  | [] => u
  | iov :: iovs =>
      mk_uio (uio_past u) (mk_iov b (u32 (iov_len iov - size)) :: iovs)
        (uio_offset u + size) (u32 (uio_resid u - size)) (uio_segflg u) (uio_dir u) (uio_space u)
  end.

Section Ops.
Context {U : Type} `{US : UserSpace U}.

(** One [memmove], [copyout] or [copyin] of [size] bytes: the error number, the bytes that
    went through the kernel buffer and the iovec's new base. *)
Definition move_bytes (rest : list Z) (size : Z) (b : iobase) (u : uio) : M U (Z * list Z * iobase) :=
  let k := Z.to_nat size in
  match uio_segflg u, b with
  | UIO_SYSSPACE, KBuf before after =>
      let bytes := if is_read u then take k rest else take k after in
      mret (0, bytes, KBuf (before ++ bytes) (drop k after))
  | UIO_SYSSPACE, UBuf _ => undef
  | _, UBuf a =>
      if is_read u then
        r ← copyout (take k rest) a;
        mret (r, take k rest, UBuf (a + size))
      else
        r ← copyin a size;
        mret (r.1, r.2, UBuf (a + size))
  | _, KBuf _ _ => undef
  end.

(** The loop of [uiomove]; the kernel buffer is [done ++ rest], split at [ptr]. *)
Fixpoint uiomove_loop (fuel : nat) (done rest : list Z) (n : Z) (u : uio) : M U (Z * list Z * uio) :=
  match fuel with
  | O => out_of_fuel
  | S fuel' =>
      if (0 <? n) && (0 <? uio_resid u) then
        match uio_iov u with
        | [] => undef
        | iov :: iovs =>
            let size := if n <? iov_len iov then n else iov_len iov in
            if size =? 0 then
              match iovs with
              | [] => panic "uiomove: ran out of buffers"
              | _ => uiomove_loop fuel' done rest n (set_iov (uio_past u ++ [iov]) iovs u)
              end
            else
              r ← move_bytes rest size (iov_base iov) u;
              let '(result, bytes, b) := r in
              if negb (result =? 0) then mret (result, done ++ rest, u)
              else uiomove_loop fuel' (done ++ bytes) (drop (Z.to_nat size) rest) (n - size) (advance b size u)
        end
      else mret (0, done ++ rest, u)
  end.

(** The error number, the kernel buffer and the uio afterwards. *)
Definition uiomove (buf : list Z) (n : Z) (u : uio) : M U (Z * list Z * uio) :=
  s ← get;
  _ ← KASSERT (if decide (uio_segflg u = UIO_SYSSPACE) then uio_space u =? 0 else uio_space u =? proc_getas s);
  uiomove_loop (Z.to_nat n + length (uio_iov u) + 1) [] buf n u.

Fixpoint zeros_loop (fuel : nat) (n : Z) (u : uio) : M U (Z * uio) :=
  match fuel with
  | O => out_of_fuel
  | S fuel' =>
      if 0 <? n then
        let amt := if n <? 16 then n else 16 in
        r ← uiomove (replicate 16 0) amt u;
        let '(result, _, u') := r in
        if negb (result =? 0) then mret (result, u') else zeros_loop fuel' (n - amt) u'
      else mret (0, u)
  end.

Definition uiomovezeros (n : Z) (u : uio) : M U (Z * uio) :=
  _ ← KASSERT (is_read u);
  zeros_loop (Z.to_nat n + 1) n u.

(** A uio over one kernel buffer. *)
Definition uio_kinit (kbuf : list Z) (len pos : Z) (rw : uio_rw) : uio :=
  mk_uio [] [mk_iov (KBuf [] kbuf) len] pos len UIO_SYSSPACE rw 0.

(** ** What the loop moves *)

(** The memory of the iovecs, in order. *)
Definition contents (b : iobase) : list Z := match b with KBuf x y => x ++ y | UBuf _ => [] end.
Definition flat (u : uio) : list Z := concat (map (fun i => contents (iov_base i)) (uio_past u ++ uio_iov u)).
(** The bytes from [iov_kbase] of the first iovec on. *)
Definition ahead (b : iobase) : list Z := match b with KBuf _ y => y | UBuf _ => [] end.
Definition pending (iovs : list iovec) : list Z := concat (map (fun i => ahead (iov_base i)) iovs).

(** A kernel uio: every region is as long as its iovec says, the later ones are untouched. *)
Definition iov_ok (i : iovec) : Prop :=
  match iov_base i with KBuf _ y => iov_len i = Z.of_nat (length y) /\ iov_len i < 2 ^ 32 | UBuf _ => False end.
Definition fresh_iov (i : iovec) : Prop := match iov_base i with KBuf x _ => x = [] | UBuf _ => False end.
Record kuio_ok (u : uio) : Prop := mk_kuio {
  ku_seg : uio_segflg u = UIO_SYSSPACE;
  ku_iovs : Forall iov_ok (uio_iov u);
  ku_fresh : Forall fresh_iov (tail (uio_iov u));
  ku_resid : 0 <= uio_resid u <= Z.of_nat (length (pending (uio_iov u))) /\ uio_resid u < 2 ^ 32
}.

(** Where the next byte goes in [flat]. *)
Definition cursor (u : uio) : nat := (length (flat u) - length (pending (uio_iov u)))%nat.

Lemma flat_split past iov iovs x y l :
  iov = mk_iov (KBuf x y) l -> Forall fresh_iov iovs ->
  concat (map (fun i => contents (iov_base i)) (past ++ iov :: iovs)) =
  (concat (map (fun i => contents (iov_base i)) past) ++ x) ++ pending (iov :: iovs).
Proof using Type.
  intros -> Hf. rewrite map_app, concat_app, <- !app_assoc. f_equal. simpl. rewrite <- app_assoc. f_equal. f_equal.
  unfold pending. simpl. f_equal. induction Hf as [|i iovs Hi _ IH]; [done|]. simpl. rewrite IH. f_equal.
  unfold fresh_iov in Hi. by destruct (iov_base i); subst.
Qed.

(** What [uiomove_loop] has done: [k] bytes went between the kernel buffer and the region
    at the cursor. *)
Record moved (k : nat) (done rest : list Z) (u : uio) (buf' : list Z) (u' : uio) : Prop := mk_moved {
  mv_ok : kuio_ok u';
  mv_same : uio_dir u' = uio_dir u /\ uio_space u' = uio_space u;
  mv_offset : uio_offset u' = uio_offset u + Z.of_nat k;
  mv_resid : uio_resid u' = uio_resid u - Z.of_nat k;
  mv_pending : pending (uio_iov u') = drop k (pending (uio_iov u));
  mv_data : if is_read u then buf' = done ++ rest /\
              flat u' = take (cursor u) (flat u) ++ take k rest ++ drop (cursor u + k) (flat u)
            else flat u' = flat u /\ buf' = done ++ take k (pending (uio_iov u)) ++ drop k rest
}.

Lemma moved_zero done rest u : kuio_ok u -> moved 0 done rest u (done ++ rest) u.
Proof using Type.
  intros Hok. split; try done; try lia. destruct (is_read u); [|done]. split; [done|].
  rewrite Nat.add_0_r, take_0. simpl. by rewrite take_drop.
Qed.

Lemma is_read_dir u u' : uio_dir u' = uio_dir u -> is_read u' = is_read u.
Proof using Type. unfold is_read. by intros ->. Qed.

(** A step past an empty iovec changes nothing. *)
Lemma moved_skip k done rest u i iovs buf' u' :
  uio_iov u = i :: iovs -> ahead (iov_base i) = [] ->
  moved k done rest (set_iov (uio_past u ++ [i]) iovs u) buf' u' -> moved k done rest u buf' u'.
Proof using Type.
  intros Hi Ha [M1 M2 M3 M4 M5 M6].
  assert (Hp : pending (uio_iov u) = pending iovs) by (rewrite Hi; unfold pending; simpl; by rewrite Ha).
  assert (Hf : flat (set_iov (uio_past u ++ [i]) iovs u) = flat u)
    by (unfold flat, set_iov; simpl; by rewrite Hi, <- app_assoc).
  assert (Hc : cursor (set_iov (uio_past u ++ [i]) iovs u) = cursor u) by (unfold cursor; rewrite Hf; simpl; by rewrite Hp).
  rewrite Hf, Hc in M6. split; try done; [by rewrite Hp|]. change (is_read (set_iov _ _ u)) with (is_read u) in M6.
  by rewrite Hp.
Qed.

(** One step of [k] bytes, then the rest. *)
Lemma moved_step k m done rest u x y l iovs buf' u' :
  kuio_ok u -> uio_iov u = mk_iov (KBuf x y) l :: iovs -> (k <= length y)%nat -> (k <= length rest)%nat ->
  Z.of_nat k <= uio_resid u ->
  let bytes := if is_read u then take k rest else take k y in
  moved m (done ++ bytes) (drop k rest) (advance (KBuf (x ++ bytes) (drop k y)) (Z.of_nat k) u) buf' u' ->
  moved (k + m) done rest u buf' u'.
Proof using Type.
  intros Hok Hi Hk Hkr Hres bytes [M1 M2 M3 M4 M5 M6]. set (u1 := advance _ _ u) in *.
  pose proof Hok as [K1 K2 K3 K4]. rewrite Hi in K2, K3. simpl in K3. apply Forall_cons in K2 as [[Hl Hl32] K2]. simpl in Hl, Hl32.
  assert (Hu1 : u1 = mk_uio (uio_past u) (mk_iov (KBuf (x ++ bytes) (drop k y)) (u32 (l - Z.of_nat k)) :: iovs)
      (uio_offset u + Z.of_nat k) (uio_resid u - Z.of_nat k) (uio_segflg u) (uio_dir u) (uio_space u)).
  { unfold u1, advance. rewrite Hi. simpl. rewrite (u32_small (uio_resid u - _)) by lia. done. }
  set (A := concat (map (fun i => contents (iov_base i)) (uio_past u)) ++ x).
  set (Pn := pending iovs).
  assert (Hp : pending (uio_iov u) = y ++ Pn) by (rewrite Hi; done).
  assert (Hp1 : pending (uio_iov u1) = drop k (pending (uio_iov u))).
  { rewrite Hp, Hu1. unfold pending at 1. simpl. fold (pending iovs). by rewrite drop_app_le by done. }
  assert (Hf : flat u = A ++ y ++ Pn).
  { unfold flat. rewrite Hi. by rewrite (flat_split _ _ _ x y l eq_refl K3). }
  assert (Hf1 : flat u1 = A ++ bytes ++ drop k y ++ Pn).
  { rewrite Hu1. unfold flat. simpl. rewrite (flat_split _ _ _ (x ++ bytes) (drop k y) _ eq_refl K3).
    unfold A. rewrite <- !app_assoc. done. }
  assert (Hlb : length bytes = k) by (unfold bytes; destruct (is_read u); rewrite length_take; lia).
  assert (Hc : cursor u = length A) by (unfold cursor; rewrite Hf, Hp, !length_app; lia).
  assert (Hc1 : cursor u1 = (length A + k)%nat).
  { unfold cursor. rewrite Hf1, Hp1, Hp. repeat rewrite ?length_app, ?length_drop. lia. }
  assert (Hr1 : is_read u1 = is_read u) by (rewrite Hu1; done).
  split.
  - done.
  - rewrite Hu1 in M2. done.
  - rewrite M3, Hu1. simpl. lia.
  - rewrite M4, Hu1. simpl. lia.
  - by rewrite M5, Hp1, drop_drop.
  - rewrite Hr1 in M6. unfold bytes in *. destruct (is_read u).
    + destruct M6 as [-> E]. split; [by rewrite <- app_assoc, take_drop|].
      rewrite E, Hc, Hc1, Hf, Hf1, take_app_length.
      replace (A ++ take k rest ++ drop k y ++ Pn) with ((A ++ take k rest) ++ drop k y ++ Pn) by by rewrite <- app_assoc.
      replace (length A + k)%nat with (length (A ++ take k rest)) at 1 by (rewrite length_app, Hlb; done).
      rewrite take_app_length, <- !app_assoc. f_equal. rewrite (app_assoc (take k rest)).
      rewrite (take_take_drop rest k m). f_equal.
      replace (length A + k + m)%nat with (length (A ++ take k rest) + m)%nat by (rewrite length_app, Hlb; lia).
      rewrite (drop_app_add A), (app_assoc A), drop_app_add, <- (drop_drop (y ++ Pn)). by rewrite (drop_app_le y Pn k) by done.
    + destruct M6 as [E ->]. split; [by rewrite E, Hf1, Hf, (app_assoc (take k y)), take_drop|].
      rewrite Hp1, Hp, drop_drop, <- app_assoc. f_equal. rewrite app_assoc. f_equal.
      rewrite <- (take_take_drop (y ++ Pn) k m). f_equal. by rewrite take_app_le.
Qed.

Lemma kuio_advance u x y l iovs k bytes :
  kuio_ok u -> uio_iov u = mk_iov (KBuf x y) l :: iovs -> (k <= length y)%nat -> Z.of_nat k <= uio_resid u ->
  kuio_ok (advance (KBuf (x ++ bytes) (drop k y)) (Z.of_nat k) u).
Proof using Type.
  intros [K1 K2 K3 K4] Hi Hk Hr. unfold advance. rewrite Hi in *. apply Forall_cons in K2 as [[Hl Hl32] K2]. simpl in *.
  split; simpl; try done.
  - apply Forall_cons. split; [|done]. unfold iov_ok. simpl. rewrite length_drop, u32_small by lia. lia.
  - unfold pending in *. simpl in *. rewrite length_app in *. rewrite length_drop. rewrite u32_small by lia. lia.
Qed.

Lemma kuio_skip u i iovs : kuio_ok u -> uio_iov u = i :: iovs -> ahead (iov_base i) = [] ->
  kuio_ok (set_iov (uio_past u ++ [i]) iovs u).
Proof using Type.
  intros [K1 K2 K3 K4] Hi Ha. rewrite Hi in *. apply Forall_cons in K2 as [_ K2]. simpl in K3.
  split; simpl; try done; [by destruct iovs; [|inversion K3]|]. unfold pending in *. simpl in K4. by rewrite Ha in K4.
Qed.

Lemma uiomove_loop_spec fuel : forall done rest n u (s : U),
  kuio_ok u -> 0 <= n <= uio_resid u -> n <= Z.of_nat (length rest) -> n + Z.of_nat (length (uio_iov u)) < Z.of_nat fuel ->
  exists buf' u', uiomove_loop fuel done rest n u s = Ret (0, buf', u') s /\ moved (Z.to_nat n) done rest u buf' u'.
Proof using Type.
  induction fuel as [|fuel IH]; intros done rest n u s Hok Hn Hrest Hfuel; [lia|]. simpl.
  destruct (Z.ltb_spec 0 n) as [Hpos|]; simpl.
  2:{ assert (n = 0) as -> by lia. exists (done ++ rest), u. split; [done|by apply moved_zero]. }
  rewrite (proj2 (Z.ltb_lt 0 (uio_resid u))) by lia. pose proof Hok as [K1 K2 K3 K4].
  destruct (uio_iov u) as [|[b l] iovs] eqn:Hi; [unfold pending in K4; simpl in K4; lia|]. simpl iov_len.
  apply Forall_cons in K2 as [Hb K2]. unfold iov_ok in Hb. simpl in Hb. destruct b as [x y|]; [|done]. destruct Hb as [Hl Hl32].
  cbn [iov_len iov_base]. destruct (Z.eqb_spec (if n <? l then n else l) 0) as [H0|H0].
  - assert (l = 0) by (destruct (n <? l); lia). assert (y = []) as -> by (apply length_zero_iff_nil; lia).
    destruct iovs as [|j iovs]; [unfold pending in K4; simpl in K4; lia|].
    destruct (IH done rest n (set_iov (uio_past u ++ [mk_iov (KBuf x []) l]) (j :: iovs) u) s) as (buf' & u' & Hrun & Hm);
      [by apply (kuio_skip u)|done|done|simpl; simpl in Hfuel; lia|].
    exists buf', u'. split; [done|]. by eapply moved_skip.
  - set (sz := if n <? l then n else l) in *. assert (Hsz : 0 < sz <= n /\ sz <= l) by (unfold sz in *; destruct (Z.ltb_spec n l); lia).
    unfold move_bytes. rewrite K1. simpl iov_base.
    set (bytes := if is_read u then take (Z.to_nat sz) rest else take (Z.to_nat sz) y).
    destruct (IH (done ++ bytes) (drop (Z.to_nat sz) rest) (n - sz) (advance (KBuf (x ++ bytes) (drop (Z.to_nat sz) y)) sz u) s)
      as (buf' & u' & Hrun & Hm).
    + replace sz with (Z.of_nat (Z.to_nat sz)) at 2 by lia. apply (kuio_advance u x y l iovs); [done|done|lia|lia].
    + unfold advance. rewrite Hi. simpl. rewrite u32_small by lia. lia.
    + rewrite length_drop. lia.
    + unfold advance. rewrite Hi. simpl. simpl in Hfuel. lia.
    + exists buf', u'. split; [by rewrite (run_bind _ _ s (0, bytes, KBuf (x ++ bytes) (drop (Z.to_nat sz) y)) s)|].
      replace (Z.to_nat n) with (Z.to_nat sz + Z.to_nat (n - sz))%nat by lia.
      eapply (moved_step (Z.to_nat sz) _ done rest u x y l iovs); [done|done|lia|lia|lia|].
      rewrite Z2Nat.id by lia. exact Hm.
Qed.

(** C27: [uiomove] on a uio over any number of kernel buffers moves exactly the [n] bytes
    asked for (when the uio has that much left), in order and across the boundaries of the
    buffers, into the region at the uio's position ([UIO_READ], nothing else in the buffers
    changing) or out of it ([UIO_WRITE], the rest of the kernel buffer unchanged), advances
    offset and residue by [n] and succeeds; it terminates within its fuel. *)
Theorem uiomove_transfers buf n u (s : U) :
  kuio_ok u -> uio_space u = 0 -> 0 <= n <= uio_resid u -> n <= Z.of_nat (length buf) ->
  exists buf' u', uiomove buf n u s = Ret (0, buf', u') s /\ kuio_ok u' /\
    uio_offset u' = uio_offset u + n /\ uio_resid u' = uio_resid u - n /\
    (if is_read u
     then buf' = buf /\ flat u' = take (cursor u) (flat u) ++ take (Z.to_nat n) buf ++ drop (cursor u + Z.to_nat n) (flat u)
     else flat u' = flat u /\ buf' = take (Z.to_nat n) (pending (uio_iov u)) ++ drop (Z.to_nat n) buf).
Proof using Type.
  intros Hok Hsp Hn Hb.
  destruct (uiomove_loop_spec (Z.to_nat n + length (uio_iov u) + 1) [] buf n u s Hok Hn Hb ltac:(lia)) as (buf' & u' & Hrun & [M1 M2 M3 M4 M5 M6]).
  exists buf', u'. split.
  { unfold uiomove. rewrite (run_bind _ _ s s s) by done. rewrite decide_True by apply Hok. rewrite Hsp.
    by rewrite (run_bind _ _ s tt s). }
  split_and!; [done|lia|lia|]. destruct (is_read u); done.
Qed.

(** ** One kernel buffer *)

(** The uio of [uio_kinit] after [length b] bytes. *)
Definition kuio (b a : list Z) (off res : Z) (rw : uio_rw) : uio :=
  mk_uio [] [mk_iov (KBuf b a) (Z.of_nat (length a))] off res UIO_SYSSPACE rw 0.

Lemma uio_kinit_kuio kbuf pos rw : uio_kinit kbuf (Z.of_nat (length kbuf)) pos rw = kuio [] kbuf pos (Z.of_nat (length kbuf)) rw.
Proof using Type. done. Qed.

Lemma uiomove_one buf n b a off res rw (s : U) :
  0 <= n <= res -> res <= Z.of_nat (length a) -> res < 2 ^ 32 -> Z.of_nat (length a) < 2 ^ 32 -> n <= Z.of_nat (length buf) ->
  let bytes := if decide (rw = UIO_READ) then take (Z.to_nat n) buf else take (Z.to_nat n) a in
  uiomove buf n (kuio b a off res rw) s =
    Ret (0, if decide (rw = UIO_READ) then buf else bytes ++ drop (Z.to_nat n) buf,
         kuio (b ++ bytes) (drop (Z.to_nat n) a) (off + n) (res - n) rw) s.
Proof using Type.
  intros Hn Hres H32 H32' Hb bytes. unfold uiomove. rewrite (run_bind _ _ s s s) by done. simpl uio_segflg. simpl uio_space.
  rewrite (run_bind _ _ s tt s) by done. simpl length. replace (Z.to_nat n + 1 + 1)%nat with (S (S (Z.to_nat n))) by lia.
  cbn [uiomove_loop]. destruct (Z.ltb_spec 0 n) as [Hpos|].
  2:{ assert (n = 0) as -> by lia. simpl. unfold bytes. rewrite !drop_0, Z.add_0_r, Z.sub_0_r.
      destruct (decide (rw = UIO_READ)); by rewrite take_0, ?app_nil_r. }
  change (uio_resid (kuio b a off res rw)) with res. rewrite (proj2 (Z.ltb_lt 0 res)) by lia. cbn [andb uio_iov kuio iov_len iov_base].
  set (sz := if n <? Z.of_nat (length a) then n else Z.of_nat (length a)).
  assert (sz = n) as -> by (unfold sz; destruct (Z.ltb_spec n (Z.of_nat (length a))); lia).
  rewrite (proj2 (Z.eqb_neq n 0)) by lia. unfold move_bytes. cbn [uio_segflg].
  replace (is_read _) with (bool_decide (rw = UIO_READ)) by done.
  rewrite (run_bind _ _ s (0, bytes, KBuf (b ++ bytes) (drop (Z.to_nat n) a)) s)
    by (unfold bytes; rewrite bool_decide_decide; by destruct (decide (rw = UIO_READ))).
  cbn [Z.eqb negb]. rewrite Z.sub_diag. cbn [Z.ltb Z.compare andb]. unfold advance, kuio. simpl.
  rewrite !u32_small by lia. unfold mret, M_ret. f_equal. f_equal; [f_equal|].
  - unfold bytes. destruct (decide (rw = UIO_READ)); [apply take_drop|done].
  - rewrite length_drop. repeat f_equal. lia.
Qed.

Lemma zeros_loop_spec fuel : forall n b a off res (s : U),
  0 <= n <= res -> res <= Z.of_nat (length a) -> res < 2 ^ 32 -> Z.of_nat (length a) < 2 ^ 32 -> n < Z.of_nat fuel ->
  zeros_loop fuel n (kuio b a off res UIO_READ) s =
    Ret (0, kuio (b ++ replicate (Z.to_nat n) 0) (drop (Z.to_nat n) a) (off + n) (res - n) UIO_READ) s.
Proof using Type.
  induction fuel as [|fuel IH]; intros n b a off res s Hn Hres H32 H32' Hf; [lia|]. cbn [zeros_loop].
  destruct (Z.ltb_spec 0 n) as [Hpos|].
  2:{ assert (n = 0) as -> by lia. by rewrite Z.add_0_r, Z.sub_0_r, app_nil_r. }
  set (amt := if n <? 16 then n else 16). assert (Ha : 0 < amt <= n /\ amt <= 16) by (unfold amt; destruct (Z.ltb_spec n 16); lia).
  rewrite (run_bind _ _ s _ s (uiomove_one (replicate 16 0) amt b a off res UIO_READ s ltac:(lia) Hres H32 H32' ltac:(simpl; lia))).
  rewrite decide_True by done. cbn [Z.eqb negb].
  rewrite IH by (rewrite ?length_drop; lia). f_equal. f_equal. rewrite drop_drop. unfold kuio. f_equal; [|lia|lia].
  rewrite take_replicate, Nat.min_l, <- app_assoc, <- replicate_add by lia.
  replace (Z.to_nat amt + Z.to_nat (n - amt))%nat with (Z.to_nat n) by lia. done.
Qed.

Lemma uiomovezeros_one n b a off res (s : U) :
  0 <= n <= res -> res <= Z.of_nat (length a) -> res < 2 ^ 32 -> Z.of_nat (length a) < 2 ^ 32 ->
  uiomovezeros n (kuio b a off res UIO_READ) s =
    Ret (0, kuio (b ++ replicate (Z.to_nat n) 0) (drop (Z.to_nat n) a) (off + n) (res - n) UIO_READ) s.
Proof using Type.
  intros Hn Hr H1 H2. unfold uiomovezeros. rewrite (run_bind _ _ s tt s) by done. by apply zeros_loop_spec; try lia.
Qed.

End Ops.

(** ** Witness: a kernel without user space *)

#[export] Instance no_user : UserSpace unit := {
  copyin := fun _ _ => mret (EFAULT, []);
  copyout := fun _ _ => mret EFAULT;
  proc_getas := fun _ => 0
}.

Definition two_bufs : uio :=
  mk_uio [] [mk_iov (KBuf [7] [0; 0]) 2; mk_iov (KBuf [] [0; 0; 0]) 3] 100 5 UIO_SYSSPACE UIO_READ 0.

Lemma uiomove_transfers_witness :
  exists buf' u', uiomove [1; 2; 3; 4] 3 two_bufs tt = Ret (0, buf', u') tt /\ kuio_ok u' /\
    uio_offset u' = uio_offset two_bufs + 3 /\ uio_resid u' = uio_resid two_bufs - 3 /\
    (if is_read two_bufs
     then buf' = [1; 2; 3; 4] /\ flat u' = take (cursor two_bufs) (flat two_bufs) ++ take (Z.to_nat 3) [1; 2; 3; 4] ++ drop (cursor two_bufs + Z.to_nat 3) (flat two_bufs)
     else flat u' = flat two_bufs /\ buf' = take (Z.to_nat 3) (pending (uio_iov two_bufs)) ++ drop (Z.to_nat 3) [1; 2; 3; 4]).
Proof.
  apply (uiomove_transfers [1; 2; 3; 4] 3 two_bufs tt).
  - split; [done| | |]; simpl.
    + repeat constructor; simpl; lia.
    + repeat constructor.
    + lia.
  - reflexivity.
  - simpl; lia.
  - simpl; lia.
Defined.

End Uio.
