(* ===== verification/Lhd.v ===== *)
(** * The disk: kern/dev/lamebus/lhd.c

    The hard disk driver.  The card itself (its registers, its buffer and the medium) is
    the interface [LhdHw]: an operation started through the registers ends with an
    interrupt and a status.  The semaphores are their counts; a thread that would wait on
    [lh_clear] waits. *)

From S2P Require Import Prelude Uio.

Module Lhd.
Import Uio.

Definition EAGAIN : Z := 4.
Definition EIO : Z := 32.

Definition LHD_SECTSIZE : Z := 512.
Definition LHD_IDLE : Z := 0.
Definition LHD_WORKING : Z := 1.
Definition LHD_OK : Z := 4.
Definition LHD_INVSECT : Z := 12.
Definition LHD_MEDIA : Z := 20.
Definition LHD_ISWRITE : Z := 2.
Definition LHD_STATEMASK : Z := 0x1d.

(** [hw_op stat sect buf h]: the value written to the status register starts the operation
    on the sector; the status it ends with, the on-card buffer and the card afterwards.
    [hw_data] is what the medium holds and [hw_nsect] its size; a card in [hw_good] does not
    fail.  A sector of the medium is transferred or there is a media error. *)
Class LhdHw (H : Type) : Type := {
  hw_op : Z -> Z -> list Z -> H -> Z * list Z * H;
  hw_data : H -> Z -> list Z;
  hw_nsect : H -> Z;
  hw_good : H -> Prop;
  hw_len : forall h b, length (hw_data h b) = 512%nat;
  hw_status : forall st b buf h, 0 <= b < hw_nsect h -> let r := hw_op st b buf h in r.1.1 = LHD_OK \/ r.1.1 = LHD_MEDIA;
  hw_size : forall st b buf h, hw_nsect (hw_op st b buf h).2 = hw_nsect h;
  hw_read : forall b buf h, let r := hw_op LHD_WORKING b buf h in
    (forall c, hw_data r.2 c = hw_data h c) /\ (r.1.1 = LHD_OK -> r.1.2 = hw_data h b);
  hw_write : forall b buf h, length buf = 512%nat -> let r := hw_op (Z.lor LHD_WORKING LHD_ISWRITE) b buf h in
    (forall c, c <> b -> hw_data r.2 c = hw_data h c) /\ (r.1.1 = LHD_OK -> hw_data r.2 b = buf);
  hw_buf : forall st b buf h, length buf = 512%nat -> length (hw_op st b buf h).1.2 = 512%nat;
  hw_never : forall st b buf h, hw_good h -> 0 <= b < hw_nsect h -> let r := hw_op st b buf h in r.1.1 = LHD_OK /\ hw_good r.2
}.

(** struct lhd_softc, with the medium behind it. *)
Record lhd_softc (H : Type) := mk_lhd {
  lh_buf : list Z;
  lh_result : Z;
  lh_clear : Z;
  lh_done : Z;
  d_blocks : Z;
  lh_hw : H
}.
Arguments mk_lhd {H}. Arguments lh_buf {H}. Arguments lh_result {H}. Arguments lh_clear {H}.
Arguments lh_done {H}. Arguments d_blocks {H}. Arguments lh_hw {H}.

Definition lhd_code_to_errno (code : Z) : Z :=
  let c := Z.land code LHD_STATEMASK in
  if c =? LHD_OK then 0 else if c =? LHD_INVSECT then EINVAL else if c =? LHD_MEDIA then EIO else EAGAIN.

Section Ops.
Context {U H : Type} `{US : UserSpace U} `{HW : LhdHw H}.

(** The driver with the user space its uios refer to. *)
Record dstate := mk_d {
  ds_lhd : lhd_softc H;
  ds_user : U
}.

#[refine, export] Instance ds_user_lens : Lens dstate U := {
  lens_get := ds_user; lens_set := fun u s => mk_d (ds_lhd s) u
}.
Proof. all: by intros; destruct s. Defined.

#[refine, export] Instance ds_lhd_lens : Lens dstate (lhd_softc H) := {
  lens_get := ds_lhd; lens_set := fun l s => mk_d l (ds_user s)
}.
Proof. all: by intros; destruct s. Defined.

Definition lhd_iodone (err : Z) : M (lhd_softc H) unit :=
  modify (fun l => mk_lhd (lh_buf l) err (lh_clear l) (lh_done l + 1) (d_blocks l) (lh_hw l)).

(** The interrupt; [val] is the status register. *)
Definition lhd_irq (val : Z) : M (lhd_softc H) unit :=
  let c := Z.land val LHD_STATEMASK in
  if (c =? LHD_OK) || (c =? LHD_INVSECT) || (c =? LHD_MEDIA) then lhd_iodone (lhd_code_to_errno val) else mret tt.

Definition P_clear : M (lhd_softc H) unit :=
  l ← get;
  if 0 <? lh_clear l then put (mk_lhd (lh_buf l) (lh_result l) (lh_clear l - 1) (lh_done l) (d_blocks l) (lh_hw l)) else waiting.
Definition V_clear : M (lhd_softc H) unit :=
  modify (fun l => mk_lhd (lh_buf l) (lh_result l) (lh_clear l + 1) (lh_done l) (d_blocks l) (lh_hw l)).
Definition P_done : M (lhd_softc H) unit :=
  l ← get;
  if 0 <? lh_done l then put (mk_lhd (lh_buf l) (lh_result l) (lh_clear l) (lh_done l - 1) (d_blocks l) (lh_hw l)) else waiting.

(** The two register writes, the operation of the card and its interrupt. *)
Definition start_io (sect statval : Z) : M (lhd_softc H) unit :=
  l ← get;
  let '(st, buf, h) := hw_op statval sect (lh_buf l) (lh_hw l) in
  _ ← put (mk_lhd buf (lh_result l) (lh_clear l) (lh_done l) (d_blocks l) h);
  lhd_irq st.

(** When writing, the data goes to the on-card buffer first. *)
Definition load_card (u : uio) : M dstate (Z * uio) :=
  if negb (is_read u) then
    l ← zoom (get (S := lhd_softc H));
    r ← zoom (uiomove (lh_buf l) LHD_SECTSIZE u);
    let '(result, buf, u') := r in
    _ ← zoom (modify (fun l : lhd_softc H => mk_lhd buf (lh_result l) (lh_clear l) (lh_done l) (d_blocks l) (lh_hw l)));
    mret (result, u')
  else mret (0, u).

(** When reading, and if the operation succeeded, it comes out of the on-card buffer. *)
Definition unload_card (u : uio) : M dstate (Z * uio) :=
  l ← zoom (get (S := lhd_softc H));
  if (lh_result l =? 0) && is_read u then
    r ← zoom (uiomove (lh_buf l) LHD_SECTSIZE u);
    mret (r.1.1, r.2)
  else mret (lh_result l, u).

(** One sector: the error number and the uio. *)
Definition lhd_sector (sect statval : Z) (u : uio) : M dstate (Z * uio) :=
  _ ← zoom P_clear;
  r ← load_card u;
  let '(result, u) := r in
  if negb (result =? 0) then
    _ ← zoom V_clear; mret (result, u)
  else
    _ ← zoom (_ ← start_io sect statval; P_done);
    r ← unload_card u;
    _ ← zoom V_clear;
    mret r.

Fixpoint lhd_sectors (n : nat) (sect statval : Z) (u : uio) : M dstate (Z * uio) :=
  match n with
  | O => mret (0, u)
  | S n' =>
      r ← lhd_sector sect statval u;
      if negb (r.1 =? 0) then mret r else lhd_sectors n' (u32 (sect + 1)) statval r.2
  end.

Definition lhd_io (u : uio) : M dstate (Z * uio) :=
  let sector := u32 (uio_offset u / LHD_SECTSIZE) in
  let sectoff := uio_offset u mod LHD_SECTSIZE in
  let len := uio_resid u / LHD_SECTSIZE in
  let lenoff := uio_resid u mod LHD_SECTSIZE in
  if negb (sectoff =? 0) || negb (lenoff =? 0) then mret (EINVAL, u) else
  s ← get;
  if d_blocks (ds_lhd s) <? u32 (sector + len) then mret (EINVAL, u) else
  let statval := if is_read u then LHD_WORKING else Z.lor LHD_WORKING LHD_ISWRITE in
  lhd_sectors (Z.to_nat len) sector statval u.

(** ** What a transfer of one sector does *)

(** The driver is idle. *)
Record lhd_idle (l : lhd_softc H) : Prop := mk_idle {
  li_clear : lh_clear l = 1;
  li_done : lh_done l = 0;
  li_buf : length (lh_buf l) = 512%nat;
  li_size : 0 < d_blocks l < 2 ^ 23;
  li_nsect : d_blocks l <= hw_nsect (lh_hw l)
}.

Lemma irq_ok st (l : lhd_softc H) : st = LHD_OK \/ st = LHD_MEDIA ->
  lhd_irq st l = Ret tt (mk_lhd (lh_buf l) (if decide (st = LHD_OK) then 0 else EIO) (lh_clear l) (lh_done l + 1) (d_blocks l) (lh_hw l)).
Proof using Type. intros [->| ->]; done. Qed.

Definition statval_of (rw : uio_rw) : Z := if decide (rw = UIO_READ) then LHD_WORKING else Z.lor LHD_WORKING LHD_ISWRITE.

Lemma d_lhd {A} (m : M (lhd_softc H) A) a l l' (us : U) : m l = Ret a l' -> zoom m (mk_d l us) = Ret a (mk_d l' us).
Proof using Type. intros E. unfold zoom. simpl. by rewrite E. Qed.

Lemma d_user {A} (m : M U A) a l (us us' : U) : m us = Ret a us' -> zoom m (mk_d l us) = Ret a (mk_d l us').
Proof using Type. intros E. unfold zoom. simpl. by rewrite E. Qed.

(** The part of [lhd_sector] between the two transfers. *)
Lemma start_io_eq rw blk (l : lhd_softc H) :
  lh_done l = 0 -> length (lh_buf l) = 512%nat -> 0 <= blk < hw_nsect (lh_hw l) ->
  exists buf' h' (ok : bool), (_ ← start_io blk (statval_of rw); P_done) l =
      Ret tt (mk_lhd buf' (if ok then 0 else EIO) (lh_clear l) 0 (d_blocks l) h') /\
    length buf' = 512%nat /\ (exists st, hw_op (statval_of rw) blk (lh_buf l) (lh_hw l) = (st, buf', h') /\ st = if ok then LHD_OK else LHD_MEDIA) /\ hw_nsect h' = hw_nsect (lh_hw l) /\
    (hw_good (lh_hw l) -> ok = true /\ hw_good h') /\
    (forall c, (rw = UIO_READ \/ c <> blk) -> hw_data h' c = hw_data (lh_hw l) c) /\
    (ok = true -> if decide (rw = UIO_READ) then buf' = hw_data (lh_hw l) blk else hw_data h' blk = lh_buf l).
Proof using Type.
  intros Hdone Hbuf Hblk. destruct (hw_op (statval_of rw) blk (lh_buf l) (lh_hw l)) as [[st buf'] h'] eqn:E.
  pose proof (hw_status (statval_of rw) blk (lh_buf l) (lh_hw l) Hblk) as Hst. pose proof (hw_size (statval_of rw) blk (lh_buf l) (lh_hw l)) as Hsize.
  pose proof (hw_buf (statval_of rw) blk (lh_buf l) (lh_hw l) Hbuf) as Hlen.
  pose proof (hw_never (statval_of rw) blk (lh_buf l) (lh_hw l)) as Hgood. rewrite E in *. simpl in *.
  exists buf', h', (bool_decide (st = LHD_OK)). split; [|split; [done|split; [|split; [done|split; [|split]]]]].
  - rewrite (run_bind _ _ l tt
      (mk_lhd buf' (if decide (st = LHD_OK) then 0 else EIO) (lh_clear l) (lh_done l + 1) (d_blocks l) h')).
    + unfold P_done. msimpl. rewrite Hdone. simpl. rewrite bool_decide_decide. by destruct (decide (st = LHD_OK)).
    + unfold start_io. msimpl. rewrite E. rewrite irq_ok by done. done.
  - exists st. split; [done|]. case_bool_decide; [done|]. by destruct Hst.
  - intros Hg. destruct (Hgood Hg Hblk) as [-> ?]. split; [by apply bool_decide_eq_true_2|done].
  - intros c Hc. destruct rw; unfold statval_of in E; simpl in E.
    + pose proof (hw_read blk (lh_buf l) (lh_hw l)) as Hr. rewrite E in Hr. apply Hr.
    + pose proof (hw_write blk (lh_buf l) (lh_hw l) Hbuf) as Hr. rewrite E in Hr. apply Hr. by destruct Hc.
  - intros ->%bool_decide_eq_true. destruct rw; unfold statval_of in E; simpl in E; simpl.
    + pose proof (hw_read blk (lh_buf l) (lh_hw l)) as Hr. rewrite E in Hr. by apply Hr.
    + pose proof (hw_write blk (lh_buf l) (lh_hw l) Hbuf) as Hr. rewrite E in Hr. by apply Hr.
Qed.

Lemma lhd_io_sector u l (us : U) blk :
  lhd_idle l -> 0 <= blk < d_blocks l -> uio_offset u = blk * 512 -> uio_resid u = 512 ->
  lhd_io u (mk_d l us) = lhd_sector blk (statval_of (uio_dir u)) u (mk_d l us).
Proof using Type.
  intros Hidle Hb Ho Hr. pose proof (li_size l Hidle). unfold lhd_io. rewrite Ho, Hr. unfold LHD_SECTSIZE.
  rewrite Z.mod_mul, Z.div_mul by lia. change (512 mod 512) with 0. cbn [Z.eqb negb orb].
  rewrite (run_bind _ _ (mk_d l us) (mk_d l us) (mk_d l us)) by done. change (512 / 512) with 1.
  rewrite (u32_small blk), u32_small by lia. cbn [ds_lhd]. rewrite (proj2 (Z.ltb_ge _ _)) by lia.
  replace (if is_read u then _ else _) with (statval_of (uio_dir u))
    by (unfold statval_of, is_read; rewrite bool_decide_decide; by destruct (decide (uio_dir u = UIO_READ))).
  change (Z.to_nat 1) with 1%nat. cbn [lhd_sectors]. unfold mbind, M_bind.
  destruct (lhd_sector _ _ _ _) as [[r u'] s'| | | | |]; try done. simpl. by destruct (Z.eqb_spec r 0) as [->|].
Qed.

(** A kernel uio asking for one sector: on success the data went between the buffer and the
    medium; on a media error the medium is unchanged by a read, and a write has already
    taken the data out of the uio. *)
Lemma lhd_io_one rw b0 a blk l (us : U) :
  lhd_idle l -> 0 <= blk < d_blocks l -> 512 <= Z.of_nat (length a) < 2 ^ 32 ->
  exists l', lhd_idle l' /\ d_blocks l' = d_blocks l /\ (hw_good (lh_hw l) -> hw_good (lh_hw l')) /\
    (lh_result l' = 0 \/ lh_result l' = EIO) /\
    (exists st, hw_op (statval_of rw) blk (if decide (rw = UIO_READ) then lh_buf l else take 512 a) (lh_hw l) = (st, lh_buf l', lh_hw l') /\
       st = if decide (lh_result l' = 0) then LHD_OK else LHD_MEDIA) /\
    (forall c, (rw = UIO_READ \/ c <> blk) -> hw_data (lh_hw l') c = hw_data (lh_hw l) c) /\
    ((lhd_io (kuio b0 a (blk * 512) 512 rw) (mk_d l us) =
        Ret (0, kuio (b0 ++ if decide (rw = UIO_READ) then hw_data (lh_hw l) blk else take 512 a) (drop 512 a) ((blk + 1) * 512) 0 rw) (mk_d l' us) /\
      (rw = UIO_WRITE -> hw_data (lh_hw l') blk = take 512 a) /\ lh_result l' = 0) \/
     (~ hw_good (lh_hw l) /\ lh_result l' = EIO /\
      lhd_io (kuio b0 a (blk * 512) 512 rw) (mk_d l us) =
        Ret (EIO, if decide (rw = UIO_READ) then kuio b0 a (blk * 512) 512 rw else kuio (b0 ++ take 512 a) (drop 512 a) ((blk + 1) * 512) 0 rw) (mk_d l' us))).
Proof using Type.
  intros Hidle Hb Ha. pose proof Hidle as [I1 I2 I3 I4 I5].
  rewrite (lhd_io_sector _ l us blk) by done. cbn [kuio uio_dir].
  set (u := kuio b0 a (blk * 512) 512 rw).
  assert (Hread : is_read u = bool_decide (rw = UIO_READ)) by done.
  set (l1 := mk_lhd (lh_buf l) (lh_result l) 0 0 (d_blocks l) (lh_hw l)).
  set (l2 := if decide (rw = UIO_READ) then l1 else mk_lhd (take 512 a) (lh_result l) 0 0 (d_blocks l) (lh_hw l)).
  set (u2 := if decide (rw = UIO_READ) then u else kuio (b0 ++ take 512 a) (drop 512 a) ((blk + 1) * 512) 0 rw).
  assert (Hl2 : lh_done l2 = 0 /\ length (lh_buf l2) = 512%nat /\ lh_clear l2 = 0 /\ d_blocks l2 = d_blocks l /\ lh_hw l2 = lh_hw l)
    by (unfold l2; destruct (decide (rw = UIO_READ)); split_and!; try done; simpl; rewrite length_take; lia).
  destruct Hl2 as (D2 & B2 & C2 & N2 & H2).
  destruct (start_io_eq rw blk l2 D2 B2 ltac:(rewrite H2; lia)) as (buf' & h' & ok & Hio & Hlen & (st & Hh & Hst) & Hns & Hgood & Hother & Hdata). rewrite H2, N2, C2 in *.
  assert (Hfirst : load_card u (mk_d l1 us) = Ret (0, u2) (mk_d l2 us)).
  { unfold load_card. rewrite Hread. unfold l2, u2. rewrite bool_decide_decide. destruct (decide (rw = UIO_READ)) as [->|Hw]; [done|].
    assert (rw = UIO_WRITE) as -> by by destruct rw. cbn [negb].
    rewrite (run_bind _ _ _ l1 (mk_d l1 us)) by done.
    pose proof (uiomove_one (lh_buf l1) 512 b0 a (blk * 512) 512 UIO_WRITE us) as Hu. rewrite decide_False in Hu by done.
    rewrite (run_bind _ _ (mk_d l1 us) _ (mk_d l1 us) (d_user _ _ _ _ _ (Hu ltac:(lia) ltac:(lia) ltac:(lia) ltac:(lia) ltac:(unfold l1; simpl; lia)))).
    change (Z.to_nat 512) with 512%nat. rewrite (drop_ge (lh_buf l1)) by (unfold l1; simpl; lia).
    rewrite app_nil_r. replace (blk * 512 + 512) with ((blk + 1) * 512) by lia. done. }
  set (l3 := mk_lhd buf' (if ok then 0 else EIO) 0 0 (d_blocks l) h') in *.
  exists (mk_lhd buf' (if ok then 0 else EIO) 1 0 (d_blocks l) h').
  split; [split; try done; simpl; lia|]. split; [done|]. split; [intros Hg; by apply Hgood|].
  split; [simpl; destruct ok; [by left|by right]|].
  split. { exists st. cbn [lh_buf lh_hw lh_result]. split; [|rewrite Hst; by destruct ok]. rewrite <- Hh. unfold l2. by destruct (decide (rw = UIO_READ)). }
  split; [exact Hother|].
  assert (Hrun : forall r, unload_card u2 (mk_d l3 us) = Ret r (mk_d l3 us) ->
    lhd_sector blk (statval_of rw) u (mk_d l us) = Ret r (mk_d (mk_lhd buf' (if ok then 0 else EIO) 1 0 (d_blocks l) h') us)).
  { intros r Hun. unfold lhd_sector.
    rewrite (run_bind _ _ _ tt (mk_d l1 us)) by (apply d_lhd; unfold P_clear; msimpl; by rewrite I1, I2).
    rewrite (run_bind _ _ _ _ _ Hfirst). cbn [Z.eqb negb].
    rewrite (run_bind _ _ _ tt (mk_d l3 us)) by (by apply d_lhd). rewrite (run_bind _ _ _ _ _ Hun). done. }
  unfold unload_card in Hrun. destruct ok.
  - left. specialize (Hdata eq_refl). split; [|split; [intros ->; by rewrite decide_False in Hdata|done]].
    apply Hrun. rewrite (run_bind _ _ _ l3 (mk_d l3 us)) by done. unfold u2. simpl lh_result.
    destruct (decide (rw = UIO_READ)) as [->|Hw].
    + change (is_read u) with true. change ((lh_result l3 =? 0) && true) with true. cbv iota.
      rewrite (run_bind _ _ (mk_d l3 us) (0, buf', kuio (b0 ++ buf') (drop 512 a) ((blk + 1) * 512) 0 UIO_READ) (mk_d l3 us)); [by rewrite <- Hdata|].
      apply d_user. unfold u. unfold LHD_SECTSIZE. simpl lh_buf. rewrite uiomove_one by lia. rewrite decide_True by done.
      change (Z.to_nat 512) with 512%nat. rewrite take_ge by lia.
      by replace (blk * 512 + 512) with ((blk + 1) * 512) by lia.
    + assert (rw = UIO_WRITE) as -> by by destruct rw. done.
  - right. split; [intros Hg; by destruct (Hgood Hg)|]. split; [done|]. apply Hrun.
    rewrite (run_bind _ _ _ l3 (mk_d l3 us)) by done. done.
Qed.

End Ops.
End Lhd.
