(* ===== verification/SfsData.v ===== *)
(** * The on-disk format of SFS: kern/include/kern/sfs.h

    The kernel reads blocks straight into its C structures (the machine is big-endian), so
    the layout of the structures is the format.  [dinode_of_bytes] and the like are the
    structure seen in a block, [bytes_of_dinode] and the like the block seen in a
    structure. *)

From S2P Require Import Prelude.

Module SfsData.

Definition SFS_MAGIC : Z := 0xabadf001.
Definition SFS_BLOCKSIZE : Z := 512.
Definition SFS_VOLNAME_SIZE : Z := 32.
Definition SFS_NDIRECT : Z := 15.
Definition SFS_NINDIRECT : Z := 1.
Definition SFS_DBPERIDB : Z := 128.
Definition SFS_NAMELEN : Z := 60.
Definition SFS_SUPER_BLOCK : Z := 0.
Definition SFS_FREEMAP_START : Z := 2.
Definition SFS_NOINO : Z := 0.
Definition SFS_ROOTDIR_INO : Z := 1.
Definition SFS_BITSPERBLOCK : Z := SFS_BLOCKSIZE * 8.
Definition SFS_ROUNDUP (a b : Z) : Z := u32 ((u32 (a + b - 1) / b) * b).
Definition SFS_FREEMAPBITS (nblocks : Z) : Z := SFS_ROUNDUP nblocks SFS_BITSPERBLOCK.
Definition SFS_FREEMAPBLOCKS (nblocks : Z) : Z := SFS_FREEMAPBITS nblocks / SFS_BITSPERBLOCK.
Definition SFS_TYPE_INVAL : Z := 0.
Definition SFS_TYPE_FILE : Z := 1.
Definition SFS_TYPE_DIR : Z := 2.

(** ** Big-endian words *)

Definition be32 (w : Z) : list Z := [w / 2 ^ 24 mod 256; w / 2 ^ 16 mod 256; w / 2 ^ 8 mod 256; w mod 256].

Fixpoint words_of_bytes (l : list Z) : list Z :=
  match l with
  | a :: b :: c :: d :: r => (a * 2 ^ 24 + b * 2 ^ 16 + c * 2 ^ 8 + d) :: words_of_bytes r
  | _ => []
  end.

Definition bytes_of_words (ws : list Z) : list Z := concat (map be32 ws).

Definition is_word (w : Z) : Prop := 0 <= w < 2 ^ 32.
Definition is_byte (w : Z) : Prop := 0 <= w < 256.

Lemma be32_word w : is_word w -> words_of_bytes (be32 w) = [w].
Proof.
  intros Hw. unfold is_word in Hw. unfold be32. cbn [words_of_bytes]. f_equal. Z.to_euclidean_division_equations. lia.
Qed.

Lemma words_of_words ws : Forall is_word ws -> words_of_bytes (bytes_of_words ws) = ws.
Proof.
  induction 1 as [|w ws Hw _ IH]; [done|]. unfold bytes_of_words. simpl map. simpl concat.
  change (words_of_bytes (be32 w ++ bytes_of_words ws) = w :: ws). pose proof (be32_word w Hw) as E.
  unfold be32 in E |- *. cbn [app words_of_bytes] in E |- *. rewrite IH. injection E as ->. done.
Qed.

Lemma length_bytes_of_words ws : length (bytes_of_words ws) = (4 * length ws)%nat.
Proof. induction ws; [done|]. unfold bytes_of_words in *. simpl. rewrite IHws. lia. Qed.

Lemma bytes_of_words_app a b : bytes_of_words (a ++ b) = bytes_of_words a ++ bytes_of_words b.
Proof. unfold bytes_of_words. by rewrite map_app, concat_app. Qed.

Lemma bytes_of_bytes : forall n l, length l = (4 * n)%nat -> Forall is_byte l -> bytes_of_words (words_of_bytes l) = l.
Proof.
  induction n as [|n IH]; intros l Hl Hb; [by destruct l|].
  destruct l as [|a [|b [|c [|d l]]]]; simpl in Hl; try lia. cbn [words_of_bytes].
  change (bytes_of_words (?w :: ?r)) with (be32 w ++ bytes_of_words r).
  inversion Hb as [|? ? Ha Hb1]; subst. inversion Hb1 as [|? ? Hb' Hb2]; subst. inversion Hb2 as [|? ? Hc Hb3]; subst.
  inversion Hb3 as [|? ? Hd Hb4]; subst. unfold is_byte in *.
  change (bytes_of_words ((a * 2 ^ 24 + b * 2 ^ 16 + c * 2 ^ 8 + d) :: words_of_bytes l)) with
    (be32 (a * 2 ^ 24 + b * 2 ^ 16 + c * 2 ^ 8 + d) ++ bytes_of_words (words_of_bytes l)).
  rewrite IH by (try done; lia). unfold be32. cbn [app]. repeat f_equal; Z.to_euclidean_division_equations; lia.
Qed.

Lemma length_words_of_bytes n : forall l, length l = (4 * n)%nat -> length (words_of_bytes l) = n.
Proof.
  induction n as [|n IH]; intros l Hl; [by destruct l|].
  destruct l as [|a [|b [|c [|d l]]]]; simpl in Hl; try lia. simpl. rewrite IH; lia.
Qed.

Lemma words_are_words n : forall l, length l = (4 * n)%nat -> Forall is_byte l -> Forall is_word (words_of_bytes l).
Proof.
  induction n as [|n IH]; intros l Hl Hb; [by destruct l|].
  destruct l as [|a [|b [|c [|d l]]]]; simpl in Hl; try lia.
  inversion Hb as [|? ? Ha Hb1]; subst. inversion Hb1 as [|? ? Hb' Hb2]; subst. inversion Hb2 as [|? ? Hc Hb3]; subst.
  inversion Hb3 as [|? ? Hd Hb4]; subst. unfold is_byte in *. simpl. constructor; [unfold is_word; lia|apply IH; [lia|done]].
Qed.

Lemma bytes_are_bytes ws : Forall is_byte (bytes_of_words ws).
Proof.
  induction ws as [|w ws IH]; [constructor|]. change (bytes_of_words (w :: ws)) with (be32 w ++ bytes_of_words ws).
  apply Forall_app. split; [|done]. unfold be32. repeat (constructor; [apply Z.mod_pos_bound; lia|]). constructor.
Qed.

(** ** Structures *)

(** struct sfs_superblock *)
Record sfs_superblock := mk_sb {
  sb_magic : Z;
  sb_nblocks : Z;
  sb_volname : list Z;
  sb_reserved : list Z
}.

(** struct sfs_dinode *)
Record sfs_dinode := mk_di {
  sfi_size : Z;
  sfi_type : Z;
  sfi_linkcount : Z;
  sfi_direct : list Z;
  sfi_indirect : Z;
  sfi_waste : list Z
}.

(** struct sfs_direntry *)
Record sfs_direntry := mk_sd {
  sfd_ino : Z;
  sfd_name : list Z
}.

Definition superblock_of_bytes (l : list Z) : sfs_superblock :=
  let ws := words_of_bytes l in
  mk_sb (nth 0 ws 0) (nth 1 ws 0) (take 32 (drop 8 l)) (drop 10 ws).
Definition bytes_of_superblock (s : sfs_superblock) : list Z :=
  bytes_of_words [sb_magic s; sb_nblocks s] ++ sb_volname s ++ bytes_of_words (sb_reserved s).

Definition dinode_of_bytes (l : list Z) : sfs_dinode :=
  let ws := words_of_bytes l in
  mk_di (nth 0 ws 0) (nth 1 ws 0 / 2 ^ 16) (nth 1 ws 0 mod 2 ^ 16) (take 15 (drop 2 ws)) (nth 17 ws 0) (drop 18 ws).
Definition bytes_of_dinode (i : sfs_dinode) : list Z :=
  bytes_of_words ([sfi_size i; sfi_type i * 2 ^ 16 + sfi_linkcount i] ++ sfi_direct i ++ [sfi_indirect i] ++ sfi_waste i).

Definition direntry_of_bytes (l : list Z) : sfs_direntry :=
  mk_sd (nth 0 (words_of_bytes l) 0) (drop 4 l).
Definition bytes_of_direntry (d : sfs_direntry) : list Z := be32 (sfd_ino d) ++ sfd_name d.

(** The fields fit their types. *)
Record dinode_wf (i : sfs_dinode) : Prop := mk_diwf {
  di_size : is_word (sfi_size i);
  di_type : 0 <= sfi_type i < 2 ^ 16;
  di_links : 0 <= sfi_linkcount i < 2 ^ 16;
  di_direct : length (sfi_direct i) = 15%nat /\ Forall is_word (sfi_direct i);
  di_indirect : is_word (sfi_indirect i);
  di_waste : length (sfi_waste i) = 110%nat /\ Forall is_word (sfi_waste i)
}.

Record superblock_wf (s : sfs_superblock) : Prop := mk_sbwf {
  sw_magic : is_word (sb_magic s);
  sw_nblocks : is_word (sb_nblocks s);
  sw_volname : length (sb_volname s) = 32%nat /\ Forall is_byte (sb_volname s);
  sw_reserved : length (sb_reserved s) = 118%nat /\ Forall is_word (sb_reserved s)
}.

Lemma dinode_words i : dinode_wf i ->
  Forall is_word ([sfi_size i; sfi_type i * 2 ^ 16 + sfi_linkcount i] ++ sfi_direct i ++ [sfi_indirect i] ++ sfi_waste i).
Proof.
  intros [D1 D2 D3 [_ D4] D5 [_ D6]]. apply Forall_app. split; [|apply Forall_app; split; [done|constructor; done]].
  repeat constructor; unfold is_word in *; lia.
Qed.

Lemma length_bytes_of_dinode i : dinode_wf i -> length (bytes_of_dinode i) = 512%nat.
Proof.
  intros [_ _ _ [D4 _] _ [D6 _]]. unfold bytes_of_dinode. rewrite length_bytes_of_words, !length_app, D4. simpl. rewrite D6. done.
Qed.

Lemma dinode_roundtrip i : dinode_wf i -> dinode_of_bytes (bytes_of_dinode i) = i.
Proof.
  intros Hwf. pose proof (dinode_words i Hwf) as Hw. destruct Hwf as [D1 D2 D3 [D4 _] D5 [D6 _]].
  unfold dinode_of_bytes, bytes_of_dinode. rewrite words_of_words by done.
  destruct i as [sz ty lk dir ind wst]; simpl in *. do 15 (destruct dir as [|? dir]; [done|]). destruct dir; [|done]. simpl.
  f_equal; rewrite ?take_0; try done; Z.to_euclidean_division_equations; lia.
Qed.

(** The inode a block holds fits its types, and is that block. *)
Lemma dinode_of_bytes_wf l : length l = 512%nat -> Forall is_byte l ->
  dinode_wf (dinode_of_bytes l) /\ bytes_of_dinode (dinode_of_bytes l) = l.
Proof.
  intros Hl Hb. pose proof (words_are_words 128 l Hl Hb) as Hw. pose proof (length_words_of_bytes 128 l Hl) as Hlen.
  pose proof (bytes_of_bytes 128 l Hl Hb) as Hrt. unfold dinode_of_bytes, bytes_of_dinode. set (ws := words_of_bytes l) in *.
  assert (Hn : forall k, (k < 128)%nat -> is_word (nth k ws 0)).
  { intros k Hk. rewrite Forall_forall in Hw. apply Hw, list_elem_of_In, nth_In. lia. }
  pose proof (Hn 0%nat ltac:(lia)) as W0. pose proof (Hn 1%nat ltac:(lia)) as W1. pose proof (Hn 17%nat ltac:(lia)) as W17. unfold is_word in W1.
  split.
  - split; simpl; try done; try (Z.to_euclidean_division_equations; lia).
    + rewrite length_take, length_drop, Hlen. split; [done|]. by apply Forall_take, Forall_drop.
    + rewrite length_drop, Hlen. split; [done|]. by apply Forall_drop.
  - simpl sfi_size. simpl sfi_type. simpl sfi_linkcount. simpl sfi_direct. simpl sfi_indirect. simpl sfi_waste.
    rewrite <- Hrt. f_equal. replace (nth 1 ws 0 / 2 ^ 16 * 2 ^ 16 + nth 1 ws 0 mod 2 ^ 16) with (nth 1 ws 0) by (Z.to_euclidean_division_equations; lia).
    clear -Hlen. do 18 (destruct ws as [|? ws]; [done|]). done.
Qed.

Lemma superblock_roundtrip s : superblock_wf s -> superblock_of_bytes (bytes_of_superblock s) = s /\ length (bytes_of_superblock s) = 512%nat.
Proof.
  intros [S1 S2 [S3 S3'] [S4 S4']]. unfold superblock_of_bytes, bytes_of_superblock.
  assert (E : bytes_of_words [sb_magic s; sb_nblocks s] ++ sb_volname s ++ bytes_of_words (sb_reserved s) =
    bytes_of_words ([sb_magic s; sb_nblocks s] ++ words_of_bytes (sb_volname s) ++ sb_reserved s)).
  { rewrite !bytes_of_words_app. by rewrite (bytes_of_bytes 8). }
  split.
  - rewrite E at 1. rewrite E at 1. rewrite E at 2. rewrite words_of_words.
    2:{ apply Forall_app; split; [constructor; [done|constructor; [done|constructor]]|]. apply Forall_app; split; [by apply (words_are_words 8)|done]. }
    pose proof (length_words_of_bytes 8 _ S3) as L8. rewrite drop_app_length' by by rewrite length_bytes_of_words.
    rewrite take_app_length' by done. destruct s as [mg nb vn rs]; simpl in *. f_equal. by rewrite drop_app_length'.
  - rewrite !length_app, !length_bytes_of_words, S3, S4. done.
Qed.

Lemma direntry_roundtrip d : is_word (sfd_ino d) -> direntry_of_bytes (bytes_of_direntry d) = d.
Proof.
  intros Hw. unfold direntry_of_bytes, bytes_of_direntry. pose proof (be32_word _ Hw) as E.
  destruct d as [ino nm]; simpl in *. unfold be32 in *. cbn [words_of_bytes app nth drop] in *. injection E as ->. done.
Qed.

End SfsData.
