(* ===== verification/Sfs.v ===== *)
(** * The simple file system: kern/fs/sfs

    One volume on the disk of Lhd.v.  A vnode is an address in [f_vn]; the block buffers
    the code keeps in static arrays are filled before each use, and are values here.  The
    recursive [vfs_biglock] of vfslist.c is whether this thread holds it, and how deep. *)

From S2P Require Import Prelude Bitmap Uio Lhd SfsData.

Module Sfs.
Import Uio Lhd Bitmap SfsData.

Definition ENAMETOOLONG : Z := 7.
Definition ENOTDIR : Z := 17.
Definition EISDIR : Z := 18.
Definition ENOENT : Z := 19.
Definition EEXIST : Z := 22.
Definition ENXIO : Z := 26.
Definition EBUSY : Z := 27.
Definition EFBIG : Z := 38.
Definition S_IFREG : Z := 4096.
Definition S_IFDIR : Z := 8192.
Definition O_RDONLY : Z := 0.
Definition O_ACCMODE : Z := 3.
Definition O_APPEND : Z := 32.

(** struct sfs_vnode, with the count of its abstract vnode. *)
Record sfs_vnode := mk_sv {
  vn_refcount : Z;
  sv_i : sfs_dinode;
  sv_ino : Z;
  sv_dirty : bool
}.

(** struct sfs_fs.  [sfs_device]: not NULL; [sfs_freemap]: NULL while mounting. *)
Record sfs_fs := mk_fs {
  sfs_sb : sfs_superblock;
  sfs_superdirty : bool;
  sfs_device : bool;
  sfs_vnodes : list Z;
  sfs_freemap : option bitmap;
  sfs_freemapdirty : bool
}.

(** A C string is its bytes before the terminator. *)
Fixpoint cstr (l : list Z) : list Z :=
  match l with
  | [] => []
  | c :: l' => if c =? 0 then [] else c :: cstr l'
  end.

Section Ops.
Context {U H : Type} `{US : UserSpace U} `{HW : LhdHw H}.

Record fstate := mk_f {
  f_fs : option sfs_fs;
  f_vn : gmap Z sfs_vnode;
  f_d : dstate (U := U) (H := H);
  f_held : bool;                  (* lock_do_i_hold(vfs_biglock) *)
  f_depth : Z                     (* vfs_biglock_depth *)
}.

#[refine, export] Instance f_d_lens : Lens fstate dstate := {
  lens_get := f_d; lens_set := fun d s => mk_f (f_fs s) (f_vn s) d (f_held s) (f_depth s)
}.
Proof. all: by intros; destruct s. Defined.

(** ** The big lock *)

Definition vfs_biglock_acquire : M fstate unit :=
  s ← get;
  _ ← (if negb (f_held s) then put (mk_f (f_fs s) (f_vn s) (f_d s) true (f_depth s))
       else if f_depth s =? 0 then panic "KASSERT" else mret tt);
  modify (fun s => mk_f (f_fs s) (f_vn s) (f_d s) (f_held s) (f_depth s + 1)).

Definition vfs_biglock_release : M fstate unit :=
  s ← get;
  _ ← KASSERT (f_held s);
  _ ← KASSERT (0 <? f_depth s);
  put (mk_f (f_fs s) (f_vn s) (f_d s) (negb (f_depth s - 1 =? 0)) (f_depth s - 1)).

Definition vfs_biglock_do_i_hold : M fstate bool := gets f_held.

(** ** Accesses *)

Definition get_fs : M fstate sfs_fs := s ← get; deref (f_fs s).
Definition put_fs (x : sfs_fs) : M fstate unit :=
  modify (fun s => mk_f (Some x) (f_vn s) (f_d s) (f_held s) (f_depth s)).
Definition get_sv (v : Z) : M fstate sfs_vnode := s ← get; deref (f_vn s !! v).
Definition put_sv (v : Z) (x : sfs_vnode) : M fstate unit :=
  modify (fun s => mk_f (f_fs s) (<[v := x]> (f_vn s)) (f_d s) (f_held s) (f_depth s)).

(** An operation on the bitmap [sfs->sfs_freemap]. *)
Definition on_freemap {A} (m : M bitmap A) : M fstate A :=
  x ← get_fs;
  b ← deref (sfs_freemap x);
  match m b with
  | Ret a b' =>
      _ ← put_fs (mk_fs (sfs_sb x) (sfs_superdirty x) (sfs_device x) (sfs_vnodes x) (Some b') (sfs_freemapdirty x));
      mret a
  | Panic msg => panic msg
  | _ => undef
  end.

Definition set_freemapdirty (b : bool) : M fstate unit :=
  x ← get_fs;
  put_fs (mk_fs (sfs_sb x) (sfs_superdirty x) (sfs_device x) (sfs_vnodes x) (sfs_freemap x) b).

Definition set_dirty (v : Z) (b : bool) : M fstate unit :=
  x ← get_sv v; put_sv v (mk_sv (vn_refcount x) (sv_i x) (sv_ino x) b).
Definition upd_inode (v : Z) (f : sfs_dinode -> sfs_dinode) : M fstate unit :=
  x ← get_sv v; put_sv v (mk_sv (vn_refcount x) (f (sv_i x)) (sv_ino x) (sv_dirty x)).

Definition set_size (n : Z) (i : sfs_dinode) : sfs_dinode :=
  mk_di n (sfi_type i) (sfi_linkcount i) (sfi_direct i) (sfi_indirect i) (sfi_waste i).
Definition set_type (t : Z) (i : sfs_dinode) : sfs_dinode :=
  mk_di (sfi_size i) t (sfi_linkcount i) (sfi_direct i) (sfi_indirect i) (sfi_waste i).
Definition set_links (n : Z) (i : sfs_dinode) : sfs_dinode :=
  mk_di (sfi_size i) (sfi_type i) n (sfi_direct i) (sfi_indirect i) (sfi_waste i).
Definition set_direct (k b : Z) (i : sfs_dinode) : sfs_dinode :=
  mk_di (sfi_size i) (sfi_type i) (sfi_linkcount i) (<[Z.to_nat k := b]> (sfi_direct i)) (sfi_indirect i) (sfi_waste i).
Definition set_indirect (b : Z) (i : sfs_dinode) : sfs_dinode :=
  mk_di (sfi_size i) (sfi_type i) (sfi_linkcount i) (sfi_direct i) b (sfi_waste i).

(** ** sfs_io.c: blocks *)

(** The [retry] loop; [tries] counts the attempts that failed. *)
Fixpoint rw_retry (fuel : nat) (tries : Z) (u : uio) : M fstate (Z * uio) :=
  match fuel with
  | O => out_of_fuel
  | S fuel' =>
      r ← zoom (lhd_io u);
      let '(result, u') := r in
      if result =? EINVAL then panic "sfs: DEVOP_IO returned EINVAL"
      else if (result =? EIO) && (tries <? 10) then rw_retry fuel' (tries + 1) u'
      else mret (result, u')
  end.

Definition sfs_rwblock (u : uio) : M fstate (Z * uio) :=
  h ← vfs_biglock_do_i_hold;
  _ ← KASSERT h;
  x ← get_fs;
  if negb (sfs_device x) then undef else rw_retry 12 0 u.

(** The first buffer of a uio. *)
Definition uio_buf (u : uio) : list Z := match uio_iov u with i :: _ => contents (iov_base i) | [] => [] end.

(** The error number and the buffer [data] afterwards. *)
Definition sfs_readblock (block : Z) (data : list Z) : M fstate (Z * list Z) :=
  _ ← KASSERT (Z.of_nat (length data) =? SFS_BLOCKSIZE);
  r ← sfs_rwblock (uio_kinit data SFS_BLOCKSIZE (block * SFS_BLOCKSIZE) UIO_READ);
  mret (r.1, uio_buf r.2).

Definition sfs_writeblock (block : Z) (data : list Z) : M fstate Z :=
  _ ← KASSERT (Z.of_nat (length data) =? SFS_BLOCKSIZE);
  r ← sfs_rwblock (uio_kinit data SFS_BLOCKSIZE (block * SFS_BLOCKSIZE) UIO_WRITE);
  mret r.1.

Definition zeros : list Z := replicate 512 0.

(** ** sfs_balloc.c *)

Definition sfs_clearblock (block : Z) : M fstate Z := sfs_writeblock block zeros.

(** The error number and the block. *)
Definition sfs_balloc : M fstate (Z * Z) :=
  r ← on_freemap bitmap_alloc;
  let '(result, diskblock) := r in
  if negb (result =? 0) then mret (result, diskblock) else
  _ ← set_freemapdirty true;
  x ← get_fs;
  if sb_nblocks (sfs_sb x) <=? diskblock then panic "sfs: balloc: invalid block" else
  result ← sfs_clearblock diskblock;
  _ ← when (negb (result =? 0)) (on_freemap (bitmap_unmark diskblock));
  mret (result, diskblock).

Definition sfs_bfree (diskblock : Z) : M fstate unit :=
  _ ← on_freemap (bitmap_unmark diskblock);
  set_freemapdirty true.

Definition sfs_bused (diskblock : Z) : M fstate Z :=
  x ← get_fs;
  if sb_nblocks (sfs_sb x) <=? diskblock then panic "sfs: sfs_bused called on out of range block"
  else on_freemap (bitmap_isset diskblock).

(** ** sfs_bmap.c *)

(** The last test of both branches of [sfs_bmap]. *)
Definition check_used (block : Z) : M fstate unit :=
  if negb (block =? 0) then
    used ← sfs_bused block;
    if used =? 0 then panic "sfs: Data block marked free" else mret tt
  else mret tt.

(** The error number and the disk block (0: none). *)
Definition bmap_direct (v fileblock : Z) (doalloc : bool) : M fstate (Z * Z) :=
  x ← get_sv v;
  block ← deref (sfi_direct (sv_i x) !! Z.to_nat fileblock);
  r ← (if (block =? 0) && doalloc then
         r ← sfs_balloc;
         let '(result, block) := r in
         if negb (result =? 0) then mret (result, 0) else
         _ ← upd_inode v (set_direct fileblock block);
         _ ← set_dirty v true;
         mret (0, block)
       else mret (0, block));
  let '(result, block) := r in
  if negb (result =? 0) then mret (result, 0) else
  _ ← check_used block;
  mret (0, block).

(** The indirect block and its contents: allocated when asked for, or read.  [None]: there
    is none, and none is wanted. *)
Definition load_indirect (v : Z) (doalloc : bool) : M fstate (Z * option (Z * list Z)) :=
  x ← get_sv v;
  let idblock := sfi_indirect (sv_i x) in
  if (idblock =? 0) && negb doalloc then mret (0, None)
  else if idblock =? 0 then
    r ← sfs_balloc;
    let '(result, idblock) := r in
    if negb (result =? 0) then mret (result, None) else
    _ ← upd_inode v (set_indirect idblock);
    _ ← set_dirty v true;
    mret (0, Some (idblock, replicate 128 0))
  else
    r ← sfs_readblock idblock zeros;
    if negb (r.1 =? 0) then mret (r.1, None) else mret (0, Some (idblock, words_of_bytes r.2)).

Definition bmap_indirect (v fileblock : Z) (doalloc : bool) : M fstate (Z * Z) :=
  let idnum := fileblock / SFS_DBPERIDB in
  let idoff := fileblock mod SFS_DBPERIDB in
  if SFS_NINDIRECT <=? idnum then mret (EFBIG, 0) else
  r ← load_indirect v doalloc;
  let '(result, ind) := r in
  if negb (result =? 0) then mret (result, 0) else
  match ind with
  | None => mret (0, 0)
  | Some (idblock, idbuf) =>
      block ← deref (idbuf !! Z.to_nat idoff);
      r ← (if (block =? 0) && doalloc then
             r ← sfs_balloc;
             let '(result, block) := r in
             if negb (result =? 0) then mret (result, 0) else
             result ← sfs_writeblock idblock (bytes_of_words (<[Z.to_nat idoff := block]> idbuf));
             mret (result, block)
           else mret (0, block));
      let '(result, block) := r in
      if negb (result =? 0) then mret (result, 0) else
      _ ← check_used block;
      mret (0, block)
  end.

Definition sfs_bmap (v fileblock : Z) (doalloc : bool) : M fstate (Z * Z) :=
  h ← vfs_biglock_do_i_hold;
  _ ← KASSERT h;
  if fileblock <? SFS_NDIRECT then bmap_direct v fileblock doalloc
  else bmap_indirect v (fileblock - SFS_NDIRECT) doalloc.

(** The loop over the indirect block: the blocks past the end are freed.  The new contents,
    whether a block is left, and whether any was freed. *)
Fixpoint trunc_indirect (blocklen j : Z) (idbuf : list Z) : M fstate (list Z * bool * bool) :=
  match idbuf with
  | [] => mret ([], false, false)
  | b :: rest =>
      r ← (if (blocklen <? SFS_NDIRECT + j) && negb (b =? 0) then _ ← sfs_bfree b; mret (0, true) else mret (b, false));
      let '(b', freed) := r in
      r ← trunc_indirect blocklen (j + 1) rest;
      let '(rest', hasnonzero, iddirty) := r in
      mret (b' :: rest', negb (b' =? 0) || hasnonzero, freed || iddirty)
  end.

(** The direct blocks. *)
Definition trunc_direct (v blocklen : Z) : M fstate unit :=
  for_loop 15 0 (fun i =>
    x ← get_sv v;
    block ← deref (sfi_direct (sv_i x) !! Z.to_nat i);
    when ((blocklen <=? i) && negb (block =? 0))
      (_ ← sfs_bfree block;
       _ ← upd_inode v (set_direct i 0);
       set_dirty v true)).

Definition trunc_ind (v blocklen : Z) : M fstate Z :=
  x ← get_sv v;
  let idblock := sfi_indirect (sv_i x) in
  let highblock := SFS_NDIRECT + SFS_DBPERIDB - 1 in
  if (blocklen <? highblock) && negb (idblock =? 0) then
    r ← sfs_readblock idblock zeros;
    if negb (r.1 =? 0) then mret r.1 else
    t ← trunc_indirect blocklen 0 (words_of_bytes r.2);
    let '(idbuf, hasnonzero, iddirty) := t in
    if negb hasnonzero then
      _ ← sfs_bfree idblock;
      _ ← upd_inode v (set_indirect 0);
      _ ← set_dirty v true;
      mret 0
    else if (iddirty : bool) then sfs_writeblock idblock (bytes_of_words idbuf)
    else mret 0
  else mret 0.

Definition sfs_itrunc (v len : Z) : M fstate Z :=
  let blocklen := u32 (Z.quot (len + SFS_BLOCKSIZE - 1) SFS_BLOCKSIZE) in
  _ ← vfs_biglock_acquire;
  _ ← trunc_direct v blocklen;
  result ← trunc_ind v blocklen;
  if negb (result =? 0) then _ ← vfs_biglock_release; mret result else
  _ ← upd_inode v (set_size (u32 len));
  _ ← set_dirty v true;
  _ ← vfs_biglock_release;
  mret 0.

(** ** sfs_io.c: files *)

Definition sfs_partialio (v : Z) (u : uio) (skipstart len : Z) : M fstate (Z * uio) :=
  let doalloc := negb (is_read u) in
  _ ← KASSERT (skipstart + len <=? SFS_BLOCKSIZE);
  h ← vfs_biglock_do_i_hold;
  _ ← KASSERT h;
  let fileblock := u32 (uio_offset u / SFS_BLOCKSIZE) in
  r ← sfs_bmap v fileblock doalloc;
  let '(result, diskblock) := r in
  if negb (result =? 0) then mret (result, u) else
  r ← (if diskblock =? 0 then _ ← KASSERT (is_read u); mret (0, zeros) else sfs_readblock diskblock zeros);
  let '(result, iobuf) := r in
  if negb (result =? 0) then mret (result, u) else
  r ← zoom (zoom (uiomove (drop (Z.to_nat skipstart) iobuf) len u) : M dstate _);
  let '(result, tail, u') := r in
  if negb (result =? 0) then mret (result, u') else
  if negb (is_read u) then
    result ← sfs_writeblock diskblock (take (Z.to_nat skipstart) iobuf ++ tail);
    mret (result, u')
  else mret (0, u').

Definition set_pos (off res : Z) (u : uio) : uio :=
  mk_uio (uio_past u) (uio_iov u) off res (uio_segflg u) (uio_dir u) (uio_space u).

Definition sfs_blockio (v : Z) (u : uio) : M fstate (Z * uio) :=
  let doalloc := negb (is_read u) in
  let fileblock := u32 (uio_offset u / SFS_BLOCKSIZE) in
  r ← sfs_bmap v fileblock doalloc;
  let '(result, diskblock) := r in
  if negb (result =? 0) then mret (result, u) else
  if diskblock =? 0 then
    _ ← KASSERT (is_read u);
    zoom (zoom (uiomovezeros SFS_BLOCKSIZE u) : M dstate _)
  else
    let saveoff := uio_offset u in
    let diskoff := u32 (diskblock * SFS_BLOCKSIZE) in
    _ ← KASSERT (SFS_BLOCKSIZE <=? uio_resid u);
    let saveres := uio_resid u in
    r ← sfs_rwblock (set_pos diskoff SFS_BLOCKSIZE u);
    let '(result, u') := r in
    mret (result, set_pos (uio_offset u' - diskoff + saveoff) (u32 (uio_resid u' - SFS_BLOCKSIZE + saveres)) u').

Fixpoint block_loop (n : nat) (v : Z) (u : uio) : M fstate (Z * uio) :=
  match n with
  | O => mret (0, u)
  | S n' =>
      r ← sfs_blockio v u;
      if negb (r.1 =? 0) then mret r else block_loop n' v r.2
  end.

(** [sfs_io] between the test for the end of the file and the label [out]. *)
Definition io_body (v : Z) (u : uio) : M fstate (Z * uio) :=
  let blkoff := uio_offset u mod SFS_BLOCKSIZE in
  r ← (if negb (blkoff =? 0) then
         let len := if uio_resid u <? SFS_BLOCKSIZE - blkoff then uio_resid u else SFS_BLOCKSIZE - blkoff in
         sfs_partialio v u blkoff len
       else mret (0, u));
  let '(result, u) := r in
  if negb (result =? 0) then mret (result, u) else
  if uio_resid u =? 0 then mret (0, u) else
  _ ← KASSERT (uio_offset u mod SFS_BLOCKSIZE =? 0);
  r ← block_loop (Z.to_nat (uio_resid u / SFS_BLOCKSIZE)) v u;
  let '(result, u) := r in
  if negb (result =? 0) then mret (result, u) else
  _ ← KASSERT (uio_resid u <? SFS_BLOCKSIZE);
  if 0 <? uio_resid u then sfs_partialio v u 0 (uio_resid u) else mret (0, u).

(** The label [out]: the file has grown, and the residue cut at the end of the file. *)
Definition io_out (v origresid extraresid result : Z) (u : uio) : M fstate (Z * uio) :=
  x ← get_sv v;
  _ ← when (negb (uio_resid u =? origresid) && negb (is_read u) && (sfi_size (sv_i x) <? uio_offset u))
        (_ ← upd_inode v (set_size (u32 (uio_offset u))); set_dirty v true);
  mret (result, set_pos (uio_offset u) (u32 (uio_resid u + extraresid)) u).

Definition sfs_io (v : Z) (u : uio) : M fstate (Z * uio) :=
  let origresid := uio_resid u in
  x ← get_sv v;
  let size := sfi_size (sv_i x) in
  let endpos := uio_offset u + uio_resid u in
  if is_read u && (size <=? uio_offset u) then mret (0, u) else
  let extraresid := if is_read u && (size <? endpos) then u32 (endpos - size) else 0 in
  _ ← KASSERT (negb (is_read u && (size <? endpos)) || (extraresid <? uio_resid u));
  r ← io_body v (set_pos (uio_offset u) (uio_resid u - extraresid) u);
  io_out v origresid extraresid r.1 r.2.

(** Metadata: the error number and [data] afterwards. *)
Definition sfs_metaio (v actualpos : Z) (data : list Z) (rw : uio_rw) : M fstate (Z * list Z) :=
  let len := length data in
  h ← vfs_biglock_do_i_hold;
  _ ← KASSERT h;
  let vnblock := u32 (actualpos / SFS_BLOCKSIZE) in
  let blockoffset := Z.to_nat (actualpos mod SFS_BLOCKSIZE) in
  let doalloc := bool_decide (rw = UIO_WRITE) in
  r ← sfs_bmap v vnblock doalloc;
  let '(result, diskblock) := r in
  if negb (result =? 0) then mret (result, data) else
  if diskblock =? 0 then
    _ ← KASSERT (bool_decide (rw = UIO_READ));
    mret (0, replicate len 0)
  else
    r ← sfs_readblock diskblock zeros;
    let '(result, metaiobuf) := r in
    if negb (result =? 0) then mret (result, data) else
    if decide (rw = UIO_READ) then mret (0, take len (drop blockoffset metaiobuf))
    else
      result ← sfs_writeblock diskblock (take blockoffset metaiobuf ++ data ++ drop (blockoffset + len) metaiobuf);
      if negb (result =? 0) then mret (result, data) else
      let endpos := actualpos + Z.of_nat len in
      x ← get_sv v;
      _ ← when (sfi_size (sv_i x) <? endpos) (_ ← upd_inode v (set_size (u32 endpos)); set_dirty v true);
      mret (0, data).

End Ops.
#[global] Arguments fstate U H : clear implicits.
End Sfs.
