(* ===== verification/SfsOps.v ===== *)
(** * SFS: inodes, directories, volumes and vnode operations

    kern/fs/sfs: sfs_inode.c, sfs_dir.c, sfs_fsops.c and sfs_vnops.c, over the blocks and
    files of Sfs.v. *)

From S2P Require Import Prelude Bitmap Uio Lhd SfsData Sfs.

Module SfsOps.
Import Uio Lhd Bitmap SfsData Sfs.

Section Ops.
Context {U H : Type} `{US : UserSpace U} `{HW : LhdHw H}.
Local Abbreviation fstate := (fstate U H) (only parsing).

(** ** sfs_inode.c *)

Definition sfs_sync_inode (v : Z) : M fstate Z :=
  x ← get_sv v;
  if sv_dirty x then
    result ← sfs_writeblock (sv_ino x) (bytes_of_dinode (sv_i x));
    if negb (result =? 0) then mret result else
    _ ← set_dirty v false;
    mret 0
  else mret 0.

Definition set_refcount (v n : Z) : M fstate unit :=
  x ← get_sv v; put_sv v (mk_sv n (sv_i x) (sv_ino x) (sv_dirty x)).
Definition set_vnodes (l : list Z) : M fstate unit :=
  x ← get_fs;
  put_fs (mk_fs (sfs_sb x) (sfs_superdirty x) (sfs_device x) l (sfs_freemap x) (sfs_freemapdirty x)).

(** The search of [sfs_reclaim] and [vnodearray_remove]: the first [v] leaves the table. *)
Fixpoint remove_vnode (v : Z) (l : list Z) : option (list Z) :=
  match l with
  | [] => None
  | w :: l' => if w =? v then Some l' else (w ::.) <$> remove_vnode v l'
  end.

(** The vnode leaves the table (panics when it is not there) and memory. *)
Definition forget_vnode (v : Z) : M fstate unit :=
  x ← get_fs;
  match remove_vnode v (sfs_vnodes x) with
  | Some l =>
      _ ← set_vnodes l;
      y ← get_sv v;
      _ ← KASSERT (vn_refcount y =? 1);
      modify (fun s => mk_f (f_fs s) (delete v (f_vn s)) (f_d s) (f_held s) (f_depth s))
  | None => panic "sfs: reclaim vnode not in vnode pool"
  end.

Definition sfs_reclaim (v : Z) : M fstate Z :=
  _ ← vfs_biglock_acquire;
  x ← get_sv v;
  if negb (vn_refcount x =? 1) then
    _ ← KASSERT (1 <? vn_refcount x);
    _ ← set_refcount v (vn_refcount x - 1);
    _ ← vfs_biglock_release;
    mret EBUSY
  else
    result ← (if sfi_linkcount (sv_i x) =? 0 then sfs_itrunc v 0 else mret 0);
    if negb (result =? 0) then _ ← vfs_biglock_release; mret result else
    result ← sfs_sync_inode v;
    if negb (result =? 0) then _ ← vfs_biglock_release; mret result else
    x ← get_sv v;
    _ ← when (sfi_linkcount (sv_i x) =? 0) (sfs_bfree (sv_ino x));
    _ ← forget_vnode v;
    _ ← vfs_biglock_release;
    mret 0.

(** vnode_incref and vnode_decref of vnode.c on a vnode of SFS. *)
Definition VOP_INCREF (v : Z) : M fstate unit := x ← get_sv v; set_refcount v (vn_refcount x + 1).
Definition VOP_DECREF (v : Z) : M fstate unit :=
  x ← get_sv v;
  _ ← KASSERT (0 <? vn_refcount x);
  if 1 <? vn_refcount x then set_refcount v (vn_refcount x - 1)
  else _ ← sfs_reclaim v; mret tt.

(** The search of [sfs_loadvnode] in the table. *)
Fixpoint find_vnode (vs : list Z) (ino forcetype : Z) : M fstate (option Z) :=
  match vs with
  | [] => mret None
  | v :: vs' =>
      x ← get_sv v;
      used ← sfs_bused (sv_ino x);
      if used =? 0 then panic "sfs: Found inode in unallocated block"
      else if sv_ino x =? ino then
        _ ← KASSERT (forcetype =? SFS_TYPE_INVAL);
        _ ← VOP_INCREF v;
        mret (Some v)
      else find_vnode vs' ino forcetype
  end.

(** The error number and the vnode.  [mem]: where [kmalloc] puts it (None: NULL); [okarr]:
    the table could be extended. *)
Definition sfs_loadvnode (mem : option Z) (okarr : bool) (ino forcetype : Z) : M fstate (Z * Z) :=
  x ← get_fs;
  found ← find_vnode (sfs_vnodes x) ino forcetype;
  match found with
  | Some v => mret (0, v)
  | None =>
      match mem with
      | None => mret (ENOMEM, 0)
      | Some v =>
          used ← sfs_bused ino;
          if used =? 0 then panic "sfs: Tried to load inode from unallocated block" else
          r ← sfs_readblock ino zeros;
          let '(result, block) := r in
          if negb (result =? 0) then mret (result, 0) else
          let i := dinode_of_bytes block in
          _ ← KASSERT ((forcetype =? SFS_TYPE_INVAL) || (sfi_type i =? SFS_TYPE_INVAL));
          let forced := negb (forcetype =? SFS_TYPE_INVAL) in
          let i := if forced then set_type forcetype i else i in
          if negb ((sfi_type i =? SFS_TYPE_FILE) || (sfi_type i =? SFS_TYPE_DIR)) then
            panic "sfs: loadvnode: Invalid inode type"
          else if negb okarr then mret (ENOMEM, 0)
          else
            _ ← put_sv v (mk_sv 1 i ino forced);
            x ← get_fs;
            _ ← set_vnodes (sfs_vnodes x ++ [v]);
            mret (0, v)
      end
  end.

Definition sfs_makeobj (mem : option Z) (okarr : bool) (type : Z) : M fstate (Z * Z) :=
  r ← sfs_balloc;
  let '(result, ino) := r in
  if negb (result =? 0) then mret (result, 0) else
  r ← sfs_loadvnode mem okarr ino type;
  _ ← when (negb (r.1 =? 0)) (sfs_bfree ino);
  mret r.

Definition sfs_getroot (mem : option Z) (okarr : bool) : M fstate (Z * Z) :=
  _ ← vfs_biglock_acquire;
  r ← sfs_loadvnode mem okarr SFS_ROOTDIR_INO SFS_TYPE_INVAL;
  if negb (r.1 =? 0) then _ ← vfs_biglock_release; mret (r.1, 0) else
  x ← get_sv r.2;
  _ ← vfs_biglock_release;
  if negb (sfi_type (sv_i x) =? SFS_TYPE_DIR) then mret (EINVAL, 0) else mret (0, r.2).

(** ** sfs_dir.c *)

Definition DIRENTRY_SIZE : Z := 64.

Definition sfs_readdir (v slot : Z) : M fstate (Z * sfs_direntry) :=
  r ← sfs_metaio v (u32 (slot * DIRENTRY_SIZE)) (replicate 64 0) UIO_READ;
  mret (r.1, direntry_of_bytes r.2).

Definition sfs_writedir (v slot : Z) (sd : sfs_direntry) : M fstate Z :=
  _ ← KASSERT (0 <=? slot);
  r ← sfs_metaio v (u32 (slot * DIRENTRY_SIZE)) (bytes_of_direntry sd) UIO_WRITE;
  mret r.1.

Definition sfs_dir_nentries (v : Z) : M fstate Z :=
  x ← get_sv v;
  _ ← KASSERT (sfi_type (sv_i x) =? SFS_TYPE_DIR);
  let size := sfi_size (sv_i x) in
  if negb (size mod DIRENTRY_SIZE =? 0) then panic "sfs: directory: Invalid size"
  else mret (size / DIRENTRY_SIZE).

(** What the loop of [sfs_dir_findname] has found: the inode and slot of the name, and the
    last empty slot (-1: none). *)
Record found := mk_found {
  fd_hit : option (Z * Z);
  fd_empty : Z
}.

Fixpoint findname_loop (n : nat) (i v : Z) (name : list Z) (acc : found) : M fstate (Z * found) :=
  match n with
  | O => mret (0, acc)
  | S n' =>
      r ← sfs_readdir v i;
      let '(result, tsd) := r in
      if negb (result =? 0) then mret (result, acc)
      else if sfd_ino tsd =? SFS_NOINO then findname_loop n' (i + 1) v name (mk_found (fd_hit acc) i)
      else if decide (cstr (take 59 (sfd_name tsd)) = name) then
        _ ← KASSERT (match fd_hit acc with None => true | Some _ => false end);
        findname_loop n' (i + 1) v name (mk_found (Some (sfd_ino tsd, i)) (fd_empty acc))
      else findname_loop n' (i + 1) v name acc
  end.

(** The error number (ENOENT: no such name) and what was found. *)
Definition sfs_dir_findname (v : Z) (name : list Z) : M fstate (Z * found) :=
  nentries ← sfs_dir_nentries v;
  r ← findname_loop (Z.to_nat nentries) 0 v name (mk_found None (-1));
  if negb (r.1 =? 0) then mret r
  else mret (match fd_hit r.2 with Some _ => 0 | None => ENOENT end, r.2).

(** The error number and the slot. *)
Definition sfs_dir_link (v : Z) (name : list Z) (ino : Z) : M fstate (Z * Z) :=
  r ← sfs_dir_findname v name;
  let '(result, fd) := r in
  if negb (result =? 0) && negb (result =? ENOENT) then mret (result, 0)
  else if result =? 0 then mret (EEXIST, 0)
  else if SFS_NAMELEN <? Z.of_nat (length name) + 1 then mret (ENAMETOOLONG, 0)
  else
    emptyslot ← (if fd_empty fd <? 0 then sfs_dir_nentries v else mret (fd_empty fd));
    result ← sfs_writedir v emptyslot (mk_sd ino (name ++ replicate (60 - length name) 0));
    mret (result, emptyslot).

Definition sfs_dir_unlink (v slot : Z) : M fstate Z :=
  sfs_writedir v slot (mk_sd SFS_NOINO (replicate 60 0)).

(** The error number, the vnode and the slot. *)
Definition sfs_lookonce (mem : option Z) (okarr : bool) (v : Z) (name : list Z) : M fstate (Z * Z * Z) :=
  r ← sfs_dir_findname v name;
  if negb (r.1 =? 0) then mret (r.1, 0, 0) else
  hit ← deref (fd_hit r.2);
  let '(ino, slot) := hit in
  r ← sfs_loadvnode mem okarr ino SFS_TYPE_INVAL;
  if negb (r.1 =? 0) then mret (r.1, 0, 0) else
  x ← get_sv r.2;
  if sfi_linkcount (sv_i x) =? 0 then panic "sfs: name in dir has linkcount 0"
  else mret (0, r.2, slot).

(** ** sfs_fsops.c *)

(** The blocks of the bitmap, read into or written from its bytes. *)
Fixpoint freemapio_loop (n : nat) (j : Z) (rw : uio_rw) : M fstate Z :=
  match n with
  | O => mret 0
  | S n' =>
      x ← get_fs;
      b ← deref (sfs_freemap x);
      let pos := Z.to_nat (j * SFS_BLOCKSIZE) in
      let chunk := take 512 (drop pos (Bitmap.v b)) in
      result ←
        match rw with
        | UIO_READ =>
            r ← sfs_readblock (SFS_FREEMAP_START + j) chunk;
            x ← get_fs;
            _ ← put_fs (mk_fs (sfs_sb x) (sfs_superdirty x) (sfs_device x) (sfs_vnodes x)
                  (Some (mk_bitmap (nbits b) (take pos (Bitmap.v b) ++ r.2 ++ drop (pos + 512) (Bitmap.v b))))
                  (sfs_freemapdirty x));
            mret r.1
        | UIO_WRITE => sfs_writeblock (SFS_FREEMAP_START + j) chunk
        end;
      if negb (result =? 0) then mret result else freemapio_loop n' (j + 1) rw
  end.

Definition sfs_freemapio (rw : uio_rw) : M fstate Z :=
  x ← get_fs;
  freemapio_loop (Z.to_nat (SFS_FREEMAPBLOCKS (sb_nblocks (sfs_sb x)))) 0 rw.

Definition sfs_fsync (v : Z) : M fstate Z :=
  _ ← vfs_biglock_acquire;
  result ← sfs_sync_inode v;
  _ ← vfs_biglock_release;
  mret result.

(** VOP_FSYNC of each vnode; its result is not looked at. *)
Fixpoint sync_vnodes_loop (vs : list Z) : M fstate unit :=
  match vs with
  | [] => mret tt
  | v :: vs' => _ ← sfs_fsync v; sync_vnodes_loop vs'
  end.
Definition sfs_sync_vnodes : M fstate Z :=
  x ← get_fs;
  _ ← sync_vnodes_loop (sfs_vnodes x);
  mret 0.

Definition sfs_sync_freemap : M fstate Z :=
  x ← get_fs;
  if sfs_freemapdirty x then
    result ← sfs_freemapio UIO_WRITE;
    if negb (result =? 0) then mret result else
    _ ← set_freemapdirty false;
    mret 0
  else mret 0.

Definition sfs_sync_superblock : M fstate Z :=
  x ← get_fs;
  if sfs_superdirty x then
    result ← sfs_writeblock SFS_SUPER_BLOCK (bytes_of_superblock (sfs_sb x));
    if negb (result =? 0) then mret result else
    x ← get_fs;
    _ ← put_fs (mk_fs (sfs_sb x) false (sfs_device x) (sfs_vnodes x) (sfs_freemap x) (sfs_freemapdirty x));
    mret 0
  else mret 0.

Definition sfs_sync : M fstate Z :=
  _ ← vfs_biglock_acquire;
  result ← sfs_sync_vnodes;
  if negb (result =? 0) then _ ← vfs_biglock_release; mret result else
  result ← sfs_sync_freemap;
  if negb (result =? 0) then _ ← vfs_biglock_release; mret result else
  result ← sfs_sync_superblock;
  if negb (result =? 0) then _ ← vfs_biglock_release; mret result else
  _ ← vfs_biglock_release;
  mret 0.

Definition sfs_getvolname : M fstate (list Z) :=
  _ ← vfs_biglock_acquire;
  x ← get_fs;
  _ ← vfs_biglock_release;
  mret (cstr (sb_volname (sfs_sb x))).

(** [vnodearray_destroy] insists on an empty array. *)
Definition sfs_fs_destroy : M fstate unit :=
  x ← get_fs;
  _ ← KASSERT (match sfs_vnodes x with [] => true | _ => false end);
  _ ← KASSERT (negb (sfs_device x));
  modify (fun s => mk_f None (f_vn s) (f_d s) (f_held s) (f_depth s)).

Definition clear_device : M fstate unit :=
  x ← get_fs;
  put_fs (mk_fs (sfs_sb x) (sfs_superdirty x) false (sfs_vnodes x) (sfs_freemap x) (sfs_freemapdirty x)).

Definition sfs_unmount : M fstate Z :=
  _ ← vfs_biglock_acquire;
  x ← get_fs;
  match sfs_vnodes x with
  | _ :: _ => _ ← vfs_biglock_release; mret EBUSY
  | [] =>
      _ ← KASSERT (negb (sfs_superdirty x));
      _ ← KASSERT (negb (sfs_freemapdirty x));
      _ ← clear_device;
      _ ← sfs_fs_destroy;
      _ ← vfs_biglock_release;
      mret 0
  end.

(** The structure as [kmalloc] leaves it has arbitrary contents ([junk]). *)
Definition sfs_fs_create (junk : sfs_superblock) (ok okarr : bool) : option sfs_fs :=
  if negb ok || negb okarr then None else Some (mk_fs junk false false [] None false).

Definition mount_fail (result : Z) : M fstate Z :=
  _ ← clear_device;
  _ ← sfs_fs_destroy;
  _ ← vfs_biglock_release;
  mret result.

(** [junk], [ok] and [okarr] as for [sfs_fs_create]; [okbm]: the two allocations of
    [bitmap_create] succeed; [blocksize]: of the device. *)
Definition sfs_domount (blocksize : Z) (junk : sfs_superblock) (ok okarr okbm : bool) : M fstate Z :=
  _ ← vfs_biglock_acquire;
  if negb (blocksize =? SFS_BLOCKSIZE) then _ ← vfs_biglock_release; mret ENXIO else
  match sfs_fs_create junk ok okarr with
  | None => _ ← vfs_biglock_release; mret ENOMEM
  | Some x =>
      _ ← put_fs (mk_fs (sfs_sb x) (sfs_superdirty x) true (sfs_vnodes x) (sfs_freemap x) (sfs_freemapdirty x));
      r ← sfs_readblock SFS_SUPER_BLOCK zeros;
      let '(result, block) := r in
      if negb (result =? 0) then mount_fail result else
      let sb := superblock_of_bytes block in
      _ ← put_fs (mk_fs sb false true [] None false);
      if negb (sb_magic sb =? SFS_MAGIC) then mount_fail EINVAL else
      let sb := mk_sb (sb_magic sb) (sb_nblocks sb) (take 31 (sb_volname sb) ++ [0]) (sb_reserved sb) in
      _ ← put_fs (mk_fs sb false true [] None false);
      match bitmap_create okbm okbm (SFS_FREEMAPBITS (sb_nblocks sb)) tt with
      | Ret (Some b) _ =>
          _ ← put_fs (mk_fs sb false true [] (Some b) false);
          result ← sfs_freemapio UIO_READ;
          if negb (result =? 0) then mount_fail result else
          _ ← vfs_biglock_release;
          mret 0
      | Ret None _ => mount_fail ENOMEM
      | Panic msg => panic msg
      | _ => undef
      end
  end.

(** ** sfs_vnops.c *)

Definition sfs_eachopen (openflags : Z) : M fstate Z := mret 0.

Definition sfs_eachopendir (openflags : Z) : M fstate Z :=
  if negb (Z.land openflags O_ACCMODE =? O_RDONLY) then mret EISDIR
  else if negb (Z.land openflags O_APPEND =? 0) then mret EISDIR
  else mret 0.

Definition sfs_read (v : Z) (u : uio) : M fstate (Z * uio) :=
  _ ← KASSERT (is_read u);
  _ ← vfs_biglock_acquire;
  r ← sfs_io v u;
  _ ← vfs_biglock_release;
  mret r.

Definition sfs_write (v : Z) (u : uio) : M fstate (Z * uio) :=
  _ ← KASSERT (negb (is_read u));
  _ ← vfs_biglock_acquire;
  r ← sfs_io v u;
  _ ← vfs_biglock_release;
  mret r.

Definition sfs_gettype (v : Z) : M fstate Z :=
  _ ← vfs_biglock_acquire;
  x ← get_sv v;
  if sfi_type (sv_i x) =? SFS_TYPE_FILE then _ ← vfs_biglock_release; mret S_IFREG
  else if sfi_type (sv_i x) =? SFS_TYPE_DIR then _ ← vfs_biglock_release; mret S_IFDIR
  else panic "sfs: gettype: Invalid inode type".

(** st_mode, st_size and st_nlink; the other fields are zero. *)
Definition sfs_stat (v : Z) : M fstate (Z * Z * Z) :=
  mode ← sfs_gettype v;
  x ← get_sv v;
  mret (mode, sfi_size (sv_i x), sfi_linkcount (sv_i x)).

Definition sfs_truncate (v len : Z) : M fstate Z := sfs_itrunc v len.

Definition sfs_namefile (v : Z) : M fstate Z :=
  x ← get_sv v;
  _ ← KASSERT (sv_ino x =? SFS_ROOTDIR_INO);
  mret 0.

Definition incr_links (v : Z) : M fstate unit :=
  _ ← upd_inode v (fun i => set_links (u16 (sfi_linkcount i + 1)) i);
  set_dirty v true.

Definition sfs_creat (mem : option Z) (okarr : bool) (v : Z) (name : list Z) (excl : bool) : M fstate (Z * Z) :=
  _ ← vfs_biglock_acquire;
  r ← sfs_dir_findname v name;
  let '(result, fd) := r in
  if negb (result =? 0) && negb (result =? ENOENT) then _ ← vfs_biglock_release; mret (result, 0)
  else if (result =? 0) && excl then _ ← vfs_biglock_release; mret (EEXIST, 0)
  else if result =? 0 then
    hit ← deref (fd_hit fd);
    r ← sfs_loadvnode mem okarr hit.1 SFS_TYPE_INVAL;
    _ ← vfs_biglock_release;
    mret (if negb (r.1 =? 0) then (r.1, 0) else (0, r.2))
  else
    r ← sfs_makeobj mem okarr SFS_TYPE_FILE;
    let '(result, newguy) := r in
    if negb (result =? 0) then _ ← vfs_biglock_release; mret (result, 0) else
    x ← get_sv newguy;
    r ← sfs_dir_link v name (sv_ino x);
    if negb (r.1 =? 0) then
      _ ← VOP_DECREF newguy;
      _ ← vfs_biglock_release;
      mret (r.1, 0)
    else
      _ ← incr_links newguy;
      _ ← vfs_biglock_release;
      mret (0, newguy).

Definition sfs_link (dir : Z) (name : list Z) (file : Z) : M fstate Z :=
  _ ← vfs_biglock_acquire;
  f ← get_sv file;
  if sfi_type (sv_i f) =? SFS_TYPE_DIR then _ ← vfs_biglock_release; mret EINVAL else
  r ← sfs_dir_link dir name (sv_ino f);
  if negb (r.1 =? 0) then _ ← vfs_biglock_release; mret r.1 else
  _ ← incr_links file;
  _ ← vfs_biglock_release;
  mret 0.

Definition decr_links (v : Z) : M fstate unit :=
  x ← get_sv v;
  _ ← KASSERT (0 <? sfi_linkcount (sv_i x));
  _ ← upd_inode v (fun i => set_links (sfi_linkcount i - 1) i);
  set_dirty v true.

Definition sfs_remove (mem : option Z) (okarr : bool) (dir : Z) (name : list Z) : M fstate Z :=
  _ ← vfs_biglock_acquire;
  r ← sfs_lookonce mem okarr dir name;
  let '(result, victim, slot) := r in
  if negb (result =? 0) then _ ← vfs_biglock_release; mret result else
  result ← sfs_dir_unlink dir slot;
  _ ← when (result =? 0) (decr_links victim);
  _ ← VOP_DECREF victim;
  _ ← vfs_biglock_release;
  mret result.

(** The labels [puke_harder] and [puke]. *)
Definition rename_puke (g1 result : Z) : M fstate Z :=
  _ ← VOP_DECREF g1;
  _ ← vfs_biglock_release;
  mret result.

Definition sfs_rename (mem : option Z) (okarr : bool) (d1 : Z) (n1 : list Z) (d2 : Z) (n2 : list Z) : M fstate Z :=
  _ ← vfs_biglock_acquire;
  _ ← KASSERT (d1 =? d2);
  x ← get_sv d1;
  _ ← KASSERT (sv_ino x =? SFS_ROOTDIR_INO);
  r ← sfs_lookonce mem okarr d1 n1;
  let '(result, g1, slot1) := r in
  if negb (result =? 0) then _ ← vfs_biglock_release; mret result else
  g ← get_sv g1;
  _ ← KASSERT (sfi_type (sv_i g) =? SFS_TYPE_FILE);
  r ← sfs_dir_link d1 n2 (sv_ino g);
  let '(result, slot2) := r in
  if negb (result =? 0) then rename_puke g1 result else
  _ ← incr_links g1;
  result ← sfs_dir_unlink d1 slot1;
  if negb (result =? 0) then
    result2 ← sfs_dir_unlink d1 slot2;
    if negb (result2 =? 0) then panic "sfs: rename: Cannot recover" else
    _ ← upd_inode g1 (fun i => set_links (u16 (sfi_linkcount i - 1)) i);
    rename_puke g1 result
  else
    _ ← decr_links g1;
    _ ← VOP_DECREF g1;
    _ ← vfs_biglock_release;
    mret 0.

(** The error number and the copy of [path] in [buf]. *)
Definition sfs_lookparent (v : Z) (path : list Z) (buflen : Z) : M fstate (Z * list Z) :=
  _ ← vfs_biglock_acquire;
  x ← get_sv v;
  if negb (sfi_type (sv_i x) =? SFS_TYPE_DIR) then _ ← vfs_biglock_release; mret (ENOTDIR, [])
  else if buflen <? Z.of_nat (length path) + 1 then _ ← vfs_biglock_release; mret (ENAMETOOLONG, [])
  else
    _ ← VOP_INCREF v;
    _ ← vfs_biglock_release;
    mret (0, path).

Definition sfs_lookup (mem : option Z) (okarr : bool) (v : Z) (path : list Z) : M fstate (Z * Z) :=
  _ ← vfs_biglock_acquire;
  x ← get_sv v;
  if negb (sfi_type (sv_i x) =? SFS_TYPE_DIR) then _ ← vfs_biglock_release; mret (ENOTDIR, 0) else
  r ← sfs_lookonce mem okarr v path;
  let '(result, final, _) := r in
  _ ← vfs_biglock_release;
  mret (if negb (result =? 0) then (result, 0) else (0, final)).

End Ops.
End SfsOps.
