(* ===== verification/SfsBlocks.v ===== *)
(** * The blocks of a volume: sfs_io.c (blocks) and sfs_balloc.c

    What reading, writing and allocating a block do to the medium and to the map of blocks
    in use, on a disk that does not fail; and what the retry of a failed write does. *)

From S2P Require Import Prelude Bitmap Uio Lhd SfsData Sfs.

Module SfsBlocks.
Import Uio Lhd Bitmap SfsData Sfs.

Section Ops.
Context {U H : Type} `{US : UserSpace U} `{HW : LhdHw H}.
Local Abbreviation fstate := (fstate U H) (only parsing).
Implicit Types s : fstate.

(** ** What is seen of a volume *)

(** The contents of a block; whether it is marked in use; the number of blocks. *)
Definition dsk (s : fstate) (c : Z) : list Z := hw_data (lh_hw (ds_lhd (f_d s))) c.
Definition marked (s : fstate) (c : Z) : bool :=
  match f_fs s with
  | Some x => match sfs_freemap x with Some b => bit_set b c | None => false end
  | None => false
  end.
Definition nblk (s : fstate) : Z := match f_fs s with Some x => sb_nblocks (sfs_sb x) | None => 0 end.

(** The parts block operations never change. *)
Definition hdr (s : fstate) : option (sfs_superblock * bool * bool * list Z) :=
  x ← f_fs s; Some (sfs_sb x, sfs_superdirty x, sfs_device x, sfs_vnodes x).
Record kept (s s' : fstate) : Prop := mk_kept {
  kp_hdr : hdr s' = hdr s;
  kp_held : f_held s' = f_held s;
  kp_depth : f_depth s' = f_depth s;
  kp_user : ds_user (f_d s') = ds_user (f_d s)
}.

(** A mounted volume on a disk that does not fail, under the big lock: the map covers the
    volume, whose superblock is in use, and so is everything past the end of the volume. *)
Record vol_ok (s : fstate) (x : sfs_fs) (b : bitmap) : Prop := mk_vol {
  vo_fs : f_fs s = Some x;
  vo_dev : sfs_device x = true;
  vo_map : sfs_freemap x = Some b;
  vo_wf : bitmap_wf b;
  vo_bits : 0 < sb_nblocks (sfs_sb x) <= nbits b;
  vo_super : bit_set b 0 = true;
  vo_past : forall i, sb_nblocks (sfs_sb x) <= i < nbits b -> bit_set b i = true;
  vo_size : sb_nblocks (sfs_sb x) <= d_blocks (ds_lhd (f_d s));
  vo_idle : lhd_idle (ds_lhd (f_d s));
  vo_hw : hw_good (lh_hw (ds_lhd (f_d s)));
  vo_held : f_held s = true
}.
Definition good (s : fstate) : Prop := exists x b, vol_ok s x b.

#[export] Instance kept_preorder : PreOrder kept.
Proof using Type.
  split; [by split|]. intros s1 s2 s3 [A1 A2 A3 A4] [B1 B2 B3 B4]. split; congruence.
Qed.

Lemma nblk_hdr s s' : hdr s' = hdr s -> nblk s' = nblk s.
Proof using Type.
  unfold hdr, nblk. destruct (f_fs s), (f_fs s'); simpl; intros E; try done. by injection E as -> _ _ _.
Qed.

Lemma kept_nblk s s' : kept s s' -> nblk s' = nblk s.
Proof using Type. intros Hk. by apply nblk_hdr, kp_hdr. Qed.

Lemma dsk_len s c : length (dsk s c) = 512%nat.
Proof using Type. apply hw_len. Qed.

(** The state with another disk. *)
Definition with_disk (d : dstate) (s : fstate) : fstate := mk_f (f_fs s) (f_vn s) d (f_held s) (f_depth s).

Lemma f_zoom {A} (m : M dstate A) s a d : m (f_d s) = Ret a d -> zoom m s = Ret a (with_disk d s).
Proof using Type. intros E. unfold zoom. simpl. by rewrite E. Qed.

Lemma nblk_vol s x b : vol_ok s x b -> nblk s = sb_nblocks (sfs_sb x).
Proof using Type. intros V. unfold nblk. by rewrite (vo_fs _ _ _ V). Qed.

Lemma nblk_small s : good s -> 0 < nblk s < 2 ^ 23.
Proof using Type.
  intros (x & b & V). rewrite (nblk_vol _ _ _ V). destruct (vo_bits _ _ _ V), (li_size _ (vo_idle _ _ _ V)).
  pose proof (vo_size _ _ _ V). lia.
Qed.

(** ** Reading and writing blocks *)

(** One transfer of a block through [sfs_rwblock]. *)
Lemma rwblock_good rw b0 a blk s : good s -> 0 <= blk < nblk s -> 512 <= Z.of_nat (length a) < 2 ^ 32 ->
  exists d, sfs_rwblock (kuio b0 a (blk * 512) 512 rw) s =
      Ret (0, kuio (b0 ++ if decide (rw = UIO_READ) then dsk s blk else take 512 a) (drop 512 a) ((blk + 1) * 512) 0 rw) (with_disk d s) /\
    good (with_disk d s) /\ kept s (with_disk d s) /\
    (forall c, (rw = UIO_READ \/ c <> blk) -> dsk (with_disk d s) c = dsk s c) /\
    (rw = UIO_WRITE -> dsk (with_disk d s) blk = take 512 a).
Proof using Type.
  intros Hg Hb Ha. destruct Hg as (x & b & V). rewrite (nblk_vol _ _ _ V) in Hb.
  pose proof (vo_size _ _ _ V) as Hs. destruct (f_d s) as [l us] eqn:Ed. simpl in *.
  assert (Hidle : lhd_idle l) by (pose proof (vo_idle _ _ _ V) as Hi; by rewrite Ed in Hi).
  assert (Hhw : hw_good (lh_hw l)) by (pose proof (vo_hw _ _ _ V) as Hi; by rewrite Ed in Hi).
  destruct (lhd_io_one rw b0 a blk l us Hidle ltac:(lia) Ha) as (l' & Hidle' & Hn & Hg' & _ & _ & Hother & [(Hrun & Hw & _)|[Hbad _]]); [|done].
  exists (mk_d l' us). split_and!.
  - unfold sfs_rwblock. rewrite (run_bind _ _ s true s) by (unfold vfs_biglock_do_i_hold; msimpl; by rewrite (vo_held _ _ _ V)).
    rewrite (run_bind _ _ s tt s) by done. rewrite (run_bind _ _ s x s) by (unfold get_fs; msimpl; by rewrite (vo_fs _ _ _ V)).
    rewrite (vo_dev _ _ _ V). cbn [negb rw_retry]. rewrite (run_bind _ _ s _ _ (f_zoom _ s _ (mk_d l' us) ltac:(rewrite Ed; exact Hrun))).
    unfold dsk. rewrite Ed. done.
  - exists x, b. destruct V. split; try done. simpl. lia. by apply Hg'.
  - split; try done. by rewrite Ed.
  - intros c Hc. unfold dsk. simpl. rewrite Ed. by apply Hother.
  - intros Hrw. by apply Hw.
Qed.

Lemma readblock_good blk data s : good s -> 0 <= blk < nblk s -> length data = 512%nat ->
  exists d, sfs_readblock blk data s = Ret (0, dsk s blk) (with_disk d s) /\
    good (with_disk d s) /\ kept s (with_disk d s) /\ (forall c, dsk (with_disk d s) c = dsk s c).
Proof using Type.
  intros Hg Hb Hd. destruct (rwblock_good UIO_READ [] data blk s Hg Hb ltac:(lia)) as (d & Hrun & Hg' & Hk & Hc & _).
  exists d. split_and!; auto. unfold sfs_readblock. rewrite Hd. rewrite (run_bind _ _ s tt s) by done.
  pose proof (uio_kinit_kuio data (blk * SFS_BLOCKSIZE) UIO_READ) as E. rewrite Hd in E. unfold SFS_BLOCKSIZE in *.
  change (Z.of_nat 512) with 512 in E. rewrite E. rewrite (run_bind _ _ s _ _ Hrun). simpl.
  unfold uio_buf. simpl. rewrite drop_ge by lia. by rewrite app_nil_r.
Qed.

Lemma writeblock_good blk data s : good s -> 0 <= blk < nblk s -> length data = 512%nat ->
  exists d, sfs_writeblock blk data s = Ret 0 (with_disk d s) /\
    good (with_disk d s) /\ kept s (with_disk d s) /\ dsk (with_disk d s) blk = data /\
    (forall c, c <> blk -> dsk (with_disk d s) c = dsk s c).
Proof using Type.
  intros Hg Hb Hd. destruct (rwblock_good UIO_WRITE [] data blk s Hg Hb ltac:(lia)) as (d & Hrun & Hg' & Hk & Hc & Hw).
  exists d. split_and!; auto. 2:{ rewrite Hw by done. apply take_ge. lia. }
  unfold sfs_writeblock. rewrite Hd. rewrite (run_bind _ _ s tt s) by done.
  pose proof (uio_kinit_kuio data (blk * SFS_BLOCKSIZE) UIO_WRITE) as E. rewrite Hd in E. unfold SFS_BLOCKSIZE in *.
  change (Z.of_nat 512) with 512 in E. rewrite E. by rewrite (run_bind _ _ s _ _ Hrun).
Qed.

(** ** The map of blocks in use *)

(** The state with another map. *)
Definition with_map (b : bitmap) (dirty : bool) (x : sfs_fs) (s : fstate) : fstate :=
  mk_f (Some (mk_fs (sfs_sb x) (sfs_superdirty x) (sfs_device x) (sfs_vnodes x) (Some b) dirty)) (f_vn s) (f_d s) (f_held s) (f_depth s).

Definition map_dirty (s : fstate) : bool := match f_fs s with Some x => sfs_freemapdirty x | None => false end.

Lemma on_freemap_eq {A} (m : M bitmap A) a b b' x s : f_fs s = Some x -> sfs_freemap x = Some b -> m b = Ret a b' ->
  on_freemap m s = Ret a (with_map b' (sfs_freemapdirty x) x s).
Proof using Type. intros Hx Hb Hm. unfold on_freemap, get_fs. msimpl. rewrite Hx. simpl. rewrite Hb. simpl. by rewrite Hm. Qed.

Lemma with_map_ok b b' dirty x s : vol_ok s x b -> bitmap_wf b' -> nbits b' = nbits b ->
  (forall i, (i = 0 \/ sb_nblocks (sfs_sb x) <= i < nbits b) -> bit_set b' i = bit_set b i) ->
  vol_ok (with_map b' dirty x s) (mk_fs (sfs_sb x) (sfs_superdirty x) (sfs_device x) (sfs_vnodes x) (Some b') dirty) b' /\
  kept s (with_map b' dirty x s).
Proof using Type.
  intros V Hwf Hn Hsame. split.
  - destruct V. split; simpl; try done.
    + by rewrite Hn.
    + rewrite Hsame by by left. done.
    + intros i Hi. rewrite Hn in Hi. rewrite Hsame by by right. auto.
  - split; simpl; try done. unfold hdr. simpl. by rewrite (vo_fs _ _ _ V).
Qed.

Lemma with_map_same b x s : f_fs s = Some x -> sfs_freemap x = Some b -> with_map b (sfs_freemapdirty x) x s = s.
Proof using Type. intros Hx Hb. unfold with_map. destruct s; simpl in *. subst. destruct x; simpl in *. by subst. Qed.

Lemma marked_vol s x b c : vol_ok s x b -> marked s c = bit_set b c.
Proof using Type. intros V. unfold marked. by rewrite (vo_fs _ _ _ V), (vo_map _ _ _ V). Qed.

(** What [sfs_balloc] does: a block that was free is in use and zeroed, or there is none. *)
Definition balloc_post (s : fstate) (r : Z * Z) (s' : fstate) : Prop :=
  good s' /\ kept s s' /\ f_vn s' = f_vn s /\
  ((exists blk, r = (0, blk) /\ 0 < blk < nblk s /\ marked s blk = false /\ map_dirty s' = true /\
      (forall c, 0 <= c -> marked s' c = if decide (c = blk) then true else marked s c) /\
      dsk s' blk = zeros /\ (forall c, c <> blk -> dsk s' c = dsk s c)) \/
   (r = (ENOSPC, 0) /\ s' = s /\ forall c, 0 <= c < nblk s -> marked s c = true)).

Lemma balloc_good s : good s -> wp sfs_balloc s (balloc_post s).
Proof using Type.
  intros (x & b & V). pose proof (vo_fs _ _ _ V) as Hx. pose proof (vo_map _ _ _ V) as Hb.
  pose proof (vo_bits _ _ _ V) as Hn. pose proof (nblk_vol _ _ _ V) as Hnb.
  pose proof (proj1 (wp_run _ _ _) (bitmap_alloc_spec b (vo_wf _ _ _ V))) as
    (r & b' & Hrun & [(blk & -> & Hblk & Hclr & _ & Hwf & Hnb' & Hset)|(-> & -> & Hfull)]); unfold sfs_balloc.
  - apply wp_bind. eapply wp_eq; [by eapply on_freemap_eq|]. cbn [Z.eqb negb].
    assert (blk <> 0) by (intros ->; pose proof (vo_super _ _ _ V); congruence).
    assert (Hlt : blk < sb_nblocks (sfs_sb x)).
    { destruct (decide (blk < sb_nblocks (sfs_sb x))) as [|Hge]; [done|].
      pose proof (vo_past _ _ _ V blk ltac:(lia)). congruence. }
    destruct (with_map_ok b b' true x s V Hwf Hnb') as [V' K'].
    { intros i Hi. rewrite Hset by lia. rewrite decide_False; [done|]. lia. }
    apply wp_bind. eapply wp_eq; [reflexivity|]. apply wp_bind. eapply wp_eq; [reflexivity|]. cbn [sfs_sb].
    rewrite (proj2 (Z.leb_gt _ _) Hlt).
    match type of V' with vol_ok ?s1 _ _ => change (wp (result ← sfs_clearblock blk; _ ← when (negb (result =? 0)) (on_freemap (bitmap_unmark blk));
      mret (result, blk)) s1 (balloc_post s)); set (s1' := s1) in * end.
    destruct (writeblock_good blk zeros s1') as (d & Hw & Hg' & K2 & Hd & Ho); [by eexists _, _|rewrite (nblk_vol _ _ _ V'); simpl; lia|done|].
    apply wp_bind. eapply wp_eq; [exact Hw|]. cbn [Z.eqb negb when]. apply wp_ret. split_and!; [done|by etrans|done|].
    left. exists blk. split_and!; try done; try lia; [by rewrite (marked_vol _ _ _ _ V)|].
    intros c Hc. rewrite (marked_vol s x b) by done. rewrite <- Hset by done. done.
  - apply wp_bind. eapply wp_eq; [by eapply on_freemap_eq|]. rewrite with_map_same by done. cbn [Z.eqb negb]. apply wp_ret.
    split_and!; [by exists x, b|done|done|]. right. split_and!; try done. intros c Hc. rewrite (marked_vol _ _ _ _ V). apply Hfull. lia.
Qed.

Lemma bfree_good blk s : good s -> 0 < blk < nblk s -> marked s blk = true ->
  wp (sfs_bfree blk) s (fun _ s' => good s' /\ kept s s' /\ f_vn s' = f_vn s /\ f_d s' = f_d s /\ map_dirty s' = true /\
    forall c, 0 <= c -> marked s' c = if decide (c = blk) then false else marked s c).
Proof using Type.
  intros (x & b & V) Hblk Hm. pose proof (vo_fs _ _ _ V) as Hx. pose proof (vo_map _ _ _ V) as Hb.
  pose proof (vo_bits _ _ _ V) as Hn. rewrite (nblk_vol _ _ _ V) in Hblk. rewrite (marked_vol _ _ _ _ V) in Hm.
  pose proof (proj1 (wp_run _ _ _) (bitmap_unmark_spec b blk (vo_wf _ _ _ V) ltac:(lia) Hm)) as ([] & b' & Hrun & Hwf & Hnb' & Hset).
  destruct (with_map_ok b b' true x s V Hwf Hnb') as [V' K'].
  { intros i Hi. rewrite Hset by lia. rewrite decide_False; [done|]. lia. }
  unfold sfs_bfree. apply wp_bind. eapply wp_eq; [by eapply on_freemap_eq|]. eapply wp_eq; [reflexivity|].
  split_and!; try done; [by eexists _, _|]. intros c Hc. rewrite (marked_vol s x b) by done. rewrite <- Hset by done. done.
Qed.

Lemma bused_good blk s : good s -> 0 <= blk < nblk s ->
  exists r, sfs_bused blk s = Ret r s /\ (r =? 0) = negb (marked s blk).
Proof using Type.
  intros (x & b & V) Hblk. pose proof (vo_fs _ _ _ V) as Hx. pose proof (vo_map _ _ _ V) as Hb.
  pose proof (vo_bits _ _ _ V) as Hn. rewrite (nblk_vol _ _ _ V) in Hblk. rewrite (marked_vol _ _ _ _ V).
  destruct (bitmap_isset_spec b blk (vo_wf _ _ _ V) ltac:(lia)) as (r & Hrun & Hr). exists r. split; [|done].
  unfold sfs_bused. rewrite (run_bind _ _ s x s) by (unfold get_fs; msimpl; by rewrite Hx).
  rewrite (proj2 (Z.leb_gt _ _)) by lia. rewrite (on_freemap_eq _ _ _ _ _ _ Hx Hb Hrun). by rewrite with_map_same.
Qed.

(** ** A disk that fails *)

(** The volume and the driver are ready; the card may fail. *)
Record drive_ready (s : fstate) (n : Z) : Prop := mk_ready {
  dr_fs : exists x, f_fs s = Some x /\ sfs_device x = true;
  dr_idle : lhd_idle (ds_lhd (f_d s));
  dr_size : n <= d_blocks (ds_lhd (f_d s));
  dr_held : f_held s = true
}.

Lemma rwblock_retry u s n : drive_ready s n -> sfs_rwblock u s = rw_retry 12 0 u s.
Proof using Type.
  intros [(x & Hx & Hdev) _ _ Hh]. unfold sfs_rwblock.
  rewrite (run_bind _ _ s true s) by (unfold vfs_biglock_do_i_hold; msimpl; by rewrite Hh).
  rewrite (run_bind _ _ s tt s) by done. rewrite (run_bind _ _ s x s) by (unfold get_fs; msimpl; by rewrite Hx).
  by rewrite Hdev.
Qed.

(** A transfer of no bytes succeeds without an operation of the card. *)
Lemma lhd_io_none b0 blk l (us : U) : lhd_idle l -> 0 <= blk <= d_blocks l ->
  lhd_io (kuio b0 [] (blk * 512) 0 UIO_WRITE) (mk_d l us) = Ret (0, kuio b0 [] (blk * 512) 0 UIO_WRITE) (mk_d l us).
Proof using Type.
  intros Hi Hb. destruct (li_size _ Hi). unfold lhd_io, LHD_SECTSIZE. cbn [kuio uio_offset uio_resid]. rewrite Z.mod_mul, Z.div_mul by lia.
  change (0 mod 512) with 0. change (0 / 512) with 0. cbn [Z.eqb negb orb]. rewrite (run_bind _ _ (mk_d l us) (mk_d l us) (mk_d l us)) by done.
  rewrite Z.add_0_r, !u32_small, ?(u32_small blk) by (rewrite ?u32_small by lia; lia). cbn [ds_lhd]. by rewrite (proj2 (Z.ltb_ge _ _)) by lia.
Qed.

(** Writing a block always reports success, and starts exactly one operation of the
    card, whatever that operation ends with: the retry after a media error finds the uio
    already consumed, transfers nothing, and takes that for success. *)
Theorem writeblock_reports_success blk data s :
  drive_ready s (blk + 1) -> 0 <= blk -> length data = 512%nat ->
  exists s', sfs_writeblock blk data s = Ret 0 s' /\
    lh_hw (ds_lhd (f_d s')) = (hw_op (Z.lor LHD_WORKING LHD_ISWRITE) blk data (lh_hw (ds_lhd (f_d s)))).2.
Proof using Type.
  intros Hr Hb Hd. pose proof Hr as [_ Hi Hs _]. destruct (f_d s) as [l us] eqn:Ed. simpl in *.
  destruct (lhd_io_one UIO_WRITE [] data blk l us Hi ltac:(lia) ltac:(lia)) as (l' & Hi' & Hn & _ & _ & (st & Hh & _) & _ & Hrun).
  rewrite decide_False in Hh by done. rewrite take_ge, drop_ge in Hrun by lia. rewrite take_ge in Hh by lia. change (statval_of UIO_WRITE) with (Z.lor LHD_WORKING LHD_ISWRITE) in Hh.
  exists (with_disk (mk_d l' us) s). split; [|by rewrite Hh].
  unfold sfs_writeblock. rewrite Hd. rewrite (run_bind _ _ s tt s) by done.
  pose proof (uio_kinit_kuio data (blk * SFS_BLOCKSIZE) UIO_WRITE) as E. rewrite Hd in E. unfold SFS_BLOCKSIZE in *.
  change (Z.of_nat 512) with 512 in E. rewrite E. clear E.
  rewrite (run_bind _ _ s (0, kuio ([] ++ data) [] ((blk + 1) * 512) 0 UIO_WRITE) (with_disk (mk_d l' us) s)); [done|].
  rewrite (rwblock_retry _ _ _ Hr). rewrite <- Ed in Hrun.
  change 12%nat with (S (S 10)). cbn [rw_retry]. destruct Hrun as [[Hrun _]|(_ & _ & Hrun)].
  - by rewrite (run_bind _ _ s _ _ (f_zoom _ s _ _ Hrun)).
  - rewrite (run_bind _ _ s _ _ (f_zoom _ s _ _ Hrun)). cbn [Z.eqb EIO EINVAL Pos.eqb andb Z.ltb Z.compare].
    rewrite decide_False by done.
    by rewrite (run_bind _ _ _ _ _ (f_zoom _ (with_disk (mk_d l' us) s) _ _ (lhd_io_none ([] ++ data) (blk + 1) l' us Hi' ltac:(lia)))).
Qed.

(** *** Attempts to read a sector *)

(** The card's buffer and the card after one more read, and the status the read ends with. *)
Definition card_of (s : fstate) : list Z * H := (lh_buf (ds_lhd (f_d s)), lh_hw (ds_lhd (f_d s))).
Definition card_read (blk : Z) (c : list Z * H) : list Z * H := ((hw_op LHD_WORKING blk c.1 c.2).1.2, (hw_op LHD_WORKING blk c.1 c.2).2).
Definition card_status (blk : Z) (c : list Z * H) : Z := (hw_op LHD_WORKING blk c.1 c.2).1.1.

(** [n] reads, all but the last of which failed; [ok]: whether the last one did not. *)
Inductive reads (blk : Z) (ok : bool) : nat -> list Z * H -> list Z * H -> Prop :=
  | reads_last c : card_status blk c = (if ok then LHD_OK else LHD_MEDIA) -> reads blk ok 1 c (card_read blk c)
  | reads_again n c c' : card_status blk c = LHD_MEDIA -> reads blk ok n (card_read blk c) c' -> reads blk ok (S n) c c'.

(** A read: what one attempt, and then the retries, give. *)
Lemma read_retry b0 data blk : length data = 512%nat -> 0 <= blk -> forall fuel tries s,
  lhd_idle (ds_lhd (f_d s)) -> blk < d_blocks (ds_lhd (f_d s)) -> 0 <= tries <= 10 -> 11 - tries < Z.of_nat fuel ->
  exists (ok : bool) n d, rw_retry fuel tries (kuio b0 data (blk * 512) 512 UIO_READ) s =
      Ret (if ok then (0, kuio (b0 ++ dsk s blk) [] ((blk + 1) * 512) 0 UIO_READ) else (EIO, kuio b0 data (blk * 512) 512 UIO_READ)) (with_disk d s) /\
    (forall c, hw_data (lh_hw (ds_lhd d)) c = dsk s c) /\ reads blk ok n (card_of s) (card_of (with_disk d s)) /\
    (if ok then Z.of_nat n <= 11 - tries else Z.of_nat n = 11 - tries).
Proof using Type.
  intros Hd Hb. induction fuel as [|fuel IH]; intros tries s Hi Hs Ht Hf; [lia|]. destruct (f_d s) as [l us] eqn:Ed. simpl in *.
  destruct (lhd_io_one UIO_READ b0 data blk l us Hi ltac:(lia) ltac:(lia)) as (l' & Hi' & Hn & _ & _ & (st & Hop & Hst) & Hc & Hrun).
  rewrite decide_True in Hop by done. change (statval_of UIO_READ) with LHD_WORKING in Hop.
  assert (Hcard : card_read blk (card_of s) = (lh_buf l', lh_hw l') /\ card_status blk (card_of s) = st) by (unfold card_read, card_status, card_of; rewrite Ed; cbn [fst snd ds_lhd]; by rewrite Hop).
  destruct Hcard as [Hcr Hcs].
  rewrite <- Ed in Hrun. rewrite drop_ge in Hrun by lia. destruct Hrun as [(Hrun & _ & Hl)|(_ & Hl & Hrun)]; rewrite decide_True in Hrun by done;
    rewrite (run_bind _ _ s _ _ (f_zoom _ s _ _ Hrun)); rewrite Hl in Hst.
  - cbn [Z.eqb EINVAL EIO andb]. exists true, 1%nat, (mk_d l' us). split; [unfold dsk; by rewrite Ed|]. unfold dsk. rewrite Ed. split; [intros c; apply Hc; by left|].
    split; [|lia]. change (card_of (with_disk (mk_d l' us) s)) with (lh_buf l', lh_hw l'). rewrite <- Hcr. apply reads_last. by rewrite Hcs.
  - cbn [Z.eqb EIO EINVAL Pos.eqb andb]. destruct (Z.ltb_spec tries 10).
    + destruct (IH (tries + 1) (with_disk (mk_d l' us) s)) as (ok & n & d & Hr & Hdd & Hrd & Hcnt); [done|simpl; lia|lia|lia|].
      exists ok, (S n), d. assert (Ed2 : dsk (with_disk (mk_d l' us) s) blk = dsk s blk) by (unfold dsk; rewrite Ed; apply Hc; by left).
      split; [rewrite <- Ed2; exact Hr|]. split; [intros c; rewrite Hdd; unfold dsk; rewrite Ed; apply Hc; by left|]. split; [|destruct ok; lia].
      apply reads_again; [by rewrite Hcs|]. rewrite Hcr. exact Hrd.
    + exists false, 1%nat, (mk_d l' us). split; [reflexivity|]. unfold dsk. rewrite Ed. split; [intros c; apply Hc; by left|].
      split; [|lia]. change (card_of (with_disk (mk_d l' us) s)) with (lh_buf l', lh_hw l'). rewrite <- Hcr. apply reads_last. by rewrite Hcs.
Qed.

(** C25: reading a block tries again after a media error, until a read of the card succeeds
    or eleven have failed: the call ends with the contents of the block after at most eleven
    reads of which only the last one succeeded, or with [EIO] and the caller's buffer as it
    was after exactly eleven failed reads; the medium does not change. *)
Theorem readblock_data_or_eio blk data s :
  drive_ready s (blk + 1) -> 0 <= blk -> length data = 512%nat ->
  exists (ok : bool) n s', sfs_readblock blk data s = Ret (if ok then (0, dsk s blk) else (EIO, data)) s' /\
    reads blk ok n (card_of s) (card_of s') /\ (if ok then (n <= 11)%nat else n = 11%nat) /\ forall c, dsk s' c = dsk s c.
Proof using Type.
  intros Hr Hb Hd. pose proof Hr as [_ Hi Hs _].
  destruct (read_retry [] data blk Hd Hb 12 0 s Hi ltac:(lia) ltac:(lia) ltac:(lia)) as (ok & n & d & Hrun & Hc & Hrd & Hn).
  unfold sfs_readblock. rewrite Hd. rewrite (run_bind _ _ s tt s) by done.
  pose proof (uio_kinit_kuio data (blk * SFS_BLOCKSIZE) UIO_READ) as E. rewrite Hd in E. unfold SFS_BLOCKSIZE in *.
  change (Z.of_nat 512) with 512 in E. rewrite E. clear E. rewrite <- (rwblock_retry _ _ _ Hr) in Hrun.
  rewrite (run_bind _ _ s _ _ Hrun). eexists ok, n, _. split; [|split; [exact Hrd|split; [destruct ok; lia|exact Hc]]].
  destruct ok; unfold mret, M_ret; simpl; unfold uio_buf; simpl; by rewrite ?app_nil_r.
Qed.

End Ops.
End SfsBlocks.

(** * A small volume

    A card with sixty-four blocks in memory, whose operations succeed or all fail, and a
    volume on it with an empty root directory: the concrete inputs of the witnesses. *)


Module SfsToy.
Import Uio Lhd Bitmap SfsData Sfs SfsBlocks.

Record card := mk_card {
  cd_fails : bool;
  cd_blocks : gmap Z (list Z)
}.

Definition norm (l : list Z) : list Z := take 512 (l ++ replicate 512 0).

Definition card_data (h : card) (b : Z) : list Z := norm (default [] (cd_blocks h !! b)).

Definition card_op (stat b : Z) (buf : list Z) (h : card) : Z * list Z * card :=
  if cd_fails h then (LHD_MEDIA, buf, h)
  else if stat =? LHD_WORKING then (LHD_OK, card_data h b, h)
  else (LHD_OK, buf, mk_card false (<[b := buf]> (cd_blocks h))).

Lemma norm_len l : length (norm l) = 512%nat.
Proof. unfold norm. rewrite length_take, length_app, length_replicate. lia. Qed.

Lemma norm_id l : length l = 512%nat -> norm l = l.
Proof. intros E. unfold norm. by rewrite take_app_length'. Qed.

#[export, refine] Instance card_hw : LhdHw card := {
  hw_op := card_op; hw_data := card_data; hw_nsect := fun _ => 64; hw_good := fun h => cd_fails h = false
}.
Proof.
  - intros. apply norm_len.
  - intros st b buf h _. unfold card_op. destruct (cd_fails h); [by right|]. destruct (st =? LHD_WORKING); by left.
  - done.
  - intros b buf h. unfold card_op. by destruct (cd_fails h).
  - intros b buf h Hl. unfold card_op. destruct (cd_fails h) eqn:E; [done|].
    change (Z.lor LHD_WORKING LHD_ISWRITE =? LHD_WORKING) with false. simpl. unfold card_data. simpl. split.
    + intros c Hc. by rewrite lookup_insert_ne.
    + intros _. rewrite lookup_insert_eq. by apply norm_id.
  - intros st b buf h Hl. unfold card_op. destruct (cd_fails h); [done|]. destruct (st =? LHD_WORKING); [apply norm_len|done].
  - intros st b buf h Hg _. unfold card_op. rewrite Hg. by destruct (st =? LHD_WORKING).
Defined.

(** Blocks 0 (the superblock), 1 (the root directory), 2 (the map) and 3 (the contents of the
    directory: the name "a" for inode 5) are in use. *)
Definition toy_map : bitmap := mk_bitmap 4096 (15 :: replicate 7 0 ++ replicate 504 255).
Definition toy_sb : sfs_superblock := mk_sb SFS_MAGIC 64 (replicate 32 0) (replicate 118 0).
Definition toy_root : sfs_dinode := mk_di 64 SFS_TYPE_DIR 1 (3 :: replicate 14 0) 0 (replicate 110 0).
Definition toy_entry : sfs_direntry := mk_sd 5 (97 :: replicate 59 0).
Definition toy_card (fails : bool) : card :=
  mk_card fails (<[0 := bytes_of_superblock toy_sb]> (<[1 := bytes_of_dinode toy_root]> (<[2 := v toy_map]> (<[3 := bytes_of_direntry toy_entry]> ∅)))).
Definition toy_lhd (fails : bool) : lhd_softc card := mk_lhd (replicate 512 0) 0 1 0 64 (toy_card fails).
Definition toy_vol : sfs_fs := mk_fs toy_sb false true [100] (Some toy_map) false.

(** A file in memory: inode 1, loaded at address 100. *)
Definition toy_vn (i : sfs_dinode) : gmap Z sfs_vnode := {[100 := mk_sv 1 i 1 false]}.
Definition toy_state (fails : bool) (i : sfs_dinode) : Sfs.fstate unit card :=
  mk_f (Some toy_vol) (toy_vn i) (mk_d (toy_lhd fails) tt) true 1.

Lemma toy_idle fails : lhd_idle (toy_lhd fails).
Proof. split; simpl; try done; lia. Qed.

Lemma toy_wf : bitmap_wf toy_map.
Proof.
  split; simpl; [lia|done| |lia]. intros i w Hw. assert (Hf : Forall (fun w => 0 <= w < 256) (v toy_map)).
  { constructor; [lia|]. apply Forall_app. split; apply Forall_replicate; lia. }
  rewrite Forall_lookup in Hf. by eapply Hf.
Qed.

Lemma toy_past i : 64 <= i < 4096 -> bit_set toy_map i = true.
Proof.
  intros Hi. assert (Hlook : v toy_map !! Z.to_nat (i / 8) = Some 255).
  { unfold toy_map, v. rewrite lookup_cons_ne_0 by (Z.to_euclidean_division_equations; lia).
    rewrite lookup_app_r by (rewrite length_replicate; Z.to_euclidean_division_equations; lia).
    rewrite length_replicate. apply lookup_replicate_2. Z.to_euclidean_division_equations; lia. }
  unfold bit_set. rewrite Hlook. apply byte_full; [done|]. apply Z.mod_pos_bound. lia.
Qed.

Lemma toy_good i : good (toy_state false i).
Proof.
  exists toy_vol, toy_map. split; try done; simpl; try lia; first [apply toy_wf|apply toy_idle|intros j Hj; by apply toy_past].
Qed.

Lemma toy_ready fails i n : n <= 64 -> drive_ready (toy_state fails i) n.
Proof. intros Hn. split; try done; first [by exists toy_vol|apply toy_idle]. Qed.

(** A failing card: the write is reported as done, and the block has not changed. *)
Lemma writeblock_reports_success_witness :
  (exists s', sfs_writeblock 5 (replicate 512 9) (toy_state true toy_root) = Ret 0 s' /\
    lh_hw (ds_lhd (f_d s')) = (hw_op (Z.lor LHD_WORKING LHD_ISWRITE) 5 (replicate 512 9) (toy_card true)).2) /\
  hw_data (hw_op (Z.lor LHD_WORKING LHD_ISWRITE) 5 (replicate 512 9) (toy_card true)).2 5 = replicate 512 0.
Proof.
  split; [|by vm_compute].
  apply (writeblock_reports_success 5 (replicate 512 9) (toy_state true toy_root)); [apply toy_ready; lia|lia|done].
Defined.

(** A card that always fails: eleven reads and [EIO]. *)
Lemma readblock_data_or_eio_witness :
  exists (ok : bool) n s', sfs_readblock 2 (replicate 512 9) (toy_state true toy_root) = Ret (if ok then (0, dsk (toy_state true toy_root) 2) else (EIO, replicate 512 9)) s' /\
    reads 2 ok n (card_of (toy_state true toy_root)) (card_of s') /\ (if ok then (n <= 11)%nat else n = 11%nat) /\ (forall c, dsk s' c = dsk (toy_state true toy_root) c) /\ ok = false.
Proof.
  destruct (readblock_data_or_eio 2 (replicate 512 9) (toy_state true toy_root)) as (ok & n & s' & E & H1 & H2 & H3); [apply toy_ready; lia|lia|done|].
  exists ok, n, s'. split; [exact E|]. split; [exact H1|]. split; [exact H2|]. split; [exact H3|].
  assert (E' : match sfs_readblock 2 (replicate 512 9) (toy_state true toy_root) with Ret r _ => Some r.1 | _ => None end = Some EIO) by by vm_compute.
  rewrite E in E'. destruct ok; [discriminate|reflexivity].
Defined.

End SfsToy.
