(* ===== verification/SfsMap.v ===== *)
(** * The blocks of a file: sfs_bmap.c

    [ref] is the disk block behind each part of a file: 0 to 142 for its data, 143 for the
    indirect block.  [file_ok] is the invariant of a file's blocks (in range, in use, not
    shared), [grows] what an operation on a file may do to the volume, and [sfs_bmap] the
    mapping, which only adds zeroed blocks. *)

From S2P Require Import Prelude Bitmap Uio Lhd SfsData Sfs SfsBlocks.

Module SfsMap.
Import Uio Lhd Bitmap SfsData Sfs SfsBlocks.

(** The disk block of a block of a file (0: none); [d] is the medium. *)
Definition bmap_of (d : Z -> list Z) (i : sfs_dinode) (n : Z) : Z :=
  if n <? 15 then nth (Z.to_nat n) (sfi_direct i) 0
  else if sfi_indirect i =? 0 then 0
  else nth (Z.to_nat (n - 15)) (words_of_bytes (d (sfi_indirect i))) 0.

Definition ref (d : Z -> list Z) (i : sfs_dinode) (n : Z) : Z :=
  if n =? 143 then sfi_indirect i else bmap_of d i n.

(** The contents of a block of a file: a hole reads as zeros. *)
Definition content (d : Z -> list Z) (i : sfs_dinode) (n : Z) : list Z :=
  if bmap_of d i n =? 0 then zeros else d (bmap_of d i n).

Lemma nth_zeros n k : nth k (replicate n 0) 0 = 0.
Proof. rewrite nth_lookup. destruct (replicate n 0 !! k) eqn:E; [|done]. by apply lookup_replicate in E as [-> _]. Qed.

Lemma ref_data d i n : 0 <= n < 143 -> ref d i n = bmap_of d i n.
Proof. intros Hn. unfold ref. by rewrite (proj2 (Z.eqb_neq n 143)) by lia. Qed.

Lemma ref_ext d d' i n : (sfi_indirect i <> 0 -> d' (sfi_indirect i) = d (sfi_indirect i)) -> ref d' i n = ref d i n.
Proof.
  intros E. unfold ref, bmap_of. destruct (n =? 143), (n <? 15); try done. destruct (Z.eqb_spec (sfi_indirect i) 0); [done|]. by rewrite E.
Qed.

Section Ops.
Context {U H : Type} `{US : UserSpace U} `{HW : LhdHw H}.
Local Abbreviation fstate := (fstate U H) (only parsing).
Implicit Types s : fstate.

Record file_ok (s : fstate) (i : sfs_dinode) : Prop := mk_fok {
  fo_len : length (sfi_direct i) = 15%nat;
  fo_ref : forall n, 0 <= n <= 143 -> ref (dsk s) i n = 0 \/ (0 < ref (dsk s) i n < nblk s /\ marked s (ref (dsk s) i n) = true);
  fo_inj : forall n m, 0 <= n <= 143 -> 0 <= m <= 143 -> ref (dsk s) i n = ref (dsk s) i m -> ref (dsk s) i n <> 0 -> n = m
}.

(** An operation on the file [v]: blocks are only added to it; the blocks it gets were free,
    and every block that is newly in use belongs to it; whatever else is in use keeps its
    contents. *)
Record grows (s s' : fstate) (v : Z) (x x' : sfs_vnode) : Prop := mk_grows {
  gr_good : good s';
  gr_kept : kept s s';
  gr_vn : f_vn s' = <[v := x']> (f_vn s);
  gr_same : vn_refcount x' = vn_refcount x /\ sv_ino x' = sv_ino x /\ sfi_type (sv_i x') = sfi_type (sv_i x) /\
            sfi_linkcount (sv_i x') = sfi_linkcount (sv_i x) /\ sfi_waste (sv_i x') = sfi_waste (sv_i x);
  gr_dirty : x' = x \/ sv_dirty x' = true;
  gr_ok : file_ok s' (sv_i x');
  gr_marks : forall c, 0 <= c -> marked s c = true -> marked s' c = true;
  gr_noleak : forall c, 0 < c -> marked s' c = true -> marked s c = true \/ exists n, 0 <= n <= 143 /\ ref (dsk s') (sv_i x') n = c;
  gr_own : forall n, 0 <= n <= 143 -> ref (dsk s) (sv_i x) n <> 0 -> ref (dsk s') (sv_i x') n = ref (dsk s) (sv_i x) n;
  gr_new : forall n, 0 <= n <= 143 -> ref (dsk s) (sv_i x) n = 0 -> ref (dsk s') (sv_i x') n <> 0 -> marked s (ref (dsk s') (sv_i x') n) = false;
  gr_frame : forall c, 0 <= c -> marked s c = true -> (forall n, 0 <= n <= 143 -> ref (dsk s) (sv_i x) n <> c) -> dsk s' c = dsk s c
}.

Lemma block_in_range s i n : file_ok s i -> 0 <= n < 143 -> bmap_of (dsk s) i n <> 0 -> 0 <= bmap_of (dsk s) i n < nblk s.
Proof using Type. intros F Hn Hne. destruct (fo_ref _ _ F n ltac:(lia)) as [E|[Hr _]]; rewrite ref_data in * by lia; [done|lia]. Qed.

Lemma grows_trans s1 s2 s3 v x1 x2 x3 : grows s1 s2 v x1 x2 -> grows s2 s3 v x2 x3 -> file_ok s1 (sv_i x1) -> grows s1 s3 v x1 x3.
Proof using Type.
  intros [A1 A2 A3 A4 A5 A6 A7 A8 A9 A10 A11] [B1 B2 B3 B4 B5 B6 B7 B8 B9 B10 B11] F1. split; try done.
  - by etrans.
  - by rewrite B3, A3, insert_insert_eq.
  - intuition congruence.
  - destruct B5 as [->|]; [done|by right].
  - auto.
  - intros c Hc Hm. destruct (B8 c Hc Hm) as [Hm2|?]; [|by right]. destruct (A8 c Hc Hm2) as [?|(n & Hn & E)]; [by left|right].
    exists n. split; [done|]. rewrite B9 by (try done; lia). done.
  - intros n Hn Hr. rewrite B9; [by apply A9|done|]. rewrite A9 by done. done.
  - intros n Hn Hr Hr3. destruct (decide (ref (dsk s2) (sv_i x2) n = 0)) as [E|E].
    + pose proof (B10 n Hn E Hr3) as Hm. destruct (marked s1 _) eqn:Em; [|done].
      assert (H0 : 0 <= ref (dsk s3) (sv_i x3) n) by (destruct (fo_ref _ _ B6 n Hn); lia).
      pose proof (A7 _ H0 Em). congruence.
    + rewrite B9 by done. by apply A10.
  - intros c Hc Hm Hno. rewrite (B11 c); [by apply A11|done|by apply A7|]. intros n Hn E.
    destruct (decide (ref (dsk s1) (sv_i x1) n = 0)) as [E0|E0].
    + destruct (decide (c = 0)) as [->|]; [by apply (Hno n Hn)|]. pose proof (A10 n Hn E0 ltac:(congruence)). congruence.
    + rewrite A9 in E by done. by apply (Hno n Hn).
Qed.

(** A free block, zeroed, becomes the block [n0] of a file that had none there. *)
Lemma attach s s' v x x' n0 blk :
  good s' -> kept s s' -> f_vn s' = <[v := x']> (f_vn s) -> file_ok s (sv_i x) ->
  vn_refcount x' = vn_refcount x /\ sv_ino x' = sv_ino x /\ sfi_type (sv_i x') = sfi_type (sv_i x) /\
    sfi_linkcount (sv_i x') = sfi_linkcount (sv_i x) /\ sfi_waste (sv_i x') = sfi_waste (sv_i x) ->
  x' = x \/ sv_dirty x' = true -> length (sfi_direct (sv_i x')) = 15%nat ->
  0 <= n0 <= 143 -> ref (dsk s) (sv_i x) n0 = 0 -> 0 < blk < nblk s -> marked s blk = false ->
  (forall c, 0 <= c -> marked s' c = if decide (c = blk) then true else marked s c) ->
  (forall n, 0 <= n <= 143 -> ref (dsk s') (sv_i x') n = if decide (n = n0) then blk else ref (dsk s) (sv_i x) n) ->
  (forall c, marked s c = true -> c <> sfi_indirect (sv_i x) -> dsk s' c = dsk s c) -> dsk s' blk = zeros ->
  grows s s' v x x' /\ forall m, 0 <= m < 143 -> content (dsk s') (sv_i x') m = content (dsk s) (sv_i x) m.
Proof using Type.
  intros Hg Hk Hvn [F1 F2 F3] Hsame Hdirty Hlen Hn0 H0 Hblk Hfree Hmarks Href Hdsk Hz.
  assert (Hold : forall n, 0 <= n <= 143 -> ref (dsk s) (sv_i x) n <> blk).
  { intros n Hn E. destruct (F2 n Hn) as [E0|[_ Hm]]; [lia|]. rewrite E in Hm. congruence. }
  assert (Hnb : nblk s' = nblk s) by by apply kept_nblk.
  split; [split; try done|].
  - split; [done| |].
    + intros n Hn. rewrite Href by done. rewrite Hnb. destruct (decide (n = n0)); [right; rewrite Hmarks, decide_True by lia; done|].
      destruct (F2 n Hn) as [?|[? Hm]]; [by left|right]. rewrite Hmarks by lia. by destruct (decide _).
    + intros n m Hn Hm. rewrite !Href by done. destruct (decide (n = n0)), (decide (m = n0)); [lia| | |by apply F3].
      * intros E. by destruct (Hold m Hm).
      * intros E. by destruct (Hold n Hn).
  - intros c Hc Hm. rewrite Hmarks by done. by destruct (decide _).
  - intros c Hc Hm. rewrite Hmarks in Hm by lia. destruct (decide (c = blk)) as [->|]; [|by left].
    right. exists n0. split; [done|]. by rewrite Href, decide_True.
  - intros n Hn Hr. rewrite Href by done. by rewrite decide_False by congruence.
  - intros n Hn Hr Hr'. rewrite Href in Hr' |- * by done. by destruct (decide (n = n0)).
  - intros c Hc Hm Hno. apply Hdsk; [done|]. intros ->. by apply (Hno 143 ltac:(lia)).
  - intros m Hm. unfold content. rewrite <- !ref_data by done. rewrite Href by lia. destruct (decide (m = n0)) as [->|].
    + rewrite H0. simpl. by rewrite (proj2 (Z.eqb_neq blk 0)) by lia.
    + destruct (Z.eqb_spec (ref (dsk s) (sv_i x) m) 0) as [|Hr]; [done|]. destruct (F2 m ltac:(lia)) as [?|[? Hmk]]; [done|].
      apply Hdsk; [done|]. intros E. assert (m = 143); [|lia]. by apply F3; try lia.
Qed.


(** ** Small steps *)

Definition with_vn (v : Z) (x : sfs_vnode) (s : fstate) : fstate := mk_f (f_fs s) (<[v := x]> (f_vn s)) (f_d s) (f_held s) (f_depth s).

Lemma get_sv_eq v x s : f_vn s !! v = Some x -> get_sv v s = Ret x s.
Proof using Type. intros E. unfold get_sv. msimpl. by rewrite E. Qed.

Lemma upd_inode_eq v f x s : f_vn s !! v = Some x ->
  upd_inode v f s = Ret tt (with_vn v (mk_sv (vn_refcount x) (f (sv_i x)) (sv_ino x) (sv_dirty x)) s).
Proof using Type. intros E. unfold upd_inode. by rewrite (run_bind _ _ s x s) by (by apply get_sv_eq). Qed.

Lemma set_dirty_eq v b x s : f_vn s !! v = Some x ->
  set_dirty v b s = Ret tt (with_vn v (mk_sv (vn_refcount x) (sv_i x) (sv_ino x) b) s).
Proof using Type. intros E. unfold set_dirty. by rewrite (run_bind _ _ s x s) by (by apply get_sv_eq). Qed.

(** The inode is changed and marked dirty. *)
Lemma touch_inode {A} v f x s (m : M fstate A) : f_vn s !! v = Some x ->
  (_ ← upd_inode v f; _ ← set_dirty v true; m) s = m (with_vn v (mk_sv (vn_refcount x) (f (sv_i x)) (sv_ino x) true) s).
Proof using Type.
  intros E. rewrite (run_bind _ _ s _ _ (upd_inode_eq v f x s E)). set (x1 := mk_sv _ _ _ _).
  rewrite (run_bind _ _ _ _ _ (set_dirty_eq v true x1 (with_vn v x1 s) (lookup_insert_eq _ _ _))).
  unfold with_vn. simpl. by rewrite insert_insert_eq.
Qed.

Lemma touch_last v f x s : f_vn s !! v = Some x ->
  (_ ← upd_inode v f; set_dirty v true) s = Ret tt (with_vn v (mk_sv (vn_refcount x) (f (sv_i x)) (sv_ino x) true) s).
Proof using Type.
  intros E. rewrite (run_bind _ _ s _ _ (upd_inode_eq v f x s E)). set (x1 := mk_sv _ _ _ _).
  rewrite (set_dirty_eq v true x1 (with_vn v x1 s) (lookup_insert_eq _ _ _)). unfold with_vn. simpl. by rewrite insert_insert_eq.
Qed.

Lemma with_vn_good v x s : good s -> good (with_vn v x s) /\ kept s (with_vn v x s).
Proof using Type. intros (f & b & V). split; [|done]. exists f, b. by destruct V. Qed.

Lemma check_used_ok blk s : good s -> blk = 0 \/ (0 < blk < nblk s /\ marked s blk = true) -> check_used blk s = Ret tt s.
Proof using Type.
  intros Hg Hb. unfold check_used. destruct (Z.eqb_spec blk 0) as [|Hne]; [done|]. destruct Hb as [?|[Hr Hm]]; [done|].
  destruct (bused_good blk s Hg ltac:(lia)) as (r & Hrun & Hr0). cbn [negb]. rewrite (run_bind _ _ s r s Hrun). by rewrite Hr0, Hm.
Qed.

Lemma nth_lookup_0 (l : list Z) k : (k < length l)%nat -> l !! k = Some (nth k l 0).
Proof using Type. intros Hk. destruct (lookup_lt_is_Some_2 l k Hk) as [y Hy]. rewrite Hy. f_equal. symmetry. by apply nth_lookup_Some. Qed.

(** The words of the indirect block are the blocks of the file from 15 on. *)
Lemma indirect_words s i : file_ok s i -> good s -> sfi_indirect i <> 0 ->
  length (words_of_bytes (dsk s (sfi_indirect i))) = 128%nat /\ Forall is_word (words_of_bytes (dsk s (sfi_indirect i))).
Proof using Type.
  intros F Hg Hi. assert (Hl : length (words_of_bytes (dsk s (sfi_indirect i))) = 128%nat) by (apply length_words_of_bytes, dsk_len).
  split; [done|]. apply Forall_lookup. intros k w Hw. pose proof (lookup_lt_Some _ _ _ Hw). pose proof (nblk_small s Hg).
  pose proof (fo_ref _ _ F (15 + Z.of_nat k) ltac:(lia)) as Hr. rewrite ref_data in Hr by lia. unfold bmap_of in Hr.
  rewrite (proj2 (Z.ltb_ge _ _)), (proj2 (Z.eqb_neq _ _)) in Hr by lia. replace (Z.to_nat (15 + Z.of_nat k - 15)) with k in Hr by lia.
  apply (nth_lookup_Some _ _ 0) in Hw. rewrite Hw in Hr. unfold is_word. lia.
Qed.

(** ** Looking a block up *)

Lemma bmap_efbig v n alloc s : f_held s = true -> 143 <= n -> sfs_bmap v n alloc s = Ret (EFBIG, 0) s.
Proof using Type.
  intros Hh Hn. unfold sfs_bmap. rewrite (run_bind _ _ s true s) by (unfold vfs_biglock_do_i_hold; msimpl; by rewrite Hh).
  rewrite (run_bind _ _ s tt s) by done. unfold SFS_NDIRECT. rewrite (proj2 (Z.ltb_ge _ _)) by lia. unfold bmap_indirect, SFS_DBPERIDB, SFS_NINDIRECT.
  by rewrite (proj2 (Z.leb_le 1 ((n - 15) / 128))) by (Z.to_euclidean_division_equations; lia).
Qed.

Lemma bmap_enter v n alloc s : good s ->
  sfs_bmap v n alloc s = (if n <? 15 then bmap_direct v n alloc else bmap_indirect v (n - 15) alloc) s.
Proof using Type.
  intros (f & b & V). unfold sfs_bmap. rewrite (run_bind _ _ s true s) by (unfold vfs_biglock_do_i_hold; msimpl; by rewrite (vo_held _ _ _ V)).
  by rewrite (run_bind _ _ s tt s).
Qed.

(** Without allocation the mapping is read, and nothing changes. *)
Lemma bmap_lookup v x n s : good s -> f_vn s !! v = Some x -> file_ok s (sv_i x) -> 0 <= n < 143 ->
  exists d, sfs_bmap v n false s = Ret (0, bmap_of (dsk s) (sv_i x) n) (with_disk d s) /\
    good (with_disk d s) /\ kept s (with_disk d s) /\ (forall c, dsk (with_disk d s) c = dsk s c).
Proof using Type.
  intros Hg Hx F Hn. rewrite bmap_enter by done. pose proof (fo_ref _ _ F n ltac:(lia)) as Hr. rewrite ref_data in Hr by done. 
  assert (Hsame : with_disk (f_d s) s = s) by by destruct s.
  unfold bmap_of in *. destruct (Z.ltb_spec n 15) as [Hlt|Hge].
  - exists (f_d s). rewrite Hsame. split_and!; try done. unfold bmap_direct. rewrite (run_bind _ _ s x s) by (by apply get_sv_eq).
    rewrite (run_bind _ _ s (nth (Z.to_nat n) (sfi_direct (sv_i x)) 0) s)
      by (rewrite nth_lookup_0 by (rewrite (fo_len _ _ F); lia); done).
    rewrite andb_false_r. rewrite (run_bind _ _ s (0, nth (Z.to_nat n) (sfi_direct (sv_i x)) 0) s) by done. cbn [Z.eqb negb].
    by rewrite (run_bind _ _ s tt s) by (by apply check_used_ok).
  - unfold bmap_indirect, SFS_DBPERIDB, SFS_NINDIRECT, load_indirect. rewrite Z.div_small, Z.mod_small by lia. cbn [Z.leb Z.compare].
    destruct (Z.eqb_spec (sfi_indirect (sv_i x)) 0) as [E|Hne].
    + exists (f_d s). rewrite Hsame. split_and!; try done.
      rewrite (run_bind _ _ s (0, None) s); [done|]. rewrite (run_bind _ _ s x s) by (by apply get_sv_eq). by rewrite E.
    + pose proof (fo_ref _ _ F 143 ltac:(lia)) as H143. change (ref (dsk s) (sv_i x) 143) with (sfi_indirect (sv_i x)) in H143.
      destruct (indirect_words s (sv_i x) F Hg Hne) as [Hl _].
      destruct (readblock_good (sfi_indirect (sv_i x)) zeros s Hg ltac:(lia) eq_refl) as (d & Hrun & Hg' & Hk & Hd).
      exists d. split_and!; try done.
      rewrite (run_bind _ _ s (0, Some (sfi_indirect (sv_i x), words_of_bytes (dsk s (sfi_indirect (sv_i x))))) (with_disk d s)).
      2:{ rewrite (run_bind _ _ s x s) by (by apply get_sv_eq). rewrite (proj2 (Z.eqb_neq _ _) Hne). cbn [andb].
          by rewrite (run_bind _ _ _ _ _ Hrun). }
      cbn [Z.eqb negb]. set (ws := words_of_bytes _) in *. rewrite nth_lookup_0 by lia.
      rewrite (run_bind _ _ (with_disk d s) (nth (Z.to_nat (n - 15)) ws 0) (with_disk d s)) by done.
      rewrite andb_false_r. rewrite (run_bind _ _ (with_disk d s) (0, nth (Z.to_nat (n - 15)) ws 0) (with_disk d s)) by done. cbn [Z.eqb negb].
      rewrite (run_bind _ _ (with_disk d s) tt (with_disk d s)); [done|]. apply check_used_ok; [done|]. rewrite (kept_nblk _ _ Hk).
      destruct Hr as [?|[? Hm]]; [by left|by right].
Qed.

(** ** Adding a block *)

Lemma file_ok_ext s s' i : file_ok s i -> nblk s' = nblk s -> (forall n, 0 <= n <= 143 -> ref (dsk s') i n = ref (dsk s) i n) ->
  (forall c, 0 <= c -> marked s c = true -> marked s' c = true) -> file_ok s' i.
Proof using Type.
  intros [F1 F2 F3] Hn Hr Hm. split; [done| |].
  - intros n Hin. rewrite Hr, Hn by done. destruct (F2 n Hin) as [?|[? ?]]; [by left|right]. split; [done|]. apply Hm; [lia|done].
  - intros n m Hin Him. rewrite !Hr by done. by apply F3.
Qed.

(** Nothing happened to the file. *)
Lemma grows_nop s s' v x : f_vn s !! v = Some x -> file_ok s (sv_i x) -> good s' -> kept s s' -> f_vn s' = f_vn s ->
  (forall c, 0 <= c -> marked s' c = marked s c) -> (forall c, dsk s' c = dsk s c) -> grows s s' v x x.
Proof using Type.
  intros Hx F Hg Hk Hv Hm Hd. assert (Href : forall n, ref (dsk s') (sv_i x) n = ref (dsk s) (sv_i x) n) by (intros; by apply ref_ext).
  split; try done; try (by left).
  - by rewrite insert_id.
  - apply (file_ok_ext s); [done|by apply kept_nblk|auto|]. intros c Hc. by rewrite Hm.
  - intros c Hc. by rewrite Hm.
  - intros c Hc. rewrite Hm by lia. by left.
  - intros n Hn E. by rewrite Href.
Qed.

Lemma grows_refl s v x : f_vn s !! v = Some x -> file_ok s (sv_i x) -> good s -> grows s s v x x.
Proof using Type. intros. by apply grows_nop. Qed.

Definition map_post (s : fstate) (v : Z) (x : sfs_vnode) (s' : fstate) (x' : sfs_vnode) : Prop :=
  grows s s' v x x' /\ sfi_size (sv_i x') = sfi_size (sv_i x) /\
  forall m, 0 <= m < 143 -> content (dsk s') (sv_i x') m = content (dsk s) (sv_i x) m.

Lemma map_post_trans s1 s2 s3 v x1 x2 x3 : file_ok s1 (sv_i x1) -> map_post s1 v x1 s2 x2 -> map_post s2 v x2 s3 x3 -> map_post s1 v x1 s3 x3.
Proof using Type.
  intros F (G1 & Z1 & C1) (G2 & Z2 & C2). split; [by eapply grows_trans|]. split; [congruence|]. intros m Hm. by rewrite C2, C1.
Qed.

Lemma map_post_refl s v x : f_vn s !! v = Some x -> file_ok s (sv_i x) -> good s -> map_post s v x s x.
Proof using Type. intros. split; [by apply grows_refl|done]. Qed.

Definition full (s : fstate) : Prop := forall c, 0 <= c < nblk s -> marked s c = true.

(** Blocks in use are not touched by an allocation. *)
Lemma ref_after_balloc s s1 i blk n : file_ok s i -> marked s blk = false -> (forall c, c <> blk -> dsk s1 c = dsk s c) ->
  ref (dsk s1) i n = ref (dsk s) i n.
Proof using Type.
  intros F Hm Hd. apply ref_ext. intros Hne. apply Hd. intros E.
  destruct (fo_ref _ _ F 143 ltac:(lia)) as [?|[_ Hm1]]; [done|]. change (ref (dsk s) i 143) with (sfi_indirect i) in Hm1. congruence.
Qed.

Lemma attach_direct s s1 v x n blk : f_vn s !! v = Some x -> file_ok s (sv_i x) -> good s1 -> kept s s1 -> f_vn s1 = f_vn s ->
  0 <= n < 15 -> ref (dsk s) (sv_i x) n = 0 -> 0 < blk < nblk s -> marked s blk = false ->
  (forall c, 0 <= c -> marked s1 c = if decide (c = blk) then true else marked s c) ->
  dsk s1 blk = zeros -> (forall c, c <> blk -> dsk s1 c = dsk s c) ->
  let x' := mk_sv (vn_refcount x) (set_direct n blk (sv_i x)) (sv_ino x) true in
  map_post s v x (with_vn v x' s1) x' /\ bmap_of (dsk s1) (sv_i x') n = blk.
Proof using Type.
  intros Hx F Hg Hk Hv Hn H0 Hblk Hfree Hm Hz Hd x'. destruct (with_vn_good v x' s1 Hg) as [Hg' Hk'].
  pose proof (fo_len _ _ F) as Hlen.
  assert (Href : forall m, 0 <= m <= 143 -> ref (dsk s1) (sv_i x') m = if decide (m = n) then blk else ref (dsk s) (sv_i x) m).
  { intros m Hr. rewrite <- (ref_after_balloc s s1 (sv_i x) blk m F Hfree Hd). unfold ref, bmap_of, x'. simpl.
    destruct (Z.eqb_spec m 143), (Z.ltb_spec m 15); rewrite ?decide_False by lia; try done.
    destruct (decide (m = n)) as [->|].
    - apply nth_lookup_Some. apply list_lookup_insert_eq. lia.
    - rewrite !nth_lookup. by rewrite list_lookup_insert_ne by lia. }
  destruct (attach s (with_vn v x' s1) v x x' n blk) as [G C]; try done; try lia.
  - by etrans.
  - unfold with_vn; simpl; by rewrite Hv.
  - by right.
  - unfold x'. simpl. by rewrite length_insert.
  - intros c Hc _. apply Hd. intros ->. congruence.
  - split; [done|]. rewrite <- ref_data by lia. rewrite Href by lia. by rewrite decide_True.
Qed.

Lemma bmap_direct_alloc v x n s : good s -> f_vn s !! v = Some x -> file_ok s (sv_i x) -> 0 <= n < 15 ->
  wp (bmap_direct v n true) s (fun r s' => exists x', map_post s v x s' x' /\
    ((exists blk, r = (0, blk) /\ blk <> 0 /\ bmap_of (dsk s') (sv_i x') n = blk) \/
     (r = (ENOSPC, 0) /\ full s' /\ bmap_of (dsk s') (sv_i x') n = 0))).
Proof using Type.
  intros Hg Hx F Hn. pose proof (fo_ref _ _ F n ltac:(lia)) as Hr. rewrite ref_data in Hr by lia.
  assert (Eb : sfi_direct (sv_i x) !! Z.to_nat n = Some (bmap_of (dsk s) (sv_i x) n)).
  { unfold bmap_of. rewrite (proj2 (Z.ltb_lt _ _)) by lia. apply nth_lookup_0. rewrite (fo_len _ _ F). lia. }
  unfold bmap_direct. apply wp_bind. eapply wp_eq; [by apply get_sv_eq|]. rewrite Eb. apply wp_bind. eapply wp_eq; [reflexivity|].
  rewrite andb_true_r. apply wp_bind. destruct (Z.eqb_spec (bmap_of (dsk s) (sv_i x) n) 0) as [E0|Hne].
  - apply wp_bind. eapply wp_mono; [by apply balloc_good|]. intros r s1 (Hg1 & Hk1 & Hv1 & [(blk & -> & Hb & Hfr & _ & Hm & Hz & Hd)|(-> & -> & Hf)]).
    + cbn [Z.eqb negb].
      destruct (attach_direct s s1 v x n blk) as [P B]; try done; [by rewrite ref_data by lia|]. set (x' := mk_sv _ _ _ _) in *.
      destruct (with_vn_good v x' s1 Hg1) as [Hg' Hk'].
      eapply wp_eq; [rewrite (touch_inode _ _ x) by (by rewrite Hv1); reflexivity|]. cbn [Z.eqb negb].
      apply wp_bind. eapply wp_eq; [apply (check_used_ok blk _ Hg')|].
      { right. rewrite (kept_nblk _ _ Hk'), (kept_nblk _ _ Hk1). split; [lia|]. change (marked s1 blk = true). by rewrite Hm, decide_True by lia. }
      apply wp_ret. exists x'. split; [done|]. left. exists blk. split_and!; [done|lia|done].
    + cbn [Z.eqb negb]. apply wp_ret. cbn [Z.eqb negb]. apply wp_ret. exists x. split; [by apply map_post_refl|]. by right.
  - apply wp_ret. cbn [Z.eqb negb]. apply wp_bind. eapply wp_eq; [by apply check_used_ok|]. apply wp_ret.
    exists x. split; [by apply map_post_refl|]. left. by eexists.
Qed.

(** The indirect block itself. *)
Lemma attach_indirect s s1 v x blk : f_vn s !! v = Some x -> file_ok s (sv_i x) -> good s1 -> kept s s1 -> f_vn s1 = f_vn s ->
  sfi_indirect (sv_i x) = 0 -> 0 < blk < nblk s -> marked s blk = false ->
  (forall c, 0 <= c -> marked s1 c = if decide (c = blk) then true else marked s c) ->
  dsk s1 blk = zeros -> (forall c, c <> blk -> dsk s1 c = dsk s c) ->
  let x' := mk_sv (vn_refcount x) (set_indirect blk (sv_i x)) (sv_ino x) true in
  map_post s v x (with_vn v x' s1) x'.
Proof using Type.
  intros Hx F Hg Hk Hv H0 Hblk Hfree Hm Hz Hd x'. destruct (with_vn_good v x' s1 Hg) as [Hg' Hk'].
  assert (Href : forall m, 0 <= m <= 143 -> ref (dsk s1) (sv_i x') m = if decide (m = 143) then blk else ref (dsk s) (sv_i x) m).
  { intros m Hr. unfold ref, bmap_of, x'. simpl. rewrite H0, (proj2 (Z.eqb_neq blk 0)) by lia. simpl.
    destruct (Z.eqb_spec m 143), (decide (m = 143)); try done. destruct (m <? 15); [done|].
    rewrite Hz. assert (Hw : words_of_bytes zeros = replicate 128 0) by done. rewrite Hw. by rewrite nth_zeros. }
  destruct (attach s (with_vn v x' s1) v x x' 143 blk) as [G C]; try done; try lia.
  - by etrans.
  - unfold with_vn; simpl; by rewrite Hv.
  - by right.
  - apply (fo_len _ _ F).
  - intros c Hc _. apply Hd. intros ->. congruence.
Qed.

Lemma load_indirect_alloc v x s : good s -> f_vn s !! v = Some x -> file_ok s (sv_i x) ->
  wp (load_indirect v true) s (fun r s' => exists x', map_post s v x s' x' /\
    ((sfi_indirect (sv_i x') <> 0 /\ r = (0, Some (sfi_indirect (sv_i x'), words_of_bytes (dsk s' (sfi_indirect (sv_i x')))))) \/
     (r = (ENOSPC, None) /\ full s' /\ sfi_indirect (sv_i x') = 0))).
Proof using Type.
  intros Hg Hx F. unfold load_indirect. apply wp_bind. eapply wp_eq; [by apply get_sv_eq|]. cbn [negb]. rewrite andb_false_r.
  destruct (Z.eqb_spec (sfi_indirect (sv_i x)) 0) as [E0|Hne].
  - apply wp_bind. eapply wp_mono; [by apply balloc_good|]. intros r s1 (Hg1 & Hk1 & Hv1 & [(blk & -> & Hb & Hfr & _ & Hm & Hz & Hd)|(-> & -> & Hf)]); cbn [Z.eqb negb].
    + pose proof (attach_indirect s s1 v x blk) as P. set (x' := mk_sv _ _ _ _) in *.
      eapply wp_eq; [rewrite (touch_inode _ _ x) by (by rewrite Hv1); reflexivity|].
      exists x'. split; [by apply P|]. left. unfold x'. simpl. split; [lia|]. change (dsk (with_vn _ _ s1) blk) with (dsk s1 blk). by rewrite Hz.
    + apply wp_ret. exists x. split; [by apply map_post_refl|]. by right.
  - destruct (fo_ref _ _ F 143 ltac:(lia)) as [?|[Hr _]]; [done|]. change (ref (dsk s) (sv_i x) 143) with (sfi_indirect (sv_i x)) in Hr.
    destruct (readblock_good (sfi_indirect (sv_i x)) zeros s Hg ltac:(lia) eq_refl) as (d & Hrun & Hg' & Hk & Hd).
    apply wp_bind. eapply wp_eq; [exact Hrun|]. cbn [fst snd Z.eqb negb]. apply wp_ret. exists x. split.
    + split; [by apply grows_nop|]. split; [done|]. intros m Hm. unfold content.
      rewrite <- !ref_data by done. rewrite (ref_ext (dsk s)) by (intros; apply Hd). by rewrite Hd.
    + left. split; [done|]. by rewrite Hd.
Qed.

(** A data block behind the indirect block. *)
Lemma attach_word s s2 d v x n blk : f_vn s !! v = Some x -> file_ok s (sv_i x) -> good s -> kept s s2 -> f_vn s2 = f_vn s ->
  15 <= n < 143 -> sfi_indirect (sv_i x) <> 0 -> ref (dsk s) (sv_i x) n = 0 -> 0 < blk < nblk s -> marked s blk = false ->
  (forall c, 0 <= c -> marked s2 c = if decide (c = blk) then true else marked s c) ->
  dsk s2 blk = zeros -> (forall c, c <> blk -> dsk s2 c = dsk s c) ->
  let s3 := with_disk d s2 in
  let ws := words_of_bytes (dsk s (sfi_indirect (sv_i x))) in
  good s3 -> kept s2 s3 -> dsk s3 (sfi_indirect (sv_i x)) = bytes_of_words (<[Z.to_nat (n - 15) := blk]> ws) ->
  (forall c, c <> sfi_indirect (sv_i x) -> dsk s3 c = dsk s2 c) ->
  map_post s v x s3 x /\ bmap_of (dsk s3) (sv_i x) n = blk.
Proof using Type.
  intros Hx F Hg Hk Hv Hn Hne H0 Hblk Hfree Hm Hz Hd s3 ws Hg3 Hk3 Hind Hoth.
  destruct (indirect_words s (sv_i x) F Hg Hne) as [Hl Hw]. fold ws in Hl, Hw. pose proof (nblk_small s Hg).
  destruct (fo_ref _ _ F 143 ltac:(lia)) as [?|[Hr Hmi]]; [done|]. change (ref (dsk s) (sv_i x) 143) with (sfi_indirect (sv_i x)) in Hr, Hmi.
  assert (Hib : sfi_indirect (sv_i x) <> blk) by congruence.
  assert (Hwords : words_of_bytes (dsk s3 (sfi_indirect (sv_i x))) = <[Z.to_nat (n - 15) := blk]> ws).
  { rewrite Hind. apply words_of_words. apply Forall_insert; [done|]. unfold is_word. lia. }
  assert (Href : forall m, 0 <= m <= 143 -> ref (dsk s3) (sv_i x) m = if decide (m = n) then blk else ref (dsk s) (sv_i x) m).
  { intros m Hmr. unfold ref, bmap_of. rewrite Hwords. fold ws. rewrite (proj2 (Z.eqb_neq _ _) Hne).
    destruct (Z.eqb_spec m 143), (Z.ltb_spec m 15); rewrite ?decide_False by lia; try done.
    destruct (decide (m = n)) as [->|].
    - apply nth_lookup_Some. apply list_lookup_insert_eq. lia.
    - rewrite !nth_lookup. by rewrite list_lookup_insert_ne by lia. }
  destruct (attach s s3 v x x n blk) as [G C]; try done; try lia.
  - by etrans.
  - unfold s3; simpl. by rewrite Hv, insert_id.
  - by left.
  - apply (fo_len _ _ F).
  - intros c Hc Hci. rewrite Hoth by done. apply Hd. congruence.
  - rewrite Hoth by done. done.
  - split; [done|]. rewrite <- ref_data by lia. rewrite Href by lia. by rewrite decide_True.
Qed.

Lemma bmap_indirect_alloc v x n s : good s -> f_vn s !! v = Some x -> file_ok s (sv_i x) -> 15 <= n < 143 ->
  wp (bmap_indirect v (n - 15) true) s (fun r s' => exists x', map_post s v x s' x' /\
    ((exists blk, r = (0, blk) /\ blk <> 0 /\ bmap_of (dsk s') (sv_i x') n = blk) \/
     (r = (ENOSPC, 0) /\ full s' /\ bmap_of (dsk s') (sv_i x') n = 0))).
Proof using Type.
  intros Hg Hx F Hn. unfold bmap_indirect, SFS_DBPERIDB, SFS_NINDIRECT. rewrite Z.div_small, Z.mod_small by lia. cbn [Z.leb Z.compare].
  apply wp_bind. eapply wp_mono; [by apply load_indirect_alloc|]. intros r s1 (x1 & P1 & [[Hne ->]|(-> & Hf & Hi0)]); cbn [Z.eqb negb].
  2:{ apply wp_ret. exists x1. split; [done|]. right. split_and!; try done. unfold bmap_of. by rewrite (proj2 (Z.ltb_ge _ _)), Hi0 by lia. }
  pose proof P1 as (G1 & _ & _). pose proof (gr_ok _ _ _ _ _ G1) as F1. pose proof (gr_good _ _ _ _ _ G1) as Hg1.
  assert (Hx1 : f_vn s1 !! v = Some x1) by (rewrite (gr_vn _ _ _ _ _ G1); apply lookup_insert_eq).
  destruct (indirect_words s1 (sv_i x1) F1 Hg1 Hne) as [Hl _]. set (ws := words_of_bytes _) in *.
  assert (Eb : nth (Z.to_nat (n - 15)) ws 0 = bmap_of (dsk s1) (sv_i x1) n)
    by (unfold bmap_of; by rewrite (proj2 (Z.ltb_ge _ _)), (proj2 (Z.eqb_neq _ _) Hne) by lia).
  pose proof (fo_ref _ _ F1 n ltac:(lia)) as Hr. rewrite ref_data in Hr by lia.
  rewrite nth_lookup_0 by lia. rewrite Eb. apply wp_bind. eapply wp_eq; [reflexivity|]. rewrite andb_true_r. apply wp_bind.
  destruct (Z.eqb_spec (bmap_of (dsk s1) (sv_i x1) n) 0) as [E0|Hnz].
  2:{ apply wp_ret. cbn [Z.eqb negb]. apply wp_bind. eapply wp_eq; [by apply check_used_ok|]. apply wp_ret. exists x1. split; [done|]. left. by eexists. }
  apply wp_bind. eapply wp_mono; [by apply balloc_good|]. intros r s2 (Hg2 & Hk2 & Hv2 & [(blk & -> & Hb & Hfr & _ & Hm & Hz & Hd)|(-> & -> & Hf)]); cbn [Z.eqb negb].
  2:{ apply wp_ret. cbn [Z.eqb negb]. apply wp_ret. exists x1. split; [done|]. by right. }
  destruct (fo_ref _ _ F1 143 ltac:(lia)) as [?|[Hri _]]; [done|]. change (ref (dsk s1) (sv_i x1) 143) with (sfi_indirect (sv_i x1)) in Hri.
  destruct (writeblock_good (sfi_indirect (sv_i x1)) (bytes_of_words (<[Z.to_nat (n - 15) := blk]> ws)) s2 Hg2) as (d & Hrun & Hg3 & Hk3 & Hi3 & Ho3).
  { rewrite (kept_nblk _ _ Hk2). lia. }
  { rewrite length_bytes_of_words, length_insert, Hl. done. }
  destruct (attach_word s1 s2 d v x1 n blk) as [P2 B]; try done; [by rewrite ref_data by lia|].
  apply wp_bind. eapply wp_eq; [exact Hrun|]. apply wp_ret. cbn [Z.eqb negb]. apply wp_bind. eapply wp_eq; [apply (check_used_ok blk _ Hg3)|].
  { right. rewrite (kept_nblk _ _ Hk3), (kept_nblk _ _ Hk2). split; [lia|]. change (marked s2 blk = true). by rewrite Hm, decide_True by lia. }
  apply wp_ret. exists x1. split; [by eapply map_post_trans|]. left. exists blk. split_and!; [done|lia|done].
Qed.

Lemma bmap_alloc v x n s : good s -> f_vn s !! v = Some x -> file_ok s (sv_i x) -> 0 <= n < 143 ->
  wp (sfs_bmap v n true) s (fun r s' => exists x', map_post s v x s' x' /\
    ((exists blk, r = (0, blk) /\ blk <> 0 /\ bmap_of (dsk s') (sv_i x') n = blk) \/
     (r = (ENOSPC, 0) /\ full s' /\ bmap_of (dsk s') (sv_i x') n = 0))).
Proof using Type.
  intros Hg Hx F Hn. unfold wp. rewrite bmap_enter by done. destruct (Z.ltb_spec n 15).
  - apply (bmap_direct_alloc v x n s); try done; lia.
  - apply (bmap_indirect_alloc v x n s); try done; lia.
Qed.

End Ops.
End SfsMap.
