(* ===== verification/SfsFile.v ===== *)
(** * Files as arrays of bytes: sfs_io.c

    [fbyte] is the byte of a file at a position, through the map of its blocks; [sfs_io]
    reads and writes that array, block by block, for a uio over one kernel buffer. *)

From S2P Require Import Prelude Bitmap Uio Lhd SfsData Sfs SfsOps SfsBlocks SfsMap.

Module SfsFile.
Import Uio Lhd Bitmap SfsData Sfs SfsOps SfsBlocks SfsMap.

(** The largest size of a file. *)
Definition MAXFILE : Z := 143 * 512.

Definition fbyte (d : Z -> list Z) (i : sfs_dinode) (pos : Z) : Z := nth (Z.to_nat (pos mod 512)) (content d i (pos / 512)) 0.
Definition frange (d : Z -> list Z) (i : sfs_dinode) (off k : Z) : list Z := map (fbyte d i) (seqZ off k).

Lemma frange_app d i off k k' : 0 <= k -> 0 <= k' -> frange d i off k ++ frange d i (off + k) k' = frange d i off (k + k').
Proof. intros Hk Hk'. unfold frange. by rewrite (seqZ_app off k k'), map_app by done. Qed.

Lemma frange_0 d i off : frange d i off 0 = [].
Proof. done. Qed.

Lemma frange_len d i off k : 0 <= k -> Z.of_nat (length (frange d i off k)) = k.
Proof. intros Hk. unfold frange. rewrite length_map, length_seqZ. lia. Qed.

Lemma frange_lookup d i off k n y : frange d i off k !! n = Some y <-> Z.of_nat n < k /\ y = fbyte d i (off + Z.of_nat n).
Proof.
  unfold frange. rewrite list_lookup_fmap_Some. split.
  - intros (p & -> & Hp). by apply lookup_seqZ in Hp as [-> ?].
  - intros [Hn ->]. exists (off + Z.of_nat n). split; [done|]. by apply lookup_seqZ.
Qed.

(** A part of one block. *)
Lemma frange_block d i off k : length (content d i (off / 512)) = 512%nat -> 0 <= off -> 0 <= k -> off mod 512 + k <= 512 ->
  take (Z.to_nat k) (drop (Z.to_nat (off mod 512)) (content d i (off / 512))) = frange d i off k.
Proof.
  intros Hl Ho Hk Hb. pose proof (Z.mod_pos_bound off 512 ltac:(lia)). apply list_eq_same_length with (n := Z.to_nat k).
  - pose proof (frange_len d i off k Hk). lia.
  - rewrite length_take, length_drop. lia.
  - intros n y z Hn Hy Hz. rewrite lookup_take_lt, lookup_drop in Hy by lia. apply frange_lookup in Hz as [_ ->].
    unfold fbyte. replace ((off + Z.of_nat n) / 512) with (off / 512) by (Z.to_euclidean_division_equations; lia).
    replace ((off + Z.of_nat n) mod 512) with (off mod 512 + Z.of_nat n) by (Z.to_euclidean_division_equations; lia).
    symmetry. apply nth_lookup_Some. by replace (Z.to_nat (off mod 512 + Z.of_nat n)) with (Z.to_nat (off mod 512) + n)%nat by lia.
Qed.

(** The bytes [bytes] put into a block at [skip]. *)
Lemma splice_nth (blk bytes : list Z) skip len k : length blk = 512%nat -> len = Z.of_nat (length bytes) -> 0 <= skip -> skip + len <= 512 ->
  0 <= k < 512 ->
  nth (Z.to_nat k) (take (Z.to_nat skip) blk ++ bytes ++ drop (Z.to_nat skip + Z.to_nat len) blk) 0 =
    if decide (skip <= k < skip + len) then nth (Z.to_nat (k - skip)) bytes 0 else nth (Z.to_nat k) blk 0.
Proof.
  intros Hb Hl Hs Hsl Hk. rewrite !nth_lookup. destruct (decide (skip <= k < skip + len)) as [Hin|Hout].
  - rewrite lookup_app_r, length_take by (rewrite length_take; lia). rewrite lookup_app_l by lia. do 2 f_equal. lia.
  - destruct (decide (k < skip)).
    + rewrite lookup_app_l by (rewrite length_take; lia). by rewrite lookup_take_lt by lia.
    + rewrite lookup_app_r, length_take by (rewrite length_take; lia). rewrite lookup_app_r, lookup_drop by lia. do 2 f_equal. lia.
Qed.

Section Ops.
Context {U H : Type} `{US : UserSpace U} `{HW : LhdHw H}.
Local Abbreviation fstate := (fstate U H) (only parsing).
Implicit Types s : fstate.

Lemma content_len s i n : length (content (dsk s) i n) = 512%nat.
Proof using Type. unfold content. destruct (_ =? 0); [done|apply dsk_len]. Qed.

(** A data block of the file is overwritten. *)
Lemma write_data s d v x n blk data : good s -> f_vn s !! v = Some x -> file_ok s (sv_i x) -> 0 <= n < 143 ->
  bmap_of (dsk s) (sv_i x) n = blk -> blk <> 0 -> good (with_disk d s) -> kept s (with_disk d s) ->
  dsk (with_disk d s) blk = data -> (forall c, c <> blk -> dsk (with_disk d s) c = dsk s c) ->
  grows s (with_disk d s) v x x /\
  forall m, 0 <= m < 143 -> content (dsk (with_disk d s)) (sv_i x) m = if decide (m = n) then data else content (dsk s) (sv_i x) m.
Proof using Type.
  intros Hg Hx F Hn Hb Hne Hg' Hk Hd Ho. set (s' := with_disk d s) in *.
  assert (Hrn : ref (dsk s) (sv_i x) n = blk) by by rewrite ref_data.
  assert (Hind : sfi_indirect (sv_i x) <> blk).
  { intros E. assert (143 = n); [|lia]. apply (fo_inj _ _ F); try lia; change (ref (dsk s) (sv_i x) 143) with (sfi_indirect (sv_i x)); congruence. }
  assert (Href : forall m, ref (dsk s') (sv_i x) m = ref (dsk s) (sv_i x) m) by (intros m; apply ref_ext; intros _; by apply Ho).
  split.
  - split; try done; try (by left).
    + by rewrite insert_id.
    + apply (file_ok_ext s); [done|by apply kept_nblk|auto|done].
    + intros m Hm E. by rewrite Href.
    + intros c Hc Hm Hno. apply Ho. intros ->. by apply (Hno n ltac:(lia)).
  - intros m Hm. unfold content. rewrite <- !ref_data by done. rewrite Href. destruct (decide (m = n)) as [->|Hmn].
    + rewrite Hrn, (proj2 (Z.eqb_neq _ _) Hne). done.
    + destruct (Z.eqb_spec (ref (dsk s) (sv_i x) m) 0) as [|Hm0]; [done|]. apply Ho. intros E. apply Hmn.
      apply (fo_inj _ _ F); try lia; congruence.
Qed.

(** ** Writing *)

(** [k] bytes of [a] have been written at [off]. *)
Definition wrote (s : fstate) (v : Z) (x : sfs_vnode) (s' : fstate) (x' : sfs_vnode) (off k : Z) (a : list Z) : Prop :=
  grows s s' v x x' /\ sfi_size (sv_i x') = sfi_size (sv_i x) /\
  forall pos, 0 <= pos < MAXFILE -> fbyte (dsk s') (sv_i x') pos =
    if decide (off <= pos < off + k) then nth (Z.to_nat (pos - off)) a 0 else fbyte (dsk s) (sv_i x) pos.

Lemma wrote_trans s1 s2 s3 v x1 x2 x3 off k k' a : file_ok s1 (sv_i x1) -> 0 <= k -> 0 <= k' -> k <= Z.of_nat (length a) ->
  wrote s1 v x1 s2 x2 off k a -> wrote s2 v x2 s3 x3 (off + k) k' (drop (Z.to_nat k) a) -> wrote s1 v x1 s3 x3 off (k + k') a.
Proof using Type.
  intros F Hk Hk' Hl (G1 & Z1 & B1) (G2 & Z2 & B2). split; [by eapply grows_trans|]. split; [congruence|].
  intros pos Hp. rewrite B2 by done. destruct (decide (off + k <= pos < off + k + k')) as [Hin|Hout].
  - rewrite decide_True by lia. rewrite !nth_lookup, lookup_drop. do 2 f_equal. lia.
  - rewrite B1 by done. destruct (decide (off <= pos < off + k)), (decide (off <= pos < off + (k + k'))); try lia; done.
Qed.

Lemma wrote_nothing s v x s' x' off a : map_post s v x s' x' -> wrote s v x s' x' off 0 a.
Proof using Type.
  intros (G & Zs & C). split; [done|]. split; [done|]. intros pos Hp. rewrite decide_False by lia. unfold fbyte.
  rewrite C; [done|]. unfold MAXFILE in Hp. Z.to_euclidean_division_equations; lia.
Qed.

(** What a write of up to [len] bytes at [off], inside one block, ends with. *)
Definition chunk_post (s : fstate) (v : Z) (x : sfs_vnode) (b a : list Z) (off res len : Z) (r : Z * uio) (s' : fstate) : Prop :=
  exists x',
    (r = (0, kuio (b ++ take (Z.to_nat len) a) (drop (Z.to_nat len) a) (off + len) (res - len) UIO_WRITE) /\
       wrote s v x s' x' off len a /\ off + len <= MAXFILE) \/
    (r.2 = kuio b a off res UIO_WRITE /\ wrote s v x s' x' off 0 a /\
       ((r.1 = ENOSPC /\ full s') \/ (r.1 = EFBIG /\ MAXFILE <= off))).

(** The bytes of a file one of whose blocks has new contents. *)
Lemma fbyte_block s v x s1 x1 s2 off len a data : map_post s v x s1 x1 -> 0 <= off -> 0 < len -> off mod 512 + len <= 512 ->
  off / 512 < 143 -> file_ok s (sv_i x) -> grows s1 s2 v x1 x1 ->
  (forall m, 0 <= m < 143 -> content (dsk s2) (sv_i x1) m = if decide (m = off / 512) then data else content (dsk s1) (sv_i x1) m) ->
  (forall k, 0 <= k < 512 -> nth (Z.to_nat k) data 0 =
     if decide (off mod 512 <= k < off mod 512 + len) then nth (Z.to_nat (k - off mod 512)) a 0
     else nth (Z.to_nat k) (content (dsk s) (sv_i x) (off / 512)) 0) ->
  wrote s v x s2 x1 off len a.
Proof using Type.
  intros (G & Zs & C) Ho Hl Hb Hn F G2 C2 Hd. split; [by eapply grows_trans|]. split; [done|]. intros pos Hp. unfold MAXFILE in Hp.
  unfold fbyte. rewrite C2 by (Z.to_euclidean_division_equations; lia). destruct (decide (pos / 512 = off / 512)) as [E|Hne].
  - rewrite Hd by (apply Z.mod_pos_bound; lia). rewrite E.
    destruct (decide (off <= pos < off + len)), (decide (off mod 512 <= pos mod 512 < off mod 512 + len)); try done;
      try (exfalso; Z.to_euclidean_division_equations; lia). do 2 f_equal. Z.to_euclidean_division_equations; lia.
  - rewrite C by (Z.to_euclidean_division_equations; lia). rewrite decide_False; [done|]. intros [? ?]. apply Hne. Z.to_euclidean_division_equations; lia.
Qed.

Lemma f_user {A} (m : M U A) s a : m (ds_user (f_d s)) = Ret a (ds_user (f_d s)) -> zoom (zoom m : M dstate A) s = Ret a s.
Proof using Type.
  intros E. destruct s as [f vn [l us] h dp]; simpl in *. unfold zoom. simpl. by rewrite E.
Qed.

Lemma held_good s : good s -> vfs_biglock_do_i_hold s = Ret true s.
Proof using Type. intros (f & b & V). unfold vfs_biglock_do_i_hold. msimpl. by rewrite (vo_held _ _ _ V). Qed.

Lemma chunk_fails s v x s' x' b a off res e len : map_post s v x s' x' -> (e = ENOSPC /\ full s') \/ (e = EFBIG /\ MAXFILE <= off) ->
  chunk_post s v x b a off res len (e, kuio b a off res UIO_WRITE) s'.
Proof using Type. intros P He. exists x'. right. split; [done|]. split; [by apply wrote_nothing|done]. Qed.

(** The block under a write: it is there afterwards, the volume is full, or the file would
    be too long. *)
Lemma bmap_for_write s v x off : good s -> f_vn s !! v = Some x -> file_ok s (sv_i x) -> 0 <= off < 2 ^ 41 ->
  wp (sfs_bmap v (u32 (off / 512)) true) s (fun r s' => exists x', map_post s v x s' x' /\
    ((exists blk, r = (0, blk) /\ blk <> 0 /\ off / 512 < 143 /\ bmap_of (dsk s') (sv_i x') (off / 512) = blk) \/
     (exists e, r = (e, 0) /\ e <> 0 /\ ((e = ENOSPC /\ full s') \/ (e = EFBIG /\ MAXFILE <= off)) /\
        (off / 512 < 143 -> bmap_of (dsk s) (sv_i x) (off / 512) = 0)))).
Proof using Type.
  intros Hg Hx F Ho. rewrite u32_small by (Z.to_euclidean_division_equations; lia).
  destruct (decide (off / 512 < 143)) as [Hlt|Hge].
  - eapply wp_mono; [apply (bmap_alloc v x (off / 512) s); try done; split; [apply Z.div_pos; lia|lia]|].
    intros r s' (x' & P & [(blk & -> & Hb & Hm)|(-> & Hf & Hb0)]); exists x'; (split; [done|]).
    + left. exists blk. done.
    + right. exists ENOSPC. split_and!; try done; [by left|]. intros _. assert (Hn : 0 <= off / 512 < 143) by (split; [apply Z.div_pos; lia|done]).
      rewrite <- ref_data in Hb0 |- * by done. destruct (decide (ref (dsk s) (sv_i x) (off / 512) = 0)) as [|Hne]; [done|].
      by rewrite <- (gr_own _ _ _ _ _ (proj1 P)) by (try done; lia).
  - eapply wp_eq; [apply bmap_efbig; [|lia]|]. { destruct Hg as (f & b & V). apply (vo_held _ _ _ V). }
    exists x. split; [by apply map_post_refl|]. right. exists EFBIG. split_and!; try done. right. split; [done|].
    unfold MAXFILE. Z.to_euclidean_division_equations; lia.
Qed.

Lemma partialio_write s v x b a off res len : good s -> f_vn s !! v = Some x -> file_ok s (sv_i x) ->
  0 <= off < 2 ^ 41 -> 0 < len <= res -> off mod 512 + len <= 512 -> res <= Z.of_nat (length a) < 2 ^ 32 ->
  wp (sfs_partialio v (kuio b a off res UIO_WRITE) (off mod 512) len) s (chunk_post s v x b a off res len).
Proof using Type.
  intros Hg Hx F Ho Hl Hb Ha. pose proof (Z.mod_pos_bound off 512 ltac:(lia)) as Hmod. unfold sfs_partialio, SFS_BLOCKSIZE.
  apply wp_bind, wp_KASSERT; [lia|]. apply wp_bind. eapply wp_eq; [by apply held_good|]. apply wp_bind, wp_KASSERT; [done|].
  cbn [kuio uio_offset is_read uio_dir]. change (negb (bool_decide (UIO_WRITE = UIO_READ))) with true.
  apply wp_bind. eapply wp_mono; [by apply (bmap_for_write s v x off)|].
  intros r s1 (x1 & P & [(blk & -> & Hne & Hlt & Hbm)|(e & -> & He & Hwhy & _)]).
  2:{ rewrite (proj2 (Z.eqb_neq _ _) He). cbn [negb]. apply wp_ret. by eapply chunk_fails. }
  cbn [Z.eqb negb]. rewrite (proj2 (Z.eqb_neq _ _) Hne). pose proof P as (G & Zs & C). pose proof (gr_good _ _ _ _ _ G) as Hg1.
  pose proof (gr_ok _ _ _ _ _ G) as F1. assert (Hx1 : f_vn s1 !! v = Some x1) by (rewrite (gr_vn _ _ _ _ _ G); apply lookup_insert_eq).
  assert (Hn : 0 <= off / 512 < 143) by (split; [apply Z.div_pos; lia|done]).
  assert (Hblk : 0 <= blk < nblk s1).
  { rewrite <- Hbm. apply (block_in_range _ _ _ F1 Hn). by rewrite Hbm. }
  destruct (readblock_good blk zeros s1 Hg1 Hblk eq_refl) as (d2 & Hrd & Hg2 & Hk2 & Hd2). set (s2 := with_disk d2 s1) in *.
  apply wp_bind. eapply wp_eq; [exact Hrd|]. cbn [Z.eqb negb].
  assert (Hold : dsk s1 blk = content (dsk s) (sv_i x) (off / 512)).
  { rewrite <- C by done. unfold content. by rewrite Hbm, (proj2 (Z.eqb_neq _ _) Hne). }
  pose proof (uiomove_one (drop (Z.to_nat (off mod 512)) (dsk s1 blk)) len b a off res UIO_WRITE (ds_user (f_d s2))) as Hu.
  rewrite length_drop, dsk_len in Hu. specialize (Hu ltac:(lia) ltac:(lia) ltac:(lia) ltac:(lia) ltac:(lia)). rewrite decide_False in Hu by done.
  apply wp_bind. eapply wp_eq; [apply f_user; exact Hu|]. cbn [Z.eqb negb]. rewrite drop_drop.
  set (data := take (Z.to_nat (off mod 512)) (dsk s1 blk) ++ take (Z.to_nat len) a ++ drop (Z.to_nat (off mod 512) + Z.to_nat len) (dsk s1 blk)).
  assert (Hdata : length data = 512%nat).
  { unfold data. rewrite !length_app, !length_take, length_drop, dsk_len. lia. }
  destruct (writeblock_good blk data s2 Hg2) as (d3 & Hwr & Hg3 & Hk3 & Hd3 & Ho3); [by rewrite (kept_nblk _ _ Hk2)|done|].
  apply wp_bind. eapply wp_eq; [exact Hwr|]. apply wp_ret. exists x1. left. split; [done|]. split.
  2:{ unfold MAXFILE. Z.to_euclidean_division_equations; lia. }
  destruct (write_data s1 d3 v x1 (off / 512) blk data) as [G3 C3]; try done.
  { by etrans. }
  { intros c Hc. etrans; [by apply Ho3|apply Hd2]. }
  apply (fbyte_block s v x s1 x1 _ off len a data); try done; try lia. intros k Hk. rewrite <- Hold. unfold data.
  rewrite (splice_nth (dsk s1 blk) (take (Z.to_nat len) a) (off mod 512) len k) by (try apply dsk_len; try rewrite length_take; lia).
  destruct (decide (off mod 512 <= k < off mod 512 + len)); [|done]. by rewrite !nth_lookup, lookup_take_lt by lia.
Qed.

Lemma set_pos_kuio b a off res off' res' rw : set_pos off' res' (kuio b a off res rw) = kuio b a off' res' rw.
Proof using Type. done. Qed.

Lemma blockio_write s v x b a off res : good s -> f_vn s !! v = Some x -> file_ok s (sv_i x) ->
  0 <= off < 2 ^ 41 -> off mod 512 = 0 -> 512 <= res -> res <= Z.of_nat (length a) < 2 ^ 32 ->
  wp (sfs_blockio v (kuio b a off res UIO_WRITE)) s (chunk_post s v x b a off res 512).
Proof using Type.
  intros Hg Hx F Ho Hmod Hl Ha. unfold sfs_blockio, SFS_BLOCKSIZE.
  cbn [kuio uio_offset is_read uio_dir uio_resid]. change (negb (bool_decide (UIO_WRITE = UIO_READ))) with true.
  apply wp_bind. eapply wp_mono; [by apply (bmap_for_write s v x off)|].
  intros r s1 (x1 & P & [(blk & -> & Hne & Hlt & Hbm)|(e & -> & He & Hwhy & _)]).
  2:{ rewrite (proj2 (Z.eqb_neq _ _) He). cbn [negb]. apply wp_ret. by eapply chunk_fails. }
  cbn [Z.eqb negb]. rewrite (proj2 (Z.eqb_neq _ _) Hne). pose proof P as (G & Zs & C). pose proof (gr_good _ _ _ _ _ G) as Hg1.
  pose proof (gr_ok _ _ _ _ _ G) as F1. assert (Hx1 : f_vn s1 !! v = Some x1) by (rewrite (gr_vn _ _ _ _ _ G); apply lookup_insert_eq).
  assert (Hn : 0 <= off / 512 < 143) by (split; [apply Z.div_pos; lia|done]).
  assert (Hblk : 0 <= blk < nblk s1).
  { rewrite <- Hbm. apply (block_in_range _ _ _ F1 Hn). by rewrite Hbm. }
  pose proof (nblk_small s1 Hg1). apply wp_bind, wp_KASSERT; [lia|]. rewrite (u32_small (blk * 512)) by lia.
  destruct (rwblock_good UIO_WRITE b a blk s1 Hg1 Hblk ltac:(lia)) as (d & Hrun & Hg2 & Hk2 & Ho2 & Hd2).
  specialize (Hd2 eq_refl). rewrite decide_False in Hrun by done.
  change (mk_uio [] [mk_iov (KBuf b a) (Z.of_nat (length a))] off res UIO_SYSSPACE UIO_WRITE 0) with (kuio b a off res UIO_WRITE).
  rewrite set_pos_kuio. apply wp_bind. eapply wp_eq; [exact Hrun|]. apply wp_ret. exists x1. left. split; [|split].
  - rewrite set_pos_kuio. cbn [kuio uio_offset uio_resid]. f_equal. change (Z.to_nat 512) with 512%nat. f_equal; [lia|].
    rewrite u32_small by lia. lia.
  - destruct (write_data s1 d v x1 (off / 512) blk (take 512 a)) as [G3 C3]; try done.
    { intros c Hc. apply Ho2. by right. }
    apply (fbyte_block s v x s1 x1 _ off 512 a (take 512 a)); try done; try lia. intros k Hk. rewrite decide_True by lia.
    rewrite !nth_lookup, lookup_take_lt by lia. do 2 f_equal. lia.
  - unfold MAXFILE. Z.to_euclidean_division_equations; lia.
Qed.

(** What a write of [want] bytes ends with: all of them are in the file, or the ones the uio
    has been advanced over. *)
Definition io_post (s : fstate) (v : Z) (x : sfs_vnode) (b a : list Z) (off res want : Z) (r : Z * uio) (s' : fstate) : Prop :=
  exists x' k, 0 <= k <= want /\ wrote s v x s' x' off k a /\
    r.2 = kuio (b ++ take (Z.to_nat k) a) (drop (Z.to_nat k) a) (off + k) (res - k) UIO_WRITE /\ (k = 0 \/ off + k <= MAXFILE) /\
    ((r.1 = 0 /\ k = want) \/ (k < want /\ ((r.1 = ENOSPC /\ full s') \/ (r.1 = EFBIG /\ MAXFILE <= off + k)))).

Lemma chunk_io s v x b a off res len r s' : 0 < len -> chunk_post s v x b a off res len r s' -> io_post s v x b a off res len r s'.
Proof using Type.
  intros Hl (x' & [(-> & W & Hm)|(Hr & W & Hwhy)]).
  - exists x', len. split_and!; try done; try lia; by left.
  - exists x', 0. rewrite Z.add_0_r, Z.sub_0_r, take_0, drop_0, app_nil_r. split_and!; try done; try lia. right. split; [lia|done].
Qed.

Lemma io_seq s v x s1 x1 b a off res k want r s2 : file_ok s (sv_i x) -> 0 <= k <= Z.of_nat (length a) -> 0 <= want -> (k = 0 \/ off + k <= MAXFILE) ->
  wrote s v x s1 x1 off k a ->
  io_post s1 v x1 (b ++ take (Z.to_nat k) a) (drop (Z.to_nat k) a) (off + k) (res - k) want r s2 ->
  io_post s v x b a off res (k + want) r s2.
Proof using Type.
  intros F Hk Hw Hmax W (x2 & k2 & Hk2 & W2 & Hr & Hm & Hwhy). exists x2, (k + k2). split_and!; try lia.
  - by eapply wrote_trans; try done; lia.
  - rewrite Hr. rewrite drop_drop, <- app_assoc. replace (Z.to_nat (k + k2)) with (Z.to_nat k + Z.to_nat k2)%nat by lia.
    rewrite take_take_drop. f_equal; lia.
  - replace (off + (k + k2)) with (off + k + k2) by lia. destruct Hwhy as [[? ->]|[? [[? ?]|[? ?]]]]; [left; split; [done|lia]|right; split; [lia|by left]|].
    right. split; [lia|]. right. done.
Qed.

Lemma block_loop_write n : forall s v x b a off res, good s -> f_vn s !! v = Some x -> file_ok s (sv_i x) ->
  0 <= off -> off + res < 2 ^ 41 -> off mod 512 = 0 -> 512 * Z.of_nat n <= res -> res <= Z.of_nat (length a) < 2 ^ 32 ->
  wp (block_loop n v (kuio b a off res UIO_WRITE)) s (io_post s v x b a off res (512 * Z.of_nat n)).
Proof using Type.
  induction n as [|n IH]; intros s v x b a off res Hg Hx F Ho H41 Hmod Hn Ha; cbn [block_loop].
  - apply wp_ret. exists x, 0. rewrite Z.add_0_r, Z.sub_0_r, take_0, drop_0, app_nil_r. split_and!; try done; try lia; [|by left].
    apply wrote_nothing. by apply map_post_refl.
  - apply wp_bind. eapply wp_mono; [apply (blockio_write s v x); try done; lia|]. intros r s1 Hc.
    pose proof Hc as (x1 & [(-> & W & Hm)|(Hr & W & Hwhy)]).
    + cbn [fst snd Z.eqb negb]. pose proof W as (G & _ & _).
      replace (512 * Z.of_nat (S n)) with (512 + 512 * Z.of_nat n) by lia.
      eapply wp_mono; [apply (IH s1 v x1)|intros r2 s2 P2; eapply io_seq; try done; lia]; try lia.
      * apply (gr_good _ _ _ _ _ G).
      * rewrite (gr_vn _ _ _ _ _ G). apply lookup_insert_eq.
      * apply (gr_ok _ _ _ _ _ G).
      * Z.to_euclidean_division_equations; lia.
      * rewrite length_drop. lia.
    + assert (He : r.1 <> 0) by (destruct Hwhy as [[-> _]|[-> _]]; done). rewrite (proj2 (Z.eqb_neq _ _) He). cbn [negb]. apply wp_ret.
      exists x1, 0. rewrite Z.add_0_r, Z.sub_0_r, take_0, drop_0, app_nil_r. split_and!; try done; try lia. right. split; [lia|done].
Qed.

(** The aligned rest of a write: whole blocks, then the start of the last one. *)
Definition io_rest (v : Z) (u : uio) : M fstate (Z * uio) :=
  _ ← KASSERT (uio_offset u mod SFS_BLOCKSIZE =? 0);
  r ← block_loop (Z.to_nat (uio_resid u / SFS_BLOCKSIZE)) v u;
  let '(result, u) := r in
  if negb (result =? 0) then mret (result, u) else
  _ ← KASSERT (uio_resid u <? SFS_BLOCKSIZE);
  if 0 <? uio_resid u then sfs_partialio v u 0 (uio_resid u) else mret (0, u).

Lemma io_more s v x b a off res want r s' : io_post s v x b a off res want r s' -> r.1 <> 0 -> forall want', want <= want' ->
  io_post s v x b a off res want' r s'.
Proof using Type.
  intros (x' & k & Hk & W & Hr & Hm & [[E _]|[? Hwhy]]) Hne want' Hw; [done|]. exists x', k. split_and!; try done; try lia. right. split; [lia|done].
Qed.

Lemma io_rest_write s v x b a off res : good s -> f_vn s !! v = Some x -> file_ok s (sv_i x) ->
  0 <= off -> off + res < 2 ^ 41 -> off mod 512 = 0 -> 0 <= res -> res <= Z.of_nat (length a) < 2 ^ 32 ->
  wp (io_rest v (kuio b a off res UIO_WRITE)) s (io_post s v x b a off res res).
Proof using Type.
  intros Hg Hx F Ho H41 Hmod Hres Ha. unfold io_rest, SFS_BLOCKSIZE. apply wp_bind, wp_KASSERT; [cbn [kuio uio_offset]; lia|].
  change (uio_resid (kuio b a off res UIO_WRITE)) with res. set (n := Z.to_nat (res / 512)).
  assert (Hn : 512 * Z.of_nat n <= res < 512 * Z.of_nat n + 512) by (unfold n; Z.to_euclidean_division_equations; lia).
  apply wp_bind. eapply wp_mono; [apply (block_loop_write n s v x); try done; lia|]. intros [e u] s1 P.
  destruct (Z.eqb_spec e 0) as [->|He]; cbn [negb].
  2:{ apply wp_ret. eapply io_more; [exact P|done|lia]. }
  destruct P as (x1 & k & Hk & W & Hr & Hm & [[_ ->]|[_ Hwhy]]); [|simpl in Hwhy; by destruct Hwhy as [[? ?]|[? ?]]]. simpl in Hr. subst u.
  set (k := 512 * Z.of_nat n) in *. pose proof W as (G & _ & _). cbn [kuio uio_resid].
  apply wp_bind, wp_KASSERT; [lia|]. change (mk_uio [] [mk_iov (KBuf ?b ?a) _] ?o ?r UIO_SYSSPACE UIO_WRITE 0) with (kuio b a o r UIO_WRITE).
  replace (io_post s v x b a off res res) with (io_post s v x b a off res (k + (res - k))) by (f_equal; lia). destruct (Z.ltb_spec 0 (res - k)) as [Hpos|Hz].
  - assert (Hm0 : (off + k) mod 512 = 0) by (unfold k; Z.to_euclidean_division_equations; lia).
    rewrite <- Hm0 at 1. eapply wp_mono; [apply (partialio_write s1 v x1); try lia|].
    + apply (gr_good _ _ _ _ _ G).
    + rewrite (gr_vn _ _ _ _ _ G). apply lookup_insert_eq.
    + apply (gr_ok _ _ _ _ _ G).
    + rewrite length_drop. lia.
    + intros r s2 P2. eapply io_seq; try done; try lia. apply chunk_io; [lia|done].
  - assert (res - k = 0) as -> by lia. rewrite Z.add_0_r. apply wp_ret. exists x1, k. split_and!; try done; try lia; [|by left].
    simpl. f_equal. lia.
Qed.

Lemma io_body_write s v x b a off res : good s -> f_vn s !! v = Some x -> file_ok s (sv_i x) ->
  0 <= off -> off + res < 2 ^ 41 -> 0 < res -> res <= Z.of_nat (length a) < 2 ^ 32 ->
  wp (io_body v (kuio b a off res UIO_WRITE)) s (io_post s v x b a off res res).
Proof using Type.
  intros Hg Hx F Ho H41 Hres Ha. pose proof (Z.mod_pos_bound off 512 ltac:(lia)) as Hmod. unfold io_body, SFS_BLOCKSIZE.
  change (uio_offset (kuio b a off res UIO_WRITE)) with off. change (uio_resid (kuio b a off res UIO_WRITE)) with res.
  destruct (Z.eqb_spec (off mod 512) 0) as [E0|Hne]; cbn [negb].
  - apply wp_bind, wp_ret. cbn [Z.eqb negb]. change (uio_resid (kuio b a off res UIO_WRITE)) with res.
    rewrite (proj2 (Z.eqb_neq res 0)) by lia. by apply (io_rest_write s v x b a off res); try lia.
  - set (len := if res <? 512 - off mod 512 then res else 512 - off mod 512).
    assert (Hlen : 0 < len <= res /\ off mod 512 + len <= 512 /\ (len < res -> off mod 512 + len = 512))
      by (unfold len; destruct (Z.ltb_spec res (512 - off mod 512)); lia).
    apply wp_bind. eapply wp_mono; [apply (partialio_write s v x); try done; lia|]. intros [e u] s1 P.
    pose proof P as (x1 & [(E & W & Hm)|(E & W & Hwhy)]).
    + injection E as -> ->. cbn [Z.eqb negb]. change (uio_resid (kuio _ _ _ (res - len) UIO_WRITE)) with (res - len).
      destruct (Z.eqb_spec (res - len) 0) as [Ez|Hnz].
      * apply wp_ret. apply chunk_io in P; [|lia]. by replace len with res in P at 1 by lia.
      * pose proof W as (G & _ & _). replace (io_post s v x b a off res res) with (io_post s v x b a off res (len + (res - len))) by (f_equal; lia). eapply wp_mono; [apply (io_rest_write s1 v x1); try lia|].
        -- apply (gr_good _ _ _ _ _ G).
        -- rewrite (gr_vn _ _ _ _ _ G). apply lookup_insert_eq.
        -- apply (gr_ok _ _ _ _ _ G).
        -- Z.to_euclidean_division_equations; lia.
        -- rewrite length_drop. lia.
        -- intros r s2 P2. eapply io_seq; try done; try lia.
    + simpl in E. assert (He : e <> 0) by (destruct Hwhy as [[? _]|[? _]]; simpl in *; subst; done). rewrite (proj2 (Z.eqb_neq _ _) He). cbn [negb].
      apply wp_ret. apply chunk_io in P; [|lia]. eapply io_more; [exact P|done|lia].
Qed.

(** ** Reading *)

(** Only the card and the driver have been at work. *)
Definition quiet (s s' : fstate) : Prop := exists d, s' = with_disk d s /\ good s' /\ kept s s' /\ forall c, dsk s' c = dsk s c.

Lemma quiet_refl s : good s -> quiet s s.
Proof using Type. intros Hg. exists (f_d s). split; [by destruct s|]. done. Qed.

Lemma quiet_trans s1 s2 s3 : quiet s1 s2 -> quiet s2 s3 -> quiet s1 s3.
Proof using Type.
  intros (d & -> & G1 & K1 & D1) (d' & -> & G2 & K2 & D2). exists d'. split; [done|]. split; [done|]. split; [by etrans|].
  intros c. by rewrite D2, D1.
Qed.

Lemma ref_pointwise d d' i n : (forall c, d' c = d c) -> ref d' i n = ref d i n.
Proof using Type. intros E. by apply ref_ext. Qed.

Lemma content_pointwise d d' i n : (forall c, d' c = d c) -> content d' i n = content d i n.
Proof using Type.
  intros E. unfold content, bmap_of. rewrite !E. done.
Qed.

Lemma frange_pointwise d d' i off k : (forall c, d' c = d c) -> frange d' i off k = frange d i off k.
Proof using Type.
  intros E. unfold frange. apply list_fmap_ext. intros n p _. unfold fbyte. by rewrite (content_pointwise d d').
Qed.

Lemma quiet_file s s' v x : quiet s s' -> f_vn s !! v = Some x -> file_ok s (sv_i x) ->
  good s' /\ f_vn s' !! v = Some x /\ file_ok s' (sv_i x) /\ forall off k, frange (dsk s') (sv_i x) off k = frange (dsk s) (sv_i x) off k.
Proof using Type.
  intros (d & -> & G & K & D) Hx F. split_and!; try done.
  - apply (file_ok_ext s); [done|by apply kept_nblk|intros; by apply ref_pointwise|done].
  - intros off k. by apply frange_pointwise.
Qed.

Lemma partialio_read s v x b a off res len : good s -> f_vn s !! v = Some x -> file_ok s (sv_i x) ->
  0 <= off -> off + len <= MAXFILE -> 0 < len <= res -> off mod 512 + len <= 512 -> res <= Z.of_nat (length a) < 2 ^ 32 ->
  wp (sfs_partialio v (kuio b a off res UIO_READ) (off mod 512) len) s (fun r s' => quiet s s' /\
    r = (0, kuio (b ++ frange (dsk s) (sv_i x) off len) (drop (Z.to_nat len) a) (off + len) (res - len) UIO_READ)).
Proof using Type.
  intros Hg Hx F Ho Hmax Hl Hb Ha. pose proof (Z.mod_pos_bound off 512 ltac:(lia)) as Hmod. unfold sfs_partialio, SFS_BLOCKSIZE.
  apply wp_bind, wp_KASSERT; [lia|]. apply wp_bind. eapply wp_eq; [by apply held_good|]. apply wp_bind, wp_KASSERT; [done|].
  cbn [kuio uio_offset is_read uio_dir]. change (bool_decide (UIO_READ = UIO_READ)) with true. cbn [negb].
  assert (Hn : 0 <= off / 512 < 143) by (unfold MAXFILE in Hmax; Z.to_euclidean_division_equations; lia).
  rewrite u32_small by lia.
  destruct (bmap_lookup v x (off / 512) s Hg Hx F Hn) as (d1 & Hrun & Hg1 & Hk1 & Hd1). set (s1 := with_disk d1 s) in *.
  assert (Q1 : quiet s s1) by by exists d1.
  apply wp_bind. eapply wp_eq; [exact Hrun|]. cbn [Z.eqb negb].
  set (blk := bmap_of (dsk s) (sv_i x) (off / 512)).
  assert (Hread : exists s2, quiet s s2 /\ (if blk =? 0 then _ ← KASSERT true; mret (0, zeros) else sfs_readblock blk zeros) s1 =
    Ret (0, content (dsk s) (sv_i x) (off / 512)) s2).
  { unfold content. fold blk. destruct (Z.eqb_spec blk 0); [by exists s1|].
    destruct (readblock_good blk zeros s1 Hg1) as (d2 & Hrd & Hg2 & Hk2 & Hd2); [|done|].
    { rewrite (kept_nblk _ _ Hk1). by apply block_in_range. }
    rewrite Hd1 in Hrd. eexists. split; [|exact Hrd]. eapply quiet_trans; [exact Q1|]. by exists d2. }
  destruct Hread as (s2 & Q2 & Hread). apply wp_bind. eapply wp_eq; [exact Hread|]. cbn [Z.eqb negb].
  pose proof (uiomove_one (drop (Z.to_nat (off mod 512)) (content (dsk s) (sv_i x) (off / 512))) len b a off res UIO_READ (ds_user (f_d s2))) as Hu.
  rewrite length_drop, content_len in Hu. specialize (Hu ltac:(lia) ltac:(lia) ltac:(lia) ltac:(lia) ltac:(lia)). rewrite !decide_True in Hu by done.
  apply wp_bind. eapply wp_eq; [apply f_user; exact Hu|]. cbn [Z.eqb negb]. apply wp_ret. split; [done|].
  rewrite frange_block by (try apply content_len; lia). done.
Qed.

Lemma blockio_read s v x b a off res : good s -> f_vn s !! v = Some x -> file_ok s (sv_i x) ->
  0 <= off -> off + 512 <= MAXFILE -> off mod 512 = 0 -> 512 <= res -> res <= Z.of_nat (length a) < 2 ^ 32 ->
  wp (sfs_blockio v (kuio b a off res UIO_READ)) s (fun r s' => quiet s s' /\
    r = (0, kuio (b ++ frange (dsk s) (sv_i x) off 512) (drop 512 a) (off + 512) (res - 512) UIO_READ)).
Proof using Type.
  intros Hg Hx F Ho Hmax Hmod Hl Ha. unfold sfs_blockio, SFS_BLOCKSIZE.
  cbn [kuio uio_offset is_read uio_dir uio_resid]. change (bool_decide (UIO_READ = UIO_READ)) with true. cbn [negb].
  assert (Hn : 0 <= off / 512 < 143) by (unfold MAXFILE in Hmax; Z.to_euclidean_division_equations; lia).
  rewrite u32_small by lia.
  destruct (bmap_lookup v x (off / 512) s Hg Hx F Hn) as (d1 & Hrun & Hg1 & Hk1 & Hd1). set (s1 := with_disk d1 s) in *.
  assert (Q1 : quiet s s1) by by exists d1.
  apply wp_bind. eapply wp_eq; [exact Hrun|]. cbn [Z.eqb negb].
  assert (Hc : content (dsk s) (sv_i x) (off / 512) = frange (dsk s) (sv_i x) off 512).
  { rewrite <- frange_block by (try apply content_len; lia). rewrite Hmod. change (Z.to_nat 0) with 0%nat. rewrite drop_0.
    rewrite take_ge; [done|]. rewrite content_len. lia. }
  unfold content in Hc. set (blk := bmap_of (dsk s) (sv_i x) (off / 512)) in *.
  change (mk_uio [] [mk_iov (KBuf b a) (Z.of_nat (length a))] off res UIO_SYSSPACE UIO_READ 0) with (kuio b a off res UIO_READ).
  destruct (Z.eqb_spec blk 0) as [E0|Hne].
  - apply wp_bind, wp_KASSERT; [done|]. eapply wp_eq; [apply f_user, uiomovezeros_one; lia|]. split; [done|]. by rewrite <- Hc.
  - assert (Hblk : 0 <= blk < nblk s1).
    { rewrite (kept_nblk _ _ Hk1). by apply block_in_range. }
    pose proof (nblk_small s1 Hg1). apply wp_bind, wp_KASSERT; [lia|]. rewrite (u32_small (blk * 512)) by lia.
    destruct (rwblock_good UIO_READ b a blk s1 Hg1 Hblk ltac:(lia)) as (d2 & Hrd & Hg2 & Hk2 & Hd2 & _). rewrite decide_True in Hrd by done.
    rewrite set_pos_kuio. apply wp_bind. eapply wp_eq; [exact Hrd|]. apply wp_ret. split.
    + eapply quiet_trans; [exact Q1|]. exists d2. split_and!; try done. intros c. apply Hd2. by left.
    + rewrite set_pos_kuio. cbn [kuio uio_offset uio_resid]. rewrite Hd1, Hc. f_equal. f_equal; [lia|]. rewrite u32_small by lia. lia.
Qed.

(** All of [want] bytes have been read. *)
Definition read_post (s : fstate) (x : sfs_vnode) (b a : list Z) (off res want : Z) (r : Z * uio) (s' : fstate) : Prop :=
  quiet s s' /\ r = (0, kuio (b ++ frange (dsk s) (sv_i x) off want) (drop (Z.to_nat want) a) (off + want) (res - want) UIO_READ).

Lemma read_seq s v x s1 b a off res k want r s2 : f_vn s !! v = Some x -> file_ok s (sv_i x) -> 0 <= k -> 0 <= want -> quiet s s1 ->
  read_post s1 x (b ++ frange (dsk s) (sv_i x) off k) (drop (Z.to_nat k) a) (off + k) (res - k) want r s2 ->
  read_post s x b a off res (k + want) r s2.
Proof using Type.
  intros Hx F Hk Hw Q1 [Q2 ->]. split; [by eapply quiet_trans|]. destruct (quiet_file s s1 v x Q1 Hx F) as (_ & _ & _ & Hf).
  rewrite Hf, drop_drop, <- app_assoc, frange_app by lia. f_equal.
  replace (Z.to_nat (k + want)) with (Z.to_nat k + Z.to_nat want)%nat by lia. f_equal; lia.
Qed.

Lemma block_loop_read n : forall s v x b a off res, good s -> f_vn s !! v = Some x -> file_ok s (sv_i x) ->
  0 <= off -> off + 512 * Z.of_nat n <= MAXFILE -> off mod 512 = 0 -> 512 * Z.of_nat n <= res -> res <= Z.of_nat (length a) < 2 ^ 32 ->
  wp (block_loop n v (kuio b a off res UIO_READ)) s (read_post s x b a off res (512 * Z.of_nat n)).
Proof using Type.
  induction n as [|n IH]; intros s v x b a off res Hg Hx F Ho Hmax Hmod Hn Ha; cbn [block_loop].
  - apply wp_ret. split; [by apply quiet_refl|]. rewrite frange_0, app_nil_r, drop_0, Z.add_0_r, Z.sub_0_r. done.
  - apply wp_bind. eapply wp_mono; [apply (blockio_read s v x); try done; lia|]. intros r s1 [Q ->]. cbn [fst snd Z.eqb negb].
    destruct (quiet_file s s1 v x Q Hx F) as (Hg1 & Hx1 & F1 & _).
    replace (512 * Z.of_nat (S n)) with (512 + 512 * Z.of_nat n) by lia.
    eapply wp_mono; [apply (IH s1 v x)|intros r2 s2 P2; eapply read_seq; try done; lia]; try done; try lia.
    + Z.to_euclidean_division_equations; lia.
    + rewrite length_drop. lia.
Qed.

Lemma io_rest_read s v x b a off res : good s -> f_vn s !! v = Some x -> file_ok s (sv_i x) ->
  0 <= off -> off + res <= MAXFILE -> off mod 512 = 0 -> 0 <= res -> res <= Z.of_nat (length a) < 2 ^ 32 ->
  wp (io_rest v (kuio b a off res UIO_READ)) s (read_post s x b a off res res).
Proof using Type.
  intros Hg Hx F Ho Hmax Hmod Hres Ha. unfold io_rest, SFS_BLOCKSIZE. apply wp_bind, wp_KASSERT; [cbn [kuio uio_offset]; lia|].
  change (uio_resid (kuio b a off res UIO_READ)) with res. set (n := Z.to_nat (res / 512)).
  assert (Hn : 512 * Z.of_nat n <= res < 512 * Z.of_nat n + 512) by (unfold n; Z.to_euclidean_division_equations; lia).
  apply wp_bind. eapply wp_mono; [apply (block_loop_read n s v x); try done; lia|]. intros r s1 [Q ->]. cbn [Z.eqb negb].
  destruct (quiet_file s s1 v x Q Hx F) as (Hg1 & Hx1 & F1 & _). set (k := 512 * Z.of_nat n) in *. cbn [kuio uio_resid].
  apply wp_bind, wp_KASSERT; [lia|]. change (mk_uio [] [mk_iov (KBuf ?b ?a) _] ?o ?r UIO_SYSSPACE UIO_READ 0) with (kuio b a o r UIO_READ).
  replace (read_post s x b a off res res) with (read_post s x b a off res (k + (res - k))) by (f_equal; lia). destruct (Z.ltb_spec 0 (res - k)) as [Hpos|Hz].
  - assert (Hm0 : (off + k) mod 512 = 0) by (unfold k; Z.to_euclidean_division_equations; lia).
    rewrite <- Hm0 at 1. eapply wp_mono; [apply (partialio_read s1 v x); try done; try lia|].
    + rewrite length_drop. lia.
    + intros r s2 P2. eapply read_seq; try done; lia.
  - assert (Er : res - k = 0) by lia. rewrite Er, Z.add_0_r. apply wp_ret. split; [done|]. by rewrite Er.
Qed.

Lemma io_body_read s v x b a off res : good s -> f_vn s !! v = Some x -> file_ok s (sv_i x) ->
  0 <= off -> off + res <= MAXFILE -> 0 < res -> res <= Z.of_nat (length a) < 2 ^ 32 ->
  wp (io_body v (kuio b a off res UIO_READ)) s (read_post s x b a off res res).
Proof using Type.
  intros Hg Hx F Ho Hmax Hres Ha. pose proof (Z.mod_pos_bound off 512 ltac:(lia)) as Hmod. unfold io_body, SFS_BLOCKSIZE.
  change (uio_offset (kuio b a off res UIO_READ)) with off. change (uio_resid (kuio b a off res UIO_READ)) with res.
  destruct (Z.eqb_spec (off mod 512) 0) as [E0|Hne]; cbn [negb].
  - apply wp_bind, wp_ret. cbn [Z.eqb negb]. change (uio_resid (kuio b a off res UIO_READ)) with res.
    rewrite (proj2 (Z.eqb_neq res 0)) by lia. by apply (io_rest_read s v x b a off res); try lia.
  - set (len := if res <? 512 - off mod 512 then res else 512 - off mod 512).
    assert (Hlen : 0 < len <= res /\ off mod 512 + len <= 512 /\ (len < res -> off mod 512 + len = 512))
      by (unfold len; destruct (Z.ltb_spec res (512 - off mod 512)); lia).
    apply wp_bind. eapply wp_mono; [apply (partialio_read s v x); try done; lia|]. intros r s1 [Q ->]. cbn [Z.eqb negb].
    change (uio_resid (kuio _ _ _ (res - len) UIO_READ)) with (res - len). destruct (quiet_file s s1 v x Q Hx F) as (Hg1 & Hx1 & F1 & _).
    destruct (Z.eqb_spec (res - len) 0) as [Ez|Hnz].
    + apply wp_ret. assert (len = res) as -> by lia. by split.
    + replace (read_post s x b a off res res) with (read_post s x b a off res (len + (res - len))) by (f_equal; lia).
      eapply wp_mono; [apply (io_rest_read s1 v x); try done; try lia|].
      * Z.to_euclidean_division_equations; lia.
      * rewrite length_drop. lia.
      * intros r s2 P2. eapply read_seq; try done; lia.
Qed.

End Ops.
End SfsFile.
