(* ===== verification/SfsReadWrite.v ===== *)
(** * Reading and writing files: sfs_read and sfs_write of sfs_vnops.c

    The two operations as reads and writes of an array of bytes, on a mounted volume whose
    disk does not fail; what is written is read back, and the other files keep theirs. *)

From S2P Require Import Prelude Bitmap Uio Lhd SfsData Sfs SfsOps SfsBlocks SfsMap SfsFile.

Module SfsReadWrite.
Import Uio Lhd Bitmap SfsData Sfs SfsOps SfsBlocks SfsMap SfsFile.

Section Ops.
Context {U H : Type} `{US : UserSpace U} `{HW : LhdHw H}.
Local Abbreviation fstate := (fstate U H) (only parsing).
Implicit Types s : fstate.

(** ** The big lock *)

Definition locked (s : fstate) : fstate := mk_f (f_fs s) (f_vn s) (f_d s) true (f_depth s + 1).
Definition unlocked (s : fstate) : fstate := mk_f (f_fs s) (f_vn s) (f_d s) false 0.

(** A mounted volume nobody is using. *)
Record vol_idle (s : fstate) : Prop := mk_vidle {
  vi_held : f_held s = false;
  vi_depth : f_depth s = 0;
  vi_good : good (locked s)
}.

Lemma acquire_idle s : vol_idle s -> vfs_biglock_acquire s = Ret tt (locked s).
Proof using Type. intros [H1 _ _]. unfold vfs_biglock_acquire. msimpl. by rewrite H1. Qed.

Lemma release_kept s s' : vol_idle s -> kept (locked s) s' -> vfs_biglock_release s' = Ret tt (unlocked s').
Proof using Type.
  intros [_ D _] [_ K2 K3 _]. simpl in *. rewrite D in K3. unfold vfs_biglock_release. msimpl. rewrite K2, K3. done.
Qed.

Lemma file_ok_lock s s' i : f_fs s' = f_fs s -> f_d s' = f_d s -> file_ok s i -> file_ok s' i.
Proof using Type.
  intros E1 E2 F. assert (Ed : forall c, dsk s' c = dsk s c) by (intros c; unfold dsk; by rewrite E2).
  apply (file_ok_ext s); [done|unfold nblk; by rewrite E1|intros; by apply ref_pointwise|]. intros c Hc. unfold marked. by rewrite E1.
Qed.

Lemma unlocked_idle s s' : vol_idle s -> good s' -> kept (locked s) s' -> vol_idle (unlocked s').
Proof using Type.
  intros [_ D _] (x & b & V) _. split; [done|done|]. exists x, b. destruct V. by split.
Qed.

(** ** sfs_io *)

(** A new size. *)
Lemma resize s v x n : good s -> f_vn s !! v = Some x -> file_ok s (sv_i x) ->
  let x' := mk_sv (vn_refcount x) (set_size n (sv_i x)) (sv_ino x) true in
  grows s (with_vn v x' s) v x x'.
Proof using Type.
  intros Hg Hx F x'. destruct (with_vn_good v x' s Hg) as [Hg' Hk'].
  assert (Href : forall m, ref (dsk s) (sv_i x') m = ref (dsk s) (sv_i x) m) by done. split; try done.
  - by right.
  - destruct F as [F1 F2 F3]. by split.
  - intros c Hc Hm. by left.
Qed.

(** What a write of the bytes [a] at [off] ends with: how many of them, [k], are in the file
    and in the uio; the size of the file; and the reason for stopping early. *)
Definition write_post (s : fstate) (v : Z) (x : sfs_vnode) (a : list Z) (off : Z) (r : Z * uio) (s' : fstate) : Prop :=
  let len := Z.of_nat (length a) in
  exists x' k, 0 <= k <= len /\ grows s s' v x x' /\
    sfi_size (sv_i x') = (if decide (k = 0) then sfi_size (sv_i x) else sfi_size (sv_i x) `max` (off + k)) /\
    (forall pos, 0 <= pos < MAXFILE -> fbyte (dsk s') (sv_i x') pos =
       if decide (off <= pos < off + k) then nth (Z.to_nat (pos - off)) a 0 else fbyte (dsk s) (sv_i x) pos) /\
    r.2 = kuio (take (Z.to_nat k) a) (drop (Z.to_nat k) a) (off + k) (len - k) UIO_WRITE /\ (k = 0 \/ off + k <= MAXFILE) /\
    ((r.1 = 0 /\ k = len) \/ (k < len /\ ((r.1 = ENOSPC /\ full s') \/ (r.1 = EFBIG /\ MAXFILE <= off + k)))).

Lemma sfs_io_write s v x a off : good s -> f_vn s !! v = Some x -> file_ok s (sv_i x) ->
  0 <= off -> off + Z.of_nat (length a) < 2 ^ 41 -> 0 < Z.of_nat (length a) < 2 ^ 32 ->
  wp (sfs_io v (kuio [] a off (Z.of_nat (length a)) UIO_WRITE)) s (write_post s v x a off).
Proof using Type.
  intros Hg Hx F Ho H41 Ha. set (len := Z.of_nat (length a)) in *. unfold sfs_io. apply wp_bind. eapply wp_eq; [by apply get_sv_eq|].
  change (is_read (kuio [] a off len UIO_WRITE)) with false. cbn [andb]. apply wp_bind, wp_KASSERT; [done|].
  cbn [kuio uio_offset uio_resid]. rewrite Z.sub_0_r.
  change (set_pos off len _) with (kuio [] a off len UIO_WRITE). apply wp_bind.
  eapply wp_mono; [apply (io_body_write s v x); try done; lia|]. intros [e u] s1 (x1 & k & Hk & (G & Zs & B) & Hr & Hm & Hwhy). simpl in Hr. subst u.
  pose proof (gr_good _ _ _ _ _ G) as Hg1. assert (Hx1 : f_vn s1 !! v = Some x1) by (rewrite (gr_vn _ _ _ _ _ G); apply lookup_insert_eq).
  cbn [fst snd] in *. unfold io_out. apply wp_bind. eapply wp_eq; [by apply get_sv_eq|].
  cbn [kuio uio_resid uio_offset is_read uio_dir]. change (bool_decide (UIO_WRITE = UIO_READ)) with false. cbn [negb andb].
  rewrite andb_true_r, Z.add_0_r. rewrite u32_small by lia.
  change (mk_uio [] [mk_iov (KBuf ?b ?a) _] ?o ?r UIO_SYSSPACE UIO_WRITE 0) with (kuio b a o r UIO_WRITE). rewrite set_pos_kuio.
  destruct (Z.eqb_spec (len - k) len) as [E0|Hne]; cbn [negb andb].
  { assert (k = 0) as -> by lia. apply wp_bind. eapply wp_eq; [reflexivity|]. apply wp_ret. exists x1, 0. split_and!; try done; lia. }
  assert (Hkm : off + k <= MAXFILE) by lia. unfold MAXFILE in Hkm. apply wp_bind.
  destruct (Z.ltb_spec (sfi_size (sv_i x1)) (off + k)) as [Hlt|Hge]; cbn [when].
  - eapply wp_eq; [by apply (touch_last v _ x1)|]. rewrite u32_small by lia. set (x2 := mk_sv _ _ _ _). apply wp_ret.
    exists x2, k. split_and!; try done; try lia.
    + eapply grows_trans; [exact G| |done]. apply resize; [done|done|apply (gr_ok _ _ _ _ _ G)].
    + rewrite decide_False by lia. unfold x2. simpl. lia.
  - eapply wp_eq; [reflexivity|]. apply wp_ret. exists x1, k. split_and!; try done; try lia. rewrite decide_False by lia. lia.
Qed.

Definition read_len (x : sfs_vnode) (off len : Z) : Z := 0 `max` (len `min` (sfi_size (sv_i x) - off)).

Lemma sfs_io_read s v x c off : good s -> f_vn s !! v = Some x -> file_ok s (sv_i x) -> sfi_size (sv_i x) <= MAXFILE ->
  0 <= off -> 0 < Z.of_nat (length c) < 2 ^ 32 -> let n := read_len x off (Z.of_nat (length c)) in
  wp (sfs_io v (kuio [] c off (Z.of_nat (length c)) UIO_READ)) s (fun r s' => quiet s s' /\
    r = (0, kuio (frange (dsk s) (sv_i x) off n) (drop (Z.to_nat n) c) (off + n) (Z.of_nat (length c) - n) UIO_READ)).
Proof using Type.
  intros Hg Hx F Hmax Ho Ha n. set (len := Z.of_nat (length c)) in *. unfold sfs_io. apply wp_bind. eapply wp_eq; [by apply get_sv_eq|].
  change (is_read (kuio [] c off len UIO_READ)) with true. cbn [andb]. cbn [kuio uio_offset uio_resid].
  change (mk_uio [] [mk_iov (KBuf ?b ?a) _] ?o ?r UIO_SYSSPACE UIO_READ 0) with (kuio b a o r UIO_READ).
  destruct (Z.leb_spec (sfi_size (sv_i x)) off) as [Hpast|Hin].
  { apply wp_ret. split; [by apply quiet_refl|]. assert (n = 0) as -> by (unfold n, read_len; lia).
    by rewrite frange_0, drop_0, Z.add_0_r, Z.sub_0_r. }
  set (extra := if sfi_size (sv_i x) <? off + len then u32 (off + len - sfi_size (sv_i x)) else 0).
  assert (Hex : extra = len - n /\ 0 < n <= len /\ off + n <= sfi_size (sv_i x)).
  { unfold extra, n, read_len. destruct (Z.ltb_spec (sfi_size (sv_i x)) (off + len)); [rewrite u32_small by lia|]; lia. }
  destruct Hex as (Hex & Hn & Hsz). apply wp_bind, wp_KASSERT.
  { destruct (_ <? _); simpl; lia. }
  rewrite Hex. replace (len - (len - n)) with n by lia. change (set_pos off n _) with (kuio [] c off n UIO_READ).
  apply wp_bind. eapply wp_mono; [apply (io_body_read s v x); try done; lia|]. intros r s1 [Q ->].
  destruct (quiet_file s s1 v x Q Hx F) as (Hg1 & Hx1 & F1 & _).
  cbn [fst snd]. unfold io_out. apply wp_bind. eapply wp_eq; [by apply get_sv_eq|].
  change (is_read (kuio _ _ _ _ UIO_READ)) with true. cbn [negb]. rewrite andb_false_r. cbn [andb when]. apply wp_bind. eapply wp_eq; [reflexivity|].
  apply wp_ret. split; [done|]. rewrite set_pos_kuio. cbn [kuio uio_offset uio_resid]. rewrite u32_small by lia. f_equal. f_equal. lia.
Qed.

(** ** The files of a volume *)

(** The loaded files: each is well-formed, no two share a block, and no inode is a block of
    a file. *)
Record files_ok (s : fstate) : Prop := mk_files {
  fl_ok : forall v x, f_vn s !! v = Some x -> file_ok s (sv_i x);
  fl_disj : forall v w x y n m, v <> w -> f_vn s !! v = Some x -> f_vn s !! w = Some y -> 0 <= n <= 143 -> 0 <= m <= 143 ->
    ref (dsk s) (sv_i x) n <> 0 -> ref (dsk s) (sv_i x) n <> ref (dsk s) (sv_i y) m;
  fl_ino : forall v x, f_vn s !! v = Some x -> 0 < sv_ino x < nblk s /\ marked s (sv_ino x) = true;
  fl_data : forall v w x y n, f_vn s !! v = Some x -> f_vn s !! w = Some y -> 0 <= n <= 143 -> ref (dsk s) (sv_i x) n <> sv_ino y
}.

(** The blocks of another file are not touched. *)
Lemma grows_other s s' v x x' w y : files_ok s -> f_vn s !! v = Some x -> grows s s' v x x' -> w <> v -> f_vn s !! w = Some y ->
  (forall n, 0 <= n <= 143 -> ref (dsk s) (sv_i y) n <> 0 -> dsk s' (ref (dsk s) (sv_i y) n) = dsk s (ref (dsk s) (sv_i y) n)) /\
  (forall n, ref (dsk s') (sv_i y) n = ref (dsk s) (sv_i y) n).
Proof using Type.
  intros [L1 L2 L3 L4] Hx G Hwv Hy.
  assert (Hkeep : forall n, 0 <= n <= 143 -> ref (dsk s) (sv_i y) n <> 0 -> dsk s' (ref (dsk s) (sv_i y) n) = dsk s (ref (dsk s) (sv_i y) n)).
  { intros n Hn Hne. destruct (fo_ref _ _ (L1 w y Hy) n Hn) as [?|[Hr Hm]]; [done|].
    apply (gr_frame _ _ _ _ _ G); [lia|done|]. intros m Hm' E. by apply (L2 w v y x n m). }
  split; [done|]. intros n. apply ref_ext. intros Hne. by apply (Hkeep 143 ltac:(lia)).
Qed.

Lemma grows_files s s' v x x' : files_ok s -> f_vn s !! v = Some x -> grows s s' v x x' -> files_ok s' /\
  (forall w y, w <> v -> f_vn s !! w = Some y -> f_vn s' !! w = Some y /\ forall n, 0 <= n < 143 -> content (dsk s') (sv_i y) n = content (dsk s) (sv_i y) n) /\
  (forall w y, f_vn s !! w = Some y -> dsk s' (sv_ino y) = dsk s (sv_ino y)).
Proof using Type.
  intros L Hx G. pose proof L as [L1 L2 L3 L4].
  assert (Hv : forall w y, w <> v -> f_vn s' !! w = Some y <-> f_vn s !! w = Some y)
    by (intros w y Hne; rewrite (gr_vn _ _ _ _ _ G); by rewrite lookup_insert_ne).
  assert (Hv' : f_vn s' !! v = Some x') by (rewrite (gr_vn _ _ _ _ _ G); apply lookup_insert_eq).
  pose proof (gr_same _ _ _ _ _ G) as (_ & Hino & _).
  assert (Hnew : forall n c, 0 <= n <= 143 -> ref (dsk s') (sv_i x') n <> 0 -> marked s c = true ->
    (forall m, 0 <= m <= 143 -> ref (dsk s) (sv_i x) m <> 0 -> ref (dsk s) (sv_i x) m <> c) -> ref (dsk s') (sv_i x') n <> c).
  { intros n c Hn Hne Hm Hold E. destruct (decide (ref (dsk s) (sv_i x) n = 0)) as [E0|E0].
    - pose proof (gr_new _ _ _ _ _ G n Hn E0 Hne). congruence.
    - rewrite (gr_own _ _ _ _ _ G) in E by done. by apply (Hold n). }
  assert (Hpair : forall w y n m, w <> v -> f_vn s !! w = Some y -> 0 <= n <= 143 -> 0 <= m <= 143 ->
    ref (dsk s') (sv_i x') n <> 0 -> ref (dsk s') (sv_i x') n <> ref (dsk s) (sv_i y) m).
  { intros w y n m Hwv Hy Hn Hm Hne. destruct (fo_ref _ _ (L1 w y Hy) m Hm) as [->|[_ Hmk]]; [done|].
    apply Hnew; try done. intros k Hk Hk0. by apply (L2 v w x y k m). }
  split; [split|split].
  - intros w y Hy. destruct (decide (w = v)) as [->|Hne]; [rewrite Hv' in Hy; injection Hy as <-; apply (gr_ok _ _ _ _ _ G)|].
    apply Hv in Hy; [|done]. destruct (grows_other s s' v x x' w y L Hx G Hne Hy) as [_ Hr].
    apply (file_ok_ext s); [by eapply L1|apply kept_nblk, (gr_kept _ _ _ _ _ G)|auto|apply (gr_marks _ _ _ _ _ G)].
  - intros w1 w2 y1 y2 n m Hne Hy1 Hy2 Hn Hm. destruct (decide (w1 = v)) as [->|H1], (decide (w2 = v)) as [->|H2]; try done.
    + rewrite Hv' in Hy1. injection Hy1 as <-. apply Hv in Hy2; [|done].
      destruct (grows_other s s' v x x' w2 y2 L Hx G H2 Hy2) as [_ ->]. by apply (Hpair w2).
    + rewrite Hv' in Hy2. injection Hy2 as <-. apply Hv in Hy1; [|done].
      destruct (grows_other s s' v x x' w1 y1 L Hx G H1 Hy1) as [_ ->]. intros Hr E. apply (Hpair w1 y1 m n); try done. by rewrite <- E.
    + apply Hv in Hy1, Hy2; try done. destruct (grows_other s s' v x x' w1 y1 L Hx G H1 Hy1) as [_ ->].
      destruct (grows_other s s' v x x' w2 y2 L Hx G H2 Hy2) as [_ ->]. by apply (L2 w1 w2).
  - intros w y Hy. rewrite (kept_nblk _ _ (gr_kept _ _ _ _ _ G)).
    assert (Ho : 0 < sv_ino y < nblk s /\ marked s (sv_ino y) = true).
    { destruct (decide (w = v)) as [->|Hne]; [rewrite Hv' in Hy; injection Hy as <-; rewrite Hino; by eapply L3|]. apply Hv in Hy; [|done]. by eapply L3. }
    split; [apply Ho|]. apply (gr_marks _ _ _ _ _ G); [lia|apply Ho].
  - assert (Hinos : forall w y, f_vn s' !! w = Some y -> exists y', f_vn s !! w = Some y' /\ sv_ino y = sv_ino y').
    { intros w y Hy. destruct (decide (w = v)) as [->|Hne]; [rewrite Hv' in Hy; injection Hy as <-; by exists x|]. apply Hv in Hy; [|done]. by exists y. }
    intros w1 w2 y1 y2 n Hy1 Hy2 Hn. destruct (Hinos w2 y2 Hy2) as (y2' & Hy2' & ->). destruct (L3 w2 y2' Hy2') as [Hpos Hmk].
    destruct (decide (w1 = v)) as [->|H1].
    + rewrite Hv' in Hy1. injection Hy1 as <-. destruct (decide (ref (dsk s') (sv_i x') n = 0)) as [E|Hne]; [lia|].
      apply Hnew; try done. intros m Hm _. by apply (L4 v w2 x y2').
    + apply Hv in Hy1; [|done]. destruct (grows_other s s' v x x' w1 y1 L Hx G H1 Hy1) as [_ ->]. by apply (L4 w1 w2).
  - intros w y Hne Hy. split; [by apply Hv|]. destruct (grows_other s s' v x x' w y L Hx G Hne Hy) as [Hd Hr].
    intros n Hn. unfold content. rewrite <- !ref_data by done. rewrite Hr. destruct (Z.eqb_spec (ref (dsk s) (sv_i y) n) 0); [done|]. apply Hd; [lia|done].
  - intros w y Hy. destruct (L3 w y Hy) as [Hpos Hmk]. apply (gr_frame _ _ _ _ _ G); [lia|done|]. intros n Hn. by apply (L4 v w x y).
Qed.

Lemma locked_files s : files_ok s -> files_ok (locked s).
Proof using Type. intros [L1 L2 L3 L4]. split; try done. intros v x Hx. by apply (file_ok_lock s); [..|eapply L1]. Qed.

Lemma unlocked_files s : files_ok s -> files_ok (unlocked s).
Proof using Type. intros [L1 L2 L3 L4]. split; try done. intros v x Hx. by apply (file_ok_lock s); [..|eapply L1]. Qed.

(** [sfs_write], from and to a volume nobody is using. *)
Lemma sfs_write_runs s v x a off : vol_idle s -> f_vn s !! v = Some x -> file_ok s (sv_i x) ->
  0 <= off -> off + Z.of_nat (length a) < 2 ^ 41 -> 0 < Z.of_nat (length a) < 2 ^ 32 ->
  wp (sfs_write v (kuio [] a off (Z.of_nat (length a)) UIO_WRITE)) s (fun r s' =>
    exists s1, s' = unlocked s1 /\ write_post (locked s) v x a off r s1 /\ vol_idle s').
Proof using Type.
  intros Hi Hx F Ho H41 Ha. unfold sfs_write. apply wp_bind, wp_KASSERT; [done|]. apply wp_bind. eapply wp_eq; [by apply acquire_idle|].
  apply wp_bind. eapply wp_mono; [apply (sfs_io_write (locked s) v x); try done; [apply (vi_good _ Hi)|by apply (file_ok_lock s)]|].
  intros r s1 W. pose proof W as (x' & k & _ & G & _). apply wp_bind. eapply wp_eq; [by apply (release_kept s s1 Hi), (gr_kept _ _ _ _ _ G)|].
  apply wp_ret. exists s1. split; [done|]. split; [done|]. eapply unlocked_idle; [done|apply (gr_good _ _ _ _ _ G)|apply (gr_kept _ _ _ _ _ G)].
Qed.

Lemma sfs_read_runs s v x c off : vol_idle s -> f_vn s !! v = Some x -> file_ok s (sv_i x) -> sfi_size (sv_i x) <= MAXFILE ->
  0 <= off -> 0 < Z.of_nat (length c) < 2 ^ 32 -> let n := read_len x off (Z.of_nat (length c)) in
  wp (sfs_read v (kuio [] c off (Z.of_nat (length c)) UIO_READ)) s (fun r s' => vol_idle s' /\
    f_vn s' = f_vn s /\ f_fs s' = f_fs s /\ (forall b, dsk s' b = dsk s b) /\
    r = (0, kuio (frange (dsk s) (sv_i x) off n) (drop (Z.to_nat n) c) (off + n) (Z.of_nat (length c) - n) UIO_READ)).
Proof using Type.
  intros Hi Hx F Hmax Ho Ha n. unfold sfs_read. apply wp_bind, wp_KASSERT; [done|]. apply wp_bind. eapply wp_eq; [by apply acquire_idle|].
  apply wp_bind. eapply wp_mono; [apply (sfs_io_read (locked s) v x); try done; [apply (vi_good _ Hi)|by apply (file_ok_lock s)]|].
  intros r s1 [(d & -> & Hg & Hk & Hd) ->]. apply wp_bind. eapply wp_eq; [by apply (release_kept s _ Hi Hk)|].
  apply wp_ret. split; [by eapply unlocked_idle|]. split_and!; done.
Qed.

(** C19: writing the bytes [a] at [off] puts a prefix of them into the file and nothing else
    into it; the uio is advanced over that prefix and the size covers it.  The prefix is
    everything, or the call says why not: the volume is full ([ENOSPC]), or the file has
    reached its largest size ([EFBIG]).  The blocks the file gets were free and are its
    own, and every other block in use keeps its contents. *)
Theorem sfs_write_stores s v x a off : vol_idle s -> f_vn s !! v = Some x -> file_ok s (sv_i x) ->
  0 <= off -> off + Z.of_nat (length a) < 2 ^ 41 -> 0 < Z.of_nat (length a) < 2 ^ 32 ->
  wp (sfs_write v (kuio [] a off (Z.of_nat (length a)) UIO_WRITE)) s (fun r s' =>
    exists s1, s' = unlocked s1 /\ write_post (locked s) v x a off r s1 /\ vol_idle s').
Proof using Type. apply sfs_write_runs. Qed.

(** Reading returns the bytes of the file from [off] up to its size, holes as zeros,
    leaves the rest of the buffer alone, and changes neither the files nor the medium. *)
Theorem sfs_read_returns s v x c off : vol_idle s -> f_vn s !! v = Some x -> file_ok s (sv_i x) -> sfi_size (sv_i x) <= MAXFILE ->
  0 <= off -> 0 < Z.of_nat (length c) < 2 ^ 32 -> let n := read_len x off (Z.of_nat (length c)) in
  wp (sfs_read v (kuio [] c off (Z.of_nat (length c)) UIO_READ)) s (fun r s' => vol_idle s' /\
    f_vn s' = f_vn s /\ f_fs s' = f_fs s /\ (forall b, dsk s' b = dsk s b) /\
    r = (0, kuio (frange (dsk s) (sv_i x) off n) (drop (Z.to_nat n) c) (off + n) (Z.of_nat (length c) - n) UIO_READ)).
Proof using Type. apply sfs_read_runs. Qed.

(** C20: what a successful write has put into a file, a read at the same offset returns. *)
Theorem sfs_write_then_read s v x a off : vol_idle s -> f_vn s !! v = Some x -> file_ok s (sv_i x) -> 0 <= sfi_size (sv_i x) <= MAXFILE ->
  0 <= off -> off + Z.of_nat (length a) < 2 ^ 41 -> 0 < Z.of_nat (length a) < 2 ^ 32 ->
  wp (sfs_write v (kuio [] a off (Z.of_nat (length a)) UIO_WRITE)) s (fun r s1 => r.1 = 0 -> forall c, length c = length a ->
    wp (sfs_read v (kuio [] c off (Z.of_nat (length c)) UIO_READ)) s1 (fun r2 s2 =>
      r2 = (0, kuio a [] (off + Z.of_nat (length a)) 0 UIO_READ))).
Proof using Type.
  intros Hi Hx F Hsz Ho H41 Ha. eapply wp_mono; [by apply (sfs_write_runs s v x)|]. intros r s' (s1 & -> & W & Hi') Hr c Hc.
  destruct W as (x' & k & Hk & G & Hs & B & _ & Hm & [[_ ->]|[_ [[E _]|[E _]]]]); try (rewrite Hr in E; done).
  assert (Hx1 : f_vn (unlocked s1) !! v = Some x') by (simpl; rewrite (gr_vn _ _ _ _ _ G); apply lookup_insert_eq).
  rewrite decide_False in Hs by lia.
  eapply wp_mono; [apply (sfs_read_runs (unlocked s1) v x'); try done; try lia|].
  { apply (file_ok_lock s1); [done|done|apply (gr_ok _ _ _ _ _ G)]. }
  intros r2 s2 (_ & _ & _ & _ & ->). rewrite Hc. set (len := Z.of_nat (length a)) in *.
  assert (read_len x' off len = len) as -> by (unfold read_len; lia). rewrite Z.sub_diag, drop_ge by lia. do 2 f_equal.
  apply list_eq_same_length with (n := length a); [done|pose proof (frange_len (dsk (unlocked s1)) (sv_i x') off len ltac:(lia)); lia|].
  intros p y z Hp Hy Hz. apply frange_lookup in Hy as [_ ->]. change (dsk (unlocked s1)) with (dsk s1). rewrite B by lia.
  rewrite decide_True by lia. replace (Z.to_nat (off + Z.of_nat p - off)) with p by lia. by apply nth_lookup_Some.
Qed.

(** C21: writing to one file keeps the volume consistent (every file well-formed, no block
    shared between files or with an inode), and every other loaded file keeps its inode
    and its contents, as do the inodes on the medium. *)
Theorem sfs_write_isolated s v x a off : vol_idle s -> files_ok s -> f_vn s !! v = Some x ->
  0 <= off -> off + Z.of_nat (length a) < 2 ^ 41 -> 0 < Z.of_nat (length a) < 2 ^ 32 ->
  wp (sfs_write v (kuio [] a off (Z.of_nat (length a)) UIO_WRITE)) s (fun r s' => files_ok s' /\
    (forall w y, w <> v -> f_vn s !! w = Some y -> f_vn s' !! w = Some y /\ forall n, 0 <= n < 143 -> content (dsk s') (sv_i y) n = content (dsk s) (sv_i y) n) /\
    (forall w y, f_vn s !! w = Some y -> dsk s' (sv_ino y) = dsk s (sv_ino y))).
Proof using Type.
  intros Hi L Hx Ho H41 Ha. eapply wp_mono; [apply (sfs_write_runs s v x); try done; by eapply fl_ok|].
  intros r s' (s1 & -> & (x' & k & _ & G & _) & _).
  destruct (grows_files (locked s) s1 v x x' (locked_files s L) Hx G) as (L1 & Hw & Hd).
  split; [by apply unlocked_files|]. split; [exact Hw|exact Hd].
Qed.

End Ops.
(** ** Witnesses: three bytes across the end of the first block of an empty file *)

Import SfsToy.

Definition toy_file : sfs_dinode := mk_di 0 SFS_TYPE_FILE 1 (replicate 15 0) 0 (replicate 110 0).
Definition toy_x : sfs_vnode := mk_sv 1 toy_file 1 false.
Definition toy_free : Sfs.fstate unit card := unlocked (toy_state false toy_file).

Lemma toy_ref d n : ref d toy_file n = 0.
Proof.
  unfold ref, bmap_of. destruct (n =? 143); [done|]. destruct (n <? 15); [|done]. apply (nth_zeros 15).
Qed.

Lemma toy_file_ok : file_ok toy_free toy_file.
Proof. split; [done|intros n _; left; apply toy_ref|]. intros n m _ _ _ Hne. by rewrite toy_ref in Hne. Qed.

Lemma toy_vol_idle : vol_idle toy_free.
Proof. split; [done|done|apply (toy_good toy_file)]. Qed.

Lemma toy_lookup v x : f_vn toy_free !! v = Some x -> v = 100 /\ x = toy_x.
Proof. intros Hx. change (({[100 := toy_x]} : gmap Z sfs_vnode) !! v = Some x) in Hx. by apply lookup_singleton_Some in Hx as [<- <-]. Qed.

Lemma toy_files : files_ok toy_free.
Proof.
  split.
  - intros v x Hx. apply toy_lookup in Hx as [_ ->]. apply toy_file_ok.
  - intros v w x y n m Hne Hx Hy. apply toy_lookup in Hx as [-> _]. apply toy_lookup in Hy as [-> _]. done.
  - intros v x Hx. apply toy_lookup in Hx as [_ ->]. split; [unfold nblk; simpl; lia|by vm_compute].
  - intros v w x y n Hx Hy _. apply toy_lookup in Hx as [_ ->]. apply toy_lookup in Hy as [_ ->]. simpl. by rewrite toy_ref.
Qed.

Lemma sfs_write_stores_witness :
  wp (sfs_write 100 (kuio [] [1; 2; 3] 511 3 UIO_WRITE)) toy_free (fun r s' =>
    exists s1, s' = unlocked s1 /\ write_post (locked toy_free) 100 toy_x [1; 2; 3] 511 r s1 /\ vol_idle s').
Proof.
  apply (sfs_write_stores toy_free 100 toy_x [1; 2; 3] 511); [apply toy_vol_idle|done|apply toy_file_ok|lia|simpl; lia|simpl; lia].
Defined.

Lemma sfs_read_returns_witness :
  wp (sfs_read 100 (kuio [] [9; 9] 5 2 UIO_READ)) toy_free (fun r s' => vol_idle s' /\
    f_vn s' = f_vn toy_free /\ f_fs s' = f_fs toy_free /\ (forall b, dsk s' b = dsk toy_free b) /\
    r = (0, kuio (frange (dsk toy_free) toy_file 5 (read_len toy_x 5 2)) (drop (Z.to_nat (read_len toy_x 5 2)) [9; 9])
            (5 + read_len toy_x 5 2) (2 - read_len toy_x 5 2) UIO_READ)).
Proof.
  apply (sfs_read_returns toy_free 100 toy_x [9; 9] 5);
    [apply toy_vol_idle|done|apply toy_file_ok|unfold MAXFILE; simpl; lia|lia|simpl; lia].
Defined.

Lemma sfs_write_then_read_witness :
  wp (sfs_write 100 (kuio [] [1; 2; 3] 511 3 UIO_WRITE)) toy_free (fun r s1 => r.1 = 0 -> forall c, length c = 3%nat ->
    wp (sfs_read 100 (kuio [] c 511 (Z.of_nat (length c)) UIO_READ)) s1 (fun r2 s2 =>
      r2 = (0, kuio [1; 2; 3] [] (511 + 3) 0 UIO_READ))) /\
  match sfs_write 100 (kuio [] [1; 2; 3] 511 3 UIO_WRITE) toy_free with Ret r _ => r.1 = 0 | _ => False end.
Proof.
  split; [|by vm_compute]. apply (sfs_write_then_read toy_free 100 toy_x [1; 2; 3] 511);
    [apply toy_vol_idle|done|apply toy_file_ok|unfold MAXFILE; simpl; lia|lia|simpl; lia|simpl; lia].
Defined.

Lemma sfs_write_isolated_witness :
  wp (sfs_write 100 (kuio [] [1; 2; 3] 511 3 UIO_WRITE)) toy_free (fun r s' => files_ok s' /\
    (forall w y, w <> 100 -> f_vn toy_free !! w = Some y -> f_vn s' !! w = Some y /\
       forall n, 0 <= n < 143 -> content (dsk s') (sv_i y) n = content (dsk toy_free) (sv_i y) n) /\
    (forall w y, f_vn toy_free !! w = Some y -> dsk s' (sv_ino y) = dsk toy_free (sv_ino y))).
Proof.
  apply (sfs_write_isolated toy_free 100 toy_x [1; 2; 3] 511); [apply toy_vol_idle|apply toy_files|done|lia|simpl; lia|simpl; lia].
Defined.

End SfsReadWrite.
