(* ===== verification/SfsDir.v ===== *)
(** * Directories as maps from names to inodes: sfs_metaio and sfs_dir.c

    A directory is a file of 64-byte slots.  [entries] are its slots, [dir_map] the names in
    use; the lookup, link and unlink of sfs_dir.c are those of that map. *)

From S2P Require Import Prelude Bitmap Uio Lhd SfsData Sfs SfsOps SfsBlocks SfsMap SfsFile SfsReadWrite.

Module SfsDir.
Import Uio Lhd Bitmap SfsData Sfs SfsOps SfsBlocks SfsMap SfsFile SfsReadWrite.

(** ** The abstract directory *)

Definition name_of (e : sfs_direntry) : list Z := cstr (take 59 (sfd_name e)).

Definition entry (d : Z -> list Z) (i : sfs_dinode) (k : Z) : sfs_direntry := direntry_of_bytes (frange d i (k * 64) 64).
Definition entries (d : Z -> list Z) (i : sfs_dinode) : list sfs_direntry := map (entry d i) (seqZ 0 (sfi_size i / 64)).

Definition named (es : list sfs_direntry) : list (list Z * Z) :=
  omap (fun e => if sfd_ino e =? SFS_NOINO then None else Some (name_of e, sfd_ino e)) es.
Definition dir_map (es : list sfs_direntry) : gmap (list Z) Z := list_to_map (named es).

(** Slot [k] holds [name] for [ino]. *)
Definition holds (es : list sfs_direntry) (k : nat) (name : list Z) (ino : Z) : Prop :=
  exists e, es !! k = Some e /\ sfd_ino e = ino /\ ino <> SFS_NOINO /\ name_of e = name.

(** Every name is in one slot only. *)
Definition names_once (es : list sfs_direntry) : Prop :=
  forall j k name ino ino', holds es j name ino -> holds es k name ino' -> j = k.

Lemma named_elem es name ino : (name, ino) ∈ named es <-> exists k, holds es k name ino.
Proof.
  unfold named. rewrite list_elem_of_omap. split.
  - intros (e & He & Hf). apply list_elem_of_lookup in He as [k Hk]. exists k, e. destruct (Z.eqb_spec (sfd_ino e) SFS_NOINO); [done|].
    by injection Hf as <- <-.
  - intros (k & e & Hk & <- & Hne & <-). exists e. split; [by apply list_elem_of_lookup_2 in Hk|]. by rewrite (proj2 (Z.eqb_neq _ _) Hne).
Qed.

Lemma holds_cons e es k name ino : holds (e :: es) (S k) name ino <-> holds es k name ino.
Proof. done. Qed.

Lemma names_once_tail e es : names_once (e :: es) -> names_once es.
Proof. intros Hu j k name ino ino' Hj Hk. assert (S j = S k); [|lia]. by apply (Hu (S j) (S k) name ino ino'). Qed.

Lemma named_nodup es : names_once es -> NoDup (named es).*1.
Proof.
  induction es as [|e es IH]; intros Hu; [constructor|]. pose proof (IH (names_once_tail e es Hu)) as Hnd. unfold named. simpl.
  destruct (Z.eqb_spec (sfd_ino e) SFS_NOINO) as [|Hne]; [done|]. simpl. constructor; [|done]. intros Hin.
  apply list_elem_of_fmap in Hin as ([nm i] & E & Hin). simpl in E. subst nm. apply named_elem in Hin as [k Hk].
  assert (0%nat = S k); [|lia]. apply (Hu 0%nat (S k) (name_of e) (sfd_ino e) i); [by exists e|done].
Qed.

Lemma dir_map_lookup es name ino : names_once es -> dir_map es !! name = Some ino <-> exists k, holds es k name ino.
Proof. intros Hu. unfold dir_map. rewrite <- elem_of_list_to_map by by apply named_nodup. apply named_elem. Qed.

(** Two directories with the same slots in use have the same map. *)
Lemma dir_map_eq es es' name (o : option Z) : names_once es -> names_once es' ->
  (forall nm ino, (exists k, holds es' k nm ino) <-> (nm = name /\ o = Some ino) \/ (nm <> name /\ exists k, holds es k nm ino)) ->
  dir_map es' = partial_alter (fun _ => o) name (dir_map es).
Proof.
  intros Hu Hu' Hh. apply map_eq. intros nm. destruct (decide (nm = name)) as [->|Hne].
  - rewrite lookup_partial_alter_eq. apply option_eq. intros ino. rewrite dir_map_lookup, Hh by done. naive_solver.
  - rewrite lookup_partial_alter_ne by done. apply option_eq. intros ino. rewrite !dir_map_lookup, Hh by done. naive_solver.
Qed.

(** ** The scan of [sfs_dir_findname] *)

Fixpoint scan (name : list Z) (es : list sfs_direntry) (i : Z) (acc : found) : found :=
  match es with
  | [] => acc
  | e :: es' =>
      scan name es' (i + 1)
        (if sfd_ino e =? SFS_NOINO then mk_found (fd_hit acc) i
         else if decide (name_of e = name) then mk_found (Some (sfd_ino e, i)) (fd_empty acc) else acc)
  end.

Lemma scan_hit name es : forall i acc, names_once es -> fd_hit acc = None \/ (forall k ino, ~ holds es k name ino) ->
  forall ino slot, fd_hit (scan name es i acc) = Some (ino, slot) <->
    fd_hit acc = Some (ino, slot) \/ (exists k, holds es k name ino /\ slot = i + Z.of_nat k).
Proof.
  induction es as [|e es IH]; intros i acc Hu Hacc ino slot; cbn [scan].
  { split; [by left|]. intros [?|(k & (e & He & _) & _)]; [done|]. by rewrite lookup_nil in He. }
  pose proof (names_once_tail e es Hu) as Hu'.
  assert (Hcase : (exists k, holds (e :: es) k name ino /\ slot = i + Z.of_nat k) <->
    (holds (e :: es) 0 name ino /\ slot = i) \/ (exists k, holds es k name ino /\ slot = i + 1 + Z.of_nat k)).
  { split.
    - intros ([|k] & Hk & ->); [left; split; [done|lia]|right; exists k; split; [done|lia]].
    - intros [[? ->]|(k & Hk & ->)]; [exists 0%nat; split; [done|lia]|exists (S k); split; [done|lia]]. }
  rewrite Hcase. clear Hcase. destruct (Z.eqb_spec (sfd_ino e) SFS_NOINO) as [E0|Hne].
  - rewrite IH; [|done|destruct Hacc as [?|Hno]; [by left|right; intros k j; apply (Hno (S k))]]. simpl.
    split; [intros [?|?]; auto|]. intros [?|[[(e' & He & Hi & Hi0 & _) _]|?]]; auto. injection He as <-. congruence.
  - destruct (decide (name_of e = name)) as [En|En].
    + assert (H0 : holds (e :: es) 0 name (sfd_ino e)) by by exists e.
      assert (Hno : forall k j, ~ holds es k name j) by (intros k j Hk; by apply (Hu 0%nat (S k) name (sfd_ino e) j H0) in Hk).
      rewrite IH by auto. simpl. split.
      * intros [E|?]; [|auto]. injection E as <- <-. right. by left.
      * intros [Ha|[[(e' & He & <- & _) ->]|(k & Hk & _)]]; [|injection He as <-; by left|by apply Hno in Hk].
        destruct Hacc as [Hn|Hn]; [congruence|by apply (Hn 0%nat) in H0].
    + rewrite IH; [|done|destruct Hacc as [?|Hno]; [by left|right; intros k j; apply (Hno (S k))]].
      split; [intros [?|?]; auto|]. intros [?|[[(e' & He & _ & _ & Hn) _]|?]]; auto. injection He as <-. done.
Qed.

Lemma scan_empty name es : forall i acc, let n := fd_empty (scan name es i acc) in
  n = fd_empty acc \/ exists k e, es !! k = Some e /\ sfd_ino e = SFS_NOINO /\ n = i + Z.of_nat k.
Proof.
  induction es as [|e es IH]; intros i acc; cbn [scan]; [by left|]. set (acc' := if _ =? _ then _ else _).
  destruct (IH (i + 1) acc') as [E|(k & e' & Hk & H0 & E)]; cbv zeta in *; rewrite E.
  - unfold acc'. destruct (Z.eqb_spec (sfd_ino e) SFS_NOINO); [|destruct (decide _); by left].
    right. exists 0%nat, e. split_and!; try done. simpl. lia.
  - right. exists (S k), e'. split_and!; try done. lia.
Qed.

(** A name as [strcpy] leaves it in a slot. *)
Lemma cstr_padded name : Forall (fun c => c <> 0) name -> (length name <= 59)%nat ->
  name_of (mk_sd 0 (name ++ replicate (60 - length name) 0)) = name.
Proof.
  intros Hf Hl. unfold name_of. simpl. rewrite take_app_ge by done. replace (60 - length name)%nat with (S (59 - length name)) by lia.
  assert (Hz : forall m n, cstr (take m (replicate n 0)) = []) by (intros [|m] [|n]; done).
  generalize (Hz (59 - length name)%nat (S (59 - length name))). generalize (take (59 - length name) (replicate (S (59 - length name)) 0)). clear Hz Hl.
  intros t Ht. induction Hf as [|c name Hc _ IH]; [done|]. simpl. rewrite (proj2 (Z.eqb_neq c 0) Hc). by rewrite IH.
Qed.

(** ** Ranges of bytes as entries *)

Lemma frange_eq d d' i i' off k : (forall p, off <= p < off + k -> fbyte d' i' p = fbyte d i p) -> frange d' i' off k = frange d i off k.
Proof. intros E. unfold frange. apply list_fmap_ext. intros n p Hp. apply lookup_seqZ in Hp as [-> ?]. apply E. lia. Qed.

Lemma frange_bytes d i off data : (forall p, off <= p < off + Z.of_nat (length data) -> fbyte d i p = nth (Z.to_nat (p - off)) data 0) ->
  frange d i off (Z.of_nat (length data)) = data.
Proof.
  intros E. apply list_eq_same_length with (n := length data); [done|pose proof (frange_len d i off (Z.of_nat (length data))); lia|].
  intros n y z Hn Hy Hz. apply frange_lookup in Hy as [_ ->]. rewrite E by lia. replace (Z.to_nat (off + Z.of_nat n - off)) with n by lia.
  by apply nth_lookup_Some.
Qed.

Lemma entries_lookup d i k : entries d i !! k = if decide (Z.of_nat k < sfi_size i / 64) then Some (entry d i (Z.of_nat k)) else None.
Proof.
  unfold entries. rewrite list_lookup_fmap. destruct (decide (Z.of_nat k < sfi_size i / 64)).
  - by rewrite (proj2 (lookup_seqZ 0 _ k (0 + Z.of_nat k))) by done.
  - by rewrite lookup_seqZ_ge by lia.
Qed.

Lemma length_entries d i : 0 <= sfi_size i -> Z.of_nat (length (entries d i)) = sfi_size i / 64.
Proof. intros Hs. unfold entries. rewrite length_map, length_seqZ. Z.to_euclidean_division_equations; lia. Qed.

(** A slot gets a new entry. *)
Definition slot_set (es es' : list sfs_direntry) (k : nat) (sd : sfs_direntry) : Prop :=
  forall j, es' !! j = if decide (j = k) then Some sd else es !! j.

Lemma slot_holds es es' k sd j nm ino : slot_set es es' k sd ->
  holds es' j nm ino <-> (j = k /\ sfd_ino sd = ino /\ ino <> SFS_NOINO /\ name_of sd = nm) \/ (j <> k /\ holds es j nm ino).
Proof.
  intros Hs. unfold holds. rewrite Hs. destruct (decide (j = k)) as [->|Hne]; [|naive_solver]. split.
  - intros (e & E & ?). injection E as <-. left. done.
  - intros [(_ & ?)|[? _]]; [by exists sd|done].
Qed.

(** A fresh name goes to a slot that was not in use. *)
Lemma link_map es es' k sd name ino : names_once es -> slot_set es es' k sd -> sfd_ino sd = ino -> ino <> SFS_NOINO -> name_of sd = name ->
  (forall nm i, ~ holds es k nm i) -> (forall j i, ~ holds es j name i) ->
  names_once es' /\ dir_map es' = <[name := ino]> (dir_map es).
Proof.
  intros Hu Hs Hi Hne Hn Hfree Hnew. assert (Hu' : names_once es').
  { intros j1 j2 nm i1 i2 H1 H2. apply (slot_holds _ _ _ _ _ _ _ Hs) in H1, H2. destruct H1 as [(-> & _ & _ & E1)|[N1 H1]], H2 as [(-> & _ & _ & E2)|[N2 H2]]; try done.
    - destruct (Hnew j2 i2). congruence.
    - destruct (Hnew j1 i1). congruence.
    - by eapply Hu. }
  split; [done|]. apply (dir_map_eq es es' name (Some ino)); [done|done|]. intros nm i. split.
  - intros [j Hj]. apply (slot_holds _ _ _ _ _ _ _ Hs) in Hj as [(-> & <- & _ & <-)|[Hjk Hj]]; [left; split; congruence|].
    right. split; [|by exists j]. intros ->. by apply Hnew in Hj.
  - intros [[-> E]|[Hnm [j Hj]]].
    + injection E as <-. exists k. apply (slot_holds _ _ _ _ _ _ _ Hs). by left.
    + exists j. apply (slot_holds _ _ _ _ _ _ _ Hs). right. split; [|done]. intros ->. by apply Hfree in Hj.
Qed.

(** A slot is emptied. *)
Lemma unlink_map es es' k sd name ino : names_once es -> slot_set es es' k sd -> sfd_ino sd = SFS_NOINO -> holds es k name ino ->
  names_once es' /\ dir_map es' = delete name (dir_map es).
Proof.
  intros Hu Hs H0 Hk. assert (Hsub : forall j nm i, holds es' j nm i <-> j <> k /\ holds es j nm i).
  { intros j nm i. rewrite (slot_holds _ _ _ _ _ _ _ Hs). naive_solver. }
  assert (Hu' : names_once es') by (intros j1 j2 nm i1 i2 [_ H1]%Hsub [_ H2]%Hsub; by eapply Hu).
  split; [done|]. apply (dir_map_eq es es' name None); [done|done|]. intros nm i. split.
  - intros [j [Hj Hh]%Hsub]. right. split; [|by exists j]. intros ->. by apply Hj, (Hu j k name i ino).
  - intros [[_ E]|[Hnm [j Hj]]]; [done|]. exists j. apply Hsub. split; [|done]. intros ->.
    destruct Hj as (e & He & _ & _ & <-), Hk as (e' & He' & _ & _ & <-). congruence.
Qed.

Section Ops.
Context {U H : Type} `{US : UserSpace U} `{HW : LhdHw H}.
Local Abbreviation fstate := (fstate U H) (only parsing).
Implicit Types s : fstate.

(** ** sfs_metaio *)

Lemma metaio_read s v x pos data : good s -> f_vn s !! v = Some x -> file_ok s (sv_i x) -> let len := Z.of_nat (length data) in
  0 <= pos -> pos + len <= MAXFILE -> 0 < len -> pos mod 512 + len <= 512 ->
  wp (sfs_metaio v pos data UIO_READ) s (fun r s' => quiet s s' /\ r = (0, frange (dsk s) (sv_i x) pos len)).
Proof using Type.
  intros Hg Hx F len Ho Hmax Hl Hb. assert (Elen : len = Z.of_nat (length data)) by done. pose proof (Z.mod_pos_bound pos 512 ltac:(lia)) as Hmod. unfold sfs_metaio, SFS_BLOCKSIZE.
  apply wp_bind. eapply wp_eq; [by apply held_good|]. apply wp_bind, wp_KASSERT; [done|].
  assert (Hn : 0 <= pos / 512 < 143) by (unfold MAXFILE in Hmax; Z.to_euclidean_division_equations; lia). rewrite (u32_small (pos / 512)) by lia.
  change (bool_decide (UIO_READ = UIO_WRITE)) with false. change (bool_decide (UIO_READ = UIO_READ)) with true.
  destruct (bmap_lookup v x (pos / 512) s Hg Hx F Hn) as (d1 & Hrun & Hg1 & Hk1 & Hd1). set (s1 := with_disk d1 s) in *.
  assert (Q1 : quiet s s1) by by exists d1. apply wp_bind. eapply wp_eq; [exact Hrun|]. cbn [Z.eqb negb].
  assert (Hc : take (length data) (drop (Z.to_nat (pos mod 512)) (content (dsk s) (sv_i x) (pos / 512))) = frange (dsk s) (sv_i x) pos len).
  { rewrite <- frange_block by (try apply content_len; lia). unfold len. by rewrite Nat2Z.id. }
  unfold content in Hc. destruct (Z.eqb_spec (bmap_of (dsk s) (sv_i x) (pos / 512)) 0) as [E|Hne].
  - apply wp_bind, wp_KASSERT; [done|]. apply wp_ret. split; [done|]. rewrite <- Hc. unfold zeros. rewrite drop_replicate, take_replicate. do 2 f_equal. lia.
  - destruct (readblock_good (bmap_of (dsk s) (sv_i x) (pos / 512)) zeros s1 Hg1) as (d2 & Hrd & Hg2 & Hk2 & Hd2); [|done|].
    { rewrite (kept_nblk _ _ Hk1). by apply block_in_range. }
    apply wp_bind. eapply wp_eq; [exact Hrd|]. cbn [Z.eqb negb]. rewrite decide_True by done. apply wp_ret. rewrite Hd1. rewrite Hc.
    split; [|done]. eapply quiet_trans; [exact Q1|]. by exists d2.
Qed.

(** Metadata has been written at [pos], or nothing has. *)
Definition meta_post (s : fstate) (v : Z) (x : sfs_vnode) (pos : Z) (data : list Z) (r : Z * list Z) (s' : fstate) : Prop :=
  exists x', grows s s' v x x' /\
    ((r.1 = 0 /\ pos + Z.of_nat (length data) <= MAXFILE /\ sfi_size (sv_i x') = sfi_size (sv_i x) `max` (pos + Z.of_nat (length data)) /\
      forall p, 0 <= p < MAXFILE -> fbyte (dsk s') (sv_i x') p =
        if decide (pos <= p < pos + Z.of_nat (length data)) then nth (Z.to_nat (p - pos)) data 0 else fbyte (dsk s) (sv_i x) p) \/
     (((r.1 = ENOSPC /\ full s') \/ (r.1 = EFBIG /\ MAXFILE <= pos)) /\
      (pos / 512 < 143 -> bmap_of (dsk s) (sv_i x) (pos / 512) = 0) /\ sfi_size (sv_i x') = sfi_size (sv_i x) /\
      forall p, 0 <= p < MAXFILE -> fbyte (dsk s') (sv_i x') p = fbyte (dsk s) (sv_i x) p)).

Lemma metaio_write s v x pos data : good s -> f_vn s !! v = Some x -> file_ok s (sv_i x) -> let len := Z.of_nat (length data) in
  0 <= pos < 2 ^ 32 -> 0 < len -> pos mod 512 + len <= 512 ->
  wp (sfs_metaio v pos data UIO_WRITE) s (meta_post s v x pos data).
Proof using Type.
  intros Hg Hx F len Ho Hl Hb. assert (Elen : len = Z.of_nat (length data)) by done. pose proof (Z.mod_pos_bound pos 512 ltac:(lia)) as Hmod. unfold sfs_metaio, SFS_BLOCKSIZE.
  apply wp_bind. eapply wp_eq; [by apply held_good|]. apply wp_bind, wp_KASSERT; [done|].
  change (bool_decide (UIO_WRITE = UIO_WRITE)) with true.
  apply wp_bind. eapply wp_mono; [apply (bmap_for_write s v x pos); try done; lia|].
  intros r s1 (x1 & P & [(blk & -> & Hne & Hlt & Hbm)|(e & -> & He & Hwhy & Hhole)]).
  2:{ rewrite (proj2 (Z.eqb_neq _ _) He). cbn [negb]. apply wp_ret. destruct (wrote_nothing _ _ _ _ _ pos data P) as (G & Zs & B).
      exists x1. split; [done|]. right. split_and!; try done. intros p Hp. rewrite B by done. by rewrite decide_False by lia. }
  cbn [Z.eqb negb]. rewrite (proj2 (Z.eqb_neq _ _) Hne). pose proof P as (G & Zs & C). pose proof (gr_good _ _ _ _ _ G) as Hg1.
  pose proof (gr_ok _ _ _ _ _ G) as F1. assert (Hx1 : f_vn s1 !! v = Some x1) by (rewrite (gr_vn _ _ _ _ _ G); apply lookup_insert_eq).
  assert (Hn : 0 <= pos / 512 < 143) by (split; [apply Z.div_pos; lia|done]).
  assert (Hblk : 0 <= blk < nblk s1) by (rewrite <- Hbm; apply (block_in_range _ _ _ F1 Hn); by rewrite Hbm).
  destruct (readblock_good blk zeros s1 Hg1 Hblk eq_refl) as (d2 & Hrd & Hg2 & Hk2 & Hd2). set (s2 := with_disk d2 s1) in *.
  apply wp_bind. eapply wp_eq; [exact Hrd|]. cbn [Z.eqb negb]. rewrite decide_False by done.
  assert (Hold : dsk s1 blk = content (dsk s) (sv_i x) (pos / 512)).
  { rewrite <- C by done. unfold content. by rewrite Hbm, (proj2 (Z.eqb_neq _ _) Hne). }
  set (block := take (Z.to_nat (pos mod 512)) (dsk s1 blk) ++ data ++ drop (Z.to_nat (pos mod 512) + length data) (dsk s1 blk)).
  assert (Hdata : length block = 512%nat) by (unfold block; rewrite !length_app, length_take, length_drop, dsk_len; lia).
  destruct (writeblock_good blk block s2 Hg2) as (d3 & Hwr & Hg3 & Hk3 & Hd3 & Ho3); [by rewrite (kept_nblk _ _ Hk2)|done|].
  apply wp_bind. eapply wp_eq; [exact Hwr|]. cbn [Z.eqb negb].
  destruct (write_data s1 d3 v x1 (pos / 512) blk block) as [G3 C3]; try done.
  { by etrans. }
  { intros c Hc. etrans; [by apply Ho3|apply Hd2]. }
  assert (W : wrote s v x (with_disk d3 s1) x1 pos len data).
  { apply (fbyte_block s v x s1 x1 _ pos len data block); try done; try lia. intros k Hk. rewrite <- Hold. unfold block.
    replace (length data) with (Z.to_nat len) by lia. apply splice_nth; try done; [apply dsk_len|lia]. }
  destruct W as (GW & ZW & BW). change (with_disk d3 s2) with (with_disk d3 s1).
  assert (Hx3 : f_vn (with_disk d3 s1) !! v = Some x1) by done. assert (Hend : pos + len <= 73216) by (Z.to_euclidean_division_equations; lia).
  apply wp_bind. eapply wp_eq; [by apply get_sv_eq|]. apply wp_bind. fold len.
  destruct (Z.ltb_spec (sfi_size (sv_i x1)) (pos + len)) as [Hlt2|Hge]; cbn [when].
  - eapply wp_eq; [by apply (touch_last v _ x1)|]. rewrite u32_small by lia. apply wp_ret. eexists. split.
    + eapply grows_trans; [exact GW| |done]. apply resize; [done|done|apply (gr_ok _ _ _ _ _ G3)].
    + left. split_and!; try done. simpl. fold len. lia.
  - eapply wp_eq; [reflexivity|]. apply wp_ret. exists x1. split; [done|]. left. split_and!; try done. fold len. lia.
Qed.

(** ** Directories *)

Record dir_ok (s : fstate) (x : sfs_vnode) : Prop := mk_dirok {
  do_file : file_ok s (sv_i x);
  do_type : sfi_type (sv_i x) = SFS_TYPE_DIR;
  do_size : 0 <= sfi_size (sv_i x) <= MAXFILE /\ sfi_size (sv_i x) mod 64 = 0;
  do_once : names_once (entries (dsk s) (sv_i x))
}.

Lemma entry_pointwise d d' i k : (forall c, d' c = d c) -> entry d' i k = entry d i k.
Proof using Type. intros E. unfold entry. by rewrite (frange_pointwise d d'). Qed.

Lemma readdir_good s v x k : good s -> f_vn s !! v = Some x -> file_ok s (sv_i x) -> 0 <= k -> (k + 1) * 64 <= MAXFILE ->
  wp (sfs_readdir v k) s (fun r s' => quiet s s' /\ r = (0, entry (dsk s) (sv_i x) k)).
Proof using Type.
  intros Hg Hx F Hk Hmax. unfold sfs_readdir, DIRENTRY_SIZE. unfold MAXFILE in *. rewrite u32_small by lia.
  apply wp_bind. eapply wp_mono; [apply (metaio_read s v x); try done; try (unfold MAXFILE); simpl; Z.to_euclidean_division_equations; lia|].
  intros r s' [Q ->]. apply wp_ret. done.
Qed.

Lemma nentries_good s v x : f_vn s !! v = Some x -> dir_ok s x -> sfs_dir_nentries v s = Ret (sfi_size (sv_i x) / 64) s.
Proof using Type.
  intros Hx [_ Ht [_ Hm] _]. unfold sfs_dir_nentries, DIRENTRY_SIZE. rewrite (run_bind _ _ s x s) by (by apply get_sv_eq).
  rewrite (run_bind _ _ s tt s) by (by rewrite Ht). by rewrite Hm.
Qed.

Lemma findname_good n : forall s v x name i acc, good s -> f_vn s !! v = Some x -> file_ok s (sv_i x) -> 0 <= i -> (i + Z.of_nat n) * 64 <= MAXFILE ->
  let es := map (entry (dsk s) (sv_i x)) (seqZ i (Z.of_nat n)) in
  names_once es -> fd_hit acc = None \/ (forall k ino, ~ holds es k name ino) ->
  wp (findname_loop n i v name acc) s (fun r s' => quiet s s' /\ r = (0, scan name es i acc)).
Proof using Type.
  induction n as [|n IH]; intros s v x name i acc Hg Hx F Hi Hmax es Hu Hacc; cbn [findname_loop].
  { apply wp_ret. split; [by apply quiet_refl|done]. }
  assert (Ees : es = entry (dsk s) (sv_i x) i :: map (entry (dsk s) (sv_i x)) (seqZ (i + 1) (Z.of_nat n))).
  { unfold es. rewrite seqZ_cons by lia. simpl. do 3 f_equal; lia. }
  clearbody es. subst es. pose proof (names_once_tail _ _ Hu) as Hu'.
  apply wp_bind. eapply wp_mono; [apply (readdir_good s v x); try done; lia|]. intros r s1 [Q ->]. cbn [Z.eqb negb].
  destruct (quiet_file s s1 v x Q Hx F) as (Hg1 & Hx1 & F1 & _).
  assert (Hes : map (entry (dsk s1) (sv_i x)) (seqZ (i + 1) (Z.of_nat n)) = map (entry (dsk s) (sv_i x)) (seqZ (i + 1) (Z.of_nat n))).
  { apply list_fmap_ext. intros k p _. destruct Q as (d & -> & _ & _ & Hd). by apply entry_pointwise. }
  set (e := entry (dsk s) (sv_i x) i) in *. set (es := map (entry (dsk s) (sv_i x)) _) in *.
  assert (Hnext : forall acc', fd_hit acc' = None \/ (forall k ino, ~ holds es k name ino) ->
    wp (findname_loop n (i + 1) v name acc') s1 (fun r s' => quiet s s' /\ r = (0, scan name es (i + 1) acc'))).
  { intros acc' Ha. eapply wp_mono; [apply (IH s1 v x); try done; rewrite ?Hes; try done; lia|]. intros r s' [Q' ->].
    split; [by eapply quiet_trans|]. by rewrite Hes. }
  assert (Htail : fd_hit acc = None \/ (forall k ino, ~ holds es k name ino)) by (destruct Hacc as [?|Hno]; [by left|right; intros k j; apply (Hno (S k))]).
  cbn [scan]. destruct (Z.eqb_spec (sfd_ino e) SFS_NOINO) as [E0|Hne]; [by apply Hnext|]. fold (name_of e).
  destruct (decide (name_of e = name)) as [En|En]; [|by apply Hnext].
  assert (H0 : holds (e :: es) 0 name (sfd_ino e)) by by exists e.
  apply wp_bind, wp_KASSERT; [destruct Hacc as [->|Hno]; [done|by apply Hno in H0]|]. apply Hnext. right. intros k j Hk.
  by apply (Hu 0%nat (S k) name (sfd_ino e) j H0) in Hk.
Qed.

(** What [sfs_dir_findname] finds. *)
Lemma dir_findname_good s v x name : good s -> f_vn s !! v = Some x -> dir_ok s x -> let es := entries (dsk s) (sv_i x) in
  wp (sfs_dir_findname v name) s (fun r s' => quiet s s' /\
    let fd := scan name es 0 (mk_found None (-1)) in r = (match fd_hit fd with Some _ => 0 | None => ENOENT end, fd)).
Proof using Type.
  intros Hg Hx D es. pose proof (do_size _ _ D) as [Hs Hm]. unfold sfs_dir_findname. apply wp_bind. eapply wp_eq; [by apply nentries_good|].
  set (n := Z.to_nat (sfi_size (sv_i x) / 64)).
  assert (Hn : Z.of_nat n = sfi_size (sv_i x) / 64) by (unfold n; Z.to_euclidean_division_equations; lia).
  apply wp_bind. eapply wp_mono; [apply (findname_good n s v x); try done|].
  - apply (do_file _ _ D).
  - rewrite Hn. Z.to_euclidean_division_equations; lia.
  - rewrite Hn. apply (do_once _ _ D).
  - by left.
  - intros r s' [Q ->]. rewrite Hn. cbn [fst snd Z.eqb negb]. apply wp_ret. done.
Qed.

Lemma length_direntry sd : length (sfd_name sd) = 60%nat -> length (bytes_of_direntry sd) = 64%nat.
Proof using Type. intros E. unfold bytes_of_direntry. rewrite length_app, E. done. Qed.

(** Writing slot [k], at most one past the last. *)
Definition writedir_post (s : fstate) (v : Z) (x : sfs_vnode) (k : Z) (sd : sfs_direntry) (r : Z) (s' : fstate) : Prop :=
  exists x', grows s s' v x x' /\ (0 <= sfi_size (sv_i x') <= MAXFILE /\ sfi_size (sv_i x') mod 64 = 0) /\
    let es := entries (dsk s) (sv_i x) in let es' := entries (dsk s') (sv_i x') in
    ((r = 0 /\ slot_set es es' (Z.to_nat k) sd) \/
     (((r = ENOSPC /\ full s') \/ r = EFBIG) /\ (k < sfi_size (sv_i x) / 64 -> bmap_of (dsk s) (sv_i x) (k * 64 / 512) = 0) /\ es' = es)).

Lemma writedir_good s v x k sd : good s -> f_vn s !! v = Some x -> dir_ok s x -> 0 <= k <= sfi_size (sv_i x) / 64 ->
  is_word (sfd_ino sd) -> length (sfd_name sd) = 60%nat ->
  wp (sfs_writedir v k sd) s (writedir_post s v x k sd).
Proof using Type.
  intros Hg Hx D Hk Hw Hl. pose proof (do_size _ _ D) as [Hs Hm]. pose proof (length_direntry sd Hl) as Hlen. unfold MAXFILE in Hs.
  assert (Hk64 : k * 64 <= sfi_size (sv_i x)) by (Z.to_euclidean_division_equations; lia).
  unfold sfs_writedir, DIRENTRY_SIZE. apply wp_bind, wp_KASSERT; [lia|]. rewrite u32_small by lia. apply wp_bind.
  eapply wp_mono; [apply (metaio_write s v x); try done; try apply (do_file _ _ D); rewrite ?Hlen; Z.to_euclidean_division_equations; lia|].
  intros r s' (x' & G & Hcase). apply wp_ret. exists x'. split; [done|]. unfold MAXFILE in *. rewrite Hlen in Hcase. change (Z.of_nat 64) with 64 in Hcase.
  destruct Hcase as [(Hr & Hend & Hsz & B)|(Hwhy & Hhole & Hsz & B)].
  - split; [rewrite Hsz; Z.to_euclidean_division_equations; lia|]. left. split; [done|]. intros j. rewrite !entries_lookup.
    assert (Hn' : sfi_size (sv_i x') / 64 = (sfi_size (sv_i x) / 64) `max` (k + 1)) by (rewrite Hsz; Z.to_euclidean_division_equations; lia).
    rewrite Hn'. destruct (decide (j = Z.to_nat k)) as [->|Hjk].
    + rewrite decide_True by lia. f_equal. unfold entry. rewrite Z2Nat.id by lia. change 64 with (Z.of_nat 64) at 2. rewrite <- Hlen.
      rewrite frange_bytes; [by apply direntry_roundtrip|]. rewrite Hlen. intros p Hp. rewrite B by lia. by rewrite decide_True by lia.
    + destruct (decide (Z.of_nat j < sfi_size (sv_i x) / 64)) as [Hj|Hj].
      * rewrite decide_True by lia. f_equal. unfold entry. f_equal. apply frange_eq. intros p Hp. rewrite B by (Z.to_euclidean_division_equations; lia).
        by rewrite decide_False by lia.
      * by rewrite decide_False by lia.
  - split; [rewrite Hsz; lia|]. right. split; [destruct Hwhy as [?|[? _]]; auto|]. split.
    + intros Hlt. apply Hhole. Z.to_euclidean_division_equations; lia.
    + unfold entries. rewrite Hsz. apply list_fmap_ext. intros n p Hp. apply lookup_seqZ in Hp as [-> Hn]. unfold entry. f_equal.
      apply frange_eq. intros q Hq. apply B. Z.to_euclidean_division_equations; lia.
Qed.

Lemma scan_lookup es name : names_once es -> let fd := scan name es 0 (mk_found None (-1)) in
  match dir_map es !! name with
  | Some ino => exists k, fd_hit fd = Some (ino, Z.of_nat k) /\ holds es k name ino
  | None => fd_hit fd = None /\ forall k ino, ~ holds es k name ino
  end.
Proof using Type.
  intros Hu fd. pose proof (scan_hit name es 0 (mk_found None (-1)) Hu (or_introl eq_refl)) as Hhit. fold fd in Hhit.
  destruct (dir_map es !! name) as [ino|] eqn:E.
  - apply dir_map_lookup in E as [k Hk]; [|done]. exists k. split; [|done]. apply Hhit. right. by exists k.
  - assert (Hno : forall k ino, ~ holds es k name ino).
    { intros k ino Hk. assert (dir_map es !! name = Some ino) by (apply dir_map_lookup; [done|by exists k]). congruence. }
    split; [|done]. destruct (fd_hit fd) as [[ino slot]|] eqn:Eh; [|done]. destruct (proj1 (Hhit ino slot) eq_refl) as [?|(k & Hk & _)]; [done|]. by apply Hno in Hk.
Qed.

(** The slot a link uses: an empty one, or the one past the end. *)
Lemma link_slot s x name : dir_ok s x -> let es := entries (dsk s) (sv_i x) in let fd := scan name es 0 (mk_found None (-1)) in
  let k := if fd_empty fd <? 0 then sfi_size (sv_i x) / 64 else fd_empty fd in
  0 <= k <= sfi_size (sv_i x) / 64 /\ forall nm i, ~ holds es (Z.to_nat k) nm i.
Proof using Type.
  intros D es fd k. pose proof (do_size _ _ D) as [Hs _]. pose proof (length_entries (dsk s) (sv_i x) ltac:(lia)) as Hl. fold es in Hl.
  assert (Hend : forall nm i, ~ holds es (Z.to_nat (sfi_size (sv_i x) / 64)) nm i).
  { intros nm i (e & He & _). apply lookup_lt_Some in He. lia. }
  destruct (scan_empty name es 0 (mk_found None (-1))) as [E|(j & e & Hj & H0 & E)]; fold fd in E; unfold k; rewrite E; simpl.
  - split; [lia|done].
  - rewrite (proj2 (Z.ltb_ge _ _)) by lia. pose proof (lookup_lt_Some _ _ _ Hj). split; [lia|]. replace (Z.to_nat _) with j by lia.
    intros nm i (e' & He' & Hi & Hne & _). congruence.
Qed.

Lemma dir_ok_grows s s' v x x' : dir_ok s x -> grows s s' v x x' -> 0 <= sfi_size (sv_i x') <= MAXFILE /\ sfi_size (sv_i x') mod 64 = 0 ->
  names_once (entries (dsk s') (sv_i x')) -> dir_ok s' x'.
Proof using Type.
  intros D G Hs Hu. pose proof (gr_same _ _ _ _ _ G) as (_ & _ & Ht & _). split; [apply (gr_ok _ _ _ _ _ G)|by rewrite Ht, (do_type _ _ D)|done|done].
Qed.

Lemma quiet_dir s s' v x : quiet s s' -> f_vn s !! v = Some x -> dir_ok s x ->
  good s' /\ f_vn s' !! v = Some x /\ dir_ok s' x /\ entries (dsk s') (sv_i x) = entries (dsk s) (sv_i x) /\ grows s s' v x x.
Proof using Type.
  intros Q Hx D. destruct (quiet_file s s' v x Q Hx (do_file _ _ D)) as (Hg & Hx' & F' & _). destruct Q as (d & -> & G & K & Hd).
  assert (He : entries (dsk (with_disk d s)) (sv_i x) = entries (dsk s) (sv_i x)) by (apply list_fmap_ext; intros n p _; by apply entry_pointwise).
  split_and!; try done; [|by apply grows_nop; [..|apply (do_file _ _ D)| | | | |]].
  destruct D as [_ D2 D3 D4]. split; [done|done|done|]. by rewrite He.
Qed.

(** Looking a name up in a directory is the lookup of its map of names, and changes
    nothing. *)
Lemma dir_findname_refines_lookup s v x name : good s -> f_vn s !! v = Some x -> dir_ok s x -> let es := entries (dsk s) (sv_i x) in
  wp (sfs_dir_findname v name) s (fun r s' => quiet s s' /\
    match dir_map es !! name with
    | Some ino => r.1 = 0 /\ exists k, fd_hit r.2 = Some (ino, Z.of_nat k) /\ holds es k name ino
    | None => r.1 = ENOENT
    end).
Proof using Type.
  intros Hg Hx D es. eapply wp_mono; [by apply (dir_findname_good s v x)|]. intros r s' [Q ->]. split; [done|]. simpl.
  pose proof (scan_lookup es name (do_once _ _ D)) as Hl. fold es. destruct (dir_map es !! name) as [ino|].
  - destruct Hl as (k & -> & Hk). split; [done|]. by exists k.
  - by destruct Hl as [-> _].
Qed.

(** Linking a name adds it to the map of names, in the slot reported back, exactly when it
    is new and short enough; in every other case the directory is as it was and the result says
    why. *)
Lemma dir_link_refines_insert s v x name ino : good s -> f_vn s !! v = Some x -> dir_ok s x ->
  Forall (fun c => c <> 0) name -> is_word ino -> ino <> SFS_NOINO -> let es := entries (dsk s) (sv_i x) in
  wp (sfs_dir_link v name ino) s (fun r s' => exists x', grows s s' v x x' /\ dir_ok s' x' /\
    let es' := entries (dsk s') (sv_i x') in
    (r.1 = 0 /\ dir_map es !! name = None /\ (length name <= 59)%nat /\ dir_map es' = <[name := ino]> (dir_map es) /\ holds es' (Z.to_nat r.2) name ino) \/
    (es' = es /\ ((r.1 = EEXIST /\ is_Some (dir_map es !! name)) \/ (r.1 = ENAMETOOLONG /\ (59 < length name)%nat) \/ (r.1 = ENOSPC /\ full s') \/ r.1 = EFBIG))).
Proof using Type.
  intros Hg Hx D Hnz Hw Hne es. unfold sfs_dir_link. apply wp_bind. eapply wp_mono; [by apply (dir_findname_good s v x)|].
  intros r s1 [Q ->]. cbv zeta. fold es. set (fd := scan name es 0 (mk_found None (-1))).
  destruct (quiet_dir s s1 v x Q Hx D) as (Hg1 & Hx1 & D1 & He1 & G1).
  pose proof (scan_lookup es name (do_once _ _ D)) as Hl. fold fd in Hl. cbv zeta in Hl.
  destruct (dir_map es !! name) as [i0|] eqn:E.
  { destruct Hl as (k & -> & _). cbn [Z.eqb negb andb]. apply wp_ret. exists x. split_and!; try done. right. split; [done|]. left. by split. }
  destruct Hl as [-> Hno]. cbn [Z.eqb negb andb ENOENT Pos.eqb].
  destruct (Z.ltb_spec SFS_NAMELEN (Z.of_nat (length name) + 1)) as [Hlong|Hshort]; unfold SFS_NAMELEN in *.
  { apply wp_ret. exists x. split_and!; try done. right. split; [done|]. right. left. split; [done|lia]. }
  destruct (link_slot s x name D) as [Hk Hfree]. fold es fd in Hk, Hfree. set (k := if fd_empty fd <? 0 then sfi_size (sv_i x) / 64 else fd_empty fd) in *.
  apply wp_bind. apply (wp_eq _ _ k s1). { unfold k. destruct (fd_empty fd <? 0); [by apply nentries_good|done]. }
  set (sd := mk_sd ino _). assert (Hname : name_of sd = name) by (apply cstr_padded; [done|lia]).
  apply wp_bind. eapply wp_mono; [apply (writedir_good s1 v x k sd); try done|].
  { unfold sd. simpl. rewrite length_app, length_replicate. lia. }
  intros r s' (x' & G & Hs & Hcase). rewrite He1 in Hcase. fold es in Hcase.
  assert (G' : grows s s' v x x') by (eapply grows_trans; [exact G1|exact G|apply (do_file _ _ D)]).
  apply wp_ret. exists x'. split; [done|]. destruct Hcase as [[-> Hset]|(Hwhy & _ & Hsame)].
  - destruct (link_map es _ (Z.to_nat k) sd name ino (do_once _ _ D) Hset eq_refl Hne Hname Hfree Hno) as [Hu Hmap].
    split; [by eapply dir_ok_grows|]. left. split_and!; try done; [lia|]. apply (slot_holds _ _ _ _ _ _ _ Hset). left. done.
  - split; [eapply dir_ok_grows; try done; rewrite Hsame; apply (do_once _ _ D)|]. right. split; [done|]. right. right.
    destruct Hwhy as [?|?]; [by left|by right].
Qed.

(** Unlinking the slot of a name removes the name from the map, and always succeeds. *)
Lemma dir_unlink_refines_delete s v x k name ino : good s -> f_vn s !! v = Some x -> dir_ok s x -> let es := entries (dsk s) (sv_i x) in
  holds es k name ino ->
  wp (sfs_dir_unlink v (Z.of_nat k)) s (fun r s' => exists x', grows s s' v x x' /\ dir_ok s' x' /\
    r = 0 /\ dir_map (entries (dsk s') (sv_i x')) = delete name (dir_map es)).
Proof using Type.
  intros Hg Hx D es Hk. pose proof (do_size _ _ D) as [Hs _]. pose proof (length_entries (dsk s) (sv_i x) ltac:(lia)) as Hl. fold es in Hl.
  assert (Hlt : Z.of_nat k < sfi_size (sv_i x) / 64) by (destruct Hk as (e & He & _); apply lookup_lt_Some in He; lia).
  unfold sfs_dir_unlink. set (sd := mk_sd SFS_NOINO (replicate 60 0)).
  eapply wp_mono; [apply (writedir_good s v x (Z.of_nat k) sd); try done; lia|]. intros r s' (x' & G & Hs' & Hcase). exists x'. split; [done|].
  destruct Hcase as [[-> Hset]|(_ & Hhole & _)].
  - rewrite Nat2Z.id in Hset. destruct (unlink_map es _ k sd name ino (do_once _ _ D) Hset eq_refl Hk) as [Hu Hmap].
    split; [by eapply dir_ok_grows|done].
  - exfalso. specialize (Hhole Hlt). destruct Hk as (e & He & Hi & Hne & _). apply Hne. unfold es in He. rewrite entries_lookup, decide_True in He by done.
    injection He as <-. rewrite <- Hi. unfold entry. rewrite <- (frange_block _ _ _ 64); [|apply content_len|lia|lia|Z.to_euclidean_division_equations; lia].
    unfold content. rewrite Hhole. cbn [Z.eqb]. unfold zeros. rewrite drop_replicate, take_replicate, Nat.min_l by (Z.to_euclidean_division_equations; lia). done.
Qed.

(** C22: a directory is a finite map from names to inode numbers.  Looking a name up is the
    lookup of the map and changes nothing; linking a name is the insertion, exactly when the
    name is new and short enough, in the slot reported back, and in every other case the
    directory is as it was and the result says why; unlinking the slot of a name is the
    deletion and always succeeds. *)
Theorem sfs_directory_refines_map s v x : good s -> f_vn s !! v = Some x -> dir_ok s x -> let es := entries (dsk s) (sv_i x) in
  (forall name, wp (sfs_dir_findname v name) s (fun r s' => quiet s s' /\
    match dir_map es !! name with
    | Some ino => r.1 = 0 /\ exists k, fd_hit r.2 = Some (ino, Z.of_nat k) /\ holds es k name ino
    | None => r.1 = ENOENT
    end)) /\
  (forall name ino, Forall (fun c => c <> 0) name -> is_word ino -> ino <> SFS_NOINO ->
    wp (sfs_dir_link v name ino) s (fun r s' => exists x', grows s s' v x x' /\ dir_ok s' x' /\
      let es' := entries (dsk s') (sv_i x') in
      (r.1 = 0 /\ dir_map es !! name = None /\ (length name <= 59)%nat /\ dir_map es' = <[name := ino]> (dir_map es) /\ holds es' (Z.to_nat r.2) name ino) \/
      (es' = es /\ ((r.1 = EEXIST /\ is_Some (dir_map es !! name)) \/ (r.1 = ENAMETOOLONG /\ (59 < length name)%nat) \/ (r.1 = ENOSPC /\ full s') \/ r.1 = EFBIG)))) /\
  (forall k name ino, holds es k name ino ->
    wp (sfs_dir_unlink v (Z.of_nat k)) s (fun r s' => exists x', grows s s' v x x' /\ dir_ok s' x' /\
      r = 0 /\ dir_map (entries (dsk s') (sv_i x')) = delete name (dir_map es))).
Proof using Type.
  intros Hg Hx D es. split_and!; intros.
  - by apply (dir_findname_refines_lookup s v x).
  - by apply (dir_link_refines_insert s v x).
  - by eapply (dir_unlink_refines_delete s v x).
Qed.

End Ops.
(** ** Witnesses: a directory with one name *)

Import SfsToy.

Definition toy_dirx : sfs_vnode := mk_sv 1 toy_root 1 false.
Definition toy_dirs : Sfs.fstate unit card := toy_state false toy_root.

Lemma toy_root_ref d n : 0 <= n -> ref d toy_root n = if decide (n = 0) then 3 else 0.
Proof.
  intros Hn. unfold ref, bmap_of. destruct (decide (n = 0)) as [->|]; [done|]. destruct (n =? 143); [done|]. destruct (n <? 15); [|done].
  replace (Z.to_nat n) with (S (Z.to_nat (n - 1))) by lia. apply (nth_zeros 14).
Qed.

Lemma toy_dir_ok : dir_ok toy_dirs toy_dirx.
Proof.
  split; [split; [done| |]|done|split; [unfold MAXFILE; simpl; lia|done]|].
  - intros n Hn. simpl. rewrite toy_root_ref by lia. destruct (decide (n = 0)); [right|by left]. split; [unfold nblk; simpl; lia|by vm_compute].
  - intros n m Hn Hm. simpl. rewrite !toy_root_ref by lia. destruct (decide (n = 0)), (decide (m = 0)); lia.
  - intros j k name i1 i2 (e1 & H1 & _) (e2 & H2 & _). change (sfi_size (sv_i toy_dirx)) with 64 in *.
    rewrite entries_lookup in H1, H2. simpl in H1, H2. destruct (decide (Z.of_nat j < 64 / 64)); [|done]. destruct (decide (Z.of_nat k < 64 / 64)); [|done].
    change (64 / 64) with 1 in *. lia.
Qed.

Lemma toy_dir_holds : holds (entries (dsk toy_dirs) (sv_i toy_dirx)) 0 [97] 5.
Proof. exists toy_entry. split_and!; [by vm_compute|done|done|done]. Qed.

Lemma sfs_directory_refines_map_witness :
  wp (sfs_dir_link 100 [98; 99] 7) toy_dirs (fun r s' => exists x', grows toy_dirs s' 100 toy_dirx x' /\ dir_ok s' x' /\
    let es := entries (dsk toy_dirs) (sv_i toy_dirx) in let es' := entries (dsk s') (sv_i x') in
    (r.1 = 0 /\ dir_map es !! [98; 99] = None /\ (length [98; 99] <= 59)%nat /\ dir_map es' = <[[98; 99] := 7]> (dir_map es) /\ holds es' (Z.to_nat r.2) [98; 99] 7) \/
    (es' = es /\ ((r.1 = EEXIST /\ is_Some (dir_map es !! [98; 99])) \/ (r.1 = ENAMETOOLONG /\ (59 < length [98; 99])%nat) \/ (r.1 = ENOSPC /\ full s') \/ r.1 = EFBIG))) /\
  match sfs_dir_link 100 [98; 99] 7 toy_dirs with Ret r _ => r = (0, 1) | _ => False end /\
  wp (sfs_dir_unlink 100 0) toy_dirs (fun r s' => exists x', grows toy_dirs s' 100 toy_dirx x' /\ dir_ok s' x' /\
    r = 0 /\ dir_map (entries (dsk s') (sv_i x')) = delete [97] (dir_map (entries (dsk toy_dirs) (sv_i toy_dirx)))).
Proof.
  destruct (sfs_directory_refines_map toy_dirs 100 toy_dirx) as (_ & Hl & Hu); [apply toy_good|done|apply toy_dir_ok|].
  split; [apply (Hl [98; 99] 7); [repeat constructor; lia|unfold is_word; lia|done]|]. split; [by vm_compute|].
  apply (Hu 0%nat [97] 5), toy_dir_holds.
Defined.

End SfsDir.
