(* ===== verification/SfsTrunc.v ===== *)
(** * Truncation: sfs_itrunc of sfs_bmap.c

    Which blocks of a file truncation gives back, exactly, and that it gives back no other. *)

From S2P Require Import Prelude Bitmap Uio Lhd SfsData Sfs SfsOps SfsBlocks SfsMap SfsFile SfsReadWrite.

Module SfsTrunc.
Import Uio Lhd Bitmap SfsData Sfs SfsOps SfsBlocks SfsMap SfsFile SfsReadWrite.

(** The blocks of the indirect block that are kept, as [trunc_indirect] leaves them. *)
Fixpoint kept_words (blocklen j : Z) (ws : list Z) : list Z :=
  match ws with
  | [] => []
  | w :: ws' => (if blocklen <? SFS_NDIRECT + j then 0 else w) :: kept_words blocklen (j + 1) ws'
  end.

Lemma kept_words_nth blocklen ws : forall j k, nth k (kept_words blocklen j ws) 0 =
  if blocklen <? 15 + j + Z.of_nat k then 0 else nth k ws 0.
Proof.
  induction ws as [|w ws IH]; intros j [|k]; simpl.
  - by destruct (_ <? _).
  - by destruct (_ <? _).
  - unfold SFS_NDIRECT. by rewrite Z.add_0_r.
  - rewrite IH. by replace (15 + (j + 1) + Z.of_nat k) with (15 + j + Z.pos (Pos.of_succ_nat k)) by lia.
Qed.

Lemma kept_words_len blocklen ws : forall j, length (kept_words blocklen j ws) = length ws.
Proof. induction ws as [|w ws IH]; intros j; simpl; [done|]. by rewrite IH. Qed.

Lemma kept_words_word blocklen ws : forall j, Forall is_word ws -> Forall is_word (kept_words blocklen j ws).
Proof.
  induction ws as [|w ws IH]; intros j Hf; simpl; [constructor|]. inversion Hf; subst. constructor; [|by apply IH].
  destruct (_ <? _); [unfold is_word; lia|done].
Qed.

Section Ops.
Context {U H : Type} `{US : UserSpace U} `{HW : LhdHw H}.
Local Abbreviation fstate := (fstate U H) (only parsing).
Implicit Types s : fstate.

(** Only the map of blocks in use has changed: the blocks [fr] have been given back. *)
Definition freed (s s' : fstate) (fr : Z -> Prop) : Prop :=
  good s' /\ kept s s' /\ f_vn s' = f_vn s /\ f_d s' = f_d s /\
  forall c, 0 < c -> marked s' c = true <-> marked s c = true /\ ~ fr c.

Lemma freed_trans s1 s2 s3 fr1 fr2 (fr3 : Z -> Prop) : freed s1 s2 fr1 -> freed s2 s3 fr2 ->
  (forall c, 0 < c -> fr3 c <-> fr1 c \/ fr2 c) -> freed s1 s3 fr3.
Proof using Type.
  intros (_ & K1 & V1 & D1 & M1) (G & K2 & V2 & D2 & M2) Hfr. split_and!; try congruence; [by etrans|].
  intros c Hc. rewrite M2, M1, Hfr by done. tauto.
Qed.

Lemma freed_none s (fr : Z -> Prop) : good s -> (forall c, 0 < c -> ~ fr c) -> freed s s fr.
Proof using Type. intros Hg Hn. split_and!; try done. intros c Hc. specialize (Hn c Hc). tauto. Qed.

Lemma bfree_freed blk s : good s -> 0 < blk < nblk s -> marked s blk = true ->
  wp (sfs_bfree blk) s (fun _ s' => freed s s' (fun c => c = blk)).
Proof using Type.
  intros Hg Hb Hm. eapply wp_mono; [by apply bfree_good|]. intros _ s' (Hg' & Hk & Hv & Hd & _ & Hmk). split_and!; try done.
  intros c Hc. rewrite Hmk by lia. destruct (decide (c = blk)); naive_solver.
Qed.

(** The loop over the indirect block. *)
Lemma trunc_indirect_good blocklen ws : forall j s, good s ->
  (forall k, nth k ws 0 <> 0 -> 0 < nth k ws 0 < nblk s /\ marked s (nth k ws 0) = true) ->
  (forall k l, nth k ws 0 = nth l ws 0 -> nth k ws 0 <> 0 -> k = l) ->
  wp (trunc_indirect blocklen j ws) s (fun r s' =>
    freed s s' (fun c => exists k, nth k ws 0 = c /\ c <> 0 /\ blocklen < 15 + j + Z.of_nat k) /\
    exists dirty, r = (kept_words blocklen j ws, existsb (fun w => negb (w =? 0)) (kept_words blocklen j ws), dirty) /\
      (dirty = false -> kept_words blocklen j ws = ws)).
Proof using Type.
  induction ws as [|w ws IH]; intros j s Hg Hr Hinj; cbn [trunc_indirect kept_words].
  { apply wp_ret. split; [|by exists false]. apply freed_none; [done|]. intros c Hc ([|k] & E & Hne & _); simpl in E; lia. }
  set (b' := if blocklen <? SFS_NDIRECT + j then 0 else w).
  assert (Hfirst : wp (if (blocklen <? SFS_NDIRECT + j) && negb (w =? 0) then _ ← sfs_bfree w; mret (0, true) else mret (w, false)) s
    (fun r s1 => freed s s1 (fun c => w = c /\ c <> 0 /\ blocklen < 15 + j) /\ r.1 = b' /\ (r.2 = false -> b' = w))).
  { unfold b', SFS_NDIRECT. destruct (Z.ltb_spec blocklen (15 + j)) as [Hlt|Hge]; cbn [andb].
    - destruct (Z.eqb_spec w 0) as [->|Hne]; cbn [negb].
      + apply wp_ret. split; [|done]. apply freed_none; [done|]. lia.
      + destruct (Hr 0%nat Hne) as [Hb Hm]. simpl in Hb, Hm. apply wp_bind. eapply wp_mono; [by apply bfree_freed|].
        intros [] s1 F. apply wp_ret. split; [|done]. destruct F as (F1 & F2 & F3 & F4 & F5). split_and!; try done.
        intros c Hc. rewrite F5 by done. naive_solver.
    - apply wp_ret. split; [|done]. apply freed_none; [done|]. lia. }
  apply wp_bind. eapply wp_mono; [exact Hfirst|]. intros [b1 fr] s1 (F1 & E1 & D1). simpl in E1, D1. subst b1.
  pose proof F1 as (Hg1 & Hk1 & _ & _ & M1). apply wp_bind. eapply wp_mono; [apply (IH (j + 1) s1 Hg1)|].
  - intros k Hne. destruct (Hr (S k) Hne) as [Hb Hm]. simpl in Hb, Hm. rewrite (kept_nblk _ _ Hk1). split; [done|]. apply M1; [lia|].
    split; [done|]. intros (E & _ & _). assert (0%nat = S k); [|done]. apply Hinj; simpl; congruence.
  - intros k l E Hne. assert (S k = S l); [|lia]. by apply Hinj.
  - intros r s2 (F2 & dirty & -> & D2). apply wp_ret. split.
    + eapply freed_trans; [exact F1|exact F2|]. intros c Hc. split.
      * intros ([|k] & E & Hne & Hlt); simpl in E; [left; split; [done|lia]|right; exists k; split; [done|lia]].
      * intros [(E & Hne & Hlt)|(k & E & Hne & Hlt)]; [exists 0%nat; simpl; lia|exists (S k); simpl; split; [done|lia]].
    + eexists. split; [reflexivity|]. intros E. apply orb_false_iff in E as [-> ->]. rewrite D1, D2 by done. done.
Qed.

(** ** The direct blocks *)

(** The direct blocks below [i] have been looked at. *)
Record direct_done (s : fstate) (v : Z) (x : sfs_vnode) (blocklen i : Z) (s' : fstate) (x' : sfs_vnode) : Prop := mk_dd {
  dd_good : good s';
  dd_kept : kept s s';
  dd_disk : f_d s' = f_d s;
  dd_vn : f_vn s' = <[v := x']> (f_vn s);
  dd_same : vn_refcount x' = vn_refcount x /\ sv_ino x' = sv_ino x /\ sfi_size (sv_i x') = sfi_size (sv_i x) /\ sfi_type (sv_i x') = sfi_type (sv_i x) /\
            sfi_linkcount (sv_i x') = sfi_linkcount (sv_i x) /\ sfi_indirect (sv_i x') = sfi_indirect (sv_i x) /\ sfi_waste (sv_i x') = sfi_waste (sv_i x);
  dd_len : length (sfi_direct (sv_i x')) = 15%nat;
  dd_direct : forall n, 0 <= n < 15 -> nth (Z.to_nat n) (sfi_direct (sv_i x')) 0 =
    if decide (blocklen <= n < i) then 0 else nth (Z.to_nat n) (sfi_direct (sv_i x)) 0;
  dd_marks : forall c, 0 < c -> marked s' c = true <->
    marked s c = true /\ ~ exists n, 0 <= n < i /\ n < 15 /\ blocklen <= n /\ nth (Z.to_nat n) (sfi_direct (sv_i x)) 0 = c
}.

Lemma direct_ref s i n : 0 <= n < 15 -> ref (dsk s) i n = nth (Z.to_nat n) (sfi_direct i) 0.
Proof using Type. intros Hn. rewrite ref_data by lia. unfold bmap_of. by rewrite (proj2 (Z.ltb_lt n 15)) by lia. Qed.

Lemma direct_step s v x blocklen i s1 x1 : f_vn s !! v = Some x -> file_ok s (sv_i x) -> 0 <= blocklen -> 0 <= i < 15 ->
  direct_done s v x blocklen i s1 x1 ->
  wp (x ← get_sv v;
      block ← deref (sfi_direct (sv_i x) !! Z.to_nat i);
      when ((blocklen <=? i) && negb (block =? 0))
        (_ ← sfs_bfree block; _ ← upd_inode v (set_direct i 0); set_dirty v true)) s1
    (fun _ s2 => exists x2, direct_done s v x blocklen (i + 1) s2 x2).
Proof using Type.
  intros Hx F Hbl Hi DD. pose proof DD as [G K Dk Vn Sm Ln Dr Mk].
  assert (Hx1 : f_vn s1 !! v = Some x1) by (rewrite Vn; apply lookup_insert_eq).
  set (blk := nth (Z.to_nat i) (sfi_direct (sv_i x)) 0).
  assert (Hblk : nth (Z.to_nat i) (sfi_direct (sv_i x1)) 0 = blk) by (rewrite Dr by lia; by rewrite decide_False by lia).
  apply wp_bind. eapply wp_eq; [by apply get_sv_eq|]. rewrite nth_lookup_0 by lia. rewrite Hblk. apply wp_bind. eapply wp_eq; [reflexivity|].
  assert (Hsplit : forall c, (exists n, 0 <= n < i + 1 /\ n < 15 /\ blocklen <= n /\ nth (Z.to_nat n) (sfi_direct (sv_i x)) 0 = c) <->
    (exists n, 0 <= n < i /\ n < 15 /\ blocklen <= n /\ nth (Z.to_nat n) (sfi_direct (sv_i x)) 0 = c) \/ (blocklen <= i /\ blk = c)).
  { intros c. split.
    - intros (n & Hn & H15 & Hb & E). destruct (decide (n = i)) as [->|]; [by right|left; exists n; split_and!; try done; lia].
    - intros [(n & Hn & H15 & Hb & E)|[Hb E]]; [exists n; split_and!; try done; lia|exists i; split_and!; try done; lia]. }
  destruct (Z.leb_spec blocklen i) as [Hle|Hgt]; [destruct (Z.eqb_spec blk 0) as [E0|Hne]|]; cbn [andb negb when].
  - apply wp_ret. exists x1. split; try done.
    + intros n Hn. rewrite Dr by done. destruct (decide (n = i)) as [->|]; [rewrite decide_False, decide_True by lia; exact E0|].
      destruct (decide (blocklen <= n < i)), (decide (blocklen <= n < i + 1)); try done; lia.
    + intros c Hc. rewrite Mk, Hsplit by done. assert (blk <> c) by lia. tauto.
  - pose proof (fo_ref _ _ F i ltac:(lia)) as Hr. rewrite direct_ref in Hr by lia. fold blk in Hr. destruct Hr as [?|[Hr Hm]]; [done|].
    apply wp_bind. eapply wp_mono; [apply (bfree_freed blk s1); [done|by rewrite (kept_nblk _ _ K)|]|].
    { apply Mk; [lia|]. split; [done|]. intros (n & Hn & H15 & _ & E). assert (n = i); [|lia].
      apply (fo_inj _ _ F); try lia; rewrite ?direct_ref by lia; fold blk; congruence. }
    intros [] s2 (G2 & K2 & V2 & D2 & M2). assert (Hx2 : f_vn s2 !! v = Some x1) by by rewrite V2.
    eapply wp_eq; [by apply (touch_last v _ x1)|]. set (x2 := mk_sv _ _ _ _). destruct (with_vn_good v x2 s2 G2) as [G3 K3].
    exists x2. split; try done.
    + etrans; [exact K|]. by etrans.
    + simpl. congruence.
    + simpl. by rewrite V2, Vn, insert_insert_eq.
    + unfold x2. simpl. by rewrite length_insert.
    + intros n Hn. unfold x2. simpl. rewrite nth_lookup. destruct (decide (n = i)) as [->|Hni].
      * rewrite list_lookup_insert_eq by lia. by rewrite decide_True by lia.
      * rewrite list_lookup_insert_ne by lia. rewrite <- nth_lookup, Dr by done.
        destruct (decide (blocklen <= n < i)), (decide (blocklen <= n < i + 1)); try done; lia.
    + intros c Hc. change (marked (with_vn v x2 s2) c) with (marked s2 c). rewrite M2, Mk, Hsplit by done. assert (c = blk <-> blk = c) by done. tauto.
  - apply wp_ret. exists x1. split; try done.
    + intros n Hn. rewrite Dr by done. destruct (decide (blocklen <= n < i)), (decide (blocklen <= n < i + 1)); try done; lia.
    + intros c Hc. rewrite Mk, Hsplit by done. assert (~ blocklen <= i) by lia. tauto.
Qed.

Lemma trunc_direct_good s v x blocklen : good s -> f_vn s !! v = Some x -> file_ok s (sv_i x) -> 0 <= blocklen ->
  wp (trunc_direct v blocklen) s (fun _ s' => exists x', direct_done s v x blocklen 15 s' x').
Proof using Type.
  intros Hg Hx F Hb. unfold trunc_direct.
  apply (wp_for_loop (fun i s' => exists x', direct_done s v x blocklen i s' x') 15 0).
  - exists x. split; try done.
    + by rewrite insert_id.
    + apply (fo_len _ _ F).
    + intros n Hn. by rewrite decide_False by lia.
    + intros c Hc. split; [|tauto]. intros ?. split; [done|]. intros (n & Hn & _). lia.
  - intros i s1 Hi (x1 & DD). by apply (direct_step s v x blocklen i s1 x1).
Qed.

(** ** The whole truncation *)

(** The blocks truncation to [blocklen] blocks keeps: those below the new end, and behind the
    indirect block also the one just past it. *)
Definition keeps (blocklen n : Z) : Prop := n < blocklen \/ (n = blocklen /\ 15 <= n).
#[local] Instance keeps_dec blocklen n : Decision (keeps blocklen n).
Proof using Type. unfold keeps. apply _. Defined.

Record trunc_post (s : fstate) (v : Z) (x : sfs_vnode) (blocklen : Z) (s' : fstate) (x' : sfs_vnode) : Prop := mk_tp {
  tp_good : good s';
  tp_kept : kept s s';
  tp_vn : f_vn s' = <[v := x']> (f_vn s);
  tp_same : vn_refcount x' = vn_refcount x /\ sv_ino x' = sv_ino x /\ sfi_type (sv_i x') = sfi_type (sv_i x) /\
            sfi_linkcount (sv_i x') = sfi_linkcount (sv_i x) /\ sfi_waste (sv_i x') = sfi_waste (sv_i x);
  tp_ok : file_ok s' (sv_i x');
  tp_map : forall n, 0 <= n < 143 -> bmap_of (dsk s') (sv_i x') n = if decide (keeps blocklen n) then bmap_of (dsk s) (sv_i x) n else 0;
  tp_marks : forall c, 0 < c -> marked s' c = true <->
    marked s c = true /\ ~ exists n, 0 <= n <= 143 /\ ref (dsk s) (sv_i x) n = c /\ ref (dsk s') (sv_i x') n = 0;
  tp_disk : forall c, c <> sfi_indirect (sv_i x) -> dsk s' c = dsk s c
}.

Lemma trunc_finish s v x blocklen s' x' : file_ok s (sv_i x) -> good s' -> kept s s' -> f_vn s' = <[v := x']> (f_vn s) ->
  vn_refcount x' = vn_refcount x /\ sv_ino x' = sv_ino x /\ sfi_type (sv_i x') = sfi_type (sv_i x) /\
    sfi_linkcount (sv_i x') = sfi_linkcount (sv_i x) /\ sfi_waste (sv_i x') = sfi_waste (sv_i x) ->
  length (sfi_direct (sv_i x')) = 15%nat ->
  (forall n, 0 <= n < 143 -> bmap_of (dsk s') (sv_i x') n = if decide (keeps blocklen n) then bmap_of (dsk s) (sv_i x) n else 0) ->
  (sfi_indirect (sv_i x') = sfi_indirect (sv_i x) \/ sfi_indirect (sv_i x') = 0) ->
  (forall c, 0 < c -> marked s' c = true <-> marked s c = true /\ ~ (exists n, 0 <= n < 143 /\ ~ keeps blocklen n /\ bmap_of (dsk s) (sv_i x) n = c) /\
     ~ (sfi_indirect (sv_i x) = c /\ sfi_indirect (sv_i x') = 0)) ->
  (forall c, c <> sfi_indirect (sv_i x) -> dsk s' c = dsk s c) ->
  trunc_post s v x blocklen s' x'.
Proof using Type.
  intros F Hg Hk Hv Hsame Hlen Hmap Hind Hmk Hd.
  assert (Hmarks : forall c, 0 < c -> marked s' c = true <->
    marked s c = true /\ ~ exists n, 0 <= n <= 143 /\ ref (dsk s) (sv_i x) n = c /\ ref (dsk s') (sv_i x') n = 0).
  { intros c Hc. rewrite Hmk by done. split; intros (Hm & Hno).
    - split; [done|]. destruct Hno as [Hno Hni]. intros (n & Hn & E & E0). destruct (decide (n = 143)) as [->|]; [by apply Hni|].
      apply Hno. exists n. rewrite !ref_data in * by lia. rewrite Hmap in E0 by lia. destruct (decide (keeps blocklen n)); [lia|]. split_and!; try done; lia.
    - split; [done|]. split.
      + intros (n & Hn & Hnk & E). apply Hno. exists n. rewrite !ref_data by lia. rewrite Hmap, decide_False by done. split_and!; try done; lia.
      + intros [E E0]. apply Hno. exists 143. done. }
  split; try done. split; [done| |].
  - intros n Hn. destruct (decide (ref (dsk s') (sv_i x') n = 0)) as [|Hne]; [by left|right].
    assert (E : ref (dsk s') (sv_i x') n = ref (dsk s) (sv_i x) n).
    { destruct (decide (n = 143)) as [->|]; [unfold ref in *; simpl in *; destruct Hind; congruence|].
      rewrite !ref_data in * by lia. rewrite Hmap in * by lia. by destruct (decide (keeps blocklen n)). }
    rewrite E in *. destruct (fo_ref _ _ F n Hn) as [?|[Hr Hm]]; [done|]. rewrite (kept_nblk _ _ Hk). split; [done|]. apply Hmarks; [lia|].
    split; [done|]. intros (m & Hm' & Em & E0). assert (m = n) as -> by (apply (fo_inj _ _ F); try done; congruence). congruence.
  - assert (E : forall n, 0 <= n <= 143 -> ref (dsk s') (sv_i x') n <> 0 -> ref (dsk s') (sv_i x') n = ref (dsk s) (sv_i x) n).
    { intros n Hn Hne. destruct (decide (n = 143)) as [->|]; [unfold ref in *; simpl in *; destruct Hind; congruence|].
      rewrite !ref_data in * by lia. rewrite Hmap in * by lia. by destruct (decide (keeps blocklen n)). }
    intros n m Hn Hm Enm Hne. apply (fo_inj _ _ F); try done.
    + rewrite <- (E n), <- (E m) by (try done; congruence). done.
    + rewrite <- (E n) by done. done.
Qed.

Lemma direct_keeps s v x blocklen s1 x1 n : direct_done s v x blocklen 15 s1 x1 -> 0 <= n < 15 -> forall d d',
  bmap_of d' (sv_i x1) n = if decide (keeps blocklen n) then bmap_of d (sv_i x) n else 0.
Proof using Type.
  intros DD Hn d d'. unfold bmap_of. rewrite (proj2 (Z.ltb_lt n 15)) by lia. rewrite (dd_direct _ _ _ _ _ _ _ DD) by done. unfold keeps.
  destruct (decide (blocklen <= n < 15)), (decide (n < blocklen \/ n = blocklen /\ 15 <= n)); try done; lia.
Qed.

(** The blocks that have been given back so far. *)
Lemma direct_marks s v x blocklen s1 x1 c : direct_done s v x blocklen 15 s1 x1 -> 0 < c -> marked s1 c = true <->
  marked s c = true /\ ~ exists n, 0 <= n < 15 /\ ~ keeps blocklen n /\ bmap_of (dsk s) (sv_i x) n = c.
Proof using Type.
  intros DD Hc. rewrite (dd_marks _ _ _ _ _ _ _ DD) by done. f_equiv. f_equiv. unfold bmap_of, keeps. split; intros (n & Hn).
  - destruct Hn as (Hn & H15 & Hb & E). exists n. rewrite (proj2 (Z.ltb_lt n 15)) by lia. split_and!; try done; lia.
  - destruct Hn as (Hn & Hk & E). exists n. rewrite (proj2 (Z.ltb_lt n 15)) in E by lia. split_and!; try done; lia.
Qed.

(** The words of the indirect block that go are the blocks of the file from 15 on that are not
    kept. *)
Lemma words_dropped s i blocklen c : sfi_indirect i <> 0 -> c <> 0 -> length (words_of_bytes (dsk s (sfi_indirect i))) = 128%nat ->
  (exists k, nth k (words_of_bytes (dsk s (sfi_indirect i))) 0 = c /\ c <> 0 /\ blocklen < 15 + 0 + Z.of_nat k) <->
  (exists n, 15 <= n < 143 /\ ~ keeps blocklen n /\ bmap_of (dsk s) i n = c).
Proof using Type.
  intros Hne Hc Hl. unfold bmap_of, keeps. split.
  - intros (k & E & _ & Hlt). assert (Hk : (k < 128)%nat).
    { destruct (decide (k < 128)%nat) as [|Hge]; [done|]. rewrite nth_overflow in E by lia. congruence. }
    exists (15 + Z.of_nat k). rewrite (proj2 (Z.ltb_ge _ _)), (proj2 (Z.eqb_neq _ _) Hne) by lia.
    replace (Z.to_nat (15 + Z.of_nat k - 15)) with k by lia. split_and!; try done; lia.
  - intros (n & Hn & Hk & E). rewrite (proj2 (Z.ltb_ge _ _)), (proj2 (Z.eqb_neq _ _) Hne) in E by lia.
    exists (Z.to_nat (n - 15)). split_and!; try done; lia.
Qed.

Lemma split_range (P : Z -> Prop) : (exists n, 0 <= n < 143 /\ P n) <-> (exists n, 0 <= n < 15 /\ P n) \/ (exists n, 15 <= n < 143 /\ P n).
Proof using Type.
  split.
  - intros (n & Hn & Hp). destruct (decide (n < 15)); [left|right]; exists n; (split; [lia|done]).
  - intros [(n & Hn & Hp)|(n & Hn & Hp)]; exists n; (split; [lia|done]).
Qed.

Lemma existsb_zeros ws k : existsb (fun w => negb (w =? 0)) ws = false -> nth k ws 0 = 0.
Proof using Type.
  revert k. induction ws as [|w ws IH]; intros [|k] E; simpl in *; try done; apply orb_false_iff in E as [E1 E2].
  - apply negb_false_iff in E1. lia.
  - by apply IH.
Qed.

(** Nothing behind the indirect block goes. *)
Lemma trunc_ind_skip s v x blocklen s1 x1 : f_vn s !! v = Some x -> file_ok s (sv_i x) -> direct_done s v x blocklen 15 s1 x1 ->
  (blocklen <? 142) && negb (sfi_indirect (sv_i x) =? 0) = false -> trunc_post s v x blocklen s1 x1.
Proof using Type.
  intros Hx F DD Ecase. pose proof DD as [G1 K1 D1 V1 Sm L1 _ _]. set (ind := sfi_indirect (sv_i x)) in *.
  assert (Hind1 : sfi_indirect (sv_i x1) = ind) by tauto. assert (Hdsk : forall c, dsk s1 c = dsk s c) by (intros c; unfold dsk; by rewrite D1).
  assert (Hall : forall n, 15 <= n < 143 -> bmap_of (dsk s) (sv_i x) n <> 0 -> keeps blocklen n).
  { intros n Hn Hne. apply andb_false_iff in Ecase as [E|E]; [unfold keeps; lia|]. apply negb_false_iff in E. destruct Hne. unfold bmap_of.
    fold ind. by rewrite (proj2 (Z.ltb_ge _ _)), E by lia. }
  apply trunc_finish; try done; [tauto| |by left|].
  - intros n Hn. destruct (decide (n < 15)); [apply (direct_keeps s v x blocklen s1 x1); [done|lia]|].
    assert (E : bmap_of (dsk s1) (sv_i x1) n = bmap_of (dsk s) (sv_i x) n)
      by (unfold bmap_of; rewrite Hind1, Hdsk; fold ind; by rewrite (proj2 (Z.ltb_ge n 15)) by lia).
    rewrite E. destruct (decide (keeps blocklen n)) as [|Hnk]; [done|]. destruct (decide (bmap_of (dsk s) (sv_i x) n = 0)); [done|].
    destruct Hnk. apply Hall; [lia|done].
  - intros c Hc. rewrite (direct_marks s v x blocklen s1 x1 c DD Hc), split_range. fold ind.
    assert (~ (exists n, 15 <= n < 143 /\ ~ keeps blocklen n /\ bmap_of (dsk s) (sv_i x) n = c)).
    { intros (n & Hn & Hnk & E). apply Hnk, Hall; [done|lia]. }
    assert (~ (ind = c /\ ind = 0)) by lia. rewrite Hind1. tauto.
Qed.

(** The blocks have been given back, but the indirect block and the inode still list them. *)
Record words_done (s : fstate) (v : Z) (x : sfs_vnode) (blocklen : Z) (x1 : sfs_vnode) (s3 : fstate) : Prop := mk_wd {
  wd_good : good s3;
  wd_kept : kept s s3;
  wd_vn : f_vn s3 = <[v := x1]> (f_vn s);
  wd_disk : forall c, dsk s3 c = dsk s c;
  wd_marks : forall c, 0 < c -> marked s3 c = true <->
    marked s c = true /\ ~ (exists n, 0 <= n < 143 /\ ~ keeps blocklen n /\ bmap_of (dsk s) (sv_i x) n = c)
}.

Lemma trunc_words_good s v x blocklen s1 x1 d : good s -> f_vn s !! v = Some x -> file_ok s (sv_i x) ->
  direct_done s v x blocklen 15 s1 x1 -> sfi_indirect (sv_i x) <> 0 -> let s2 := with_disk d s1 in let ws := words_of_bytes (dsk s (sfi_indirect (sv_i x))) in
  good s2 -> kept s1 s2 -> (forall c, dsk s2 c = dsk s1 c) ->
  wp (trunc_indirect blocklen 0 ws) s2 (fun r s3 => words_done s v x blocklen x1 s3 /\
    exists dirty, r = (kept_words blocklen 0 ws, existsb (fun w => negb (w =? 0)) (kept_words blocklen 0 ws), dirty) /\
      (dirty = false -> kept_words blocklen 0 ws = ws)).
Proof using Type.
  intros Hg Hx F DD Hne s2 ws G2 K2 D2. pose proof DD as [G1 K1 D1 V1 Sm L1 _ _]. set (ind := sfi_indirect (sv_i x)) in *.
  assert (Hdsk : forall c, dsk s1 c = dsk s c) by (intros c; unfold dsk; by rewrite D1).
  destruct (indirect_words s (sv_i x) F Hg Hne) as [Hl Hw]. fold ind ws in Hl, Hw.
  assert (Hword : forall k, nth k ws 0 <> 0 -> (k < 128)%nat /\ ref (dsk s) (sv_i x) (15 + Z.of_nat k) = nth k ws 0).
  { intros k Hk. assert (Hk128 : (k < 128)%nat).
    { destruct (decide (k < 128)%nat) as [|Hge]; [done|]. by rewrite nth_overflow in Hk by lia. }
    split; [done|]. rewrite ref_data by lia. unfold bmap_of. fold ind. rewrite (proj2 (Z.ltb_ge _ _)), (proj2 (Z.eqb_neq _ _) Hne) by lia.
    fold ws. by replace (Z.to_nat (15 + Z.of_nat k - 15)) with k by lia. }
  eapply wp_mono; [apply (trunc_indirect_good blocklen ws 0 s2 G2)|].
  - intros k Hk. destruct (Hword k Hk) as [Hk128 E]. destruct (fo_ref _ _ F (15 + Z.of_nat k) ltac:(lia)) as [?|[Hr Hm]]; [congruence|].
    rewrite E in Hr, Hm. rewrite (kept_nblk _ _ K2), (kept_nblk _ _ K1). split; [done|]. change (marked s1 (nth k ws 0) = true).
    apply (direct_marks s v x blocklen s1 x1 (nth k ws 0) DD ltac:(lia)). split; [done|]. intros (n & Hn & _ & E').
    assert (n = 15 + Z.of_nat k); [|lia]. apply (fo_inj _ _ F); try lia; rewrite (ref_data _ _ n) by lia; [congruence|lia].
  - intros k l E Hk. destruct (Hword k Hk) as [? Ek]. destruct (Hword l ltac:(congruence)) as [? El].
    assert (15 + Z.of_nat k = 15 + Z.of_nat l); [|lia]. apply (fo_inj _ _ F); try lia; congruence.
  - intros r s3 ((G3 & K3 & V3 & D3 & M3) & Hr). split; [|exact Hr]. split; [done| | | |].
    + etrans; [exact K1|]. by etrans.
    + rewrite V3. exact V1.
    + intros c. unfold dsk in *. rewrite D3. etrans; [apply D2|apply Hdsk].
    + intros c Hc. rewrite M3 by done. change (marked s2 c) with (marked s1 c). rewrite (direct_marks s v x blocklen s1 x1 c DD Hc).
      pose proof (words_dropped s (sv_i x) blocklen c Hne ltac:(lia) Hl) as Hwd. fold ind ws in Hwd. cbv beta. rewrite Hwd, split_range. tauto.
Qed.

(** What is left of the indirect block. *)
Lemma kept_words_keeps s i blocklen n : sfi_indirect i <> 0 -> 15 <= n < 143 ->
  nth (Z.to_nat (n - 15)) (kept_words blocklen 0 (words_of_bytes (dsk s (sfi_indirect i)))) 0 = if decide (keeps blocklen n) then bmap_of (dsk s) i n else 0.
Proof using Type.
  intros Hne Hn. rewrite kept_words_nth. unfold bmap_of. rewrite (proj2 (Z.ltb_ge n 15)), (proj2 (Z.eqb_neq _ _) Hne) by lia.
  unfold keeps. destruct (Z.ltb_spec blocklen (15 + 0 + Z.of_nat (Z.to_nat (n - 15)))), (decide (n < blocklen \/ n = blocklen /\ 15 <= n)); try done; lia.
Qed.

(** The indirect block stays, with the words that are kept. *)
Lemma trunc_stays s v x blocklen s1 x1 s3 s4 : file_ok s (sv_i x) -> direct_done s v x blocklen 15 s1 x1 -> words_done s v x blocklen x1 s3 ->
  let ind := sfi_indirect (sv_i x) in ind <> 0 -> good s4 -> kept s3 s4 -> f_vn s4 = f_vn s3 -> (forall c, marked s4 c = marked s3 c) ->
  (forall c, c <> ind -> dsk s4 c = dsk s3 c) -> words_of_bytes (dsk s4 ind) = kept_words blocklen 0 (words_of_bytes (dsk s ind)) ->
  trunc_post s v x blocklen s4 x1.
Proof using Type.
  intros F DD [W1 W2 W3 W4 W5] ind Hne G4 K4 V4 M4 D4 Hw. pose proof DD as [_ _ _ _ Sm L1 _ _].
  assert (Hind1 : sfi_indirect (sv_i x1) = ind) by tauto. apply trunc_finish; try done; [by etrans|congruence|tauto| |by left| |].
  - intros n Hn. destruct (decide (n < 15)); [apply (direct_keeps s v x blocklen s1 x1); [done|lia]|]. rewrite <- kept_words_keeps by (try done; lia).
    unfold bmap_of. rewrite Hind1. by rewrite (proj2 (Z.ltb_ge n 15)), (proj2 (Z.eqb_neq _ _) Hne), Hw by lia.
  - intros c Hc. rewrite M4, W5, Hind1 by done. fold ind. assert (~ (ind = c /\ ind = 0)) by lia. tauto.
  - intros c Hc. by rewrite D4, W4.
Qed.

(** Nothing is left of it, and it goes too. *)
Lemma trunc_goes s v x blocklen s1 x1 s3 s4 : file_ok s (sv_i x) -> direct_done s v x blocklen 15 s1 x1 -> words_done s v x blocklen x1 s3 ->
  let ind := sfi_indirect (sv_i x) in ind <> 0 -> freed s3 s4 (fun c => c = ind) ->
  existsb (fun w => negb (w =? 0)) (kept_words blocklen 0 (words_of_bytes (dsk s ind))) = false ->
  let x2 := mk_sv (vn_refcount x1) (set_indirect 0 (sv_i x1)) (sv_ino x1) true in
  trunc_post s v x blocklen (with_vn v x2 s4) x2.
Proof using Type.
  intros F DD [W1 W2 W3 W4 W5] ind Hne (G4 & K4 & V4 & D4 & M4) Eex x2. pose proof DD as [_ _ _ _ Sm L1 _ _].
  destruct (with_vn_good v x2 s4 G4) as [G5 K5]. apply trunc_finish; try done; [| | | |by right| |].
  - etrans; [exact W2|]. by etrans.
  - simpl. by rewrite V4, W3, insert_insert_eq.
  - unfold x2. simpl. tauto.
  - intros n Hn. destruct (decide (n < 15)).
    { rewrite <- (direct_keeps s v x blocklen s1 x1 n DD ltac:(lia) (dsk s) (dsk s)). unfold bmap_of. by rewrite (proj2 (Z.ltb_lt n 15)) by lia. }
    rewrite <- kept_words_keeps by (try done; lia). unfold bmap_of, x2. simpl. rewrite (proj2 (Z.ltb_ge n 15)) by lia. symmetry. by apply existsb_zeros.
  - intros c Hc. change (marked (with_vn v x2 s4) c) with (marked s4 c). rewrite M4, W5 by done. fold ind. unfold x2. simpl.
    assert (c = ind <-> (ind = c /\ 0 = 0)) by (split; [by intros ->|by intros [-> _]]). tauto.
  - intros c Hc. rewrite <- W4. unfold dsk. simpl. by rewrite D4.
Qed.

Lemma trunc_ind_good s v x blocklen s1 x1 : good s -> f_vn s !! v = Some x -> file_ok s (sv_i x) ->
  direct_done s v x blocklen 15 s1 x1 ->
  wp (trunc_ind v blocklen) s1 (fun r s2 => r = 0 /\ exists x2, trunc_post s v x blocklen s2 x2).
Proof using Type.
  intros Hg Hx F DD. pose proof DD as [G1 K1 D1 V1 Sm _ _ _]. set (ind := sfi_indirect (sv_i x)).
  assert (Hind1 : sfi_indirect (sv_i x1) = ind) by tauto.
  assert (Hx1 : f_vn s1 !! v = Some x1) by (rewrite V1; apply lookup_insert_eq).
  unfold trunc_ind. apply wp_bind. eapply wp_eq; [by apply get_sv_eq|]. rewrite Hind1. change (SFS_NDIRECT + SFS_DBPERIDB - 1) with 142.
  destruct ((blocklen <? 142) && negb (ind =? 0)) eqn:Ecase.
  2:{ apply wp_ret. split; [done|]. exists x1. by apply trunc_ind_skip. }
  apply andb_true_iff in Ecase as [_ Hne]. apply negb_true_iff, Z.eqb_neq in Hne.
  destruct (indirect_words s (sv_i x) F Hg Hne) as [Hl Hw]. fold ind in Hl, Hw.
  destruct (fo_ref _ _ F 143 ltac:(lia)) as [?|[Hir Him]]; [done|]. change (ref (dsk s) (sv_i x) 143) with ind in Hir, Him.
  destruct (readblock_good ind zeros s1 G1) as (d & Hrd & G2 & K2 & D2); [rewrite (kept_nblk _ _ K1); lia|done|].
  assert (Hdi : dsk s1 ind = dsk s ind) by (unfold dsk; by rewrite D1). rewrite Hdi in Hrd.
  apply wp_bind. eapply wp_eq; [exact Hrd|]. cbn [fst snd Z.eqb negb].
  apply wp_bind. eapply wp_mono; [by apply (trunc_words_good s v x blocklen s1 x1 d)|]. fold ind. intros r s3 (WD & dirty & -> & Hclean).
  pose proof WD as [W1 W2 W3 W4 W5]. destruct (existsb _ _) eqn:Eex; cbn [negb]; [destruct dirty|].
  - destruct (writeblock_good ind (bytes_of_words (kept_words blocklen 0 (words_of_bytes (dsk s ind)))) s3 W1) as (d4 & Hwr & G4 & K4 & I4 & O4).
    { rewrite (kept_nblk _ _ W2). lia. }
    { rewrite length_bytes_of_words, kept_words_len, Hl. done. }
    eapply wp_eq; [exact Hwr|]. split; [done|]. exists x1. apply (trunc_stays s v x blocklen s1 x1 s3); try done.
    fold ind. rewrite I4. apply words_of_words. by apply kept_words_word.
  - apply wp_ret. split; [done|]. exists x1. apply (trunc_stays s v x blocklen s1 x1 s3); try done. fold ind. by rewrite W4, Hclean.
  - apply wp_bind. eapply wp_mono; [apply (bfree_freed ind s3 W1); [rewrite (kept_nblk _ _ W2); lia|]|].
    { apply W5; [lia|]. split; [done|]. intros (n & Hn & _ & E). assert (n = 143); [|lia].
      apply (fo_inj _ _ F); try lia; rewrite ?(ref_data _ _ n) by lia; change (ref (dsk s) (sv_i x) 143) with ind; congruence. }
    intros [] s4 Fr. pose proof Fr as (_ & _ & V4 & _).
    eapply wp_eq; [rewrite (touch_inode v _ x1) by (rewrite V4, W3; apply lookup_insert_eq); reflexivity|]. split; [done|]. eexists.
    by apply (trunc_goes s v x blocklen s1 x1 s3 s4).
Qed.

Lemma trunc_resize s v x blocklen s1 x1 n : trunc_post s v x blocklen s1 x1 ->
  let x2 := mk_sv (vn_refcount x1) (set_size n (sv_i x1)) (sv_ino x1) true in trunc_post s v x blocklen (with_vn v x2 s1) x2.
Proof using Type.
  intros [T1 T2 T3 T4 T5 T6 T7 T8] x2. destruct (with_vn_good v x2 s1 T1) as [G K]. split; try done.
  - by etrans.
  - simpl. by rewrite T3, insert_insert_eq.
  - by destruct T5 as [F1 F2 F3].
Qed.

(** C24: truncating a file gives back exactly the blocks that are not kept, and none that
    another file may have, and the file is well-formed afterwards.  The blocks below the new end are kept;
    behind the indirect block the one just past the new end is kept as well, although it is
    no longer part of the file.  Blocks that are kept keep their contents. *)
Theorem sfs_truncate_frees s v x len : vol_idle s -> f_vn s !! v = Some x -> file_ok s (sv_i x) -> 0 <= len < 2 ^ 32 ->
  wp (sfs_truncate v len) s (fun r s' => r = 0 /\ exists s1 x1, s' = unlocked s1 /\ sfi_size (sv_i x1) = len /\ sv_dirty x1 = true /\
    trunc_post (locked s) v x ((len + 511) / 512) s1 x1).
Proof using Type.
  intros Hi Hx F Hlen. unfold sfs_truncate, sfs_itrunc, SFS_BLOCKSIZE. apply wp_bind. eapply wp_eq; [by apply acquire_idle|].
  rewrite Z.quot_div_nonneg by lia. replace (len + 512 - 1) with (len + 511) by lia. set (blocklen := (len + 511) / 512).
  assert (Hb : 0 <= blocklen < 2 ^ 32) by (unfold blocklen; Z.to_euclidean_division_equations; lia). rewrite !(u32_small blocklen) by lia.
  assert (F' : file_ok (locked s) (sv_i x)) by (by apply (file_ok_lock s)). pose proof (vi_good _ Hi) as Hg.
  apply wp_bind. eapply wp_mono; [apply (trunc_direct_good (locked s) v x blocklen); [done..|lia]|]. intros [] s1 (x1 & DD).
  apply wp_bind. eapply wp_mono; [by apply (trunc_ind_good (locked s) v x blocklen s1 x1)|]. intros r s2 (-> & x2 & T). cbn [Z.eqb negb].
  assert (Hx2 : f_vn s2 !! v = Some x2) by (rewrite (tp_vn _ _ _ _ _ _ T); apply lookup_insert_eq).
  unfold wp. rewrite (touch_inode v _ x2) by done. set (x3 := mk_sv _ _ _ _).
  pose proof (trunc_resize _ _ _ _ _ _ (u32 len) T) as T3. fold x3 in T3. set (s3 := with_vn v x3 s2) in *.
  rewrite (run_bind _ _ s3 _ _ (release_kept s s3 Hi (tp_kept _ _ _ _ _ _ T3))). split; [done|].
  exists s3, x3. split_and!; try done. unfold x3. simpl. by apply u32_small.
Qed.

End Ops.
(** ** Witness *)

Import SfsToy.

Lemma sfs_truncate_frees_witness :
  wp (sfs_truncate 100 700) toy_free (fun r s' => r = 0 /\ exists s1 x1, s' = unlocked s1 /\ sfi_size (sv_i x1) = 700 /\ sv_dirty x1 = true /\
    trunc_post (locked toy_free) 100 toy_x ((700 + 511) / 512) s1 x1).
Proof. apply (sfs_truncate_frees toy_free 100 toy_x 700); [apply toy_vol_idle|done|apply toy_file_ok|lia]. Defined.

End SfsTrunc.
