(* ===== verification/SfsSync.v ===== *)
(** * Writing a volume back and mounting it: sfs_inode.c and sfs_fsops.c

    [sfs_sync] brings the medium up to date with what is in memory, and mounting reads the
    same superblock and the same map of blocks back. *)

From S2P Require Import Prelude Bitmap Uio Lhd SfsData Sfs SfsOps SfsBlocks SfsMap SfsFile SfsReadWrite.

Module SfsSync.
Import Uio Lhd Bitmap SfsData Sfs SfsOps SfsBlocks SfsMap SfsFile SfsReadWrite.

Definition clean (y : sfs_vnode) : sfs_vnode := mk_sv (vn_refcount y) (sv_i y) (sv_ino y) false.

(** The blocks of the map on the medium. *)
Definition chunk (b : bitmap) (j : Z) : list Z := take 512 (drop (Z.to_nat (j * SFS_BLOCKSIZE)) (v b)).

Section Ops.
Context {U H : Type} `{US : UserSpace U} `{HW : LhdHw H}.
Local Abbreviation fstate := (fstate U H) (only parsing).
Implicit Types s : fstate.

(** ** Inodes *)

(** The loaded inodes: they fit their types, are in range and distinct, and a clean one is on
    the medium. *)
Record inodes_ok (s : fstate) : Prop := mk_inodes {
  in_wf : forall v y, f_vn s !! v = Some y -> dinode_wf (sv_i y) /\ 0 <= sv_ino y < nblk s;
  in_clean : forall v y, f_vn s !! v = Some y -> sv_dirty y = false -> dsk s (sv_ino y) = bytes_of_dinode (sv_i y);
  in_inj : forall v w y z, f_vn s !! v = Some y -> f_vn s !! w = Some z -> sv_ino y = sv_ino z -> v = w
}.

(** One inode has been written back. *)
Record synced (s : fstate) (v : Z) (y : sfs_vnode) (s' : fstate) : Prop := mk_synced {
  sy_good : good s';
  sy_kept : kept s s';
  sy_fs : f_fs s' = f_fs s;
  sy_vn : f_vn s' = <[v := clean y]> (f_vn s);
  sy_ino : dsk s' (sv_ino y) = bytes_of_dinode (sv_i y);
  sy_other : forall c, c <> sv_ino y -> dsk s' c = dsk s c
}.

Lemma sync_inode_good s v y : good s -> inodes_ok s -> f_vn s !! v = Some y ->
  wp (sfs_sync_inode v) s (fun r s' => r = 0 /\ synced s v y s').
Proof using Type.
  intros Hg I Hy. destruct (in_wf _ I v y Hy) as [Hwf Hr]. unfold sfs_sync_inode. apply wp_bind. eapply wp_eq; [by apply get_sv_eq|].
  destruct (sv_dirty y) eqn:E.
  - destruct (writeblock_good (sv_ino y) (bytes_of_dinode (sv_i y)) s Hg Hr (length_bytes_of_dinode _ Hwf)) as (d & Hrun & Hg' & Hk & Hd & Ho).
    apply wp_bind. eapply wp_eq; [exact Hrun|]. cbn [Z.eqb negb]. apply wp_bind. eapply wp_eq; [by apply (set_dirty_eq v false y)|]. apply wp_ret.
    destruct (with_vn_good v (clean y) (with_disk d s) Hg') as [Hg2 Hk2]. split; [done|]. split; try done. by etrans.
  - apply wp_ret. split; [done|]. split; try done.
    + rewrite insert_id; [done|]. rewrite Hy. f_equal. destruct y; simpl in *. by subst.
    + by apply (in_clean _ I v).
Qed.

Lemma synced_inodes s v y s' : f_vn s !! v = Some y -> inodes_ok s -> synced s v y s' -> inodes_ok s'.
Proof using Type.
  intros Hy [I1 I2 I3] [S1 S2 S3 S4 S5 S6].
  assert (Hl : forall w z, f_vn s' !! w = Some z -> exists z0, f_vn s !! w = Some z0 /\ sv_i z = sv_i z0 /\ sv_ino z = sv_ino z0 /\ (w <> v -> z = z0)).
  { intros w z Hz. rewrite S4 in Hz. apply lookup_insert_Some in Hz as [[<- <-]|[Hne Hz]]; [exists y; split_and!; done|by exists z]. }
  split.
  - intros w z Hz. destruct (Hl w z Hz) as (z0 & Hz0 & -> & -> & _). rewrite (kept_nblk _ _ S2). by eapply I1.
  - intros w z Hz Hc. destruct (Hl w z Hz) as (z0 & Hz0 & -> & -> & Hsame). destruct (decide (w = v)) as [->|Hne].
    + assert (z0 = y) as -> by congruence. done.
    + rewrite S6; [|intros E; by apply Hne, (I3 w v z0 y)]. rewrite (Hsame Hne) in Hc. by apply (I2 w).
  - intros w1 w2 z1 z2 H1 H2 E. destruct (Hl w1 z1 H1) as (y1 & Hy1 & _ & E1 & _). destruct (Hl w2 z2 H2) as (y2 & Hy2 & _ & E2 & _).
    apply (I3 w1 w2 y1 y2); try done. congruence.
Qed.

(** The big lock, taken again by its holder. *)
Lemma fsync_good s v y : good s -> 0 < f_depth s -> inodes_ok s -> f_vn s !! v = Some y ->
  wp (sfs_fsync v) s (fun r s' => r = 0 /\ synced s v y s').
Proof using Type.
  intros Hg Hd I Hy. assert (Hh : f_held s = true) by (destruct Hg as (x & b & V); apply (vo_held _ _ _ V)).
  set (s1 := mk_f (f_fs s) (f_vn s) (f_d s) true (f_depth s + 1)).
  assert (Hg1 : good s1). { destruct Hg as (x & b & V). exists x, b. by destruct V. }
  assert (I1 : inodes_ok s1) by by destruct I.
  unfold sfs_fsync. apply wp_bind. apply (wp_eq _ _ tt s1).
  { unfold vfs_biglock_acquire. msimpl. rewrite Hh. simpl. rewrite (proj2 (Z.eqb_neq _ _)) by lia. unfold s1. by rewrite Hh. }
  apply wp_bind. eapply wp_mono; [by apply (sync_inode_good s1 v y)|]. intros r s2 (-> & [S1 [K1 K2 K3 K4] S3 S4 S5 S6]). simpl in K2, K3.
  set (s3 := mk_f (f_fs s2) (f_vn s2) (f_d s2) true (f_depth s)).
  apply wp_bind. apply (wp_eq _ _ tt s3).
  { unfold vfs_biglock_release. msimpl. rewrite K2, K3. simpl. rewrite (proj2 (Z.ltb_lt _ _)) by lia. simpl.
    rewrite (proj2 (Z.eqb_neq _ _)) by lia. unfold s3. simpl. do 2 f_equal. lia. }
  apply wp_ret. split; [done|]. split; try done.
  destruct S1 as (x & b & V). exists x, b. by destruct V.
Qed.

(** All of them. *)
Record all_synced (s s' : fstate) (vs : list Z) : Prop := mk_as {
  as_good : good s';
  as_kept : kept s s';
  as_fs : f_fs s' = f_fs s;
  as_vn : forall v y, f_vn s !! v = Some y -> f_vn s' !! v = Some (if decide (v ∈ vs) then clean y else y);
  as_none : forall v, f_vn s !! v = None -> f_vn s' !! v = None;
  as_ino : forall v y, f_vn s !! v = Some y -> v ∈ vs \/ sv_dirty y = false -> dsk s' (sv_ino y) = bytes_of_dinode (sv_i y);
  as_other : forall c, (forall v y, f_vn s !! v = Some y -> sv_ino y <> c) -> dsk s' c = dsk s c
}.

Lemma clean_clean y : clean (clean y) = clean y.
Proof using Type. done. Qed.

Lemma sync_vnodes_good vs : forall s, good s -> 0 < f_depth s -> inodes_ok s -> (forall v, v ∈ vs -> is_Some (f_vn s !! v)) ->
  wp (sync_vnodes_loop vs) s (fun _ s' => all_synced s s' vs).
Proof using Type.
  induction vs as [|v vs IH]; intros s Hg Hd I Hin; cbn [sync_vnodes_loop].
  { apply wp_ret. split; try done. intros v y Hy [Hv|Hc]; [by apply not_elem_of_nil in Hv|by apply (in_clean _ I v)]. }
  destruct (Hin v ltac:(left)) as [y Hy]. apply wp_bind. eapply wp_mono; [by apply (fsync_good s v y)|]. intros r s1 (-> & S).
  pose proof S as [S1 S2 S3 S4 S5 S6].
  assert (Hlook : forall w z, f_vn s !! w = Some z -> f_vn s1 !! w = Some (if decide (w = v) then clean z else z)).
  { intros w z Hz. rewrite S4. destruct (decide (w = v)) as [->|]; [rewrite lookup_insert_eq; congruence|by rewrite lookup_insert_ne]. }
  eapply wp_mono; [apply (IH s1)|].
  - done.
  - by rewrite (kp_depth _ _ S2).
  - by apply (synced_inodes s v y).
  - intros w Hw. destruct (Hin w ltac:(by right)) as [z Hz]. rewrite (Hlook w z Hz). by eexists.
  - intros [] s' [A1 A2 A3 A4 A5 A6 A7]. split; try done.
    + by etrans.
    + congruence.
    + intros w z Hz. rewrite (A4 _ _ (Hlook w z Hz)). f_equal.
      destruct (decide (w = v)), (decide (w ∈ vs)), (decide (w ∈ v :: vs)) as [Hi|Hi]; rewrite elem_of_cons in Hi; try tauto; done.
    + intros w Hw. apply A5. rewrite S4. rewrite lookup_insert_ne; [done|]. congruence.
    + intros w z Hz Hcase. pose proof (Hlook w z Hz) as Hz1. destruct (decide (w = v)) as [->|Hne].
      * apply (A6 _ _ Hz1). by right.
      * apply (A6 _ _ Hz1). destruct Hcase as [Hi|Hc]; [|by right]. apply elem_of_cons in Hi. tauto.
    + intros c Hc. rewrite A7; [by apply S6, not_eq_sym, (Hc v)|]. intros w z Hz.
      rewrite S4 in Hz. apply lookup_insert_Some in Hz as [[<- <-]|[_ Hz]]; [by apply (Hc v y)|by apply (Hc w)].
Qed.

(** ** The map and the superblock *)

Definition nmap (s : fstate) : Z := SFS_FREEMAPBLOCKS (nblk s).

Lemma freemap_sizes n : 0 < n < 2 ^ 23 -> SFS_FREEMAPBITS n = (n + 4095) / 4096 * 4096 /\ SFS_FREEMAPBLOCKS n = (n + 4095) / 4096.
Proof using Type.
  intros Hn. unfold SFS_FREEMAPBLOCKS, SFS_FREEMAPBITS, SFS_ROUNDUP. change SFS_BITSPERBLOCK with 4096.
  replace (n + 4096 - 1) with (n + 4095) by lia. rewrite (u32_small (n + 4095)) by lia.
  rewrite u32_small by (Z.to_euclidean_division_equations; lia). split; [done|]. by rewrite Z.div_mul.
Qed.

Lemma chunk_len b j k : Z.of_nat (length (v b)) = 512 * k -> 0 <= j < k -> length (chunk b j) = 512%nat.
Proof using Type. intros Hl Hj. unfold chunk, SFS_BLOCKSIZE. rewrite length_take, length_drop. lia. Qed.

(** The blocks [j] to [j + n - 1] of the map are written. *)
Lemma freemap_write x b k n : forall j s, good s -> f_fs s = Some x -> sfs_freemap x = Some b ->
  Z.of_nat (length (v b)) = 512 * k -> 0 <= j -> j + Z.of_nat n <= k -> 2 + k <= nblk s ->
  wp (freemapio_loop n j UIO_WRITE) s (fun r s' => r = 0 /\ good s' /\ kept s s' /\ f_fs s' = f_fs s /\ f_vn s' = f_vn s /\
    (forall i, j <= i < j + Z.of_nat n -> dsk s' (2 + i) = chunk b i) /\
    forall c, (c < 2 + j \/ 2 + j + Z.of_nat n <= c) -> dsk s' c = dsk s c).
Proof using Type.
  induction n as [|n IH]; intros j s Hg Hx Hb Hl Hj Hn Hk; cbn [freemapio_loop].
  { apply wp_ret. split_and!; try done. intros i Hi. lia. }
  apply wp_bind. eapply wp_eq; [unfold get_fs; msimpl; by rewrite Hx|]. rewrite Hb. apply wp_bind. eapply wp_eq; [reflexivity|].
  fold (chunk b j). destruct (writeblock_good (2 + j) (chunk b j) s Hg ltac:(lia) (chunk_len b j k Hl ltac:(lia))) as (d & Hrun & Hg1 & K1 & D1 & O1).
  apply wp_bind. eapply wp_eq; [exact Hrun|]. cbn [Z.eqb negb].
  eapply wp_mono; [apply (IH (j + 1) (with_disk d s)); try done; try lia; by rewrite (kept_nblk _ _ K1)|].
  intros r s' (-> & G & K & Efs & Evn & D & O). split_and!; try done; [by etrans| |].
  - intros i Hi. destruct (decide (i = j)) as [->|]; [rewrite O by lia; done|apply D; lia].
  - intros c Hc. rewrite O by lia. apply O1. lia.
Qed.

(** A volume in memory and on the medium: the sizes agree, what is clean is on the medium, and
    the loaded vnodes are those of the table, none in the blocks of the map. *)
Record disk_ok (s : fstate) (x : sfs_fs) (b : bitmap) : Prop := mk_disk {
  dk_fs : f_fs s = Some x;
  dk_fm : sfs_freemap x = Some b;
  dk_bits : nbits b = SFS_FREEMAPBITS (nblk s);
  dk_room : 2 + nmap s <= nblk s;
  dk_sb : superblock_wf (sfs_sb x);
  dk_map : sfs_freemapdirty x = false -> forall j, 0 <= j < nmap s -> dsk s (2 + j) = chunk b j;
  dk_super : sfs_superdirty x = false -> dsk s 0 = bytes_of_superblock (sfs_sb x);
  dk_inodes : inodes_ok s;
  dk_ino : forall v y, f_vn s !! v = Some y -> sv_ino y = 1 \/ 2 + nmap s <= sv_ino y;
  dk_table : forall v, v ∈ sfs_vnodes x <-> is_Some (f_vn s !! v)
}.

(** The medium holds the volume [x] with the map [b] and the inodes of [s]. *)
Record on_disk (s' : fstate) (x : sfs_fs) (b : bitmap) (s : fstate) : Prop := mk_od {
  od_sb : dsk s' 0 = bytes_of_superblock (sfs_sb x);
  od_map : forall j, 0 <= j < nmap s -> dsk s' (2 + j) = chunk b j;
  od_ino : forall v y, f_vn s !! v = Some y -> f_vn s' !! v = Some (clean y) /\ dsk s' (sv_ino y) = bytes_of_dinode (sv_i y) /\
             dinode_of_bytes (dsk s' (sv_ino y)) = sv_i y;
  od_other : forall c, (forall v y, f_vn s !! v = Some y -> sv_ino y <> c) -> c <> 0 -> (c < 2 \/ 2 + nmap s <= c) -> dsk s' c = dsk s c
}.

Definition flags_clean (x : sfs_fs) : sfs_fs := mk_fs (sfs_sb x) false (sfs_device x) (sfs_vnodes x) (sfs_freemap x) false.

Lemma map_bytes s x b : good s -> disk_ok s x b -> Z.of_nat (length (v b)) = 512 * nmap s /\ 0 <= nmap s.
Proof using Type.
  intros Hg D. pose proof (nblk_small s Hg) as Hn. destruct (freemap_sizes (nblk s) Hn) as [E1 E2].
  destruct Hg as (x' & b' & V). assert (x' = x) as -> by (pose proof (vo_fs _ _ _ V); pose proof (dk_fs _ _ _ D); congruence).
  assert (b' = b) as -> by (pose proof (vo_map _ _ _ V); pose proof (dk_fm _ _ _ D); congruence).
  rewrite (bm_len b (vo_wf _ _ _ V)), (dk_bits _ _ _ D), E1. unfold nmap. rewrite E2. Z.to_euclidean_division_equations; lia.
Qed.

Lemma get_fs_eq s x : f_fs s = Some x -> get_fs s = Ret x s.
Proof using Type. intros Hx. unfold get_fs. msimpl. by rewrite Hx. Qed.

(** The volume with other flags. *)
Definition with_flags (super map : bool) (x : sfs_fs) : sfs_fs := mk_fs (sfs_sb x) super (sfs_device x) (sfs_vnodes x) (sfs_freemap x) map.

Lemma good_flags s x super map : good s -> f_fs s = Some x -> good (mk_f (Some (with_flags super map x)) (f_vn s) (f_d s) (f_held s) (f_depth s)).
Proof using Type.
  intros (x' & b & V) Hx. assert (x' = x) as -> by (pose proof (vo_fs _ _ _ V); congruence). exists (with_flags super map x), b. destruct V. by split.
Qed.

Lemma sync_freemap_good s x b k : good s -> f_fs s = Some x -> sfs_freemap x = Some b -> Z.of_nat (length (v b)) = 512 * k -> 0 <= k ->
  k = SFS_FREEMAPBLOCKS (nblk s) -> 2 + k <= nblk s -> (sfs_freemapdirty x = false -> forall j, 0 <= j < k -> dsk s (2 + j) = chunk b j) ->
  wp sfs_sync_freemap s (fun r s' => r = 0 /\ good s' /\ kept s s' /\ f_fs s' = Some (with_flags (sfs_superdirty x) false x) /\ f_vn s' = f_vn s /\
    (forall j, 0 <= j < k -> dsk s' (2 + j) = chunk b j) /\ forall c, (c < 2 \/ 2 + k <= c) -> dsk s' c = dsk s c).
Proof using Type.
  intros Hg Hx Hb Hl Hk Ek Hroom Hclean. unfold sfs_sync_freemap. apply wp_bind. eapply wp_eq; [by apply get_fs_eq|].
  destruct (sfs_freemapdirty x) eqn:Ed.
  - apply wp_bind. unfold sfs_freemapio. apply wp_bind. eapply wp_eq; [by apply get_fs_eq|].
    assert (En : sb_nblocks (sfs_sb x) = nblk s) by (unfold nblk; by rewrite Hx). rewrite En, <- Ek.
    eapply wp_mono; [apply (freemap_write x b k (Z.to_nat k) 0 s); try done; lia|].
    intros r s1 (-> & G & K & Efs & Evn & D & O). rewrite Hx in Efs. cbn [Z.eqb negb]. apply wp_bind.
    eapply wp_eq; [unfold set_freemapdirty; rewrite (run_bind _ _ s1 x s1) by (by apply get_fs_eq); reflexivity|]. apply wp_ret.
    split_and!; try done.
    + apply (good_flags s1 x (sfs_superdirty x) false G Efs).
    + destruct K as [K1 K2 K3 K4]. split; try done. rewrite <- K1. unfold hdr. simpl. by rewrite Efs.
    + intros j Hj. apply D. lia.
    + intros c Hc. apply O. lia.
  - apply wp_ret. split_and!; try done; [|auto]. rewrite Hx. f_equal. destruct x; simpl in *. unfold with_flags. simpl. by subst.
Qed.

(** The volume with the superblock on the medium. *)
Lemma sync_superblock_good s x : good s -> f_fs s = Some x -> superblock_wf (sfs_sb x) ->
  (sfs_superdirty x = false -> dsk s 0 = bytes_of_superblock (sfs_sb x)) ->
  wp sfs_sync_superblock s (fun r s' => r = 0 /\ good s' /\ f_held s' = f_held s /\ f_depth s' = f_depth s /\
    f_fs s' = Some (with_flags false (sfs_freemapdirty x) x) /\ f_vn s' = f_vn s /\
    dsk s' 0 = bytes_of_superblock (sfs_sb x) /\ forall c, c <> 0 -> dsk s' c = dsk s c).
Proof using Type.
  intros Hg Hx Hwf Hclean. unfold sfs_sync_superblock. apply wp_bind. eapply wp_eq; [by apply get_fs_eq|].
  destruct (sfs_superdirty x) eqn:Ed.
  - pose proof (nblk_small s Hg). destruct (writeblock_good 0 (bytes_of_superblock (sfs_sb x)) s Hg ltac:(lia) (proj2 (superblock_roundtrip _ Hwf))) as (d & Hrun & Hg1 & K1 & D1 & O1).
    apply wp_bind. eapply wp_eq; [exact Hrun|]. cbn [Z.eqb negb]. apply wp_bind. eapply wp_eq; [by apply (get_fs_eq (with_disk d s) x)|].
    apply wp_bind. eapply wp_eq; [reflexivity|]. apply wp_ret. split_and!; try done. apply (good_flags (with_disk d s) x false _ Hg1 Hx).
  - apply wp_ret. split_and!; try done; [|auto]. rewrite Hx. f_equal. destruct x; simpl in *. unfold with_flags. simpl. by subst.
Qed.

Lemma sfs_sync_runs s x b : vol_idle s -> disk_ok s x b ->
  wp sfs_sync s (fun r s' => r = 0 /\ vol_idle s' /\ f_fs s' = Some (flags_clean x) /\ on_disk s' x b s).
Proof using Type.
  intros Hi D. pose proof (vi_good _ Hi) as Hg. assert (DL : disk_ok (locked s) x b). { destruct D as [? ? ? ? ? ? ? I ? ?]. split; try done. by destruct I. }
  destruct (map_bytes (locked s) x b Hg DL) as [Hl Hk]. pose proof DL as [D1 D2 D3 D4 D5 D6 D7 D8 D9 D10].
  assert (Hd1 : f_depth (locked s) = 1) by (simpl; by rewrite (vi_depth _ Hi)).
  unfold sfs_sync. apply wp_bind. eapply wp_eq; [by apply acquire_idle|]. set (s0 := locked s) in *.
  apply wp_bind. unfold sfs_sync_vnodes. apply wp_bind. eapply wp_eq; [by apply get_fs_eq|]. apply wp_bind.
  eapply wp_mono; [apply (sync_vnodes_good (sfs_vnodes x) s0 Hg); [lia|done|intros v Hv; by apply D10]|].
  intros [] s1 [A1 A2 A3 A4 A5 A6 A7]. apply wp_ret. cbn [Z.eqb negb].
  assert (Hmeta : forall c, c = 0 \/ 2 <= c < 2 + nmap s0 -> dsk s1 c = dsk s0 c).
  { intros c Hc. apply A7. intros v y Hy. pose proof (D9 v y Hy). lia. }
  apply wp_bind. eapply wp_mono; [apply (sync_freemap_good s1 x b (nmap s0)); try done|].
  { by rewrite A3. } { unfold nmap. by rewrite (kept_nblk _ _ A2). } { by rewrite (kept_nblk _ _ A2). }
  { intros Hc j Hj. rewrite Hmeta by lia. by apply D6. }
  intros r s2 (-> & G2 & K2 & Efs2 & Evn2 & M2 & O2). cbn [Z.eqb negb].
  apply wp_bind. eapply wp_mono; [apply (sync_superblock_good s2 _ G2 Efs2 D5)|].
  { intros Hc. rewrite O2, Hmeta by lia. by apply D7. }
  intros r s3 (-> & G3 & H3 & Dp3 & Efs3 & Evn3 & S3 & O3). cbn [Z.eqb negb].
  apply wp_bind. apply (wp_eq _ _ tt (unlocked s3)).
  { unfold vfs_biglock_release. msimpl. rewrite H3, Dp3, (kp_held _ _ K2), (kp_depth _ _ K2), (kp_held _ _ A2), (kp_depth _ _ A2), Hd1. done. }
  apply wp_ret. split_and!; try done.
  - split; [done|done|]. destruct G3 as (x3 & b3 & V3). exists x3, b3. destruct V3. by split.
  - split.
    + done.
    + intros j Hj. change (nmap s) with (nmap s0) in Hj. change (dsk (unlocked s3) (2 + j)) with (dsk s3 (2 + j)). rewrite O3 by lia. by apply M2.
    + intros v y Hy. assert (Hv : v ∈ sfs_vnodes x) by (apply D10; by exists y).
      assert (E : dsk (unlocked s3) (sv_ino y) = bytes_of_dinode (sv_i y)).
      { change (dsk (unlocked s3) (sv_ino y)) with (dsk s3 (sv_ino y)). pose proof (D9 v y Hy). rewrite O3, O2 by lia. apply (A6 v); [done|by left]. }
      split_and!; [|done|rewrite E; by apply dinode_roundtrip, (in_wf _ D8 v)].
      simpl. rewrite Evn3, Evn2, (A4 v y Hy). by rewrite decide_True.
    + intros c Hno Hc0 Hc. change (nmap s) with (nmap s0) in Hc. change (dsk (unlocked s3) c) with (dsk s3 c). rewrite O3, O2 by lia. by apply A7.
Qed.

(** After [sfs_sync] nothing is dirty, and the medium holds the superblock, the map of blocks
    in use and every loaded inode as they are in memory; no other block has changed. *)
Lemma sfs_sync_persists s x b : vol_idle s -> disk_ok s x b ->
  wp sfs_sync s (fun r s' => r = 0 /\ vol_idle s' /\ f_fs s' = Some (flags_clean x) /\ on_disk s' x b s).
Proof using Type. apply sfs_sync_runs. Qed.

(** ** Mounting *)

(** The drive is ready and does not fail. *)
Definition reliable (s : fstate) (n : Z) : Prop := drive_ready s n /\ hw_good (lh_hw (ds_lhd (f_d s))).

Lemma readblock_reliable blk data s n : reliable s n -> 0 <= blk < n -> length data = 512%nat ->
  exists d, sfs_readblock blk data s = Ret (0, dsk s blk) (with_disk d s) /\ reliable (with_disk d s) n /\ (forall c, dsk (with_disk d s) c = dsk s c).
Proof using Type.
  intros [Hr Hhw] Hb Hd. pose proof Hr as [Hfs Hi Hs Hh]. destruct (f_d s) as [l us] eqn:Ed. simpl in *.
  destruct (lhd_io_one UIO_READ [] data blk l us Hi ltac:(lia) ltac:(lia)) as (l' & Hi' & Hn & Hg' & _ & _ & Hc & [[Hrun _]|[Hbad _]]); [|done].
  rewrite drop_ge in Hrun by lia. rewrite decide_True in Hrun by done. rewrite <- Ed in Hrun.
  exists (mk_d l' us). split; [|split; [split; [split; simpl; try done; lia|auto]|]].
  - unfold sfs_readblock. rewrite Hd. rewrite (run_bind _ _ s tt s) by done.
    pose proof (uio_kinit_kuio data (blk * SFS_BLOCKSIZE) UIO_READ) as E. rewrite Hd in E. unfold SFS_BLOCKSIZE in *.
    change (Z.of_nat 512) with 512 in E. rewrite E. clear E.
    erewrite run_bind; [|rewrite (rwblock_retry _ _ _ Hr); cbn [rw_retry]; rewrite (run_bind _ _ s _ _ (f_zoom _ s _ _ Hrun)); reflexivity].
    simpl. unfold uio_buf, dsk. simpl. rewrite Ed, app_nil_r. done.
  - intros c. unfold dsk. simpl. rewrite Ed. apply Hc. by left.
Qed.

Lemma splice_chunk b l j k i : Z.of_nat (length (v b)) = 512 * k -> length l = 512%nat -> 0 <= j < k -> 0 <= i < k ->
  let v' := take (Z.to_nat (j * SFS_BLOCKSIZE)) (v b) ++ l ++ drop (Z.to_nat (j * SFS_BLOCKSIZE) + 512) (v b) in
  Z.of_nat (length v') = 512 * k /\ chunk (mk_bitmap (nbits b) v') i = if decide (i = j) then l else chunk b i.
Proof using Type.
  intros Hb Hl Hj Hi v'. unfold SFS_BLOCKSIZE in v'. assert (Hv : Z.of_nat (length v') = 512 * k).
  { unfold v'. rewrite !length_app, length_take, length_drop. lia. }
  split; [done|]. unfold chunk, SFS_BLOCKSIZE. cbn [v]. destruct (decide (i = j)) as [->|Hne].
  - unfold v'. rewrite drop_app_length' by (rewrite length_take; lia). by rewrite take_app_length'.
  - apply list_eq. intros p. destruct (decide (p < 512)%nat); [|by rewrite !lookup_take_ge by lia].
    rewrite !lookup_take_lt, !lookup_drop by lia. unfold v'. destruct (decide (i < j)).
    + rewrite lookup_app_l by (rewrite length_take; lia). by rewrite lookup_take_lt by lia.
    + rewrite lookup_app_r, length_take by (rewrite length_take; lia). rewrite lookup_app_r, lookup_drop by lia. f_equal. lia.
Qed.

(** The map is read into the bytes of [b]. *)
Lemma freemap_read k nb n : forall j s x b, reliable s nb -> f_fs s = Some x -> sfs_freemap x = Some b ->
  Z.of_nat (length (v b)) = 512 * k -> 0 <= j -> j + Z.of_nat n <= k -> 2 + k <= nb ->
  wp (freemapio_loop n j UIO_READ) s (fun r s' => r = 0 /\ reliable s' nb /\ f_vn s' = f_vn s /\ f_held s' = f_held s /\ f_depth s' = f_depth s /\
    (forall c, dsk s' c = dsk s c) /\ exists b', nbits b' = nbits b /\ Z.of_nat (length (v b')) = 512 * k /\
      f_fs s' = Some (mk_fs (sfs_sb x) (sfs_superdirty x) (sfs_device x) (sfs_vnodes x) (Some b') (sfs_freemapdirty x)) /\
      forall i, 0 <= i < k -> chunk b' i = if decide (j <= i < j + Z.of_nat n) then dsk s (2 + i) else chunk b i).
Proof using Type.
  induction n as [|n IH]; intros j s x b Hr Hx Hb Hl Hj Hn Hk; cbn [freemapio_loop].
  { apply wp_ret. split_and!; try done. exists b. split_and!; try done; [rewrite Hx; f_equal; destruct x; simpl in *; by subst|].
    intros i Hi. by rewrite decide_False by lia. }
  apply wp_bind. eapply wp_eq; [by apply get_fs_eq|]. rewrite Hb. apply wp_bind. eapply wp_eq; [reflexivity|].
  fold (chunk b j). destruct (readblock_reliable (2 + j) (chunk b j) s nb Hr ltac:(lia) (chunk_len b j k Hl ltac:(lia))) as (d & Hrun & Hr1 & D1).
  apply wp_bind. apply wp_bind. eapply wp_eq; [exact Hrun|]. apply wp_bind. eapply wp_eq; [by apply (get_fs_eq (with_disk d s) x)|].
  apply wp_bind. eapply wp_eq; [reflexivity|]. apply wp_ret. cbn [fst snd Z.eqb negb f_vn f_d f_held f_depth with_disk].
  destruct (splice_chunk b (dsk s (2 + j)) j k j Hl (dsk_len _ _) ltac:(lia) ltac:(lia)) as [Hl1 _]. set (b1 := mk_bitmap _ _).
  set (x1 := mk_fs _ _ _ _ (Some b1) _). set (s1 := mk_f (Some x1) _ _ _ _).
  assert (Hr2 : reliable s1 nb).
  { destruct Hr1 as [[Hfs ? ? ?] ?]. split; [split; try done|done]. exists x1. split; [done|]. destruct Hfs as (x0 & E0 & E1). simpl in E0. unfold x1. simpl. congruence. }
  eapply wp_mono; [apply (IH (j + 1) s1 x1 b1); try done; lia|].
  intros r s' (-> & R & Evn & Eh & Ed & D & b' & N' & L' & Efs & C). split_and!; try done.
  - intros c. rewrite D. apply D1.
  - exists b'. split_and!; try done. intros i Hi. rewrite C by done. destruct (splice_chunk b (dsk s (2 + j)) j k i Hl (dsk_len _ _) ltac:(lia) Hi) as [_ Hc].
    change (dsk s1 (2 + i)) with (dsk (with_disk d s) (2 + i)). rewrite D1. fold b1 in Hc. rewrite Hc.
    destruct (decide (j + 1 <= i < j + 1 + Z.of_nat n)), (decide (j <= i < j + Z.of_nat (S n))), (decide (i = j)) as [->|]; try done; lia.
Qed.

(** A list is its chunks. *)
Lemma chunks_eq b b' k : Z.of_nat (length (v b)) = 512 * k -> Z.of_nat (length (v b')) = 512 * k -> 0 <= k ->
  (forall i, 0 <= i < k -> chunk b' i = chunk b i) -> v b' = v b.
Proof using Type.
  intros Hl Hl' Hk Hc. apply list_eq. intros p. destruct (decide (p < length (v b))%nat) as [Hp|Hp].
  2:{ rewrite !lookup_ge_None_2 by lia. done. }
  set (i := Z.of_nat p / 512). assert (Hi : 0 <= i < k) by (unfold i; Z.to_euclidean_division_equations; lia).
  specialize (Hc i Hi). unfold chunk, SFS_BLOCKSIZE in Hc.
  assert (E : forall l : list Z, l !! p = take 512 (drop (Z.to_nat (i * 512)) l) !! Z.to_nat (Z.of_nat p mod 512)).
  { intros l. pose proof (Z.mod_pos_bound (Z.of_nat p) 512 ltac:(lia)). rewrite lookup_take_lt, lookup_drop by lia. f_equal.
    unfold i. Z.to_euclidean_division_equations; lia. }
  rewrite (E (v b')), (E (v b)). by rewrite Hc.
Qed.

(** A disk with no volume mounted from it. *)
Record unmounted (s : fstate) : Prop := mk_unm {
  un_held : f_held s = false;
  un_depth : f_depth s = 0;
  un_idle : lhd_idle (ds_lhd (f_d s));
  un_hw : hw_good (lh_hw (ds_lhd (f_d s)))
}.

(** The medium holds a volume. *)
Record volume_on (s : fstate) (sb : sfs_superblock) (b : bitmap) : Prop := mk_von {
  vn_super : dsk s 0 = bytes_of_superblock sb;
  vn_wf : superblock_wf sb;
  vn_magic : sb_magic sb = SFS_MAGIC;
  vn_name : sb_volname sb = take 31 (sb_volname sb) ++ [0];
  vn_blocks : 0 < sb_nblocks sb < 2 ^ 23 /\ sb_nblocks sb <= d_blocks (ds_lhd (f_d s));
  vn_bits : nbits b = SFS_FREEMAPBITS (sb_nblocks sb);
  vn_len : Z.of_nat (length (v b)) = 512 * SFS_FREEMAPBLOCKS (sb_nblocks sb);
  vn_room : 2 + SFS_FREEMAPBLOCKS (sb_nblocks sb) <= sb_nblocks sb;
  vn_map : forall j, 0 <= j < SFS_FREEMAPBLOCKS (sb_nblocks sb) -> dsk s (2 + j) = chunk b j
}.

Lemma bitmap_create_blocks n : 0 < n < 2 ^ 23 ->
  bitmap_create true true (SFS_FREEMAPBITS n) tt = Ret (Some (mk_bitmap (SFS_FREEMAPBITS n) (replicate (Z.to_nat (512 * SFS_FREEMAPBLOCKS n)) 0))) tt.
Proof using Type.
  intros Hn. destruct (freemap_sizes n Hn) as [-> ->]. set (m := (n + 4095) / 4096).
  assert (Hm : 0 < m < 2 ^ 12) by (unfold m; Z.to_euclidean_division_equations; lia).
  unfold bitmap_create, DIVROUNDUP, BITS_PER_WORD. rewrite u32_small by lia.
  replace ((m * 4096 + 8 - 1) / 8) with (512 * m) by (Z.to_euclidean_division_equations; lia).
  replace (m * 4096 / 8) with (512 * m) by (Z.to_euclidean_division_equations; lia). by rewrite Z.ltb_irrefl.
Qed.

Lemma mount_good s sb b junk : unmounted s -> volume_on s sb b ->
  wp (sfs_domount 512 junk true true true) s (fun r s' => r = 0 /\ f_held s' = false /\ f_depth s' = 0 /\ f_vn s' = f_vn s /\ (forall c, dsk s' c = dsk s c) /\
    f_fs s' = Some (mk_fs sb false true [] (Some b) false) /\ drive_ready (locked s') (sb_nblocks sb) /\ hw_good (lh_hw (ds_lhd (f_d s')))).
Proof using Type.
  intros [U1 U2 U3 U4] [V1 V2 V3 V4 V5 V6 V7 V8 V9]. set (nb := sb_nblocks sb) in *. set (k := SFS_FREEMAPBLOCKS nb) in *. destruct V5 as [V5 V5'].
  unfold sfs_domount. apply wp_bind. apply (wp_eq _ _ tt (locked s)); [unfold vfs_biglock_acquire; msimpl; by rewrite U1|].
  change (512 =? SFS_BLOCKSIZE) with true. cbn [negb sfs_fs_create orb]. apply wp_bind. eapply wp_eq; [reflexivity|].
  cbn [sfs_sb sfs_superdirty sfs_vnodes sfs_freemap sfs_freemapdirty].
  match goal with |- wp _ ?s1 _ => set (s1' := s1) end.
  assert (R1 : reliable s1' nb) by (split; [split; try done; by eexists|done]).
  destruct (readblock_reliable 0 zeros s1' nb R1 ltac:(lia) eq_refl) as (d & Hrun & R2 & D2).
  change (dsk s1' 0) with (dsk s 0) in Hrun. rewrite V1 in Hrun. destruct (superblock_roundtrip sb V2) as [Hsb _].
  apply wp_bind. eapply wp_eq; [exact Hrun|]. cbn [Z.eqb negb]. rewrite Hsb, V3. apply wp_bind. eapply wp_eq; [reflexivity|].
  change (SFS_MAGIC =? SFS_MAGIC) with true. cbn [negb]. rewrite <- V3, <- V4. fold nb. apply wp_bind. eapply wp_eq; [reflexivity|].
  assert (Esb : mk_sb (sb_magic sb) nb (sb_volname sb) (sb_reserved sb) = sb) by by destruct sb. rewrite Esb. cbn [sb_nblocks].
  rewrite bitmap_create_blocks by done. fold k. apply wp_bind. eapply wp_eq; [reflexivity|]. cbn [f_vn f_d f_held f_depth].
  match goal with |- wp _ ?s2 _ => set (s3 := s2) end. set (b0 := mk_bitmap _ _) in s3.
  assert (R3 : reliable s3 nb). { destruct R2 as [[_ ? ? ?] ?]. split; [split; try done; by eexists|done]. }
  assert (Hk : 0 <= k) by lia.
  apply wp_bind. unfold sfs_freemapio. apply wp_bind. eapply wp_eq; [reflexivity|]. cbn [sfs_sb]. fold nb k.
  eapply wp_mono; [apply (freemap_read k nb (Z.to_nat k) 0 s3 (mk_fs sb false true [] (Some b0) false) b0); try done; try lia|].
  { unfold b0. cbn [v]. rewrite length_replicate. fold nb k. lia. }
  intros r s4 (-> & [[_ R4 R5 _] R6] & Evn & Eh & Ed & D4 & b' & N' & L' & Efs & C). cbn [Z.eqb negb].
  assert (Hb : b' = b).
  { assert (E : v b' = v b). { apply (chunks_eq b b' k); try done. intros i Hi. rewrite C by done. rewrite decide_True by lia.
      change (dsk s3 (2 + i)) with (dsk (with_disk d s1') (2 + i)). rewrite D2. by apply V9. }
    destruct b', b; simpl in *. f_equal; [|done]. by rewrite N', V6. }
  subst b'. simpl in Eh, Ed. rewrite U2 in Ed.
  apply wp_bind. apply (wp_eq _ _ tt (unlocked s4)); [unfold vfs_biglock_release; msimpl; by rewrite Eh, Ed|]. apply wp_ret.
  split_and!; try done; [|split; try done; by eexists]. intros c. change (dsk (unlocked s4) c) with (dsk s4 c). rewrite D4. change (dsk s3 c) with (dsk (with_disk d s1') c). by rewrite D2.
Qed.

(** C23: a volume that has been synced and is mounted again, from the same medium, has the same
    superblock and the same map of blocks in use, and nothing dirty. *)
Theorem sync_then_mount s x b junk : vol_idle s -> disk_ok s x b -> sb_magic (sfs_sb x) = SFS_MAGIC ->
  sb_volname (sfs_sb x) = take 31 (sb_volname (sfs_sb x)) ++ [0] ->
  wp sfs_sync s (fun r s1 => r = 0 /\ forall s2, f_d s2 = f_d s1 -> f_held s2 = false -> f_depth s2 = 0 ->
    wp (sfs_domount 512 junk true true true) s2 (fun r2 s3 => r2 = 0 /\ f_fs s3 = Some (mk_fs (sfs_sb x) false true [] (Some b) false) /\
      forall c, dsk s3 c = dsk s1 c)).
Proof using Type.
  intros Hi D Hmagic Hname. eapply wp_mono; [by apply (sfs_sync_runs s x b)|]. intros r s1 (-> & Hi1 & Efs & [O1 O2 _ _]). split; [done|].
  intros s2 Ed Hh Hdp. pose proof (vi_good _ Hi1) as (x1 & b1 & V). pose proof (vi_good _ Hi) as Hg.
  assert (DL : disk_ok (locked s) x b). { destruct D as [? ? ? ? ? ? ? I ? ?]. split; try done. by destruct I. }
  destruct (map_bytes (locked s) x b Hg DL) as [Hl Hk]. pose proof (nblk_small (locked s) Hg) as Hn.
  assert (En : nblk (locked s) = sb_nblocks (sfs_sb x)) by (unfold nblk; simpl; by rewrite (dk_fs _ _ _ D)).
  assert (Ed2 : forall c, dsk s2 c = dsk s1 c) by (intros c; unfold dsk; by rewrite Ed).
  eapply wp_mono; [apply (mount_good s2 (sfs_sb x) b junk)|].
  - split; try done; rewrite Ed; [apply (vo_idle _ _ _ V)|apply (vo_hw _ _ _ V)].
  - unfold nmap in *. rewrite En in *. split; try done.
    + rewrite Ed2. exact O1.
    + apply (dk_sb _ _ _ D).
    + split; [done|]. rewrite Ed. pose proof (vo_size _ _ _ V) as Hsz. simpl in Hsz.
      assert (x1 = flags_clean x) as -> by (pose proof (vo_fs _ _ _ V) as E; simpl in E; congruence). exact Hsz.
    + pose proof (dk_bits _ _ _ DL) as E. by rewrite En in E.
    + pose proof (dk_room _ _ _ DL) as E. unfold nmap in E. by rewrite En in E.
    + intros j Hj. rewrite Ed2. apply O2. unfold nmap. change (nblk s) with (nblk (locked s)). by rewrite En.
  - intros r s3 (-> & _ & _ & _ & D3 & E3 & _). split_and!; try done. intros c. by rewrite D3, Ed2.
Qed.

End Ops.
(** ** Witnesses: the small volume with its root directory loaded *)

Import SfsToy.

Definition toy_mounted : Sfs.fstate unit card := unlocked (toy_state false toy_root).

Lemma toy_mounted_idle : vol_idle toy_mounted.
Proof. split; [done|done|apply (toy_good toy_root)]. Qed.

Lemma toy_mounted_lookup w y : f_vn toy_mounted !! w = Some y -> w = 100 /\ y = mk_sv 1 toy_root 1 false.
Proof. intros Hy. change (({[100 := mk_sv 1 toy_root 1 false]} : gmap Z sfs_vnode) !! w = Some y) in Hy. by apply lookup_singleton_Some in Hy as [<- <-]. Qed.

Lemma toy_root_wf : dinode_wf toy_root.
Proof.
  split; simpl; unfold is_word; try lia; (split; [done|]); repeat (constructor; [unfold is_word; lia|]); constructor.
Qed.

Lemma toy_sb_wf : superblock_wf toy_sb.
Proof.
  split; simpl; try (unfold is_word, SFS_MAGIC; lia); (split; [done|]); repeat (constructor; [unfold is_byte, is_word; lia|]); constructor.
Qed.

Lemma toy_disk_ok : disk_ok toy_mounted toy_vol toy_map.
Proof.
  assert (Hnb : nblk toy_mounted = 64) by done. assert (Hnm : nmap toy_mounted = 1) by (unfold nmap; rewrite Hnb; by vm_compute).
  split; [done|done|by vm_compute|rewrite Hnm, Hnb; lia|apply toy_sb_wf| |intros _; by vm_compute| | |].
  - intros _ j Hj. rewrite Hnm in Hj. assert (j = 0) as -> by lia. by vm_compute.
  - split.
    + intros w y Hy. apply toy_mounted_lookup in Hy as [_ ->]. split; [apply toy_root_wf|rewrite Hnb; simpl; lia].
    + intros w y Hy _. apply toy_mounted_lookup in Hy as [_ ->]. by vm_compute.
    + intros w1 w2 y1 y2 H1 H2 _. apply toy_mounted_lookup in H1 as [-> _]. by apply toy_mounted_lookup in H2 as [-> _].
  - intros w y Hy. apply toy_mounted_lookup in Hy as [_ ->]. by left.
  - intros w. split.
    + intros Hw%list_elem_of_singleton. subst. by eexists.
    + intros [y Hy]. apply toy_mounted_lookup in Hy as [-> _]. by apply list_elem_of_singleton.
Qed.

Lemma sfs_sync_persists_witness :
  wp sfs_sync toy_mounted (fun r s' => r = 0 /\ vol_idle s' /\ f_fs s' = Some (flags_clean toy_vol) /\ on_disk s' toy_vol toy_map toy_mounted).
Proof. apply (sfs_sync_persists toy_mounted toy_vol toy_map); [apply toy_mounted_idle|apply toy_disk_ok]. Defined.

Lemma sync_then_mount_witness :
  wp sfs_sync toy_mounted (fun r s1 => r = 0 /\ forall s2, f_d s2 = f_d s1 -> f_held s2 = false -> f_depth s2 = 0 ->
    wp (sfs_domount 512 toy_sb true true true) s2 (fun r2 s3 => r2 = 0 /\ f_fs s3 = Some (mk_fs toy_sb false true [] (Some toy_map) false) /\
      forall c, dsk s3 c = dsk s1 c)).
Proof. apply (sync_then_mount toy_mounted toy_vol toy_map toy_sb); [apply toy_mounted_idle|apply toy_disk_ok|done|done]. Defined.

End SfsSync.
