(* ===== verification/Millicode.v ===== *)
(** * 64-bit arithmetic on a 32-bit machine: common/gcc-millicode

    The routines the compiler calls for [long long].  A [long long] is an integer in its
    signed range, an [unsigned long long] one in its unsigned range; [union uu] is the pair
    of its words.  Division by zero traps ([None]).  The digits of Knuth's algorithm D are
    in arrays of five, and a pointer into an array is the offset it points to. *)

From S2P Require Import Prelude.

Module Millicode.

(** *** longlong.h *)

Definition INT_BITS : Z := 32.
Definition HALF_BITS : Z := 16.

Definition u64 (x : Z) : Z := x mod 2 ^ 64.
(** The signed number with the same bits. *)
Definition s64 (x : Z) : Z := (x + 2 ^ 63) mod 2 ^ 64 - 2 ^ 63.
Definition s32 (x : Z) : Z := (x + 2 ^ 31) mod 2 ^ 32 - 2 ^ 31.

(** [union uu] through its [unsigned int] halves. *)
Record uu := mk_uu { uiH : Z; uiL : Z }.
Definition uu_of (x : Z) : uu := mk_uu (u64 x / 2 ^ 32) (u32 x).
Definition uu_ull (u : uu) : Z := uiH u * 2 ^ 32 + uiL u.
Definition uu_ll (u : uu) : Z := s64 (uu_ull u).
Definition siH (u : uu) : Z := s32 (uiH u).

Definition HHALF (x : Z) : Z := Z.shiftr (u32 x) HALF_BITS.
Definition LHALF (x : Z) : Z := Z.land (u32 x) (Z.shiftl 1 HALF_BITS - 1).
Definition LHUP (x : Z) : Z := u32 (Z.shiftl (u32 x) HALF_BITS).

(** Shifts of an [unsigned int], by less than its width. *)
Definition shl32 (x n : Z) : Z := u32 (Z.shiftl x n).
Definition shr32 (x n : Z) : Z := Z.shiftr x n.

(** *** Addition, subtraction, comparison and bits *)

Definition __adddi3 (a b : Z) : Z :=
  let aa := uu_of a in let bb := uu_of b in
  let lo := u32 (uiL aa + uiL bb) in
  uu_ll (mk_uu (u32 (uiH aa + uiH bb + Z.b2z (lo <? uiL bb))) lo).

Definition __subdi3 (a b : Z) : Z :=
  let aa := uu_of a in let bb := uu_of b in
  let lo := u32 (uiL aa - uiL bb) in
  uu_ll (mk_uu (u32 (uiH aa - uiH bb - Z.b2z (uiL aa <? lo))) lo).

Definition __negdi2 (a : Z) : Z :=
  let aa := uu_of a in
  let lo := u32 (- uiL aa) in
  uu_ll (mk_uu (u32 (- uiH aa - Z.b2z (0 <? lo))) lo).

Definition __cmpdi2 (a b : Z) : Z :=
  let aa := uu_of a in let bb := uu_of b in
  if siH aa <? siH bb then 0 else if siH bb <? siH aa then 2
  else if uiL aa <? uiL bb then 0 else if uiL bb <? uiL aa then 2 else 1.

Definition __ucmpdi2 (a b : Z) : Z :=
  let aa := uu_of a in let bb := uu_of b in
  if uiH aa <? uiH bb then 0 else if uiH bb <? uiH aa then 2
  else if uiL aa <? uiL bb then 0 else if uiL bb <? uiL aa then 2 else 1.

Definition __anddi3 (a b : Z) : Z :=
  let aa := uu_of a in let bb := uu_of b in
  uu_ll (mk_uu (Z.land (uiH aa) (uiH bb)) (Z.land (uiL aa) (uiL bb))).

Definition __iordi3 (a b : Z) : Z :=
  let aa := uu_of a in let bb := uu_of b in
  uu_ll (mk_uu (Z.lor (uiH aa) (uiH bb)) (Z.lor (uiL aa) (uiL bb))).

Definition __xordi3 (a b : Z) : Z :=
  let aa := uu_of a in let bb := uu_of b in
  uu_ll (mk_uu (Z.lxor (uiH aa) (uiH bb)) (Z.lxor (uiL aa) (uiL bb))).

Definition __one_cmpldi2 (a : Z) : Z :=
  let aa := uu_of a in
  uu_ll (mk_uu (u32 (Z.lnot (uiH aa))) (u32 (Z.lnot (uiL aa)))).

(** *** Shifts (by less than 64) *)

Definition __ashldi3 (a shift : Z) : Z :=
  if shift =? 0 then a
  else
    let aa := uu_of a in
    if INT_BITS <=? shift then uu_ll (mk_uu (shl32 (uiL aa) (shift - INT_BITS)) 0)
    else uu_ll (mk_uu (Z.lor (shl32 (uiH aa) shift) (shr32 (uiL aa) (INT_BITS - shift))) (shl32 (uiL aa) shift)).

(** lshldi3.c has the same body. *)
Definition __lshldi3 (a shift : Z) : Z :=
  if shift =? 0 then a
  else
    let aa := uu_of a in
    if INT_BITS <=? shift then uu_ll (mk_uu (shl32 (uiL aa) (shift - INT_BITS)) 0)
    else uu_ll (mk_uu (Z.lor (shl32 (uiH aa) shift) (shr32 (uiL aa) (INT_BITS - shift))) (shl32 (uiL aa) shift)).

(** [>>] on an [int] keeps the sign. *)
Definition __ashrdi3 (a shift : Z) : Z :=
  if shift =? 0 then a
  else
    let aa := uu_of a in
    if INT_BITS <=? shift then
      let s := Z.shiftr (Z.shiftr (siH aa) (INT_BITS - 1)) 1 in
      uu_ll (mk_uu (u32 s) (u32 (Z.shiftr (siH aa) (shift - INT_BITS))))
    else
      uu_ll (mk_uu (u32 (Z.shiftr (siH aa) shift))
        (Z.lor (shr32 (uiL aa) shift) (shl32 (uiH aa) (INT_BITS - shift)))).

Definition __lshrdi3 (a shift : Z) : Z :=
  if shift =? 0 then a
  else
    let aa := uu_of a in
    if INT_BITS <=? shift then uu_ll (mk_uu 0 (shr32 (uiH aa) (shift - INT_BITS)))
    else uu_ll (mk_uu (shr32 (uiH aa) shift) (Z.lor (shr32 (uiL aa) shift) (shl32 (uiH aa) (INT_BITS - shift)))).

(** *** Multiplication *)

(** 32 x 32 -> 64 bits, from products of 16-bit halves. *)
Definition __lmulq (u v : Z) : Z :=
  let u1 := HHALF u in let u0 := LHALF u in
  let v1 := HHALF v in let v0 := LHALF v in
  let low := u32 (u0 * v0) in
  if (u1 =? 0) && (v1 =? 0) then low
  else
    let '(udiff, neg) := if u0 <=? u1 then (u32 (u1 - u0), false) else (u32 (u0 - u1), true) in
    let '(vdiff, neg) := if v1 <=? v0 then (u32 (v0 - v1), neg) else (u32 (v1 - v0), negb neg) in
    let mid := u32 (udiff * vdiff) in
    let high := u32 (u1 * v1) in
    let prodh := u32 (high + HHALF high) in
    let prodl := LHUP high in
    let was := prodl in
    let '(prodl, prodh) :=
      if neg then
        let prodl := u32 (prodl - LHUP mid) in (prodl, u32 (prodh - (HHALF mid + Z.b2z (was <? prodl))))
      else
        let prodl := u32 (prodl + LHUP mid) in (prodl, u32 (prodh + (HHALF mid + Z.b2z (prodl <? was)))) in
    let was := prodl in
    let prodl := u32 (prodl + LHUP low) in
    let prodh := u32 (prodh + (HHALF low + Z.b2z (prodl <? was))) in
    let prodl := u32 (prodl + low) in
    let prodh := if prodl <? low then u32 (prodh + 1) else prodh in
    uu_ll (mk_uu prodh prodl).

(** [-a] of a [long long] wraps for the smallest one. *)
Definition __muldi3 (a b : Z) : Z :=
  let '(u, negall) := if 0 <=? a then (uu_of a, false) else (uu_of (s64 (- a)), true) in
  let '(v, negall) := if 0 <=? b then (uu_of b, negall) else (uu_of (s64 (- b)), negb negall) in
  let prod :=
    if (uiH u =? 0) && (uiH v =? 0) then __lmulq (uiL u) (uiL v)
    else
      let low := uu_of (__lmulq (uiL u) (uiL v)) in
      let '(udiff, negmid) :=
        if uiL u <=? uiH u then (u32 (uiH u - uiL u), false) else (u32 (uiL u - uiH u), true) in
      let '(vdiff, negmid) :=
        if uiH v <=? uiL v then (u32 (uiL v - uiH v), negmid) else (u32 (uiH v - uiL v), negb negmid) in
      let mid := u32 (udiff * vdiff) in
      let high := u32 (uiH u * uiH v) in
      uu_ll (mk_uu (u32 (high + (if negmid then u32 (- mid) else mid) + uiL low + uiH low)) (uiL low)) in
  if negall then s64 (- prod) else prod.

End Millicode.
