(* ===== verification/Qdivrem.v ===== *)
(** * Division of 64-bit integers: common/gcc-millicode/qdivrem.c and its callers

    Algorithm D of Knuth (volume 2, section 4.3.1) in base 2^16.  The arrays of digits are
    the state; a read or write outside them is undefined.  [u], [v] and [q] of the code are
    offsets into them. *)

From S2P Require Import Prelude Millicode.

Module Qdivrem.
Import Millicode.

(** Digit base. *)
Definition B : Z := Z.shiftl 1 HALF_BITS.

Definition COMBINE (a b : Z) : Z := Z.lor (shl32 a HALF_BITS) b.

(** [(digit)x]: an [unsigned short]. *)
Definition digit (x : Z) : Z := u16 x.

(** The three arrays. *)
Record digits := mk_digits { uspace : list Z; vspace : list Z; qspace : list Z }.

Inductive arr := U | V | Q.

Definition space (a : arr) (s : digits) : list Z :=
  match a with U => uspace s | V => vspace s | Q => qspace s end.
Definition set_space (a : arr) (l : list Z) (s : digits) : digits :=
  match a with
  | U => mk_digits l (vspace s) (qspace s)
  | V => mk_digits (uspace s) l (qspace s)
  | Q => mk_digits (uspace s) (vspace s) l
  end.

Definition in_space (a : arr) (i : Z) (s : digits) : bool := (0 <=? i) && (i <? Z.of_nat (length (space a s))).

(** [a[i]] and [a[i] = x]. *)
Definition rd (a : arr) (i : Z) : M digits Z :=
  s ← get;
  if in_space a i s then deref (space a s !! Z.to_nat i) else undef.
Definition wr (a : arr) (i x : Z) : M digits unit :=
  s ← get;
  if in_space a i s then modify (set_space a (<[Z.to_nat i := digit x]> (space a s))) else undef.

(** [shl(&a[p], len, sh)] *)
Fixpoint shl_loop (k : nat) (a : arr) (p i len sh : Z) : M digits unit :=
  match k with
  | O => x ← rd a (p + i); wr a (p + i) (LHALF (shl32 x sh))
  | S k' =>
      x ← rd a (p + i);
      y ← rd a (p + i + 1);
      _ ← wr a (p + i) (Z.lor (LHALF (shl32 x sh)) (shr32 y (HALF_BITS - sh)));
      shl_loop k' a p (i + 1) len sh
  end.
Definition shl (a : arr) (p len sh : Z) : M digits unit := shl_loop (Z.to_nat len) a p 0 len sh.

(** [for (n = 4; v[1] == 0; v++) if (--n == 1) ...]: the offset of [v] and [n]. *)
Fixpoint skip_v (fuel : nat) (v n : Z) : M digits (Z * Z) :=
  match fuel with
  | O => out_of_fuel
  | S fuel' =>
      v1 ← rd V (v + 1);
      if v1 =? 0 then
        let n := n - 1 in
        if n =? 1 then mret (v, n) else skip_v fuel' (v + 1) n
      else mret (v, n)
  end.

(** [for (m = 4 - n; u[1] == 0; u++) m--] *)
Fixpoint skip_u (fuel : nat) (u m : Z) : M digits (Z * Z) :=
  match fuel with
  | O => out_of_fuel
  | S fuel' =>
      u1 ← rd U (u + 1);
      if u1 =? 0 then skip_u fuel' (u + 1) (m - 1) else mret (u, m)
  end.

(** [for (i = 4 - m; --i >= 0;) q[i] = 0] *)
Fixpoint clear_q (i : nat) : M digits unit :=
  match i with
  | O => mret tt
  | S i' => _ ← wr Q (Z.of_nat i') 0; clear_q i'
  end.

(** [for (t = v[1]; t < B / 2; t <<= 1) d++] *)
Fixpoint norm (fuel : nat) (t d : Z) : M digits Z :=
  match fuel with
  | O => out_of_fuel
  | S fuel' => if t <? B / 2 then norm fuel' (shl32 t 1) (d + 1) else mret d
  end.

(** [while (v2 * qhat > COMBINE(rhat, uj2)) { qhat_too_big: ... }]; with [entered] the loop
    starts at the label. *)
Fixpoint d3 (fuel : nat) (entered : bool) (v1 v2 uj2 qhat rhat : Z) : M digits Z :=
  match fuel with
  | O => out_of_fuel
  | S fuel' =>
      if entered || (COMBINE rhat uj2 <? u32 (v2 * qhat)) then
        let qhat := u32 (qhat - 1) in
        let rhat := u32 (rhat + v1) in
        if B <=? rhat then mret qhat else d3 fuel' false v1 v2 uj2 qhat rhat
      else mret qhat
  end.

(** D4: [for (t = 0, i = n; i > 0; i--)], the borrow out of the loop. *)
Fixpoint d4 (i : nat) (u v j qhat t : Z) : M digits Z :=
  match i with
  | O => mret t
  | S i' =>
      x ← rd U (u + (Z.of_nat i + j));
      y ← rd V (v + Z.of_nat i);
      let t := u32 (x - y * qhat - t) in
      _ ← wr U (u + (Z.of_nat i + j)) (LHALF t);
      d4 i' u v j qhat (Z.land (B - HHALF t) (B - 1))
  end.

(** D6: the carry out of adding [v] back. *)
Fixpoint d6 (i : nat) (u v j t : Z) : M digits Z :=
  match i with
  | O => mret t
  | S i' =>
      x ← rd U (u + (Z.of_nat i + j));
      y ← rd V (v + Z.of_nat i);
      let t := u32 (t + (x + y)) in
      _ ← wr U (u + (Z.of_nat i + j)) (LHALF t);
      d6 i' u v j (HHALF t)
  end.

(** D3 to D6: one digit of the quotient. *)
Definition dstep (u v q n v1 v2 j : Z) : M digits unit :=
  uj0 ← rd U (u + j);
  uj1 ← rd U (u + (j + 1));
  uj2 ← rd U (u + (j + 2));
  qhat ← (if uj0 =? v1 then d3 4 true v1 v2 uj2 B uj1
          else let nn := COMBINE uj0 uj1 in d3 4 false v1 v2 uj2 (nn / v1) (nn mod v1));
  t ← d4 (Z.to_nat n) u v j qhat 0;
  x ← rd U (u + j);
  let t := u32 (x - t) in
  _ ← wr U (u + j) (LHALF t);
  if negb (HHALF t =? 0) then
    t ← d6 (Z.to_nat n) u v j 0;
    x ← rd U (u + j);
    _ ← wr U (u + j) (LHALF (x + t));
    wr Q (q + j) (u32 (qhat - 1))
  else wr Q (q + j) qhat.

(** [do ... while (++j <= m)] *)
Fixpoint dloop (k : nat) (u v q n v1 v2 j : Z) : M digits unit :=
  match k with
  | O => mret tt
  | S k' => _ ← dstep u v q n v1 v2 j; dloop k' u v q n v1 v2 (j + 1)
  end.

(** [for (i = m + n; i > m; --i) u[i] = ...; u[i] = 0] *)
Fixpoint unshift (k : nat) (u m d : Z) : M digits unit :=
  match k with
  | O => wr U (u + m) 0
  | S k' =>
      let i := m + Z.of_nat k in
      x ← rd U (u + i);
      y ← rd U (u + (i - 1));
      _ ← wr U (u + i) (Z.lor (shr32 x d) (LHALF (shl32 y (HALF_BITS - d))));
      unshift k' u m d
  end.

(** Four digits of an array as an [unsigned long long]. *)
Definition join (a : arr) : M digits Z :=
  x1 ← rd a 1; x2 ← rd a 2; x3 ← rd a 3; x4 ← rd a 4;
  mret (uu_ull (mk_uu (COMBINE x1 x2) (COMBINE x3 x4))).

(** Division by a one-digit number. *)
Definition short_div (t : Z) : M digits (Z * Z) :=
  u1 ← rd U 1; u2 ← rd U 2; u3 ← rd U 3; u4 ← rd U 4;
  let q1 := digit (u1 / t) in
  let rbj := COMBINE (u1 mod t) u2 in
  let q2 := digit (rbj / t) in
  let rbj := COMBINE (rbj mod t) u3 in
  let q3 := digit (rbj / t) in
  let rbj := COMBINE (rbj mod t) u4 in
  let q4 := digit (rbj / t) in
  mret (uu_ull (mk_uu (COMBINE q1 q2) (COMBINE q3 q4)), rbj mod t).

(** The body after the special cases. *)
Definition divide (arq : bool) : M digits (Z * option Z) :=
  '(v, n) ← skip_v 4 0 4;
  if n =? 1 then
    t ← rd V (v + 2);
    '(q, r) ← short_div t;
    mret (q, if arq then Some r else None)
  else
    '(u, m) ← skip_u 5 0 (4 - n);
    _ ← clear_q (Z.to_nat (4 - m));
    let q := 4 - m in
    t ← rd V (v + 1);
    d ← norm 17 t 0;
    _ ← when (0 <? d) (_ ← shl U u (m + n) d; shl V (v + 1) (n - 1) d);
    v1 ← rd V (v + 1);
    v2 ← rd V (v + 2);
    _ ← dloop (Z.to_nat (m + 1)) u v q n v1 v2 0;
    r ← (if arq then
           _ ← when (negb (d =? 0)) (unshift (Z.to_nat n) u m d);
           r ← join U; mret (Some r)
         else mret None);
    x ← join Q;
    mret (x, r).

(** The digits of a number, behind what the first element holds. *)
Definition split (x0 x : Z) : list Z :=
  let w := uu_of x in
  [x0; digit (HHALF (uiH w)); digit (LHALF (uiH w)); digit (HHALF (uiL w)); digit (LHALF (uiL w))].

(** [__qdivrem(ull, vll, arq)]: the quotient and what is stored through [arq].  [v0] and
    [q0] are what the uninitialised [vspace[0]] and [qspace] hold. *)
Definition __qdivrem (v0 : Z) (q0 : list Z) (ull vll : Z) (arq : bool) : option (Z * option Z) :=
  if vll =? 0 then None
  else if ull <? vll then Some (0, if arq then Some ull else None)
  else
    match divide arq (mk_digits (split 0 ull) (split v0 vll) q0) with
    | Ret r _ => Some r
    | _ => None
    end.

(** *** The callers *)

Definition __udivdi3 (v0 : Z) (q0 : list Z) (a b : Z) : option Z :=
  fst <$> __qdivrem v0 q0 a b false.

Definition __umoddi3 (v0 : Z) (q0 : list Z) (a b : Z) : option Z :=
  '(_, r) ← __qdivrem v0 q0 a b true; r.

Definition __divdi3 (v0 : Z) (q0 : list Z) (a b : Z) : option Z :=
  let '(ua, neg) := if a <? 0 then (u64 (- u64 a), true) else (u64 a, false) in
  let '(ub, neg) := if b <? 0 then (u64 (- u64 b), negb neg) else (u64 b, neg) in
  '(uq, _) ← __qdivrem v0 q0 ua ub false;
  let uq := if neg then u64 (- uq) else uq in
  mret (s64 uq).

Definition __moddi3 (v0 : Z) (q0 : list Z) (a b : Z) : option Z :=
  let '(ua, neg) := if a <? 0 then (u64 (- u64 a), true) else (u64 a, false) in
  let ub := if b <? 0 then u64 (- u64 b) else u64 b in
  '(_, r) ← __qdivrem v0 q0 ua ub true;
  ur ← r;
  let ur := if neg then u64 (- ur) else ur in
  mret (s64 ur).

End Qdivrem.
