(* ===== verification/MilliTheory.v ===== *)
(** * The 64-bit routines compute what C says: theorems on Millicode.v

    Each routine of common/gcc-millicode against the operation on integers it stands for,
    reduced to the 64 bits of the result. *)

From S2P Require Import Prelude Millicode.

Module MilliTheory.
Import Millicode.

(** A [long long] and an [unsigned long long]. *)
Definition is_ll (x : Z) : Prop := - 2 ^ 63 <= x < 2 ^ 63.
Definition is_ull (x : Z) : Prop := 0 <= x < 2 ^ 64.

(** *** Words and halves *)

Lemma mod_eq a b k n : 0 < n -> a = b + k * n -> a mod n = b mod n.
Proof. intros Hn ->. by apply Z.mod_add; lia. Qed.

Lemma s64_eq a b k : a = b + k * 2 ^ 64 -> s64 a = s64 b.
Proof. intros ->. unfold s64. apply (f_equal (fun z => z - 2 ^ 63)), (mod_eq _ _ k); lia. Qed.

Lemma s64_small x : is_ll x -> s64 x = x.
Proof. unfold is_ll, s64. intros H. rewrite Z.mod_small; lia. Qed.

Lemma s64_range x : is_ll (s64 x).
Proof. unfold is_ll, s64. pose proof (Z.mod_pos_bound (x + 2 ^ 63) (2 ^ 64)). lia. Qed.

(** A number and its signed reading agree on 64 bits. *)
Lemma s64_mod x : exists k, s64 x = x + k * 2 ^ 64.
Proof. unfold s64. pose proof (Z.div_mod (x + 2 ^ 63) (2 ^ 64)). exists (- ((x + 2 ^ 63) / 2 ^ 64)). lia. Qed.

Lemma u64_mod x : exists k, u64 x = x + k * 2 ^ 64.
Proof. unfold u64. pose proof (Z.div_mod x (2 ^ 64)). exists (- (x / 2 ^ 64)). lia. Qed.

Lemma u32_mod x : exists k, u32 x = x + k * 2 ^ 32.
Proof. unfold u32. pose proof (Z.div_mod x (2 ^ 32)). exists (- (x / 2 ^ 32)). lia. Qed.

Lemma u64_range x : is_ull (u64 x).
Proof. unfold u64, is_ull. apply Z.mod_pos_bound. lia. Qed.

(** The words of a number. *)
Lemma uu_of_spec x : 0 <= uiH (uu_of x) < 2 ^ 32 /\ 0 <= uiL (uu_of x) < 2 ^ 32 /\
  exists k, x = uiH (uu_of x) * 2 ^ 32 + uiL (uu_of x) + k * 2 ^ 64.
Proof.
  simpl. unfold u64, u32. pose proof (Z.mod_pos_bound x (2 ^ 64)). pose proof (Z.mod_pos_bound x (2 ^ 32)).
  split_and!; try lia; try (apply Z.div_pos; lia); try (apply Z.div_lt_upper_bound; lia).
  exists (x / 2 ^ 64). Z.to_euclidean_division_equations. lia.
Qed.

Lemma HHALF_div x : 0 <= x < 2 ^ 32 -> HHALF x = x / 2 ^ 16.
Proof. intros H. unfold HHALF, HALF_BITS. rewrite u32_small, Z.shiftr_div_pow2 by lia. done. Qed.

Lemma LHALF_mod x : LHALF x = x mod 2 ^ 16.
Proof.
  unfold LHALF, u32, HALF_BITS. change (Z.shiftl 1 16 - 1) with (Z.ones 16). rewrite Z.land_ones by lia.
  Z.to_euclidean_division_equations. lia.
Qed.

Lemma LHUP_mul x : 0 <= x < 2 ^ 32 -> LHUP x = x mod 2 ^ 16 * 2 ^ 16.
Proof.
  intros H. unfold LHUP, HALF_BITS. rewrite (u32_small x), Z.shiftl_mul_pow2 by lia. unfold u32.
  Z.to_euclidean_division_equations. lia.
Qed.

(** *** Addition, subtraction, comparison *)

(** Decides the comparisons of the goal. *)
Ltac compare_all :=
  repeat case_match; repeat match goal with
    | H : (_ <? _) = true |- _ => apply Z.ltb_lt in H
    | H : (_ <? _) = false |- _ => apply Z.ltb_ge in H
    | H : (_ ?= _) = Eq |- _ => apply Z.compare_eq in H
    | H : (_ ?= _) = Lt |- _ => apply (proj1 (Z.compare_lt_iff _ _)) in H
    | H : (_ ?= _) = Gt |- _ => apply (proj1 (Z.compare_gt_iff _ _)) in H end; lia.

Lemma adddi3_spec a b : __adddi3 a b = s64 (a + b).
Proof.
  unfold __adddi3, uu_ll, uu_ull. destruct (uu_of_spec a) as (Ha & Hl & ka & Ea), (uu_of_spec b) as (Hb & Hm & kb & Eb).
  cbn [uiH uiL]. set (ah := uiH (uu_of a)) in *. set (al := uiL (uu_of a)) in *.
  set (bh := uiH (uu_of b)) in *. set (bl := uiL (uu_of b)) in *.
  destruct (u32_mod (ah + bh + Z.b2z (u32 (al + bl) <? bl))) as [k ->].
  apply (s64_eq _ _ (k - ka - kb)). rewrite Ea, Eb. unfold u32.
  destruct (Z.ltb_spec ((al + bl) mod 2 ^ 32) bl); simpl Z.b2z; Z.to_euclidean_division_equations; lia.
Qed.

Lemma subdi3_spec a b : __subdi3 a b = s64 (a - b).
Proof.
  unfold __subdi3, uu_ll, uu_ull. destruct (uu_of_spec a) as (Ha & Hl & ka & Ea), (uu_of_spec b) as (Hb & Hm & kb & Eb).
  cbn [uiH uiL]. set (ah := uiH (uu_of a)) in *. set (al := uiL (uu_of a)) in *.
  set (bh := uiH (uu_of b)) in *. set (bl := uiL (uu_of b)) in *.
  destruct (u32_mod (ah - bh - Z.b2z (al <? u32 (al - bl)))) as [k ->].
  apply (s64_eq _ _ (k - ka + kb)). rewrite Ea, Eb. unfold u32.
  destruct (Z.ltb_spec al ((al - bl) mod 2 ^ 32)); simpl Z.b2z; Z.to_euclidean_division_equations; lia.
Qed.

Lemma negdi2_spec a : __negdi2 a = s64 (- a).
Proof.
  unfold __negdi2, uu_ll, uu_ull. destruct (uu_of_spec a) as (Ha & Hl & ka & Ea).
  cbn [uiH uiL]. set (ah := uiH (uu_of a)) in *. set (al := uiL (uu_of a)) in *.
  destruct (u32_mod (- ah - Z.b2z (0 <? u32 (- al)))) as [k ->].
  apply (s64_eq _ _ (k + ka)). rewrite Ea. unfold u32.
  destruct (Z.ltb_spec 0 ((- al) mod 2 ^ 32)); simpl Z.b2z; Z.to_euclidean_division_equations; lia.
Qed.

(** The signed high word, and the number from it. *)
Lemma siH_spec a : is_ll a -> a = siH (uu_of a) * 2 ^ 32 + uiL (uu_of a) /\ - 2 ^ 31 <= siH (uu_of a) < 2 ^ 31 /\ 0 <= uiL (uu_of a) < 2 ^ 32.
Proof. unfold is_ll, siH, s32, u64, u32. simpl. intros H. unfold u64, u32. Z.to_euclidean_division_equations. lia. Qed.

(** 0, 1 or 2 for less, equal and greater. *)
Definition cmp3 (a b : Z) : Z := match a ?= b with Lt => 0 | Eq => 1 | Gt => 2 end.

Lemma cmpdi2_spec a b : is_ll a -> is_ll b -> __cmpdi2 a b = cmp3 a b.
Proof.
  intros Ha Hb. apply siH_spec in Ha, Hb. unfold __cmpdi2, cmp3.
  compare_all.
Qed.

Lemma ucmpdi2_spec a b : is_ull a -> is_ull b -> __ucmpdi2 a b = cmp3 a b.
Proof.
  intros Ha Hb. assert (H : forall x, is_ull x -> x = uiH (uu_of x) * 2 ^ 32 + uiL (uu_of x) /\ 0 <= uiL (uu_of x) < 2 ^ 32).
  { unfold is_ull. simpl. unfold u64, u32. intros x Hx. Z.to_euclidean_division_equations. lia. }
  apply H in Ha, Hb. clear H. unfold __ucmpdi2, cmp3.
  compare_all.
Qed.

(** *** Bits and shifts *)

Lemma s64_bits x y : (forall i, 0 <= i < 64 -> Z.testbit x i = Z.testbit y i) -> s64 x = s64 y.
Proof.
  intros H. assert (E : x mod 2 ^ 64 = y mod 2 ^ 64).
  { apply Z.bits_inj'. intros i Hi. destruct (Z.lt_ge_cases i 64).
    - rewrite !Z.mod_pow2_bits_low by lia. apply H. lia.
    - by rewrite !Z.mod_pow2_bits_high by lia. }
  apply (s64_eq _ _ (x / 2 ^ 64 - y / 2 ^ 64)). Z.to_euclidean_division_equations. lia.
Qed.

(** Bits past the highest are 0. *)
Lemma small_high x n i : 0 <= x < 2 ^ n -> 0 <= n <= i -> Z.testbit x i = false.
Proof. intros Hx Hi. rewrite <- (Z.mod_small x (2 ^ n)) by lia. apply Z.mod_pow2_bits_high. lia. Qed.

Lemma split_bits h l k i : 0 <= k -> 0 <= l < 2 ^ k -> 0 <= i ->
  Z.testbit (h * 2 ^ k + l) i = if i <? k then Z.testbit l i else Z.testbit h (i - k).
Proof.
  intros Hk Hl Hi. pose proof (Z.pow_pos_nonneg 2 k). destruct (Z.ltb_spec i k).
  - rewrite <- (Z.mod_pow2_bits_low (h * 2 ^ k + l) k i) by lia. f_equal.
    rewrite Z.add_comm, Z.mod_add by lia. apply Z.mod_small. lia.
  - rewrite <- (Z.sub_add k i) at 1. rewrite <- Z.div_pow2_bits by lia. f_equal.
    rewrite Z.add_comm, Z.div_add, Z.div_small by lia. done.
Qed.

Lemma words_bits h l i : 0 <= l < 2 ^ 32 -> 0 <= i ->
  Z.testbit (h * 2 ^ 32 + l) i = if i <? 32 then Z.testbit l i else Z.testbit h (i - 32).
Proof. apply (split_bits h l 32). lia. Qed.

(** A bitwise or of parts that do not overlap is their sum. *)
Lemma lor_split h l k : 0 <= k -> 0 <= l < 2 ^ k -> Z.lor (h * 2 ^ k) l = h * 2 ^ k + l.
Proof.
  intros Hk Hl. apply Z.bits_inj'. intros i Hi. pose proof (split_bits h 0 k i Hk) as E. rewrite Z.add_0_r in E.
  rewrite Z.lor_spec, split_bits, E by lia. destruct (Z.ltb_spec i k); [by rewrite Z.bits_0|].
  rewrite (small_high l k) by lia. apply orb_false_r.
Qed.

(** A pair of words by its bits. *)
Lemma uu_ll_bits h l y : 0 <= l < 2 ^ 32 -> (forall i, 0 <= i < 32 -> Z.testbit l i = Z.testbit y i) ->
  (forall i, 0 <= i < 32 -> Z.testbit h i = Z.testbit y (i + 32)) -> uu_ll (mk_uu h l) = s64 y.
Proof.
  intros Hl L H. apply s64_bits. intros i Hi. unfold uu_ull. cbn [uiH uiL]. rewrite words_bits by lia.
  destruct (Z.ltb_spec i 32); [apply L; lia|]. rewrite H by lia. f_equal. lia.
Qed.

Lemma uiL_bits a i : 0 <= i < 32 -> Z.testbit (uiL (uu_of a)) i = Z.testbit a i.
Proof. intros Hi. cbn [uiL uu_of]. unfold u32. apply Z.mod_pow2_bits_low. lia. Qed.

Lemma uiH_bits a i : 0 <= i < 32 -> Z.testbit (uiH (uu_of a)) i = Z.testbit a (i + 32).
Proof. intros Hi. cbn [uiH uu_of]. unfold u64. rewrite Z.div_pow2_bits by lia. apply Z.mod_pow2_bits_low. lia. Qed.

Lemma u32_bits x i : 0 <= i < 32 -> Z.testbit (u32 x) i = Z.testbit x i.
Proof. intros Hi. apply Z.mod_pow2_bits_low. lia. Qed.

Lemma word_high x i : 0 <= x < 2 ^ 32 -> 32 <= i -> Z.testbit x i = false.
Proof. intros Hx Hi. apply (small_high x 32); lia. Qed.

(** From bit 63 on a [long long] has its sign. *)
Lemma sign_bits a j : is_ll a -> 63 <= j -> Z.testbit a j = (a <? 0).
Proof.
  unfold is_ll. intros Ha Hj. destruct (Z.ltb_spec a 0).
  - replace a with (Z.lnot (- a - 1)) by (unfold Z.lnot; lia). by rewrite Z.lnot_spec, (small_high _ 63) by lia.
  - apply (small_high a 63); lia.
Qed.

Lemma word_of_bits x : 0 <= x -> (forall i, 32 <= i -> Z.testbit x i = false) -> 0 <= x < 2 ^ 32.
Proof.
  intros Hx H. split; [done|]. replace x with (x mod 2 ^ 32); [apply Z.mod_pos_bound; lia|].
  apply Z.bits_inj'. intros i Hi. destruct (Z.lt_ge_cases i 32); [by rewrite Z.mod_pow2_bits_low by lia|].
  by rewrite Z.mod_pow2_bits_high, H by lia.
Qed.

Lemma word_lor x y : 0 <= x < 2 ^ 32 -> 0 <= y < 2 ^ 32 -> 0 <= Z.lor x y < 2 ^ 32.
Proof.
  intros Hx Hy. apply word_of_bits; [apply Z.lor_nonneg; lia|]. intros i Hi. by rewrite Z.lor_spec, !word_high by lia.
Qed.

Lemma word_shr x n : 0 <= n -> 0 <= x < 2 ^ 32 -> 0 <= shr32 x n < 2 ^ 32.
Proof.
  intros Hn Hx. apply word_of_bits; [apply Z.shiftr_nonneg; lia|].
  intros i Hi. unfold shr32. rewrite Z.shiftr_spec by lia. apply word_high; lia.
Qed.

Lemma bitop_spec (op : Z -> Z -> Z) (f : bool -> bool -> bool) a b :
  (forall x y i, Z.testbit (op x y) i = f (Z.testbit x i) (Z.testbit y i)) -> f false false = false ->
  (forall x y, 0 <= x -> 0 <= y -> 0 <= op x y) ->
  uu_ll (mk_uu (op (uiH (uu_of a)) (uiH (uu_of b))) (op (uiL (uu_of a)) (uiL (uu_of b)))) = s64 (op a b).
Proof.
  intros Hop Hf Hpos. destruct (uu_of_spec a) as (_ & La & _), (uu_of_spec b) as (_ & Lb & _). apply uu_ll_bits.
  - apply word_of_bits; [apply Hpos; lia|]. intros i Hi. by rewrite Hop, !word_high, Hf by lia.
  - intros i Hi. by rewrite !Hop, !uiL_bits.
  - intros i Hi. by rewrite !Hop, !uiH_bits.
Qed.

Lemma bits_spec a b : __anddi3 a b = s64 (Z.land a b) /\ __iordi3 a b = s64 (Z.lor a b) /\
  __xordi3 a b = s64 (Z.lxor a b) /\ __one_cmpldi2 a = s64 (Z.lnot a).
Proof.
  split_and!.
  - apply (bitop_spec Z.land andb); [apply Z.land_spec|done|]. intros. apply Z.land_nonneg. lia.
  - apply (bitop_spec Z.lor orb); [apply Z.lor_spec|done|]. intros. apply Z.lor_nonneg. lia.
  - apply (bitop_spec Z.lxor xorb); [apply Z.lxor_spec|done|]. intros. apply Z.lxor_nonneg. lia.
  - apply uu_ll_bits; [apply u32_range| |]; intros i Hi; rewrite u32_bits, !Z.lnot_spec by lia.
    + by rewrite uiL_bits.
    + by rewrite uiH_bits.
Qed.

(** The bits of a word shifted. *)
Lemma shl32_bits x n i : 0 <= n -> 0 <= i < 32 -> Z.testbit (shl32 x n) i = Z.testbit x (i - n).
Proof. intros Hn Hi. unfold shl32. rewrite u32_bits, Z.shiftl_spec by lia. done. Qed.

Lemma shr32_bits x n i : 0 <= i -> Z.testbit (shr32 x n) i = Z.testbit x (i + n).
Proof. intros Hi. unfold shr32. by rewrite Z.shiftr_spec by lia. Qed.

Lemma ashldi3_spec a n : is_ll a -> 0 <= n < 64 -> __ashldi3 a n = s64 (a * 2 ^ n).
Proof.
  intros Ha Hn. unfold __ashldi3. destruct (Z.eqb_spec n 0) as [->|]; [by rewrite Z.mul_1_r, s64_small|].
  destruct (uu_of_spec a) as (Hh & Hl & _). rewrite <- Z.shiftl_mul_pow2 by lia. unfold INT_BITS.
  destruct (Z.leb_spec 32 n); apply uu_ll_bits; try lia; try apply u32_range; intros i Hi;
    rewrite ?Z.lor_spec, ?shl32_bits, ?shr32_bits, ?Z.shiftl_spec, ?Z.bits_0 by lia.
  - by rewrite Z.testbit_neg_r by lia.
  - replace (i + 32 - n) with (i - (n - 32)) by lia. destruct (Z.lt_ge_cases (i - (n - 32)) 0).
    + by rewrite !Z.testbit_neg_r by lia.
    + by rewrite uiL_bits by lia.
  - destruct (Z.lt_ge_cases (i - n) 0); [by rewrite !Z.testbit_neg_r by lia|]. by rewrite uiL_bits by lia.
  - destruct (Z.lt_ge_cases (i - n) 0).
    + rewrite (Z.testbit_neg_r _ (i - n)), uiL_bits by lia. simpl. f_equal. lia.
    + rewrite uiH_bits, (word_high (uiL (uu_of a))), orb_false_r by lia. f_equal. lia.
Qed.

Lemma lshldi3_spec a n : is_ll a -> 0 <= n < 64 -> __lshldi3 a n = s64 (a * 2 ^ n).
Proof. apply ashldi3_spec. Qed.

(** The low word of a right shift by less than a word. *)
Lemma shift_across a n i : 0 < n < 32 -> 0 <= i < 32 ->
  Z.testbit (Z.lor (shr32 (uiL (uu_of a)) n) (shl32 (uiH (uu_of a)) (32 - n))) i = Z.testbit a (i + n).
Proof.
  intros Hn Hi. destruct (uu_of_spec a) as (Hh & Hl & _). rewrite Z.lor_spec, shr32_bits, shl32_bits by lia.
  destruct (Z.lt_ge_cases (i + n) 32).
  - rewrite (Z.testbit_neg_r _ (i - (32 - n))), uiL_bits, orb_false_r by lia. done.
  - rewrite (word_high (uiL (uu_of a))), uiH_bits by lia. simpl. f_equal. lia.
Qed.

(** The bits of the signed high word. *)
Lemma siH_bits a i : is_ll a -> 0 <= i -> Z.testbit (siH (uu_of a)) i = Z.testbit a (i + 32).
Proof.
  intros Ha Hi. destruct (siH_spec a Ha) as (E & _ & Hl). rewrite E at 2. rewrite words_bits by lia.
  destruct (Z.ltb_spec (i + 32) 32); [lia|]. f_equal. lia.
Qed.

Lemma ashrdi3_spec a n : is_ll a -> 0 <= n < 64 -> __ashrdi3 a n = a / 2 ^ n.
Proof.
  intros Ha Hn. rewrite <- Z.shiftr_div_pow2 by lia. unfold __ashrdi3.
  destruct (Z.eqb_spec n 0) as [->|]; [done|]. unfold INT_BITS.
  rewrite <- (s64_small (Z.shiftr a n)).
  2: { rewrite Z.shiftr_div_pow2 by lia. unfold is_ll in *. pose proof (Z.pow_pos_nonneg 2 n).
       split; [apply Z.div_le_lower_bound|apply Z.div_lt_upper_bound]; nia. }
  destruct (siH_spec a Ha) as (_ & Hs & _), (uu_of_spec a) as (Hh & Hl & _).
  destruct (Z.leb_spec 32 n); apply uu_ll_bits; try apply u32_range; try intros i Hi;
    rewrite ?u32_bits, ?Z.shiftr_spec, ?siH_bits by (done || lia); try (f_equal; lia).
  - by rewrite !sign_bits by (done || lia).
  - apply word_lor; [apply word_shr; lia|apply u32_range].
  - by apply shift_across; lia.
Qed.

Lemma lshrdi3_spec a n : is_ll a -> 0 <= n < 64 -> __lshrdi3 a n = s64 (u64 a / 2 ^ n).
Proof.
  intros Ha Hn. unfold __lshrdi3. destruct (Z.eqb_spec n 0) as [->|].
  { rewrite Z.div_1_r. destruct (u64_mod a) as [k Hk]. rewrite (s64_eq _ _ _ Hk). by rewrite s64_small. }
  rewrite <- Z.shiftr_div_pow2 by lia. unfold INT_BITS. destruct (uu_of_spec a) as (Hh & Hl & _).
  assert (E : forall i, 0 <= i -> Z.testbit (u64 a) i = if i <? 64 then Z.testbit a i else false).
  { intros i Hi. unfold u64. destruct (Z.ltb_spec i 64); [by rewrite Z.mod_pow2_bits_low by lia|by rewrite Z.mod_pow2_bits_high by lia]. }
  destruct (Z.leb_spec 32 n); apply uu_ll_bits;
    try (intros i Hi; rewrite (Z.shiftr_spec (u64 a)), E by lia).
  - apply word_shr; lia.
  - rewrite shr32_bits by lia. destruct (Z.ltb_spec (i + n) 64); [rewrite uiH_bits by lia; f_equal; lia|apply word_high; lia].
  - rewrite Z.bits_0. destruct (Z.ltb_spec (i + 32 + n) 64); [lia|done].
  - apply word_lor; [apply word_shr; lia|apply u32_range].
  - rewrite shift_across by lia. destruct (Z.ltb_spec (i + n) 64); [done|lia].
  - rewrite shr32_bits by lia. destruct (Z.ltb_spec (i + 32 + n) 64); [rewrite uiH_bits by lia; f_equal; lia|apply word_high; lia].
Qed.

(** *** Multiplication *)

(** Equal modulo 2^64. *)
Definition eq64 (a b : Z) : Prop := exists k, a = b + k * 2 ^ 64.

#[local] Instance eq64_equiv : Equivalence eq64.
Proof.
  split.
  - intros a. exists 0. lia.
  - intros a b [k ->]. exists (- k). lia.
  - intros a b c [k ->] [l ->]. exists (k + l). lia.
Qed.

#[local] Instance eq64_add : Proper (eq64 ==> eq64 ==> eq64) Z.add.
Proof. intros a b [k ->] c d [l ->]. exists (k + l). lia. Qed.

#[local] Instance eq64_sub : Proper (eq64 ==> eq64 ==> eq64) Z.sub.
Proof. intros a b [k ->] c d [l ->]. exists (k - l). lia. Qed.

#[local] Instance eq64_opp : Proper (eq64 ==> eq64) Z.opp.
Proof. intros a b [k ->]. exists (- k). lia. Qed.

#[local] Instance eq64_mul : Proper (eq64 ==> eq64 ==> eq64) Z.mul.
Proof. intros a b [k ->] c d [l ->]. exists (b * l + k * d + k * l * 2 ^ 64). ring. Qed.

#[local] Instance s64_proper : Proper (eq64 ==> eq) s64.
Proof. intros a b [k E]. by apply (s64_eq _ _ k). Qed.

Lemma eq64_s64 x : eq64 (s64 x) x.
Proof. apply s64_mod. Qed.

Lemma eq64_words x : eq64 (uiH (uu_of x) * 2 ^ 32 + uiL (uu_of x)) x.
Proof. destruct (uu_of_spec x) as (_ & _ & k & E). exists (- k). lia. Qed.

Lemma u32_high x y : eq64 (u32 x * 2 ^ 32 + y) (x * 2 ^ 32 + y).
Proof. destruct (u32_mod x) as [k ->]. exists k. lia. Qed.

(** [prod += x << N], [prod -= x << N] and [prod += x] on a pair of words. *)
Lemma add_half h l x : 0 <= l < 2 ^ 32 -> 0 <= x < 2 ^ 32 -> let l' := u32 (l + LHUP x) in
  0 <= l' < 2 ^ 32 /\ eq64 (u32 (h + (HHALF x + Z.b2z (l' <? l))) * 2 ^ 32 + l') (h * 2 ^ 32 + l + x * 2 ^ 16).
Proof.
  intros Hl Hx l'. split; [apply u32_range|]. rewrite u32_high. exists 0. unfold l'.
  rewrite LHUP_mul, HHALF_div by lia. unfold u32.
  destruct (Z.ltb_spec ((l + x mod 2 ^ 16 * 2 ^ 16) mod 2 ^ 32) l); simpl Z.b2z; Z.to_euclidean_division_equations; lia.
Qed.

Lemma sub_half h l x : 0 <= l < 2 ^ 32 -> 0 <= x < 2 ^ 32 -> let l' := u32 (l - LHUP x) in
  0 <= l' < 2 ^ 32 /\ eq64 (u32 (h - (HHALF x + Z.b2z (l <? l'))) * 2 ^ 32 + l') (h * 2 ^ 32 + l - x * 2 ^ 16).
Proof.
  intros Hl Hx l'. split; [apply u32_range|]. rewrite u32_high. exists 0. unfold l'.
  rewrite LHUP_mul, HHALF_div by lia. unfold u32.
  destruct (Z.ltb_spec l ((l - x mod 2 ^ 16 * 2 ^ 16) mod 2 ^ 32)); simpl Z.b2z; Z.to_euclidean_division_equations; lia.
Qed.

Lemma add_low h l x : 0 <= l < 2 ^ 32 -> 0 <= x < 2 ^ 32 -> let l' := u32 (l + x) in
  eq64 ((if l' <? x then u32 (h + 1) else h) * 2 ^ 32 + l') (h * 2 ^ 32 + l + x).
Proof.
  intros Hl Hx l'. assert (E : l' = l + x \/ l' = l + x - 2 ^ 32 /\ 2 ^ 32 <= l + x).
  { unfold l', u32. Z.to_euclidean_division_equations. lia. }
  pose proof (u32_range (l + x) : 0 <= l' < 2 ^ 32).
  destruct (Z.ltb_spec l' x); [rewrite u32_high|]; exists 0; lia.
Qed.

(** The difference of two words as a magnitude and a sign. *)
Lemma diff_sign x y (neg : bool) : 0 <= x < 2 ^ 32 -> 0 <= y < 2 ^ 32 ->
  let '(d, n) := if y <=? x then (u32 (x - y), neg) else (u32 (y - x), negb neg) in
  d = Z.abs (x - y) /\ n = (if x <? y then negb neg else neg).
Proof.
  intros Hx Hy. destruct (Z.leb_spec y x), (Z.ltb_spec x y); try lia; rewrite u32_small by lia; split; (done || lia).
Qed.

(** Knuth's three products: the sum over the halves. *)
Lemma knuth_mid u1 u0 v1 v0 (neg : bool) :
  neg = (if v0 <? v1 then negb (if u1 <? u0 then true else false) else if u1 <? u0 then true else false) ->
  (if neg then - (Z.abs (u1 - u0) * Z.abs (v0 - v1)) else Z.abs (u1 - u0) * Z.abs (v0 - v1)) =
  (u1 - u0) * (v0 - v1).
Proof. intros ->. destruct (Z.ltb_spec u1 u0), (Z.ltb_spec v0 v1); simpl; nia. Qed.

(** The product of two 16-bit numbers, or of two differences of such, fits a word. *)
Lemma half_prod x y : - 2 ^ 16 < x < 2 ^ 16 -> - 2 ^ 16 < y < 2 ^ 16 -> 0 <= Z.abs x * Z.abs y < 2 ^ 32.
Proof. nia. Qed.

Lemma lmulq_spec u v : 0 <= u < 2 ^ 32 -> 0 <= v < 2 ^ 32 -> __lmulq u v = s64 (u * v).
Proof.
  intros Hu Hv. unfold __lmulq. rewrite !HHALF_div, !LHALF_mod by lia.
  assert (Eu : u = u / 2 ^ 16 * 2 ^ 16 + u mod 2 ^ 16 /\ 0 <= u mod 2 ^ 16 < 2 ^ 16 /\ 0 <= u / 2 ^ 16 < 2 ^ 16)
    by (Z.to_euclidean_division_equations; lia).
  assert (Ev : v = v / 2 ^ 16 * 2 ^ 16 + v mod 2 ^ 16 /\ 0 <= v mod 2 ^ 16 < 2 ^ 16 /\ 0 <= v / 2 ^ 16 < 2 ^ 16)
    by (Z.to_euclidean_division_equations; lia).
  generalize dependent (u / 2 ^ 16). generalize dependent (u mod 2 ^ 16). intros u0 u1 Eu.
  generalize dependent (v / 2 ^ 16). generalize dependent (v mod 2 ^ 16). intros v0 v1 Ev.
  pose proof (half_prod u0 v0). pose proof (half_prod u1 v1).
  pose proof (half_prod (u1 - u0) (v0 - v1)). rewrite !Z.abs_eq in H, H0 by lia.
  rewrite (u32_small (u0 * v0)) by lia.
  destruct ((u1 =? 0) && (v1 =? 0)) eqn:Hz.
  { apply andb_true_iff in Hz as [->%Z.eqb_eq ->%Z.eqb_eq]. rewrite s64_small; [nia|unfold is_ll; nia]. }
  pose proof (diff_sign u1 u0 false ltac:(lia) ltac:(lia)) as D. cbn [negb] in D.
  destruct (if u0 <=? u1 then _ else _) as [udiff n1]. destruct D as [-> Hn1].
  pose proof (diff_sign v0 v1 n1 ltac:(lia) ltac:(lia)) as D.
  destruct (if v1 <=? v0 then _ else _) as [vdiff n2]. destruct D as [-> Hn2]. subst n1.
  apply knuth_mid in Hn2. rewrite (u32_small (Z.abs (u1 - u0) * Z.abs (v0 - v1))), (u32_small (u1 * v1)) by lia.
  set (mid := Z.abs (u1 - u0) * Z.abs (v0 - v1)) in *. set (high := u1 * v1) in *. set (low := u0 * v0) in *.
  assert (E0 : eq64 (u32 (high + HHALF high) * 2 ^ 32 + LHUP high) (high * 2 ^ 32 + high * 2 ^ 16)).
  { rewrite u32_high, HHALF_div, LHUP_mul by lia. exists 0. Z.to_euclidean_division_equations. lia. }
  pose proof (u32_range (Z.shiftl (u32 high) HALF_BITS) : 0 <= LHUP high < 2 ^ 32) as L0.
  set (h0 := u32 (high + HHALF high)) in *. set (l0 := LHUP high) in *. clearbody h0 l0.
  assert (E1 : exists l1 h1, (if n2 then (u32 (l0 - LHUP mid), u32 (h0 - (HHALF mid + Z.b2z (l0 <? u32 (l0 - LHUP mid)))))
      else (u32 (l0 + LHUP mid), u32 (h0 + (HHALF mid + Z.b2z (u32 (l0 + LHUP mid) <? l0))))) = (l1, h1) /\
    0 <= l1 < 2 ^ 32 /\ eq64 (h1 * 2 ^ 32 + l1) (h0 * 2 ^ 32 + l0 + (u1 - u0) * (v0 - v1) * 2 ^ 16)).
  { rewrite <- Hn2. destruct n2; do 2 eexists; (split; [reflexivity|]).
    - destruct (sub_half h0 l0 mid L0 ltac:(lia)) as [R E]. split; [exact R|]. rewrite E. exists 0. ring.
    - destruct (add_half h0 l0 mid L0 ltac:(lia)) as [R E]. split; [exact R|]. exact E. }
  destruct E1 as (l1 & h1 & E1 & L1 & E1'). rewrite E1.
  destruct (add_half h1 l1 low L1 ltac:(lia)) as [L2 E2]. set (l2 := u32 (l1 + LHUP low)) in *.
  set (h2 := u32 (h1 + _)) in *. pose proof (add_low h2 l2 low L2 ltac:(lia)) as E3. cbv zeta in E3.
  unfold uu_ll, uu_ull. cbn [uiH uiL]. apply s64_proper. rewrite E3, E2, E1', E0. exists 0. destruct Eu as (-> & _ & _), Ev as (-> & _ & _).
  unfold high, low. ring.
Qed.

Lemma muldi3_spec a b : is_ll a -> is_ll b -> __muldi3 a b = s64 (a * b).
Proof.
  intros Ha Hb. unfold __muldi3.
  assert (Hu : forall x (n : bool), is_ll x -> exists y n', (if 0 <=? x then (uu_of x, n) else (uu_of (s64 (- x)), negb n)) = (uu_of y, n') /\
    eq64 (if xorb n n' then - y else y) x).
  { intros x n _. destruct (Z.leb_spec 0 x); do 2 eexists; (split; [reflexivity|]); destruct n; simpl; try done;
      rewrite eq64_s64; exists 0; lia. }
  destruct (Hu a false Ha) as (x & n1 & E1 & Ex). cbn [negb] in E1. rewrite E1.
  destruct (Hu b n1 Hb) as (y & n2 & -> & Ey). clear Hu E1.
  destruct (uu_of_spec x) as (Xh & Xl & _), (uu_of_spec y) as (Yh & Yl & _).
  pose proof (eq64_words x) as Wx. pose proof (eq64_words y) as Wy.
  set (x1 := uiH (uu_of x)) in *. set (x0 := uiL (uu_of x)) in *. set (y1 := uiH (uu_of y)) in *. set (y0 := uiL (uu_of y)) in *.
  match goal with |- (if n2 then s64 (- ?p) else ?p) = _ => assert (P : p = s64 (x * y)) end.
  2: { rewrite P, <- Ex, <- Ey. destruct n1, n2; simpl xorb; cbv iota; apply s64_proper;
         rewrite ?eq64_s64; exists 0; ring. }
  rewrite <- Wx, <- Wy, lmulq_spec by lia. destruct ((x1 =? 0) && (y1 =? 0)) eqn:Hz.
  { apply andb_true_iff in Hz as [->%Z.eqb_eq ->%Z.eqb_eq]. f_equal; ring. }
  pose proof (diff_sign x1 x0 false ltac:(lia) ltac:(lia)) as D. cbn [negb] in D.
  destruct (if x0 <=? x1 then _ else _) as [udiff m1]. destruct D as [-> Hm1].
  pose proof (diff_sign y0 y1 m1 ltac:(lia) ltac:(lia)) as D.
  destruct (if y1 <=? y0 then _ else _) as [vdiff m2]. destruct D as [-> Hm2]. subst m1.
  apply knuth_mid in Hm2.
  pose proof (transitivity (eq64_words (s64 (x0 * y0))) (eq64_s64 (x0 * y0))) as Wl.
  set (lh := uiH (uu_of (s64 (x0 * y0)))) in *. set (ll := uiL (uu_of (s64 (x0 * y0)))) in *.
  unfold uu_ll, uu_ull. cbn [uiH uiL]. apply s64_proper. rewrite u32_high.
  assert (Em : exists k, (if m2 then u32 (- u32 (Z.abs (x1 - x0) * Z.abs (y0 - y1))) else u32 (Z.abs (x1 - x0) * Z.abs (y0 - y1))) =
    (x1 - x0) * (y0 - y1) + k * 2 ^ 32).
  { rewrite <- Hm2. destruct (u32_mod (Z.abs (x1 - x0) * Z.abs (y0 - y1))) as [k ->].
    destruct m2; [|by exists k]. destruct (u32_mod (- (Z.abs (x1 - x0) * Z.abs (y0 - y1) + k * 2 ^ 32))) as [k' ->].
    exists (k' - k). ring. }
  destruct Em as [k ->]. destruct (u32_mod (x1 * y1)) as [k' ->]. destruct Wl as [kl Wl].
  assert (E : ll = x0 * y0 + kl * 2 ^ 64 - lh * 2 ^ 32) by lia. rewrite E.
  exists (k + k' + kl - x1 * y1 + kl * 2 ^ 32 - lh). ring.
Qed.

End MilliTheory.
