(* ===== verification/DivTheory.v ===== *)
(** * Knuth's algorithm D divides: theorems on Qdivrem.v

    [val] is the number a run of digits stands for.  Each loop of the code is a step on
    such numbers: normalising shifts, [d4] multiplies and subtracts, [d6] adds back, and
    [dstep] takes one digit of the quotient off the remainder. *)

From S2P Require Import Prelude Millicode Qdivrem MilliTheory.

Module DivTheory.
Import Millicode Qdivrem MilliTheory.

(** *** Digits and numbers *)

Definition dig (l : list Z) (i : Z) : Z := nth (Z.to_nat i) l 0.
Definition upd (l : list Z) (i x : Z) : list Z := <[Z.to_nat i := x]> l.

Fixpoint val (l : list Z) (a : Z) (n : nat) : Z :=
  match n with O => 0 | S k => val l a k * B + dig l (a + Z.of_nat k) end.

(** The elements from [lo] on are digits. *)
Definition digits_ok (lo : Z) (l : list Z) : Prop := length l = 5%nat /\ forall i, lo <= i < 5 -> 0 <= dig l i < B.

Lemma B_eq : B = 2 ^ 16.
Proof. done. Qed.

Lemma Bpow_pos k : 0 < B ^ Z.of_nat k.
Proof. apply Z.pow_pos_nonneg; [done|lia]. Qed.

Lemma Bpow_S k : B ^ Z.of_nat (S k) = B ^ Z.of_nat k * B.
Proof. rewrite Nat2Z.inj_succ, Z.pow_succ_r by lia. lia. Qed.

Lemma dig_upd l i j x : 0 <= i < 5 -> 0 <= j -> length l = 5%nat -> dig (upd l i x) j = if j =? i then x else dig l j.
Proof.
  intros Hi Hj Hl. unfold dig, upd. rewrite !nth_lookup. destruct (Z.eqb_spec j i) as [->|].
  - by rewrite list_lookup_insert_eq by lia.
  - by rewrite list_lookup_insert_ne by lia.
Qed.

Lemma digits_ok_upd lo l i x : 0 <= lo -> digits_ok lo l -> 0 <= i < 5 -> 0 <= x < B -> digits_ok lo (upd l i x).
Proof.
  intros Hlo [Hl Hd] Hi Hx. split; [unfold upd; by rewrite length_insert|].
  intros j Hj. rewrite dig_upd by (done || lia). destruct (j =? i); [done|]. apply Hd. lia.
Qed.

Lemma val_ext l l' a n : (forall i, a <= i < a + Z.of_nat n -> dig l i = dig l' i) -> val l a n = val l' a n.
Proof.
  induction n as [|n IH]; intros H; [done|]. cbn [val]. rewrite IH by (intros; apply H; lia).
  rewrite (H (a + Z.of_nat n)) by lia. done.
Qed.

Lemma val_bound lo l a n : digits_ok lo l -> lo <= a -> a + Z.of_nat n <= 5 -> 0 <= val l a n < B ^ Z.of_nat n.
Proof.
  intros [Hl Hd] Ha. induction n as [|n IH]; intros Hn; [done|]. rewrite Bpow_S. cbn [val].
  specialize (IH ltac:(lia)). specialize (Hd (a + Z.of_nat n) ltac:(lia)). nia.
Qed.

Lemma val_app l a p q : val l a (p + q) = val l a p * B ^ Z.of_nat q + val l (a + Z.of_nat p) q.
Proof.
  induction q as [|q IH].
  - rewrite Nat.add_0_r. simpl. lia.
  - rewrite Nat.add_succ_r, Bpow_S. cbn [val]. rewrite IH. replace (a + Z.of_nat (p + q)) with (a + Z.of_nat p + Z.of_nat q) by lia. lia.
Qed.

Lemma val_front l a n : val l a (S n) = dig l a * B ^ Z.of_nat n + val l (a + 1) n.
Proof. change (S n) with (1 + n)%nat. rewrite val_app. cbn [val]. rewrite Z.add_0_r. done. Qed.

(** *** Reads and writes *)

Lemma in_space_ok a i s : length (space a s) = 5%nat -> 0 <= i < 5 -> in_space a i s = true.
Proof. intros Hl Hi. unfold in_space. rewrite Hl. apply andb_true_iff. split; [apply Z.leb_le|apply Z.ltb_lt]; lia. Qed.

Lemma rd_spec a i s : length (space a s) = 5%nat -> 0 <= i < 5 -> rd a i s = Ret (dig (space a s) i) s.
Proof.
  intros Hl Hi. unfold rd, get, mbind, M_bind. rewrite in_space_ok by done.
  destruct (lookup_lt_is_Some_2 (space a s) (Z.to_nat i) ltac:(lia)) as [x Hx].
  rewrite Hx. unfold dig. by rewrite (nth_lookup_Some _ _ _ _ Hx).
Qed.

Lemma wr_spec a i x s : length (space a s) = 5%nat -> 0 <= i < 5 ->
  wr a i x s = Ret tt (set_space a (upd (space a s) i (digit x)) s).
Proof. intros Hl Hi. unfold wr, get, mbind, M_bind. by rewrite in_space_ok. Qed.

Lemma digit_small x : 0 <= x < B -> digit x = x.
Proof. rewrite B_eq. apply Z.mod_small. Qed.

(** *** Words made of digits *)

Lemma COMBINE_eq x y : 0 <= x < B -> 0 <= y < B -> COMBINE x y = x * B + y.
Proof.
  rewrite B_eq. intros Hx Hy. unfold COMBINE, shl32, HALF_BITS. rewrite Z.shiftl_mul_pow2, u32_small by lia.
  apply lor_split; lia.
Qed.

Lemma LHALF_range x : 0 <= LHALF x < B.
Proof. rewrite LHALF_mod, B_eq. apply Z.mod_pos_bound. lia. Qed.

(** One digit of D4: what is left in the digit and what is borrowed. *)
Lemma d4_digit x y q t : 0 <= x < B -> 0 <= y < B -> 0 <= q < B -> 0 <= t < B ->
  let w := u32 (x - y * q - t) in
  let t' := Z.land (B - HHALF w) (B - 1) in
  0 <= t' < B /\ x - y * q - t = LHALF w - t' * B.
Proof.
  rewrite B_eq. intros Hx Hy Hq Ht w t'. pose proof (u32_range (x - y * q - t)) as Hw. fold w in Hw.
  assert (E : exists k, (k = 0 \/ k = 1) /\ w = x - y * q - t + k * 2 ^ 32).
  { unfold w, u32. assert (- 2 ^ 32 < x - y * q - t < 2 ^ 32) by nia.
    destruct (Z.lt_ge_cases (x - y * q - t) 0).
    - exists 1. split; [by right|]. rewrite <- (Z.mod_add _ 1) by lia. apply Z.mod_small. lia.
    - exists 0. split; [by left|]. rewrite Z.mod_small; lia. }
  assert (Et : t' = (2 ^ 16 - HHALF w) mod 2 ^ 16) by (apply (Z.land_ones _ 16); lia).
  rewrite HHALF_div in Et by lia. rewrite LHALF_mod. assert (- (2 ^ 16 * 2 ^ 16) < x - y * q - t + 2 ^ 16) by nia.
  assert (- (2 ^ 16 - 1) * 2 ^ 16 <= x - y * q - t < 2 ^ 16) by nia.
  destruct E as (k & Hk & Ew). rewrite Et. clear Et. clearbody w t'. generalize dependent (x - y * q - t). intros z. clear - Hk.
  intros. Z.to_euclidean_division_equations. lia.
Qed.

(** *** D4 and D6: multiply and subtract, add back *)

Lemma d4_spec lv lq u v j q i : digits_ok 1 lv -> 0 <= q < B -> 0 <= u + j -> 0 <= v -> v + Z.of_nat i <= 4 ->
  u + j + Z.of_nat i <= 4 -> forall lu t, digits_ok 0 lu -> 0 <= t < B ->
  exists lu' t', d4 i u v j q t (mk_digits lu lv lq) = Ret t' (mk_digits lu' lv lq) /\ digits_ok 0 lu' /\ 0 <= t' < B /\
    (forall k, 0 <= k -> k <= u + j \/ u + j + Z.of_nat i < k -> dig lu' k = dig lu k) /\
    val lu (u + j + 1) i - q * val lv (v + 1) i - t = val lu' (u + j + 1) i - t' * B ^ Z.of_nat i.
Proof.
  intros Hv Hq Huj Hv0. induction i as [|i IH]; intros Hvi Hui lu t Hu Ht.
  { exists lu, t. split_and!; try done; try lia. simpl. lia. }
  cbn [d4]. set (p := u + (Z.of_nat (S i) + j)).
  erewrite run_bind by (apply (rd_spec U); [apply Hu|unfold p; lia]).
  erewrite run_bind by (apply (rd_spec V); [apply Hv|lia]). cbn [space uspace vspace].
  destruct (d4_digit (dig lu p) (dig lv (v + Z.of_nat (S i))) q t) as [Ht' E];
    [apply Hu; unfold p; lia|apply Hv; lia|done|done|].
  set (w := u32 _) in *. set (t1 := Z.land _ _) in *. pose proof (LHALF_range w) as Hw.
  erewrite run_bind by (apply (wr_spec U); [apply Hu|unfold p; lia]). cbn [space set_space uspace vspace qspace].
  rewrite (digit_small (LHALF w)) by done.
  destruct (IH ltac:(lia) ltac:(lia) (upd lu p (LHALF w)) t1) as (lu' & t' & Hrun & Hok & Hrt & Hout & Heq);
    [apply digits_ok_upd; (done || (unfold p; lia))|done|].
  rewrite Hrun. exists lu', t'. do 3 (split; [done|]). split.
  - intros k Hk Hk'. rewrite Hout, dig_upd by (apply Hu || (unfold p; lia)).
    destruct (Z.eqb_spec k p); [unfold p in *; lia|done].
  - rewrite Bpow_S. cbn [val]. rewrite (val_ext (upd lu p (LHALF w)) lu) in Heq.
    2: { intros k Hk. rewrite dig_upd by (apply Hu || (unfold p; lia)). destruct (Z.eqb_spec k p); [unfold p in *; lia|done]. }
    replace (u + j + 1 + Z.of_nat i) with p by (unfold p; lia). replace (v + 1 + Z.of_nat i) with (v + Z.of_nat (S i)) by lia.
    rewrite (Hout p) by (unfold p; lia). rewrite dig_upd, Z.eqb_refl by (apply Hu || (unfold p; lia)). nia.
Qed.

(** One digit of D6. *)
Lemma d6_digit x y t : 0 <= x < B -> 0 <= y < B -> 0 <= t <= 1 ->
  let w := u32 (t + (x + y)) in 0 <= HHALF w <= 1 /\ t + x + y = LHALF w + HHALF w * B.
Proof.
  rewrite B_eq. intros Hx Hy Ht w. assert (E : w = t + (x + y)) by (apply u32_small; lia).
  rewrite LHALF_mod, HHALF_div, E by lia. Z.to_euclidean_division_equations. lia.
Qed.

Lemma d6_spec lv lq u v j i : digits_ok 1 lv -> 0 <= u + j -> 0 <= v -> v + Z.of_nat i <= 4 ->
  u + j + Z.of_nat i <= 4 -> forall lu t, digits_ok 0 lu -> 0 <= t <= 1 ->
  exists lu' t', d6 i u v j t (mk_digits lu lv lq) = Ret t' (mk_digits lu' lv lq) /\ digits_ok 0 lu' /\ 0 <= t' <= 1 /\
    (forall k, 0 <= k -> k <= u + j \/ u + j + Z.of_nat i < k -> dig lu' k = dig lu k) /\
    val lu (u + j + 1) i + val lv (v + 1) i + t = val lu' (u + j + 1) i + t' * B ^ Z.of_nat i.
Proof.
  intros Hv Huj Hv0. induction i as [|i IH]; intros Hvi Hui lu t Hu Ht.
  { exists lu, t. split_and!; try done; try lia. simpl. lia. }
  cbn [d6]. set (p := u + (Z.of_nat (S i) + j)).
  erewrite run_bind by (apply (rd_spec U); [apply Hu|unfold p; lia]).
  erewrite run_bind by (apply (rd_spec V); [apply Hv|lia]). cbn [space uspace vspace].
  destruct (d6_digit (dig lu p) (dig lv (v + Z.of_nat (S i))) t) as [Ht' E];
    [apply Hu; unfold p; lia|apply Hv; lia|done|].
  set (w := u32 _) in *. pose proof (LHALF_range w) as Hw.
  erewrite run_bind by (apply (wr_spec U); [apply Hu|unfold p; lia]). cbn [space set_space uspace vspace qspace].
  rewrite (digit_small (LHALF w)) by done.
  destruct (IH ltac:(lia) ltac:(lia) (upd lu p (LHALF w)) (HHALF w)) as (lu' & t' & Hrun & Hok & Hrt & Hout & Heq);
    [apply digits_ok_upd; (done || (unfold p; lia))|done|].
  rewrite Hrun. exists lu', t'. do 3 (split; [done|]). split.
  - intros k Hk Hk'. rewrite Hout, dig_upd by (apply Hu || (unfold p; lia)).
    destruct (Z.eqb_spec k p); [unfold p in *; lia|done].
  - rewrite Bpow_S. cbn [val]. rewrite (val_ext (upd lu p (LHALF w)) lu) in Heq.
    2: { intros k Hk. rewrite dig_upd by (apply Hu || (unfold p; lia)). destruct (Z.eqb_spec k p); [unfold p in *; lia|done]. }
    replace (u + j + 1 + Z.of_nat i) with p by (unfold p; lia). replace (v + 1 + Z.of_nat i) with (v + Z.of_nat (S i)) by lia.
    rewrite (Hout p) by (unfold p; lia). rewrite dig_upd, Z.eqb_refl by (apply Hu || (unfold p; lia)). nia.
Qed.

(** *** D3: the digit of the quotient, at most one too large *)

Section Guess.
Context (v1 v2 u2 top q : Z).
Hypothesis Hv1 : 2 ^ 15 <= v1 < B.
Hypothesis Hv2 : 0 <= v2 < B.
Hypothesis Hu2 : 0 <= u2 < B.
Hypothesis Hq : 0 <= q < B.
(* [q] is the digit wanted; a guess that fails the test is more *)
Hypothesis Hmore : forall x, 0 <= x -> top * B + u2 < x * (v1 * B + v2) -> q < x.

Lemma d3_loop s fuel : forall qhat rhat, qhat * v1 + rhat = top -> q <= qhat < B -> 0 <= rhat < B ->
  B <= Z.of_nat fuel * v1 + rhat ->
  exists q', d3 fuel false v1 v2 u2 qhat rhat s = Ret q' s /\ q <= q' < B /\ q' * (v1 * B + v2) <= top * B + u2.
Proof using Hv1 Hv2 Hu2 Hq Hmore.
  rewrite B_eq in *. induction fuel as [|fuel IH]; intros qhat rhat Ht Hqh Hr Hf; [lia|].
  cbn [d3]. cbn [orb]. rewrite COMBINE_eq by (rewrite B_eq; lia). rewrite !B_eq.
  rewrite (u32_small (v2 * qhat)) by nia. destruct (Z.ltb_spec (rhat * 2 ^ 16 + u2) (v2 * qhat)) as [Hlt|Hge].
  - assert (q < qhat) by (apply Hmore; nia). rewrite (u32_small (rhat + v1)), (u32_small (qhat - 1)) by lia.
    destruct (Z.leb_spec (2 ^ 16) (rhat + v1)) as [Hb|Hb].
    + exists (qhat - 1). split_and!; [done|lia|lia|nia].
    + apply IH; [lia|lia|lia|nia].
  - exists qhat. split_and!; [done|lia|lia|nia].
Qed.

Lemma d3_enter s u1 : 0 <= u1 < B -> top = v1 * B + u1 ->
  exists q', d3 4 true v1 v2 u2 B u1 s = Ret q' s /\ q <= q' < B /\ q' * (v1 * B + v2) <= top * B + u2.
Proof using Hv1 Hv2 Hu2 Hq Hmore.
  intros Hu1 Ht. pose proof B_eq as HB.
  change (exists q', (if B <=? u32 (u1 + v1) then mret (u32 (B - 1)) else d3 3 false v1 v2 u2 (u32 (B - 1)) (u32 (u1 + v1))) s = Ret q' s /\
    q <= q' < B /\ q' * (v1 * B + v2) <= top * B + u2).
  rewrite (u32_small (u1 + v1)), (u32_small (B - 1)) by lia. destruct (Z.leb_spec B (u1 + v1)).
  - exists (B - 1). split_and!; [done|lia|lia|]. rewrite B_eq in *. nia.
  - apply d3_loop; lia.
Qed.

End Guess.

(** What the guess means for the whole numbers: [N] is the remainder so far and [V] the
    divisor, of which [P] counts the digits the guess does not look at. *)
Section Knuth.
Context (v1 v2 u0 u1 u2 P nl vl : Z).
Let N := ((u0 * B + u1) * B + u2) * P + nl.
Let W := (v1 * B + v2) * P + vl.
Hypothesis Hv1 : 2 ^ 15 <= v1 < B.
Hypothesis Hv2 : 0 <= v2 < B.
Hypothesis Hu0 : 0 <= u0 < B.
Hypothesis Hu1 : 0 <= u1 < B.
Hypothesis Hu2 : 0 <= u2 < B.
Hypothesis HP : 0 < P.
Hypothesis Hnl : 0 <= nl < P.
Hypothesis Hvl : 0 <= vl < P.
Hypothesis HN : N < W * B.

Lemma divisor_pos : v1 * B * P <= W.
Proof using All. unfold W. assert (0 <= v2 * P) by (apply Z.mul_nonneg_nonneg; lia). lia. Qed.

Lemma guess_more x : 0 <= x -> (u0 * B + u1) * B + u2 < x * (v1 * B + v2) -> N / W < x.
Proof using All.
  intros Hx Hlt. pose proof divisor_pos. rewrite B_eq in *.
  assert (0 < W) by (assert (0 < v1 * 2 ^ 16 * P) by (apply Z.mul_pos_pos; lia); lia).
  apply Z.div_lt_upper_bound; [done|]. unfold N, W. rewrite !B_eq.
  assert (((u0 * 2 ^ 16 + u1) * 2 ^ 16 + u2 + 1) * P <= x * (v1 * 2 ^ 16 + v2) * P) by (apply Z.mul_le_mono_nonneg_r; lia).
  assert (0 <= x * vl) by (apply Z.mul_nonneg_nonneg; lia). lia.
Qed.

Lemma quotient_range : 0 <= N / W < B.
Proof using All.
  pose proof divisor_pos. assert (0 < W) by (assert (0 < v1 * B * P) by (rewrite B_eq in *; apply Z.mul_pos_pos; lia); lia).
  split; [apply Z.div_pos; [|done]|apply Z.div_lt_upper_bound; lia].
  unfold N. assert (0 <= ((u0 * B + u1) * B + u2) * P) by (apply Z.mul_nonneg_nonneg; rewrite ?B_eq in *; lia). lia.
Qed.

(** The quotient of the leading digits is not too small. *)
Lemma first_guess : 0 < v1 -> N < W * Z.succ ((u0 * 2 ^ 16 + u1) / v1).
Proof using All.
  intros Hp. pose proof divisor_pos as HW. pose proof (Z.mul_succ_div_gt (u0 * 2 ^ 16 + u1) v1 Hp) as Hc.
  set (c := Z.succ _) in *. assert (Hc0 : 0 <= c).
  { unfold c. assert (0 <= (u0 * 2 ^ 16 + u1) / v1) by (apply Z.div_pos; lia). lia. }
  assert (H1 : (u0 * 2 ^ 16 + u1 + 1) * B * P <= v1 * c * B * P).
  { do 2 (apply Z.mul_le_mono_nonneg_r; [rewrite ?B_eq; lia|]). lia. }
  assert (H2 : v1 * B * P * c <= W * c) by (apply Z.mul_le_mono_nonneg_r; lia).
  assert (H3 : (u2 + 1) * P <= B * P) by (apply Z.mul_le_mono_nonneg_r; lia).
  clear HN HW Hc. unfold N. rewrite !B_eq in *. lia.
Qed.

(** The digit the code guesses. *)
Lemma guess_spec s :
  exists q', (if u0 =? v1 then d3 4 true v1 v2 u2 B u1
    else d3 4 false v1 v2 u2 (COMBINE u0 u1 / v1) (COMBINE u0 u1 mod v1)) s = Ret q' s /\
    0 <= q' < B /\ N / W <= q' /\ - W < N - q' * W.
Proof using All.
  pose proof quotient_range as Hq. pose proof divisor_pos as HW.
  assert (HWP : B * P <= W).
  { assert (B * P <= v1 * B * P); [|lia]. apply Z.mul_le_mono_nonneg_r; [lia|]. rewrite B_eq in *. lia. }
  assert (HWp : 0 < W) by (assert (0 < B * P) by (rewrite B_eq; lia); lia).
  assert (Hle : u0 <= v1).
  { apply Znot_gt_le. intros Hgt. assert ((v1 + 1) * B * B * P <= u0 * B * B * P).
    { do 3 (apply Z.mul_le_mono_nonneg_r; [rewrite ?B_eq; lia|]). lia. }
    assert (W < (v1 + 1) * B * P).
    { unfold W. assert ((v1 * B + v2 + 1) * P <= (v1 * B + B) * P) by (apply Z.mul_le_mono_nonneg_r; lia). lia. }
    assert (0 <= (u1 * B + u2) * P) by (apply Z.mul_nonneg_nonneg; rewrite ?B_eq in *; lia). unfold N in HN. rewrite B_eq in *. lia. }
  assert (exists q', (if u0 =? v1 then d3 4 true v1 v2 u2 B u1
    else d3 4 false v1 v2 u2 (COMBINE u0 u1 / v1) (COMBINE u0 u1 mod v1)) s = Ret q' s /\
    N / W <= q' < B /\ q' * (v1 * B + v2) <= (u0 * B + u1) * B + u2) as (q' & Hrun & Hr & Hfit).
  { destruct (Z.eqb_spec u0 v1) as [He|He].
    - apply d3_enter; try done; [apply guess_more|]. lia.
    - rewrite COMBINE_eq by done. apply d3_loop; try done; try apply guess_more.
      + rewrite B_eq in *. rewrite (Z.mul_comm (_ / _)). symmetry. apply Z.div_mod. lia.
      + split; [|apply Z.div_lt_upper_bound; rewrite B_eq in *; nia].
        apply Z.lt_succ_r, Z.div_lt_upper_bound; [done|]. apply first_guess. lia.
      + rewrite B_eq in *. pose proof (Z.mod_pos_bound (u0 * 2 ^ 16 + u1) v1). lia.
      + rewrite B_eq in *. pose proof (Z.mod_pos_bound (u0 * 2 ^ 16 + u1) v1). lia. }
  exists q'. split; [done|]. split; [lia|]. split; [lia|].
  assert (q' * (v1 * B + v2) * P <= ((u0 * B + u1) * B + u2) * P) by (apply Z.mul_le_mono_nonneg_r; lia).
  assert (q' * vl < B * P) by nia. unfold N, W in *. lia.
Qed.

End Knuth.

(** *** One digit of the quotient *)

(** [val] of a run whose first digit changes. *)
Lemma val_upd_front l a x n : length l = 5%nat -> 0 <= a < 5 -> val (upd l a x) a (S n) = x * B ^ Z.of_nat n + val l (a + 1) n.
Proof.
  intros Hl Ha. rewrite val_front, dig_upd, Z.eqb_refl by (done || lia). f_equal. apply val_ext.
  intros i Hi. rewrite dig_upd by (done || lia). destruct (Z.eqb_spec i a); [lia|done].
Qed.

(** The borrow out of D4 taken from the leading digit. *)
Lemma top_digit x t : 0 <= x < B -> 0 <= t < B ->
  (HHALF (u32 (x - t)) = 0 /\ LHALF (u32 (x - t)) = x - t /\ t <= x) \/
  (HHALF (u32 (x - t)) <> 0 /\ LHALF (u32 (x - t)) = x - t + B /\ x < t).
Proof.
  rewrite B_eq. intros Hx Ht. rewrite HHALF_div, LHALF_mod by apply u32_range. unfold u32.
  Z.to_euclidean_division_equations. lia.
Qed.

(** Adding the divisor back to a remainder that went below zero (it is [B^(n+1)] less than
    its digits say). *)
Lemma add_back lu lv lq u v j n W (k : M digits unit) : W = val lv (v + 1) n ->
  digits_ok 0 lu -> digits_ok 1 lv -> 0 <= u + j -> u + j + Z.of_nat n <= 4 -> 0 <= v -> v + Z.of_nat n <= 4 ->
  - W <= val lu (u + j) (S n) - B ^ Z.of_nat (S n) < 0 ->
  exists lu', (t ← d6 n u v j 0; x ← rd U (u + j); _ ← wr U (u + j) (LHALF (x + t)); k) (mk_digits lu lv lq) = k (mk_digits lu' lv lq) /\
    digits_ok 0 lu' /\ (forall i, 0 <= i -> i < u + j \/ u + j + Z.of_nat n < i -> dig lu' i = dig lu i) /\
    val lu' (u + j) (S n) = val lu (u + j) (S n) - B ^ Z.of_nat (S n) + W.
Proof.
  intros EW Hu Hv Hj Hjn Hv0 Hvn. rewrite val_front, Bpow_S. intros HR.
  pose proof (val_bound 1 lv (v + 1) n Hv ltac:(lia) ltac:(lia)) as HWb. rewrite <- EW in HWb.
  destruct (d6_spec lv lq u v j n Hv Hj Hv0 Hvn Hjn lu 0 Hu ltac:(lia)) as (lu3 & c & Hd6 & Hu3 & Hc & Hout & Heq).
  rewrite <- EW in Heq. erewrite run_bind by exact Hd6. erewrite run_bind by (apply (rd_spec U); [apply Hu3|lia]).
  cbn [space uspace]. rewrite (Hout (u + j)) by lia. set (x := dig lu (u + j)) in *.
  pose proof (val_bound 0 lu3 (u + j + 1) n Hu3 ltac:(lia) ltac:(lia)) as Hb.
  assert (Hx : x + c = B) by nia. rewrite Hx. erewrite run_bind by (apply (wr_spec U); [apply Hu3|lia]).
  cbn [space set_space uspace vspace qspace]. change (digit (LHALF B)) with 0.
  exists (upd lu3 (u + j) 0). split; [done|]. split; [apply digits_ok_upd; (done || lia)|]. split.
  - intros i Hi Hi'. rewrite dig_upd by (apply Hu3 || lia). destruct (Z.eqb_spec i (u + j)); [lia|]. apply Hout; lia.
  - rewrite val_upd_front by (apply Hu3 || lia). nia.
Qed.

Lemma dstep_spec lu lv lq u v q j n W : (2 <= n)%nat -> W = val lv (v + 1) n ->
  digits_ok 0 lu -> digits_ok 1 lv -> length lq = 5%nat -> 0 <= u + j -> u + j + Z.of_nat n <= 4 -> 0 <= v ->
  v + Z.of_nat n <= 4 -> 0 <= q + j < 5 -> 2 ^ 15 <= dig lv (v + 1) -> val lu (u + j) n < W ->
  exists lu' x, dstep u v q (Z.of_nat n) (dig lv (v + 1)) (dig lv (v + 2)) j (mk_digits lu lv lq) =
      Ret tt (mk_digits lu' lv (upd lq (q + j) x)) /\
    digits_ok 0 lu' /\ 0 <= x < B /\ (forall k, 0 <= k -> k < u + j \/ u + j + Z.of_nat n < k -> dig lu' k = dig lu k) /\
    val lu (u + j) (S n) = x * W + val lu' (u + j) (S n) /\ 0 <= val lu' (u + j) (S n) < W.
Proof.
  intros Hn EW Hu Hv Hq Hj Hjn Hv0 Hvn Hqj Hv1 Hlt. destruct (Nat.le_exists_sub 2 n Hn) as (p & Ep & _).
  assert (HN : val lu (u + j) (S n) = ((dig lu (u + j) * B + dig lu (u + (j + 1))) * B + dig lu (u + (j + 2))) * B ^ Z.of_nat p +
    val lu (u + j + 3) p).
  { replace (S n) with (3 + p)%nat by lia. rewrite val_app. cbn [val].
    replace (u + j + Z.of_nat 0) with (u + j) by lia. replace (u + j + Z.of_nat 1) with (u + (j + 1)) by lia.
    replace (u + j + Z.of_nat 2) with (u + (j + 2)) by lia. replace (u + j + Z.of_nat 3) with (u + j + 3) by lia. lia. }
  assert (HW : W = (dig lv (v + 1) * B + dig lv (v + 2)) * B ^ Z.of_nat p + val lv (v + 3) p).
  { rewrite EW. replace n with (2 + p)%nat by lia. rewrite val_app. cbn [val].
    replace (v + 1 + Z.of_nat 0) with (v + 1) by lia. replace (v + 1 + Z.of_nat 1) with (v + 2) by lia.
    replace (v + 1 + Z.of_nat 2) with (v + 3) by lia. lia. }
  pose proof (val_bound 1 lv (v + 1) n Hv ltac:(lia) ltac:(lia)) as HWb. rewrite <- EW in HWb.
  pose proof (val_bound 0 lu (u + j) n Hu ltac:(lia) ltac:(lia)) as Hlb.
  unfold dstep. do 3 (erewrite run_bind by (apply (rd_spec U); [apply Hu|lia])). cbn [space uspace].
  destruct (guess_spec (dig lv (v + 1)) (dig lv (v + 2)) (dig lu (u + j)) (dig lu (u + (j + 1))) (dig lu (u + (j + 2)))
    (B ^ Z.of_nat p) (val lu (u + j + 3) p) (val lv (v + 3) p)) with (s := mk_digits lu lv lq) as (q' & Hguess & Hq' & Hlow & Hhigh);
    try (apply Hu; lia); try apply Bpow_pos; try (split; [done|]; apply Hv; lia); try (apply Hv; lia).
  { apply (val_bound 0); [done|lia|lia]. }
  { apply (val_bound 1); [done|lia|lia]. }
  { rewrite <- HN, <- HW. cbn [val]. pose proof (proj2 Hu (u + j + Z.of_nat n) ltac:(lia)). nia. }
  rewrite <- HN, <- HW in Hlow, Hhigh. erewrite run_bind by exact Hguess. rewrite Nat2Z.id.
  destruct (d4_spec lv lq u v j q' n Hv Hq' Hj Hv0 Hvn Hjn lu 0 Hu ltac:(rewrite B_eq; lia)) as (lu1 & t & Hd4 & Hu1 & Ht & Hout & Heq).
  rewrite <- EW in Heq. erewrite run_bind by exact Hd4. erewrite run_bind by (apply (rd_spec U); [apply Hu1|lia]).
  cbn [space uspace]. rewrite (Hout (u + j)) by lia.
  set (N := val lu (u + j) (S n)) in *. assert (EN : N = dig lu (u + j) * B ^ Z.of_nat n + val lu (u + j + 1) n) by apply val_front.
  pose proof (proj2 Hu (u + j) ltac:(lia)) as Hx. set (x := dig lu (u + j)) in *.
  pose proof (val_bound 0 lu1 (u + j + 1) n Hu1 ltac:(lia) ltac:(lia)) as Hb1.
  pose proof (top_digit x t Hx Ht) as Htop. set (w := u32 (x - t)) in *. pose proof (LHALF_range w) as Hw.
  erewrite run_bind by (apply (wr_spec U); [apply Hu1|lia]). cbn [space set_space uspace vspace qspace].
  rewrite (digit_small (LHALF w)) by done.
  assert (Hu2 : digits_ok 0 (upd lu1 (u + j) (LHALF w))) by (apply digits_ok_upd; (done || lia)).
  destruct Htop as [(-> & Hlw & Hle)|(Hh & Hlw & Hgt)].
  - (* the guess was right *)
    change (negb (0 =? 0)) with false. cbv iota. rewrite (wr_spec Q) by (done || lia). cbn [space set_space uspace vspace qspace].
    rewrite (digit_small q') by done. exists (upd lu1 (u + j) (LHALF w)), q'. rewrite val_upd_front by (apply Hu1 || lia).
    do 3 (split; [done|]). split.
    { intros k Hk Hk'. rewrite dig_upd by (apply Hu1 || lia). destruct (Z.eqb_spec k (u + j)); [lia|]. apply Hout; lia. }
    rewrite Hlw. assert (E1 : N = q' * W + ((x - t) * B ^ Z.of_nat n + val lu1 (u + j + 1) n)) by lia.
    split; [exact E1|]. assert (0 <= (x - t) * B ^ Z.of_nat n) by (apply Z.mul_nonneg_nonneg; lia).
    pose proof (Z.mul_succ_div_gt N W ltac:(lia)). nia.
  - (* one too large: add back *)
    apply Z.eqb_neq in Hh. rewrite Hh. cbv iota. cbn [negb].
    assert (Hneg : N - q' * W < 0) by (assert ((x - t) * B ^ Z.of_nat n <= - B ^ Z.of_nat n) by nia; lia).
    assert (E2 : val (upd lu1 (u + j) (LHALF w)) (u + j) (S n) - B ^ Z.of_nat (S n) = N - q' * W).
    { rewrite val_upd_front by (apply Hu1 || lia). rewrite Hlw, Bpow_S. lia. }
    destruct (add_back (upd lu1 (u + j) (LHALF w)) lv lq u v j n W (wr Q (q + j) (u32 (q' - 1)))) as (lu3 & Hrun & Hu3 & Hout3 & Heq3);
      try done; try lia.
    rewrite Hrun. rewrite (wr_spec Q) by (done || lia). cbn [space set_space uspace vspace qspace].
    pose proof (val_bound 0 lu (u + j) (S n) Hu ltac:(lia) ltac:(lia)) as HN0. fold N in HN0.
    assert (q' <> 0) by (intros ->; lia). rewrite u32_small, digit_small by (rewrite B_eq in *; lia).
    exists lu3, (q' - 1). split; [done|]. split; [done|]. split; [lia|]. split; [|lia].
    intros k Hk Hk'. rewrite Hout3, dig_upd by (apply Hu1 || lia). destruct (Z.eqb_spec k (u + j)); [lia|]. apply Hout; lia.
Qed.

(** *** All digits of the quotient *)

Lemma dloop_spec lv u v q n W k : (2 <= n)%nat -> W = val lv (v + 1) n -> digits_ok 1 lv -> 0 <= v -> v + Z.of_nat n <= 4 ->
  2 ^ 15 <= dig lv (v + 1) -> forall j lu lq, digits_ok 0 lu -> length lq = 5%nat -> 0 <= u + j -> u + j + Z.of_nat (n + k) <= 5 ->
  0 <= q + j -> q + j + Z.of_nat k <= 5 -> val lu (u + j) n < W ->
  exists lu' lq', dloop k u v q (Z.of_nat n) (dig lv (v + 1)) (dig lv (v + 2)) j (mk_digits lu lv lq) = Ret tt (mk_digits lu' lv lq') /\
    digits_ok 0 lu' /\ length lq' = 5%nat /\ (forall i, 0 <= i < u + j -> dig lu' i = dig lu i) /\
    (forall i, 0 <= i < q + j -> dig lq' i = dig lq i) /\ (forall i, q + j <= i < q + j + Z.of_nat k -> 0 <= dig lq' i < B) /\
    val lu (u + j) (n + k) = val lq' (q + j) k * W + val lu' (u + j) (n + k) /\ val lu' (u + j) (n + k) < W.
Proof.
  intros Hn EW Hv Hv0 Hvn Hv1. pose proof (val_bound 1 lv (v + 1) n Hv ltac:(lia) ltac:(lia)) as HWb. rewrite <- EW in HWb.
  induction k as [|k IH]; intros j lu lq Hu Hq Hj Hjn Hqj Hqk Hlt.
  { exists lu, lq. rewrite Nat.add_0_r. cbn [val]. split_and!; try done; lia. }
  cbn [dloop].
  destruct (dstep_spec lu lv lq u v q j n W) as (lu1 & x & Hstep & Hu1 & Hx & Hout & Heq & Hr); try done; try lia.
  erewrite run_bind by exact Hstep. rewrite !val_front in Heq. rewrite val_front in Hr. pose proof (proj2 Hu1 (u + j) ltac:(lia)) as Hd.
  pose proof (val_bound 0 lu1 (u + j + 1) n Hu1 ltac:(lia) ltac:(lia)) as Hb1.
  assert (Hz : dig lu1 (u + j) = 0) by nia. rewrite Hz, Z.mul_0_l, Z.add_0_l in Heq. rewrite Hz, Z.mul_0_l, Z.add_0_l in Hr.
  destruct (IH (j + 1) lu1 (upd lq (q + j) x)) as (lu' & lq' & Hrun & Hu' & Hq' & Hou & Hoq & Hdq & Heq' & Hr');
    try done; try lia; rewrite ?Z.add_assoc; try lia.
  { unfold upd. by rewrite length_insert. }
  rewrite Z.add_assoc in *. exists lu', lq'. split; [done|]. split; [done|]. split; [done|]. split.
  { intros i Hi. rewrite Hou, Hout by lia. done. }
  assert (Eq : dig lq' (q + j) = x) by (rewrite Hoq, dig_upd, Z.eqb_refl by (done || lia); done). split.
  { intros i Hi. rewrite Hoq, dig_upd by (done || lia). destruct (Z.eqb_spec i (q + j)); [lia|done]. }
  split.
  { intros i Hi. destruct (Z.eq_dec i (q + j)) as [->|]; [by rewrite Eq|]. apply Hdq. lia. }
  rewrite Nat.add_succ_r, (val_front lq'), (val_front lu'), (Hou (u + j)), Hz, Eq by lia.
  split; [|lia]. rewrite Z.mul_0_l, Z.add_0_l.
  assert (E : val lu (u + j) (S (n + k)) = val lu (u + j) (S n) * B ^ Z.of_nat k + val lu (u + j + Z.of_nat (S n)) k) by apply (val_app _ _ (S n) k).
  assert (E1 : val lu1 (u + j + 1) (n + k) = val lu1 (u + j + 1) n * B ^ Z.of_nat k + val lu1 (u + j + 1 + Z.of_nat n) k) by apply val_app.
  rewrite (val_ext lu1 lu (u + j + 1 + Z.of_nat n)) in E1 by (intros; apply Hout; lia).
  replace (u + j + 1 + Z.of_nat n) with (u + j + Z.of_nat (S n)) in E1 by lia.
  rewrite (val_front lu (u + j) n), Heq in E. rewrite (Z.add_assoc q j 1) in Heq'. lia.
Qed.

(** *** Normalising: shifts of a run of digits *)

Lemma space_set a l s : space a (set_space a l s) = l.
Proof. by destruct a. Qed.

Lemma set_set a l l' s : set_space a l (set_space a l' s) = set_space a l s.
Proof. by destruct a, s. Qed.

(** The digits of [R * 2^sh] that fall out to the left depend on the leading digit only. *)
Lemma shift_out y R sh M : 0 <= sh <= 16 -> 0 <= y < B -> 0 <= R < M ->
  (y * M + R) * 2 ^ sh = y / 2 ^ (16 - sh) * (M * B) + ((y * M + R) * 2 ^ sh) mod (M * B).
Proof.
  intros Hsh Hy HR. assert (HB : B = 2 ^ sh * 2 ^ (16 - sh)) by (rewrite <- Z.pow_add_r, B_eq by lia; f_equal; lia).
  pose proof (Z.pow_pos_nonneg 2 sh ltac:(lia) ltac:(lia)) as Hp. pose proof (Z.pow_pos_nonneg 2 (16 - sh) ltac:(lia) ltac:(lia)) as Hp'.
  set (a := 2 ^ sh) in *. set (b := 2 ^ (16 - sh)) in *. clearbody a b.
  pose proof (Z.div_mod y b ltac:(lia)) as Ey. pose proof (Z.mod_pos_bound y b ltac:(lia)) as Hr.
  set (c := y / b) in *. set (r := y mod b) in *. clearbody c r.
  replace (((y * M + R) * a) mod (M * B)) with ((r * M + R) * a); [rewrite HB, Ey; ring|].
  apply Z.mod_unique_pos with (q := c); [|rewrite HB, Ey; ring].
  rewrite HB. assert ((r * M + R) * a < ((r + 1) * M) * a) by (apply Z.mul_lt_mono_pos_r; lia).
  assert ((r + 1) * M * a <= b * M * a) by (do 2 (apply Z.mul_le_mono_nonneg_r; [lia|]); lia). split; [|lia].
  apply Z.mul_nonneg_nonneg; [|lia]. assert (0 <= r * M) by (apply Z.mul_nonneg_nonneg; lia). lia.
Qed.

Lemma shl_digit x sh : 0 <= sh < 16 -> 0 <= x < B -> LHALF (shl32 x sh) = (x * 2 ^ sh) mod B.
Proof.
  intros Hsh Hx. rewrite LHALF_mod. unfold shl32. rewrite Z.shiftl_mul_pow2 by lia. rewrite B_eq in *.
  rewrite u32_small; [done|]. pose proof (Z.pow_pos_nonneg 2 sh ltac:(lia) ltac:(lia)).
  assert (2 ^ sh <= 2 ^ 15) by (apply Z.pow_le_mono_r; lia). nia.
Qed.

(** A digit shifted left with the bits that come in from the next one. *)
Lemma shl_lor x y sh : 0 < sh < 16 -> 0 <= x < B -> 0 <= y < B ->
  Z.lor (LHALF (shl32 x sh)) (shr32 y (HALF_BITS - sh)) = (x * 2 ^ sh) mod B + y / 2 ^ (16 - sh) /\
  0 <= (x * 2 ^ sh) mod B + y / 2 ^ (16 - sh) < B.
Proof.
  intros Hsh Hx Hy. rewrite shl_digit by lia. unfold shr32, HALF_BITS. rewrite Z.shiftr_div_pow2 by lia.
  assert (HB : B = 2 ^ sh * 2 ^ (16 - sh)) by (rewrite <- Z.pow_add_r, B_eq by lia; f_equal; lia).
  pose proof (Z.pow_pos_nonneg 2 sh ltac:(lia) ltac:(lia)) as Hp. pose proof (Z.pow_pos_nonneg 2 (16 - sh) ltac:(lia) ltac:(lia)) as Hp'.
  assert (Hm : (x * 2 ^ sh) mod B = (x mod 2 ^ (16 - sh)) * 2 ^ sh).
  { rewrite HB, (Z.mul_comm (2 ^ sh)). by rewrite Z.mul_mod_distr_r by lia. }
  pose proof (Z.mod_pos_bound x (2 ^ (16 - sh)) ltac:(lia)).
  assert (0 <= y / 2 ^ (16 - sh) < 2 ^ sh) by (split; [apply Z.div_pos; lia|apply Z.div_lt_upper_bound; lia]).
  rewrite Hm, lor_split by lia. split; [done|]. nia.
Qed.

Lemma shl_step x y R sh M : 0 < sh < 16 -> 0 <= x < B -> 0 <= y < B -> 0 < M -> 0 <= R < M ->
  ((x * 2 ^ sh) mod B + y / 2 ^ (16 - sh)) * (M * B) + ((y * M + R) * 2 ^ sh) mod (M * B) =
  ((x * (M * B) + (y * M + R)) * 2 ^ sh) mod (M * B * B).
Proof.
  intros Hsh Hx Hy HM HR. destruct (shl_lor x y sh Hsh Hx Hy) as [_ Hw].
  assert (0 < M * B) by (rewrite B_eq; lia). pose proof (Z.mod_pos_bound ((y * M + R) * 2 ^ sh) (M * B) ltac:(lia)).
  apply Z.mod_unique_pos with (q := x * 2 ^ sh / B).
  - split; [apply Z.add_nonneg_nonneg; [apply Z.mul_nonneg_nonneg|]; lia|].
    set (w := _ + y / _) in *. assert ((w + 1) * (M * B) <= B * (M * B)) by (apply Z.mul_le_mono_nonneg_r; lia). lia.
  - pose proof (shift_out y R sh M ltac:(lia) Hy HR) as E. pose proof (Z.div_mod (x * 2 ^ sh) B ltac:(done)) as Ex.
    rewrite Z.mul_add_distr_r. replace (x * (M * B) * 2 ^ sh) with (x * 2 ^ sh * (M * B)) by ring.
    clear - E Ex. generalize dependent ((y * M + R) * 2 ^ sh). intros T. generalize (T mod (M * B)). intros Tm ->.
    generalize dependent (x * 2 ^ sh). intros X. generalize (X / B), (X mod B). intros q m ->. ring.
Qed.

Lemma shl_loop_spec a p len sh lo k : 0 <= lo -> 0 < sh < 16 -> forall i s, lo <= p + i -> p + i + Z.of_nat k < 5 ->
  digits_ok lo (space a s) ->
  exists l', shl_loop k a p i len sh s = Ret tt (set_space a l' s) /\ digits_ok lo l' /\
    (forall x, 0 <= x -> x < p + i \/ p + i + Z.of_nat k < x -> dig l' x = dig (space a s) x) /\
    val l' (p + i) (S k) = (val (space a s) (p + i) (S k) * 2 ^ sh) mod B ^ Z.of_nat (S k).
Proof.
  intros Hlo Hsh. induction k as [|k IH]; intros i s Hp Hk Hok; cbn [shl_loop].
  - erewrite run_bind by (apply rd_spec; [apply Hok|lia]). rewrite wr_spec by (apply Hok || lia).
    pose proof (proj2 Hok (p + i) ltac:(lia)) as Hx. set (x := dig (space a s) (p + i)) in *.
    pose proof (LHALF_range (shl32 x sh)). rewrite digit_small by done.
    exists (upd (space a s) (p + i) (LHALF (shl32 x sh))). split; [done|]. split; [apply digits_ok_upd; (done || lia)|]. split.
    { intros y Hy Hy'. rewrite dig_upd by (apply Hok || lia). destruct (Z.eqb_spec y (p + i)); [lia|done]. }
    rewrite val_upd_front by (apply Hok || lia). rewrite shl_digit by lia. cbn [val]. fold x.
    change (B ^ Z.of_nat 0) with 1. change (B ^ Z.of_nat 1) with B. rewrite Z.add_0_r, Z.mul_1_r.
    replace (p + i + Z.of_nat 0) with (p + i) by lia. by fold x.
  - erewrite run_bind by (apply rd_spec; [apply Hok|lia]). erewrite run_bind by (apply rd_spec; [apply Hok|lia]).
    erewrite run_bind by (apply wr_spec; [apply Hok|lia]).
    pose proof (proj2 Hok (p + i) ltac:(lia)) as Hx. pose proof (proj2 Hok (p + i + 1) ltac:(lia)) as Hy.
    destruct (shl_lor _ _ sh Hsh Hx Hy) as [E Hr].
    set (x := dig (space a s) (p + i)) in *. set (y := dig (space a s) (p + i + 1)) in *. rewrite E, digit_small by done.
    set (w := (x * 2 ^ sh) mod B + y / 2 ^ (16 - sh)) in *. set (l1 := upd (space a s) (p + i) w).
    assert (Hok1 : digits_ok lo l1) by (apply digits_ok_upd; (done || lia)).
    destruct (IH (i + 1) (set_space a l1 s)) as (l' & Hrun & Hok' & Hout & Hv); rewrite ?space_set, ?Z.add_assoc in *; try done; try lia.
    rewrite Hrun, set_set. exists l'. split; [done|]. split; [done|]. split.
    { intros z Hz Hz'. rewrite Hout by lia. unfold l1. rewrite dig_upd by (apply Hok || lia). destruct (Z.eqb_spec z (p + i)); [lia|done]. }
    assert (El1 : val l1 (p + i + 1) (S k) = y * B ^ Z.of_nat k + val (space a s) (p + i + 1 + 1) k).
    { rewrite (val_ext l1 (space a s)); [apply val_front|]. intros z Hz. unfold l1. rewrite dig_upd by (apply Hok || lia).
      destruct (Z.eqb_spec z (p + i)); [lia|done]. }
    rewrite val_front, Hout, Hv, El1 by lia. unfold l1 at 1. rewrite dig_upd, Z.eqb_refl by (apply Hok || lia).
    rewrite (val_front (space a s)), (val_front (space a s) (p + i + 1)). fold x y. rewrite !Bpow_S.
    apply shl_step; try done; try apply Bpow_pos. apply (val_bound lo); [done|lia|lia].
Qed.

Lemma unshift_step Wh x y d M : 0 < d < 16 -> 0 <= x < B -> 0 <= y < B -> 0 < M -> let W := Wh * B + y in
  (W / 2 ^ d) mod M * B + ((y * 2 ^ (16 - d)) mod B + x / 2 ^ d) = ((W * B + x) / 2 ^ d) mod (M * B).
Proof.
  intros Hd Hx Hy HM W. assert (HB : B = 2 ^ d * 2 ^ (16 - d)) by (rewrite <- Z.pow_add_r, B_eq by lia; f_equal; lia).
  pose proof (Z.pow_pos_nonneg 2 d ltac:(lia) ltac:(lia)) as Hp. pose proof (Z.pow_pos_nonneg 2 (16 - d) ltac:(lia) ltac:(lia)) as Hp'.
  set (a := 2 ^ d) in *. set (b := 2 ^ (16 - d)) in *. clearbody a b.
  assert (E1 : (W * B + x) / a = W * b + x / a).
  { replace (W * B + x) with (x + W * b * a) by (rewrite HB; ring). rewrite Z.div_add by lia. lia. }
  assert (E2 : (y * b) mod B = W mod a * b).
  { rewrite HB, Z.mul_mod_distr_r by lia. f_equal. unfold W. rewrite HB.
    replace (Wh * (a * b) + y) with (y + Wh * b * a) by ring. by rewrite Z.mod_add by lia. }
  rewrite E1, E2. pose proof (Z.div_mod W a ltac:(lia)) as EW. pose proof (Z.mod_pos_bound W a ltac:(lia)) as Hh.
  pose proof (Z.div_mod (W / a) M ltac:(lia)) as EG. pose proof (Z.mod_pos_bound (W / a) M ltac:(lia)) as Hg.
  assert (He : 0 <= x / a < b) by (split; [apply Z.div_pos; lia|apply Z.div_lt_upper_bound; lia]).
  clear E1 E2. set (e := x / a) in *. set (h := W mod a) in *. set (g := W / a) in *. set (g2 := g mod M) in *.
  set (g1 := g / M) in *. clearbody g1 g2 g h e.
  apply Z.mod_unique_pos with (q := g1); [|rewrite EW, EG, HB; ring].
  assert ((h + 1) * b <= a * b) by (apply Z.mul_le_mono_nonneg_r; lia). assert ((g2 + 1) * B <= M * B) by (apply Z.mul_le_mono_nonneg_r; lia).
  split; [|lia]. repeat apply Z.add_nonneg_nonneg; try apply Z.mul_nonneg_nonneg; lia.
Qed.

Lemma unshift_spec lv lq u m d k : 0 < d < 16 -> 0 <= u + m -> u + m + Z.of_nat k < 5 -> forall lu, digits_ok 0 lu ->
  exists lu', unshift k u m d (mk_digits lu lv lq) = Ret tt (mk_digits lu' lv lq) /\ digits_ok 0 lu' /\
    (forall i, 0 <= i -> i < u + m \/ u + m + Z.of_nat k < i -> dig lu' i = dig lu i) /\ dig lu' (u + m) = 0 /\
    val lu' (u + m + 1) k = (val lu (u + m) (S k) / 2 ^ d) mod B ^ Z.of_nat k.
Proof.
  intros Hd Hum. induction k as [|k IH]; intros Hk lu Hu; cbn [unshift].
  - rewrite (wr_spec U) by (apply Hu || lia). cbn [space set_space uspace vspace qspace]. exists (upd lu (u + m) (digit 0)).
    split; [done|]. split; [apply digits_ok_upd; (done || lia)|]. split_and!.
    + intros i Hi Hi'. rewrite dig_upd by (apply Hu || lia). destruct (Z.eqb_spec i (u + m)); [lia|done].
    + by rewrite dig_upd, Z.eqb_refl by (apply Hu || lia).
    + change (B ^ Z.of_nat 0) with 1. by rewrite Z.mod_1_r.
  - set (p := u + (m + Z.of_nat (S k))). erewrite run_bind by (apply (rd_spec U); [apply Hu|lia]).
    erewrite run_bind by (apply (rd_spec U); [apply Hu|lia]). erewrite run_bind by (apply (wr_spec U); [apply Hu|unfold p; lia]).
    cbn [space set_space uspace vspace qspace]. pose proof (proj2 Hu p ltac:(unfold p; lia)) as Hx.
    pose proof (proj2 Hu (u + (m + Z.of_nat (S k) - 1)) ltac:(lia)) as Hy. rewrite Z.lor_comm.
    destruct (shl_lor (dig lu (u + (m + Z.of_nat (S k) - 1))) (dig lu p) (HALF_BITS - d)) as [E Hw]; [unfold HALF_BITS; lia|done|done|].
    unfold HALF_BITS in *. replace (16 - (16 - d)) with d in * by lia. fold p. rewrite E, digit_small by done.
    set (y := dig lu (u + (m + Z.of_nat (S k) - 1))) in *. set (x := dig lu p) in *. set (w := _ + x / _) in *.
    destruct (IH ltac:(lia) (upd lu p w)) as (lu' & Hrun & Hu' & Hout & Hz & Hv); [apply digits_ok_upd; (done || (unfold p; lia))|].
    rewrite Hrun. exists lu'. split; [done|]. split; [done|]. split.
    { intros i Hi Hi'. rewrite Hout, dig_upd by (apply Hu || (unfold p; lia)). destruct (Z.eqb_spec i p); [unfold p in *; lia|done]. }
    split; [done|]. rewrite Bpow_S. cbn [val] in *. rewrite Hv. rewrite (val_ext (upd lu p w) lu).
    2: { intros i Hi. rewrite dig_upd by (apply Hu || (unfold p; lia)). destruct (Z.eqb_spec i p); [unfold p in *; lia|done]. }
    rewrite (dig_upd lu p (u + m + Z.of_nat k)) by (apply Hu || (unfold p; lia)).
    destruct (Z.eqb_spec (u + m + Z.of_nat k) p); [unfold p in *; lia|].
    replace (u + m + 1 + Z.of_nat k) with p by (unfold p; lia). replace (u + m + Z.of_nat (S k)) with p by (unfold p; lia).
    rewrite (Hout p), dig_upd, Z.eqb_refl by (apply Hu || (unfold p; lia)).
    replace (u + m + Z.of_nat k) with (u + (m + Z.of_nat (S k) - 1)) by lia. fold y x. unfold w.
    apply unshift_step; (done || apply Bpow_pos).
Qed.

(** *** The digits of a number and back *)

Lemma val4 l : val l 1 4 = ((dig l 1 * B + dig l 2) * B + dig l 3) * B + dig l 4.
Proof. cbn [val]. change (1 + Z.of_nat 0) with 1. change (1 + Z.of_nat 1) with 2. change (1 + Z.of_nat 2) with 3. change (1 + Z.of_nat 3) with 4. lia. Qed.

Lemma split_spec x0 x : is_ull x -> digits_ok 1 (split x0 x) /\ dig (split x0 x) 0 = x0 /\ val (split x0 x) 1 4 = x.
Proof.
  intros Hx. destruct (uu_of_spec x) as (Hh & Hl & _).
  assert (Hd : forall w, 0 <= w < 2 ^ 32 -> digit (HHALF w) = w / 2 ^ 16 /\ digit (LHALF w) = w mod 2 ^ 16 /\
    0 <= w / 2 ^ 16 < 2 ^ 16 /\ 0 <= w mod 2 ^ 16 < 2 ^ 16).
  { intros w Hw. rewrite HHALF_div, LHALF_mod by done.
    assert (0 <= w / 2 ^ 16 < 2 ^ 16 /\ 0 <= w mod 2 ^ 16 < 2 ^ 16) by (Z.to_euclidean_division_equations; lia).
    rewrite !digit_small by (rewrite B_eq; lia). done. }
  destruct (Hd _ Hh) as (E1 & E2 & R1 & R2), (Hd _ Hl) as (E3 & E4 & R3 & R4).
  assert (E : split x0 x = [x0; uiH (uu_of x) / 2 ^ 16; uiH (uu_of x) mod 2 ^ 16; uiL (uu_of x) / 2 ^ 16; uiL (uu_of x) mod 2 ^ 16]).
  { unfold split. by rewrite E1, E2, E3, E4. }
  rewrite E. split; [|split; [done|]].
  - split; [done|]. intros i Hi. rewrite B_eq. assert (i = 1 \/ i = 2 \/ i = 3 \/ i = 4) as [->|[->|[->| ->]]] by lia; assumption.
  - rewrite val4, B_eq. unfold dig.
    change (Z.to_nat 1) with 1%nat. change (Z.to_nat 2) with 2%nat. change (Z.to_nat 3) with 3%nat. change (Z.to_nat 4) with 4%nat.
    cbn [nth]. change (uiH (uu_of x)) with (u64 x / 2 ^ 32).
    change (uiL (uu_of x)) with (u32 x). unfold u64, u32. unfold is_ull in Hx. rewrite (Z.mod_small x (2 ^ 64)) by done.
    clear. Z.to_euclidean_division_equations. lia.
Qed.

Lemma join_words x1 x2 x3 x4 : 0 <= x1 < B -> 0 <= x2 < B -> 0 <= x3 < B -> 0 <= x4 < B ->
  uu_ull (mk_uu (COMBINE x1 x2) (COMBINE x3 x4)) = ((x1 * B + x2) * B + x3) * B + x4.
Proof. intros. unfold uu_ull. cbn [uiH uiL]. rewrite !COMBINE_eq by done. rewrite B_eq. lia. Qed.

Lemma join_spec a s : length (space a s) = 5%nat -> (forall i, 1 <= i < 5 -> 0 <= dig (space a s) i < B) -> join a s = Ret (val (space a s) 1 4) s.
Proof.
  intros Hl Hd. unfold join. do 4 (erewrite run_bind by (apply rd_spec; [done|lia])).
  rewrite join_words by (apply Hd; lia). rewrite val4. done.
Qed.

(** *** Leading zeros *)

Lemma skip_v_spec lu lv lq : digits_ok 1 lv -> 0 < val lv 1 4 -> exists v n, skip_v 4 0 4 (mk_digits lu lv lq) = Ret (v, n) (mk_digits lu lv lq) /\
  ((n = 1 /\ v = 2 /\ 0 < dig lv 4 < B /\ val lv 1 4 = dig lv 4) \/
   (2 <= n <= 4 /\ v = 4 - n /\ 0 < dig lv (v + 1) < B /\ val lv 1 4 = val lv (v + 1) (Z.to_nat n))).
Proof.
  intros [Hl Hd] Hp. pose proof (Hd 1 ltac:(lia)). pose proof (Hd 2 ltac:(lia)). pose proof (Hd 3 ltac:(lia)). pose proof (Hd 4 ltac:(lia)).
  pose proof (val_front lv 1 3) as F1. pose proof (val_front lv 2 2) as F2. pose proof (val_front lv 3 1) as F3.
  pose proof (val_front lv 4 0) as F4. change (B ^ Z.of_nat 0) with 1 in F4. change (val lv (4 + 1) 0) with 0 in F4.
  change (1 + 1) with 2 in F1. change (2 + 1) with 3 in F2. change (3 + 1) with 4 in F3.
  cbn [skip_v]. erewrite run_bind by (apply (rd_spec V); [done|lia]). cbn [space vspace].
  change (0 + 1) with 1. destruct (Z.eqb_spec (dig lv 1) 0) as [E1|E1].
  2: { exists 0, 4. split; [done|]. right. change (0 + 1) with 1. change (Z.to_nat 4) with 4%nat. lia. }
  change (4 - 1 =? 1) with false. cbv iota. erewrite run_bind by (apply (rd_spec V); [done|lia]). cbn [space vspace].
  rewrite E1, Z.mul_0_l, Z.add_0_l in F1. change (1 + 1) with 2. destruct (Z.eqb_spec (dig lv 2) 0) as [E2|E2].
  2: { exists 1, 3. split; [done|]. right. change (1 + 1) with 2. change (Z.to_nat 3) with 3%nat. lia. }
  change (4 - 1 - 1 =? 1) with false. cbv iota. erewrite run_bind by (apply (rd_spec V); [done|lia]). cbn [space vspace].
  rewrite E2, Z.mul_0_l, Z.add_0_l in F2. change (2 + 1) with 3. destruct (Z.eqb_spec (dig lv 3) 0) as [E3|E3].
  2: { exists 2, 2. split; [done|]. right. change (2 + 1) with 3. change (Z.to_nat 2) with 2%nat. lia. }
  change (4 - 1 - 1 - 1 =? 1) with true. cbv iota. rewrite E3, Z.mul_0_l, Z.add_0_l in F3.
  exists 2, 1. split; [done|]. left. lia.
Qed.

Lemma skip_u_spec lv lq lu n fuel : digits_ok 0 lu -> (1 <= n)%nat -> forall u m, 0 <= u -> u + Z.of_nat n <= 4 ->
  (forall i, 0 <= i <= u -> dig lu i = 0) -> B ^ Z.of_nat (n - 1) <= val lu (u + 1) (Z.to_nat (4 - u)) -> 4 - u - Z.of_nat n < Z.of_nat fuel ->
  exists u', skip_u fuel u m (mk_digits lu lv lq) = Ret (u', m - (u' - u)) (mk_digits lu lv lq) /\ u <= u' /\ u' + Z.of_nat n <= 4 /\
    (forall i, 0 <= i <= u' -> dig lu i = 0).
Proof.
  intros Hu Hn. induction fuel as [|fuel IH]; intros u m Hu0 Hun Hz Hb Hf; [lia|]. cbn [skip_u].
  erewrite run_bind by (apply (rd_spec U); [apply Hu|lia]). cbn [space uspace].
  destruct (Z.eqb_spec (dig lu (u + 1)) 0) as [E|E].
  - replace (Z.to_nat (4 - u)) with (S (Z.to_nat (4 - (u + 1)))) in Hb by lia. rewrite val_front, E, Z.mul_0_l, Z.add_0_l in Hb.
    assert (Hlt : u + 1 + Z.of_nat n <= 4).
    { destruct (Z.le_gt_cases (u + 1 + Z.of_nat n) 4); [done|]. replace (Z.to_nat (4 - (u + 1))) with (n - 1)%nat in Hb by lia.
      pose proof (val_bound 0 lu (u + 1 + 1) (n - 1) Hu ltac:(lia) ltac:(lia)). lia. }
    destruct (IH (u + 1) (m - 1)) as (u' & Hrun & Hle & Hle' & Hz'); try lia.
    { intros i Hi. destruct (Z.eq_dec i (u + 1)) as [->|]; [done|]. apply Hz. lia. }
    rewrite Hrun. exists u'. split; [do 2 f_equal; lia|]. split; [lia|]. done.
  - exists u. split; [do 2 f_equal; lia|]. split; [lia|]. done.
Qed.

(** The shift that makes the leading digit large. *)
Lemma norm_S fuel t d : norm (S fuel) t d = if t <? B / 2 then norm fuel (shl32 t 1) (d + 1) else mret d.
Proof. done. Qed.

Lemma norm_spec s fuel : forall t d, 0 < t < B -> 2 ^ 15 <= t * 2 ^ Z.of_nat fuel ->
  exists e, norm (S fuel) t d s = Ret (d + e) s /\ 0 <= e < 16 /\ 2 ^ 15 <= t * 2 ^ e < B.
Proof.
  rewrite B_eq. induction fuel as [|fuel IH]; intros t d Ht Hf; rewrite norm_S; change (B / 2) with (2 ^ 15).
  - destruct (Z.ltb_spec t (2 ^ 15)); [simpl in Hf; lia|]. exists 0. rewrite Z.add_0_r. split; [done|]. lia.
  - destruct (Z.ltb_spec t (2 ^ 15)); [|exists 0; rewrite Z.add_0_r; split; [done|]; lia].
    unfold shl32. rewrite Z.shiftl_mul_pow2, u32_small by lia. rewrite Nat2Z.inj_succ, Z.pow_succ_r in Hf by lia.
    destruct (IH (t * 2 ^ 1) (d + 1)) as (e & Hrun & He & Hr); [lia|lia|]. exists (e + 1). rewrite Hrun.
    split; [f_equal; lia|]. rewrite Z.pow_add_r by lia.
    assert (e < 15) by (apply (Z.pow_lt_mono_r_iff 2); [lia|lia|nia]). split; [lia|]. lia.
Qed.

Lemma clear_q_spec lu lv k : forall lq, length lq = 5%nat -> (k <= 5)%nat ->
  exists lq', clear_q k (mk_digits lu lv lq) = Ret tt (mk_digits lu lv lq') /\ length lq' = 5%nat /\
    (forall i, 0 <= i < Z.of_nat k -> dig lq' i = 0) /\ (forall i, Z.of_nat k <= i -> dig lq' i = dig lq i).
Proof.
  induction k as [|k IH]; intros lq Hq Hk.
  { exists lq. split_and!; try done; lia. }
  cbn [clear_q]. erewrite run_bind by (apply (wr_spec Q); [done|lia]). cbn [space set_space uspace vspace qspace].
  change (digit 0) with 0. destruct (IH (upd lq (Z.of_nat k) 0)) as (lq' & Hrun & Hl & Hz & Ho);
    [unfold upd; by rewrite length_insert|lia|]. rewrite Hrun. exists lq'. split; [done|]. split; [done|]. split.
  - intros i Hi. destruct (Z.eq_dec i (Z.of_nat k)) as [->|]; [|apply Hz; lia].
    by rewrite Ho, dig_upd, Z.eqb_refl by (done || lia).
  - intros i Hi. rewrite Ho, dig_upd by (done || lia). destruct (Z.eqb_spec i (Z.of_nat k)); [lia|done].
Qed.

(** *** Division by one digit *)

Lemma short_digit r u t : 0 < t < B -> 0 <= r < t -> 0 <= u < B -> let w := COMBINE r u in
  digit (w / t) = (r * B + u) / t /\ w mod t = (r * B + u) mod t /\ 0 <= (r * B + u) / t < B /\ 0 <= (r * B + u) mod t < t.
Proof.
  intros Ht Hr Hu w. assert (E : w = r * B + u) by (apply COMBINE_eq; lia). rewrite E.
  assert (0 <= (r * B + u) / t < B).
  { split; [apply Z.div_pos; rewrite ?B_eq in *; lia|apply Z.div_lt_upper_bound; [lia|rewrite ?B_eq in *; nia]]. }
  rewrite digit_small by done. split_and!; try done; try lia; apply Z.mod_pos_bound; lia.
Qed.

Lemma short_div_spec lu lv lq t : digits_ok 0 lu -> 0 < t < B ->
  short_div t (mk_digits lu lv lq) = Ret (val lu 1 4 / t, val lu 1 4 mod t) (mk_digits lu lv lq).
Proof.
  intros Hu Ht. unfold short_div. do 4 (erewrite run_bind by (apply (rd_spec U); [apply Hu|lia])). cbn [space uspace].
  rewrite val4. pose proof (proj2 Hu 1 ltac:(lia)) as H1. pose proof (proj2 Hu 2 ltac:(lia)) as H2.
  pose proof (proj2 Hu 3 ltac:(lia)) as H3. pose proof (proj2 Hu 4 ltac:(lia)) as H4.
  set (u1 := dig lu 1) in *. set (u2 := dig lu 2) in *. set (u3 := dig lu 3) in *. set (u4 := dig lu 4) in *. clearbody u1 u2 u3 u4.
  assert (E1 : u1 = t * (u1 / t) + u1 mod t) by (apply Z.div_mod; lia). pose proof (Z.mod_pos_bound u1 t ltac:(lia)) as R1.
  assert (Q1 : 0 <= u1 / t < B) by (split; [apply Z.div_pos; lia|apply Z.div_lt_upper_bound; [lia|rewrite B_eq in *; nia]]).
  rewrite (digit_small (u1 / t)) by done. set (q1 := u1 / t) in *. set (r1 := u1 mod t) in *. clearbody q1 r1.
  destruct (short_digit r1 u2 t Ht R1 H2) as (-> & -> & Q2 & R2). pose proof (Z.div_mod (r1 * B + u2) t ltac:(lia)) as E2.
  set (q2 := (r1 * B + u2) / t) in *. set (r2 := (r1 * B + u2) mod t) in *. clearbody q2 r2.
  destruct (short_digit r2 u3 t Ht R2 H3) as (-> & -> & Q3 & R3). pose proof (Z.div_mod (r2 * B + u3) t ltac:(lia)) as E3.
  set (q3 := (r2 * B + u3) / t) in *. set (r3 := (r2 * B + u3) mod t) in *. clearbody q3 r3.
  destruct (short_digit r3 u4 t Ht R3 H4) as (-> & -> & Q4 & R4). pose proof (Z.div_mod (r3 * B + u4) t ltac:(lia)) as E4.
  set (q4 := (r3 * B + u4) / t) in *. set (r4 := (r3 * B + u4) mod t) in *. clearbody q4 r4.
  rewrite join_words by done. set (A := ((u1 * B + u2) * B + u3) * B + u4). set (X := ((q1 * B + q2) * B + q3) * B + q4).
  assert (EA : A = t * X + r4) by (unfold A, X; rewrite B_eq in *; lia).
  rewrite <- (Z.div_unique_pos A t X r4 R4 EA), <- (Z.mod_unique_pos A t X r4 R4 EA). done.
Qed.

(** *** The whole division *)

Lemma val_zero l a k : (forall i, a <= i < a + Z.of_nat k -> dig l i = 0) -> val l a k = 0.
Proof. induction k as [|k IH]; intros H; [done|]. cbn [val]. rewrite IH, H by (intros; try apply H; lia). lia. Qed.

(** A number that fits its last [n] digits has zeros before them. *)
Lemma val_small lo l a n : digits_ok lo l -> lo <= a -> forall k, a + Z.of_nat (k + n) <= 5 -> val l a (k + n) < B ^ Z.of_nat n ->
  forall i, a <= i < a + Z.of_nat k -> dig l i = 0.
Proof.
  intros Hl Ha k. revert a Ha. induction k as [|k IH]; intros a Ha Hk Hs i Hi; [lia|].
  change (S k + n)%nat with (S (k + n)) in Hs. rewrite val_front in Hs. pose proof (proj2 Hl a ltac:(lia)) as Hd.
  pose proof (val_bound lo l (a + 1) (k + n) Hl ltac:(lia) ltac:(lia)) as Hb. rewrite Nat2Z.inj_add, Z.pow_add_r in Hs by lia.
  pose proof (Bpow_pos k). pose proof (Bpow_pos n).
  assert (Hz : dig l a = 0).
  { destruct (Z.eq_dec (dig l a) 0); [done|]. assert (1 * B ^ Z.of_nat n <= B ^ Z.of_nat k * B ^ Z.of_nat n) by (apply Z.mul_le_mono_nonneg_r; lia).
    assert (1 * (B ^ Z.of_nat k * B ^ Z.of_nat n) <= dig l a * (B ^ Z.of_nat k * B ^ Z.of_nat n)) by (apply Z.mul_le_mono_nonneg_r; lia). lia. }
  destruct (Z.eq_dec i a) as [->|]; [done|]. rewrite Hz in Hs. apply (IH (a + 1)); lia.
Qed.

(** D1: both numbers times 2^d. *)
Lemma normalise lu lv lq u v (m n : nat) d : digits_ok 0 lu -> digits_ok 1 lv -> 0 <= u -> u + Z.of_nat (m + n) = 4 -> 0 <= v -> (2 <= n)%nat ->
  v + Z.of_nat n = 4 -> dig lu u = 0 -> 0 <= d < 16 -> 2 ^ 15 <= dig lv (v + 1) * 2 ^ d < B ->
  exists lu' lv', when (0 <? d) (_ ← shl U u (Z.of_nat (m + n)) d; shl V (v + 1) (Z.of_nat n - 1) d) (mk_digits lu lv lq) =
      Ret tt (mk_digits lu' lv' lq) /\ digits_ok 0 lu' /\ digits_ok 1 lv' /\ (forall i, 0 <= i < u -> dig lu' i = dig lu i) /\
    val lu' u (S (m + n)) = val lu u (S (m + n)) * 2 ^ d /\ val lv' (v + 1) n = val lv (v + 1) n * 2 ^ d.
Proof.
  intros Hu Hv Hu0 Hum Hv0 Hn Hvn Hz Hd Ht. destruct (Z.ltb_spec 0 d) as [Hpos|].
  2: { assert (d = 0) as -> by lia. exists lu, lv. rewrite Z.pow_0_r, !Z.mul_1_r. split_and!; try done. }
  cbn [when]. unfold shl. replace (Z.to_nat (Z.of_nat (m + n))) with (m + n)%nat by lia.
  destruct (shl_loop_spec U u (Z.of_nat (m + n)) d 0 (m + n) ltac:(lia) ltac:(lia) 0 (mk_digits lu lv lq)) as (lu' & Hr1 & Hu' & Ho1 & Hv1);
    [lia|lia|done|].
  erewrite run_bind by exact Hr1. cbn [set_space uspace vspace qspace space] in *. rewrite !Z.add_0_r in *.
  replace (Z.to_nat (Z.of_nat n - 1)) with (n - 1)%nat by lia.
  destruct (shl_loop_spec V (v + 1) (Z.of_nat n - 1) d 1 (n - 1) ltac:(lia) ltac:(lia) 0 (mk_digits lu' lv lq)) as (lv' & Hr2 & Hv' & Ho2 & Hv2);
    [lia|lia|done|].
  rewrite Hr2. cbn [set_space uspace vspace qspace space] in *. rewrite !Z.add_0_r in *.
  replace (S (n - 1)) with n in Hv2 by lia. exists lu', lv'. split; [done|]. split; [done|]. split; [done|].
  split; [intros i Hi; apply Ho1; lia|]. rewrite Hv1, Hv2. pose proof (Z.pow_pos_nonneg 2 d ltac:(lia) ltac:(lia)) as Hp. split; apply Z.mod_small.
  - pose proof (val_bound 0 lu u (S (m + n)) Hu ltac:(lia) ltac:(lia)). split; [apply Z.mul_nonneg_nonneg; lia|].
    rewrite val_front, Hz, Z.mul_0_l, Z.add_0_l, Bpow_S. pose proof (val_bound 0 lu (u + 1) (m + n) Hu ltac:(lia) ltac:(lia)).
    assert (2 ^ d < B) by (rewrite B_eq; apply Z.pow_lt_mono_r; lia). apply Z.mul_lt_mono_nonneg; lia.
  - pose proof (val_bound 1 lv (v + 1) n Hv ltac:(lia) ltac:(lia)). split; [apply Z.mul_nonneg_nonneg; lia|].
    replace n with (S (n - 1)) by lia. rewrite val_front, Bpow_S. pose proof (val_bound 1 lv (v + 1 + 1) (n - 1) Hv ltac:(lia) ltac:(lia)) as Hb.
    assert (HB : B = 2 ^ d * 2 ^ (16 - d)) by (rewrite <- Z.pow_add_r, B_eq by lia; f_equal; lia).
    set (t := dig lv (v + 1)) in *. set (R := val lv (v + 1 + 1) (n - 1)) in *. set (P := B ^ Z.of_nat (n - 1)) in *.
    assert (t < 2 ^ (16 - d)) by nia. assert ((t + 1) * P <= 2 ^ (16 - d) * P) by (apply Z.mul_le_mono_nonneg_r; lia).
    assert ((t * P + R) * 2 ^ d < (2 ^ (16 - d) * P) * 2 ^ d) by (apply Z.mul_lt_mono_pos_r; lia). lia.
Qed.

(** The leading digit of the normalised divisor. *)
Lemma leading_digit lv a n t d : digits_ok 1 lv -> 1 <= a -> a + Z.of_nat (S n) <= 5 -> 2 ^ 15 <= t * 2 ^ d -> 0 <= d ->
  t * B ^ Z.of_nat n * 2 ^ d <= val lv a (S n) -> 2 ^ 15 <= dig lv a.
Proof.
  intros Hv Ha Hn Ht Hd. rewrite val_front. pose proof (val_bound 1 lv (a + 1) n Hv ltac:(lia) ltac:(lia)) as Hb.
  intros Hle. pose proof (Bpow_pos n). set (P := B ^ Z.of_nat n) in *.
  assert (2 ^ 15 * P <= t * 2 ^ d * P) by (apply Z.mul_le_mono_nonneg_r; lia).
  assert (2 ^ 15 * P < (dig lv a + 1) * P) by lia. apply Z.mul_lt_mono_pos_r in H1; lia.
Qed.

(** The remainder that is left, shifted back and joined. *)
Lemma remainder_spec lu lv lq u (m n : nat) d R : digits_ok 0 lu -> 0 <= u -> u + Z.of_nat (m + n) = 4 -> (1 <= n)%nat -> 0 <= d < 16 ->
  (forall i, 0 <= i < u -> dig lu i = 0) -> val lu u (S (m + n)) = R * 2 ^ d -> 0 <= R * 2 ^ d < B ^ Z.of_nat n ->
  exists lu', (_ ← when (negb (d =? 0)) (unshift n u (Z.of_nat m) d); r ← join U; mret (Some r)) (mk_digits lu lv lq) =
    Ret (Some R) (mk_digits lu' lv lq).
Proof.
  intros Hu Hu0 Hum Hn Hd Hz Hv HR.
  assert (Hall : val lu 0 5 = R * 2 ^ d).
  { replace 5%nat with (Z.to_nat u + S (m + n))%nat by lia. rewrite val_app, (val_zero lu 0) by (intros; apply Hz; lia).
    replace (0 + Z.of_nat (Z.to_nat u)) with u by lia. lia. }
  assert (Hs : forall i, 0 <= i < 5 - Z.of_nat n -> dig lu i = 0).
  { intros i Hi. apply (val_small 0 lu 0 n Hu ltac:(lia) (5 - n)); try lia. replace (5 - n + n)%nat with 5%nat by lia. lia. }
  destruct (Z.eqb_spec d 0) as [->|Hd0].
  - exists lu. cbn [when negb]. erewrite run_bind by reflexivity.
    erewrite run_bind by (apply join_spec; [apply Hu|intros i Hi; apply Hu; lia]). cbn [space uspace].
    rewrite val_front in Hall. rewrite Hs, Z.mul_0_l, Z.add_0_l in Hall by lia. change (0 + 1) with 1 in Hall.
    rewrite Hall. by rewrite Z.pow_0_r, Z.mul_1_r.
  - destruct (unshift_spec lv lq u (Z.of_nat m) d n ltac:(lia) ltac:(lia) ltac:(lia) lu Hu) as (lu' & Hrun & Hu' & Ho & Hz' & Hv').
    exists lu'. cbn [when negb]. erewrite run_bind by exact Hrun.
    erewrite run_bind by (apply join_spec; [apply Hu'|intros i Hi; apply Hu'; lia]). cbn [space uspace].
    assert (E1 : val lu' 1 4 = val lu' 0 5).
    { rewrite (val_front lu' 0). destruct (Z.eq_dec (u + Z.of_nat m) 0) as [E|E].
      - rewrite E in Hz'. rewrite Hz'. change (0 + 1) with 1. lia.
      - rewrite Ho, Hs by lia. change (0 + 1) with 1. lia. }
    assert (E2 : val lu' 0 5 = val lu' (u + Z.of_nat m + 1) n).
    { replace 5%nat with (S (Z.to_nat u + m) + n)%nat by lia. rewrite val_app, (val_zero lu' 0); [rewrite Z.mul_0_l, Z.add_0_l; f_equal; lia|].
      intros i Hi. destruct (Z.eq_dec i (u + Z.of_nat m)) as [->|]; [done|]. rewrite Ho, Hs by lia. done. }
    assert (E3 : val lu (u + Z.of_nat m) (S n) = R * 2 ^ d).
    { rewrite <- Hall. replace 5%nat with (Z.to_nat (u + Z.of_nat m) + S n)%nat by lia.
      rewrite val_app, (val_zero lu 0) by (intros; apply Hs; lia). rewrite Z.mul_0_l, Z.add_0_l. f_equal. lia. }
    pose proof (Z.pow_pos_nonneg 2 d ltac:(lia) ltac:(lia)) as Hp.
    rewrite E1, E2, Hv', E3, Z.div_mul by lia. rewrite Z.mod_small; [done|]. split; [nia|]. nia.
Qed.

(** The first digits of the dividend are less than the divisor. *)
Lemma top_small lu2 lu u (m n : nat) A d D : digits_ok 0 lu -> digits_ok 0 lu2 -> 0 <= u -> u + Z.of_nat (m + n) = 4 -> (1 <= n)%nat -> 0 <= d ->
  dig lu u = 0 -> val lu u (S (m + n)) = A -> val lu2 u (S (m + n)) = A * 2 ^ d -> B ^ Z.of_nat (n - 1) <= D ->
  val lu2 u n < D * 2 ^ d.
Proof.
  intros Hu Hu2 Hu0 Hum Hn Hd Hz EA E2 HD. rewrite val_front, Hz, Z.mul_0_l, Z.add_0_l in EA.
  pose proof (val_bound 0 lu (u + 1) (m + n) Hu ltac:(lia) ltac:(lia)) as Hb. rewrite EA in Hb.
  replace (S (m + n)) with (n + S m)%nat in E2 by lia. rewrite val_app in E2.
  pose proof (val_bound 0 lu2 (u + Z.of_nat n) (S m) Hu2 ltac:(lia) ltac:(lia)) as Hb2.
  replace (Z.of_nat (m + n)) with (Z.of_nat (n - 1) + Z.of_nat (S m)) in Hb by lia. rewrite Z.pow_add_r in Hb by lia.
  pose proof (Z.pow_pos_nonneg 2 d ltac:(lia) ltac:(lia)) as Hp. pose proof (Bpow_pos (S m)) as HM.
  set (P := B ^ Z.of_nat (n - 1)) in *. set (M := B ^ Z.of_nat (S m)) in *. set (X := val lu2 u n) in *.
  assert (A * 2 ^ d < P * M * 2 ^ d) by (apply Z.mul_lt_mono_pos_r; lia).
  assert (X * M < P * 2 ^ d * M) as Hx%Z.mul_lt_mono_pos_r by lia; [|lia].
  assert (P * 2 ^ d <= D * 2 ^ d) by (apply Z.mul_le_mono_nonneg_r; lia). lia.
Qed.

(** Quotient and remainder of the numbers before they were shifted. *)
Lemma quotient_of A D p q R : 0 < p -> 0 < D -> A * p = q * (D * p) + R -> 0 <= R -> R < D * p ->
  q = A / D /\ R = A mod D * p.
Proof.
  intros Hp HD E H0 H1. assert (ER : R = (A - q * D) * p) by lia.
  assert (Hr : 0 <= A - q * D < D) by (split; nia). assert (EA : A = D * q + (A - q * D)) by lia.
  split; [by apply (Z.div_unique_pos _ _ _ (A - q * D))|]. by rewrite <- (Z.mod_unique_pos A D q (A - q * D) Hr EA).
Qed.

Lemma divide_long lu lv lq v n (arq : bool) A D : digits_ok 0 lu -> digits_ok 1 lv -> length lq = 5%nat -> dig lu 0 = 0 -> val lu 1 4 = A ->
  (2 <= n <= 4)%nat -> v = 4 - Z.of_nat n -> 0 < dig lv (v + 1) < B -> val lv (v + 1) n = D -> D <= A ->
  exists s, ('(u, m) ← skip_u 5 0 (4 - Z.of_nat n);
    _ ← clear_q (Z.to_nat (4 - m));
    t ← rd V (v + 1);
    d ← norm 17 t 0;
    _ ← when (0 <? d) (_ ← shl U u (m + Z.of_nat n) d; shl V (v + 1) (Z.of_nat n - 1) d);
    v1 ← rd V (v + 1);
    v2 ← rd V (v + 2);
    _ ← dloop (Z.to_nat (m + 1)) u v (4 - m) (Z.of_nat n) v1 v2 0;
    r ← (if arq then
           _ ← when (negb (d =? 0)) (unshift (Z.to_nat (Z.of_nat n)) u m d);
           r ← join U; mret (Some r)
         else mret None);
    x ← join Q;
    mret (x, r)) (mk_digits lu lv lq) = Ret (A / D, if arq then Some (A mod D) else None) s.
Proof.
  intros Hu Hv Hq Hz0 EA Hn Ev Ht ED Hle.
  assert (HD : dig lv (v + 1) * B ^ Z.of_nat (n - 1) <= D < B ^ Z.of_nat n).
  { split; [|subst D; apply (val_bound 1); [done|lia|lia]]. rewrite <- ED. replace n with (S (n - 1)) at 2 by lia. rewrite val_front.
    pose proof (val_bound 1 lv (v + 1 + 1) (n - 1) Hv ltac:(lia) ltac:(lia)). lia. }
  pose proof (Bpow_pos (n - 1)) as HP. assert (HD1 : B ^ Z.of_nat (n - 1) <= D) by nia.
  destruct (skip_u_spec lv lq lu n 5 Hu ltac:(lia) 0 (4 - Z.of_nat n)) as (u & Hsk & Hu0 & Hun & Hzu); try lia.
  { intros i Hi. by assert (i = 0) as -> by lia. }
  { change (0 + 1) with 1. change (Z.to_nat (4 - 0)) with 4%nat. lia. }
  erewrite run_bind by exact Hsk. rewrite Z.sub_0_r. cbv beta iota.
  set (m := Z.to_nat (4 - Z.of_nat n - u)). replace (4 - Z.of_nat n - u) with (Z.of_nat m) by lia.
  destruct (clear_q_spec lu lv (Z.to_nat (4 - Z.of_nat m)) lq Hq ltac:(lia)) as (lq1 & Hcl & Hq1 & Hqz & _).
  erewrite run_bind by exact Hcl. erewrite run_bind by (apply (rd_spec V); [apply Hv|lia]). cbn [space vspace].
  destruct (norm_spec (mk_digits lu lv lq1) 16 (dig lv (v + 1)) 0 Ht) as (d & Hno & Hd & Htd); [change (Z.of_nat 16) with 16; lia|].
  erewrite run_bind by exact Hno. rewrite Z.add_0_l. rewrite <- Nat2Z.inj_add.
  destruct (normalise lu lv lq1 u v m n d) as (lu2 & lv2 & Hrun & Hu2 & Hv2 & Hlow & Eu & Ew); try done; try lia.
  { apply Hzu. lia. }
  erewrite run_bind by exact Hrun. do 2 (erewrite run_bind by (apply (rd_spec V); [apply Hv2|lia])). cbn [space vspace].
  assert (EU : val lu u (S (m + n)) = A).
  { rewrite <- EA. assert (val lu 1 4 = val lu 0 5) as -> by (rewrite (val_front lu 0), Hz0; change (0 + 1) with 1; lia).
    replace 5%nat with (Z.to_nat u + S (m + n))%nat by lia. rewrite val_app, (val_zero lu 0) by (intros; apply Hzu; lia).
    rewrite Z.mul_0_l, Z.add_0_l. f_equal. lia. }
  rewrite EU in Eu. rewrite ED in Ew. pose proof (Z.pow_pos_nonneg 2 d ltac:(lia) ltac:(lia)) as Hp.
  destruct (dloop_spec lv2 u v (4 - Z.of_nat m) n (D * 2 ^ d) (S m)) with (j := 0) (lu := lu2) (lq := lq1)
    as (lu3 & lq3 & Hdl & Hu3 & Hq3 & Ho3 & Hoq3 & Hdq3 & Heq3 & Hr3); rewrite ?Z.add_0_r in *; try done; try lia.
  { apply (leading_digit lv2 (v + 1) (n - 1) (dig lv (v + 1)) d); try done; try lia.
    replace (S (n - 1)) with n by lia. rewrite Ew. apply Z.mul_le_mono_nonneg_r; lia. }
  { apply (top_small lu2 lu u m n A d); try done; try lia. apply Hzu; lia. }
  replace (Z.to_nat (Z.of_nat m + 1)) with (S m) by lia. erewrite run_bind by exact Hdl.
  replace (n + S m)%nat with (S (m + n)) in * by lia. rewrite Eu in Heq3.
  destruct (quotient_of A D (2 ^ d) (val lq3 (4 - Z.of_nat m) (S m)) (val lu3 u (S (m + n)))) as [EQ ER]; try done; try lia.
  { pose proof (val_bound 0 lu3 u (S (m + n)) Hu3 ltac:(lia) ltac:(lia)). lia. }
  assert (EQ4 : val lq3 1 4 = A / D).
  { rewrite <- EQ. replace 4%nat with (Z.to_nat (3 - Z.of_nat m) + S m)%nat by lia. rewrite val_app, (val_zero lq3 1).
    - rewrite Z.mul_0_l, Z.add_0_l. f_equal. lia.
    - intros i Hi. rewrite Hoq3 by lia. apply Hqz. lia. }
  assert (Hjq : forall l2, join Q (mk_digits l2 lv2 lq3) = Ret (A / D) (mk_digits l2 lv2 lq3)).
  { intros l2. rewrite <- EQ4. apply join_spec; [done|]. intros i Hi. cbn [space qspace].
    destruct (Z.lt_ge_cases i (4 - Z.of_nat m)); [|apply Hdq3; lia]. rewrite Hoq3, Hqz by lia. by rewrite B_eq. }
  destruct arq; rewrite ?Nat2Z.id.
  - destruct (remainder_spec lu3 lv2 lq3 u m n d (A mod D)) as (lu4 & Hrem); try done; try lia.
    { intros i Hi. rewrite Ho3, Hlow, Hzu by lia. done. }
    { rewrite <- ER. split; [pose proof (val_bound 0 lu3 u (S (m + n)) Hu3 ltac:(lia) ltac:(lia)); lia|].
      pose proof (val_bound 1 lv2 (v + 1) n Hv2 ltac:(lia) ltac:(lia)). lia. }
    erewrite run_bind by exact Hrem. erewrite run_bind by apply Hjq. by eexists.
  - erewrite run_bind by reflexivity. erewrite run_bind by apply Hjq. by eexists.
Qed.

Lemma divide_spec v0 q0 arq A D : is_ull A -> 0 < D -> D <= A -> length q0 = 5%nat ->
  exists s, divide arq (mk_digits (split 0 A) (split v0 D) q0) = Ret (A / D, if arq then Some (A mod D) else None) s.
Proof.
  unfold is_ull. intros HA HD Hle Hq. destruct (split_spec 0 A ltac:(unfold is_ull; lia)) as (Hu1 & Hz & EA).
  destruct (split_spec v0 D ltac:(unfold is_ull; lia)) as (Hv & _ & ED).
  assert (Hu : digits_ok 0 (split 0 A)).
  { split; [apply Hu1|]. intros i Hi. destruct (Z.eq_dec i 0) as [->|]; [rewrite Hz, B_eq; lia|]. apply Hu1. lia. }
  set (lu := split 0 A) in *. set (lv := split v0 D) in *. clearbody lu lv. unfold divide.
  destruct (skip_v_spec lu lv q0 Hv ltac:(lia)) as (v & n & Hrun & [(-> & -> & Ht & E1)|(Hn & -> & Ht & E1)]);
    erewrite run_bind by exact Hrun; cbv beta iota.
  - change (1 =? 1) with true. cbv iota.
    erewrite run_bind by (apply (rd_spec V); [apply Hv|lia]). cbn [space vspace]. change (2 + 2) with 4.
    erewrite run_bind by (apply short_div_spec; done). cbv beta iota. rewrite EA, <- E1, ED. by destruct arq; eexists.
  - destruct (Z.eqb_spec n 1); [lia|].
    destruct (divide_long lu lv q0 (4 - n) (Z.to_nat n) arq A D) as (s & Hs); try done; try lia.
    rewrite Z2Nat.id in Hs by lia. exists s. exact Hs.
Qed.

(** *** The routines *)

Lemma qdivrem_eq v0 q0 arq A D : is_ull A -> is_ull D -> D <> 0 -> length q0 = 5%nat ->
  __qdivrem v0 q0 A D arq = Some (A / D, if arq then Some (A mod D) else None).
Proof.
  unfold is_ull. intros HA HD Hne Hq. unfold __qdivrem. destruct (Z.eqb_spec D 0); [done|].
  destruct (Z.ltb_spec A D). { rewrite Z.div_small, Z.mod_small by lia. done. }
  destruct (divide_spec v0 q0 arq A D HA) as [s ->]; (done || lia).
Qed.

(** A magnitude as the code takes it. *)
Lemma magnitude a : is_ll a -> (if a <? 0 then u64 (- u64 a) else u64 a) = Z.abs a /\ is_ull (Z.abs a).
Proof.
  unfold is_ll, is_ull. intros Ha. split; [|lia]. unfold u64. destruct (Z.ltb_spec a 0).
  - rewrite <- (Z.mod_add a 1), (Z.mod_small (a + _)), <- (Z.mod_add _ 1), Z.mod_small by lia. lia.
  - rewrite Z.mod_small; lia.
Qed.

Lemma divdi3_eq v0 q0 a b : is_ll a -> is_ll b -> b <> 0 -> length q0 = 5%nat -> __divdi3 v0 q0 a b = Some (s64 (Z.quot a b)).
Proof.
  intros Ha Hb Hne Hq. destruct (magnitude a Ha) as [Ea Ra], (magnitude b Hb) as [Eb Rb]. unfold __divdi3.
  assert (E : forall neg, (if b <? 0 then (u64 (- u64 b), negb neg) else (u64 b, neg)) = (Z.abs b, xorb neg (b <? 0))).
  { intros neg. rewrite <- Eb. destruct (b <? 0), neg; done. }
  assert (E' : (if a <? 0 then (u64 (- u64 a), true) else (u64 a, false)) = (Z.abs a, a <? 0)).
  { rewrite <- Ea. by destruct (a <? 0). }
  rewrite E', E, qdivrem_eq by (done || lia). simpl. f_equal. rewrite Z.quot_div by done. rewrite <- !Z.quot_div_nonneg by lia.
  rewrite Z.quot_div_nonneg by lia. destruct (u64_mod (- (Z.abs a / Z.abs b))) as [k Hk].
  destruct (Z.ltb_spec a 0), (Z.ltb_spec b 0); simpl xorb; cbv iota.
  - rewrite !Z.sgn_neg by lia. f_equal. lia.
  - rewrite Z.sgn_neg by lia. rewrite (Z.sgn_pos b) by lia. rewrite Hk. apply (s64_eq _ _ k). lia.
  - destruct (Z.eq_dec a 0) as [->|]; [by rewrite !Z.div_0_l by lia|]. rewrite (Z.sgn_neg b), (Z.sgn_pos a) by lia. rewrite Hk. apply (s64_eq _ _ k). lia.
  - destruct (Z.eq_dec a 0) as [->|]; [by rewrite !Z.div_0_l by lia|]. rewrite (Z.sgn_pos b), (Z.sgn_pos a) by lia. f_equal. lia.
Qed.

Lemma moddi3_eq v0 q0 a b : is_ll a -> is_ll b -> b <> 0 -> length q0 = 5%nat -> __moddi3 v0 q0 a b = Some (Z.rem a b).
Proof.
  intros Ha Hb Hne Hq. destruct (magnitude a Ha) as [Ea Ra], (magnitude b Hb) as [Eb Rb]. unfold __moddi3.
  assert (E' : (if a <? 0 then (u64 (- u64 a), true) else (u64 a, false)) = (Z.abs a, a <? 0)).
  { rewrite <- Ea. by destruct (a <? 0). }
  rewrite E', Eb, qdivrem_eq by (done || lia). simpl. f_equal. rewrite Z.rem_mod by done.
  pose proof (Z.mod_pos_bound (Z.abs a) (Z.abs b) ltac:(lia)) as Hr. unfold is_ll in *.
  destruct (u64_mod (- (Z.abs a mod Z.abs b))) as [k Hk]. destruct (Z.ltb_spec a 0).
  - rewrite Z.sgn_neg, Hk by lia. rewrite (s64_eq _ (- (Z.abs a mod Z.abs b)) k) by lia. rewrite s64_small; [lia|unfold is_ll; lia].
  - rewrite s64_small by (unfold is_ll; lia). destruct (Z.eq_dec a 0) as [->|]; [by rewrite Z.mod_0_l by lia|]. rewrite Z.sgn_pos by lia. lia.
Qed.

(** *** What the compiler relies on *)

(** C28: [__qdivrem] (algorithm D in base 2^16) is equivalent to the division of integers: for
    every dividend and every divisor that is not 0 it returns the quotient, and stores the
    remainder when it is asked to, whatever the uninitialised arrays hold; it never reads or
    writes outside an array, and [__udivdi3] and [__umoddi3] are the quotient and the
    remainder.  A divisor of 0 traps. *)
Theorem qdivrem_divides v0 q0 a b arq : is_ull a -> is_ull b -> length q0 = 5%nat ->
  __qdivrem v0 q0 a b arq = (if b =? 0 then None else Some (a / b, if arq then Some (a mod b) else None)) /\
  __udivdi3 v0 q0 a b = (if b =? 0 then None else Some (a / b)) /\
  __umoddi3 v0 q0 a b = (if b =? 0 then None else Some (a mod b)).
Proof.
  intros Ha Hb Hq. unfold __udivdi3, __umoddi3. destruct (Z.eqb_spec b 0) as [->|Hne].
  - split_and!; done.
  - rewrite !qdivrem_eq by done. done.
Qed.

Lemma qdivrem_divides_witness :
  __qdivrem 0 [1; 2; 3; 4; 5] 0x800000000003 0x200000000001 true = Some (3, Some 0x200000000000) /\
  __umoddi3 0 [1; 2; 3; 4; 5] 1000000007 10 = Some 7.
Proof.
  split.
  - destruct (qdivrem_divides 0 [1; 2; 3; 4; 5] 0x800000000003 0x200000000001 true) as (H & _ & _);
      [unfold is_ull; lia|unfold is_ull; lia|done|]. rewrite H. vm_compute. reflexivity.
  - destruct (qdivrem_divides 0 [1; 2; 3; 4; 5] 1000000007 10 true) as (_ & _ & H);
      [unfold is_ull; lia|unfold is_ull; lia|done|]. rewrite H. reflexivity.
Defined.

(** C29: the routines for [long long] are equivalent to the operations on integers, reduced to
    64 bits: sum, difference, negation, product, comparison, bitwise operations, shifts by
    less than 64, and the quotient and remainder that round towards zero (the quotient of
    the smallest number by -1 wraps). *)
Theorem long_long_arithmetic v0 q0 a b n : is_ll a -> is_ll b -> 0 <= n < 64 -> length q0 = 5%nat ->
  __adddi3 a b = s64 (a + b) /\ __subdi3 a b = s64 (a - b) /\ __negdi2 a = s64 (- a) /\ __muldi3 a b = s64 (a * b) /\
  __cmpdi2 a b = cmp3 a b /\ __ucmpdi2 (u64 a) (u64 b) = cmp3 (u64 a) (u64 b) /\
  (__anddi3 a b = s64 (Z.land a b) /\ __iordi3 a b = s64 (Z.lor a b) /\ __xordi3 a b = s64 (Z.lxor a b) /\
   __one_cmpldi2 a = s64 (Z.lnot a)) /\
  __ashldi3 a n = s64 (a * 2 ^ n) /\ __lshldi3 a n = s64 (a * 2 ^ n) /\
  __ashrdi3 a n = a / 2 ^ n /\ __lshrdi3 a n = s64 (u64 a / 2 ^ n) /\
  (b <> 0 -> __divdi3 v0 q0 a b = Some (s64 (Z.quot a b)) /\ __moddi3 v0 q0 a b = Some (Z.rem a b)).
Proof.
  intros Ha Hb Hn Hq.
  split; [apply adddi3_spec|]. split; [apply subdi3_spec|]. split; [apply negdi2_spec|]. split; [by apply muldi3_spec|].
  split; [by apply cmpdi2_spec|]. split; [apply ucmpdi2_spec; apply u64_range|]. split; [apply bits_spec|].
  split; [by apply ashldi3_spec|]. split; [by apply lshldi3_spec|]. split; [by apply ashrdi3_spec|].
  split; [by apply lshrdi3_spec|]. intros Hne. split; [by apply divdi3_eq|by apply moddi3_eq].
Qed.

Lemma long_long_arithmetic_witness : __muldi3 (-123456789012345) 987654321 = s64 (-123456789012345 * 987654321) /\
  __divdi3 0 [0; 0; 0; 0; 0] (-7) 2 = Some (-3).
Proof.
  split.
  - destruct (long_long_arithmetic 0 [0; 0; 0; 0; 0] (-123456789012345) 987654321 0) as (_ & _ & _ & H & _);
      [unfold is_ll; lia|unfold is_ll; lia|lia|done|exact H].
  - destruct (long_long_arithmetic 0 [0; 0; 0; 0; 0] (-7) 2 0) as (_ & _ & _ & _ & _ & _ & _ & _ & _ & _ & _ & H);
      [unfold is_ll; lia|unfold is_ll; lia|lia|done|]. destruct (H ltac:(lia)) as [-> _]. reflexivity.
Defined.

End DivTheory.
