(* ===== verification/Hangman.v ===== *)
(** * The deadlock detector: kern/thread/hangman.c

    Actors (CPUs and threads) wait for lockables (spinlocks and locks) and hold them.  A
    lockable has at most one holder and an actor waits for at most one lockable, so the
    waits-for graph is a function and the search for a cycle is a walk.  Theorems: on an
    acyclic graph the walk ends, [hangman_wait] panics exactly when the wait would close a
    cycle, and every sequence of calls keeps the graph acyclic. *)

From S2P Require Import Prelude Cpu Synch.

Module Hangman.
Import Cpu Synch.

(** *** State *)

Record hangman_actor := mk_actor { a_name : string; a_waiting : Z }.
Record hangman_lockable := mk_lockable { l_name : string; l_holding : Z }.

(** Objects by address; 0 is NULL. *)
Record hm := mk_hm { actors : gmap Z hangman_actor; lockables : gmap Z hangman_lockable; h_cpu : cpu }.

Definition set_actors (m : gmap Z hangman_actor) (s : hm) : hm := mk_hm m (lockables s) (h_cpu s).
Definition set_lockables (m : gmap Z hangman_lockable) (s : hm) : hm := mk_hm (actors s) m (h_cpu s).

#[refine, export] Instance hm_cpu_lens : Lens hm cpu := {
  lens_get := h_cpu; lens_set := fun c s => mk_hm (actors s) (lockables s) c
}.
Proof. all: by intros; repeat match goal with x : hm |- _ => destruct x end. Defined.

(** [hangman_lock], and the address of its own lockable. *)
Definition hangman_lock : splid := ("hangman_lock", 0).
Definition hangman_lock_hangman : Z := 1.

(** *** hangman_check *)

(** The loop that follows holders and what they wait for; true is [goto found]. *)
Fixpoint walk (fuel : nat) (cur target : Z) : M hm bool :=
  match fuel with
  | O => out_of_fuel
  | S fuel' =>
      if cur =? 0 then mret false
      else if cur =? target then mret true
      else
        s ← get;
        a ← deref (actors s !! cur);
        if a_waiting a =? 0 then mret false
        else l ← deref (lockables s !! a_waiting a); walk fuel' (l_holding l) target
  end.

(** The printout: the actors and lockables of the cycle. *)
Fixpoint report (fuel : nat) (cur target : Z) : M hm (list (Z * Z)) :=
  match fuel with
  | O => out_of_fuel
  | S fuel' =>
      if cur =? target then mret [(cur, 0)]
      else
        s ← get;
        a ← deref (actors s !! cur);
        l ← deref (lockables s !! a_waiting a);
        r ← report fuel' (l_holding l) target;
        mret ((cur, a_waiting a) :: r)
  end.

Definition hangman_check (start target : Z) : M hm unit :=
  s ← get;
  l ← deref (lockables (s : hm) !! start);
  let fuel := S (size (actors s)) in
  found ← walk fuel (l_holding l) target;
  if (found : bool) then
    _ ← zoom splhigh;
    _ ← zoom (spinlock_release hangman_lock);
    _ ← report fuel (l_holding l) target;
    panic "Deadlock."
  else mret tt.

(** *** The calls *)

Definition set_waiting (a l : Z) : M hm unit :=
  s ← get;
  x ← deref (actors s !! a);
  modify (set_actors (<[a := mk_actor (a_name x) l]> (actors s))).

Definition set_holding (l a : Z) : M hm unit :=
  s ← get;
  x ← deref (lockables s !! l);
  modify (set_lockables (<[l := mk_lockable (l_name x) a]> (lockables s))).

Definition hangman_wait (a l : Z) : M hm unit :=
  if l =? hangman_lock_hangman then mret tt
  else
    _ ← zoom (spinlock_acquire hangman_lock);
    s ← get;
    x ← deref (actors s !! a);
    if negb (a_waiting x =? 0) then
      _ ← zoom (spinlock_release hangman_lock);
      panic "hangman_wait: already waiting for something?"
    else
      _ ← hangman_check l a;
      _ ← set_waiting a l;
      zoom (spinlock_release hangman_lock).

Definition hangman_acquire (a l : Z) : M hm unit :=
  if l =? hangman_lock_hangman then mret tt
  else
    _ ← zoom (spinlock_acquire hangman_lock);
    s ← get;
    x ← deref (actors s !! a);
    if negb (a_waiting x =? l) then
      _ ← zoom (spinlock_release hangman_lock);
      panic "hangman_acquire: not waiting for lock"
    else
      y ← deref (lockables s !! l);
      if negb (l_holding y =? 0) then
        _ ← zoom (spinlock_release hangman_lock);
        panic "hangman_acquire: lock still held"
      else
        _ ← set_holding l a;
        _ ← set_waiting a 0;
        zoom (spinlock_release hangman_lock).

Definition hangman_release (a l : Z) : M hm unit :=
  if l =? hangman_lock_hangman then mret tt
  else
    _ ← zoom (spinlock_acquire hangman_lock);
    s ← get;
    x ← deref (actors s !! a);
    if negb (a_waiting x =? 0) then
      _ ← zoom (spinlock_release hangman_lock);
      panic "hangman_release: waiting for something?"
    else
      y ← deref (lockables s !! l);
      if negb (l_holding y =? a) then
        _ ← zoom (spinlock_release hangman_lock);
        panic "hangman_release: not the holder"
      else
        _ ← set_holding l 0;
        zoom (spinlock_release hangman_lock).

(** HANGMAN_ACTORINIT and HANGMAN_LOCKABLEINIT *)
Definition hangman_actorinit (a : Z) (n : string) : M hm unit :=
  modify (fun s => set_actors (<[a := mk_actor n 0]> (actors s)) s).
Definition hangman_lockableinit (l : Z) (n : string) : M hm unit :=
  modify (fun s => set_lockables (<[l := mk_lockable n 0]> (lockables s)) s).

(** *** The waits-for graph *)

(** [b] holds what [a] waits for. *)
Definition waits_for (s : hm) (a b : Z) : Prop :=
  exists x l, actors s !! a = Some x /\ a_waiting x <> 0 /\ lockables s !! a_waiting x = Some l /\ l_holding l = b /\ b <> 0.

(** No deadlock: no actor waits, through others, for itself. *)
Definition acyclic (s : hm) : Prop := forall a, ~ tc (waits_for s) a a.

(** Pointers lead to objects, and the detector's lock is free. *)
Definition valid (s : hm) : Prop :=
  (actors s !! 0 = None /\ lockables s !! 0 = None) /\
  (forall a x, actors s !! a = Some x -> a_waiting x <> 0 -> is_Some (lockables s !! a_waiting x)) /\
  (forall l y, lockables s !! l = Some y -> l_holding y <> 0 -> is_Some (actors s !! l_holding y)).

Definition good (s : hm) : Prop :=
  valid s /\ acyclic s /\ cpu_wf (h_cpu s) /\ splk (h_cpu s) !! hangman_lock = None.

Lemma waits_for_actor s a b : waits_for s a b -> is_Some (actors s !! a).
Proof. intros (x & l & Ha & _). by exists x. Qed.

Lemma waits_for_fun s a b c : waits_for s a b -> waits_for s a c -> b = c.
Proof. intros (x & l & Ha & _ & Hl & <- & _) (x' & l' & Ha' & _ & Hl' & <- & _). simplify_eq. done. Qed.

(** The walk from [cur] ends, and finds [target] exactly when it is reached.  [X] are the
    actors behind the walk: they all lead to [cur], so it is none of them. *)
Lemma walk_spec s target : valid s -> acyclic s -> forall fuel (X : gset Z) cur,
  X ⊆ dom (actors s) -> (forall x, x ∈ X -> tc (waits_for s) x cur) -> (size (actors s) < size X + fuel)%nat ->
  cur = 0 \/ is_Some (actors s !! cur) ->
  exists b : bool, walk fuel cur target s = Ret b s /\ (b = true <-> cur <> 0 /\ rtc (waits_for s) cur target).
Proof.
  intros ([H0 _] & Hw & Hh) Hac. induction fuel as [|fuel IH]; intros X cur HX Hback Hsz Hcur.
  { apply subseteq_size in HX. rewrite size_dom in HX. lia. }
  cbn [walk]. destruct (Z.eqb_spec cur 0) as [->|Hne]; [exists false; split; [done|]; split; [done|]; by intros []|].
  destruct Hcur as [?|[x Hx]]; [done|].
  destruct (Z.eqb_spec cur target) as [->|Hnt]; [exists true; split; [done|]; split; [|done]; intros _; split; [done|apply rtc_refl]|].
  erewrite run_bind by reflexivity. rewrite Hx. erewrite run_bind by reflexivity.
  destruct (Z.eqb_spec (a_waiting x) 0) as [Hz|Hnz].
  { exists false. split; [done|]. split; [done|]. intros [_ Hr]. inversion Hr as [|? y ? (x' & l & Hx' & Hnw & _) _]; [done|]. simplify_eq. }
  destruct (Hw cur x Hx Hnz) as [l Hl]. rewrite Hl. erewrite run_bind by reflexivity.
  destruct (Z.eq_dec (l_holding l) 0) as [Hz|Hh0].
  { exists false. split.
    - destruct fuel; [|cbn [walk]; by rewrite Hz].
      assert (HX' : {[cur]} ∪ X ⊆ dom (actors s)) by (apply union_subseteq; split; [|done]; apply singleton_subseteq_l, elem_of_dom; by exists x).
      apply subseteq_size in HX'. rewrite size_dom, size_union, size_singleton in HX'; [lia|].
      apply disjoint_singleton_l. intros Hc. by apply (Hac cur), Hback.
    - split; [done|]. intros [_ Hr]. inversion Hr as [|? y ? (x' & l' & Hx' & _ & Hl' & Hy & Hny) _]; [done|]. simplify_eq. }
  assert (Hedge : waits_for s cur (l_holding l)) by (exists x, l; done).
  destruct (IH ({[cur]} ∪ X) (l_holding l)) as (b & Hrun & Hb).
  - apply union_subseteq. split; [|done]. apply singleton_subseteq_l, elem_of_dom. by exists x.
  - intros y [->%elem_of_singleton|Hy]%elem_of_union; [by apply tc_once|]. eapply tc_r; [by apply Hback|done].
  - rewrite size_union, size_singleton; [lia|]. apply disjoint_singleton_l. intros Hc. by apply (Hac cur), Hback.
  - right. by apply (Hh (a_waiting x) l).
  - exists b. split; [done|]. rewrite Hb. split.
    + intros [_ Hr]. split; [done|]. by eapply rtc_l.
    + intros [_ Hr]. split; [done|]. inversion Hr as [|? y ? Hy Hr']; [done|]. subst. by rewrite (waits_for_fun s cur (l_holding l) y).
Qed.

(** The printout of a cycle that was found ends. *)
Lemma report_spec target : forall fuel cur s c, walk fuel cur target s = Ret true s ->
  exists r, report fuel cur target (mk_hm (actors s) (lockables s) c) = Ret r (mk_hm (actors s) (lockables s) c).
Proof.
  induction fuel as [|fuel IH]; intros cur s c; [done|]. cbn [walk report].
  destruct (cur =? 0); [done|]. destruct (cur =? target); [by eexists|].
  erewrite run_bind by reflexivity. intros Hw. erewrite run_bind by reflexivity. cbn [actors].
  destruct (actors s !! cur) as [x|]; [|done]. rewrite (run_bind _ _ s x s) in Hw by done. erewrite run_bind by reflexivity.
  destruct (a_waiting x =? 0); [done|]. cbn [lockables].
  destruct (lockables s !! a_waiting x) as [l|]; [|done]. rewrite (run_bind _ _ s l s) in Hw by done. erewrite run_bind by reflexivity.
  destruct (IH _ _ c Hw) as [r Hr]. erewrite run_bind by exact Hr. by eexists.
Qed.

(** *** What the calls do to the graph *)

(** [a] starts to wait for a lockable held by [h]: a new edge from [a] to [h]. *)
Lemma acyclic_add (R R' : Z -> Z -> Prop) a h : (forall x, ~ tc R x x) ->
  (forall x y, R' x y -> R x y \/ x = a /\ y = h) -> ~ rtc R h a -> forall x, ~ tc R' x x.
Proof.
  intros Hac Hnew Hno.
  assert (A : forall x y, tc R' x y -> tc R x y \/ rtc R x a /\ rtc R' h y).
  { intros x y. induction 1 as [x y [Hr|[-> ->]]%Hnew|x z y Hxz Hzy [IH|[IH1 IH2]]].
    - left. by apply tc_once.
    - right. split; apply rtc_refl.
    - destruct (Hnew _ _ Hxz) as [Hr|[-> ->]]; [left; by eapply tc_l|right; split; [apply rtc_refl|by apply tc_rtc]].
    - right. split; [|done]. destruct (Hnew _ _ Hxz) as [Hr|[-> ->]]; [by eapply rtc_l|apply rtc_refl]. }
  assert (Bh : forall y, rtc R' h y -> rtc R h y \/ rtc R h a).
  { intros y [<-|Ht]%rtc_tc; [left; apply rtc_refl|]. destruct (A _ _ Ht) as [Ht'|[Ht' _]]; [left; by apply tc_rtc|by right]. }
  intros x Hx. destruct (A _ _ Hx) as [Ho|[Hxa Hhx]]; [by apply (Hac x)|].
  destruct (Bh _ Hhx) as [Hhx'|Hha]; [|done]. apply Hno. by transitivity x.
Qed.

(** [a] takes a lockable: new edges lead to [a], which waits for nothing. *)
Lemma acyclic_take (R R' : Z -> Z -> Prop) a : (forall x, ~ tc R x x) ->
  (forall x y, R' x y -> R x y \/ y = a) -> (forall y, ~ R a y) -> (forall y, ~ R' a y) -> forall x, ~ tc R' x x.
Proof.
  intros Hac Hnew Hna Hna'.
  assert (A : forall x y, tc R' x y -> tc R x y \/ y = a).
  { intros x y. induction 1 as [x y [Hr| ->]%Hnew|x z y Hxz Hzy [IH| ->]]; [left; by apply tc_once|by right| |by right].
    destruct (Hnew _ _ Hxz) as [Hr| ->]; [left; by eapply tc_l|]. exfalso. inversion IH; subst; by eapply Hna. }
  intros x Hx. destruct (A _ _ Hx) as [Ho| ->]; [by apply (Hac x)|]. inversion Hx; subst; by eapply Hna'.
Qed.

Lemma acyclic_sub (R R' : Z -> Z -> Prop) : (forall x, ~ tc R x x) -> (forall x y, R' x y -> R x y) -> forall x, ~ tc R' x x.
Proof.
  intros Hac Hsub x Hx. apply (Hac x). assert (A : forall y z, tc R' y z -> tc R y z); [|by apply A].
  intros y z. induction 1 as [y z Hr|y w z Hr _ IH]; [by apply tc_once, Hsub|]. eapply tc_l; [by apply Hsub|done].
Qed.

(** The state with the actor, or the lockable, changed. *)
Definition waiting_for (a : Z) (x : hangman_actor) (l : Z) (s : hm) : hm := set_actors (<[a := mk_actor (a_name x) l]> (actors s)) s.
Definition held_by (l : Z) (y : hangman_lockable) (a : Z) (s : hm) : hm := set_lockables (<[l := mk_lockable (l_name y) a]> (lockables s)) s.

Lemma wait_valid s a x l : valid s -> actors s !! a = Some x -> l = 0 \/ is_Some (lockables s !! l) -> valid (waiting_for a x l s).
Proof.
  intros ([H0 H0'] & Hw & Hh) Ha Hl. assert (a <> 0) by (intros ->; congruence). split_and!; [|done| |].
  - cbn. by rewrite lookup_insert_ne by done.
  - intros b z Hb Hz. cbn in *. destruct (decide (a = b)) as [->|].
    + rewrite lookup_insert_eq in Hb. simplify_eq. by destruct Hl.
    + rewrite lookup_insert_ne in Hb by done. by apply (Hw b).
  - intros k z Hk Hz. cbn in *. destruct (decide (a = l_holding z)) as [->|]; [by rewrite lookup_insert_eq|].
    rewrite lookup_insert_ne by done. by apply (Hh k).
Qed.

Lemma hold_valid s l y a : valid s -> lockables s !! l = Some y -> a = 0 \/ is_Some (actors s !! a) -> valid (held_by l y a s).
Proof.
  intros ([H0 H0'] & Hw & Hh) Hl Ha. assert (l <> 0) by (intros ->; congruence). split_and!; [done| | |].
  - cbn. by rewrite lookup_insert_ne by done.
  - intros b z Hb Hz. cbn in *. destruct (decide (l = a_waiting z)) as [->|]; [by rewrite lookup_insert_eq|].
    rewrite lookup_insert_ne by done. by apply (Hw b).
  - intros k z Hk Hz. cbn in *. destruct (decide (l = k)) as [->|].
    + rewrite lookup_insert_eq in Hk. simplify_eq. by destruct Ha.
    + rewrite lookup_insert_ne in Hk by done. by apply (Hh k).
Qed.

Lemma wait_acyclic s a x l y : acyclic s -> actors s !! a = Some x -> a_waiting x = 0 -> lockables s !! l = Some y ->
  ~ (l_holding y <> 0 /\ rtc (waits_for s) (l_holding y) a) -> acyclic (waiting_for a x l s).
Proof.
  intros Hac Ha Hx Hl Hno. destruct (decide (l_holding y = 0)) as [Hz|Hz].
  - refine (acyclic_sub (waits_for s) _ Hac _). intros b c (z & k & Hb & Hnz & Hk & Hc & Hnc). cbn in *.
    destruct (decide (a = b)) as [->|]; [rewrite lookup_insert_eq in Hb; simplify_eq; simpl in *; simplify_eq|].
    rewrite lookup_insert_ne in Hb by done. by exists z, k.
  - refine (acyclic_add (waits_for s) _ a (l_holding y) Hac _ _); [|tauto]. intros b c (z & k & Hb & Hnz & Hk & Hc & Hnc). cbn in *.
    destruct (decide (a = b)) as [->|]; [rewrite lookup_insert_eq in Hb; simplify_eq; simpl in *; simplify_eq; by right|].
    rewrite lookup_insert_ne in Hb by done. left. by exists z, k.
Qed.

Lemma take_acyclic s a x l y : acyclic s -> actors s !! a = Some x -> a_waiting x = l -> lockables s !! l = Some y -> l_holding y = 0 ->
  acyclic (waiting_for a x 0 (held_by l y a s)).
Proof.
  intros Hac Ha Hx Hl Hy. refine (acyclic_take (waits_for s) _ a Hac _ _ _).
  - intros b c (z & k & Hb & Hnz & Hk & Hc & Hnc). cbn in *. destruct (decide (a = b)) as [->|]; [rewrite lookup_insert_eq in Hb; by simplify_eq|].
    rewrite lookup_insert_ne in Hb by done. destruct (decide (l = a_waiting z)) as [->|]; [rewrite lookup_insert_eq in Hk; simplify_eq; by right|].
    rewrite lookup_insert_ne in Hk by done. left. by exists z, k.
  - intros c (z & k & Hb & Hnz & Hk & Hc & Hnc). simplify_eq.
  - intros c (z & k & Hb & Hnz & Hk & Hc & Hnc). cbn in *. rewrite lookup_insert_eq in Hb. by simplify_eq.
Qed.

Lemma drop_acyclic s l y : acyclic s -> lockables s !! l = Some y -> acyclic (held_by l y 0 s).
Proof.
  intros Hac Hl. refine (acyclic_sub (waits_for s) _ Hac _). intros b c (z & k & Hb & Hnz & Hk & Hc & Hnc). cbn in *.
  destruct (decide (l = a_waiting z)) as [->|]; [rewrite lookup_insert_eq in Hk; simplify_eq; by simpl in *|].
  rewrite lookup_insert_ne in Hk by done. by exists z, k.
Qed.

(** *** The calls *)

Definition with_cpu (c : cpu) (s : hm) : hm := mk_hm (actors s) (lockables s) c.

Lemma hangman_lock_eq s : good s -> zoom (spinlock_acquire hangman_lock) s = Ret tt (with_cpu (acq hangman_lock (h_cpu s)) s).
Proof. intros (_ & _ & Hc & Hl). unfold zoom. simpl. by rewrite spinlock_acquire_eq. Qed.

Lemma hangman_unlock_eq s c : cpu_wf c -> splk c !! hangman_lock = None -> h_cpu s = acq hangman_lock c ->
  zoom (spinlock_release hangman_lock) s = Ret tt (with_cpu c s).
Proof. intros Hc Hl E. unfold zoom. simpl. by rewrite E, spinlock_release_acq. Qed.

(** The check under the lock: a panic when [a] is reached from the holder of [l]. *)
Lemma hangman_check_eq s a l y c : valid s -> acyclic s -> lockables s !! l = Some y -> h_cpu s = acq hangman_lock c -> cpu_wf c ->
  splk c !! hangman_lock = None ->
  let closes := l_holding y <> 0 /\ rtc (waits_for s) (l_holding y) a in
  (closes /\ hangman_check l a s = Panic "Deadlock.") \/ (~ closes /\ hangman_check l a s = Ret tt s).
Proof.
  intros Hv Hac Hl Hcpu Hc Hfree closes. pose proof Hv as (_ & _ & Hh). unfold hangman_check.
  erewrite run_bind by reflexivity. rewrite Hl. erewrite run_bind by reflexivity. cbv zeta.
  destruct (walk_spec s a Hv Hac (S (size (actors s))) ∅ (l_holding y)) as (b & Hrun & Hb).
  { apply empty_subseteq. } { intros x Hx. by apply not_elem_of_empty in Hx. } { rewrite size_empty. lia. }
  { destruct (decide (l_holding y = 0)); [by left|right]. by apply (Hh l). }
  erewrite run_bind by exact Hrun. destruct b; [left|right; split; [|done]; intros Hcl; by apply Hb in Hcl].
  split; [by apply Hb|]. pose proof (acq_wf c hangman_lock Hc Hfree) as Hwf.
  rewrite (run_bind _ _ s (t_curspl (h_cpu s)) (with_cpu (high (h_cpu s)) s)).
  2: { unfold zoom. simpl. by rewrite Hcpu, splhigh_eq. }
  assert (exists c', zoom (spinlock_release hangman_lock) (with_cpu (high (h_cpu s)) s) = Ret tt (with_cpu c' s)) as [c' Hrel].
  { assert (Hheld : splk (high (acq hangman_lock c)) !! hangman_lock = Some (c_self (high (acq hangman_lock c)))).
    { unfold high. case_match; apply lookup_insert_eq. }
    pose proof (spinlock_release_spec _ hangman_lock (high_wf _ Hwf) Hheld) as Hw. unfold wp in Hw.
    unfold zoom. simpl. rewrite Hcpu. destruct (spinlock_release hangman_lock (high (acq hangman_lock c))) as [[] c'| | | | |]; try done. by exists c'. }
  erewrite run_bind by exact Hrel. destruct (report_spec a _ _ _ c' Hrun) as [r Hr].
  erewrite run_bind by exact Hr. done.
Qed.

(** [hangman_wait]: the panic, or the actor waits. *)
Lemma hangman_wait_eq s a l x y : good s -> actors s !! a = Some x -> a_waiting x = 0 -> lockables s !! l = Some y ->
  l <> hangman_lock_hangman ->
  let closes := l_holding y <> 0 /\ rtc (waits_for s) (l_holding y) a in
  (closes /\ hangman_wait a l s = Panic "Deadlock.") \/
  (~ closes /\ hangman_wait a l s = Ret tt (waiting_for a x l s) /\ good (waiting_for a x l s)).
Proof.
  intros Hg Ha Hx Hl Hne closes. pose proof Hg as (Hv & Hac & Hc & Hfree). unfold hangman_wait.
  apply Z.eqb_neq in Hne. rewrite Hne. erewrite run_bind by (by apply hangman_lock_eq).
  set (s1 := with_cpu (acq hangman_lock (h_cpu s)) s). erewrite run_bind by reflexivity.
  change (actors s1) with (actors s). rewrite Ha. erewrite run_bind by reflexivity. rewrite Hx. change (negb (0 =? 0)) with false. cbv iota.
  destruct (hangman_check_eq s1 a l y (h_cpu s) Hv Hac Hl eq_refl Hc Hfree) as [[Hcl Hrun]|[Hncl Hrun]].
  - left. split; [exact Hcl|]. by rewrite (run_bind_panic _ _ _ _ Hrun).
  - right. split; [exact Hncl|]. erewrite run_bind by exact Hrun.
    rewrite (run_bind _ _ s1 tt (waiting_for a x l s1)).
    2: { unfold set_waiting. erewrite run_bind by reflexivity. change (actors s1) with (actors s). rewrite Ha. by erewrite run_bind by reflexivity. }
    rewrite (hangman_unlock_eq _ (h_cpu s)) by done. split; [by destruct s|].
    split_and!; [apply wait_valid; try done; right; by exists y|by apply (wait_acyclic s a x l y)|done|done].
Qed.

Definition returns_good (s : hm) (m : M hm unit) : Prop :=
  (exists msg, m s = Panic msg) \/ exists s', m s = Ret tt s' /\ good s' /\ dom (actors s') = dom (actors s) /\ dom (lockables s') = dom (lockables s).

(** The panic of a call that found the books wrong. *)
Lemma unlock_panic s msg : good s ->
  exists msg', (_ ← zoom (spinlock_release hangman_lock); (panic msg : M hm unit)) (with_cpu (acq hangman_lock (h_cpu s)) s) = Panic msg'.
Proof. intros (_ & _ & Hc & Hfree). erewrite run_bind by (by apply (hangman_unlock_eq _ (h_cpu s))). by eexists. Qed.

Lemma hangman_wait_good s a l : good s -> is_Some (actors s !! a) -> is_Some (lockables s !! l) -> returns_good s (hangman_wait a l).
Proof.
  intros Hg [x Ha] [y Hl]. destruct (decide (l = hangman_lock_hangman)) as [->|Hne]; [right; by exists s|].
  destruct (decide (a_waiting x = 0)) as [Hx|Hx].
  - destruct (hangman_wait_eq s a l x y Hg Ha Hx Hl Hne) as [[_ Hr]|(_ & Hr & Hg')]; [left; by eexists|right].
    eexists. split; [exact Hr|]. split; [done|]. split; [|done]. apply dom_insert_lookup_L. by exists x.
  - left. unfold hangman_wait. apply Z.eqb_neq in Hne, Hx. rewrite Hne. erewrite run_bind by (by apply hangman_lock_eq).
    erewrite run_bind by reflexivity. cbn [actors with_cpu]. rewrite Ha. erewrite run_bind by reflexivity. rewrite Hx. by apply unlock_panic.
Qed.

Lemma set_holding_eq s l y a : lockables s !! l = Some y -> set_holding l a s = Ret tt (held_by l y a s).
Proof. intros Hl. unfold set_holding. erewrite run_bind by reflexivity. rewrite Hl. by erewrite run_bind by reflexivity. Qed.

Lemma set_waiting_eq s a x l : actors s !! a = Some x -> set_waiting a l s = Ret tt (waiting_for a x l s).
Proof. intros Ha. unfold set_waiting. erewrite run_bind by reflexivity. rewrite Ha. by erewrite run_bind by reflexivity. Qed.

Lemma hangman_acquire_good s a l : good s -> is_Some (actors s !! a) -> is_Some (lockables s !! l) -> returns_good s (hangman_acquire a l).
Proof.
  intros Hg [x Ha] [y Hl]. pose proof Hg as (Hv & Hac & Hc & Hfree). unfold returns_good, hangman_acquire.
  destruct (l =? hangman_lock_hangman); [right; by exists s|]. erewrite run_bind by (by apply hangman_lock_eq).
  set (s1 := with_cpu (acq hangman_lock (h_cpu s)) s). erewrite run_bind by reflexivity.
  change (actors s1) with (actors s). change (lockables s1) with (lockables s). rewrite Ha. erewrite run_bind by reflexivity.
  destruct (Z.eqb_spec (a_waiting x) l) as [Hx|Hx]; [|left; by apply unlock_panic]. cbn [negb].
  rewrite Hl. erewrite run_bind by reflexivity.
  destruct (Z.eqb_spec (l_holding y) 0) as [Hy|Hy]; [|left; by apply unlock_panic]. cbn [negb].
  right. erewrite run_bind by (by apply set_holding_eq). erewrite run_bind by (by apply set_waiting_eq).
  rewrite (hangman_unlock_eq _ (h_cpu s)) by done. eexists. split; [reflexivity|]. split.
  - assert (Hv1 : valid (held_by l y a s)) by (apply hold_valid; try done; right; by exists x).
    split_and!; [apply (wait_valid _ a x 0 Hv1 Ha); by left|by apply (take_acyclic s a x l y)|done|done].
  - split; apply dom_insert_lookup_L; [by exists x|by exists y].
Qed.

Lemma hangman_release_good s a l : good s -> is_Some (actors s !! a) -> is_Some (lockables s !! l) -> returns_good s (hangman_release a l).
Proof.
  intros Hg [x Ha] [y Hl]. pose proof Hg as (Hv & Hac & Hc & Hfree). unfold returns_good, hangman_release.
  destruct (l =? hangman_lock_hangman); [right; by exists s|]. erewrite run_bind by (by apply hangman_lock_eq).
  set (s1 := with_cpu (acq hangman_lock (h_cpu s)) s). erewrite run_bind by reflexivity.
  change (actors s1) with (actors s). change (lockables s1) with (lockables s). rewrite Ha. erewrite run_bind by reflexivity.
  destruct (Z.eqb_spec (a_waiting x) 0) as [Hx|Hx]; [|left; by apply unlock_panic]. cbn [negb].
  rewrite Hl. erewrite run_bind by reflexivity.
  destruct (Z.eqb_spec (l_holding y) a) as [Hy|Hy]; [|left; by apply unlock_panic]. cbn [negb].
  right. erewrite run_bind by (by apply set_holding_eq). rewrite (hangman_unlock_eq _ (h_cpu s)) by done.
  eexists. split; [reflexivity|]. split.
  - split_and!; [apply (hold_valid s l y 0 Hv Hl); by left|by apply (drop_acyclic s l y)|done|done].
  - split; [done|]. apply dom_insert_lookup_L. by exists y.
Qed.

(** *** Sequences of calls *)

Inductive call := CWait (a l : Z) | CAcquire (a l : Z) | CRelease (a l : Z).

Definition run_call (c : call) : M hm unit :=
  match c with CWait a l => hangman_wait a l | CAcquire a l => hangman_acquire a l | CRelease a l => hangman_release a l end.

Fixpoint run_calls (cs : list call) : M hm unit :=
  match cs with [] => mret tt | c :: cs => _ ← run_call c; run_calls cs end.

(** The actor and the lockable of a call exist. *)
Definition on_objects (s : hm) (c : call) : Prop :=
  match c with CWait a l | CAcquire a l | CRelease a l => is_Some (actors s !! a) /\ is_Some (lockables s !! l) end.

Lemma run_call_good s c : good s -> on_objects s c -> returns_good s (run_call c).
Proof.
  intros Hg Hc. destruct c as [a l|a l|a l]; destruct Hc; [apply hangman_wait_good|apply hangman_acquire_good|apply hangman_release_good]; done.
Qed.

(** As in a fresh system, nobody waits. *)
Lemma nowait_acyclic s : map_Forall (fun _ x => a_waiting x = 0) (actors s) -> acyclic s.
Proof.
  intros Hw a Ht. assert (Hno : forall b, ~ waits_for s a b).
  { intros b (x & l & Ha & Hn & _). by rewrite (Hw a x Ha) in Hn. }
  inversion Ht; subst; by eapply Hno.
Qed.

(** C30: [hangman_wait] detects deadlocks, exactly: on an acyclic waits-for graph the walk
    of [hangman_check] ends, and the call panics if and only if the holder of the lockable
    is, directly or through others, waiting for the caller (or is the caller); otherwise it
    records the wait, and the graph is acyclic again. *)
Theorem hangman_wait_detects s a l x y : good s -> actors s !! a = Some x -> a_waiting x = 0 -> lockables s !! l = Some y ->
  l <> hangman_lock_hangman ->
  let closes := l_holding y <> 0 /\ rtc (waits_for s) (l_holding y) a in
  (closes -> hangman_wait a l s = Panic "Deadlock.") /\
  (~ closes -> hangman_wait a l s = Ret tt (waiting_for a x l s) /\ good (waiting_for a x l s)).
Proof.
  intros Hg Ha Hx Hl Hne closes. destruct (hangman_wait_eq s a l x y Hg Ha Hx Hl Hne) as [[Hcl Hr]|(Hncl & Hr)];
    (split; intros H; [|]); try done; by destruct Hncl || by destruct H.
Qed.

(** Two actors, each of which holds a lock; the first waits for the lock of the second. *)
Definition toy_cpu : cpu := mk_cpu true 1 1 false 0 0 true 0 ∅.
Definition toy_held : hm :=
  mk_hm {[10 := mk_actor "ten" 0; 11 := mk_actor "eleven" 0]} {[20 := mk_lockable "l20" 10; 21 := mk_lockable "l21" 11]} toy_cpu.
Definition toy_waiting : hm := waiting_for 10 (mk_actor "ten" 0) 21 toy_held.

Lemma toy_held_good : good toy_held.
Proof.
  assert (Hw : map_Forall (fun _ x => a_waiting x = 0) (actors toy_held)) by (apply map_Forall_to_list; vm_compute; repeat constructor).
  unfold good, valid. split; [|split; [by apply nowait_acyclic|split; [vm_compute; repeat split; by left|done]]].
  split; [done|]. split.
  - intros a x Ha Hn. by rewrite (Hw a x Ha) in Hn.
  - cut (map_Forall (fun _ y => is_Some (actors toy_held !! l_holding y)) (lockables toy_held)); [intros H l y Hl _; by apply (H l)|].
    apply map_Forall_to_list. vm_compute. repeat constructor; by eexists.
Qed.

Lemma hangman_wait_detects_witness :
  hangman_wait 10 21 toy_held = Ret tt toy_waiting /\ hangman_wait 11 20 toy_waiting = Panic "Deadlock.".
Proof.
  destruct (hangman_wait_detects toy_held 10 21 (mk_actor "ten" 0) (mk_lockable "l21" 11) toy_held_good eq_refl eq_refl eq_refl) as [_ H1]; [done|].
  destruct H1 as [E1 G1].
  { intros [_ Hr]. inversion Hr as [|? b ? (x & l & Hx & Hn & _) _]; subst. vm_compute in Hx. by simplify_eq. }
  split; [exact E1|].
  destruct (hangman_wait_detects toy_waiting 11 20 (mk_actor "eleven" 0) (mk_lockable "l20" 10) G1 eq_refl eq_refl eq_refl) as [H2 _]; [done|].
  apply H2. split; [done|]. apply rtc_once. exists (mk_actor "ten" 21), (mk_lockable "l21" 11). by repeat split.
Defined.

(** Any sequence of calls of the detector, from a state without a cycle, either panics or
    returns with the graph acyclic and every pointer valid: no call runs forever, follows a
    dangling pointer or leaves the detector's lock taken. *)
Theorem hangman_calls_safe cs : forall s, good s -> Forall (on_objects s) cs ->
  (exists msg, run_calls cs s = Panic msg) \/ exists s', run_calls cs s = Ret tt s' /\ good s'.
Proof.
  induction cs as [|c cs IH]; intros s Hg Hcs; [right; by exists s|]. inversion Hcs as [|? ? Hc Hcs']; subst. cbn [run_calls].
  destruct (run_call_good s c Hg Hc) as [[msg Hr]|(s' & Hr & Hg' & Ea & El)].
  - left. exists msg. by apply run_bind_panic.
  - erewrite run_bind by exact Hr. apply IH; [done|]. eapply Forall_impl; [exact Hcs'|].
    intros [a l|a l|a l]; simpl; rewrite <- !elem_of_dom, Ea, El; done.
Qed.

Lemma hangman_calls_safe_witness : exists s', run_calls [CRelease 11 21; CWait 10 21; CAcquire 10 21] toy_held = Ret tt s' /\ good s'.
Proof.
  destruct (hangman_calls_safe [CRelease 11 21; CWait 10 21; CAcquire 10 21] toy_held toy_held_good) as [[msg H]|H].
  - repeat constructor; by eexists.
  - vm_compute in H. discriminate H.
  - exact H.
Defined.

End Hangman.
