(* ===== verification/Threadlist.v ===== *)
(** * Lists of threads: kern/thread/threadlist.c

    Doubly linked lists with two bookends.  A node is the one inside a thread, or one of the
    bookends of a list; nodes and counts are in one store, so the lists share it.  The
    operations are shown to be those of a map from lists to sequences of threads. *)

From S2P Require Import Prelude.

Module Threadlist.

(** *** Nodes *)

(** [&t->t_listnode], [&tl->tl_head], [&tl->tl_tail]. *)
Inductive node := NULL | Node (t : Z) | Head (tl : Z) | Tail (tl : Z).

#[export] Instance node_eq : EqDecision node.
Proof. solve_decision. Defined.

#[export, refine] Instance node_countable : Countable node :=
  inj_countable' (fun n => match n with NULL => inl (inl tt) | Node t => inl (inr t) | Head l => inr (inl l) | Tail l => inr (inr l) end)
    (fun x : (unit + Z) + (Z + Z) => match x with inl (inl _) => NULL | inl (inr t) => Node t | inr (inl l) => Head l | inr (inr l) => Tail l end) _.
Proof. by intros []. Defined.

Record threadlistnode := mk_tln { tln_prev : node; tln_next : node; tln_self : Z }.

(** The nodes of all threads and lists, and [tl_count] of each list. *)
Record tls := mk_tls { nodes : gmap node threadlistnode; tl_count : gmap Z Z }.

Definition rd_node (n : node) : M tls threadlistnode := s ← get; deref (nodes s !! n).
Definition wr_node (n : node) (f : threadlistnode -> threadlistnode) : M tls unit :=
  s ← get;
  x ← deref (nodes s !! n);
  put (mk_tls (<[n := f x]> (nodes s)) (tl_count s)).
Definition set_prev (p : node) (x : threadlistnode) : threadlistnode := mk_tln p (tln_next x) (tln_self x).
Definition set_next (p : node) (x : threadlistnode) : threadlistnode := mk_tln (tln_prev x) p (tln_self x).

(** [tl->tl_count += d] on an [unsigned]. *)
Definition add_count (tl d : Z) : M tls unit :=
  s ← get;
  n ← deref (tl_count s !! tl);
  put (mk_tls (nodes s) (<[tl := u32 (n + d)]> (tl_count s))).

(** *** Set-up *)

(** [threadlistnode_init(&t->t_listnode, t)] *)
Definition threadlistnode_init (t self : Z) : M tls unit :=
  _ ← KASSERT (negb (self =? 0));
  modify (fun s => mk_tls (<[Node t := mk_tln NULL NULL self]> (nodes s)) (tl_count s)).

Definition threadlistnode_cleanup (t : Z) : M tls unit :=
  x ← rd_node (Node t);
  _ ← KASSERT (bool_decide (tln_next x = NULL));
  _ ← KASSERT (bool_decide (tln_prev x = NULL));
  KASSERT (negb (tln_self x =? 0)).

Definition threadlist_init (tl : Z) : M tls unit :=
  modify (fun s => mk_tls (<[Head tl := mk_tln NULL (Tail tl) 0]> (<[Tail tl := mk_tln (Head tl) NULL 0]> (nodes s)))
    (<[tl := 0]> (tl_count s))).

Definition threadlist_isempty (tl : Z) : M tls bool :=
  s ← get;
  n ← deref (tl_count s !! tl);
  mret (n =? 0).

Definition threadlist_cleanup (tl : Z) : M tls unit :=
  e ← threadlist_isempty tl;
  _ ← KASSERT e;
  s ← get;
  n ← deref (tl_count s !! tl);
  KASSERT (n =? 0).

(** *** Links *)

Definition threadlist_insertafternode (onlist : node) (t : Z) : M tls unit :=
  let addee := Node t in
  _ ← wr_node addee (set_prev onlist);
  o ← rd_node onlist;
  _ ← wr_node addee (set_next (tln_next o));
  a ← rd_node addee;
  _ ← wr_node (tln_prev a) (set_next addee);
  a ← rd_node addee;
  wr_node (tln_next a) (set_prev addee).

Definition threadlist_insertbeforenode (t : Z) (onlist : node) : M tls unit :=
  let addee := Node t in
  o ← rd_node onlist;
  _ ← wr_node addee (set_prev (tln_prev o));
  _ ← wr_node addee (set_next onlist);
  a ← rd_node addee;
  _ ← wr_node (tln_prev a) (set_next addee);
  a ← rd_node addee;
  wr_node (tln_next a) (set_prev addee).

Definition threadlist_removenode (tln : node) : M tls unit :=
  x ← rd_node tln;
  _ ← wr_node (tln_prev x) (set_next (tln_next x));
  x ← rd_node tln;
  _ ← wr_node (tln_next x) (set_prev (tln_prev x));
  _ ← wr_node tln (set_prev NULL);
  wr_node tln (set_next NULL).

(** *** Operations *)

Definition threadlist_addhead (tl t : Z) : M tls unit :=
  _ ← threadlist_insertafternode (Head tl) t;
  add_count tl 1.

Definition threadlist_addtail (tl t : Z) : M tls unit :=
  _ ← threadlist_insertbeforenode t (Tail tl);
  add_count tl 1.

Definition threadlist_remhead (tl : Z) : M tls Z :=
  h ← rd_node (Head tl);
  let tln := tln_next h in
  x ← rd_node tln;
  if bool_decide (tln_next x = NULL) then mret 0
  else
    _ ← threadlist_removenode tln;
    _ ← add_count tl (-1);
    x ← rd_node tln;
    mret (tln_self x).

Definition threadlist_remtail (tl : Z) : M tls Z :=
  h ← rd_node (Tail tl);
  let tln := tln_prev h in
  x ← rd_node tln;
  if bool_decide (tln_prev x = NULL) then mret 0
  else
    _ ← threadlist_removenode tln;
    _ ← add_count tl (-1);
    x ← rd_node tln;
    mret (tln_self x).

Definition threadlist_insertafter (tl onlist addee : Z) : M tls unit :=
  _ ← threadlist_insertafternode (Node onlist) addee;
  add_count tl 1.

Definition threadlist_insertbefore (tl addee onlist : Z) : M tls unit :=
  _ ← threadlist_insertbeforenode addee (Node onlist);
  add_count tl 1.

Definition threadlist_remove (tl t : Z) : M tls unit :=
  _ ← threadlist_removenode (Node t);
  add_count tl (-1).

(** THREADLIST_FORALL: the threads in the order the loop visits them. *)
Fixpoint forall_from (fuel : nat) (t : Z) : M tls (list Z) :=
  match fuel with
  | O => out_of_fuel
  | S fuel' =>
      if t =? 0 then mret []
      else
        x ← rd_node (Node t);
        y ← rd_node (tln_next x);
        r ← forall_from fuel' (tln_self y);
        mret (t :: r)
  end.
Definition threadlist_forall (fuel : nat) (tl : Z) : M tls (list Z) :=
  h ← rd_node (Head tl);
  x ← rd_node (tln_next h);
  forall_from fuel (tln_self x).

(** *** Links and lists *)

Definition nx (s : tls) (n : node) : option node := tln_next <$> nodes s !! n.
Definition pv (s : tls) (n : node) : option node := tln_prev <$> nodes s !! n.
Definition sf (s : tls) (n : node) : option Z := tln_self <$> nodes s !! n.

(** Each node is linked with the one after it, both ways. *)
Fixpoint linked (s : tls) (ns : list node) : Prop :=
  match ns with
  | x :: (y :: _) as r => nx s x = Some y /\ pv s y = Some x /\ linked s r
  | _ => True
  end.

(** The nodes of a list, with its bookends. *)
Definition path (tl : Z) (l : list Z) : list node := Head tl :: (Node <$> l) ++ [Tail tl].

Definition islist (s : tls) (tl : Z) (l : list Z) : Prop :=
  linked s (path tl l) /\ pv s (Head tl) = Some NULL /\ nx s (Tail tl) = Some NULL /\
  sf s (Head tl) = Some 0 /\ sf s (Tail tl) = Some 0 /\ tl_count s !! tl = Some (Z.of_nat (length l)).

Definition on_list (A : gmap Z (list Z)) (t : Z) : Prop := exists tl l, A !! tl = Some l /\ t ∈ l.

(** The store represents the lists [A]; a thread is on one list at most, and the node of a
    thread that is on none is not linked. *)
Record rep (s : tls) (A : gmap Z (list Z)) : Prop := mk_rep {
  rep_list : forall tl l, A !! tl = Some l -> islist s tl l;
  rep_nodup : forall tl l, A !! tl = Some l -> NoDup l;
  rep_once : forall tl tl' l l' t, A !! tl = Some l -> A !! tl' = Some l' -> t ∈ l -> t ∈ l' -> tl = tl';
  rep_thread : forall t x, nodes s !! Node t = Some x -> tln_self x = t /\ 0 < t < 2 ^ 32;
  rep_free : forall t x, nodes s !! Node t = Some x -> ~ on_list A t -> tln_prev x = NULL /\ tln_next x = NULL
}.

Lemma linked_app s a x r : linked s (a ++ x :: r) <-> linked s (a ++ [x]) /\ linked s (x :: r).
Proof.
  induction a as [|w a IH]; [simpl; tauto|]. destruct a as [|w' a]; cbn [app linked] in *; [tauto|]. rewrite IH. tauto.
Qed.

(** Links that a change of other nodes does not touch. *)
Definition same_links (s s' : tls) (n : node) : Prop := nx s' n = nx s n /\ pv s' n = pv s n.

Lemma linked_init s s' a x : (forall w, w ∈ a -> same_links s s' w) -> pv s' x = pv s x -> linked s (a ++ [x]) -> linked s' (a ++ [x]).
Proof.
  intros Ha Hx. induction a as [|w a IH]; [done|]. destruct (Ha w) as [En Ep]; [set_solver|].
  assert (IH' : linked s (a ++ [x]) -> linked s' (a ++ [x])) by (apply IH; intros; apply Ha; set_solver).
  destruct a as [|w' a]; cbn [app linked] in *.
  - rewrite En, Hx. tauto.
  - rewrite En, (proj2 (Ha w' ltac:(set_solver))). tauto.
Qed.

Lemma linked_rest s s' y b : (forall w, w ∈ b -> same_links s s' w) -> nx s' y = nx s y -> linked s (y :: b) -> linked s' (y :: b).
Proof.
  revert y. induction b as [|w b IH]; intros y Hb Hy; [done|]. destruct (Hb w) as [En Ep]; [set_solver|].
  cbn [linked]. rewrite Hy, Ep. intros (? & ? & Hl). split_and!; [done|done|]. apply IH; [intros; apply Hb; set_solver|done|done].
Qed.

Lemma linked_same s s' ns : (forall w, w ∈ ns -> same_links s s' w) -> linked s ns -> linked s' ns.
Proof. destruct ns as [|y b]; [done|]. intros H. apply linked_rest; [intros; apply H; set_solver|]. apply H. set_solver. Qed.

(** *** Splicing *)

(** [n] between [x] and [y], and [n] taken out. *)
Definition splice_in (x n y : node) (s : tls) : tls :=
  mk_tls (alter (set_prev n) y (alter (set_next n) x (alter (fun z => mk_tln x y (tln_self z)) n (nodes s)))) (tl_count s).
Definition splice_out (x n y : node) (s : tls) : tls :=
  mk_tls (alter (fun z => mk_tln NULL NULL (tln_self z)) n (alter (set_prev x) y (alter (set_next y) x (nodes s)))) (tl_count s).

Lemma fields_in x n y s w : x <> y -> n <> x -> n <> y -> is_Some (nodes s !! n) -> is_Some (nodes s !! x) -> is_Some (nodes s !! y) ->
  nx (splice_in x n y s) w = (if decide (w = n) then Some y else if decide (w = x) then Some n else nx s w) /\
  pv (splice_in x n y s) w = (if decide (w = n) then Some x else if decide (w = y) then Some n else pv s w) /\
  sf (splice_in x n y s) w = sf s w.
Proof.
  intros Hxy Hnx Hny [zn En] [zx Ex] [zy Ey]. unfold nx, pv, sf, splice_in. cbn [nodes].
  rewrite !lookup_alter. repeat case_decide; subst; simplify_eq; rewrite ?En, ?Ex, ?Ey; simpl; split_and!; try done;
    destruct (nodes s !! w); done.
Qed.

Lemma fields_out x n y s w : x <> y -> n <> x -> n <> y -> is_Some (nodes s !! n) -> is_Some (nodes s !! x) -> is_Some (nodes s !! y) ->
  nx (splice_out x n y s) w = (if decide (w = n) then Some NULL else if decide (w = x) then Some y else nx s w) /\
  pv (splice_out x n y s) w = (if decide (w = n) then Some NULL else if decide (w = y) then Some x else pv s w) /\
  sf (splice_out x n y s) w = sf s w.
Proof.
  intros Hxy Hnx Hny [zn En] [zx Ex] [zy Ey]. unfold nx, pv, sf, splice_out. cbn [nodes].
  rewrite !lookup_alter. repeat case_decide; subst; simplify_eq; rewrite ?En, ?Ex, ?Ey; simpl; split_and!; try done;
    destruct (nodes s !! w); done.
Qed.

(** Settles the comparisons of nodes in the goal. *)
Ltac decide_all := repeat case_decide; try congruence; try done.

(** Distinct neighbours of a run of nodes. *)
Lemma neighbours (a : list node) x y b : NoDup (a ++ x :: y :: b) -> x <> y /\ (x ∉ a) /\ (y ∉ a) /\ (x ∉ b) /\ (y ∉ b) /\ (forall w, w ∈ a -> w ∉ b).
Proof. rewrite NoDup_app, !NoDup_cons. set_solver. Qed.

Lemma linked_splice_in s a x n y b : linked s (a ++ x :: y :: b) -> NoDup (a ++ x :: y :: b) -> n ∉ a ++ x :: y :: b ->
  is_Some (nodes s !! n) -> is_Some (nodes s !! x) -> is_Some (nodes s !! y) ->
  linked (splice_in x n y s) (a ++ x :: n :: y :: b).
Proof.
  intros Hl Hnd Hn Sn Sx Sy. destruct (neighbours a x y b Hnd) as (Hxy & Hxa & Hya & Hxb & Hyb & Hab).
  assert (Hnx : n <> x) by set_solver. assert (Hny : n <> y) by set_solver.
  assert (F : forall w, w ∈ a \/ w ∈ b -> same_links s (splice_in x n y s) w).
  { intros w Hw. destruct (fields_in x n y s w Hxy Hnx Hny Sn Sx Sy) as (E1 & E2 & _). split; [rewrite E1|rewrite E2];
      repeat case_decide; subst; try done; set_solver. }
  rewrite linked_app in Hl. destruct Hl as [Ha (_ & _ & Hb)]. apply linked_app. split.
  - apply (linked_init s); [intros; apply F; by left| |done]. destruct (fields_in x n y s x Hxy Hnx Hny Sn Sx Sy) as (_ & -> & _).
    decide_all.
  - cbn [linked]. destruct (fields_in x n y s x Hxy Hnx Hny Sn Sx Sy) as (-> & _ & _).
    destruct (fields_in x n y s n Hxy Hnx Hny Sn Sx Sy) as (-> & -> & _). destruct (fields_in x n y s y Hxy Hnx Hny Sn Sx Sy) as (Ey & -> & _).
    split_and!; try by decide_all. apply (linked_rest s); [intros; apply F; by right| |done]. rewrite Ey. decide_all.
Qed.

Lemma linked_splice_out s a x n y b : linked s (a ++ x :: n :: y :: b) -> NoDup (a ++ x :: n :: y :: b) ->
  is_Some (nodes s !! n) -> is_Some (nodes s !! x) -> is_Some (nodes s !! y) ->
  linked (splice_out x n y s) (a ++ x :: y :: b).
Proof.
  intros Hl Hnd Sn Sx Sy. destruct (neighbours a x n (y :: b) Hnd) as (Hxn & Hxa & Hna & Hxb & Hnb & Hab).
  assert (Hnx : n <> x) by done. assert (Hny : n <> y) by set_solver. assert (Hxy : x <> y) by set_solver.
  assert (Hyb : y ∉ b) by (rewrite NoDup_app, !NoDup_cons in Hnd; tauto).
  assert (F : forall w, w ∈ a \/ w ∈ b -> same_links s (splice_out x n y s) w).
  { intros w Hw. destruct (fields_out x n y s w Hxy Hnx Hny Sn Sx Sy) as (E1 & E2 & _). split; [rewrite E1|rewrite E2];
      repeat case_decide; subst; try done; set_solver. }
  rewrite linked_app in Hl. destruct Hl as [Ha (_ & _ & _ & _ & Hb)]. apply linked_app. split.
  - apply (linked_init s); [intros; apply F; by left| |done]. destruct (fields_out x n y s x Hxy Hnx Hny Sn Sx Sy) as (_ & -> & _).
    decide_all.
  - cbn [linked]. destruct (fields_out x n y s x Hxy Hnx Hny Sn Sx Sy) as (-> & _ & _).
    destruct (fields_out x n y s y Hxy Hnx Hny Sn Sx Sy) as (Ey & -> & _).
    split_and!; try by decide_all. apply (linked_rest s); [intros; apply F; by right| |done]. rewrite Ey. decide_all.
Qed.

(** *** What the link operations do *)

Lemma rd_node_eq s n x : nodes s !! n = Some x -> rd_node n s = Ret x s.
Proof. intros E. unfold rd_node. erewrite run_bind by reflexivity. by rewrite E. Qed.

Lemma wr_node_eq s n x f : nodes s !! n = Some x -> wr_node n f s = Ret tt (mk_tls (<[n := f x]> (nodes s)) (tl_count s)).
Proof. intros E. unfold wr_node. erewrite run_bind by reflexivity. rewrite E. by erewrite run_bind by reflexivity. Qed.

(** Runs the reads and writes of nodes that are known. *)
Ltac node_eq := cbn [nodes]; repeat first [rewrite lookup_insert_eq | rewrite lookup_insert_ne by congruence];
  first [reflexivity|eassumption].
Ltac node_step := first [erewrite run_bind by (apply rd_node_eq; node_eq) | erewrite run_bind by (apply wr_node_eq; node_eq) | erewrite wr_node_eq by node_eq];
  cbn [nodes tl_count tln_prev tln_next tln_self set_prev set_next].

Lemma splice_in_eq x t y s zn zx zy : x <> y -> Node t <> x -> Node t <> y -> nodes s !! Node t = Some zn -> nodes s !! x = Some zx -> nodes s !! y = Some zy ->
  mk_tls (<[y := set_prev (Node t) zy]> (<[x := set_next (Node t) zx]> (<[Node t := mk_tln x y (tln_self zn)]> (nodes s)))) (tl_count s) =
  splice_in x (Node t) y s.
Proof.
  intros Hxy Hnx Hny En Ex Ey. unfold splice_in. f_equal. apply map_eq. intros w. rewrite !lookup_alter.
  destruct (decide (w = y)) as [->|Hwy]; [|destruct (decide (w = x)) as [->|Hwx]; [|destruct (decide (w = Node t)) as [->|Hwn]]];
    rewrite ?lookup_insert_eq, ?lookup_insert_ne, ?lookup_insert_eq by congruence; rewrite ?decide_True, ?decide_False by congruence; try done.
  all: repeat case_decide; try congruence; rewrite ?En, ?Ex, ?Ey; try done.
Qed.

Lemma splice_out_eq x n y s zn zx zy : x <> y -> n <> x -> n <> y -> nodes s !! n = Some zn -> nodes s !! x = Some zx -> nodes s !! y = Some zy ->
  mk_tls (<[n := mk_tln NULL NULL (tln_self zn)]> (<[y := set_prev x zy]> (<[x := set_next y zx]> (nodes s)))) (tl_count s) =
  splice_out x n y s.
Proof.
  intros Hxy Hnx Hny En Ex Ey. unfold splice_out. f_equal. apply map_eq. intros w. rewrite !lookup_alter.
  destruct (decide (w = n)) as [->|Hwn]; [|destruct (decide (w = y)) as [->|Hwy]; [|destruct (decide (w = x)) as [->|Hwx]]];
    rewrite ?lookup_insert_eq, ?lookup_insert_ne, ?lookup_insert_eq by congruence; rewrite ?decide_True, ?decide_False by congruence; try done.
  all: repeat case_decide; try congruence; rewrite ?En, ?Ex, ?Ey; try done.
Qed.

Lemma insertafternode_eq x t s y : x <> y -> Node t <> x -> Node t <> y -> is_Some (nodes s !! Node t) -> nx s x = Some y -> is_Some (nodes s !! y) ->
  threadlist_insertafternode x t s = Ret tt (splice_in x (Node t) y s).
Proof.
  intros Hxy Hnx Hny [zn En] Ex [zy Ey]. unfold nx in Ex. destruct (nodes s !! x) as [zx|] eqn:Ex'; [|done]. simpl in Ex. simplify_eq.
  unfold threadlist_insertafternode. repeat node_step. rewrite insert_insert_eq.
  by rewrite <- (splice_in_eq x t (tln_next zx) s zn zx zy).
Qed.

Lemma insertbeforenode_eq x t s y : x <> y -> Node t <> x -> Node t <> y -> is_Some (nodes s !! Node t) -> pv s y = Some x -> is_Some (nodes s !! x) ->
  threadlist_insertbeforenode t y s = Ret tt (splice_in x (Node t) y s).
Proof.
  intros Hxy Hnx Hny [zn En] Ey [zx Ex]. unfold pv in Ey. destruct (nodes s !! y) as [zy|] eqn:Ey'; [|done]. simpl in Ey. simplify_eq.
  unfold threadlist_insertbeforenode. repeat node_step. rewrite insert_insert_eq.
  by rewrite <- (splice_in_eq (tln_prev zy) t y s zn zx zy).
Qed.

Lemma removenode_eq x n y s : x <> y -> n <> x -> n <> y -> pv s n = Some x -> nx s n = Some y -> is_Some (nodes s !! x) -> is_Some (nodes s !! y) ->
  threadlist_removenode n s = Ret tt (splice_out x n y s).
Proof.
  intros Hxy Hnx Hny Ep En [zx Ex] [zy Ey]. unfold pv, nx in *. destruct (nodes s !! n) as [zn|] eqn:En'; [|done]. simpl in *. simplify_eq.
  unfold threadlist_removenode. repeat node_step. rewrite insert_insert_eq.
  by rewrite <- (splice_out_eq (tln_prev zn) n (tln_next zn) s zn zx zy).
Qed.

(** *** The nodes of a list *)

(** The nodes before and after a place of a list. *)
Definition before (tl : Z) (l : list Z) : node := default (Head tl) (Node <$> last l).
Definition after (tl : Z) (l : list Z) : node := default (Tail tl) (Node <$> head l).

Lemma path_split tl l1 l2 : exists a b, path tl (l1 ++ l2) = a ++ before tl l1 :: after tl l2 :: b /\
  (forall t, path tl (l1 ++ t :: l2) = a ++ before tl l1 :: Node t :: after tl l2 :: b).
Proof.
  assert (E1 : exists a, Head tl :: (Node <$> l1) = a ++ [before tl l1]).
  { destruct l1 as [|t l1 _] using rev_ind; [by exists []|]. exists (Head tl :: (Node <$> l1)). unfold before. rewrite last_snoc.
    by rewrite fmap_app. }
  assert (E2 : exists b, (Node <$> l2) ++ [Tail tl] = after tl l2 :: b) by (destruct l2; by eexists).
  destruct E1 as [a E1], E2 as [b E2]. exists a, b. unfold path. rewrite fmap_app, <- app_assoc, E2. split.
  - by rewrite app_comm_cons, E1, <- app_assoc.
  - intros t. rewrite fmap_app, <- app_assoc, app_comm_cons, E1, <- app_assoc. cbn. by rewrite E2.
Qed.

Lemma path_nodup tl l : NoDup l -> NoDup (path tl l).
Proof.
  intros Hl. unfold path. apply NoDup_cons. split; [intros H; apply elem_of_app in H as [H|H]; [apply list_elem_of_fmap in H as (? & ? & _); done|set_solver]|].
  apply NoDup_app. split_and!; [by apply NoDup_fmap; [intros ?? [=]|]| |apply NoDup_singleton].
  intros x Hx Ht. apply list_elem_of_singleton in Ht as ->. apply list_elem_of_fmap in Hx as (? & ? & _). done.
Qed.

Lemma path_nodes tl l n : n ∈ path tl l <-> n = Head tl \/ n = Tail tl \/ exists t, t ∈ l /\ n = Node t.
Proof.
  unfold path. rewrite elem_of_cons, elem_of_app, list_elem_of_fmap, list_elem_of_singleton.
  split; [intros [->|[(t & -> & Ht)|Ht]]|intros [->|[->|(t & Ht & ->)]]]; eauto 10.
Qed.

(** Every node of a list is in the store. *)
Lemma linked_some s ns : linked s ns -> (2 <= length ns)%nat -> forall n, n ∈ ns -> is_Some (nodes s !! n).
Proof.
  induction ns as [|x [|y b] IH]; simpl; intros Hl Hlen n Hn; [lia|lia|]. destruct Hl as (Hx & Hy & Hl).
  apply elem_of_cons in Hn as [->|Hn]; [unfold nx in Hx; destruct (nodes s !! x); by eauto|].
  destruct b as [|z b]; [|apply IH; (done || simpl; lia)]. apply list_elem_of_singleton in Hn as ->.
  unfold pv in Hy. destruct (nodes s !! y); by eauto.
Qed.

Lemma path_some s tl l n : islist s tl l -> n ∈ path tl l -> is_Some (nodes s !! n).
Proof. intros (Hl & _). apply linked_some; [done|]. unfold path. simpl. rewrite length_app. simpl. lia. Qed.

(** *** Splicing keeps the representation *)

Definition with_count (tl n : Z) (s : tls) : tls := mk_tls (nodes s) (<[tl := n]> (tl_count s)).

Lemma before_cases tl l : before tl l = Head tl \/ exists t, t ∈ l /\ before tl l = Node t.
Proof.
  destruct l as [|t l _] using rev_ind; [by left|right]. exists t. unfold before. rewrite last_snoc. split; [set_solver|done].
Qed.

Lemma after_cases tl l : after tl l = Tail tl \/ exists t, t ∈ l /\ after tl l = Node t.
Proof. destruct l as [|t l]; [by left|right]. exists t. split; [set_solver|done]. Qed.

(** The nodes of another list are none of those around a place of this one. *)
Lemma elsewhere s A tl l tl' l' w : rep s A -> A !! tl = Some l -> A !! tl' = Some l' -> tl <> tl' -> w ∈ path tl' l' -> w ∉ path tl l.
Proof.
  intros Hr Hl Hl' Hne Hw Hw'. apply path_nodes in Hw as [->|[->|(t & Ht & ->)]]; apply path_nodes in Hw' as [?|[?|(t' & Ht' & E)]]; simplify_eq.
  by apply Hne, (rep_once _ _ Hr tl tl' l l' t').
Qed.

Lemma islist_frame s s' tl l : (forall w, w ∈ path tl l -> same_links s s' w /\ sf s' w = sf s w) -> tl_count s' !! tl = tl_count s !! tl ->
  islist s tl l -> islist s' tl l.
Proof.
  intros H Hc (H1 & H2 & H3 & H4 & H5 & H6).
  destruct (H (Head tl)) as [[_ Eh] Sh]; [by apply path_nodes; left|]. destruct (H (Tail tl)) as [[Et _] St]; [apply path_nodes; by right; left|].
  split_and!; try congruence. apply (linked_same s); [|done]. intros w Hw. by apply H.
Qed.

Lemma in_place s A tl l1 l2 : rep s A -> A !! tl = Some (l1 ++ l2) ->
  (before tl l1 ∈ path tl (l1 ++ l2)) /\ (after tl l2 ∈ path tl (l1 ++ l2)) /\ before tl l1 <> after tl l2.
Proof.
  intros Hr Hl. destruct (path_split tl l1 l2) as (a & b & E & _). pose proof (path_nodup tl _ (rep_nodup _ _ Hr tl _ Hl)) as Hnd.
  rewrite E in *. destruct (neighbours _ _ _ _ Hnd) as (Hne & _). split_and!; [set_solver|set_solver|done].
Qed.

(** A list changes: threads that were on no list may come, others go unlinked. *)
Lemma change_rep s s' A tl l l' : rep s A -> A !! tl = Some l -> islist s' tl l' -> NoDup l' ->
  (forall w, w ∉ path tl l -> w ∉ path tl l' -> same_links s s' w) -> (forall w, sf s' w = sf s w) ->
  (forall k, k <> tl -> tl_count s' !! k = tl_count s !! k) -> (forall t, t ∈ l' -> t ∉ l -> ~ on_list A t) ->
  (forall t, t ∈ l -> t ∉ l' -> pv s' (Node t) = Some NULL /\ nx s' (Node t) = Some NULL) -> rep s' (<[tl := l']> A).
Proof.
  intros Hr Hl Hil Hnd Hsame Hsf Hc Hnew Hgone.
  assert (Hother : forall k lk t, A !! k = Some lk -> k <> tl -> t ∈ lk -> t ∉ l').
  { intros k lk t Hk Hne Ht Ht'. destruct (decide (t ∈ l)) as [Hin|Hin]; [by apply Hne, (rep_once _ _ Hr k tl lk l t)|].
    apply (Hnew t Ht' Hin). by exists k, lk. }
  split.
  - intros k lk Hk. apply lookup_insert_Some in Hk as [[<- <-]|[Hne Hk]]; [done|].
    apply (islist_frame s); [|by apply Hc|by apply (rep_list _ _ Hr)]. intros w Hw. split; [|apply Hsf]. apply Hsame; [by apply (elsewhere s A tl l k lk)|].
    intros Hw'. apply path_nodes in Hw as [->|[->|(t & Ht & ->)]]; apply path_nodes in Hw' as [?|[?|(t' & Ht' & E)]]; simplify_eq.
    by apply (Hother k lk t').
  - intros k lk Hk. apply lookup_insert_Some in Hk as [[<- <-]|[_ Hk]]; [done|]. by apply (rep_nodup _ _ Hr k).
  - intros k k' lk lk' t Hk Hk' Ht Ht'. apply lookup_insert_Some in Hk as [[<- <-]|[Hne Hk]], Hk' as [[<- <-]|[Hne' Hk']]; [done| | |].
    + by destruct (Hother k' lk' t).
    + by destruct (Hother k lk t).
    + by apply (rep_once _ _ Hr k k' lk lk' t).
  - intros t x Hx. specialize (Hsf (Node t)). unfold sf in Hsf. rewrite Hx in Hsf. simpl in Hsf.
    destruct (nodes s !! Node t) as [z|] eqn:Ez; [|done]. simpl in Hsf. simplify_eq. destruct (rep_thread _ _ Hr t z Ez). split; congruence.
  - intros t x Hx Hno. assert (Ht' : t ∉ l') by (intros H; apply Hno; exists tl, l'; by rewrite lookup_insert_eq).
    destruct (decide (t ∈ l)) as [Hin|Hin].
    { destruct (Hgone t Hin Ht') as [E1 E2]. unfold pv, nx in *. rewrite Hx in E1, E2. simpl in *. by simplify_eq. }
    destruct (Hsame (Node t)) as [E1 E2]; [rewrite path_nodes; intros [?|[?|(u & ? & ?)]]; by simplify_eq|rewrite path_nodes; intros [?|[?|(u & ? & ?)]]; by simplify_eq|].
    specialize (Hsf (Node t)). unfold nx, pv, sf in *. rewrite Hx in *. destruct (nodes s !! Node t) as [z|] eqn:Ez; [|done]. simpl in *. simplify_eq.
    rewrite E1, E2. apply (rep_free _ _ Hr t z Ez). intros (k & lk & Hk & Htk). destruct (decide (k = tl)) as [->|Hne]; [by simplify_eq|].
    apply Hno. exists k, lk. by rewrite lookup_insert_ne.
Qed.

Lemma linked_count s tl n ns : linked s ns -> linked (with_count tl n s) ns.
Proof. apply linked_same. by intros. Qed.

(** The bookends are not the neighbours on the far side. *)
Lemma ends tl l : after tl l <> Head tl /\ before tl l <> Tail tl.
Proof. split; [destruct (after_cases tl l) as [->|(? & _ & ->)]|destruct (before_cases tl l) as [->|(? & _ & ->)]]; done. Qed.

Lemma insert_rep s A tl l1 l2 t : rep s A -> A !! tl = Some (l1 ++ l2) -> is_Some (nodes s !! Node t) -> ~ on_list A t ->
  rep (with_count tl (Z.of_nat (length (l1 ++ t :: l2))) (splice_in (before tl l1) (Node t) (after tl l2) s)) (<[tl := l1 ++ t :: l2]> A).
Proof.
  intros Hr Hl Hs Hfree. destruct (in_place s A tl l1 l2 Hr Hl) as (Hx & Hy & Hxy). pose proof (rep_list _ _ Hr tl _ Hl) as Hil.
  destruct (ends tl l2) as [Hyh _], (ends tl l1) as [_ Hxt]. destruct (path_split tl l1 l2) as (a & b & E & E').
  set (x := before tl l1) in *. set (y := after tl l2) in *. pose proof (rep_nodup _ _ Hr tl _ Hl) as Hnd.
  assert (Ht : t ∉ l1 ++ l2) by (intros H; apply Hfree; by exists tl, (l1 ++ l2)).
  assert (Hn : Node t ∉ path tl (l1 ++ l2)) by (rewrite path_nodes; intros [?|[?|(u & Hu & ?)]]; simplify_eq; done).
  assert (Hnx : Node t <> x) by (intros Eq; by rewrite Eq in Hn). assert (Hny : Node t <> y) by (intros Eq; by rewrite Eq in Hn).
  pose proof (path_some s tl _ x Hil Hx) as Sx. pose proof (path_some s tl _ y Hil Hy) as Sy.
  set (s1 := splice_in x (Node t) y s). pose proof (fun w => fields_in x (Node t) y s w Hxy Hnx Hny Hs Sx Sy) as F. fold s1 in F.
  apply (change_rep s _ A tl (l1 ++ l2)); try done.
  - destruct Hil as (HL & H2 & H3 & H4 & H5 & _). split_and!; [| | | | |apply lookup_insert_eq].
    + apply linked_count. rewrite E'. apply (linked_splice_in s a x (Node t) y b); rewrite <- ?E; try done. by apply path_nodup.
    + change (pv s1 (Head tl) = Some NULL). destruct (F (Head tl)) as (_ & -> & _). by rewrite !decide_False by done.
    + change (nx s1 (Tail tl) = Some NULL). destruct (F (Tail tl)) as (-> & _ & _). by rewrite !decide_False by done.
    + change (sf s1 (Head tl) = Some 0). by destruct (F (Head tl)) as (_ & _ & ->).
    + change (sf s1 (Tail tl) = Some 0). by destruct (F (Tail tl)) as (_ & _ & ->).
  - rewrite <- Permutation_middle. by apply NoDup_cons.
  - intros w Hw Hw'. assert (w <> Node t) by (intros ->; apply Hw', path_nodes; right; right; exists t; set_solver).
    destruct (F w) as (E1 & E2 & _). split; [change (nx s1 w = nx s w); rewrite E1|change (pv s1 w = pv s w); rewrite E2]; decide_all; by subst.
  - intros w. by destruct (F w) as (_ & _ & ?).
  - intros k Hk. by apply lookup_insert_ne.
  - intros u Hu Hu'. by assert (u = t) as -> by set_solver.
  - intros u Hu Hu'. set_solver.
Qed.

Lemma remove_rep s A tl l1 l2 t : rep s A -> A !! tl = Some (l1 ++ t :: l2) ->
  rep (with_count tl (Z.of_nat (length (l1 ++ l2))) (splice_out (before tl l1) (Node t) (after tl l2) s)) (<[tl := l1 ++ l2]> A).
Proof.
  intros Hr Hl. pose proof (rep_list _ _ Hr tl _ Hl) as Hil. pose proof (rep_nodup _ _ Hr tl _ Hl) as Hnd.
  destruct (ends tl l2) as [Hyh _], (ends tl l1) as [_ Hxt]. destruct (path_split tl l1 l2) as (a & b & E & E').
  set (x := before tl l1) in *. set (y := after tl l2) in *. pose proof (path_nodup tl _ Hnd) as Hpn. rewrite E' in Hpn.
  destruct (neighbours a x (Node t) (y :: b) Hpn) as (Hxn & _ & _ & Hxb & Hnb & _).
  assert (Hxy : x <> y) by set_solver. assert (Hny : Node t <> y) by set_solver. assert (Hnx : Node t <> x) by done.
  assert (Hin : forall w, w ∈ [x; Node t; y] -> is_Some (nodes s !! w)).
  { intros w Hw. apply (path_some s tl (l1 ++ t :: l2)); [done|]. rewrite E'. set_solver. }
  pose proof (Hin (Node t) ltac:(set_solver)) as Sn. pose proof (Hin x ltac:(set_solver)) as Sx. pose proof (Hin y ltac:(set_solver)) as Sy.
  rewrite <- Permutation_middle, NoDup_cons in Hnd. destruct Hnd as [Ht Hnd].
  set (s1 := splice_out x (Node t) y s). pose proof (fun w => fields_out x (Node t) y s w Hxy Hnx Hny Sn Sx Sy) as F. fold s1 in F.
  apply (change_rep s _ A tl (l1 ++ t :: l2)); try done.
  - destruct Hil as (HL & H2 & H3 & H4 & H5 & _). split_and!; [| | | | |apply lookup_insert_eq].
    + apply linked_count. rewrite E. apply (linked_splice_out s a x (Node t) y b); rewrite <- ?E'; try done. by rewrite E'.
    + change (pv s1 (Head tl) = Some NULL). destruct (F (Head tl)) as (_ & -> & _). by rewrite !decide_False by done.
    + change (nx s1 (Tail tl) = Some NULL). destruct (F (Tail tl)) as (-> & _ & _). by rewrite !decide_False by done.
    + change (sf s1 (Head tl) = Some 0). by destruct (F (Head tl)) as (_ & _ & ->).
    + change (sf s1 (Tail tl) = Some 0). by destruct (F (Tail tl)) as (_ & _ & ->).
  - intros w Hw Hw'. rewrite E' in Hw. assert (w <> Node t /\ w <> x /\ w <> y) as (? & ? & ?) by (split_and!; intros ->; apply Hw; set_solver).
    destruct (F w) as (E1 & E2 & _). split; [change (nx s1 w = nx s w); rewrite E1|change (pv s1 w = pv s w); rewrite E2]; decide_all.
  - intros w. by destruct (F w) as (_ & _ & ?).
  - intros k Hk. by apply lookup_insert_ne.
  - intros u Hu Hu'. set_solver.
  - intros u Hu Hu'. assert (u = t) as -> by set_solver. destruct (F (Node t)) as (E1 & E2 & _).
    split; [change (pv s1 (Node t) = Some NULL); rewrite E2|change (nx s1 (Node t) = Some NULL); rewrite E1]; by rewrite decide_True.
Qed.

(** *** The abstract lists *)

Inductive op :=
  | AddHead (tl t : Z) | AddTail (tl t : Z) | RemHead (tl : Z) | RemTail (tl : Z)
  | InsertAfter (tl onlist addee : Z) | InsertBefore (tl addee onlist : Z) | Remove (tl t : Z).

Definition run_op (o : op) : M tls Z :=
  match o with
  | AddHead tl t => _ ← threadlist_addhead tl t; mret 0
  | AddTail tl t => _ ← threadlist_addtail tl t; mret 0
  | RemHead tl => threadlist_remhead tl
  | RemTail tl => threadlist_remtail tl
  | InsertAfter tl o t => _ ← threadlist_insertafter tl o t; mret 0
  | InsertBefore tl t o => _ ← threadlist_insertbefore tl t o; mret 0
  | Remove tl t => _ ← threadlist_remove tl t; mret 0
  end.

Fixpoint run_ops (os : list op) : M tls (list Z) :=
  match os with
  | [] => mret []
  | o :: os => r ← run_op o; rs ← run_ops os; mret (r :: rs)
  end.

(** What each operation is on sequences, with its result (0 is NULL).  [K] are the threads
    there are; a thread is added only when it is on no list. *)
Inductive lstep (K : Z -> Prop) (A : gmap Z (list Z)) : op -> Z -> gmap Z (list Z) -> Prop :=
  | s_addhead tl t l : A !! tl = Some l -> K t -> ~ on_list A t -> lstep K A (AddHead tl t) 0 (<[tl := t :: l]> A)
  | s_addtail tl t l : A !! tl = Some l -> K t -> ~ on_list A t -> lstep K A (AddTail tl t) 0 (<[tl := l ++ [t]]> A)
  | s_remhead_none tl : A !! tl = Some [] -> lstep K A (RemHead tl) 0 A
  | s_remhead tl t l : A !! tl = Some (t :: l) -> lstep K A (RemHead tl) t (<[tl := l]> A)
  | s_remtail_none tl : A !! tl = Some [] -> lstep K A (RemTail tl) 0 A
  | s_remtail tl t l : A !! tl = Some (l ++ [t]) -> lstep K A (RemTail tl) t (<[tl := l]> A)
  | s_after tl o t l1 l2 : A !! tl = Some (l1 ++ o :: l2) -> K t -> ~ on_list A t ->
      lstep K A (InsertAfter tl o t) 0 (<[tl := l1 ++ o :: t :: l2]> A)
  | s_before tl o t l1 l2 : A !! tl = Some (l1 ++ o :: l2) -> K t -> ~ on_list A t ->
      lstep K A (InsertBefore tl t o) 0 (<[tl := l1 ++ t :: o :: l2]> A)
  | s_remove tl t l1 l2 : A !! tl = Some (l1 ++ t :: l2) -> lstep K A (Remove tl t) 0 (<[tl := l1 ++ l2]> A).

Inductive lsteps (K : Z -> Prop) : gmap Z (list Z) -> list op -> list Z -> gmap Z (list Z) -> Prop :=
  | ls_nil A : lsteps K A [] [] A
  | ls_cons A o r A1 os rs A2 : lstep K A o r A1 -> lsteps K A1 os rs A2 -> lsteps K A (o :: os) (r :: rs) A2.

(** *** Each operation refines its step *)

Definition all_known (K : Z -> Prop) (s : tls) : Prop := forall t, K t -> is_Some (nodes s !! Node t).

Lemma known_in K s x n y tl c : all_known K s -> all_known K (with_count tl c (splice_in x n y s)).
Proof. intros H t Ht. cbn. rewrite !lookup_alter_is_Some. by apply H. Qed.

Lemma known_out K s x n y tl c : all_known K s -> all_known K (with_count tl c (splice_out x n y s)).
Proof. intros H t Ht. cbn. rewrite !lookup_alter_is_Some. by apply H. Qed.

(** There are fewer threads than addresses. *)
Lemma threads_bound (l : list Z) : NoDup l -> (forall t, t ∈ l -> 0 < t < 2 ^ 32) -> Z.of_nat (length l) < 2 ^ 32.
Proof.
  intros Hnd Hr. assert (Hsub : l ⊆+ seqZ 1 (2 ^ 32 - 1)).
  { apply NoDup_submseteq; [done|]. intros t Ht. apply elem_of_seqZ. specialize (Hr t Ht). lia. }
  apply submseteq_length in Hsub. rewrite length_seqZ in Hsub. lia.
Qed.

Lemma list_threads s A tl l : rep s A -> A !! tl = Some l -> forall t, t ∈ l -> 0 < t < 2 ^ 32.
Proof.
  intros Hr Hl t Ht. destruct (path_some s tl l (Node t) (rep_list _ _ Hr tl l Hl)) as [x Hx]; [apply path_nodes; eauto|].
  by apply (rep_thread _ _ Hr t x).
Qed.

Lemma add_count_eq s tl n d : tl_count s !! tl = Some n -> 0 <= n + d < 2 ^ 32 -> add_count tl d s = Ret tt (with_count tl (n + d) s).
Proof. intros E Hn. unfold add_count. erewrite run_bind by reflexivity. rewrite E. erewrite run_bind by reflexivity. by rewrite u32_small. Qed.

(** Inserting at a place, whichever way the neighbours are found. *)
Lemma insert_run K s A tl l1 l2 t (m : M tls unit) : rep s A -> all_known K s -> A !! tl = Some (l1 ++ l2) -> K t -> ~ on_list A t ->
  (before tl l1 <> after tl l2 -> Node t <> before tl l1 -> Node t <> after tl l2 -> nx s (before tl l1) = Some (after tl l2) ->
   pv s (after tl l2) = Some (before tl l1) -> is_Some (nodes s !! before tl l1) -> is_Some (nodes s !! after tl l2) -> is_Some (nodes s !! Node t) ->
   m s = Ret tt (splice_in (before tl l1) (Node t) (after tl l2) s)) ->
  exists s', (_ ← m; add_count tl 1) s = Ret tt s' /\ rep s' (<[tl := l1 ++ t :: l2]> A) /\ all_known K s'.
Proof.
  intros Hr HK Hl Ht Hfree Hm. pose proof (rep_list _ _ Hr tl _ Hl) as Hil. destruct (in_place s A tl l1 l2 Hr Hl) as (Hx & Hy & Hxy).
  destruct (path_split tl l1 l2) as (a & b & E & _). pose proof Hil as (HL & _ & _ & _ & _ & Hc). rewrite E in HL. apply linked_app in HL as [_ (En & Ep & _)].
  assert (Hn : Node t ∉ path tl (l1 ++ l2)).
  { rewrite path_nodes. intros [?|[?|(u & Hu & ?)]]; simplify_eq. apply Hfree. by exists tl, (l1 ++ l2). }
  erewrite run_bind.
  2: { apply Hm; try done; [intros Eq; by rewrite Eq in Hn|intros Eq; by rewrite Eq in Hn|by eapply path_some|by eapply path_some|by apply HK]. }
  pose proof (insert_rep s A tl l1 l2 t Hr Hl (HK t Ht) Hfree) as Hr'.
  erewrite add_count_eq; [|exact Hc|].
  - eexists. split; [done|]. split; [|by apply known_in].
    replace (Z.of_nat (length (l1 ++ l2)) + 1) with (Z.of_nat (length (l1 ++ t :: l2))) by (rewrite !length_app; simpl; lia). done.
  - pose proof (threads_bound _ (rep_nodup _ _ Hr' tl _ (lookup_insert_eq _ _ _)) (list_threads _ _ tl _ Hr' (lookup_insert_eq _ _ _))) as Hb.
    rewrite !length_app in *. simpl in Hb. lia.
Qed.

(** Taking a thread out. *)
Lemma remove_run K s A tl l1 l2 t : rep s A -> all_known K s -> A !! tl = Some (l1 ++ t :: l2) ->
  exists s', (_ ← threadlist_removenode (Node t); add_count tl (-1)) s = Ret tt s' /\ rep s' (<[tl := l1 ++ l2]> A) /\ all_known K s' /\
    sf s' (Node t) = Some t.
Proof.
  intros Hr HK Hl. pose proof (rep_list _ _ Hr tl _ Hl) as Hil. pose proof (rep_nodup _ _ Hr tl _ Hl) as Hnd.
  destruct (path_split tl l1 l2) as (a & b & _ & E). specialize (E t). pose proof Hil as (HL & _ & _ & _ & _ & Hc).
  pose proof (path_nodup tl _ Hnd) as Hpn. rewrite E in HL, Hpn. apply linked_app in HL as [_ (_ & Ep & En & Ep2 & _)].
  destruct (neighbours a (before tl l1) (Node t) (after tl l2 :: b) Hpn) as (Hxn & _ & _ & Hxb & Hnb & _).
  assert (Hin : forall w, w ∈ [before tl l1; Node t; after tl l2] -> is_Some (nodes s !! w)).
  { intros w Hw. apply (path_some s tl (l1 ++ t :: l2)); [done|]. rewrite E. set_solver. }
  assert (Sx : is_Some (nodes s !! before tl l1)) by (apply Hin; set_solver). assert (Sy : is_Some (nodes s !! after tl l2)) by (apply Hin; set_solver).
  assert (Sn : is_Some (nodes s !! Node t)) by (apply Hin; set_solver).
  assert (Hxy : before tl l1 <> after tl l2) by set_solver. assert (Hny : Node t <> after tl l2) by set_solver.
  erewrite run_bind by (apply (removenode_eq (before tl l1) (Node t) (after tl l2)); done).
  pose proof (remove_rep s A tl l1 l2 t Hr Hl) as Hr'.
  assert (Hb := threads_bound _ Hnd (list_threads s A tl _ Hr Hl)). rewrite !length_app in *. simpl in Hb, Hc.
  erewrite add_count_eq; [|exact Hc|lia]. eexists. split; [done|]. split; [|split; [by apply known_out|]].
  - replace (Z.of_nat (length l1 + S (length l2)) + -1) with (Z.of_nat (length l1 + length l2)) by lia. done.
  - change (sf (splice_out (before tl l1) (Node t) (after tl l2) s) (Node t) = Some t).
    destruct (fields_out (before tl l1) (Node t) (after tl l2) s (Node t)) as (_ & _ & ->); try done.
    destruct Sn as [z Hz]. unfold sf. rewrite Hz. simpl. f_equal. by apply (rep_thread _ _ Hr t z).
Qed.

(** The first and the last node of a list. *)
Lemma first_node s tl l : islist s tl l -> nx s (Head tl) = Some (after tl l) /\ pv s (Tail tl) = Some (before tl l).
Proof.
  intros (HL & _). split.
  - by destruct l; destruct HL.
  - unfold path in HL. destruct l as [|t l _] using rev_ind; [by destruct HL as (_ & ? & _)|].
    rewrite fmap_app, <- app_assoc, app_comm_cons in HL. cbn in HL. apply (linked_app s (Head tl :: (Node <$> l)) (Node t) [Tail tl]) in HL as [_ (_ & E & _)].
    rewrite E. unfold before. by rewrite last_snoc.
Qed.

Lemma field_node s n y : nx s n = Some y -> exists z, nodes s !! n = Some z /\ tln_next z = y.
Proof. unfold nx. destruct (nodes s !! n) as [z|]; [|done]. intros [= <-]. by exists z. Qed.

Lemma field_node' s n y : pv s n = Some y -> exists z, nodes s !! n = Some z /\ tln_prev z = y.
Proof. unfold pv. destruct (nodes s !! n) as [z|]; [|done]. intros [= <-]. by exists z. Qed.

Lemma remhead_run K s A tl t l : rep s A -> all_known K s -> A !! tl = Some (t :: l) ->
  exists s', threadlist_remhead tl s = Ret t s' /\ rep s' (<[tl := l]> A) /\ all_known K s'.
Proof.
  intros Hr HK Hl. pose proof (rep_list _ _ Hr tl _ Hl) as Hil. destruct (first_node s tl _ Hil) as [Hh _].
  destruct (field_node _ _ _ Hh) as (zh & Eh & Nh). unfold threadlist_remhead. erewrite run_bind by (by apply rd_node_eq). rewrite Nh. cbn.
  destruct Hil as (HL & _). destruct (path_split tl [] l) as (a & b & _ & E). specialize (E t). cbn [app] in E. rewrite E in HL.
  apply linked_app in HL as [_ (_ & _ & En & _)]. destruct (field_node _ _ _ En) as (zt & Et & Nt).
  erewrite run_bind by (by apply rd_node_eq). rewrite bool_decide_eq_false_2.
  2: { rewrite Nt. destruct (after_cases tl l) as [->|(? & _ & ->)]; done. }
  destruct (remove_run K s A tl [] l t Hr HK Hl) as (s' & Hrun & Hr' & HK' & Hs).
  erewrite run_bind2 by exact Hrun. unfold sf in Hs. destruct (nodes s' !! Node t) as [z|] eqn:Ez; [|done].
  erewrite run_bind by (by apply rd_node_eq). simpl in Hs. simplify_eq. by exists s'.
Qed.

Lemma remtail_run K s A tl t l : rep s A -> all_known K s -> A !! tl = Some (l ++ [t]) ->
  exists s', threadlist_remtail tl s = Ret t s' /\ rep s' (<[tl := l]> A) /\ all_known K s'.
Proof.
  intros Hr HK Hl. pose proof (rep_list _ _ Hr tl _ Hl) as Hil. destruct (first_node s tl _ Hil) as [_ Hh].
  destruct (field_node' _ _ _ Hh) as (zh & Eh & Nh). unfold threadlist_remtail. erewrite run_bind by (by apply rd_node_eq). rewrite Nh.
  assert (Eb : before tl (l ++ [t]) = Node t) by (unfold before; by rewrite last_snoc). rewrite Eb. cbv zeta.
  destruct Hil as (HL & _). destruct (path_split tl l []) as (a & b & _ & E). specialize (E t). rewrite E in HL.
  apply linked_app in HL as [_ (_ & Ep & _)]. destruct (field_node' _ _ _ Ep) as (zt & Et & Nt).
  erewrite run_bind by (by apply rd_node_eq). rewrite bool_decide_eq_false_2.
  2: { rewrite Nt. destruct (before_cases tl l) as [->|(? & _ & ->)]; done. }
  destruct (remove_run K s A tl l [] t Hr HK Hl) as (s' & Hrun & Hr' & HK' & Hs). rewrite app_nil_r in Hr'.
  erewrite run_bind2 by exact Hrun. unfold sf in Hs. destruct (nodes s' !! Node t) as [z|] eqn:Ez; [|done].
  erewrite run_bind by (by apply rd_node_eq). simpl in Hs. simplify_eq. by exists s'.
Qed.

(** Nothing to remove. *)
Lemma rem_none s A tl : rep s A -> A !! tl = Some [] -> threadlist_remhead tl s = Ret 0 s /\ threadlist_remtail tl s = Ret 0 s.
Proof.
  intros Hr Hl. pose proof (rep_list _ _ Hr tl _ Hl) as Hil. destruct (first_node s tl _ Hil) as [Hh Ht].
  destruct Hil as (_ & Hph & Hnt & _). destruct (field_node _ _ _ Hh) as (zh & Eh & Nh), (field_node' _ _ _ Ht) as (zt & Et & Nt).
  unfold nx, pv in *. rewrite Eh in Hph. rewrite Et in Hnt. simpl in *. unfold threadlist_remhead, threadlist_remtail. split.
  - erewrite run_bind by (by apply rd_node_eq). rewrite Nh. cbn. erewrite run_bind by (by apply rd_node_eq). by rewrite bool_decide_eq_true_2 by congruence.
  - erewrite run_bind by (by apply rd_node_eq). rewrite Nt. cbn. erewrite run_bind by (by apply rd_node_eq). by rewrite bool_decide_eq_true_2 by congruence.
Qed.

Lemma op_refines K s A o r A' : rep s A -> all_known K s -> lstep K A o r A' ->
  exists s', run_op o s = Ret r s' /\ rep s' A' /\ all_known K s'.
Proof.
  intros Hr HK Hstep. destruct Hstep as [tl t l Hl Ht Hf|tl t l Hl Ht Hf|tl Hl|tl t l Hl|tl Hl|tl t l Hl|tl o t l1 l2 Hl Ht Hf|tl o t l1 l2 Hl Ht Hf|tl t l1 l2 Hl]; cbn [run_op].
  - destruct (insert_run K s A tl [] l t (threadlist_insertafternode (Head tl) t) Hr HK Hl Ht Hf) as (s' & Hrun & Hrest);
      [intros; by apply insertafternode_eq|]. exists s'. split; [|done]. by erewrite run_bind by exact Hrun.
  - destruct (insert_run K s A tl l [] t (threadlist_insertbeforenode t (Tail tl)) Hr HK) as (s' & Hrun & Hrest); try done;
      [by rewrite app_nil_r|intros; by apply insertbeforenode_eq|]. exists s'. split; [|done]. by erewrite run_bind by exact Hrun.
  - exists s. split; [by apply (rem_none s A)|done].
  - by apply remhead_run.
  - exists s. split; [by apply (rem_none s A)|done].
  - by apply remtail_run.
  - destruct (insert_run K s A tl (l1 ++ [o]) l2 t (threadlist_insertafternode (Node o) t) Hr HK) as (s' & Hrun & Hrest); try done;
      [by rewrite <- app_assoc| |].
    { unfold before. rewrite last_snoc. intros. by apply insertafternode_eq. }
    rewrite <- app_assoc in Hrest. exists s'. split; [|done]. by erewrite run_bind by exact Hrun.
  - destruct (insert_run K s A tl l1 (o :: l2) t (threadlist_insertbeforenode t (Node o)) Hr HK) as (s' & Hrun & Hrest); try done;
      [intros; by apply insertbeforenode_eq|]. exists s'. split; [|done]. by erewrite run_bind by exact Hrun.
  - destruct (remove_run K s A tl l1 l2 t Hr HK Hl) as (s' & Hrun & Hr' & HK' & _). exists s'. split; [|done]. by erewrite run_bind by exact Hrun.
Qed.

(** *** Iteration and set-up *)

Lemma after_self s A tl l1 l2 : rep s A -> A !! tl = Some (l1 ++ l2) ->
  exists z, nodes s !! after tl l2 = Some z /\ tln_self z = default 0 (head l2).
Proof.
  intros Hr Hl. destruct (in_place s A tl l1 l2 Hr Hl) as (_ & Hy & _). pose proof (rep_list _ _ Hr tl _ Hl) as Hil.
  destruct (path_some s tl _ _ Hil Hy) as [z Hz]. exists z. split; [done|]. destruct l2 as [|t l2]; cbn in *.
  - destruct Hil as (_ & _ & _ & _ & Hs & _). unfold sf in Hs. rewrite Hz in Hs. by injection Hs.
  - by apply (rep_thread _ _ Hr t z).
Qed.

Lemma forall_from_eq s A tl l2 : forall l1 fuel, rep s A -> A !! tl = Some (l1 ++ l2) -> (length l2 < fuel)%nat ->
  forall_from fuel (default 0 (head l2)) s = Ret l2 s.
Proof.
  induction l2 as [|t l2 IH]; intros l1 fuel Hr Hl Hf; (destruct fuel as [|fuel]; [simpl in Hf; lia|]); cbn [forall_from head]; [done|].
  change (default 0 (Some t)) with t.
  destruct (Z.eqb_spec t 0) as [->|Ht].
  { exfalso. pose proof (list_threads s A tl _ Hr Hl 0 ltac:(set_solver)). lia. }
  pose proof (rep_list _ _ Hr tl _ Hl) as (HL & _). destruct (path_split tl l1 l2) as (a & b & _ & E). rewrite E in HL.
  apply linked_app in HL as [_ (_ & _ & En & _)]. destruct (field_node _ _ _ En) as (zt & Et & Nt).
  erewrite run_bind by (by apply rd_node_eq). rewrite Nt.
  assert (Hl' : A !! tl = Some ((l1 ++ [t]) ++ l2)) by (by rewrite <- app_assoc).
  destruct (after_self s A tl (l1 ++ [t]) l2 Hr Hl') as (z & Hz & Es). erewrite run_bind by (by apply rd_node_eq). rewrite Es.
  erewrite run_bind by (apply (IH (l1 ++ [t])); (done || simpl in Hf; lia)). done.
Qed.

Lemma threadlist_forall_eq s A tl l : rep s A -> A !! tl = Some l -> threadlist_forall (S (length l)) tl s = Ret l s.
Proof.
  intros Hr Hl. destruct (first_node s tl l (rep_list _ _ Hr tl l Hl)) as [Hh _]. destruct (field_node _ _ _ Hh) as (zh & Eh & Nh).
  unfold threadlist_forall. erewrite run_bind by (by apply rd_node_eq). rewrite Nh.
  destruct (after_self s A tl [] l Hr Hl) as (z & Hz & Es). erewrite run_bind by (by apply rd_node_eq). rewrite Es.
  apply (forall_from_eq s A tl l []); (done || lia).
Qed.

Lemma threadlist_isempty_eq s A tl l : rep s A -> A !! tl = Some l -> threadlist_isempty tl s = Ret (bool_decide (l = [])) s.
Proof.
  intros Hr Hl. destruct (rep_list _ _ Hr tl l Hl) as (_ & _ & _ & _ & _ & Hc). unfold threadlist_isempty. erewrite run_bind by reflexivity.
  rewrite Hc. erewrite run_bind by reflexivity. by destruct l.
Qed.

(** A new list is empty, and a new thread is on no list. *)
Lemma threadlist_init_rep s A tl : rep s A -> A !! tl = None -> exists s', threadlist_init tl s = Ret tt s' /\ rep s' (<[tl := []]> A) /\
  (forall t, nodes s' !! Node t = nodes s !! Node t).
Proof.
  intros Hr Hl. eexists. split; [reflexivity|]. set (s' := mk_tls _ _).
  assert (F : forall w, w <> Head tl -> w <> Tail tl -> nodes s' !! w = nodes s !! w).
  { intros w H1 H2. cbn. by rewrite !lookup_insert_ne by done. }
  split; [|intros t; by apply F]. split.
  - intros k l Hk. apply lookup_insert_Some in Hk as [[<- <-]|[Hne Hk]].
    + assert (Eh : nodes s' !! Head tl = Some (mk_tln NULL (Tail tl) 0)) by apply lookup_insert_eq.
      assert (Et : nodes s' !! Tail tl = Some (mk_tln (Head tl) NULL 0)) by (cbn; rewrite lookup_insert_ne by done; apply lookup_insert_eq).
      assert (Ec : tl_count s' !! tl = Some 0) by apply lookup_insert_eq.
      unfold islist. cbn [path fmap list_fmap app linked length]. unfold nx, pv, sf. by rewrite Eh, Et, Ec.
    + apply (islist_frame s); [|cbn; by rewrite lookup_insert_ne|by apply (rep_list _ _ Hr)]. intros w Hw.
      assert (Ew : nodes s' !! w = nodes s !! w) by (apply F; intros ->; apply path_nodes in Hw as [?|[?|(? & _ & ?)]]; by simplify_eq).
      unfold same_links, nx, pv, sf. by rewrite Ew.
  - intros k l Hk. apply lookup_insert_Some in Hk as [[<- <-]|[_ Hk]]; [apply NoDup_nil_2|by apply (rep_nodup _ _ Hr k)].
  - intros k k' l l' t Hk Hk' Ht Ht'. apply lookup_insert_Some in Hk as [[<- <-]|[_ Hk]], Hk' as [[<- <-]|[_ Hk']]; try (by apply not_elem_of_nil in Ht || by apply not_elem_of_nil in Ht').
    by apply (rep_once _ _ Hr k k' l l' t).
  - intros t x Hx. rewrite F in Hx by done. by apply (rep_thread _ _ Hr).
  - intros t x Hx Hno. rewrite F in Hx by done. apply (rep_free _ _ Hr t x Hx). intros (k & l & Hk & Ht). apply Hno. exists k, l. split; [|done].
    rewrite lookup_insert_ne; [done|]. by intros ->; rewrite Hl in Hk.
Qed.

Lemma threadlistnode_init_rep s A t : rep s A -> ~ on_list A t -> 0 < t < 2 ^ 32 ->
  exists s', threadlistnode_init t t s = Ret tt s' /\ rep s' A /\ nodes s' !! Node t = Some (mk_tln NULL NULL t) /\
    (forall w, w <> Node t -> nodes s' !! w = nodes s !! w).
Proof.
  intros Hr Hno Ht. unfold threadlistnode_init. destruct (Z.eqb_spec t 0); [lia|]. eexists. split; [reflexivity|]. set (s' := mk_tls _ _).
  assert (F : forall w, w <> Node t -> nodes s' !! w = nodes s !! w) by (intros w H1; cbn; by rewrite lookup_insert_ne by done).
  split; [|split; [apply lookup_insert_eq|done]]. split.
  - intros k l Hk. apply (islist_frame s); [|done|by apply (rep_list _ _ Hr)]. intros w Hw. unfold same_links, nx, pv, sf. rewrite F; [done|].
    intros ->. apply path_nodes in Hw as [?|[?|(u & Hu & ?)]]; simplify_eq. apply Hno. by exists k, l.
  - apply (rep_nodup _ _ Hr).
  - apply (rep_once _ _ Hr).
  - intros u x Hx. destruct (decide (u = t)) as [->|]; [cbn in Hx; rewrite lookup_insert_eq in Hx; by simplify_eq|]. rewrite F in Hx by congruence. by apply (rep_thread _ _ Hr).
  - intros u x Hx Hu. destruct (decide (u = t)) as [->|]; [cbn in Hx; rewrite lookup_insert_eq in Hx; by simplify_eq|]. rewrite F in Hx by congruence. by apply (rep_free _ _ Hr u).
Qed.

Lemma empty_rep : rep (mk_tls ∅ ∅) ∅.
Proof. split; intros; by rewrite ?lookup_empty in *. Qed.

(** C31: the thread lists refine sequences of threads: every run of operations that the
    sequences allow (a thread is added only when it is on no list) returns what the
    sequences return and ends in a store that represents their final value; the invariant
    (nodes linked both ways between the bookends, counts exact, a thread on one list at
    most, unlisted threads unlinked) holds, and iterating over any list visits exactly its
    threads, in order. *)
Theorem threadlist_refines K s A os rs A' : rep s A -> all_known K s -> lsteps K A os rs A' ->
  exists s', run_ops os s = Ret rs s' /\ rep s' A' /\
    (forall tl l, A' !! tl = Some l -> threadlist_forall (S (length l)) tl s' = Ret l s' /\ threadlist_isempty tl s' = Ret (bool_decide (l = [])) s').
Proof.
  intros Hr HK Hs. revert s Hr HK. induction Hs as [A|A o r A1 os rs A2 Hstep _ IH]; intros s Hr HK.
  - exists s. split; [done|]. split; [done|]. intros tl l Hl. split; [by apply (threadlist_forall_eq s A)|by apply (threadlist_isempty_eq s A)].
  - destruct (op_refines K s A o r A1 Hr HK Hstep) as (s1 & Hrun & Hr1 & HK1). destruct (IH s1 Hr1 HK1) as (s2 & Hrun2 & Hrest).
    exists s2. split; [|done]. cbn [run_ops]. erewrite run_bind by exact Hrun. by erewrite run_bind by exact Hrun2.
Qed.

(** A list and three threads. *)
Lemma toy_rep : exists s, (_ ← threadlist_init 7; _ ← threadlistnode_init 100 100; _ ← threadlistnode_init 101 101; threadlistnode_init 102 102) (mk_tls ∅ ∅) = Ret tt s /\
  rep s {[7 := []]} /\ all_known (fun t => t = 100 \/ t = 101 \/ t = 102) s.
Proof.
  destruct (threadlist_init_rep _ ∅ 7 empty_rep) as (s1 & E1 & R1 & _); [apply lookup_empty|].
  change (<[7 := []]> (∅ : gmap Z (list Z))) with ({[7 := []]} : gmap Z (list Z)) in R1.
  assert (Hno : forall t, ~ on_list ({[7 := []]} : gmap Z (list Z)) t).
  { intros t (k & l & Hk & Ht). apply lookup_singleton_Some in Hk as [<- <-]. by apply not_elem_of_nil in Ht. }
  destruct (threadlistnode_init_rep s1 _ 100 R1 (Hno _) ltac:(lia)) as (s2 & E2 & R2 & N2 & _).
  destruct (threadlistnode_init_rep s2 _ 101 R2 (Hno _) ltac:(lia)) as (s3 & E3 & R3 & N3 & F3).
  destruct (threadlistnode_init_rep s3 _ 102 R3 (Hno _) ltac:(lia)) as (s4 & E4 & R4 & N4 & F4).
  exists s4. split; [|split; [done|]].
  - erewrite run_bind by exact E1. erewrite run_bind by exact E2. by erewrite run_bind by exact E3.
  - intros t [->|[->| ->]]; [rewrite F4, F3, N2 by done|rewrite F4, N3 by done|rewrite N4]; by eexists.
Qed.

Lemma threadlist_refines_witness : exists s s', rep s {[7 := []]} /\
  run_ops [AddTail 7 100; AddHead 7 101; InsertAfter 7 101 102; RemTail 7; RemHead 7; RemHead 7; RemHead 7] s = Ret [0; 0; 0; 100; 101; 102; 0] s' /\
  rep s' {[7 := []]}.
Proof.
  destruct toy_rep as (s & _ & Hr & HK).
  assert (Hup : forall l l' : list Z, <[7 := l]> ({[7 := l']} : gmap Z (list Z)) = {[7 := l]}) by (intros; apply insert_singleton_eq).
  assert (Hno : forall t l, t ∉ l -> ~ on_list ({[7 := l]} : gmap Z (list Z)) t).
  { intros t l Hn (k & l' & Hk & Ht). by apply lookup_singleton_Some in Hk as [<- <-]. }
  assert (Hat : forall l, ({[7 := l]} : gmap Z (list Z)) !! 7 = Some l) by (intros; apply lookup_singleton_eq).
  edestruct (threadlist_refines (fun t => t = 100 \/ t = 101 \/ t = 102) s {[7 := []]}
    [AddTail 7 100; AddHead 7 101; InsertAfter 7 101 102; RemTail 7; RemHead 7; RemHead 7; RemHead 7] [0; 0; 0; 100; 101; 102; 0] {[7 := []]} Hr HK) as (s' & Hrun & Hr' & _).
  - econstructor; [apply (s_addtail _ _ 7 100 []); [apply Hat|tauto|apply Hno; set_solver]|]. rewrite Hup.
    econstructor; [apply (s_addhead _ _ 7 101 [100]); [apply Hat|tauto|apply Hno; set_solver]|]. rewrite Hup.
    econstructor; [apply (s_after _ _ 7 101 102 [] [100]); [apply Hat|tauto|apply Hno; set_solver]|]. rewrite Hup.
    econstructor; [apply (s_remtail _ _ 7 100 [101; 102]), Hat|]. rewrite Hup.
    econstructor; [apply (s_remhead _ _ 7 101 [102]), Hat|]. rewrite Hup.
    econstructor; [apply (s_remhead _ _ 7 102 []), Hat|]. rewrite Hup.
    econstructor; [apply s_remhead_none, Hat|]. constructor.
  - by exists s, s'.
Defined.

End Threadlist.
