(* ===== verification/Array.v ===== *)
(** * Resizable arrays: kern/lib/array.c and kern/include/array.h

    An array of pointers that grows by doubling.  The block [a->v] is the list of its words;
    whether [kmalloc] finds memory, and what the new memory holds, are arguments.  The
    theorem gives the well-formedness of arrays, that every operation keeps it, and what
    each operation is on the sequence of elements. *)

From S2P Require Import Prelude.

Module Array.

Record array := mk_array { a_v : option (list Z); a_num : Z; a_max : Z }.

(** [kmalloc(bytes)], seen as words of four bytes. *)
Definition kmalloc_words (ok : bool) (junk : Z -> Z) (bytes : Z) : option (list Z) :=
  if ok then Some (junk <$> seqZ 0 (bytes / 4)) else None.

Definition array_init : M array unit := put (mk_array None 0 0).

Definition array_create (ok : bool) : option array := if ok then Some (mk_array None 0 0) else None.

(** With ARRAYS_CHECKED. *)
Definition array_cleanup : M array unit :=
  a ← get;
  _ ← KASSERT (a_num a =? 0);
  put (mk_array None (a_num a) (a_max a)).

(** [array_destroy] cleans up; the structure itself is then freed. *)
Definition array_destroy : M array unit := array_cleanup.

Definition array_num : M array Z := gets a_num.

(** [a->v[index]] *)
Definition rd_v (i : Z) : M array Z :=
  a ← get;
  l ← deref (a_v a);
  deref (l !! Z.to_nat i).
Definition wr_v (i x : Z) : M array unit :=
  a ← get;
  l ← deref (a_v a);
  if i <? Z.of_nat (length l) then put (mk_array (Some (<[Z.to_nat i := x]> l)) (a_num a) (a_max a)) else undef.

Definition array_get (index : Z) : M array Z :=
  a ← get;
  _ ← KASSERT (index <? a_num a);
  rd_v index.

Definition array_set (index val : Z) : M array unit :=
  a ← get;
  _ ← KASSERT (index <? a_num a);
  wr_v index val.

(** [while (num > newmax) newmax = newmax ? newmax*2 : 4] on [unsigned]. *)
Fixpoint grow (fuel : nat) (newmax num : Z) : M array Z :=
  match fuel with
  | O => out_of_fuel
  | S fuel' =>
      if newmax <? num then grow fuel' (if negb (newmax =? 0) then u32 (newmax * 2) else 4) num
      else mret newmax
  end.

(** [memcpy(newptr, a->v, a->num * sizeof *a->v)]: nothing is read when [num] is 0. *)
Definition copy_words (new : list Z) (a : array) : option (list Z) :=
  let n := Z.to_nat (a_num a) in
  match a_v a with
  | None => if a_num a =? 0 then Some new else None
  | Some old => if (n <=? length old)%nat && (n <=? length new)%nat then Some (take n old ++ drop n new) else None
  end.

Definition array_preallocate (ok : bool) (junk : Z -> Z) (num : Z) : M array Z :=
  a ← get;
  if a_max a <? num then
    newmax ← grow 40 (a_max a) num;
    match kmalloc_words ok junk (u32 (newmax * 4)) with
    | None => mret ENOMEM
    | Some newptr =>
        l ← deref (copy_words newptr a);
        _ ← put (mk_array (Some l) (a_num a) newmax);
        mret 0
    end
  else mret 0.

Definition array_setsize (ok : bool) (junk : Z -> Z) (num : Z) : M array Z :=
  result ← array_preallocate ok junk num;
  if negb (result =? 0) then mret result
  else
    _ ← modify (fun a => mk_array (a_v a) num (a_max a));
    mret 0.

(** The result and what is stored through [index_ret]. *)
Definition array_add (ok : bool) (junk : Z -> Z) (val : Z) : M array (Z * Z) :=
  a ← get;
  let index := a_num a in
  ret ← array_setsize ok junk (u32 (index + 1));
  if negb (ret =? 0) then mret (ret, 0)
  else
    _ ← wr_v index val;
    mret (0, index).

(** [memmove] of the elements after [index] one place down. *)
Definition array_remove (index : Z) : M array unit :=
  a ← get;
  _ ← KASSERT (a_num a <=? a_max a);
  _ ← KASSERT (index <? a_num a);
  l ← deref (a_v a);
  let i := Z.to_nat index in
  let k := Z.to_nat (u32 (a_num a - (index + 1))) in
  if (i + 1 + k <=? length l)%nat then
    put (mk_array (Some (take i l ++ take k (drop (i + 1) l) ++ drop (i + k) l)) (u32 (a_num a - 1)) (a_max a))
  else undef.

(** *** Well-formed arrays and their elements *)

Definition LIMIT : Z := 2 ^ 29.

Definition wf (a : array) : Prop :=
  0 <= a_num a <= a_max a /\ a_max a < 2 ^ 30 /\
  match a_v a with None => a_max a = 0 | Some l => Z.of_nat (length l) = a_max a end.

Definition elems (a : array) : list Z := take (Z.to_nat (a_num a)) (default [] (a_v a)).

Inductive aop :=
  | Add (ok : bool) (junk : Z -> Z) (x : Z) | SetSize (ok : bool) (junk : Z -> Z) (n : Z)
  | Get (i : Z) | Set_ (i x : Z) | Remove (i : Z).

Definition run_aop (o : aop) : M array (Z * Z) :=
  match o with
  | Add ok junk x => array_add ok junk x
  | SetSize ok junk n => r ← array_setsize ok junk n; mret (r, 0)
  | Get i => x ← array_get i; mret (0, x)
  | Set_ i x => _ ← array_set i x; mret (0, 0)
  | Remove i => _ ← array_remove i; mret (0, 0)
  end.

(** The operations on sequences: code and value returned, and the new sequence.  Only an
    operation that may need memory can fail, and then nothing changes; growing leaves the
    new elements open. *)
Definition aspec (o : aop) (l : list Z) (r : Z * Z) (l' : list Z) : Prop :=
  match o with
  | Add ok _ x => (r = (0, Z.of_nat (length l)) /\ l' = l ++ [x]) \/ (ok = false /\ r = (ENOMEM, 0) /\ l' = l)
  | SetSize ok _ n =>
      (r = (0, 0) /\ Z.of_nat (length l') = n /\ forall i, (i < length l)%nat -> (i < length l')%nat -> l' !! i = l !! i) \/
      (ok = false /\ r = (ENOMEM, 0) /\ l' = l)
  | Get i => exists x, l !! Z.to_nat i = Some x /\ r = (0, x) /\ l' = l
  | Set_ i x => r = (0, 0) /\ l' = <[Z.to_nat i := x]> l
  | Remove i => r = (0, 0) /\ l' = delete (Z.to_nat i) l
  end.

(** Where the operation is used as intended. *)
Definition in_bounds (o : aop) (l : list Z) : Prop :=
  match o with
  | Add _ _ _ => Z.of_nat (length l) < LIMIT
  | SetSize _ _ n => 0 <= n <= LIMIT
  | Get i | Set_ i _ | Remove i => 0 <= i < Z.of_nat (length l)
  end.

Lemma elems_length a : wf a -> Z.of_nat (length (elems a)) = a_num a.
Proof.
  intros (Hn & Hm & Hv). unfold elems. rewrite length_take. destruct (a_v a) as [l|]; simpl; lia.
Qed.

Lemma grow_S fuel newmax num : grow (S fuel) newmax num =
  if newmax <? num then grow fuel (if negb (newmax =? 0) then u32 (newmax * 2) else 4) num else mret newmax.
Proof. done. Qed.

Lemma grow_spec num a fuel : forall newmax, 0 < newmax < 2 ^ 30 -> 0 <= num <= LIMIT -> num <= newmax * 2 ^ Z.of_nat fuel ->
  exists m, grow (S fuel) newmax num a = Ret m a /\ num <= m < 2 ^ 30 /\ newmax <= m.
Proof.
  unfold LIMIT. induction fuel as [|fuel IH]; intros newmax Hn Hnum Hf.
  - cbn [grow]. simpl in Hf. destruct (Z.ltb_spec newmax num); [lia|]. exists newmax. split; [done|]. lia.
  - rewrite grow_S.
    destruct (Z.ltb_spec newmax num); [|exists newmax; split; [done|]; lia].
    destruct (Z.eqb_spec newmax 0); [lia|]. cbn [negb]. rewrite u32_small by lia.
    rewrite Nat2Z.inj_succ, Z.pow_succ_r in Hf by lia. destruct (IH (newmax * 2)) as (m & Hrun & Hm & Hle); [lia|lia|lia|].
    exists m. split; [done|]. lia.
Qed.

Lemma grow_eq num a newmax : 0 <= newmax < 2 ^ 30 -> newmax < num <= LIMIT ->
  exists m, grow 40 newmax num a = Ret m a /\ num <= m < 2 ^ 30 /\ newmax <= m.
Proof.
  intros Hn Hnum. destruct (Z.eq_dec newmax 0) as [->|Hne].
  - rewrite grow_S. destruct (Z.ltb_spec 0 num); [|lia]. cbn [negb Z.eqb].
    destruct (grow_spec num a 38 4) as (m & Hrun & Hm & Hle); [lia|lia|unfold LIMIT in *; lia|]. exists m. split; [done|]. lia.
  - apply (grow_spec num a 39); [lia|lia|]. unfold LIMIT in *. assert (2 ^ 39 <= newmax * 2 ^ 39) by nia. lia.
Qed.

(** The elements survive a move to a larger block. *)
Lemma copy_words_eq a new : wf a -> (Z.to_nat (a_num a) <= length new)%nat ->
  exists l, copy_words new a = Some l /\ length l = length new /\ take (Z.to_nat (a_num a)) l = elems a.
Proof.
  intros (Hn & Hm & Hv) Hlen. unfold copy_words, elems. destruct (a_v a) as [old|]; simpl in *.
  - assert (E : (Z.to_nat (a_num a) <=? length old)%nat && (Z.to_nat (a_num a) <=? length new)%nat = true).
    { apply andb_true_iff. split; apply Nat.leb_le; lia. }
    rewrite E. eexists. split; [done|]. split; [rewrite length_app, length_take, length_drop; lia|].
    rewrite take_app_le by (rewrite length_take; lia). rewrite take_take. f_equal. lia.
  - assert (a_num a = 0) as -> by lia. exists new. split; [done|]. split; [done|]. by rewrite take_nil.
Qed.

Lemma array_preallocate_eq a ok junk num : wf a -> 0 <= num <= LIMIT ->
  (exists a', array_preallocate ok junk num a = Ret 0 a' /\ wf a' /\ elems a' = elems a /\ a_num a' = a_num a /\ num <= a_max a') \/
  (ok = false /\ array_preallocate ok junk num a = Ret ENOMEM a).
Proof.
  intros Hwf Hnum. pose proof Hwf as (Hn & Hm & Hv). unfold array_preallocate. erewrite run_bind by reflexivity.
  destruct (Z.ltb_spec (a_max a) num); [|left; exists a; split_and!; (done || lia)].
  destruct (grow_eq num a (a_max a)) as (m & Hrun & Hmr & Hle); [lia|lia|]. erewrite run_bind by exact Hrun.
  rewrite u32_small by lia. unfold kmalloc_words. destruct ok; [left|by right].
  rewrite Z.div_mul by done. set (new := junk <$> seqZ 0 m).
  assert (Hlen : length new = Z.to_nat m) by (unfold new; by rewrite length_fmap, length_seqZ).
  destruct (copy_words_eq a new Hwf ltac:(lia)) as (l & El & Hll & Ht). rewrite El. erewrite run_bind by reflexivity.
  erewrite run_bind by reflexivity. eexists. split; [done|]. split_and!; [unfold wf; cbn; lia| |done|cbn; lia]. exact Ht.
Qed.

Lemma setsize_eq a ok junk num : wf a -> 0 <= num <= LIMIT ->
  (exists a', array_setsize ok junk num a = Ret 0 a' /\ wf a' /\ a_num a' = num /\ num <= a_max a' /\
    (forall i, (i < length (elems a))%nat -> (i < Z.to_nat num)%nat -> elems a' !! i = elems a !! i)) \/
  (ok = false /\ array_setsize ok junk num a = Ret ENOMEM a).
Proof.
  intros Hwf Hnum. unfold array_setsize. destruct (array_preallocate_eq a ok junk num Hwf Hnum) as [(a1 & Hrun & Hw & He & Hn & Hle)|[-> Hrun]].
  2: { right. split; [done|]. by erewrite run_bind by exact Hrun. }
  left. erewrite run_bind by exact Hrun. cbn [Z.eqb negb]. erewrite run_bind by reflexivity. eexists. split; [done|].
  pose proof Hw as (H1 & H2 & H3). split; [unfold wf; cbn; split_and!; (done || lia)|]. split; [done|]. split; [done|].
  intros i Hi Hi'. rewrite <- He. pose proof (elems_length a1 Hw) as Hl1. rewrite He in Hl1.
  unfold elems. cbn. rewrite !lookup_take_lt by lia. done.
Qed.

Lemma wr_v_eq a i x : wf a -> 0 <= i < a_max a ->
  exists l, a_v a = Some l /\ wr_v i x a = Ret tt (mk_array (Some (<[Z.to_nat i := x]> l)) (a_num a) (a_max a)).
Proof.
  intros (Hn & Hm & Hv) Hi. unfold wr_v. erewrite run_bind by reflexivity. destruct (a_v a) as [l|]; [|lia]. exists l. split; [done|].
  erewrite run_bind by reflexivity. destruct (Z.ltb_spec i (Z.of_nat (length l))); [done|lia].
Qed.

Lemma wf_write a i x l : wf a -> a_v a = Some l -> wf (mk_array (Some (<[i := x]> l)) (a_num a) (a_max a)).
Proof. intros (Hn & Hm & Hv) E. rewrite E in Hv. unfold wf. cbn. by rewrite length_insert. Qed.

Lemma add_step a ok junk x : wf a -> in_bounds (Add ok junk x) (elems a) ->
  exists r a', array_add ok junk x a = Ret r a' /\ wf a' /\ aspec (Add ok junk x) (elems a) r (elems a').
Proof.
  intros Hwf Hb. cbn in Hb. pose proof (elems_length a Hwf) as Hlen. pose proof Hwf as (Hn & Hm & Hv). unfold LIMIT in Hb.
  unfold array_add. erewrite run_bind by reflexivity. rewrite u32_small by lia.
  destruct (setsize_eq a ok junk (a_num a + 1) Hwf ltac:(unfold LIMIT; lia)) as [(a1 & Hrun & Hw & Hn1 & Hle & He)|[-> Hrun]].
  2: { erewrite run_bind by exact Hrun. exists (ENOMEM, 0), a. split; [done|]. split; [done|]. by right. }
  erewrite run_bind by exact Hrun. cbn [Z.eqb negb]. destruct (wr_v_eq a1 (a_num a) x Hw ltac:(lia)) as (l & El & Hwr).
  erewrite run_bind by exact Hwr. eexists _, _. split; [reflexivity|]. split; [by apply wf_write|]. left. split; [by rewrite Hlen|].
  destruct Hw as (_ & Hm1 & Hv1). rewrite El in Hv1. apply list_eq. intros i. unfold elems at 1. cbn. rewrite Hn1.
  destruct (decide (i < Z.to_nat (a_num a))%nat) as [Hi|Hi].
  - rewrite lookup_take_lt, list_lookup_insert_ne, lookup_app_l by lia. rewrite <- He by lia.
    unfold elems. rewrite El, Hn1. cbn. by rewrite lookup_take_lt by lia.
  - destruct (decide (i = Z.to_nat (a_num a))) as [->|Hne].
    + rewrite lookup_take_lt, list_lookup_insert_eq by lia. rewrite lookup_app_r by lia. by replace (_ - length (elems a))%nat with 0%nat by lia.
    + rewrite lookup_take_ge by lia. symmetry. apply lookup_ge_None. rewrite length_app. simpl. lia.
Qed.

Lemma access_step a i x : wf a -> 0 <= i < Z.of_nat (length (elems a)) ->
  (exists y, array_get i a = Ret y a /\ elems a !! Z.to_nat i = Some y) /\
  (exists a', array_set i x a = Ret tt a' /\ wf a' /\ elems a' = <[Z.to_nat i := x]> (elems a)).
Proof.
  intros Hwf Hi. pose proof (elems_length a Hwf) as Hlen. pose proof Hwf as (Hn & Hm & Hv). split.
  - destruct (lookup_lt_is_Some_2 (elems a) (Z.to_nat i) ltac:(lia)) as [y Hy]. exists y. split; [|done].
    unfold array_get. erewrite run_bind by reflexivity. destruct (Z.ltb_spec i (a_num a)); [|lia]. erewrite run_bind by reflexivity.
    unfold rd_v. erewrite run_bind by reflexivity. unfold elems in Hy. destruct (a_v a) as [l|]; [|lia]. erewrite run_bind by reflexivity.
    cbn in Hy. rewrite lookup_take_lt in Hy by lia. by rewrite Hy.
  - destruct (wr_v_eq a i x Hwf ltac:(lia)) as (l & El & Hwr). eexists. split; [|split; [by apply (wf_write a (Z.to_nat i) x l)|]].
    + unfold array_set. erewrite run_bind by reflexivity. destruct (Z.ltb_spec i (a_num a)); [|lia]. erewrite run_bind by reflexivity. exact Hwr.
    + unfold elems. cbn. rewrite El. cbn. by rewrite take_insert_lt by lia.
Qed.

Lemma remove_step a i : wf a -> 0 <= i < Z.of_nat (length (elems a)) ->
  exists a', array_remove i a = Ret tt a' /\ wf a' /\ elems a' = delete (Z.to_nat i) (elems a).
Proof.
  intros Hwf Hi. pose proof (elems_length a Hwf) as Hlen. pose proof Hwf as (Hn & Hm & Hv). unfold array_remove.
  erewrite run_bind by reflexivity. destruct (Z.leb_spec (a_num a) (a_max a)); [|lia]. erewrite run_bind by reflexivity.
  destruct (Z.ltb_spec i (a_num a)); [|lia]. erewrite run_bind by reflexivity.
  unfold elems in *. destruct (a_v a) as [l|]; [|simpl in *; lia]. cbn in Hi, Hlen |- *. erewrite run_bind by reflexivity.
  rewrite !u32_small by lia. set (k := Z.to_nat (a_num a - (i + 1))). set (j := Z.to_nat i).
  destruct (Nat.leb_spec (j + 1 + k) (length l)); [|lia]. eexists. split; [reflexivity|]. split.
  - unfold wf. cbn. rewrite !length_app, !length_take, !length_drop. lia.
  - cbn. rewrite delete_take_drop, take_app_ge by (rewrite length_take; lia). rewrite length_take, take_app_le by (rewrite length_take, length_drop; lia).
    rewrite !take_take, skipn_firstn_comm. replace (j `min` Z.to_nat (a_num a))%nat with j by lia.
    replace ((Z.to_nat (a_num a - 1) - j `min` length l) `min` k)%nat with k by lia.
    replace (Z.to_nat (a_num a) - S j)%nat with k by lia. by replace (j + 1)%nat with (S j) by lia.
Qed.

(** The array is freed only when it is empty. *)
Lemma array_cleanup_eq a : array_cleanup a = if a_num a =? 0 then Ret tt (mk_array None (a_num a) (a_max a)) else Panic "KASSERT".
Proof. unfold array_cleanup. erewrite run_bind by reflexivity. by destruct (a_num a =? 0). Qed.

(** An access outside the array stops the kernel. *)
Lemma access_panic a i x : wf a -> Z.of_nat (length (elems a)) <= i ->
  array_get i a = Panic "KASSERT" /\ array_set i x a = Panic "KASSERT" /\ array_remove i a = Panic "KASSERT".
Proof.
  intros Hwf Hi. rewrite elems_length in Hi by done. destruct Hwf as (Hn & _ & _). apply Z.ltb_ge in Hi.
  unfold array_get, array_set, array_remove. split_and!; (erewrite run_bind by reflexivity); rewrite Hi; [done|done|].
  destruct (Z.leb_spec (a_num a) (a_max a)); [|lia]. by erewrite run_bind by reflexivity.
Qed.

(** Arrays are well-formed (at most [max] elements, in a block of exactly [max] words),
    and every operation keeps them so: used within its bounds it returns, does to the
    sequence of elements what its name says (append, set the size, read, write, remove), and
    can fail only for want of memory, changing nothing then; an index outside the array
    stops the kernel. *)
Theorem array_operations_wf a o : wf a ->
  (in_bounds o (elems a) -> exists r a', run_aop o a = Ret r a' /\ wf a' /\ aspec o (elems a) r (elems a')) /\
  (forall i x, Z.of_nat (length (elems a)) <= i -> o = Get i \/ o = Set_ i x \/ o = Remove i -> run_aop o a = Panic "KASSERT").
Proof.
  intros Hwf. split.
  - intros Hb. destruct o as [ok junk x|ok junk n|i|i x|i].
    + by apply add_step.
    + cbn [run_aop]. destruct (setsize_eq a ok junk n Hwf Hb) as [(a' & Hrun & Hw & Hn & _ & He)|[-> Hrun]]; erewrite run_bind by exact Hrun.
      * exists (0, 0), a'. split; [done|]. split; [done|]. left. pose proof (elems_length a' Hw). split; [done|]. split; [lia|]. intros i Hi Hi'. apply He; lia.
      * exists (ENOMEM, 0), a. split; [done|]. split; [done|]. by right.
    + cbn [run_aop]. destruct (access_step a i 0 Hwf Hb) as [(y & Hrun & Hy) _]. erewrite run_bind by exact Hrun.
      exists (0, y), a. split; [done|]. split; [done|]. by exists y.
    + cbn [run_aop]. destruct (access_step a i x Hwf Hb) as [_ (a' & Hrun & Hw & He)]. erewrite run_bind by exact Hrun. by exists (0, 0), a'.
    + cbn [run_aop]. destruct (remove_step a i Hwf Hb) as (a' & Hrun & Hw & He). erewrite run_bind by exact Hrun. by exists (0, 0), a'.
  - intros i x Hi [->|[->| ->]]; destruct (access_panic a i x Hwf Hi) as (H1 & H2 & H3); cbn [run_aop]; by apply run_bind_panic.
Qed.

Lemma array_operations_wf_witness : let a := mk_array (Some [5; 6; 7; 0]) 3 4 in
  (exists r a', run_aop (Remove 1) a = Ret r a' /\ elems a' = [5; 7]) /\ run_aop (Get 3) a = Panic "KASSERT".
Proof.
  intros a. assert (Hwf : wf a) by (unfold wf; simpl; lia). split.
  - destruct (proj1 (array_operations_wf a (Remove 1) Hwf)) as (r & a' & Hrun & _ & _ & He); [by vm_compute|]. exists r, a'. split; [exact Hrun|exact He].
  - apply (proj2 (array_operations_wf a (Get 3) Hwf) 3 0); [by vm_compute|by left].
Defined.

End Array.
