(* ===== verification/Vnode.v ===== *)
(** * Vnodes and devices: kern/vfs/vnode.c, vfsfail.c, device.c and devnull.c

    A vnode is named by its address.  Its operation table is a record of functions, as
    struct vnode_ops is; the vnode itself keeps a tag for the table.  The tables of devices
    ([dev_vnode_ops]) are those of device.c; a file system brings its own through the class
    [FileSystems], and a driver its [device_ops].

    The spinlocks [vn_countlock] and [p_lock] guard sections that call nothing and cannot
    sleep; each is one step here.  A reference count is bounded by the number of pointers
    that fit in a 32-bit memory, so it does not overflow an int. *)

From S2P Require Import Prelude Uio Sfs.

Module Vnode.
Import Uio.
Import Sfs(ENAMETOOLONG, ENOTDIR, EISDIR, ENOENT, EEXIST, ENXIO, EBUSY, EFBIG, S_IFREG, S_IFDIR, O_RDONLY, O_ACCMODE, O_APPEND, cstr).

Definition EXDEV : Z := 24.
Definition ENODEV : Z := 25.
Definition O_WRONLY : Z := 1.
Definition O_RDWR : Z := 2.
Definition O_CREAT : Z := 4.
Definition O_EXCL : Z := 8.
Definition O_TRUNC : Z := 16.
Definition S_IFCHR : Z := 24576.
Definition S_IFBLK : Z := 28672.
Definition NAME_MAX : Z := 255.

(** [flags & mask] is not 0 *)
Definition has (flags mask : Z) : bool := negb (Z.land flags mask =? 0).

(** [vn->vn_ops]: the table of device vnodes, or one of a file system's. *)
Inductive opstag := DEV_OPS | FS_OPS (k : Z).

#[export] Instance opstag_eq : EqDecision opstag.
Proof. solve_decision. Defined.

(** struct vnode.  [vn_data] is the device of a device vnode (0: NULL), and what a file
    system keeps of the object otherwise. *)
Record vnode := mk_vnode {
  vn_refcount : Z;
  vn_ops : opstag;
  vn_fs : option Z;
  vn_data : Z
}.

(** struct device; [d_ops] names the table of its driver. *)
Record device := mk_device {
  d_ops : Z;
  d_blocks : Z;
  d_blocksize : Z;
  d_devnumber : Z;
  d_data : Z
}.

(** struct stat, the fields some operation sets. *)
Record stat := mk_stat {
  st_size : Z; st_mode : Z; st_nlink : Z; st_blocks : Z;
  st_dev : Z; st_ino : Z; st_rdev : Z; st_blksize : Z
}.
Definition stat_zero : stat := mk_stat 0 0 0 0 0 0 0 0.

Section Ops.
Context {U F : Type}.

(** The state below the name space: the vnodes and devices by address, the kernel heap (the
    next fresh address, which of the coming allocations fail, the number of live blocks),
    user memory, and the state of the file systems and drivers. *)
Record nstate := mk_n {
  n_vn : gmap Z vnode;
  n_dev : gmap Z device;
  n_next : Z;
  n_oom : list bool;
  n_live : Z;
  n_user : U;
  n_fs : F
}.

#[refine, export] Instance n_user_lens : Lens nstate U := {
  lens_get := n_user;
  lens_set := fun u n => mk_n (n_vn n) (n_dev n) (n_next n) (n_oom n) (n_live n) u (n_fs n)
}.
Proof. all: by intros; destruct s. Defined.

Definition set_vn (m : gmap Z vnode) (n : nstate) : nstate :=
  mk_n m (n_dev n) (n_next n) (n_oom n) (n_live n) (n_user n) (n_fs n).
Definition set_dev (m : gmap Z device) (n : nstate) : nstate :=
  mk_n (n_vn n) m (n_next n) (n_oom n) (n_live n) (n_user n) (n_fs n).
Definition set_fs (f : F) (n : nstate) : nstate :=
  mk_n (n_vn n) (n_dev n) (n_next n) (n_oom n) (n_live n) (n_user n) f.

(** [kmalloc]: a fresh address, or NULL (0). *)
Definition kmalloc : M nstate Z :=
  n ← get;
  let n' ok := mk_n (n_vn n) (n_dev n) (if ok : bool then n_next n + 1 else n_next n) (tail (n_oom n))
                 (if ok then n_live n + 1 else n_live n) (n_user n) (n_fs n) in
  if default false (head (n_oom n)) then _ ← put (n' false); mret 0
  else _ ← put (n' true); mret (n_next n).
Definition kfree : M nstate unit :=
  modify (fun n => mk_n (n_vn n) (n_dev n) (n_next n) (n_oom n) (n_live n - 1) (n_user n) (n_fs n)).

(** The growth of an array of array.c that holds [len] of [max] elements, before one is
    added: the new capacity, unless there is no memory.  An array starts with four elements
    and doubles. *)
Definition array_room (len max : Z) : M nstate (option Z) :=
  if len <? max then mret (Some max)
  else
    p ← kmalloc;
    if p =? 0 then mret None
    else
      _ ← (if max =? 0 then mret tt else kfree);
      mret (Some (if max =? 0 then 4 else max * 2)).

(** ** The operation tables *)

(** A result is the error number, with what is stored through the result pointers. *)
Record vnode_ops := mk_vops {
  vop_eachopen : Z -> Z -> M nstate Z;
  vop_reclaim : Z -> M nstate Z;
  vop_read : Z -> uio -> M nstate (Z * uio);
  vop_readlink : Z -> uio -> M nstate (Z * uio);
  vop_getdirentry : Z -> uio -> M nstate (Z * uio);
  vop_write : Z -> uio -> M nstate (Z * uio);
  vop_ioctl : Z -> Z -> Z -> M nstate Z;
  vop_stat : Z -> M nstate (Z * stat);
  vop_gettype : Z -> M nstate (Z * Z);
  vop_isseekable : Z -> M nstate bool;
  vop_fsync : Z -> M nstate Z;
  vop_mmap : Z -> M nstate Z;
  vop_truncate : Z -> Z -> M nstate Z;
  vop_namefile : Z -> uio -> M nstate (Z * uio);
  vop_creat : Z -> list Z -> bool -> Z -> M nstate (Z * Z);
  vop_symlink : Z -> list Z -> list Z -> M nstate Z;
  vop_mkdir : Z -> list Z -> Z -> M nstate Z;
  vop_link : Z -> list Z -> Z -> M nstate Z;
  vop_remove : Z -> list Z -> M nstate Z;
  vop_rmdir : Z -> list Z -> M nstate Z;
  vop_rename : Z -> list Z -> Z -> list Z -> M nstate Z;
  vop_lookup : Z -> list Z -> M nstate (Z * Z);
  vop_lookparent : Z -> list Z -> Z -> M nstate (Z * (Z * list Z))
}.

(** struct fs_ops *)
Record fs_ops := mk_fops {
  fsop_sync : Z -> M nstate Z;
  fsop_getvolname : Z -> M nstate (option (list Z));
  fsop_getroot : Z -> M nstate (Z * Z);
  fsop_unmount : Z -> M nstate Z
}.

(** struct device_ops *)
Record device_ops := mk_dops {
  devop_eachopen : Z -> Z -> M nstate Z;
  devop_io : Z -> uio -> M nstate (Z * uio);
  devop_ioctl : Z -> Z -> Z -> M nstate Z
}.

(** ** vfsfail.c *)

Definition vopfail_uio_notdir (vn : Z) (u : uio) : M nstate (Z * uio) := mret (ENOTDIR, u).
Definition vopfail_uio_isdir (vn : Z) (u : uio) : M nstate (Z * uio) := mret (EISDIR, u).
Definition vopfail_uio_inval (vn : Z) (u : uio) : M nstate (Z * uio) := mret (EINVAL, u).
Definition vopfail_uio_nosys (vn : Z) (u : uio) : M nstate (Z * uio) := mret (ENOSYS, u).
Definition vopfail_mmap_isdir (vn : Z) : M nstate Z := mret EISDIR.
Definition vopfail_mmap_perm (vn : Z) : M nstate Z := mret EPERM.
Definition vopfail_mmap_nosys (vn : Z) : M nstate Z := mret ENOSYS.
Definition vopfail_truncate_isdir (vn pos : Z) : M nstate Z := mret EISDIR.
Definition vopfail_creat_notdir (vn : Z) (name : list Z) (excl : bool) (mode : Z) : M nstate (Z * Z) := mret (ENOTDIR, 0).
Definition vopfail_symlink_notdir (vn : Z) (contents name : list Z) : M nstate Z := mret ENOTDIR.
Definition vopfail_symlink_nosys (vn : Z) (contents name : list Z) : M nstate Z := mret ENOSYS.
Definition vopfail_mkdir_notdir (vn : Z) (name : list Z) (mode : Z) : M nstate Z := mret ENOTDIR.
Definition vopfail_mkdir_nosys (vn : Z) (name : list Z) (mode : Z) : M nstate Z := mret ENOSYS.
Definition vopfail_link_notdir (dir : Z) (name : list Z) (file : Z) : M nstate Z := mret ENOTDIR.
Definition vopfail_link_nosys (dir : Z) (name : list Z) (file : Z) : M nstate Z := mret ENOSYS.
Definition vopfail_string_notdir (vn : Z) (name : list Z) : M nstate Z := mret ENOTDIR.
Definition vopfail_string_nosys (vn : Z) (name : list Z) : M nstate Z := mret ENOSYS.
Definition vopfail_rename_notdir (fromdir : Z) (fromname : list Z) (todir : Z) (toname : list Z) : M nstate Z := mret ENOTDIR.
Definition vopfail_rename_nosys (fromdir : Z) (fromname : list Z) (todir : Z) (toname : list Z) : M nstate Z := mret ENOSYS.
Definition vopfail_lookup_notdir (vn : Z) (path : list Z) : M nstate (Z * Z) := mret (ENOTDIR, 0).
Definition vopfail_lookparent_notdir (vn : Z) (path : list Z) (len : Z) : M nstate (Z * (Z * list Z)) := mret (ENOTDIR, (0, [])).

(** ** vnode.c *)

Definition get_vn (v : Z) : M nstate vnode := n ← get; deref (n_vn n !! v).
Definition put_vn (v : Z) (x : vnode) : M nstate unit := modify (fun n => set_vn (<[v := x]> (n_vn n)) n).
Definition get_device (d : Z) : M nstate device := n ← get; deref (n_dev n !! d).

Definition vnode_init (vn : Z) (ops : opstag) (fs : option Z) (fsdata : Z) : M nstate Z :=
  _ ← KASSERT (negb (vn =? 0));
  _ ← put_vn vn (mk_vnode 1 ops fs fsdata);
  mret 0.

(** The structure is dead afterwards: its operations pointer is NULL. *)
Definition vnode_cleanup (vn : Z) : M nstate unit :=
  x ← get_vn vn;
  _ ← KASSERT (vn_refcount x =? 1);
  modify (fun n => set_vn (delete vn (n_vn n)) n).

Definition vnode_incref (vn : Z) : M nstate unit :=
  _ ← KASSERT (negb (vn =? 0));
  x ← get_vn vn;
  put_vn vn (mk_vnode (vn_refcount x + 1) (vn_ops x) (vn_fs x) (vn_data x)).

(** A vnode that was cleaned up has a NULL operations pointer: the check panics.  The warning
    about a large count has no effect on the state. *)
Definition vnode_check (v : Z) : M nstate opstag :=
  if v =? 0 then panic "vnode_check: null vnode"
  else
    n ← get;
    match n_vn n !! v with
    | None => panic "vnode_check: null ops pointer"
    | Some x =>
        if vn_refcount x <? 0 then panic "vnode_check: negative refcount"
        else if vn_refcount x =? 0 then panic "vnode_check: zero refcount"
        else mret (vn_ops x)
    end.

(** ** devnull.c *)

Definition nullopen (dev openflags : Z) : M nstate Z := mret 0.

Definition nullio (dev : Z) (u : uio) : M nstate (Z * uio) :=
  if decide (uio_dir u = UIO_WRITE)
  then mret (0, mk_uio (uio_past u) (uio_iov u) (uio_offset u) 0 (uio_segflg u) (uio_dir u) (uio_space u))
  else mret (0, u).

Definition nullioctl (dev op data : Z) : M nstate Z := mret EINVAL.

Definition null_devops : device_ops := mk_dops nullopen nullio nullioctl.

End Ops.

Arguments nstate : clear implicits.
Arguments vnode_ops : clear implicits.
Arguments fs_ops : clear implicits.
Arguments device_ops : clear implicits.

(** The operation tables of the file systems (by the tag of the vnode and by the fs) and of
    the drivers (by [d_ops]; the table of the null device is number 0). *)
Class FileSystems (U F : Type) : Type := {
  fs_vnode_ops : Z -> vnode_ops U F;
  fs_table : Z -> fs_ops U F;
  driver_ops : Z -> device_ops U F
}.

Section Dev.
Context {U F : Type} `{US : UserSpace U} `{FS : FileSystems U F}.
Abbreviation nst := (nstate U F).

Definition devops_of (d : device) : device_ops U F := if d_ops d =? 0 then null_devops else driver_ops (d_ops d).

Definition DEVOP_EACHOPEN (d flags : Z) : M nst Z := x ← get_device d; devop_eachopen (devops_of x) d flags.
Definition DEVOP_IO (d : Z) (u : uio) : M nst (Z * uio) := x ← get_device d; devop_io (devops_of x) d u.
Definition DEVOP_IOCTL (d op data : Z) : M nst Z := x ← get_device d; devop_ioctl (devops_of x) d op data.

(** ** device.c *)

Definition dev_eachopen (v flags : Z) : M nst Z :=
  x ← get_vn v;
  if has flags (Z.lor O_CREAT (Z.lor O_TRUNC (Z.lor O_EXCL O_APPEND))) then mret EINVAL
  else DEVOP_EACHOPEN (vn_data x) flags.

Definition dev_reclaim (v : Z) : M nst Z := mret 0.

(** [pos] is signed: C division and remainder truncate. *)
Definition dev_tryseek (d : device) (pos : Z) : M nst Z :=
  if 0 <? d_blocks d then
    if d_blocksize d =? 0 then undef
    else if negb (Z.rem pos (d_blocksize d) =? 0) then mret EINVAL
    else if d_blocks d <=? Z.quot pos (d_blocksize d) then mret EINVAL
    else mret 0
  else mret 0.

Definition dev_read (v : Z) (u : uio) : M nst (Z * uio) :=
  x ← get_vn v;
  d ← get_device (vn_data x);
  result ← dev_tryseek d (uio_offset u);
  if negb (result =? 0) then mret (result, u)
  else
    _ ← KASSERT (is_read u);
    DEVOP_IO (vn_data x) u.

Definition dev_write (v : Z) (u : uio) : M nst (Z * uio) :=
  x ← get_vn v;
  d ← get_device (vn_data x);
  result ← dev_tryseek d (uio_offset u);
  if negb (result =? 0) then mret (result, u)
  else
    _ ← KASSERT (negb (is_read u));
    DEVOP_IO (vn_data x) u.

Definition dev_ioctl (v op data : Z) : M nst Z := x ← get_vn v; DEVOP_IOCTL (vn_data x) op data.

Definition dev_gettype (v : Z) : M nst (Z * Z) :=
  x ← get_vn v;
  d ← get_device (vn_data x);
  mret (0, if 0 <? d_blocks d then S_IFBLK else S_IFCHR).

(** [VOP_GETTYPE(v)] of a device vnode is [dev_gettype].  The product of the size is one of
    32-bit unsigned integers. *)
Definition dev_stat (v : Z) : M nst (Z * stat) :=
  x ← get_vn v;
  d ← get_device (vn_data x);
  r ← dev_gettype v;
  let '(result, ty) := r in
  let size := if 0 <? d_blocks d then u32 (d_blocks d * d_blocksize d) else 0 in
  let blk := if 0 <? d_blocks d then d_blocksize d else 0 in
  if negb (result =? 0) then mret (result, mk_stat size ty 0 0 0 0 0 blk)
  else mret (0, mk_stat size (Z.lor ty 384) 1 (d_blocks d) 0 0 (d_devnumber d) blk).

Definition dev_isseekable (v : Z) : M nst bool :=
  x ← get_vn v;
  d ← get_device (vn_data x);
  mret (negb (d_blocks d =? 0)).

Definition null_fsync (v : Z) : M nst Z := mret 0.
Definition dev_mmap (v : Z) : M nst Z := mret ENOSYS.

Definition dev_truncate (v len : Z) : M nst Z :=
  x ← get_vn v;
  d ← get_device (vn_data x);
  if (0 <? d_blocks d) && (u32 (d_blocks d * d_blocksize d) =? len) then mret 0 else mret EINVAL.

Definition dev_namefile (v : Z) (u : uio) : M nst (Z * uio) := mret (0, u).

Definition dev_lookup (dir : Z) (pathname : list Z) : M nst (Z * Z) :=
  if (0 <? Z.of_nat (length pathname)) then mret (ENOENT, 0)
  else
    _ ← vnode_incref dir;
    mret (0, dir).

Definition dev_vnode_ops : vnode_ops U F :=
  mk_vops dev_eachopen dev_reclaim dev_read vopfail_uio_inval vopfail_uio_notdir dev_write dev_ioctl
    dev_stat dev_gettype dev_isseekable null_fsync dev_mmap dev_truncate dev_namefile
    vopfail_creat_notdir vopfail_symlink_notdir vopfail_mkdir_notdir vopfail_link_notdir
    vopfail_string_notdir vopfail_string_notdir vopfail_rename_notdir dev_lookup vopfail_lookparent_notdir.

Definition dev_create_vnode (dev : Z) : M nst Z :=
  v ← kmalloc;
  if v =? 0 then mret 0
  else
    result ← vnode_init v DEV_OPS None dev;
    if negb (result =? 0) then panic "While creating vnode for device: vnode_init" else mret v.

Definition dev_uncreate_vnode (vn : Z) : M nst unit :=
  x ← get_vn vn;
  _ ← KASSERT (bool_decide (vn_ops x = DEV_OPS));
  _ ← vnode_cleanup vn;
  kfree.

(** ** The VOP and FSOP macros *)

Definition ops_of (t : opstag) : vnode_ops U F := match t with DEV_OPS => dev_vnode_ops | FS_OPS k => fs_vnode_ops k end.

(** [__VOP(vn, sym)] *)
Definition VOP {A} (v : Z) (op : vnode_ops U F -> M nst A) : M nst A := t ← vnode_check v; op (ops_of t).

(** A vnode whose last reference goes is handed to VOP_RECLAIM with that reference. *)
Definition vnode_decref (vn : Z) : M nst unit :=
  _ ← KASSERT (negb (vn =? 0));
  x ← get_vn vn;
  _ ← KASSERT (0 <? vn_refcount x);
  if 1 <? vn_refcount x then put_vn vn (mk_vnode (vn_refcount x - 1) (vn_ops x) (vn_fs x) (vn_data x))
  else
    _ ← VOP vn (fun o => vop_reclaim o vn);
    mret tt.

Definition VOP_INCREF (vn : Z) : M nst unit := vnode_incref vn.
Definition VOP_DECREF (vn : Z) : M nst unit := vnode_decref vn.

Definition FSOP_SYNC (fs : Z) : M nst Z := fsop_sync (fs_table fs) fs.
Definition FSOP_GETVOLNAME (fs : Z) : M nst (option (list Z)) := fsop_getvolname (fs_table fs) fs.
Definition FSOP_GETROOT (fs : Z) : M nst (Z * Z) := fsop_getroot (fs_table fs) fs.
Definition FSOP_UNMOUNT (fs : Z) : M nst Z := fsop_unmount (fs_table fs) fs.

End Dev.
End Vnode.
