(* ===== verification/Vfs.v ===== *)
(** * The table of named devices: kern/vfs/vfslist.c

    [vfs_biglock] is the thread that holds it and the depth of its recursion; a thread that
    finds it taken by another waits.  The array of known devices is the list of its elements
    with its capacity (array.c is modelled in Array.v), and a pointer to a knowndev is its
    index: a device never leaves the table. *)

From S2P Require Import Prelude Uio Sfs Vnode.

Module Vfs.
Import Uio Vnode.
Import Sfs(ENAMETOOLONG, ENOTDIR, EISDIR, ENOENT, EEXIST, ENXIO, EBUSY, EFBIG, S_IFREG, S_IFDIR, O_RDONLY, O_ACCMODE, O_APPEND, cstr).

(** [kd->kd_fs]: NULL, the placeholder SWAP_FS or a file system. *)
Inductive kdfs := NO_FS | SWAP_FS | FS (fs : Z).

#[export] Instance kdfs_eq : EqDecision kdfs.
Proof. solve_decision. Defined.

(** struct knowndev; [kd_device] is 0 for NULL. *)
Record knowndev := mk_kd {
  kd_name : list Z;
  kd_rawname : option (list Z);
  kd_device : Z;
  kd_vnode : Z;
  kd_fs : kdfs
}.

Definition set_kdfs (f : kdfs) (k : knowndev) : knowndev :=
  mk_kd (kd_name k) (kd_rawname k) (kd_device k) (kd_vnode k) f.

Section Ops.
Context {U F : Type} `{US : UserSpace U} `{FSI : FileSystems U F}.

(** The name space: the table, [vfs_biglock] and its depth, [bootfs_vnode], and the current
    directory of the current process. *)
Record vfs := mk_vfs {
  v_known : list knowndev;
  v_kmax : Z;
  v_holder : option Z;
  v_me : Z;
  v_depth : Z;
  v_boot : option Z;
  v_cwd : option Z;
  v_n : nstate U F
}.

#[refine, export] Instance v_n_lens : Lens vfs (nstate U F) := {
  lens_get := v_n;
  lens_set := fun n s => mk_vfs (v_known s) (v_kmax s) (v_holder s) (v_me s) (v_depth s) (v_boot s) (v_cwd s) n
}.
Proof. all: by intros; destruct s. Defined.

Definition set_known (l : list knowndev) (m : Z) (s : vfs) : vfs :=
  mk_vfs l m (v_holder s) (v_me s) (v_depth s) (v_boot s) (v_cwd s) (v_n s).
Definition set_lock (h : option Z) (d : Z) (s : vfs) : vfs :=
  mk_vfs (v_known s) (v_kmax s) h (v_me s) d (v_boot s) (v_cwd s) (v_n s).
Definition set_boot (b : option Z) (s : vfs) : vfs :=
  mk_vfs (v_known s) (v_kmax s) (v_holder s) (v_me s) (v_depth s) b (v_cwd s) (v_n s).
Definition set_cwd (c : option Z) (s : vfs) : vfs :=
  mk_vfs (v_known s) (v_kmax s) (v_holder s) (v_me s) (v_depth s) (v_boot s) c (v_n s).

(** ** The big lock *)

Definition i_hold (s : vfs) : bool := match v_holder s with Some t => t =? v_me s | None => false end.

(** [lock_acquire(vfs_biglock)] and [lock_release(vfs_biglock)] *)
Definition biglock_lock : M vfs unit :=
  s ← get;
  _ ← KASSERT (negb (i_hold s));
  match v_holder s with
  | Some _ => waiting
  | None => put (set_lock (Some (v_me s)) (v_depth s) s)
  end.
Definition biglock_unlock : M vfs unit :=
  s ← get;
  _ ← KASSERT (i_hold s);
  put (set_lock None (v_depth s) s).

Definition vfs_biglock_acquire : M vfs unit :=
  s ← get;
  _ ← (if negb (i_hold s) then biglock_lock
       else if v_depth s =? 0 then biglock_lock else mret tt);
  modify (fun s => set_lock (v_holder s) (v_depth s + 1) s).

Definition vfs_biglock_release : M vfs unit :=
  s ← get;
  _ ← KASSERT (i_hold s);
  _ ← KASSERT (0 <? v_depth s);
  _ ← put (set_lock (v_holder s) (v_depth s - 1) s);
  if v_depth s - 1 =? 0 then biglock_unlock else mret tt.

Definition vfs_biglock_do_i_hold : M vfs bool := gets i_hold.

(** ** The array of devices *)

(** [knowndevarray_add]: the array doubles when it is full. *)
Definition knowndevarray_add (k : knowndev) : M vfs (Z * Z) :=
  s ← get;
  let index := Z.of_nat (length (v_known s)) in
  room ← zoom (array_room index (v_kmax s));
  match room with
  | None => mret (ENOMEM, 0)
  | Some max =>
      _ ← modify (fun s' => set_known (v_known s ++ [k]) max s');
      mret (0, index)
  end.

Definition get_kd (i : Z) : M vfs knowndev := s ← get; deref (v_known s !! Z.to_nat i).
Definition put_kdfs (i : Z) (f : kdfs) : M vfs unit :=
  modify (fun s => set_known (alter (set_kdfs f) (Z.to_nat i) (v_known s)) (v_kmax s) s).

(** [kd->kd_fs != NULL && kd->kd_fs != SWAP_FS] *)
Definition mounted (k : knowndev) : option Z := match kd_fs k with FS f => Some f | _ => None end.

Definition vfs_sync : M vfs Z :=
  _ ← vfs_biglock_acquire;
  s ← get;
  _ ← for_loop (length (v_known s)) 0 (fun i =>
        dev ← get_kd i;
        match mounted dev with Some f => _ ← zoom (FSOP_SYNC f); mret tt | None => mret tt end);
  _ ← vfs_biglock_release;
  mret 0.

(** [!strcmp(a, b)] *)
Definition streq (a b : list Z) : bool := bool_decide (a = b).
Definition streq_opt (a : option (list Z)) (b : list Z) : bool := match a with Some x => streq x b | None => false end.

(** The body of the loop of [vfs_getroot]: [Some] is a return. *)
Definition getroot_body (devname : list Z) (kd : knowndev) : M vfs (option (Z * Z)) :=
  r ← (match mounted kd with
       | Some fs =>
           volname ← zoom (FSOP_GETVOLNAME fs);
           if streq (kd_name kd) devname || streq_opt volname devname then
             x ← zoom (FSOP_GETROOT fs); mret (Some x)
           else mret None
       | None =>
           match kd_rawname kd with
           | Some _ => if streq (kd_name kd) devname then mret (Some (ENXIO, 0)) else mret None
           | None => mret None
           end
       end);
  match r with
  | Some x => mret (Some x)
  | None =>
      if streq (kd_name kd) devname then
        _ ← KASSERT (bool_decide (kd_fs kd = NO_FS));
        _ ← KASSERT (bool_decide (kd_rawname kd = None));
        _ ← KASSERT (negb (kd_device kd =? 0));
        _ ← zoom (VOP_INCREF (kd_vnode kd));
        mret (Some (0, kd_vnode kd))
      else if streq_opt (kd_rawname kd) devname then
        _ ← KASSERT (negb (kd_device kd =? 0));
        _ ← zoom (VOP_INCREF (kd_vnode kd));
        mret (Some (0, kd_vnode kd))
      else mret None
  end.

Fixpoint getroot_loop (devname : list Z) (l : list knowndev) : M vfs (Z * Z) :=
  match l with
  | [] => mret (ENODEV, 0)
  | kd :: l' =>
      r ← getroot_body devname kd;
      match r with Some x => mret x | None => getroot_loop devname l' end
  end.

Definition vfs_getroot (devname : list Z) : M vfs (Z * Z) :=
  h ← vfs_biglock_do_i_hold;
  _ ← KASSERT h;
  s ← get;
  getroot_loop devname (v_known s).

Definition vfs_getdevname (fs : Z) : M vfs (option (list Z)) :=
  _ ← KASSERT (negb (fs =? 0));
  h ← vfs_biglock_do_i_hold;
  _ ← KASSERT h;
  s ← get;
  mret (match filter (fun k => kd_fs k = FS fs) (v_known s) with k :: _ => Some (kd_name k) | [] => None end).

(** ** Adding devices *)

(** [kstrdup] and [mkrawname]: the string, unless there is no memory. *)
Definition kstrdup (str : list Z) : M (nstate U F) (option (list Z)) := p ← kmalloc; mret (if p =? 0 then None else Some str).
Definition RAW : list Z := [114; 97; 119].
Definition mkrawname (name : list Z) : M (nstate U F) (option (list Z)) :=
  p ← kmalloc; mret (if p =? 0 then None else Some (name ++ RAW)).

Definition samestring (a b : option (list Z)) : bool :=
  match a, b with Some x, Some y => streq x y | _, _ => false end.
Definition samestring3 (a b c d : option (list Z)) : bool := samestring a b || samestring a c || samestring a d.

Fixpoint badnames_loop (n1 n2 n3 : option (list Z)) (l : list knowndev) : M vfs bool :=
  match l with
  | [] => mret false
  | kd :: l' =>
      hit ← (match mounted kd with
             | Some fs => volname ← zoom (FSOP_GETVOLNAME fs); mret (samestring3 volname n1 n2 n3)
             | None => mret false
             end);
      if (hit : bool) then mret true
      else if samestring3 (kd_rawname kd) n1 n2 n3 || samestring3 (Some (kd_name kd)) n1 n2 n3 then mret true
      else badnames_loop n1 n2 n3 l'
  end.

Definition badnames (n1 n2 n3 : option (list Z)) : M vfs bool :=
  h ← vfs_biglock_do_i_hold;
  _ ← KASSERT h;
  s ← get;
  badnames_loop n1 n2 n3 (v_known s).

(** The label [fail] of [vfs_doadd]. *)
Definition doadd_fail (name rawname : option (list Z)) (vnode kd result : Z) : M vfs Z :=
  _ ← when (match name with Some _ => true | None => false end) (zoom kfree);
  _ ← when (match rawname with Some _ => true | None => false end) (zoom kfree);
  _ ← when (negb (vnode =? 0)) (zoom (dev_uncreate_vnode vnode));
  _ ← when (negb (kd =? 0)) (zoom kfree);
  _ ← vfs_biglock_release;
  mret result.

(** [dev] and [fs] are 0 for NULL. *)
Definition vfs_doadd (dname : list Z) (mountable : bool) (dev fs : Z) : M vfs Z :=
  _ ← vfs_biglock_acquire;
  name ← zoom (kstrdup dname);
  match name with
  | None => doadd_fail None None 0 0 ENOMEM
  | Some nm =>
      rawname ← (if mountable then zoom (mkrawname nm) else mret None);
      if mountable && bool_decide (rawname = None) then doadd_fail name None 0 0 ENOMEM
      else
        vnode ← zoom (dev_create_vnode dev);
        if vnode =? 0 then doadd_fail name rawname 0 0 ENOMEM
        else
          kd ← zoom kmalloc;
          if kd =? 0 then doadd_fail name rawname vnode 0 ENOMEM
          else
            volname ← (if negb (fs =? 0) then zoom (FSOP_GETVOLNAME fs) else mret None);
            bad ← badnames name rawname volname;
            if (bad : bool) then doadd_fail name rawname vnode kd EEXIST
            else
              r ← knowndevarray_add (mk_kd nm rawname dev vnode (if negb (fs =? 0) then FS fs else NO_FS));
              let '(result, index) := r in
              if negb (result =? 0) then doadd_fail name rawname vnode kd result
              else
                _ ← when (negb (dev =? 0)) (
                      d ← zoom (get_device dev);
                      zoom (modify (fun n => set_dev (<[dev := mk_device (d_ops d) (d_blocks d) (d_blocksize d)
                                                                 (u32 (index + 1)) (d_data d)]> (n_dev n)) n)));
                _ ← vfs_biglock_release;
                mret 0
  end.

Definition vfs_adddev (devname : list Z) (dev : Z) (mountable : bool) : M vfs Z := vfs_doadd devname mountable dev 0.
Definition vfs_addfs (devname : list Z) (fs : Z) : M vfs Z := vfs_doadd devname false 0 fs.

(** ** Mounting *)

Fixpoint findmount_loop (devname : list Z) (l : list knowndev) (i : Z) : option Z :=
  match l with
  | [] => None
  | dev :: l' =>
      match kd_rawname dev with
      | None => findmount_loop devname l' (i + 1)
      | Some _ => if streq devname (kd_name dev) then Some i else findmount_loop devname l' (i + 1)
      end
  end.

(** The index of the device, or ENODEV. *)
Definition findmount (devname : list Z) : M vfs (Z * Z) :=
  h ← vfs_biglock_do_i_hold;
  _ ← KASSERT h;
  s ← get;
  mret (match findmount_loop devname (v_known s) 0 with Some i => (0, i) | None => (ENODEV, 0) end).

(** [mountfunc] hands back an error number and a struct fs. *)
Definition vfs_mount (devname : list Z) (mountfunc : Z -> M (nstate U F) (Z * Z)) : M vfs Z :=
  _ ← vfs_biglock_acquire;
  r ← findmount devname;
  let '(result, i) := r in
  if negb (result =? 0) then _ ← vfs_biglock_release; mret result
  else
    kd ← get_kd i;
    if bool_decide (kd_fs kd <> NO_FS) then _ ← vfs_biglock_release; mret EBUSY
    else
      _ ← KASSERT (bool_decide (kd_rawname kd <> None));
      _ ← KASSERT (negb (kd_device kd =? 0));
      r ← zoom (mountfunc (kd_device kd));
      let '(result, fs) := r in
      if negb (result =? 0) then _ ← vfs_biglock_release; mret result
      else
        _ ← KASSERT (negb (fs =? 0));
        _ ← KASSERT (negb (fs =? -1));
        _ ← put_kdfs i (FS fs);
        volname ← zoom (FSOP_GETVOLNAME fs);
        _ ← vfs_biglock_release;
        mret 0.

(** [devname[len-1] == ':'] removed. *)
Definition COLON : Z := 58.
Definition SLASH : Z := 47.
Definition vfs_swapon (devname : list Z) : M vfs (Z * Z) :=
  let trailing := match last devname with Some c => c =? COLON | None => false end in
  name ← (if trailing then zoom (kstrdup devname) else mret (Some devname));
  match name with
  | None => mret (ENOMEM, 0)
  | Some nm =>
      let nm := if trailing then take (length nm - 1) nm else nm in
      _ ← vfs_biglock_acquire;
      r ← findmount nm;
      let '(result, i) := r in
      x ← (if negb (result =? 0) then mret (result, 0)
           else
             kd ← get_kd i;
             if bool_decide (kd_fs kd <> NO_FS) then mret (EBUSY, 0)
             else
               _ ← KASSERT (bool_decide (kd_rawname kd <> None));
               _ ← KASSERT (negb (kd_device kd =? 0));
               _ ← put_kdfs i SWAP_FS;
               _ ← zoom (VOP_INCREF (kd_vnode kd));
               mret (0, kd_vnode kd));
      _ ← vfs_biglock_release;
      _ ← when trailing (zoom kfree);
      mret x
  end.

Definition vfs_unmount (devname : list Z) : M vfs Z :=
  _ ← vfs_biglock_acquire;
  r ← findmount devname;
  let '(result, i) := r in
  x ← (if negb (result =? 0) then mret result
       else
         kd ← get_kd i;
         match mounted kd with
         | None => mret EINVAL
         | Some fs =>
             _ ← KASSERT (bool_decide (kd_rawname kd <> None));
             _ ← KASSERT (negb (kd_device kd =? 0));
             result ← zoom (FSOP_SYNC fs);
             if negb (result =? 0) then mret result
             else
               result ← zoom (FSOP_UNMOUNT fs);
               if negb (result =? 0) then mret result
               else _ ← put_kdfs i NO_FS; mret 0
         end);
  _ ← vfs_biglock_release;
  mret x.

Definition vfs_swapoff (devname : list Z) : M vfs Z :=
  _ ← vfs_biglock_acquire;
  r ← findmount devname;
  let '(result, i) := r in
  x ← (if negb (result =? 0) then mret result
       else
         kd ← get_kd i;
         if bool_decide (kd_fs kd <> SWAP_FS) then mret EINVAL
         else _ ← put_kdfs i NO_FS; mret 0);
  _ ← vfs_biglock_release;
  mret x.

(** The body of the loop of [vfs_unmountall]. *)
Definition unmount_one (i : Z) : M vfs unit :=
  dev ← get_kd i;
  match kd_rawname dev, kd_fs dev with
  | None, _ => mret tt
  | _, NO_FS => mret tt
  | _, SWAP_FS => put_kdfs i NO_FS
  | _, FS fs =>
      result ← zoom (FSOP_SYNC fs);
      result2 ← (if negb (result =? 0) then zoom (FSOP_SYNC fs) else mret 0);
      if negb (result2 =? 0) then mret tt
      else
        result ← zoom (FSOP_UNMOUNT fs);
        if result =? EBUSY then mret tt
        else if negb (result =? 0) then mret tt
        else put_kdfs i NO_FS
  end.

Definition vfs_unmountall : M vfs Z :=
  _ ← vfs_biglock_acquire;
  s ← get;
  _ ← for_loop (length (v_known s)) 0 unmount_one;
  _ ← vfs_biglock_release;
  mret 0.

(** ** Start-up *)

Definition NULLNAME : list Z := [110; 117; 108; 108].

(** devnull.c *)
Definition devnull_create : M vfs unit :=
  dev ← zoom kmalloc;
  if dev =? 0 then panic "Could not add null device: out of memory"
  else
    _ ← zoom (modify (fun n => set_dev (<[dev := mk_device 0 0 1 0 0]> (n_dev n)) n));
    result ← vfs_adddev NULLNAME dev false;
    if negb (result =? 0) then panic "Could not add null device" else mret tt.

(** [semfs_bootstrap] is an argument: it is modelled with its file system.  The blocks of
    [lock_create] count as one. *)
Definition vfs_bootstrap (semfs_bootstrap : M vfs unit) : M vfs unit :=
  a ← zoom kmalloc;
  if a =? 0 then panic "vfs: Could not create knowndevs array"
  else
    _ ← modify (set_known [] 0);
    l ← zoom kmalloc;
    if l =? 0 then panic "vfs: Could not create vfs big lock"
    else
      _ ← modify (set_lock None 0);
      _ ← devnull_create;
      semfs_bootstrap.

End Ops.
Arguments vfs : clear implicits.
End Vfs.
