(* ===== verification/VfsPath.v ===== *)
(** * Path names: kern/vfs/vfscwd.c, vfslookup.c and vfspath.c

    A path is the buffer that holds it, up to and past its NUL; a pointer into it is the
    rest of the buffer.  Running off the buffer is undefined behaviour. *)

From S2P Require Import Prelude Uio Sfs Vnode Vfs.

Module VfsPath.
Import Uio Vnode Vfs.
Import Sfs(ENAMETOOLONG, ENOTDIR, EISDIR, ENOENT, EEXIST, ENXIO, EBUSY, EFBIG, S_IFREG, S_IFDIR, O_RDONLY, O_ACCMODE, O_APPEND, cstr).

Section Ops.
Context {U F : Type} `{US : UserSpace U} `{FSI : FileSystems U F}.
Abbreviation vst := (vfs U F).

(** ** vfscwd.c *)

Definition vfs_getcurdir : M vst (Z * Z) :=
  s ← get;
  match v_cwd s with
  | Some d => _ ← zoom (VOP_INCREF d); mret (0, d)
  | None => mret (ENOENT, 0)
  end.

(** [VOP_DECREF(old)] unless it is NULL. *)
Definition decref_opt (old : option Z) : M vst unit :=
  match old with Some v => zoom (VOP_DECREF v) | None => mret tt end.

Definition vfs_setcurdir (dir : Z) : M vst Z :=
  r ← zoom (VOP dir (fun o => vop_gettype o dir));
  let '(result, vtype) := r in
  if negb (result =? 0) then mret result
  else if negb (vtype =? S_IFDIR) then mret ENOTDIR
  else
    _ ← zoom (VOP_INCREF dir);
    old ← gets v_cwd;
    _ ← modify (set_cwd (Some dir));
    _ ← decref_opt old;
    mret 0.

Definition vfs_clearcurdir : M vst Z :=
  old ← gets v_cwd;
  _ ← modify (set_cwd None);
  _ ← decref_opt old;
  mret 0.

Definition vfs_getcwd (u : uio) : M vst (Z * uio) :=
  _ ← KASSERT (is_read u);
  r ← vfs_getcurdir;
  let '(result, cwd) := r in
  if negb (result =? 0) then mret (result, u)
  else
    x ← zoom (get_vn cwd);
    _ ← KASSERT (bool_decide (vn_fs x <> None));
    fs ← deref (vn_fs x);
    volname ← zoom (FSOP_GETVOLNAME fs);
    name ← (match volname with
            | Some nm => mret (Some nm)
            | None =>
                _ ← vfs_biglock_acquire;
                nm ← vfs_getdevname fs;
                _ ← vfs_biglock_release;
                mret nm
            end);
    _ ← KASSERT (bool_decide (name <> None));
    nm ← deref name;
    r ← zoom (zoom (uiomove nm (Z.of_nat (length nm)) u));
    let '(result, _, u) := r in
    r ← (if negb (result =? 0) then mret (result, u)
         else
           r ← zoom (zoom (uiomove [COLON] 1 u));
           let '(result, _, u) := r in
           if negb (result =? 0) then mret (result, u)
           else zoom (VOP cwd (fun o => vop_namefile o cwd u)));
    _ ← zoom (VOP_DECREF cwd);
    mret r.

(** ** vfslookup.c *)

(** The search for the first colon or slash: [(colon, slash)]. *)
Fixpoint scan (l : list Z) (i : Z) : M vst (Z * Z) :=
  match l with
  | [] => undef
  | c :: l' =>
      if c =? 0 then mret (-1, -1)
      else if c =? COLON then mret (i, -1)
      else if c =? SLASH then mret (-1, i)
      else scan l' (i + 1)
  end.

(** [while (p[1] == '/') p++] *)
Fixpoint skip_slashes (l : list Z) : M vst (list Z) :=
  match l with
  | [] => undef
  | _ :: l' =>
      match l' with
      | [] => undef
      | c :: _ => if c =? SLASH then skip_slashes l' else mret l
      end
  end.

(** The error number, and what is stored through [subpath] and [startvn]. *)
Definition getdevice (path : list Z) : M vst (Z * (list Z * Z)) :=
  h ← vfs_biglock_do_i_hold;
  _ ← KASSERT h;
  c0 ← deref (path !! 0%nat);
  if c0 =? 0 then mret (EINVAL, ([], 0))
  else
    cs ← scan path 0;
    let '(colon, slash) := cs in
    if (colon <? 0) && negb (slash =? 0) then
      r ← vfs_getcurdir;
      mret (r.1, (path, r.2))
    else if 0 <? colon then
      let path := <[Z.to_nat colon := 0]> path in
      l ← skip_slashes (drop (Z.to_nat colon) path);
      r ← vfs_getroot (cstr path);
      let '(result, startvn) := r in
      mret (result, (drop 1 l, startvn))
    else
      _ ← KASSERT ((colon =? 0) || (slash =? 0));
      r ← (if c0 =? SLASH then
             s ← get;
             match v_boot s with
             | None => mret (ENOENT, 0)
             | Some b => _ ← zoom (VOP_INCREF b); mret (0, b)
             end
           else
             _ ← KASSERT (c0 =? COLON);
             r ← vfs_getcurdir;
             let '(result, vn) := r in
             if negb (result =? 0) then mret (result, 0)
             else
               x ← zoom (get_vn vn);
               _ ← KASSERT (bool_decide (vn_fs x <> None));
               fs ← deref (vn_fs x);
               r ← zoom (FSOP_GETROOT fs);
               _ ← zoom (VOP_DECREF vn);
               mret r);
      let '(result, startvn) := r in
      if negb (result =? 0) then mret (result, ([], 0))
      else
        l ← skip_slashes path;
        mret (0, (drop 1 l, startvn)).

(** The vnode of the parent and the name copied to the buffer. *)
Definition vfs_lookparent (path : list Z) (buflen : Z) : M vst (Z * (Z * list Z)) :=
  _ ← vfs_biglock_acquire;
  r ← getdevice path;
  let '(result, (path, startvn)) := r in
  if negb (result =? 0) then _ ← vfs_biglock_release; mret (result, (0, []))
  else
    r ← (if (length (cstr path) =? 0)%nat then mret (EINVAL, (0, []))
         else zoom (VOP startvn (fun o => vop_lookparent o startvn (cstr path) buflen)));
    _ ← zoom (VOP_DECREF startvn);
    _ ← vfs_biglock_release;
    mret r.

Definition vfs_lookup (path : list Z) : M vst (Z * Z) :=
  _ ← vfs_biglock_acquire;
  r ← getdevice path;
  let '(result, (path, startvn)) := r in
  if negb (result =? 0) then _ ← vfs_biglock_release; mret (result, 0)
  else if (length (cstr path) =? 0)%nat then
    _ ← vfs_biglock_release; mret (0, startvn)
  else
    r ← zoom (VOP startvn (fun o => vop_lookup o startvn (cstr path)));
    _ ← zoom (VOP_DECREF startvn);
    _ ← vfs_biglock_release;
    mret r.

(** vfscwd.c *)
Definition vfs_chdir (path : list Z) : M vst Z :=
  r ← vfs_lookup path;
  let '(result, vn) := r in
  if negb (result =? 0) then mret result
  else
    result ← vfs_setcurdir vn;
    _ ← zoom (VOP_DECREF vn);
    mret result.

Definition change_bootfs (newvn : option Z) : M vst unit :=
  oldvn ← gets v_boot;
  _ ← modify (set_boot newvn);
  decref_opt oldvn.

(** [strchr(tmp, ':')]: the rest of the string from the first colon. *)
Fixpoint strchr (l : list Z) (ch : Z) : option (list Z) :=
  match l with
  | [] => None
  | c :: l' => if c =? ch then Some l else strchr l' ch
  end.

(** [tmp] holds NAME_MAX characters and the NUL; [snprintf] is given one byte less. *)
Definition vfs_setbootfs (fsname : list Z) : M vst Z :=
  _ ← vfs_biglock_acquire;
  let tmp := take (Z.to_nat (NAME_MAX - 1)) fsname in
  match (match strchr tmp COLON with
         | Some s => if 0 <? Z.of_nat (length s) then None else Some tmp
         | None => Some (tmp ++ [COLON])
         end) with
  | None => _ ← vfs_biglock_release; mret EINVAL
  | Some tmp =>
      result ← vfs_chdir (tmp ++ [0]);
      if negb (result =? 0) then _ ← vfs_biglock_release; mret result
      else
        r ← vfs_getcurdir;
        let '(result, newguy) := r in
        if negb (result =? 0) then _ ← vfs_biglock_release; mret result
        else
          _ ← change_bootfs (Some newguy);
          _ ← vfs_biglock_release;
          mret 0
  end.

Definition vfs_clearbootfs : M vst unit :=
  _ ← vfs_biglock_acquire;
  _ ← change_bootfs None;
  vfs_biglock_release.

(** ** vfspath.c *)

Definition vfs_open (path : list Z) (openflags mode : Z) : M vst (Z * Z) :=
  let how := Z.land openflags O_ACCMODE in
  match (if how =? O_RDONLY then Some false
         else if (how =? O_WRONLY) || (how =? O_RDWR) then Some true else None) with
  | None => mret (EINVAL, 0)
  | Some canwrite =>
      r ← (if has openflags O_CREAT then
             let excl := has openflags O_EXCL in
             r ← vfs_lookparent path (NAME_MAX + 1);
             let '(result, (dir, name)) := r in
             if negb (result =? 0) then mret (result, 0)
             else
               r ← zoom (VOP dir (fun o => vop_creat o dir name excl mode));
               _ ← zoom (VOP_DECREF dir);
               mret r
           else vfs_lookup path);
      let '(result, vn) := r in
      if negb (result =? 0) then mret (result, 0)
      else
        _ ← KASSERT (negb (vn =? 0));
        result ← zoom (VOP vn (fun o => vop_eachopen o vn openflags));
        if negb (result =? 0) then _ ← zoom (VOP_DECREF vn); mret (result, 0)
        else
          result ← (if has openflags O_TRUNC then
                      if negb canwrite then mret EINVAL
                      else zoom (VOP vn (fun o => vop_truncate o vn 0))
                    else mret 0);
          if negb (result =? 0) then _ ← zoom (VOP_DECREF vn); mret (result, 0)
          else mret (0, vn)
  end.

Definition vfs_close (vn : Z) : M vst unit := zoom (VOP_DECREF vn).

(** The calls that find the parent directory of one path and work in it. *)
Definition vfs_remove (path : list Z) : M vst Z :=
  r ← vfs_lookparent path (NAME_MAX + 1);
  let '(result, (dir, name)) := r in
  if negb (result =? 0) then mret result
  else
    result ← zoom (VOP dir (fun o => vop_remove o dir name));
    _ ← zoom (VOP_DECREF dir);
    mret result.

Definition vfs_mkdir (path : list Z) (mode : Z) : M vst Z :=
  r ← vfs_lookparent path (NAME_MAX + 1);
  let '(result, (parent, name)) := r in
  if negb (result =? 0) then mret result
  else
    result ← zoom (VOP parent (fun o => vop_mkdir o parent name mode));
    _ ← zoom (VOP_DECREF parent);
    mret result.

Definition vfs_rmdir (path : list Z) : M vst Z :=
  r ← vfs_lookparent path (NAME_MAX + 1);
  let '(result, (parent, name)) := r in
  if negb (result =? 0) then mret result
  else
    result ← zoom (VOP parent (fun o => vop_rmdir o parent name));
    _ ← zoom (VOP_DECREF parent);
    mret result.

(** [VOP_SYMLINK(newdir, newname, contents)] passes its arguments in this order to a
    function whose parameters are the contents and then the name. *)
Definition vfs_symlink (contents path : list Z) : M vst Z :=
  r ← vfs_lookparent path (NAME_MAX + 1);
  let '(result, (newdir, newname)) := r in
  if negb (result =? 0) then mret result
  else
    result ← zoom (VOP newdir (fun o => vop_symlink o newdir newname contents));
    _ ← zoom (VOP_DECREF newdir);
    mret result.

(** [a->vn_fs==NULL || b->vn_fs==NULL || a->vn_fs != b->vn_fs] *)
Definition other_fs (a b : Z) : M vst bool :=
  x ← zoom (get_vn a);
  y ← zoom (get_vn b);
  mret (match vn_fs x, vn_fs y with Some f, Some g => negb (f =? g) | _, _ => true end).

Definition vfs_rename (oldpath newpath : list Z) : M vst Z :=
  r ← vfs_lookparent oldpath (NAME_MAX + 1);
  let '(result, (olddir, oldname)) := r in
  if negb (result =? 0) then mret result
  else
    r ← vfs_lookparent newpath (NAME_MAX + 1);
    let '(result, (newdir, newname)) := r in
    if negb (result =? 0) then _ ← zoom (VOP_DECREF olddir); mret result
    else
      x ← other_fs olddir newdir;
      result ← (if (x : bool) then mret EXDEV
                else zoom (VOP olddir (fun o => vop_rename o olddir oldname newdir newname)));
      _ ← zoom (VOP_DECREF newdir);
      _ ← zoom (VOP_DECREF olddir);
      mret result.

Definition vfs_link (oldpath newpath : list Z) : M vst Z :=
  r ← vfs_lookup oldpath;
  let '(result, oldfile) := r in
  if negb (result =? 0) then mret result
  else
    r ← vfs_lookparent newpath (NAME_MAX + 1);
    let '(result, (newdir, newname)) := r in
    if negb (result =? 0) then _ ← zoom (VOP_DECREF oldfile); mret result
    else
      x ← other_fs oldfile newdir;
      result ← (if (x : bool) then mret EXDEV
                else zoom (VOP newdir (fun o => vop_link o newdir newname oldfile)));
      _ ← zoom (VOP_DECREF newdir);
      _ ← zoom (VOP_DECREF oldfile);
      mret result.

Definition vfs_readlink (path : list Z) (u : uio) : M vst (Z * uio) :=
  r ← vfs_lookup path;
  let '(result, vn) := r in
  if negb (result =? 0) then mret (result, u)
  else
    r ← zoom (VOP vn (fun o => vop_readlink o vn u));
    _ ← zoom (VOP_DECREF vn);
    mret r.

End Ops.
End VfsPath.

(** * The path syntax of vfslookup.c

    [parse] says what a path means; [getdevice], which scans and overwrites the buffer, does
    exactly that. *)


Module VfsParse.
Import Uio Vnode Vfs VfsPath.
Import Sfs(ENOENT, cstr).

(** Where a path starts: the current directory, the root of the boot file system, the root
    of the file system of the current directory, or that of a named device. *)
Inductive origin := Current | BootRoot | CurrentRoot | Device (name : list Z).

Definition is_sep (c : Z) : bool := (c =? COLON) || (c =? SLASH).

(** The text before the first separator, and the text from it on. *)
Fixpoint before (p : list Z) : list Z :=
  match p with [] => [] | c :: p' => if is_sep c then [] else c :: before p' end.
Fixpoint from_sep (p : list Z) : list Z :=
  match p with [] => [] | c :: p' => if is_sep c then p else from_sep p' end.

Fixpoint strip (p : list Z) : list Z :=
  match p with [] => [] | c :: p' => if c =? SLASH then strip p' else p end.

(** The meaning of a path [p], from the two parts. *)
Definition meaning (p name rest : list Z) : origin * list Z :=
  match name, rest with
  | _, [] => (Current, p)
  | [], c :: q => (if c =? SLASH then BootRoot else CurrentRoot, strip q)
  | _, c :: q => if c =? COLON then (Device name, strip q) else (Current, p)
  end.

Definition parse (p : list Z) : option (origin * list Z) :=
  match p with [] => None | _ => Some (meaning p (before p) (from_sep p)) end.

Lemma before_from p : p = before p ++ from_sep p.
Proof. induction p as [|c p IH]; simpl; [done|]. destruct (is_sep c); simpl; congruence. Qed.

Lemma before_nonzero p : Forall (fun c => c <> 0) p -> Forall (fun c => c <> 0) (before p).
Proof. intros H. pose proof (before_from p) as E. rewrite E in H. by apply Forall_app in H as [? _]. Qed.

Lemma cstr_app p junk : Forall (fun c => c <> 0) p -> cstr (p ++ 0 :: junk) = p.
Proof. induction 1 as [|c p Hc _ IH]; simpl; [done|]. rewrite (proj2 (Z.eqb_neq _ _)) by done. by rewrite IH. Qed.

Lemma strip_nonzero p : Forall (fun c => c <> 0) p -> Forall (fun c => c <> 0) (strip p).
Proof. induction 1 as [|c p Hc Hp IH]; simpl; [done|]. case_match; [done|by constructor]. Qed.

Lemma from_nonzero p c q : Forall (fun c => c <> 0) p -> from_sep p = c :: q -> Forall (fun c => c <> 0) q.
Proof. intros H E. rewrite (before_from p), E in H. apply Forall_app in H as [_ H]. by inversion H. Qed.

Section Run.
Context {U F : Type} `{US : UserSpace U} `{FSI : FileSystems U F}.
Abbreviation vst := (vfs U F).

Lemma scan_run p junk i (s : vst) : Forall (fun c => c <> 0) p ->
  scan (p ++ 0 :: junk) i s =
  Ret (match from_sep p with
       | [] => (-1, -1)
       | c :: _ => let k := i + Z.of_nat (length (before p)) in if c =? COLON then (k, -1) else (-1, k)
       end) s.
Proof using Type.
  revert i. induction p as [|c p IH]; intros i H; simpl; [done|]. inversion H as [|? ? Hc Hp]; subst. rewrite (proj2 (Z.eqb_neq c 0)) by done.
  unfold is_sep. destruct (c =? COLON) eqn:E1; simpl; [rewrite E1; by rewrite Z.add_0_r|].
  destruct (c =? SLASH) eqn:E2; simpl; [rewrite E1; by rewrite Z.add_0_r|]. rewrite IH by done. f_equal.
  destruct (from_sep p); [done|]. cbv zeta. replace (i + 1 + Z.of_nat (length (before p))) with (i + Z.of_nat (S (length (before p)))) by lia. done.
Qed.

Lemma skip_run c l junk (s : vst) : Forall (fun c => c <> 0) l ->
  exists x, skip_slashes (c :: l ++ 0 :: junk) s = Ret x s /\ drop 1 x = strip l ++ 0 :: junk.
Proof using Type.
  revert c. induction l as [|d l IH]; intros c H; [by eexists|]. inversion H as [|? ? Hd Hl]; subst.
  cbn [app strip]. change (skip_slashes (c :: d :: l ++ 0 :: junk) s)
    with ((if d =? SLASH then skip_slashes (d :: l ++ 0 :: junk) else mret (c :: d :: l ++ 0 :: junk)) s).
  destruct (d =? SLASH) eqn:E; [by apply IH|]. by eexists.
Qed.

(** The vnode a path starts at. *)
Definition start_at (o : origin) : M vst (Z * Z) :=
  match o with
  | Current => vfs_getcurdir
  | Device name => vfs_getroot name
  | BootRoot =>
      s ← get;
      match v_boot s with
      | None => mret (ENOENT, 0)
      | Some b => _ ← zoom (VOP_INCREF b); mret (0, b)
      end
  | CurrentRoot =>
      r ← vfs_getcurdir;
      let '(result, vn) := r in
      if negb (result =? 0) then mret (result, 0)
      else
        x ← zoom (get_vn vn);
        _ ← KASSERT (bool_decide (vn_fs x <> None));
        fs ← deref (vn_fs x);
        r ← zoom (FSOP_GETROOT fs);
        _ ← zoom (VOP_DECREF vn);
        mret r
  end.

(** What is left in the result pointers when the start is not found is of no use. *)
Definition arrive (o : origin) (sub : list Z) (r : Z * Z) : Z * (list Z * Z) :=
  match o with
  | Current | Device _ => (r.1, (sub, r.2))
  | _ => if r.1 =? 0 then (0, (sub, r.2)) else (r.1, ([], 0))
  end.

Lemma bind_ext {S A B} (m : M S A) (f g : A -> M S B) (s : S) : (forall a s', f a s' = g a s') -> (m ≫= f) s = (m ≫= g) s.
Proof using Type. intros E. unfold mbind, M_bind. destruct (m s); [apply E|done..]. Qed.

Lemma bind_assoc {S A B C} (m : M S A) (f : A -> M S B) (g : B -> M S C) (s : S) : ((m ≫= f) ≫= g) s = (m ≫= (fun a => f a ≫= g)) s.
Proof using Type. unfold mbind, M_bind. by destruct (m s). Qed.

Lemma getdevice_tail o c l junk (s : vst) : Forall (fun c => c <> 0) l -> match o with Device _ | Current => False | _ => True end ->
  (r ← start_at o;
   let '(result, startvn) := r in
   if negb (result =? 0) then mret (result, ([], 0))
   else l ← skip_slashes (c :: l ++ 0 :: junk); mret (0, (drop 1 l, startvn))) s =
  (r ← start_at o; mret (arrive o (strip l ++ 0 :: junk) r)) s.
Proof using Type.
  intros Hl Ho. apply bind_ext. intros [r v] s'. destruct (skip_run c l junk s' Hl) as (x & Hx & Hd).
  unfold arrive. cbn [fst snd]. destruct (r =? 0) eqn:E; cbn [negb]; [erewrite run_bind by exact Hx; rewrite Hd|]; by destruct o.
Qed.

(** The scan of [getdevice] finds what [parse] says: it starts at that vnode and goes on with
    that text. *)
Lemma getdevice_run p junk (s : vst) : Forall (fun c => c <> 0) p -> i_hold s = true ->
  getdevice (p ++ 0 :: junk) s =
  match parse p with
  | None => Ret (EINVAL, ([], 0)) s
  | Some (o, q) => (r ← start_at o; mret (arrive o (q ++ 0 :: junk) r)) s
  end.
Proof using Type.
  intros Hp Hh. unfold getdevice. rewrite (run_bind _ _ s true s) by (unfold vfs_biglock_do_i_hold; msimpl; by rewrite Hh).
  rewrite (run_bind _ _ s tt s) by done. destruct p as [|c0 p]; [done|]. set (P := c0 :: p) in *.
  rewrite (run_bind _ _ s c0 s) by done. assert (Hc0 : c0 <> 0) by (by inversion Hp). rewrite (proj2 (Z.eqb_neq c0 0)) by done.
  erewrite run_bind by (by apply scan_run). pose proof (before_from P) as HP.
  change (parse P) with (Some (meaning P (before P) (from_sep P))). destruct (from_sep P) as [|c q] eqn:Ef.
  - assert (Eb : meaning P (before P) [] = (Current, P)) by (by destruct (before P)).
    rewrite Eb. cbv iota beta zeta. apply bind_ext. intros [r v] s'. done.
  - assert (Hq : Forall (fun c => c <> 0) q) by (by eapply from_nonzero). destruct (before P) as [|b0 b] eqn:Eb; cbn [meaning]; cbv zeta.
    + simpl app in HP. assert (c = c0 /\ q = p) as [-> ->] by (unfold P in HP; by simplify_eq). change (0 + Z.of_nat (@length Z [])) with 0.
      assert (Hsep : is_sep c0 = true). { unfold P in Ef. simpl in Ef. destruct (is_sep c0) eqn:E; [done|]. unfold P in Eb. simpl in Eb. by rewrite E in Eb. }
      change (P ++ 0 :: junk) with (c0 :: p ++ 0 :: junk). unfold is_sep in Hsep. destruct (c0 =? COLON) eqn:E1; cbv iota beta.
      * assert (E2 : (c0 =? SLASH) = false) by (apply Z.eqb_eq in E1; by rewrite E1). rewrite E2.
        change ((0 <? 0) && negb (-1 =? 0)) with false. cbv iota. change (0 <? 0) with false. cbv iota. rewrite (run_bind _ _ s tt s) by done.
        rewrite <- (getdevice_tail CurrentRoot c0 p junk s Hq I).
        unfold mbind at 1, M_bind at 1. rewrite (run_bind _ _ s tt s) by done. done.
      * simpl in Hsep. rewrite Hsep. change ((-1 <? 0) && negb (0 =? 0)) with false. cbv iota. change (0 <? -1) with false. cbv iota.
        rewrite (run_bind _ _ s tt s) by done. by rewrite <- (getdevice_tail BootRoot c0 p junk s Hq I).
    + assert (Hlen : 0 < 0 + Z.of_nat (length (b0 :: b))) by (simpl; lia). set (k := 0 + Z.of_nat (length (b0 :: b))) in *.
      assert (Hk : Z.to_nat k = length (b0 :: b)) by lia. destruct (c =? COLON) eqn:E1; cbv iota beta.
      * rewrite (proj2 (Z.ltb_ge k 0)) by lia. cbn [andb]. rewrite (proj2 (Z.ltb_lt 0 k)) by lia. rewrite Hk.
        assert (Epath : <[length (b0 :: b) := 0]> (P ++ 0 :: junk) = (b0 :: b) ++ 0 :: q ++ 0 :: junk).
        { rewrite HP, <- app_assoc. rewrite insert_app_r_alt by lia. by rewrite Nat.sub_diag. }
        rewrite Epath. rewrite drop_app_length. destruct (skip_run 0 q junk s Hq) as (x & Hx & Hd). rewrite (run_bind _ _ s x s Hx).
        rewrite cstr_app by (rewrite <- Eb; by apply before_nonzero). rewrite Hd. apply bind_ext. intros [r v] s'. done.
      * change (-1 <? 0) with true. rewrite (proj2 (Z.eqb_neq k 0)) by lia. cbn [andb negb]. apply bind_ext. by intros [r v] s'.
Qed.

End Run.
End VfsParse.
