(* ===== verification/VfsLaws.v ===== *)
(** * What a file system promises to the VFS layer

    [fs_view] is a vnode table as a file system sees it: its vnodes without their reference
    counts.  [nwf R n]: every vnode has exactly [R] references, and the file systems'
    invariant holds.  The class [FsLaws] states what each operation does with the references
    and with the vnodes of others; the theorems about vfs*.c are proved against it. *)

From S2P Require Import Prelude Uio Sfs Vnode Vfs.

Module VfsLaws.
Import Uio Vnode Vfs.

(** A uio over kernel memory that can be read into, all of it still to be filled. *)
Definition good_uio (u : uio) : Prop :=
  (kuio_ok u /\ uio_resid u = Z.of_nat (length (pending (uio_iov u)))) /\ uio_space u = 0 /\ is_read u = true.

Section Uio.
Context {U : Type} `{US : UserSpace U}.

Lemma good_skip u i iovs : good_uio u -> uio_iov u = i :: iovs -> ahead (iov_base i) = [] ->
  good_uio (set_iov (uio_past u ++ [i]) iovs u).
Proof using Type.
  intros [[K R] G] Hi Ha. split; [|done]. split; [by apply kuio_skip|]. simpl. rewrite R, Hi. unfold pending. simpl. by rewrite Ha.
Qed.

Lemma good_advance u x y l iovs k bytes : good_uio u -> uio_iov u = mk_iov (KBuf x y) l :: iovs -> (k <= length y)%nat ->
  good_uio (advance (KBuf (x ++ bytes) (drop k y)) (Z.of_nat k) u).
Proof using Type.
  intros [[K R] G] Hi Hk. assert (Hr : Z.of_nat k <= uio_resid u) by (rewrite R, Hi; unfold pending; simpl; rewrite length_app; lia).
  split; [split; [by eapply kuio_advance|]|].
  - pose proof (ku_resid _ K) as K4. unfold advance. rewrite Hi. simpl. rewrite u32_small by lia. rewrite R, Hi. unfold pending. simpl.
    rewrite !length_app, length_drop. lia.
  - unfold advance. by rewrite Hi.
Qed.

(** [uiomove] into such a uio returns, also when the buffer is longer than the room left. *)
Lemma uiomove_loop_good fuel : forall done rest n u (s : U),
  good_uio u -> 0 <= n -> n + Z.of_nat (length (uio_iov u)) < Z.of_nat fuel ->
  exists buf' u', uiomove_loop fuel done rest n u s = Ret (0, buf', u') s /\ good_uio u'.
Proof using Type.
  induction fuel as [|fuel IH]; intros done rest n u s Hg Hn Hfuel; [lia|]. simpl. pose proof Hg as [[[K1 K2 K3 K4] R] _].
  destruct (Z.ltb_spec 0 n) as [Hpos|]; [simpl|by eexists _, _].
  destruct (Z.ltb_spec 0 (uio_resid u)) as [Hr|]; [|by eexists _, _].
  destruct (uio_iov u) as [|[b l] iovs] eqn:Hi; [unfold pending in R; simpl in R; lia|]. simpl iov_len.
  apply Forall_cons in K2 as [Hb K2]. unfold iov_ok in Hb. simpl in Hb. destruct b as [x y|]; [|done]. destruct Hb as [Hl Hl32].
  cbn [iov_len iov_base]. destruct (Z.eqb_spec (if n <? l then n else l) 0) as [H0|H0].
  - assert (l = 0) by (destruct (n <? l); lia). assert (y = []) as -> by (apply length_zero_iff_nil; lia).
    destruct iovs as [|j iovs]; [unfold pending in R; simpl in R; lia|].
    apply IH; [by apply (good_skip u)|done|simpl; simpl in Hfuel; lia].
  - set (sz := if n <? l then n else l) in *. assert (Hsz : 0 < sz <= n /\ sz <= l) by (unfold sz in *; destruct (Z.ltb_spec n l); lia).
    unfold move_bytes. rewrite K1. simpl iov_base.
    set (bytes := if is_read u then take (Z.to_nat sz) rest else take (Z.to_nat sz) y).
    rewrite (run_bind _ _ s (0, bytes, KBuf (x ++ bytes) (drop (Z.to_nat sz) y)) s) by done. simpl.
    apply IH; [|lia|].
    + replace sz with (Z.of_nat (Z.to_nat sz)) at 2 by lia. eapply good_advance; [done|done|lia].
    + unfold advance. rewrite Hi. simpl. simpl in Hfuel. lia.
Qed.

Lemma uiomove_good buf u (s : U) : good_uio u ->
  exists buf' u', uiomove buf (Z.of_nat (length buf)) u s = Ret (0, buf', u') s /\ good_uio u'.
Proof using Type.
  intros Hg. destruct (uiomove_loop_good (Z.to_nat (Z.of_nat (length buf)) + length (uio_iov u) + 1) [] buf (Z.of_nat (length buf)) u s)
    as (b & u' & Hrun & G); [done|lia|lia|]. exists b, u'. split; [|done]. unfold uiomove. rewrite (run_bind _ _ s s s) by done.
  destruct Hg as [[K _] [Hsp _]]. rewrite decide_True by apply K. rewrite Hsp. by rewrite (run_bind _ _ s tt s).
Qed.

End Uio.

(** One reference more, or less, to [v]. *)
Definition plus (R : Z -> Z) (v : Z) : Z -> Z := fun w => if decide (w = v) then R w + 1 else R w.
Definition minus (R : Z -> Z) (v : Z) : Z -> Z := fun w => if decide (w = v) then R w - 1 else R w.

Lemma plus_minus R v w : minus (plus R v) v w = R w.
Proof. unfold plus, minus. case_decide; lia. Qed.

Section Views.
Context {U F : Type}.
Abbreviation nst := (nstate U F).

Definition fs_vn (x : vnode) : option (Z * option Z * Z) :=
  match vn_ops x with FS_OPS k => Some (k, vn_fs x, vn_data x) | DEV_OPS => None end.
Definition dev_vn (x : vnode) : option (option Z * Z) :=
  match vn_ops x with DEV_OPS => Some (vn_fs x, vn_data x) | FS_OPS _ => None end.
Definition fs_view (n : nst) : gmap Z (Z * option Z * Z) := omap fs_vn (n_vn n).
Definition dev_view (n : nst) : gmap Z (option Z * Z) := omap dev_vn (n_vn n).

Lemma fs_view_lookup (n : nst) v : fs_view n !! v = n_vn n !! v ≫= fs_vn.
Proof. apply lookup_omap. Qed.
Lemma dev_view_lookup (n : nst) v : dev_view n !! v = n_vn n !! v ≫= dev_vn.
Proof. apply lookup_omap. Qed.

(** Only the count of [v] changes. *)
Definition recount (v c : Z) (n : nst) : nst :=
  set_vn (alter (fun x => mk_vnode c (vn_ops x) (vn_fs x) (vn_data x)) v (n_vn n)) n.

Lemma fs_view_recount v c n : fs_view (recount v c n) = fs_view n.
Proof.
  apply map_eq. intros w. rewrite !fs_view_lookup. unfold recount, set_vn; simpl.
  destruct (decide (w = v)) as [->|]; [rewrite lookup_alter_eq|by rewrite lookup_alter_ne].
  by destruct (n_vn n !! v).
Qed.
Lemma dev_view_recount v c n : dev_view (recount v c n) = dev_view n.
Proof.
  apply map_eq. intros w. rewrite !dev_view_lookup. unfold recount, set_vn; simpl.
  destruct (decide (w = v)) as [->|]; [rewrite lookup_alter_eq|by rewrite lookup_alter_ne].
  by destruct (n_vn n !! v).
Qed.

(** The references of every vnode, and the addresses. *)
Record refs_ok (R : Z -> Z) (n : nst) : Prop := mk_refs {
  rf_count v : match n_vn n !! v with Some x => vn_refcount x = R v /\ 0 < R v | None => R v = 0 end;
  rf_addr v x : n_vn n !! v = Some x -> 0 < v < n_next n;
  rf_next : 0 < n_next n
}.

Lemma refs_ext R R' n : refs_ok R n -> (forall v, R' v = R v) -> refs_ok R' n.
Proof. intros [A B C] E. split; [|done|done]. intros v. rewrite E. apply A. Qed.

Lemma refs_alive R n v : refs_ok R n -> 0 < R v -> exists x, n_vn n !! v = Some x /\ vn_refcount x = R v.
Proof. intros H Hv. pose proof (rf_count _ _ H v) as E. destruct (n_vn n !! v) as [x|]; [|lia]. exists x. naive_solver. Qed.

Lemma refs_recount R n v c R' : refs_ok R n -> 0 < R v -> 0 < c -> R' v = c -> (forall w, w <> v -> R' w = R w) ->
  refs_ok R' (recount v c n).
Proof.
  intros [A B C] Hv Hc E E'. split; [| |done].
  - intros w. unfold recount, set_vn; simpl. specialize (A w). destruct (decide (w = v)) as [->|Hw].
    + rewrite lookup_alter_eq. destruct (n_vn n !! v); simpl; lia.
    + rewrite lookup_alter_ne by done. rewrite E' by done. exact A.
  - intros w x. unfold recount, set_vn; simpl. rewrite lookup_alter_Some. intros [(-> & y & Hy & ->)|[_ Hx]]; by eapply B.
Qed.

(** ** The heap and the vnodes *)

(** Only the heap differs. *)
Definition alike (n n' : nst) : Prop :=
  n_vn n' = n_vn n /\ n_dev n' = n_dev n /\ n_fs n' = n_fs n /\ n_user n' = n_user n /\ n_next n <= n_next n' /\ (n_oom n = [] -> n_oom n' = []).

#[export] Instance alike_pre : PreOrder alike.
Proof using Type.
  split.
  - intros n. unfold alike. split_and!; done || lia.
  - intros a b c (A1 & A2 & A3 & A4 & A5 & A6) (B1 & B2 & B3 & B4 & B5 & B6). unfold alike. split_and!; try congruence; [lia|auto].
Qed.

Lemma kmalloc_run (n : nst) : 0 < n_next n -> exists p n', kmalloc n = Ret p n' /\ alike n n' /\
  ((p = 0 /\ n_oom n <> [] /\ n_live n' = n_live n) \/ (p = n_next n /\ n_next n' = n_next n + 1 /\ n_live n' = n_live n + 1)).
Proof using Type.
  intros Hn. unfold kmalloc. msimpl. destruct (default false (head (n_oom n))) eqn:E; msimpl; eexists _, _; (split; [done|]); split.
  - unfold alike; simpl. split_and!; try done; by intros ->.
  - left. split_and!; [done| |done]. by intros E'; rewrite E' in E.
  - unfold alike; simpl. split_and!; try done; try lia; by intros ->.
  - right. done.
Qed.

Lemma kfree_run (n : nst) : exists n', kfree n = Ret tt n' /\ alike n n' /\ n_live n' = n_live n - 1 /\ n_next n' = n_next n /\ n_oom n' = n_oom n.
Proof using Type. unfold kfree. msimpl. eexists. split; [done|]. split_and!; done || lia. Qed.

Lemma kstrdup_run (n : nst) str : 0 < n_next n -> exists o n', kstrdup str n = Ret o n' /\ alike n n' /\
  ((o = None /\ n_oom n <> [] /\ n_live n' = n_live n) \/ (o = Some str /\ n_live n' = n_live n + 1)).
Proof using Type.
  intros Hn. destruct (kmalloc_run n Hn) as (p & n' & E & A & H). exists (if p =? 0 then None else Some str), n'.
  split; [unfold kstrdup; by rewrite (run_bind _ _ n p n' E)|]. split; [done|]. destruct H as [(-> & ? & ?)|(-> & ? & ?)]; [by left|right].
  by rewrite (proj2 (Z.eqb_neq _ _)) by lia.
Qed.

Lemma array_room_run (n : nst) len max : 0 < n_next n -> exists o n', array_room len max n = Ret o n' /\ alike n n' /\
  (o = None -> n_oom n <> [] /\ n_live n' = n_live n).
Proof using Type.
  intros Hn. unfold array_room. case_match; [exists (Some max), n; split_and!; [done|reflexivity|done]|].
  destruct (kmalloc_run n Hn) as (p & n1 & E & A & H'). rewrite (run_bind _ _ n p n1 E). destruct H' as [(-> & Ho & Hl)|(-> & Hx & Hl)].
  - exists None, n1. by split_and!.
  - rewrite (proj2 (Z.eqb_neq _ _)) by lia. destruct (max =? 0).
    + eexists _, n1. split; [done|]. by split_and!.
    + destruct (kfree_run n1) as (n2 & E2 & A2 & _). eexists _, n2. split; [by rewrite (run_bind _ _ n1 tt n2 E2)|]. split_and!; [by etrans|done].
Qed.

Lemma get_vn_run (n : nst) v x : n_vn n !! v = Some x -> get_vn v n = Ret x n.
Proof using Type. intros Hx. unfold get_vn. msimpl. by rewrite Hx. Qed.
Lemma get_device_run (n : nst) d x : n_dev n !! d = Some x -> get_device d n = Ret x n.
Proof using Type. intros Hx. unfold get_device. msimpl. by rewrite Hx. Qed.

Lemma put_vn_recount v x c (n : nst) : n_vn n !! v = Some x ->
  put_vn v (mk_vnode c (vn_ops x) (vn_fs x) (vn_data x)) n = Ret tt (recount v c n).
Proof using Type.
  intros Hx. unfold put_vn, modify, recount. do 2 f_equal. apply map_eq. intros w. destruct (decide (w = v)) as [->|].
  - rewrite lookup_insert_eq, lookup_alter_eq, Hx. done.
  - by rewrite lookup_insert_ne, lookup_alter_ne.
Qed.

Lemma incref_run R (n : nst) v x : refs_ok R n -> n_vn n !! v = Some x ->
  vnode_incref v n = Ret tt (recount v (vn_refcount x + 1) n).
Proof using Type.
  intros W Hx. unfold vnode_incref. rewrite (run_bind _ _ n tt n). 2:{ pose proof (rf_addr _ _ W _ _ Hx). unfold KASSERT. by rewrite (proj2 (Z.eqb_neq _ _)) by lia. }
  rewrite (run_bind _ _ n x n) by (unfold get_vn; msimpl; by rewrite Hx). by apply put_vn_recount.
Qed.

(** The checks of the VOP macros pass on a vnode with references. *)
Lemma check_ok R (n : nst) v x : refs_ok R n -> n_vn n !! v = Some x -> vnode_check v n = Ret (vn_ops x) n.
Proof using Type.
  intros W Hx. pose proof (rf_addr _ _ W _ _ Hx). pose proof (rf_count _ _ W v) as C. rewrite Hx in C. unfold vnode_check.
  rewrite (proj2 (Z.eqb_neq _ _)) by lia. msimpl. rewrite Hx, (proj2 (Z.ltb_ge _ _)), (proj2 (Z.eqb_neq _ _)) by lia. done.
Qed.

End Views.

(** The operations keep the reference counts, the other vnodes and the set of live file
    systems; [law_creat] asks this of a creation only while memory lasts. *)
Class FsLaws (U F : Type) `{US : UserSpace U} `{FS : FileSystems U F} : Type := {
  fs_inv : gmap Z (Z * option Z * Z) -> F -> Prop;
  fs_live : Z -> F -> Prop;
  fs_volname : Z -> F -> option (list Z);
  (** the file systems that are mounted on a device, and can be unmounted from it *)
  fs_detach : Z -> Prop;
  (** every vnode belongs to a live file system; NULL and SWAP_FS are none *)
  law_live m f v k g d : fs_inv m f -> m !! v = Some (k, g, d) -> exists i, g = Some i /\ fs_live i f;
  law_fsid i f : fs_live i f -> i <> 0 /\ i <> -1
}.

Section Laws.
Context {U F : Type} `{US : UserSpace U} `{FS : FileSystems U F}.
Abbreviation nst := (nstate U F).

Definition nwf `{!FsLaws U F} (R : Z -> Z) (n : nst) : Prop := refs_ok R n /\ fs_inv (fs_view n) (n_fs n).

(** What every step leaves: the devices and their vnodes, the identity of a surviving vnode,
    memory that lasts, the volume names. *)
Record keeps (n n' : nst) : Prop := mk_keeps {
  kp_dev : n_dev n' = n_dev n;
  kp_view : dev_view n' = dev_view n;
  kp_same v x x' : n_vn n !! v = Some x -> n_vn n' !! v = Some x' -> vn_ops x' = vn_ops x /\ vn_fs x' = vn_fs x;
  kp_oom : n_oom n = [] -> n_oom n' = []
}.
Record nstep `{!FsLaws U F} (n n' : nst) : Prop := mk_nstep {
  ns_keeps : keeps n n';
  ns_live i : fs_live i (n_fs n') <-> fs_live i (n_fs n);
  ns_vol i : fs_live i (n_fs n) -> fs_volname i (n_fs n') = fs_volname i (n_fs n)
}.

Context `{FL : !FsLaws U F}.

Lemma nstep_refl n : nstep n n.
Proof using Type. split; [split; [done|done|naive_solver|done]|done|done]. Qed.

(** A quiet operation leaves all references as they are. *)
Definition quiet {A} (m : M nst A) (n : nst) : Prop :=
  forall R, nwf R n -> wp m n (fun _ n' => nwf R n' /\ nstep n n').

(** [w] is a vnode of a file system. *)
Definition is_fs (w : Z) (n : nst) : Prop := exists x k, n_vn n !! w = Some x /\ vn_ops x = FS_OPS k.

(** An operation that hands back a vnode: one reference more on success. *)
Definition hands_back (m : M nst (Z * Z)) (n : nst) : Prop :=
  forall R, nwf R n -> wp m n (fun r n' => nstep n n' /\
    if decide (r.1 = 0) then nwf (plus R r.2) n' /\ is_fs r.2 n' else nwf R n').

(** The same with the name of the last component. *)
Definition hands_back_name (m : M nst (Z * (Z * list Z))) (n : nst) : Prop :=
  forall R, nwf R n -> wp m n (fun r n' => nstep n n' /\
    if decide (r.1 = 0) then nwf (plus R r.2.1) n' /\ is_fs r.2.1 n' else nwf R n').

End Laws.

(** The laws of the operation tables. *)
Class FsOpsLaws (U F : Type) `{FL : FsLaws U F} : Prop := {
  law_quiet n v x k : n_vn n !! v = Some x -> vn_ops x = FS_OPS k ->
    let o := fs_vnode_ops k in
    (forall f, quiet (vop_eachopen o v f) n) /\ quiet (vop_gettype o v) n /\ (forall l, quiet (vop_truncate o v l) n) /\
    (forall c m, quiet (vop_symlink o v c m) n) /\ (forall m p, quiet (vop_mkdir o v m p) n) /\
    (forall m, quiet (vop_remove o v m) n) /\ (forall m, quiet (vop_rmdir o v m) n);
  law_two n v x k w y : n_vn n !! v = Some x -> vn_ops x = FS_OPS k -> n_vn n !! w = Some y -> vn_fs y = vn_fs x ->
    let o := fs_vnode_ops k in
    (forall m, quiet (vop_link o v m w) n) /\ (forall m m', quiet (vop_rename o v m w m') n);
  law_uio n v x k u : n_vn n !! v = Some x -> vn_ops x = FS_OPS k -> good_uio u ->
    let o := fs_vnode_ops k in quiet (vop_readlink o v u) n /\ quiet (vop_namefile o v u) n;
  law_lookup n v x k p : n_vn n !! v = Some x -> vn_ops x = FS_OPS k ->
    hands_back (vop_lookup (fs_vnode_ops k) v p) n /\
    forall len, hands_back_name (vop_lookparent (fs_vnode_ops k) v p len) n;
  law_creat n v x k m e p : n_vn n !! v = Some x -> vn_ops x = FS_OPS k -> n_oom n = [] ->
    hands_back (vop_creat (fs_vnode_ops k) v m e p) n;
  law_reclaim n v x k R : n_vn n !! v = Some x -> vn_ops x = FS_OPS k -> nwf R n -> R v = 1 ->
    wp (vop_reclaim (fs_vnode_ops k) v) n (fun _ n' => nwf (minus R v) n' /\ nstep n n');
  law_fs n i : fs_live i (n_fs n) ->
    quiet (fsop_sync (fs_table i) i) n /\ hands_back (fsop_getroot (fs_table i) i) n /\
    fsop_getvolname (fs_table i) i n = Ret (fs_volname i (n_fs n)) n;
  law_unmount n i R : fs_live i (n_fs n) -> fs_detach i -> nwf R n ->
    wp (fsop_unmount (fs_table i) i) n (fun r n' => nwf R n' /\ keeps n n' /\
      (forall j, fs_live j (n_fs n') <-> fs_live j (n_fs n) /\ (r = 0 -> j <> i)) /\
      forall j, fs_live j (n_fs n') -> fs_volname j (n_fs n') = fs_volname j (n_fs n));
  (** the drivers *)
  law_driver n k d f : quiet (devop_eachopen (driver_ops k) d f) n
}.

End VfsLaws.
