(* ===== verification/VfsTheory.v ===== *)
(** * The invariant of the name space

    [vwf ext s]: every vnode has exactly as many references as the device table, the boot
    directory, the current directory and the callers ([ext]) hold; the big lock is free or
    held by the current thread; the device vnodes are those of the table; the file systems
    that live are the mounted ones. *)

From S2P Require Import Prelude Uio Sfs Vnode Vfs VfsPath VfsLaws.

Module VfsTheory.
Import Uio Vnode Vfs VfsPath VfsLaws.
Import Sfs(ENAMETOOLONG, ENOTDIR, EISDIR, ENOENT, EEXIST, ENXIO, EBUSY, EFBIG, S_IFREG, S_IFDIR, O_RDONLY, O_ACCMODE, O_APPEND, cstr).

Section Inv.
Context {U F : Type} `{FO : FsOpsLaws U F}.
Abbreviation nst := (nstate U F).
Abbreviation vst := (vfs U F).

Definition points (o : option Z) (v : Z) : Z := if decide (o = Some v) then 1 else 0.
Definition listed (l : list knowndev) (v : Z) : Z := Z.of_nat (length (filter (fun k => kd_vnode k = v) l)).
Definition refs (ext : Z -> Z) (s : vst) (v : Z) : Z := listed (v_known s) v + points (v_boot s) v + points (v_cwd s) v + ext v.

(** An entry of the table: its vnode is that of its device; what cannot be mounted on and
    has no file system is a device; what can be mounted on is one. *)
Record kd_ok (n : nst) (k : knowndev) : Prop := mk_kdok {
  ko_vn : dev_view n !! kd_vnode k = Some (None, kd_device k);
  ko_dev : kd_device k <> 0 -> is_Some (n_dev n !! kd_device k);
  ko_raw : kd_rawname k <> None -> kd_device k <> 0;
  ko_fs : match kd_fs k with NO_FS => kd_device k <> 0 | SWAP_FS => kd_rawname k <> None | FS f => kd_rawname k <> None -> fs_detach f end
}.

(** The lock is free, or the current thread has it. *)
Definition lock_ok (s : vst) : Prop :=
  (v_holder s = None /\ v_depth s = 0) \/ (v_holder s = Some (v_me s) /\ 0 < v_depth s).

(** The references callers may hold: none to the vnode of a missing device. *)
Definition ext_ok (ext : Z -> Z) (l : list knowndev) : Prop :=
  (forall v, 0 <= ext v) /\ forall k, k ∈ l -> kd_device k = 0 -> ext (kd_vnode k) = 0.

Definition fs_opt (o : option Z) (n : nst) : Prop := forall v, o = Some v -> is_fs v n.

Record vwf (ext : Z -> Z) (s : vst) : Prop := mk_vwf {
  w_lock : lock_ok s;
  w_ext : ext_ok ext (v_known s);
  w_n : nwf (refs ext s) (v_n s);
  w_kd : Forall (kd_ok (v_n s)) (v_known s);
  w_dev v : is_Some (dev_view (v_n s) !! v) -> 0 < listed (v_known s) v;
  w_once : NoDup (kd_vnode <$> v_known s) /\ NoDup (omap mounted (v_known s));
  w_live i : fs_live i (n_fs (v_n s)) <-> i ∈ omap mounted (v_known s);
  w_cwd : fs_opt (v_cwd s) (v_n s);
  w_boot : fs_opt (v_boot s) (v_n s)
}.

(** What a call that only works below the name space leaves. *)
Record vkeep (s s' : vst) : Prop := mk_vkeep {
  vk_known : v_known s' = v_known s;
  vk_lock : v_holder s' = v_holder s /\ v_depth s' = v_depth s /\ v_me s' = v_me s;
  vk_dirs : v_boot s' = v_boot s /\ v_cwd s' = v_cwd s;
  vk_oom : n_oom (v_n s) = [] -> n_oom (v_n s') = []
}.

Definition set_n (n : nst) (s : vst) : vst :=
  mk_vfs (v_known s) (v_kmax s) (v_holder s) (v_me s) (v_depth s) (v_boot s) (v_cwd s) n.

#[export] Instance vkeep_pre : PreOrder vkeep.
Proof using All.
  split.
  - intros s. by split.
  - intros a b c [A1 (A2 & A2' & A2'') [A3 A3'] A4] [B1 (B2 & B2' & B2'') [B3 B3'] B4]. split; [congruence|split_and!; congruence|split; congruence|auto].
Qed.

Lemma vkeep_set_n s n : (n_oom (v_n s) = [] -> n_oom n = []) -> vkeep s (set_n n s).
Proof using All. by split. Qed.

Lemma points_nonneg o v : 0 <= points o v.
Proof using All. unfold points. case_decide; lia. Qed.
Lemma listed_nonneg l v : 0 <= listed l v.
Proof using All. unfold listed. lia. Qed.
Lemma listed_pos l v : 0 < listed l v <-> v ∈ kd_vnode <$> l.
Proof using All.
  unfold listed. rewrite list_elem_of_fmap. split.
  - intros H. destruct (filter _ l) as [|k l'] eqn:E; [simpl in H; lia|].
    assert (Hk : k ∈ filter (fun k => kd_vnode k = v) l) by (rewrite E; set_solver).
    apply list_elem_of_filter in Hk. exists k. naive_solver.
  - intros (k & -> & Hk). assert (Hf : k ∈ filter (fun j => kd_vnode j = kd_vnode k) l) by (by apply list_elem_of_filter).
    destruct (filter _ l); [set_solver|simpl; lia].
Qed.

Lemma refs_ge ext s v : vwf ext s -> ext v <= refs ext s v.
Proof using All. unfold refs. pose proof (points_nonneg (v_boot s) v). pose proof (points_nonneg (v_cwd s) v). pose proof (listed_nonneg (v_known s) v). lia. Qed.

Lemma refs_plus ext s v w : refs (plus ext v) s w = plus (refs ext s) v w.
Proof using All. unfold refs, plus. case_decide; lia. Qed.
Lemma refs_minus ext s v w : refs (minus ext v) s w = minus (refs ext s) v w.
Proof using All. unfold refs, minus. case_decide; lia. Qed.

Lemma nwf_ext R R' (n : nst) : nwf R n -> (forall v, R' v = R v) -> nwf R' n.
Proof using All. intros [A B] E. split; [by eapply refs_ext|done]. Qed.

Lemma vwf_ext ext ext' s : vwf ext s -> (forall v, ext' v = ext v) -> vwf ext' s.
Proof using All.
  intros W E. destruct W as [A [B1 B2] C D G H I J K]. split; try done.
  - split; [intros v; rewrite E; apply B1|]. intros k Hk Hd. rewrite E. by apply B2.
  - eapply nwf_ext; [exact C|]. intros v. unfold refs. by rewrite E.
Qed.

Lemma nwf_dev_fs R (n : nst) v : nwf R n -> is_fs v n -> dev_view n !! v = None.
Proof using All. intros _ (x & k & Hx & Hk). rewrite dev_view_lookup, Hx. simpl. unfold dev_vn. by rewrite Hk. Qed.

(** A vnode that keeps a reference stays one of its file system. *)
Lemma is_fs_keep R (n n' : nst) v : keeps n n' -> nwf R n' -> 0 < R v -> is_fs v n -> is_fs v n'.
Proof using All.
  intros K [Hr _] Hv (x & k & Hx & Hk). destruct (refs_alive _ _ _ Hr Hv) as (x' & Hx' & _).
  exists x', k. split; [done|]. by rewrite (proj1 (kp_same _ _ K _ _ _ Hx Hx')).
Qed.

Lemma kd_ok_keep (n n' : nst) k : keeps n n' -> kd_ok n k -> kd_ok n' k.
Proof using All. intros K [A B C D]. split; rewrite ?(kp_view _ _ K), ?(kp_dev _ _ K); done. Qed.

Lemma fs_opt_keep R (n n' : nst) o : keeps n n' -> nwf R n' -> (forall v, o = Some v -> 0 < R v) -> fs_opt o n -> fs_opt o n'.
Proof using All. intros K W H Ho v Hv. eapply is_fs_keep; eauto. Qed.

(** ** Steps below the name space *)

Lemma vwf_step ext ext' s n' : vwf ext s -> nstep (v_n s) n' -> nwf (refs ext' s) n' -> ext_ok ext' (v_known s) ->
  vwf ext' (set_n n' s).
Proof using All.
  intros W [K L V] N [E1 E2]. pose proof N as N'. assert (Hge : forall v, refs ext' s v = listed (v_known s) v + points (v_boot s) v + points (v_cwd s) v + ext' v) by done.
  assert (P : forall v, 0 <= listed (v_known s) v /\ 0 <= points (v_boot s) v /\ 0 <= points (v_cwd s) v)
    by (intros v; split_and!; [apply listed_nonneg|apply points_nonneg|apply points_nonneg]).
  destruct W as [A B C D G H I J Q]. split; try done.
  - eapply Forall_impl; [exact D|]. intros k. by apply kd_ok_keep.
  - intros v. simpl. rewrite (kp_view _ _ K). apply G.
  - intros i. simpl. rewrite L. apply I.
  - eapply fs_opt_keep; [exact K|exact N| |exact J]. intros v Hv. rewrite Hge. specialize (P v). specialize (E1 v).
    assert (points (v_cwd s) v = 1) by (unfold points; by rewrite decide_True). lia.
  - eapply fs_opt_keep; [exact K|exact N| |exact Q]. intros v Hv. rewrite Hge. specialize (P v). specialize (E1 v).
    assert (points (v_boot s) v = 1) by (unfold points; by rewrite decide_True). lia.
Qed.

Lemma quiet_nstep {A} ext s (m : M nst A) : vwf ext s -> quiet m (v_n s) ->
  wp (zoom m) s (fun _ s' => vwf ext s' /\ vkeep s s' /\ nstep (v_n s) (v_n s')).
Proof using All.
  intros W Q. apply wp_zoom. eapply wp_mono; [apply (Q (refs ext s)), W|]. intros a n' [N S].
  split_and!; [eapply vwf_step; [done|done|done|apply W]|apply vkeep_set_n; apply S|done].
Qed.

Lemma quiet_step {A} ext s (m : M nst A) : vwf ext s -> quiet m (v_n s) ->
  wp (zoom m) s (fun _ s' => vwf ext s' /\ vkeep s s').
Proof using All. intros W Q. eapply wp_mono; [by apply (quiet_nstep ext s m)|]. naive_solver. Qed.

Lemma ext_ok_plus ext l w : ext_ok ext l -> (forall k, k ∈ l -> kd_device k = 0 -> kd_vnode k <> w) -> ext_ok (plus ext w) l.
Proof using All.
  intros [A B] H. split; intros v; [specialize (A v); unfold plus; case_decide; lia|].
  intros Hk Hd. unfold plus. rewrite decide_False by (by apply H). by apply B.
Qed.

Lemma kd_not_fs ext s w k : vwf ext s -> is_fs w (v_n s) -> k ∈ v_known s -> kd_vnode k <> w.
Proof using All.
  intros W Hw Hk <-. pose proof (nwf_dev_fs _ _ _ (w_n _ _ W) Hw) as Hn. pose proof (w_kd _ _ W) as D. rewrite Forall_forall in D.
  pose proof (ko_vn _ _ (D _ Hk)). congruence.
Qed.

(** An operation that hands back a vnode of a file system. *)
Lemma back_step ext s (m : M nst (Z * Z)) : vwf ext s -> hands_back m (v_n s) ->
  wp (zoom m) s (fun r s' => vkeep s s' /\
    if decide (r.1 = 0) then vwf (plus ext r.2) s' /\ is_fs r.2 (v_n s') else vwf ext s').
Proof using All.
  intros W Q. apply wp_zoom. eapply wp_mono; [apply (Q (refs ext s)), W|]. intros [r w] n' [S N]. simpl in *.
  split; [apply vkeep_set_n; apply S|]. case_decide.
  - destruct N as [N Hw]. split; [|done]. eapply vwf_step; [done|done| |].
    + eapply nwf_ext; [exact N|]. intros v. by rewrite refs_plus.
    + apply ext_ok_plus; [apply W|]. intros k Hk Hd E.
      assert (Hk' : kd_ok n' k).
      { eapply kd_ok_keep; [apply S|]. pose proof (w_kd _ _ W) as D. rewrite Forall_forall in D. by apply D. }
      pose proof (nwf_dev_fs _ _ _ N Hw) as Hn. rewrite <- E in Hn. pose proof (ko_vn _ _ Hk'). congruence.
  - by eapply vwf_step; [done|done|done|apply W].
Qed.

Lemma back_name_step ext s (m : M nst (Z * (Z * list Z))) : vwf ext s -> hands_back_name m (v_n s) ->
  wp (zoom m) s (fun r s' => vkeep s s' /\
    if decide (r.1 = 0) then vwf (plus ext r.2.1) s' /\ is_fs r.2.1 (v_n s') else vwf ext s').
Proof using All.
  intros W Q. pose (f := fun r : Z * (Z * list Z) => (r.1, r.2.1)).
  assert (Q' : hands_back (r ← m; mret (f r)) (v_n s)).
  { intros R N. apply wp_bind. eapply wp_mono; [apply (Q R N)|]. intros [r [w nm]] n' H. exact H. }
  pose proof (back_step _ _ _ W Q') as B. unfold wp, zoom in B |- *. unfold mbind, M_bind in B. destruct (m (lens_get s)) as [[r [w nm]] n'| | | | |]; done.
Qed.

(** ** References *)

Lemma keeps_recount v c (n : nst) : keeps n (recount v c n).
Proof using All.
  split; [done|apply dev_view_recount| |done]. intros w x x' Hx. unfold recount, set_vn; simpl. rewrite lookup_alter_Some.
  intros [(-> & y & Hy & ->)|[_ Hx']]; simpl; [|by simplify_eq]. by simplify_eq.
Qed.

Lemma nstep_recount v c (n : nst) : nstep n (recount v c n).
Proof using All. split; [apply keeps_recount|done|done]. Qed.

Lemma incref_nwf R (n : nst) v : nwf R n -> 0 < R v ->
  wp (vnode_incref v) n (fun _ n' => nwf (plus R v) n' /\ nstep n n' /\ n_vn n' !! v <> None).
Proof using All.
  intros [W I] Hv. destruct (refs_alive _ _ _ W Hv) as (x & Hx & Hc). eapply wp_eq; [by eapply incref_run|].
  split_and!; [split|apply nstep_recount|].
  - eapply refs_recount; [done|done|lia| |].
    + unfold plus. rewrite decide_True by done. lia.
    + intros w Hw. unfold plus. by rewrite decide_False.
  - by rewrite fs_view_recount.
  - unfold recount; simpl. by rewrite lookup_alter_eq, Hx.
Qed.

Lemma incref_spec ext s v : vwf ext s -> 0 < refs ext s v ->
  (forall k, k ∈ v_known s -> kd_device k = 0 -> kd_vnode k <> v) ->
  wp (zoom (VOP_INCREF v)) s (fun _ s' => vwf (plus ext v) s' /\ vkeep s s').
Proof using All.
  intros W Hv Hk. apply wp_zoom. eapply wp_mono; [apply (incref_nwf (refs ext s)); [apply W|done]|]. intros [] n' (N & S & _).
  split; [|apply vkeep_set_n; apply S]. eapply vwf_step; [done|done| |by apply ext_ok_plus; [apply W|]].
  eapply nwf_ext; [exact N|]. intros w. by rewrite refs_plus.
Qed.

Lemma VOP_run {A} R (n : nst) v x (op : vnode_ops U F -> M nst A) : refs_ok R n -> n_vn n !! v = Some x ->
  VOP v op n = op (ops_of (vn_ops x)) n.
Proof using All. intros W Hx. unfold VOP. by rewrite (run_bind _ _ n (vn_ops x) n) by (by eapply check_ok). Qed.

Lemma decref_spec ext s v : vwf ext s -> 0 < ext v -> wp (zoom (VOP_DECREF v)) s (fun _ s' => vwf (minus ext v) s' /\ vkeep s s').
Proof using All.
  intros W Hv. pose proof (refs_ge _ _ v W) as Hge. pose proof (w_n _ _ W) as [N I].
  assert (E' : ext_ok (minus ext v) (v_known s)).
  { destruct (w_ext _ _ W) as [B1 B2]. split.
    - intros w. specialize (B1 w). unfold minus. case_decide; subst; lia.
    - intros k Hk Hd. specialize (B2 k Hk Hd). unfold minus. case_decide as E; [|done]. rewrite E in B2. lia. }
  destruct (refs_alive _ _ v N ltac:(lia)) as (x & Hx & Hc). apply wp_zoom. unfold VOP_DECREF, vnode_decref.
  apply wp_bind, wp_KASSERT; [pose proof (rf_addr _ _ N _ _ Hx); by rewrite (proj2 (Z.eqb_neq _ _)) by lia|].
  apply wp_bind. eapply wp_eq; [unfold get_vn; msimpl; change (lens_get s) with (v_n s); rewrite Hx; done|].
  apply wp_bind, wp_KASSERT; [apply Z.ltb_lt; lia|]. case_match eqn:Hlt; [apply Z.ltb_lt in Hlt|apply Z.ltb_ge in Hlt].
  - eapply wp_eq; [by apply put_vn_recount|]. split; [|by apply vkeep_set_n]. eapply vwf_step; [done|apply nstep_recount| |done].
    split; [|by rewrite fs_view_recount]. eapply refs_recount; [exact N|lia|lia| |].
    + rewrite refs_minus. unfold minus. rewrite decide_True by done. lia.
    + intros w Hw. rewrite refs_minus. unfold minus. by rewrite decide_False.
  - apply wp_bind. unfold wp. rewrite (VOP_run _ _ _ x) by done. destruct (vn_ops x) as [|k] eqn:Ho.
    + exfalso. pose proof (w_dev _ _ W v) as G. rewrite dev_view_lookup, Hx in G. simpl in G. unfold dev_vn in G. rewrite Ho in G.
      specialize (G ltac:(eauto)). unfold refs in *. pose proof (points_nonneg (v_boot s) v). pose proof (points_nonneg (v_cwd s) v). lia.
    + change (wp (vop_reclaim (fs_vnode_ops k) v) (v_n s) (fun a n' => wp (mret tt) n' (fun (_ : unit) t => vwf (minus ext v) (set_n t s) /\ vkeep s (set_n t s)))).
      eapply wp_mono; [eapply (law_reclaim _ _ _ _ (refs ext s)); [done|done|by split|lia]|]. intros r n' [N' S]. apply wp_ret.
      split; [|apply vkeep_set_n; apply S]. eapply vwf_step; [done|done| |done]. eapply nwf_ext; [exact N'|]. intros w. by rewrite refs_minus.
Qed.

End Inv.
End VfsTheory.
