(* ===== verification/VfsCalls.v ===== *)
(** * The calls of the VFS layer keep the invariant

    For every call of vfscwd.c, vfslookup.c and vfspath.c: it returns, gives back the big
    lock, and the references of all vnodes are again exactly those that are held. *)

From S2P Require Import Prelude Uio Sfs Vnode Vfs VfsPath VfsLaws VfsTheory.

Module VfsCalls.
Import Uio Vnode Vfs VfsPath VfsParse VfsLaws VfsTheory.
Import Sfs(ENAMETOOLONG, ENOTDIR, EISDIR, ENOENT, EEXIST, ENXIO, EBUSY, EFBIG, S_IFREG, S_IFDIR, O_RDONLY, O_ACCMODE, O_APPEND, cstr).

Section Calls.
Context {U F : Type} `{FO : FsOpsLaws U F}.
Abbreviation nst := (nstate U F).
Abbreviation vst := (vfs U F).

(** ** The big lock *)

Definition locked (s : vst) : vst := set_lock (Some (v_me s)) (v_depth s + 1) s.

Lemma i_hold_ok (s : vst) : lock_ok s -> i_hold s = negb (v_depth s =? 0).
Proof using All.
  intros [[A B]|[A B]]; unfold i_hold; rewrite A; [by rewrite B|]. rewrite Z.eqb_refl. by rewrite (proj2 (Z.eqb_neq _ _)) by lia.
Qed.

Lemma acquire_run (s : vst) : lock_ok s -> vfs_biglock_acquire s = Ret tt (locked s).
Proof using All.
  intros L. pose proof (i_hold_ok s L) as Hi. unfold vfs_biglock_acquire, biglock_lock. msimpl. rewrite Hi.
  destruct L as [[A B]|[A B]].
  - rewrite B. simpl. rewrite Hi, B. simpl. rewrite A. simpl. unfold locked, set_lock; simpl. by rewrite B.
  - rewrite (proj2 (Z.eqb_neq _ _)) by lia. simpl. unfold locked. by rewrite A.
Qed.

Lemma vwf_lock ext (s : vst) h d : vwf ext s -> lock_ok (set_lock h d s) -> vwf ext (set_lock h d s).
Proof using All. intros [A B C D G H I J K] L. by split. Qed.

Lemma acquire_spec ext (s : vst) : vwf ext s -> wp vfs_biglock_acquire s (fun _ s' => vwf ext s' /\ s' = locked s /\ i_hold s' = true).
Proof using All.
  intros W. pose proof (w_lock _ _ W) as L. eapply wp_eq; [by apply acquire_run|]. split_and!; [|done|].
  - apply vwf_lock; [done|]. right. simpl. split; [done|]. destruct L; lia.
  - unfold i_hold; simpl. apply Z.eqb_refl.
Qed.

(** From the state after the work under the lock taken in [s]. *)
Lemma release_spec ext (s s2 : vst) : lock_ok s -> vwf ext s2 ->
  v_holder s2 = Some (v_me s) -> v_me s2 = v_me s -> v_depth s2 = v_depth s + 1 ->
  wp vfs_biglock_release s2 (fun _ s' => vwf ext s' /\ s' = set_lock (v_holder s) (v_depth s) s2).
Proof using All.
  intros L W Hh Hm Hd. eapply (wp_eq _ _ tt (set_lock (v_holder s) (v_depth s) s2)).
  - unfold vfs_biglock_release. msimpl. unfold i_hold. rewrite Hh, Hm, Z.eqb_refl. simpl.
    rewrite (proj2 (Z.ltb_lt _ _)) by (destruct L; lia). rewrite Hd. replace (v_depth s + 1 - 1) with (v_depth s) by lia.
    destruct L as [[A B]|[A B]].
    + rewrite B. simpl. unfold biglock_unlock, i_hold. msimpl. unfold i_hold; simpl. rewrite Hm, Z.eqb_refl. simpl. by rewrite A.
    + rewrite (proj2 (Z.eqb_neq _ _)) by lia. simpl. by rewrite A.
  - split; [|done]. apply vwf_lock; [done|]. destruct L as [[A B]|[A B]]; [left|right]; simpl; rewrite ?Hm; done.
Qed.

Lemma release_keep ext (s s2 : vst) : lock_ok s -> vwf ext s2 -> vkeep (locked s) s2 ->
  wp vfs_biglock_release s2 (fun _ s' => vwf ext s' /\ vkeep s s').
Proof using All.
  intros L W [K (K1 & K2 & K3) [K4 K5] K6]. simpl in *. eapply wp_mono; [by apply (release_spec ext s)|]. intros [] s' [W' ->].
  split; [done|]. by split.
Qed.

(** ** Dispatch *)

(** A vnode a caller holds: it is alive, and the device of a device vnode exists. *)
Lemma held_vnode ext (s : vst) v : vwf ext s -> 0 < ext v ->
  exists x, n_vn (v_n s) !! v = Some x /\ (vn_ops x = DEV_OPS -> vn_fs x = None /\ is_Some (n_dev (v_n s) !! vn_data x)).
Proof using All.
  intros W Hv. pose proof (refs_ge _ _ v W) as Hge. pose proof (w_n _ _ W) as [N _].
  destruct (refs_alive _ _ v N ltac:(lia)) as (x & Hx & _). exists x. split; [done|]. intros Ho.
  assert (Hd : dev_view (v_n s) !! v = Some (vn_fs x, vn_data x)) by (rewrite dev_view_lookup, Hx; simpl; unfold dev_vn; by rewrite Ho).
  pose proof (w_dev _ _ W v ltac:(eauto)) as Hl. apply listed_pos, list_elem_of_fmap in Hl as (k & -> & Hk).
  pose proof (w_kd _ _ W) as D. rewrite Forall_forall in D. destruct (D k Hk) as [A B _ _].
  rewrite Hd in A. injection A as A1 A2. split; [done|]. rewrite A2. apply B. intros E. pose proof (proj2 (w_ext _ _ W) k Hk E). lia.
Qed.

Lemma quiet_ret {A} (m : M nst A) n a : m n = Ret a n -> quiet m n.
Proof using All. intros E R N. eapply wp_eq; [exact E|]. split; [done|apply nstep_refl]. Qed.

Lemma VOP_quiet_step {A} ext (s : vst) v (op : vnode_ops U F -> M nst A) : vwf ext s -> 0 < ext v ->
  (forall x d, n_vn (v_n s) !! v = Some x -> vn_ops x = DEV_OPS -> n_dev (v_n s) !! vn_data x = Some d -> quiet (op dev_vnode_ops) (v_n s)) ->
  (forall x k, n_vn (v_n s) !! v = Some x -> vn_ops x = FS_OPS k -> quiet (op (fs_vnode_ops k)) (v_n s)) ->
  wp (zoom (VOP v op)) s (fun _ s' => vwf ext s' /\ vkeep s s' /\ nstep (v_n s) (v_n s')).
Proof using All.
  intros W Hv Hd Hf. destruct (held_vnode _ _ _ W Hv) as (x & Hx & Ho). apply quiet_nstep; [done|].
  intros R N. unfold wp. rewrite (VOP_run R _ _ x) by (apply N || done). destruct (vn_ops x) as [|k] eqn:E.
  - destruct (Ho eq_refl) as [_ [d Hdev]]. by apply (Hd x d).
  - by apply (Hf x k).
Qed.

Lemma VOP_quiet {A} ext (s : vst) v (op : vnode_ops U F -> M nst A) : vwf ext s -> 0 < ext v ->
  (forall x d, n_vn (v_n s) !! v = Some x -> vn_ops x = DEV_OPS -> n_dev (v_n s) !! vn_data x = Some d -> quiet (op dev_vnode_ops) (v_n s)) ->
  (forall x k, n_vn (v_n s) !! v = Some x -> vn_ops x = FS_OPS k -> quiet (op (fs_vnode_ops k)) (v_n s)) ->
  wp (zoom (VOP v op)) s (fun _ s' => vwf ext s' /\ vkeep s s').
Proof using All. intros W Hv Hd Hf. eapply wp_mono; [by apply (VOP_quiet_step ext s v op)|]. naive_solver. Qed.

(** A call below the name space that changes nothing. *)
Lemma zoom_pure {A} (m : M nst A) (s : vst) a : m (v_n s) = Ret a (v_n s) -> zoom m s = Ret a s.
Proof using All. intros E. unfold zoom. change (lens_get s) with (v_n s). rewrite E. by destruct s. Qed.

Lemma dev_gettype_run (n : nst) v x d : n_vn n !! v = Some x -> n_dev n !! vn_data x = Some d ->
  dev_gettype v n = Ret (0, if 0 <? d_blocks d then S_IFBLK else S_IFCHR) n.
Proof using All. intros Hx Hd. unfold dev_gettype, get_vn, get_device. msimpl. rewrite Hx. simpl. by rewrite Hd. Qed.

Lemma dev_eachopen_quiet (n : nst) v x d f : n_vn n !! v = Some x -> n_dev n !! vn_data x = Some d -> quiet (dev_eachopen v f) n.
Proof using All.
  intros Hx Hd R N. unfold dev_eachopen. apply wp_bind. eapply wp_eq; [by apply get_vn_run|]. case_match.
  - apply wp_ret. split; [done|apply nstep_refl].
  - unfold DEVOP_EACHOPEN. apply wp_bind. eapply wp_eq; [by apply get_device_run|]. unfold devops_of. case_match.
    + split; [done|apply nstep_refl].
    + by apply law_driver.
Qed.

Ltac vop_quiet law :=
  apply VOP_quiet; [assumption|assumption|intros x d Hx Ho Hd|intros x k Hx Ho; eapply law; eauto].

Lemma VOP_EACHOPEN_spec ext (s : vst) v f : vwf ext s -> 0 < ext v ->
  wp (zoom (VOP v (fun o => vop_eachopen o v f))) s (fun _ s' => vwf ext s' /\ vkeep s s').
Proof using All. intros W Hv. vop_quiet law_quiet. by eapply dev_eachopen_quiet. Qed.

Lemma VOP_TRUNCATE_spec ext (s : vst) v l : vwf ext s -> 0 < ext v ->
  wp (zoom (VOP v (fun o => vop_truncate o v l))) s (fun _ s' => vwf ext s' /\ vkeep s s').
Proof using All.
  intros W Hv. vop_quiet law_quiet. simpl. unfold dev_truncate.
  intros R N. apply wp_bind. eapply wp_eq; [by apply get_vn_run|]. apply wp_bind. eapply wp_eq; [by apply get_device_run|].
  case_match; (split; [done|apply nstep_refl]).
Qed.

Ltac vop_plain law := vop_quiet law; by eapply quiet_ret.

Lemma VOP_SYMLINK_spec ext (s : vst) v c m : vwf ext s -> 0 < ext v ->
  wp (zoom (VOP v (fun o => vop_symlink o v c m))) s (fun _ s' => vwf ext s' /\ vkeep s s').
Proof using All. intros W Hv. vop_plain law_quiet. Qed.
Lemma VOP_MKDIR_spec ext (s : vst) v m p : vwf ext s -> 0 < ext v ->
  wp (zoom (VOP v (fun o => vop_mkdir o v m p))) s (fun _ s' => vwf ext s' /\ vkeep s s').
Proof using All. intros W Hv. vop_plain law_quiet. Qed.
Lemma VOP_REMOVE_spec ext (s : vst) v m : vwf ext s -> 0 < ext v ->
  wp (zoom (VOP v (fun o => vop_remove o v m))) s (fun _ s' => vwf ext s' /\ vkeep s s').
Proof using All. intros W Hv. vop_plain law_quiet. Qed.
Lemma VOP_RMDIR_spec ext (s : vst) v m : vwf ext s -> 0 < ext v ->
  wp (zoom (VOP v (fun o => vop_rmdir o v m))) s (fun _ s' => vwf ext s' /\ vkeep s s').
Proof using All. intros W Hv. vop_plain law_quiet. Qed.
Lemma VOP_READLINK_spec ext (s : vst) v u : vwf ext s -> 0 < ext v -> good_uio u ->
  wp (zoom (VOP v (fun o => vop_readlink o v u))) s (fun _ s' => vwf ext s' /\ vkeep s s').
Proof using All. intros W Hv Hu. vop_plain law_uio. Qed.
Lemma VOP_NAMEFILE_spec ext (s : vst) v u : vwf ext s -> 0 < ext v -> good_uio u ->
  wp (zoom (VOP v (fun o => vop_namefile o v u))) s (fun _ s' => vwf ext s' /\ vkeep s s').
Proof using All. intros W Hv Hu. vop_plain law_uio. Qed.

Lemma VOP_LINK_spec ext (s : vst) v m w x y f : vwf ext s -> 0 < ext v ->
  n_vn (v_n s) !! v = Some x -> n_vn (v_n s) !! w = Some y -> vn_fs x = Some f -> vn_fs y = Some f ->
  wp (zoom (VOP v (fun o => vop_link o v m w))) s (fun _ s' => vwf ext s' /\ vkeep s s').
Proof using All.
  intros W Hv Hx Hy Hf Hg. apply VOP_quiet; [done|done|intros x' d Hx' Ho Hd; by eapply quiet_ret|intros x' k Hx' Ho].
  simplify_eq. eapply law_two; [done|done|done|congruence].
Qed.
Lemma VOP_RENAME_spec ext (s : vst) v m w m' x y f : vwf ext s -> 0 < ext v ->
  n_vn (v_n s) !! v = Some x -> n_vn (v_n s) !! w = Some y -> vn_fs x = Some f -> vn_fs y = Some f ->
  wp (zoom (VOP v (fun o => vop_rename o v m w m'))) s (fun _ s' => vwf ext s' /\ vkeep s s').
Proof using All.
  intros W Hv Hx Hy Hf Hg. apply VOP_quiet; [done|done|intros x' d Hx' Ho Hd; by eapply quiet_ret|intros x' k Hx' Ho].
  simplify_eq. eapply law_two; [done|done|done|congruence].
Qed.

(** A directory is not a device. *)
Lemma VOP_GETTYPE_spec ext (s : vst) v : vwf ext s -> 0 < ext v ->
  wp (zoom (VOP v (fun o => vop_gettype o v))) s (fun r s' => (vwf ext s' /\ vkeep s s') /\ (r.2 = S_IFDIR -> is_fs v (v_n s'))).
Proof using All.
  intros W Hv. destruct (held_vnode _ _ _ W Hv) as (x & Hx & Ho). destruct (vn_ops x) as [|k] eqn:E.
  - destruct (Ho eq_refl) as [_ [d Hd]]. eapply wp_eq.
    + apply zoom_pure. rewrite (VOP_run _ _ _ x _ (proj1 (w_n _ _ W)) Hx), E. by apply (dev_gettype_run _ _ x d).
    + split; [split; [done|reflexivity]|]. simpl. by destruct (0 <? d_blocks d).
  - eapply wp_mono.
    { apply VOP_quiet_step; [done|done|intros x' d Hx' Ho'; simplify_eq; congruence|intros x' k' Hx' Ho'; eapply law_quiet; eauto]. }
    intros r s' (W' & K & S). split; [done|]. intros _. eapply is_fs_keep; [apply S|apply W'| |by exists x, k].
    pose proof (refs_ge _ _ v W'). lia.
Qed.

(** ** The current directory and the roots *)

Definition back (ext : Z -> Z) (s : vst) (r : Z * Z) (s' : vst) : Prop :=
  vkeep s s' /\ if decide (r.1 = 0) then vwf (plus ext r.2) s' else vwf ext s'.

Lemma decref_plus ext (s : vst) v : vwf (plus ext v) s -> (forall w, 0 <= ext w) ->
  wp (zoom (VOP_DECREF v)) s (fun _ s' => vwf ext s' /\ vkeep s s').
Proof using All.
  intros W P. eapply wp_mono; [apply (decref_spec _ s v W)|].
  - unfold plus. rewrite decide_True by done. specialize (P v). lia.
  - intros [] s' [W' K]. split; [|done]. eapply vwf_ext; [exact W'|]. intros w. by rewrite plus_minus.
Qed.

Lemma ext_pos ext (s : vst) : vwf ext s -> forall v, 0 <= ext v.
Proof using All. intros W. apply W. Qed.

Lemma plus_pos ext v : 0 <= ext v -> 0 < plus ext v v.
Proof using All. unfold plus. rewrite decide_True by done. lia. Qed.

Lemma listed_not_null ext (s : vst) k j : vwf ext s -> k ∈ v_known s -> kd_device k <> 0 -> j ∈ v_known s -> kd_device j = 0 ->
  kd_vnode j <> kd_vnode k.
Proof using All.
  intros W Hk Hd Hj Hd' E. pose proof (w_kd _ _ W) as D. rewrite Forall_forall in D.
  pose proof (ko_vn _ _ (D _ Hk)) as A. pose proof (ko_vn _ _ (D _ Hj)) as B. rewrite E in B. congruence.
Qed.

Lemma dir_referenced ext (s : vst) v : vwf ext s -> v_cwd s = Some v \/ v_boot s = Some v -> 0 < refs ext s v.
Proof using All.
  intros W H. unfold refs. pose proof (listed_nonneg (v_known s) v). pose proof (points_nonneg (v_boot s) v).
  pose proof (points_nonneg (v_cwd s) v). pose proof (ext_pos _ _ W v).
  assert (forall o : option Z, o = Some v -> points o v = 1) by (intros o ->; unfold points; by rewrite decide_True). destruct H as [H|H].
  - assert (points (v_cwd s) v = 1) by auto. lia.
  - assert (points (v_boot s) v = 1) by auto. lia.
Qed.

(** [VOP_INCREF] of the current or the boot directory. *)
Lemma incref_dir ext (s : vst) v : vwf ext s -> v_cwd s = Some v \/ v_boot s = Some v ->
  wp (zoom (VOP_INCREF v)) s (fun _ s' => vwf (plus ext v) s' /\ vkeep s s' /\ is_fs v (v_n s')).
Proof using All.
  intros W H. assert (Hf : is_fs v (v_n s)) by (destruct H; [by apply (w_cwd _ _ W)|by apply (w_boot _ _ W)]).
  eapply wp_mono; [apply incref_spec; [exact W|by apply dir_referenced|]|].
  - intros k Hk _. by eapply kd_not_fs.
  - intros [] s' [W' K]. split_and!; [done|done|]. destruct H as [H|H]; [apply (w_cwd _ _ W')|apply (w_boot _ _ W')]; by rewrite <- H; apply K.
Qed.

Lemma getcurdir_spec ext (s : vst) : vwf ext s ->
  wp vfs_getcurdir s (fun r s' => back ext s r s' /\ (r.1 = 0 -> is_fs r.2 (v_n s'))).
Proof using All.
  intros W. unfold vfs_getcurdir. apply wp_bind. apply (wp_gets (fun x => x)). destruct (v_cwd s) as [d|] eqn:E.
  - apply wp_bind. eapply wp_mono; [apply (incref_dir ext); [done|by left]|]. intros [] s' (W' & K & Hf). apply wp_ret. by split.
  - apply wp_ret. split; [|done]. by split.
Qed.

Lemma getvolname_run ext (s : vst) i : vwf ext s -> i ∈ omap mounted (v_known s) ->
  zoom (FSOP_GETVOLNAME i) s = Ret (fs_volname i (n_fs (v_n s))) s.
Proof using All. intros W Hi. apply zoom_pure. unfold FSOP_GETVOLNAME. apply law_fs. by apply W. Qed.

Lemma getroot_back ext (s : vst) i : vwf ext s -> fs_live i (n_fs (v_n s)) -> wp (zoom (FSOP_GETROOT i)) s (back ext s).
Proof using All.
  intros W Hi. eapply wp_mono; [apply back_step; [exact W|by apply law_fs]|]. intros r s' [K H]. split; [done|]. case_decide; naive_solver.
Qed.

Lemma mounted_elem (k : knowndev) (l : list knowndev) i : k ∈ l -> mounted k = Some i -> i ∈ omap mounted l.
Proof using All. intros Hk Hi. apply list_elem_of_omap. eauto. Qed.

Lemma incref_kd ext (s : vst) k : vwf ext s -> k ∈ v_known s -> kd_device k <> 0 ->
  wp (zoom (VOP_INCREF (kd_vnode k))) s (fun _ s' => back ext s (0, kd_vnode k) s').
Proof using All.
  intros W Hk Hd. eapply wp_mono; [apply incref_spec; [exact W| |]|].
  - unfold refs. pose proof (points_nonneg (v_boot s) (kd_vnode k)). pose proof (points_nonneg (v_cwd s) (kd_vnode k)).
    pose proof (ext_pos _ _ W (kd_vnode k)). assert (0 < listed (v_known s) (kd_vnode k)) by (apply listed_pos; apply list_elem_of_fmap; eauto). lia.
  - intros j Hj Hd'. by eapply listed_not_null.
  - intros [] s' [W' K]. by split.
Qed.

Lemma getroot_body_spec ext (s : vst) nm k : vwf ext s -> k ∈ v_known s ->
  wp (getroot_body nm k) s (fun r s' => match r with Some x => back ext s x s' | None => s' = s end).
Proof using All.
  intros W Hk. pose proof (w_kd _ _ W) as D. rewrite Forall_forall in D. destruct (D k Hk) as [_ _ Kr Kf]. unfold getroot_body.
  assert (Kn : mounted k = None -> kd_rawname k = None -> kd_fs k = NO_FS /\ kd_device k <> 0)
    by (unfold mounted; intros H1 H2; destruct (kd_fs k); naive_solver). clear Kf.
  apply wp_bind. destruct (mounted k) as [i|] eqn:Hm.
  - apply wp_bind. eapply wp_eq; [apply (getvolname_run ext); [done|by eapply mounted_elem]|]. case_match eqn:E.
    + apply wp_bind. eapply wp_mono; [apply (getroot_back ext); [done|]|by intros r s' H].
      apply (w_live _ _ W). by eapply mounted_elem.
    + apply wp_ret. apply orb_false_iff in E as [E1 E2]. rewrite E1. case_match eqn:E3; [|by apply wp_ret].
      destruct (kd_rawname k) as [raw|] eqn:Hr; [|done]. assert (kd_device k <> 0) by (by apply Kr).
      apply wp_bind, wp_KASSERT; [by rewrite (proj2 (Z.eqb_neq _ _))|]. apply wp_bind. eapply wp_mono; [by apply (incref_kd ext)|]. by intros [] s' H'.
  - destruct (kd_rawname k) as [raw|] eqn:Hr.
    + assert (kd_device k <> 0) by (by apply Kr). case_match eqn:E; (apply wp_ret; simpl).
      * apply wp_ret. by split.
      * case_match; [|by apply wp_ret].
        apply wp_bind, wp_KASSERT; [by rewrite (proj2 (Z.eqb_neq _ _))|]. apply wp_bind. eapply wp_mono; [by apply (incref_kd ext)|]. by intros [] s' H'.
    + apply wp_ret; cbv beta iota. destruct (Kn eq_refl eq_refl) as [Hf Kf]. rewrite Hf.
      case_match; [|by apply wp_ret]. apply wp_bind, wp_KASSERT; [by rewrite bool_decide_eq_true|]. apply wp_bind, wp_KASSERT; [done|].
      apply wp_bind, wp_KASSERT; [by rewrite (proj2 (Z.eqb_neq _ _))|]. apply wp_bind. eapply wp_mono; [by apply (incref_kd ext)|]. by intros [] s' H'.
Qed.

Lemma getroot_loop_spec ext (s : vst) nm l : vwf ext s -> (forall k, k ∈ l -> k ∈ v_known s) -> wp (getroot_loop nm l) s (back ext s).
Proof using All.
  intros W. induction l as [|k l IH]; intros Hl; simpl; [apply wp_ret; by split|].
  apply wp_bind. eapply wp_mono; [apply (getroot_body_spec ext); [done|set_solver]|]. intros [x|] s' H; [by apply wp_ret|].
  subst s'. apply IH. set_solver.
Qed.

Lemma getroot_spec ext (s : vst) nm : vwf ext s -> i_hold s = true -> wp (vfs_getroot nm) s (back ext s).
Proof using All.
  intros W Hh. unfold vfs_getroot. apply wp_bind, wp_gets. apply wp_bind, wp_KASSERT; [done|].
  apply wp_bind. apply (wp_gets (fun x => x)). by apply getroot_loop_spec.
Qed.

(** ** Path lookup *)

(** A path buffer: a string, its NUL and whatever follows. *)
Definition path_ok (path : list Z) : Prop := exists p junk, path = p ++ 0 :: junk /\ Forall (fun c => c <> 0) p.

(** The vnode of a held file-system vnode belongs to a live file system. *)
Lemma is_fs_live ext (s : vst) v x : vwf ext s -> n_vn (v_n s) !! v = Some x -> is_fs v (v_n s) ->
  exists i, vn_fs x = Some i /\ fs_live i (n_fs (v_n s)).
Proof using All.
  intros W Hx (y & k & Hy & Hk). simplify_eq. pose proof (w_n _ _ W) as [_ I].
  eapply law_live; [exact I|]. rewrite fs_view_lookup, Hx. simpl. unfold fs_vn. by rewrite Hk.
Qed.

Lemma back_trans ext (s s1 : vst) (r : Z * Z) s' : vkeep s s1 -> back ext s1 r s' -> back ext s r s'.
Proof using All. intros K [K' H]. split; [by etrans|done]. Qed.

Lemma start_at_spec ext (s : vst) o : vwf ext s -> i_hold s = true -> wp (start_at o) s (back ext s).
Proof using All.
  intros W Hh. destruct o; cbn [start_at].
  - eapply wp_mono; [by apply (getcurdir_spec ext)|]. naive_solver.
  - apply wp_bind. apply (wp_gets (fun x => x)). destruct (v_boot s) as [b|] eqn:E; [|apply wp_ret; by split].
    apply wp_bind. eapply wp_mono; [apply (incref_dir ext); [done|by right]|]. intros [] s' (W' & K & _). apply wp_ret. by split.
  - apply wp_bind. eapply wp_mono; [by apply (getcurdir_spec ext)|]. intros [r v] s1 [[K B] Hf]. simpl in *. case_decide as E.
    + subst r. cbn [Z.eqb negb]. specialize (Hf eq_refl). pose proof Hf as (x & k & Hx & Hk).
      destruct (is_fs_live _ _ _ _ B Hx Hf) as (i & Hi & Hlive). apply wp_bind. eapply wp_eq; [by apply zoom_pure, get_vn_run|].
      apply wp_bind, wp_KASSERT; [by rewrite Hi|]. apply wp_bind. eapply wp_deref; [done|]. apply wp_bind.
      eapply wp_mono; [by apply (getroot_back (plus ext v))|]. intros [r w] s2 [K2 B2]. apply wp_bind. simpl in B2.
      assert (P : forall u, 0 <= ext u) by (by eapply ext_pos).
      case_decide as E; subst; simpl in *.
      * eapply wp_mono; [apply (decref_plus (plus ext w)); [|intros u; unfold plus; specialize (P u); case_decide; lia]|].
        { eapply vwf_ext; [exact B2|]. intros u. unfold plus. repeat case_decide; lia. }
        intros [] s3 [W3 K3]. apply wp_ret. split; [by do 2 (etrans; [eassumption|])|by rewrite decide_True].
      * eapply wp_mono; [by apply (decref_plus ext)|].
        intros [] s3 [W3 K3]. apply wp_ret. split; [by do 2 (etrans; [eassumption|])|by rewrite decide_False].
    + rewrite (proj2 (Z.eqb_neq _ _)) by done. cbn [negb]. apply wp_ret. split; [done|by rewrite decide_False].
  - by apply getroot_spec.
Qed.

Definition back_sub (ext : Z -> Z) (s : vst) (r : Z * (list Z * Z)) (s' : vst) : Prop :=
  vkeep s s' /\ if decide (r.1 = 0) then vwf (plus ext r.2.2) s' else vwf ext s'.

Lemma getdevice_spec ext (s : vst) path : vwf ext s -> i_hold s = true -> path_ok path -> wp (getdevice path) s (back_sub ext s).
Proof using All.
  intros W Hh (p & junk & -> & Hp). unfold wp. rewrite getdevice_run by done. destruct (parse p) as [[o q]|]; [|by split].
  change (wp (r ← start_at o; mret (arrive o (q ++ 0 :: junk) r)) s (back_sub ext s)). apply wp_bind.
  eapply wp_mono; [by apply start_at_spec|]. intros [r v] s' [K B]. apply wp_ret. unfold back_sub, arrive. split; [done|]. simpl in *.
  destruct o; try done; destruct (Z.eqb_spec r 0); subst; simpl in *; try done; case_decide; done.
Qed.

Definition back_name (ext : Z -> Z) (s : vst) (r : Z * (Z * list Z)) (s' : vst) : Prop :=
  vkeep s s' /\ if decide (r.1 = 0) then vwf (plus ext r.2.1) s' else vwf ext s'.

Lemma VOP_LOOKPARENT_spec ext (s : vst) v p len : vwf ext s -> 0 < ext v ->
  wp (zoom (VOP v (fun o => vop_lookparent o v p len))) s (back_name ext s).
Proof using All.
  intros W Hv. destruct (held_vnode _ _ _ W Hv) as (x & Hx & Ho). destruct (vn_ops x) as [|k] eqn:E.
  - eapply wp_eq; [apply zoom_pure; rewrite (VOP_run _ _ _ x _ (proj1 (w_n _ _ W)) Hx), E; done|]. by split.
  - eapply wp_mono; [apply (back_name_step ext); [done|]|].
    + intros R N. unfold wp. rewrite (VOP_run _ _ _ x _ (proj1 N) Hx), E. cbn [ops_of]. by apply (law_lookup _ _ _ _ _ Hx E).
    + intros r s' [K B]. split; [done|]. case_decide; naive_solver.
Qed.

Lemma VOP_LOOKUP_spec ext (s : vst) v p : vwf ext s -> 0 < ext v -> p <> [] ->
  wp (zoom (VOP v (fun o => vop_lookup o v p))) s (back ext s).
Proof using All.
  intros W Hv Hp. destruct (held_vnode _ _ _ W Hv) as (x & Hx & Ho). destruct (vn_ops x) as [|k] eqn:E.
  - eapply (wp_eq _ _ (ENOENT, 0)); [apply zoom_pure; rewrite (VOP_run _ _ _ x _ (proj1 (w_n _ _ W)) Hx), E|by split].
    simpl. unfold dev_lookup. by destruct p.
  - eapply wp_mono; [apply (back_step ext); [done|]|].
    + intros R N. unfold wp. rewrite (VOP_run _ _ _ x _ (proj1 N) Hx), E. cbn [ops_of]. by apply (law_lookup _ _ _ _ _ Hx E).
    + intros r s' [K B]. split; [done|]. case_decide; naive_solver.
Qed.

Lemma VOP_CREAT_spec ext (s : vst) v m e p : vwf ext s -> 0 < ext v -> n_oom (v_n s) = [] ->
  wp (zoom (VOP v (fun o => vop_creat o v m e p))) s (back ext s).
Proof using All.
  intros W Hv Hoom. destruct (held_vnode _ _ _ W Hv) as (x & Hx & Ho). destruct (vn_ops x) as [|k] eqn:E.
  - eapply wp_eq; [apply zoom_pure; rewrite (VOP_run _ _ _ x _ (proj1 (w_n _ _ W)) Hx), E; done|]. by split.
  - eapply wp_mono; [apply (back_step ext); [done|]|].
    + intros R N. unfold wp. rewrite (VOP_run _ _ _ x _ (proj1 N) Hx), E. cbn [ops_of]. by apply (law_creat _ _ _ _ _ _ _ Hx E).
    + intros r s' [K B]. split; [done|]. case_decide; naive_solver.
Qed.

Lemma vwf_swap ext (s : vst) v w : vwf (plus (plus ext v) w) s -> vwf (plus (plus ext w) v) s.
Proof using All. intros W. eapply vwf_ext; [exact W|]. intros u. unfold plus. repeat case_decide; lia. Qed.

Lemma pos_plus ext v : (forall u, 0 <= ext u) -> forall u, 0 <= plus ext v u.
Proof using All. intros P u. specialize (P u). unfold plus. case_decide; lia. Qed.

(** The ends of a call under the big lock. *)
Lemma release_end {A} ext (s s3 : vst) (a : A) : lock_ok s -> vkeep (locked s) s3 -> vwf ext s3 ->
  wp (_ ← vfs_biglock_release; mret a) s3 (fun r s' => r = a /\ vwf ext s' /\ vkeep s s').
Proof using All.
  intros L K W. apply wp_bind. eapply wp_mono; [by eapply (release_keep _ s)|]. intros [] s5 [W5 K5]. by apply wp_ret.
Qed.

Lemma drop_release {A} ext (s s3 : vst) v (a : A) : lock_ok s -> vkeep (locked s) s3 -> vwf (plus ext v) s3 -> (forall u, 0 <= ext u) ->
  wp (_ ← zoom (VOP_DECREF v); _ ← vfs_biglock_release; mret a) s3 (fun r s' => r = a /\ vwf ext s' /\ vkeep s s').
Proof using All.
  intros L K W P. apply wp_bind. eapply wp_mono; [by apply (decref_plus ext)|]. intros [] s4 [W4 K4].
  apply release_end; [done|by etrans|done].
Qed.

Lemma lookparent_spec ext (s : vst) path len : vwf ext s -> path_ok path -> wp (vfs_lookparent path len) s (back_name ext s).
Proof using All.
  intros W Hp. pose proof (w_lock _ _ W) as L. unfold vfs_lookparent. apply wp_bind. eapply wp_mono; [by apply (acquire_spec ext)|].
  intros [] s1 (W1 & -> & Hh). apply wp_bind. eapply wp_mono; [by apply (getdevice_spec ext)|]. intros [r [sub v]] s2 [K2 B2]. simpl in B2.
  case_decide as E; [subst r; cbn [Z.eqb negb]|rewrite (proj2 (Z.eqb_neq _ _)) by done; cbn [negb]].
  - assert (P : forall u, 0 <= ext u) by (by eapply ext_pos). apply wp_bind.
    assert (Q : wp (if (length (cstr sub) =? 0)%nat then mret (EINVAL, (0, []))
              else zoom (VOP v (fun o => vop_lookparent o v (cstr sub) len))) s2 (back_name (plus ext v) s2)).
    { case_match; [apply wp_ret; by split|]. apply VOP_LOOKPARENT_spec; [done|]. by apply plus_pos. }
    eapply wp_mono; [exact Q|]. intros [r [w nm]] s3 [K3 B3]. simpl in B3. case_decide as E; subst.
    + eapply wp_mono; [apply (drop_release (plus ext w) s); [done|by etrans|by apply vwf_swap|by apply pos_plus]|].
      intros x s4 (-> & W4 & K4). split; [done|by rewrite decide_True].
    + eapply wp_mono; [apply (drop_release ext s); [done|by etrans|done|done]|].
      intros x s4 (-> & W4 & K4). split; [done|by rewrite decide_False].
  - eapply wp_mono; [by apply (release_end ext s)|]. intros x s5 (-> & W5 & K5). split; [done|by rewrite decide_False].
Qed.

Lemma lookup_spec ext (s : vst) path : vwf ext s -> path_ok path -> wp (vfs_lookup path) s (back ext s).
Proof using All.
  intros W Hp. pose proof (w_lock _ _ W) as L. unfold vfs_lookup. apply wp_bind. eapply wp_mono; [by apply (acquire_spec ext)|].
  intros [] s1 (W1 & -> & Hh). apply wp_bind. eapply wp_mono; [by apply (getdevice_spec ext)|]. intros [r [sub v]] s2 [K2 B2]. simpl in B2.
  case_decide as E; [subst r; cbn [Z.eqb negb]|rewrite (proj2 (Z.eqb_neq _ _)) by done; cbn [negb]].
  - assert (P : forall u, 0 <= ext u) by (by eapply ext_pos). case_match eqn:Hl.
    { eapply wp_mono; [by apply (release_end (plus ext v) s)|]. intros x s5 (-> & W5 & K5). split; [done|by rewrite decide_True]. }
    apply wp_bind. eapply wp_mono; [apply (VOP_LOOKUP_spec (plus ext v)); [done|by apply plus_pos|by intros E; rewrite E in Hl]|].
    intros [r w] s3 [K3 B3]. simpl in B3. case_decide as E; subst.
    + eapply wp_mono; [apply (drop_release (plus ext w) s); [done|by etrans|by apply vwf_swap|by apply pos_plus]|].
      intros x s4 (-> & W4 & K4). split; [done|by rewrite decide_True].
    + eapply wp_mono; [apply (drop_release ext s); [done|by etrans|done|done]|].
      intros x s4 (-> & W4 & K4). split; [done|by rewrite decide_False].
  - eapply wp_mono; [by apply (release_end ext s)|]. intros x s5 (-> & W5 & K5). split; [done|by rewrite decide_False].
Qed.

End Calls.
End VfsCalls.
