(* ===== verification/VfsSafe.v ===== *)
(** * Every call on path names returns and keeps the references exact *)

From S2P Require Import Prelude Uio Sfs Vnode Vfs VfsPath VfsLaws VfsTheory VfsCalls.

Module VfsSafe.
Import Uio Vnode Vfs VfsPath VfsParse VfsLaws VfsTheory VfsCalls.
Import Sfs(ENOTDIR, ENOENT, S_IFDIR, O_RDONLY, O_ACCMODE, cstr).

Section Safe.
Context {U F : Type} `{FO : FsOpsLaws U F}.
Abbreviation nst := (nstate U F).
Abbreviation vst := (vfs U F).

(** What a call on path names leaves: the table of devices, the big lock, memory that lasts. *)
Record vframe (s s' : vst) : Prop := mk_vframe {
  vf_known : v_known s' = v_known s;
  vf_lock : v_holder s' = v_holder s /\ v_depth s' = v_depth s /\ v_me s' = v_me s;
  vf_oom : n_oom (v_n s) = [] -> n_oom (v_n s') = []
}.

#[local] Instance vframe_pre : PreOrder vframe.
Proof using All.
  split.
  - intros s. by split.
  - intros a b c [A1 (A2 & A2' & A2'') A4] [B1 (B2 & B2' & B2'') B4]. split; [congruence|split_and!; congruence|auto].
Qed.
Lemma vkeep_frame (s s' : vst) : vkeep s s' -> vframe s s'.
Proof using All. intros [A B C D]. by split. Qed.

Definition plus_opt (ext : Z -> Z) (o : option Z) : Z -> Z := match o with Some v => plus ext v | None => ext end.

Lemma plus_opt_points ext o w : plus_opt ext o w = points o w + ext w.
Proof using All. unfold points. destruct o as [v|]; simpl; [unfold plus|]; repeat case_decide; simplify_eq; lia. Qed.

Lemma ext_ok_opt ext ext' (s : vst) o : vwf ext' s -> ext_ok ext (v_known s) -> fs_opt o (v_n s) -> ext_ok (plus_opt ext o) (v_known s).
Proof using All.
  intros W E Ho. destruct o as [v|]; [|done]. apply ext_ok_plus; [done|]. intros k Hk _. eapply kd_not_fs; [exact W|by apply Ho|done].
Qed.

(** The current directory changes hands: the new one's reference comes from the caller, the
    old one's goes to it. *)
Lemma vwf_cwd ext (s : vst) new : vwf (plus_opt ext new) s -> fs_opt new (v_n s) -> ext_ok ext (v_known s) ->
  vwf (plus_opt ext (v_cwd s)) (set_cwd new s).
Proof using All.
  intros W Hn E. pose proof W as [A B C D G H I J K]. split; try done.
  - exact (ext_ok_opt ext _ s _ W E J).
  - eapply nwf_ext; [exact C|]. intros v. unfold refs. simpl. rewrite !plus_opt_points. lia.
Qed.
Lemma vwf_boot ext (s : vst) new : vwf (plus_opt ext new) s -> fs_opt new (v_n s) -> ext_ok ext (v_known s) ->
  vwf (plus_opt ext (v_boot s)) (set_boot new s).
Proof using All.
  intros W Hn E. pose proof W as [A B C D G H I J K]. split; try done.
  - exact (ext_ok_opt ext _ s _ W E K).
  - eapply nwf_ext; [exact C|]. intros v. unfold refs. simpl. rewrite !plus_opt_points. lia.
Qed.

Lemma decref_opt_spec ext (s : vst) o : vwf (plus_opt ext o) s -> (forall u, 0 <= ext u) ->
  wp (decref_opt o) s (fun _ s' => vwf ext s' /\ vkeep s s').
Proof using All. intros W P. destruct o as [v|]; [by apply decref_plus|]. apply wp_ret. split; [done|reflexivity]. Qed.

Lemma incref_fs ext (s : vst) v : vwf ext s -> 0 < ext v -> is_fs v (v_n s) ->
  wp (zoom (VOP_INCREF v)) s (fun _ s' => vwf (plus ext v) s' /\ vkeep s s' /\ is_fs v (v_n s')).
Proof using All.
  intros W Hv Hf. pose proof (refs_ge _ _ v W). apply wp_zoom. eapply wp_mono; [apply (incref_nwf (refs ext s)); [apply W|lia]|].
  intros [] n' (N & S & _). split_and!; [|apply vkeep_set_n; apply S|].
  - eapply vwf_step; [done|done| |apply ext_ok_plus; [apply W|intros k Hk _; by eapply kd_not_fs]].
    eapply nwf_ext; [exact N|]. intros w. by rewrite refs_plus.
  - eapply is_fs_keep; [apply S|exact N| |done]. unfold plus. rewrite decide_True by done. lia.
Qed.

Lemma setcurdir_spec ext (s : vst) d : vwf ext s -> 0 < ext d -> wp (vfs_setcurdir d) s (fun _ s' => vwf ext s' /\ vframe s s').
Proof using All.
  intros W Hd. unfold vfs_setcurdir. apply wp_bind. eapply wp_mono; [by apply (VOP_GETTYPE_spec ext)|]. intros [r ty] s1 [[W1 K1] Hf].
  simpl in Hf. case_match; [apply wp_ret; split; [done|by apply vkeep_frame]|]. case_match eqn:Ht; [apply wp_ret; split; [done|by apply vkeep_frame]|].
  apply negb_false_iff, Z.eqb_eq in Ht. specialize (Hf Ht). apply wp_bind. eapply wp_mono; [by apply (incref_fs ext)|].
  intros [] s2 (W2 & K2 & F2). apply wp_bind, wp_gets. apply wp_bind, wp_modify. apply wp_bind.
  assert (K : vkeep s s2) by (by etrans). assert (E2 : ext_ok ext (v_known s2)) by (rewrite (vk_known _ _ K); apply W).
  eapply wp_mono; [apply (decref_opt_spec ext)|].
  - apply (vwf_cwd _ _ (Some d)); [done|by intros v [= <-]|done].
  - by eapply ext_pos.
  - intros [] s3 [W3 K3]. apply wp_ret. split; [done|]. transitivity s2; [by apply vkeep_frame|]. transitivity (set_cwd (Some d) s2); [by split|by apply vkeep_frame].
Qed.

Lemma clearcurdir_spec ext (s : vst) : vwf ext s -> wp vfs_clearcurdir s (fun _ s' => vwf ext s' /\ vframe s s').
Proof using All.
  intros W. unfold vfs_clearcurdir. apply wp_bind, wp_gets. apply wp_bind, wp_modify. apply wp_bind. eapply wp_mono; [apply (decref_opt_spec ext)|].
  - by apply (vwf_cwd _ _ None); [done|..|apply W].
  - by eapply ext_pos.
  - intros [] s3 [W3 K3]. apply wp_ret. split; [done|]. transitivity (set_cwd None s); [by split|by apply vkeep_frame].
Qed.

Lemma change_bootfs_spec ext (s : vst) new : vwf (plus_opt ext new) s -> fs_opt new (v_n s) -> ext_ok ext (v_known s) ->
  wp (change_bootfs new) s (fun _ s' => vwf ext s' /\ vframe s s').
Proof using All.
  intros W Hn E. unfold change_bootfs. apply wp_bind, wp_gets. apply wp_bind, wp_modify. eapply wp_mono; [apply (decref_opt_spec ext)|].
  - by apply vwf_boot.
  - apply E.
  - intros [] s3 [W3 K3]. split; [done|]. transitivity (set_boot new s); [by split|by apply vkeep_frame].
Qed.

(** After a reference to [v] was taken: work that keeps it, then [VOP_DECREF]. *)
Lemma work_drop {A} ext (s : vst) v (m : M vst A) : vwf (plus ext v) s -> (forall u, 0 <= ext u) ->
  wp m s (fun _ s' => vwf (plus ext v) s' /\ vframe s s') ->
  wp (r ← m; _ ← zoom (VOP_DECREF v); mret r) s (fun _ s' => vwf ext s' /\ vframe s s').
Proof using All.
  intros W P H. apply wp_bind. eapply wp_mono; [exact H|]. intros r s1 [W1 F1]. apply wp_bind. eapply wp_mono; [by apply (decref_plus ext)|].
  intros [] s2 [W2 K2]. apply wp_ret. split; [done|]. etrans; [done|by apply vkeep_frame].
Qed.

Lemma wp_frame {A} ext (s : vst) (m : M vst A) : wp m s (fun _ s' => vwf ext s' /\ vkeep s s') ->
  wp m s (fun _ s' => vwf ext s' /\ vframe s s').
Proof using All. intros H. eapply wp_mono; [exact H|]. intros a s' [W K]. split; [done|by apply vkeep_frame]. Qed.

(** A call that looks a path up and, when it is found, works on the vnode it got. *)
Lemma with_lookup {A} ext (s : vst) path (e : Z -> A) (work : Z -> M vst A) : vwf ext s -> path_ok path ->
  (forall v s1, vwf (plus ext v) s1 -> vframe s s1 -> wp (work v) s1 (fun _ s' => vwf (plus ext v) s' /\ vframe s1 s')) ->
  wp (r ← vfs_lookup path; let '(result, v) := r in
      if negb (result =? 0) then mret (e result) else r ← work v; _ ← zoom (VOP_DECREF v); mret r) s (fun _ s' => vwf ext s' /\ vframe s s').
Proof using All.
  intros W Hp H. apply wp_bind. eapply wp_mono; [by apply (lookup_spec ext)|]. intros [r v] s1 [K1 B1]. simpl in B1.
  case_decide as E; [subst r; cbn [Z.eqb negb]|rewrite (proj2 (Z.eqb_neq _ _)) by done; apply wp_ret; split; [done|by apply vkeep_frame]].
  eapply wp_mono; [apply (work_drop ext s1 v); [done|by eapply ext_pos|by apply H, vkeep_frame]|]. intros a s2 [W2 F2].
  split; [done|]. etrans; [by apply vkeep_frame|done].
Qed.

Lemma with_parent {A} ext (s : vst) path len (e : Z -> A) (work : Z -> list Z -> M vst A) : vwf ext s -> path_ok path ->
  (forall v nm s1, vwf (plus ext v) s1 -> vframe s s1 -> wp (work v nm) s1 (fun _ s' => vwf (plus ext v) s' /\ vframe s1 s')) ->
  wp (r ← vfs_lookparent path len; let '(result, (v, nm)) := r in
      if negb (result =? 0) then mret (e result) else r ← work v nm; _ ← zoom (VOP_DECREF v); mret r) s (fun _ s' => vwf ext s' /\ vframe s s').
Proof using All.
  intros W Hp H. apply wp_bind. eapply wp_mono; [by apply (lookparent_spec ext)|]. intros [r [v nm]] s1 [K1 B1]. simpl in B1.
  case_decide as E; [subst r; cbn [Z.eqb negb]|rewrite (proj2 (Z.eqb_neq _ _)) by done; apply wp_ret; split; [done|by apply vkeep_frame]].
  eapply wp_mono; [apply (work_drop ext s1 v); [done|by eapply ext_pos|by apply H, vkeep_frame]|]. intros a s2 [W2 F2].
  split; [done|]. etrans; [by apply vkeep_frame|done].
Qed.

Lemma remove_spec ext (s : vst) path : vwf ext s -> path_ok path -> wp (vfs_remove path) s (fun _ s' => vwf ext s' /\ vframe s s').
Proof using All.
  intros W Hp. apply (with_parent ext s path _ id (fun dir name => zoom (VOP dir (fun o => vop_remove o dir name)))); [done|done|].
  intros v nm s1 W1 _. by apply wp_frame, VOP_REMOVE_spec; [|apply plus_pos; eapply ext_pos].
Qed.
Lemma mkdir_spec ext (s : vst) path mode : vwf ext s -> path_ok path -> wp (vfs_mkdir path mode) s (fun _ s' => vwf ext s' /\ vframe s s').
Proof using All.
  intros W Hp. apply (with_parent ext s path _ id (fun dir name => zoom (VOP dir (fun o => vop_mkdir o dir name mode)))); [done|done|].
  intros v nm s1 W1 _. by apply wp_frame, VOP_MKDIR_spec; [|apply plus_pos; eapply ext_pos].
Qed.
Lemma rmdir_spec ext (s : vst) path : vwf ext s -> path_ok path -> wp (vfs_rmdir path) s (fun _ s' => vwf ext s' /\ vframe s s').
Proof using All.
  intros W Hp. apply (with_parent ext s path _ id (fun dir name => zoom (VOP dir (fun o => vop_rmdir o dir name)))); [done|done|].
  intros v nm s1 W1 _. by apply wp_frame, VOP_RMDIR_spec; [|apply plus_pos; eapply ext_pos].
Qed.
Lemma symlink_spec ext (s : vst) c path : vwf ext s -> path_ok path -> wp (vfs_symlink c path) s (fun _ s' => vwf ext s' /\ vframe s s').
Proof using All.
  intros W Hp. apply (with_parent ext s path _ id (fun dir name => zoom (VOP dir (fun o => vop_symlink o dir name c)))); [done|done|].
  intros v nm s1 W1 _. by apply wp_frame, VOP_SYMLINK_spec; [|apply plus_pos; eapply ext_pos].
Qed.
Lemma readlink_spec ext (s : vst) path u : vwf ext s -> path_ok path -> good_uio u ->
  wp (vfs_readlink path u) s (fun _ s' => vwf ext s' /\ vframe s s').
Proof using All.
  intros W Hp Hu. apply (with_lookup ext s path (fun r => (r, u)) (fun v => zoom (VOP v (fun o => vop_readlink o v u)))); [done|done|].
  intros v s1 W1 _. by apply wp_frame, VOP_READLINK_spec; [|apply plus_pos; eapply ext_pos|].
Qed.
Lemma chdir_spec ext (s : vst) path : vwf ext s -> path_ok path -> wp (vfs_chdir path) s (fun _ s' => vwf ext s' /\ vframe s s').
Proof using All.
  intros W Hp. apply (with_lookup ext s path id vfs_setcurdir); [done|done|].
  intros v s1 W1 _. apply setcurdir_spec; [done|]. apply plus_pos. by eapply ext_pos.
Qed.

Lemma other_fs_spec ext (s : vst) a b : vwf ext s -> 0 < ext a -> 0 < ext b ->
  exists x y, n_vn (v_n s) !! a = Some x /\ n_vn (v_n s) !! b = Some y /\
    exists o, other_fs a b s = Ret o s /\ (o = false -> exists f, vn_fs x = Some f /\ vn_fs y = Some f).
Proof using All.
  intros W Ha Hb. destruct (held_vnode _ _ _ W Ha) as (x & Hx & _). destruct (held_vnode _ _ _ W Hb) as (y & Hy & _).
  exists x, y. split_and!; [done|done|]. eexists. split.
  - unfold other_fs. rewrite (run_bind _ _ s x s) by (by apply zoom_pure, get_vn_run). by rewrite (run_bind _ _ s y s) by (by apply zoom_pure, get_vn_run).
  - destruct (vn_fs x) as [f|], (vn_fs y) as [g|]; try done. intros E%negb_false_iff%Z.eqb_eq. subst. eauto.
Qed.

Lemma drop_ret {A} ext (s : vst) v (a : A) : vwf (plus ext v) s -> (forall u, 0 <= ext u) ->
  wp (_ ← zoom (VOP_DECREF v); mret a) s (fun r s' => r = a /\ vwf ext s' /\ vframe s s').
Proof using All.
  intros W P. apply wp_bind. eapply wp_mono; [by apply (decref_plus ext)|]. intros [] s' [W' K]. apply wp_ret. split_and!; [done|done|by apply vkeep_frame].
Qed.

Lemma rename_spec ext (s : vst) p q : vwf ext s -> path_ok p -> path_ok q ->
  wp (vfs_rename p q) s (fun _ s' => vwf ext s' /\ vframe s s').
Proof using All.
  intros W Hp Hq. assert (P : forall u, 0 <= ext u) by (by eapply ext_pos). unfold vfs_rename.
  apply wp_bind. eapply wp_mono; [by apply (lookparent_spec ext)|]. intros [r [a nm]] s1 [K1 B1]. simpl in B1.
  case_decide as E; [subst r; cbn [Z.eqb negb]|rewrite (proj2 (Z.eqb_neq _ _)) by done; apply wp_ret; split; [done|by apply vkeep_frame]].
  apply wp_bind. eapply wp_mono; [by apply (lookparent_spec (plus ext a))|]. intros [r [b nm']] s2 [K2 B2]. simpl in B2.
  assert (K : vframe s s2) by (by apply vkeep_frame; etrans).
  case_decide as E; [subst r; cbn [Z.eqb negb]|rewrite (proj2 (Z.eqb_neq _ _)) by done; cbn [negb]].
  2:{ eapply wp_mono; [by apply drop_ret|]. intros x s3 (-> & W3 & K3). split; [done|by etrans]. }
  assert (Pa : 0 < plus (plus ext a) b a) by (specialize (P a); unfold plus; repeat case_decide; lia).
  assert (Pb : 0 < plus (plus ext a) b b) by (specialize (P b); unfold plus; repeat case_decide; lia).
  destruct (other_fs_spec _ s2 a b B2 Pa Pb) as (x & y & Hx & Hy & o & Ho & Hsame). apply wp_bind. eapply wp_eq; [exact Ho|].
  apply wp_bind. assert (Q : wp (if o then mret EXDEV else zoom (VOP a (fun o => vop_rename o a nm b nm'))) s2
    (fun _ s' => vwf (plus (plus ext a) b) s' /\ vkeep s2 s')).
  { destruct o; [apply wp_ret; split; [done|reflexivity]|]. destruct (Hsame eq_refl) as (f & ? & ?). by eapply VOP_RENAME_spec. }
  eapply wp_mono; [exact Q|]. intros res s3 [W3 K3]. apply wp_bind. eapply wp_mono; [apply (decref_plus (plus ext a)); [done|by apply pos_plus]|].
  intros [] s4 [W4 K4]. eapply wp_mono; [by apply drop_ret|]. intros z s5 (-> & W5 & K5). split; [done|].
  transitivity s2; [done|]. transitivity s4; [by apply vkeep_frame; etrans|done].
Qed.

Lemma link_spec ext (s : vst) p q : vwf ext s -> path_ok p -> path_ok q ->
  wp (vfs_link p q) s (fun _ s' => vwf ext s' /\ vframe s s').
Proof using All.
  intros W Hp Hq. assert (P : forall u, 0 <= ext u) by (by eapply ext_pos). unfold vfs_link.
  apply wp_bind. eapply wp_mono; [by apply (lookup_spec ext)|]. intros [r a] s1 [K1 B1]. simpl in B1.
  case_decide as E; [subst r; cbn [Z.eqb negb]|rewrite (proj2 (Z.eqb_neq _ _)) by done; apply wp_ret; split; [done|by apply vkeep_frame]].
  apply wp_bind. eapply wp_mono; [by apply (lookparent_spec (plus ext a))|]. intros [r [b nm']] s2 [K2 B2]. simpl in B2.
  assert (K : vframe s s2) by (by apply vkeep_frame; etrans).
  case_decide as E; [subst r; cbn [Z.eqb negb]|rewrite (proj2 (Z.eqb_neq _ _)) by done; cbn [negb]].
  2:{ eapply wp_mono; [by apply drop_ret|]. intros x s3 (-> & W3 & K3). split; [done|by etrans]. }
  assert (Pa : 0 < plus (plus ext a) b a) by (specialize (P a); unfold plus; repeat case_decide; lia).
  assert (Pb : 0 < plus (plus ext a) b b) by (specialize (P b); unfold plus; repeat case_decide; lia).
  destruct (other_fs_spec _ s2 a b B2 Pa Pb) as (x & y & Hx & Hy & o & Ho & Hsame). apply wp_bind. eapply wp_eq; [exact Ho|].
  apply wp_bind. assert (Q : wp (if o then mret EXDEV else zoom (VOP b (fun o => vop_link o b nm' a))) s2
    (fun _ s' => vwf (plus (plus ext a) b) s' /\ vkeep s2 s')).
  { destruct o; [apply wp_ret; split; [done|reflexivity]|]. destruct (Hsame eq_refl) as (f & ? & ?). by eapply VOP_LINK_spec. }
  eapply wp_mono; [exact Q|]. intros res s3 [W3 K3]. apply wp_bind. eapply wp_mono; [apply (decref_plus (plus ext a)); [done|by apply pos_plus]|].
  intros [] s4 [W4 K4]. eapply wp_mono; [by apply drop_ret|]. intros z s5 (-> & W5 & K5). split; [done|].
  transitivity s2; [done|]. transitivity s4; [by apply vkeep_frame; etrans|done].
Qed.

(** The first part of [vfs_open]: the vnode by creation or by lookup. *)
Lemma open_find_spec ext (s : vst) path flags mode : vwf ext s -> path_ok path -> (has flags O_CREAT = true -> n_oom (v_n s) = []) ->
  wp (if has flags O_CREAT then
        r ← vfs_lookparent path (NAME_MAX + 1);
        let '(result, (dir, name)) := r in
        if negb (result =? 0) then mret (result, 0)
        else r ← zoom (VOP dir (fun o => vop_creat o dir name (has flags O_EXCL) mode)); _ ← zoom (VOP_DECREF dir); mret r
      else vfs_lookup path) s (back ext s).
Proof using All.
  intros W Hp Hoom. assert (P : forall u, 0 <= ext u) by (by eapply ext_pos). case_match; [|by apply lookup_spec].
  apply wp_bind. eapply wp_mono; [by apply (lookparent_spec ext)|]. intros [r [a nm]] s1 [K1 B1]. simpl in B1.
  case_decide as E; [subst r; cbn [Z.eqb negb]|rewrite (proj2 (Z.eqb_neq _ _)) by done; apply wp_ret; split; [done|by rewrite decide_False]].
  apply wp_bind. eapply wp_mono; [apply (VOP_CREAT_spec (plus ext a)); [done|by apply plus_pos|by apply K1, Hoom]|].
  intros [r v] s2 [K2 B2]. simpl in B2. apply wp_bind. case_decide as E; subst.
  - eapply wp_mono; [apply (decref_plus (plus ext v)); [by apply vwf_swap|by apply pos_plus]|]. intros [] s3 [W3 K3]. apply wp_ret.
    split; [by do 2 (etrans; [eassumption|])|by rewrite decide_True].
  - eapply wp_mono; [by apply (decref_plus ext)|]. intros [] s3 [W3 K3]. apply wp_ret.
    split; [by do 2 (etrans; [eassumption|])|by rewrite decide_False].
Qed.

Lemma open_spec ext (s : vst) path flags mode : vwf ext s -> path_ok path -> (has flags O_CREAT = true -> n_oom (v_n s) = []) ->
  wp (vfs_open path flags mode) s (fun r s' => (if decide (r.1 = 0) then vwf (plus ext r.2) s' else vwf ext s') /\ vframe s s').
Proof using All.
  intros W Hp Hoom. assert (P : forall u, 0 <= ext u) by (by eapply ext_pos). unfold vfs_open.
  destruct (if _ =? O_RDONLY then _ else _) as [canwrite|]; [|apply wp_ret; split; [done|reflexivity]].
  apply wp_bind. eapply wp_mono; [by apply (open_find_spec ext)|]. intros [r v] s1 [K1 B1]. simpl in B1.
  case_decide as E; [subst r; cbn [Z.eqb negb]|rewrite (proj2 (Z.eqb_neq _ _)) by done; apply wp_ret; split; [by rewrite decide_False|by apply vkeep_frame]].
  assert (Pv : 0 < plus ext v v) by (by apply plus_pos). destruct (held_vnode _ _ _ B1 Pv) as (x & Hx & _).
  apply wp_bind, wp_KASSERT. { pose proof (rf_addr _ _ (proj1 (w_n _ _ B1)) _ _ Hx). by rewrite (proj2 (Z.eqb_neq _ _)) by lia. }
  apply wp_bind. eapply wp_mono; [by apply (VOP_EACHOPEN_spec (plus ext v))|]. intros r s2 [W2 K2]. assert (K : vframe s s2) by (by apply vkeep_frame; etrans).
  destruct (Z.eqb_spec r 0) as [->|Hr]; cbn [negb].
  2:{ eapply wp_mono; [by apply (drop_ret ext)|]. intros y s3 (-> & W3 & K3). split; [by rewrite decide_False|by etrans]. }
  apply wp_bind. assert (Q : wp (if has flags O_TRUNC then if negb canwrite then mret EINVAL else zoom (VOP v (fun o => vop_truncate o v 0)) else mret 0) s2
      (fun _ s' => vwf (plus ext v) s' /\ vkeep s2 s')).
  { repeat case_match; try (apply wp_ret; split; [done|reflexivity]). by apply VOP_TRUNCATE_spec. }
  eapply wp_mono; [exact Q|]. intros r s3 [W3 K3]. destruct (Z.eqb_spec r 0) as [->|Hr]; cbn [negb].
  - apply wp_ret. split; [by rewrite decide_True|]. etrans; [done|by apply vkeep_frame].
  - eapply wp_mono; [by apply (drop_ret ext)|]. intros y s4 (-> & W4 & K4). split; [by rewrite decide_False|].
    etrans; [done|]. etrans; [by apply vkeep_frame|done].
Qed.

Lemma release_frame {A} ext (s s2 : vst) (a : A) : lock_ok s -> vwf ext s2 -> vframe (locked s) s2 ->
  wp (_ ← vfs_biglock_release; mret a) s2 (fun _ s' => vwf ext s' /\ vframe s s').
Proof using All.
  intros L W [K (K1 & K2 & K3) K6]. simpl in *. apply wp_bind. eapply wp_mono; [by apply (release_spec ext s)|]. intros [] s' [W' ->].
  apply wp_ret. split; [done|]. by split.
Qed.

Lemma strchr_colon l x : strchr l COLON = Some x -> 0 < Z.of_nat (length x).
Proof using All. induction l as [|c l IH]; simpl; [done|]. case_match; [intros [= <-]; simpl; lia|done]. Qed.

Lemma setbootfs_spec ext (s : vst) name : vwf ext s -> Forall (fun c => c <> 0) name ->
  wp (vfs_setbootfs name) s (fun _ s' => vwf ext s' /\ vframe s s').
Proof using All.
  intros W Hn. pose proof (w_lock _ _ W) as L. assert (E0 : ext_ok ext (v_known s)) by apply W.
  unfold vfs_setbootfs. apply wp_bind. eapply wp_mono; [by apply (acquire_spec ext)|]. intros [] s1 (W1 & -> & Hh).
  set (tmp := take _ name). destruct (strchr tmp COLON) as [x|] eqn:E.
  { rewrite (proj2 (Z.ltb_lt _ _)) by (by eapply strchr_colon). by apply release_frame. }
  apply wp_bind. eapply wp_mono; [apply (chdir_spec ext); [done|]|].
  { exists (tmp ++ [COLON]), []. split; [done|]. apply Forall_app. split; [by apply Forall_take|by repeat constructor]. }
  intros r s2 [W2 F2]. destruct (Z.eqb_spec r 0) as [->|Hr]; cbn [negb]; [|by apply release_frame].
  apply wp_bind. eapply wp_mono; [by apply (getcurdir_spec ext)|]. intros [r v] s3 [[K3 B3] Hf]. simpl in *.
  destruct (Z.eqb_spec r 0) as [->|Hr]; cbn [negb].
  - rewrite decide_True in B3 by done. apply wp_bind. eapply wp_mono; [apply (change_bootfs_spec ext _ (Some v)); [done| |]|].
    + intros u [= <-]. by apply Hf.
    + rewrite (vk_known _ _ K3), (vf_known _ _ F2). done.
    + intros [] s4 [W4 F4]. apply release_frame; [done|done|]. etrans; [done|]. etrans; [by apply vkeep_frame|done].
  - rewrite decide_False in B3 by done. apply release_frame; [done|done|]. etrans; [done|by apply vkeep_frame].
Qed.

Lemma clearbootfs_spec ext (s : vst) : vwf ext s -> wp vfs_clearbootfs s (fun _ s' => vwf ext s' /\ vframe s s').
Proof using All.
  intros W. pose proof (w_lock _ _ W) as L. unfold vfs_clearbootfs. apply wp_bind. eapply wp_mono; [by apply (acquire_spec ext)|].
  intros [] s1 (W1 & -> & Hh). apply wp_bind. eapply wp_mono; [by apply (change_bootfs_spec ext _ None); [done|..|apply W]|]. intros [] s4 [W4 F4].
  pose proof (release_frame ext s s4 tt L W4 F4) as R. apply wp_bind_inv in R. eapply wp_mono; [exact R|]. by intros [] s5 H.
Qed.

(** The name of a mounted file system is found. *)
Lemma getdevname_run ext (s : vst) i : vwf ext s -> i_hold s = true -> fs_live i (n_fs (v_n s)) ->
  exists nm, vfs_getdevname i s = Ret (Some nm) s.
Proof using All.
  intros W Hh Hi. pose proof (law_fsid _ _ Hi) as [H0 _]. apply (w_live _ _ W), list_elem_of_omap in Hi as (k & Hk & Hm).
  assert (Hf : k ∈ filter (fun k => kd_fs k = FS i) (v_known s)).
  { apply list_elem_of_filter. split; [|done]. unfold mounted in Hm. destruct (kd_fs k); naive_solver. }
  destruct (filter _ (v_known s)) as [|j l] eqn:E; [by apply not_elem_of_nil in Hf|]. exists (kd_name j). unfold vfs_getdevname.
  rewrite (run_bind _ _ s tt s) by (unfold KASSERT; by rewrite (proj2 (Z.eqb_neq _ _)) by done).
  rewrite (run_bind _ _ s true s) by (unfold vfs_biglock_do_i_hold; msimpl; by rewrite Hh). msimpl. by rewrite E.
Qed.

Lemma getcwd_spec ext (s : vst) u : vwf ext s -> good_uio u -> wp (vfs_getcwd u) s (fun _ s' => vwf ext s' /\ vframe s s').
Proof using All.
  intros W Hu. pose proof (ext_pos _ _ W) as P. unfold vfs_getcwd. apply wp_bind, wp_KASSERT; [apply Hu|].
  apply wp_bind. eapply wp_mono; [by apply (getcurdir_spec ext)|]. intros [r v] s1 [[K1 B1] Hf]. simpl in *.
  case_decide as E; [subst r; cbn [Z.eqb negb]|rewrite (proj2 (Z.eqb_neq _ _)) by done; apply wp_ret; split; [done|by apply vkeep_frame]].
  specialize (Hf eq_refl). pose proof Hf as (x & k & Hx & Hk). destruct (is_fs_live _ _ _ _ B1 Hx Hf) as (i & Hi & Hlive).
  apply wp_bind. eapply wp_eq; [by apply zoom_pure, get_vn_run|]. apply wp_bind, wp_KASSERT; [by rewrite Hi|].
  apply wp_bind. eapply wp_deref; [done|]. apply wp_bind. eapply wp_eq; [eapply (getvolname_run _ _ i B1); by apply (w_live _ _ B1)|].
  apply wp_bind. assert (Q : wp (match fs_volname i (n_fs (v_n s1)) with
       | Some nm => mret (Some nm)
       | None => _ ← vfs_biglock_acquire; nm ← vfs_getdevname i; _ ← vfs_biglock_release; mret nm end) s1
     (fun o s2 => (exists nm, o = Some nm) /\ vwf (plus ext v) s2 /\ vframe s1 s2)).
  { case_match; [apply wp_ret; split_and!; [eauto|done|reflexivity]|]. pose proof (w_lock _ _ B1) as L.
    apply wp_bind. eapply wp_mono; [by apply (acquire_spec _ _ B1)|]. intros [] s2 (W2 & -> & Hh).
    destruct (getdevname_run _ _ i W2 Hh Hlive) as (nm & Hnm). apply wp_bind. eapply wp_eq; [exact Hnm|].
    pose proof (release_frame _ s1 (locked s1) (Some nm) L W2 ltac:(reflexivity)) as R. unfold wp in R |- *.
    destruct ((_ ← vfs_biglock_release; mret (Some nm)) (locked s1)) as [a s3| | | | |] eqn:E; [|done..]. split; [|done].
    exists nm. unfold mbind, M_bind in E. by destruct (vfs_biglock_release (locked s1)); [injection E|..]. }
  eapply wp_mono; [exact Q|]. intros o s2 ((nm & ->) & W2 & F2). apply wp_bind, wp_KASSERT; [done|]. apply wp_bind. eapply wp_deref; [done|].
  destruct (uiomove_good nm u (n_user (v_n s2)) Hu) as (b & u1 & Hrun & Hu1).
  assert (Hz : forall (m : M U (Z * list Z * uio)) a (t : vst), m (n_user (v_n t)) = Ret a (n_user (v_n t)) -> zoom (zoom m) t = Ret a t).
  { intros m a t Em. apply zoom_pure. unfold zoom. change (lens_get (v_n t)) with (n_user (v_n t)). rewrite Em. by destruct t as [? ? ? ? ? ? ? []]. }
  apply wp_bind. eapply wp_eq; [by apply Hz|]. cbn [Z.eqb negb].
  destruct (uiomove_good [COLON] u1 (n_user (v_n s2)) Hu1) as (b' & u2 & Hrun' & Hu2).
  eapply wp_mono; [apply (work_drop ext s2 v); [done|done|]|].
  - apply wp_bind. eapply wp_eq; [by apply Hz|]. cbn [Z.eqb negb]. by apply wp_frame, VOP_NAMEFILE_spec; [|apply plus_pos|].
  - intros a s3 [W3 F3]. split; [done|]. etrans; [by apply vkeep_frame|]. by etrans.
Qed.

(** ** All calls on path names *)

Inductive vcall :=
  | Open (path : list Z) (flags mode : Z) | Close (v : Z)
  | Lookup (path : list Z) | Lookparent (path : list Z) (len : Z)
  | Remove (path : list Z) | Mkdir (path : list Z) (mode : Z) | Rmdir (path : list Z)
  | Symlink (contents path : list Z) | Link (p q : list Z) | Rename (p q : list Z) | Readlink (path : list Z) (u : uio)
  | Chdir (path : list Z) | Setcurdir (v : Z) | Clearcurdir | Getcwd (u : uio) | Setbootfs (name : list Z) | Clearbootfs.

(** The error number and the vnode the caller got a reference to. *)
Definition run_vcall (c : vcall) : M vst (Z * option Z) :=
  let got (r : Z * Z) := (r.1, if r.1 =? 0 then Some r.2 else None) in
  let code (m : M vst Z) : M vst (Z * option Z) := r ← m; mret (r, None) in
  match c with
  | Open p f m => r ← vfs_open p f m; mret (got r)
  | Close v => _ ← vfs_close v; mret (0, None)
  | Lookup p => r ← vfs_lookup p; mret (got r)
  | Lookparent p len => r ← vfs_lookparent p len; mret (got (r.1, r.2.1))
  | Remove p => code (vfs_remove p)
  | Mkdir p m => code (vfs_mkdir p m)
  | Rmdir p => code (vfs_rmdir p)
  | Symlink x p => code (vfs_symlink x p)
  | Link p q => code (vfs_link p q)
  | Rename p q => code (vfs_rename p q)
  | Readlink p u => r ← vfs_readlink p u; mret (r.1, None)
  | Chdir p => code (vfs_chdir p)
  | Setcurdir v => code (vfs_setcurdir v)
  | Clearcurdir => code vfs_clearcurdir
  | Getcwd u => r ← vfs_getcwd u; mret (r.1, None)
  | Setbootfs n => code (vfs_setbootfs n)
  | Clearbootfs => _ ← vfs_clearbootfs; mret (0, None)
  end.

(** What the caller owes: paths are strings, vnodes it names are vnodes it holds. *)
Definition vcall_ok (ext : Z -> Z) (s : vst) (c : vcall) : Prop :=
  match c with
  | Open p f _ => path_ok p /\ (has f O_CREAT = true -> n_oom (v_n s) = [])
  | Close v | Setcurdir v => 0 < ext v
  | Lookup p | Lookparent p _ | Remove p | Mkdir p _ | Rmdir p | Symlink _ p | Chdir p => path_ok p
  | Link p q | Rename p q => path_ok p /\ path_ok q
  | Readlink p u => path_ok p /\ good_uio u
  | Getcwd u => good_uio u
  | Setbootfs n => Forall (fun c => c <> 0) n
  | Clearcurdir | Clearbootfs => True
  end.

(** The references of the caller afterwards. *)
Definition owed (c : vcall) (r : Z * option Z) (ext : Z -> Z) : Z -> Z :=
  match c with Close v => minus ext v | _ => plus_opt ext r.2 end.

Lemma wp_code {A} ext (s : vst) (m : M vst A) (f : A -> Z) : wp m s (fun _ s' => vwf ext s' /\ vframe s s') ->
  wp (r ← m; mret (f r, None)) s (fun r s' => vwf (plus_opt ext r.2) s' /\ vframe s s').
Proof using All. intros H. apply wp_bind. eapply wp_mono; [exact H|]. intros a s' Ha. by apply wp_ret. Qed.

Lemma wp_got {A} ext (s : vst) (m : M vst A) (f : A -> Z * Z) :
  wp m s (fun r s' => (if decide ((f r).1 = 0) then vwf (plus ext (f r).2) s' else vwf ext s') /\ vframe s s') ->
  wp (r ← m; mret ((f r).1, if (f r).1 =? 0 then Some (f r).2 else None)) s (fun r s' => vwf (plus_opt ext r.2) s' /\ vframe s s').
Proof using All.
  intros H. apply wp_bind. eapply wp_mono; [exact H|]. intros a s' [Ha Hf]. apply wp_ret. split; [|done].
  destruct (Z.eqb_spec (f a).1 0); simpl; case_decide; done.
Qed.

Lemma vcall_spec ext (s : vst) c : vwf ext s -> vcall_ok ext s c ->
  wp (run_vcall c) s (fun r s' => vwf (owed c r ext) s' /\ vframe s s').
Proof using All.
  intros W H. destruct c; simpl in H; cbn [run_vcall owed].
  - destruct H. by apply (wp_got ext s _ id), open_spec.
  - apply wp_bind. unfold vfs_close. eapply wp_mono; [by apply (decref_spec ext)|]. intros [] s' [W' K]. apply wp_ret. split; [done|by apply vkeep_frame].
  - apply (wp_got ext s _ id). eapply wp_mono; [by apply (lookup_spec ext)|]. intros r s' [K B]. split; [done|by apply vkeep_frame].
  - apply (wp_got ext s _ (fun r => (r.1, r.2.1))). eapply wp_mono; [by apply (lookparent_spec ext)|]. intros r s' [K B]. split; [done|by apply vkeep_frame].
  - by apply (wp_code ext s _ id), remove_spec.
  - by apply (wp_code ext s _ id), mkdir_spec.
  - by apply (wp_code ext s _ id), rmdir_spec.
  - by apply (wp_code ext s _ id), symlink_spec.
  - destruct H. by apply (wp_code ext s _ id), link_spec.
  - destruct H. by apply (wp_code ext s _ id), rename_spec.
  - destruct H. by apply (wp_code ext s _ fst), readlink_spec.
  - by apply (wp_code ext s _ id), chdir_spec.
  - by apply (wp_code ext s _ id), setcurdir_spec.
  - by apply (wp_code ext s _ id), clearcurdir_spec.
  - by apply (wp_code ext s _ fst), getcwd_spec.
  - by apply (wp_code ext s _ id), setbootfs_spec.
  - by apply (wp_code ext s _ (fun _ => 0)), clearbootfs_spec.
Qed.

End Safe.
End VfsSafe.
