(* ===== verification/VfsTable.v ===== *)
(** * Operations on the table of devices keep the invariant

    Attaching and detaching file systems and swap, the whole-system sync and unmount, and
    the addition of a device. *)

From S2P Require Import Prelude Uio Sfs Vnode Vfs VfsPath VfsLaws VfsTheory VfsCalls VfsSafe.

Module VfsTable.
Import Uio Vnode Vfs VfsPath VfsParse VfsLaws VfsTheory VfsCalls VfsSafe.
Import Sfs(EBUSY, EEXIST, ENXIO).

Section Table.
Context {U F : Type} `{FO : FsOpsLaws U F}.
Abbreviation nst := (nstate U F).
Abbreviation vst := (vfs U F).

(** ** One entry changes *)

Lemma alter_split (l : list knowndev) i k f : l !! i = Some k ->
  exists l1 l2, l = l1 ++ k :: l2 /\ alter f i l = l1 ++ f k :: l2.
Proof using All.
  revert i. induction l as [|a l IH]; intros [|i] H; simplify_eq/=; [by exists [], l|].
  destruct (IH i H) as (l1 & l2 & -> & E). exists (a :: l1), l2. split; [done|]. change (a :: alter f i (l1 ++ k :: l2) = a :: l1 ++ f k :: l2). by rewrite E.
Qed.

(** The state after entry [i] of the table got [f] and the part below [n']. *)
Definition with_fs (i : nat) (f : kdfs) (n' : nst) (s : vst) : vst :=
  set_known (alter (set_kdfs f) i (v_known s)) (v_kmax s) (set_n n' s).

Lemma vwf_with_fs ext (s : vst) i k f n' : vwf ext s -> v_known s !! i = Some k -> kd_rawname k <> None ->
  (forall j, f = FS j -> fs_detach j) -> keeps (v_n s) n' -> nwf (refs ext s) n' ->
  (forall j, fs_live j (n_fs n') <-> j ∈ omap mounted (alter (set_kdfs f) i (v_known s))) ->
  NoDup (omap mounted (alter (set_kdfs f) i (v_known s))) -> vwf ext (with_fs i f n' s).
Proof using All.
  intros W Hk Hr Hdet K N Hl Hd. pose proof W as [A [B1 B2] C D G [H1 H2] I J Q].
  destruct (alter_split _ _ _ (set_kdfs f) Hk) as (l1 & l2 & E & E').
  assert (Elist : forall v, listed (alter (set_kdfs f) i (v_known s)) v = listed (v_known s) v).
  { intros v. unfold listed. rewrite E', E, !filter_app, !filter_cons. simpl. case_decide; by rewrite !length_app. }
  assert (Ekd : kd_vnode <$> alter (set_kdfs f) i (v_known s) = kd_vnode <$> v_known s) by (by rewrite E', E, !fmap_app).
  assert (Hin : forall j, j ∈ alter (set_kdfs f) i (v_known s) ->
    exists j0, j0 ∈ v_known s /\ kd_device j = kd_device j0 /\ kd_vnode j = kd_vnode j0).
  { intros j. rewrite E', E, elem_of_app, elem_of_cons. intros [Hj|[->|Hj]]; [exists j|exists k|exists j]; set_solver. }
  assert (Pos : forall o v, o = Some v -> (o = v_cwd s \/ o = v_boot s) -> 0 < refs ext s v).
  { intros o v -> [E0|E0]; eapply dir_referenced; eauto. }
  split; unfold with_fs; cbn [v_known v_n set_known set_n v_boot v_cwd v_holder v_depth v_me]; try done.
  - split; [done|]. intros j Hj Hd0. destruct (Hin j Hj) as (j0 & Hj0 & Ed & Ev). rewrite Ev. apply B2; [done|by rewrite <- Ed].
  - eapply nwf_ext; [exact N|]. intros v. unfold refs. simpl. by rewrite Elist.
  - assert (D' : Forall (kd_ok n') (v_known s)) by (eapply Forall_impl; [exact D|]; intros j; by apply kd_ok_keep).
    rewrite E in D'. rewrite E'. apply Forall_app in D' as [D1 D2]. apply Forall_cons in D2 as [[a b c d] D2].
    apply Forall_app. split; [done|]. apply Forall_cons. split; [|done]. split; [done|done|done|]. simpl. destruct f; [by apply c|done|by intros _; apply Hdet].
  - intros v. rewrite (kp_view _ _ K), Elist. apply G.
  - split; [by rewrite Ekd|done].
  - eapply fs_opt_keep; [exact K|exact N| |exact J]. intros v Hv. by eapply Pos; [|left].
  - eapply fs_opt_keep; [exact K|exact N| |exact Q]. intros v Hv. by eapply Pos; [|right].
Qed.

(** Neither value is a file system: the set of mounted ones stays. *)
Lemma mounted_same (l : list knowndev) i k f : l !! i = Some k -> mounted k = None -> (forall j, f <> FS j) ->
  omap mounted (alter (set_kdfs f) i l) = omap mounted l.
Proof using All.
  intros Hk Hm Hf. destruct (alter_split _ _ _ (set_kdfs f) Hk) as (l1 & l2 & -> & ->). rewrite !omap_app. simpl. rewrite Hm.
  by destruct f; [done|done|destruct (Hf fs)].
Qed.

Lemma put_kdfs_run (s : vst) i f : put_kdfs i f s = Ret tt (with_fs (Z.to_nat i) f (v_n s) s).
Proof using All. unfold put_kdfs, with_fs. msimpl. unfold set_known, set_n. by destruct s. Qed.

Lemma keeps_refl (n : nst) : keeps n n.
Proof using All. split; [done|done|naive_solver|done]. Qed.

Lemma vwf_swapfs ext (s : vst) i k f : vwf ext s -> v_known s !! i = Some k -> kd_rawname k <> None -> mounted k = None ->
  (forall j, f <> FS j) -> vwf ext (with_fs i f (v_n s) s).
Proof using All.
  intros W Hk Hr Hm Hf. eapply vwf_with_fs; [done|done|done|intros j E; by destruct (Hf j)|apply keeps_refl|apply W| |]; rewrite (mounted_same _ _ k) by done; apply W.
Qed.

(** ** Finding the entry *)

(** The device is in the table, can be mounted on, and has that name. *)
Definition mountable (nm : list Z) (k : knowndev) : Prop := kd_rawname k <> None /\ kd_name k = nm.

Lemma findmount_loop_spec nm l i :
  match findmount_loop nm l i with
  | Some j => exists n k, j = i + Z.of_nat n /\ l !! n = Some k /\ mountable nm k
  | None => Forall (fun k => ~ mountable nm k) l
  end.
Proof using All.
  revert i. induction l as [|k l IH]; intros i; simpl; [done|]. destruct (kd_rawname k) as [r|] eqn:E.
  - unfold streq. case_bool_decide as En.
    + exists 0%nat, k. split_and!; [lia|done|split; [by rewrite E|done]].
    + specialize (IH (i + 1)). case_match; [destruct IH as (n & k' & ? & ? & ?); exists (S n), k'; split_and!; [lia|done|done]|].
      constructor; [|done]. intros [_ ?]. by subst.
  - specialize (IH (i + 1)). case_match; [destruct IH as (n & k' & ? & ? & ?); exists (S n), k'; split_and!; [lia|done|done]|].
    constructor; [|done]. intros [? _]. by rewrite E in *.
Qed.

Lemma findmount_run (s : vst) nm : i_hold s = true ->
  (exists i k, findmount nm s = Ret (0, i) s /\ 0 <= i /\ v_known s !! Z.to_nat i = Some k /\ mountable nm k) \/
  (findmount nm s = Ret (ENODEV, 0) s /\ Forall (fun k => ~ mountable nm k) (v_known s)).
Proof using All.
  intros Hh. pose proof (findmount_loop_spec nm (v_known s) 0) as H. unfold findmount.
  rewrite (run_bind _ _ s true s) by (unfold vfs_biglock_do_i_hold; msimpl; by rewrite Hh). msimpl.
  destruct (findmount_loop nm (v_known s) 0) as [j|].
  - left. destruct H as (n & k & -> & Hk & Hm). exists (0 + Z.of_nat n), k. split_and!; [done|lia| |done]. by rewrite Z.add_0_l, Nat2Z.id.
  - right. done.
Qed.

Lemma get_kd_run (s : vst) i k : v_known s !! Z.to_nat i = Some k -> get_kd i s = Ret k s.
Proof using All. intros H. unfold get_kd. msimpl. by rewrite H. Qed.

(** The lock and the rest of the name space. *)
Record tframe (s s' : vst) : Prop := mk_tframe {
  tf_lock : v_holder s' = v_holder s /\ v_depth s' = v_depth s /\ v_me s' = v_me s;
  tf_dirs : v_boot s' = v_boot s /\ v_cwd s' = v_cwd s
}.

#[export] Instance tframe_pre : PreOrder tframe.
Proof using All.
  split.
  - intros s. by split.
  - intros a b c [(A2 & A2' & A2'') [A3 A3']] [(B2 & B2' & B2'') [B3 B3']]. split; split_and!; congruence.
Qed.

Lemma vkeep_tframe (s s' : vst) : vkeep s s' -> tframe s s'.
Proof using All. intros [A B C D]. by split. Qed.

Lemma release_table {A} ext (s s2 : vst) (a : A) : lock_ok s -> vwf ext s2 -> tframe (locked s) s2 ->
  wp (_ ← vfs_biglock_release; mret a) s2 (fun r s' => r = a /\ vwf ext s' /\ tframe s s' /\ v_known s' = v_known s2 /\ v_n s' = v_n s2).
Proof using All.
  intros L W [(K1 & K2 & K3) [K4 K5]]. simpl in *. apply wp_bind. eapply wp_mono; [by apply (release_spec ext s)|]. intros [] s' [W' ->].
  apply wp_ret. by split_and!.
Qed.

(** ** Swap *)

(** What a call on the table did: the table as it was, or entry [i] changed to [f]. *)
Definition table_same (s s' : vst) : Prop := v_known s' = v_known s.
Definition table_set (nm : list Z) (old new : kdfs) (s s' : vst) : Prop :=
  exists i k, v_known s !! i = Some k /\ mountable nm k /\ kd_fs k = old /\ v_known s' = alter (set_kdfs new) i (v_known s).

Definition swapoff_post (ext : Z -> Z) (nm : list Z) (s : vst) (r : Z) (s' : vst) : Prop :=
  vwf ext s' /\ tframe s s' /\
  ((r = ENODEV /\ Forall (fun k => ~ mountable nm k) (v_known s) /\ table_same s s') \/
   (r = EINVAL /\ (exists k, k ∈ v_known s /\ mountable nm k /\ kd_fs k <> SWAP_FS) /\ table_same s s') \/
   (r = 0 /\ table_set nm SWAP_FS NO_FS s s')).

Lemma swapoff_spec ext (s : vst) nm : vwf ext s -> wp (vfs_swapoff nm) s (swapoff_post ext nm s).
Proof using All.
  intros W. pose proof (w_lock _ _ W) as L. unfold vfs_swapoff. apply wp_bind. eapply wp_mono; [by apply (acquire_spec ext)|].
  intros [] s1 (W1 & -> & Hh). apply wp_bind.
  destruct (findmount_run (locked s) nm Hh) as [(i & k & Hf & Hi & Hk & Hm)|[Hf Hno]]; (eapply wp_eq; [exact Hf|]); cbv iota beta.
  - apply wp_bind. cbn [Z.eqb negb]. apply wp_bind. eapply wp_eq; [by apply get_kd_run|]. case_bool_decide as Hsw.
    + apply wp_ret. eapply wp_mono; [by apply (release_table ext s)|]. intros r s' (-> & W' & T & Kn & _). split_and!; [done|done|]. right; left.
      split_and!; [done| |done]. exists k. split_and!; [by eapply list_elem_of_lookup_2|done|done].
    + assert (Hsw' : kd_fs k = SWAP_FS) by (by destruct (decide (kd_fs k = SWAP_FS))). apply wp_bind. eapply wp_eq; [apply put_kdfs_run|]. apply wp_ret.
      eapply wp_mono; [apply (release_table ext s); [done| |by split]|].
      * eapply vwf_swapfs; [done|done|apply Hm|unfold mounted; by rewrite Hsw'|done].
      * intros r s' (-> & W' & T & Kn & _). split_and!; [done|done|]. right; right. split; [done|]. by exists (Z.to_nat i), k.
  - apply wp_bind. cbn [Z.eqb negb]. apply wp_ret. eapply wp_mono; [by apply (release_table ext s)|].
    intros r s' (-> & W' & T & Kn & _). split_and!; [done|done|]. by left.
Qed.

Lemma alike_refs R (n n' : nst) : alike n n' -> refs_ok R n -> refs_ok R n'.
Proof using All.
  intros (A1 & A2 & A3 & A4 & A5 & A6) [B C D]. split; rewrite ?A1; [done| |lia]. intros v x Hx. specialize (C v x Hx). lia.
Qed.
Lemma alike_nwf R (n n' : nst) : alike n n' -> nwf R n -> nwf R n'.
Proof using All. intros A [B C]. split; [by eapply alike_refs|]. destruct A as (A1 & A2 & A3 & _). unfold fs_view. by rewrite A1, A3. Qed.
Lemma alike_keeps (n n' : nst) : alike n n' -> keeps n n'.
Proof using All.
  intros (A1 & A2 & A3 & A4 & A5 & A6). split; [done|unfold dev_view; by rewrite A1| |done]. rewrite A1. naive_solver.
Qed.
Lemma alike_nstep (n n' : nst) : alike n n' -> nstep n n'.
Proof using All. intros A. split; [by apply alike_keeps|..]; destruct A as (_ & _ & -> & _); done. Qed.

Lemma alike_vwf ext (s : vst) n' : vwf ext s -> alike (v_n s) n' -> vwf ext (set_n n' s).
Proof using All. intros W A. eapply vwf_step; [done|by apply alike_nstep|by eapply alike_nwf; [|apply W]|apply W]. Qed.

Lemma zoom_run {A} (m : M nst A) (s : vst) a n' : m (v_n s) = Ret a n' -> zoom m s = Ret a (set_n n' s).
Proof using All. intros E. unfold zoom. change (lens_get s) with (v_n s). by rewrite E. Qed.

Lemma vwf_next ext (s : vst) : vwf ext s -> 0 < n_next (v_n s).
Proof using All. intros W. apply (w_n _ _ W). Qed.

Definition strip_colon (nm : list Z) : list Z :=
  if (match last nm with Some c => c =? COLON | None => false end) then take (length nm - 1) nm else nm.

Definition swapon_post (ext : Z -> Z) (nm : list Z) (s : vst) (r : Z * Z) (s' : vst) : Prop :=
  tframe s s' /\
  ((r.1 = ENOMEM /\ n_oom (v_n s) <> [] /\ vwf ext s' /\ table_same s s') \/
   (r.1 = ENODEV /\ Forall (fun k => ~ mountable nm k) (v_known s) /\ vwf ext s' /\ table_same s s') \/
   (r.1 = EBUSY /\ (exists k, k ∈ v_known s /\ mountable nm k /\ kd_fs k <> NO_FS) /\ vwf ext s' /\ table_same s s') \/
   (r.1 = 0 /\ vwf (plus ext r.2) s' /\ (exists k, k ∈ v_known s /\ mountable nm k /\ r.2 = kd_vnode k) /\ table_set nm NO_FS SWAP_FS s s')).

(** The part of [vfs_swapon] under the lock. *)
Lemma swapon_body ext (s : vst) nm : vwf ext s -> i_hold s = true ->
  wp (r ← findmount nm;
      let '(result, i) := r in
      if negb (result =? 0) then mret (result, 0)
      else
        kd ← get_kd i;
        if bool_decide (kd_fs kd <> NO_FS) then mret (EBUSY, 0)
        else
          _ ← KASSERT (bool_decide (kd_rawname kd <> None));
          _ ← KASSERT (negb (kd_device kd =? 0));
          _ ← put_kdfs i SWAP_FS;
          _ ← zoom (VOP_INCREF (kd_vnode kd));
          mret (0, kd_vnode kd)) s (swapon_post ext nm s).
Proof using All.
  intros W Hh. apply wp_bind.
  destruct (findmount_run s nm Hh) as [(i & k & Hf & Hi & Hk & Hm)|[Hf Hno]]; (eapply wp_eq; [exact Hf|]); cbv iota beta; cbn [Z.eqb negb].
  2:{ apply wp_ret. split; [reflexivity|]. right; left. by split_and!. }
  assert (Hin : k ∈ v_known s) by (by eapply list_elem_of_lookup_2).
  apply wp_bind. eapply wp_eq; [by apply get_kd_run|]. case_bool_decide as Hsw.
  { apply wp_ret. split; [reflexivity|]. right; right; left. split_and!; [done|by exists k|done|done]. }
  assert (Hno : kd_fs k = NO_FS) by (by destruct (decide (kd_fs k = NO_FS))).
  assert (Hd : kd_device k <> 0). { pose proof (w_kd _ _ W) as D. rewrite Forall_forall in D. apply (D k Hin), Hm. }
  apply wp_bind, wp_KASSERT; [apply bool_decide_eq_true_2, Hm|]. apply wp_bind, wp_KASSERT; [by rewrite (proj2 (Z.eqb_neq _ _))|].
  apply wp_bind. eapply wp_eq; [apply put_kdfs_run|].
  assert (W2 : vwf ext (with_fs (Z.to_nat i) SWAP_FS (v_n s) s)) by (eapply vwf_swapfs; [done|done|apply Hm|unfold mounted; by rewrite Hno|done]).
  apply wp_bind. eapply wp_mono; [apply (incref_kd ext _ (set_kdfs SWAP_FS k)); [done| |done]|].
  - unfold with_fs. simpl. destruct (alter_split _ _ _ (set_kdfs SWAP_FS) Hk) as (l1 & l2 & _ & ->). set_solver.
  - intros [] s3 [K3 B3]. simpl in B3. apply wp_ret. split; [by destruct K3 as [? ? ? ?]|]. right; right; right. split_and!; [done|done|by exists k|].
    exists (Z.to_nat i), k. split_and!; [done|done|done|]. apply K3.
Qed.

Lemma wp_pair {S A B C D} (m : M S (A * B)) (f : A -> B -> M S C) (g : C -> M S D) s Q :
  wp (r ← m; let '(a, b) := r in f a b) s (fun c s' => wp (g c) s' Q) ->
  wp (r ← m; let '(a, b) := r in c ← f a b; g c) s Q.
Proof using All.
  intros H. apply wp_bind. apply wp_bind_inv in H. eapply wp_mono; [exact H|]. intros [a b] s' H'. by apply wp_bind.
Qed.

(** The end of a call on the table: the lock goes back, and then perhaps some memory. *)
Lemma swapon_spec ext (s : vst) nm : vwf ext s -> wp (vfs_swapon nm) s (swapon_post ext (strip_colon nm) s).
Proof using All.
  intros W. unfold vfs_swapon, strip_colon. set (tr := match last nm with Some c => c =? COLON | None => false end).
  assert (H : exists o n1, (if tr then zoom (kstrdup nm) else mret (Some nm)) s = Ret o (set_n n1 s) /\ alike (v_n s) n1 /\
     (o = Some nm \/ (o = None /\ n_oom (v_n s) <> []))).
  { destruct tr.
    - destruct (kstrdup_run (v_n s) nm (vwf_next _ _ W)) as (o & n1 & E & A & H). exists o, n1. split; [by apply zoom_run|]. split; [done|].
      destruct H as [(? & ? & ?)|(? & ?)]; auto.
    - exists (Some nm), (v_n s). split_and!; [by destruct s|reflexivity|by left]. }
  destruct H as (o & n1 & E & A & H). apply wp_bind. eapply wp_eq; [exact E|]. pose proof (alike_vwf _ _ _ W A) as W1.
  destruct o as [nm'|]; [|apply wp_ret; split; [by split|]; left; destruct H as [|[_ ?]]; [done|]; by split_and!].
  assert (nm' = nm) as -> by (destruct H as [|[]]; naive_solver). set (nm2 := if tr then _ else _). set (s1 := set_n n1 s) in *.
  pose proof (w_lock _ _ W1) as L. apply wp_bind. eapply wp_mono; [by apply (acquire_spec ext)|]. intros [] s2 (W2 & -> & Hh).
  apply wp_pair. eapply wp_mono; [by apply (swapon_body ext)|]. intros r s3 [T3 P3].
  assert (Q : forall ext', vwf ext' s3 -> wp (_ ← vfs_biglock_release; _ ← when tr (zoom kfree); mret r) s3
     (fun r' s' => r' = r /\ vwf ext' s' /\ tframe s s' /\ v_known s' = v_known s3)).
  { intros ext' W3. apply wp_bind. destruct T3 as [(T1 & T2 & T4) [T5 T6]]. eapply wp_mono; [by apply (release_spec ext' s1)|]. intros [] s4 [W4 ->].
    apply wp_bind. destruct tr; cbn [when].
    - destruct (kfree_run (v_n s3)) as (n5 & E5 & A5 & _). eapply wp_eq; [by apply zoom_run|]. apply wp_ret. split_and!; [done|by apply alike_vwf|by split|done].
    - apply wp_ret. by split_and!. }
  unfold swapon_post, table_same, table_set in *.
  destruct P3 as [(R & O & W3 & S3)|[(R & N & W3 & S3)|[(R & X & W3 & S3)|(R & W3 & X & S3)]]];
    (eapply wp_mono; [apply (Q _ W3)|]; intros r' s' (-> & W' & T' & Kn); split; [done|]; rewrite Kn).
  - left. split_and!; try done. intros E'. apply O. by apply A.
  - right; left. by split_and!.
  - right; right; left. by split_and!.
  - right; right; right. by split_and!.
Qed.

(** ** Mounting *)

(** A function that makes a file system on a device: on failure it leaves everything, on
    success there is one more live file system. *)
Definition mount_ok (mountfunc : Z -> M nst (Z * Z)) : Prop :=
  forall R n d, nwf R n -> is_Some (n_dev n !! d) -> wp (mountfunc d) n (fun r n' =>
    nwf R n' /\ keeps n n' /\
    if decide (r.1 = 0) then fs_detach r.2 /\ ~ fs_live r.2 (n_fs n) /\ forall j, fs_live j (n_fs n') <-> fs_live j (n_fs n) \/ j = r.2
    else forall j, fs_live j (n_fs n') <-> fs_live j (n_fs n)).

(** The result is ENODEV or EBUSY, or that of the mount function on the device; the file
    system it gave is attached when it succeeded. *)
Definition mount_post (ext : Z -> Z) (nm : list Z) (mf : Z -> M nst (Z * Z)) (s : vst) (r : Z) (s' : vst) : Prop :=
  vwf ext s' /\ tframe s s' /\
  ((r = ENODEV /\ Forall (fun k => ~ mountable nm k) (v_known s) /\ table_same s s') \/
   (r = EBUSY /\ (exists k, k ∈ v_known s /\ mountable nm k /\ kd_fs k <> NO_FS) /\ table_same s s') \/
   (exists k f, k ∈ v_known s /\ mountable nm k /\ kd_fs k = NO_FS /\ mf (kd_device k) (v_n s) = Ret (r, f) (v_n s') /\
      if decide (r = 0) then table_set nm NO_FS (FS f) s s' else table_same s s')).

Lemma vwf_live_step ext (s : vst) n' : vwf ext s -> keeps (v_n s) n' -> nwf (refs ext s) n' ->
  (forall j, fs_live j (n_fs n') <-> fs_live j (n_fs (v_n s))) -> vwf ext (set_n n' s).
Proof using All.
  intros W K N Hl. pose proof W as [A B C D G [H1 H2] I J Q].
  split; cbn [v_known v_n set_n v_boot v_cwd v_holder v_depth v_me]; try done.
  - eapply Forall_impl; [exact D|]. intros k. by apply kd_ok_keep.
  - intros v. rewrite (kp_view _ _ K). apply G.
  - intros i. rewrite Hl. apply I.
  - eapply fs_opt_keep; [exact K|exact N| |exact J]. intros v Hv. by eapply dir_referenced; [|left].
  - eapply fs_opt_keep; [exact K|exact N| |exact Q]. intros v Hv. by eapply dir_referenced; [|right].
Qed.

Lemma mounted_added (l : list knowndev) i k f : l !! i = Some k -> mounted k = None ->
  omap mounted (alter (set_kdfs (FS f)) i l) ≡ₚ f :: omap mounted l.
Proof using All.
  intros Hk Hm. destruct (alter_split _ _ _ (set_kdfs (FS f)) Hk) as (l1 & l2 & -> & ->). rewrite !omap_app. simpl. rewrite Hm.
  by rewrite <- Permutation_middle.
Qed.

Lemma mounted_removed (l : list knowndev) i k f : l !! i = Some k -> mounted k = Some f ->
  omap mounted l ≡ₚ f :: omap mounted (alter (set_kdfs NO_FS) i l).
Proof using All.
  intros Hk Hm. destruct (alter_split _ _ _ (set_kdfs NO_FS) Hk) as (l1 & l2 & -> & ->). rewrite !omap_app. simpl. rewrite Hm.
  by rewrite <- Permutation_middle.
Qed.

Lemma mount_spec ext (s : vst) nm mf : vwf ext s -> mount_ok mf -> wp (vfs_mount nm mf) s (mount_post ext nm mf s).
Proof using All.
  intros W MO. pose proof (w_lock _ _ W) as L. unfold vfs_mount. apply wp_bind. eapply wp_mono; [by apply (acquire_spec ext)|].
  intros [] s1 (W1 & -> & Hh). set (s1 := locked s) in *. apply wp_bind.
  destruct (findmount_run s1 nm Hh) as [(i & k & Hf & Hi & Hk & Hm)|[Hf Hno]]; (eapply wp_eq; [exact Hf|]); cbv iota beta; cbn [Z.eqb negb].
  2:{ eapply wp_mono; [by apply (release_table ext s)|]. intros r s' (-> & W' & T & Kn & _). split_and!; [done|done|]. by left. }
  assert (Hin : k ∈ v_known s) by (by eapply list_elem_of_lookup_2).
  apply wp_bind. eapply wp_eq; [by apply get_kd_run|]. case_bool_decide as Hsw.
  { eapply wp_mono; [by apply (release_table ext s)|]. intros r s' (-> & W' & T & Kn & _). split_and!; [done|done|]. right; left.
    split_and!; [done|by exists k|done]. }
  assert (Hno : kd_fs k = NO_FS) by (by destruct (decide (kd_fs k = NO_FS))).
  assert (Hd : kd_device k <> 0 /\ is_Some (n_dev (v_n s) !! kd_device k)).
  { pose proof (w_kd _ _ W) as D. rewrite Forall_forall in D. destruct (D k Hin) as [_ b c _]. split; [apply c, Hm|apply b, c, Hm]. }
  apply wp_bind, wp_KASSERT; [apply bool_decide_eq_true_2, Hm|]. apply wp_bind, wp_KASSERT; [by rewrite (proj2 (Z.eqb_neq _ _)) by apply Hd|].
  destruct (proj1 (wp_run _ _ _) (MO (refs ext s1) (v_n s1) (kd_device k) (w_n _ _ W1) (proj2 Hd))) as ([r f] & n' & Em & N & K & X). simpl in X.
  apply wp_bind. eapply wp_eq; [by apply zoom_run|]. cbv iota beta. case_decide as E.
  - subst r. cbn [Z.eqb negb]. destruct X as (Hdet & Hnew & Hlive). assert (Hf' : fs_live f (n_fs n')) by (apply Hlive; by right).
    destruct (law_fsid _ _ Hf') as [H0 H1]. apply wp_bind, wp_KASSERT; [by rewrite (proj2 (Z.eqb_neq _ _))|].
    apply wp_bind, wp_KASSERT; [by rewrite (proj2 (Z.eqb_neq _ _))|]. apply wp_bind. eapply wp_eq; [apply put_kdfs_run|].
    assert (Hp : omap mounted (alter (set_kdfs (FS f)) (Z.to_nat i) (v_known s)) ≡ₚ f :: omap mounted (v_known s))
      by (eapply mounted_added; [exact Hk|unfold mounted; by rewrite Hno]).
    assert (W2 : vwf ext (with_fs (Z.to_nat i) (FS f) n' s1)).
    { eapply vwf_with_fs; [exact W1|exact Hk|apply Hm|by intros j [= <-]|done|done| |].
      - intros j. cbn [v_known]. rewrite Hlive. change (v_n s1) with (v_n s). change (v_known s1) with (v_known s). rewrite Hp, elem_of_cons, (w_live _ _ W). tauto.
      - change (v_known s1) with (v_known s). rewrite Hp. constructor; [|apply W]. by rewrite <- (w_live _ _ W). }
    apply wp_bind. eapply wp_eq; [apply zoom_pure; apply law_fs; exact Hf'|].
    eapply wp_mono; [by apply (release_table ext s _ 0 L W2)|]. intros r s' (-> & W' & T & Kn & Kv). split_and!; [done|done|]. right; right.
    exists k, f. split_and!; [done|done|done|by rewrite Kv|]. rewrite decide_True by done. exists (Z.to_nat i), k. by split_and!.
  - rewrite (proj2 (Z.eqb_neq _ _)) by done. cbn [negb]. eapply wp_mono; [apply (release_table ext s); [done| |by split]|].
    + by apply vwf_live_step.
    + intros r' s' (-> & W' & T & Kn & Kv). split_and!; [done|done|]. right; right. exists k, f. split_and!; [done|done|done|by rewrite Kv|]. by rewrite decide_False.
Qed.

End Table.
End VfsTable.
