(* ===== verification/VfsAdd.v ===== *)
(** * Unmounting, sync, and the addition of devices *)

From S2P Require Import Prelude Uio Sfs Vnode Vfs VfsPath VfsLaws VfsTheory VfsCalls VfsSafe VfsTable.

Module VfsAdd.
Import Uio Vnode Vfs VfsPath VfsParse VfsLaws VfsTheory VfsCalls VfsSafe VfsTable.
Import Sfs(EBUSY, EEXIST, ENXIO).

Section Add.
Context {U F : Type} `{FO : FsOpsLaws U F}.
Abbreviation nst := (nstate U F).
Abbreviation vst := (vfs U F).

(** ** Unmounting *)

Lemma sync_fs_run ext (s : vst) f : vwf ext s -> fs_live f (n_fs (v_n s)) ->
  exists r n', FSOP_SYNC f (v_n s) = Ret r n' /\ vwf ext (set_n n' s) /\ vkeep s (set_n n' s).
Proof using All.
  intros W Hf. assert (H : wp (zoom (FSOP_SYNC f)) s (fun _ s' => vwf ext s' /\ vkeep s s')) by (apply quiet_step; [done|]; by apply law_fs).
  unfold wp, zoom in H. change (lens_get s) with (v_n s) in H. destruct (FSOP_SYNC f (v_n s)) as [r n'| | | | |]; try done. by exists r, n'.
Qed.

(** [FSOP_UNMOUNT] and, when it succeeds, the reset of the entry. *)
Lemma unmount_fs_run ext (s : vst) i k f : vwf ext s -> v_known s !! i = Some k -> mounted k = Some f -> kd_rawname k <> None ->
  exists r n', FSOP_UNMOUNT f (v_n s) = Ret r n' /\ if decide (r = 0) then vwf ext (with_fs i NO_FS n' s) else vwf ext (set_n n' s).
Proof using All.
  intros W Hk Hm Hr. assert (Hf : fs_live f (n_fs (v_n s))). { apply (w_live _ _ W). eapply mounted_elem; [by eapply list_elem_of_lookup_2|done]. }
  assert (Hdet : fs_detach f).
  { pose proof (w_kd _ _ W) as D. rewrite Forall_forall in D. pose proof (ko_fs _ _ (D k ltac:(by eapply list_elem_of_lookup_2))) as Kf.
    unfold mounted in Hm. destruct (kd_fs k); simplify_eq. by apply Kf. }
  destruct (proj1 (wp_run _ _ _) (law_unmount (v_n s) f (refs ext s) Hf Hdet (w_n _ _ W))) as (r & n' & Er & N & K & Hl & _).
  exists r, n'. split; [done|]. case_decide as E.
  - assert (Hp := mounted_removed _ _ _ _ Hk Hm). pose proof (proj2 (w_once _ _ W)) as Hd. rewrite Hp in Hd. apply NoDup_cons in Hd as [Hd1 Hd2].
    eapply vwf_with_fs; [done|done|done|done|done|done| |done]. intros j. rewrite Hl, (w_live _ _ W), Hp, elem_of_cons.
    split; [intros [[->|Hj] Hne]; [by destruct (Hne E)|done]|]. intros Hj. split; [by right|]. intros _ ->. done.
  - eapply vwf_live_step; [done|done|done|]. intros j. rewrite Hl. naive_solver.
Qed.

(** The result is ENODEV or EINVAL, or that of the file system: of its sync when that fails,
    and else of its unmount, and the entry is reset exactly when both succeed. *)
Definition unmount_post (ext : Z -> Z) (nm : list Z) (s : vst) (r : Z) (s' : vst) : Prop :=
  vwf ext s' /\ tframe s s' /\
  ((r = ENODEV /\ Forall (fun k => ~ mountable nm k) (v_known s) /\ table_same s s') \/
   (r = EINVAL /\ (exists k, k ∈ v_known s /\ mountable nm k /\ mounted k = None) /\ table_same s s') \/
   (exists k f rs n1, k ∈ v_known s /\ mountable nm k /\ kd_fs k = FS f /\ FSOP_SYNC f (v_n s) = Ret rs n1 /\
      if decide (rs = 0) then
        FSOP_UNMOUNT f n1 = Ret r (v_n s') /\ if decide (r = 0) then table_set nm (FS f) NO_FS s s' else table_same s s'
      else r = rs /\ v_n s' = n1 /\ table_same s s')).

Lemma mounted_fs k f : mounted k = Some f -> kd_fs k = FS f.
Proof using Type. unfold mounted. destruct (kd_fs k); by intros [= ->]. Qed.

Lemma unmount_spec ext (s : vst) nm : vwf ext s -> wp (vfs_unmount nm) s (unmount_post ext nm s).
Proof using All.
  intros W. pose proof (w_lock _ _ W) as L. unfold vfs_unmount. apply wp_bind. eapply wp_mono; [by apply (acquire_spec ext)|].
  intros [] s1 (W1 & -> & Hh). set (s1 := locked s) in *. apply wp_bind.
  destruct (findmount_run s1 nm Hh) as [(i & k & Hf & Hi & Hk & Hm)|[Hf Hno]]; (eapply wp_eq; [exact Hf|]); cbv iota beta; cbn [Z.eqb negb].
  2:{ apply wp_bind, wp_ret. eapply wp_mono; [by apply (release_table ext s)|]. intros r s' (-> & W' & T & Kn & _). split_and!; [done|done|]. by left. }
  assert (Hin : k ∈ v_known s) by (by eapply list_elem_of_lookup_2). apply wp_bind, wp_bind. eapply wp_eq; [by apply get_kd_run|].
  destruct (mounted k) as [f|] eqn:Hmo.
  2:{ apply wp_ret. eapply wp_mono; [by apply (release_table ext s)|]. intros r s' (-> & W' & T & Kn & _). split_and!; [done|done|]. right; left.
      split_and!; [done|by exists k|done]. }
  assert (Hd : kd_device k <> 0). { pose proof (w_kd _ _ W) as D. rewrite Forall_forall in D. apply (D k Hin), Hm. }
  apply wp_bind, wp_KASSERT; [apply bool_decide_eq_true_2, Hm|]. apply wp_bind, wp_KASSERT; [by rewrite (proj2 (Z.eqb_neq _ _))|].
  destruct (sync_fs_run ext s1 f W1) as (rs & n1 & Es & W2 & K2). { apply (w_live _ _ W1). by eapply mounted_elem. }
  apply wp_bind. eapply wp_eq; [by apply zoom_run|]. destruct (Z.eqb_spec rs 0) as [->|Hr]; cbn [negb].
  2:{ apply wp_ret. eapply wp_mono; [apply (release_table ext s _ rs L W2); by apply vkeep_tframe|]. intros r' s' (-> & W' & T & Kn & Kv). split_and!; [done|done|]. right; right.
      exists k, f, rs, n1. split_and!; [done|done|by apply mounted_fs|done|]. by rewrite decide_False. }
  destruct (unmount_fs_run ext (set_n n1 s1) (Z.to_nat i) k f W2 Hk Hmo) as (r & n2 & Eu & B); [apply Hm|].
  apply wp_bind. eapply wp_eq; [by apply zoom_run|]. destruct (Z.eqb_spec r 0) as [->|Hr]; cbn [negb].
  - rewrite decide_True in B by done. apply wp_bind. eapply wp_eq; [apply put_kdfs_run|]. apply wp_ret.
    eapply wp_mono; [apply (release_table ext s _ 0 L B); by split|].
    intros r' s' (-> & W' & T & Kn & Kv). split_and!; [done|done|]. right; right. exists k, f, 0, n1. split_and!; [done|done|by apply mounted_fs|done|].
    rewrite decide_True by done. split; [by rewrite Kv|]. rewrite decide_True by done. exists (Z.to_nat i), k. split_and!; [done|done|by apply mounted_fs|done].
  - rewrite decide_False in B by done. apply wp_ret.
    eapply wp_mono; [apply (release_table ext s _ r L B); by split|].
    intros r' s' (-> & W' & T & Kn & Kv). split_and!; [done|done|]. right; right. exists k, f, 0, n1. split_and!; [done|done|by apply mounted_fs|done|].
    rewrite decide_True by done. split; [by rewrite Kv|]. by rewrite decide_False.
Qed.

(** The table keeps its devices: only file systems change. *)
Definition same_devices (s s' : vst) : Prop := (set_kdfs NO_FS <$> v_known s') = (set_kdfs NO_FS <$> v_known s).

Lemma same_devices_set (s : vst) i f n' : same_devices s (with_fs i f n' s).
Proof using All.
  unfold same_devices, with_fs. simpl. generalize (v_known s). intros l. revert i. induction l as [|k l IH]; intros [|i]; simpl; [done..|].
  change (set_kdfs NO_FS k :: (set_kdfs NO_FS <$> alter (set_kdfs f) i l) = set_kdfs NO_FS k :: (set_kdfs NO_FS <$> l)). by rewrite IH.
Qed.

(** ** The whole system *)

(** The sync of [f], which is tried a second time when it fails, succeeded. *)
Definition flushed (f : Z) (n n' : nst) : Prop :=
  FSOP_SYNC f n = Ret 0 n' \/ exists r n1, r <> 0 /\ FSOP_SYNC f n = Ret r n1 /\ FSOP_SYNC f n1 = Ret 0 n'.

(** What becomes of one entry: a device without a file system stays, swap is detached, and a
    file system is detached when it could be flushed and agreed to be unmounted. *)
Inductive detaches (k : knowndev) (n : nst) : knowndev -> nst -> Prop :=
  | dt_plain : kd_rawname k = None \/ kd_fs k = NO_FS -> detaches k n k n
  | dt_swap : kd_rawname k <> None -> kd_fs k = SWAP_FS -> detaches k n (set_kdfs NO_FS k) n
  | dt_dirty f r1 n1 r2 n2 : kd_rawname k <> None -> kd_fs k = FS f -> FSOP_SYNC f n = Ret r1 n1 -> r1 <> 0 -> FSOP_SYNC f n1 = Ret r2 n2 -> r2 <> 0 ->
      detaches k n k n2
  | dt_asked f n1 r n2 : kd_rawname k <> None -> kd_fs k = FS f -> flushed f n n1 -> FSOP_UNMOUNT f n1 = Ret r n2 ->
      detaches k n (if decide (r = 0) then set_kdfs NO_FS k else k) n2.

(** All entries of a table in turn, each once. *)
Inductive detach_all : list knowndev -> nst -> list knowndev -> nst -> Prop :=
  | da_nil n : detach_all [] n [] n
  | da_snoc l k n l' n1 k' n2 : detach_all l n l' n1 -> detaches k n1 k' n2 -> detach_all (l ++ [k]) n (l' ++ [k']) n2.

(** All file systems of a table in turn, each once; what their sync returns is not looked
    at. *)
Inductive sync_all : list Z -> nst -> nst -> Prop :=
  | sy_nil n : sync_all [] n n
  | sy_snoc l f n n1 r n2 : sync_all l n n1 -> FSOP_SYNC f n1 = Ret r n2 -> sync_all (l ++ [f]) n n2.

Lemma detach_length l n l' n' : detach_all l n l' n' -> length l' = length l.
Proof using Type. induction 1; [done|]. rewrite !length_app. simpl. lia. Qed.

Lemma detach_devices l n l' n' : detach_all l n l' n' -> (set_kdfs NO_FS <$> l') = (set_kdfs NO_FS <$> l).
Proof using Type.
  induction 1 as [|l k n l' n1 k' n2 _ IH D]; [done|]. rewrite !fmap_app, IH. f_equal. destruct D; try done. simpl. by case_decide.
Qed.

Lemma alter_put (l : list knowndev) i k f : l !! i = Some k -> alter (set_kdfs f) i l = <[i := set_kdfs f k]> l.
Proof using Type.
  revert i. induction l as [|a l IH]; intros [|i] H; simplify_eq/=; [done|]. change (a :: alter (set_kdfs f) i l = a :: <[i := set_kdfs f k]> l). by rewrite (IH i H).
Qed.

Definition one_done (ext : Z -> Z) (i : nat) (k : knowndev) (s s' : vst) : Prop :=
  vwf ext s' /\ tframe s s' /\ exists k', v_known s' = <[i := k']> (v_known s) /\ detaches k (v_n s) k' (v_n s').

(** Two syncs at most. *)
Lemma flush_run ext (s : vst) f : vwf ext s -> f ∈ omap mounted (v_known s) ->
  exists r n', (result ← zoom (FSOP_SYNC f); if negb (result =? 0) then zoom (FSOP_SYNC f) else mret 0) s = Ret r (set_n n' s) /\ vwf ext (set_n n' s) /\
    if decide (r = 0) then flushed f (v_n s) n' else exists r1 n1, FSOP_SYNC f (v_n s) = Ret r1 n1 /\ r1 <> 0 /\ FSOP_SYNC f n1 = Ret r n'.
Proof using All.
  intros W Hf. destruct (sync_fs_run ext s f W) as (r1 & n1 & E1 & W1 & K1); [by apply (w_live _ _ W)|]. rewrite (run_bind _ _ s r1 (set_n n1 s)) by (by apply zoom_run).
  destruct (Z.eqb_spec r1 0) as [->|Hr]; cbn [negb].
  - exists 0, n1. split_and!; [done|done|]. rewrite decide_True by done. by left.
  - destruct (sync_fs_run ext (set_n n1 s) f W1) as (r2 & n2 & E2 & W2 & K2); [by apply (w_live _ _ W1)|]. exists r2, n2. rewrite (zoom_run _ _ r2 n2) by done.
    split_and!; [done|done|]. case_decide as E; [subst r2; right; by exists r1, n1|by exists r1, n1].
Qed.

Lemma unmount_one_spec ext (s : vst) i k : vwf ext s -> v_known s !! Z.to_nat i = Some k -> wp (unmount_one i) s (fun _ s' => one_done ext (Z.to_nat i) k s s').
Proof using All.
  intros W Hk. assert (Same : kd_rawname k = None \/ kd_fs k = NO_FS -> one_done ext (Z.to_nat i) k s s).
  { intros H. split_and!; [done|reflexivity|]. exists k. split; [by rewrite list_insert_id|by apply dt_plain]. }
  unfold unmount_one. apply wp_bind. eapply wp_eq; [by apply get_kd_run|]. destruct (kd_rawname k) as [raw|] eqn:Hr; [|apply wp_ret, Same; by left].
  assert (Hr' : kd_rawname k <> None) by (by rewrite Hr). destruct (kd_fs k) as [| |f] eqn:Hf; [apply wp_ret, Same; by right| |].
  { eapply wp_eq; [apply put_kdfs_run|]. split_and!; [|by split|].
    - eapply vwf_swapfs; [done|done|done|unfold mounted; by rewrite Hf|done].
    - exists (set_kdfs NO_FS k). split; [by apply alter_put|by apply dt_swap]. }
  assert (Hm : mounted k = Some f) by (unfold mounted; by rewrite Hf).
  destruct (flush_run ext s f W) as (r & n1 & E1 & W1 & P1). { eapply mounted_elem; [by eapply list_elem_of_lookup_2|done]. }
  unfold wp. rewrite <- bind_assoc. rewrite (run_bind _ _ _ _ _ E1). destruct (Z.eqb_spec r 0) as [->|Hne]; cbn [negb].
  2:{ rewrite decide_False in P1 by done. destruct P1 as (r1 & n0 & P1 & P2 & P3). cbn. split_and!; [done|by split|]. exists k. split; [by rewrite list_insert_id|by eapply dt_dirty]. }
  rewrite decide_True in P1 by done. destruct (unmount_fs_run ext (set_n n1 s) (Z.to_nat i) k f W1 Hk Hm Hr') as (r & n2 & Eu & B).
  rewrite (run_bind _ _ _ r (set_n n2 (set_n n1 s))) by (by apply zoom_run). pose proof (dt_asked k (v_n s) f n1 r n2 Hr' Hf P1 Eu) as D.
  destruct (Z.eqb_spec r EBUSY) as [->|]; [cbn; split_and!; [done|by split|]; exists k; split; [by rewrite list_insert_id|done]|].
  destruct (Z.eqb_spec r 0) as [->|]; cbn [negb].
  - rewrite put_kdfs_run. split_and!; [done|by split|]. exists (set_kdfs NO_FS k). split; [by apply alter_put|]. by rewrite decide_True in D.
  - rewrite decide_False in B by done. rewrite decide_False in D by done. cbn. split_and!; [done|by split|]. exists k. split; [by rewrite list_insert_id|done].
Qed.

Definition unmountall_post (ext : Z -> Z) (s : vst) (r : Z) (s' : vst) : Prop :=
  r = 0 /\ vwf ext s' /\ tframe s s' /\ detach_all (v_known s) (v_n s) (v_known s') (v_n s').

Lemma unmountall_spec ext (s : vst) : vwf ext s -> wp vfs_unmountall s (unmountall_post ext s).
Proof using All.
  intros W. pose proof (w_lock _ _ W) as L. unfold vfs_unmountall. apply wp_bind. eapply wp_mono; [by apply (acquire_spec ext)|].
  intros [] s1 (W1 & -> & Hh). apply wp_bind. apply (wp_gets (fun x => x)). apply wp_bind. change (v_known (locked s)) with (v_known s).
  eapply wp_mono; [apply (wp_for_loop (fun i t => vwf ext t /\ tframe (locked s) t /\ exists l, v_known t = l ++ drop (Z.to_nat i) (v_known s) /\
    detach_all (take (Z.to_nat i) (v_known s)) (v_n s) l (v_n t)))|].
  - split_and!; [done|reflexivity|]. exists []. split; [done|constructor].
  - intros i t Hi (Wt & Tt & l & El & D). pose proof (detach_length _ _ _ _ D) as Hl. rewrite length_take in Hl.
    destruct (lookup_lt_is_Some_2 (v_known s) (Z.to_nat i)) as [k Hk]; [lia|]. pose proof (drop_S _ _ _ Hk) as Ed.
    assert (Hkt : v_known t !! Z.to_nat i = Some k). { rewrite El, lookup_app_r by lia. rewrite Ed. by replace (Z.to_nat i - length l)%nat with 0%nat by lia. }
    eapply wp_mono; [by apply (unmount_one_spec ext t i k)|]. intros [] t' (W' & T' & k' & Ek & Dk). split_and!; [done|by etrans|]. exists (l ++ [k']).
    replace (Z.to_nat (i + 1)) with (S (Z.to_nat i)) by lia. rewrite (take_S_r _ _ _ Hk). split; [|by econstructor].
    rewrite Ek, El, Ed. rewrite insert_app_r_alt by lia. replace (Z.to_nat i - length l)%nat with 0%nat by lia. simpl. by rewrite <- app_assoc.
  - intros [] s2 (W2 & T2 & l & El & D). eapply wp_mono; [by apply (release_table ext s)|]. intros r s' (-> & W' & T & Kn & Kv). split_and!; [done|done|done|].
    replace (Z.to_nat (0 + Z.of_nat (length (v_known s)))) with (length (v_known s)) in * by lia. rewrite drop_all, app_nil_r in El. rewrite firstn_all in D. by rewrite Kn, Kv, El.
Qed.

Definition sync_post (ext : Z -> Z) (s : vst) (r : Z) (s' : vst) : Prop :=
  r = 0 /\ vwf ext s' /\ tframe s s' /\ table_same s s' /\ sync_all (omap mounted (v_known s)) (v_n s) (v_n s').

Lemma sync_spec ext (s : vst) : vwf ext s -> wp vfs_sync s (sync_post ext s).
Proof using All.
  intros W. pose proof (w_lock _ _ W) as L. unfold vfs_sync. apply wp_bind. eapply wp_mono; [by apply (acquire_spec ext)|].
  intros [] s1 (W1 & -> & Hh). apply wp_bind. apply (wp_gets (fun x => x)). apply wp_bind. change (v_known (locked s)) with (v_known s).
  eapply wp_mono; [apply (wp_for_loop (fun i t => vwf ext t /\ vkeep (locked s) t /\ sync_all (omap mounted (take (Z.to_nat i) (v_known s))) (v_n s) (v_n t)))|].
  - split_and!; [done|reflexivity|constructor].
  - intros i t Hi (Wt & Kt & Y). destruct (lookup_lt_is_Some_2 (v_known s) (Z.to_nat i)) as [k Hk]; [lia|]. replace (Z.to_nat (i + 1)) with (S (Z.to_nat i)) by lia. rewrite (take_S_r _ _ _ Hk), omap_app. simpl.
    assert (Hkt : v_known t !! Z.to_nat i = Some k) by (by rewrite (vk_known _ _ Kt)). apply wp_bind. eapply wp_eq; [by apply get_kd_run|].
    destruct (mounted k) as [f|] eqn:Hm; [|apply wp_ret; rewrite app_nil_r; by split_and!].
    destruct (sync_fs_run ext t f Wt) as (r & n' & E & W' & K'). { apply (w_live _ _ Wt). eapply mounted_elem; [by eapply list_elem_of_lookup_2|done]. }
    apply wp_bind. eapply wp_eq; [by apply zoom_run|]. apply wp_ret. split_and!; [done|by etrans|by econstructor].
  - intros [] s2 (W2 & K2 & Y). replace (Z.to_nat (0 + Z.of_nat (length (v_known s)))) with (length (v_known s)) in Y by lia. rewrite firstn_all in Y.
    eapply wp_mono; [apply (release_table ext s); [done|done|by apply vkeep_tframe]|]. intros r s' (-> & W' & T & Kn & Kv). split_and!; [done|done|done| |by rewrite Kv]. unfold table_same. by rewrite Kn, (vk_known _ _ K2).
Qed.

(** ** Adding a device *)

(** The names of an entry: its volume, its raw device, itself. *)
Definition kd_names (f : F) (k : knowndev) : list (list Z) :=
  option_list (mounted k ≫= fun i => fs_volname i f) ++ option_list (kd_rawname k) ++ [kd_name k].

Definition taken (s : vst) (nm : list Z) : Prop := exists k, k ∈ v_known s /\ nm ∈ kd_names (n_fs (v_n s)) k.

Lemma kd_names_elem f k x : x ∈ kd_names f k <->
  (mounted k ≫= fun i => fs_volname i f) = Some x \/ kd_rawname k = Some x \/ kd_name k = x.
Proof using All.
  unfold kd_names. rewrite !elem_of_app, list_elem_of_singleton.
  assert (H : forall o : option (list Z), x ∈ option_list o <-> o = Some x)
    by (intros [y|]; simpl; [rewrite list_elem_of_singleton; naive_solver|rewrite elem_of_nil; naive_solver]).
  rewrite !H. naive_solver.
Qed.

Lemma samestring3_spec a b c d :
  samestring3 a b c d = true <-> exists x, a = Some x /\ (b = Some x \/ c = Some x \/ d = Some x).
Proof using All.
  unfold samestring3, samestring, streq. destruct a as [x|]; [|naive_solver].
  destruct b, c, d; rewrite ?orb_true_iff, ?bool_decide_eq_true; naive_solver.
Qed.

Lemma badnames_loop_run (t : vst) n1 n2 n3 l : (forall k i, k ∈ l -> mounted k = Some i -> fs_live i (n_fs (v_n t))) ->
  exists b, badnames_loop n1 n2 n3 l t = Ret b t /\
    (b = true <-> exists k x, k ∈ l /\ x ∈ kd_names (n_fs (v_n t)) k /\ (n1 = Some x \/ n2 = Some x \/ n3 = Some x)).
Proof using All.
  induction l as [|k l IH]; intros Hl; cbn [badnames_loop].
  { exists false. split; [done|]. split; [done|]. by intros (k & x & Hk%not_elem_of_nil & _). }
  destruct IH as (b & Hb & Hspec); [intros; eapply Hl; [by right|done]|].
  set (vol := mounted k ≫= fun i => fs_volname i (n_fs (v_n t))).
  assert (Hhit : (match mounted k with Some fs => volname ← zoom (FSOP_GETVOLNAME fs); mret (samestring3 volname n1 n2 n3) | None => mret false end) t
      = Ret (samestring3 vol n1 n2 n3) t).
  { unfold vol. destruct (mounted k) as [i|] eqn:Hm; [|done]. rewrite (run_bind _ _ t (fs_volname i (n_fs (v_n t))) t); [done|].
    apply zoom_pure. apply law_fs. eapply Hl; [by left|done]. }
  rewrite (run_bind _ _ t _ t Hhit).
  assert (Hcons : forall P : Prop, (b = true <-> P) -> forall c : bool, (c = true <-> exists x, x ∈ kd_names (n_fs (v_n t)) k /\ (n1 = Some x \/ n2 = Some x \/ n3 = Some x)) ->
    exists b', (if c then mret true else badnames_loop n1 n2 n3 l) t = Ret b' t /\ (b' = true <-> (exists x, x ∈ kd_names (n_fs (v_n t)) k /\ (n1 = Some x \/ n2 = Some x \/ n3 = Some x)) \/ b = true)).
  { intros P HP c Hc. destruct c; [exists true|exists b]; (split; [done|]); rewrite <- Hc; tauto || (split; [by right|intros [?|?]; done]). }
  destruct (Hcons _ Hspec (samestring3 vol n1 n2 n3 || (samestring3 (kd_rawname k) n1 n2 n3 || samestring3 (Some (kd_name k)) n1 n2 n3))) as (b' & Hb' & Hs').
  { rewrite !orb_true_iff, !samestring3_spec. setoid_rewrite kd_names_elem. fold vol. split.
    - intros [(x & H1 & H2)|[(x & H1 & H2)|(x & H1 & H2)]]; exists x; (split; [|exact H2]); [by left|by right; left|right; right; congruence].
    - intros (x & [H1|[H1|H1]] & H2); [left|right; left|right; right]; exists x; (split; [congruence|exact H2]). }
  exists b'. split.
  - rewrite <- Hb'. by destruct (samestring3 vol n1 n2 n3).
  - rewrite Hs', Hspec. split.
    + intros [(x & Hx & Hn)|(j & x & Hj & Hx & Hn)]; [exists k, x|exists j, x]; (split_and!; [|exact Hx|exact Hn]); [by left|by right].
    + intros (j & x & [->|Hj]%elem_of_cons & Hx & Hn); [left; by exists x|right; by exists j, x].
Qed.

(** A vnode of the device made, but not in the table yet ([v] is 0: not made). *)
Definition pending_vn (v dev : Z) (n0 n2 : nst) : Prop :=
  alike n0 (set_vn (n_vn n0) n2) /\
  (if decide (v = 0) then n_vn n2 = n_vn n0
   else n_vn n2 = <[v := mk_vnode 1 DEV_OPS None dev]> (n_vn n0) /\ n_vn n0 !! v = None /\ 0 < v < n_next n2).

Lemma pending_alike v dev (n0 n2 n3 : nst) : pending_vn v dev n0 n2 -> alike n2 n3 -> pending_vn v dev n0 n3.
Proof using All.
  intros [(A1 & A2 & A3 & A4 & A5 & A6) B] (C1 & C2 & C3 & C4 & C5 & C6). simpl in *. unfold pending_vn. split.
  - unfold alike; simpl. split_and!; try congruence; [lia|auto].
  - case_decide; [congruence|]. destruct B as (B1 & B2 & B3). split_and!; [congruence|done|lia|lia].
Qed.

Lemma kfree_step (b : bool) (t : vst) : exists n', when b (zoom kfree) t = Ret tt (set_n n' t) /\ alike (v_n t) n' /\
  n_live n' = n_live (v_n t) - Z.b2z b.
Proof using All.
  destruct b; simpl.
  - destruct (kfree_run (v_n t)) as (n' & E & A & H & _). exists n'. split; [by apply zoom_run|]. split; [done|lia].
  - exists (v_n t). split_and!; [by destruct t|reflexivity|lia].
Qed.

Lemma uncreate_run (t : vst) v dev n0 : v <> 0 -> pending_vn v dev n0 (v_n t) ->
  exists n', zoom (dev_uncreate_vnode v) t = Ret tt (set_n n' t) /\ alike n0 n' /\ n_live n' = n_live (v_n t) - 1.
Proof using All.
  intros Hv [A B]. rewrite decide_False in B by done. destruct B as (B1 & B2 & B3).
  set (n1 := set_vn (n_vn n0) (v_n t)). destruct (kfree_run n1) as (n' & E & A' & H & _). exists n'. split; [|split; [by etrans|exact H]].
  apply zoom_run. unfold dev_uncreate_vnode. rewrite (run_bind _ _ (v_n t) (mk_vnode 1 DEV_OPS None dev) (v_n t)) by (apply get_vn_run; rewrite B1; by rewrite lookup_insert_eq).
  rewrite (run_bind _ _ (v_n t) tt (v_n t)) by done. rewrite (run_bind _ _ (v_n t) tt n1); [exact E|].
  unfold vnode_cleanup. rewrite (run_bind _ _ (v_n t) (mk_vnode 1 DEV_OPS None dev) (v_n t)) by (apply get_vn_run; rewrite B1; by rewrite lookup_insert_eq).
  rewrite (run_bind _ _ (v_n t) tt (v_n t)) by done. unfold modify, n1. do 2 f_equal. rewrite B1. by rewrite delete_insert_id.
Qed.

(** Every failure of [vfs_doadd] gives back what was allocated. *)
Lemma doadd_fail_spec ext (s : vst) n2 nm raw v kd dev r : vwf ext s -> pending_vn v dev (v_n s) n2 ->
  n_live n2 = n_live (v_n s) + 1 + Z.b2z (match raw with Some _ => true | None => false end) + Z.b2z (negb (v =? 0)) + Z.b2z (negb (kd =? 0)) ->
  wp (doadd_fail (Some nm) raw v kd r) (set_n n2 (locked s))
    (fun r' s' => r' = r /\ vwf ext s' /\ tframe s s' /\ table_same s s' /\ n_live (v_n s') = n_live (v_n s)).
Proof using All.
  intros W Hp Hl. pose proof (w_lock _ _ W) as L. unfold doadd_fail. set (t0 := set_n n2 (locked s)).
  destruct (kfree_step true t0) as (n3 & E3 & A3 & L3). apply wp_bind. eapply wp_eq; [exact E3|].
  destruct (kfree_step (match raw with Some _ => true | None => false end) (set_n n3 t0)) as (n4 & E4 & A4 & L4). apply wp_bind. eapply wp_eq; [exact E4|].
  assert (Hp4 : pending_vn v dev (v_n s) n4) by (eapply pending_alike; [exact Hp|by etrans]).
  assert (H5 : exists n5, when (negb (v =? 0)) (zoom (dev_uncreate_vnode v)) (set_n n4 (set_n n3 t0)) = Ret tt (set_n n5 (set_n n4 (set_n n3 t0))) /\
      alike (v_n s) n5 /\ n_live n5 = n_live n4 - Z.b2z (negb (v =? 0))).
  { destruct (Z.eqb_spec v 0) as [->|Hv]; simpl.
    - exists n4. split_and!; [done| |lia]. destruct Hp4 as [A B]. rewrite decide_True in B by done. destruct n4; simpl in *. subst. done.
    - destruct (uncreate_run (set_n n4 (set_n n3 t0)) v dev (v_n s) Hv Hp4) as (n5 & E5 & A5 & L5). exists n5. split_and!; [exact E5|done|exact L5]. }
  destruct H5 as (n5 & E5 & A5 & L5). apply wp_bind. eapply wp_eq; [exact E5|].
  destruct (kfree_step (negb (kd =? 0)) (set_n n5 (set_n n4 (set_n n3 t0)))) as (n6 & E6 & A6 & L6). apply wp_bind. eapply wp_eq; [exact E6|].
  eapply wp_mono; [apply (release_table ext s); [done| |by split]|].
  - change (vwf ext (set_n n6 (locked s))). apply alike_vwf; [|change (alike (v_n s) n6); by etrans].
    apply vwf_lock; [done|]. right. simpl. split; [done|]. destruct L; lia.
  - intros r' s' (-> & W' & T & Kn & En). split_and!; [done|done|done|done|]. rewrite En. simpl in *. rewrite L6, L5, L4, L3. simpl. lia.
Qed.

(** The entry added to the table, with the vnode made for it. *)
Lemma vwf_add ext (s : vst) n2 v dev d' nm raw m : vwf ext s -> v <> 0 -> pending_vn v dev (v_n s) n2 -> dev <> 0 -> is_Some (n_dev (v_n s) !! dev) ->
  vwf ext (set_known (v_known s ++ [mk_kd nm raw dev v NO_FS]) m (set_n (set_dev (<[dev := d']> (n_dev n2)) n2) s)).
Proof using All.
  intros W Hv [(A1 & A2 & A3 & A4 & A5 & A6) B] Hd Hdev. rewrite decide_False in B by done. destruct B as (B1 & B2 & B3). simpl in *.
  pose proof W as [LK [E1 E2] [[N1 N2 N3] NI] D G [O1 O2] I J Q].
  assert (Hnone : refs ext s v = 0). { specialize (N1 v). by rewrite B2 in N1. }
  assert (Parts : listed (v_known s) v = 0 /\ points (v_boot s) v = 0 /\ points (v_cwd s) v = 0 /\ ext v = 0).
  { unfold refs in Hnone. pose proof (listed_nonneg (v_known s) v). pose proof (points_nonneg (v_boot s) v). pose proof (points_nonneg (v_cwd s) v). specialize (E1 v). lia. }
  assert (Hfresh : v ∉ kd_vnode <$> v_known s) by (intros Hin%listed_pos; lia).
  assert (Hlist : forall w, listed (v_known s ++ [mk_kd nm raw dev v NO_FS]) w = listed (v_known s) w + (if decide (w = v) then 1 else 0)).
  { intros w. unfold listed. rewrite filter_app, length_app. rewrite filter_cons, filter_nil. simpl. repeat case_decide; simplify_eq; simpl; lia. }
  assert (Hview : fs_view (set_dev (<[dev:=d']> (n_dev n2)) n2) = fs_view (v_n s)).
  { apply map_eq. intros w. rewrite !fs_view_lookup. simpl. rewrite B1. destruct (decide (w = v)) as [->|].
    - rewrite lookup_insert_eq, B2. done.
    - by rewrite lookup_insert_ne. }
  assert (Hdv : forall w, dev_view (set_dev (<[dev:=d']> (n_dev n2)) n2) !! w = if decide (w = v) then Some (None, dev) else dev_view (v_n s) !! w).
  { intros w. rewrite !dev_view_lookup. simpl. rewrite B1. case_decide as E; [subst; by rewrite lookup_insert_eq|by rewrite lookup_insert_ne]. }
  assert (Hom : omap mounted (v_known s ++ [mk_kd nm raw dev v NO_FS]) = omap mounted (v_known s)) by (rewrite omap_app; simpl; by rewrite app_nil_r).
  assert (Hfsv : forall o, fs_opt o (v_n s) -> fs_opt o (set_dev (<[dev:=d']> (n_dev n2)) n2)).
  { intros o Ho w Hw. destruct (Ho w Hw) as (x & k & Hx & Hk). exists x, k. split; [|done]. simpl. rewrite B1, lookup_insert_ne; [done|]. intros <-. congruence. }
  split; cbn [v_known v_n set_known set_n v_boot v_cwd v_holder v_depth v_me]; try (by apply Hfsv); try done.
  - split; [done|]. intros k. rewrite elem_of_app, list_elem_of_singleton. intros [Hk| ->] Hz; [by apply E2|done].
  - split; [split|].
    + intros w. simpl. rewrite B1. unfold refs. simpl. rewrite Hlist. specialize (N1 w). unfold refs in N1. destruct (decide (w = v)) as [->|].
      * rewrite lookup_insert_eq. simpl. lia.
      * rewrite lookup_insert_ne by done. destruct (n_vn (v_n s) !! w); lia.
    + intros w x. simpl. rewrite B1. destruct (decide (w = v)) as [->|]; [intros _; lia|]. rewrite lookup_insert_ne by done. intros Hx. specialize (N2 _ _ Hx). lia.
    + simpl. lia.
    + rewrite Hview. simpl. by rewrite A3.
  - apply Forall_app. split.
    + eapply Forall_impl; [exact D|]. intros k [a b c d]. split; [|simpl|done|done].
      * rewrite Hdv. case_decide as E; [|done]. rewrite <- E in B2. exfalso. rewrite dev_view_lookup, B2 in a. done.
      * intros Hz. rewrite A2. destruct (decide (kd_device k = dev)) as [->|]; [by rewrite lookup_insert_eq|]. rewrite lookup_insert_ne by done. by apply b.
    + constructor; [|constructor]. split; simpl; [rewrite Hdv; by rewrite decide_True|intros _; by rewrite lookup_insert_eq|done|done].
  - intros w. rewrite Hdv, Hlist. pose proof (listed_nonneg (v_known s) w). case_decide; [lia|]. intros Hw. specialize (G w Hw). lia.
  - rewrite Hom. split; [|done]. rewrite fmap_app. apply NoDup_app. split_and!; [done| |apply NoDup_singleton]. intros x Hx Hx'%list_elem_of_singleton. by subst.
  - intros i. rewrite Hom. simpl. rewrite A3. apply I.
Qed.

Definition rawname_of (mnt : bool) (nm : list Z) : option (list Z) := if mnt then Some (nm ++ RAW) else None.

(** A new device: added when no name of it is taken; otherwise, or without memory, nothing
    changes and nothing stays allocated. *)
Definition adddev_post (ext : Z -> Z) (nm : list Z) (dev : Z) (mnt : bool) (s : vst) (r : Z) (s' : vst) : Prop :=
  let clash := taken s nm \/ (mnt = true /\ taken s (nm ++ RAW)) in
  tframe s s' /\ vwf ext s' /\
  ((r = 0 /\ ~ clash /\ (exists v, v_known s' = v_known s ++ [mk_kd nm (rawname_of mnt nm) dev v NO_FS]) /\
     exists d, n_dev (v_n s') !! dev = Some d /\ d_devnumber d = u32 (Z.of_nat (length (v_known s)) + 1)) \/
   (r = ENOMEM /\ n_oom (v_n s) <> [] /\ table_same s s' /\ n_live (v_n s') = n_live (v_n s)) \/
   (r = EEXIST /\ clash /\ table_same s s' /\ n_live (v_n s') = n_live (v_n s))).

Lemma alike_pending (n0 n1 : nst) dev : alike n0 n1 -> pending_vn 0 dev n0 n1.
Proof using All.
  intros A. split; [|rewrite decide_True by done; apply A]. pose proof A as (A1 & A2 & A3 & A4 & A5 & A6). unfold alike; simpl. by split_and!.
Qed.

Lemma create_vnode_run (n0 n1 : nst) dev : alike n0 n1 -> 0 < n_next n1 -> (forall v x, n_vn n0 !! v = Some x -> v < n_next n1) ->
  exists v n2, dev_create_vnode dev n1 = Ret v n2 /\ pending_vn v dev n0 n2 /\ (v = 0 -> n_oom n1 <> []) /\
    n_live n2 = n_live n1 + Z.b2z (negb (v =? 0)) /\ 0 < n_next n2 /\ (n_oom n0 = [] -> n_oom n2 = []).
Proof using All.
  intros A Hn Hlt. destruct (kmalloc_run n1 Hn) as (v & n2 & E & A2 & H). unfold dev_create_vnode. rewrite (run_bind _ _ n1 v n2 E).
  assert (A02 : alike n0 n2) by (by etrans). destruct H as [(-> & Ho & Hl)|(-> & Hx & Hl)].
  - exists 0, n2. split; [done|]. split_and!; [by apply alike_pending|done|simpl; lia| |apply A02]. destruct A2 as (_ & _ & _ & _ & ? & _). lia.
  - rewrite (proj2 (Z.eqb_neq _ _)) by lia. exists (n_next n1), (set_vn (<[n_next n1 := mk_vnode 1 DEV_OPS None dev]> (n_vn n2)) n2). split.
    { rewrite (run_bind _ _ n2 0 (set_vn (<[n_next n1 := mk_vnode 1 DEV_OPS None dev]> (n_vn n2)) n2)); [done|].
      unfold vnode_init. rewrite (run_bind _ _ n2 tt n2) by (unfold KASSERT; by rewrite (proj2 (Z.eqb_neq _ _)) by lia). done. }
    pose proof A02 as (A1' & A2' & A3' & A4' & A5' & A6'). split_and!; [|lia|simpl; rewrite (proj2 (Z.eqb_neq _ _)) by lia; simpl; lia|simpl; lia|done].
    split; [unfold alike; simpl; by split_and!|]. rewrite decide_False by lia. simpl. rewrite A1'. split_and!; [done| |lia|lia].
    destruct (n_vn n0 !! n_next n1) as [x|] eqn:Ex; [|done]. specialize (Hlt _ _ Ex). lia.
Qed.

Lemma badnames_run (t : vst) n1 n2 n3 : i_hold t = true -> (forall k i, k ∈ v_known t -> mounted k = Some i -> fs_live i (n_fs (v_n t))) ->
  exists b, badnames n1 n2 n3 t = Ret b t /\
    (b = true <-> exists k x, k ∈ v_known t /\ x ∈ kd_names (n_fs (v_n t)) k /\ (n1 = Some x \/ n2 = Some x \/ n3 = Some x)).
Proof using All.
  intros Hh Hl. destruct (badnames_loop_run t n1 n2 n3 (v_known t) Hl) as (b & E & H). exists b. split; [|done]. unfold badnames.
  rewrite (run_bind _ _ t true t) by (unfold vfs_biglock_do_i_hold; msimpl; by rewrite Hh). rewrite (run_bind _ _ t tt t) by done.
  by rewrite (run_bind _ _ t t t).
Qed.

Lemma adddev_spec ext (s : vst) nm dev mnt : vwf ext s -> dev <> 0 -> is_Some (n_dev (v_n s) !! dev) ->
  wp (vfs_adddev nm dev mnt) s (adddev_post ext nm dev mnt s).
Proof using All.
  intros W Hdev Hd. pose proof (w_lock _ _ W) as L. pose proof (vwf_next _ _ W) as Hn0. unfold vfs_adddev, vfs_doadd.
  apply wp_bind. eapply wp_mono; [by apply (acquire_spec ext)|]. intros [] s1 (W1 & -> & Hh).
  assert (Mem : forall n v kd raw r, pending_vn v dev (v_n s) n -> r = ENOMEM -> n_oom (v_n s) <> [] ->
    n_live n = n_live (v_n s) + 1 + Z.b2z (match raw with Some _ => true | None => false end) + Z.b2z (negb (v =? 0)) + Z.b2z (negb (kd =? 0)) ->
    wp (doadd_fail (Some nm) raw v kd r) (set_n n (locked s)) (adddev_post ext nm dev mnt s)).
  { intros n v kd raw r Hp -> Ho Hl. eapply wp_mono; [by eapply (doadd_fail_spec ext s)|]. intros r' s' (-> & W' & T & S & Hl').
    split_and!; [done|done|]. right; left. done. }
  destruct (kstrdup_run (v_n (locked s)) nm Hn0) as (o & n1 & E1 & A1 & H1). apply wp_bind. eapply wp_eq; [by apply zoom_run|].
  destruct H1 as [(-> & Ho & Hl1)|(-> & Hl1)].
  { cbn [doadd_fail]. unfold doadd_fail. simpl. apply wp_bind, wp_ret. apply wp_bind, wp_ret. apply wp_bind, wp_ret. apply wp_bind, wp_ret.
    eapply wp_mono; [apply (release_table ext s); [done|by apply alike_vwf|by split]|]. intros r s' (-> & W' & T & Kn & En).
    split_and!; [done|done|]. right; left. split_and!; [done|done|done|by rewrite En]. }
  assert (Hraw : exists raw n2, (if mnt then zoom (mkrawname nm) else mret None) (set_n n1 (locked s)) = Ret raw (set_n n2 (locked s)) /\
     alike (v_n s) n2 /\ n_live n2 = n_live (v_n s) + 1 + Z.b2z (match raw with Some _ => true | None => false end) /\
     (raw = rawname_of mnt nm \/ (mnt = true /\ raw = None /\ n_oom (v_n s) <> []))).
  { assert (Hn1 : 0 < n_next n1) by (destruct A1 as (_ & _ & _ & _ & A & _); simpl in A; lia). destruct mnt.
    - destruct (kmalloc_run n1 Hn1) as (p & n2 & E & A & H). exists (if p =? 0 then None else Some (nm ++ RAW)), n2. split.
      { change (set_n n2 (locked s)) with (set_n n2 (set_n n1 (locked s))). apply zoom_run. unfold mkrawname. by rewrite (run_bind _ _ n1 p n2 E). }
      split; [by etrans|]. simpl in Hl1. destruct H as [(-> & Ho & Hl)|(-> & Hx & Hl)].
      + simpl. split; [lia|]. right. split_and!; [done|done|]. intros Eo. apply Ho. by apply A1.
      + rewrite (proj2 (Z.eqb_neq _ _)) by lia. simpl. split; [lia|by left].
    - exists None, n1. split_and!; [done|done|simpl in *; lia|by left]. }
  destruct Hraw as (raw & n2 & E2 & A2 & Hl2 & Hr). apply wp_bind. eapply wp_eq; [exact E2|].
  destruct (mnt && bool_decide (raw = None)) eqn:Eb.
  { apply andb_true_iff in Eb as [-> Eb%bool_decide_eq_true]. subst raw. apply Mem; [by apply alike_pending|done| |simpl in *; lia].
    destruct Hr as [|(_ & _ & ?)]; [done|done]. }
  assert (raw = rawname_of mnt nm) as Eraw.
  { destruct Hr as [|(-> & -> & _)]; [done|]. by rewrite bool_decide_eq_true_2 in Eb. }
  clear Hr Eb. destruct (create_vnode_run (v_n s) n2 dev A2) as (v & n3 & E3 & P3 & O3 & Hl3 & Hn3 & Ho3).
  { destruct A2 as (_ & _ & _ & _ & A & _). lia. }
  { intros w x Hx. pose proof (rf_addr _ _ (proj1 (w_n _ _ W)) _ _ Hx). destruct A2 as (_ & _ & _ & _ & A & _). lia. }
  apply wp_bind. eapply wp_eq; [apply zoom_run; exact E3|]. change (set_n n3 (set_n n2 (locked s))) with (set_n n3 (locked s)).
  destruct (Z.eqb_spec v 0) as [->|Hv].
  { apply Mem; [done|done| |simpl in *; lia]. intros Eo. apply O3; [done|]. by apply A2. }
  destruct (kmalloc_run n3 Hn3) as (kd & n4 & E4 & A4 & H4). apply wp_bind. eapply wp_eq; [apply zoom_run; exact E4|].
  change (set_n n4 (set_n n3 (locked s))) with (set_n n4 (locked s)). assert (P4 : pending_vn v dev (v_n s) n4) by (by eapply pending_alike).
  assert (Hv' : negb (v =? 0) = true) by (by rewrite (proj2 (Z.eqb_neq _ _))). cbn [negb] in Hl3.
  destruct H4 as [(-> & Ho & Hl4)|(Ekd & Hx & Hl4)].
  { cbn [Z.eqb]. apply Mem; [done|done| |rewrite Hv'; simpl in *; lia]. intros Eo. apply Ho. by apply Ho3. }
  assert (Hkd : kd <> 0) by lia. rewrite (proj2 (Z.eqb_neq kd 0)) by done. cbn [Z.eqb negb]. apply wp_bind, wp_ret.
  set (t := set_n n4 (locked s)). assert (Hfs4 : n_fs n4 = n_fs (v_n s)) by (destruct P4 as [(_ & _ & ? & _) _]; done).
  destruct (badnames_run t (Some nm) raw None Hh) as (b & Eb & Hb).
  { intros k i Hk Hm. unfold t. simpl. rewrite Hfs4. apply (w_live _ _ W). by eapply mounted_elem. }
  assert (Hclash : b = true <-> taken s nm \/ (mnt = true /\ taken s (nm ++ RAW))).
  { rewrite Hb. unfold taken, t. simpl. rewrite Hfs4, Eraw. unfold rawname_of. split.
    - intros (k & x & Hk & Hx' & [H|[H|H]]); [left|right|done]; [simplify_eq; eauto|]. destruct mnt; [|done]. simplify_eq. eauto.
    - intros [(k & Hk & Hx')|(-> & k & Hk & Hx')]; exists k; eexists; split_and!; eauto. }
  clear Hb. apply wp_bind. eapply wp_eq; [exact Eb|]. assert (Hlt : n_live n4 = n_live (v_n s) + 1 + Z.b2z (match raw with Some _ => true | None => false end) + Z.b2z (negb (v =? 0)) + Z.b2z (negb (kd =? 0))).
  { rewrite Hv', (proj2 (Z.eqb_neq kd 0)) by done. simpl in *. lia. }
  destruct b.
  { eapply wp_mono; [by eapply (doadd_fail_spec ext s)|]. intros r' s' (-> & W' & T & S & Hl'). split_and!; [done|done|]. right; right.
    split_and!; [done|by apply Hclash|done|done]. }
  assert (Hn4 : 0 < n_next n4) by (destruct A4 as (_ & _ & _ & _ & ? & _); lia).
  destruct (array_room_run n4 (Z.of_nat (length (v_known s))) (v_kmax s) Hn4) as (o & n5 & E5 & A5 & O5).
  assert (P5 : pending_vn v dev (v_n s) n5) by (by eapply pending_alike).
  unfold knowndevarray_add. apply wp_bind, wp_bind. apply (wp_gets (fun x => x)). apply wp_bind. eapply wp_eq; [by apply zoom_run|].
  change (set_n n5 t) with (set_n n5 (locked s)). destruct o as [m|].
  2:{ destruct (O5 eq_refl) as [Ho Hl5]. apply wp_ret. cbn [Z.eqb negb]. apply Mem; [done|done| |lia]. intros Eo. apply Ho. destruct A4 as (_ & _ & _ & _ & _ & A). by apply A, Ho3. }
  apply wp_bind, wp_modify. apply wp_ret. cbn [Z.eqb negb]. rewrite (proj2 (Z.eqb_neq dev 0)) by done. cbn [negb when].
  set (kd' := mk_kd nm raw dev v NO_FS). set (t5 := set_known (v_known t ++ [kd']) m (set_n n5 (locked s))).
  destruct Hd as [d Hd]. assert (Hd5 : n_dev n5 !! dev = Some d) by (destruct P5 as [(_ & Hd5 & _) _]; simpl in Hd5; by rewrite Hd5).
  apply wp_bind, wp_bind. eapply wp_eq; [apply zoom_pure, get_device_run; exact Hd5|]. eapply wp_eq; [by apply zoom_run|].
  set (d' := mk_device _ _ _ _ _).
  assert (Wadd : vwf ext (set_known (v_known (locked s) ++ [kd']) m (set_n (set_dev (<[dev := d']> (n_dev n5)) n5) (locked s)))) by (apply vwf_add; [done|done|done|done|by exists d]).
  eapply wp_mono; [apply (release_table ext s _ 0 L Wadd); by split|]. intros r s' (-> & W' & T & Kn & En). split_and!; [done|done|]. left.
  split_and!; [done| | |].
  - intros Hc. apply Hclash in Hc. done.
  - exists v. rewrite Kn. unfold kd'. by rewrite <- Eraw.
  - exists d'. rewrite En. simpl. by rewrite lookup_insert_eq.
Qed.

End Add.
End VfsAdd.
