(* ===== verification/VfsNames.v ===== *)
(** * What the names of devices mean

    The device names stay distinct, and [vfs_getroot] resolves a name to the entry that has
    it.  The theorems of the VFS layer are stated here. *)

From S2P Require Import Prelude Uio Sfs Vnode Vfs VfsPath VfsLaws VfsTheory VfsCalls VfsSafe VfsTable VfsAdd.

Module VfsNames.
Import Uio Vnode Vfs VfsPath VfsParse VfsLaws VfsTheory VfsCalls VfsSafe VfsTable VfsAdd.
Import Sfs(EBUSY, EEXIST, ENXIO).

Section Names.
Context {U F : Type} `{FO : FsOpsLaws U F}.
Abbreviation nst := (nstate U F).
Abbreviation vst := (vfs U F).

(** The names of the devices, without the volumes. *)
Definition dev_names (k : knowndev) : list (list Z) := kd_name k :: option_list (kd_rawname k).
Definition names_ok (s : vst) : Prop := NoDup (mjoin (dev_names <$> v_known s)).

Lemma dev_names_kd (k : knowndev) f x : x ∈ dev_names k -> x ∈ kd_names f k.
Proof using All.
  unfold dev_names. rewrite elem_of_cons. intros [->|H]; apply kd_names_elem; [by right; right|].
  right; left. destruct (kd_rawname k); simpl in H; [apply list_elem_of_singleton in H; by subst|by apply not_elem_of_nil in H].
Qed.

Lemma names_taken (s : vst) x : x ∈ mjoin (dev_names <$> v_known s) -> taken s x.
Proof using All.
  rewrite list_elem_of_join. intros (l & Hx & Hl). apply list_elem_of_fmap in Hl as (k & -> & Hk). exists k. split; [done|by apply dev_names_kd].
Qed.

Lemma app_raw_neq (nm : list Z) : nm ++ RAW <> nm.
Proof using All. intros E. apply (f_equal length) in E. rewrite length_app in E. simpl in E. lia. Qed.

(** A device that [vfs_adddev] took keeps the names distinct. *)
Lemma names_ok_add ext nm dev mnt (s s' : vst) r : names_ok s -> adddev_post ext nm dev mnt s r s' -> names_ok s'.
Proof using All.
  intros N (_ & _ & [(_ & Hc & (v & Hk) & _)|[(_ & _ & T & _)|(_ & _ & T & _)]]); unfold names_ok; [rewrite Hk|by rewrite T|by rewrite T].
  rewrite fmap_app, join_app. apply NoDup_app. split_and!; [done| |].
  - intros x Hx Hn. simpl in Hn. rewrite app_nil_r in Hn. apply Hc. unfold dev_names, rawname_of in Hn. simpl in Hn. apply elem_of_cons in Hn as [->|Hn].
    + left. by apply names_taken.
    + right. destruct mnt; simpl in Hn; [|by apply not_elem_of_nil in Hn]. apply list_elem_of_singleton in Hn as ->. split; [done|by apply names_taken].
  - simpl. rewrite app_nil_r. unfold dev_names, rawname_of. simpl. destruct mnt; simpl; [|apply NoDup_singleton].
    apply NoDup_cons. split; [|apply NoDup_singleton]. rewrite list_elem_of_singleton. intros E. by apply (app_raw_neq nm).
Qed.

(** The other operations leave the names. *)
Lemma names_ok_same (s s' : vst) : names_ok s -> same_devices s s' -> names_ok s'.
Proof using All.
  intros N H. unfold names_ok in *. assert (E : forall l : list knowndev, dev_names <$> l = dev_names <$> (set_kdfs NO_FS <$> l)).
  { intros l. rewrite <- list_fmap_compose. by apply list_fmap_ext. }
  rewrite E, H, <- E. done.
Qed.

(** ** Resolution *)

Lemma body_skip ext (s : vst) nm k : vwf ext s -> k ∈ v_known s -> nm ∉ kd_names (n_fs (v_n s)) k -> getroot_body nm k s = Ret None s.
Proof using All.
  intros W Hk Hn. rewrite kd_names_elem in Hn. unfold getroot_body. rewrite (run_bind _ _ s None s).
  - unfold streq. rewrite bool_decide_eq_false_2 by naive_solver. unfold streq_opt. destruct (kd_rawname k) as [r|]; [|done].
    unfold streq. by rewrite bool_decide_eq_false_2 by naive_solver.
  - destruct (mounted k) as [i|] eqn:Hm; simpl in Hn.
    + rewrite (run_bind _ _ s (fs_volname i (n_fs (v_n s))) s) by (eapply getvolname_run; [done|by eapply mounted_elem]).
      unfold streq. rewrite bool_decide_eq_false_2 by naive_solver. simpl. unfold streq_opt.
      destruct (fs_volname i (n_fs (v_n s))) as [x|]; [|done]. unfold streq. by rewrite bool_decide_eq_false_2 by naive_solver.
    + destruct (kd_rawname k); [|done]. unfold streq. by rewrite bool_decide_eq_false_2 by naive_solver.
Qed.

Lemma loop_skip ext (s : vst) nm l1 l2 : vwf ext s -> (forall k, k ∈ l1 -> k ∈ v_known s /\ nm ∉ kd_names (n_fs (v_n s)) k) ->
  getroot_loop nm (l1 ++ l2) s = getroot_loop nm l2 s.
Proof using All.
  intros W. induction l1 as [|k l1 IH]; intros H; [done|]. simpl. destruct (H k ltac:(by left)) as [Hk Hn].
  rewrite (run_bind _ _ s None s) by (by eapply body_skip). apply IH. intros j Hj. apply H. by right.
Qed.

(** The first entry that has the name decides. *)
Lemma getroot_first ext (s : vst) nm l1 k l2 : vwf ext s -> i_hold s = true -> v_known s = l1 ++ k :: l2 ->
  (forall j, j ∈ l1 -> nm ∉ kd_names (n_fs (v_n s)) j) ->
  vfs_getroot nm s = (r ← getroot_body nm k; match r with Some x => mret x | None => getroot_loop nm l2 end) s.
Proof using All.
  intros W Hh E H. unfold vfs_getroot. rewrite (run_bind _ _ s true s) by (unfold vfs_biglock_do_i_hold; msimpl; by rewrite Hh).
  rewrite (run_bind _ _ s tt s) by done. rewrite (run_bind _ _ s s s) by done. rewrite E. rewrite (loop_skip ext); [done|done|].
  intros j Hj. split; [rewrite E; apply elem_of_app; by left|by apply H].
Qed.

(** What a name of entry [k] gives. *)
Definition resolve (k : knowndev) (raw : bool) : M vst (Z * Z) :=
  if raw then _ ← zoom (VOP_INCREF (kd_vnode k)); mret (0, kd_vnode k)
  else match kd_fs k, kd_rawname k with
       | FS f, _ => zoom (FSOP_GETROOT f)
       | _, Some _ => mret (ENXIO, 0)
       | _, None => _ ← zoom (VOP_INCREF (kd_vnode k)); mret (0, kd_vnode k)
       end.

Lemma body_device ext (s : vst) k : vwf ext s -> k ∈ v_known s ->
  (r ← getroot_body (kd_name k) k; match r with Some x => mret x | None => mret (ENODEV, 0) end) s = resolve k false s.
Proof using All.
  intros W Hk. pose proof (w_kd _ _ W) as D. rewrite Forall_forall in D. destruct (D k Hk) as [_ _ Kr Kf]. unfold getroot_body, resolve.
  destruct (kd_fs k) as [| |f] eqn:Hf; unfold mounted; rewrite ?Hf.
  - destruct (kd_rawname k) as [raw|] eqn:Hr; unfold streq; rewrite bool_decide_eq_true_2 by done; [done|].
    rewrite (proj2 (Z.eqb_neq _ _)) by done. unfold mbind, M_bind, mret, M_ret. simpl. by destruct (zoom (VOP_INCREF (kd_vnode k)) s).
  - destruct (kd_rawname k) as [raw|] eqn:Hr; [|done]. unfold streq. by rewrite bool_decide_eq_true_2.
  - unfold mbind, M_bind. rewrite (getvolname_run ext s f W) by (eapply mounted_elem; [done|unfold mounted; by rewrite Hf]).
    unfold streq. rewrite bool_decide_eq_true_2 by done. simpl. destruct (zoom (FSOP_GETROOT f) s) as [[a b]| | | | |]; done.
Qed.

Lemma names_apart (s : vst) l1 k l2 j x : names_ok s -> v_known s = l1 ++ k :: l2 -> j ∈ l1 -> x ∈ dev_names k -> x ∉ dev_names j.
Proof using All.
  intros N E Hj Hx Hx'. unfold names_ok in N. rewrite E, fmap_app, join_app in N. apply NoDup_app in N as (_ & N & _).
  apply (N x); [|change (x ∈ dev_names k ++ mjoin (dev_names <$> l2)); apply elem_of_app; by left]. rewrite list_elem_of_join. exists (dev_names j). split; [done|]. apply list_elem_of_fmap. eauto.
Qed.

Lemma dev_names_elem k x : x ∈ dev_names k <-> kd_name k = x \/ kd_rawname k = Some x.
Proof using All.
  unfold dev_names. rewrite elem_of_cons. destruct (kd_rawname k); simpl; rewrite ?list_elem_of_singleton, ?elem_of_nil; naive_solver.
Qed.

(** No entry but [k], when it is asked for by its own name, has a volume of that name. *)
Definition volume_free (s : vst) (nm : list Z) (k : knowndev) (raw : bool) : Prop :=
  forall j f, j ∈ v_known s -> mounted j = Some f -> fs_volname f (n_fs (v_n s)) = Some nm -> j = k /\ raw = false.

Definition has_name (k : knowndev) (nm : list Z) (raw : bool) : Prop := if raw then kd_rawname k = Some nm else kd_name k = nm.

Lemma has_name_elem k nm raw : has_name k nm raw -> nm ∈ dev_names k.
Proof using All. rewrite dev_names_elem. destruct raw; simpl; auto. Qed.

Lemma earlier_free (s : vst) l1 k l2 j nm raw : names_ok s -> v_known s = l1 ++ k :: l2 -> has_name k nm raw -> volume_free s nm k raw ->
  j ∈ l1 -> nm ∉ kd_names (n_fs (v_n s)) j.
Proof using All.
  intros N E Hn Hv Hj. pose proof (names_apart s l1 k l2 j nm N E Hj (has_name_elem _ _ _ Hn)) as Hd. rewrite dev_names_elem in Hd.
  rewrite kd_names_elem. intros [H|H]; [|tauto]. destruct (mounted j) as [f|] eqn:Hm; [|done]. simpl in H.
  assert (Hin : j ∈ v_known s) by (rewrite E; apply elem_of_app; by left). destruct (Hv j f Hin Hm H) as [-> _].
  apply Hd. apply dev_names_elem. by eapply has_name_elem.
Qed.

Lemma bind_some {A} (s : vst) (m : M vst (option A)) (g h : M vst A) : (forall t, m s <> Ret None t) ->
  (r ← m; match r with Some x => mret x | None => g end) s = (r ← m; match r with Some x => mret x | None => h end) s.
Proof using All. intros H. unfold mbind, M_bind. destruct (m s) as [[x|] t| | | | |] eqn:E; try done. by destruct (H t). Qed.

Lemma body_device_some ext (s : vst) k t : vwf ext s -> k ∈ v_known s -> getroot_body (kd_name k) k s <> Ret None t.
Proof using All.
  intros W Hk E. unfold getroot_body, streq in E. unfold mbind, M_bind in E. destruct (mounted k) as [f|] eqn:Hm.
  - rewrite (getvolname_run ext s f W) in E by (by eapply mounted_elem). rewrite bool_decide_eq_true_2 in E by done. simpl in E.
    by destruct (zoom (FSOP_GETROOT f) s).
  - rewrite bool_decide_eq_true_2 in E by done. destruct (kd_rawname k); [done|]. simpl in E.
    repeat (case_match; try done).
Qed.

Lemma body_raw ext (s : vst) k nm g : vwf ext s -> k ∈ v_known s -> kd_rawname k = Some nm -> kd_name k <> nm ->
  (forall f, mounted k = Some f -> fs_volname f (n_fs (v_n s)) <> Some nm) ->
  (r ← getroot_body nm k; match r with Some x => mret x | None => g end) s = resolve k true s.
Proof using All.
  intros W Hk Hr Hne Hv. pose proof (w_kd _ _ W) as D. rewrite Forall_forall in D. destruct (D k Hk) as [_ _ Kr _].
  assert (Hd : kd_device k <> 0) by (apply Kr; by rewrite Hr). unfold getroot_body, resolve. rewrite Hr.
  assert (E1 : streq (kd_name k) nm = false) by (unfold streq; by rewrite bool_decide_eq_false_2). rewrite E1.
  assert (E2 : streq_opt (Some nm) nm = true) by (simpl; unfold streq; by rewrite bool_decide_eq_true_2). rewrite E2.
  rewrite (proj2 (Z.eqb_neq _ _)) by done. rewrite bind_assoc. rewrite (run_bind _ _ s None s).
  - unfold mbind, M_bind. simpl. unfold mret, M_ret. by destruct (zoom (VOP_INCREF (kd_vnode k)) s).
  - destruct (mounted k) as [f|] eqn:Hm; [|done]. rewrite (run_bind _ _ s _ s (getvolname_run ext s f W ltac:(by eapply mounted_elem))).
    destruct (fs_volname f (n_fs (v_n s))) as [x|] eqn:Ev; [|done]. simpl. unfold streq. rewrite bool_decide_eq_false_2; [done|]. intros ->. by apply (Hv f).
Qed.

Lemma getroot_run ext (s : vst) k nm raw : vwf ext s -> i_hold s = true -> names_ok s -> k ∈ v_known s -> has_name k nm raw ->
  volume_free s nm k raw -> vfs_getroot nm s = resolve k raw s.
Proof using All.
  intros W Hh N Hk Hn Hv. apply list_elem_of_split in Hk as E. destruct E as (l1 & l2 & E).
  rewrite (getroot_first ext s nm l1 k l2 W Hh E) by (intros j Hj; by eapply earlier_free). destruct raw; simpl in Hn.
  - eapply body_raw; [done|done|done| |].
    + intros En. unfold names_ok in N. rewrite E, fmap_app, join_app in N. apply NoDup_app in N as (_ & _ & N). change (NoDup (dev_names k ++ mjoin (dev_names <$> l2))) in N.
      apply NoDup_app in N as (N & _ & _). unfold dev_names in N. rewrite Hn in N. simpl in N. apply NoDup_cons in N as [N _].
      apply N. apply list_elem_of_singleton. done.
    + intros f Hm Hvol. by destruct (Hv k f Hk Hm Hvol).
  - subst nm. rewrite <- (body_device ext s k W Hk). apply bind_some. intros t. by eapply body_device_some.
Qed.

Lemma getroot_absent ext (s : vst) nm : vwf ext s -> i_hold s = true -> ~ taken s nm -> vfs_getroot nm s = Ret (ENODEV, 0) s.
Proof using All.
  intros W Hh Hn. unfold vfs_getroot. rewrite (run_bind _ _ s true s) by (unfold vfs_biglock_do_i_hold; msimpl; by rewrite Hh).
  rewrite (run_bind _ _ s tt s) by done. rewrite (run_bind _ _ s s s) by done. rewrite <- (app_nil_r (v_known s)).
  rewrite (loop_skip ext); [done|done|]. intros k Hk. split; [done|]. intros Hx. apply Hn. by exists k.
Qed.

(** A volume mounted on an earlier device hides a device of the same name: [vfs_mount] does
    not look for the volume name in the table. *)
Lemma volume_shadows ext (s : vst) l1 j l2 f nm : vwf ext s -> i_hold s = true -> v_known s = l1 ++ j :: l2 ->
  (forall i, i ∈ l1 -> nm ∉ kd_names (n_fs (v_n s)) i) -> mounted j = Some f -> fs_volname f (n_fs (v_n s)) = Some nm ->
  vfs_getroot nm s = zoom (FSOP_GETROOT f) s.
Proof using All.
  intros W Hh E H Hm Hv. assert (Hin : j ∈ v_known s) by (rewrite E; set_solver). rewrite (getroot_first ext s nm l1 j l2 W Hh E H).
  unfold getroot_body. rewrite Hm. unfold mbind, M_bind. rewrite (getvolname_run ext s f W) by (by eapply mounted_elem).
  rewrite Hv. unfold streq_opt, streq. rewrite (bool_decide_eq_true_2 (nm = nm)) by done. rewrite orb_true_r.
  destruct (zoom (FSOP_GETROOT f) s) as [[a b]| | | | |]; done.
Qed.

(** ** The theorems *)

(** C32: For every call of the VFS layer on path names ([vfs_open], [vfs_close], the lookups,
    [vfs_remove], [vfs_rename], [vfs_link], [vfs_symlink], [vfs_readlink], [vfs_mkdir],
    [vfs_rmdir], [vfs_chdir], [vfs_getcwd] and the calls that set the current and the boot
    directory), on any path and whatever the file systems answer within their laws: the call
    returns, no assertion fails, the big lock is as deep as before, and every vnode has again
    exactly the references that the device table, the two directories and the callers hold:
    one more on a vnode handed back, one less on a vnode closed, none changed when an error
    is returned.  The caller owes strings for paths and vnodes it holds ([vcall_ok]), and
    [vfs_open] with O_CREAT is covered only while no allocation fails: when one does,
    [semfs_creat] may report success without a vnode, and the call panics
    ([semfs_creat_no_memory]). *)
Theorem vfs_calls_balanced ext (s : vst) c : vwf ext s -> vcall_ok ext s c ->
  wp (run_vcall c) s (fun r s' => vwf (owed c r ext) s' /\ vframe s s').
Proof using All. apply vcall_spec. Qed.

Inductive tcall :=
  | Adddev (nm : list Z) (dev : Z) (mnt : bool) | Mount (nm : list Z) (mf : Z -> M nst (Z * Z)) | Unmount (nm : list Z)
  | Swapon (nm : list Z) | Swapoff (nm : list Z) | Unmountall | Sync.

Definition run_tcall (c : tcall) : M vst (Z * Z) :=
  let code (m : M vst Z) : M vst (Z * Z) := r ← m; mret (r, 0) in
  match c with
  | Adddev nm dev mnt => code (vfs_adddev nm dev mnt)
  | Mount nm mf => code (vfs_mount nm mf)
  | Unmount nm => code (vfs_unmount nm)
  | Swapon nm => vfs_swapon nm
  | Swapoff nm => code (vfs_swapoff nm)
  | Unmountall => code vfs_unmountall
  | Sync => code vfs_sync
  end.

Definition tcall_ok (s : vst) (c : tcall) : Prop :=
  match c with
  | Adddev _ dev _ => dev <> 0 /\ is_Some (n_dev (v_n s) !! dev)
  | Mount _ mf => mount_ok mf
  | _ => True
  end.

Definition tcall_post (ext : Z -> Z) (s : vst) (c : tcall) (r : Z * Z) (s' : vst) : Prop :=
  match c with
  | Adddev nm dev mnt => adddev_post ext nm dev mnt s r.1 s'
  | Mount nm mf => mount_post ext nm mf s r.1 s'
  | Unmount nm => unmount_post ext nm s r.1 s'
  | Swapon nm => swapon_post ext (strip_colon nm) s r s'
  | Swapoff nm => swapoff_post ext nm s r.1 s'
  | Unmountall => unmountall_post ext s r.1 s'
  | Sync => sync_post ext s r.1 s'
  end.

Lemma set_same_devices nm old new (s s' : vst) : table_set nm old new s s' -> same_devices s s'.
Proof using All. intros (i & k & _ & _ & _ & E). unfold same_devices. rewrite E. apply (same_devices_set s i new (v_n s)). Qed.

Lemma same_same_devices (s s' : vst) : table_same s s' -> same_devices s s'.
Proof using All. unfold table_same, same_devices. by intros ->. Qed.

Lemma tcall_names ext (s s' : vst) c r : names_ok s -> tcall_post ext s c r s' -> names_ok s'.
Proof using All.
  intros N H. destruct c; simpl in H; [by eapply names_ok_add|eapply names_ok_same; [exact N|]..].
  - destruct H as (_ & _ & [(_ & _ & T)|[(_ & _ & T)|(k & f & _ & _ & _ & _ & T)]]); [by apply same_same_devices..|].
    case_decide; [by eapply set_same_devices|by apply same_same_devices].
  - destruct H as (_ & _ & [(_ & _ & T)|[(_ & _ & T)|(k & f & rs & n1 & _ & _ & _ & _ & T)]]); [by apply same_same_devices..|].
    case_decide; [|destruct T as (_ & _ & T); by apply same_same_devices]. destruct T as [_ T]. case_decide; [by eapply set_same_devices|by apply same_same_devices].
  - destruct H as (_ & [(_ & _ & _ & T)|[(_ & _ & _ & T)|[(_ & _ & _ & T)|(_ & _ & _ & T)]]]);
      first [by apply same_same_devices|by eapply set_same_devices].
  - destruct H as (_ & _ & [(_ & _ & T)|[(_ & _ & T)|(_ & T)]]); first [by apply same_same_devices|by eapply set_same_devices].
  - destruct H as (_ & _ & _ & D). exact (detach_devices _ _ _ _ D).
  - destruct H as (_ & _ & _ & T & _). by apply same_same_devices.
Qed.

(** C33: Every operation on the table of devices ([vfs_adddev], [vfs_mount], [vfs_unmount],
    [vfs_swapon], [vfs_swapoff], [vfs_unmountall], [vfs_sync]) returns with the invariant and
    the big lock as they were.  A device is added exactly when none of its names is taken, and
    an addition that fails leaves the table and gives back all its memory.  A file system or
    swap is attached only to a device that can be mounted on and has nothing attached; mount
    returns what the mount function returned and attaches the file system it made.  Unmount
    asks the file system to sync and then to unmount, returns the first error, and detaches
    it exactly when both succeed; an error leaves the table.  Unmountall does the same for
    every entry, with a second try of the sync, and detaches all swap; sync asks every
    mounted file system once.  The names of the devices stay distinct throughout. *)
Theorem vfs_table_operations ext (s : vst) c : vwf ext s -> names_ok s -> tcall_ok s c ->
  wp (run_tcall c) s (fun r s' => tcall_post ext s c r s' /\ names_ok s').
Proof using All.
  intros W N H. assert (P : wp (run_tcall c) s (tcall_post ext s c)).
  { assert (Code : forall (m : M vst Z) Q, wp m s Q -> wp (r ← m; (mret (r, 0) : M vst (Z * Z))) s (fun r s' => Q r.1 s'))
      by (intros m Q Hm; apply wp_bind; eapply wp_mono; [exact Hm|]; intros r s' Hp; by apply wp_ret).
    destruct c; simpl in H; cbn [run_tcall].
    - destruct H. by apply (Code _ (adddev_post ext nm dev mnt s)), adddev_spec.
    - by apply (Code _ (mount_post ext nm mf s)), mount_spec.
    - by apply (Code _ (unmount_post ext nm s)), unmount_spec.
    - by apply swapon_spec.
    - by apply (Code _ (swapoff_post ext nm s)), swapoff_spec.
    - by apply (Code _ (unmountall_post ext s)), unmountall_spec.
    - by apply (Code _ (sync_post ext s)), sync_spec. }
  eapply wp_mono; [exact P|]. intros r s' Hp. split; [done|by eapply tcall_names].
Qed.

(** [vfs_getroot] gives a name the meaning vfslist.c documents, through any table whose
    device names are distinct: the name of a device with a file system is the root of that
    file system; of a device one can mount on with nothing mounted, ENXIO; of any other
    device, the device; the raw name is the device; and a name that neither a device nor a
    volume has is ENODEV.  (A volume of the same name on another device is excluded: it would
    be found instead when it is earlier in the table.) *)
Theorem vfs_getroot_resolves ext (s : vst) : vwf ext s -> i_hold s = true -> names_ok s ->
  (forall k nm raw, k ∈ v_known s -> has_name k nm raw -> volume_free s nm k raw -> vfs_getroot nm s = resolve k raw s) /\
  (forall nm, ~ taken s nm -> vfs_getroot nm s = Ret (ENODEV, 0) s).
Proof using All. intros W Hh N. split; [intros; by eapply getroot_run|intros; by eapply getroot_absent]. Qed.

(** [getdevice] splits every path as the syntax says: text before the first colon (and
    before any slash) names a device; a leading slash is the boot file system and a leading
    colon the file system of the current directory; anything else is relative; slashes after
    the prefix are skipped.  The in-place scan over the buffer finds exactly the start and
    the rest that [parse] defines, and reads nothing past the terminating NUL. *)
Theorem getdevice_parses p junk (s : vst) : Forall (fun c => c <> 0) p -> i_hold s = true ->
  getdevice (p ++ 0 :: junk) s =
  match parse p with
  | None => Ret (EINVAL, ([], 0)) s
  | Some (o, q) => (r ← start_at o; mret (arrive o (q ++ 0 :: junk) r)) s
  end.
Proof using All. apply getdevice_run. Qed.

End Names.

(** ** File systems that can be mounted and unmounted

    A volume without files, for the laws and for the operations on the table: it can be dirty,
    which sync ends, and busy, which keeps it from being unmounted. *)

Record volume := mk_vol { vo_dirty : bool; vo_busy : bool }.
Record volumes := mk_vols { vo_next : Z; vo_all : gmap Z volume }.

Section Volumes.
#[local] Existing Instance Uio.no_user.
Abbreviation nst := (nstate unit volumes).
Abbreviation vst := (vfs unit volumes).

Definition no_files : vnode_ops unit volumes :=
  mk_vops (fun _ _ => mret ENOSYS) (fun _ => mret 0) vopfail_uio_nosys vopfail_uio_nosys vopfail_uio_nosys vopfail_uio_nosys
    (fun _ _ _ => mret ENOSYS) (fun _ => undef) (fun _ => undef) (fun _ => mret false) (fun _ => mret ENOSYS) vopfail_mmap_nosys
    vopfail_truncate_isdir vopfail_uio_nosys vopfail_creat_notdir vopfail_symlink_nosys vopfail_mkdir_nosys vopfail_link_nosys
    vopfail_string_nosys vopfail_string_nosys vopfail_rename_nosys vopfail_lookup_notdir vopfail_lookparent_notdir.

Definition vol_update (i : Z) (o : volume -> option volume) : M nst unit :=
  modify (fun n => set_fs (mk_vols (vo_next (n_fs n)) (partial_alter (fun x => x ≫= o) i (vo_all (n_fs n)))) n).

Definition vol_sync (i : Z) : M nst Z := _ ← vol_update i (fun x => Some (mk_vol false (vo_busy x))); mret 0.
Definition vol_unmount (i : Z) : M nst Z :=
  n ← get;
  match vo_all (n_fs n) !! i with
  | None => undef
  | Some x => if vo_busy x then mret EBUSY else _ ← vol_update i (fun _ => None); mret 0
  end.
Definition VOL : list Z := [118; 111; 108].
Definition vol_fs : fs_ops unit volumes := mk_fops vol_sync (fun _ => mret (Some VOL)) (fun _ => mret (ENXIO, 0)) vol_unmount.

(** A device without blocks cannot be mounted on. *)
Definition vol_mount (d : Z) : M nst (Z * Z) :=
  x ← get_device d;
  if d_blocks x =? 0 then mret (ENXIO, 0)
  else
    n ← get;
    let i := vo_next (n_fs n) in
    _ ← put (set_fs (mk_vols (i + 1) (<[i := mk_vol true false]> (vo_all (n_fs n)))) n);
    mret (0, i).

#[export] Instance vol_systems : FileSystems unit volumes := {|
  fs_vnode_ops _ := no_files;
  fs_table _ := vol_fs;
  driver_ops _ := mk_dops (fun _ _ => mret 0) (fun _ u => mret (0, u)) (fun _ _ _ => mret 0)
|}.

Definition vol_inv (m : gmap Z (Z * option Z * Z)) (f : volumes) : Prop :=
  m = ∅ /\ 0 < vo_next f /\ forall i, is_Some (vo_all f !! i) -> 0 < i < vo_next f.
Definition vol_live (i : Z) (f : volumes) : Prop := 0 < i /\ is_Some (vo_all f !! i).

Lemma vol_law_live m f v k g d : vol_inv m f -> m !! v = Some (k, g, d) -> exists i, g = Some i /\ vol_live i f.
Proof. intros (-> & _) H. by rewrite lookup_empty in H. Qed.
Lemma vol_law_fsid i f : vol_live i f -> i <> 0 /\ i <> -1.
Proof. intros [H _]. lia. Qed.

#[export] Instance vol_laws : FsLaws unit volumes := {
  fs_inv := vol_inv;
  fs_live := vol_live;
  fs_volname _ _ := Some VOL;
  fs_detach _ := True;
  law_live := vol_law_live;
  law_fsid := vol_law_fsid
}.

Lemma vol_no_vnode R (n : nst) v x k : nwf R n -> n_vn n !! v = Some x -> vn_ops x = FS_OPS k -> False.
Proof.
  intros [_ (E & _)] Hx Hk. assert (H : fs_view n !! v = None) by (by rewrite E, lookup_empty). rewrite fs_view_lookup, Hx in H. simpl in H. unfold fs_vn in H. by rewrite Hk in H.
Qed.

Lemma vol_quiet {A} (m : M nst A) (n : nst) v x k : n_vn n !! v = Some x -> vn_ops x = FS_OPS k -> quiet m n.
Proof. intros Hx Hk R N. by destruct (vol_no_vnode R n v x k N Hx Hk). Qed.

(** Only the volumes change. *)
Lemma vol_step R (n : nst) f : nwf R n -> vol_inv ∅ f -> nwf R (set_fs f n) /\ keeps n (set_fs f n).
Proof.
  intros [[A B C] (E & _)] I. split; [split; [by split|]|].
  - change (vol_inv (fs_view n) f). by rewrite E.
  - split; [done|done| |done]. intros v x x' H H'. simpl in H'. rewrite H in H'. by simplify_eq.
Qed.

Lemma vol_updated i o f : 0 < vo_next f -> (forall j, is_Some (vo_all f !! j) -> 0 < j < vo_next f) -> vol_inv ∅ (mk_vols (vo_next f) (partial_alter (fun x => x ≫= o) i (vo_all f))).
Proof.
  intros H0 H. split; [done|]. split; [done|]. intros j. simpl. destruct (decide (i = j)) as [->|]; [rewrite lookup_partial_alter_eq|rewrite lookup_partial_alter_ne by done; apply H].
  intros [y Hy]. apply H. by destruct (vo_all f !! j).
Qed.

#[export] Instance vol_ops_laws : FsOpsLaws unit volumes.
Proof.
  split.
  - intros n v x k Hx Hk. split_and!; intros; by eapply vol_quiet.
  - intros n v x k w y Hx Hk _ _. split; intros; by eapply vol_quiet.
  - intros n v x k u Hx Hk _. split; by eapply vol_quiet.
  - intros n v x k p Hx Hk. split; [|intros len]; intros R N; by destruct (vol_no_vnode R n v x k N Hx Hk).
  - intros n v x k m e p Hx Hk _ R N. by destruct (vol_no_vnode R n v x k N Hx Hk).
  - intros n v x k R Hx Hk N _. by destruct (vol_no_vnode R n v x k N Hx Hk).
  - intros n i Hi. split_and!; [|intros R N; by split; [apply nstep_refl|]|done]. intros R N. pose proof N as [_ (_ & H0 & H)]. destruct (vol_step R n _ N (vol_updated i (fun x => Some (mk_vol false (vo_busy x))) _ H0 H)) as [N' K].
    eapply wp_eq; [reflexivity|]. split; [exact N'|]. split; [exact K| |done]. intros j. simpl. unfold vol_live. simpl.
    destruct (decide (i = j)) as [->|]; [rewrite lookup_partial_alter_eq|by rewrite lookup_partial_alter_ne]. destruct (vo_all (n_fs n) !! j); simpl; split; intros [? ?]; split; by eauto.
  - intros n i R [Hi [x Hx]] _ N. pose proof N as [_ (_ & H0 & H)]. simpl. unfold vol_unmount. apply wp_bind. eapply wp_eq; [reflexivity|]. rewrite Hx. destruct (vo_busy x).
    + apply wp_ret. split; [done|]. split; [by split; [| |naive_solver|]|]. split; [|done]. intros j. by split; [intros ?; split|intros [? _]].
    + destruct (vol_step R n _ N (vol_updated i (fun _ => None) _ H0 H)) as [N' K]. eapply wp_eq; [reflexivity|]. split; [exact N'|]. split; [exact K|]. split; [|done].
      intros j. simpl. unfold vol_live. simpl. destruct (decide (i = j)) as [->|].
      * rewrite lookup_partial_alter_eq, Hx. simpl. split; [by intros [_ [? ?]]|]. intros [_ Hne]. by destruct (Hne eq_refl).
      * rewrite lookup_partial_alter_ne by done. split; [intros ?; split; [done|]; by intros _ ->|by intros [? _]].
  - intros n k d f R N. apply wp_ret. split; [done|apply nstep_refl].
Qed.

Lemma vol_mount_ok : mount_ok vol_mount.
Proof.
  intros R n d N [x Hx]. unfold vol_mount. apply wp_bind. eapply wp_eq; [by apply get_device_run|]. destruct (d_blocks x =? 0).
  { apply wp_ret. simpl. by split_and!; [|split; [| |naive_solver|]|]. }
  pose proof N as [_ (_ & H0 & H)]. set (i := vo_next (n_fs n)). destruct (vol_step R n (mk_vols (i + 1) (<[i := mk_vol true false]> (vo_all (n_fs n)))) N) as [N' K].
  { split; [done|]. split; [unfold i; simpl; lia|]. intros j [y Hy]. simpl in *. apply lookup_insert_Some in Hy as [[<- _]|[_ Hy]]; [unfold i; lia|]. assert (0 < j < i) by (apply H; eauto). lia. }
  apply wp_bind. eapply wp_eq; [reflexivity|]. eapply wp_eq; [reflexivity|]. simpl. split_and!; [exact N'|exact K|done| |].
  - intros [_ Hl]. apply H in Hl. unfold i in Hl. lia.
  - intros j. unfold vol_live. simpl. destruct (decide (j = i)) as [->|].
    + rewrite lookup_insert_eq. split; [by right|]. intros _. split; [unfold i; lia|done].
    + rewrite lookup_insert_ne by done. split; [by left|]. intros [?|?]; done.
Qed.

(** One device, "lhd0", at address 3 with vnode 5, and what is attached to it. *)
Definition LHD0 : list Z := [108; 104; 100; 48].
Definition system (f : kdfs) (t : volumes) : vst :=
  mk_vfs [mk_kd LHD0 (Some (LHD0 ++ RAW)) 3 5 f] 4 None 1 0 None None
    (mk_n {[5 := mk_vnode 1 DEV_OPS None 3]} {[3 := mk_device 1 64 512 1 0]} 9 [] 5 tt t).
Definition nobody : Z -> Z := fun _ => 0.

Lemma system_wf f t : vol_inv ∅ t -> (forall i, vol_live i t <-> f = FS i) -> vwf nobody (system f t).
Proof.
  intros I Hl. assert (Hv : forall v, n_vn (v_n (system f t)) !! v = if decide (v = 5) then Some (mk_vnode 1 DEV_OPS None 3) else None).
  { intros v. cbn. case_decide as E; [subst; apply lookup_singleton_eq|by apply lookup_singleton_ne]. }
  assert (Hlist : forall v, listed (v_known (system f t)) v = if decide (v = 5) then 1 else 0).
  { intros v. unfold listed. cbn [v_known system]. rewrite filter_cons. cbn [kd_vnode]. repeat (case_decide; try done); subst; done. }
  assert (Hd : forall v, dev_view (v_n (system f t)) !! v = if decide (v = 5) then Some (None, 3) else None) by (intros v; rewrite dev_view_lookup, Hv; by case_decide).
  assert (Hf : fs_view (v_n (system f t)) = ∅) by (apply map_eq; intros v; rewrite fs_view_lookup, Hv, lookup_empty; by case_decide).
  split.
  - by left.
  - by split.
  - split; [split; [intros v|intros v x|done]|by rewrite Hf].
    + rewrite Hv. unfold refs. rewrite Hlist. unfold points, nobody. cbn. by repeat case_decide.
    + rewrite Hv. cbn. case_decide; [lia|done].
  - repeat constructor; cbn; try done; try (by rewrite Hd). destruct f; done.
  - intros v [x Hx]. rewrite Hd in Hx. rewrite Hlist. by case_decide.
  - split; cbn; [apply NoDup_singleton|]. destruct f; cbn; [apply NoDup_nil_2..|apply NoDup_singleton].
  - intros i. cbn. rewrite Hl. destruct f as [| |j]; cbn; [split; [done|by intros ?%not_elem_of_nil]..|]. rewrite list_elem_of_singleton. naive_solver.
  - done.
  - done.
Qed.

Lemma system_names f t : names_ok (system f t).
Proof. unfold names_ok. cbn. apply NoDup_cons. split; [by intros H%list_elem_of_singleton|apply NoDup_singleton]. Qed.

(** Nothing attached; a dirty volume that can be unmounted; a busy one. *)
Definition bare : vst := system NO_FS (mk_vols 1 ∅).
Definition with_volume (x : volume) : vst := system (FS 1) (mk_vols 2 {[1 := x]}).

Lemma bare_wf : vwf nobody bare.
Proof.
  apply system_wf.
  - split; [done|]. split; [done|]. intros i [x Hx]. cbn in Hx. by rewrite lookup_empty in Hx.
  - intros i. split; [intros [_ [x Hx]]; cbn in Hx; by rewrite lookup_empty in Hx|done].
Qed.

Lemma with_volume_wf x : vwf nobody (with_volume x).
Proof.
  apply system_wf.
  - split; [done|]. split; [done|]. intros i [y Hy]. cbn in Hy. apply lookup_singleton_Some in Hy as [<- _]. cbn. lia.
  - intros i. split; [intros [_ [y Hy]]; cbn in Hy; by apply lookup_singleton_Some in Hy as [<- _]|]. intros [= <-]. split; [lia|]. cbn. rewrite lookup_singleton_eq. eauto.
Qed.

(** "lhd0" is mounted, synced, unmounted, and all file systems are unmounted. *)
Lemma vfs_table_witness :
  wp (run_tcall (Mount LHD0 vol_mount)) bare (fun r s' => tcall_post nobody bare (Mount LHD0 vol_mount) r s' /\ names_ok s') /\
  forall c : tcall, c ∈ [Sync; Unmount LHD0; Unmountall; Adddev VOL 3 true; Swapon LHD0; Swapoff LHD0] -> let s := with_volume (mk_vol true false) in
    wp (run_tcall c) s (fun r s' => tcall_post nobody s c r s' /\ names_ok s').
Proof.
  split; [apply vfs_table_operations; [apply bare_wf|apply system_names|exact vol_mount_ok]|]. intros c Hc s.
  apply vfs_table_operations; [apply with_volume_wf|apply system_names|]. repeat (apply elem_of_cons in Hc as [->|Hc]; [try done; by split; [|eexists]|]). by apply not_elem_of_nil in Hc.
Defined.

(** What those calls do: the volume is made and attached; it is clean after a sync; it is
    detached and gone after an unmount; a busy one stays, with the error. *)
Example vfs_table_runs :
  (exists s', run_tcall (Mount LHD0 vol_mount) bare = Ret (0, 0) s' /\ v_known s' = v_known (with_volume (mk_vol true false)) /\ vo_all (n_fs (v_n s')) = {[1 := mk_vol true false]}) /\
  (exists s', run_tcall Sync (with_volume (mk_vol true false)) = Ret (0, 0) s' /\ vo_all (n_fs (v_n s')) = {[1 := mk_vol false false]}) /\
  (exists s', run_tcall (Unmount LHD0) (with_volume (mk_vol true false)) = Ret (0, 0) s' /\ v_known s' = v_known bare /\ vo_all (n_fs (v_n s')) = ∅) /\
  (exists s', run_tcall (Unmount LHD0) (with_volume (mk_vol true true)) = Ret (EBUSY, 0) s' /\ v_known s' = v_known (with_volume (mk_vol true true))) /\
  (exists s', run_tcall Unmountall (with_volume (mk_vol true false)) = Ret (0, 0) s' /\ v_known s' = v_known bare).
Proof. split_and!; eexists; by vm_compute. Qed.
End Volumes.
End VfsNames.
