(* ===== verification/Semfs.v ===== *)
(** * The semaphore file system: kern/fs/semfs

    A directory of user-visible semaphores: reading a file is P, writing it is V.  A pointer
    to a semaphore is its slot in the table; the structure of a vnode is the vnode itself
    with the number of its semaphore in [vn_data].  A lock is who holds it, a condition
    variable the threads asleep on it; what it wakes is appended to [sf_woken].  The blocks
    of a lock or a condition variable count as one block of the heap. *)

From S2P Require Import Prelude Uio Sfs Vnode Vfs.

Module Semfs.
Import Uio Vnode Vfs.
Import Sfs(ENAMETOOLONG, ENOTDIR, EISDIR, ENOENT, EEXIST, EBUSY, EFBIG, S_IFREG, S_IFDIR, O_RDONLY, O_ACCMODE, O_APPEND).

Definition SEMFS_ROOTDIR : Z := 0xffffffff.

Record semfs_sem := mk_sem {
  sems_cv : list Z;
  sems_count : Z;
  sems_hasvnode : bool;
  sems_linked : bool
}.

Record semfs_direntry := mk_dent { semd_name : list Z; semd_semnum : Z }.

(** struct semfs: the arrays with their capacities; an element is NULL or a structure. *)
Record semfs := mk_semfs {
  semfs_vnodes : list Z;
  semfs_vmax : Z;
  semfs_sems : list (option semfs_sem);
  semfs_smax : Z;
  semfs_dents : list (option semfs_direntry);
  semfs_dmax : Z
}.

(** What is outside the structure: its address, the locks held and by whom, the current
    thread and the threads woken. *)
Record semst := mk_semst {
  sf : option semfs;
  sf_addr : Z;
  sf_locks : gmap Z Z;
  sf_me : Z;
  sf_woken : list Z
}.

(** The locks: [semfs_tablelock], [semfs_dirlock], and [sems_lock] of a semaphore. *)
Definition TABLE : Z := -2.
Definition DIR : Z := -1.

Section Ops.
Context {U : Type} `{US : UserSpace U}.
Abbreviation nst := (nstate U semst).

Definition get_sf : M nst semfs := n ← get; deref (sf (n_fs n)).
Definition mod_st (f : semst -> semst) : M nst unit := modify (fun n => set_fs (f (n_fs n)) n).
Definition put_sf (x : option semfs) : M nst unit :=
  mod_st (fun f => mk_semst x (sf_addr f) (sf_locks f) (sf_me f) (sf_woken f)).

Definition lock_acquire (l : Z) : M nst unit :=
  n ← get;
  match sf_locks (n_fs n) !! l with
  | Some t => if t =? sf_me (n_fs n) then panic "KASSERT" else waiting
  | None => mod_st (fun f => mk_semst (sf f) (sf_addr f) (<[l := sf_me f]> (sf_locks f)) (sf_me f) (sf_woken f))
  end.
Definition lock_do_i_hold (l : Z) : M nst bool := n ← get; mret (bool_decide (sf_locks (n_fs n) !! l = Some (sf_me (n_fs n)))).
Definition lock_release (l : Z) : M nst unit :=
  h ← lock_do_i_hold l;
  _ ← KASSERT h;
  mod_st (fun f => mk_semst (sf f) (sf_addr f) (delete l (sf_locks f)) (sf_me f) (sf_woken f)).

(** Array accesses: array.c asserts the index. *)
Definition semarray_get (i : Z) : M nst (option semfs_sem) :=
  s ← get_sf;
  match semfs_sems s !! Z.to_nat i with Some x => mret x | None => panic "KASSERT" end.
Definition semarray_set (i : Z) (x : option semfs_sem) : M nst unit :=
  s ← get_sf;
  _ ← KASSERT (bool_decide (Z.to_nat i < length (semfs_sems s))%nat);
  put_sf (Some (mk_semfs (semfs_vnodes s) (semfs_vmax s) (<[Z.to_nat i := x]> (semfs_sems s)) (semfs_smax s) (semfs_dents s) (semfs_dmax s))).
Definition dents_set (i : Z) (x : option semfs_direntry) : M nst unit :=
  s ← get_sf;
  _ ← KASSERT (bool_decide (Z.to_nat i < length (semfs_dents s))%nat);
  put_sf (Some (mk_semfs (semfs_vnodes s) (semfs_vmax s) (semfs_sems s) (semfs_smax s) (<[Z.to_nat i := x]> (semfs_dents s)) (semfs_dmax s))).

(** A change through the pointer to a semaphore that is in the table. *)
Definition sem_modify (i : Z) (f : semfs_sem -> semfs_sem) : M nst unit :=
  o ← semarray_get i;
  x ← deref o;
  semarray_set i (Some (f x)).
Definition set_count (c : Z) (x : semfs_sem) : semfs_sem := mk_sem (sems_cv x) c (sems_hasvnode x) (sems_linked x).
Definition set_hasvnode (b : bool) (x : semfs_sem) : semfs_sem := mk_sem (sems_cv x) (sems_count x) b (sems_linked x).
Definition set_linked (b : bool) (x : semfs_sem) : semfs_sem := mk_sem (sems_cv x) (sems_count x) (sems_hasvnode x) b.
Definition set_cv (l : list Z) (x : semfs_sem) : semfs_sem := mk_sem l (sems_count x) (sems_hasvnode x) (sems_linked x).

(** ** semfs_obj.c *)

Definition semfs_sem_create : M nst (option semfs_sem) :=
  sem ← kmalloc;
  if sem =? 0 then mret None
  else
    lock ← kmalloc;
    if lock =? 0 then _ ← kfree; mret None
    else
      cv ← kmalloc;
      if cv =? 0 then _ ← kfree; _ ← kfree; mret None
      else mret (Some (mk_sem [] 0 false false)).

(** [cv_destroy] asserts that nobody sleeps there. *)
Definition semfs_sem_destroy (sem : option semfs_sem) : M nst unit :=
  x ← deref sem;
  _ ← KASSERT (match sems_cv x with [] => true | _ => false end);
  _ ← kfree; _ ← kfree; kfree.

(** The first NULL slot. *)
Fixpoint first_null {A} (l : list (option A)) (i : Z) : option Z :=
  match l with
  | [] => None
  | None :: _ => Some i
  | Some _ :: l' => first_null l' (i + 1)
  end.

Definition semfs_sem_insert (sem : semfs_sem) : M nst (Z * Z) :=
  h ← lock_do_i_hold TABLE;
  _ ← KASSERT h;
  s ← get_sf;
  let num := Z.of_nat (length (semfs_sems s)) in
  if num =? SEMFS_ROOTDIR then mret (ENOSPC, 0)
  else
    match first_null (semfs_sems s) 0 with
    | Some i => _ ← semarray_set i (Some sem); mret (0, i)
    | None =>
        room ← array_room num (semfs_smax s);
        match room with
        | None => mret (ENOMEM, 0)
        | Some m =>
            _ ← put_sf (Some (mk_semfs (semfs_vnodes s) (semfs_vmax s) (semfs_sems s ++ [Some sem]) m (semfs_dents s) (semfs_dmax s)));
            mret (0, num)
        end
    end.

Definition semfs_direntry_create (name : list Z) (semnum : Z) : M nst (option semfs_direntry) :=
  dent ← kmalloc;
  if dent =? 0 then mret None
  else
    nm ← kstrdup name;
    match nm with
    | None => _ ← kfree; mret None
    | Some nm => mret (Some (mk_dent nm semnum))
    end.

Definition semfs_direntry_destroy (dent : option semfs_direntry) : M nst unit := _ ← deref dent; _ ← kfree; kfree.

(** ** semfs_vnops.c: vnodes *)

Definition semfs_vnode_destroy (v : Z) : M nst unit := _ ← vnode_cleanup v; kfree.

Definition DIROPS : Z := 0.
Definition SEMOPS : Z := 1.

Definition semfs_vnode_create (fs semnum : Z) : M nst Z :=
  let optable := if semnum =? SEMFS_ROOTDIR then DIROPS else SEMOPS in
  v ← kmalloc;
  if v =? 0 then mret 0
  else
    result ← vnode_init v (FS_OPS optable) (Some fs) semnum;
    _ ← KASSERT (result =? 0);
    mret v.

Fixpoint find_vnode (semnum : Z) (l : list Z) : M nst (option Z) :=
  match l with
  | [] => mret None
  | v :: l' =>
      x ← get_vn v;
      if vn_data x =? semnum then mret (Some v) else find_vnode semnum l'
  end.

(** [vnodearray_add] *)
Definition vnodes_add (v : Z) : M nst Z :=
  s ← get_sf;
  room ← array_room (Z.of_nat (length (semfs_vnodes s))) (semfs_vmax s);
  match room with
  | None => mret ENOMEM
  | Some m =>
      _ ← put_sf (Some (mk_semfs (semfs_vnodes s ++ [v]) m (semfs_sems s) (semfs_smax s) (semfs_dents s) (semfs_dmax s)));
      mret 0
  end.

Definition semfs_getvnode (fs semnum : Z) : M nst (Z * Z) :=
  _ ← lock_acquire TABLE;
  s ← get_sf;
  found ← find_vnode semnum (semfs_vnodes s);
  match found with
  | Some vn =>
      _ ← vnode_incref vn;
      _ ← lock_release TABLE;
      mret (0, vn)
  | None =>
      semv ← semfs_vnode_create fs semnum;
      if semv =? 0 then _ ← lock_release TABLE; mret (ENOMEM, 0)
      else
        result ← vnodes_add semv;
        if negb (result =? 0) then
          _ ← semfs_vnode_destroy semv;
          _ ← lock_release TABLE;
          mret (ENOMEM, 0)
        else
          _ ← (if negb (semnum =? SEMFS_ROOTDIR) then
                 sem ← semarray_get semnum;
                 _ ← KASSERT (match sem with Some _ => true | None => false end);
                 _ ← KASSERT (match sem with Some x => negb (sems_hasvnode x) | None => false end);
                 sem_modify semnum (set_hasvnode true)
               else mret tt);
          _ ← lock_release TABLE;
          mret (0, semv)
  end.

(** [vnodearray_remove] of the first slot that holds the vnode. *)
Fixpoint remove_first (v : Z) (l : list Z) : list Z :=
  match l with [] => [] | w :: l' => if w =? v then l' else w :: remove_first v l' end.

Definition semfs_reclaim (vn : Z) : M nst Z :=
  x ← get_vn vn;
  _ ← lock_acquire TABLE;
  if 1 <? vn_refcount x then
    _ ← put_vn vn (mk_vnode (vn_refcount x - 1) (vn_ops x) (vn_fs x) (vn_data x));
    _ ← lock_release TABLE;
    mret EBUSY
  else
    s ← get_sf;
    _ ← put_sf (Some (mk_semfs (remove_first vn (semfs_vnodes s)) (semfs_vmax s) (semfs_sems s) (semfs_smax s) (semfs_dents s) (semfs_dmax s)));
    _ ← (if negb (vn_data x =? SEMFS_ROOTDIR) then
           sem ← semarray_get (vn_data x);
           y ← deref sem;
           _ ← KASSERT (sems_hasvnode y);
           _ ← sem_modify (vn_data x) (set_hasvnode false);
           if negb (sems_linked y) then
             _ ← semarray_set (vn_data x) None;
             semfs_sem_destroy sem
           else mret tt
         else mret tt);
    _ ← lock_release TABLE;
    _ ← semfs_vnode_destroy vn;
    mret 0.

(** ** semfs_vnops.c: basic operations *)

Definition semfs_eachopen (vn openflags : Z) : M nst Z :=
  x ← get_vn vn;
  if vn_data x =? SEMFS_ROOTDIR then
    if negb (Z.land openflags O_ACCMODE =? O_RDONLY) then mret EISDIR
    else if has openflags O_APPEND then mret EISDIR
    else mret 0
  else mret 0.

Definition semfs_ioctl (vn op data : Z) : M nst Z := mret EINVAL.

Definition semfs_gettype (vn : Z) : M nst (Z * Z) :=
  x ← get_vn vn;
  mret (0, if vn_data x =? SEMFS_ROOTDIR then S_IFDIR else S_IFREG).

Definition semfs_isseekable (vn : Z) : M nst bool :=
  x ← get_vn vn;
  mret (vn_data x =? SEMFS_ROOTDIR).

Definition semfs_fsync (vn : Z) : M nst Z := mret 0.

(** ** semfs_vnops.c: semaphores *)

Definition semfs_getsembynum (semnum : Z) : M nst (option semfs_sem) :=
  _ ← lock_acquire TABLE;
  sem ← semarray_get semnum;
  _ ← lock_release TABLE;
  mret sem.

Definition semfs_getsem (vn : Z) : M nst (Z * option semfs_sem) :=
  x ← get_vn vn;
  sem ← semfs_getsembynum (vn_data x);
  mret (vn_data x, sem).

(** [cv_signal] and [cv_broadcast] on the condition variable of semaphore [i]: one sleeper, or all. *)
Definition cv_signal (i : Z) : M nst unit :=
  o ← semarray_get i;
  x ← deref o;
  match sems_cv x with
  | [] => mret tt
  | t :: l =>
      _ ← sem_modify i (set_cv l);
      mod_st (fun f => mk_semst (sf f) (sf_addr f) (sf_locks f) (sf_me f) (sf_woken f ++ [t]))
  end.
Definition cv_broadcast (i : Z) : M nst unit :=
  o ← semarray_get i;
  x ← deref o;
  _ ← sem_modify i (set_cv []);
  mod_st (fun f => mk_semst (sf f) (sf_addr f) (sf_locks f) (sf_me f) (sf_woken f ++ sems_cv x)).

Definition semfs_wakeup (i newcount : Z) : M nst unit :=
  o ← semarray_get i;
  x ← deref o;
  if (0 <? sems_count x) || (newcount =? 0) then mret tt
  else if newcount =? 1 then cv_signal i
  else cv_broadcast i.

Definition semfs_semstat (vn : Z) : M nst (Z * stat) :=
  r ← semfs_getsem vn;
  let '(num, sem) := r in
  _ ← deref sem;
  _ ← lock_acquire num;
  o ← semarray_get num;
  x ← deref o;
  _ ← lock_release num;
  mret (0, mk_stat (sems_count x) (Z.lor S_IFREG 438) (if sems_linked x then 1 else 0) 0 0 num 0 0).

(** [uio_offset += k; uio_resid -= k] *)
Definition uio_skip (k : Z) (u : uio) : uio :=
  mk_uio (uio_past u) (uio_iov u) (uio_offset u + k) (u32 (uio_resid u - k)) (uio_segflg u) (uio_dir u) (uio_space u).

(** The loop of [semfs_read], from taking the lock to its end ([true]) or to the sleep of
    the thread in [cv_wait] ([false]); a thread that is woken takes the lock and goes through
    the loop again.  (When something is left to read, the count has become 0: the test before
    [cv_wait] always holds.) *)
Definition read_pass (num : Z) (u : uio) : M nst (bool * uio) :=
  _ ← lock_acquire num;
  if uio_resid u =? 0 then _ ← lock_release num; mret (true, u)
  else
    o ← semarray_get num;
    x ← deref o;
    let consume := if sems_count x <? uio_resid u then sems_count x else uio_resid u in
    let u' := if 0 <? sems_count x then uio_skip consume u else u in
    _ ← (if 0 <? sems_count x then sem_modify num (set_count (sems_count x - consume)) else mret tt);
    if uio_resid u' =? 0 then _ ← lock_release num; mret (true, u')
    else
      n ← get;
      _ ← sem_modify num (fun x => set_cv (sems_cv x ++ [sf_me (n_fs n)]) x);
      _ ← lock_release num;
      mret (false, u').

(** [semfs_read] up to its end or its first sleep. *)
Definition read_begin (vn : Z) (u : uio) : M nst (bool * uio) :=
  r ← semfs_getsem vn;
  _ ← deref r.2;
  read_pass r.1 u.

Definition semfs_read (vn : Z) (u : uio) : M nst (Z * uio) :=
  p ← read_begin vn u;
  if (p.1 : bool) then mret (0, p.2) else waiting.

(** One round of the loop of [semfs_write]: the second one finds nothing left to write. *)
Definition semfs_write (vn : Z) (u : uio) : M nst (Z * uio) :=
  r ← semfs_getsem vn;
  let '(num, sem) := r in
  _ ← deref sem;
  _ ← lock_acquire num;
  if uio_resid u =? 0 then _ ← lock_release num; mret (0, u)
  else
    o ← semarray_get num;
    x ← deref o;
    let newcount := u32 (sems_count x + uio_resid u) in
    if newcount <? sems_count x then _ ← lock_release num; mret (EFBIG, u)
    else
      _ ← semfs_wakeup num newcount;
      _ ← sem_modify num (set_count newcount);
      _ ← lock_release num;
      mret (0, uio_skip (uio_resid u) u).

Definition semfs_truncate (vn len : Z) : M nst Z :=
  if len <? 0 then mret EINVAL
  else if 0xffffffff <? len then mret EFBIG
  else
    r ← semfs_getsem vn;
    let '(num, sem) := r in
    _ ← deref sem;
    _ ← lock_acquire num;
    _ ← semfs_wakeup num len;
    _ ← sem_modify num (set_count len);
    _ ← lock_release num;
    mret 0.

(** ** semfs_vnops.c: the directory *)

(** A NULL entry, left by [semfs_remove], is followed. *)
Definition semfs_getdirentry (dirvn : Z) (u : uio) : M nst (Z * uio) :=
  _ ← KASSERT (0 <=? uio_offset u);
  let pos := u32 (uio_offset u) in
  _ ← lock_acquire DIR;
  s ← get_sf;
  r ← (if Z.of_nat (length (semfs_dents s)) <=? pos then mret (0, u)
       else
         match semfs_dents s !! Z.to_nat pos with
         | Some (Some dent) =>
             r ← zoom (uiomove (semd_name dent) (Z.of_nat (length (semd_name dent))) u);
             mret (r.1.1, r.2)
         | _ => undef
         end);
  _ ← lock_release DIR;
  mret r.

(** The mode is written [S_IFDIR | 1777], in decimal. *)
Definition semfs_dirstat (vn : Z) : M nst (Z * stat) :=
  _ ← lock_acquire DIR;
  s ← get_sf;
  let num := Z.of_nat (length (semfs_dents s)) in
  _ ← lock_release DIR;
  mret (0, mk_stat num (Z.lor S_IFDIR 1777) 2 0 0 SEMFS_ROOTDIR 0 0).

Definition semfs_namefile (vn : Z) (u : uio) : M nst (Z * uio) := mret (0, u).

Definition DOT : list Z := [46].
Definition DOTDOT : list Z := [46; 46].
Definition is_dots (name : list Z) : bool := streq name DOT || streq name DOTDOT.

(** The first entry of that name: its position and its semaphore. *)
Fixpoint find_dent (name : list Z) (l : list (option semfs_direntry)) (i : Z) : option (Z * Z) :=
  match l with
  | [] => None
  | None :: l' => find_dent name l' (i + 1)
  | Some d :: l' => if streq (semd_name d) name then Some (i, semd_semnum d) else find_dent name l' (i + 1)
  end.

(** The end of [semfs_creat] from its last label on. *)
Definition creat_uncreate (sem : semfs_sem) (result : Z) : M nst (Z * Z) :=
  _ ← semfs_sem_destroy (Some sem);
  _ ← lock_release DIR;
  mret (result, 0).
Definition creat_uninsert (sem : semfs_sem) (semnum result : Z) : M nst (Z * Z) :=
  _ ← lock_acquire TABLE;
  _ ← semarray_set semnum None;
  _ ← lock_release TABLE;
  creat_uncreate sem result.

Definition semfs_creat (dirvn : Z) (name : list Z) (excl : bool) (mode : Z) : M nst (Z * Z) :=
  dx ← get_vn dirvn;
  fs ← deref (vn_fs dx);
  if is_dots name then mret (EEXIST, 0)
  else
    _ ← lock_acquire DIR;
    s ← get_sf;
    let num := Z.of_nat (length (semfs_dents s)) in
    match find_dent name (semfs_dents s) 0 with
    | Some (_, semnum) =>
        if excl then _ ← lock_release DIR; mret (EEXIST, 0)
        else
          r ← semfs_getvnode fs semnum;
          _ ← lock_release DIR;
          mret r
    | None =>
        let empty := match first_null (semfs_dents s) 0 with Some i => i | None => num end in
        sem ← semfs_sem_create;
        match sem with
        | None => _ ← lock_release DIR; mret (ENOMEM, 0)
        | Some sem =>
            _ ← lock_acquire TABLE;
            r ← semfs_sem_insert sem;
            let '(result, semnum) := r in
            _ ← lock_release TABLE;
            if negb (result =? 0) then creat_uncreate sem result
            else
              dent ← semfs_direntry_create name semnum;
              match dent with
              | None => creat_uninsert sem semnum result
              | Some d =>
                  r ← (if empty <? num then _ ← dents_set empty (Some d); mret (0, empty)
                       else
                         s ← get_sf;
                         room ← array_room num (semfs_dmax s);
                         match room with
                         | None => mret (ENOMEM, empty)
                         | Some m =>
                             s ← get_sf;
                             _ ← put_sf (Some (mk_semfs (semfs_vnodes s) (semfs_vmax s) (semfs_sems s) (semfs_smax s) (semfs_dents s ++ [Some d]) m));
                             mret (0, num)
                         end);
                  let '(result, empty) := r in
                  if negb (result =? 0) then
                    _ ← semfs_direntry_destroy (Some d);
                    creat_uninsert sem semnum result
                  else
                    r ← semfs_getvnode fs semnum;
                    let '(result, vn) := r in
                    if negb (result =? 0) then
                      _ ← dents_set empty None;
                      _ ← semfs_direntry_destroy (Some d);
                      creat_uninsert sem semnum result
                    else
                      _ ← sem_modify semnum (set_linked true);
                      _ ← lock_release DIR;
                      mret (0, vn)
              end
        end
    end.

Definition semfs_remove (dirvn : Z) (name : list Z) : M nst Z :=
  if is_dots name then mret EINVAL
  else
    _ ← lock_acquire DIR;
    s ← get_sf;
    result ← (match find_dent name (semfs_dents s) 0 with
              | None => mret ENOENT
              | Some (i, semnum) =>
                  sem ← semfs_getsembynum semnum;
                  x ← deref sem;
                  _ ← lock_acquire semnum;
                  _ ← KASSERT (sems_linked x);
                  _ ← sem_modify semnum (set_linked false);
                  _ ← (if negb (sems_hasvnode x) then
                         _ ← lock_acquire TABLE;
                         _ ← semarray_set semnum None;
                         _ ← lock_release TABLE;
                         _ ← lock_release semnum;
                         semfs_sem_destroy sem
                       else lock_release semnum);
                  _ ← dents_set i None;
                  _ ← semfs_direntry_destroy (Some (mk_dent name semnum));
                  mret 0
              end);
    _ ← lock_release DIR;
    mret result.

Definition semfs_lookup (dirvn : Z) (path : list Z) : M nst (Z * Z) :=
  dx ← get_vn dirvn;
  fs ← deref (vn_fs dx);
  if is_dots path then _ ← vnode_incref dirvn; mret (0, dirvn)
  else
    _ ← lock_acquire DIR;
    s ← get_sf;
    match find_dent path (semfs_dents s) 0 with
    | Some (_, semnum) =>
        r ← semfs_getvnode fs semnum;
        _ ← lock_release DIR;
        mret r
    | None => _ ← lock_release DIR; mret (ENOENT, 0)
    end.

Definition semfs_lookparent (dirvn : Z) (path : list Z) (bufmax : Z) : M nst (Z * (Z * list Z)) :=
  if bufmax <? Z.of_nat (length path) + 1 then mret (ENAMETOOLONG, (0, []))
  else
    _ ← vnode_incref dirvn;
    mret (0, (dirvn, path)).

(** ** The tables *)

Definition semfs_dirops : vnode_ops U semst :=
  mk_vops semfs_eachopen semfs_reclaim vopfail_uio_isdir vopfail_uio_isdir semfs_getdirentry vopfail_uio_isdir semfs_ioctl
    semfs_dirstat semfs_gettype semfs_isseekable semfs_fsync vopfail_mmap_isdir vopfail_truncate_isdir semfs_namefile
    semfs_creat vopfail_symlink_nosys vopfail_mkdir_nosys vopfail_link_nosys
    semfs_remove vopfail_string_nosys vopfail_rename_nosys semfs_lookup semfs_lookparent.

Definition semfs_semops : vnode_ops U semst :=
  mk_vops semfs_eachopen semfs_reclaim semfs_read vopfail_uio_inval vopfail_uio_notdir semfs_write semfs_ioctl
    semfs_semstat semfs_gettype semfs_isseekable semfs_fsync vopfail_mmap_perm semfs_truncate vopfail_uio_notdir
    vopfail_creat_notdir vopfail_symlink_notdir vopfail_mkdir_notdir vopfail_link_notdir
    vopfail_string_notdir vopfail_string_notdir vopfail_rename_notdir vopfail_lookup_notdir vopfail_lookparent_notdir.

(** ** semfs_fsops.c *)

Definition semfs_sync (fs : Z) : M nst Z := mret 0.
Definition SEM : list Z := [115; 101; 109].
Definition semfs_getvolname (fs : Z) : M nst (option (list Z)) := mret (Some SEM).

Definition semfs_getroot (fs : Z) : M nst (Z * Z) :=
  r ← semfs_getvnode fs SEMFS_ROOTDIR;
  if negb (r.1 =? 0) then mret (r.1, 0) else mret (0, r.2).

(** Every slot is destroyed, NULL or not. *)
Fixpoint destroy_all {A} (d : option A -> M nst unit) (l : list (option A)) : M nst unit :=
  match l with [] => mret tt | x :: l' => _ ← d x; destroy_all d l' end.

(** [array_destroy] frees the elements, if any were allocated, and the structure;
    [lock_destroy] asserts that nobody holds the lock. *)
Definition destroy_array (max : Z) : M nst unit := _ ← when (0 <? max) kfree; kfree.
Definition lock_destroy (l : Z) : M nst unit :=
  n ← get;
  _ ← KASSERT (bool_decide (sf_locks (n_fs n) !! l = None));
  kfree.

(** [array_cleanup] asserts that the array is empty: the two others were set to size 0. *)
Definition semfs_destroy : M nst unit :=
  s ← get_sf;
  _ ← destroy_all semfs_sem_destroy (semfs_sems s);
  _ ← destroy_all semfs_direntry_destroy (semfs_dents s);
  _ ← destroy_array (semfs_dmax s);
  _ ← lock_destroy DIR;
  _ ← destroy_array (semfs_smax s);
  _ ← KASSERT (match semfs_vnodes s with [] => true | _ => false end);
  _ ← destroy_array (semfs_vmax s);
  _ ← lock_destroy TABLE;
  _ ← kfree;
  put_sf None.

Definition semfs_unmount (fs : Z) : M nst Z :=
  _ ← lock_acquire TABLE;
  s ← get_sf;
  match semfs_vnodes s with
  | _ :: _ => _ ← lock_release TABLE; mret EBUSY
  | [] =>
      _ ← lock_release TABLE;
      _ ← semfs_destroy;
      mret 0
  end.

Definition semfs_fsops : fs_ops U semst := mk_fops semfs_sync semfs_getvolname semfs_getroot semfs_unmount.

(** The structure, two locks and three arrays. *)
Definition semfs_create : M nst Z :=
  a ← kmalloc;
  if a =? 0 then mret 0
  else
    r ← for_early 5 0 (fun i =>
          p ← kmalloc;
          if p =? 0 then _ ← for_loop (Z.to_nat i) 0 (fun _ => kfree); _ ← kfree; mret (Some 0) else mret None);
    match r with
    | Some _ => mret 0
    | None =>
        _ ← mod_st (fun f => mk_semst (Some (mk_semfs [] 0 [] 0 [] 0)) a (sf_locks f) (sf_me f) (sf_woken f));
        mret a
    end.

End Ops.

(** Semfs as the only file system, with the null device as the only driver. *)
#[export] Instance semfs_tables {U} `{US : UserSpace U} : FileSystems U semst := {
  fs_vnode_ops k := if k =? DIROPS then semfs_dirops else semfs_semops;
  fs_table _ := semfs_fsops;
  driver_ops _ := null_devops
}.

Definition semfs_bootstrap {U} `{US : UserSpace U} : M (vfs U semst) unit :=
  fs ← zoom semfs_create;
  if fs =? 0 then panic "Out of memory creating semfs"
  else
    result ← vfs_addfs SEM fs;
    if negb (result =? 0) then panic "Attaching semfs" else mret tt.

End Semfs.
