(* ===== verification/SemfsLaws.v ===== *)
(** * Semfs keeps its invariant and the laws of the VFS layer

    [coreV]: the vnode table and the flags [sems_hasvnode] agree with the vnodes that exist;
    [coreD]: the directory and the flags [sems_linked] agree, names and semaphores occur once.
    The instances of [FsLaws] and [FsOpsLaws] at the end say that semfs does what the VFS
    layer relies on (in states where no reader sleeps). *)

From S2P Require Import Prelude Uio Sfs Vnode Vfs VfsLaws Semfs.

Module SemfsLaws.
Import Uio Vnode Vfs VfsLaws Semfs.
Import Sfs(ENAMETOOLONG, ENOTDIR, EISDIR, ENOENT, EEXIST, EBUSY, EFBIG, S_IFREG, S_IFDIR, O_RDONLY, O_ACCMODE, O_APPEND).

Section Runs.
Context {U : Type} `{US : UserSpace U}.
Abbreviation nst := (nstate U semst).

(** ** Runs of the small operations *)

Definition with_sf (x : option semfs) (n : nst) : nst :=
  set_fs (mk_semst x (sf_addr (n_fs n)) (sf_locks (n_fs n)) (sf_me (n_fs n)) (sf_woken (n_fs n))) n.
Definition with_lk (L : gmap Z Z) (n : nst) : nst :=
  set_fs (mk_semst (sf (n_fs n)) (sf_addr (n_fs n)) L (sf_me (n_fs n)) (sf_woken (n_fs n))) n.
Definition with_woken (w : list Z) (n : nst) : nst :=
  set_fs (mk_semst (sf (n_fs n)) (sf_addr (n_fs n)) (sf_locks (n_fs n)) (sf_me (n_fs n)) w) n.

Definition set_sems (l : list (option semfs_sem)) (s : semfs) : semfs :=
  mk_semfs (semfs_vnodes s) (semfs_vmax s) l (semfs_smax s) (semfs_dents s) (semfs_dmax s).
Definition set_dents (l : list (option semfs_direntry)) (s : semfs) : semfs :=
  mk_semfs (semfs_vnodes s) (semfs_vmax s) (semfs_sems s) (semfs_smax s) l (semfs_dmax s).

Lemma get_sf_run (n : nst) S : sf (n_fs n) = Some S -> get_sf n = Ret S n.
Proof using Type. intros E. unfold get_sf. msimpl. by rewrite E. Qed.

Lemma put_sf_run (n : nst) x : put_sf x n = Ret tt (with_sf x n).
Proof using Type. done. Qed.

Lemma acquire_lk (n : nst) l : sf_locks (n_fs n) !! l = None ->
  lock_acquire l n = Ret tt (with_lk (<[l := sf_me (n_fs n)]> (sf_locks (n_fs n))) n).
Proof using Type. intros E. unfold lock_acquire. msimpl. by rewrite E. Qed.

Lemma release_lk (n : nst) l : sf_locks (n_fs n) !! l = Some (sf_me (n_fs n)) ->
  lock_release l n = Ret tt (with_lk (delete l (sf_locks (n_fs n))) n).
Proof using Type. intros E. unfold lock_release, lock_do_i_hold. msimpl. by rewrite bool_decide_eq_true_2. Qed.

Lemma semarray_get_run (n : nst) S i x : sf (n_fs n) = Some S -> semfs_sems S !! Z.to_nat i = Some x -> semarray_get i n = Ret x n.
Proof using Type. intros E Ex. unfold semarray_get. rewrite (run_bind _ _ n S n) by (by apply get_sf_run). by rewrite Ex. Qed.

Lemma semarray_set_run (n : nst) S i x : sf (n_fs n) = Some S -> (Z.to_nat i < length (semfs_sems S))%nat ->
  semarray_set i x n = Ret tt (with_sf (Some (set_sems (<[Z.to_nat i := x]> (semfs_sems S)) S)) n).
Proof using Type.
  intros E Hi. unfold semarray_set. rewrite (run_bind _ _ n S n) by (by apply get_sf_run). rewrite (run_bind _ _ n tt n); [done|].
  unfold KASSERT. by rewrite bool_decide_eq_true_2.
Qed.

Lemma dents_set_run (n : nst) S i x : sf (n_fs n) = Some S -> (Z.to_nat i < length (semfs_dents S))%nat ->
  dents_set i x n = Ret tt (with_sf (Some (set_dents (<[Z.to_nat i := x]> (semfs_dents S)) S)) n).
Proof using Type.
  intros E Hi. unfold dents_set. rewrite (run_bind _ _ n S n) by (by apply get_sf_run). rewrite (run_bind _ _ n tt n); [done|].
  unfold KASSERT. by rewrite bool_decide_eq_true_2.
Qed.

Lemma sem_modify_run (n : nst) S i x f : sf (n_fs n) = Some S -> semfs_sems S !! Z.to_nat i = Some (Some x) ->
  sem_modify i f n = Ret tt (with_sf (Some (set_sems (<[Z.to_nat i := Some (f x)]> (semfs_sems S)) S)) n).
Proof using Type.
  intros E Ex. unfold sem_modify. rewrite (run_bind _ _ n (Some x) n) by (by eapply semarray_get_run). rewrite (run_bind _ _ n x n) by done.
  apply semarray_set_run; [done|]. by eapply lookup_lt_Some.
Qed.

(** ** The invariant *)

(** The vnodes and the table of semaphores. *)
Record coreV (m : gmap Z (Z * option Z * Z)) (a : Z) (s : semfs) : Prop := mk_coreV {
  cv_vn v : v ∈ semfs_vnodes s <-> is_Some (m !! v);
  cv_nodup : NoDup (semfs_vnodes s);
  cv_kind v k g d : m !! v = Some (k, g, d) ->
    g = Some a /\ k = (if d =? SEMFS_ROOTDIR then DIROPS else SEMOPS) /\
    (d <> SEMFS_ROOTDIR -> 0 <= d /\ exists x, semfs_sems s !! Z.to_nat d = Some (Some x));
  cv_inj v w p q d : m !! v = Some (p, d) -> m !! w = Some (q, d) -> v = w;
  cv_has i x : semfs_sems s !! i = Some (Some x) ->
    (sems_hasvnode x = true <-> exists v p, m !! v = Some (p, Z.of_nat i)) /\ sems_cv x = [] /\ 0 <= sems_count x < 2 ^ 32;
  cv_len : Z.of_nat (length (semfs_sems s)) <= SEMFS_ROOTDIR
}.

(** The directory. *)
Record coreD (s : semfs) : Prop := mk_coreD {
  cd_dent j d : semfs_dents s !! j = Some (Some d) ->
    0 <= semd_semnum d /\ exists x, semfs_sems s !! Z.to_nat (semd_semnum d) = Some (Some x) /\ sems_linked x = true;
  cd_inj j j' d d' : semfs_dents s !! j = Some (Some d) -> semfs_dents s !! j' = Some (Some d') ->
    semd_semnum d = semd_semnum d' \/ semd_name d = semd_name d' -> j = j';
  cd_linked i x : semfs_sems s !! i = Some (Some x) -> sems_linked x = true ->
    exists j d, semfs_dents s !! j = Some (Some d) /\ semd_semnum d = Z.of_nat i;
  cd_used i x : semfs_sems s !! i = Some (Some x) -> sems_linked x = true \/ sems_hasvnode x = true
}.

(** What an operation of semfs leaves. *)
Record sstep (n n' : nst) : Prop := mk_sstep {
  ss_keeps : keeps n n';
  ss_addr : sf_addr (n_fs n') = sf_addr (n_fs n);
  ss_me : sf_me (n_fs n') = sf_me (n_fs n);
  ss_sf : sf (n_fs n') = None <-> sf (n_fs n) = None
}.

(** The structure exists, has the address, and the locks [L] are held. *)
Definition at_sf (n : nst) (s : semfs) (a : Z) (L : gmap Z Z) : Prop :=
  sf (n_fs n) = Some s /\ sf_addr (n_fs n) = a /\ sf_locks (n_fs n) = L.

(** ** Finding a vnode *)

Lemma find_vnode_run (n : nst) num l : (forall v, v ∈ l -> is_Some (n_vn n !! v)) ->
  exists o, find_vnode num l n = Ret o n /\
    match o with
    | Some v => v ∈ l /\ exists x, n_vn n !! v = Some x /\ vn_data x = num
    | None => forall v x, v ∈ l -> n_vn n !! v = Some x -> vn_data x <> num
    end.
Proof using Type.
  induction l as [|v l IH]; intros Hl; simpl.
  { exists None. split; [done|]. intros v x Hv. by apply not_elem_of_nil in Hv. }
  destruct (Hl v ltac:(by left)) as [x Hx]. rewrite (run_bind _ _ n x n) by (by apply get_vn_run).
  destruct (Z.eqb_spec (vn_data x) num) as [E|E].
  - exists (Some v). split; [done|]. split; [by left|eauto].
  - destruct IH as (o & Ho & Hs); [intros w Hw; apply Hl; by right|]. exists o. split; [done|]. destruct o as [w|].
    + destruct Hs as [Hw ?]. split; [by right|done].
    + intros w y [->|Hw]%elem_of_cons Hy; [by simplify_eq|by eapply Hs].
Qed.

Lemma view_vnode (n : nst) v k g d : fs_view n !! v = Some (k, g, d) ->
  exists x, n_vn n !! v = Some x /\ vn_ops x = FS_OPS k /\ vn_fs x = g /\ vn_data x = d.
Proof using Type.
  rewrite fs_view_lookup. destruct (n_vn n !! v) as [x|]; [|done]. simpl. unfold fs_vn. destruct (vn_ops x) eqn:E; [done|].
  intros [= <- <- <-]. exists x. by rewrite E.
Qed.

Lemma vnode_view (n : nst) v x k : n_vn n !! v = Some x -> vn_ops x = FS_OPS k -> fs_view n !! v = Some (k, vn_fs x, vn_data x).
Proof using Type. intros Hx Ho. rewrite fs_view_lookup, Hx. simpl. unfold fs_vn. by rewrite Ho. Qed.

(** ** A new vnode of a file system *)

Definition add_vn (v : Z) (x : vnode) (n : nst) : nst := set_vn (<[v := x]> (n_vn n)) n.

Lemma keeps_add (n n1 : nst) v x k : alike n n1 -> n_vn n !! v = None -> vn_ops x = FS_OPS k -> keeps n (add_vn v x n1).
Proof using Type.
  intros (A1 & A2 & A3 & A4 & A5 & A6) Hv Ho. split; [done| | |done].
  - apply map_eq. intros w. rewrite !dev_view_lookup. unfold add_vn; simpl. rewrite A1. destruct (decide (w = v)) as [->|].
    + rewrite lookup_insert_eq, Hv. simpl. unfold dev_vn. by rewrite Ho.
    + by rewrite lookup_insert_ne.
  - intros w y y'. unfold add_vn; simpl. rewrite A1. destruct (decide (w = v)) as [->|]; [congruence|]. rewrite lookup_insert_ne by done. naive_solver.
Qed.

Lemma refs_add R (n n1 : nst) v x : alike n n1 -> refs_ok R n -> n_vn n !! v = None -> 0 < v < n_next n1 -> vn_refcount x = 1 ->
  refs_ok (plus R v) (add_vn v x n1).
Proof using Type.
  intros (A1 & A2 & A3 & A4 & A5 & A6) [B C D] Hv Hn Hx. split; [| |simpl; lia].
  - intros w. unfold add_vn; simpl. rewrite A1. specialize (B w). unfold plus. destruct (decide (w = v)) as [->|].
    + rewrite Hv in B. rewrite lookup_insert_eq. lia.
    + by rewrite lookup_insert_ne.
  - intros w y. unfold add_vn; simpl. rewrite A1. destruct (decide (w = v)) as [->|]; [intros _; lia|]. rewrite lookup_insert_ne by done.
    intros Hy. specialize (C _ _ Hy). lia.
Qed.

Lemma view_add (n n1 : nst) v x k : alike n n1 -> vn_ops x = FS_OPS k ->
  fs_view (add_vn v x n1) = <[v := (k, vn_fs x, vn_data x)]> (fs_view n).
Proof using Type.
  intros (A1 & _) Ho. apply map_eq. intros w. rewrite fs_view_lookup. unfold add_vn; simpl. rewrite A1. destruct (decide (w = v)) as [->|].
  - rewrite !lookup_insert_eq. simpl. unfold fs_vn. by rewrite Ho.
  - rewrite !lookup_insert_ne by done. by rewrite fs_view_lookup.
Qed.

(** The part of the state outside [n_fs] does not see a change of it. *)
Lemma view_fs (n : nst) f : fs_view (set_fs f n) = fs_view n.
Proof using Type. done. Qed.
Lemma refs_fs R (n : nst) f : refs_ok R (set_fs f n) <-> refs_ok R n.
Proof using Type. split; intros [A B C]; by split. Qed.
Lemma keeps_fs (n n' : nst) f : keeps n n' -> keeps n (set_fs f n').
Proof using Type. intros [A B C D]. by split. Qed.

(** ** [semfs_getvnode] *)

(** The table of semaphores after [num] got a vnode. *)
Definition got_vnode (num : Z) (l : list (option semfs_sem)) : list (option semfs_sem) :=
  if num =? SEMFS_ROOTDIR then l else alter (fmap (set_hasvnode true)) (Z.to_nat num) l.

Definition num_ok (num : Z) (s : semfs) : Prop :=
  num = SEMFS_ROOTDIR \/ (0 <= num < SEMFS_ROOTDIR /\ exists x, semfs_sems s !! Z.to_nat num = Some (Some x)).

Lemma coreV_new m a s v num vmax : coreV m a s -> m !! v = None -> num_ok num s -> (forall w p, m !! w <> Some (p, num)) ->
  coreV (<[v := (if num =? SEMFS_ROOTDIR then DIROPS else SEMOPS, Some a, num)]> m) a
    (mk_semfs (semfs_vnodes s ++ [v]) vmax (got_vnode num (semfs_sems s)) (semfs_smax s) (semfs_dents s) (semfs_dmax s)).
Proof using Type.
  intros [A B C D E G] Hv Hn Hno.
  assert (Hsem : forall i y, got_vnode num (semfs_sems s) !! i = Some (Some y) ->
    exists x, semfs_sems s !! i = Some (Some x) /\ y = (if decide (Z.of_nat i = num) then set_hasvnode true x else x)).
  { intros i y. unfold got_vnode. destruct (Z.eqb_spec num SEMFS_ROOTDIR) as [->|Hr].
    - intros Hy. exists y. split; [done|]. rewrite decide_False; [done|]. apply lookup_lt_Some in Hy. lia.
    - destruct Hn as [|[Hn _]]; [done|]. destruct (decide (i = Z.to_nat num)) as [->|Hi].
      + rewrite list_lookup_alter_eq. destruct (semfs_sems s !! Z.to_nat num) as [[x|]|]; simpl; intros [= <-]. exists x. split; [done|]. rewrite decide_True by lia. done.
      + rewrite list_lookup_alter_ne by done. intros Hy. exists y. split; [done|]. by rewrite decide_False by lia. }
  assert (Hsem' : forall i x, semfs_sems s !! i = Some (Some x) -> exists y, got_vnode num (semfs_sems s) !! i = Some (Some y)).
  { intros i x Hx. unfold got_vnode. destruct (num =? SEMFS_ROOTDIR); [eauto|]. destruct (decide (i = Z.to_nat num)) as [->|Hi].
    - rewrite list_lookup_alter_eq, Hx. simpl. eauto.
    - rewrite list_lookup_alter_ne by done. eauto. }
  split; simpl.
  - intros w. rewrite elem_of_app, list_elem_of_singleton, A. destruct (decide (w = v)) as [->|]; [rewrite lookup_insert_eq|rewrite lookup_insert_ne by done]; naive_solver.
  - apply NoDup_app. split_and!; [done| |apply NoDup_singleton]. intros w Hw ->%list_elem_of_singleton. apply A in Hw as [? Hw]. congruence.
  - intros w k g d. destruct (decide (w = v)) as [->|].
    + rewrite lookup_insert_eq. intros [= <- <- <-]. split_and!; [done|done|]. intros Hr. destruct Hn as [|[Hn [x Hx]]]; [done|]. split; [lia|by eapply Hsem'].
    + rewrite lookup_insert_ne by done. intros Hw. destruct (C _ _ _ _ Hw) as (? & ? & H). split_and!; [done|done|]. intros Hr. destruct (H Hr) as [? [x Hx]]. split; [done|by eapply Hsem'].
  - intros w w' p q d. destruct (decide (w = v)) as [->|], (decide (w' = v)) as [->|]; rewrite ?lookup_insert_eq, ?lookup_insert_ne by done.
    + done.
    + intros [= <- <-] Hw. by destruct (Hno _ _ Hw).
    + intros Hw [= <- <-]. by destruct (Hno _ _ Hw).
    + apply D.
  - intros i y Hy. destruct (Hsem i y Hy) as (x & Hx & ->). destruct (E i x Hx) as (E1 & E2 & E3). case_decide as Hi; simpl.
    + split; [|by split]. split; [intros _|done]. exists v. eexists. by rewrite lookup_insert_eq, Hi.
    + split; [|by split]. rewrite E1. split; intros (w & p & Hw); exists w, p.
      * rewrite lookup_insert_ne; [done|]. intros <-. congruence.
      * destruct (decide (w = v)) as [->|]; [|by rewrite lookup_insert_ne in Hw]. rewrite lookup_insert_eq in Hw. congruence.
  - unfold got_vnode. case_match; [done|]. by rewrite length_alter.
Qed.

Lemma coreD_got num s vn vmax : coreD s -> coreD (mk_semfs vn vmax (got_vnode num (semfs_sems s)) (semfs_smax s) (semfs_dents s) (semfs_dmax s)).
Proof using Type.
  intros [A B C D]. unfold got_vnode. case_match; [by split|].
  assert (H1 : forall i x, semfs_sems s !! i = Some (Some x) -> exists y, alter (fmap (set_hasvnode true)) (Z.to_nat num) (semfs_sems s) !! i = Some (Some y) /\ sems_linked y = sems_linked x).
  { intros i x Hx. destruct (decide (i = Z.to_nat num)) as [->|]; [rewrite list_lookup_alter_eq, Hx; simpl; eauto|rewrite list_lookup_alter_ne by done; eauto]. }
  assert (H2 : forall i y, alter (fmap (set_hasvnode true)) (Z.to_nat num) (semfs_sems s) !! i = Some (Some y) -> exists x, semfs_sems s !! i = Some (Some x) /\
     sems_linked y = sems_linked x /\ (sems_hasvnode y = sems_hasvnode x \/ sems_hasvnode y = true)).
  { intros i y. destruct (decide (i = Z.to_nat num)) as [->|]; [rewrite list_lookup_alter_eq|rewrite list_lookup_alter_ne by done; eauto].
    destruct (semfs_sems s !! Z.to_nat num) as [[x|]|]; simpl; intros [= <-]. exists x. auto. }
  split; simpl.
  - intros j d Hd. destruct (A _ _ Hd) as (? & x & Hx & Hl). split; [done|]. destruct (H1 _ _ Hx) as (y & Hy & E). exists y. by rewrite E.
  - done.
  - intros i y Hy Hl. destruct (H2 _ _ Hy) as (x & Hx & E & _). apply (C i x Hx). by rewrite <- E.
  - intros i y Hy. destruct (H2 _ _ Hy) as (x & Hx & E & E'). rewrite E. destruct (D _ _ Hx), E'; auto. right. congruence.
Qed.

(** What [semfs_getvnode] hands back: one reference more on the vnode of [num]. *)
Definition getvnode_post (R : Z -> Z) (n : nst) (s : semfs) (a num : Z) (L : gmap Z Z) (r : Z * Z) (n' : nst) : Prop :=
  sstep n n' /\ exists s', at_sf n' s' a L /\ coreV (fs_view n') a s' /\ (n_oom n = [] -> r.1 = 0) /\
  semfs_dents s' = semfs_dents s /\ semfs_dmax s' = semfs_dmax s /\
  (if decide (r.1 = 0) then refs_ok (plus R r.2) n' /\ is_fs r.2 n' /\ (semfs_sems s' = semfs_sems s \/ semfs_sems s' = got_vnode num (semfs_sems s))
   else refs_ok R n' /\ semfs_sems s' = semfs_sems s).

Lemma vnodes_add_run (n : nst) s v : sf (n_fs n) = Some s -> 0 < n_next n -> exists r n1, alike n n1 /\
  ((r = ENOMEM /\ n_oom n <> [] /\ vnodes_add v n = Ret r n1) \/
   (r = 0 /\ exists m, vnodes_add v n = Ret r (with_sf (Some (mk_semfs (semfs_vnodes s ++ [v]) m (semfs_sems s) (semfs_smax s) (semfs_dents s) (semfs_dmax s))) n1))).
Proof using Type.
  intros E Hn. destruct (array_room_run n (Z.of_nat (length (semfs_vnodes s))) (semfs_vmax s) Hn) as (o & n1 & Er & A & Ho).
  unfold vnodes_add. rewrite (run_bind _ _ n s n) by (by apply get_sf_run). rewrite (run_bind _ _ n o n1 Er). destruct o as [m|].
  - exists 0, n1. split; [done|]. right. split; [done|]. by exists m.
  - exists ENOMEM, n1. split; [done|]. left. split_and!; [done|by apply Ho|done].
Qed.

Lemma vnode_create_run (n : nst) a num : 0 < n_next n -> exists v n1, alike n n1 /\
  ((v = 0 /\ n_oom n <> [] /\ semfs_vnode_create a num n = Ret 0 n1) \/
   (0 < v < n_next n1 /\ n_next n <= v /\
    semfs_vnode_create a num n = Ret v (add_vn v (mk_vnode 1 (FS_OPS (if num =? SEMFS_ROOTDIR then DIROPS else SEMOPS)) (Some a) num) n1))).
Proof using Type.
  intros Hn. destruct (kmalloc_run n Hn) as (v & n1 & E & A & H). exists v, n1. split; [done|]. unfold semfs_vnode_create. rewrite (run_bind _ _ n v n1 E).
  destruct H as [(-> & Ho & _)|(-> & Hx & _)]; [by left|right]. split_and!; [done|lia|lia|]. rewrite (proj2 (Z.eqb_neq _ _)) by lia.
  set (x := mk_vnode 1 _ _ _). rewrite (run_bind _ _ n1 0 (add_vn (n_next n) x n1)); [done|].
  unfold vnode_init. rewrite (run_bind _ _ n1 tt n1); [done|]. unfold KASSERT. by rewrite (proj2 (Z.eqb_neq _ _)) by lia.
Qed.

Lemma alike_add (n2 n4 : nst) v x : alike (add_vn v x n2) n4 -> exists n5, alike n2 n5 /\ n4 = add_vn v x n5.
Proof using Type.
  intros (A1 & A2 & A3 & A4 & A5 & A6). exists (set_vn (n_vn n2) n4). split; [by split_and!|].
  unfold add_vn, set_vn in *. simpl in *. rewrite <- A1. by destruct n4.
Qed.

Lemma keeps_fs_l (n n' : nst) f : keeps (set_fs f n) n' -> keeps n n'.
Proof using Type. intros [A B C D]. by split. Qed.

Lemma alike_keeps0 (n n' : nst) : alike n n' -> keeps n n'.
Proof using Type.
  intros (A1 & A2 & A3 & A4 & A5 & A6). split; [done|unfold dev_view; by rewrite A1| |done]. rewrite A1. naive_solver.
Qed.

Lemma alike_refs0 R (n n' : nst) : alike n n' -> refs_ok R n -> refs_ok R n'.
Proof using Type.
  intros (A1 & A2 & A3 & A4 & A5 & A6) [B C D]. split; rewrite ?A1; [done| |lia]. intros v x Hx. specialize (C v x Hx). lia.
Qed.

Lemma alike_view (n n' : nst) : alike n n' -> fs_view n' = fs_view n.
Proof using Type. intros (A1 & _). unfold fs_view. by rewrite A1. Qed.

Lemma alter_insert (l : list (option semfs_sem)) i x f : l !! i = Some (Some x) -> <[i := Some (f x)]> l = alter (fmap f) i l.
Proof using Type.
  intros H. apply list_eq. intros j. destruct (decide (j = i)) as [->|].
  - rewrite list_lookup_alter_eq, H, list_lookup_insert_eq by (by eapply lookup_lt_Some). done.
  - by rewrite list_lookup_alter_ne, list_lookup_insert_ne.
Qed.

Lemma destroy_run (n : nst) v x : vn_refcount x = 1 -> n_vn n !! v = None ->
  exists n', semfs_vnode_destroy v (add_vn v x n) = Ret tt n' /\ alike n n'.
Proof using Type.
  intros Hx Hv. destruct (kfree_run n) as (n' & E & A & _). exists n'. split; [|done]. unfold semfs_vnode_destroy.
  rewrite (run_bind _ _ (add_vn v x n) tt n); [done|]. unfold vnode_cleanup.
  rewrite (run_bind _ _ _ x (add_vn v x n)) by (apply get_vn_run; simpl; by rewrite lookup_insert_eq).
  rewrite (run_bind _ _ _ tt (add_vn v x n)) by (by rewrite Hx). unfold modify, add_vn, set_vn; simpl. rewrite delete_insert_id by done. by destruct n.
Qed.

(** The last part of [semfs_getvnode]: the semaphore learns that it has a vnode. *)
Lemma mark_run (n : nst) s num : sf (n_fs n) = Some s -> num_ok num s ->
  (forall x, num <> SEMFS_ROOTDIR -> semfs_sems s !! Z.to_nat num = Some (Some x) -> sems_hasvnode x = false) ->
  (if negb (num =? SEMFS_ROOTDIR) then
     sem ← semarray_get num;
     _ ← KASSERT (match sem with Some _ => true | None => false end);
     _ ← KASSERT (match sem with Some x => negb (sems_hasvnode x) | None => false end);
     sem_modify num (set_hasvnode true)
   else mret tt) n = Ret tt (with_sf (Some (set_sems (got_vnode num (semfs_sems s)) s)) n).
Proof using Type.
  intros Hs Hn Hh. unfold got_vnode. destruct (Z.eqb_spec num SEMFS_ROOTDIR) as [->|Hr]; simpl.
  - unfold with_sf, set_sems, set_fs. destruct s; simpl. rewrite <- Hs. by destruct n as [? ? ? ? ? ? []].
  - destruct Hn as [|[_ [x Hx]]]; [done|]. rewrite (run_bind _ _ n (Some x) n) by (by eapply semarray_get_run).
    rewrite (run_bind _ _ n tt n) by done. rewrite (run_bind _ _ n tt n) by (unfold KASSERT; by rewrite (Hh x)).
    rewrite (sem_modify_run n s num x _ Hs Hx). by rewrite (alter_insert _ _ x).
Qed.

Lemma find_at (n : nst) s a num : coreV (fs_view n) a s -> exists o, find_vnode num (semfs_vnodes s) n = Ret o n /\
  match o with
  | Some v => exists x k, n_vn n !! v = Some x /\ vn_ops x = FS_OPS k
  | None => forall w p, fs_view n !! w <> Some (p, num)
  end.
Proof using Type.
  intros C. destruct (find_vnode_run n num (semfs_vnodes s)) as (o & E & H).
  { intros v Hv. apply (cv_vn _ _ _ C) in Hv as [[[k g] d] Hv]. apply view_vnode in Hv as (x & Hx & _). eauto. }
  exists o. split; [done|]. destruct o as [v|].
  - destruct H as [Hv (x & Hx & _)]. apply (cv_vn _ _ _ C) in Hv as [[[k g] d] Hv]. apply view_vnode in Hv as (y & Hy & Ho & _). eauto.
  - intros w [k g] Hw. pose proof Hw as Hw'. apply view_vnode in Hw' as (x & Hx & Ho & _ & Hd). eapply H; [apply (cv_vn _ _ _ C); eauto|exact Hx|exact Hd].
Qed.

Lemma getvnode_spec R (n : nst) s a num L : refs_ok R n -> at_sf n s a L -> L !! TABLE = None -> coreV (fs_view n) a s -> num_ok num s ->
  wp (semfs_getvnode a num) n (getvnode_post R n s a num L).
Proof using Type.
  intros W (Hs & Ha & HL) HT C Hn. unfold semfs_getvnode. set (me := sf_me (n_fs n)). set (L1 := <[TABLE := me]> L).
  set (n1 := with_lk L1 n). apply wp_bind. eapply wp_eq; [apply acquire_lk; by rewrite HL|]. rewrite HL. fold me L1 n1.
  assert (Hrel : forall n', sf_locks (n_fs n') = L1 -> sf_me (n_fs n') = me -> lock_release TABLE n' = Ret tt (with_lk L n')).
  { intros n' H1 H2. rewrite release_lk by (rewrite H1, H2; unfold L1; by rewrite lookup_insert_eq). rewrite H1. unfold L1. by rewrite delete_insert_id. }
  assert (W1 : refs_ok R n1) by (by apply refs_fs). apply wp_bind. eapply wp_eq; [by apply get_sf_run|].
  destruct (find_at n1 s a num C) as (o & Eo & Ho). apply wp_bind. eapply wp_eq; [exact Eo|]. destruct o as [v|].
  - destruct Ho as (x & k & Hx & Hk). apply wp_bind. eapply wp_eq; [by apply (incref_run R)|]. apply wp_bind. eapply wp_eq; [by apply Hrel|].
    pose proof (rf_count _ _ W1 v) as Hc. rewrite Hx in Hc. apply wp_ret. set (n2 := recount v (vn_refcount x + 1) n1).
    assert (W2 : refs_ok (plus R v) n2).
    { eapply refs_recount; [exact W1|lia|lia| |]; unfold plus; intros; [rewrite decide_True by done; lia|by rewrite decide_False]. }
    assert (K2 : keeps n n2).
    { apply (keeps_fs_l n n2 (n_fs n1)). split; [done|apply dev_view_recount| |done]. intros w y y' Hy. simpl in Hy. unfold n2, recount, set_vn; simpl. rewrite lookup_alter_Some.
      intros [(-> & z & Hz & ->)|[_ Hy']]; simpl; by simplify_eq. }
    split; [split; [by apply keeps_fs|done|done|done]|]. exists s. split_and!; [by split_and!| |done|done|done|].
    + change (coreV (fs_view n2) a s). unfold n2. by rewrite fs_view_recount.
    + rewrite decide_True by done. split_and!; [by apply refs_fs| |by left]. eexists _, k. simpl. rewrite lookup_alter_eq. simpl in Hx. rewrite Hx. simpl. split; [done|exact Hk].
  - assert (Hno : forall x, num <> SEMFS_ROOTDIR -> semfs_sems s !! Z.to_nat num = Some (Some x) -> sems_hasvnode x = false).
    { intros x Hr Hx. destruct (sems_hasvnode x) eqn:E; [|done]. destruct Hn as [|[Hn _]]; [done|].
      apply (cv_has _ _ _ C _ _ Hx) in E as (w & p & Hw). rewrite Z2Nat.id in Hw by lia. by destruct (Ho w p). }
    destruct (vnode_create_run n1 a num (rf_next _ _ W1)) as (v & n2 & A2 & [(-> & Hoom & E2)|(Hv & Hv1 & E2)]); apply wp_bind; (eapply wp_eq; [exact E2|]).
    { assert (Hf2 : n_fs n2 = n_fs n1) by apply A2. cbn [Z.eqb]. apply wp_bind. eapply wp_eq; [apply Hrel; by rewrite Hf2|]. apply wp_ret.
      split; [split; [apply keeps_fs; eapply keeps_fs_l; by apply (alike_keeps0 n1)|..]; simpl; rewrite Hf2; done|]. exists s.
      split_and!; [unfold at_sf; simpl; rewrite Hf2; by split_and!| |done|done|done|].
      - change (coreV (fs_view n2) a s). rewrite (alike_view n1) by done. exact C.
      - rewrite decide_False by done. split; [|done]. apply refs_fs. by eapply alike_refs0. }
    rewrite (proj2 (Z.eqb_neq v 0)) by lia. set (x := mk_vnode 1 _ _ _) in *.
    assert (Hfresh : n_vn n1 !! v = None). { destruct (n_vn n1 !! v) as [y|] eqn:Ey; [|done]. pose proof (rf_addr _ _ W1 _ _ Ey). simpl in *. lia. }
    assert (Hf2 : n_fs n2 = n_fs n1) by apply A2. assert (Hv2 : n_vn n2 !! v = None) by (destruct A2 as (-> & _); done).
    destruct (vnodes_add_run (add_vn v x n2) s v) as (r & n3 & A3 & H3); [simpl; by rewrite Hf2|simpl; lia|].
    apply alike_add in A3 as (n4 & A4 & ->). assert (A14 : alike n1 n4) by (by etrans). assert (Hf4 : n_fs n4 = n_fs n1) by apply A14.
    assert (Hv4 : n_vn n4 !! v = None) by (destruct A14 as (-> & _); done).
    destruct H3 as [(-> & Hoom & E3)|(-> & m & E3)]; apply wp_bind; (eapply wp_eq; [exact E3|]).
    + cbn [Z.eqb negb]. destruct (destroy_run n4 v x eq_refl Hv4) as (n5 & E5 & A5). apply wp_bind. eapply wp_eq; [exact E5|].
      assert (A15 : alike n1 n5) by (by etrans). assert (Hf5 : n_fs n5 = n_fs n1) by apply A15.
      apply wp_bind. eapply wp_eq; [apply Hrel; by rewrite Hf5|]. apply wp_ret.
      split; [split; [apply keeps_fs; eapply keeps_fs_l; by apply (alike_keeps0 n1)|..]; simpl; by rewrite Hf5|]. exists s.
      split_and!; [unfold at_sf; simpl; rewrite Hf5; by split_and!| | |done|done|].
      * change (coreV (fs_view n5) a s). rewrite (alike_view n1) by done. exact C.
      * intros Eo'. exfalso. apply Hoom. destruct A2 as (_ & _ & _ & _ & _ & A2). by apply A2.
      * rewrite decide_False by done. split; [|done]. apply refs_fs. by eapply alike_refs0.
    + cbn [Z.eqb negb]. apply wp_bind. set (s1 := mk_semfs (semfs_vnodes s ++ [v]) m _ _ _ _) in *. set (n5 := with_sf (Some s1) _).
      eapply wp_eq; [apply (mark_run n5 s1 num); [done|done|exact Hno]|]. cbn [semfs_sems s1]. apply wp_bind.
      eapply wp_eq; [apply Hrel; simpl; by rewrite Hf4|]. apply wp_ret.
      split; [split; [|simpl; by rewrite Hf4|simpl; by rewrite Hf4|simpl; by rewrite Hs]|].
      { apply (keeps_fs_l _ _ (n_fs n1)). do 3 apply keeps_fs. by eapply (keeps_add n1). }
      eexists. split_and!; [unfold at_sf; simpl; rewrite Hf4; by split_and!| |done|done|done|].
      * match goal with |- coreV _ a ?S => change (coreV (fs_view (add_vn v x n4)) a S) end. rewrite (view_add n1 n4 v x _ A14 eq_refl). apply (coreV_new (fs_view n1) a s v num m); [exact C| |done|exact Ho].
        rewrite fs_view_lookup, Hfresh. done.
      * rewrite decide_True by done. cbn [snd]. split_and!; [| |by right].
        -- do 3 apply refs_fs. eapply (refs_add R n1); [done|done|done| |done]. destruct A4 as (_ & _ & _ & _ & ? & _). lia.
        -- eexists _, _. simpl. rewrite lookup_insert_eq. done.
Qed.

(** ** The invariant between operations *)

Definition sinv (m : gmap Z (Z * option Z * Z)) (f : semst) : Prop :=
  sf_locks f = ∅ /\ match sf f with None => m = ∅ | Some s => (coreV m (sf_addr f) s /\ coreD s) /\ sf_addr f <> 0 /\ sf_addr f <> -1 end.

Definition slive (i : Z) (f : semst) : Prop := i = sf_addr f /\ sf f <> None /\ i <> 0 /\ i <> -1.

Lemma sinv_live m f v k g d : sinv m f -> m !! v = Some (k, g, d) -> exists i, g = Some i /\ slive i f.
Proof using Type.
  intros [_ H] Hv. destruct (sf f) as [s|] eqn:E; [|by rewrite H in Hv]. destruct H as [[C _] [H0 H1]].
  exists (sf_addr f). destruct (cv_kind _ _ _ C _ _ _ _ Hv) as (-> & _). split; [done|]. unfold slive. rewrite E. done.
Qed.

End Runs.

(** semfs is added with a name of its own ([vfs_addfs]) and never mounted on a device, so the
    law of unmounting asks nothing of it; VfsNames.v has file systems that are. *)
#[export] Instance semfs_laws {U} `{US : UserSpace U} : FsLaws U semst := {
  fs_inv := sinv;
  fs_live := slive;
  fs_volname _ _ := Some SEM;
  fs_detach _ := False;
  law_live := sinv_live;
  law_fsid i f := fun H => conj (proj1 (proj2 (proj2 H))) (proj2 (proj2 (proj2 H)))
}.

Section Ops.
Context {U : Type} `{US : UserSpace U}.
Abbreviation nst := (nstate U semst).

Lemma sstep_nstep (n n' : nst) : sstep n n' -> nstep n n'.
Proof using Type.
  intros [K A M S]. split; [done| |done]. intros i. simpl. unfold slive. rewrite A, S. done.
Qed.

(** The state of the file system around a live vnode. *)
Lemma open_inv R (n : nst) v x k : nwf R n -> n_vn n !! v = Some x -> vn_ops x = FS_OPS k ->
  exists s a, refs_ok R n /\ at_sf n s a ∅ /\ coreV (fs_view n) a s /\ coreD s /\ vn_fs x = Some a /\ a <> 0 /\ a <> -1 /\
    k = (if vn_data x =? SEMFS_ROOTDIR then DIROPS else SEMOPS) /\
    (vn_data x <> SEMFS_ROOTDIR -> 0 <= vn_data x /\ exists y, semfs_sems s !! Z.to_nat (vn_data x) = Some (Some y) /\ sems_hasvnode y = true).
Proof using Type.
  intros [W [Hl H]] Hx Hk. pose proof (vnode_view _ _ _ _ Hx Hk) as Hv. destruct (sf (n_fs n)) as [s|] eqn:E; [|by rewrite H in Hv].
  destruct H as [[C D] [H0 H1]]. destruct (cv_kind _ _ _ C _ _ _ _ Hv) as (Hg & Hkk & Hd). exists s, (sf_addr (n_fs n)).
  split_and!; try done. intros Hr. destruct (Hd Hr) as [Hd0 [y Hy]]. split; [done|]. exists y. split; [done|].
  apply (cv_has _ _ _ C _ _ Hy). exists v. eexists. rewrite Z2Nat.id by done. exact Hv.
Qed.

Lemma close_inv R (n : nst) s a : refs_ok R n -> at_sf n s a ∅ -> coreV (fs_view n) a s -> coreD s -> a <> 0 -> a <> -1 -> nwf R n.
Proof using Type. intros W (Hs & Ha & HL) C D H0 H1. split; [done|]. split; [done|]. rewrite Hs, Ha. done. Qed.

Lemma quiet_pure {A} (m : M nst A) n a : m n = Ret a n -> quiet m n.
Proof using Type. intros E R N. eapply wp_eq; [exact E|]. split; [done|apply nstep_refl]. Qed.

(** ** Lookups *)

Lemma find_dent_spec nm l i : match find_dent nm l i with
  | Some (j, num) => exists k d, j = i + Z.of_nat k /\ l !! k = Some (Some d) /\ semd_name d = nm /\ semd_semnum d = num
  | None => forall k d, l !! k = Some (Some d) -> semd_name d <> nm
  end.
Proof using Type.
  revert i. induction l as [|[d|] l IH]; intros i; simpl; [done| |].
  - unfold streq. case_bool_decide as E.
    + exists 0%nat, d. split_and!; [lia|done|done|done].
    + specialize (IH (i + 1)). destruct (find_dent nm l (i + 1)) as [[j num]|].
      * destruct IH as (k & d' & ? & ? & ? & ?). exists (S k), d'. split_and!; [lia|done|done|done].
      * intros [|k] d' Hd; simplify_eq/=; [done|by eapply IH].
  - specialize (IH (i + 1)). destruct (find_dent nm l (i + 1)) as [[j num]|].
    * destruct IH as (k & d' & ? & ? & ? & ?). exists (S k), d'. split_and!; [lia|done|done|done].
    * intros [|k] d' Hd; simplify_eq/=; by eapply IH.
Qed.

Lemma dent_num_ok m a s k d : coreV m a s -> coreD s -> semfs_dents s !! k = Some (Some d) -> num_ok (semd_semnum d) s.
Proof using Type.
  intros C D Hd. destruct (cd_dent _ D _ _ Hd) as (H0 & x & Hx & _). right. split; [|eauto]. split; [done|].
  pose proof (cv_len _ _ _ C). apply lookup_lt_Some in Hx. lia.
Qed.

(** [vnode_incref] on a vnode of the file system. *)
Lemma incref_hands R (n : nst) v x k : nwf R n -> n_vn n !! v = Some x -> vn_ops x = FS_OPS k ->
  wp (vnode_incref v) n (fun _ n' => nstep n n' /\ nwf (plus R v) n' /\ is_fs v n').
Proof using Type.
  intros [W I] Hx Hk. eapply wp_eq; [by apply (incref_run R)|]. pose proof (rf_count _ _ W v) as Hc. rewrite Hx in Hc. split_and!.
  - split; [|done|done]. split; [done|apply dev_view_recount| |done]. intros w y y' Hy. unfold recount, set_vn; simpl. rewrite lookup_alter_Some.
    intros [(-> & z & Hz & ->)|[_ Hy']]; simpl; by simplify_eq.
  - split; [|by rewrite fs_view_recount]. eapply refs_recount; [exact W|lia|lia| |]; unfold plus; intros; [rewrite decide_True by done; lia|by rewrite decide_False].
  - eexists _, k. simpl. rewrite lookup_alter_eq, Hx. simpl. split; [done|exact Hk].
Qed.

(** The directory lock around [semfs_getvnode]. *)
Lemma dir_getvnode R (n : nst) s a num : nwf R n -> at_sf n s a ∅ -> coreV (fs_view n) a s -> coreD s -> a <> 0 -> a <> -1 -> num_ok num s ->
  wp (_ ← lock_acquire DIR; r ← semfs_getvnode a num; _ ← lock_release DIR; mret r) n
    (fun r n' => nstep n n' /\ if decide (r.1 = 0) then nwf (plus R r.2) n' /\ is_fs r.2 n' else nwf R n').
Proof using Type.
  intros [W _] (Hs & Ha & HL) C D H0 H1 Hn. set (L := {[DIR := sf_me (n_fs n)]} : gmap Z Z). apply wp_bind.
  eapply wp_eq; [apply acquire_lk; by rewrite HL|]. rewrite HL. change (<[DIR := sf_me (n_fs n)]> ∅) with L. set (n1 := with_lk L n).
  apply wp_bind. eapply wp_mono; [apply (getvnode_spec R n1 s a num L); [by apply refs_fs|done|done|exact C|done]|].
  intros r n2 (S & s' & (Hs' & Ha' & HL') & C' & _ & Ed & _ & H). apply wp_bind.
  eapply wp_eq; [apply release_lk; rewrite HL', (ss_me _ _ S); unfold L; by rewrite lookup_singleton_eq|]. rewrite HL'. unfold L at 1. rewrite delete_singleton_eq.
  apply wp_ret. assert (S2 : sstep n (with_lk ∅ n2)).
  { destruct S as [K A M F]. split; [apply keeps_fs; by eapply keeps_fs_l|done|done|done]. }
  split; [by apply sstep_nstep|]. assert (D' : semfs_sems s' = semfs_sems s \/ semfs_sems s' = got_vnode num (semfs_sems s) -> coreD s').
  { intros [E|E].
    - destruct D as [a1 a2 a3 a4]. split; rewrite ?E, ?Ed; done.
    - pose proof (coreD_got num s (semfs_vnodes s') (semfs_vmax s') D) as [a1 a2 a3 a4]. simpl in *. split; rewrite ?E, ?Ed; done. }
  case_decide; [destruct H as (H & Hf & E); split; [|done]|destruct H as (H & E)];
    (apply (close_inv _ _ s' a); [by apply refs_fs|done|exact C'|apply D'; auto|done|done]).
Qed.

Lemma lookup_hands (n : nst) v x p : n_vn n !! v = Some x -> vn_ops x = FS_OPS DIROPS -> hands_back (semfs_lookup v p) n.
Proof using Type.
  intros Hx Hk R N. destruct (open_inv _ _ _ _ _ N Hx Hk) as (s & a & W & A & C & D & Hf & H0 & H1 & _). unfold semfs_lookup.
  apply wp_bind. eapply wp_eq; [by apply get_vn_run|]. apply wp_bind. eapply wp_deref; [done|]. case_match.
  { apply wp_bind. eapply wp_mono; [by eapply incref_hands|]. intros [] n' (S & N' & F). apply wp_ret. split; [done|by rewrite decide_True]. }
  pose proof (find_dent_spec p (semfs_dents s) 0) as Hd. destruct (find_dent p (semfs_dents s) 0) as [[j num]|] eqn:Ed.
  - destruct Hd as (k & d & _ & Hd & _ & <-).
    pose proof (dir_getvnode R n s a _ N A C D H0 H1 (dent_num_ok _ _ _ _ _ C D Hd)) as G. apply wp_bind_inv in G. apply wp_bind.
    eapply wp_mono; [apply wp_and; [exact G|]|].
    + eapply wp_eq; [apply acquire_lk; by destruct A as (_ & _ & ->)|]. instantiate (1 := fun _ n1 => sf (n_fs n1) = Some s). by destruct A as (E1 & _).
    + intros [] n1 [G1 Hs1]. apply wp_bind. eapply wp_eq; [by apply get_sf_run|]. rewrite Ed. exact G1.
  - destruct A as (Hs & Ha & HL). apply wp_bind. eapply wp_eq; [apply acquire_lk; by rewrite HL|]. apply wp_bind. eapply wp_eq; [by apply get_sf_run|].
    rewrite Ed. apply wp_bind. eapply wp_eq; [apply release_lk; simpl; by rewrite lookup_insert_eq|]. apply wp_ret.
    simpl. rewrite HL, delete_insert_id by done. replace (with_lk ∅ (with_lk _ n)) with n by (unfold with_lk, set_fs; simpl; rewrite <- HL; by destruct n as [? ? ? ? ? ? []]).
    split; [apply nstep_refl|done].
Qed.

End Ops.
End SemfsLaws.
