(* ===== verification/SemfsInst.v ===== *)
(** * Semfs implements the interface of the VFS layer *)

From S2P Require Import Prelude Uio Sfs Vnode Vfs VfsLaws Semfs SemfsLaws.

Module SemfsInst.
Import Uio Vnode Vfs VfsLaws Semfs SemfsLaws.
Import Sfs(ENAMETOOLONG, ENOTDIR, EISDIR, ENOENT, EEXIST, EBUSY, EFBIG, S_IFREG, S_IFDIR, O_RDONLY, O_ACCMODE, O_APPEND).

Section Inst.
Context {U : Type} `{US : UserSpace U}.
Abbreviation nst := (nstate U semst).

Lemma with_sf_same (n : nst) s : sf (n_fs n) = Some s -> with_sf (Some s) n = n.
Proof using Type. intros E. unfold with_sf, set_fs. rewrite <- E. by destruct n as [? ? ? ? ? ? []]. Qed.

Lemma with_lk_same (n : nst) L L' : sf_locks (n_fs n) = L -> with_lk L (with_lk L' n) = n.
Proof using Type. intros <-. unfold with_lk, set_fs. simpl. by destruct n as [? ? ? ? ? ? []]. Qed.

Lemma set_sems_same s l : semfs_sems s = l -> set_sems l s = s.
Proof using Type. intros <-. by destruct s. Qed.

(** One lock taken and given back, when none is held. *)
Lemma lock_pair {A} (n : nst) l (m : M nst A) Q : sf_locks (n_fs n) = ∅ ->
  wp m (with_lk {[l := sf_me (n_fs n)]} n) (fun a n' => sf_locks (n_fs n') = {[l := sf_me (n_fs n)]} /\ sf_me (n_fs n') = sf_me (n_fs n) /\ Q a (with_lk ∅ n')) ->
  wp (_ ← lock_acquire l; r ← m; _ ← lock_release l; mret r) n Q.
Proof using Type.
  intros HL H. apply wp_bind. eapply wp_eq; [apply acquire_lk; by rewrite HL|]. rewrite HL. change (<[l := sf_me (n_fs n)]> ∅) with ({[l := sf_me (n_fs n)]} : gmap Z Z).
  apply wp_bind. eapply wp_mono; [exact H|]. intros a n' (H1 & H2 & HQ). apply wp_bind.
  eapply wp_eq; [apply release_lk; rewrite H1, H2; by rewrite lookup_singleton_eq|]. rewrite H1, delete_singleton_eq. by apply wp_ret.
Qed.

Lemma getsembynum_run (n : nst) s i o : sf (n_fs n) = Some s -> sf_locks (n_fs n) !! TABLE = None -> semfs_sems s !! Z.to_nat i = Some o ->
  semfs_getsembynum i n = Ret o n.
Proof using Type.
  intros Hs HL Ho. unfold semfs_getsembynum. rewrite (run_bind _ _ _ _ _ (acquire_lk n TABLE HL)). set (n1 := with_lk _ n).
  rewrite (run_bind _ _ n1 o n1) by (by eapply semarray_get_run).
  rewrite (run_bind _ _ _ _ _ (release_lk n1 TABLE ltac:(simpl; by rewrite lookup_insert_eq))). simpl. rewrite delete_insert_id by done.
  unfold n1. by rewrite with_lk_same.
Qed.

(** Nobody sleeps: nothing is woken. *)
Lemma wakeup_quiet (n : nst) s i x c : sf (n_fs n) = Some s -> semfs_sems s !! Z.to_nat i = Some (Some x) -> sems_cv x = [] ->
  semfs_wakeup i c n = Ret tt n.
Proof using Type.
  intros Hs Hx Hc. unfold semfs_wakeup, cv_signal, cv_broadcast. rewrite (run_bind _ _ n (Some x) n) by (by eapply semarray_get_run).
  rewrite (run_bind _ _ n x n) by done. case_match; [done|]. case_match.
  - rewrite (run_bind _ _ n (Some x) n) by (by eapply semarray_get_run). rewrite (run_bind _ _ n x n) by done. by rewrite Hc.
  - rewrite (run_bind _ _ n (Some x) n) by (by eapply semarray_get_run). rewrite (run_bind _ _ n x n) by done.
    rewrite (run_bind _ _ _ _ _ (sem_modify_run n s i x _ Hs Hx)). assert (E : set_cv [] x = x) by (rewrite <- Hc; by destruct x).
    rewrite E, list_insert_id by done. rewrite set_sems_same by done. rewrite with_sf_same by done. unfold mod_st, modify, set_fs. rewrite Hc, app_nil_r.
    by destruct n as [? ? ? ? ? ? []].
Qed.

(** A semaphore changes without its flags. *)
Lemma coreV_upd m a s i x y : coreV m a s -> semfs_sems s !! i = Some (Some x) -> sems_hasvnode y = sems_hasvnode x -> sems_cv y = [] ->
  0 <= sems_count y < 2 ^ 32 -> coreV m a (set_sems (<[i := Some y]> (semfs_sems s)) s).
Proof using Type.
  intros [A B C D E G] Hx Hh Hcv Hc. assert (Hlt : (i < length (semfs_sems s))%nat) by (by eapply lookup_lt_Some).
  split; simpl; try done.
  - intros v k g d Hv. destruct (C _ _ _ _ Hv) as (Hg & Hkk & H). split_and!; [done|done|]. intros Hr. destruct (H Hr) as [Hd0 [z Hz]]. split; [done|].
    destruct (decide (Z.to_nat d = i)) as [->|]; [rewrite list_lookup_insert_eq by done; eauto|rewrite list_lookup_insert_ne by done; eauto].
  - intros j z. destruct (decide (j = i)) as [->|].
    + rewrite list_lookup_insert_eq by done. intros [= <-]. destruct (E _ _ Hx) as (E1 & _). rewrite Hh. split; [done|by split].
    + rewrite list_lookup_insert_ne by done. apply E.
  - by rewrite length_insert.
Qed.

Lemma coreD_upd s i x y : coreD s -> semfs_sems s !! i = Some (Some x) -> sems_linked y = sems_linked x -> sems_hasvnode y = sems_hasvnode x ->
  coreD (set_sems (<[i := Some y]> (semfs_sems s)) s).
Proof using Type.
  intros [A B C D] Hx Hl Hh. assert (Hlt : (i < length (semfs_sems s))%nat) by (by eapply lookup_lt_Some). split; simpl; try done.
  - intros j d Hd. destruct (A _ _ Hd) as (? & z & Hz & Hzl). split; [done|].
    destruct (decide (Z.to_nat (semd_semnum d) = i)) as [E|]; [rewrite E, list_lookup_insert_eq by done; rewrite E in Hz; simplify_eq; exists y; by rewrite Hl|].
    rewrite list_lookup_insert_ne by done. eauto.
  - intros j z. destruct (decide (j = i)) as [->|]; [rewrite list_lookup_insert_eq by done; intros [= <-]; rewrite Hl; by apply C|].
    rewrite list_lookup_insert_ne by done. apply C.
  - intros j z. destruct (decide (j = i)) as [->|]; [rewrite list_lookup_insert_eq by done; intros [= <-]; rewrite Hl, Hh; by eapply D|].
    rewrite list_lookup_insert_ne by done. apply D.
Qed.

Lemma keeps_refl0 (n : nst) : keeps n n.
Proof using Type. split; [done|done|naive_solver|done]. Qed.

Lemma truncate_quiet (n : nst) v x len : n_vn n !! v = Some x -> vn_ops x = FS_OPS SEMOPS -> quiet (semfs_truncate v len) n.
Proof using Type.
  intros Hx Hk R N. destruct (open_inv _ _ _ _ _ N Hx Hk) as (s & a & W & (Hs & Ha & HL) & C & D & Hf & H0 & H1 & Hkk & Hd).
  unfold semfs_truncate. destruct (Z.ltb_spec len 0) as [E1|E1]; [apply wp_ret; split; [done|apply nstep_refl]|].
  destruct (Z.ltb_spec 0xffffffff len) as [E2|E2]; [apply wp_ret; split; [done|apply nstep_refl]|]. destruct Hd as [Hd0 (y & Hy & Hh)]; [by intros E; rewrite E in Hkk|]. set (num := vn_data x) in *.
  destruct (cv_has _ _ _ C _ _ Hy) as (_ & Hcv & _).
  apply wp_bind. eapply (wp_eq _ _ (num, Some y) n).
  { unfold semfs_getsem. rewrite (run_bind _ _ n x n) by (by apply get_vn_run). fold num.
    rewrite (run_bind _ _ n (Some y) n); [done|]. eapply getsembynum_run; [done|by rewrite HL|done]. }
  cbv iota beta. apply wp_bind. eapply wp_deref; [done|].
  set (s' := set_sems (<[Z.to_nat num := Some (set_count len y)]> (semfs_sems s)) s).
  set (n1 := with_lk {[num := sf_me (n_fs n)]} n).
  apply wp_bind. eapply wp_eq; [apply acquire_lk; by rewrite HL|]. rewrite HL. change (with_lk _ n) with n1.
  apply wp_bind. eapply wp_eq; [by eapply wakeup_quiet|]. apply wp_bind. eapply wp_eq; [by apply (sem_modify_run n1 s num y)|]. fold s'.
  apply wp_bind. eapply wp_eq; [apply release_lk; simpl; by rewrite lookup_singleton_eq|]. simpl. rewrite delete_singleton_eq. apply wp_ret. split.
  - eapply (close_inv _ _ s' a); [by do 3 apply refs_fs|done| |by eapply coreD_upd|done|done]. eapply coreV_upd; [exact C|done|done|exact Hcv|simpl; lia].
  - apply sstep_nstep. split; [do 3 apply keeps_fs; apply keeps_refl0|done|done|simpl; by rewrite Hs].
Qed.

(** ** Reclaim *)

Lemma remove_first_elem v w l : NoDup l -> w ∈ remove_first v l <-> w ∈ l /\ w <> v.
Proof using Type.
  induction 1 as [|u l Hu Hl IH]; simpl; [rewrite elem_of_nil; naive_solver|]. destruct (Z.eqb_spec u v) as [->|Hne].
  - rewrite elem_of_cons. split; [intros Hw; split; [by right|by intros ->]|intros [[->|Hw] Hn]; [done|done]].
  - rewrite !elem_of_cons, IH. naive_solver.
Qed.

Lemma remove_first_nodup v l : NoDup l -> NoDup (remove_first v l).
Proof using Type.
  induction 1 as [|u l Hu Hl IH]; simpl; [constructor|]. case_match; [done|]. constructor; [|done]. rewrite remove_first_elem by done. naive_solver.
Qed.

(** The table of semaphores after [num] lost its vnode: an unlinked semaphore goes. *)
Definition drop_vnode (o : option semfs_sem) : option semfs_sem :=
  match o with Some y => if sems_linked y then Some (set_hasvnode false y) else None | None => None end.
Definition lost_vnode (num : Z) (l : list (option semfs_sem)) : list (option semfs_sem) :=
  if num =? SEMFS_ROOTDIR then l else alter drop_vnode (Z.to_nat num) l.

Lemma lost_lookup num l i y : num <> SEMFS_ROOTDIR -> 0 <= num -> lost_vnode num l !! i = Some (Some y) ->
  exists x, l !! i = Some (Some x) /\ (if decide (Z.of_nat i = num) then sems_linked x = true /\ y = set_hasvnode false x else y = x).
Proof using Type.
  intros Hr H0. unfold lost_vnode. rewrite (proj2 (Z.eqb_neq _ _)) by done. destruct (decide (i = Z.to_nat num)) as [->|Hi].
  - rewrite list_lookup_alter_eq. destruct (l !! Z.to_nat num) as [[x|]|]; simpl; try done.
    destruct (sems_linked x) eqn:E; [|done]. intros [= <-]. exists x. split; [done|]. by rewrite decide_True by lia.
  - rewrite list_lookup_alter_ne by done. intros Hy. exists y. split; [done|]. by rewrite decide_False by lia.
Qed.

Lemma lost_other num l i x : num <> SEMFS_ROOTDIR -> 0 <= num -> Z.of_nat i <> num -> l !! i = Some (Some x) -> lost_vnode num l !! i = Some (Some x).
Proof using Type.
  intros Hr H0 Hi Hx. unfold lost_vnode. rewrite (proj2 (Z.eqb_neq _ _)) by done. rewrite list_lookup_alter_ne by lia. done.
Qed.

Definition without_vnode (v num : Z) (s : semfs) : semfs :=
  mk_semfs (remove_first v (semfs_vnodes s)) (semfs_vmax s) (lost_vnode num (semfs_sems s)) (semfs_smax s) (semfs_dents s) (semfs_dmax s).

Lemma coreV_del m a s v k g d : coreV m a s -> m !! v = Some (k, g, d) -> coreV (delete v m) a (without_vnode v d s).
Proof using Type.
  intros [A B C D E G] Hv. destruct (C _ _ _ _ Hv) as (_ & _ & Hd). split; simpl.
  - intros w. rewrite remove_first_elem by done. rewrite A. destruct (decide (w = v)) as [->|]; [rewrite lookup_delete_eq|rewrite lookup_delete_ne by done].
    + split; [naive_solver|]. by intros [? ?].
    + naive_solver.
  - by apply remove_first_nodup.
  - intros w k' g' d' Hw. apply lookup_delete_Some in Hw as [Hne Hw]. destruct (C _ _ _ _ Hw) as (Hg & Hk & H). split_and!; [done|done|]. intros Hr.
    destruct (H Hr) as [H0 [x Hx]]. split; [done|]. unfold lost_vnode. destruct (Z.eqb_spec d SEMFS_ROOTDIR); [eauto|].
    destruct (Hd ltac:(done)) as [Hd0 _]. rewrite list_lookup_alter_ne; [eauto|]. intros E'. assert (d = d') as -> by lia. apply Hne. by eapply D.
  - intros w w' p q d' Hw Hw'. apply lookup_delete_Some in Hw as [_ Hw]. apply lookup_delete_Some in Hw' as [_ Hw']. by eapply D.
  - intros i y Hy. destruct (Z.eqb_spec d SEMFS_ROOTDIR) as [Er|Hr].
    + unfold lost_vnode in Hy. rewrite Er, Z.eqb_refl in Hy. destruct (E i y Hy) as (E1 & E2). split; [|done]. rewrite E1. split; intros (w & p & Hw); exists w, p.
      * rewrite lookup_delete_ne; [done|]. intros <-. rewrite Hv in Hw. injection Hw as _ Hw. apply lookup_lt_Some in Hy. rewrite Er in Hw. lia.
      * by apply lookup_delete_Some in Hw as [_ Hw].
    + destruct (Hd Hr) as [Hd0 _]. destruct (lost_lookup d _ i y Hr Hd0 Hy) as (x & Hx & Hcase). destruct (E i x Hx) as (E1 & E2). case_decide as Hi.
      * destruct Hcase as [_ ->]. simpl. split; [|done]. split; [done|]. intros (w & p & Hw). apply lookup_delete_Some in Hw as [Hne Hw].
        destruct Hne. rewrite Hi in Hw. by eapply D.
      * subst y. split; [|done]. rewrite E1. split; intros (w & p & Hw); exists w, p.
        -- rewrite lookup_delete_ne; [done|]. intros <-. rewrite Hv in Hw. congruence.
        -- by apply lookup_delete_Some in Hw as [_ Hw].
  - unfold lost_vnode. case_match; [done|]. by rewrite length_alter.
Qed.

Lemma coreD_del s v d : coreD s -> (d <> SEMFS_ROOTDIR -> 0 <= d) -> coreD (without_vnode v d s).
Proof using Type.
  intros CD H0. destruct (Z.eqb_spec d SEMFS_ROOTDIR) as [Er|Hr].
  { destruct CD as [A B C D]. unfold without_vnode, lost_vnode. rewrite Er, Z.eqb_refl. by split. }
  specialize (H0 Hr). destruct CD as [A B C D]. split; simpl.
  - intros j e He. destruct (A _ _ He) as (Hn & x & Hx & Hl). split; [done|]. unfold lost_vnode. rewrite (proj2 (Z.eqb_neq _ _)) by done.
    destruct (decide (Z.to_nat (semd_semnum e) = Z.to_nat d)) as [E|]; [rewrite E, list_lookup_alter_eq; rewrite E in Hx; rewrite Hx|rewrite list_lookup_alter_ne by done; eauto].
    simpl. rewrite Hl. simpl. eauto.
  - done.
  - intros i y Hy Hl. destruct (lost_lookup d _ i y Hr H0 Hy) as (x & Hx & Hc). apply (C i x Hx). case_decide; [by destruct Hc as [? ->]|by subst].
  - intros i y Hy. destruct (lost_lookup d _ i y Hr H0 Hy) as (x & Hx & Hc). case_decide; [destruct Hc as [? ->]; by left|subst; by eapply D].
Qed.

Definition del_vn (v : Z) (n : nst) : nst := set_vn (delete v (n_vn n)) n.

Lemma keeps_del (n : nst) v x k : n_vn n !! v = Some x -> vn_ops x = FS_OPS k -> keeps n (del_vn v n).
Proof using Type.
  intros Hx Ho. split; [done| | |done].
  - apply map_eq. intros w. rewrite !dev_view_lookup. simpl. destruct (decide (w = v)) as [->|]; [rewrite lookup_delete_eq, Hx|by rewrite lookup_delete_ne].
    simpl. unfold dev_vn. by rewrite Ho.
  - intros w y y' Hy Hy'. simpl in Hy'. apply lookup_delete_Some in Hy' as [_ Hy']. by simplify_eq.
Qed.

Lemma view_del (n : nst) v : fs_view (del_vn v n) = delete v (fs_view n).
Proof using Type.
  apply map_eq. intros w. rewrite fs_view_lookup. simpl. destruct (decide (w = v)) as [->|]; [by rewrite !lookup_delete_eq|].
  rewrite !lookup_delete_ne by done. by rewrite fs_view_lookup.
Qed.

Lemma refs_del R (n : nst) v : refs_ok R n -> R v = 1 -> refs_ok (minus R v) (del_vn v n).
Proof using Type.
  intros [A B C] Hv. split; [| |done].
  - intros w. simpl. unfold minus. specialize (A w). destruct (decide (w = v)) as [->|]; [rewrite lookup_delete_eq; lia|by rewrite lookup_delete_ne].
  - intros w x Hx. simpl in Hx. apply lookup_delete_Some in Hx as [_ Hx]. by eapply B.
Qed.

Lemma sem_destroy_run (n : nst) y : sems_cv y = [] -> exists n', semfs_sem_destroy (Some y) n = Ret tt n' /\ alike n n'.
Proof using Type.
  intros Hc. destruct (kfree_run n) as (n1 & E1 & A1 & _). destruct (kfree_run n1) as (n2 & E2 & A2 & _). destruct (kfree_run n2) as (n3 & E3 & A3 & _).
  exists n3. split; [|do 2 (etrans; [eassumption|]); done]. unfold semfs_sem_destroy. rewrite (run_bind _ _ n y n) by done.
  rewrite (run_bind _ _ n tt n) by (by rewrite Hc). rewrite (run_bind _ _ n tt n1 E1). by rewrite (run_bind _ _ n1 tt n2 E2).
Qed.

(** The change of the semaphore in [semfs_reclaim]. *)
Lemma reclaim_sem (n : nst) s d y : sf (n_fs n) = Some s -> (d <> SEMFS_ROOTDIR -> semfs_sems s !! Z.to_nat d = Some (Some y) /\ sems_hasvnode y = true /\ sems_cv y = []) ->
  exists n', alike (with_sf (Some (set_sems (lost_vnode d (semfs_sems s)) s)) n) n' /\
  (if negb (d =? SEMFS_ROOTDIR) then
     sem ← semarray_get d;
     y ← deref sem;
     _ ← KASSERT (sems_hasvnode y);
     _ ← sem_modify d (set_hasvnode false);
     if negb (sems_linked y) then _ ← semarray_set d None; semfs_sem_destroy sem else mret tt
   else mret tt) n = Ret tt n'.
Proof using Type.
  intros Hs H. unfold lost_vnode. destruct (Z.eqb_spec d SEMFS_ROOTDIR) as [Er|Hr]; cbn [negb].
  - exists n. split; [|done]. rewrite set_sems_same, with_sf_same by done. reflexivity.
  - destruct (H Hr) as (Hy & Hh & Hc). assert (Hlt : (Z.to_nat d < length (semfs_sems s))%nat) by (by eapply lookup_lt_Some).
    rewrite (run_bind _ _ n (Some y) n) by (by eapply semarray_get_run). rewrite (run_bind _ _ n y n) by done. rewrite (run_bind _ _ n tt n) by (by rewrite Hh).
    rewrite (run_bind _ _ _ _ _ (sem_modify_run n s d y _ Hs Hy)). destruct (sems_linked y) eqn:El; cbn [negb].
    + eexists. split; [|done]. match goal with |- alike (with_sf (Some ?a) _) (with_sf (Some ?b) _) => replace a with b; [reflexivity|] end.
      unfold set_sems. simpl. f_equal. apply list_eq. intros i. destruct (decide (i = Z.to_nat d)) as [->|].
      * rewrite list_lookup_insert_eq, list_lookup_alter_eq, Hy by done. simpl. by rewrite El.
      * by rewrite list_lookup_insert_ne, list_lookup_alter_ne.
    + set (s1 := set_sems (<[Z.to_nat d := Some (set_hasvnode false y)]> (semfs_sems s)) s). set (n1 := with_sf (Some s1) n).
      assert (Hlt1 : (Z.to_nat d < length (semfs_sems s1))%nat) by (unfold s1, set_sems; cbn [semfs_sems]; by rewrite length_insert).
      rewrite (run_bind _ _ _ _ _ (semarray_set_run n1 s1 d None eq_refl Hlt1)).
      match goal with |- context [semfs_sem_destroy (Some y) ?n2] => destruct (sem_destroy_run n2 y Hc) as (n3 & E3 & A3) end.
      exists n3. split; [|done]. etrans; [|exact A3]. match goal with |- alike (with_sf (Some ?a) _) (with_sf (Some ?b) _) => replace b with a; [reflexivity|] end.
      unfold s1, set_sems. simpl. f_equal. apply list_eq. intros i. destruct (decide (i = Z.to_nat d)) as [->|].
      * rewrite list_lookup_insert_eq by (by rewrite length_insert). rewrite list_lookup_alter_eq, Hy. simpl. by rewrite El.
      * by rewrite !list_lookup_insert_ne, list_lookup_alter_ne.
Qed.

Lemma reclaim_spec (n : nst) v x k R : n_vn n !! v = Some x -> vn_ops x = FS_OPS k -> nwf R n -> R v = 1 ->
  wp (semfs_reclaim v) n (fun _ n' => nwf (minus R v) n' /\ nstep n n').
Proof using Type.
  intros Hx Hk N Hv. destruct (open_inv _ _ _ _ _ N Hx Hk) as (s & a & W & (Hs & Ha & HL) & C & D & Hf & H0 & H1 & Hkk & Hd).
  pose proof (vnode_view _ _ _ _ Hx Hk) as Hview. pose proof (rf_count _ _ W v) as Hc. rewrite Hx in Hc.
  unfold semfs_reclaim. apply wp_bind. eapply wp_eq; [by apply get_vn_run|]. set (d := vn_data x) in *.
  apply wp_bind. eapply wp_eq; [apply acquire_lk; by rewrite HL|]. rewrite HL. set (n1 := with_lk _ n).
  rewrite (proj2 (Z.ltb_ge 1 (vn_refcount x))) by lia. apply wp_bind. eapply wp_eq; [by apply get_sf_run|].
  apply wp_bind. eapply wp_eq; [apply put_sf_run|]. set (s1 := mk_semfs (remove_first v (semfs_vnodes s)) _ _ _ _ _). set (n2 := with_sf (Some s1) n1).
  assert (Hy : exists y, d <> SEMFS_ROOTDIR -> semfs_sems s1 !! Z.to_nat d = Some (Some y) /\ sems_hasvnode y = true /\ sems_cv y = []).
  { destruct (decide (d = SEMFS_ROOTDIR)) as [E|E]; [by exists (mk_sem [] 0 false false)|]. destruct (Hd E) as (Hd0 & y & Hy & Hh). exists y. intros _.
    split_and!; [done|done|]. by destruct (cv_has _ _ _ C _ _ Hy) as (_ & ? & _). }
  destruct Hy as (y & Hy). destruct (reclaim_sem n2 s1 d y eq_refl Hy) as (n3 & A3 & E3). apply wp_bind. eapply wp_eq; [exact E3|].
  assert (Hf3 : n_fs n3 = mk_semst (Some (without_vnode v d s)) a {[TABLE := sf_me (n_fs n)]} (sf_me (n_fs n)) (sf_woken (n_fs n))).
  { destruct A3 as (_ & _ & -> & _). simpl. by rewrite Ha. }
  apply wp_bind. eapply wp_eq; [apply release_lk; rewrite Hf3; simpl; by rewrite lookup_singleton_eq|]. rewrite Hf3. simpl. rewrite delete_singleton_eq.
  set (n4 := with_lk ∅ n3). assert (Hvn : n_vn n4 = n_vn n) by (destruct A3 as (B & _); exact B).
  apply wp_bind. unfold semfs_vnode_destroy. apply wp_bind. eapply (wp_eq _ _ tt (del_vn v n4)).
  { unfold vnode_cleanup. rewrite (run_bind _ _ n4 x n4) by (apply get_vn_run; by rewrite Hvn).
    rewrite (run_bind _ _ n4 tt n4); [done|]. unfold KASSERT. by rewrite (proj2 (Z.eqb_eq _ _)) by lia. }
  destruct (kfree_run (del_vn v n4)) as (n5 & E5 & A5 & _). eapply wp_eq; [exact E5|]. apply wp_ret.
  assert (A04 : alike (set_fs (n_fs n4) n) n4). { destruct A3 as (B1 & B2 & B3 & B4 & B5 & B6). unfold alike; simpl. by split_and!. }
  assert (Hf5 : n_fs n5 = n_fs n4) by (destruct A5 as (_ & _ & B & _); exact B). split.
  - eapply (close_inv _ _ (without_vnode v d s) a).
    + eapply alike_refs0; [exact A5|]. apply refs_del; [|done]. eapply alike_refs0; [exact A04|]. by apply refs_fs.
    + unfold at_sf. rewrite Hf5. unfold n4. simpl. rewrite Hf3. by split_and!.
    + rewrite (alike_view (del_vn v n4) n5) by done. rewrite view_del. rewrite (alike_view _ _ A04). by eapply coreV_del.
    + apply coreD_del; [done|]. intros E. by apply Hd.
    + done.
    + done.
  - apply sstep_nstep. split; [|by rewrite Hf5; unfold n4; simpl; rewrite Hf3|by rewrite Hf5; unfold n4; simpl; rewrite Hf3|rewrite Hf5; unfold n4; simpl; rewrite Hf3, Hs; done].
    destruct (keeps_del n4 v x k) as [K1 K2 K3 K4]; [by rewrite Hvn|done|]. destruct (alike_keeps0 _ _ A04) as [J1 J2 J3 J4]. destruct (alike_keeps0 _ _ A5) as [I1 I2 I3 I4].
    split; [by rewrite I1, K1, J1|by rewrite I2, K2, J2| |by intros E; apply I4, K4, J4].
    intros w y1 y2 Hy1 Hy2. destruct A5 as (A5 & _). rewrite A5 in Hy2. cbn [del_vn set_vn n_vn] in Hy2. apply lookup_delete_Some in Hy2 as [_ Hy2]. change (n_vn n4 !! w = Some y2) in Hy2. rewrite Hvn in Hy2. by simplify_eq.
Qed.

(** ** Remove *)

Definition unlink (o : option semfs_sem) : option semfs_sem :=
  match o with Some y => if sems_hasvnode y then Some (set_linked false y) else None | None => None end.
Definition without_dent (i : nat) (num : Z) (s : semfs) : semfs :=
  mk_semfs (semfs_vnodes s) (semfs_vmax s) (alter unlink (Z.to_nat num) (semfs_sems s)) (semfs_smax s) (<[i := None]> (semfs_dents s)) (semfs_dmax s).

Lemma unlink_lookup (l : list (option semfs_sem)) (num i : nat) y : alter unlink num l !! i = Some (Some y) ->
  exists x, l !! i = Some (Some x) /\ sems_hasvnode y = sems_hasvnode x /\ sems_cv y = sems_cv x /\ sems_count y = sems_count x /\
    (if decide (i = num) then sems_hasvnode x = true /\ sems_linked y = false else y = x).
Proof using Type.
  destruct (decide (i = num)) as [->|Hi].
  - rewrite list_lookup_alter_eq. destruct (l !! num) as [[x|]|]; simpl; try done. destruct (sems_hasvnode x) eqn:E; [|done]. intros [= <-].
    exists x. simpl. rewrite E. done.
  - rewrite list_lookup_alter_ne by done. intros Hy. exists y. done.
Qed.

Lemma coreV_unlink m a s i num : coreV m a s -> coreV m a (without_dent i num s).
Proof using Type.
  intros [A B C D E G]. split; simpl; try done.
  - intros v k g d Hv. destruct (C _ _ _ _ Hv) as (Hg & Hk & H). split_and!; [done|done|]. intros Hr. destruct (H Hr) as [H0 [x Hx]]. split; [done|].
    destruct (decide (Z.to_nat d = Z.to_nat num)) as [Ed|]; [rewrite <- Ed, list_lookup_alter_eq, Hx|rewrite list_lookup_alter_ne by done; eauto].
    simpl. assert (Hh : sems_hasvnode x = true) by (apply (E _ _ Hx); exists v; eexists; rewrite Z2Nat.id by done; exact Hv). rewrite Hh. eauto.
  - intros j y Hy. destruct (unlink_lookup _ _ _ _ Hy) as (x & Hx & -> & -> & -> & _). by apply E.
  - by rewrite length_alter.
Qed.

Lemma coreD_unlink s i d : coreD s -> semfs_dents s !! i = Some (Some d) -> coreD (without_dent i (semd_semnum d) s).
Proof using Type.
  intros [A B C D] Hd. assert (Hlt : (i < length (semfs_dents s))%nat) by (by eapply lookup_lt_Some).
  assert (Hdents : forall j e, <[i := None]> (semfs_dents s) !! j = Some (Some e) -> j <> i /\ semfs_dents s !! j = Some (Some e)).
  { intros j e. destruct (decide (j = i)) as [->|]; [by rewrite list_lookup_insert_eq|by rewrite list_lookup_insert_ne]. }
  destruct (A _ _ Hd) as (Hd0 & _). split; simpl.
  - intros j e He. destruct (Hdents j e He) as [Hne He']. destruct (A _ _ He') as (He0 & x & Hx & Hl). split; [done|]. exists x.
    rewrite list_lookup_alter_ne; [done|]. intros E. apply Hne. eapply B; [done|exact Hd|left; lia].
  - intros j j' e e' He He' Heq. destruct (Hdents j e He) as [_ He1]. destruct (Hdents j' e' He') as [_ He2]. by eapply B.
  - intros k y Hy Hl. destruct (unlink_lookup _ _ _ _ Hy) as (x & Hx & _ & _ & _ & Hc). case_decide as E; [destruct Hc as [_ Hc]; congruence|]. subst y.
    destruct (C k x Hx Hl) as (j & e & He & Hk). exists j, e. split; [|done]. rewrite list_lookup_insert_ne; [done|]. intros ->. simplify_eq. lia.
  - intros k y Hy. destruct (unlink_lookup _ _ _ _ Hy) as (x & Hx & Hh & _ & _ & Hc). case_decide as E; [right; rewrite Hh; apply Hc|]. subst y. by eapply D.
Qed.

(** The middle of [semfs_remove]: the semaphore loses its link, and goes when it has no vnode. *)
Lemma remove_sem (n : nst) s num x l0 : sf (n_fs n) = Some s -> sf_locks (n_fs n) = l0 -> l0 !! num = None -> l0 !! TABLE = None -> num <> TABLE ->
  semfs_sems s !! Z.to_nat num = Some (Some x) -> sems_linked x = true -> sems_cv x = [] ->
  exists n', alike (with_sf (Some (set_sems (alter unlink (Z.to_nat num) (semfs_sems s)) s)) n) n' /\
  (_ ← lock_acquire num;
   _ ← KASSERT (sems_linked x);
   _ ← sem_modify num (set_linked false);
   if negb (sems_hasvnode x) then
     _ ← lock_acquire TABLE;
     _ ← semarray_set num None;
     _ ← lock_release TABLE;
     _ ← lock_release num;
     semfs_sem_destroy (Some x)
   else lock_release num) n = Ret tt n'.
Proof using Type.
  intros Hs HL Hnum HT Hne Hx Hl Hc. set (me := sf_me (n_fs n)). assert (Hlt : (Z.to_nat num < length (semfs_sems s))%nat) by (by eapply lookup_lt_Some).
  rewrite (run_bind _ _ _ _ _ (acquire_lk n num ltac:(by rewrite HL))). rewrite HL. fold me. set (n1 := with_lk (<[num := me]> l0) n).
  rewrite (run_bind _ _ n1 tt n1) by (by rewrite Hl). rewrite (run_bind _ _ _ _ _ (sem_modify_run n1 s num x _ Hs Hx)).
  set (s1 := set_sems (<[Z.to_nat num := Some (set_linked false x)]> (semfs_sems s)) s). set (n2 := with_sf (Some s1) n1).
  destruct (sems_hasvnode x) eqn:Hh; cbn [negb].
  - rewrite (release_lk n2 num) by (simpl; by rewrite lookup_insert_eq). simpl. rewrite delete_insert_id by done. eexists. split; [|done].
    assert (E : alter unlink (Z.to_nat num) (semfs_sems s) = <[Z.to_nat num := Some (set_linked false x)]> (semfs_sems s)).
    { apply list_eq. intros j. destruct (decide (j = Z.to_nat num)) as [->|]; [rewrite list_lookup_alter_eq, Hx, list_lookup_insert_eq by done; simpl; by rewrite Hh|].
      by rewrite list_lookup_alter_ne, list_lookup_insert_ne. }
    rewrite E. fold s1. unfold n2, n1, with_sf, with_lk, set_fs. simpl. rewrite HL. reflexivity.
  - rewrite (run_bind _ _ _ _ _ (acquire_lk n2 TABLE ltac:(simpl; by rewrite lookup_insert_ne))). simpl. fold me. set (n3 := with_lk (<[TABLE := me]> (<[num := me]> l0)) n2).
    assert (Hlt1 : (Z.to_nat num < length (semfs_sems s1))%nat) by (unfold s1, set_sems; cbn [semfs_sems]; by rewrite length_insert).
    rewrite (run_bind _ _ _ _ _ (semarray_set_run n3 s1 num None eq_refl Hlt1)). set (n4 := with_sf _ n3).
    rewrite (run_bind _ _ _ _ _ (release_lk n4 TABLE ltac:(simpl; by rewrite lookup_insert_eq))). simpl. rewrite delete_insert_id by (by rewrite lookup_insert_ne).
    set (n5 := with_lk _ n4). rewrite (run_bind _ _ _ _ _ (release_lk n5 num ltac:(simpl; by rewrite lookup_insert_eq))). simpl. rewrite delete_insert_id by done.
    set (n6 := with_lk _ n5). destruct (sem_destroy_run n6 x Hc) as (n7 & E7 & A7). exists n7. split; [|done]. etrans; [|exact A7].
    assert (E : alter unlink (Z.to_nat num) (semfs_sems s) = <[Z.to_nat num := None]> (<[Z.to_nat num := Some (set_linked false x)]> (semfs_sems s))).
    { apply list_eq. intros j. destruct (decide (j = Z.to_nat num)) as [->|].
      - rewrite list_lookup_alter_eq, Hx, list_lookup_insert_eq by (by rewrite length_insert). simpl. by rewrite Hh.
      - by rewrite list_lookup_alter_ne, !list_lookup_insert_ne. }
    rewrite E. unfold n6, n5, n4, n3, n2, n1, with_sf, with_lk, set_fs. simpl. rewrite HL. reflexivity.
Qed.

Lemma dent_destroy_run (n : nst) d : exists n', semfs_direntry_destroy (Some d) n = Ret tt n' /\ alike n n'.
Proof using Type.
  destruct (kfree_run n) as (n1 & E1 & A1 & _). destruct (kfree_run n1) as (n2 & E2 & A2 & _). exists n2. split; [|by etrans].
  unfold semfs_direntry_destroy. rewrite (run_bind _ _ n d n) by done. by rewrite (run_bind _ _ n tt n1 E1).
Qed.

Lemma remove_quiet (n : nst) v x nm : n_vn n !! v = Some x -> vn_ops x = FS_OPS DIROPS -> quiet (semfs_remove v nm) n.
Proof using Type.
  intros Hx Hk R N. destruct (open_inv _ _ _ _ _ N Hx Hk) as (s & a & W & (Hs & Ha & HL) & C & D & Hf & H0 & H1 & _). unfold semfs_remove.
  destruct (is_dots nm); [apply wp_ret; split; [done|apply nstep_refl]|]. set (me := sf_me (n_fs n)).
  apply wp_bind. eapply wp_eq; [apply acquire_lk; by rewrite HL|]. rewrite HL. change (<[DIR := sf_me (n_fs n)]> ∅) with ({[DIR := me]} : gmap Z Z).
  set (n1 := with_lk {[DIR := me]} n). apply wp_bind. eapply wp_eq; [by apply get_sf_run|].
  pose proof (find_dent_spec nm (semfs_dents s) 0) as Hd. destruct (find_dent nm (semfs_dents s) 0) as [[i num]|].
  2:{ apply wp_bind, wp_ret. apply wp_bind. eapply wp_eq; [apply release_lk; simpl; by rewrite lookup_singleton_eq|]. simpl. rewrite delete_singleton_eq.
      apply wp_ret. unfold n1. rewrite with_lk_same by done. split; [done|apply nstep_refl]. }
  destruct Hd as (k & d & -> & Hd & Hnm & Hnum). destruct (cd_dent _ D _ _ Hd) as (Hn0 & y & Hy & Hl). rewrite Hnum in Hn0, Hy.
  destruct (cv_has _ _ _ C _ _ Hy) as (_ & Hcv & _). apply wp_bind, wp_bind.
  eapply wp_eq; [eapply getsembynum_run; [done|simpl; by rewrite lookup_singleton_ne|done]|]. apply wp_bind. eapply wp_deref; [done|].
  destruct (remove_sem n1 s num y {[DIR := me]}) as (n2 & A2 & E2); [done|done|by rewrite lookup_singleton_ne by (unfold DIR; lia)|done|unfold TABLE; lia|done|done|done|].
  set (s2 := set_sems _ s) in *. assert (Hf2 : n_fs n2 = mk_semst (Some s2) a {[DIR := me]} me (sf_woken (n_fs n))) by (destruct A2 as (_ & _ & B & _); rewrite B; simpl; by rewrite Ha).
  assert (Etail : forall Q, wp (_ ← dents_set (0 + Z.of_nat k) None; _ ← semfs_direntry_destroy (Some (mk_dent nm num)); mret 0) n2 Q ->
    wp (_ ← lock_acquire num; _ ← KASSERT (sems_linked y); _ ← sem_modify num (set_linked false);
        _ ← (if negb (sems_hasvnode y) then _ ← lock_acquire TABLE; _ ← semarray_set num None; _ ← lock_release TABLE; _ ← lock_release num; semfs_sem_destroy (Some y)
             else lock_release num);
        _ ← dents_set (0 + Z.of_nat k) None; _ ← semfs_direntry_destroy (Some (mk_dent nm num)); mret 0) n1 Q).
  { intros Q HQ. unfold wp in HQ |- *. rewrite <- (run_bind _ (fun _ => _ ← dents_set (0 + Z.of_nat k) None; _ ← semfs_direntry_destroy (Some (mk_dent nm num)); mret 0) _ _ _ E2) in HQ.
    unfold mbind, M_bind in HQ |- *. destruct (lock_acquire num n1) as [[] t| | | | |]; try done. destruct (KASSERT (sems_linked y) t) as [[] t1| | | | |]; try done.
    destruct (sem_modify num (set_linked false) t1) as [[] t2| | | | |]; done. }
  apply Etail. clear Etail E2. assert (Hlt : (k < length (semfs_dents s2))%nat) by (simpl; by eapply lookup_lt_Some).
  apply wp_bind. eapply wp_eq; [apply (dents_set_run n2 s2); [by rewrite Hf2|by rewrite Z.add_0_l, Nat2Z.id]|]. rewrite Z.add_0_l, Nat2Z.id. set (n3 := with_sf _ n2).
  destruct (dent_destroy_run n3 (mk_dent nm num)) as (n4 & E4 & A4). apply wp_bind. eapply wp_eq; [exact E4|]. apply wp_ret.
  set (s3 := without_dent k num s). assert (Hf4 : n_fs n4 = mk_semst (Some s3) a {[DIR := me]} me (sf_woken (n_fs n))).
  { destruct A4 as (_ & _ & B & _). rewrite B. unfold n3. simpl. by rewrite Hf2. }
  apply wp_bind. eapply wp_eq; [apply release_lk; rewrite Hf4; simpl; by rewrite lookup_singleton_eq|]. rewrite Hf4. simpl. rewrite delete_singleton_eq.
  apply wp_ret. assert (A04 : alike (set_fs (n_fs n4) n) n4).
  { destruct A2 as (B1 & B2 & B3 & B4 & B5 & B6), A4 as (B1' & B2' & B3' & B4' & B5' & B6'). unfold alike; simpl in *. split_and!; try congruence; [lia|auto]. }
  split.
  - eapply (close_inv _ _ s3 a); [apply refs_fs; eapply alike_refs0; [exact A04|by apply refs_fs]|unfold at_sf; simpl; by rewrite Hf4| | |done|done].
    + change (coreV (fs_view n4) a s3). rewrite (alike_view _ _ A04). by apply coreV_unlink.
    + unfold s3. rewrite <- Hnum. by apply coreD_unlink.
  - apply sstep_nstep. split; [apply keeps_fs; eapply keeps_fs_l; by apply alike_keeps0|simpl; by rewrite Hf4|simpl; by rewrite Hf4|simpl; by rewrite Hf4, Hs].
Qed.

End Inst.
End SemfsInst.
