(* ===== verification/SemfsCreat.v ===== *)
(** * Creation in semfs, and the instance of the interface *)

From S2P Require Import Prelude Uio Sfs Vnode Vfs VfsPath VfsLaws VfsTheory VfsCalls VfsSafe VfsTable VfsAdd VfsNames Semfs SemfsLaws SemfsInst.

Module SemfsCreat.
Import Uio Vnode Vfs VfsLaws Semfs SemfsLaws SemfsInst.
Import Sfs(ENAMETOOLONG, ENOTDIR, EISDIR, ENOENT, EEXIST, EBUSY, EFBIG, S_IFREG, S_IFDIR).

(** ** Slots: the first NULL, or a new one at the end *)

Definition slot_of {A} (l : list (option A)) : nat := match first_null l 0 with Some i => Z.to_nat i | None => length l end.
Definition put_slot {A} (l : list (option A)) (x : A) : list (option A) :=
  if decide (slot_of l < length l)%nat then <[slot_of l := Some x]> l else l ++ [Some x].

Lemma first_null_spec {A} (l : list (option A)) i : match first_null l i with
  | Some j => exists k, j = i + Z.of_nat k /\ l !! k = Some None
  | None => forall k, l !! k <> Some None
  end.
Proof.
  revert i. induction l as [|[x|] l IH]; intros i; simpl; [done| |].
  - specialize (IH (i + 1)). destruct (first_null l (i + 1)) as [j|].
    + destruct IH as (k & -> & Hk). exists (S k). split; [lia|done].
    + intros [|k]; [done|]. apply IH.
  - exists 0%nat. split; [lia|done].
Qed.

Lemma slot_free {A} (l : list (option A)) x : l !! slot_of l <> Some (Some x).
Proof.
  unfold slot_of. pose proof (first_null_spec l 0) as H. destruct (first_null l 0) as [j|].
  - destruct H as (k & -> & Hk). rewrite Z.add_0_l, Nat2Z.id, Hk. done.
  - rewrite lookup_ge_None_2; [done|lia].
Qed.

Lemma slot_le {A} (l : list (option A)) : (slot_of l <= length l)%nat.
Proof.
  unfold slot_of. pose proof (first_null_spec l 0) as H. destruct (first_null l 0) as [j|]; [|lia].
  destruct H as (k & -> & Hk). apply lookup_lt_Some in Hk. lia.
Qed.

Lemma put_slot_lookup {A} (l : list (option A)) x k : put_slot l x !! k = if decide (k = slot_of l) then Some (Some x) else l !! k.
Proof.
  pose proof (slot_le l). unfold put_slot. case_decide as Hlt; case_decide as Hk; subst.
  - by rewrite list_lookup_insert_eq.
  - by rewrite list_lookup_insert_ne.
  - rewrite lookup_app_r by lia. replace (slot_of l - length l)%nat with 0%nat by lia. done.
  - destruct (decide (k < length l)%nat); [by rewrite lookup_app_l|]. rewrite lookup_app_r by lia. rewrite (lookup_ge_None_2 l) by lia.
    apply lookup_ge_None_2. simpl. lia.
Qed.

Section Creat.
Context {U : Type} `{US : UserSpace U}.
Abbreviation nst := (nstate U semst).

(** ** While memory lasts *)

Lemma kmalloc_ok (n : nst) : n_oom n = [] -> 0 < n_next n -> exists p n', kmalloc n = Ret p n' /\ alike n n' /\ p <> 0 /\ n_oom n' = [] /\ 0 < n_next n'.
Proof using Type.
  intros Ho Hn. destruct (kmalloc_run n Hn) as (p & n' & E & A & [(_ & H & _)|(-> & Hx & _)]); [done|]. exists (n_next n), n'.
  split_and!; [done|done|lia|by apply A|lia].
Qed.

Lemma array_room_ok (n : nst) len max : n_oom n = [] -> 0 < n_next n -> exists m n', array_room len max n = Ret (Some m) n' /\ alike n n' /\ n_oom n' = [] /\ 0 < n_next n'.
Proof using Type.
  intros Ho Hn. destruct (array_room_run n len max Hn) as (o & n' & E & A & H). destruct o as [m|]; [|by destruct (H eq_refl)].
  exists m, n'. split_and!; [done|done|by apply A|]. destruct A as (_ & _ & _ & _ & ? & _). lia.
Qed.

Definition new_sem : semfs_sem := mk_sem [] 0 false false.

Lemma sem_create_ok (n : nst) : n_oom n = [] -> 0 < n_next n -> exists n', semfs_sem_create n = Ret (Some new_sem) n' /\ alike n n' /\ n_oom n' = [] /\ 0 < n_next n'.
Proof using Type.
  intros Ho Hn. destruct (kmalloc_ok n Ho Hn) as (p1 & n1 & E1 & A1 & P1 & O1 & X1). destruct (kmalloc_ok n1 O1 X1) as (p2 & n2 & E2 & A2 & P2 & O2 & X2).
  destruct (kmalloc_ok n2 O2 X2) as (p3 & n3 & E3 & A3 & P3 & O3 & X3). exists n3. split_and!; [|do 2 (etrans; [eassumption|]); done|done|done].
  unfold semfs_sem_create. rewrite (run_bind _ _ n p1 n1 E1), (proj2 (Z.eqb_neq p1 0)) by done.
  rewrite (run_bind _ _ n1 p2 n2 E2), (proj2 (Z.eqb_neq p2 0)) by done. by rewrite (run_bind _ _ n2 p3 n3 E3), (proj2 (Z.eqb_neq p3 0)).
Qed.

Lemma dent_create_ok (n : nst) nm num : n_oom n = [] -> 0 < n_next n ->
  exists n', semfs_direntry_create nm num n = Ret (Some (mk_dent nm num)) n' /\ alike n n' /\ n_oom n' = [] /\ 0 < n_next n'.
Proof using Type.
  intros Ho Hn. destruct (kmalloc_ok n Ho Hn) as (p1 & n1 & E1 & A1 & P1 & O1 & X1). destruct (kmalloc_ok n1 O1 X1) as (p2 & n2 & E2 & A2 & P2 & O2 & X2).
  exists n2. split_and!; [|by etrans|done|done]. unfold semfs_direntry_create. rewrite (run_bind _ _ n p1 n1 E1), (proj2 (Z.eqb_neq p1 0)) by done.
  rewrite (run_bind _ _ n1 (Some nm) n2); [done|]. unfold kstrdup. rewrite (run_bind _ _ n1 p2 n2 E2). by rewrite (proj2 (Z.eqb_neq p2 0)).
Qed.

Lemma sem_insert_ok (n : nst) s : sf (n_fs n) = Some s -> n_oom n = [] -> 0 < n_next n -> sf_locks (n_fs n) !! TABLE = Some (sf_me (n_fs n)) ->
  Z.of_nat (length (semfs_sems s)) <> SEMFS_ROOTDIR ->
  exists n' m, semfs_sem_insert new_sem n =
    Ret (0, Z.of_nat (slot_of (semfs_sems s))) (with_sf (Some (mk_semfs (semfs_vnodes s) (semfs_vmax s) (put_slot (semfs_sems s) new_sem) m (semfs_dents s) (semfs_dmax s))) n') /\
    alike n n' /\ n_oom n' = [] /\ 0 < n_next n'.
Proof using Type.
  intros Hs Ho Hn HT Hlen. unfold semfs_sem_insert. rewrite (run_bind _ _ n true n) by (unfold lock_do_i_hold; msimpl; by rewrite bool_decide_eq_true_2).
  rewrite (run_bind _ _ n tt n) by done. rewrite (run_bind _ _ n s n) by (by apply get_sf_run). rewrite (proj2 (Z.eqb_neq _ _)) by done.
  pose proof (first_null_spec (semfs_sems s) 0) as H. unfold put_slot, slot_of. destruct (first_null (semfs_sems s) 0) as [j|].
  - destruct H as (k & -> & Hk). rewrite !Z.add_0_l, !Nat2Z.id. assert (Hlt : (k < length (semfs_sems s))%nat) by (by eapply lookup_lt_Some).
    rewrite decide_True by done. exists n, (semfs_smax s). split_and!; [|reflexivity|done|done].
    rewrite (run_bind _ _ _ _ _ (semarray_set_run n s (Z.of_nat k) (Some new_sem) Hs ltac:(by rewrite Nat2Z.id))). by rewrite Nat2Z.id.
  - rewrite decide_False by lia. destruct (array_room_ok n (Z.of_nat (length (semfs_sems s))) (semfs_smax s) Ho Hn) as (m & n1 & E & A & O & X).
    exists n1, m. split_and!; [|done|done|done]. by rewrite (run_bind _ _ n (Some m) n1 E).
Qed.

(** ** The state with the new semaphore and its entry *)

Definition added (nm : list Z) (s : semfs) (m m' : Z) : semfs :=
  mk_semfs (semfs_vnodes s) (semfs_vmax s) (put_slot (semfs_sems s) new_sem) m
    (put_slot (semfs_dents s) (mk_dent nm (Z.of_nat (slot_of (semfs_sems s))))) m'.

Lemma coreV_added v a s nm m m' : coreV v a s -> Z.of_nat (length (semfs_sems s)) <> SEMFS_ROOTDIR -> coreV v a (added nm s m m').
Proof using Type.
  intros [A B C D E G] Hlen. split; simpl; try done.
  - intros w k g d Hw. destruct (C _ _ _ _ Hw) as (Hg & Hk & H). split_and!; [done|done|]. intros Hr. destruct (H Hr) as [H0 [x Hx]]. split; [done|].
    rewrite put_slot_lookup. case_decide; eauto.
  - intros i x. rewrite put_slot_lookup. case_decide as Hi; [|apply E]. intros [= <-]. simpl. split; [|done]. split; [done|]. intros (w & [k g] & Hw).
    destruct (C _ _ _ _ Hw) as (_ & _ & H). assert (Hr : Z.of_nat i <> SEMFS_ROOTDIR) by (pose proof (slot_le (semfs_sems s)); lia).
    destruct (H Hr) as [_ [x Hx]]. rewrite Nat2Z.id, Hi in Hx. by destruct (slot_free (semfs_sems s) x).
  - unfold put_slot. case_decide; [by rewrite length_insert|]. rewrite length_app. simpl. lia.
Qed.

(** Once the flag is set, the directory is in order again. *)
Lemma coreD_added nm s m m' l vn vmax x : coreD s -> (forall k d, semfs_dents s !! k = Some (Some d) -> semd_name d <> nm) ->
  l = put_slot (semfs_sems s) new_sem \/ l = got_vnode (Z.of_nat (slot_of (semfs_sems s))) (put_slot (semfs_sems s) new_sem) ->
  Z.of_nat (slot_of (semfs_sems s)) <> SEMFS_ROOTDIR -> l !! slot_of (semfs_sems s) = Some (Some x) ->
  coreD (mk_semfs vn vmax (<[slot_of (semfs_sems s) := Some (set_linked true x)]> l) m
           (put_slot (semfs_dents s) (mk_dent nm (Z.of_nat (slot_of (semfs_sems s))))) m').
Proof using Type.
  intros [A B C D] Hnm Hl Hr Hx. set (i := slot_of (semfs_sems s)) in *. assert (Hlt : (i < length l)%nat) by (by eapply lookup_lt_Some).
  assert (Hother : forall j, j <> i -> <[i := Some (set_linked true x)]> l !! j = semfs_sems s !! j).
  { intros j Hj. rewrite list_lookup_insert_ne by done. destruct Hl as [-> | ->]; unfold got_vnode; rewrite ?(proj2 (Z.eqb_neq (Z.of_nat i) SEMFS_ROOTDIR)) by done.
    - by rewrite put_slot_lookup, decide_False.
    - rewrite list_lookup_alter_ne by lia. by rewrite put_slot_lookup, decide_False. }
  assert (Hfresh : forall j d, semfs_dents s !! j = Some (Some d) -> Z.to_nat (semd_semnum d) <> i).
  { intros j d Hd E. destruct (A _ _ Hd) as (_ & y & Hy & _). rewrite E in Hy. by destruct (slot_free (semfs_sems s) y). }
  split; simpl.
  - intros j d. rewrite put_slot_lookup. case_decide.
    + intros [= <-]. simpl. split; [lia|]. rewrite Nat2Z.id, list_lookup_insert_eq by done. eauto.
    + intros Hd. destruct (A _ _ Hd) as (H0 & y & Hy & Hly). split; [done|]. exists y. rewrite Hother by (by eapply Hfresh). done.
  - intros j j' d d'. rewrite !put_slot_lookup. case_decide as E1; case_decide as E2; [congruence| | |apply B].
    + intros [= <-] Hd' [Heq|Heq]; simpl in Heq; [|by destruct (Hnm _ _ Hd')]. destruct (Hfresh _ _ Hd'). rewrite <- Heq. lia.
    + intros Hd [= <-] [Heq|Heq]; simpl in Heq; [|by destruct (Hnm _ _ Hd)]. destruct (Hfresh _ _ Hd). rewrite Heq. lia.
  - intros j y. destruct (decide (j = i)) as [->|Hj].
    + intros _ _. eexists _, (mk_dent nm (Z.of_nat i)). rewrite put_slot_lookup, decide_True by done. done.
    + rewrite Hother by done. intros Hy Hly. destruct (C j y Hy Hly) as (k & d & Hd & Hk). exists k, d. split; [|done].
      rewrite put_slot_lookup, decide_False; [done|]. intros ->. by destruct (slot_free (semfs_dents s) d).
  - intros j y. destruct (decide (j = i)) as [->|Hj]; [rewrite list_lookup_insert_eq by done; intros [= <-]; by left|]. rewrite Hother by done. apply D.
Qed.

(** ** [semfs_creat] *)

(** From the entry in the directory to the end. *)
Lemma creat_finish R (n n0 : nst) s a nm m m' empty d : refs_ok R n -> at_sf n (added nm s m m') a {[DIR := sf_me (n_fs n)]} -> coreV (fs_view n) a s -> coreD s ->
  a <> 0 -> a <> -1 -> Z.of_nat (length (semfs_sems s)) <> SEMFS_ROOTDIR -> (forall k d, semfs_dents s !! k = Some (Some d) -> semd_name d <> nm) ->
  n_oom n = [] -> (forall n', sstep n n' -> sstep n0 n') ->
  let semnum := Z.of_nat (slot_of (semfs_sems s)) in
  wp (r ← semfs_getvnode a semnum;
      let '(result, vn) := r in
      if negb (result =? 0) then
        _ ← dents_set empty None;
        _ ← semfs_direntry_destroy (Some d);
        creat_uninsert new_sem semnum result
      else
        _ ← sem_modify semnum (set_linked true);
        _ ← lock_release DIR;
        mret (0, vn)) n
   (fun r n' => nstep n0 n' /\ if decide (r.1 = 0) then nwf (plus R r.2) n' /\ is_fs r.2 n' else nwf R n').
Proof using Type.
  intros W A C D H0 H1 Hlen Hnm Ho Hstep semnum. pose proof (slot_le (semfs_sems s)) as Hle. pose proof (cv_len _ _ _ C) as Hlen'. set (i := slot_of (semfs_sems s)) in *.
  assert (Hput : put_slot (semfs_sems s) new_sem !! i = Some (Some new_sem)) by (rewrite put_slot_lookup; by rewrite decide_True).
  apply wp_bind. eapply wp_mono; [apply (getvnode_spec R n (added nm s m m') a semnum _ W A); [by rewrite lookup_singleton_ne|by apply coreV_added|]|].
  { right. split; [lia|]. exists new_sem. unfold semnum. by rewrite Nat2Z.id. }
  intros [r vn] n1 (S & s1 & (Hs1 & Ha1 & HL1) & C1 & Hr & Ed & Edm & H). simpl in Hr. specialize (Hr Ho). subst r. cbn [fst snd] in H. rewrite decide_True in H by done.
  destruct H as (W1 & F1 & Hsems). cbn [Z.eqb negb]. assert (Hx : exists x, semfs_sems s1 !! i = Some (Some x) /\ sems_cv x = [] /\ 0 <= sems_count x < 2 ^ 32).
  { assert (exists x, semfs_sems s1 !! i = Some (Some x)) as [x Hx].
    { destruct Hsems as [-> | ->]; simpl; [eauto|]. unfold got_vnode. rewrite (proj2 (Z.eqb_neq semnum _)) by (unfold semnum; lia).
      unfold semnum. rewrite Nat2Z.id, list_lookup_alter_eq, Hput. simpl. eauto. }
    exists x. destruct (cv_has _ _ _ C1 _ _ Hx) as (_ & ? & ?). done. }
  destruct Hx as (x & Hx & Hcv & Hct). apply wp_bind. eapply wp_eq; [apply (sem_modify_run n1 s1 semnum x _ Hs1); unfold semnum; by rewrite Nat2Z.id|].
  unfold semnum at 1. rewrite Nat2Z.id. set (s2 := set_sems _ s1). apply wp_bind.
  eapply wp_eq; [apply release_lk; simpl; rewrite HL1, (ss_me _ _ S); by rewrite lookup_singleton_eq|]. simpl. rewrite HL1, delete_singleton_eq. apply wp_ret.
  split.
  - apply sstep_nstep, Hstep. destruct S as [K S1 S2 S3]. split; [by do 2 apply keeps_fs|done|done|]. simpl. rewrite <- S3, Hs1. done.
  - rewrite decide_True by done. cbn [snd]. split; [|done]. apply (close_inv _ _ s2 a); [by do 2 apply refs_fs|done| | |done|done].
    + change (coreV (fs_view n1) a s2). by apply (coreV_upd _ _ s1 i x).
    + pose proof (coreD_added nm s m m' (semfs_sems s1) (semfs_vnodes s1) (semfs_vmax s1) x D Hnm Hsems ltac:(lia) Hx) as [a1 a2 a3 a4].
      unfold s2, set_sems. rewrite Ed. split; done.
Qed.

(** Only the heap and the structures of the file system differ. *)
Definition near (n n' : nst) : Prop := alike (set_fs (n_fs n') n) n'.

Lemma near_trans (a b c : nst) : near a b -> near b c -> near a c.
Proof using Type.
  unfold near, alike. simpl. intros (A1 & A2 & A3 & A4 & A5 & A6) (B1 & B2 & B3 & B4 & B5 & B6). split_and!; try congruence; [lia|auto].
Qed.
Lemma near_alike (n n' : nst) : alike n n' -> near n n'.
Proof using Type. unfold near, alike. simpl. intros (A1 & A2 & A3 & A4 & A5 & A6). by split_and!. Qed.
Lemma near_fs (n : nst) f : near n (set_fs f n).
Proof using Type. unfold near, alike. simpl. split_and!; done || lia. Qed.
Lemma near_sstep (n n' : nst) : near n n' -> sf_addr (n_fs n') = sf_addr (n_fs n) -> sf_me (n_fs n') = sf_me (n_fs n) ->
  (sf (n_fs n') = None <-> sf (n_fs n) = None) -> sstep n n'.
Proof using Type. intros A E1 E2 E3. split; [|done|done|done]. eapply keeps_fs_l. by apply alike_keeps0. Qed.
Lemma sstep_trans (a b c : nst) : n_vn b = n_vn a -> sstep a b -> sstep b c -> sstep a c.
Proof using Type.
  intros E [[K1 K2 K3 K4] A1 A2 A3] [[J1 J2 J3 J4] B1 B2 B3]. split; [|congruence|congruence|by rewrite B3].
  split; [congruence|congruence| |auto]. intros v x x' Hx. apply (J3 v x x'). by rewrite E.
Qed.

(** The name exists. *)
Lemma creat_found R (n : nst) s a num (excl : bool) : nwf R n -> at_sf n s a ∅ -> coreV (fs_view n) a s -> coreD s -> a <> 0 -> a <> -1 -> num_ok num s ->
  wp (if excl then _ ← lock_release DIR; (mret (EEXIST, 0) : M nst (Z * Z)) else r ← semfs_getvnode a num; _ ← lock_release DIR; mret r) (with_lk {[DIR := sf_me (n_fs n)]} n)
    (fun r n' => nstep n n' /\ if decide (r.1 = 0) then nwf (plus R r.2) n' /\ is_fs r.2 n' else nwf R n').
Proof using Type.
  intros N A C D H0 H1 Hn. destruct excl.
  - destruct A as (Hs & Ha & HL). apply wp_bind. eapply wp_eq; [apply release_lk; simpl; by rewrite lookup_singleton_eq|]. simpl. rewrite delete_singleton_eq.
    apply wp_ret. rewrite with_lk_same by done. split; [apply nstep_refl|done].
  - pose proof (dir_getvnode R n s a _ N A C D H0 H1 Hn) as G. destruct A as (Hs & Ha & HL). unfold wp in G |- *.
    rewrite (run_bind _ _ n tt _ (acquire_lk n DIR ltac:(by rewrite HL))) in G. rewrite HL in G. exact G.
Qed.

(** The table is full: the semaphore is destroyed again. *)
Lemma creat_full R (n n1 : nst) s a : nwf R n -> at_sf n s a ∅ -> near n n1 -> n_fs n1 = mk_semst (Some s) a {[DIR := sf_me (n_fs n)]} (sf_me (n_fs n)) (sf_woken (n_fs n)) ->
  wp (creat_uncreate new_sem ENOSPC) n1 (fun r n' => nstep n n' /\ if decide (r.1 = 0) then nwf (plus R r.2) n' /\ is_fs r.2 n' else nwf R n').
Proof using Type.
  intros [W I] (Hs & Ha & HL) A Hf. destruct (sem_destroy_run n1 new_sem eq_refl) as (n2 & E2 & A2). assert (Hf2 : n_fs n2 = n_fs n1) by apply A2.
  unfold creat_uncreate. apply wp_bind. eapply wp_eq; [exact E2|]. apply wp_bind.
  eapply wp_eq; [apply release_lk; rewrite Hf2, Hf; simpl; by rewrite lookup_singleton_eq|]. rewrite Hf2, Hf. simpl. rewrite delete_singleton_eq. apply wp_ret.
  assert (E : n_fs (with_lk ∅ n2) = n_fs n) by (simpl; rewrite Hf2, Hf; simpl; destruct (n_fs n); simpl in *; by subst).
  assert (A3 : alike n (with_lk ∅ n2)).
  { pose proof (near_trans _ _ _ (near_trans _ _ _ A (near_alike _ _ A2)) (near_fs n2 (n_fs (with_lk ∅ n2)))) as B. unfold near in B.
    change (set_fs (n_fs (with_lk ∅ n2)) n2) with (with_lk ∅ n2) in B. rewrite E in B. by destruct n. }
  split; [apply sstep_nstep; split; [by apply alike_keeps0|by rewrite E|by rewrite E|by rewrite E]|]. rewrite decide_False by done. split; [by eapply alike_refs0|].
  rewrite (alike_view _ _ A3), E. done.
Qed.

(** The entry goes into the directory. *)
Lemma dent_slot (n : nst) s d : sf (n_fs n) = Some s -> n_oom n = [] -> 0 < n_next n ->
  let num := Z.of_nat (length (semfs_dents s)) in
  let empty := match first_null (semfs_dents s) 0 with Some i => i | None => num end in
  exists e n' m, (if empty <? num then _ ← dents_set empty (Some d); mret (0, empty)
    else
      s ← get_sf;
      room ← array_room num (semfs_dmax s);
      match room with
      | None => mret (ENOMEM, empty)
      | Some m =>
          s ← get_sf;
          _ ← put_sf (Some (mk_semfs (semfs_vnodes s) (semfs_vmax s) (semfs_sems s) (semfs_smax s) (semfs_dents s ++ [Some d]) m));
          mret (0, num)
      end) n = Ret (0, e) (with_sf (Some (mk_semfs (semfs_vnodes s) (semfs_vmax s) (semfs_sems s) (semfs_smax s) (put_slot (semfs_dents s) d) m)) n') /\
    alike n n' /\ n_oom n' = [].
Proof using Type.
  intros Hs Ho Hn num empty. pose proof (first_null_spec (semfs_dents s) 0) as H. unfold put_slot, slot_of. subst empty num. destruct (first_null (semfs_dents s) 0) as [j|].
  - destruct H as (k & -> & Hk). rewrite !Z.add_0_l, !Nat2Z.id. assert (Hlt : (k < length (semfs_dents s))%nat) by (by eapply lookup_lt_Some).
    rewrite (proj2 (Z.ltb_lt _ _)) by lia. rewrite decide_True by done. exists (Z.of_nat k), n, (semfs_dmax s). split_and!; [|reflexivity|done].
    rewrite (run_bind _ _ _ _ _ (dents_set_run n s (Z.of_nat k) (Some d) Hs ltac:(by rewrite Nat2Z.id))). by rewrite Nat2Z.id.
  - rewrite (proj2 (Z.ltb_ge _ _)) by lia. rewrite decide_False by lia. rewrite (run_bind _ _ n s n) by (by apply get_sf_run).
    destruct (array_room_ok n (Z.of_nat (length (semfs_dents s))) (semfs_dmax s) Ho Hn) as (m & n1 & E & A & O & X). exists (Z.of_nat (length (semfs_dents s))), n1, m.
    split_and!; [|done|done]. rewrite (run_bind _ _ n (Some m) n1 E). rewrite (run_bind _ _ n1 s n1); [done|]. apply get_sf_run. destruct A as (_ & _ & -> & _). done.
Qed.

Lemma creat_hands (n : nst) v x nm e p : n_vn n !! v = Some x -> vn_ops x = FS_OPS DIROPS -> n_oom n = [] -> hands_back (semfs_creat v nm e p) n.
Proof using Type.
  intros Hx Hk Ho R N. destruct (open_inv _ _ _ _ _ N Hx Hk) as (s & a & W & (Hs & Ha & HL) & C & D & Hf & H0 & H1 & _). unfold semfs_creat.
  apply wp_bind. eapply wp_eq; [by apply get_vn_run|]. apply wp_bind. eapply wp_deref; [done|].
  destruct (is_dots nm); [apply wp_ret; split; [apply nstep_refl|done]|]. set (me := sf_me (n_fs n)).
  apply wp_bind. eapply wp_eq; [apply acquire_lk; by rewrite HL|]. rewrite HL. change (<[DIR := sf_me (n_fs n)]> ∅) with ({[DIR := me]} : gmap Z Z).
  set (n1 := with_lk {[DIR := me]} n). apply wp_bind. eapply wp_eq; [by apply get_sf_run|]. pose proof (rf_next _ _ W) as Hn.
  pose proof (find_dent_spec nm (semfs_dents s) 0) as Hd. destruct (find_dent nm (semfs_dents s) 0) as [[i num]|].
  { destruct Hd as (k & d & -> & Hd & Hnm & <-). apply (creat_found R n s a); try done. by eapply dent_num_ok. }
  destruct (sem_create_ok n1 Ho Hn) as (n2 & E2 & A2 & O2 & X2). apply wp_bind. eapply wp_eq; [exact E2|].
  assert (Hf2 : n_fs n2 = n_fs n1) by apply A2. assert (B2 : near n n2) by (eapply near_trans; [apply (near_fs n (n_fs n1))|by apply near_alike]).
  apply wp_bind. eapply wp_eq; [apply acquire_lk; rewrite Hf2; simpl; by rewrite lookup_singleton_ne|]. set (n3 := with_lk _ n2).
  assert (B3 : near n n3) by (eapply near_trans; [exact B2|apply near_fs]).
  destruct (decide (Z.of_nat (length (semfs_sems s)) = SEMFS_ROOTDIR)) as [Hfull|Hlen].
  { apply wp_bind. eapply (wp_eq _ _ (ENOSPC, 0) n3).
    - unfold semfs_sem_insert. rewrite (run_bind _ _ n3 true n3) by (unfold lock_do_i_hold; msimpl; rewrite bool_decide_eq_true_2; [done|by rewrite Hf2, lookup_insert_eq]).
      rewrite (run_bind _ _ n3 tt n3) by done. rewrite (run_bind _ _ n3 s n3) by (apply get_sf_run; simpl; by rewrite Hf2). by rewrite (proj2 (Z.eqb_eq _ _)).
    - apply wp_bind. eapply wp_eq; [apply release_lk; simpl; by rewrite Hf2, lookup_insert_eq|]. cbn [Z.eqb negb]. apply (creat_full R n _ s a N); [done| |].
      + eapply near_trans; [exact B3|apply near_fs].
      + simpl. rewrite Hf2. simpl. rewrite delete_insert_id by (by rewrite lookup_singleton_ne). by rewrite Hs, Ha. }
  destruct (sem_insert_ok n3 s) as (n4 & m & E4 & A4 & O4 & X4); [simpl; by rewrite Hf2|done|done|simpl; by rewrite Hf2, lookup_insert_eq|done|].
  apply wp_bind. eapply wp_eq; [exact E4|]. assert (Hf4 : n_fs n4 = n_fs n3) by apply A4. set (n5 := with_sf _ n4). cbn beta iota.
  apply wp_bind. eapply wp_eq; [apply release_lk; simpl; rewrite Hf4; simpl; by rewrite Hf2, lookup_insert_eq|]. cbn [Z.eqb negb]. set (n6 := with_lk _ n5).
  assert (B6 : near n n6).
  { eapply near_trans; [exact B3|]. eapply near_trans; [by apply near_alike|]. eapply near_trans; apply near_fs. }
  set (semnum := Z.of_nat (slot_of (semfs_sems s))). destruct (dent_create_ok n6 nm semnum O4 X4) as (n7 & E7 & A7 & O7 & X7). apply wp_bind. eapply wp_eq; [exact E7|].
  set (s1 := mk_semfs (semfs_vnodes s) (semfs_vmax s) (put_slot (semfs_sems s) new_sem) m (semfs_dents s) (semfs_dmax s)).
  assert (Hf7 : n_fs n7 = mk_semst (Some s1) a {[DIR := me]} me (sf_woken (n_fs n))).
  { destruct A7 as (_ & _ & -> & _). simpl. rewrite Hf4. simpl. rewrite Hf2. simpl. rewrite delete_insert_id by (by rewrite lookup_singleton_ne). by rewrite Ha. }
  destruct (dent_slot n7 s1 (mk_dent nm semnum) ltac:(by rewrite Hf7) O7 X7) as (j & n8 & m' & E8 & A8 & O8). apply wp_bind. eapply wp_eq; [exact E8|].
  cbn beta iota. cbn [Z.eqb negb]. set (n9 := with_sf _ n8). assert (Hf8 : n_fs n8 = n_fs n7) by apply A8.
  assert (B9 : near n n9). { eapply near_trans; [exact B6|]. eapply near_trans; [by apply near_alike|]. eapply near_trans; [by apply near_alike|]. apply near_fs. }
  assert (A9 : at_sf n9 (added nm s m m') a {[DIR := sf_me (n_fs n9)]}) by (unfold at_sf, n9; simpl; rewrite Hf8, Hf7; done).
  apply (creat_finish R n9 n s a nm m m'); try done.
  - eapply alike_refs0; [exact B9|]. by apply refs_fs.
  - rewrite (alike_view _ _ B9). exact C.
  - intros n'. apply sstep_trans; [apply B9|]. apply near_sstep; [done|..]; unfold n9; simpl; rewrite ?Hf8, ?Hf7; simpl; rewrite ?Hs; done.
Qed.

(** ** The other laws *)

Lemma lookparent_hands (n : nst) v x k p len : n_vn n !! v = Some x -> vn_ops x = FS_OPS k -> hands_back_name (semfs_lookparent v p len) n.
Proof using Type.
  intros Hx Hk R N. unfold semfs_lookparent. case_match; [apply wp_ret; split; [apply nstep_refl|done]|].
  apply wp_bind. eapply wp_mono; [by eapply incref_hands|]. intros [] n' (S & N' & F). apply wp_ret. split; [done|by rewrite decide_True].
Qed.

Lemma getroot_hands (n : nst) i : slive i (n_fs n) -> hands_back (semfs_getroot i) n.
Proof using Type.
  intros (-> & Hs & H0 & H1) R [W [HL H]]. destruct (sf (n_fs n)) as [s|] eqn:Es; [|done]. destruct H as [[C D] _]. unfold semfs_getroot.
  apply wp_bind. eapply wp_mono; [apply (getvnode_spec R n s _ SEMFS_ROOTDIR ∅ W); [done|done|done|by left]|].
  intros [r w] n' (S & s' & A' & C' & _ & Ed & Edm & Hr). cbn [fst snd] in *. apply sstep_nstep in S as S'. assert (Hsems : semfs_sems s' = semfs_sems s).
  { case_decide; [|by apply Hr]. destruct Hr as (_ & _ & [E|E]); [done|]. unfold got_vnode in E. by rewrite Z.eqb_refl in E. }
  assert (D' : coreD s') by (destruct D as [a1 a2 a3 a4]; split; rewrite ?Hsems, ?Ed; done).
  destruct (Z.eqb_spec r 0) as [->|Hr0]; cbn [negb]; apply wp_ret; (split; [done|]); cbn [fst snd].
  - rewrite decide_True in Hr |- * by done. destruct Hr as (W' & F & _). split; [|done]. by eapply close_inv.
  - rewrite decide_False in Hr |- * by done. destruct Hr as (W' & _). by eapply close_inv.
Qed.

Lemma vn_quiet {A} (n : nst) v x (f : vnode -> A) : n_vn n !! v = Some x -> quiet (y ← get_vn v; (mret (f y) : M nst A)) n.
Proof using Type. intros Hx. apply (quiet_pure _ _ (f x)). by rewrite (run_bind _ _ n x n) by (by apply get_vn_run). Qed.

Lemma eachopen_quiet (n : nst) v x f : n_vn n !! v = Some x -> quiet (semfs_eachopen v f) n.
Proof using Type.
  intros Hx. assert (exists r, semfs_eachopen v f n = Ret r n) as [r E]; [|by eapply quiet_pure]. unfold semfs_eachopen.
  rewrite (run_bind _ _ n x n) by (by apply get_vn_run). repeat case_match; eauto.
Qed.

End Creat.

(** A vnode is of one of the two tables. *)
Lemma fs_kind {U} `{US : UserSpace U} (n : nstate U semst) v x k R : n_vn n !! v = Some x -> vn_ops x = FS_OPS k -> nwf R n -> k = DIROPS \/ k = SEMOPS.
Proof. intros Hx Hk N. destruct (open_inv _ _ _ _ _ N Hx Hk) as (s & a & _ & _ & _ & _ & _ & _ & _ & -> & _). case_match; auto. Qed.

Ltac by_kind Hx Hk := let R := fresh "R" in let N := fresh "N" in
  intros R N; destruct (fs_kind _ _ _ _ _ Hx Hk N) as [-> | ->]; cbn; revert R N.
Ltac calm := intros ? ?; split; [assumption|apply nstep_refl].
Ltac calm' := intros ? ?; split; [apply nstep_refl|assumption].

(** Semfs does what the VFS layer relies on. *)
#[export] Instance semfs_ops_laws {U} `{US : UserSpace U} : FsOpsLaws U semst.
Proof.
  assert (Hpure : forall A (n : nstate U semst) (a : A), quiet (mret a) n) by (intros; by eapply quiet_pure).
  split.
  - intros n v x k Hx Hk. split_and!; intros; by_kind Hx Hk; first
      [calm|exact (eachopen_quiet _ _ _ _ Hx)|exact (vn_quiet n v x (fun y => (0, if vn_data y =? SEMFS_ROOTDIR then S_IFDIR else S_IFREG)) Hx)
      |exact (truncate_quiet _ _ _ _ Hx Hk)|exact (remove_quiet _ _ _ _ Hx Hk)].
  - intros n v x k w y Hx Hk _ _. split; intros; by_kind Hx Hk; calm.
  - intros n v x k u Hx Hk _. split; by_kind Hx Hk; calm.
  - intros n v x k p Hx Hk. split.
    + by_kind Hx Hk; [by eapply lookup_hands|calm'].
    + intros len. by_kind Hx Hk; [by eapply lookparent_hands|calm'].
  - intros n v x k m e p Hx Hk Ho. by_kind Hx Hk; [by eapply creat_hands|calm'].
  - intros n v x k R Hx Hk N Hv. pose proof (reclaim_spec n v x k R Hx Hk N Hv) as H. by destruct (fs_kind _ _ _ _ _ Hx Hk N) as [-> | ->].
  - intros n i Hi. split_and!; [by apply (Hpure _ n)|by apply getroot_hands|done].
  - intros n i R _ [].
  - intros n k d f. by apply (Hpure _ n).
Qed.

End SemfsCreat.

(** * The name space with semfs in it

    [vfs_bootstrap] with [semfs_bootstrap] gives a name space in which the invariants of the
    VFS layer hold; the theorems of VfsNames apply to it. *)


Module SemfsTheory.
Import Uio Vnode Vfs VfsPath VfsParse VfsLaws VfsTheory VfsCalls VfsSafe VfsTable VfsAdd VfsNames Semfs SemfsLaws SemfsInst SemfsCreat.
Import Sfs(ENOENT, EEXIST, EBUSY, O_RDONLY, O_ACCMODE).

(** ** Boot *)

Definition blank : vfs unit semst := mk_vfs [] 0 None 1 0 None None (mk_n ∅ ∅ 1 [] 0 tt (mk_semst None 0 ∅ 1 [])).

Definition null_dev : device := mk_device 0 0 1 1 0.
Definition NULLNAME : list Z := [110; 117; 108; 108].
Definition booted : vfs unit semst :=
  mk_vfs [mk_kd NULLNAME None 3 5 NO_FS; mk_kd SEM None 0 15 (FS 8)] 4 None 1 0 None None
    (mk_n {[5 := mk_vnode 1 DEV_OPS None 3; 15 := mk_vnode 1 DEV_OPS None 0]} {[3 := null_dev]} 17 [] 16 tt
      (mk_semst (Some (mk_semfs [] 0 [] 0 [] 0)) 8 ∅ 1 [])).

Lemma boots : vfs_bootstrap semfs_bootstrap blank = Ret tt booted.
Proof. vm_compute. reflexivity. Qed.

Definition nobody : Z -> Z := fun _ => 0.

Lemma booted_vn v : n_vn (v_n booted) !! v =
  if decide (v = 5) then Some (mk_vnode 1 DEV_OPS None 3) else if decide (v = 15) then Some (mk_vnode 1 DEV_OPS None 0) else None.
Proof.
  change (n_vn (v_n booted)) with ({[5 := mk_vnode 1 DEV_OPS None 3; 15 := mk_vnode 1 DEV_OPS None 0]} : gmap Z vnode).
  case_decide; [subst; by rewrite lookup_insert_eq|rewrite lookup_insert_ne by done]. case_decide; [subst; by rewrite lookup_singleton_eq|by rewrite lookup_singleton_ne].
Qed.

Lemma booted_dev v : dev_view (v_n booted) !! v = if decide (v = 5) then Some (None, 3) else if decide (v = 15) then Some (None, 0) else None.
Proof. rewrite dev_view_lookup, booted_vn. repeat case_decide; done. Qed.

Lemma booted_fs : fs_view (v_n booted) = ∅.
Proof. apply map_eq. intros v. rewrite fs_view_lookup, booted_vn. repeat case_decide; done. Qed.

Lemma booted_listed v : listed (v_known booted) v = if decide (v = 5) then 1 else if decide (v = 15) then 1 else 0.
Proof.
  unfold listed. cbn [booted v_known]. repeat (rewrite filter_cons; cbn [kd_vnode]). repeat (case_decide; try lia); subst; try done; lia.
Qed.

Lemma booted_wf : vwf nobody booted.
Proof.
  split.
  - by left.
  - by split.
  - split.
    + split; [|intros v x; rewrite booted_vn; cbn; repeat case_decide; intros; try done; lia|done].
      intros v. rewrite booted_vn. unfold refs. rewrite booted_listed. unfold points, nobody. cbn. repeat case_decide; try done; lia.
    + rewrite booted_fs. split; [done|]. cbn. split; [|done]. split; split; cbn; try done.
      * intros v. split; [intros H; by apply not_elem_of_nil in H|intros [x Hx]; by rewrite lookup_empty in Hx].
      * apply NoDup_nil_2.
  - repeat constructor; cbn; try done; by rewrite booted_dev.
  - intros v [x Hx]. rewrite booted_dev in Hx. rewrite booted_listed. repeat case_decide; try done; lia.
  - split; cbn; [apply NoDup_cons; split; [|apply NoDup_singleton]; by intros H%list_elem_of_singleton|apply NoDup_singleton].
  - intros i. cbn. unfold slive. cbn. rewrite list_elem_of_singleton. split; [by intros (-> & _)|intros ->; done].
  - done.
  - done.
Qed.

Lemma booted_names : names_ok booted.
Proof. unfold names_ok. cbn. apply NoDup_cons. split; [by intros H%list_elem_of_singleton|apply NoDup_singleton]. Qed.

(** The same with the big lock held. *)
Definition locked : vfs unit semst := set_lock (Some 1) 1 booted.

Lemma locked_wf : vwf nobody locked.
Proof. destruct booted_wf as [A B C D G H I J K]. split; try done. by right. Qed.

Lemma locked_names : names_ok locked.
Proof. apply booted_names. Qed.

(** "sem:a" *)
Definition sem_a : list Z := SEM ++ [58; 97; 0].

Lemma vfs_calls_witness :
  wp (run_vcall (Open sem_a O_CREAT 0)) booted (fun r s' => vwf (owed (Open sem_a O_CREAT 0) r nobody) s' /\ vframe booted s').
Proof. apply vfs_calls_balanced; [apply booted_wf|]. split; [|done]. exists (SEM ++ [58; 97]), []. split; [done|]. by repeat constructor. Defined.

Lemma vfs_getroot_witness :
  vfs_getroot SEM locked = resolve (mk_kd SEM None 0 15 (FS 8)) false locked /\ vfs_getroot [120] locked = Ret (ENODEV, 0) locked.
Proof.
  destruct (vfs_getroot_resolves nobody locked locked_wf eq_refl locked_names) as [H1 H2]. split.
  - apply H1; [by right; left|done|]. intros j f Hj Hm _. split; [|done]. apply elem_of_cons in Hj as [->|Hj]; [done|]. by apply list_elem_of_singleton in Hj.
  - apply H2. intros (k & Hk & Hn). cbn in Hk. apply elem_of_cons in Hk as [->|Hk]; [|apply list_elem_of_singleton in Hk as ->]; vm_compute in Hn;
      repeat (apply elem_of_cons in Hn as [Hn|Hn]; [done|]); by apply not_elem_of_nil in Hn.
Defined.

Lemma getdevice_witness : getdevice (SEM ++ [58; 97] ++ 0 :: []) locked =
  match parse (SEM ++ [58; 97]) with
  | None => Ret (EINVAL, ([], 0)) locked
  | Some (o, q) => (r ← start_at o; mret (arrive o (q ++ 0 :: []) r)) locked
  end.
Proof. apply (getdevice_parses (SEM ++ [58; 97]) [] locked); [by repeat constructor|done]. Defined.

(** ** Creation when memory runs out *)

(** The name space after boot, with the allocations of the list failing. *)
Definition short (l : list bool) : vfs unit semst :=
  let n := v_n booted in set_n (mk_n (n_vn n) (n_dev n) (n_next n) l (n_live n) (n_user n) (n_fs n)) booted.

(** The root directory opened as vnode 17, with the same failures to come. *)
Definition rooted (l : list bool) : nstate unit semst :=
  mk_n (<[17 := mk_vnode 1 (FS_OPS DIROPS) (Some 8) SEMFS_ROOTDIR]> (n_vn (v_n booted))) (n_dev (v_n booted)) 19 l 18 tt
    (mk_semst (Some (mk_semfs [17] 4 [] 0 [] 0)) 8 ∅ 1 []).

(** When the memory for the directory entry or for its name is missing, [semfs_creat]
    reports success without a vnode: it takes the error exit with [result] still 0 from
    [semfs_sem_insert].  The semaphore is gone again and no file was made; [vfs_open] with
    O_CREAT then fails its assertion that the vnode is not NULL.  With one allocation less the
    call is ENOMEM, with all of them it succeeds. *)
Theorem semfs_creat_no_memory :
  (forall l, l = [false; false; false; false; true] \/ l = [false; false; false; false; false; true] ->
    exists n', semfs_creat 17 [97] false 0 (rooted l) = Ret (0, 0) n' /\
      sf (n_fs n') = Some (mk_semfs [17] 4 [None] 4 [] 0) /\ sf_locks (n_fs n') = ∅ /\ n_vn n' = n_vn (rooted l)) /\
  vfs_open sem_a O_CREAT 0 (short [false; false; false; false; false; false; true]) = Panic "KASSERT" /\
  vfs_open sem_a O_CREAT 0 (short [false; false; false; false; false; false; false; true]) = Panic "KASSERT" /\
  (exists s', vfs_open sem_a O_CREAT 0 (short [false; false; false; false; false; true]) = Ret (ENOMEM, 0) s') /\
  (exists v s', vfs_open sem_a O_CREAT 0 (short []) = Ret (0, v) s' /\ v <> 0).
Proof.
  split_and!; [|by vm_compute|by vm_compute|eexists; by vm_compute|eexists _, _; split; [by vm_compute|done]].
  intros l [-> | ->]; eexists; (split; [vm_compute; reflexivity|done]).
Qed.

End SemfsTheory.
