(* ===== verification/SemfsTokens.v ===== *)
(** * Threads on one semaphore of semfs

    The threads that read (P) and write (V) one semaphore file, as a step relation over the
    operations of Semfs.v: a reader goes through [semfs_read] to its end or to its sleep, a
    thread that was woken goes through the loop again, a writer runs [semfs_write].  Tokens
    are conserved; with one reader at a time no wakeup is lost, with two one can be. *)

From S2P Require Import Prelude Uio Sfs Vnode Vfs VfsLaws Semfs SemfsLaws SemfsInst.

Module SemfsTokens.
Import Uio Vnode Vfs VfsLaws Semfs SemfsLaws SemfsInst.
Import Sfs(EFBIG).

Section Tokens.
Context {U : Type} `{US : UserSpace U}.
Abbreviation nst := (nstate U semst).

(** ** The operations on a semaphore in the table *)

(** The vnode [v] is that of semaphore [num], which is [x]; no lock is held. *)
Record at_sem (v num : Z) (n : nst) (x : semfs_sem) : Prop := mk_at {
  as_vn : exists vx, n_vn n !! v = Some vx /\ vn_data vx = num;
  as_sem : exists s, sf (n_fs n) = Some s /\ semfs_sems s !! Z.to_nat num = Some (Some x);
  as_lk : sf_locks (n_fs n) = ∅;
  as_num : 0 <= num;
  as_count : 0 <= sems_count x < 2 ^ 32
}.

Lemma at_sem_set v num (n n' : nst) x y s L : at_sem v num n x -> sf (n_fs n) = Some s -> 0 <= sems_count y < 2 ^ 32 ->
  n_vn n' = n_vn n -> sf (n_fs n') = Some (set_sems (<[Z.to_nat num := Some y]> L) s) -> length L = length (semfs_sems s) -> sf_locks (n_fs n') = ∅ -> at_sem v num n' y.
Proof using Type.
  intros [A (s' & Hs' & Hx) C D E] Hs Hy Hv Hn HL Hl. simplify_eq. split; try done; [by rewrite Hv|]. eexists. split; [done|]. simpl.
  rewrite list_lookup_insert_eq; [done|]. rewrite HL. by eapply lookup_lt_Some.
Qed.

Lemma getsem_run v num (n : nst) x : at_sem v num n x -> semfs_getsem v n = Ret (num, Some x) n.
Proof using Type.
  intros [(vx & Hv & Hd) (s & Hs & Hx) HL Hn _]. unfold semfs_getsem. rewrite (run_bind _ _ n vx n) by (by apply get_vn_run). rewrite Hd.
  rewrite (run_bind _ _ n (Some x) n); [done|]. eapply getsembynum_run; [done|by rewrite HL|done].
Qed.

Definition took (x : semfs_sem) (u : uio) : Z := Z.min (sems_count x) (uio_resid u).

(** One pass of a reader: it takes what there is and goes to sleep when that is not enough. *)
Lemma read_pass_spec v num (n : nst) x u : at_sem v num n x -> 0 <= uio_resid u < 2 ^ 32 ->
  wp (read_pass num u) n (fun p n' => exists x', at_sem v num n' x' /\ sf_woken (n_fs n') = sf_woken (n_fs n) /\
    sems_count x' = sems_count x - took x u /\ uio_resid p.2 = uio_resid u - took x u /\ p.1 = bool_decide (uio_resid u <= sems_count x) /\
    sems_cv x' = if p.1 then sems_cv x else sems_cv x ++ [sf_me (n_fs n)]).
Proof using Type.
  intros A Hu. pose proof A as [_ (s & Hs & Hx) HL Hn Hc]. unfold read_pass, took. apply wp_bind. eapply wp_eq; [apply acquire_lk; by rewrite HL|]. rewrite HL.
  set (me := sf_me (n_fs n)). change (<[num := me]> ∅) with ({[num := me]} : gmap Z Z). set (n1 := with_lk _ n).
  assert (Hrel : forall (n' : nst) (Q : unit -> nst -> Prop), sf_locks (n_fs n') = {[num := me]} -> sf_me (n_fs n') = me -> Q tt (with_lk ∅ n') -> wp (lock_release num) n' Q).
  { intros n' Q H1 H2 HQ. eapply wp_eq; [apply release_lk; rewrite H1, H2; by rewrite lookup_singleton_eq|]. by rewrite H1, delete_singleton_eq. }
  destruct (Z.eqb_spec (uio_resid u) 0) as [E|E].
  { apply wp_bind, Hrel; [done|done|]. apply wp_ret. exists x. unfold n1. rewrite with_lk_same by done. rewrite E.
    split_and!; [done|done|lia|simpl; lia|rewrite bool_decide_eq_true_2; [done|lia]|done]. }
  apply wp_bind. eapply wp_eq; [by eapply semarray_get_run|]. apply wp_bind. eapply wp_deref; [done|].
  set (k := if sems_count x <? uio_resid u then sems_count x else uio_resid u).
  assert (Hk : k = Z.min (sems_count x) (uio_resid u)) by (unfold k; destruct (Z.ltb_spec (sems_count x) (uio_resid u)); lia).
  set (u' := if 0 <? sems_count x then uio_skip k u else u). set (y := set_count (sems_count x - k) x).
  assert (Hu' : uio_resid u' = uio_resid u - k). { unfold u'. destruct (Z.ltb_spec 0 (sems_count x)); [simpl; apply u32_small; lia|lia]. }
  set (n2 := with_sf (Some (set_sems (<[Z.to_nat num := Some y]> (semfs_sems s)) s)) n1).
  apply wp_bind. eapply (wp_eq _ _ tt n2).
  { destruct (Z.ltb_spec 0 (sems_count x)); [by apply (sem_modify_run n1 s num x)|]. unfold mret, M_ret, n2. do 2 f_equal. symmetry.
    rewrite list_insert_id; [rewrite set_sems_same by done; by apply with_sf_same|]. rewrite Hx. do 2 f_equal. unfold y, set_count. destruct x; simpl in *. f_equal. lia. }
  assert (Hlt : (Z.to_nat num < length (semfs_sems s))%nat) by (by eapply lookup_lt_Some).
  destruct (Z.eqb_spec (uio_resid u') 0) as [E'|E'].
  - apply wp_bind, Hrel; [done|done|]. apply wp_ret. exists y. split_and!; [|done|simpl; lia|simpl; lia|rewrite bool_decide_eq_true_2; [done|lia]|done].
    eapply (at_sem_set _ _ n); [exact A|done|simpl; lia|done|done|done|done].
  - apply wp_bind. eapply (wp_eq _ _ n2 n2); [done|]. apply wp_bind.
    eapply wp_eq; [eapply (sem_modify_run n2 _ num y); [done|simpl; by rewrite list_lookup_insert_eq]|]. set (n3 := with_sf _ n2).
    apply wp_bind, Hrel; [done|done|]. apply wp_ret. exists (set_cv (sems_cv y ++ [me]) y).
    split_and!; [|done|simpl; lia|simpl; lia|rewrite bool_decide_eq_false_2; [done|lia]|done].
    eapply (at_sem_set _ _ n); [exact A|done|simpl; lia|done|simpl; unfold set_sems; simpl; done|simpl; by rewrite length_insert|done].
Qed.

Lemma read_ends v num (n : nst) x u : at_sem v num n x -> 0 <= uio_resid u < 2 ^ 32 ->
  exists b u' n', read_pass num u n = Ret (b, u') n' /\ (b = true -> uio_resid u' = 0).
Proof using Type.
  intros A Hu. pose proof (read_pass_spec v num n x u A Hu) as H. unfold wp in H. destruct (read_pass num u n) as [[b u'] n'| | | | |]; try done.
  exists b, u', n'. split; [done|]. intros ->. destruct H as (x' & _ & _ & _ & Hr & Hb & _). cbn [fst snd] in *. symmetry in Hb. apply bool_decide_eq_true in Hb.
  unfold took in Hr. lia.
Qed.

(** How many sleepers [semfs_wakeup] wakes. *)
Definition wakes (old new : Z) (l : list Z) : nat :=
  if (0 <? old) || (new =? 0) then 0%nat else if new =? 1 then 1%nat else length l.

Lemma wakeup_run (n : nst) s num x new : sf (n_fs n) = Some s -> semfs_sems s !! Z.to_nat num = Some (Some x) ->
  let k := wakes (sems_count x) new (sems_cv x) in
  semfs_wakeup num new n =
    Ret tt (with_woken (sf_woken (n_fs n) ++ take k (sems_cv x)) (with_sf (Some (set_sems (<[Z.to_nat num := Some (set_cv (drop k (sems_cv x)) x)]> (semfs_sems s)) s)) n)).
Proof using Type.
  intros Hs Hx k. assert (Hsame : sems_cv x = drop k (sems_cv x) -> take k (sems_cv x) = [] ->
    with_woken (sf_woken (n_fs n) ++ take k (sems_cv x)) (with_sf (Some (set_sems (<[Z.to_nat num := Some (set_cv (drop k (sems_cv x)) x)]> (semfs_sems s)) s)) n) = n).
  { intros E1 E2. rewrite E2, <- E1, app_nil_r. rewrite list_insert_id by (rewrite Hx; by destruct x). rewrite set_sems_same by done. rewrite with_sf_same by done.
    unfold with_woken, set_fs. by destruct n as [? ? ? ? ? ? []]. }
  unfold semfs_wakeup. rewrite (run_bind _ _ n (Some x) n) by (by eapply semarray_get_run). rewrite (run_bind _ _ n x n) by done. unfold k, wakes in *.
  destruct ((0 <? sems_count x) || (new =? 0)); [by rewrite Hsame|]. destruct (new =? 1).
  - unfold cv_signal. rewrite (run_bind _ _ n (Some x) n) by (by eapply semarray_get_run). rewrite (run_bind _ _ n x n) by done.
    destruct (sems_cv x) as [|t l] eqn:E; [by rewrite Hsame|]. by rewrite (run_bind _ _ _ _ _ (sem_modify_run n s num x _ Hs Hx)).
  - unfold cv_broadcast. rewrite (run_bind _ _ n (Some x) n) by (by eapply semarray_get_run). rewrite (run_bind _ _ n x n) by done.
    rewrite (run_bind _ _ _ _ _ (sem_modify_run n s num x _ Hs Hx)). by rewrite drop_all, take_ge.
Qed.

(** A write adds its length to the count, or fails with EFBIG when that does not fit. *)
Lemma write_spec v num (n : nst) x u : at_sem v num n x -> 0 <= uio_resid u < 2 ^ 32 ->
  let new := sems_count x + uio_resid u in
  let k := if decide (uio_resid u = 0) then 0%nat else wakes (sems_count x) new (sems_cv x) in
  wp (semfs_write v u) n (fun p n' => exists x', at_sem v num n' x' /\
    if decide (new < 2 ^ 32) then
      p.1 = 0 /\ uio_resid p.2 = 0 /\ sems_count x' = new /\
      sems_cv x' = drop k (sems_cv x) /\ sf_woken (n_fs n') = sf_woken (n_fs n) ++ take k (sems_cv x)
    else p = (EFBIG, u) /\ n' = n /\ x' = x).
Proof using Type.
  intros A Hu new k. pose proof A as [_ (s & Hs & Hx) HL Hn Hc]. unfold semfs_write. apply wp_bind. eapply wp_eq; [by eapply getsem_run|]. cbv iota beta.
  apply wp_bind. eapply wp_deref; [done|]. apply wp_bind. eapply wp_eq; [apply acquire_lk; by rewrite HL|]. rewrite HL.
  set (me := sf_me (n_fs n)). change (<[num := me]> ∅) with ({[num := me]} : gmap Z Z). set (n1 := with_lk _ n).
  assert (Hrel : forall (n' : nst) (Q : unit -> nst -> Prop), sf_locks (n_fs n') = {[num := me]} -> sf_me (n_fs n') = me -> Q tt (with_lk ∅ n') -> wp (lock_release num) n' Q).
  { intros n' Q H1 H2 HQ. eapply wp_eq; [apply release_lk; rewrite H1, H2; by rewrite lookup_singleton_eq|]. by rewrite H1, delete_singleton_eq. }
  destruct (Z.eqb_spec (uio_resid u) 0) as [E|E].
  { apply wp_bind, Hrel; [done|done|]. apply wp_ret. exists x. unfold n1. rewrite with_lk_same by done. unfold k, new. rewrite E.
    rewrite !decide_True by (done || lia). simpl. rewrite app_nil_r. split_and!; [done|done|done|lia|done|done]. }
  apply wp_bind. eapply wp_eq; [by eapply semarray_get_run|]. apply wp_bind. eapply wp_deref; [done|]. fold new. unfold k. rewrite decide_False by done.
  destruct (decide (new < 2 ^ 32)) as [Hfit|Hfit].
  - rewrite (u32_small new) by (unfold new; lia). rewrite (proj2 (Z.ltb_ge new _)) by (unfold new; lia).
    apply wp_bind. eapply wp_eq; [by apply (wakeup_run n1 s num x)|]. set (j := wakes _ _ _). set (y := set_cv (drop j (sems_cv x)) x). set (n2 := with_woken _ _).
    assert (Hlt : (Z.to_nat num < length (semfs_sems s))%nat) by (by eapply lookup_lt_Some).
    apply wp_bind. eapply wp_eq; [eapply (sem_modify_run n2 _ num y); [done|simpl; by rewrite list_lookup_insert_eq]|].
    apply wp_bind, Hrel; [done|done|]. apply wp_ret. exists (set_count new y).
    split_and!; [|done|simpl; rewrite u32_small by lia; lia|done|done|done].
    eapply (at_sem_set _ _ n); [exact A|done|simpl; unfold new in *; lia|done|simpl; unfold set_sems; simpl; done|simpl; by rewrite length_insert|done].
  - assert (Hw : u32 new = new - 2 ^ 32) by (unfold u32; rewrite <- (Z.mod_small (new - 2 ^ 32) (2 ^ 32)) by (unfold new in *; lia); rewrite <- (Z_mod_plus_full (new - 2 ^ 32) 1 (2 ^ 32)); f_equal; lia). rewrite Hw, (proj2 (Z.ltb_lt _ _)) by (unfold new in *; lia).
    apply wp_bind, Hrel; [done|done|]. apply wp_ret. exists x. unfold n1. by rewrite with_lk_same.
Qed.

(** ** The threads *)

(** The state; the threads inside [cv_wait] with what they still have to read; the tokens
    taken by readers and put by writers so far. *)
Record sys := mk_sys { y_n : nst; y_wait : gmap Z uio; y_taken : Z; y_put : Z }.

Definition as_thread (t : Z) (n : nst) : nst :=
  set_fs (mk_semst (sf (n_fs n)) (sf_addr (n_fs n)) (sf_locks (n_fs n)) t (sf_woken (n_fs n))) n.
Definition unwake (t : Z) (n : nst) : nst := with_woken (remove_first t (sf_woken (n_fs n))) n.
Definition uok (u : uio) : Prop := 0 <= uio_resid u < 2 ^ 32.

(** One step, with at most [lim] readers waiting at a time. *)
Inductive step (lim : nat) (v num : Z) : sys -> sys -> Prop :=
  | step_read y t u b u' n' : y_wait y !! t = None -> (size (y_wait y) < lim)%nat -> uok u ->
      read_begin v u (as_thread t (y_n y)) = Ret (b, u') n' ->
      step lim v num y (mk_sys n' (if (b : bool) then y_wait y else <[t := u']> (y_wait y)) (y_taken y + (uio_resid u - uio_resid u')) (y_put y))
  | step_wake y t u b u' n' : t ∈ sf_woken (n_fs (y_n y)) -> y_wait y !! t = Some u ->
      read_pass num u (as_thread t (unwake t (y_n y))) = Ret (b, u') n' ->
      step lim v num y (mk_sys n' (if (b : bool) then delete t (y_wait y) else <[t := u']> (y_wait y)) (y_taken y + (uio_resid u - uio_resid u')) (y_put y))
  | step_write y t u r u' n' : y_wait y !! t = None -> uok u ->
      semfs_write v u (as_thread t (y_n y)) = Ret (r, u') n' ->
      step lim v num y (mk_sys n' (y_wait y) (y_taken y) (y_put y + (uio_resid u - uio_resid u'))).

Definition started (v num : Z) (y : sys) : Prop := exists x, at_sem v num (y_n y) x /\ sems_cv x = [] /\ sf_woken (n_fs (y_n y)) = [] /\
  y_wait y = ∅ /\ y_taken y = 0 /\ y_put y = sems_count x.
Definition reach (lim : nat) (v num : Z) (y : sys) : Prop := exists y0, started v num y0 /\ rtc (step lim v num) y0 y.

Definition keys (m : gmap Z uio) : list Z := (map_to_list m).*1.

(** Every token put is taken or in the count; the threads in [cv_wait] are those asleep and
    those woken; with room for one reader, nobody sleeps while there are tokens. *)
Record inv (lim : nat) (v num : Z) (y : sys) (x : semfs_sem) : Prop := mk_inv {
  in_at : at_sem v num (y_n y) x;
  in_keys : sems_cv x ++ sf_woken (n_fs (y_n y)) ≡ₚ keys (y_wait y);
  in_left t u : y_wait y !! t = Some u -> 0 < uio_resid u < 2 ^ 32;
  in_tokens : sems_count x + y_taken y = y_put y;
  in_size : (size (y_wait y) <= lim)%nat;
  in_lost : (lim <= 1)%nat -> sems_cv x <> [] -> sems_count x = 0
}.

Lemma keys_insert (m : gmap Z uio) t u : m !! t = None -> keys (<[t := u]> m) ≡ₚ t :: keys m.
Proof using Type. intros H. unfold keys. by rewrite map_to_list_insert. Qed.
Lemma keys_delete (m : gmap Z uio) t u : m !! t = Some u -> keys m ≡ₚ t :: keys (delete t m).
Proof using Type. intros H. unfold keys. by rewrite <- (map_to_list_delete m t u). Qed.
Lemma keys_length (m : gmap Z uio) : length (keys m) = size m.
Proof using Type. unfold keys. by rewrite length_fmap, length_map_to_list. Qed.
Lemma keys_update (m : gmap Z uio) t u u' : m !! t = Some u -> keys (<[t := u']> m) ≡ₚ keys m.
Proof using Type.
  intros H. rewrite (keys_delete m t u H), <- insert_delete_eq. by rewrite keys_insert by (by rewrite lookup_delete_eq).
Qed.

Lemma remove_first_perm t l : t ∈ l -> l ≡ₚ t :: remove_first t l.
Proof using Type.
  induction l as [|w l IH]; [intros H; by apply not_elem_of_nil in H|]. simpl. destruct (Z.eqb_spec w t) as [->|Hw]; [done|].
  intros [->|H]%elem_of_cons; [done|]. rewrite (IH H) at 1. apply Permutation_swap.
Qed.

Lemma as_thread_at v num n x t : at_sem v num n x -> at_sem v num (as_thread t n) x.
Proof using Type. by intros [A B C D E]. Qed.
Lemma unwake_at v num n x t : at_sem v num n x -> at_sem v num (unwake t n) x.
Proof using Type. by intros [A B C D E]. Qed.

Lemma begin_spec v num n x u : at_sem v num n x -> read_begin v u n = read_pass num u n.
Proof using Type.
  intros A. unfold read_begin. by rewrite (run_bind _ _ n (num, Some x) n) by (by eapply getsem_run).
Qed.

(** ** The invariant *)

Lemma inv_sleeps lim v num y x : inv lim v num y x -> (length (sems_cv x) + length (sf_woken (n_fs (y_n y))) = size (y_wait y))%nat.
Proof using Type. intros I. rewrite <- length_app, (in_keys _ _ _ _ _ I). apply keys_length. Qed.

Lemma inv_read lim v num y x t u b u' n' : inv lim v num y x -> y_wait y !! t = None -> (size (y_wait y) < lim)%nat -> uok u ->
  read_begin v u (as_thread t (y_n y)) = Ret (b, u') n' ->
  exists x', inv lim v num (mk_sys n' (if (b : bool) then y_wait y else <[t := u']> (y_wait y)) (y_taken y + (uio_resid u - uio_resid u')) (y_put y)) x'.
Proof using Type.
  intros I Hn Hsz Hu E. pose proof I as [A K L T S X]. rewrite (begin_spec v num _ x) in E by (by apply as_thread_at).
  pose proof (read_pass_spec v num _ x u (as_thread_at _ _ _ _ t A) Hu) as H. unfold wp in H. rewrite E in H. cbn [fst snd] in H.
  destruct H as (x' & A' & Hw & Hc & Hr & Hb & Hcv). exists x'. pose proof (as_count _ _ _ _ A). pose proof (inv_sleeps _ _ _ _ _ I) as Hlen. unfold took in *.
  split; cbn [y_n y_wait y_taken y_put].
  - done.
  - rewrite Hw, Hcv. cbn. destruct b; [done|]. rewrite keys_insert by done. rewrite <- app_assoc. simpl. rewrite <- Permutation_middle. by rewrite K.
  - intros t' w. destruct b; [apply L|]. destruct (decide (t' = t)) as [->|]; [|rewrite lookup_insert_ne by done; apply L].
    rewrite lookup_insert_eq. intros [= <-]. symmetry in Hb. apply bool_decide_eq_false in Hb. unfold uok in Hu. lia.
  - lia.
  - destruct b; [done|]. rewrite map_size_insert_None by done. lia.
  - intros Hlim Hne. destruct b.
    + rewrite Hcv in Hne. specialize (X Hlim Hne). unfold uok in Hu. lia.
    + symmetry in Hb. apply bool_decide_eq_false in Hb. lia.
Qed.

Lemma inv_wake lim v num y x t u b u' n' : inv lim v num y x -> t ∈ sf_woken (n_fs (y_n y)) -> y_wait y !! t = Some u ->
  read_pass num u (as_thread t (unwake t (y_n y))) = Ret (b, u') n' ->
  exists x', inv lim v num (mk_sys n' (if (b : bool) then delete t (y_wait y) else <[t := u']> (y_wait y)) (y_taken y + (uio_resid u - uio_resid u')) (y_put y)) x'.
Proof using Type.
  intros I Ht Hn E. pose proof I as [A K L T S X]. pose proof (L _ _ Hn) as Hu.
  pose proof (read_pass_spec v num _ x u (as_thread_at _ _ _ _ t (unwake_at _ _ _ _ t A)) ltac:(lia)) as H. unfold wp in H. rewrite E in H. cbn [fst snd] in H.
  destruct H as (x' & A' & Hw & Hc & Hr & Hb & Hcv). exists x'. pose proof (as_count _ _ _ _ A). pose proof (inv_sleeps _ _ _ _ _ I) as Hlen. unfold took in *.
  cbn in Hw, Hcv. pose proof (remove_first_perm t _ Ht) as P. assert (Hlen' : length (sf_woken (n_fs (y_n y))) <> 0%nat) by (destruct (sf_woken (n_fs (y_n y))); [by apply not_elem_of_nil in Ht|done]).
  assert (K' : t :: (sems_cv x ++ remove_first t (sf_woken (n_fs (y_n y)))) ≡ₚ keys (y_wait y)) by (rewrite <- K, Permutation_middle; apply Permutation_app_head; by symmetry).
  split; cbn [y_n y_wait y_taken y_put].
  - done.
  - rewrite Hw, Hcv. destruct b.
    + apply (Permutation_cons_inv (a := t)). by rewrite K', <- (keys_delete _ _ _ Hn).
    + rewrite (keys_update _ _ _ _ Hn), <- K'. rewrite <- app_assoc. simpl. by rewrite Permutation_middle.
  - intros t' w. destruct b; [rewrite lookup_delete_Some; intros [_ ?]; by eapply L|]. destruct (decide (t' = t)) as [->|]; [|rewrite lookup_insert_ne by done; apply L].
    rewrite lookup_insert_eq. intros [= <-]. symmetry in Hb. apply bool_decide_eq_false in Hb. lia.
  - lia.
  - destruct b; [rewrite map_size_delete_Some by (by eexists); lia|]. by rewrite map_size_insert_Some by (by eexists).
  - intros Hlim Hne. destruct b.
    + rewrite Hcv in Hne. assert (sems_cv x = []); [|done]. apply length_zero_iff_nil. lia.
    + symmetry in Hb. apply bool_decide_eq_false in Hb. lia.
Qed.

Lemma inv_write lim v num y x t u r u' n' : inv lim v num y x -> uok u -> semfs_write v u (as_thread t (y_n y)) = Ret (r, u') n' ->
  exists x', inv lim v num (mk_sys n' (y_wait y) (y_taken y) (y_put y + (uio_resid u - uio_resid u'))) x'.
Proof using Type.
  intros I Hu E. pose proof I as [A K L T S X]. pose proof (write_spec v num _ x u (as_thread_at _ _ _ _ t A) Hu) as H. unfold wp in H. rewrite E in H. cbn [fst snd] in H.
  destruct H as (x' & A' & H). exists x'. pose proof (as_count _ _ _ _ A) as Hc. pose proof (inv_sleeps _ _ _ _ _ I) as Hlen. unfold uok in Hu. case_decide as Hfit.
  - destruct H as (-> & Hr & Hct & Hcv & Hw). split; cbn [y_n y_wait y_taken y_put]; [done| |done|lia|done|].
    + rewrite Hcv, Hw. cbn [as_thread n_fs set_fs sf_woken]. rewrite <- K. set (k := if decide _ then _ else _).
      rewrite (Permutation_app_comm (sf_woken _) (take k _)), app_assoc. rewrite (Permutation_app_comm (drop k _)). by rewrite take_drop.
    + intros Hlim Hne. destruct (decide (uio_resid u = 0)) as [E0|E0]; [rewrite Hcv in Hne; specialize (X Hlim Hne); lia|].
      exfalso. apply Hne. rewrite Hcv. unfold wakes. destruct (sems_cv x) as [|w l] eqn:Ecv; [by rewrite drop_nil|]. rewrite X by done.
      rewrite Z.add_0_l. cbn [Z.ltb orb]. rewrite (proj2 (Z.eqb_neq _ _)) by done. simpl in Hlen. assert (length l = 0%nat) as ->%length_zero_iff_nil by lia. by destruct (uio_resid u =? 1).
  - destruct H as (H & -> & ->). simplify_eq. split; cbn [y_n y_wait y_taken y_put]; [by apply as_thread_at|done|done|lia|done|done].
Qed.

Lemma reach_inv lim v num y : reach lim v num y -> exists x, inv lim v num y x.
Proof using Type.
  intros (y0 & (x & A & Hcv & Hw & Hm & Ht & Hp) & R). assert (I : exists x, inv lim v num y0 x).
  { exists x. split; [done|rewrite Hcv, Hw, Hm; unfold keys; by rewrite map_to_list_empty|rewrite Hm; intros t u; by rewrite lookup_empty|lia|rewrite Hm, map_size_empty; lia|]. by rewrite Hcv. }
  clear -R I. induction R as [|y y1 y2 [y' t u b u' n' H1 H2 H3 E|y' t u b u' n' H1 H2 E|y' t u r u' n' H1 H2 E] _ IH]; [done| | |]; apply IH; destruct I as [x I];
    [by eapply inv_read|by eapply inv_wake|by eapply inv_write].
Qed.

(** C34: Whatever threads read and write a semaphore file, in any order: every operation
    returns or sleeps, and no token is lost or handed out twice: the count plus what readers
    took is the initial count plus what writers put.  A read ends only when it took what it
    asked for, a writer that would overflow the 32-bit count gets EFBIG and changes nothing,
    and the threads inside [cv_wait] are exactly the sleepers and the woken ones.  While at
    most one reader waits at a time, no thread sleeps while tokens are left. *)
Theorem semfs_tokens_conserved lim v num y : reach lim v num y ->
  exists x, at_sem v num (y_n y) x /\
    sems_count x + y_taken y = y_put y /\
    sems_cv x ++ sf_woken (n_fs (y_n y)) ≡ₚ keys (y_wait y) /\
    ((lim <= 1)%nat -> sems_cv x <> [] -> sems_count x = 0) /\
    (forall t u, uok u -> exists b u' n', read_begin v u (as_thread t (y_n y)) = Ret (b, u') n' /\ (b = true -> uio_resid u' = 0)) /\
    (forall t u, y_wait y !! t = Some u -> exists b u' n', read_pass num u (as_thread t (unwake t (y_n y))) = Ret (b, u') n' /\ (b = true -> uio_resid u' = 0)) /\
    (forall t u, uok u -> exists r u' n', semfs_write v u (as_thread t (y_n y)) = Ret (r, u') n' /\
       if decide (sems_count x + uio_resid u < 2 ^ 32) then r = 0 /\ uio_resid u' = 0 else r = EFBIG /\ u' = u /\ n' = as_thread t (y_n y)).
Proof using Type.
  intros H. destruct (reach_inv _ _ _ _ H) as (x & [A K L T S X]). exists x. split_and!; try done.
  - intros t u Hu. rewrite (begin_spec v num _ x) by (by apply as_thread_at). apply (read_ends v num _ x); [by apply as_thread_at|exact Hu].
  - intros t u Hn. apply (read_ends v num _ x); [by apply as_thread_at, unwake_at|]. specialize (L _ _ Hn). unfold uok. lia.
  - intros t u Hu. pose proof (write_spec v num _ x u (as_thread_at _ _ _ _ t A) Hu) as Hwr. unfold wp in Hwr. destruct (semfs_write v u (as_thread t (y_n y))) as [[r u'] n'| | | | |]; try done.
    exists r, u', n'. split; [done|]. destruct Hwr as (x' & _ & Hwr). case_decide; [by destruct Hwr as (? & ? & _)|]. destruct Hwr as ([= -> ->] & -> & _). done.
Qed.

(** While a thread sleeps beside tokens, no write wakes it. *)
Lemma write_no_wake lim v num y x t u r u' n' : inv lim v num y x -> 0 < sems_count x -> uok u ->
  semfs_write v u (as_thread t (y_n y)) = Ret (r, u') n' ->
  exists x', at_sem v num n' x' /\ sems_count x <= sems_count x' /\ sems_cv x' = sems_cv x /\ sf_woken (n_fs n') = sf_woken (n_fs (y_n y)).
Proof using Type.
  intros [A _ _ _ _ _] Hp Hu E. pose proof (write_spec v num _ x u (as_thread_at _ _ _ _ t A) Hu) as H. unfold wp in H. rewrite E in H. cbn [fst snd] in H.
  destruct H as (x' & A' & H). exists x'. unfold uok in Hu. case_decide.
  - destruct H as (_ & _ & Hc & Hcv & Hw). assert (E0 : wakes (sems_count x) (sems_count x + uio_resid u) (sems_cv x) = 0%nat) by (unfold wakes; by rewrite (proj2 (Z.ltb_lt 0 _))).
    rewrite E0 in Hcv, Hw. split_and!; [done|lia|by destruct (decide _)|]. rewrite Hw. destruct (decide _); by rewrite app_nil_r.
  - destruct H as (_ & -> & ->). split_and!; done || lia.
Qed.

End Tokens.

(** ** A lost wakeup *)

(** A state with the semaphore 0, opened as vnode 1, and no user memory. *)
Definition one_sem : nstate unit semst :=
  mk_n {[1 := mk_vnode 1 (FS_OPS SEMOPS) (Some 2) 0]} ∅ 3 [] 0 tt
    (mk_semst (Some (mk_semfs [1] 4 [Some (mk_sem [] 0 true true)] 4 [Some (mk_dent [97] 0)] 4)) 2 ∅ 0 []).
Definition quiet_sys : sys := mk_sys one_sem ∅ 0 0.
(** A request for one byte. *)
Definition one : uio := mk_uio [] [] 0 1 UIO_SYSSPACE UIO_READ 0.

Definition ran {A} (r : outcome (nstate unit semst) A) : nstate unit semst := match r with Ret _ n => n | _ => one_sem end.
(** Threads 11 and 12 sleep; thread 13 writes twice; thread 11 wakes up and takes a token. *)
Definition sleeps1 := ran (read_begin 1 one (as_thread 11 one_sem)).
Definition sleeps2 := ran (read_begin 1 one (as_thread 12 sleeps1)).
Definition writes1 := ran (semfs_write 1 one (as_thread 13 sleeps2)).
Definition writes2 := ran (semfs_write 1 one (as_thread 13 writes1)).
Definition takes1 := ran (read_pass 0 one (as_thread 11 (unwake 11 writes2))).
Definition stuck : sys := mk_sys takes1 {[12 := one]} 1 2.

Lemma quiet_started : started 1 0 quiet_sys.
Proof.
  exists (mk_sem [] 0 true true). split_and!; try done. split; cbn; try done.
  - eexists. split; [by rewrite lookup_singleton_eq|done].
  - eexists. split; [done|done].
Qed.

Lemma stuck_reached : rtc (step 2 1 0) quiet_sys stuck.
Proof.
  assert (Hu : uok one) by (unfold uok; simpl; lia).
  eapply rtc_l; [eapply (step_read 2 1 0 quiet_sys 11 one false one sleeps1); [done|vm_compute; lia|done|by vm_compute]|]. cbn [y_wait y_taken y_put].
  eapply rtc_l; [eapply (step_read 2 1 0 _ 12 one false one sleeps2); [done|vm_compute; lia|done|by vm_compute]|]. cbn [y_wait y_taken y_put].
  eapply rtc_l; [eapply (step_write 2 1 0 _ 13 one 0 (uio_skip 1 one) writes1); [done|done|by vm_compute]|]. cbn [y_wait y_taken y_put].
  eapply rtc_l; [eapply (step_write 2 1 0 _ 13 one 0 (uio_skip 1 one) writes2); [done|done|by vm_compute]|]. cbn [y_wait y_taken y_put].
  eapply rtc_l; [eapply (step_wake 2 1 0 _ 11 one true (uio_skip 1 one) takes1); [cbn [y_n]; by left|done|by vm_compute]|]. cbn [y_wait y_taken y_put].
  apply rtc_refl.
Qed.

(** A write of some thread. *)
Definition writes (y y' : sys (U := unit)) : Prop := exists t u r u' n', y_wait y !! t = None /\ uok u /\
  semfs_write 1 u (as_thread t (y_n y)) = Ret (r, u') n' /\ y' = mk_sys n' (y_wait y) (y_taken y) (y_put y + (uio_resid u - uio_resid u')).

Lemma writes_keep y y' x : inv 2 1 0 y x -> 0 < sems_count x -> sf_woken (n_fs (y_n y)) = [] -> rtc writes y y' ->
  exists x', inv 2 1 0 y' x' /\ 0 < sems_count x' /\ sems_cv x' = sems_cv x /\ sf_woken (n_fs (y_n y')) = [].
Proof.
  intros I Hp Hw R. revert x I Hp Hw. induction R as [y|y y1 y2 (t & u & r & u' & n' & H1 & H2 & E & ->) _ IH]; intros x I Hp Hw; [by exists x|].
  destruct (write_no_wake _ _ _ _ _ _ _ _ _ _ I Hp H2 E) as (x1 & A1 & Hc & Hcv & Hw1). destruct (inv_write _ _ _ _ _ _ _ _ _ _ I H2 E) as (x2 & I2).
  assert (x2 = x1) as ->. { destruct (as_sem _ _ _ _ A1) as (s1 & E1 & X1), (as_sem _ _ _ _ (in_at _ _ _ _ _ I2)) as (s2 & E2 & X2). cbn in E2. congruence. }
  destruct (IH x1 I2) as (x' & I' & Hp' & Hcv' & Hw'); [lia|cbn; by rewrite Hw1|]. exists x'. by rewrite Hcv', Hcv.
Qed.

(** With two readers a wakeup can be lost: two threads sleep in [semfs_read], two writes
    follow, the one thread that was woken takes its token, and the other sleeps on although a
    token is left, which the comment of [semfs_wakeup] excludes (it expects sleepers only when
    the old count is 0).  No number of further writes wakes the sleeper: [semfs_wakeup] does
    nothing while the count is positive. *)
Theorem semfs_wakeup_lost : exists y x, reach 2 1 0 y /\ at_sem 1 0 (y_n y) x /\ sems_cv x = [12] /\ y_wait y !! 12 = Some one /\
  uio_resid one <= sems_count x /\ sf_woken (n_fs (y_n y)) = [] /\
  forall y', rtc writes y y' -> exists x', at_sem 1 0 (y_n y') x' /\ sems_cv x' = [12] /\ sf_woken (n_fs (y_n y')) = [].
Proof.
  assert (R : reach 2 1 0 stuck) by (exists quiet_sys; split; [apply quiet_started|apply stuck_reached]). destruct (reach_inv _ _ _ _ R) as (x & I). exists stuck, x.
  assert (Hx : x = mk_sem [12] 1 true true). { destruct (as_sem _ _ _ _ (in_at _ _ _ _ _ I)) as (s & E & X). vm_compute in E. injection E as <-. vm_compute in X. by injection X as <-. }
  split_and!; [done|apply I|by rewrite Hx|done|rewrite Hx; cbn; lia|done|]. intros y' W.
  destruct (writes_keep stuck y' x I) as (x' & I' & _ & Hcv & Hw); [rewrite Hx; cbn; lia|done|done|]. exists x'. split_and!; [apply I'|by rewrite Hcv, Hx|done].
Qed.

Lemma semfs_tokens_witness : exists x, at_sem 1 0 (y_n stuck) x /\ sems_count x + y_taken stuck = y_put stuck.
Proof.
  destruct (semfs_tokens_conserved 2 1 0 stuck) as (x & A & T & _); [exists quiet_sys; split; [apply quiet_started|apply stuck_reached]|].
  exists x. split; [exact A|exact T].
Defined.

End SemfsTokens.
