(* ===== verification/Sched.v ===== *)
(** * Threads, CPUs and the scheduler: kern/thread/thread.c and clock.c

    The thread system of a machine with several CPUs: run queues, wait channels, zombies,
    context switches, interprocessor interrupts and the clock interrupt.  An operation takes
    the CPU it runs on ([curcpu]); its current thread is [curthread].  A CPU is named by its
    number, -1 is NULL.  A list of threads is the sequence of its members and [t_linked] says
    that the links of a thread are not NULL (Threadlist.v shows that the linked lists behave
    so).  [thread_switch] ends where the CPU runs the next thread, in the code that thread
    continues with ([resume]), or where the CPU sleeps in [cpu_idle].  The kernel memory of a
    thread's stack is the guard words at its end; [as_activate] is in AddrSpace.v, and the
    count of threads of a process in Proc.v. *)

From S2P Require Import Prelude Cpu.

Module Sched.
Import Cpu(splid, splx, splhigh, spl0, IPL_NONE, IPL_HIGH, spinlock_acquire, spinlock_release, spinlock_do_i_hold).

Inductive threadstate_t := S_RUN | S_READY | S_SLEEP | S_ZOMBIE.

(** Where a thread continues: [NOCTX] before its first switch or while it runs, [STARTUP]
    in thread_startup, [SWITCHED spl] after [switchframe_switch] in [thread_switch] with the
    local variable [spl]; [IDLING spl d] is the loop around [cpu_idle], which runs on the stack
    of the thread (above [d] trap frames) and is not a saved context. *)
Inductive context := NOCTX | STARTUP | IDLING (spl : Z) (depth : nat) | SWITCHED (spl : Z).

Record thread := mk_thread {
  t_wchan_name : option string;
  t_state : threadstate_t;
  t_linked : bool;
  t_stack : option (list Z);
  t_context : context;
  t_cpu : Z;
  t_proc : Z;
  t_in_interrupt : bool;
  t_curspl : Z;
  t_iplhigh_count : Z;
  t_traps : list (bool * bool)
}.

(** struct cpu, with the state of the processor: interrupts on, waiting in [cpu_idle],
    halted; and the local list [victims] of [thread_consider_migration]. *)
Record cpu := mk_cpu {
  c_curthread : Z;
  c_zombies : list Z;
  c_hardclocks : Z;
  c_spinlocks : Z;
  c_isidle : bool;
  c_runqueue : list Z;
  c_ipi_pending : Z;
  c_shootdown : list Z;
  irqs_on : bool;
  c_asleep : bool;
  c_halted : bool;
  c_victims : list Z
}.

Record wchan := mk_wchan { wc_name : string; wc_threads : list Z }.

Record tsys := mk_ts {
  cpus : gmap Z cpu;
  ncpus : Z;
  threads : gmap Z thread;
  wchans : gmap Z wchan;
  locks : gmap splid Z;
  next_addr : Z;
  oom : list bool
}.

Definition set_cpus (v : gmap Z cpu) (s : tsys) : tsys := mk_ts v (ncpus s) (threads s) (wchans s) (locks s) (next_addr s) (oom s).
Definition set_threads (v : gmap Z thread) (s : tsys) : tsys := mk_ts (cpus s) (ncpus s) v (wchans s) (locks s) (next_addr s) (oom s).
Definition set_wchans (v : gmap Z wchan) (s : tsys) : tsys := mk_ts (cpus s) (ncpus s) (threads s) v (locks s) (next_addr s) (oom s).
Definition set_locks (v : gmap splid Z) (s : tsys) : tsys := mk_ts (cpus s) (ncpus s) (threads s) (wchans s) v (next_addr s) (oom s).

(** *** Field updates *)
Definition set_state (w : option string) (st : threadstate_t) (t : thread) : thread :=
  mk_thread w st (t_linked t) (t_stack t) (t_context t) (t_cpu t) (t_proc t) (t_in_interrupt t) (t_curspl t) (t_iplhigh_count t) (t_traps t).
Definition set_linked (b : bool) (t : thread) : thread :=
  mk_thread (t_wchan_name t) (t_state t) b (t_stack t) (t_context t) (t_cpu t) (t_proc t) (t_in_interrupt t) (t_curspl t) (t_iplhigh_count t) (t_traps t).
Definition set_stack (k : option (list Z)) (t : thread) : thread :=
  mk_thread (t_wchan_name t) (t_state t) (t_linked t) k (t_context t) (t_cpu t) (t_proc t) (t_in_interrupt t) (t_curspl t) (t_iplhigh_count t) (t_traps t).
Definition set_ctx (k : context) (t : thread) : thread :=
  mk_thread (t_wchan_name t) (t_state t) (t_linked t) (t_stack t) k (t_cpu t) (t_proc t) (t_in_interrupt t) (t_curspl t) (t_iplhigh_count t) (t_traps t).
Definition set_tcpu (c : Z) (t : thread) : thread :=
  mk_thread (t_wchan_name t) (t_state t) (t_linked t) (t_stack t) (t_context t) c (t_proc t) (t_in_interrupt t) (t_curspl t) (t_iplhigh_count t) (t_traps t).
Definition set_proc (p : Z) (t : thread) : thread :=
  mk_thread (t_wchan_name t) (t_state t) (t_linked t) (t_stack t) (t_context t) (t_cpu t) p (t_in_interrupt t) (t_curspl t) (t_iplhigh_count t) (t_traps t).
Definition set_ipl (spl n : Z) (t : thread) : thread :=
  mk_thread (t_wchan_name t) (t_state t) (t_linked t) (t_stack t) (t_context t) (t_cpu t) (t_proc t) (t_in_interrupt t) spl n (t_traps t).
Definition set_traps (i : bool) (l : list (bool * bool)) (t : thread) : thread :=
  mk_thread (t_wchan_name t) (t_state t) (t_linked t) (t_stack t) (t_context t) (t_cpu t) (t_proc t) i (t_curspl t) (t_iplhigh_count t) l.

Definition set_cur (v : Z) (x : cpu) : cpu :=
  mk_cpu v (c_zombies x) (c_hardclocks x) (c_spinlocks x) (c_isidle x) (c_runqueue x) (c_ipi_pending x) (c_shootdown x) (irqs_on x) (c_asleep x) (c_halted x) (c_victims x).
Definition set_zombies (v : list Z) (x : cpu) : cpu :=
  mk_cpu (c_curthread x) v (c_hardclocks x) (c_spinlocks x) (c_isidle x) (c_runqueue x) (c_ipi_pending x) (c_shootdown x) (irqs_on x) (c_asleep x) (c_halted x) (c_victims x).
Definition set_hardclocks (v : Z) (x : cpu) : cpu :=
  mk_cpu (c_curthread x) (c_zombies x) v (c_spinlocks x) (c_isidle x) (c_runqueue x) (c_ipi_pending x) (c_shootdown x) (irqs_on x) (c_asleep x) (c_halted x) (c_victims x).
Definition set_splk (irq : bool) (n : Z) (x : cpu) : cpu :=
  mk_cpu (c_curthread x) (c_zombies x) (c_hardclocks x) n (c_isidle x) (c_runqueue x) (c_ipi_pending x) (c_shootdown x) irq (c_asleep x) (c_halted x) (c_victims x).
Definition set_idle (b asleep : bool) (x : cpu) : cpu :=
  mk_cpu (c_curthread x) (c_zombies x) (c_hardclocks x) (c_spinlocks x) b (c_runqueue x) (c_ipi_pending x) (c_shootdown x) (irqs_on x) asleep (c_halted x) (c_victims x).
Definition set_runqueue (v : list Z) (x : cpu) : cpu :=
  mk_cpu (c_curthread x) (c_zombies x) (c_hardclocks x) (c_spinlocks x) (c_isidle x) v (c_ipi_pending x) (c_shootdown x) (irqs_on x) (c_asleep x) (c_halted x) (c_victims x).
Definition set_ipi (p : Z) (l : list Z) (x : cpu) : cpu :=
  mk_cpu (c_curthread x) (c_zombies x) (c_hardclocks x) (c_spinlocks x) (c_isidle x) (c_runqueue x) p l (irqs_on x) (c_asleep x) (c_halted x) (c_victims x).
Definition set_halted (b : bool) (x : cpu) : cpu :=
  mk_cpu (c_curthread x) (c_zombies x) (c_hardclocks x) (c_spinlocks x) (c_isidle x) (c_runqueue x) (c_ipi_pending x) (c_shootdown x) (irqs_on x) (c_asleep x) b (c_victims x).
Definition set_victims (v : list Z) (x : cpu) : cpu :=
  mk_cpu (c_curthread x) (c_zombies x) (c_hardclocks x) (c_spinlocks x) (c_isidle x) (c_runqueue x) (c_ipi_pending x) (c_shootdown x) (irqs_on x) (c_asleep x) (c_halted x) v.

(** *** Access *)
Definition get_cpu (c : Z) : M tsys cpu := s ← get; deref (cpus s !! c).
Definition mod_cpu (c : Z) (f : cpu -> cpu) : M tsys unit := _ ← get_cpu c; modify (fun s => set_cpus (alter f c (cpus s)) s).
Definition get_t (t : Z) : M tsys thread := s ← get; deref (threads s !! t).
Definition mod_t (t : Z) (f : thread -> thread) : M tsys unit := _ ← get_t t; modify (fun s => set_threads (alter f t (threads s)) s).

(** What spl.c and spinlock.c use: the CPU and its current thread. *)
Definition view (c : Z) (s : tsys) : option Cpu.cpu :=
  x ← cpus s !! c;
  t ← threads s !! c_curthread x;
  Some (Cpu.mk_cpu true c (c_curthread x) (t_in_interrupt t) (t_curspl t) (t_iplhigh_count t) (irqs_on x) (c_spinlocks x) (locks s)).
Definition unview (c : Z) (v : Cpu.cpu) (s : tsys) : tsys :=
  mk_ts (alter (set_splk (Cpu.irqs_on v) (Cpu.c_spinlocks v)) c (cpus s)) (ncpus s)
    (alter (set_ipl (Cpu.t_curspl v) (Cpu.t_iplhigh_count v)) (Cpu.curthread v) (threads s))
    (wchans s) (Cpu.splk v) (next_addr s) (oom s).
Definition on (c : Z) {A} (m : M Cpu.cpu A) : M tsys A := fun s =>
  match view c s with
  | None => Undef
  | Some v =>
      match m v with
      | Ret a v' => Ret a (unview c v' s)
      | Panic msg => Panic msg
      | Exited n v' => Exited n (unview c v' s)
      | Waiting v' => Waiting (unview c v' s)
      | Undef => Undef
      | OutOfFuel => OutOfFuel
      end
  end.

Definition runqueue_lock (c : Z) : splid := ("c_runqueue_lock", c).
Definition ipi_lock (c : Z) : splid := ("c_ipi_lock", c).

(** *** Lists of threads *)
Inductive tlist := RUNQ (c : Z) | ZOMB (c : Z) | VICT (c : Z) | WCHAN (w : Z).

#[export] Instance tlist_eq : EqDecision tlist.
Proof. solve_decision. Defined.

Definition lst (s : tsys) (l : tlist) : list Z :=
  match l with
  | RUNQ c => default [] (c_runqueue <$> cpus s !! c)
  | ZOMB c => default [] (c_zombies <$> cpus s !! c)
  | VICT c => default [] (c_victims <$> cpus s !! c)
  | WCHAN w => default [] (wc_threads <$> wchans s !! w)
  end.
Definition set_lst (l : tlist) (v : list Z) (s : tsys) : tsys :=
  match l with
  | RUNQ c => set_cpus (alter (set_runqueue v) c (cpus s)) s
  | ZOMB c => set_cpus (alter (set_zombies v) c (cpus s)) s
  | VICT c => set_cpus (alter (set_victims v) c (cpus s)) s
  | WCHAN w => set_wchans (alter (fun x => mk_wchan (wc_name x) v) w (wchans s)) s
  end.

(** A node that is added must be in no list; one that is removed is in none. *)
Definition threadlist_add (tail : bool) (l : tlist) (t : Z) : M tsys unit :=
  x ← get_t t;
  _ ← KASSERT (negb (t_linked x));
  _ ← mod_t t (set_linked true);
  modify (fun s => set_lst l (if tail then lst s l ++ [t] else t :: lst s l) s).
Definition threadlist_addtail := threadlist_add true.
Definition threadlist_addhead := threadlist_add false.
Definition threadlist_remhead (l : tlist) : M tsys (option Z) :=
  s ← get;
  match lst s l with
  | [] => mret None
  | t :: r => _ ← modify (set_lst l r); _ ← mod_t t (set_linked false); mret (Some t)
  end.
Definition threadlist_remtail (l : tlist) : M tsys (option Z) :=
  s ← get;
  match rev (lst s l) with
  | [] => mret None
  | t :: r => _ ← modify (set_lst l (rev r)); _ ← mod_t t (set_linked false); mret (Some t)
  end.

(** ** Stacks, threads, CPUs *)

Definition THREAD_STACK_MAGIC : Z := 0xbaadf00d.

Definition thread_checkstack_init (t : Z) : M tsys unit :=
  x ← get_t t;
  _ ← deref (t_stack x);
  mod_t t (set_stack (Some (replicate 4 THREAD_STACK_MAGIC))).

Definition thread_checkstack (t : Z) : M tsys unit :=
  x ← get_t t;
  match t_stack x with
  | None => mret tt
  | Some w => KASSERT (bool_decide (w = replicate 4 THREAD_STACK_MAGIC))
  end.

Definition kmalloc : M tsys Z :=
  s ← get;
  let o := default false (head (oom s)) in
  _ ← put (mk_ts (cpus s) (ncpus s) (threads s) (wchans s) (locks s) (if o then next_addr s else next_addr s + 1) (tail (oom s)));
  mret (if o then 0 else next_addr s).

Definition NEWTHREAD : thread := mk_thread (Some "NEW"%string) S_READY false None NOCTX (-1) 0 false IPL_HIGH 1 [].

Definition thread_create : M tsys Z :=
  thread ← kmalloc;
  if thread =? 0 then mret 0
  else
    name ← kmalloc;
    if name =? 0 then mret 0
    else
      _ ← modify (fun s => set_threads (<[thread := NEWTHREAD]> (threads s)) s);
      mret thread.

(** The stack of uninitialised words. *)
Definition alloc_stack (t : Z) : M tsys bool :=
  p ← kmalloc;
  if p =? 0 then mret false
  else _ ← mod_t t (set_stack (Some (replicate 4 0))); mret true.

(** [proc_addthread] and [proc_remthread], as far as the thread is concerned. *)
Definition proc_addthread (p t : Z) : M tsys unit :=
  x ← get_t t;
  _ ← KASSERT (t_proc x =? 0);
  mod_t t (set_proc p).
Definition proc_remthread (t : Z) : M tsys unit :=
  x ← get_t t;
  _ ← KASSERT (negb (t_proc x =? 0));
  mod_t t (set_proc 0).

Definition kproc : Z := 1.
Definition MAXCPUS : Z := 32.

Definition cpu_create : M tsys Z :=
  p ← kmalloc;
  if p =? 0 then panic "cpu_create: Out of memory"
  else
    a ← kmalloc;
    if a =? 0 then panic "cpu_create: array_add"
    else
      s ← get;
      let c := ncpus s in
      t ← thread_create;
      if t =? 0 then panic "cpu_create: thread_create failed"
      else
        _ ← modify (fun s => mk_ts (<[c := mk_cpu t [] 0 0 false [] 0 [] false false false []]> (cpus s)) (c + 1)
                               (threads s) (wchans s) (locks s) (next_addr s) (oom s));
        _ ← mod_t t (set_tcpu c);
        _ ← (if c =? 0 then mret tt
             else
               ok ← alloc_stack t;
               if negb ok then panic "cpu_create: couldn't allocate stack" else thread_checkstack_init t);
        _ ← proc_addthread kproc t;
        _ ← KASSERT (c <? MAXCPUS);
        mret c.

Definition thread_destroy (curcpu thread : Z) : M tsys unit :=
  x ← get_cpu curcpu;
  _ ← KASSERT (negb (thread =? c_curthread x));
  t ← get_t thread;
  _ ← KASSERT (match t_state t with S_RUN => false | _ => true end);
  _ ← KASSERT (t_proc t =? 0);
  _ ← KASSERT (negb (t_linked t));
  modify (fun s => set_threads (delete thread (threads s)) s).

(** One round per zombie, and one that finds none. *)
Fixpoint exorcise_loop (fuel : nat) (curcpu : Z) : M tsys unit :=
  match fuel with
  | O => out_of_fuel
  | S fuel' =>
      z ← threadlist_remhead (ZOMB curcpu);
      match z with
      | None => mret tt
      | Some z =>
          x ← get_cpu curcpu;
          _ ← KASSERT (negb (z =? c_curthread x));
          t ← get_t z;
          _ ← KASSERT (match t_state t with S_ZOMBIE => true | _ => false end);
          _ ← thread_destroy curcpu z;
          exorcise_loop fuel' curcpu
      end
  end.
Definition exorcise (curcpu : Z) : M tsys unit :=
  x ← get_cpu curcpu;
  exorcise_loop (S (length (c_zombies x))) curcpu.

(** ** Interprocessor interrupts *)

Definition IPI_PANIC : Z := 0.
Definition IPI_OFFLINE : Z := 1.
Definition IPI_UNIDLE : Z := 2.
Definition IPI_TLBSHOOTDOWN : Z := 3.
Definition TLBSHOOTDOWN_MAX : nat := 16.

Definition ipi_send (curcpu target code : Z) : M tsys unit :=
  _ ← KASSERT ((0 <=? code) && (code <? 32));
  _ ← on curcpu (spinlock_acquire (ipi_lock target));
  _ ← mod_cpu target (fun x => set_ipi (Z.lor (c_ipi_pending x) (Z.shiftl 1 code)) (c_shootdown x) x);
  on curcpu (spinlock_release (ipi_lock target)).

Definition ipi_broadcast (curcpu code : Z) : M tsys unit :=
  s ← get;
  for_loop (Z.to_nat (ncpus s)) 0 (fun c => when (negb (c =? curcpu)) (ipi_send curcpu c code)).

Definition ipi_tlbshootdown (curcpu target mapping : Z) : M tsys unit :=
  _ ← on curcpu (spinlock_acquire (ipi_lock target));
  x ← get_cpu target;
  if bool_decide (length (c_shootdown x) = TLBSHOOTDOWN_MAX) then panic "ipi_tlbshootdown: Too many shootdowns queued"
  else
    _ ← mod_cpu target (fun x => set_ipi (Z.lor (c_ipi_pending x) (Z.shiftl 1 IPI_TLBSHOOTDOWN)) (c_shootdown x ++ [mapping]) x);
    on curcpu (spinlock_release (ipi_lock target)).

(** [false]: the CPU has halted.  [vm_tlbshootdown] of vm_project.c panics. *)
Definition interprocessor_interrupt (curcpu : Z) : M tsys bool :=
  _ ← on curcpu (spinlock_acquire (ipi_lock curcpu));
  x ← get_cpu curcpu;
  let bits := c_ipi_pending x in
  if Z.testbit bits IPI_PANIC then
    _ ← on curcpu (spinlock_release (ipi_lock curcpu));
    _ ← mod_cpu curcpu (set_halted true);
    mret false
  else if Z.testbit bits IPI_OFFLINE then
    _ ← on curcpu (spinlock_release (ipi_lock curcpu));
    _ ← on curcpu (spinlock_acquire (runqueue_lock curcpu));
    _ ← on curcpu (spinlock_release (runqueue_lock curcpu));
    _ ← mod_cpu curcpu (set_halted true);
    mret false
  else
    _ ← (if Z.testbit bits IPI_TLBSHOOTDOWN then
           _ ← (match c_shootdown x with [] => mret tt | _ => panic "vm_project tried to do tlb shootdown?!" end);
           mod_cpu curcpu (fun x => set_ipi (c_ipi_pending x) [] x)
         else mret tt);
    _ ← mod_cpu curcpu (fun x => set_ipi 0 (c_shootdown x) x);
    _ ← on curcpu (spinlock_release (ipi_lock curcpu));
    mret true.

(** The run queue is dropped without its lock: the threads on it keep their links. *)
Definition thread_panic (curcpu : Z) : M tsys unit :=
  _ ← ipi_broadcast curcpu IPI_PANIC;
  mod_cpu curcpu (set_runqueue []).
Definition thread_shutdown (curcpu : Z) : M tsys unit := ipi_broadcast curcpu IPI_OFFLINE.

(** ** Making threads runnable *)

Definition thread_make_runnable (curcpu target : Z) (already_have_lock : bool) : M tsys unit :=
  x ← get_t target;
  let targetcpu := t_cpu x in
  _ ← (if already_have_lock then
         h ← on curcpu (spinlock_do_i_hold (runqueue_lock targetcpu));
         KASSERT h
       else on curcpu (spinlock_acquire (runqueue_lock targetcpu)));
  _ ← mod_t target (fun t => set_state (t_wchan_name t) S_READY t);
  _ ← threadlist_addtail (RUNQ targetcpu) target;
  y ← get_cpu targetcpu;
  _ ← when (c_isidle y && negb (targetcpu =? curcpu)) (ipi_send curcpu targetcpu IPI_UNIDLE);
  when (negb already_have_lock) (on curcpu (spinlock_release (runqueue_lock targetcpu))).

Definition thread_fork (curcpu proc : Z) : M tsys Z :=
  newthread ← thread_create;
  if newthread =? 0 then mret ENOMEM
  else
    ok ← alloc_stack newthread;
    if negb ok then _ ← thread_destroy curcpu newthread; mret ENOMEM
    else
      _ ← thread_checkstack_init newthread;
      x ← get_cpu curcpu;
      cur ← get_t (c_curthread x);
      _ ← mod_t newthread (set_tcpu (t_cpu cur));
      let proc := if proc =? 0 then t_proc cur else proc in
      _ ← proc_addthread proc newthread;
      _ ← mod_t newthread (fun t => set_ipl (t_curspl t) (t_iplhigh_count t + 1) t);
      _ ← mod_t newthread (set_ctx STARTUP);
      _ ← thread_make_runnable curcpu newthread false;
      mret 0.

(** ** Context switches *)

(** The thread that now runs continues: the end of [thread_switch], or the beginning of
    thread_startup. *)
Definition resume (curcpu : Z) : M tsys unit :=
  x ← get_cpu curcpu;
  let cur := c_curthread x in
  t ← get_t cur;
  match t_context t with
  | SWITCHED spl =>
      _ ← mod_t cur (fun t => set_ctx NOCTX (set_state None S_RUN t));
      _ ← on curcpu (spinlock_release (runqueue_lock curcpu));
      _ ← exorcise curcpu;
      _ ← on curcpu (splx spl);
      mret tt
  | STARTUP =>
      _ ← mod_t cur (fun t => set_ctx NOCTX (set_state None S_RUN t));
      _ ← on curcpu (spinlock_release (runqueue_lock curcpu));
      _ ← exorcise curcpu;
      _ ← on curcpu spl0;
      mret tt
  | _ => undef
  end.

(** What a switch came to: back in the same call at once, asleep in [cpu_idle], or another
    (or again the same) thread runs. *)
Inductive switched := STAYED | IDLE | RUNS (t : Z).

(** The loop that gets the next thread, up to [cpu_idle]; the run queue is locked. *)
Definition pick (curcpu cur spl : Z) : M tsys switched :=
  next ← threadlist_remhead (RUNQ curcpu);
  match next with
  | None =>
      _ ← on curcpu (spinlock_release (runqueue_lock curcpu));
      _ ← mod_t cur (fun t => set_ctx (IDLING spl (length (t_traps t))) t);
      _ ← mod_cpu curcpu (set_idle true true);
      mret IDLE
  | Some next =>
      _ ← mod_cpu curcpu (set_idle false false);
      _ ← mod_cpu curcpu (set_cur next);
      _ ← mod_t cur (set_ctx (SWITCHED spl));
      _ ← resume curcpu;
      mret (RUNS next)
  end.

(** [cpu_idle] returned. *)
Definition idle_poll (curcpu : Z) : M tsys switched :=
  x ← get_cpu curcpu;
  t ← get_t (c_curthread x);
  match t_context t with
  | IDLING spl _ =>
      _ ← on curcpu (spinlock_acquire (runqueue_lock curcpu));
      pick curcpu (c_curthread x) spl
  | _ => undef
  end.

(** [wc]: the wait channel and the spinlock, for S_SLEEP. *)
Definition thread_switch (curcpu : Z) (newstate : threadstate_t) (wc : option (Z * splid)) : M tsys switched :=
  spl ← on curcpu splhigh;
  x ← get_cpu curcpu;
  let cur := c_curthread x in
  if c_isidle x then _ ← on curcpu (splx spl); mret STAYED
  else
    _ ← thread_checkstack cur;
    _ ← on curcpu (spinlock_acquire (runqueue_lock curcpu));
    s ← get;
    if match newstate, lst s (RUNQ curcpu) with S_READY, [] => true | _, _ => false end then
      _ ← on curcpu (spinlock_release (runqueue_lock curcpu));
      _ ← on curcpu (splx spl);
      mret STAYED
    else
      _ ← (match newstate with
           | S_RUN => panic "Illegal S_RUN in thread_switch"
           | S_READY => thread_make_runnable curcpu cur true
           | S_SLEEP =>
               w ← deref wc;
               ch ← deref (wchans s !! w.1);
               _ ← mod_t cur (fun t => set_state (Some (wc_name ch)) (t_state t) t);
               _ ← threadlist_addtail (WCHAN w.1) cur;
               on curcpu (spinlock_release w.2)
           | S_ZOMBIE =>
               _ ← mod_t cur (fun t => set_state (Some "ZOMBIE"%string) (t_state t) t);
               threadlist_addtail (ZOMB curcpu) cur
           end);
      _ ← mod_t cur (fun t => set_state (t_wchan_name t) newstate t);
      _ ← mod_cpu curcpu (fun x => set_idle true (c_asleep x) x);
      pick curcpu cur spl.

Definition thread_exit (curcpu : Z) : M tsys switched :=
  x ← get_cpu curcpu;
  let cur := c_curthread x in
  t ← get_t cur;
  _ ← when (negb (t_proc t =? 0)) (proc_remthread cur);
  t ← get_t cur;
  _ ← KASSERT (t_proc t =? 0);
  _ ← thread_checkstack cur;
  _ ← on curcpu splhigh;
  r ← thread_switch curcpu S_ZOMBIE None;
  match r with STAYED => panic "braaaaaaaiiiiiiiiiiinssssss" | _ => mret r end.

Definition thread_yield (curcpu : Z) : M tsys switched := thread_switch curcpu S_READY None.

(** ** Migration, in its critical sections *)

Definition schedule : M tsys unit := mret tt.

(** One round of the first loop. *)
Definition mig_count (curcpu i my_count total_count : Z) : M tsys (Z * Z) :=
  _ ← on curcpu (spinlock_acquire (runqueue_lock i));
  x ← get_cpu i;
  let n := Z.of_nat (length (c_runqueue x)) in
  _ ← on curcpu (spinlock_release (runqueue_lock i));
  mret (if i =? curcpu then n else my_count, u32 (total_count + n)).

Definition DIVROUNDUP (a b : Z) : Z := u32 (a + b - 1) / b.

(** [to_send] threads from the end of our run queue, in order. *)
Definition mig_take (curcpu to_send : Z) : M tsys unit :=
  _ ← on curcpu (spinlock_acquire (runqueue_lock curcpu));
  _ ← for_loop (Z.to_nat to_send) 0 (fun _ =>
        t ← threadlist_remtail (RUNQ curcpu);
        t ← deref t;
        threadlist_addhead (VICT curcpu) t);
  on curcpu (spinlock_release (runqueue_lock curcpu)).

(** The inner loop for CPU [c]; the fuel is [to_send]. *)
Fixpoint give_loop (fuel : nat) (curcpu c one_share to_send : Z) : M tsys Z :=
  x ← get_cpu c;
  if (Z.of_nat (length (c_runqueue x)) <? one_share) && (0 <? to_send) then
    match fuel with
    | O => out_of_fuel
    | S fuel' =>
        t ← threadlist_remhead (VICT curcpu);
        t ← deref t;
        y ← get_cpu curcpu;
        if t =? c_curthread y then
          _ ← threadlist_addtail (VICT curcpu) t;
          give_loop fuel' curcpu c one_share (to_send - 1)
        else
          _ ← mod_t t (set_tcpu c);
          _ ← threadlist_addtail (RUNQ c) t;
          x ← get_cpu c;
          _ ← when (c_isidle x) (ipi_send curcpu c IPI_UNIDLE);
          give_loop fuel' curcpu c one_share (to_send - 1)
    end
  else mret to_send.

Definition mig_give (curcpu c one_share to_send : Z) : M tsys Z :=
  if c =? curcpu then mret to_send
  else
    _ ← on curcpu (spinlock_acquire (runqueue_lock c));
    to_send ← give_loop (Z.to_nat to_send) curcpu c one_share to_send;
    _ ← on curcpu (spinlock_release (runqueue_lock c));
    mret to_send.

(** What is left goes back; one round per thread and one that finds none. *)
Fixpoint back_loop (fuel : nat) (curcpu : Z) : M tsys unit :=
  match fuel with
  | O => out_of_fuel
  | S fuel' =>
      t ← threadlist_remhead (VICT curcpu);
      match t with
      | None => mret tt
      | Some t => _ ← threadlist_addtail (RUNQ curcpu) t; back_loop fuel' curcpu
      end
  end.
Definition mig_back (curcpu : Z) : M tsys unit :=
  s ← get;
  _ ← (match lst s (VICT curcpu) with
       | [] => mret tt
       | l =>
           _ ← on curcpu (spinlock_acquire (runqueue_lock curcpu));
           _ ← back_loop (S (length l)) curcpu;
           on curcpu (spinlock_release (runqueue_lock curcpu))
       end);
  s ← get;
  KASSERT (match lst s (VICT curcpu) with [] => true | _ => false end).

(** The loops over the CPUs. *)
Fixpoint count_loop (n : nat) (curcpu i my_count total_count : Z) : M tsys (Z * Z) :=
  match n with
  | O => mret (my_count, total_count)
  | S n' => r ← mig_count curcpu i my_count total_count; count_loop n' curcpu (i + 1) r.1 r.2
  end.
Fixpoint send_loop (n : nat) (curcpu i one_share to_send : Z) : M tsys unit :=
  match n with
  | O => mret tt
  | S n' =>
      if 0 <? to_send then
        to_send ← mig_give curcpu i one_share to_send;
        send_loop n' curcpu (i + 1) one_share to_send
      else mret tt
  end.

Definition thread_consider_migration (curcpu : Z) : M tsys unit :=
  s ← get;
  let numcpus := ncpus s in
  r ← count_loop (Z.to_nat numcpus) curcpu 0 0 0;
  let '(my_count, total_count) := r in
  let one_share := DIVROUNDUP total_count numcpus in
  if my_count <? one_share then mret tt
  else
    let to_send := my_count - one_share in
    _ ← mig_take curcpu to_send;
    _ ← send_loop (Z.to_nat numcpus) curcpu 0 one_share to_send;
    mig_back curcpu.

(** ** Wait channels *)

Definition wchan_create (name : string) : M tsys Z :=
  w ← kmalloc;
  if w =? 0 then mret 0
  else _ ← modify (fun s => set_wchans (<[w := mk_wchan name []]> (wchans s)) s); mret w.

Definition wchan_destroy (w : Z) : M tsys unit :=
  s ← get;
  x ← deref (wchans s !! w);
  _ ← KASSERT (match wc_threads x with [] => true | _ => false end);
  modify (fun s => set_wchans (delete w (wchans s)) s).

(** Up to the switch; the thread takes the spinlock again when it continues. *)
Definition wchan_sleep (curcpu w : Z) (lk : splid) : M tsys switched :=
  x ← get_cpu curcpu;
  t ← get_t (c_curthread x);
  _ ← KASSERT (negb (t_in_interrupt t));
  h ← on curcpu (spinlock_do_i_hold lk);
  _ ← KASSERT h;
  _ ← KASSERT (c_spinlocks x =? 1);
  thread_switch curcpu S_SLEEP (Some (w, lk)).

Definition wchan_wakeone (curcpu w : Z) (lk : splid) : M tsys unit :=
  h ← on curcpu (spinlock_do_i_hold lk);
  _ ← KASSERT h;
  target ← threadlist_remhead (WCHAN w);
  match target with None => mret tt | Some target => thread_make_runnable curcpu target false end.

(** The private list keeps the order; a thread leaves the channel and the private list
    before it is made runnable. *)
Fixpoint wake_loop (fuel : nat) (curcpu w : Z) : M tsys unit :=
  match fuel with
  | O => out_of_fuel
  | S fuel' =>
      target ← threadlist_remhead (WCHAN w);
      match target with
      | None => mret tt
      | Some target => _ ← thread_make_runnable curcpu target false; wake_loop fuel' curcpu w
      end
  end.
Definition wchan_wakeall (curcpu w : Z) (lk : splid) : M tsys unit :=
  h ← on curcpu (spinlock_do_i_hold lk);
  _ ← KASSERT h;
  s ← get;
  wake_loop (S (length (lst s (WCHAN w)))) curcpu w.

Definition wchan_isempty (curcpu w : Z) (lk : splid) : M tsys bool :=
  h ← on curcpu (spinlock_do_i_hold lk);
  _ ← KASSERT h;
  s ← get;
  mret (match lst s (WCHAN w) with [] => true | _ => false end).

(** ** clock.c *)

Definition SCHEDULE_HARDCLOCKS : Z := 4.
Definition MIGRATE_HARDCLOCKS : Z := 16.

Definition lbolt_lock : splid := ("lbolt_lock", 0).

Definition timerclock (curcpu lbolt : Z) : M tsys unit :=
  _ ← on curcpu (spinlock_acquire lbolt_lock);
  _ ← wchan_wakeall curcpu lbolt lbolt_lock;
  on curcpu (spinlock_release lbolt_lock).

Definition hardclock (curcpu : Z) : M tsys switched :=
  _ ← mod_cpu curcpu (fun x => set_hardclocks (u32 (c_hardclocks x + 1)) x);
  x ← get_cpu curcpu;
  _ ← when (c_hardclocks x mod MIGRATE_HARDCLOCKS =? 0) (thread_consider_migration curcpu);
  _ ← when (c_hardclocks x mod SCHEDULE_HARDCLOCKS =? 0) schedule;
  thread_yield curcpu.

(** [clocksleep(num_secs)], from taking the lock to its end ([None]) or to a sleep, with the
    seconds that are left then; the thread takes the lock again when it continues. *)
Definition clocksleep_from (curcpu lbolt num_secs : Z) : M tsys (option (switched * Z)) :=
  _ ← on curcpu (spinlock_acquire lbolt_lock);
  if 0 <? num_secs then
    r ← wchan_sleep curcpu lbolt lbolt_lock;
    mret (Some (r, num_secs - 1))
  else
    _ ← on curcpu (spinlock_release lbolt_lock);
    mret None.

(** ** The interrupt part of [mips_trap] *)

(** Up to [mainbus_interrupt]; the processor has turned interrupts off (and is awake). *)
Definition trap_enter (curcpu : Z) : M tsys unit :=
  _ ← mod_cpu curcpu (fun x => set_idle (c_isidle x) false (set_splk false (c_spinlocks x) x));
  x ← get_cpu curcpu;
  let cur := c_curthread x in
  t ← get_t cur;
  let old_in := t_in_interrupt t in
  if t_curspl t =? 0 then
    _ ← KASSERT (t_iplhigh_count t =? 0);
    mod_t cur (fun t => set_traps true ((old_in, true) :: t_traps t) (set_ipl IPL_HIGH (t_iplhigh_count t + 1) t))
  else mod_t cur (fun t => set_traps true ((old_in, false) :: t_traps t) t).

(** From the return of [mainbus_interrupt]; the processor restores its interrupt state. *)
Definition trap_exit (curcpu : Z) : M tsys unit :=
  x ← get_cpu curcpu;
  let cur := c_curthread x in
  t ← get_t cur;
  match t_traps t with
  | [] => undef
  | (old_in, doadjust) :: l =>
      _ ← (if doadjust : bool then
             _ ← KASSERT (t_curspl t =? IPL_HIGH);
             _ ← KASSERT (t_iplhigh_count t =? 1);
             _ ← mod_t cur (fun t => set_ipl 0 (t_iplhigh_count t - 1) t);
             mod_cpu curcpu (fun x => set_splk true (c_spinlocks x) x)
           else mret tt);
      mod_t cur (set_traps old_in l)
  end.

(** ** Boot *)

Definition thread_bootstrap : M tsys unit :=
  _ ← modify (fun s => mk_ts ∅ 0 (threads s) (wchans s) (locks s) (next_addr s) (oom s));
  c ← cpu_create;
  x ← get_cpu c;
  t ← get_t (c_curthread x);
  _ ← KASSERT (negb (t_proc t =? 0));
  KASSERT (t_proc t =? kproc).

Definition hardclock_bootstrap : M tsys Z :=
  lbolt ← wchan_create "lbolt";
  if lbolt =? 0 then panic "Couldn't create lbolt" else mret lbolt.

(** The semaphore that [thread_start_cpus] waits on for the other CPUs: its lock, its channel
    [w] and its count.  [sem_create], 0 for NULL. *)
Definition hatch_lock : splid := ("cpu_hatch", 0).

Definition start_cpus_sem : M tsys Z :=
  sem ← kmalloc;
  if sem =? 0 then mret 0
  else
    name ← kmalloc;
    if name =? 0 then mret 0 else wchan_create "cpu_hatch".

(** [P], from taking the lock to its end ([None]) or to a sleep, with the count then; the
    thread takes the lock again when it continues. *)
Definition start_cpus_wait (curcpu w count : Z) : M tsys (option switched * Z) :=
  _ ← KASSERT (negb (w =? 0));
  x ← get_cpu curcpu;
  t ← get_t (c_curthread x);
  _ ← KASSERT (negb (t_in_interrupt t));
  _ ← on curcpu (spinlock_acquire hatch_lock);
  if count =? 0 then
    r ← wchan_sleep curcpu w hatch_lock;
    mret (Some r, count)
  else
    _ ← on curcpu (spinlock_release hatch_lock);
    mret (None, count - 1).

(** A new CPU says that it is there and looks for work. *)
Definition cpu_hatch (curcpu software_number w count : Z) : M tsys (Z * switched) :=
  _ ← get_cpu curcpu;
  _ ← KASSERT (curcpu =? software_number);
  _ ← on curcpu spl0;
  _ ← KASSERT (negb (w =? 0));
  _ ← on curcpu (spinlock_acquire hatch_lock);
  let count := u32 (count + 1) in
  _ ← KASSERT (0 <? count);
  _ ← wchan_wakeone curcpu w hatch_lock;
  _ ← on curcpu (spinlock_release hatch_lock);
  r ← thread_exit curcpu;
  mret (count, r).

End Sched.
