(* ===== verification/SchedInv.v ===== *)
(** * The invariant of the thread system

    Every thread is in exactly one place: it runs on one CPU, or it is on one list (a run
    queue, a wait channel, the zombies of a CPU, the victims of a migration).  A thread that
    is not current on any CPU can be resumed: its context is saved and its interrupt count is
    that of a thread about to release one run queue lock.  [H] is the set of threads that an
    operation holds in its hands. *)

From S2P Require Import Prelude Cpu Sched.

Module SchedInv.
Import Cpu(splid, splx, splhigh, spl0, IPL_NONE, IPL_HIGH, spinlock_acquire, spinlock_release, spinlock_do_i_hold, cpu_wf, acq, held).
Import Sched.

(** ** Definitions *)

Definition current (s : tsys) (t c : Z) (idle : bool) : Prop :=
  exists x, cpus s !! c = Some x /\ c_curthread x = t /\ c_isidle x = idle.

(** What the list of a thread says about it. *)
Definition in_place (l : tlist) (x : thread) : Prop :=
  match l with
  | RUNQ c | VICT c => t_state x = S_READY /\ t_cpu x = c
  | ZOMB c => t_state x = S_ZOMBIE /\ t_cpu x = c /\ t_proc x = 0
  | WCHAN _ => t_state x = S_SLEEP
  end.

Fixpoint frames_ok (l : list (bool * bool)) : Prop :=
  match l with
  | [] => True
  | f :: r => f.1 = bool_decide (r <> []) /\ (f.2 = true -> r = []) /\ frames_ok r
  end.

Definition spl_ok (spl : Z) (l : list (bool * bool)) : Prop := (spl = IPL_NONE /\ l = []) \/ spl = IPL_HIGH.

(** Ready to be switched to. *)
Definition resumable (x : thread) : Prop :=
  t_curspl x = IPL_HIGH /\ t_iplhigh_count x = 2 /\
  match t_context x with SWITCHED spl => spl_ok spl (t_traps x) | STARTUP => t_traps x = [] | _ => False end.

(** In the loop around [cpu_idle], perhaps interrupted. *)
Definition idling (x : thread) : Prop :=
  t_curspl x = IPL_HIGH /\ exists spl d top base, t_context x = IDLING spl d /\ t_traps x = top ++ base /\ length base = d /\
    (top = [] \/ exists f, top = [f] /\ f.2 = false) /\ spl_ok spl base.

Definition calm (x : thread) : Prop :=
  (t_stack x = None \/ t_stack x = Some (replicate 4 THREAD_STACK_MAGIC)) /\
  frames_ok (t_traps x) /\ t_in_interrupt x = bool_decide (t_traps x <> []).

Definition role (s : tsys) (t : Z) (x : thread) : Prop :=
  (t_linked x = true -> exists l, t ∈ lst s l /\ in_place l x) /\
  (t_linked x = false -> current s t (t_cpu x) false) /\
  (forall c, current s t c true -> t_linked x = true /\ idling x) /\
  (forall c, current s t c false -> t_linked x = false /\ t_context x = NOCTX /\ spl_ok (t_curspl x) (t_traps x)) /\
  ((forall c i, ~ current s t c i) -> resumable x) /\
  calm x /\ 0 <= t_cpu x < ncpus s.

Record lists_ok (s : tsys) : Prop := mk_lists {
  lo_nodup l : NoDup (lst s l);
  lo_one l l' t : t ∈ lst s l -> t ∈ lst s l' -> l = l';
  lo_linked l t : t ∈ lst s l -> exists x, threads s !! t = Some x /\ t_linked x = true;
  lo_listed t x : threads s !! t = Some x -> t_linked x = true -> exists l, t ∈ lst s l
}.

Definition the_view (c : Z) (x : cpu) (t : thread) (s : tsys) : Cpu.cpu :=
  Cpu.mk_cpu true c (c_curthread x) (t_in_interrupt t) (t_curspl t) (t_iplhigh_count t) (irqs_on x) (c_spinlocks x) (locks s).

Record cpu_ok (s : tsys) (c : Z) (x : cpu) : Prop := mk_cpuok {
  co_cur : exists t, threads s !! c_curthread x = Some t /\ t_cpu t = c /\ cpu_wf (the_view c x t s);
  co_shoot : c_shootdown x = []
}.

(** A CPU that sleeps in [cpu_idle] is idle, and when it has threads to run an interrupt is
    on its way. *)
Definition wakes (c : Z) (x : cpu) : Prop :=
  c_asleep x = true -> c_isidle x = true /\ (c_runqueue x <> [] -> Z.testbit (c_ipi_pending x) IPI_UNIDLE = true).
Definition all_wake (s : tsys) : Prop := forall c x, cpus s !! c = Some x -> wakes c x.
Definition all_wake_but (c : Z) (s : tsys) : Prop := forall d x, d <> c -> cpus s !! d = Some x -> wakes d x.

Record inv (H : gset Z) (s : tsys) : Prop := mk_inv {
  in_dom c : is_Some (cpus s !! c) <-> 0 <= c < ncpus s;
  in_lists : lists_ok s;
  in_cpus c x : cpus s !! c = Some x -> cpu_ok s c x;
  in_roles t x : threads s !! t = Some x -> t ∉ H -> role s t x;
  in_addr t : is_Some (threads s !! t) -> 0 < t < next_addr s;
  in_chan w : is_Some (wchans s !! w) -> 0 < w < next_addr s;
  in_next : 0 < next_addr s
}.

(** Only priority levels, interrupt counts and locks differ. *)
Definition tcore (x : thread) : thread := set_ipl 0 0 x.
Definition ccore (x : cpu) : cpu := set_splk false 0 x.
Record like (s s' : tsys) : Prop := mk_like {
  lk_cpus : ccore <$> cpus s' = ccore <$> cpus s;
  lk_threads : tcore <$> threads s' = tcore <$> threads s;
  lk_ncpus : ncpus s' = ncpus s;
  lk_wchans : wchans s' = wchans s;
  lk_mem : next_addr s' = next_addr s /\ oom s' = oom s
}.

#[export] Instance like_equiv : Equivalence like.
Proof.
  split.
  - by intros s.
  - intros s s' [A B C D [E F]]. by split.
  - intros s1 s2 s3 [A B C D [E F]] [A' B' C' D' [E' F']]. split; try congruence. split; congruence.
Qed.

Lemma like_cpu s s' c x : like s s' -> cpus s !! c = Some x -> exists x', cpus s' !! c = Some x' /\ ccore x' = ccore x.
Proof.
  intros L Hx. assert (E : (ccore <$> cpus s') !! c = Some (ccore x)) by (rewrite (lk_cpus _ _ L), lookup_fmap, Hx; done).
  rewrite lookup_fmap in E. destruct (cpus s' !! c) as [x'|]; [|done]. apply (inj Some) in E. eauto.
Qed.
Lemma like_thread s s' t x : like s s' -> threads s !! t = Some x -> exists x', threads s' !! t = Some x' /\ tcore x' = tcore x.
Proof.
  intros L Hx. assert (E : (tcore <$> threads s') !! t = Some (tcore x)) by (rewrite (lk_threads _ _ L), lookup_fmap, Hx; done).
  rewrite lookup_fmap in E. destruct (threads s' !! t) as [x'|]; [|done]. apply (inj Some) in E. eauto.
Qed.
Lemma ccore_eq x x' : ccore x' = ccore x -> c_curthread x' = c_curthread x /\ c_zombies x' = c_zombies x /\ c_isidle x' = c_isidle x /\ c_runqueue x' = c_runqueue x /\
  c_ipi_pending x' = c_ipi_pending x /\ c_shootdown x' = c_shootdown x /\ c_asleep x' = c_asleep x /\ c_victims x' = c_victims x /\ c_halted x' = c_halted x /\ c_hardclocks x' = c_hardclocks x.
Proof. destruct x, x'. unfold ccore, set_splk. simpl. intros [= -> -> -> -> -> -> -> -> -> ->]. done. Qed.
Lemma tcore_eq x x' : tcore x' = tcore x -> t_state x' = t_state x /\ t_linked x' = t_linked x /\ t_stack x' = t_stack x /\ t_context x' = t_context x /\
  t_cpu x' = t_cpu x /\ t_proc x' = t_proc x /\ t_in_interrupt x' = t_in_interrupt x /\ t_traps x' = t_traps x.
Proof. destruct x, x'. unfold tcore, set_ipl. simpl. intros [= -> -> -> -> -> -> -> -> ->]. done. Qed.

Lemma like_lst s s' l : like s s' -> lst s' l = lst s l.
Proof.
  intros L. destruct l as [c|c|c|w]; simpl; try by rewrite (lk_wchans _ _ L).
  all: destruct (cpus s !! c) as [x|] eqn:E; [destruct (like_cpu _ _ _ _ L E) as (x' & -> & F); simpl; apply ccore_eq in F; by destruct_and?|].
  all: destruct (cpus s' !! c) as [x'|] eqn:E'; [|done]; destruct (like_cpu _ _ _ _ (symmetry L) E') as (y & Ey & _); congruence.
Qed.
Lemma like_current s s' t c i : like s s' -> current s' t c i <-> current s t c i.
Proof.
  intros L. split; intros (x & Hx & Ht & Hi).
  - destruct (like_cpu _ _ _ _ (symmetry L) Hx) as (y & Ey & F). apply ccore_eq in F. exists y. destruct_and?. split_and!; [done|congruence|congruence].
  - destruct (like_cpu _ _ _ _ L Hx) as (y & Ey & F). apply ccore_eq in F. exists y. destruct_and?. split_and!; [done|congruence|congruence].
Qed.

Lemma like_wake s s' : like s s' -> all_wake s -> all_wake s'.
Proof.
  intros L W c x Hx. destruct (like_cpu _ _ _ _ (symmetry L) Hx) as (y & Hy & F). apply ccore_eq in F. destruct_and?. unfold wakes. 
  replace (c_asleep x) with (c_asleep y) by congruence. replace (c_isidle x) with (c_isidle y) by congruence. replace (c_runqueue x) with (c_runqueue y) by congruence.
  replace (c_ipi_pending x) with (c_ipi_pending y) by congruence. by apply (W c).
Qed.
Lemma like_wake_but s s' d : like s s' -> all_wake_but d s -> all_wake_but d s'.
Proof.
  intros L W c x Hd Hx. destruct (like_cpu _ _ _ _ (symmetry L) Hx) as (y & Hy & F). apply ccore_eq in F. destruct_and?. unfold wakes. 
  replace (c_asleep x) with (c_asleep y) by congruence. replace (c_isidle x) with (c_isidle y) by congruence. replace (c_runqueue x) with (c_runqueue y) by congruence.
  replace (c_ipi_pending x) with (c_ipi_pending y) by congruence. by apply (W c).
Qed.

(** ** Locks and priority levels *)

Lemma view_some s c x t : cpus s !! c = Some x -> threads s !! c_curthread x = Some t -> view c s = Some (the_view c x t s).
Proof. intros Hx Ht. unfold view. rewrite Hx. simpl. by rewrite Ht. Qed.

(** The other CPUs hold what they held. *)
Definition others_hold (c : Z) (L L' : gmap splid Z) : Prop :=
  forall c', c' <> c -> filter (fun kv : splid * Z => kv.2 = c') L' = filter (fun kv : splid * Z => kv.2 = c') L.

Lemma others_acquire c l L : L !! l = None -> others_hold c L (<[l := c]> L).
Proof.
  intros Hl c' Hc. rewrite map_filter_insert_False by (simpl; congruence). by rewrite delete_id.
Qed.
Lemma others_release c l L : L !! l = Some c -> others_hold c L (delete l L).
Proof. intros Hl c' Hc. rewrite map_filter_delete, delete_id; [done|]. apply map_lookup_filter_None. right. intros x Hx. simpl. congruence. Qed.

Lemma unview_lookup_cpu c v s c' : cpus (unview c v s) !! c' = if decide (c' = c) then set_splk (Cpu.irqs_on v) (Cpu.c_spinlocks v) <$> cpus s !! c else cpus s !! c'.
Proof. simpl. case_decide; [subst; by rewrite lookup_alter_eq|by rewrite lookup_alter_ne]. Qed.
Lemma unview_lookup_thread c v s t : threads (unview c v s) !! t =
  if decide (t = Cpu.curthread v) then set_ipl (Cpu.t_curspl v) (Cpu.t_iplhigh_count v) <$> threads s !! t else threads s !! t.
Proof. simpl. case_decide; [subst; by rewrite lookup_alter_eq|by rewrite lookup_alter_ne]. Qed.

Lemma unview_lst c v s l : lst (unview c v s) l = lst s l.
Proof.
  destruct l as [d|d|d|w]; simpl; [| | |done]; (destruct (decide (d = c)) as [->|]; [rewrite lookup_alter_eq; by destruct (cpus s !! c)|by rewrite lookup_alter_ne]).
Qed.
Lemma unview_current c v s t d i : current (unview c v s) t d i <-> current s t d i.
Proof.
  unfold current. setoid_rewrite unview_lookup_cpu. case_decide as E; [subst|done]. destruct (cpus s !! c) as [x|]; [|naive_solver]. simpl.
  split; intros (y & [= <-] & H1 & H2); eexists; (split; [done|]); done.
Qed.

Lemma inv_unview H s c x t v : inv H s -> cpus s !! c = Some x -> threads s !! c_curthread x = Some t ->
  cpu_wf v -> Cpu.c_self v = c -> Cpu.curthread v = c_curthread x -> Cpu.t_in_interrupt v = t_in_interrupt t ->
  (c_curthread x ∉ H -> if c_isidle x then Cpu.t_curspl v = IPL_HIGH else spl_ok (Cpu.t_curspl v) (t_traps t)) ->
  others_hold c (locks s) (Cpu.splk v) -> inv H (unview c v s).
Proof.
  intros [Hd [L1 L2 L3 L4] Hc Hr Ha Hw Hn] Hx Ht W E1 E2 E3 Hspl HO.
  assert (Hcur : t_cpu t = c) by (destruct (co_cur _ _ _ (Hc _ _ Hx)) as (t' & Ht' & ? & _); by simplify_eq).
  split.
  - intros d. rewrite unview_lookup_cpu. case_decide; [subst; rewrite fmap_is_Some|]; apply Hd.
  - split; intros *; rewrite ?unview_lst; [apply L1|apply L2| |].
    + intros Hl. destruct (L3 _ _ Hl) as (y & Hy & Hk). rewrite unview_lookup_thread, Hy. case_decide; simpl; eauto.
    + rewrite unview_lookup_thread. intros Hy Hk. setoid_rewrite unview_lst. case_decide; [|by eapply L4]. apply fmap_Some in Hy as (y & Ey & ->). by eapply L4.
  - intros d y. rewrite unview_lookup_cpu. case_decide as Ed.
    + subst d. rewrite Hx. intros [= <-]. destruct (Hc _ _ Hx) as [A B]. split; [|done].
      exists (set_ipl (Cpu.t_curspl v) (Cpu.t_iplhigh_count v) t). rewrite unview_lookup_thread. cbn [c_curthread set_splk]. rewrite decide_True, Ht by done. split; [done|]. split; [done|].
      unfold the_view. simpl. destruct W as (W0 & W). destruct v; simpl in *; subst. done.
    + intros Hy. destruct (Hc _ _ Hy) as [(u & Hu & Hcu & Wu) B]. split; [|done]. exists u.
      rewrite unview_lookup_thread, decide_False; [split_and!; [done|done|]|]. 2:{ rewrite E2. intros E. rewrite E in Hu. congruence. }
      revert Wu. unfold cpu_wf, held, the_view. simpl. rewrite <- (HO d Ed). done.
  - intros u y. rewrite unview_lookup_thread. unfold role. setoid_rewrite unview_current. setoid_rewrite unview_lst. case_decide as Eu; [|apply Hr].
    rewrite E2 in Eu. subst u. rewrite Ht. intros [= <-] Hu. destruct (Hr _ _ Ht Hu) as (R1 & R2 & R3 & R4 & R5 & R6). specialize (Hspl Hu).
    assert (Hcx : forall i, current s (c_curthread x) c i <-> c_isidle x = i) by (intros i; split; [intros (z & Hz & _ & <-); by simplify_eq|intros <-; by exists x]).
    refine (conj R1 (conj R2 (conj _ (conj _ (conj _ R6))))); [| |intros Hno; by destruct (Hno c (c_isidle x)); apply Hcx].
    + intros d Hcd. destruct (R3 _ Hcd) as [? (_ & Hi)]. split; [done|]. split; [|exact Hi]. destruct Hcd as (z & Hz & Hz1 & Hz2).
      assert (d = c) as -> by (destruct (co_cur _ _ _ (Hc _ _ Hz)) as (t' & Ht' & Hc' & _); rewrite Hz1 in Ht'; congruence). simplify_eq. by rewrite Hz2 in Hspl.
    + intros d Hcd. destruct (R4 _ Hcd) as (? & ? & _). split; [done|]. split; [done|]. destruct Hcd as (z & Hz & Hz1 & Hz2).
      assert (d = c) as -> by (destruct (co_cur _ _ _ (Hc _ _ Hz)) as (t' & Ht' & Hc' & _); rewrite Hz1 in Ht'; congruence). simplify_eq. by rewrite Hz2 in Hspl.
  - intros u [y Hy]. apply Ha. rewrite unview_lookup_thread in Hy. case_decide; [|eauto]. destruct (threads s !! u); [eauto|done].
  - done.
  - done.
Qed.

Lemma like_unview s c x t v : cpus s !! c = Some x -> threads s !! c_curthread x = Some t -> Cpu.curthread v = c_curthread x ->
  like s (unview c v s).
Proof.
  intros Hx Ht E1. split; try done; apply map_eq; intros d; rewrite !lookup_fmap.
  - rewrite unview_lookup_cpu. case_decide; [subst; by rewrite Hx|done].
  - rewrite unview_lookup_thread. case_decide; [subst d; by rewrite E1, Ht|done].
Qed.

(** A CPU with its current thread. *)
Lemma inv_cpu H s c : inv H s -> 0 <= c < ncpus s -> exists x t, cpus s !! c = Some x /\ threads s !! c_curthread x = Some t /\ t_cpu t = c /\ cpu_wf (the_view c x t s) /\ cpu_ok s c x.
Proof. intros I Hc. apply (in_dom _ _ I) in Hc as [x Hx]. destruct (in_cpus _ _ I _ _ Hx) as [(t & Ht & Hc & W) ?]. exists x, t. do 4 (split; [done|]). by apply (in_cpus _ _ I). Qed.

(** The role of the current thread, when nothing holds it. *)
Lemma inv_spl H s c x t : inv H s -> cpus s !! c = Some x -> threads s !! c_curthread x = Some t -> c_curthread x ∉ H ->
  if c_isidle x then t_curspl t = IPL_HIGH else spl_ok (t_curspl t) (t_traps t).
Proof.
  intros I Hx Ht Hh. destruct (in_roles _ _ I _ _ Ht Hh) as (_ & _ & R3 & R4 & _). destruct (c_isidle x) eqn:E.
  - destruct (R3 c) as (_ & ? & _); [by exists x|done].
  - destruct (R4 c) as (_ & _ & ?); [by exists x|done].
Qed.

Lemma on_run {A} s c x t (m : M Cpu.cpu A) (a : A) v : cpus s !! c = Some x -> threads s !! c_curthread x = Some t -> m (the_view c x t s) = Ret a v ->
  on c m s = Ret a (unview c v s).
Proof. intros Hx Ht E. unfold on. by rewrite (view_some _ _ _ _ Hx Ht), E. Qed.

(** The priority level of a thread. *)
Definition spl_of (s : tsys) (t : Z) : option Z := t_curspl <$> threads s !! t.
(** The number of spinlocks of a CPU. *)
Definition nlocks (s : tsys) (c : Z) : option Z := c_spinlocks <$> cpus s !! c.

(** The interrupt count of a thread, the current thread of a CPU. *)
Definition cnt_of (s : tsys) (t : Z) : option Z := t_iplhigh_count <$> threads s !! t.
Definition cur_of (s : tsys) (c : Z) : option Z := c_curthread <$> cpus s !! c.

Lemma unview_spl c v s t : spl_of (unview c v s) t = if decide (t = Cpu.curthread v) then (fun _ => Cpu.t_curspl v) <$> threads s !! t else spl_of s t.
Proof. unfold spl_of. rewrite unview_lookup_thread. case_decide; [|done]. by destruct (threads s !! t). Qed.
Lemma unview_nlocks c v s d : nlocks (unview c v s) d = if decide (d = c) then (fun _ => Cpu.c_spinlocks v) <$> cpus s !! c else nlocks s d.
Proof. unfold nlocks. rewrite unview_lookup_cpu. case_decide; [|done]. by destruct (cpus s !! c). Qed.

(** What a lock operation of CPU [c] leaves. *)
Record lockstep (H : gset Z) (c : Z) (n : Z) (s s' : tsys) (L : gmap splid Z) : Prop := mk_lockstep {
  ls_inv : inv H s';
  ls_like : like s s';
  ls_locks : locks s' = L;
  ls_spl t : spl_of s' t = spl_of s t;
  ls_cnt t : cur_of s c <> Some t -> cnt_of s' t = cnt_of s t;
  ls_count d : nlocks s' d = (fun k => if decide (d = c) then k + n else k) <$> nlocks s d
}.

Lemma acquire_inv H s c l : inv H s -> 0 <= c < ncpus s -> locks s !! l = None ->
  exists s', on c (spinlock_acquire l) s = Ret tt s' /\ lockstep H c 1 s s' (<[l := c]> (locks s)).
Proof.
  intros I Hc Hl. destruct (inv_cpu _ _ _ I Hc) as (x & t & Hx & Ht & Hct & W & _). set (v := the_view c x t s) in *.
  pose proof (Cpu.spinlock_acquire_eq v l W Hl) as E. pose proof (Cpu.spinlock_acquire_spec v l W Hl) as Sp. unfold wp in Sp. rewrite E in Sp. destruct Sp as (W' & _).
  exists (unview c (acq l v) s). split; [by eapply on_run|]. split.
  - eapply inv_unview; try done; [by intros Hh; apply (inv_spl H s c x t)|by apply others_acquire].
  - by eapply like_unview.
  - done.
  - intros u. rewrite unview_spl. case_decide as Eu; [|done]. simpl in Eu. subst u. unfold spl_of. by rewrite Ht.
  - intros u. unfold cur_of, cnt_of. rewrite Hx, unview_lookup_thread. intros Hu. rewrite decide_False; [done|]. intros ->. by apply Hu.
  - intros d. rewrite unview_nlocks. unfold nlocks. case_decide; [subst; by rewrite Hx|by destruct (cpus s !! d)].
Qed.

Lemma release_inv H s c l : inv H s -> 0 <= c < ncpus s -> locks s !! l = Some c ->
  exists s', on c (spinlock_release l) s = Ret tt s' /\ lockstep H c (-1) s s' (delete l (locks s)).
Proof.
  intros I Hc Hl. destruct (inv_cpu _ _ _ I Hc) as (x & t & Hx & Ht & Hct & W & _). set (v := the_view c x t s) in *.
  pose proof (Cpu.spinlock_release_spec v l W Hl) as Sp. unfold wp in Sp.
  assert (E : exists v', spinlock_release l v = Ret tt v' /\ Cpu.c_spinlocks v' = Cpu.c_spinlocks v - 1 /\ Cpu.t_in_interrupt v' = Cpu.t_in_interrupt v).
  { destruct (spinlock_release l v) as [[] v'| | | | |] eqn:E; try done. exists v'. split; [done|]. clear Sp. revert E. unfold spinlock_release, Cpu.spllower, KASSERT, v, the_view. msimpl.
    destruct (Cpu.is_holder _ _); msimpl; [|done]. destruct (0 <? _); msimpl; [|done]. by intros [= <-]. }
  destruct E as (v' & E & Hn & Hin). rewrite E in Sp. destruct Sp as (W' & Ek & Es & E1 & E2).
  exists (unview c v' s). split; [by eapply on_run|]. split.
  - eapply inv_unview; try done; [intros Hh; rewrite Es; by apply (inv_spl H s c x t)|rewrite Ek; by apply others_release].
  - by eapply like_unview.
  - done.
  - intros u. rewrite unview_spl. case_decide as Eu; [|done]. rewrite E2 in Eu. simpl in Eu. subst u. unfold spl_of. rewrite Ht. simpl. by rewrite Es.
  - intros u. unfold cur_of, cnt_of. rewrite Hx, unview_lookup_thread. intros Hu. rewrite decide_False; [done|]. rewrite E2. intros ->. by apply Hu.
  - intros d. rewrite unview_nlocks. unfold nlocks. case_decide; [subst; rewrite Hx; simpl; by rewrite Hn|by destruct (cpus s !! d)].
Qed.

(** [splx]: the level of the current thread changes to one that its traps allow. *)
Lemma splx_inv H s c x t spl : inv H s -> cpus s !! c = Some x -> threads s !! c_curthread x = Some t ->
  (spl = IPL_NONE \/ spl = IPL_HIGH) -> (c_curthread x ∉ H -> if c_isidle x then spl = IPL_HIGH else spl_ok spl (t_traps t)) ->
  exists s', on c (splx spl) s = Ret (t_curspl t) s' /\ inv H s' /\ like s s' /\ locks s' = locks s /\
    (forall u, spl_of s' u = if decide (u = c_curthread x) then Some spl else spl_of s u) /\ (forall d, nlocks s' d = nlocks s d) /\ (forall u, u <> c_curthread x -> cnt_of s' u = cnt_of s u).
Proof.
  intros I Hx Ht Hs Hspl. destruct (in_cpus _ _ I _ _ Hx) as [(t' & Ht' & Hct & W) _]. simplify_eq. set (v := the_view _ x t s) in *.
  pose proof (Cpu.splx_spec v spl W Hs) as Sp. unfold wp in Sp. destruct (splx spl v) as [r v'| | | | |] eqn:E; try done. destruct Sp as (-> & W' & Es & Ek & E2).
  assert (E0 : Cpu.c_self v' = Cpu.c_self v /\ Cpu.t_in_interrupt v' = Cpu.t_in_interrupt v /\ Cpu.c_spinlocks v' = Cpu.c_spinlocks v).
  { revert E. unfold splx, Cpu.splraise, Cpu.spllower, KASSERT, v, the_view. msimpl. destruct (_ <? spl); msimpl; [|destruct (spl <? _); msimpl]; repeat (destruct (_ =? _); msimpl); try done; intros E; injection E; by intros <-. }
  destruct E0 as (E1 & E3 & E4). exists (unview (t_cpu t) v' s). split; [by eapply on_run|]. split_and!.
  - eapply inv_unview; try done; [by rewrite Es|]. rewrite Ek. by intros c' _.
  - by eapply like_unview.
  - done.
  - intros u. rewrite unview_spl, E2. simpl. case_decide as Eu; [|done]. subst u. by rewrite Ht, Es.
  - intros d. rewrite unview_nlocks. case_decide; [subst; unfold nlocks; rewrite Hx; simpl; by rewrite E4|done].
  - intros u Hu. unfold cnt_of. rewrite unview_lookup_thread, decide_False; [done|]. by rewrite E2.
Qed.

Lemma splhigh_inv H s c x t : inv H s -> cpus s !! c = Some x -> threads s !! c_curthread x = Some t ->
  exists s', on c splhigh s = Ret (t_curspl t) s' /\ inv H s' /\ like s s' /\ locks s' = locks s /\
    (forall u, spl_of s' u = if decide (u = c_curthread x) then Some IPL_HIGH else spl_of s u) /\ (forall d, nlocks s' d = nlocks s d) /\ (forall u, u <> c_curthread x -> cnt_of s' u = cnt_of s u).
Proof. intros I Hx Ht. apply (splx_inv H s c x t); try done; [by right|]. intros _. destruct (c_isidle x); [done|by right]. Qed.

Lemma do_i_hold_run s c x t l : cpus s !! c = Some x -> threads s !! c_curthread x = Some t ->
  on c (spinlock_do_i_hold l) s = Ret (bool_decide (locks s !! l = Some c)) s.
Proof.
  intros Hx Ht. assert (E : spinlock_do_i_hold l (the_view c x t s) = Ret (bool_decide (locks s !! l = Some c)) (the_view c x t s)).
  { unfold spinlock_do_i_hold, Cpu.is_holder, the_view. msimpl. destruct (locks s !! l) as [h|]; [|done]. destruct (Z.eqb_spec h c); case_bool_decide; congruence. }
  rewrite (on_run s c x t _ _ _ Hx Ht E). f_equal. destruct s as [cs n ts w L a o]. unfold unview, the_view. simpl in *. f_equal.
  - apply map_eq. intros d. destruct (decide (d = c)) as [->|]; [rewrite lookup_alter_eq, Hx; by destruct x|by rewrite lookup_alter_ne].
  - apply map_eq. intros d. destruct (decide (d = c_curthread x)) as [->|]; [rewrite lookup_alter_eq, Ht; by destruct t|by rewrite lookup_alter_ne].
Qed.

End SchedInv.
