(* ===== verification/SchedMoves.v ===== *)
(** * Moves of the thread system

    What the small updates (linking and unlinking a thread, changing a thread or a CPU,
    creating and destroying threads) do to the invariant. *)

From S2P Require Import Prelude Cpu Sched SchedInv.

Module SchedMoves.
Import Cpu(splid, splx, splhigh, spl0, IPL_NONE, IPL_HIGH, spinlock_acquire, spinlock_release, spinlock_do_i_hold, cpu_wf, acq, held).
Import Sched SchedInv.

(** ** Hands *)

Lemma inv_weaken H H' s : inv H s -> H ⊆ H' -> inv H' s.
Proof. intros [A B C D E W F] Hs. split; try done. intros t x Ht Hn. apply D; [done|set_solver]. Qed.

Lemma inv_settle H H' s t x : inv H s -> H ⊆ {[t]} ∪ H' -> threads s !! t = Some x -> role s t x -> inv H' s.
Proof.
  intros [A B C D E W F] Hs Ht Hr. split; try done. intros u y Hu Hn. destruct (decide (u = t)) as [->|]; [by simplify_eq|]. apply D; [done|set_solver].
Qed.
Lemma inv_gone H H' s t : inv H s -> H ⊆ {[t]} ∪ H' -> threads s !! t = None -> inv H' s.
Proof.
  intros [A B C D E W F] Hs Ht. split; try done. intros u y Hu Hn. destruct (decide (u = t)) as [->|]; [by simplify_eq|]. apply D; [done|set_solver].
Qed.

(** ** A thread changes *)

Definition upd_t (t : Z) (f : thread -> thread) (s : tsys) : tsys := set_threads (alter f t (threads s)) s.

Lemma mod_t_run s t f x : threads s !! t = Some x -> mod_t t f s = Ret tt (upd_t t f s).
Proof. intros H. unfold mod_t, get_t. msimpl. by rewrite H. Qed.
Lemma get_t_run s t x : threads s !! t = Some x -> get_t t s = Ret x s.
Proof. intros H. unfold get_t. msimpl. by rewrite H. Qed.
Lemma get_cpu_run s c x : cpus s !! c = Some x -> get_cpu c s = Ret x s.
Proof. intros H. unfold get_cpu. msimpl. by rewrite H. Qed.

Lemma upd_t_lookup t f s u : threads (upd_t t f s) !! u = if decide (u = t) then f <$> threads s !! t else threads s !! u.
Proof. simpl. case_decide; [subst; by rewrite lookup_alter_eq|by rewrite lookup_alter_ne]. Qed.

(** What spl.c sees of a thread. *)
Definition same_ipl (x y : thread) : Prop :=
  t_in_interrupt y = t_in_interrupt x /\ t_curspl y = t_curspl x /\ t_iplhigh_count y = t_iplhigh_count x.

Lemma cpu_ok_thread s s' c x : cpu_ok s c x -> locks s' = locks s ->
  (forall t, threads s !! c_curthread x = Some t -> t_cpu t = c -> exists t', threads s' !! c_curthread x = Some t' /\ t_cpu t' = c /\ same_ipl t t') -> cpu_ok s' c x.
Proof.
  intros [(t & Ht & Hc & W) Sh] HL Hex. destruct (Hex t Ht Hc) as (t' & Ht' & Hc' & (E1 & E2 & E3)). split; [|done]. exists t'. split; [done|]. split; [done|].
  unfold the_view. rewrite E1, E2, E3, HL. exact W.
Qed.

Lemma inv_upd_t H s t f : inv H s -> t ∈ H ->
  (forall x, threads s !! t = Some x -> t_linked (f x) = t_linked x /\ same_ipl x (f x) /\ (forall c i, current s t c i -> t_cpu (f x) = t_cpu x)) -> inv H (upd_t t f s).
Proof.
  intros [Hd [L1 L2 L3 L4] Hc Hr Ha Hw Hn] Ht Hf. split; try done.
  - split; try done.
    + intros l u Hu. destruct (L3 _ _ Hu) as (y & Hy & Hk). rewrite upd_t_lookup. case_decide; [subst u; rewrite Hy; simpl; exists (f y); split; [done|]; by rewrite (proj1 (Hf _ Hy))|eauto].
    + intros u y. rewrite upd_t_lookup. case_decide; [subst u|apply L4]. intros (z & Hz & ->)%fmap_Some. rewrite (proj1 (Hf _ Hz)). by apply L4.
  - intros c x Hx. eapply cpu_ok_thread; [by apply Hc|done|]. intros u Hu Hcu. rewrite upd_t_lookup. case_decide as E; [|by exists u].
    destruct (Hf u) as (_ & S & Hcur); [by rewrite <- E|]. exists (f u). rewrite <- E, Hu. split; [done|]. split; [|done]. rewrite (Hcur c (c_isidle x)); [done|by exists x].
  - intros u y. rewrite upd_t_lookup. case_decide; [subst; by intros|]. apply Hr.
  - intros u. rewrite upd_t_lookup. case_decide; [subst; rewrite fmap_is_Some|]; apply Ha.
Qed.

(** ** Lists *)

Definition valid (s : tsys) (l : tlist) : Prop :=
  match l with RUNQ c | ZOMB c | VICT c => is_Some (cpus s !! c) | WCHAN w => is_Some (wchans s !! w) end.

Lemma lst_set s l v l' : valid s l -> lst (set_lst l v s) l' = if decide (l' = l) then v else lst s l'.
Proof.
  intros Hv. case_decide as E.
  - subst l'. destruct l as [c|c|c|w]; destruct Hv as [x Hx]; simpl; by rewrite lookup_alter_eq, Hx.
  - destruct l as [c|c|c|w], l' as [d|d|d|e]; simpl; try done;
      first [destruct (decide (d = c)) as [->|]; [rewrite lookup_alter_eq|by rewrite lookup_alter_ne]|rewrite lookup_alter_ne by congruence; done];
      try congruence; by destruct (cpus s !! c).
Qed.
Lemma set_lst_threads l v s : threads (set_lst l v s) = threads s.
Proof. by destruct l. Qed.
Lemma set_lst_locks l v s : locks (set_lst l v s) = locks s.
Proof. by destruct l. Qed.
Lemma set_lst_rest l v s : ncpus (set_lst l v s) = ncpus s /\ next_addr (set_lst l v s) = next_addr s /\ oom (set_lst l v s) = oom s.
Proof. by destruct l. Qed.
Lemma lst_valid s l t : t ∈ lst s l -> valid s l.
Proof.
  destruct l as [c|c|c|w]; simpl; [destruct (cpus s !! c)..|destruct (wchans s !! w)]; simpl; eauto; by intros ?%not_elem_of_nil.
Qed.

(** The CPUs apart from their lists. *)
Definition bare (x : cpu) : cpu := set_runqueue [] (set_zombies [] (set_victims [] x)).
Lemma set_lst_cpu l v s c : bare <$> cpus (set_lst l v s) !! c = bare <$> cpus s !! c.
Proof.
  destruct l as [d|d|d|w]; simpl; [..|done]; (destruct (decide (c = d)) as [->|]; [rewrite lookup_alter_eq; by destruct (cpus s !! d)|by rewrite lookup_alter_ne]).
Qed.
Lemma bare_eq x y : bare x = bare y -> c_curthread x = c_curthread y /\ c_isidle x = c_isidle y /\ c_spinlocks x = c_spinlocks y /\ irqs_on x = irqs_on y /\ c_shootdown x = c_shootdown y /\
  c_asleep x = c_asleep y /\ c_ipi_pending x = c_ipi_pending y /\ c_halted x = c_halted y /\ c_hardclocks x = c_hardclocks y.
Proof. destruct x, y. unfold bare, set_runqueue, set_zombies, set_victims. simpl. intros [= -> -> -> -> -> -> -> -> ->]. done. Qed.
Lemma set_lst_cpu_some l v s c x : cpus (set_lst l v s) !! c = Some x -> exists y, cpus s !! c = Some y /\ bare x = bare y.
Proof. intros Hx. pose proof (set_lst_cpu l v s c) as E. rewrite Hx in E. destruct (cpus s !! c) as [y|]; [|done]. apply (inj Some) in E. eauto. Qed.
Lemma set_lst_cpu_back l v s c y : cpus s !! c = Some y -> exists x, cpus (set_lst l v s) !! c = Some x /\ bare x = bare y.
Proof. intros Hy. pose proof (set_lst_cpu l v s c) as E. rewrite Hy in E. destruct (cpus (set_lst l v s) !! c) as [x|]; [|done]. apply (inj Some) in E. eauto. Qed.
Lemma set_lst_current l v s t c i : current (set_lst l v s) t c i <-> current s t c i.
Proof.
  split; intros (x & Hx & H1 & H2).
  - destruct (set_lst_cpu_some _ _ _ _ _ Hx) as (y & Hy & E). apply bare_eq in E. destruct_and?. exists y. split_and!; congruence.
  - destruct (set_lst_cpu_back l v _ _ _ Hx) as (y & Hy & E). apply bare_eq in E. destruct_and?. exists y. split_and!; congruence.
Qed.

(** A list gets [v], and the thread [t] the flag [b]. *)
Definition relist (l : tlist) (v : list Z) (t : Z) (b : bool) (s : tsys) : tsys := set_lst l v (upd_t t (set_linked b) s).

Lemma relist_thread l v t b s u : threads (relist l v t b s) !! u = if decide (u = t) then set_linked b <$> threads s !! t else threads s !! u.
Proof. unfold relist. rewrite set_lst_threads. apply upd_t_lookup. Qed.
Lemma relist_lst l v t b s l' : valid s l -> lst (relist l v t b s) l' = if decide (l' = l) then v else lst s l'.
Proof. intros Hv. unfold relist. rewrite lst_set; [done|by destruct l]. Qed.

Lemma relist_cpu l v t b s c x : cpus (relist l v t b s) !! c = Some x -> exists y, cpus s !! c = Some y /\ bare x = bare y.
Proof. apply (set_lst_cpu_some l v (upd_t t (set_linked b) s)). Qed.
Lemma relist_cpu_back l v t b s c y : cpus s !! c = Some y -> exists x, cpus (relist l v t b s) !! c = Some x /\ bare x = bare y.
Proof. apply (set_lst_cpu_back l v (upd_t t (set_linked b) s)). Qed.
Lemma relist_current l v t b s u c i : current (relist l v t b s) u c i <-> current s u c i.
Proof. apply (set_lst_current l v (upd_t t (set_linked b) s)). Qed.

(** The general step: [t] changes its place among the lists, everything else stays. *)
Lemma inv_relist H s l v t b : inv H s -> is_Some (threads s !! t) -> valid s l -> t ∈ H -> NoDup v ->
  (forall u, u <> t -> u ∈ v <-> u ∈ lst s l) -> (t ∈ v <-> b = true) -> (forall l', l' <> l -> t ∉ lst s l') -> inv H (relist l v t b s).
Proof.
  intros [Hd [L1 L2 L3 L4] Hc Hr Ha Hw Hn] [x Hx] Hv Ht Hnd Hother Htv Hno.
  assert (Hmem : forall l' u, u <> t -> u ∈ lst (relist l v t b s) l' <-> u ∈ lst s l').
  { intros l' u Hu. rewrite relist_lst by done. case_decide; [subst; by apply Hother|done]. }
  assert (Hmt : forall l', t ∈ lst (relist l v t b s) l' <-> l' = l /\ b = true).
  { intros l'. rewrite relist_lst by done. case_decide; [subst; naive_solver|]. split; [intros HH; by destruct (Hno l')|naive_solver]. }
  split.
  - intros c. assert (ncpus (relist l v t b s) = ncpus s) as -> by (by destruct l). rewrite <- (Hd c). split.
    + intros [y Hy]. destruct (relist_cpu _ _ _ _ _ _ _ Hy) as (z & Hz & _). by exists z.
    + intros [y Hy]. destruct (relist_cpu_back l v t b _ _ _ Hy) as (z & Hz & _). by exists z.
  - split.
    + intros l'. rewrite relist_lst by done. case_decide; [done|apply L1].
    + intros l1 l2 u. destruct (decide (u = t)) as [->|Hu]; [rewrite !Hmt; naive_solver|]. rewrite !Hmem by done. apply L2.
    + intros l' u. rewrite relist_thread. destruct (decide (u = t)) as [->|Hu]; [rewrite Hmt; intros [-> ->]|rewrite Hmem by done; apply L3].
      rewrite Hx. by exists (set_linked true x).
    + intros u y. rewrite relist_thread. destruct (decide (u = t)) as [->|Hu].
      * intros (z & Hz & ->)%fmap_Some. simpl. intros ->. exists l. by apply Hmt.
      * intros Hy Hk. destruct (L4 _ _ Hy Hk) as [l' Hl']. exists l'. by apply Hmem.
  - intros c y Hy. destruct (relist_cpu _ _ _ _ _ _ _ Hy) as (z & Hz & E). apply bare_eq in E. destruct E as (E1 & E2 & E3 & E4 & E5 & _).
    destruct (Hc _ _ Hz) as [(w & Hw1 & Hcw & W) Sh]. split; [|by rewrite E5]. rewrite E1, relist_thread.
    exists (if decide (c_curthread z = t) then set_linked b w else w). split; [case_decide as Et; [by rewrite <- Et, Hw1|done]|]. split; [by case_decide|].
    unfold the_view. assert (locks (relist l v t b s) = locks s) as -> by (by destruct l). rewrite E1, E3, E4. by case_decide.
  - intros u y. rewrite relist_thread. case_decide; [subst; by intros|]. intros Hy Hu. destruct (Hr _ _ Hy Hu) as (R1 & R2 & R3 & R4 & R5 & R6). unfold role. setoid_rewrite relist_current.
    assert (ncpus (relist l v t b s) = ncpus s) as -> by (by destruct l). split; [|done]. intros Hk. destruct (R1 Hk) as (l' & Hl' & Hp). exists l'. split; [by apply Hmem|done].
  - intros u. rewrite relist_thread. assert (next_addr (relist l v t b s) = next_addr s) as -> by (by destruct l). case_decide; [subst; rewrite fmap_is_Some|]; apply Ha.
  - intros w. assert (next_addr (relist l v t b s) = next_addr s) as -> by (by destruct l). intros Hww. apply Hw. destruct l as [d|d|d|w0]; [done..|]. destruct Hww as [z Hz]. unfold relist in Hz. simpl in Hz. apply lookup_alter_Some in Hz. naive_solver.
  - by destruct l.
Qed.

(** Adding, at either end. *)
Lemma add_run s (tail : bool) l t x : threads s !! t = Some x -> t_linked x = false ->
  threadlist_add tail l t s = Ret tt (relist l (if tail then lst s l ++ [t] else t :: lst s l) t true s).
Proof.
  intros Ht Hk. unfold threadlist_add. rewrite (run_bind _ _ s x s) by (by apply get_t_run). rewrite (run_bind _ _ s tt s) by (by rewrite Hk).
  rewrite (run_bind _ _ s tt (upd_t t (set_linked true) s)) by (by eapply mod_t_run). done.
Qed.

Lemma unlinked_nowhere s t x l : lists_ok s -> threads s !! t = Some x -> t_linked x = false -> t ∉ lst s l.
Proof. intros L Ht Hk Hl. destruct (lo_linked _ L _ _ Hl) as (y & Hy & Hy'). congruence. Qed.

Lemma add_inv H s (tail : bool) l t x : inv H s -> threads s !! t = Some x -> t_linked x = false -> t ∈ H -> valid s l ->
  inv H (relist l (if tail : bool then lst s l ++ [t] else t :: lst s l) t true s).
Proof.
  intros I Ht Hk Hh Hv. pose proof (in_lists _ _ I) as L. pose proof (unlinked_nowhere s t x l L Ht Hk) as Hno. apply inv_relist; try done.
  - destruct tail; [apply NoDup_app; split_and!; [apply L|intros u Hu ->%list_elem_of_singleton; done|apply NoDup_singleton]|apply NoDup_cons; split; [done|apply L]].
  - intros u Hu. destruct tail; [rewrite elem_of_app, list_elem_of_singleton|rewrite elem_of_cons]; naive_solver.
  - split; [done|intros _]. destruct tail; [rewrite elem_of_app, list_elem_of_singleton; by right|by left].
  - intros l' _. by eapply unlinked_nowhere.
Qed.

(** Removing, at either end. *)
Lemma remove_inv H s l l1 t l2 : inv H s -> lst s l = l1 ++ t :: l2 -> inv ({[t]} ∪ H) (relist l (l1 ++ l2) t false s).
Proof.
  intros I E. pose proof (in_lists _ _ I) as L. assert (Hl : t ∈ lst s l) by (rewrite E, elem_of_app, elem_of_cons; auto).
  destruct (lo_linked _ L _ _ Hl) as (x & Hx & Hk). pose proof (lo_nodup _ L l) as Hnd. rewrite E in Hnd. apply inv_relist.
  - eapply inv_weaken; [exact I|set_solver].
  - eauto.
  - by eapply lst_valid.
  - set_solver.
  - apply NoDup_app in Hnd as (N1 & N2 & N3). apply NoDup_cons in N3 as [N3 N4]. apply NoDup_app. split_and!; [done| |done]. intros u Hu Hu2. apply (N2 u Hu). by right.
  - intros u Hu. rewrite E, !elem_of_app, elem_of_cons. naive_solver.
  - split; [|done]. rewrite elem_of_app. apply NoDup_app in Hnd as (N1 & N2 & N3). apply NoDup_cons in N3 as [N3 N4]. intros [HH|HH]; [|done]. destruct (N2 t HH). by left.
  - intros l' Hl' HH. destruct (Hl'). by apply (lo_one _ L l' l t).
Qed.

Lemma relist_swap l v t b s : upd_t t (set_linked b) (set_lst l v s) = relist l v t b s.
Proof. by destruct l. Qed.

Lemma take_head_run s l t r : lists_ok s -> lst s l = t :: r -> threadlist_remhead l s = Ret (Some t) (relist l r t false s).
Proof.
  intros L E. destruct (lo_linked _ L l t) as (x & Hx & _); [rewrite E; by left|]. unfold threadlist_remhead. rewrite (run_bind _ _ s s s) by done. rewrite E.
  rewrite (run_bind _ _ s tt (set_lst l r s)) by done.
  rewrite (run_bind _ _ _ tt (relist l r t false s)); [done|]. rewrite <- relist_swap. apply (mod_t_run _ _ _ x). by rewrite set_lst_threads.
Qed.
Lemma remhead_none s l : lst s l = [] -> threadlist_remhead l s = Ret None s.
Proof. intros E. unfold threadlist_remhead. rewrite (run_bind _ _ s s s) by done. by rewrite E. Qed.
Lemma take_tail_run s l t r : lists_ok s -> lst s l = r ++ [t] -> threadlist_remtail l s = Ret (Some t) (relist l r t false s).
Proof.
  intros L E. destruct (lo_linked _ L l t) as (x & Hx & _); [rewrite E, elem_of_app, list_elem_of_singleton; by right|]. unfold threadlist_remtail. rewrite (run_bind _ _ s s s) by done.
  rewrite E, rev_app_distr. cbn [rev app]. rewrite rev_involutive. rewrite (run_bind _ _ s tt (set_lst l r s)) by done.
  rewrite (run_bind _ _ _ tt (relist l r t false s)); [done|]. rewrite <- relist_swap. apply (mod_t_run _ _ _ x). by rewrite set_lst_threads.
Qed.

End SchedMoves.

(** * The thread system without its locks

    [core s] is the state without priority levels, interrupt counts and locks.  What an
    operation does is stated as a function on the core; [quiet] says that the levels and the
    locks are afterwards what they were. *)


Module SchedCore.
Import Cpu(splid, splx, splhigh, spl0, IPL_NONE, IPL_HIGH, spinlock_acquire, spinlock_release, spinlock_do_i_hold, cpu_wf, acq, held).
Import Sched SchedInv SchedMoves.

Definition core (s : tsys) : tsys := mk_ts (ccore <$> cpus s) (ncpus s) (tcore <$> threads s) (wchans s) ∅ (next_addr s) (oom s).

Lemma core_like s s' : like s s' -> core s' = core s.
Proof. intros [A B C D [E F]]. unfold core. by rewrite A, B, C, D, E, F. Qed.

Lemma core_thread s t : threads (core s) !! t = tcore <$> threads s !! t.
Proof. apply lookup_fmap. Qed.
Lemma core_cpu s c : cpus (core s) !! c = ccore <$> cpus s !! c.
Proof. apply lookup_fmap. Qed.
Lemma core_thread_inv s t y : threads (core s) !! t = Some y -> exists x, threads s !! t = Some x /\ y = tcore x.
Proof. rewrite core_thread. by intros (x & Hx & ->)%fmap_Some; eauto. Qed.
Lemma core_cpu_inv s c y : cpus (core s) !! c = Some y -> exists x, cpus s !! c = Some x /\ y = ccore x.
Proof. rewrite core_cpu. by intros (x & Hx & ->)%fmap_Some; eauto. Qed.
Lemma core_lst s l : lst (core s) l = lst s l.
Proof. destruct l as [c|c|c|w]; simpl; try done; rewrite lookup_fmap; by destruct (cpus s !! c). Qed.
Lemma core_current s t c i : current (core s) t c i <-> current s t c i.
Proof.
  unfold current. setoid_rewrite core_cpu. split.
  - intros (y & (x & Hx & ->)%fmap_Some & H1 & H2). by exists x.
  - intros (x & Hx & H1 & H2). exists (ccore x). by rewrite Hx.
Qed.
Lemma core_wake s : all_wake (core s) <-> all_wake s.
Proof.
  unfold all_wake. setoid_rewrite core_cpu. split.
  - intros W c x Hx. specialize (W c (ccore x)). rewrite Hx in W. by apply W.
  - intros W c y (x & Hx & ->)%fmap_Some. by apply (W c x).
Qed.
Lemma core_wake_but d s : all_wake_but d (core s) <-> all_wake_but d s.
Proof.
  unfold all_wake_but. setoid_rewrite core_cpu. split.
  - intros W c x Hd Hx. specialize (W c (ccore x) Hd). rewrite Hx in W. by apply W.
  - intros W c y Hd (x & Hx & ->)%fmap_Some. by apply (W c x).
Qed.

(** ** Updates *)

Definition upd_c (c : Z) (f : cpu -> cpu) (s : tsys) : tsys := set_cpus (alter f c (cpus s)) s.

Lemma mod_cpu_run s c f x : cpus s !! c = Some x -> mod_cpu c f s = Ret tt (upd_c c f s).
Proof. intros H. unfold mod_cpu, get_cpu. msimpl. by rewrite H. Qed.
Lemma upd_c_lookup c f s d : cpus (upd_c c f s) !! d = if decide (d = c) then f <$> cpus s !! c else cpus s !! d.
Proof. simpl. case_decide; [subst; by rewrite lookup_alter_eq|by rewrite lookup_alter_ne]. Qed.

Lemma core_upd_t t f s : (forall x, tcore (f x) = f (tcore x)) -> core (upd_t t f s) = upd_t t f (core s).
Proof.
  intros Hf. unfold core, upd_t, set_threads. simpl. f_equal. apply map_eq. intros u. rewrite lookup_fmap.
  destruct (decide (u = t)) as [->|]; [rewrite !lookup_alter_eq, lookup_fmap|by rewrite !lookup_alter_ne, lookup_fmap].
  destruct (threads s !! t); simpl; [by rewrite Hf|done].
Qed.
Lemma core_upd_t_same t f s : (forall x, tcore (f x) = tcore x) -> core (upd_t t f s) = core s.
Proof.
  intros Hf. unfold core, upd_t, set_threads. simpl. f_equal. apply map_eq. intros u. rewrite !lookup_fmap.
  destruct (decide (u = t)) as [->|]; [rewrite !lookup_alter_eq|by rewrite !lookup_alter_ne].
  destruct (threads s !! t); simpl; [by rewrite Hf|done].
Qed.
Lemma core_upd_c c f s : (forall x, ccore (f x) = f (ccore x)) -> core (upd_c c f s) = upd_c c f (core s).
Proof.
  intros Hf. unfold core, upd_c, set_cpus. simpl. f_equal. apply map_eq. intros u. rewrite lookup_fmap.
  destruct (decide (u = c)) as [->|]; [rewrite !lookup_alter_eq, lookup_fmap|by rewrite !lookup_alter_ne, lookup_fmap].
  destruct (cpus s !! c); simpl; [by rewrite Hf|done].
Qed.
Lemma core_upd_c_same c f s : (forall x, ccore (f x) = ccore x) -> core (upd_c c f s) = core s.
Proof.
  intros Hf. unfold core, upd_c, set_cpus. simpl. f_equal. apply map_eq. intros u. rewrite !lookup_fmap.
  destruct (decide (u = c)) as [->|]; [rewrite !lookup_alter_eq|by rewrite !lookup_alter_ne].
  destruct (cpus s !! c); simpl; [by rewrite Hf|done].
Qed.
Lemma core_set_lst l v s : core (set_lst l v s) = set_lst l v (core s).
Proof. destruct l as [c|c|c|w]; [by apply core_upd_c..|done]. Qed.
Lemma core_relist l v t b s : core (relist l v t b s) = relist l v t b (core s).
Proof. unfold relist. rewrite core_set_lst. f_equal. by apply core_upd_t. Qed.

(** A CPU changes; its current thread and idleness only when the threads are in hand. *)
Lemma inv_upd_c H s c f x : inv H s -> cpus s !! c = Some x ->
  c_runqueue (f x) = c_runqueue x -> c_zombies (f x) = c_zombies x -> c_victims (f x) = c_victims x -> cpu_ok s c (f x) ->
  (c_curthread (f x) = c_curthread x /\ c_isidle (f x) = c_isidle x) \/ (c_curthread x ∈ H /\ c_curthread (f x) ∈ H) -> inv H (upd_c c f s).
Proof.
  intros [Hd [L1 L2 L3 L4] Hc Hr Ha Hw Hn] Hx F1 F2 F3 F4 F5.
  assert (Hl : forall l, lst (upd_c c f s) l = lst s l).
  { intros [d|d|d|w]; unfold lst; rewrite ?upd_c_lookup; [case_decide; subst; rewrite ?Hx; simpl; congruence..|done]. }
  assert (Hcur : forall t d i, t ∉ H -> current (upd_c c f s) t d i <-> current s t d i).
  { intros t d i Ht. unfold current. rewrite upd_c_lookup. case_decide; [|done]. subst d. rewrite Hx. simpl. split.
    - intros (y & [= <-] & G1 & G2). exists x. destruct F5 as [[G3 G4]|[G3 G4]]; [split_and!; congruence|]. by subst t.
    - intros (y & [= <-] & G1 & G2). exists (f x). destruct F5 as [[G3 G4]|[G3 G4]]; [split_and!; congruence|]. by subst t. }
  split; try done.
  - intros d. rewrite upd_c_lookup. case_decide; [subst; rewrite fmap_is_Some|]; apply Hd.
  - split; intros *; rewrite ?Hl; [apply L1|apply L2|apply L3|]. setoid_rewrite Hl. apply L4.
  - intros d y. rewrite upd_c_lookup. case_decide; [subst d; rewrite Hx; intros [= <-]; by destruct F4|]. intros Hy. by destruct (Hc _ _ Hy).
  - intros t y Hy Ht. destruct (Hr _ _ Hy Ht) as (R1 & R2 & R3 & R4 & R5 & R6). unfold role. setoid_rewrite Hl. setoid_rewrite Hcur; [|done..]. done.
Qed.

Lemma inv_neutral H s c f x : inv H s -> cpus s !! c = Some x -> bare (f x) = bare (set_idle (c_isidle x) (c_asleep (f x)) (set_ipi (c_ipi_pending (f x)) [] (set_halted (c_halted (f x)) (set_hardclocks (c_hardclocks (f x)) x)))) ->
  c_runqueue (f x) = c_runqueue x -> c_zombies (f x) = c_zombies x -> c_victims (f x) = c_victims x -> inv H (upd_c c f s).
Proof.
  intros I Hx E F1 F2 F3. apply bare_eq in E. simpl in E. destruct E as (E1 & E2 & E3 & E4 & E5 & _). eapply inv_upd_c; try done.
  - destruct (in_cpus _ _ I _ _ Hx) as [(t & Ht & Hc & W) Sh]. split; [|done]. exists t. rewrite E1. split; [done|]. split; [done|]. revert W. unfold the_view. by rewrite E1, E3, E4.
  - by left.
Qed.

(** ** Quiet changes *)

Record quiet (H : gset Z) (c : Z) (s s' : tsys) : Prop := mk_quiet {
  q_inv : inv H s';
  q_locks : locks s' = locks s;
  q_cur : cur_of s' c = cur_of s c;
  q_spl t : is_Some (threads s !! t) -> spl_of s' t = spl_of s t;
  q_cnt t : is_Some (threads s !! t) -> cur_of s c <> Some t -> cnt_of s' t = cnt_of s t;
  q_count d : nlocks s' d = nlocks s d
}.

Lemma spl_some s s' t : spl_of s' t = spl_of s t -> is_Some (threads s !! t) -> is_Some (threads s' !! t).
Proof. unfold spl_of. intros E [x Hx]. rewrite Hx in E. destruct (threads s' !! t); [by eexists|done]. Qed.

Lemma squiet_trans H H' c s1 s2 s3 : quiet H c s1 s2 -> quiet H' c s2 s3 -> quiet H' c s1 s3.
Proof.
  intros [A B C D E F] [A' B' C' D' E' F'].
  assert (G : forall t, is_Some (threads s1 !! t) -> is_Some (threads s2 !! t)) by (intros t Ht; eapply spl_some; [by apply D|done]).
  split; try done; [congruence|congruence| | |intros d; by rewrite F'].
  - intros t Ht. rewrite D', D; auto.
  - intros t Ht Hn. rewrite E', E; auto. congruence.
Qed.

Lemma like_cur s s' c : like s s' -> cur_of s' c = cur_of s c.
Proof. intros L. apply core_like in L. apply (f_equal (fun z => cur_of z c)) in L. revert L. unfold cur_of. rewrite !core_cpu. by destruct (cpus s' !! c), (cpus s !! c). Qed.
Lemma like_is_some s s' t : like s s' -> is_Some (threads s' !! t) <-> is_Some (threads s !! t).
Proof. intros L. apply core_like in L. apply (f_equal (fun z => threads z !! t)) in L. rewrite !core_thread in L. rewrite <- (fmap_is_Some tcore), L. apply fmap_is_Some. Qed.

Lemma quiet_lockstep H H' c s1 s2 s3 s4 l : lockstep H c 1 s1 s2 (<[l := c]> (locks s1)) -> quiet H' c s2 s3 ->
  lockstep H' c (-1) s3 s4 (delete l (locks s3)) -> locks s1 !! l = None -> quiet H' c s1 s4.
Proof.
  intros [A B C D X E] [A' B' Q' C' X' D'] [A'' B'' C'' D'' X'' E''] Hl.
  pose proof (like_cur _ _ c B) as G. pose proof (fun t => like_is_some _ _ t B) as G'. split; [done| | | | |].
  - rewrite C'', B', C. by apply delete_insert_id.
  - by rewrite (like_cur _ _ c B''), Q', G.
  - intros t Ht. rewrite D'', C', D; [done|]. by apply G'.
  - intros t Ht Hn. rewrite X'', X', X; [done|done|by apply G'|congruence|congruence].
  - intros d. rewrite E'', D', E. destruct (nlocks s1 d); [|done]. simpl. case_decide; [f_equal; lia|done].
Qed.

Definition post (code : Z) (x : cpu) : cpu := set_ipi (Z.lor (c_ipi_pending x) (Z.shiftl 1 code)) (c_shootdown x) x.

Lemma quiet_upd_c H s c d f x : cpus s !! c = Some x -> inv H (upd_c c f s) -> c_spinlocks (f x) = c_spinlocks x -> c_curthread (f x) = c_curthread x -> quiet H d s (upd_c c f s).
Proof.
  intros Hx I' E E'. split; try done; [unfold cur_of|intros e; unfold nlocks]; rewrite upd_c_lookup; (case_decide; [subst; rewrite Hx; simpl; congruence|done]).
Qed.
Lemma quiet_upd_t H s c t f x : threads s !! t = Some x -> inv H (upd_t t f s) -> t_curspl (f x) = t_curspl x -> t_iplhigh_count (f x) = t_iplhigh_count x -> quiet H c s (upd_t t f s).
Proof.
  intros Hx I E E'. split; try done; intros u ?; unfold spl_of, cnt_of; rewrite upd_t_lookup; (case_decide; [subst; rewrite Hx; simpl; congruence|done]).
Qed.
Lemma quiet_relist H s c l v t b : inv H (relist l v t b s) -> quiet H c s (relist l v t b s).
Proof.
  assert (G : forall d, bare <$> cpus (relist l v t b s) !! d = bare <$> cpus s !! d) by (intros d; apply (set_lst_cpu l v (upd_t t (set_linked b) s))).
  intros I. split; [done|by destruct l| | | |].
  - specialize (G c). unfold cur_of. destruct (cpus (relist l v t b s) !! c), (cpus s !! c); try done. simpl in *. apply (inj Some), bare_eq in G. f_equal. naive_solver.
  - intros u _. unfold spl_of. rewrite relist_thread. case_decide; [subst; by destruct (threads s !! t)|done].
  - intros u _ _. unfold cnt_of. rewrite relist_thread. case_decide; [subst; by destruct (threads s !! t)|done].
  - intros d. specialize (G d). unfold nlocks. destruct (cpus (relist l v t b s) !! d), (cpus s !! d); try done. simpl in *. apply (inj Some), bare_eq in G. f_equal. naive_solver.
Qed.

End SchedCore.

(** * Operations of the thread system keep its invariant *)


Module SchedOps.
Import Cpu(splid, splx, splhigh, spl0, IPL_NONE, IPL_HIGH, spinlock_acquire, spinlock_release, spinlock_do_i_hold, cpu_wf, acq, held).
Import Sched SchedInv SchedMoves SchedCore.

(** ** Interprocessor interrupts *)

Lemma shoot_empty H s c x : inv H s -> cpus s !! c = Some x -> c_shootdown x = [].
Proof. intros I Hx. apply (in_cpus _ _ I _ _ Hx). Qed.

Lemma ipi_send_run H s c d code : inv H s -> 0 <= c < ncpus s -> 0 <= d < ncpus s -> 0 <= code < 32 -> locks s !! ipi_lock d = None ->
  exists s', ipi_send c d code s = Ret tt s' /\ quiet H c s s' /\ core s' = upd_c d (post code) (core s).
Proof.
  intros I Hc Hd Hk Hl. destruct (acquire_inv H s c (ipi_lock d) I Hc Hl) as (s1 & E1 & LS1). pose proof LS1 as [I1 K1 L1 _ _ _].
  assert (N1 : ncpus s1 = ncpus s) by apply K1.
  destruct (proj2 (in_dom _ _ I1 d)) as [x Hx]; [by rewrite N1|].
  assert (I2 : inv H (upd_c d (post code) s1)).
  { eapply inv_neutral; try done. unfold post. simpl. by rewrite (shoot_empty _ _ _ _ I1 Hx). }
  destruct (release_inv H (upd_c d (post code) s1) c (ipi_lock d) I2) as (s3 & E3 & LS3); [simpl; by rewrite N1|simpl; rewrite L1; apply lookup_insert_eq|].
  exists s3. split_and!.
  - unfold ipi_send. rewrite (run_bind _ _ s tt s). 2:{ unfold KASSERT. by rewrite (proj2 (Z.leb_le 0 code)), (proj2 (Z.ltb_lt code 32)) by lia. }
    rewrite (run_bind _ _ _ _ _ E1), (run_bind _ _ _ tt (upd_c d (post code) s1)) by (by eapply mod_cpu_run). exact E3.
  - eapply quiet_lockstep; try done. by eapply quiet_upd_c.
  - rewrite (core_like _ _ (ls_like _ _ _ _ _ _ LS3)), core_upd_c, (core_like _ _ K1) by done. done.
Qed.

(** ** Making a thread runnable *)

Definition ready (t : thread) : thread := set_state (t_wchan_name t) S_READY t.
Definition idle_of (s : tsys) (d : Z) : bool := default false (c_isidle <$> cpus s !! d).
Definition unidle (c d : Z) (s : tsys) : tsys := if idle_of s d && negb (d =? c) then upd_c d (post IPI_UNIDLE) s else s.
Definition enqueue (c d t : Z) (s : tsys) : tsys := unidle c d (relist (RUNQ d) (lst s (RUNQ d) ++ [t]) t true (upd_t t ready s)).

Lemma core_idle_of s d : idle_of (core s) d = idle_of s d.
Proof. unfold idle_of. rewrite core_cpu. by destruct (cpus s !! d). Qed.

(** The part inside the critical section. *)
Lemma ready_run H s c t x : inv H s -> 0 <= c < ncpus s -> t ∈ H -> threads s !! t = Some x -> t_linked x = false -> 0 <= t_cpu x < ncpus s ->
  locks s !! ipi_lock (t_cpu x) = None ->
  exists s', (_ ← mod_t t (fun t => set_state (t_wchan_name t) S_READY t); _ ← threadlist_addtail (RUNQ (t_cpu x)) t; y ← get_cpu (t_cpu x);
    when (c_isidle y && negb (t_cpu x =? c)) (ipi_send c (t_cpu x) IPI_UNIDLE)) s = Ret tt s' /\ quiet H c s s' /\ core s' = enqueue c (t_cpu x) t (core s).
Proof.
  intros I Hc Ht Hx Hk Hd Hl. set (d := t_cpu x) in *.
  assert (I1 : inv H (upd_t t ready s)) by (apply inv_upd_t; [done..|]; intros y Hy; done).
  assert (Hx1 : threads (upd_t t ready s) !! t = Some (ready x)) by (rewrite upd_t_lookup, decide_True, Hx; done).
  assert (Hv : valid (upd_t t ready s) (RUNQ d)) by (by apply (in_dom _ _ I)).
  pose proof (add_run (upd_t t ready s) true (RUNQ d) t _ Hx1 Hk) as A. pose proof (add_inv H (upd_t t ready s) true (RUNQ d) t _ I1 Hx1 Hk Ht Hv) as I2. simpl in A, I2.
  set (s2 := relist (RUNQ d) (default [] (c_runqueue <$> cpus s !! d) ++ [t]) t true (upd_t t ready s)) in *.
  assert (N2 : ncpus s2 = ncpus s) by done.
  assert (is_Some (cpus s2 !! d)) as [y Hy] by (apply (in_dom _ _ I2); exact Hd).
  assert (Q2 : quiet H c s s2). { eapply squiet_trans; [eapply (quiet_upd_t H s c t ready)|apply quiet_relist]; done. }
  assert (C2 : core s2 = relist (RUNQ d) (lst (core s) (RUNQ d) ++ [t]) t true (upd_t t ready (core s))). { unfold s2. rewrite core_relist, core_upd_t, core_lst by done. done. }
  assert (Ei : idle_of (core s2) d = c_isidle y) by (rewrite core_idle_of; unfold idle_of; by rewrite Hy).
  assert (Run : forall s' r, when (c_isidle y && negb (d =? c)) (ipi_send c d IPI_UNIDLE) s2 = Ret r s' -> (_ ← mod_t t (fun t => set_state (t_wchan_name t) S_READY t); _ ← threadlist_addtail (RUNQ d) t; y ← get_cpu d;
    when (c_isidle y && negb (d =? c)) (ipi_send c d IPI_UNIDLE)) s = Ret r s').
  { intros s' r Hr. rewrite (run_bind _ _ _ tt (upd_t t ready s)) by (by eapply mod_t_run). rewrite (run_bind _ _ _ tt s2) by exact A. rewrite (run_bind _ _ _ y s2) by (by apply get_cpu_run). exact Hr. }
  unfold enqueue. rewrite <- C2. unfold unidle. rewrite Ei. unfold when in *. destruct (c_isidle y && negb (d =? c)) eqn:E.
  - destruct (ipi_send_run H s2 c d IPI_UNIDLE I2) as (s' & E' & Q' & C'); [done..|by rewrite (q_locks _ _ _ _ Q2)|].
    exists s'. split; [by apply Run|]. split; [by eapply squiet_trans|done].
  - exists s2. split; [by apply Run|]. done.
Qed.

Lemma when_true {S} (b : bool) (m : M S unit) : b = true -> when b m = m.
Proof. by intros ->. Qed.

Lemma make_runnable_locked H s c t x : inv H s -> 0 <= c < ncpus s -> t ∈ H -> threads s !! t = Some x -> t_linked x = false -> 0 <= t_cpu x < ncpus s ->
  locks s !! runqueue_lock (t_cpu x) = Some c -> locks s !! ipi_lock (t_cpu x) = None ->
  exists s', thread_make_runnable c t true s = Ret tt s' /\ quiet H c s s' /\ core s' = enqueue c (t_cpu x) t (core s).
Proof.
  intros I Hc Ht Hx Hk Hd Hl Hi. destruct (ready_run H s c t x) as (s' & E & Q & C); try done. exists s'. split; [|done].
  destruct (inv_cpu _ _ _ I Hc) as (y & u & Hy & Hu & _).
  unfold thread_make_runnable. rewrite (run_bind _ _ s x s) by (by apply get_t_run). rewrite (run_bind _ _ s tt s).
  2:{ rewrite (run_bind _ _ s true s); [done|]. rewrite (do_i_hold_run _ _ _ _ _ Hy Hu). by rewrite bool_decide_true. }
  revert E. generalize (t_cpu x). intros d E. unfold mbind, M_bind in *. destruct (mod_t _ _ s) as [? s1| | | | |]; try done.
  destruct (threadlist_addtail _ _ s1) as [? s2| | | | |]; try done. destruct (get_cpu d s2) as [z s3| | | | |]; try done. by rewrite E.
Qed.

Lemma make_runnable_run H s c t x : inv H s -> 0 <= c < ncpus s -> t ∈ H -> threads s !! t = Some x -> t_linked x = false -> 0 <= t_cpu x < ncpus s ->
  locks s !! runqueue_lock (t_cpu x) = None -> locks s !! ipi_lock (t_cpu x) = None ->
  exists s', thread_make_runnable c t false s = Ret tt s' /\ quiet H c s s' /\ core s' = enqueue c (t_cpu x) t (core s).
Proof.
  intros I Hc Ht Hx Hk Hd Hl Hi. destruct (acquire_inv H s c (runqueue_lock (t_cpu x)) I Hc Hl) as (s1 & E1 & LS1). pose proof LS1 as [I1 K1 L1 _ _ _].
  assert (N1 : ncpus s1 = ncpus s) by apply K1. destruct (like_thread _ _ _ _ K1 Hx) as (x1 & Hx1 & T1). apply tcore_eq in T1. destruct T1 as (_ & T1 & _ & _ & T2 & _).
  destruct (ready_run H s1 c t x1) as (s2 & E2 & Q2 & C2); try done; [by rewrite N1|congruence|by rewrite T2, N1|rewrite T2, L1; by rewrite lookup_insert_ne|].
  destruct (release_inv H s2 c (runqueue_lock (t_cpu x))) as (s3 & E3 & LS3); [apply Q2| |rewrite (q_locks _ _ _ _ Q2), L1; apply lookup_insert_eq|].
  { change (ncpus s2) with (ncpus (core s2)). rewrite C2. unfold enqueue, unidle. case_match; simpl; by rewrite N1. }
  exists s3. split_and!.
  - unfold thread_make_runnable. rewrite (run_bind _ _ s x s) by (by apply get_t_run). rewrite (run_bind _ _ s tt s1) by done. rewrite T2 in E2. clear -E2 E3. revert E2 E3. generalize (t_cpu x). intros d E2 E3.
    unfold mbind, M_bind in *. destruct (mod_t _ _ s1) as [? s1'| | | | |]; try done.
    destruct (threadlist_addtail _ _ s1') as [? s1''| | | | |]; try done. destruct (get_cpu d s1'') as [z s1'''| | | | |]; try done. by rewrite E2.
  - by eapply quiet_lockstep.
  - rewrite (core_like _ _ (ls_like _ _ _ _ _ _ LS3)), C2, T2, (core_like _ _ K1). done.
Qed.

End SchedOps.
