(* ===== verification/SchedWake.v ===== *)
(** * Waking threads

    What [thread_make_runnable] does to a thread that nothing else holds, and the wait channel
    operations and interprocessor interrupts built on it. *)

From S2P Require Import Prelude Cpu Sched SchedInv SchedMoves.

Module SchedWake.
Import Cpu(splid, splx, splhigh, spl0, IPL_NONE, IPL_HIGH, spinlock_acquire, spinlock_release, spinlock_do_i_hold, cpu_wf, acq, held).
Import Sched SchedInv SchedMoves SchedCore SchedOps.

(** No lock of the thread system is held. *)
Definition unlocked (L : gmap splid Z) : Prop := forall d, L !! runqueue_lock d = None /\ L !! ipi_lock d = None.

(** ** Threads that wait to run *)

Definition parked (s : tsys) (t : Z) (x : thread) : Prop :=
  (forall c, current s t c true -> idling x) /\ (forall c, ~ current s t c false) /\ ((forall c i, ~ current s t c i) -> resumable x) /\ calm x /\ 0 <= t_cpu x < ncpus s.

Lemma role_parked s t x : role s t x -> t_linked x = true -> parked s t x.
Proof. intros (R1 & R2 & R3 & R4 & R5 & R6) Hk. split_and!; try apply R6; [intros c Hc; by apply (R3 c)|intros c Hc; by destruct (R4 c Hc); congruence|done]. Qed.
Lemma parked_role s t x l : parked s t x -> t_linked x = true -> t ∈ lst s l -> in_place l x -> role s t x.
Proof.
  intros (P1 & P2 & P3 & P4) Hk Hl Hp. refine (conj _ (conj _ (conj _ (conj _ (conj P3 P4))))); [eauto|congruence|eauto|intros c Hc; by destruct (P2 c)].
Qed.

(** The thread on CPU [c] is itself, and no other CPU runs it. *)
Lemma current_cpu H s t c i x : inv H s -> current s t c i -> threads s !! t = Some x -> t_cpu x = c.
Proof. intros I (y & Hy & <- & _) Hx. destruct (in_cpus _ _ I _ _ Hy) as [(t & Ht & E & _) _]. congruence. Qed.
Lemma cur_current s t c : cur_of s c = Some t <-> exists i, current s t c i.
Proof. unfold cur_of, current. destruct (cpus s !! c) as [x|]; simpl; [|naive_solver]. split; [intros [= <-]; eauto|intros (i & y & [= <-] & -> & _); done]. Qed.

(** A quiet change of the state and of the place of [t]. *)
Lemma parked_quiet H c s s' t x x' : parked s t x -> quiet H c s s' -> (forall d i, current s' t d i <-> current s t d i) -> ncpus s' = ncpus s ->
  threads s !! t = Some x -> threads s' !! t = Some x' -> (forall w st b, tcore (set_state w st (set_linked b x')) = tcore (set_state w st (set_linked b x))) -> parked s' t x'.
Proof.
  intros (P1 & P2 & P3 & P4 & P5) Q Hcur Hn Hx Hx' E. specialize (E None S_RUN true). apply tcore_eq in E. simpl in E. destruct E as (_ & _ & E1 & E2 & E3 & E4 & E5 & E6).
  pose proof (q_spl _ _ _ _ Q t) as S1. pose proof (q_cnt _ _ _ _ Q t) as S2. unfold spl_of, cnt_of in S1, S2. rewrite Hx, Hx' in S1, S2. simpl in S1, S2.
  specialize (S1 (mk_is_Some _ _ eq_refl)). apply (inj Some) in S1. unfold parked. setoid_rewrite Hcur. rewrite Hn, E3. split_and!; try apply P5; try done.
  - intros d Hd. destruct (P1 d Hd) as (I1 & I2). split; [congruence|]. by rewrite E2, E6.
  - intros Hno. destruct (P3 Hno) as (I1 & I2 & I3). assert (S3 : t_iplhigh_count x' = t_iplhigh_count x).
    { apply (inj Some). apply S2; [by eexists|]. intros [i Hi]%cur_current. by apply (Hno c i). }
    split_and!; [congruence|congruence|]. by rewrite E2, E6.
  - destruct P4 as (C1 & C2 & C3). unfold calm. by rewrite E1, E5, E6.
Qed.

(** ** What [enqueue] does *)

Lemma unidle_threads c d s : threads (unidle c d s) = threads s /\ ncpus (unidle c d s) = ncpus s /\ wchans (unidle c d s) = wchans s /\ next_addr (unidle c d s) = next_addr s /\ oom (unidle c d s) = oom s.
Proof. unfold unidle. by case_match. Qed.
Lemma unidle_cpu c d s e : cpus (unidle c d s) !! e = (if idle_of s d && negb (d =? c) && bool_decide (e = d) then post IPI_UNIDLE else id) <$> cpus s !! e.
Proof. unfold unidle. destruct (idle_of s d && negb (d =? c)); simpl; [|by rewrite option_fmap_id]. case_bool_decide; [subst; by rewrite lookup_alter_eq|rewrite lookup_alter_ne by done; by rewrite option_fmap_id]. Qed.
Lemma unidle_lst c d s l : lst (unidle c d s) l = lst s l.
Proof.
  destruct (unidle_threads c d s) as (_ & _ & E & _). destruct l as [e|e|e|w]; unfold lst; rewrite ?E, ?unidle_cpu; [..|done]; destruct (cpus s !! e); simpl; try done; by case_match.
Qed.
Lemma unidle_current c d s t e i : current (unidle c d s) t e i <-> current s t e i.
Proof.
  unfold current. rewrite unidle_cpu. split; [intros (x & (y & Hy & ->)%fmap_Some & H1 & H2); exists y|intros (x & Hx & H1 & H2); rewrite Hx; eexists; split; [done|]];
    by destruct (idle_of s d && negb (d =? c) && bool_decide (e = d)).
Qed.

Lemma enqueue_thread c d t s u : threads (enqueue c d t s) !! u = if decide (u = t) then set_linked true ∘ ready <$> threads s !! t else threads s !! u.
Proof.
  unfold enqueue. destruct (unidle_threads c d (relist (RUNQ d) (lst s (RUNQ d) ++ [t]) t true (upd_t t ready s))) as (-> & _). rewrite relist_thread, !upd_t_lookup.
  destruct (decide (t = t)); [|done]. case_decide; [|done]. by destruct (threads s !! t).
Qed.
Lemma enqueue_lst c d t s l : is_Some (cpus s !! d) -> lst (enqueue c d t s) l = if decide (l = RUNQ d) then lst s (RUNQ d) ++ [t] else lst s l.
Proof. intros Hd. unfold enqueue. rewrite unidle_lst, relist_lst by done. by case_decide. Qed.
Lemma enqueue_current c d t s u e i : current (enqueue c d t s) u e i <-> current s u e i.
Proof. unfold enqueue. rewrite unidle_current, relist_current. done. Qed.
Lemma enqueue_rest c d t s : ncpus (enqueue c d t s) = ncpus s /\ wchans (enqueue c d t s) = wchans s /\ next_addr (enqueue c d t s) = next_addr s /\ oom (enqueue c d t s) = oom s.
Proof. unfold enqueue. by edestruct unidle_threads as (_ & -> & -> & -> & ->). Qed.

Lemma post_unidle x : Z.testbit (c_ipi_pending (post IPI_UNIDLE x)) IPI_UNIDLE = true.
Proof. unfold post, set_ipi, c_ipi_pending. rewrite Z.lor_spec. apply orb_true_r. Qed.

(** The record of a CPU after [enqueue]. *)
Lemma enqueue_cpu c d t s e x : cpus s !! e = Some x -> exists x', cpus (enqueue c d t s) !! e = Some x' /\
  c_curthread x' = c_curthread x /\ c_zombies x' = c_zombies x /\ c_victims x' = c_victims x /\ c_isidle x' = c_isidle x /\ c_asleep x' = c_asleep x /\ c_halted x' = c_halted x /\
  c_runqueue x' = (if decide (e = d) then c_runqueue x ++ [t] else c_runqueue x) /\
  (Z.testbit (c_ipi_pending x') IPI_UNIDLE = Z.testbit (c_ipi_pending x) IPI_UNIDLE || (c_isidle x && bool_decide (e = d) && negb (d =? c))).
Proof.
  intros Hx. unfold enqueue. rewrite unidle_cpu.
  assert (E : cpus (relist (RUNQ d) (lst s (RUNQ d) ++ [t]) t true (upd_t t ready s)) !! e = Some (if decide (e = d) then set_runqueue (c_runqueue x ++ [t]) x else x)).
  { unfold relist. simpl. case_decide; [subst; by rewrite lookup_alter_eq, Hx|by rewrite lookup_alter_ne, Hx]. }
  assert (Ei : e = d -> idle_of (relist (RUNQ d) (lst s (RUNQ d) ++ [t]) t true (upd_t t ready s)) d = c_isidle x).
  { intros ->. unfold idle_of. rewrite E. by rewrite decide_True. }
  rewrite E. eexists. split; [done|]. destruct (decide (e = d)) as [Ed|Ed].
  - rewrite (Ei Ed), (bool_decide_true _ Ed), andb_true_r. destruct (c_isidle x) eqn:Ex, (negb (d =? c)); simpl; split_and!; try done; rewrite ?orb_false_r; try done.
    rewrite orb_true_r. exact (post_unidle x).
  - rewrite (bool_decide_false _ Ed), !andb_false_r. simpl. rewrite orb_false_r. done.
Qed.

Lemma enqueue_cpu_none c d t s e : cpus s !! e = None -> cpus (enqueue c d t s) !! e = None.
Proof.
  intros Hx. unfold enqueue. rewrite unidle_cpu. unfold relist. simpl. destruct (decide (e = d)); [subst; by rewrite lookup_alter_eq, Hx|by rewrite lookup_alter_ne, Hx].
Qed.

Lemma enqueue_wakes c d t s : all_wake_but c s -> all_wake_but c (enqueue c d t s).
Proof.
  intros W e x' He Hx'. destruct (cpus s !! e) as [x|] eqn:Hx; [|by rewrite enqueue_cpu_none in Hx'].
  destruct (enqueue_cpu c d t s e x Hx) as (y & Hy & _ & _ & _ & E1 & E2 & _ & E3 & E4). simplify_eq.
  intros Ha. rewrite E2 in Ha. destruct (W e x He Hx Ha) as [Hi Hp]. split; [congruence|]. rewrite E3, E4, Hi. case_decide; [|rewrite bool_decide_false, orb_false_r by done; auto].
  subst e. rewrite bool_decide_true by done. intros _. destruct (Z.eqb_spec d c); [done|by rewrite orb_true_r].
Qed.

(** A thread in hand that waits to run is made runnable. *)
Lemma wake_run s c t x : inv {[t]} s -> 0 <= c < ncpus s -> threads s !! t = Some x -> t_linked x = false -> parked s t x -> unlocked (locks s) ->
  exists s', thread_make_runnable c t false s = Ret tt s' /\ quiet ∅ c s s' /\ core s' = enqueue c (t_cpu x) t (core s).
Proof.
  intros I Hc Hx Hk P U. pose proof P as (_ & _ & _ & _ & Hd). destruct (U (t_cpu x)) as [U1 U2].
  destruct (make_runnable_run {[t]} s c t x) as (s' & E & Q & C); try done; [by apply elem_of_singleton|].
  exists s'. split_and!; [done| |done].
  assert (Hx' : threads (core s') !! t = Some (tcore (set_linked true (ready x)))) by (rewrite C, enqueue_thread, decide_True, core_thread, Hx; done).
  apply core_thread_inv in Hx' as (x' & Hx' & T). symmetry in T.
  assert (Hcur : forall d i, current s' t d i <-> current s t d i) by (intros d i; rewrite <- core_current, C, enqueue_current; apply core_current).
  assert (Hn : ncpus s' = ncpus s) by (change (ncpus (core s') = ncpus (core s)); rewrite C; apply enqueue_rest).
  assert (Hd' : is_Some (cpus (core s) !! t_cpu x)) by (rewrite core_cpu, fmap_is_Some; by apply (in_dom _ _ I)).
  destruct Q as [I' Q1 Q2 Q3 Q4 Q5]. split; try done. eapply (inv_settle {[t]} ∅ s' t x' I'); [set_solver|done|].
  eapply (parked_role s' t x' (RUNQ (t_cpu x))).
  - eapply (parked_quiet {[t]} c s); try done. intros w st b. by destruct x', x; revert T; unfold tcore, set_ipl, ready, set_linked, set_state; simpl; intros [= -> -> -> -> -> -> -> -> ->].
  - apply tcore_eq in T. by destruct T as (_ & -> & _).
  - rewrite <- core_lst, C, enqueue_lst, decide_True by done. apply elem_of_app. right. by left.
  - apply tcore_eq in T. simpl in T. destruct T as (T1 & _ & _ & _ & T2 & _). split; congruence.
Qed.

(** Taking a thread off a list keeps it ready to be woken. *)
Lemma taken_parked s l t r x : inv ∅ s -> lst s l = t :: r -> threads s !! t = Some x -> parked (relist l r t false s) t (set_linked false x).
Proof.
  intros I E Hx. assert (Hl : t ∈ lst s l) by (rewrite E; by left). destruct (lo_linked _ (in_lists _ _ I) _ _ Hl) as (y & Hy & Hk). simplify_eq.
  eapply (parked_quiet ({[t]} ∪ ∅) 0 s _ t x); [eapply role_parked; [by eapply in_roles|done]| |intros; apply relist_current|by destruct l|done| |done].
  - apply quiet_relist. eapply (remove_inv _ _ l []); [done|by rewrite E].
  - by rewrite relist_thread, decide_True, Hx.
Qed.
Lemma taken_inv s l t r : inv ∅ s -> lst s l = t :: r -> inv {[t]} (relist l r t false s).
Proof. intros I E. eapply inv_weaken; [apply (remove_inv ∅ s l [] t r I); by rewrite E|set_solver]. Qed.

(** ** Wait channels *)

Definition wake1 (c w : Z) (s : tsys) : tsys :=
  match lst s (WCHAN w) with
  | [] => s
  | t :: r => let s1 := relist (WCHAN w) r t false s in
      match threads s1 !! t with Some x => enqueue c (t_cpu x) t s1 | None => s1 end
  end.

(** Taking the first thread of a list and making it runnable. *)
Lemma wake_head s c l t r : inv ∅ s -> 0 <= c < ncpus s -> unlocked (locks s) -> lst s l = t :: r ->
  exists s' x, threads (core s) !! t = Some x /\ thread_make_runnable c t false (relist l r t false s) = Ret tt s' /\ quiet ∅ c s s' /\ core s' = enqueue c (t_cpu x) t (relist l r t false (core s)).
Proof.
  intros I Hc U E. destruct (lo_linked _ (in_lists _ _ I) l t) as (x & Hx & Hk); [rewrite E; by left|].
  destruct (wake_run (relist l r t false s) c t (set_linked false x)) as (s' & E' & Q & C).
  - by apply taken_inv.
  - by destruct l.
  - by rewrite relist_thread, decide_True, Hx.
  - done.
  - by apply taken_parked.
  - by destruct l.
  - exists s', (tcore x). split; [by rewrite core_thread, Hx|]. split; [done|]. split; [|by rewrite C, core_relist].
    eapply squiet_trans; [apply quiet_relist, taken_inv; eassumption|done].
Qed.

Lemma wchan_held s c lk H : inv H s -> 0 <= c < ncpus s -> locks s !! lk = Some c -> on c (spinlock_do_i_hold lk) s = Ret true s.
Proof. intros I Hc Hl. destruct (inv_cpu _ _ _ I Hc) as (y & u & Hy & Hu & _). rewrite (do_i_hold_run _ _ _ _ _ Hy Hu). by rewrite bool_decide_true. Qed.

Lemma wake1_cons c w s t r x : lst s (WCHAN w) = t :: r -> threads s !! t = Some x -> wake1 c w s = enqueue c (t_cpu x) t (relist (WCHAN w) r t false s).
Proof. intros E Hx. unfold wake1. rewrite E, relist_thread, decide_True, Hx by done. done. Qed.

Lemma squiet_refl H c s : inv H s -> quiet H c s s.
Proof. by split. Qed.

Lemma wakeone_run s c w lk : inv ∅ s -> 0 <= c < ncpus s -> unlocked (locks s) -> locks s !! lk = Some c ->
  exists s', wchan_wakeone c w lk s = Ret tt s' /\ quiet ∅ c s s' /\ core s' = wake1 c w (core s).
Proof.
  intros I Hc U Hl. unfold wchan_wakeone. rewrite (run_bind _ _ s true s) by (by eapply wchan_held). rewrite (run_bind _ _ s tt s) by done.
  destruct (lst s (WCHAN w)) as [|t r] eqn:E.
  - exists s. rewrite (run_bind _ _ s None s) by (by apply remhead_none). split_and!; [done|by apply squiet_refl|]. unfold wake1. by rewrite core_lst, E.
  - destruct (wake_head s c _ t r I Hc U E) as (s' & x & Hx & E' & Q & C). exists s'.
    rewrite (run_bind _ _ _ _ _ (take_head_run s _ t r (in_lists _ _ I) E)). split_and!; [done|done|]. rewrite C. symmetry. by apply wake1_cons; [rewrite core_lst|].
Qed.

Lemma unlocked_quiet H c s s' : quiet H c s s' -> unlocked (locks s) -> unlocked (locks s').
Proof. intros Q U. by rewrite (q_locks _ _ _ _ Q). Qed.

Lemma wake1_rest c w s : ncpus (wake1 c w s) = ncpus s.
Proof. unfold wake1. destruct (lst s (WCHAN w)); [done|]. case_match; [|done]. by destruct (enqueue_rest c (t_cpu t) z (relist (WCHAN w) l z false s)) as (-> & _). Qed.
Lemma wake1_lst c w s : inv ∅ s -> lst (wake1 c w (core s)) (WCHAN w) = tail (lst s (WCHAN w)).
Proof.
  intros I. destruct (lst s (WCHAN w)) as [|t r] eqn:E; [unfold wake1; by rewrite !core_lst, E; simpl; rewrite <- core_lst in E|].
  destruct (lo_linked _ (in_lists _ _ I) (WCHAN w) t) as (x & Hx & Hk); [rewrite E; by left|].
  assert (Hd : 0 <= t_cpu x < ncpus s) by (by eapply (in_roles _ _ I)).
  rewrite (wake1_cons c w _ t r (tcore x)); [|by rewrite core_lst|by rewrite core_thread, Hx]. rewrite enqueue_lst, decide_False; [|done|].
  - rewrite relist_lst, decide_True; [done|done|]. eapply (lst_valid _ (WCHAN w) t). rewrite core_lst, E. by left.
  - change (is_Some (cpus (core s) !! t_cpu x)). rewrite core_cpu, fmap_is_Some. by apply (in_dom _ _ I).
Qed.

Lemma wake_loop_run s c w n : inv ∅ s -> 0 <= c < ncpus s -> unlocked (locks s) -> length (lst s (WCHAN w)) = n ->
  exists s', wake_loop (S n) c w s = Ret tt s' /\ quiet ∅ c s s' /\ core s' = Nat.iter n (wake1 c w) (core s) /\ lst s' (WCHAN w) = [].
Proof.
  revert s. induction n as [|n IH]; intros s I Hc U E; (destruct (lst s (WCHAN w)) as [|t r] eqn:El; [|]); try done.
  - exists s. split_and!; [|by apply squiet_refl|done|done]. simpl. by rewrite (run_bind _ _ s None s) by (by apply remhead_none).
  - destruct (wake_head s c _ t r I Hc U El) as (s1 & x & Hx & E' & Q & C).
    assert (C1 : core s1 = wake1 c w (core s)) by (rewrite C; symmetry; by apply wake1_cons; [rewrite core_lst|]).
    destruct (IH s1) as (s' & E2 & Q2 & C2 & Hl).
    + apply Q.
    + change (0 <= c < ncpus (core s1)). rewrite C1, wake1_rest. done.
    + by eapply unlocked_quiet.
    + rewrite <- core_lst, C1, wake1_lst, El by done. simpl in *. lia.
    + exists s'. split_and!; [|by eapply squiet_trans|by rewrite C2, C1, <- Nat.iter_succ_r|done].
      cbn [wake_loop]. rewrite (run_bind _ _ _ _ _ (take_head_run s _ t r (in_lists _ _ I) El)). by rewrite (run_bind _ _ _ _ _ E').
Qed.

Lemma wakeall_run s c w lk : inv ∅ s -> 0 <= c < ncpus s -> unlocked (locks s) -> locks s !! lk = Some c ->
  exists s', wchan_wakeall c w lk s = Ret tt s' /\ quiet ∅ c s s' /\ core s' = Nat.iter (length (lst s (WCHAN w))) (wake1 c w) (core s) /\ lst s' (WCHAN w) = [].
Proof.
  intros I Hc U Hl. destruct (wake_loop_run s c w _ I Hc U eq_refl) as (s' & E & R). exists s'. split; [|done].
  unfold wchan_wakeall. rewrite (run_bind _ _ s true s) by (by eapply wchan_held). rewrite (run_bind _ _ s tt s) by done. by rewrite (run_bind _ _ s s s) by done.
Qed.

End SchedWake.
