(* ===== verification/SchedSwitch.v ===== *)
(** * Context switches keep the invariant

    [exorcise], the end of a switch ([resume]), the choice of the next thread ([pick]) and
    [thread_switch] itself. *)

From S2P Require Import Prelude Cpu Sched SchedInv SchedMoves SchedWake.

Module SchedSwitch.
Import Cpu(splid, splx, splhigh, spl0, IPL_NONE, IPL_HIGH, spinlock_acquire, spinlock_release, spinlock_do_i_hold, cpu_wf, acq, held).
Import Sched SchedInv SchedMoves SchedCore SchedOps SchedWake.

(** ** Threads that are no more *)

Definition del (t : Z) (s : tsys) : tsys := set_threads (delete t (threads s)) s.

Lemma del_lookup t s u y : threads (del t s) !! u = Some y <-> t <> u /\ threads s !! u = Some y.
Proof. apply lookup_delete_Some. Qed.

Lemma inv_del H H' s t x : inv H s -> H ⊆ {[t]} ∪ H' -> threads s !! t = Some x -> t_linked x = false -> (forall c i, ~ current s t c i) -> inv H' (del t s).
Proof.
  intros I Hs Hx Hk Hno. pose proof I as [Hd [L1 L2 L3 L4] Hc Hr Ha Hw Hn].
  assert (Hnl : forall l, t ∉ lst s l) by (intros l; by apply (unlinked_nowhere s t x); [apply I|..]).
  split; try done.
  - split; try done.
    + intros l u Hu. destruct (L3 l u Hu) as (y & Hy & Hy'). exists y. split; [|done]. simpl. rewrite lookup_delete_ne; [done|]. intros ->. by destruct (Hnl l).
    + intros u y (_ & Hy)%del_lookup. by apply L4.
  - intros c y Hy. eapply cpu_ok_thread; [by apply Hc|done|]. intros u Hu E. exists u. split; [|done]. simpl. rewrite lookup_delete_ne; [done|]. intros ->. apply (Hno c (c_isidle y)). by exists y.
  - intros u y (Hne & Hy)%del_lookup Hu. apply (Hr u y); [done|set_solver].
  - intros u [y (_ & Hy)%del_lookup]. apply Ha. eauto.
Qed.
Lemma core_del t s : core (del t s) = del t (core s).
Proof. unfold core, del, set_threads. simpl. by rewrite fmap_delete. Qed.

(** One zombie less. *)
Definition bury (c : Z) (s : tsys) : tsys :=
  match lst s (ZOMB c) with [] => s | z :: r => del z (relist (ZOMB c) r z false s) end.
Definition purge (c : Z) (s : tsys) : tsys := Nat.iter (length (lst s (ZOMB c))) (bury c) s.

Lemma core_bury c s : core (bury c s) = bury c (core s).
Proof. unfold bury. rewrite core_lst. destruct (lst s (ZOMB c)); [done|]. by rewrite core_del, core_relist. Qed.
Lemma core_purge c s : core (purge c s) = purge c (core s).
Proof. unfold purge. rewrite core_lst. generalize (length (lst s (ZOMB c))). intros n. induction n as [|n IH]; [done|]. simpl. by rewrite core_bury, IH. Qed.

(** What [bury] leaves alone. *)
Record buried (c : Z) (Z : list Z) (s s' : tsys) : Prop := mk_buried {
  bu_threads t : t ∉ Z -> threads s' !! t = threads s !! t;
  bu_gone t : t ∈ Z -> threads s' !! t = None;
  bu_cpus d : bare <$> cpus s' !! d = bare <$> cpus s !! d;
  bu_lists l : lst s' l = if decide (l = ZOMB c) then [] else lst s l;
  bu_rest : ncpus s' = ncpus s /\ locks s' = locks s /\ wchans s' = wchans s /\ next_addr s' = next_addr s /\ oom s' = oom s
}.

Lemma bury_cons s c z r : lists_ok s -> lst s (ZOMB c) = z :: r ->
  (forall t, t <> z -> threads (bury c s) !! t = threads s !! t) /\ threads (bury c s) !! z = None /\ (forall d, bare <$> cpus (bury c s) !! d = bare <$> cpus s !! d) /\
  (forall l, lst (bury c s) l = if decide (l = ZOMB c) then r else lst s l) /\
  (ncpus (bury c s) = ncpus s /\ locks (bury c s) = locks s /\ wchans (bury c s) = wchans s /\ next_addr (bury c s) = next_addr s /\ oom (bury c s) = oom s).
Proof.
  intros L E. assert (Hv : valid s (ZOMB c)) by (eapply (lst_valid _ _ z); rewrite E; by left). unfold bury. rewrite E. split_and!; try done.
  - intros t Ht. simpl. by rewrite lookup_delete_ne, lookup_alter_ne by done.
  - simpl. apply lookup_delete_eq.
  - intros d. apply (set_lst_cpu (ZOMB c) r (upd_t z (set_linked false) s)).
  - intros l. apply (relist_lst (ZOMB c) r z false s l Hv).
Qed.

Lemma bury_inv s c z r x : inv ∅ s -> lst s (ZOMB c) = z :: r -> cpus s !! c = Some x -> c_isidle x = false -> inv ∅ (bury c s) /\ z <> c_curthread x /\
  exists y, threads s !! z = Some y /\ t_state y = S_ZOMBIE /\ t_proc y = 0 /\ t_linked y = true.
Proof.
  intros I E Hx Hi. assert (Hl : z ∈ lst s (ZOMB c)) by (rewrite E; by left). destruct (lo_linked _ (in_lists _ _ I) _ _ Hl) as (y & Hy & Hk).
  destruct (in_roles _ _ I z y Hy) as (R1 & R2 & R3 & R4 & _); [set_solver|]. destruct (R1 Hk) as (l & Hl' & Hp). rewrite (lo_one _ (in_lists _ _ I) _ _ _ Hl' Hl) in Hp. destruct Hp as (P1 & P2 & P3).
  assert (Hno : forall d i, ~ current s z d i).
  { intros d [] Hc.
    - pose proof (current_cpu ∅ s z d true y I Hc Hy). destruct Hc as (x' & Hx' & _ & Hi'). assert (d = c) by congruence. subst d. congruence.
    - destruct (R4 d Hc). congruence. }
  split_and!; [|intros ->; by apply (Hno c (c_isidle x)); exists x|by exists y].
  unfold bury. rewrite E. eapply (inv_del {[z]} ∅); [by apply taken_inv|set_solver|by rewrite relist_thread, decide_True, Hy|done|intros d i; rewrite relist_current; apply Hno].
Qed.

Lemma tdestroy_run s c z x y : cpus s !! c = Some x -> threads s !! z = Some y -> z <> c_curthread x -> t_state y <> S_RUN -> t_proc y = 0 -> t_linked y = false ->
  thread_destroy c z s = Ret tt (del z s).
Proof.
  intros Hx Hy Hn Hs Hp Hk. unfold thread_destroy. rewrite (run_bind _ _ s x s) by (by apply get_cpu_run). rewrite (proj2 (Z.eqb_neq z (c_curthread x)) Hn).
  rewrite (run_bind _ _ s tt s) by done. rewrite (run_bind _ _ s y s) by (by apply get_t_run). rewrite (run_bind _ _ s tt s) by (by destruct (t_state y)). rewrite Hp, Hk. by rewrite !(run_bind _ _ s tt s) by done.
Qed.

Lemma exorcise_loop_run n s c x : inv ∅ s -> cpus s !! c = Some x -> c_isidle x = false -> length (lst s (ZOMB c)) = n ->
  exorcise_loop (S n) c s = Ret tt (purge c s) /\ inv ∅ (purge c s) /\ buried c (lst s (ZOMB c)) s (purge c s).
Proof.
  revert s x. induction n as [|n IH]; intros s x I Hx Hi E; (destruct (lst s (ZOMB c)) as [|z r] eqn:El; [|]); try done.
  - unfold purge. rewrite El. cbn [length Nat.iter nat_rect exorcise_loop]. rewrite (run_bind _ _ s None s) by (by apply remhead_none). split_and!; [done|done|].
    split; try done; [by intros t ?%not_elem_of_nil|]. intros l. case_decide; [subst; done|done].
  - destruct (bury_inv s c z r x I El Hx Hi) as (I' & Hz & y & Hy & Y1 & Y2 & Y3). destruct (bury_cons s c z r (in_lists _ _ I) El) as (B1 & B2 & B3 & B4 & B5).
    assert (exists x', cpus (bury c s) !! c = Some x' /\ bare x' = bare x) as (x' & Hx' & Ex).
    { specialize (B3 c). rewrite Hx in B3. apply fmap_Some in B3 as (x' & ? & ?). by exists x'. }
    assert (El' : lst (bury c s) (ZOMB c) = r) by (by rewrite B4, decide_True).
    destruct (IH (bury c s) x') as (E1 & I1 & BB); [done|done|apply bare_eq in Ex; destruct_and?; congruence|rewrite El'; simpl in E; lia|].
    assert (Ep : purge c s = purge c (bury c s)). { unfold purge. rewrite El, El'. cbn [length]. by rewrite Nat.iter_succ_r. }
    rewrite Ep. split_and!; [|done|].
    + rewrite <- E1. cbn [exorcise_loop]. rewrite (run_bind _ _ _ _ _ (take_head_run s _ z r (in_lists _ _ I) El)).
      set (s1 := relist (ZOMB c) r z false s). assert (Hc1 : cpus s1 !! c = Some (set_zombies r x)) by (unfold s1, relist; simpl; by rewrite lookup_alter_eq, Hx).
      assert (Ht1 : threads s1 !! z = Some (set_linked false y)) by (unfold s1; by rewrite relist_thread, decide_True, Hy).
      rewrite (run_bind _ _ s1 _ s1) by (by apply get_cpu_run). simpl c_curthread. rewrite (proj2 (Z.eqb_neq z (c_curthread x)) Hz). rewrite (run_bind _ _ s1 tt s1) by done.
      rewrite (run_bind _ _ s1 _ s1) by (by apply get_t_run). simpl t_state. rewrite Y1. rewrite (run_bind _ _ s1 tt s1) by done.
      rewrite (run_bind _ _ s1 tt (bury c s)); [done|]. rewrite (tdestroy_run s1 c z _ _ Hc1 Ht1); [|done|simpl; by rewrite Y1|done|done]. unfold bury. by rewrite El.
    + rewrite El' in BB. destruct BB as [C1 C2 C3 C4 C5]. split.
      * intros t Ht. apply not_elem_of_cons in Ht as [T1 T2]. by rewrite C1, B1.
      * intros t [->|Ht]%elem_of_cons; [|by apply C2]. destruct (decide (z ∈ r)); [by apply C2|by rewrite C1].
      * intros d. by rewrite C3.
      * intros l. rewrite C4, B4. by case_decide.
      * destruct C5 as (-> & -> & -> & -> & ->). done.
Qed.

Lemma exorcise_run s c x : inv ∅ s -> cpus s !! c = Some x -> c_isidle x = false ->
  exorcise c s = Ret tt (purge c s) /\ inv ∅ (purge c s) /\ buried c (lst s (ZOMB c)) s (purge c s).
Proof.
  intros I Hx Hi. unfold exorcise. rewrite (run_bind _ _ s x s) by (by apply get_cpu_run). assert (E : c_zombies x = lst s (ZOMB c)) by (simpl; by rewrite Hx). rewrite E. by eapply exorcise_loop_run.
Qed.

(** ** The thread that now runs continues *)

Definition running (t : thread) : thread := set_ctx NOCTX (set_state None S_RUN t).

(** CPU [c] runs thread [cur], whose record is [y]. *)
Definition at_cpu (s : tsys) (c cur : Z) (idle : bool) (y : thread) : Prop := current s cur c idle /\ threads s !! cur = Some y.

Lemma only_cpu H s c cur idle y d i : inv H s -> at_cpu s c cur idle y -> current s cur d i -> d = c /\ i = idle.
Proof.
  intros I [Hc Hy] Hd. pose proof (current_cpu _ _ _ _ _ _ I Hc Hy). pose proof (current_cpu _ _ _ _ _ _ I Hd Hy). assert (d = c) as -> by congruence. split; [done|].
  destruct Hc as (x & Hx & _ & <-), Hd as (x' & Hx' & _ & <-). congruence.
Qed.

Lemma running_role H s c cur y : inv H s -> at_cpu s c cur false y -> t_linked y = false -> t_context y = NOCTX -> spl_ok (t_curspl y) (t_traps y) -> calm y -> role s cur y.
Proof.
  intros I A Hk Hx Hs Hc. pose proof A as [Hcur Hy]. pose proof (current_cpu _ _ _ _ _ _ I Hcur Hy) as Hd.
  assert (Hv : 0 <= c < ncpus s) by (apply (in_dom _ _ I); destruct Hcur as (x & ? & _); eauto).
  split_and!; [congruence|by rewrite Hd| | | |apply Hc..|lia|lia].
  - intros d Hc'. by destruct (only_cpu _ _ _ _ _ _ _ _ I A Hc').
  - intros d Hc'. by destruct (only_cpu _ _ _ _ _ _ _ _ I A Hc').
  - intros Hno. by destruct (Hno c false).
Qed.

Lemma like_at s s' c cur i y : like s s' -> at_cpu s c cur i y -> exists y', at_cpu s' c cur i y' /\ tcore y' = tcore y.
Proof. intros L [Hc Hy]. destruct (like_thread _ _ _ _ L Hy) as (y' & Hy' & E). exists y'. split; [|done]. split; [|done]. by apply (like_current _ _ _ _ _ L). Qed.

Lemma spl_at s t y : threads s !! t = Some y -> spl_of s t = Some (t_curspl y).
Proof. intros Hy. unfold spl_of. by rewrite Hy. Qed.

(** After the switch: the lock is released, the zombies are buried, the level goes back. *)
Lemma resume_end s c cur y spl : inv ∅ s -> at_cpu s c cur false y -> t_curspl y = IPL_HIGH -> (spl = IPL_NONE \/ spl = IPL_HIGH) -> spl_ok spl (t_traps y) -> locks s !! runqueue_lock c = Some c ->
  exists s', (_ ← on c (spinlock_release (runqueue_lock c)); _ ← exorcise c; _ ← on c (splx spl); mret tt) s = Ret tt s' /\ inv ∅ s' /\ core s' = purge c (core s) /\
    locks s' = delete (runqueue_lock c) (locks s) /\ (forall d, nlocks s' d = (fun k => if decide (d = c) then k - 1 else k) <$> nlocks s d).
Proof.
  intros I A Hs Hspl Hok Hl. assert (Hv : 0 <= c < ncpus s) by (apply (in_dom _ _ I); destruct A as [(x & ? & _) _]; eauto).
  destruct (release_inv ∅ s c _ I Hv Hl) as (s1 & E1 & LS). pose proof LS as [I1 K1 L1 S1 _ N1]. destruct (like_at _ _ _ _ _ _ K1 A) as (y1 & [A1 Hy1] & T1).
  destruct A1 as (x1 & Hx1 & Ec & Ei). destruct (exorcise_run s1 c x1 I1 Hx1 Ei) as (E2 & I2 & B). set (s2 := purge c s1) in *.
  assert (exists x2, cpus s2 !! c = Some x2 /\ bare x2 = bare x1) as (x2 & Hx2 & X2). { pose proof (bu_cpus _ _ _ _ B c) as F. rewrite Hx1 in F. apply fmap_Some in F as (x2 & ? & ?). by exists x2. }
  apply bare_eq in X2. destruct X2 as (X2 & X3 & _). apply tcore_eq in T1. destruct T1 as (_ & _ & _ & _ & _ & _ & _ & T1).
  assert (Hk1 : t_linked y1 = false). { destruct (in_roles _ _ I1 _ _ Hy1) as (_ & _ & _ & R4 & _); [set_solver|]. apply (R4 c). by exists x1. }
  assert (Hy2 : threads s2 !! c_curthread x2 = Some y1). { rewrite X2, Ec. rewrite (bu_threads _ _ _ _ B); [done|]. by eapply unlinked_nowhere; [apply I1|..]. }
  destruct (splx_inv ∅ s2 c x2 y1 spl I2 Hx2 Hy2 Hspl) as (s3 & E3 & I3 & K3 & L3 & S3 & N3 & _); [intros _; by rewrite X3, Ei, T1|].
  exists s3. split_and!.
  - rewrite (run_bind _ _ _ _ _ E1), (run_bind _ _ _ _ _ E2), (run_bind _ _ _ _ _ E3). done.
  - done.
  - rewrite (core_like _ _ K3). unfold s2. by rewrite core_purge, (core_like _ _ K1).
  - destruct (bu_rest _ _ _ _ B) as (_ & E & _). congruence.
  - intros d. rewrite N3. assert (En : nlocks s2 d = nlocks s1 d).
    { unfold nlocks. pose proof (bu_cpus _ _ _ _ B d) as F. destruct (cpus s2 !! d), (cpus s1 !! d); try done. simpl in *. apply (inj Some), bare_eq in F. f_equal. naive_solver. }
    rewrite En, N1. destruct (nlocks s d); [|done]. simpl. case_decide; [f_equal; lia|done].
Qed.

Lemma core_running t s : core (upd_t t running s) = upd_t t running (core s).
Proof. by apply core_upd_t. Qed.

Lemma resume_run s c cur y : inv {[cur]} s -> at_cpu s c cur false y -> t_linked y = false -> resumable y -> calm y -> locks s !! runqueue_lock c = Some c ->
  exists s', resume c s = Ret tt s' /\ inv ∅ s' /\ core s' = purge c (upd_t cur running (core s)) /\
    locks s' = delete (runqueue_lock c) (locks s) /\ (forall d, nlocks s' d = (fun k => if decide (d = c) then k - 1 else k) <$> nlocks s d).
Proof.
  intros I A Hk (R1 & R2 & R3) Hc Hl. pose proof A as [(x & Hx & Ec & Ei) Hy].
  assert (I1 : inv {[cur]} (upd_t cur running s)) by (apply inv_upd_t; [done|set_solver|]; intros z Hz; done).
  assert (A1 : at_cpu (upd_t cur running s) c cur false (running y)). { split; [by exists x|]. rewrite upd_t_lookup, decide_True by done. by rewrite Hy. }
  assert (I2 : inv ∅ (upd_t cur running s)).
  { eapply (inv_settle {[cur]} ∅ _ cur); [done|set_solver|apply A1|]. eapply running_role; try done. right. done. }
  assert (exists spl, (spl = IPL_NONE \/ spl = IPL_HIGH) /\ spl_ok spl (t_traps y) /\
    resume c s = (_ ← on c (spinlock_release (runqueue_lock c)); _ ← exorcise c; _ ← on c (splx spl); mret tt) (upd_t cur running s)) as (spl & P1 & P2 & P3).
  { unfold resume. rewrite (run_bind _ _ s x s) by (by apply get_cpu_run). rewrite Ec. rewrite (run_bind _ _ s y s) by (by apply get_t_run).
    destruct (t_context y) as [| |?|spl] eqn:E; try done.
    - exists IPL_NONE. split; [by left|]. split; [left; by rewrite R3|]. by rewrite (run_bind _ _ s tt (upd_t cur running s)) by (by eapply mod_t_run).
    - exists spl. split; [destruct R3 as [[-> _]| ->]; [by left|by right]|]. split; [done|]. by rewrite (run_bind _ _ s tt (upd_t cur running s)) by (by eapply mod_t_run). }
  destruct (resume_end _ c cur (running y) spl I2 A1) as (s' & E & I' & C & L & N); try done. exists s'. rewrite P3. split_and!; [done|done| |done|done]. by rewrite C, core_running.
Qed.

(** ** Choosing the next thread *)

(** The current thread has been put on a list; the run queue is locked. *)
Record picking (c cur spl : Z) (y : thread) (s : tsys) : Prop := mk_picking {
  pk_inv : inv {[cur]} s;
  pk_at : at_cpu s c cur true y;
  pk_linked : t_linked y = true;
  pk_place : exists l, cur ∈ lst s l /\ in_place l y;
  pk_high : t_curspl y = IPL_HIGH;
  pk_spl : spl_ok spl (t_traps y);
  pk_calm : calm y;
  pk_nlocks : nlocks s c = Some 1;
  pk_lock : locks s !! runqueue_lock c = Some c
}.

Definition idle_ctx (spl : Z) (t : thread) : thread := set_ctx (IDLING spl (length (t_traps t))) t.
Definition rest (c cur spl : Z) (s : tsys) : tsys := upd_c c (set_idle true true) (upd_t cur (idle_ctx spl) s).

Lemma dec_count s s' c : (forall d, nlocks s' d = (fun k => if decide (d = c) then k + -1 else k) <$> nlocks s d) -> forall d, nlocks s' d = (fun k => if decide (d = c) then k - 1 else k) <$> nlocks s d.
Proof. intros E d. rewrite E. destruct (nlocks s d); [|done]. simpl. case_decide; [f_equal; lia|done]. Qed.

Lemma place_current s cur y c l : t_linked y = true -> cur ∈ lst s l -> in_place l y -> idling y -> calm y -> 0 <= t_cpu y < ncpus s ->
  current s cur c true -> (forall d i, current s cur d i -> d = c /\ i = true) -> role s cur y.
Proof.
  intros Hk Hl Hp Hi Hc Hv Hcur Ho. split; [eauto|]. split; [congruence|]. split; [eauto|]. split; [intros d Hd; by destruct (Ho d false Hd)|]. split; [|done]. intros Hno. by destruct (Hno c true).
Qed.

Lemma pick_idle s c cur spl y : picking c cur spl y s -> lst s (RUNQ c) = [] ->
  exists s', pick c cur spl s = Ret IDLE s' /\ inv ∅ s' /\ core s' = rest c cur spl (core s) /\
    locks s' = delete (runqueue_lock c) (locks s) /\ (forall d, nlocks s' d = (fun k => if decide (d = c) then k - 1 else k) <$> nlocks s d).
Proof.
  intros [I A Hk (l & Hl & Hp) Hh Hs Hc Hn HL] E. assert (Hv : 0 <= c < ncpus s) by (apply (in_dom _ _ I); destruct A as [(x & ? & _) _]; eauto).
  destruct (release_inv _ s c _ I Hv HL) as (s1 & E1 & LS). pose proof LS as [I1 K1 L1 S1 _ N1]. destruct (like_at _ _ _ _ _ _ K1 A) as (y1 & [A1 Hy1] & T1).
  assert (Hs1 : t_curspl y1 = IPL_HIGH). { specialize (S1 cur). rewrite (spl_at _ _ _ Hy1), (spl_at _ _ _ (proj2 A)) in S1. congruence. }
  apply tcore_eq in T1. destruct T1 as (T1 & T2 & T3 & T4 & T5 & T6 & T7 & T8).
  set (s2 := upd_t cur (idle_ctx spl) s1). assert (I2 : inv {[cur]} s2) by (apply inv_upd_t; [done|set_solver|]; intros z Hz; done).
  pose proof A1 as (x & Hx & Ec & Ei). set (s3 := upd_c c (set_idle true true) s2).
  assert (I3 : inv {[cur]} s3). { eapply (inv_neutral _ _ _ _ x); try done. simpl. rewrite Ei. rewrite <- (shoot_empty _ _ _ _ I1 Hx). by destruct x. }
  assert (Hy3 : threads s3 !! cur = Some (idle_ctx spl y1)) by (unfold s3; simpl; by rewrite lookup_alter_eq, Hy1).
  assert (A3 : at_cpu s3 c cur true (idle_ctx spl y1)). { split; [|done]. exists (set_idle true true x). split; [|done]. unfold s3. rewrite upd_c_lookup, decide_True by done. unfold s2. simpl. by rewrite Hx. }
  exists s3. split_and!.
  - unfold pick. rewrite (run_bind _ _ s None s) by (by apply remhead_none). rewrite (run_bind _ _ _ _ _ E1). rewrite (run_bind _ _ _ tt s2) by (by eapply mod_t_run). by rewrite (run_bind _ _ _ tt s3) by (by eapply mod_cpu_run).
  - eapply (inv_settle {[cur]} ∅ s3 cur); [done|set_solver|done|]. eapply (place_current s3 cur (idle_ctx spl y1) c l).
    + simpl. congruence.
    + rewrite <- core_lst. unfold s3, s2. rewrite core_upd_c, core_upd_t, (core_like _ _ K1) by done. rewrite <- core_lst in Hl. revert Hl. clear. destruct l as [d|d|d|w]; simpl; [..|done];
        (destruct (decide (d = c)) as [->|]; [rewrite lookup_alter_eq|by rewrite lookup_alter_ne]); by destruct ((ccore <$> cpus s) !! c).
    + clear -Hp T1 T5 T6. destruct l; simpl in *; rewrite ?T1, ?T5, ?T6; done.
    + split; [done|]. exists spl, (length (t_traps y1)), [], (t_traps y1). split_and!; [done|done|done|by left|by rewrite T8].
    + destruct Hc as (C1 & C2 & C3). unfold calm. simpl. by rewrite T3, T7, T8.
    + simpl. rewrite T5. rewrite (current_cpu _ _ _ _ _ _ I (proj1 A) (proj2 A)). unfold s3, s2. simpl. by rewrite (lk_ncpus _ _ K1).
    + apply A3.
    + intros d i Hd. by eapply (only_cpu _ s3).
  - unfold s3, s2, rest. by rewrite core_upd_c, core_upd_t, (core_like _ _ K1).
  - done.
  - apply dec_count. intros d. rewrite <- N1. unfold s3, nlocks. rewrite upd_c_lookup. case_decide; [subst; unfold s2; simpl; by rewrite Hx|done].
Qed.

Definition dispatch (c cur spl next : Z) (r : list Z) (s : tsys) : tsys :=
  upd_t cur (set_ctx (SWITCHED spl)) (upd_c c (set_cur next) (upd_c c (set_idle false false) (relist (RUNQ c) r next false s))).

Lemma core_dispatch c cur spl next r s : core (dispatch c cur spl next r s) = dispatch c cur spl next r (core s).
Proof. unfold dispatch. by rewrite core_upd_t, !core_upd_c, core_relist. Qed.

(** A thread of the run queue can be switched to. *)
Lemma queued s H c t x : inv H s -> t ∈ lst s (RUNQ c) -> t ∉ H -> threads s !! t = Some x -> t_state x = S_READY /\ t_cpu x = c /\ parked s t x /\ t_linked x = true.
Proof.
  intros I Hl Hh Hx. destruct (lo_linked _ (in_lists _ _ I) _ _ Hl) as (x' & Hx' & Hk). simplify_eq. pose proof (in_roles _ _ I _ _ Hx Hh) as R.
  destruct (proj1 R Hk) as (l & Hl' & Hp). rewrite (lo_one _ (in_lists _ _ I) _ _ _ Hl' Hl) in Hp. destruct Hp. split_and!; try done. by apply role_parked.
Qed.

Lemma picking_count c cur spl y s x : picking c cur spl y s -> cpus s !! c = Some x -> t_iplhigh_count y = 2 /\ irqs_on x = false /\ Z.of_nat (size (held (the_view c x y s))) = 1 /\ c_spinlocks x = 1.
Proof.
  intros [I [(x' & Hx' & Ec & Ei) Hy] Hk Hp Hh Hs Hc Hn HL] Hx. rewrite Hx in Hx'. apply (inj Some) in Hx'. subst x' cur. destruct (in_cpus _ _ I _ _ Hx) as [(t & Ht & _ & (W1 & W2 & W3 & W4 & W5)) _]. rewrite Hy in Ht. apply (inj Some) in Ht. subst t.
  unfold nlocks in Hn. rewrite Hx in Hn. apply (inj Some) in Hn. simpl in W3, W4, W5. rewrite Hn, Hh in W4. unfold IPL_HIGH in W4. split; [lia|]. split; [|split; [simpl; lia|done]]. rewrite W5. apply Z.eqb_neq. lia.
Qed.

(** What the next thread is. *)
Lemma picking_next c cur spl y s next r : picking c cur spl y s -> lst s (RUNQ c) = next :: r ->
  exists z, threads s !! next = Some z /\ t_cpu z = c /\ t_curspl z = IPL_HIGH /\ t_iplhigh_count z = 2 /\ calm z /\ (next <> cur -> resumable z) /\ (next = cur -> z = y).
Proof.
  intros P E. pose proof P as [I A Hk Hp Hh Hs Hc Hn HL]. assert (Hl : next ∈ lst s (RUNQ c)) by (rewrite E; by left). destruct (lo_linked _ (in_lists _ _ I) _ _ Hl) as (z & Hz & Hkz).
  exists z. split; [done|]. destruct (decide (next = cur)) as [->|Hne].
  - destruct A as [Hcur Hy]. rewrite Hy in Hz. apply (inj Some) in Hz. subst z. pose proof (current_cpu _ _ _ _ _ _ I Hcur Hy). destruct Hcur as (x & Hx & _). destruct (picking_count _ _ _ _ _ _ P Hx) as (? & _). split_and!; done.
  - destruct (queued s {[cur]} c next z I Hl) as (_ & Q1 & (Q2 & Q3 & Q4 & Q5 & Q6) & _); [set_solver|done|].
    assert (R : resumable z). { apply Q4. intros d i Hd. pose proof (current_cpu _ _ _ _ _ _ I Hd Hz). assert (d = c) as -> by congruence. destruct Hd as (x & Hx & Ex & _), A as [(x' & Hx' & Ex' & _) _]. congruence. }
    pose proof R as (R1 & R2 & _). split_and!; done.
Qed.

Lemma dispatch_inv c cur spl y s next r : picking c cur spl y s -> lst s (RUNQ c) = next :: r ->
  inv ({[next]} ∪ {[cur]}) (dispatch c cur spl next r s).
Proof.
  intros P E. destruct (picking_next _ _ _ _ _ _ _ P E) as (z & Hz & Z1 & Z2 & Z3 & Z4 & _). pose proof P as [I A Hk Hp Hh Hs Hc Hn HL]. destruct A as [(x & Hx & Ec & Ei) Hy].
  destruct (picking_count _ _ _ _ _ _ P Hx) as (C1 & C2 & C3 & C4).
  set (s1 := relist (RUNQ c) r next false s). assert (I1 : inv ({[next]} ∪ {[cur]}) s1) by (apply (remove_inv _ _ (RUNQ c) []); [done|by rewrite E]).
  assert (Hx1 : cpus s1 !! c = Some (set_runqueue r x)) by (unfold s1, relist; simpl; by rewrite lookup_alter_eq, Hx).
  set (s2 := upd_c c (set_idle false false) s1). assert (I2 : inv ({[next]} ∪ {[cur]}) s2).
  { eapply (inv_upd_c _ _ _ _ _ I1 Hx1); try done; [|right; set_solver]. by destruct (in_cpus _ _ I1 _ _ Hx1). }
  assert (Hx2 : cpus s2 !! c = Some (set_idle false false (set_runqueue r x))) by (unfold s2; by rewrite upd_c_lookup, decide_True, Hx1).
  assert (Hz2 : threads s2 !! next = Some (set_linked false z)) by (unfold s2, s1; simpl; by rewrite lookup_alter_eq, Hz).
  set (s3 := upd_c c (set_cur next) s2). assert (I3 : inv ({[next]} ∪ {[cur]}) s3).
  { eapply (inv_upd_c _ _ _ _ _ I2 Hx2); try done; [|right; set_solver]. split; [|by apply (shoot_empty _ _ _ _ I Hx)]. exists (set_linked false z). split; [done|]. split; [done|].
    unfold cpu_wf, the_view, held. simpl. rewrite Z2, Z3, C2, C4. unfold held in C3. simpl in C3. rewrite C3. split_and!; try done. by right. }
  apply inv_upd_t; [done|set_solver|]. intros w Hw. done.
Qed.

Lemma pick_next s c cur spl y next r : picking c cur spl y s -> lst s (RUNQ c) = next :: r ->
  exists s', pick c cur spl s = Ret (RUNS next) s' /\ inv ∅ s' /\ core s' = purge c (upd_t next running (dispatch c cur spl next r (core s))) /\
    locks s' = delete (runqueue_lock c) (locks s) /\ (forall d, nlocks s' d = (fun k => if decide (d = c) then k - 1 else k) <$> nlocks s d).
Proof.
  intros P E. pose proof (dispatch_inv _ _ _ _ _ _ _ P E) as I4. destruct (picking_next _ _ _ _ _ _ _ P E) as (z & Hz & Z1 & Z2 & Z3 & Z4 & Z5 & Z6). pose proof P as [I A Hk Hp Hh Hs Hc Hn HL].
  pose proof A as [(x & Hx & Ec & Ei) Hy]. set (s4 := dispatch c cur spl next r s) in *. destruct (picking_count _ _ _ _ _ _ P Hx) as (C1 & C2 & C3 & C4).
  assert (Hx4 : cpus s4 !! c = Some (set_cur next (set_idle false false (set_runqueue r x)))) by (unfold s4, dispatch, relist; simpl; by rewrite !lookup_alter_eq, Hx).
  assert (Ht4 : forall u, u <> next -> u <> cur -> threads s4 !! u = threads s !! u) by (intros u U1 U2; unfold s4, dispatch, relist; simpl; by rewrite !lookup_alter_ne by done).
  assert (exists z4, threads s4 !! next = Some z4 /\ t_linked z4 = false /\ resumable z4 /\ calm z4) as (z4 & Hz4 & F1 & F2 & F3).
  { unfold s4, dispatch, relist. simpl. destruct (decide (next = cur)) as [->|Hne].
    - specialize (Z6 eq_refl). subst z. rewrite !lookup_alter_eq, Hz. eexists. split; [done|]. split_and!; try done; apply Hc.
    - rewrite lookup_alter_ne, lookup_alter_eq, Hz by done. eexists. split; [done|]. split; [done|]. split; [by apply Z5|done]. }
  assert (I5 : inv {[next]} s4).
  { destruct (decide (next = cur)) as [->|Hne]; [eapply inv_weaken; [exact I4|set_solver]|].
    assert (Hc4 : threads s4 !! cur = Some (set_ctx (SWITCHED spl) y)) by (unfold s4, dispatch, relist; simpl; by rewrite lookup_alter_eq, lookup_alter_ne, Hy).
    eapply (inv_settle _ _ s4 cur _ I4); [set_solver|done|]. destruct Hp as (l & Hl & Hp).
    assert (Hno : forall d i, ~ current s4 cur d i).
    { intros d i Hd. pose proof (current_cpu _ _ _ _ _ _ I4 Hd Hc4) as Hdc. simpl in Hdc. rewrite (current_cpu _ _ _ _ _ _ I (proj1 A) Hy) in Hdc. subst d. destruct Hd as (w & Hw & Ew & _). rewrite Hx4 in Hw. apply (inj Some) in Hw. subst w. done. }
    eapply (parked_role _ _ _ l).
    - split; [intros d Hd; by destruct (Hno d true)|]. split; [intros d Hd; by destruct (Hno d false)|]. split; [intros _; by split|]. split; [done|]. simpl. rewrite (current_cpu _ _ _ _ _ _ I (proj1 A) Hy). apply (in_dom _ _ I). eauto.
    - done.
    - assert (Hr : lst s4 l = lst (relist (RUNQ c) r next false s) l). { unfold s4, dispatch. destruct l as [d|d|d|w]; simpl; [..|done]; (destruct (decide (d = c)) as [->|]; [rewrite !lookup_alter_eq, Hx; done|by rewrite !lookup_alter_ne]). }
      rewrite Hr, relist_lst; [|by eexists]. case_decide; [|done]. subst l. rewrite E in Hl. apply elem_of_cons in Hl as [Hl|Hl]; [congruence|done].
    - destruct l; done. }
  destruct (resume_run s4 c next z4 I5) as (s' & E' & I' & C' & L' & N'); try done; [split; [by exists (set_cur next (set_idle false false (set_runqueue r x)))|done]|].
  exists s'. split_and!; try done.
  - unfold pick. rewrite (run_bind _ _ _ _ _ (take_head_run s _ next r (in_lists _ _ I) E)). set (s1 := relist (RUNQ c) r next false s).
    assert (Hx1 : cpus s1 !! c = Some (set_runqueue r x)) by (unfold s1, relist; simpl; by rewrite lookup_alter_eq, Hx).
    rewrite (run_bind _ _ _ tt (upd_c c (set_idle false false) s1)) by (by eapply mod_cpu_run).
    rewrite (run_bind _ _ _ tt (upd_c c (set_cur next) (upd_c c (set_idle false false) s1))); [|eapply mod_cpu_run; by rewrite upd_c_lookup, decide_True, Hx1].
    assert (exists yy, threads s1 !! cur = Some yy) as [yy Hyy]. { unfold s1. rewrite relist_thread. case_decide; [subst; rewrite Hz; by eexists|eauto]. }
    rewrite (run_bind _ _ _ tt s4) by (by eapply mod_t_run). by rewrite (run_bind _ _ _ _ _ E').
  - by rewrite C', <- core_dispatch.
  - intros d. rewrite N'. f_equal. unfold nlocks, s4, dispatch, relist. simpl. destruct (decide (d = c)) as [->|]; [by rewrite !lookup_alter_eq, Hx|by rewrite !lookup_alter_ne].
Qed.

(** The end of a switch that got as far as choosing. *)
Definition picked (c cur spl : Z) (s : tsys) : switched * tsys :=
  match lst s (RUNQ c) with
  | [] => (IDLE, rest c cur spl s)
  | next :: r => (RUNS next, purge c (upd_t next running (dispatch c cur spl next r s)))
  end.

Lemma pick_run s c cur spl y : picking c cur spl y s ->
  exists s', pick c cur spl s = Ret (picked c cur spl (core s)).1 s' /\ inv ∅ s' /\ core s' = (picked c cur spl (core s)).2 /\
    locks s' = delete (runqueue_lock c) (locks s) /\ (forall d, nlocks s' d = (fun k => if decide (d = c) then k - 1 else k) <$> nlocks s d).
Proof.
  intros P. unfold picked. rewrite core_lst. destruct (lst s (RUNQ c)) as [|next r] eqn:E; [by eapply pick_idle|by eapply pick_next].
Qed.

(** A CPU that leaves [cpu_idle] looks again. *)
Lemma poll_run s c cur spl y : inv ∅ s -> at_cpu s c cur true y -> t_context y = IDLING spl (length (t_traps y)) -> nlocks s c = Some 0 -> locks s !! runqueue_lock c = None ->
  exists s', idle_poll c s = Ret (picked c cur spl (core s)).1 s' /\ inv ∅ s' /\ core s' = (picked c cur spl (core s)).2 /\
    locks s' = locks s /\ (forall d, nlocks s' d = nlocks s d).
Proof.
  intros I A Hcx Hn Hl. pose proof A as [(x & Hx & Ec & Ei) Hy]. assert (Hv : 0 <= c < ncpus s) by (apply (in_dom _ _ I); eauto).
  destruct (acquire_inv ∅ s c _ I Hv Hl) as (s1 & E1 & LS). pose proof LS as [I1 K1 L1 S1 _ N1]. destruct (like_at _ _ _ _ _ _ K1 A) as (y1 & A1 & T1).
  pose proof (in_roles _ _ I1 _ _ (proj2 A1) ltac:(set_solver)) as (R1 & R2 & R3 & _ & _ & (R6 & _)). apply tcore_eq in T1. destruct T1 as (_ & T2 & _ & T4 & _ & _ & _ & T8).
  destruct (R3 c (proj1 A1)) as (Hk & Hh & spl' & d & top & base & I2 & I3 & I4 & I5 & I6).
  assert (P : picking c cur spl y1 s1).
  { split; try done.
    - eapply inv_weaken; [done|set_solver].
    - by apply R1.
    - rewrite T4, Hcx in I2. injection I2. intros <- <-. rewrite T8 in *. destruct top; [simpl in I3; by rewrite I3|]. apply (f_equal length) in I3. rewrite length_app in I3. simpl in I3. lia.
    - by rewrite N1, Hn; simpl; rewrite decide_True.
    - rewrite L1. apply lookup_insert_eq. }
  destruct (pick_run _ _ _ _ _ P) as (s' & E' & I' & C' & L' & N'). rewrite (core_like _ _ K1) in E', C'. exists s'. split_and!; try done.
  - unfold idle_poll. rewrite (run_bind _ _ s x s) by (by apply get_cpu_run). rewrite Ec. rewrite (run_bind _ _ s y s) by (by apply get_t_run). rewrite Hcx. by rewrite (run_bind _ _ _ _ _ E1).
  - rewrite L', L1. by apply delete_insert_id.
  - intros e. rewrite N', N1. destruct (nlocks s e); [|done]. simpl. case_decide; [f_equal; lia|done].
Qed.

(** ** The parts of [thread_switch] *)

Lemma checkstack_run s t y : threads s !! t = Some y -> calm y -> thread_checkstack t s = Ret tt s.
Proof.
  intros Hy (Hk & _). unfold thread_checkstack. rewrite (run_bind _ _ s y s) by (by apply get_t_run). destruct Hk as [-> | ->]; [done|]. by rewrite bool_decide_true.
Qed.

(** Interrupts off, the stack checked, the run queue locked. *)
Lemma switch_begin s c cur y : inv ∅ s -> at_cpu s c cur false y -> locks s !! runqueue_lock c = None ->
  exists s1 s2 x1 y2, on c splhigh s = Ret (t_curspl y) s1 /\ cpus s1 !! c = Some x1 /\ c_curthread x1 = cur /\ c_isidle x1 = false /\ thread_checkstack cur s1 = Ret tt s1 /\
    on c (spinlock_acquire (runqueue_lock c)) s1 = Ret tt s2 /\ inv ∅ s1 /\ inv ∅ s2 /\ core s1 = core s /\ core s2 = core s /\ locks s1 = locks s /\ locks s2 = <[runqueue_lock c := c]> (locks s) /\
    at_cpu s2 c cur false y2 /\ tcore y2 = tcore y /\ t_curspl y2 = IPL_HIGH /\ (forall d, nlocks s2 d = (fun k => if decide (d = c) then k + 1 else k) <$> nlocks s d) /\
    (forall u, u <> cur -> spl_of s2 u = spl_of s u /\ cnt_of s2 u = cnt_of s u).
Proof.
  intros I A Hl. pose proof A as [(x & Hx & Ec & Ei) Hy]. assert (Hv : 0 <= c < ncpus s) by (apply (in_dom _ _ I); eauto). rewrite <- Ec in Hy.
  destruct (splhigh_inv ∅ s c x y I Hx Hy) as (s1 & E1 & I1 & K1 & L1 & S1 & N1 & X1). destruct (like_at _ _ _ _ _ _ K1 A) as (y1 & A1 & T1).
  destruct (acquire_inv ∅ s1 c (runqueue_lock c) I1) as (s2 & E2 & LS); [by rewrite (lk_ncpus _ _ K1)|by rewrite L1|]. destruct LS as [I2 K2 L2 S2 X2 N2].
  destruct (like_at _ _ _ _ _ _ K2 A1) as (y2 & A2 & T2). pose proof A1 as [(x1 & Hx1 & Ec1 & Ei1) Hy1].
  exists s1, s2, x1, y2. split_and!; try done.
  - eapply checkstack_run; [done|]. by apply (in_roles _ _ I1 _ _ Hy1); set_solver.
  - by apply core_like.
  - by rewrite (core_like _ _ K2), (core_like _ _ K1).
  - by rewrite L2, L1.
  - congruence.
  - pose proof (spl_at _ _ _ (proj2 A2)) as F. rewrite S2, S1, decide_True in F by done. congruence.
  - intros d. by rewrite N2, N1.
  - intros u Hu. rewrite S2, S1, decide_False by congruence. split; [done|]. rewrite X2, X1; [done|congruence|]. rewrite (like_cur _ _ _ K1). unfold cur_of. rewrite Hx. simpl. congruence.
Qed.

(** Leaving at once: the lock goes back and the level too. *)
Lemma switch_stay s c cur y : inv ∅ s -> at_cpu s c cur false y -> locks s !! runqueue_lock c = None -> lst s (RUNQ c) = [] ->
  exists s', thread_switch c S_READY None s = Ret STAYED s' /\ quiet ∅ c s s' /\ core s' = core s.
Proof.
  intros I A Hl Hq. destruct (switch_begin s c cur y I A Hl) as (s1 & s2 & x1 & y2 & E1 & Hx1 & Ec1 & Ei1 & E2 & E3 & I1 & I2 & C1 & C2 & L1 & L2 & A2 & T2 & Hh & N2 & X2).
  assert (Hv : 0 <= c < ncpus s2) by (apply (in_dom _ _ I2); destruct A2 as [(x & ? & _) _]; eauto).
  destruct (release_inv ∅ s2 c (runqueue_lock c) I2 Hv) as (s3 & E4 & LS); [rewrite L2; apply lookup_insert_eq|]. destruct LS as [I3 K3 L3 S3 X3 N3].
  destruct (like_at _ _ _ _ _ _ K3 A2) as (y3 & A3 & T3). pose proof A3 as [(x3 & Hx3 & Ec3 & Ei3) Hy3]. rewrite <- Ec3 in Hy3.
  assert (Hok : spl_ok (t_curspl y) (t_traps y)) by (eapply (in_roles _ _ I cur y); [apply A|set_solver|apply A]).
  apply tcore_eq in T2, T3. destruct T2 as (_ & _ & _ & _ & _ & _ & _ & T2), T3 as (_ & _ & _ & _ & _ & _ & _ & T3).
  destruct (splx_inv ∅ s3 c x3 y3 (t_curspl y) I3 Hx3 Hy3) as (s4 & E5 & I4 & K4 & L4 & S4 & N4 & X4); [destruct Hok as [[-> _]| ->]; [by left|by right]|intros _; by rewrite Ei3, T3, T2|].
  assert (C4 : core s4 = core s) by (by rewrite (core_like _ _ K4), (core_like _ _ K3)).
  exists s4. split_and!; [|split|done].
  - unfold thread_switch. rewrite (run_bind _ _ _ _ _ E1). rewrite (run_bind _ _ s1 x1 s1) by (by apply get_cpu_run). rewrite Ei1, Ec1. rewrite (run_bind _ _ _ _ _ E2), (run_bind _ _ _ _ _ E3).
    rewrite (run_bind _ _ s2 s2 s2) by done. assert (Eq : lst s2 (RUNQ c) = []) by (by rewrite <- core_lst, C2, core_lst). rewrite Eq. by rewrite (run_bind _ _ _ _ _ E4), (run_bind _ _ _ _ _ E5).
  - done.
  - rewrite L4, L3, L2. by apply delete_insert_id.
  - pose proof (f_equal (fun z => cur_of z c) C4) as F. revert F. unfold cur_of. rewrite !core_cpu. by destruct (cpus s4 !! c), (cpus s !! c).
  - intros t Ht. rewrite S4. case_decide as Et; [subst t; rewrite Ec3; symmetry; apply spl_at, A|]. rewrite S3. apply X2. congruence.
  - intros t Ht Hne. assert (Hne' : t <> cur). { intros ->. apply Hne. destruct A as [(x & Hx & Ex & _) _]. unfold cur_of. rewrite Hx. simpl. by rewrite Ex. }
    rewrite X4 by congruence. rewrite X3; [by apply X2|]. destruct A2 as [(x & Hx & Ex & _) _]. unfold cur_of. rewrite Hx. simpl. congruence.
  - intros d. rewrite N4, N3, N2. destruct (nlocks s d); [|done]. simpl. case_decide; [f_equal; lia|done].
Qed.

(** Not while idling. *)
Lemma switch_idle s c cur y ns wc : inv ∅ s -> at_cpu s c cur true y ->
  exists s', thread_switch c ns wc s = Ret STAYED s' /\ quiet ∅ c s s' /\ core s' = core s.
Proof.
  intros I A. pose proof A as [(x & Hx & Ec & Ei) Hy]. rewrite <- Ec in Hy. destruct (splhigh_inv ∅ s c x y I Hx Hy) as (s1 & E1 & I1 & K1 & L1 & S1 & N1 & X1).
  assert (Hh : t_curspl y = IPL_HIGH). { rewrite Ec in Hy. destruct (in_roles _ _ I _ _ Hy) as (_ & _ & R3 & _); [set_solver|]. apply (R3 c). by exists x. }
  destruct (like_at _ _ _ _ _ _ K1 A) as (y1 & A1 & T1). pose proof A1 as [(x1 & Hx1 & Ec1 & Ei1) Hy1]. rewrite <- Ec1 in Hy1.
  destruct (splx_inv ∅ s1 c x1 y1 (t_curspl y) I1 Hx1 Hy1) as (s2 & E2 & I2 & K2 & L2 & S2 & N2 & X2); [by right|intros _; by rewrite Ei1|].
  exists s2. split_and!; [|split|].
  - unfold thread_switch. rewrite (run_bind _ _ _ _ _ E1). rewrite (run_bind _ _ s1 x1 s1) by (by apply get_cpu_run). rewrite Ei1. by rewrite (run_bind _ _ _ _ _ E2).
  - done.
  - congruence.
  - by rewrite (like_cur _ _ _ K2), (like_cur _ _ _ K1).
  - intros t Ht. rewrite S2, S1. case_decide; [subst t; rewrite Ec1; symmetry; apply spl_at; by rewrite <- Ec|]. by rewrite decide_False by congruence.
  - intros t Ht Hne. assert (t <> cur) by (intros ->; apply Hne; unfold cur_of; rewrite Hx; simpl; by rewrite Ec). rewrite X2, X1 by congruence. done.
  - intros d. by rewrite N2, N1.
  - by rewrite (core_like _ _ K2), (core_like _ _ K1).
Qed.

End SchedSwitch.
