(* ===== verification/SchedPark.v ===== *)
(** * Context switches, as a whole

    [thread_switch] puts the current thread on the run queue, a wait channel or the list of
    zombies ([park]) and goes on with the next thread of the run queue ([picked]). *)

From S2P Require Import Prelude Cpu Sched SchedInv SchedMoves SchedWake SchedSwitch.

Module SchedPark.
Import Cpu(splid, splx, splhigh, spl0, IPL_NONE, IPL_HIGH, spinlock_acquire, spinlock_release, spinlock_do_i_hold, cpu_wf, acq, held).
Import Sched SchedInv SchedMoves SchedCore SchedOps SchedWake SchedSwitch.

Definition named (n : string) (t : thread) : thread := set_state (Some n) (t_state t) t.
Definition stow (l : tlist) (n : string) (cur : Z) (s : tsys) : tsys := relist l (lst s l ++ [cur]) cur true (upd_t cur (named n) s).

(** Where the current thread goes. *)
Definition park (c cur : Z) (ns : threadstate_t) (w : Z) (s : tsys) : tsys :=
  match ns with
  | S_READY => enqueue c c cur s
  | S_SLEEP => stow (WCHAN w) (default EmptyString (wc_name <$> wchans s !! w)) cur s
  | S_ZOMBIE => stow (ZOMB c) "ZOMBIE"%string cur s
  | S_RUN => s
  end.
Definition to_state (ns : threadstate_t) (t : thread) : thread := set_state (t_wchan_name t) ns t.
Definition to_idle (x : cpu) : cpu := set_idle true (c_asleep x) x.
Definition parkdone (c cur : Z) (ns : threadstate_t) (s : tsys) : tsys := upd_c c to_idle (upd_t cur (to_state ns) s).

(** The current thread has been put on a list. *)
Record stowed (k c cur : Z) (ns : threadstate_t) (y : thread) (s : tsys) : Prop := mk_stowed {
  sw_inv : inv {[cur]} s;
  sw_at : at_cpu s c cur false y;
  sw_linked : t_linked y = true;
  sw_place : exists l, cur ∈ lst s l /\ in_place l (to_state ns y);
  sw_high : t_curspl y = IPL_HIGH;
  sw_calm : calm y;
  sw_nlocks : nlocks s c = Some k;
  sw_lock : locks s !! runqueue_lock c = Some c
}.

Lemma upd_c_lst c f s l : (forall x, c_runqueue (f x) = c_runqueue x /\ c_zombies (f x) = c_zombies x /\ c_victims (f x) = c_victims x) -> lst (upd_c c f s) l = lst s l.
Proof.
  intros Hf. destruct l as [d|d|d|w]; unfold lst; rewrite ?upd_c_lookup; [..|done]; (case_decide; [subst; destruct (cpus s !! c); simpl; [apply Hf|done]|done]).
Qed.

Lemma parkdone_picking c cur ns y s spl : stowed 1 c cur ns y s -> spl_ok spl (t_traps y) -> picking c cur spl (to_state ns y) (parkdone c cur ns s).
Proof.
  intros [I A Hk (l & Hl & Hp) Hh Hc Hn HL] Hs. pose proof A as [(x & Hx & Ec & Ei) Hy].
  assert (I1 : inv {[cur]} (upd_t cur (to_state ns) s)) by (apply inv_upd_t; [done|set_solver|]; intros z Hz; done).
  assert (I2 : inv {[cur]} (parkdone c cur ns s)). { eapply (inv_upd_c _ _ _ _ x); try done; [by destruct (in_cpus _ _ I1 _ _ Hx)|right; simpl; set_solver]. }
  split; try done.
  - split; [exists (to_idle x); split; [|done]; unfold parkdone; rewrite upd_c_lookup, decide_True by done; simpl; by rewrite Hx|]. simpl. by rewrite lookup_alter_eq, Hy.
  - exists l. split; [|done]. unfold parkdone. by rewrite upd_c_lst.
  - rewrite <- Hn. unfold nlocks, parkdone. rewrite upd_c_lookup, decide_True by done. simpl. by rewrite Hx.
Qed.
Lemma core_parkdone c cur ns s : core (parkdone c cur ns s) = parkdone c cur ns (core s).
Proof. unfold parkdone. by rewrite core_upd_c, core_upd_t. Qed.
Lemma core_stow l n cur s : core (stow l n cur s) = stow l n cur (core s).
Proof. unfold stow. by rewrite core_relist, core_upd_t, core_lst. Qed.

(** A thread that runs can be put on a list. *)
Lemma stow_inv k s c cur y l n ns : inv ∅ s -> at_cpu s c cur false y -> valid s l -> t_curspl y = IPL_HIGH -> nlocks s c = Some k -> locks s !! runqueue_lock c = Some c ->
  in_place l (to_state ns y) -> stowed k c cur ns (set_linked true (named n y)) (stow l n cur s) /\
    (_ ← mod_t cur (fun t => set_state (Some n) (t_state t) t); threadlist_addtail l cur) s = Ret tt (stow l n cur s).
Proof.
  intros I A Hv Hh Hn HL Hp. pose proof A as [Hcur Hy]. destruct (in_roles _ _ I _ _ Hy) as (_ & _ & _ & R4 & _ & (R6 & _)); [set_solver|]. destruct (R4 c Hcur) as (Hk & _ & _).
  set (s1 := upd_t cur (named n) s). assert (I1 : inv {[cur]} s1) by (apply inv_upd_t; [eapply inv_weaken; [done|set_solver]|set_solver|]; intros z Hz; done).
  assert (Hy1 : threads s1 !! cur = Some (named n y)) by (unfold s1; by rewrite upd_t_lookup, decide_True, Hy).
  assert (Hv1 : valid s1 l) by (by destruct l). assert (El : lst s1 l = lst s l) by (by destruct l).
  pose proof (add_run s1 true l cur _ Hy1 Hk) as E. pose proof (add_inv {[cur]} s1 true l cur _ I1 Hy1 Hk ltac:(set_solver) Hv1) as I2. simpl in E, I2. rewrite El in E, I2. split.
  - split; try done.
    + split; [by apply relist_current|]. unfold stow. fold s1. by rewrite relist_thread, decide_True, Hy1.
    + exists l. split; [unfold stow; rewrite relist_lst, decide_True by done; apply elem_of_app; right; by left|]. by destruct l.
    + rewrite <- Hn. apply (q_count _ _ _ _ (quiet_relist _ s1 c _ _ _ _ I2)).
    + by destruct l.
  - rewrite (run_bind _ _ _ tt s1) by (by eapply mod_t_run). exact E.
Qed.


(** What must hold to switch away, per new state. *)
Definition may_park (s : tsys) (c : Z) (y : thread) (ns : threadstate_t) (wc : option (Z * splid)) : Prop :=
  match ns with
  | S_RUN => False
  | S_READY => lst s (RUNQ c) <> [] /\ nlocks s c = Some 0
  | S_SLEEP => exists w lk, wc = Some (w, lk) /\ is_Some (wchans s !! w) /\ locks s !! lk = Some c /\ nlocks s c = Some 1
  | S_ZOMBIE => t_proc y = 0 /\ nlocks s c = Some 0
  end.
Definition unlock_of (ns : threadstate_t) (wc : option (Z * splid)) (L : gmap splid Z) : gmap splid Z :=
  match ns, wc with S_SLEEP, Some w => delete w.2 L | _, _ => L end.
Definition chan_of (wc : option (Z * splid)) : Z := default 0 (fst <$> wc).

(** The part of [thread_switch] that puts the thread away. *)
Definition put_away (c cur : Z) (ns : threadstate_t) (wc : option (Z * splid)) (s : tsys) : M tsys unit :=
  match ns with
  | S_RUN => panic "Illegal S_RUN in thread_switch"
  | S_READY => thread_make_runnable c cur true
  | S_SLEEP =>
      w ← deref wc;
      ch ← deref (wchans s !! w.1);
      _ ← mod_t cur (fun t => set_state (Some (wc_name ch)) (t_state t) t);
      _ ← threadlist_addtail (WCHAN w.1) cur;
      on c (spinlock_release w.2)
  | S_ZOMBIE =>
      _ ← mod_t cur (fun t => set_state (Some "ZOMBIE"%string) (t_state t) t);
      threadlist_addtail (ZOMB c) cur
  end.

Lemma switch_eq s c ns wc s1 s2 x1 spl : on c splhigh s = Ret spl s1 -> cpus s1 !! c = Some x1 -> c_isidle x1 = false -> thread_checkstack (c_curthread x1) s1 = Ret tt s1 ->
  on c (spinlock_acquire (runqueue_lock c)) s1 = Ret tt s2 -> (ns = S_READY -> lst s2 (RUNQ c) <> []) ->
  thread_switch c ns wc s = (_ ← put_away c (c_curthread x1) ns wc s2; _ ← mod_t (c_curthread x1) (to_state ns); _ ← mod_cpu c to_idle; pick c (c_curthread x1) spl) s2.
Proof.
  intros E1 Hx1 Ei E2 E3 Hq. unfold thread_switch. rewrite (run_bind _ _ _ _ _ E1). rewrite (run_bind _ _ s1 x1 s1) by (by apply get_cpu_run). rewrite Ei. rewrite (run_bind _ _ _ _ _ E2), (run_bind _ _ _ _ _ E3).
  rewrite (run_bind _ _ s2 s2 s2) by done.
  destruct ns; try done. destruct (lst s2 (RUNQ c)); [by destruct Hq|done].
Qed.

Lemma ready_away s c cur y : inv ∅ s -> at_cpu s c cur false y -> t_curspl y = IPL_HIGH -> nlocks s c = Some 1 -> locks s !! runqueue_lock c = Some c -> locks s !! ipi_lock c = None ->
  exists s' y', thread_make_runnable c cur true s = Ret tt s' /\ stowed 1 c cur S_READY y' s' /\ core s' = enqueue c c cur (core s) /\ t_traps y' = t_traps y /\ locks s' = locks s /\ (forall d, nlocks s' d = nlocks s d).
Proof.
  intros I A Hh Hn HL HI. pose proof A as [Hcur Hy]. destruct (in_roles _ _ I _ _ Hy) as (_ & _ & _ & R4 & _ & (R6 & _)); [set_solver|]. destruct (R4 c Hcur) as (Hk & _ & _).
  pose proof (current_cpu _ _ _ _ _ _ I Hcur Hy) as Hc. assert (Hv : 0 <= c < ncpus s) by (apply (in_dom _ _ I); destruct Hcur as (x & ? & _); eauto).
  destruct (make_runnable_locked {[cur]} s c cur y) as (s' & E & Q & C); try done; [eapply inv_weaken; [done|set_solver]|set_solver|by rewrite Hc..|]. rewrite Hc in C.
  assert (Hy' : threads (core s') !! cur = Some (tcore (set_linked true (ready y)))) by (rewrite C, enqueue_thread, decide_True, core_thread, Hy; done).
  apply core_thread_inv in Hy' as (y' & Hy' & T). symmetry in T. pose proof (tcore_eq _ _ T) as (T1 & T2 & T3 & T4 & T5 & T6 & T7 & T8). simpl in T1, T2, T3, T4, T5, T6, T7, T8.
  exists s', y'. destruct Q as [QI QL QC QS QN QK]. split_and!; try done. split; try done.
  - split; [|done]. rewrite <- core_current, C, enqueue_current. by apply core_current.
  - exists (RUNQ c). split; [|by split; [|simpl; congruence]]. rewrite <- core_lst, C, enqueue_lst, decide_True; [apply elem_of_app; right; by left|done|]. rewrite core_cpu, fmap_is_Some. by apply (in_dom _ _ I).
  - pose proof (QS cur (mk_is_Some _ _ Hy)) as F. rewrite (spl_at _ _ _ Hy), (spl_at _ _ _ Hy') in F. congruence.
  - destruct R6 as (C1 & C2 & C3). unfold calm. by rewrite T3, T7, T8.
  - by rewrite QK.
  - by rewrite QL.
Qed.

Lemma sleep_away s c cur y w lk : inv ∅ s -> at_cpu s c cur false y -> t_curspl y = IPL_HIGH -> nlocks s c = Some 2 -> locks s !! runqueue_lock c = Some c -> locks s !! lk = Some c ->
  lk <> runqueue_lock c -> is_Some (wchans s !! w) ->
  exists s' y', put_away c cur S_SLEEP (Some (w, lk)) s s = Ret tt s' /\ stowed 1 c cur S_SLEEP y' s' /\ core s' = park c cur S_SLEEP w (core s) /\ t_traps y' = t_traps y /\
    locks s' = delete lk (locks s) /\ (forall d, nlocks s' d = (fun k => if decide (d = c) then k - 1 else k) <$> nlocks s d).
Proof.
  intros I A Hh Hn HL Hlk Hne [ch Hw]. assert (Hv : 0 <= c < ncpus s) by (apply (in_dom _ _ I); destruct A as [(x & ? & _) _]; eauto).
  destruct (stow_inv 2 s c cur y (WCHAN w) (wc_name ch) S_SLEEP I A) as (St & E); try done; [by eexists|]. set (s1 := stow (WCHAN w) (wc_name ch) cur s) in *.
  destruct St as [I1 A1 Hk1 (l & Hl & Hp) Hh1 Hc1 Hn1 HL1]. destruct (release_inv _ s1 c lk I1) as (s2 & E2 & LS); [done|done|]. destruct LS as [I2 K2 L2 S2 _ N2].
  destruct (like_at _ _ _ _ _ _ K2 A1) as (y2 & A2 & T). pose proof (tcore_eq _ _ T) as (T1 & T2 & T3 & T4 & T5 & T6 & T7 & T8). simpl in T1, T2, T3, T4, T5, T6, T7, T8.
  exists s2, y2. split_and!; try done.
  - unfold put_away. rewrite (run_bind _ _ s (w, lk) s) by done. simpl fst. rewrite (run_bind _ _ s ch s) by (by rewrite Hw). simpl snd. rewrite (run_bind _ _ _ tt (upd_t cur (named (wc_name ch)) s)) by (eapply mod_t_run; apply A).
    rewrite (run_bind _ _ _ tt s1); [done|]. rewrite (run_bind _ _ _ tt (upd_t cur (named (wc_name ch)) s)) in E by (eapply mod_t_run; apply A). exact E.
  - split; try done.
    + exists l. split; [by rewrite (like_lst _ _ _ K2)|]. destruct l; simpl in *; rewrite ?T1, ?T5, ?T6; done.
    + specialize (S2 cur). rewrite (spl_at _ _ _ (proj2 A2)), (spl_at _ _ _ (proj2 A1)) in S2. simpl in S2. congruence.
    + destruct Hc1 as (C1 & C2 & C3). unfold calm. by rewrite T3, T7, T8.
    + rewrite N2, Hn1. simpl. rewrite decide_True by done. done.
    + rewrite L2. by rewrite lookup_delete_ne.
  - rewrite (core_like _ _ K2). unfold s1. rewrite core_stow. unfold park. by assert (wchans (core s) !! w = Some ch) as -> by done.
Qed.

Lemma zombie_away s c cur y : inv ∅ s -> at_cpu s c cur false y -> t_curspl y = IPL_HIGH -> nlocks s c = Some 1 -> locks s !! runqueue_lock c = Some c -> t_proc y = 0 ->
  exists s' y', put_away c cur S_ZOMBIE None s s = Ret tt s' /\ stowed 1 c cur S_ZOMBIE y' s' /\ core s' = park c cur S_ZOMBIE 0 (core s) /\ t_traps y' = t_traps y /\ locks s' = locks s /\ (forall d, nlocks s' d = nlocks s d).
Proof.
  intros I A Hh Hn HL Hp. assert (Hv : valid s (ZOMB c)) by (destruct A as [(x & ? & _) _]; by eexists). pose proof (current_cpu _ _ _ _ _ _ I (proj1 A) (proj2 A)) as Hc.
  destruct (stow_inv 1 s c cur y (ZOMB c) "ZOMBIE"%string S_ZOMBIE I A) as (St & E); try done. eexists _, _. split; [exact E|]. split; [exact St|]. split_and!; try done; [by rewrite core_stow|].
  intros d. apply (q_count _ _ _ _ (quiet_relist _ (upd_t cur (named "ZOMBIE"%string) s) c _ _ _ _ (sw_inv _ _ _ _ _ _ St))).
Qed.

(** Any of the three. *)
Lemma away s c cur y ns wc : inv ∅ s -> at_cpu s c cur false y -> t_curspl y = IPL_HIGH -> locks s !! runqueue_lock c = Some c -> locks s !! ipi_lock c = None ->
  match ns with
  | S_RUN => False
  | S_READY => nlocks s c = Some 1
  | S_SLEEP => exists w lk, wc = Some (w, lk) /\ is_Some (wchans s !! w) /\ locks s !! lk = Some c /\ lk <> runqueue_lock c /\ nlocks s c = Some 2
  | S_ZOMBIE => t_proc y = 0 /\ nlocks s c = Some 1
  end ->
  exists s' y', put_away c cur ns wc s s = Ret tt s' /\ stowed 1 c cur ns y' s' /\ core s' = park c cur ns (chan_of wc) (core s) /\ t_traps y' = t_traps y /\
    locks s' = unlock_of ns wc (locks s) /\ (forall d, nlocks s' d = (fun k => if decide (d = c) then 1 else k) <$> nlocks s d).
Proof.
  intros I A Hh HL HI Hns. destruct ns; [done|..].
  - destruct (ready_away s c cur y) as (s' & y' & R1 & R2 & R3 & R4 & R5 & R6); try done. exists s', y'. split_and!; try done.
    intros d. rewrite R6. case_decide; [subst; by rewrite Hns|by rewrite option_fmap_id].
  - destruct Hns as (w & lk & -> & Hw & Hl & Hne & Hn). destruct (sleep_away s c cur y w lk) as (s' & y' & R1 & R2 & R3 & R4 & R5 & R6); try done. exists s', y'. split_and!; try done.
    intros d. rewrite R6. case_decide; [subst; by rewrite Hn|done].
  - destruct Hns as (Hp & Hn). destruct (zombie_away s c cur y) as (s' & y' & R1 & R2 & R3 & R4 & R5 & R6); try done. exists s', y'. split_and!; try done; [by destruct wc as [[]|]..|].
    intros d. rewrite R6. case_decide; [subst; by rewrite Hn|by rewrite option_fmap_id].
Qed.

Definition switched_core (c cur spl : Z) (ns : threadstate_t) (wc : option (Z * splid)) (s : tsys) : switched * tsys :=
  picked c cur spl (parkdone c cur ns (park c cur ns (chan_of wc) s)).

Lemma switch_go s c cur y ns wc : inv ∅ s -> at_cpu s c cur false y -> unlocked (locks s) -> may_park s c y ns wc ->
  exists s', thread_switch c ns wc s = Ret (switched_core c cur (t_curspl y) ns wc (core s)).1 s' /\ inv ∅ s' /\ core s' = (switched_core c cur (t_curspl y) ns wc (core s)).2 /\
    locks s' = unlock_of ns wc (locks s) /\ (forall d, nlocks s' d = (fun k => if decide (d = c) then 0 else k) <$> nlocks s d).
Proof.
  intros I A U M. destruct (U c) as [U1 U2]. pose proof A as [Hcur Hy].
  destruct (switch_begin s c cur y I A U1) as (s1 & s2 & x1 & y2 & E1 & Hx1 & Ec1 & Ei1 & E2 & E3 & I1 & I2 & C1 & C2 & L1 & L2 & A2 & T2 & Hh & N2 & _).
  pose proof (tcore_eq _ _ T2) as (_ & _ & _ & _ & _ & T6 & _ & T8).
  assert (Hok : spl_ok (t_curspl y) (t_traps y2)) by (rewrite T8; eapply (in_roles _ _ I cur y); [apply A|set_solver|apply A]).
  destruct (away s2 c cur y2 ns wc I2 A2 Hh) as (s3 & y3 & E4 & St & C3 & T3 & L3 & N3); [rewrite L2; apply lookup_insert_eq|rewrite L2; by rewrite lookup_insert_ne| |].
  { destruct ns; [done|..]; simpl in M.
    - destruct M as [_ M]. by rewrite N2, M; simpl; rewrite decide_True.
    - destruct M as (w & lk & -> & Hw & Hl & Hn). exists w, lk. assert (Hne : lk <> runqueue_lock c) by (intros ->; congruence). split_and!; try done.
      + change (is_Some (wchans (core s2) !! w)). by rewrite C2.
      + rewrite L2. by rewrite lookup_insert_ne.
      + by rewrite N2, Hn; simpl; rewrite decide_True.
    - destruct M as [M1 M]. rewrite T6. split; [done|]. by rewrite N2, M; simpl; rewrite decide_True. }
  assert (P : picking c cur (t_curspl y) (to_state ns y3) (parkdone c cur ns s3)) by (apply parkdone_picking; [done|by rewrite T3]).
  destruct (pick_run _ _ _ _ _ P) as (s' & E' & I' & C' & L' & N'). assert (Cs : core (parkdone c cur ns s3) = parkdone c cur ns (park c cur ns (chan_of wc) (core s))) by (by rewrite core_parkdone, C3, C2).
  rewrite Cs in E', C'. exists s'. split_and!; try done.
  - rewrite (switch_eq s c ns wc s1 s2 x1 (t_curspl y)); try done; [rewrite Ec1|by rewrite Ec1|].
    + rewrite (run_bind _ _ _ _ _ E4). rewrite (run_bind _ _ _ tt (upd_t cur (to_state ns) s3)) by (eapply mod_t_run; apply St).
      destruct (sw_at _ _ _ _ _ _ St) as [(x3 & Hx3 & _) _]. by rewrite (run_bind _ _ _ tt (parkdone c cur ns s3)) by (by eapply mod_cpu_run).
    + intros ->. destruct M as [M _]. by rewrite <- core_lst, C2, core_lst.
  - rewrite L'. assert (locks (parkdone c cur ns s3) = locks s3) as -> by done. rewrite L3, L2. unfold unlock_of. destruct ns; try (by apply delete_insert_id). destruct wc as [[w lk]|]; [|by apply delete_insert_id].
    destruct M as (w' & lk' & [= <- <-] & _ & Hl & _). simpl. rewrite delete_delete, delete_insert_id; done.
  - intros d. rewrite N'. assert (nlocks (parkdone c cur ns s3) d = nlocks s3 d) as ->. { unfold nlocks, parkdone. rewrite upd_c_lookup. simpl. case_decide; [subst|done]. destruct (cpus s3 !! c); done. }
    rewrite N3, N2. destruct (nlocks s d); [|done]. simpl. by case_decide.
Qed.

(** [thread_exit] takes the thread out of its process first. *)
Lemma exit_run s c cur y : inv ∅ s -> at_cpu s c cur false y -> unlocked (locks s) -> nlocks s c = Some 0 ->
  exists s' r, thread_exit c s = Ret r s' /\ (r, core s') = switched_core c cur IPL_HIGH S_ZOMBIE None (upd_t cur (set_proc 0) (core s)) /\ inv ∅ s' /\
    locks s' = locks s /\ (forall d, nlocks s' d = nlocks s d).
Proof.
  intros I A U Hn. pose proof A as [(x & Hx & Ec & Ei) Hy]. assert (Hv : 0 <= c < ncpus s) by (apply (in_dom _ _ I); eauto).
  assert (R : role s cur y) by (apply (in_roles _ _ I); [done|set_solver]). pose proof R as (_ & _ & _ & R4 & _ & (R6 & _)). destruct (R4 c) as (Hk & Hcx & Hsp); [by exists x|].
  set (s1 := upd_t cur (set_proc 0) s). assert (I1 : inv ∅ s1).
  { assert (I1 : inv {[cur]} s1) by (apply inv_upd_t; [eapply inv_weaken; [done|set_solver]|set_solver|]; intros z Hz; done).
    eapply (inv_settle {[cur]} ∅ s1 cur (set_proc 0 y)); [done|set_solver|unfold s1; by rewrite upd_t_lookup, decide_True, Hy|].
    eapply (running_role {[cur]} s1 c cur); try done. split; [by exists x|]. unfold s1. by rewrite upd_t_lookup, decide_True, Hy. }
  assert (A1 : at_cpu s1 c cur false (set_proc 0 y)) by (split; [by exists x|]; unfold s1; by rewrite upd_t_lookup, decide_True, Hy).
  assert (Hy1 : threads s1 !! c_curthread x = Some (set_proc 0 y)) by (rewrite Ec; apply A1).
  destruct (splhigh_inv ∅ s1 c x (set_proc 0 y) I1 Hx Hy1) as (s2 & E2 & I2 & K2 & L2 & S2 & N2 & _). destruct (like_at _ _ _ _ _ _ K2 A1) as (y2 & A2 & T2).
  assert (Hh : t_curspl y2 = IPL_HIGH). { pose proof (spl_at _ _ _ (proj2 A2)) as F. rewrite S2, decide_True in F by done. congruence. }
  pose proof (tcore_eq _ _ T2) as (_ & _ & _ & _ & _ & T6 & _ & _).
  destruct (switch_go s2 c cur y2 S_ZOMBIE None I2 A2) as (s' & E' & I' & C' & L' & N'); [by rewrite L2|split; [done|]; rewrite N2; done|].
  rewrite Hh, (core_like _ _ K2) in E', C'. unfold s1 in E', C'. rewrite core_upd_t in E', C' by done.
  set (R2 := switched_core c cur IPL_HIGH S_ZOMBIE None (upd_t cur (set_proc 0) (core s))) in *.
  assert (Hns : R2.1 <> STAYED) by (unfold R2, switched_core, picked; by case_match).
  exists s', R2.1. split; [|split; [rewrite C'; by destruct R2|]].
  - unfold thread_exit. rewrite (run_bind _ _ s x s) by (by apply get_cpu_run). rewrite Ec. rewrite (run_bind _ _ s y s) by (by apply get_t_run).
    rewrite (run_bind _ _ s tt s1).
    2:{ unfold when. destruct (Z.eqb_spec (t_proc y) 0) as [E0|E0]; simpl.
        - assert (s1 = s) as ->; [|done]. unfold s1, upd_t, set_threads. destruct s as [sc sn st sw sl sa so]. simpl in *. f_equal. apply map_eq. intros u. destruct (decide (u = cur)) as [->|]; [rewrite lookup_alter_eq, Hy|by rewrite lookup_alter_ne].
          simpl. f_equal. destruct y. simpl in *. by subst.
        - unfold proc_remthread. rewrite (run_bind _ _ s y s) by (by apply get_t_run). rewrite (run_bind _ _ s tt s); [by eapply mod_t_run|]. by apply Z.eqb_neq in E0 as ->. }
    rewrite (run_bind _ _ s1 (set_proc 0 y) s1) by (apply get_t_run, A1). rewrite (run_bind _ _ s1 tt s1) by done. rewrite (run_bind _ _ s1 tt s1) by (eapply checkstack_run; [apply A1|done]).
    rewrite (run_bind _ _ _ _ _ E2), (run_bind _ _ _ _ _ E'). by destruct R2.1.
  - split_and!; [done|by rewrite L'|]. intros d. rewrite N', N2. change (nlocks s1 d) with (nlocks s d). case_decide; [subst; by rewrite Hn|by rewrite option_fmap_id].
Qed.

End SchedPark.
