(* ===== verification/SchedFrame.v ===== *)
(** * What an operation of one CPU leaves of the others

    An operation of CPU [c] keeps the current threads and the migration lists of the other
    CPUs, only adds to the ends of their run queues, and wakes one that sleeps when it gives
    it a thread. *)

From S2P Require Import Prelude Cpu Sched SchedInv SchedMoves SchedWake SchedSwitch SchedPark.

Module SchedFrame.
Import Cpu(splid, IPL_HIGH).
Import Sched SchedInv SchedMoves SchedCore SchedOps SchedWake SchedSwitch SchedPark.

Definition grown (d : Z) (x x' : cpu) : Prop :=
  c_curthread x' = c_curthread x /\ c_isidle x' = c_isidle x /\ c_victims x' = c_victims x /\ c_halted x' = c_halted x /\ c_asleep x' = c_asleep x /\
  c_runqueue x `prefix_of` c_runqueue x' /\ (wakes d x -> wakes d x').

Record frame (c : Z) (s s' : tsys) : Prop := mk_frame {
  fr_ncpus : ncpus s' = ncpus s;
  fr_other d x : d <> c -> cpus s !! d = Some x -> exists x', cpus s' !! d = Some x' /\ grown d x x';
  fr_own : c_victims <$> cpus s' !! c = c_victims <$> cpus s !! c;
  fr_none d : cpus s !! d = None -> cpus s' !! d = None
}.

#[export] Instance grown_pre d : PreOrder (grown d).
Proof.
  split.
  - intros x. by split_and!.
  - intros x y z (A1 & A2 & A3 & A4 & A5 & A6 & A7) (B1 & B2 & B3 & B4 & B5 & B6 & B7). split_and!; try congruence; [by etrans|auto].
Qed.
#[export] Instance frame_pre c : PreOrder (frame c).
Proof.
  split.
  - intros s. split; try done. intros d x _ Hx. by exists x.
  - intros s1 s2 s3 [A1 A2 A3 A4] [B1 B2 B3 B4]. split; [congruence| |congruence|auto].
    intros d x Hd Hx. destruct (A2 d x Hd Hx) as (y & Hy & G). destruct (B2 d y Hd Hy) as (z & Hz & G'). exists z. split; [done|]. by etrans.
Qed.

Lemma frame_wakes c s s' : frame c s s' -> all_wake_but c s -> all_wake_but c s'.
Proof.
  intros [_ F _ N] W d x' Hd Hx'. destruct (cpus s !! d) as [x|] eqn:Hx; [|by rewrite N in Hx']. destruct (F d x Hd Hx) as (y & Hy & G). simplify_eq. apply G. by apply (W d).
Qed.

(** ** Small changes *)

Lemma frame_same c s s' : ncpus s' = ncpus s -> cpus s' = cpus s -> frame c s s'.
Proof. intros E1 E2. split; rewrite ?E2; try done. intros d x _ Hx. by exists x. Qed.

Lemma frame_upd_c c f s : (forall x, c_victims (f x) = c_victims x) -> frame c s (upd_c c f s).
Proof.
  intros Hf. split; [done|..].
  - intros d x Hd Hx. exists x. by rewrite upd_c_lookup, decide_False.
  - rewrite upd_c_lookup, decide_True by done. destruct (cpus s !! c); simpl; [by rewrite Hf|done].
  - intros d Hd. rewrite upd_c_lookup. case_decide; [by subst; rewrite Hd|done].
Qed.

Lemma grown_post d code x : grown d x (post code x).
Proof.
  split_and!; try done. intros W Ha. destruct (W Ha) as [W1 W2]. split; [done|]. intros Hq. change (Z.testbit (Z.lor (c_ipi_pending x) (Z.shiftl 1 code)) IPI_UNIDLE = true). by rewrite Z.lor_spec, (W2 Hq).
Qed.

Lemma frame_post c d code s : frame c s (upd_c d (post code) s).
Proof.
  split; [done|..].
  - intros e x He Hx. rewrite upd_c_lookup. case_decide; [subst; rewrite Hx; eexists; split; [done|apply grown_post]|by exists x].
  - rewrite upd_c_lookup. case_decide; [subst|done]. by destruct (cpus s !! d).
  - intros e He. rewrite upd_c_lookup. case_decide; [by subst; rewrite He|done].
Qed.

Definition own_list (c : Z) (l : tlist) : Prop := l = RUNQ c \/ l = ZOMB c \/ exists w, l = WCHAN w.

Lemma frame_set_lst c l v s : own_list c l -> frame c s (set_lst l v s).
Proof. intros [->|[->|(w & ->)]]; [by apply frame_upd_c..|by apply frame_same]. Qed.
Lemma frame_upd_t c t f s : frame c s (upd_t t f s).
Proof. by apply frame_same. Qed.
Lemma frame_relist c l v t b s : own_list c l -> frame c s (relist l v t b s).
Proof. intros Hl. unfold relist. etrans; [apply (frame_upd_t c t (set_linked b))|by apply frame_set_lst]. Qed.
Lemma frame_del c t s : frame c s (del t s).
Proof. by apply frame_same. Qed.

Lemma frame_enqueue c d t s : frame c s (enqueue c d t s).
Proof.
  split.
  - apply enqueue_rest.
  - intros e x He Hx. destruct (enqueue_cpu c d t s e x Hx) as (y & Hy & E1 & E2 & E3 & E4 & E5 & E6 & E7 & E8). exists y. split; [done|]. split_and!; try done.
    + rewrite E7. case_decide; [by apply prefix_app_r|done].
    + intros W Ha. rewrite E5 in Ha. destruct (W Ha) as [W1 W2]. split; [congruence|]. rewrite E7, E8, W1. case_decide; [|intros Hq; by rewrite (W2 Hq)].
      subst e. rewrite bool_decide_true by done. destruct (Z.eqb_spec d c); [done|]. by rewrite orb_true_r.
  - destruct (cpus s !! c) as [x|] eqn:Hx; [|by rewrite enqueue_cpu_none]. destruct (enqueue_cpu c d t s c x Hx) as (y & -> & _ & _ & E & _). simpl. by rewrite E.
  - apply enqueue_cpu_none.
Qed.

Lemma frame_bury c s : frame c s (bury c s).
Proof. unfold bury. destruct (lst s (ZOMB c)) as [|z r]; [done|]. etrans; [apply (frame_relist c (ZOMB c) r z false); by right; left|apply frame_del]. Qed.
Lemma frame_iter c (f : tsys -> tsys) n s : (forall s, frame c s (f s)) -> frame c s (Nat.iter n f s).
Proof. intros Hf. induction n as [|n IH]; [done|]. simpl. etrans; [exact IH|apply Hf]. Qed.
Lemma frame_purge c s : frame c s (purge c s).
Proof. apply frame_iter, frame_bury. Qed.
Lemma frame_wake1 c w s : frame c s (wake1 c w s).
Proof.
  unfold wake1. destruct (lst s (WCHAN w)) as [|t r]; [done|]. assert (F : frame c s (relist (WCHAN w) r t false s)) by (apply frame_relist; right; right; eauto).
  case_match; [|done]. etrans; [exact F|apply frame_enqueue].
Qed.

Lemma frame_picked c cur spl s : frame c s (picked c cur spl s).2.
Proof.
  unfold picked. destruct (lst s (RUNQ c)) as [|next r]; simpl.
  - unfold rest. etrans; [apply (frame_upd_t c cur (idle_ctx spl))|by apply frame_upd_c].
  - etrans; [|apply frame_purge]. etrans; [|apply frame_upd_t]. unfold dispatch. etrans; [|apply frame_upd_t]. etrans; [|by apply frame_upd_c]. etrans; [|by apply frame_upd_c]. apply frame_relist. by left.
Qed.
Lemma frame_park c cur ns w s : frame c s (park c cur ns w s).
Proof.
  unfold park, stow. destruct ns; [done|apply frame_enqueue| |]; (etrans; [apply frame_upd_t|apply frame_relist]); [right; right; eauto|by right; left].
Qed.
Lemma frame_parkdone c cur ns s : frame c s (parkdone c cur ns s).
Proof. unfold parkdone. etrans; [apply (frame_upd_t c cur (to_state ns))|by apply frame_upd_c]. Qed.
Lemma frame_switched c cur spl ns wc s : frame c s (switched_core c cur spl ns wc s).2.
Proof. unfold switched_core. etrans; [apply (frame_park c cur ns (chan_of wc))|]. etrans; [apply frame_parkdone|apply frame_picked]. Qed.

(** ** The CPU itself *)

Lemma bury_cpu c s d : set_zombies [] <$> cpus (bury c s) !! d = set_zombies [] <$> cpus s !! d.
Proof.
  unfold bury. destruct (lst s (ZOMB c)) as [|z r]; [done|]. unfold relist. simpl. destruct (decide (d = c)) as [->|]; [rewrite lookup_alter_eq; by destruct (cpus s !! c)|by rewrite lookup_alter_ne].
Qed.
Lemma purge_cpu c s d : set_zombies [] <$> cpus (purge c s) !! d = set_zombies [] <$> cpus s !! d.
Proof. unfold purge. generalize (length (lst s (ZOMB c))). intros n. induction n as [|n IH]; [done|]. simpl. by rewrite bury_cpu. Qed.

(** After the choice the CPU sleeps, with an empty queue, or runs the first thread of it. *)
Lemma picked_cpu c cur spl s x : cpus s !! c = Some x -> exists x', cpus (picked c cur spl s).2 !! c = Some x' /\ c_runqueue x' = tail (c_runqueue x) /\ c_halted x' = c_halted x /\
  match c_runqueue x with
  | [] => (picked c cur spl s).1 = IDLE /\ c_curthread x' = c_curthread x /\ c_isidle x' = true /\ c_asleep x' = true
  | next :: _ => (picked c cur spl s).1 = RUNS next /\ c_curthread x' = next /\ c_isidle x' = false /\ c_asleep x' = false
  end.
Proof.
  intros Hx. assert (El : lst s (RUNQ c) = c_runqueue x) by (simpl; by rewrite Hx). unfold picked. rewrite El. destruct (c_runqueue x) as [|next r] eqn:Er; simpl.
  - rewrite lookup_alter_eq, Hx. eexists. split; [done|]. simpl. by rewrite Er.
  - pose proof (purge_cpu c (upd_t next running (dispatch c cur spl next r s)) c) as P.
    assert (Hd : cpus (upd_t next running (dispatch c cur spl next r s)) !! c = Some (set_cur next (set_idle false false (set_runqueue r x)))) by (unfold dispatch, relist; simpl; by rewrite !lookup_alter_eq, Hx).
    rewrite Hd in P. apply fmap_Some in P as (x' & Hx' & E). exists x'. split; [done|]. destruct x'. unfold set_zombies in E. simpl in *. injection E. intros. subst. done.
Qed.

Lemma picked_wake c cur spl s : all_wake_but c s -> all_wake (picked c cur spl s).2.
Proof.
  intros W d x' Hx'. destruct (decide (d = c)) as [->|Hd]; [|by apply (frame_wakes _ _ _ (frame_picked c cur spl s) W)].
  destruct (cpus s !! c) as [x|] eqn:Hx; [|by rewrite (fr_none _ _ _ (frame_picked c cur spl s)) in Hx'].
  destruct (picked_cpu c cur spl s x Hx) as (y & Hy & E1 & _ & E2). simplify_eq. intros Ha. destruct (c_runqueue x); destruct E2 as (_ & _ & E3 & E4); [|congruence]. split; [done|]. by rewrite E1.
Qed.

Lemma switched_wake c cur spl ns wc s : all_wake_but c s -> all_wake (switched_core c cur spl ns wc s).2.
Proof. intros W. apply picked_wake. eapply frame_wakes; [apply frame_parkdone|]. eapply frame_wakes; [apply frame_park|done]. Qed.

(** ** Contexts

    The threads outside [T] keep their saved context and their trap frames. *)

Definition same_frames (x x' : thread) : Prop := t_context x' = t_context x /\ t_traps x' = t_traps x.
Definition kept (T : list Z) (s s' : tsys) : Prop :=
  forall t x, t ∉ T -> threads s !! t = Some x -> exists x', threads s' !! t = Some x' /\ same_frames x x'.

Lemma kept_trans T s1 s2 s3 : kept T s1 s2 -> kept T s2 s3 -> kept T s1 s3.
Proof.
  intros A B t x Ht Hx. destruct (A t x Ht Hx) as (y & Hy & E1 & E2). destruct (B t y Ht Hy) as (z & Hz & E3 & E4). exists z. split; [done|]. split; congruence.
Qed.
Lemma kept_more T T' s s' : kept T s s' -> T ⊆ T' -> kept T' s s'.
Proof. intros A HT t x Ht Hx. apply A; [|done]. intros HH. by apply Ht, HT. Qed.
Lemma kept_same T s s' : threads s' = threads s -> kept T s s'.
Proof. intros E t x _ Hx. exists x. by rewrite E. Qed.
Lemma kept_upd_t T t f s : t ∈ T \/ (forall x, same_frames x (f x)) -> kept T s (upd_t t f s).
Proof.
  intros Hf u x Hu Hx. rewrite upd_t_lookup. case_decide; [subst u; rewrite Hx; exists (f x); split; [done|]; by destruct Hf|by exists x].
Qed.
Lemma kept_relist T l v t b s : kept T s (relist l v t b s).
Proof. intros u x Hu Hx. rewrite relist_thread. case_decide; [subst u; rewrite Hx; by exists (set_linked b x)|by exists x]. Qed.
Lemma kept_enqueue T c d t s : kept T s (enqueue c d t s).
Proof. intros u x Hu Hx. rewrite enqueue_thread. case_decide; [subst u; rewrite Hx; eexists; by split|by exists x]. Qed.
Lemma kept_wake1 T c w s : kept T s (wake1 c w s).
Proof.
  unfold wake1. destruct (lst s (WCHAN w)) as [|t r]; [by apply kept_same|]. destruct (threads (relist (WCHAN w) r t false s) !! t); [|apply kept_relist].
  eapply kept_trans; [apply kept_relist|apply kept_enqueue].
Qed.
Lemma kept_iter T (f : tsys -> tsys) n s : (forall s, kept T s (f s)) -> kept T s (Nat.iter n f s).
Proof. intros Hf. induction n as [|n IH]; [by apply kept_same|]. simpl. eapply kept_trans; [exact IH|apply Hf]. Qed.
Lemma kept_park T c cur ns w s : kept T s (park c cur ns w s).
Proof.
  unfold park, stow. destruct ns; [by apply kept_same|apply kept_enqueue| |]; (eapply kept_trans; [|apply kept_relist]; apply kept_upd_t; by right).
Qed.
Lemma kept_parkdone T c cur ns s : kept T s (parkdone c cur ns s).
Proof. unfold parkdone. eapply kept_trans; [apply (kept_upd_t _ cur (to_state ns)); by right|by apply kept_same]. Qed.

Lemma bury_zombs c s : lst (bury c s) (ZOMB c) = tail (lst s (ZOMB c)).
Proof.
  unfold bury. destruct (lst s (ZOMB c)) as [|z r] eqn:E; [by rewrite E|]. change (lst (relist (ZOMB c) r z false s) (ZOMB c) = r). rewrite relist_lst, decide_True; [done|done|]. apply (lst_valid s (ZOMB c) z). rewrite E. by left.
Qed.
Lemma kept_bury T c s : lst s (ZOMB c) ⊆ T -> kept T s (bury c s).
Proof.
  intros HT. unfold bury. destruct (lst s (ZOMB c)) as [|z r]; [by apply kept_same|]. eapply kept_trans; [apply (kept_relist T (ZOMB c) r z false)|].
  intros t x Ht Hx. exists x. split; [|done]. apply lookup_delete_Some. split; [|done]. intros ->. apply Ht, HT. by left.
Qed.
Lemma kept_purge T c s : lst s (ZOMB c) ⊆ T -> kept T s (purge c s).
Proof.
  unfold purge. intros HT. assert (G : forall n, kept T s (Nat.iter n (bury c) s) /\ lst (Nat.iter n (bury c) s) (ZOMB c) ⊆ T).
  { intros n. induction n as [|n [IH1 IH2]]; [by split; [apply kept_same|]|]. change (Nat.iter (S n) (bury c) s) with (bury c (Nat.iter n (bury c) s)). split; [eapply kept_trans; [exact IH1|by apply kept_bury]|].
    rewrite bury_zombs. intros t Ht. apply IH2. destruct (lst (Nat.iter n (bury c) s) (ZOMB c)); [done|by right]. }
  apply G.
Qed.

Lemma kept_picked T c cur spl s : cur ∈ T -> lst s (RUNQ c) ⊆ T -> lst s (ZOMB c) ⊆ T -> kept T s (picked c cur spl s).2.
Proof.
  intros H1 H2 H3. unfold picked. destruct (lst s (RUNQ c)) as [|next r]; simpl.
  - unfold rest. eapply kept_trans; [apply (kept_upd_t _ cur (idle_ctx spl)); by left|by apply kept_same].
  - assert (Hn : next ∈ T) by (apply H2; by left). set (s1 := upd_t next running (dispatch c cur spl next r s)).
    assert (K : kept T s s1).
    { unfold s1, dispatch. eapply kept_trans; [|apply kept_upd_t; by left]. eapply kept_trans; [|apply kept_upd_t; by left]. eapply kept_trans; [|by apply kept_same]. apply (kept_relist T (RUNQ c) r next false). }
    eapply kept_trans; [exact K|]. apply kept_purge. intros t Ht. apply H3. revert Ht. unfold s1, dispatch, relist. simpl. rewrite !lookup_alter_eq. by destruct (cpus s !! c).
Qed.

Lemma park_lists c cur ns w s l : (l = RUNQ c \/ l = ZOMB c) -> is_Some (cpus s !! c) -> lst (parkdone c cur ns (park c cur ns w s)) l ⊆ cur :: lst s l.
Proof.
  intros Hl Hc. unfold parkdone. rewrite upd_c_lst by done.
  assert (E : lst (upd_t cur (to_state ns) (park c cur ns w s)) l = lst (park c cur ns w s) l) by (by destruct l). rewrite E.
  assert (Hself : lst s l ⊆ cur :: lst s l) by (intros t Ht; by right).
  unfold park, stow. destruct ns; [done| | |].
  - rewrite enqueue_lst by done. case_decide; [|done]. subst l. intros t [Ht|Ht%list_elem_of_singleton]%elem_of_app; [by right|subst; by left].
  - unfold relist. destruct Hl as [-> | ->]; exact Hself.
  - rewrite relist_lst by done. case_decide; [|by destruct Hl as [-> | ->]]. subst l. intros t [Ht|Ht%list_elem_of_singleton]%elem_of_app; [by right|subst; by left].
Qed.

Lemma kept_switched c cur spl ns wc s : is_Some (cpus s !! c) -> kept (cur :: lst s (RUNQ c) ++ lst s (ZOMB c)) s (switched_core c cur spl ns wc s).2.
Proof.
  intros Hc. unfold switched_core. set (T := cur :: lst s (RUNQ c) ++ lst s (ZOMB c)). eapply kept_trans; [apply (kept_park T c cur ns (chan_of wc))|]. eapply kept_trans; [apply (kept_parkdone T c cur ns)|].
  apply kept_picked; [by left|..].
  - etrans; [apply park_lists; [by left|done]|]. intros t [->|Ht]%elem_of_cons; [by left|]. right. apply elem_of_app. by left.
  - etrans; [apply park_lists; [by right|done]|]. intros t [->|Ht]%elem_of_cons; [by left|]. right. apply elem_of_app. by right.
Qed.

End SchedFrame.

(** * Creating threads and channels *)


Module SchedFork.
Import Cpu(splid, IPL_NONE, IPL_HIGH).
Import Sched SchedInv SchedMoves SchedCore SchedOps SchedWake SchedSwitch SchedPark SchedFrame.

(** ** Memory *)

Definition set_mem (a : Z) (o : list bool) (s : tsys) : tsys := mk_ts (cpus s) (ncpus s) (threads s) (wchans s) (locks s) a o.
(** The next allocation fails. *)
Definition fails (s : tsys) : bool := default false (head (oom s)).
Definition alloc (s : tsys) : tsys := set_mem (if fails s then next_addr s else next_addr s + 1) (tail (oom s)) s.

Lemma tmalloc_run s : kmalloc s = Ret (if fails s then 0 else next_addr s) (alloc s).
Proof. done. Qed.

Lemma inv_mem H s a o : inv H s -> next_addr s <= a -> inv H (set_mem a o s).
Proof.
  intros [A [L1 L2 L3 L4] C D E W F] Ha. split; try done.
  - intros c x Hx. by destruct (C c x Hx).
  - intros t Ht. destruct (E t Ht). simpl. lia.
  - intros w Hw. destruct (W w Hw). simpl. lia.
  - simpl. lia.
Qed.
Lemma alloc_inv H s : inv H s -> inv H (alloc s).
Proof. intros I. apply inv_mem; [done|]. destruct (fails s); lia. Qed.
Lemma alloc_next s : next_addr s <= next_addr (alloc s).
Proof. simpl. destruct (fails s); lia. Qed.

(** The memory steps change nothing else. *)
Lemma frame_mem c a o s : frame c s (set_mem a o s).
Proof. by apply frame_same. Qed.

(** ** A new thread *)

Definition put_t (t : Z) (x : thread) (s : tsys) : tsys := set_threads (<[t := x]> (threads s)) s.

Lemma inv_fresh H s t x : inv H s -> threads s !! t = None -> 0 < t < next_addr s -> t_linked x = false -> inv ({[t]} ∪ H) (put_t t x s).
Proof.
  intros [Hd [L1 L2 L3 L4] Hc Hr Ha Hw Hn] Ht Hb Hk. split; try done.
  - split; try done.
    + intros l u Hu. destruct (L3 l u Hu) as (y & Hy & Hy'). exists y. split; [|done]. simpl. rewrite lookup_insert_ne; [done|]. intros ->. congruence.
    + intros u y. simpl. destruct (decide (u = t)) as [->|]; [rewrite lookup_insert_eq; intros [= <-]; congruence|rewrite lookup_insert_ne by done; apply L4].
  - intros c y Hy. eapply cpu_ok_thread; [by apply Hc|done|]. intros u Hu E. exists u. split; [|done]. simpl. rewrite lookup_insert_ne; [done|]. intros ->. congruence.
  - intros u y. simpl. destruct (decide (u = t)) as [->|]; [set_solver|]. rewrite lookup_insert_ne by done. intros Hy Hu. apply Hr; [done|set_solver].
  - intros u. simpl. destruct (decide (u = t)) as [->|]; [done|]. rewrite lookup_insert_ne by done. apply Ha.
Qed.
Lemma fresh_current s H t c i : inv H s -> threads s !! t = None -> ~ current s t c i.
Proof. intros I Ht (x & Hx & <- & _). destruct (in_cpus _ _ I _ _ Hx) as [(u & Hu & _) _]. congruence. Qed.
Lemma mod_put t f x s : mod_t t f (put_t t x s) = Ret tt (put_t t (f x) s).
Proof.
  rewrite (mod_t_run _ _ _ x) by (simpl; apply lookup_insert_eq). unfold upd_t, put_t, set_threads. simpl. do 2 f_equal. apply map_eq. intros u.
  destruct (decide (u = t)) as [->|]; [by rewrite lookup_alter_eq, !lookup_insert_eq|by rewrite lookup_alter_ne, !lookup_insert_ne].
Qed.
Lemma get_put t x s : get_t t (put_t t x s) = Ret x (put_t t x s).
Proof. apply get_t_run. simpl. apply lookup_insert_eq. Qed.
Lemma put_mem t x a o s : set_mem a o (put_t t x s) = put_t t x (set_mem a o s).
Proof. done. Qed.

Lemma inv_fresh_addr H s : inv H s -> threads s !! next_addr s = None.
Proof. intros I. destruct (threads s !! next_addr s) eqn:E; [|done]. destruct (in_addr _ _ I (next_addr s)); [eauto|lia]. Qed.

(** [thread_create]: the new thread, or 0. *)
Lemma create_run s : 0 < next_addr s ->
  thread_create s = if fails s then Ret 0 (alloc s) else if fails (alloc s) then Ret 0 (alloc (alloc s)) else Ret (next_addr s) (put_t (next_addr s) NEWTHREAD (alloc (alloc s))).
Proof.
  intros Hn. unfold thread_create. rewrite (run_bind _ _ _ _ _ (tmalloc_run s)). destruct (fails s) eqn:E1; [done|]. rewrite (proj2 (Z.eqb_neq _ 0)) by lia.
  rewrite (run_bind _ _ _ _ _ (tmalloc_run (alloc s))). destruct (fails (alloc s)) eqn:E2; [done|]. assert (Ha : next_addr (alloc s) <> 0) by (simpl; rewrite E1; lia). by rewrite (proj2 (Z.eqb_neq _ 0) Ha).
Qed.

Definition STARTED (c p : Z) : thread := mk_thread (Some "NEW"%string) S_READY false (Some (replicate 4 THREAD_STACK_MAGIC)) STARTUP c p false IPL_HIGH 2 [].

(** The state in which the new thread is made runnable. *)
Definition forked (c p : Z) (s : tsys) : tsys := put_t (next_addr s) (STARTED c p) (alloc (alloc (alloc s))).

Definition fork_fails (s : tsys) : bool := fails s || fails (alloc s) || fails (alloc (alloc s)).

Lemma fork_begin s c cur y i p : inv ∅ s -> at_cpu s c cur i y -> fork_fails s = false ->
  thread_fork c p s = (_ ← thread_make_runnable c (next_addr s) false; mret 0) (forked c (if p =? 0 then t_proc y else p) s).
Proof.
  intros I [(x & Hx & Ec & Ei) Hy] F. apply orb_false_iff in F as [[F1 F2]%orb_false_iff F3]. pose proof (in_next _ _ I) as Hn. unfold thread_fork.
  pose proof (create_run s Hn) as E. rewrite F1, F2 in E. rewrite (run_bind _ _ _ _ _ E). rewrite (proj2 (Z.eqb_neq _ 0)) by lia. set (a := next_addr s) in *. set (s2 := alloc (alloc s)) in *.
  assert (E3 : alloc_stack a (put_t a NEWTHREAD s2) = Ret true (put_t a (set_stack (Some (replicate 4 0)) NEWTHREAD) (alloc s2))).
  { unfold alloc_stack. rewrite (run_bind _ _ _ _ _ (tmalloc_run _)). change (fails (put_t a NEWTHREAD s2)) with (fails s2). rewrite F3. assert (Ha : next_addr (put_t a NEWTHREAD s2) <> 0) by (simpl; rewrite F1, F2; lia).
    rewrite (proj2 (Z.eqb_neq _ 0) Ha). unfold alloc. rewrite put_mem. by rewrite (run_bind _ _ _ _ _ (mod_put _ _ _ _)). }
  rewrite (run_bind _ _ _ _ _ E3). set (s3 := alloc s2) in *. change (negb true) with false. cbv iota.
  assert (E4 : thread_checkstack_init a (put_t a (set_stack (Some (replicate 4 0)) NEWTHREAD) s3) = Ret tt (put_t a (set_stack (Some (replicate 4 THREAD_STACK_MAGIC)) NEWTHREAD) s3)).
  { unfold thread_checkstack_init. rewrite (run_bind _ _ _ _ _ (get_put _ _ _)). rewrite (run_bind _ _ _ (replicate 4 0) _) by done. by rewrite mod_put. }
  rewrite (run_bind _ _ _ _ _ E4). rewrite (run_bind _ _ _ x _) by (by apply get_cpu_run). rewrite Ec.
  assert (Hne : cur <> a) by (intros ->; unfold a in Hy; rewrite (inv_fresh_addr _ _ I) in Hy; done).
  rewrite (run_bind _ _ _ y _) by (apply get_t_run; simpl; by rewrite lookup_insert_ne). rewrite (run_bind _ _ _ _ _ (mod_put _ _ _ _)).
  assert (Hcp : t_cpu y = c) by (eapply current_cpu; [done| |done]; by exists x). rewrite Hcp. set (q := if p =? 0 then t_proc y else p).
  rewrite (run_bind _ _ _ tt (put_t a (set_proc q (set_tcpu c (set_stack (Some (replicate 4 THREAD_STACK_MAGIC)) NEWTHREAD))) s3)).
  2:{ unfold proc_addthread. rewrite (run_bind _ _ _ _ _ (get_put _ _ _)). rewrite (run_bind _ _ _ tt _) by done. apply mod_put. }
  rewrite (run_bind _ _ _ _ _ (mod_put _ _ _ _)). rewrite (run_bind _ _ _ _ _ (mod_put _ _ _ _)). done.
Qed.

Lemma alloc3_next s : next_addr s <= next_addr (alloc (alloc (alloc s))).
Proof. pose proof (alloc_next s). pose proof (alloc_next (alloc s)). pose proof (alloc_next (alloc (alloc s))). lia. Qed.

(** A fork that has memory: the new thread is at the end of the run queue of this CPU. *)
Lemma fork_run s c cur y i p : inv ∅ s -> at_cpu s c cur i y -> unlocked (locks s) -> fork_fails s = false ->
  exists s', thread_fork c p s = Ret 0 s' /\ quiet ∅ c s s' /\ core s' = enqueue c c (next_addr s) (core (forked c (if p =? 0 then t_proc y else p) s)).
Proof.
  intros I A U F. rewrite (fork_begin s c cur y i p I A F). set (q := if p =? 0 then t_proc y else p). pose proof F as FF. apply orb_false_iff in FF as [[F1 F2]%orb_false_iff F3]. pose proof (in_next _ _ I) as Hn.
  assert (I1 : inv {[next_addr s]} (forked c q s)).
  { eapply inv_weaken; [apply (inv_fresh ∅)|set_solver]; [by do 3 apply alloc_inv|exact (inv_fresh_addr ∅ s I)| |done]. pose proof (alloc_next (alloc s)). pose proof (alloc_next (alloc (alloc s))). assert (next_addr (alloc s) = next_addr s + 1) by (simpl; by rewrite F1). lia. }
  assert (Hv : 0 <= c < ncpus s) by (apply (in_dom _ _ I); destruct A as [(x & ? & _) _]; eauto).
  assert (Hno : forall d j, ~ current (forked c q s) (next_addr s) d j) by (intros d j Hd; by apply (fresh_current s ∅ (next_addr s) d j I (inv_fresh_addr _ _ I))).
  destruct (wake_run (forked c q s) c (next_addr s) (STARTED c q)) as (s' & E & Q & C); try done; [simpl; apply lookup_insert_eq| |].
  - split; [intros d Hd; by destruct (Hno d true)|]. split; [intros d Hd; by destruct (Hno d false)|]. split; [intros _; done|]. split; [|done]. split_and!; [by right|done|done].
  - exists s'. split; [by rewrite (run_bind _ _ _ _ _ E)|]. split; [|done].
    destruct Q as [QI QL QC QS QN QK]. split; try done.
    + intros t Ht. rewrite QS; [|simpl; destruct (decide (t = next_addr s)) as [->|]; [rewrite lookup_insert_eq; eauto|by rewrite lookup_insert_ne]].
      unfold spl_of. simpl. rewrite lookup_insert_ne; [done|]. intros <-. rewrite (inv_fresh_addr _ _ I) in Ht. by destruct Ht.
    + intros t Ht Hne. rewrite QN; [|simpl; destruct (decide (t = next_addr s)) as [->|]; [rewrite lookup_insert_eq; eauto|by rewrite lookup_insert_ne]|done].
      unfold cnt_of. simpl. rewrite lookup_insert_ne; [done|]. intros <-. rewrite (inv_fresh_addr _ _ I) in Ht. by destruct Ht.
Qed.

(** A fork that has no memory gives everything back. *)
Lemma fork_fail s c cur y i p : inv ∅ s -> at_cpu s c cur i y -> fork_fails s = true ->
  exists a o, thread_fork c p s = Ret ENOMEM (set_mem a o s) /\ next_addr s <= a.
Proof.
  intros I [(x & Hx & Ec & Ei) Hy] F. pose proof (in_next _ _ I) as Hn. pose proof (create_run s Hn) as E. unfold thread_fork.
  destruct (fails s) eqn:F1; [rewrite (run_bind _ _ _ _ _ E); eexists _, _; split; [done|]; rewrite F1; lia|]. pose proof (alloc_next s) as N1. pose proof (alloc_next (alloc s)) as N2.
  destruct (fails (alloc s)) eqn:F2; [rewrite (run_bind _ _ _ _ _ E); exists (next_addr (alloc (alloc s))), (oom (alloc (alloc s))); split; [done|lia]|].
  assert (F3 : fails (alloc (alloc s)) = true) by (unfold fork_fails in F; by rewrite F1, F2 in F). rewrite (run_bind _ _ _ _ _ E). rewrite (proj2 (Z.eqb_neq _ 0)) by lia.
  set (a := next_addr s) in *. set (s2 := alloc (alloc s)) in *. pose proof (alloc_next s2) as N3.
  assert (E3 : alloc_stack a (put_t a NEWTHREAD s2) = Ret false (put_t a NEWTHREAD (alloc s2))).
  { unfold alloc_stack. rewrite (run_bind _ _ _ _ _ (tmalloc_run _)). change (fails (put_t a NEWTHREAD s2)) with (fails s2). rewrite F3. done. }
  rewrite (run_bind _ _ _ _ _ E3). change (negb false) with true. cbv iota.
  assert (Hne : a <> c_curthread x). { rewrite Ec. intros <-. unfold a in Hy. by rewrite (inv_fresh_addr _ _ I) in Hy. }
  rewrite (run_bind _ _ _ tt (del a (put_t a NEWTHREAD (alloc s2)))); [|apply (tdestroy_run _ c a x NEWTHREAD); [done|simpl; apply lookup_insert_eq|done..]].
  exists (next_addr (alloc s2)), (oom (alloc s2)). split; [|unfold a; lia]. unfold mret, M_ret. f_equal. unfold del, put_t, set_threads, set_mem. simpl. f_equal. apply delete_insert_id. exact (inv_fresh_addr ∅ s I).
Qed.

(** ** Wait channels come and go *)

Lemma chan_lists s v : (forall w x, v !! w = Some x -> wchans s !! w = Some x \/ wc_threads x = []) -> (forall w x, wchans s !! w = Some x -> v !! w = Some x \/ wc_threads x = []) ->
  forall l, lst (set_wchans v s) l = lst s l.
Proof.
  intros H1 H2 [c|c|c|w]; [done..|]. simpl. destruct (v !! w) as [x|] eqn:E.
  - destruct (H1 w x E) as [E'|E']; [by rewrite E'|]. destruct (wchans s !! w) as [x'|] eqn:E2; simpl; [|by rewrite E']. destruct (H2 w x' E2) as [E3|E3]; [congruence|congruence].
  - destruct (wchans s !! w) as [x'|] eqn:E2; [|done]. destruct (H2 w x' E2) as [E3|E3]; [congruence|by simpl].
Qed.

Lemma inv_chans H s v : inv H s -> (forall l, lst (set_wchans v s) l = lst s l) -> (forall w, is_Some (v !! w) -> 0 < w < next_addr s) -> inv H (set_wchans v s).
Proof.
  intros [A [L1 L2 L3 L4] C D E W F] Hl Hw. split; try done.
  - split; intros *; rewrite ?Hl; [apply L1|apply L2|apply L3|]. intros Hx Hk. destruct (L4 _ _ Hx Hk) as [l Hl']. exists l. by rewrite Hl.
  - intros c x Hx. by destruct (C c x Hx).
  - intros t x Hx Ht. destruct (D t x Hx Ht) as (R1 & R). split; [|done]. intros Hk. destruct (R1 Hk) as (l & Hl' & Hp). exists l. by rewrite Hl.
Qed.

Lemma chan_create_run s n : inv ∅ s ->
  (fails s = true /\ wchan_create n s = Ret 0 (alloc s)) \/
  (fails s = false /\ wchan_create n s = Ret (next_addr s) (set_wchans (<[next_addr s := mk_wchan n []]> (wchans s)) (alloc s))).
Proof.
  intros I. unfold wchan_create. rewrite (run_bind _ _ _ _ _ (tmalloc_run s)). destruct (fails s); [by left|right]. pose proof (in_next _ _ I). by rewrite (proj2 (Z.eqb_neq _ 0)) by lia.
Qed.
Lemma chan_create_inv s n : inv ∅ s -> fails s = false -> inv ∅ (set_wchans (<[next_addr s := mk_wchan n []]> (wchans s)) (alloc s)).
Proof.
  intros I F. pose proof (in_next _ _ I) as Hn. assert (Hw : wchans s !! next_addr s = None). { destruct (wchans s !! next_addr s) eqn:E; [|done]. destruct (in_chan _ _ I (next_addr s)); [eauto|lia]. }
  apply inv_chans; [by apply alloc_inv|..].
  - apply chan_lists; intros w x; simpl; (destruct (decide (w = next_addr s)) as [->|]; [rewrite lookup_insert_eq|rewrite lookup_insert_ne by done]); auto; [intros [= <-]; by right|congruence].
  - intros w. simpl. rewrite F. destruct (decide (w = next_addr s)) as [->|]; [lia|rewrite lookup_insert_ne by done]. intros Hx. destruct (in_chan _ _ I w Hx). lia.
Qed.
Lemma chan_destroy_run s w x : inv ∅ s -> wchans s !! w = Some x -> wc_threads x = [] ->
  wchan_destroy w s = Ret tt (set_wchans (delete w (wchans s)) s) /\ inv ∅ (set_wchans (delete w (wchans s)) s).
Proof.
  intros I Hx Hl. split.
  - unfold wchan_destroy. rewrite (run_bind _ _ s s s) by done. rewrite (run_bind _ _ s x s) by (by rewrite Hx). rewrite Hl. done.
  - apply inv_chans; [done| |].
    + apply chan_lists; intros u y; [intros (_ & E)%lookup_delete_Some; by left|]. intros E. destruct (decide (u = w)) as [->|]; [right; congruence|left; by rewrite lookup_delete_ne].
    + intros u [y (_ & E)%lookup_delete_Some]. apply (in_chan _ _ I). eauto.
Qed.

End SchedFork.
