(* ===== verification/SchedTrap.v ===== *)
(** * Interrupts: entering, leaving, and what other CPUs asked for *)

From S2P Require Import Prelude Cpu Sched SchedInv SchedMoves SchedWake SchedSwitch SchedPark SchedFrame.

Module SchedTrap.
Import Cpu(splid, IPL_NONE, IPL_HIGH, spinlock_acquire, spinlock_release, cpu_wf, held).
Import Sched SchedInv SchedMoves SchedCore SchedOps SchedWake SchedSwitch SchedPark SchedFrame.

(** ** Frames and the core *)

Lemma ccore_grown d x x' : grown d (ccore x) (ccore x') -> grown d x x'.
Proof. done. Qed.
Lemma frame_of_core c s s' : frame c (core s) (core s') -> frame c s s'.
Proof.
  intros [A B C D]. split; [done|..].
  - intros d x Hd Hx. destruct (B d (ccore x) Hd) as (y & Hy & G); [by rewrite core_cpu, Hx|]. apply core_cpu_inv in Hy as (x' & Hx' & ->). exists x'. split; [done|]. by apply ccore_grown.
  - rewrite !core_cpu in C. by destruct (cpus s' !! c), (cpus s !! c).
  - intros d Hd. specialize (D d). rewrite !core_cpu, Hd in D. specialize (D eq_refl). by destruct (cpus s' !! d).
Qed.
Lemma kept_of_core T s s' : kept T (core s) (core s') -> kept T s s'.
Proof.
  intros K t x Ht Hx. destruct (K t (tcore x) Ht) as (y & Hy & E1 & E2); [by rewrite core_thread, Hx|]. apply core_thread_inv in Hy as (x' & Hx' & ->). by exists x'.
Qed.

(** ** The current thread of a CPU and the CPU change together *)

Lemma inv_at H s c cur x y f g : inv H s -> cpus s !! c = Some x -> c_curthread x = cur -> threads s !! cur = Some y -> cur ∈ H ->
  c_runqueue (f x) = c_runqueue x -> c_zombies (f x) = c_zombies x -> c_victims (f x) = c_victims x -> c_curthread (f x) = cur -> c_isidle (f x) = c_isidle x -> c_shootdown (f x) = [] ->
  t_linked (g y) = t_linked y -> t_cpu (g y) = t_cpu y -> cpu_wf (the_view c (f x) (g y) s) -> inv H (upd_t cur g (upd_c c f s)).
Proof.
  intros I Hx Ec Hy Hh F1 F2 F3 F4 F5 F6 G1 G2 W. pose proof I as [Hd [L1 L2 L3 L4] Hc Hr Ha Hw Hn]. set (s' := upd_t cur g (upd_c c f s)).
  assert (Hcy : t_cpu y = c) by (destruct (Hc _ _ Hx) as [(z & Hz & E & _) _]; congruence).
  assert (Hcp : forall d, cpus s' !! d = if decide (d = c) then f <$> cpus s !! c else cpus s !! d) by (intros d; apply upd_c_lookup).
  assert (Ht : forall u, threads s' !! u = if decide (u = cur) then Some (g y) else threads s !! u) by (intros u; unfold s'; rewrite upd_t_lookup; case_decide; [simpl; by rewrite Hy|done]).
  assert (Hl : forall l, lst s' l = lst s l).
  { intros [d|d|d|w]; unfold lst; rewrite ?Hcp; [case_decide; subst; rewrite ?Hx; simpl; congruence..|done]. }
  assert (Hcur : forall t d i, current s' t d i <-> current s t d i).
  { intros t d i. unfold current. rewrite Hcp. case_decide; [|done]. subst d. rewrite Hx. simpl. split; intros (z & [= <-] & E1 & E2); eexists; (split; [done|]); split; congruence. }
  split.
  - intros d. rewrite Hcp. case_decide; [subst; rewrite fmap_is_Some|]; apply Hd.
  - split; intros *; rewrite ?Hl; [apply L1|apply L2| |].
    + intros Hu. destruct (L3 _ _ Hu) as (z & Hz & Hk). rewrite Ht. case_decide; [|eauto]. subst. eexists. split; [done|]. congruence.
    + rewrite Ht. setoid_rewrite Hl. case_decide; [intros [= <-]; subst; intros Hk; apply (L4 _ y); congruence|apply L4].
  - intros d z. rewrite Hcp. case_decide as Ed.
    + subst d. rewrite Hx. intros [= <-]. split; [|done]. exists (g y). rewrite Ht, F4, decide_True by done. split; [done|]. split; [congruence|]. exact W.
    + intros Hz. destruct (Hc _ _ Hz) as [(u & Hu & E & Wu) Sh]. split; [|done]. exists u. rewrite Ht, decide_False; [done|]. intros E'. rewrite E', Hy in Hu. congruence.
  - intros u z. rewrite Ht. case_decide; [by subst; intros|]. intros Hz Hu. unfold role. setoid_rewrite Hcur. setoid_rewrite Hl. by apply Hr.
  - intros u. rewrite Ht. case_decide; [subst; intros _; apply Ha; eauto|apply Ha].
  - done.
  - done.
Qed.

(** ** Entering *)

Definition in_cpu_idle (y : thread) : Prop := exists spl, t_context y = IDLING spl (length (t_traps y)).

Definition enter_cpu (x : cpu) : cpu := set_idle (c_isidle x) false (set_splk false (c_spinlocks x) x).
Definition enter_t (y : thread) : thread :=
  if t_curspl y =? 0 then set_traps true ((t_in_interrupt y, true) :: t_traps y) (set_ipl IPL_HIGH (t_iplhigh_count y + 1) y)
  else set_traps true ((t_in_interrupt y, false) :: t_traps y) y.

Lemma wf_at s c x y cur H : inv H s -> cpus s !! c = Some x -> c_curthread x = cur -> threads s !! cur = Some y -> cpu_wf (the_view c x y s).
Proof. intros I Hx <- Hy. destruct (in_cpus _ _ I _ _ Hx) as [(z & Hz & _ & W) _]. by simplify_eq. Qed.

Lemma upd_upd_t t f g s : upd_t t f (upd_t t g s) = upd_t t (f ∘ g) s.
Proof. unfold upd_t, set_threads. simpl. f_equal. apply map_eq. intros u. destruct (decide (u = t)) as [->|]; [rewrite !lookup_alter_eq; by destruct (threads s !! t)|by rewrite !lookup_alter_ne]. Qed.
Lemma upd_t_c_comm t f c g s : upd_c c g (upd_t t f s) = upd_t t f (upd_c c g s).
Proof. done. Qed.
Lemma upd_t_ext t f g s y : threads s !! t = Some y -> f y = g y -> upd_t t f s = upd_t t g s.
Proof.
  intros Hy E. unfold upd_t, set_threads. f_equal. apply map_eq. intros u. destruct (decide (u = t)) as [->|]; [by rewrite !lookup_alter_eq, Hy; simpl; rewrite E|by rewrite !lookup_alter_ne].
Qed.

Lemma enter_run s c cur x y : inv ∅ s -> cpus s !! c = Some x -> c_curthread x = cur -> threads s !! cur = Some y -> (irqs_on x = true \/ (c_isidle x = true /\ in_cpu_idle y)) ->
  trap_enter c s = Ret tt (upd_t cur enter_t (upd_c c enter_cpu s)) /\ inv ∅ (upd_t cur enter_t (upd_c c enter_cpu s)).
Proof.
  intros I Hx Ec Hy Hen. pose proof (wf_at _ _ _ _ _ _ I Hx Ec Hy) as (_ & W2 & W3 & W4 & W5). simpl in W2, W3, W4, W5.
  assert (A : at_cpu s c cur (c_isidle x) y) by (split; [by exists x|done]).
  pose proof (in_roles _ _ I _ _ Hy ltac:(set_solver)) as (R1 & R2 & R3 & R4 & R5 & (C1 & C2 & C3) & R7).
  assert (Hsp : t_curspl y = 0 -> t_iplhigh_count y = 0 /\ c_isidle x = false /\ t_traps y = []).
  { intros E0. assert (Hi : c_isidle x = false). { destruct (c_isidle x) eqn:Ei; [|done]. destruct (R3 c) as (_ & Hh & _); [by exists x|]. rewrite Hh in E0. done. }
    destruct Hen as [Hen|[Hen _]]; [|congruence]. rewrite Hen in W5. symmetry in W5. apply Z.eqb_eq in W5. split; [done|]. split; [done|].
    destruct (R4 c) as (_ & _ & [[_ Hs]|Hs]); [by exists x|done|]. rewrite Hs in E0. done. }
  assert (Hnz : t_curspl y <> 0 -> c_isidle x = true /\ in_cpu_idle y /\ t_curspl y = IPL_HIGH).
  { intros E0. destruct W2 as [W2|W2]; [done|]. destruct Hen as [Hen|[Hen1 Hen2]]; [|done]. rewrite Hen in W5. symmetry in W5. apply Z.eqb_eq in W5. rewrite W2 in W4. unfold IPL_HIGH in W4. lia. }
  set (s' := upd_t cur enter_t (upd_c c enter_cpu s)).
  assert (I1 : inv {[cur]} s').
  { eapply (inv_at _ s c cur x y); try done.
    1: eapply inv_weaken; [done|set_solver].
    1: set_solver.
    1: by apply (shoot_empty _ _ _ _ I Hx).
    1,2: unfold enter_t; by destruct (t_curspl y =? 0).
    unfold enter_t. destruct (Z.eqb_spec (t_curspl y) 0) as [E0|E0].
    - destruct (Hsp E0) as (E1 & _). unfold cpu_wf, the_view, held. simpl. split_and!; [done|by right|done| |].
      + rewrite W4, E0. unfold IPL_HIGH. lia.
      + rewrite E1. done.
    - destruct (Hnz E0) as (_ & _ & E1). unfold cpu_wf, the_view, held. simpl. split_and!; try done. symmetry. apply Z.eqb_neq. rewrite E1 in W4. unfold IPL_HIGH in W4. lia. }
  assert (Hx' : cpus s' !! c = Some (enter_cpu x)) by (unfold s'; change (cpus (upd_c c enter_cpu s) !! c = Some (enter_cpu x)); by rewrite upd_c_lookup, decide_True, Hx).
  assert (Hy' : threads s' !! cur = Some (enter_t y)) by (unfold s'; rewrite upd_t_lookup, decide_True by done; simpl; by rewrite Hy).
  assert (A' : at_cpu s' c cur (c_isidle x) (enter_t y)) by (split; [by exists (enter_cpu x)|done]).
  assert (Hcalm : calm (enter_t y)).
  { unfold enter_t, calm. destruct (Z.eqb_spec (t_curspl y) 0) as [E0|E0]; simpl; split_and!; try done. by intros _; destruct (Hsp E0) as (_ & _ & ->). }
  split.
  - unfold trap_enter. rewrite (run_bind _ _ _ tt (upd_c c enter_cpu s)) by (by eapply mod_cpu_run). rewrite (run_bind _ _ _ (enter_cpu x) (upd_c c enter_cpu s)) by (apply get_cpu_run; by rewrite upd_c_lookup, decide_True, Hx).
    simpl c_curthread. rewrite Ec. rewrite (run_bind _ _ _ y (upd_c c enter_cpu s)) by (by apply get_t_run). unfold s'.
    destruct (Z.eqb_spec (t_curspl y) 0) as [E0|E0].
    + destruct (Hsp E0) as (-> & _). rewrite (run_bind _ _ _ tt (upd_c c enter_cpu s)) by done. rewrite (mod_t_run _ _ _ y) by done. f_equal. eapply upd_t_ext; [done|]. unfold enter_t. by rewrite E0.
    + rewrite (mod_t_run _ _ _ y) by done. f_equal. eapply upd_t_ext; [done|]. unfold enter_t. by rewrite (proj2 (Z.eqb_neq _ _) E0).
  - eapply (inv_settle {[cur]} ∅ s' cur (enter_t y)); [done|set_solver|done|]. destruct (Z.eqb_spec (t_curspl y) 0) as [E0|E0].
    + destruct (Hsp E0) as (_ & Ei & _). destruct (R4 c) as (K1 & K2 & _); [exists x; by rewrite Ei|]. rewrite Ei in A'.
      assert (Ee : enter_t y = set_traps true ((t_in_interrupt y, true) :: t_traps y) (set_ipl IPL_HIGH (t_iplhigh_count y + 1) y)) by (unfold enter_t; by rewrite E0).
      eapply (running_role {[cur]} s' c); try done; rewrite Ee; try done. by right.
    + destruct (Hnz E0) as (Ei & (spl & Hcx) & Hh). rewrite Ei in A'. destruct (R3 c) as (K1 & _ & spl' & d & top & base & K2 & K3 & K4 & K5 & K6); [exists x; by rewrite Ei|].
      assert (Ee : enter_t y = set_traps true ((t_in_interrupt y, false) :: t_traps y) y) by (unfold enter_t; by rewrite (proj2 (Z.eqb_neq _ _) E0)).
      destruct (R1 K1) as (l & Hl & Hp). eapply (place_current s' cur (enter_t y) c l); try done.
      * by rewrite Ee.
      * unfold s'. change (cur ∈ lst (upd_c c enter_cpu s) l). by rewrite upd_c_lst.
      * rewrite Ee. by destruct l.
      * rewrite Ee. split; [done|]. rewrite Hcx in K2. injection K2 as <- <-. assert (top = []) as ->. { apply (f_equal length) in K3. rewrite length_app in K3. destruct top; [done|simpl in K3; lia]. }
        exists spl, (length (t_traps y)), [(t_in_interrupt y, false)], base. split_and!; [done|simpl; by rewrite K3|done|right; by eexists|done].
      * rewrite Ee. done.
      * apply A'.
      * intros e j He. destruct (only_cpu _ _ _ _ _ _ _ _ I1 A' He). done.
Qed.

(** ** Leaving *)

Definition leave_t (oi adj : bool) (l : list (bool * bool)) (y : thread) : thread := set_traps oi l (if adj then set_ipl 0 (t_iplhigh_count y - 1) y else y).
Definition leave_cpu (adj : bool) (x : cpu) : cpu := if adj then set_splk true (c_spinlocks x) x else x.

Lemma upd_c_id c f s : (forall x, f x = x) -> upd_c c f s = s.
Proof.
  intros Hf. destruct s as [sc n st sw sl sa so]. unfold upd_c, set_cpus. simpl. f_equal. apply map_eq. intros d. destruct (decide (d = c)) as [->|]; [rewrite lookup_alter_eq; destruct (sc !! c); simpl; [by rewrite Hf|done]|by rewrite lookup_alter_ne].
Qed.

Lemma leave_run s c cur x y oi adj l : inv ∅ s -> cpus s !! c = Some x -> c_curthread x = cur -> threads s !! cur = Some y -> t_traps y = (oi, adj) :: l -> c_spinlocks x = 0 ->
  (c_isidle x = true -> ~ in_cpu_idle y) ->
  trap_exit c s = Ret tt (upd_t cur (leave_t oi adj l) (upd_c c (leave_cpu adj) s)) /\ inv ∅ (upd_t cur (leave_t oi adj l) (upd_c c (leave_cpu adj) s)).
Proof.
  intros I Hx Ec Hy Htr Hn Hid. pose proof (wf_at _ _ _ _ _ _ I Hx Ec Hy) as (_ & W2 & W3 & W4 & W5). simpl in W2, W3, W4, W5.
  assert (A : at_cpu s c cur (c_isidle x) y) by (split; [by exists x|done]).
  pose proof (in_roles _ _ I _ _ Hy ltac:(set_solver)) as (R1 & R2 & R3 & R4 & R5 & (C1 & C2 & C3) & R7). rewrite Htr in C2. destruct C2 as (C2 & C4 & C5). simpl in C2, C4.
  assert (Hh : t_curspl y = IPL_HIGH).
  { destruct (c_isidle x) eqn:Ei; [by apply (R3 c); exists x|]. destruct (R4 c) as (_ & _ & [[_ Hs]|Hs]); [by exists x|congruence|done]. }
  assert (Hc1 : t_iplhigh_count y = 1) by (rewrite W4, Hh, Hn; done).
  assert (Had : adj = true -> c_isidle x = false /\ l = []).
  { intros E. split; [|by apply C4]. destruct (c_isidle x) eqn:Ei; [|done]. destruct (R3 c) as (_ & _ & spl & d & top & base & K2 & K3 & K4 & K5 & _); [by exists x|].
    destruct K5 as [->|(f & -> & Hf)]; [|rewrite Htr in K3; simpl in K3; injection K3; intros; subst; done]. destruct (Hid eq_refl). exists spl. rewrite K2, K3. simpl. by rewrite K4. }
  set (s' := upd_t cur (leave_t oi adj l) (upd_c c (leave_cpu adj) s)).
  assert (I1 : inv {[cur]} s').
  { eapply (inv_at _ s c cur x y); try done.
    1: eapply inv_weaken; [done|set_solver].
    1: set_solver.
    all: try (by destruct adj).
    1: destruct adj; by apply (shoot_empty _ _ _ _ I Hx).
    destruct adj; unfold cpu_wf, the_view, held; simpl; [|done]. split_and!; [done|by left|done|rewrite Hc1, Hn; done|rewrite Hc1; done]. }
  assert (Hx' : cpus s' !! c = Some (leave_cpu adj x)) by (unfold s'; change (cpus (upd_c c (leave_cpu adj) s) !! c = Some (leave_cpu adj x)); by rewrite upd_c_lookup, decide_True, Hx).
  assert (Hy' : threads s' !! cur = Some (leave_t oi adj l y)) by (unfold s'; rewrite upd_t_lookup, decide_True by done; simpl; by rewrite Hy).
  assert (A' : at_cpu s' c cur (c_isidle x) (leave_t oi adj l y)) by (split; [exists (leave_cpu adj x); split; [done|]; by destruct adj|done]).
  assert (Hcalm : calm (leave_t oi adj l y)) by (destruct adj; split_and!; done).
  split.
  - unfold trap_exit. rewrite (run_bind _ _ _ x s) by (by apply get_cpu_run). rewrite Ec. rewrite (run_bind _ _ _ y s) by (by apply get_t_run). rewrite Htr. destruct adj.
    + rewrite (run_bind _ _ s tt (upd_c c (leave_cpu true) (upd_t cur (fun t => set_ipl 0 (t_iplhigh_count t - 1) t) s))).
      2:{ rewrite Hh, Hc1. rewrite (run_bind _ _ s tt s) by done. rewrite (run_bind _ _ s tt s) by done. rewrite (run_bind _ _ s tt (upd_t cur (fun t => set_ipl 0 (t_iplhigh_count t - 1) t) s)) by (by eapply mod_t_run). by eapply mod_cpu_run. }
      rewrite (mod_t_run _ _ _ (set_ipl 0 (t_iplhigh_count y - 1) y)). 2:{ change (threads (upd_t cur (fun t => set_ipl 0 (t_iplhigh_count t - 1) t) s) !! cur = Some (set_ipl 0 (t_iplhigh_count y - 1) y)). by rewrite upd_t_lookup, decide_True, Hy. }
      f_equal. rewrite upd_t_c_comm, upd_upd_t. done.
    + rewrite (run_bind _ _ s tt s) by done. rewrite (mod_t_run _ _ _ y) by done. unfold s'. by rewrite (upd_c_id c (leave_cpu false)).
  - eapply (inv_settle {[cur]} ∅ s' cur (leave_t oi adj l y)); [done|set_solver|done|]. destruct (c_isidle x) eqn:Ei.
    + destruct adj; [by destruct (Had eq_refl)|]. destruct (R3 c) as (K1 & _ & spl' & d & top & base & K2 & K3 & K4 & K5 & K6); [by exists x|]. destruct (R1 K1) as (l' & Hl & Hp).
      assert (exists f, top = [f] /\ f.2 = false) as (f & -> & Hf).
      { destruct K5 as [->|K5]; [|done]. destruct (Hid eq_refl). exists spl'. rewrite K2, K3. simpl. by rewrite K4. }
      rewrite Htr in K3. simpl in K3. injection K3. intros El Ef. subst l f.
      eapply (place_current s' cur _ c l'); try done.
      * unfold s'. rewrite (upd_c_id c (leave_cpu false)) by done. by destruct l'.
      * split; [done|]. exists spl', d, [], base. split_and!; try done. by left.
      * apply A'.
      * intros e j He. destruct (only_cpu _ _ _ _ _ _ _ _ I1 A' He). done.
    + destruct (R4 c) as (K1 & K2 & _); [by exists x|]. eapply (running_role {[cur]} s' c); try done; [by destruct adj..|]. destruct adj; [|by right]. destruct (Had eq_refl) as [_ ->]. by left.
Qed.

(** ** Interprocessor interrupts *)

Lemma quiet_neutral H s c f x : inv H s -> cpus s !! c = Some x -> (forall z, set_ipi 0 [] (set_halted false (f z)) = set_ipi 0 [] (set_halted false z)) -> c_shootdown (f x) = [] -> quiet H c s (upd_c c f s).
Proof.
  intros I Hx E Es. specialize (E x). assert (Ef : f x = set_ipi (c_ipi_pending (f x)) [] (set_halted (c_halted (f x)) x)).
  { destruct (f x), x. unfold set_ipi, set_halted in *. simpl in *. injection E. intros. by subst. }
  eapply quiet_upd_c; [done| |by rewrite Ef|by rewrite Ef]. eapply (inv_neutral _ _ _ _ x); try done; rewrite Ef; done.
Qed.

(** What the interrupt did to its CPU: the requests are gone, or the CPU has halted. *)
Definition ipi_served (halt : bool) (x : cpu) : cpu := if halt then set_halted true x else set_ipi 0 [] x.

Lemma locked_section H c l s s1 s2 : inv H s -> 0 <= c < ncpus s -> locks s !! l = None -> on c (spinlock_acquire l) s = Ret tt s1 -> quiet H c s1 s2 -> ncpus s2 = ncpus s1 ->
  exists s3, on c (spinlock_release l) s2 = Ret tt s3 /\ quiet H c s s3 /\ core s3 = core s2.
Proof.
  intros I Hv Hl E1 Q Hn. destruct (acquire_inv H s c l I Hv Hl) as (s1' & E1' & LS). rewrite E1 in E1'. injection E1' as <-. pose proof LS as [I1 K1 L1 _ _ _].
  destruct (release_inv H s2 c l) as (s3 & E3 & LS3); [apply Q|by rewrite Hn, (lk_ncpus _ _ K1)|rewrite (q_locks _ _ _ _ Q), L1; apply lookup_insert_eq|].
  exists s3. split; [done|]. split; [by eapply quiet_lockstep|]. apply core_like, LS3.
Qed.

Lemma ipi_run s c : inv ∅ s -> 0 <= c < ncpus s -> unlocked (locks s) ->
  exists s' h, interprocessor_interrupt c s = Ret (negb h) s' /\ quiet ∅ c s s' /\ core s' = upd_c c (ipi_served h) (core s).
Proof.
  intros I Hv U. destruct (U c) as [U1 U2]. destruct (acquire_inv ∅ s c (ipi_lock c) I Hv U2) as (s1 & E1 & LS). pose proof LS as [I1 K1 L1 _ _ _].
  assert (N1 : ncpus s1 = ncpus s) by apply K1. destruct (proj2 (in_dom _ _ I1 c)) as [x Hx]; [by rewrite N1|]. pose proof (shoot_empty _ _ _ _ I1 Hx) as Sh.
  unfold interprocessor_interrupt. rewrite (run_bind _ _ _ _ _ E1). rewrite (run_bind _ _ _ x s1) by (by apply get_cpu_run).
  assert (halting : forall s2, quiet ∅ c s s2 -> core s2 = core s -> exists s', (_ ← mod_cpu c (set_halted true); mret false) s2 = Ret false s' /\ quiet ∅ c s s' /\ core s' = upd_c c (ipi_served true) (core s)).
  { intros s2 Q2 C2. assert (Hc2 : is_Some (cpus s2 !! c)) by (apply (in_dom _ _ (q_inv _ _ _ _ Q2)); change (ncpus s2) with (ncpus (core s2)); rewrite C2; done). destruct Hc2 as [x2 Hx2].
    exists (upd_c c (set_halted true) s2). split; [by rewrite (run_bind _ _ _ tt (upd_c c (set_halted true) s2)) by (by eapply mod_cpu_run)|]. split; [|by rewrite core_upd_c, C2].
    eapply squiet_trans; [done|]. eapply quiet_neutral; [apply Q2|done|done|]. simpl. eapply shoot_empty; [apply Q2|done]. }
  destruct (Z.testbit (c_ipi_pending x) IPI_PANIC).
  - destruct (locked_section ∅ c (ipi_lock c) s s1 s1) as (s2 & E2 & Q2 & C2); try done. rewrite (run_bind _ _ _ _ _ E2).
    destruct (halting s2 Q2) as (s' & E' & Q' & C'); [by rewrite C2, (core_like _ _ K1)|]. by exists s', true.
  - destruct (Z.testbit (c_ipi_pending x) IPI_OFFLINE).
    + destruct (locked_section ∅ c (ipi_lock c) s s1 s1) as (s2 & E2 & Q2 & C2); try done. rewrite (run_bind _ _ _ _ _ E2).
      assert (C2' : core s2 = core s) by (by rewrite C2, (core_like _ _ K1)). assert (N2 : ncpus s2 = ncpus s) by (change (ncpus (core s2) = ncpus (core s)); by rewrite C2').
      destruct (acquire_inv ∅ s2 c (runqueue_lock c)) as (s3 & E3 & LS3); [apply Q2|by rewrite N2|by rewrite (q_locks _ _ _ _ Q2)|]. rewrite (run_bind _ _ _ _ _ E3).
      destruct (locked_section ∅ c (runqueue_lock c) s2 s3 s3) as (s4 & E4 & Q4 & C4); try done; [apply Q2|by rewrite N2|by rewrite (q_locks _ _ _ _ Q2)|apply squiet_refl, LS3|]. rewrite (run_bind _ _ _ _ _ E4).
      destruct (halting s4) as (s' & E' & Q' & C'); [by eapply squiet_trans|by rewrite C4, (core_like _ _ (ls_like _ _ _ _ _ _ LS3))|]. by exists s', true.
    + set (g := fun x => set_ipi 0 (c_shootdown x) x). set (s2 := if Z.testbit (c_ipi_pending x) IPI_TLBSHOOTDOWN then upd_c c (fun x => set_ipi (c_ipi_pending x) [] x) s1 else s1).
      assert (E2 : (if Z.testbit (c_ipi_pending x) IPI_TLBSHOOTDOWN then _ ← (match c_shootdown x with [] => mret tt | _ => panic "vm_project tried to do tlb shootdown?!" end); mod_cpu c (fun x => set_ipi (c_ipi_pending x) [] x) else mret tt) s1 = Ret tt s2).
      { unfold s2. destruct (Z.testbit (c_ipi_pending x) IPI_TLBSHOOTDOWN); [|done]. rewrite Sh. rewrite (run_bind _ _ _ tt s1) by done. by eapply mod_cpu_run. }
      rewrite (run_bind _ _ _ _ _ E2).
      assert (exists x2, cpus s2 !! c = Some x2 /\ c_shootdown x2 = [] /\ quiet ∅ c s1 s2 /\ ncpus s2 = ncpus s1) as (x2 & Hx2 & Sh2 & Q2 & N2).
      { unfold s2. destruct (Z.testbit (c_ipi_pending x) IPI_TLBSHOOTDOWN); [|exists x; split_and!; try done; by apply squiet_refl]. exists (set_ipi (c_ipi_pending x) [] x). split_and!; try done; [by rewrite upd_c_lookup, decide_True, Hx|]. by eapply quiet_neutral. }
      rewrite (run_bind _ _ _ tt (upd_c c g s2)) by (by eapply mod_cpu_run).
      destruct (locked_section ∅ c (ipi_lock c) s s1 (upd_c c g s2)) as (s3 & E3 & Q3 & C3); try done; [eapply squiet_trans; [done|]; eapply quiet_neutral; [apply Q2|done|done|done]|].
      rewrite (run_bind _ _ _ _ _ E3). exists s3, false. split; [done|]. split; [done|]. rewrite C3, core_upd_c by done. rewrite <- (core_like _ _ K1).
      assert (Ec : forall s0 : tsys, (forall x0, cpus s0 !! c = Some x0 -> c_shootdown x0 = []) -> upd_c c g s0 = upd_c c (ipi_served false) s0).
      { intros s0 Hs0. unfold upd_c, set_cpus. f_equal. apply map_eq. intros d. destruct (decide (d = c)) as [->|]; [rewrite !lookup_alter_eq|by rewrite !lookup_alter_ne]. destruct (cpus s0 !! c) as [x0|] eqn:E0; [|done]. simpl. unfold g. by rewrite (Hs0 x0). }
      unfold s2. destruct (Z.testbit (c_ipi_pending x) IPI_TLBSHOOTDOWN).
      * rewrite core_upd_c by done. unfold upd_c, set_cpus. simpl. f_equal. apply map_eq. intros d. destruct (decide (d = c)) as [->|]; [rewrite !lookup_alter_eq|by rewrite !lookup_alter_ne]. by destruct ((ccore <$> cpus s1) !! c).
      * apply Ec. intros x0 Hx0. apply core_cpu_inv in Hx0 as (x1 & Hx1 & ->). simpl. congruence.
Qed.

End SchedTrap.
