(* ===== verification/SchedMig.v ===== *)
(** * Migration

    The critical sections of [thread_consider_migration]: each keeps the invariant, and the
    threads taken off the run queue wait on the list of victims until they are given away or
    put back. *)

From S2P Require Import Prelude Cpu Sched SchedInv SchedMoves SchedWake SchedSwitch SchedPark SchedFrame SchedTrap.

Module SchedMig.
Import Cpu(splid, IPL_NONE, IPL_HIGH, spinlock_acquire, spinlock_release, cpu_wf, held).
Import Sched SchedInv SchedMoves SchedCore SchedOps SchedWake SchedSwitch SchedPark SchedFrame SchedTrap.

(** ** What other CPUs see *)

Record others (c : Z) (s s' : tsys) : Prop := mk_others {
  ot_ncpus : ncpus s' = ncpus s;
  ot_other d x : d <> c -> cpus s !! d = Some x -> exists x', cpus s' !! d = Some x' /\ grown d x x';
  ot_none d : cpus s !! d = None -> cpus s' !! d = None
}.

#[export] Instance others_pre c : PreOrder (others c).
Proof.
  split.
  - intros s. split; try done. intros d x _ Hx. by exists x.
  - intros s1 s2 s3 [A1 A2 A4] [B1 B2 B4]. split; [congruence| |auto].
    intros d x Hd Hx. destruct (A2 d x Hd Hx) as (y & Hy & G). destruct (B2 d y Hd Hy) as (z & Hz & G'). exists z. split; [done|]. by etrans.
Qed.
Lemma frame_others c s s' : frame c s s' -> others c s s'.
Proof. by intros [A B C D]. Qed.
Lemma others_of_core c s s' : others c (core s) (core s') -> others c s s'.
Proof.
  intros [A B D]. split; [done|..].
  - intros d x Hd Hx. destruct (B d (ccore x) Hd) as (y & Hy & G); [by rewrite core_cpu, Hx|]. apply core_cpu_inv in Hy as (x' & Hx' & ->). exists x'. split; [done|]. by apply ccore_grown.
  - intros d Hd. specialize (D d). rewrite !core_cpu, Hd in D. specialize (D eq_refl). by destruct (cpus s' !! d).
Qed.
Lemma others_vict c v s : others c s (set_lst (VICT c) v s).
Proof.
  split; [done|..].
  - intros d x Hd Hx. exists x. simpl. by rewrite lookup_alter_ne.
  - intros d Hd. simpl. destruct (decide (d = c)) as [->|]; [by rewrite lookup_alter_eq, Hd|by rewrite lookup_alter_ne].
Qed.
Lemma others_upd_t c t f s : others c s (upd_t t f s).
Proof. apply frame_others, frame_upd_t. Qed.
Lemma others_relist_vict c v t b s : others c s (relist (VICT c) v t b s).
Proof. unfold relist. etrans; [apply (others_upd_t c t (set_linked b))|apply others_vict]. Qed.
Lemma others_like c s s' : like s s' -> others c s s'.
Proof. intros L. apply others_of_core. rewrite (core_like _ _ L). done. Qed.

(** ** Moving a thread from one list to another *)

(** [t] leaves [l], goes to CPU [d] and enters [l']. *)
Definition transfer (l : tlist) (v : list Z) (t d : Z) (l' : tlist) (tail : bool) (s : tsys) : tsys :=
  let s1 := upd_t t (set_tcpu d) (relist l v t false s) in
  relist l' (if tail then lst s1 l' ++ [t] else t :: lst s1 l') t true s1.

Lemma upd_t_valid t f s l : valid (upd_t t f s) l <-> valid s l.
Proof. by destruct l. Qed.
Lemma relist_valid l v t b s l' : valid (relist l v t b s) l' <-> valid s l'.
Proof.
  unfold relist. destruct l as [e|e|e|w], l' as [e'|e'|e'|w']; simpl; try done; (destruct (decide (e' = e)) as [->|] || destruct (decide (w' = w)) as [->|]); (rewrite lookup_alter_eq || rewrite lookup_alter_ne by done); by rewrite ?fmap_is_Some.
Qed.

Lemma transfer_inv s l l1 t l2 x d l' tail : inv ∅ s -> lst s l = l1 ++ t :: l2 -> threads s !! t = Some x -> valid s l' -> 0 <= d < ncpus s ->
  (d = t_cpu x \/ forall c i, ~ current s t c i) -> in_place l' (set_tcpu d x) -> inv ∅ (transfer l (l1 ++ l2) t d l' tail s).
Proof.
  intros I El Hx Hv Hd Hcur Hp. assert (Hl : t ∈ lst s l) by (rewrite El, elem_of_app, elem_of_cons; auto). destruct (lo_linked _ (in_lists _ _ I) _ _ Hl) as (x0 & Hx0 & Hk). assert (x0 = x) by congruence. subst x0. clear Hx0.
  set (s0 := relist l (l1 ++ l2) t false s). assert (I0 : inv {[t]} s0) by (eapply inv_weaken; [by apply (remove_inv ∅ s l l1 t l2)|set_solver]).
  assert (Hx0 : threads s0 !! t = Some (set_linked false x)) by (unfold s0; by rewrite relist_thread, decide_True, Hx).
  set (s1 := upd_t t (set_tcpu d) s0). assert (I1 : inv {[t]} s1).
  { apply inv_upd_t; [done|set_solver|]. intros z Hz. split; [done|]. split; [done|]. intros c i Hc. unfold s0 in Hc. rewrite relist_current in Hc. destruct Hcur as [->|Hno]; [|by destruct (Hno c i)]. rewrite Hx0 in Hz. injection Hz as <-. done. }
  assert (Hx1 : threads s1 !! t = Some (set_tcpu d (set_linked false x))) by (unfold s1; by rewrite upd_t_lookup, decide_True, Hx0).
  pose proof (add_inv {[t]} s1 tail l' t _ I1 Hx1 eq_refl ltac:(set_solver)) as I2.
  assert (Hv1 : valid s1 l') by (unfold s1, s0; by apply upd_t_valid, relist_valid). specialize (I2 Hv1). unfold transfer. fold s0 s1.
  set (s2 := relist l' (if tail then lst s1 l' ++ [t] else t :: lst s1 l') t true s1) in *.
  assert (Hx2 : threads s2 !! t = Some (set_linked true (set_tcpu d (set_linked false x)))) by (unfold s2; by rewrite relist_thread, decide_True, Hx1).
  assert (Hn2 : ncpus s2 = ncpus s) by (unfold s2, s1, s0, relist; by destruct l, l').
  assert (Hc2 : forall c i, current s2 t c i <-> current s t c i) by (intros c i; unfold s2; rewrite relist_current; unfold s1, s0; apply relist_current).
  eapply (inv_settle {[t]} ∅ s2 t); [done|set_solver|done|]. eapply (parked_role _ _ _ l').
  - destruct (role_parked s t x) as (P1 & P2 & P3 & P4 & P5); [by eapply in_roles|done|]. unfold parked. setoid_rewrite Hc2. rewrite Hn2. split; [exact P1|]. split; [exact P2|]. split; [exact P3|]. split; [exact P4|exact Hd].
  - done.
  - unfold s2. rewrite relist_lst, decide_True by done. destruct tail; [apply elem_of_app; right|]; by left.
  - by destruct l'.
Qed.

Lemma transfer_lst l v t d l' tail s k : valid s l -> valid s l' -> lst (transfer l v t d l' tail s) k =
  (if decide (k = l') then let q := if decide (l' = l) then v else lst s l' in if tail then q ++ [t] else t :: q else if decide (k = l) then v else lst s k).
Proof.
  intros Hl Hl'. unfold transfer. set (s1 := upd_t t (set_tcpu d) (relist l v t false s)).
  assert (E1 : forall k, lst s1 k = if decide (k = l) then v else lst s k) by (intros j; unfold s1; rewrite <- (relist_lst l v t false s j Hl); by destruct j).
  rewrite relist_lst by (unfold s1; by apply upd_t_valid, relist_valid). case_decide; [|apply E1]. rewrite E1. done.
Qed.
Lemma transfer_core l v t d l' tail s : core (transfer l v t d l' tail s) = transfer l v t d l' tail (core s).
Proof.
  unfold transfer. rewrite core_relist, core_upd_t, core_relist by done.
  assert (E : lst (upd_t t (set_tcpu d) (relist l v t false s)) l' = lst (upd_t t (set_tcpu d) (relist l v t false (core s))) l').
  { rewrite <- (core_lst (upd_t t (set_tcpu d) (relist l v t false s))). by rewrite core_upd_t, core_relist. }
  by rewrite E.
Qed.
Lemma transfer_kept T l v t d l' tail s : kept T s (transfer l v t d l' tail s).
Proof.
  unfold transfer. eapply kept_trans; [|apply kept_relist]. eapply kept_trans; [apply (kept_relist T l v t false)|]. apply kept_upd_t. by right.
Qed.
Lemma transfer_quiet s c l v t d l' tail : inv ∅ (transfer l v t d l' tail s) -> inv ∅ s -> is_Some (threads s !! t) -> quiet ∅ c s (transfer l v t d l' tail s).
Proof.
  intros I2 I [x Hx]. unfold transfer in *. set (s1 := upd_t t (set_tcpu d) (relist l v t false s)) in *.
  pose proof (quiet_relist _ s1 c _ _ _ _ I2) as [Q1 Q2 Q3 Q4 Q5 Q6].
  assert (Hs1 : forall u y, threads s !! u = Some y -> exists y', threads s1 !! u = Some y' /\ t_curspl y' = t_curspl y /\ t_iplhigh_count y' = t_iplhigh_count y).
  { intros u y Hy. unfold s1. rewrite upd_t_lookup. case_decide; [subst u; rewrite relist_thread, decide_True, Hy by done; by eexists|]. rewrite relist_thread, decide_False by done. by exists y. }
  assert (Hc1 : forall e, bare <$> cpus s1 !! e = bare <$> cpus s !! e) by (intros e; apply (set_lst_cpu l v (upd_t t (set_linked false) s))).
  split; [done| | | | |].
  - rewrite Q2. by destruct l.
  - rewrite Q3. specialize (Hc1 c). unfold cur_of. destruct (cpus s1 !! c), (cpus s !! c); try done. simpl in *. apply (inj Some), bare_eq in Hc1. f_equal. naive_solver.
  - intros u [y Hy]. destruct (Hs1 u y Hy) as (y' & Hy' & E1 & E2). rewrite Q4 by eauto. unfold spl_of. rewrite Hy, Hy'. simpl. by rewrite E1.
  - intros u [y Hy] Hne. destruct (Hs1 u y Hy) as (y' & Hy' & E1 & E2). rewrite Q5; [|eauto|].
    + unfold cnt_of. rewrite Hy, Hy'. simpl. by rewrite E2.
    + specialize (Hc1 c). unfold cur_of in *. destruct (cpus s1 !! c), (cpus s !! c); try done. simpl in *. apply (inj Some), bare_eq in Hc1. destruct Hc1 as (-> & _). done.
  - intros e. rewrite Q6. specialize (Hc1 e). unfold nlocks. destruct (cpus s1 !! e), (cpus s !! e); try done. simpl in *. apply (inj Some), bare_eq in Hc1. f_equal. naive_solver.
Qed.

Lemma upd_tcpu_same t s x : threads s !! t = Some x -> upd_t t (set_tcpu (t_cpu x)) s = s.
Proof.
  intros Hx. destruct s as [sc n st sw sl sa so]. unfold upd_t, set_threads. simpl in *. f_equal. apply map_eq. intros u. destruct (decide (u = t)) as [->|]; [rewrite lookup_alter_eq, Hx; simpl; by destruct x|by rewrite lookup_alter_ne].
Qed.
(** A transfer within the CPU, as the code does it. *)
Lemma transfer_here l v t x l' tail s : threads s !! t = Some x ->
  transfer l v t (t_cpu x) l' tail s = relist l' (if tail then lst (relist l v t false s) l' ++ [t] else t :: lst (relist l v t false s) l') t true (relist l v t false s).
Proof.
  intros Hx. unfold transfer. pose proof (upd_tcpu_same t (relist l v t false s) (set_linked false x)) as E. change (t_cpu (set_linked false x)) with (t_cpu x) in E. rewrite E; [done|]. by rewrite relist_thread, decide_True, Hx.
Qed.
Lemma taken_add_run s (tail : bool) l v l' t x : threads s !! t = Some x ->
  threadlist_add tail l' t (relist l v t false s) = Ret tt (transfer l v t (t_cpu x) l' tail s).
Proof. intros Hx. rewrite (transfer_here _ _ _ _ _ _ _ Hx). eapply add_run; [by rewrite relist_thread, decide_True, Hx|done]. Qed.

(** ** What a section of the migration does *)

Definition own_bits (s : tsys) (c : Z) : option (bool * bool * bool) := (fun x => (c_isidle x, c_asleep x, c_halted x)) <$> cpus s !! c.

Record section (c : Z) (s s' : tsys) : Prop := mk_section {
  sc_quiet : quiet ∅ c s s';
  sc_others : others c s s';
  sc_kept : kept [] s s';
  sc_own : own_bits s' c = own_bits s c
}.

Lemma section_refl c s : inv ∅ s -> section c s s.
Proof. intros I. split; [by apply squiet_refl|done|by apply kept_same|done]. Qed.
Lemma section_trans c s1 s2 s3 : section c s1 s2 -> section c s2 s3 -> section c s1 s3.
Proof. intros [A B C D] [A' B' C' D']. split; [by eapply squiet_trans|by etrans|by eapply kept_trans|congruence]. Qed.

Lemma core_own s c : own_bits (core s) c = own_bits s c.
Proof. unfold own_bits. rewrite core_cpu. by destruct (cpus s !! c). Qed.
Lemma like_own s s' c : like s s' -> own_bits s' c = own_bits s c.
Proof. intros L. by rewrite <- core_own, (core_like _ _ L), core_own. Qed.
Lemma bare_own s s' c : bare <$> cpus s' !! c = bare <$> cpus s !! c -> own_bits s' c = own_bits s c.
Proof. intros E. unfold own_bits. destruct (cpus s' !! c), (cpus s !! c); try done. simpl in *. apply (inj Some), bare_eq in E. destruct_and?. congruence. Qed.
Lemma kept_like T s s' : like s s' -> kept T s s'.
Proof. intros L. apply kept_of_core. rewrite (core_like _ _ L). by apply kept_same. Qed.

(** A section under the lock [l]. *)
Lemma under_lock c l s s1 s2 : inv ∅ s -> 0 <= c < ncpus s -> locks s !! l = None -> on c (spinlock_acquire l) s = Ret tt s1 -> section c s1 s2 ->
  exists s3, on c (spinlock_release l) s2 = Ret tt s3 /\ section c s s3 /\ core s3 = core s2.
Proof.
  intros I Hv Hl E [Q O K B]. destruct (acquire_inv ∅ s c l I Hv Hl) as (s1' & E1' & LS). rewrite E in E1'. injection E1' as <-. pose proof (ls_like _ _ _ _ _ _ LS) as K1.
  destruct (locked_section ∅ c l s s1 s2 I Hv Hl E Q) as (s3 & E3 & Q3 & C3); [apply O|]. exists s3. split; [done|]. split; [|done]. split; [done|..].
  - etrans; [by apply (others_like c), K1|]. etrans; [exact O|]. apply others_of_core. by rewrite C3.
  - eapply kept_trans; [by apply kept_like, K1|]. eapply kept_trans; [exact K|]. apply kept_of_core. rewrite C3. by apply kept_same.
  - by rewrite <- core_own, C3, core_own, B, (like_own _ _ _ K1).
Qed.

(** ** Counting *)

Lemma count_run s c i my total : inv ∅ s -> 0 <= c < ncpus s -> 0 <= i < ncpus s -> unlocked (locks s) ->
  exists s', mig_count c i my total s = Ret (if i =? c then Z.of_nat (length (lst s (RUNQ i))) else my, u32 (total + Z.of_nat (length (lst s (RUNQ i))))) s' /\ section c s s' /\ core s' = core s.
Proof.
  intros I Hv Hi U. destruct (acquire_inv ∅ s c (runqueue_lock i) I Hv (proj1 (U i))) as (s1 & E1 & LS). pose proof LS as [I1 K1 L1 _ _ _].
  destruct (under_lock c (runqueue_lock i) s s1 s1 I Hv (proj1 (U i)) E1) as (s2 & E2 & S2 & C2); [by apply section_refl|].
  destruct (proj2 (in_dom _ _ I1 i)) as [x Hx]; [by rewrite (lk_ncpus _ _ K1)|].
  assert (El : c_runqueue x = lst s (RUNQ i)) by (rewrite <- (like_lst _ _ _ K1); simpl; by rewrite Hx).
  exists s2. split; [|split; [done|by rewrite C2, (core_like _ _ K1)]].
  unfold mig_count. rewrite (run_bind _ _ _ _ _ E1). rewrite (run_bind _ _ _ x s1) by (by apply get_cpu_run). rewrite (run_bind _ _ _ _ _ E2). by rewrite El.
Qed.

(** ** Taking *)

(** A member of a list of the CPU stays where it can be resumed. *)
Lemma listed_place s l t x : inv ∅ s -> t ∈ lst s l -> threads s !! t = Some x -> in_place l x /\ 0 <= t_cpu x < ncpus s.
Proof.
  intros I Hl Hx. destruct (lo_linked _ (in_lists _ _ I) _ _ Hl) as (x' & Hx' & Hk). assert (x' = x) by congruence. subst x'.
  destruct (in_roles _ _ I _ _ Hx ltac:(set_solver)) as (R1 & _ & _ & _ & _ & (_ & R7)). destruct (R1 Hk) as (l' & Hl' & Hp). by rewrite (lo_one _ (in_lists _ _ I) _ _ _ Hl' Hl) in Hp.
Qed.
Lemma listed_thread s l t : inv ∅ s -> t ∈ lst s l -> exists x, threads s !! t = Some x.
Proof. intros I Hl. destruct (lo_linked _ (in_lists _ _ I) _ _ Hl) as (x & Hx & _). eauto. Qed.

Lemma transfer_bare l v t d l' tail s e : bare <$> cpus (transfer l v t d l' tail s) !! e = bare <$> cpus s !! e.
Proof.
  unfold transfer. set (s1 := upd_t t (set_tcpu d) (relist l v t false s)). set (v' := if tail then lst s1 l' ++ [t] else t :: lst s1 l').
  etrans; [apply (set_lst_cpu l' v' (upd_t t (set_linked true) s1))|]. apply (set_lst_cpu l v (upd_t t (set_linked false) s)).
Qed.

(** Within one CPU: between its run queue and its victims. *)
Lemma here_section s c l l1 t l2 l' tail x : inv ∅ s -> lst s l = l1 ++ t :: l2 -> threads s !! t = Some x -> (l = RUNQ c \/ l = VICT c) -> (l' = RUNQ c \/ l' = VICT c) -> is_Some (cpus s !! c) ->
  section c s (transfer l (l1 ++ l2) t (t_cpu x) l' tail s).
Proof.
  intros I El Hx Hl Hl' Hc. assert (Hin : t ∈ lst s l) by (rewrite El, elem_of_app, elem_of_cons; auto). destruct (listed_place s l t x I Hin Hx) as [Hp Hd].
  assert (I' : inv ∅ (transfer l (l1 ++ l2) t (t_cpu x) l' tail s)).
  { eapply transfer_inv; try done; [by destruct Hl' as [-> | ->]|by left|]. destruct Hl as [-> | ->], Hl' as [-> | ->]; exact Hp. }
  assert (O : forall l0 v u b s0, (l0 = RUNQ c \/ l0 = VICT c) -> others c s0 (relist l0 v u b s0)).
  { intros l0 v u b s0 [-> | ->]; [apply frame_others, frame_relist; by left|apply others_relist_vict]. }
  split; [apply transfer_quiet; eauto| |apply transfer_kept|apply bare_own, transfer_bare].
  unfold transfer. etrans; [by apply (O l (l1 ++ l2) t false)|]. etrans; [apply (others_upd_t c t (set_tcpu (t_cpu x)))|]. by apply O.
Qed.

Definition take_body (c : Z) (i : Z) : M tsys unit := t ← threadlist_remtail (RUNQ c); t ← deref t; threadlist_addhead (VICT c) t.

Lemma take_loop_run k s c from : inv ∅ s -> is_Some (cpus s !! c) -> (k <= length (lst s (RUNQ c)))%nat ->
  exists s', for_loop k from (take_body c) s = Ret tt s' /\ section c s s' /\
    lst s' (RUNQ c) = take (length (lst s (RUNQ c)) - k) (lst s (RUNQ c)) /\ lst s' (VICT c) = drop (length (lst s (RUNQ c)) - k) (lst s (RUNQ c)) ++ lst s (VICT c).
Proof.
  revert s from. induction k as [|k IH]; intros s from I Hc Hk.
  - exists s. split; [done|]. split; [by apply section_refl|]. rewrite Nat.sub_0_r, firstn_all, drop_all. done.
  - destruct (lst s (RUNQ c)) as [|t0 q0] eqn:Eq using rev_ind; [simpl in Hk; lia|]. clear IHq0.
    destruct (listed_thread s (RUNQ c) t0) as [x Hx]; [done|rewrite Eq, elem_of_app, list_elem_of_singleton; by right|].
    assert (S1 : section c s (transfer (RUNQ c) q0 t0 (t_cpu x) (VICT c) false s)).
    { replace q0 with (q0 ++ []) at 1 by apply app_nil_r. eapply here_section; try done; [by left|by right]. }
    set (s1 := transfer (RUNQ c) q0 t0 (t_cpu x) (VICT c) false s) in *.
    assert (L1 : lst s1 (RUNQ c) = q0) by (unfold s1; by rewrite transfer_lst, decide_False, decide_True).
    assert (L2 : lst s1 (VICT c) = t0 :: lst s (VICT c)) by (unfold s1; rewrite transfer_lst, decide_True by done; by rewrite decide_False).
    rewrite length_app in *. simpl in Hk.
    destruct (IH s1 (from + 1)) as (s' & E' & S' & L1' & L2'); [apply S1|apply (in_dom _ _ (q_inv _ _ _ _ (sc_quiet _ _ _ S1))); rewrite (ot_ncpus _ _ _ (sc_others _ _ _ S1)); by apply (in_dom _ _ I)|rewrite L1; lia|].
    rewrite L1 in L1', L2'. rewrite L2 in L2'. exists s'. split; [|split; [by eapply section_trans|]].
    + simpl. rewrite (run_bind _ _ s tt s1); [done|]. unfold take_body. rewrite (run_bind _ _ _ _ _ (take_tail_run s (RUNQ c) t0 q0 (in_lists _ _ I) Eq)). rewrite (run_bind _ _ _ t0 (relist (RUNQ c) q0 t0 false s)) by done. by apply taken_add_run.
    + change (length [t0]) with 1%nat. replace (length q0 + 1 - S k)%nat with (length q0 - k)%nat by lia. rewrite take_app_le, drop_app_le by lia. rewrite L1', L2'. split; [done|]. by rewrite <- app_assoc.
Qed.

Lemma take_run s c k : inv ∅ s -> 0 <= c < ncpus s -> unlocked (locks s) -> 0 <= k -> k <= Z.of_nat (length (lst s (RUNQ c))) -> lst s (VICT c) = [] ->
  exists s', mig_take c k s = Ret tt s' /\ section c s s' /\ lst s' (RUNQ c) = take (length (lst s (RUNQ c)) - Z.to_nat k) (lst s (RUNQ c)) /\
    lst s' (VICT c) = drop (length (lst s (RUNQ c)) - Z.to_nat k) (lst s (RUNQ c)).
Proof.
  intros I Hv U Hk0 Hk HV. destruct (acquire_inv ∅ s c (runqueue_lock c) I Hv (proj1 (U c))) as (s1 & E1 & LS). pose proof LS as [I1 K1 L1 _ _ _].
  destruct (take_loop_run (Z.to_nat k) s1 c 0) as (s2 & E2 & S2 & Q2 & V2); [done|apply (in_dom _ _ I1); by rewrite (lk_ncpus _ _ K1)|rewrite (like_lst _ _ _ K1); lia|].
  destruct (under_lock c (runqueue_lock c) s s1 s2 I Hv (proj1 (U c)) E1 S2) as (s3 & E3 & S3 & C3). exists s3. split; [|split; [done|]].
  - unfold mig_take. rewrite (run_bind _ _ _ _ _ E1). rewrite (run_bind _ _ _ tt s2) by exact E2. exact E3.
  - rewrite <- !(core_lst s3), C3, !core_lst, Q2, V2, !(like_lst _ _ _ K1), HV, app_nil_r. done.
Qed.

(** ** Giving *)

Definition give1 (c e t : Z) (r : list Z) (s : tsys) : tsys := unidle c e (transfer (VICT c) r t e (RUNQ e) true s).

Lemma give_transfer_cpu c e t r s d x : e <> c -> cpus s !! d = Some x ->
  cpus (transfer (VICT c) r t e (RUNQ e) true s) !! d = Some (if decide (d = e) then set_runqueue (c_runqueue x ++ [t]) x else if decide (d = c) then set_victims r x else x).
Proof.
  intros Hne Hx. unfold transfer, relist. simpl. destruct (decide (d = e)) as [->|Hd].
  - rewrite lookup_alter_eq, !lookup_alter_ne by done. by rewrite Hx.
  - rewrite lookup_alter_ne by done. case_decide; [subst; by rewrite lookup_alter_eq, Hx|by rewrite lookup_alter_ne].
Qed.

Lemma others_give c e t r s : e <> c -> others c s (give1 c e t r s).
Proof.
  intros Hne. split.
  - unfold give1. by destruct (unidle_threads c e (transfer (VICT c) r t e (RUNQ e) true s)) as (_ & -> & _).
  - intros d x Hd Hx. unfold give1. rewrite unidle_cpu, (give_transfer_cpu c e t r s d x Hne Hx). rewrite (decide_False (P := d = c)) by done.
    destruct (decide (d = e)) as [->|He].
    + rewrite bool_decide_true, andb_true_r by done. assert (Ei : idle_of (transfer (VICT c) r t e (RUNQ e) true s) e = c_isidle x).
      { unfold idle_of. rewrite (give_transfer_cpu c e t r s e x Hne Hx), decide_True by done. done. }
      rewrite Ei, (proj2 (Z.eqb_neq e c) Hne), andb_true_r. eexists. split; [done|]. destruct (c_isidle x) eqn:Ex.
      * split_and!; try done; [by apply prefix_app_r|]. intros W Ha. destruct (W Ha) as [W1 W2]. split; [done|]. intros _. apply (post_unidle (set_runqueue (c_runqueue x ++ [t]) x)).
      * split_and!; try done; [by apply prefix_app_r|]. intros W Ha. destruct (W Ha) as [W1 W2]. simpl in W1. congruence.
    + rewrite bool_decide_false, andb_false_r by done. exists x. by split.
  - intros d Hd. unfold give1. rewrite unidle_cpu. pose proof (transfer_bare (VICT c) r t e (RUNQ e) true s d) as B. rewrite Hd in B. by destruct (cpus (transfer (VICT c) r t e (RUNQ e) true s) !! d).
Qed.
Lemma kept_unidle T c e s : kept T s (unidle c e s).
Proof. apply kept_same, unidle_threads. Qed.
Lemma own_unidle c e s : own_bits (unidle c e s) c = own_bits s c.
Proof. unfold own_bits. rewrite unidle_cpu. destruct (cpus s !! c); simpl; [|done]. by case_match. Qed.

(** One victim goes to the run queue of [e]. *)
Lemma give_one s c e t r cur x : inv ∅ s -> 0 <= c < ncpus s -> 0 <= e < ncpus s -> e <> c -> lst s (VICT c) = t :: r -> cur_of s c = Some cur -> t <> cur -> threads s !! t = Some x -> locks s !! ipi_lock e = None ->
  exists s', (_ ← mod_t t (set_tcpu e); _ ← threadlist_addtail (RUNQ e) t; x ← get_cpu e; when (c_isidle x) (ipi_send c e IPI_UNIDLE)) (relist (VICT c) r t false s) = Ret tt s' /\
    section c s s' /\ lst s' (VICT c) = r /\ lst s' (RUNQ c) = lst s (RUNQ c).
Proof.
  intros I Hv He Hne EV Hcur Htc Hx Hi. assert (Hin : t ∈ lst s (VICT c)) by (rewrite EV; by left). destruct (listed_place s _ t x I Hin Hx) as [(P1 & P2) Hd].
  assert (Hno : forall d i, ~ current s t d i).
  { intros d i Hd'. pose proof (current_cpu _ _ _ _ _ _ I Hd' Hx) as E. assert (d = c) as -> by congruence. apply Htc. assert (cur_of s c = Some t) by (apply cur_current; eauto). congruence. }
  assert (Hce : is_Some (cpus s !! e)) by (by apply (in_dom _ _ I)). assert (Hcc : is_Some (cpus s !! c)) by (by apply (in_dom _ _ I)).
  set (s1 := transfer (VICT c) r t e (RUNQ e) true s). assert (I1 : inv ∅ s1).
  { apply (transfer_inv s (VICT c) [] t r x e (RUNQ e) true I EV Hx); try done. by right. }
  assert (Q1 : quiet ∅ c s s1) by (apply transfer_quiet; eauto).
  assert (Run1 : (_ ← mod_t t (set_tcpu e); threadlist_addtail (RUNQ e) t) (relist (VICT c) r t false s) = Ret tt s1).
  { rewrite (run_bind _ _ _ tt (upd_t t (set_tcpu e) (relist (VICT c) r t false s))) by (eapply mod_t_run; by rewrite relist_thread, decide_True, Hx).
    unfold s1, transfer. eapply (add_run _ true); [by rewrite upd_t_lookup, decide_True, relist_thread, decide_True, Hx|done]. }
  assert (is_Some (cpus s1 !! e)) as [xe Hxe] by (apply (in_dom _ _ I1); unfold s1, transfer, relist; done).
  assert (Lv : lst s1 (VICT c) = r) by (unfold s1; rewrite transfer_lst, decide_False, decide_True by done; done).
  assert (Lr : lst s1 (RUNQ c) = lst s (RUNQ c)) by (unfold s1; rewrite transfer_lst, decide_False, decide_False by (done || congruence); done).
  assert (Eg : forall s', core s' = unidle c e (core s1) -> quiet ∅ c s1 s' -> section c s s' /\ lst s' (VICT c) = r /\ lst s' (RUNQ c) = lst s (RUNQ c)).
  { intros s' C' Q'. split; [|split; [by rewrite <- core_lst, C', unidle_lst, core_lst|by rewrite <- core_lst, C', unidle_lst, core_lst]]. unfold s1 in C'. rewrite transfer_core in C'. split.
    - by eapply squiet_trans.
    - apply others_of_core. rewrite C'. by apply others_give.
    - apply kept_of_core. rewrite C'. eapply kept_trans; [apply transfer_kept|apply kept_unidle].
    - rewrite <- core_own, C', own_unidle. rewrite <- (core_own s). apply bare_own, transfer_bare. }
  assert (Run : forall s', when (c_isidle xe) (ipi_send c e IPI_UNIDLE) s1 = Ret tt s' -> (_ ← mod_t t (set_tcpu e); _ ← threadlist_addtail (RUNQ e) t; x ← get_cpu e; when (c_isidle x) (ipi_send c e IPI_UNIDLE)) (relist (VICT c) r t false s) = Ret tt s').
  { intros s' E'. revert Run1. unfold mbind, M_bind. destruct (mod_t _ _ _) as [? s0| | | | |]; try done. intros Run1. rewrite Run1. by rewrite (get_cpu_run _ _ _ Hxe). }
  assert (Ei : idle_of (core s1) e = c_isidle xe) by (rewrite core_idle_of; unfold idle_of; by rewrite Hxe).
  destruct (c_isidle xe) eqn:Ex.
  - destruct (ipi_send_run ∅ s1 c e IPI_UNIDLE I1) as (s' & E' & Q' & C'); [unfold s1, transfer, relist; done..|].
    exists s'. split; [by apply Run|]. apply Eg; [|done]. unfold unidle. rewrite Ei, (proj2 (Z.eqb_neq e c) Hne). done.
  - exists s1. split; [by apply Run|]. apply Eg; [|by apply squiet_refl]. unfold unidle. by rewrite Ei.
Qed.

(** The victims during the second phase: those to be offered, then perhaps the thread that
    runs here. *)
Definition victims_ok (s : tsys) (c ts : Z) : Prop :=
  exists l1 l2, lst s (VICT c) = l1 ++ l2 /\ Z.of_nat (length l1) = ts /\ (l2 = [] \/ exists cur, l2 = [cur] /\ cur_of s c = Some cur).

Lemma give_loop_run n s c e share ts : inv ∅ s -> 0 <= c < ncpus s -> 0 <= e < ncpus s -> e <> c -> locks s !! ipi_lock e = None -> ts = Z.of_nat n -> victims_ok s c ts ->
  exists s' ts', give_loop n c e share ts s = Ret ts' s' /\ section c s s' /\ 0 <= ts' /\ victims_ok s' c ts' /\ lst s' (RUNQ c) = lst s (RUNQ c).
Proof.
  revert s ts. induction n as [|n IH]; intros s ts I Hv He Hne Hi Ets V; (assert (is_Some (cpus s !! e)) as [xe Hxe] by (by apply (in_dom _ _ I))); (assert (is_Some (cpus s !! c)) as [xc Hxc] by (by apply (in_dom _ _ I))).
  - exists s, ts. cbn [give_loop]. rewrite (run_bind _ _ _ xe s) by (by apply get_cpu_run). subst ts. simpl (0 <? _). rewrite andb_false_r. split; [done|]. split; [by apply section_refl|]. done.
  - cbn [give_loop]. rewrite (run_bind _ _ _ xe s) by (by apply get_cpu_run). destruct ((Z.of_nat (length (c_runqueue xe)) <? share) && (0 <? ts)) eqn:Eb; [|exists s, ts; split; [done|]; split; [by apply section_refl|]; split; [lia|done]].
    destruct V as (l1 & l2 & EV & Hl1 & Hl2). destruct l1 as [|t l1]; [simpl in Hl1; lia|]. change ((t :: l1) ++ l2) with (t :: (l1 ++ l2)) in EV. set (r := l1 ++ l2) in *.
    rewrite (run_bind _ _ _ _ _ (take_head_run s (VICT c) t r (in_lists _ _ I) EV)). rewrite (run_bind _ _ _ t (relist (VICT c) r t false s)) by done.
    rewrite (run_bind _ _ _ (set_victims r xc) (relist (VICT c) r t false s)) by (apply get_cpu_run; unfold relist; simpl; by rewrite lookup_alter_eq, Hxc). change (c_curthread (set_victims r xc)) with (c_curthread xc).
    destruct (listed_thread s (VICT c) t I) as [x Hx]; [rewrite EV; by left|]. assert (Hcur : cur_of s c = Some (c_curthread xc)) by (unfold cur_of; by rewrite Hxc).
    assert (next : forall s1, section c s s1 -> victims_ok s1 c (ts - 1) -> exists s' ts', give_loop n c e share (ts - 1) s1 = Ret ts' s' /\ section c s1 s' /\ 0 <= ts' /\ victims_ok s' c ts' /\ lst s' (RUNQ c) = lst s1 (RUNQ c)).
    { intros s1 S1 V1. pose proof (ot_ncpus _ _ _ (sc_others _ _ _ S1)) as N1. apply IH; rewrite ?N1, ?(q_locks _ _ _ _ (sc_quiet _ _ _ S1)); try done; [apply S1|lia]. }
    destruct (Z.eqb_spec t (c_curthread xc)) as [Et|Et].
    + assert (S1 : section c s (transfer (VICT c) ([] ++ r) t (t_cpu x) (VICT c) true s)) by (eapply here_section; try done; first [by right|by left|by eexists]). change ([] ++ r) with r in S1.
      assert (Hl2' : l2 = []). { destruct Hl2 as [->|(cur & -> & Ec)]; [done|]. assert (cur = t) as -> by congruence. pose proof (lo_nodup _ (in_lists _ _ I) (VICT c)) as N. rewrite EV in N. apply NoDup_cons in N as [N _]. destruct N. unfold r. apply elem_of_app. right. by left. }
      set (s1 := transfer (VICT c) r t (t_cpu x) (VICT c) true s) in *.
      assert (Hvc : forall k, k = VICT c \/ k = RUNQ c -> valid s k) by (intros k [-> | ->]; by eexists).
      assert (L1 : lst s1 (VICT c) = l1 ++ [t]) by (unfold s1; rewrite transfer_lst by auto; rewrite decide_True by done; cbv zeta; rewrite decide_True by done; unfold r; by rewrite Hl2', app_nil_r).
      assert (V1 : victims_ok s1 c (ts - 1)). { exists l1, [t]. split; [done|]. split; [simpl in Hl1; lia|]. right. exists t. split; [done|]. by rewrite (q_cur _ _ _ _ (sc_quiet _ _ _ S1)), Hcur, Et. }
      destruct (next s1 S1 V1) as (s' & ts' & E' & S' & R1 & R2 & R3).
      exists s', ts'. split.
      * rewrite (run_bind _ _ _ tt s1) by (by apply taken_add_run). exact E'.
      * split; [by eapply section_trans|]. split; [done|]. split; [done|]. rewrite R3. unfold s1. rewrite transfer_lst by auto. by rewrite decide_False, decide_False by done.
    + destruct (give_one s c e t r (c_curthread xc) x I Hv He Hne EV Hcur Et Hx Hi) as (s1 & E1 & S1 & L1 & L2).
      assert (V1 : victims_ok s1 c (ts - 1)). { exists l1, l2. split; [done|]. split; [simpl in Hl1; lia|]. destruct Hl2 as [->|(cur & -> & Ec)]; [by left|right]. exists cur. by rewrite (q_cur _ _ _ _ (sc_quiet _ _ _ S1)). }
      destruct (next s1 S1 V1) as (s' & ts' & E' & S' & R1 & R2 & R3).
      exists s', ts'. split; [|split; [by eapply section_trans|split; [done|split; [done|by rewrite R3]]]].
        revert E1. unfold mbind, M_bind. destruct (mod_t t (set_tcpu e) _) as [? a1| | | | |]; try done. destruct (threadlist_addtail (RUNQ e) t a1) as [? a2| | | | |]; try done.
        destruct (get_cpu e a2) as [z a3| | | | |]; try done. intros ->. exact E'.
Qed.

Lemma give_run s c e share ts : inv ∅ s -> 0 <= c < ncpus s -> 0 <= e < ncpus s -> unlocked (locks s) -> 0 <= ts -> victims_ok s c ts ->
  exists s' ts', mig_give c e share ts s = Ret ts' s' /\ section c s s' /\ 0 <= ts' /\ victims_ok s' c ts' /\ lst s' (RUNQ c) = lst s (RUNQ c).
Proof.
  intros I Hv He U Hts V. unfold mig_give. destruct (Z.eqb_spec e c) as [->|Hne]; [exists s, ts; split; [done|]; split; [by apply section_refl|done]|].
  destruct (acquire_inv ∅ s c (runqueue_lock e) I Hv (proj1 (U e))) as (s1 & E1 & LS). pose proof LS as [I1 K1 L1 _ _ _].
  destruct (give_loop_run (Z.to_nat ts) s1 c e share ts) as (s2 & ts' & E2 & S2 & R1 & R2 & R3); try done; [by rewrite (lk_ncpus _ _ K1)..|rewrite L1, lookup_insert_ne by done; apply U|lia| |].
  { destruct V as (l1 & l2 & EV & Hl1 & Hl2). exists l1, l2. by rewrite (like_lst _ _ _ K1), (like_cur _ _ _ K1). }
  destruct (under_lock c (runqueue_lock e) s s1 s2 I Hv (proj1 (U e)) E1 S2) as (s3 & E3 & S3 & C3). exists s3, ts'.
  split; [|split; [done|split; [done|split]]].
  - rewrite (run_bind _ _ _ _ _ E1), (run_bind _ _ _ _ _ E2), (run_bind _ _ _ _ _ E3). done.
  - destruct R2 as (l1 & l2 & EV & Hl1 & Hl2). exists l1, l2. rewrite <- core_lst, C3, core_lst. split; [done|]. split; [done|].
    destruct Hl2 as [->|(cur & -> & Ec)]; [by left|right]. exists cur. split; [done|]. rewrite (q_cur _ _ _ _ (sc_quiet _ _ _ S3)), <- (like_cur _ _ c K1), <- (q_cur _ _ _ _ (sc_quiet _ _ _ S2)). done.
  - by rewrite <- core_lst, C3, core_lst, R3, (like_lst _ _ _ K1).
Qed.

(** ** Putting back *)

Lemma back_loop_run n s c : inv ∅ s -> is_Some (cpus s !! c) -> length (lst s (VICT c)) = n ->
  exists s', back_loop (S n) c s = Ret tt s' /\ section c s s' /\ lst s' (VICT c) = [] /\ lst s' (RUNQ c) = lst s (RUNQ c) ++ lst s (VICT c).
Proof.
  revert s. induction n as [|n IH]; intros s I Hc E; (destruct (lst s (VICT c)) as [|t r] eqn:EV; [|]); try done.
  - exists s. cbn [back_loop]. rewrite (run_bind _ _ s None s) by (by apply remhead_none). split; [done|]. split; [by apply section_refl|]. by rewrite app_nil_r.
  - destruct (listed_thread s (VICT c) t I) as [x Hx]; [rewrite EV; by left|].
    assert (S1 : section c s (transfer (VICT c) ([] ++ r) t (t_cpu x) (RUNQ c) true s)) by (eapply here_section; try done; first [by right|by left]). change ([] ++ r) with r in S1.
    set (s1 := transfer (VICT c) r t (t_cpu x) (RUNQ c) true s) in *.
    assert (L1 : lst s1 (VICT c) = r) by (unfold s1; by rewrite transfer_lst, decide_False, decide_True).
    assert (L2 : lst s1 (RUNQ c) = lst s (RUNQ c) ++ [t]) by (unfold s1; rewrite transfer_lst, decide_True by done; cbv zeta; by rewrite decide_False).
    destruct (IH s1) as (s' & E' & S' & R1 & R2); [apply S1|apply (in_dom _ _ (q_inv _ _ _ _ (sc_quiet _ _ _ S1))); rewrite (ot_ncpus _ _ _ (sc_others _ _ _ S1)); by apply (in_dom _ _ I)|rewrite L1; simpl in E; lia|].
    exists s'. split; [|split; [by eapply section_trans|split; [done|rewrite R2, L1, L2, <- app_assoc; done]]].
    change (back_loop (S (S n)) c) with (t ← threadlist_remhead (VICT c); match t with None => mret tt | Some t => _ ← threadlist_addtail (RUNQ c) t; back_loop (S n) c end).
    rewrite (run_bind _ _ _ _ _ (take_head_run s (VICT c) t r (in_lists _ _ I) EV)). rewrite (run_bind _ _ _ tt s1) by (by apply taken_add_run). exact E'.
Qed.

Lemma back_run s c : inv ∅ s -> 0 <= c < ncpus s -> unlocked (locks s) ->
  exists s', mig_back c s = Ret tt s' /\ section c s s' /\ lst s' (VICT c) = [] /\ lst s' (RUNQ c) = lst s (RUNQ c) ++ lst s (VICT c).
Proof.
  intros I Hv U. unfold mig_back. rewrite (run_bind _ _ s s s) by done. destruct (lst s (VICT c)) as [|t r] eqn:EV.
  - exists s. rewrite (run_bind _ _ s tt s) by done. rewrite (run_bind _ _ s s s) by done. rewrite EV. split; [done|]. split; [by apply section_refl|]. by rewrite app_nil_r.
  - destruct (acquire_inv ∅ s c (runqueue_lock c) I Hv (proj1 (U c))) as (s1 & E1 & LS). pose proof LS as [I1 K1 L1 _ _ _].
    destruct (back_loop_run (length (t :: r)) s1 c I1) as (s2 & E2 & S2 & R1 & R2); [apply (in_dom _ _ I1); by rewrite (lk_ncpus _ _ K1)|by rewrite (like_lst _ _ _ K1), EV|].
    destruct (under_lock c (runqueue_lock c) s s1 s2 I Hv (proj1 (U c)) E1 S2) as (s3 & E3 & S3 & C3). exists s3.
    assert (V3 : lst s3 (VICT c) = []) by (by rewrite <- core_lst, C3, core_lst).
    split; [|split; [done|split; [done|by rewrite <- core_lst, C3, core_lst, R2, !(like_lst _ _ _ K1), EV]]].
    rewrite (run_bind _ _ s tt s3). 2:{ rewrite (run_bind _ _ _ _ _ E1), (run_bind _ _ _ _ _ E2). exact E3. }
    rewrite (run_bind _ _ s3 s3 s3) by done. by rewrite V3.
Qed.

End SchedMig.
