(* ===== verification/SchedMachine.v ===== *)
(** * The thread system as a machine

    A step is an operation that one CPU runs to its end (to the next point where it holds no
    lock of the thread system), or one critical section of its migration.  The steps of the
    CPUs interleave in any order.  [enabled] says when the code may be at that operation. *)

From S2P Require Import Prelude Cpu Sched SchedInv SchedMoves SchedWake SchedSwitch SchedPark SchedFrame SchedTrap SchedMig.

Module SchedMachine.
Import Cpu(splid, splx, splhigh, IPL_NONE, IPL_HIGH, spinlock_acquire, spinlock_release, cpu_wf, held).
Import Sched SchedInv SchedMoves SchedCore SchedOps SchedWake SchedSwitch SchedPark SchedFrame SchedFork SchedTrap SchedMig.

(** ** Operations *)

Inductive op :=
  | Acquire (l : splid) | Release (l : splid) | Splx (spl : Z)
  | Fork (proc : Z) | Yield | Exit
  | Sleep (w : Z) (lk : splid) | Wakeone (w : Z) (lk : splid) | Wakeall (w : Z) (lk : splid)
  | ChanCreate (name : string) | ChanDestroy (w : Z)
  | TrapEnter | TrapExit | Ipi | Poll | Tick | Shutdown.

Definition ignore {A} (m : M tsys A) : M tsys unit := _ ← m; mret tt.

Definition tick (c : Z) : M tsys unit := mod_cpu c (fun x => set_hardclocks (u32 (c_hardclocks x + 1)) x).

Definition run_op (c : Z) (o : op) : M tsys unit :=
  match o with
  | Acquire l => on c (spinlock_acquire l)
  | Release l => on c (spinlock_release l)
  | Splx spl => ignore (on c (splx spl))
  | Fork p => ignore (thread_fork c p)
  | Yield => ignore (thread_yield c)
  | Exit => ignore (thread_exit c)
  | Sleep w lk => ignore (wchan_sleep c w lk)
  | Wakeone w lk => wchan_wakeone c w lk
  | Wakeall w lk => wchan_wakeall c w lk
  | ChanCreate n => ignore (wchan_create n)
  | ChanDestroy w => wchan_destroy w
  | TrapEnter => trap_enter c
  | TrapExit => trap_exit c
  | Ipi => ignore (interprocessor_interrupt c)
  | Poll => ignore (idle_poll c)
  | Tick => tick c
  | Shutdown => thread_shutdown c
  end.

(** In the loop around [cpu_idle], outside of any interrupt. *)
Definition in_idle_loop (y : thread) : bool := match t_context y with IDLING _ d => bool_decide (d = length (t_traps y)) | _ => false end.

Definition client (l : splid) : bool := negb (bool_decide (l.1 = "c_runqueue_lock"%string)) && negb (bool_decide (l.1 = "c_ipi_lock"%string)).
Definition holds (s : tsys) (c : Z) (l : splid) : bool := bool_decide (locks s !! l = Some c).

(** What the code of a CPU that runs (and does not wait in [cpu_idle]) may do next. *)
Definition allowed (c : Z) (o : op) (s : tsys) (x : cpu) (y : thread) : bool :=
  match o with
  | Acquire l => client l && bool_decide (locks s !! l = None)
  | Release l => holds s c l
  | Splx spl => (spl =? IPL_HIGH) || ((spl =? IPL_NONE) && bool_decide (t_traps y = []) && negb (c_isidle x))
  | Yield => c_spinlocks x =? 0
  | Exit => negb (c_isidle x) && (c_spinlocks x =? 0)
  | Sleep w lk => bool_decide (is_Some (wchans s !! w)) && holds s c lk && (c_spinlocks x =? 1) && negb (t_in_interrupt y)
  | Wakeone w lk | Wakeall w lk => holds s c lk
  | ChanDestroy w => match wchans s !! w with Some ch => bool_decide (wc_threads ch = []) | None => false end
  | TrapExit => bool_decide (t_traps y <> []) && (c_spinlocks x =? 0)
  | Fork _ | ChanCreate _ | Ipi | Tick | Shutdown => true
  | TrapEnter | Poll => false
  end.

Definition enabled (c : Z) (o : op) (s : tsys) : bool :=
  match cpus s !! c with
  | None => false
  | Some x =>
      match threads s !! c_curthread x with
      | None => false
      | Some y =>
          negb (c_halted x) &&
          match o with
          | TrapEnter => irqs_on x || (c_isidle x && in_idle_loop y)
          | Poll => c_isidle x && in_idle_loop y && negb (c_asleep x)
          | _ => negb (c_asleep x) && negb (c_isidle x && in_idle_loop y) && allowed c o s x y
          end
      end
  end.

(** ** Migration: where a CPU is in [thread_consider_migration] *)

Inductive migpc :=
  | Counting (i my_count total_count : Z)
  | Giving (i one_share to_send : Z).

Record world := mk_world { sys : tsys; pcs : gmap Z migpc }.

Definition awake (s : tsys) (c : Z) : bool :=
  match cpus s !! c with
  | None => false
  | Some x => match threads s !! c_curthread x with None => false | Some y => negb (c_halted x) && negb (c_asleep x) && negb (c_isidle x && in_idle_loop y) end
  end.

Inductive step : world -> world -> Prop :=
  | step_op c o s s' P : P !! c = None -> enabled c o s = true -> run_op c o s = Ret tt s' -> step (mk_world s P) (mk_world s' P)
  | step_start c s P : P !! c = None -> awake s c = true -> step (mk_world s P) (mk_world s (<[c := Counting 0 0 0]> P))
  | step_count c i my total s s' r P : P !! c = Some (Counting i my total) -> i < ncpus s -> mig_count c i my total s = Ret r s' ->
      step (mk_world s P) (mk_world s' (<[c := Counting (i + 1) r.1 r.2]> P))
  | step_enough c my total s P : P !! c = Some (Counting (ncpus s) my total) -> my < DIVROUNDUP total (ncpus s) -> step (mk_world s P) (mk_world s (delete c P))
  | step_take c my total s s' P : P !! c = Some (Counting (ncpus s) my total) -> DIVROUNDUP total (ncpus s) <= my ->
      mig_take c (my - DIVROUNDUP total (ncpus s)) s = Ret tt s' ->
      step (mk_world s P) (mk_world s' (<[c := Giving 0 (DIVROUNDUP total (ncpus s)) (my - DIVROUNDUP total (ncpus s))]> P))
  | step_give c i share ts ts' s s' P : P !! c = Some (Giving i share ts) -> i < ncpus s -> 0 < ts -> mig_give c i share ts s = Ret ts' s' ->
      step (mk_world s P) (mk_world s' (<[c := Giving (i + 1) share ts']> P))
  | step_back c i share ts s s' P : P !! c = Some (Giving i share ts) -> i = ncpus s \/ ts <= 0 -> mig_back c s = Ret tt s' ->
      step (mk_world s P) (mk_world s' (delete c P)).

(** ** The invariant between steps *)

Record good (s : tsys) : Prop := mk_good {
  g_inv : inv ∅ s;
  g_wake : all_wake s;
  g_unlocked : unlocked (locks s);
  g_idle c x y : cpus s !! c = Some x -> threads s !! c_curthread x = Some y -> c_isidle x = true -> in_cpu_idle y -> c_spinlocks x = 0
}.

Definition pc_ok (s : tsys) (c : Z) (pc : option migpc) : Prop :=
  match pc with
  | None => lst s (VICT c) = []
  | Some (Counting i my total) => lst s (VICT c) = [] /\ 0 <= i <= ncpus s /\ 0 <= my <= Z.of_nat (length (lst s (RUNQ c))) /\ 0 <= total /\ is_Some (cpus s !! c) /\ awake s c = true
  | Some (Giving i share ts) => 0 <= i <= ncpus s /\ 0 <= ts /\ victims_ok s c ts /\ is_Some (cpus s !! c) /\ awake s c = true
  end.

Record fine (w : world) : Prop := mk_fine {
  f_good : good (sys w);
  f_pcs c : pc_ok (sys w) c (pcs w !! c)
}.

(** ** The invariant is kept *)

Lemma idle_loop_spec y : in_idle_loop y = true <-> in_cpu_idle y.
Proof.
  unfold in_idle_loop, in_cpu_idle. destruct (t_context y) as [| |spl d|spl]; try (split; [done|intros (? & ?); congruence]). rewrite bool_decide_eq_true. split; [intros ->; eauto|intros (? & [= _ ->]); done].
Qed.

(** A CPU that runs code: awake, and in an interrupt when it is idle. *)
Definition busy (s : tsys) (c : Z) (x : cpu) (y : thread) : Prop :=
  cpus s !! c = Some x /\ threads s !! c_curthread x = Some y /\ c_halted x = false /\ c_asleep x = false /\ (c_isidle x = true -> ~ in_cpu_idle y).

Lemma awake_busy s c : awake s c = true <-> exists x y, busy s c x y.
Proof.
  unfold awake, busy. destruct (cpus s !! c) as [x|]; [|split; [done|intros (? & ? & ? & _); done]]. destruct (threads s !! c_curthread x) as [y|] eqn:Hy.
  - rewrite !andb_true_iff, !negb_true_iff, andb_false_iff. split.
    + intros [[H1 H2] H3]. exists x, y. split_and!; try done. intros Hi Hd. apply idle_loop_spec in Hd. destruct H3; congruence.
    + intros (x' & y' & [= <-] & Hy' & H1 & H2 & H3). split; [done|]. destruct (c_isidle x); [|by left]. right. apply not_true_iff_false. intros Hd%idle_loop_spec. apply (H3 eq_refl). congruence.
  - split; [done|]. intros (x' & y' & [= <-] & Hy' & _). congruence.
Qed.

(** The general step. *)
Lemma good_next c T s s' : good s -> inv ∅ s' -> unlocked (locks s') -> others c s s' -> kept T s s' ->
  (forall t y, t ∈ T -> threads s !! t = Some y -> t_cpu y = c) -> (forall d, d <> c -> nlocks s' d = nlocks s d) ->
  (forall x', cpus s' !! c = Some x' -> wakes c x') ->
  (forall x' y', cpus s' !! c = Some x' -> threads s' !! c_curthread x' = Some y' -> c_isidle x' = true -> in_cpu_idle y' -> c_spinlocks x' = 0) -> good s'.
Proof.
  intros [GI GW GU GD] I' U' O K HT HN HW HD. split; [done| |done|].
  - intros d x' Hx'. destruct (decide (d = c)) as [->|Hd]; [by apply HW|]. destruct (cpus s !! d) as [x|] eqn:Hx; [|by rewrite (ot_none _ _ _ O) in Hx'].
    destruct (ot_other _ _ _ O d x Hd Hx) as (x1 & Hx1 & G). assert (x1 = x') by congruence. subst x1. apply G. by apply (GW d).
  - intros d x' y' Hx' Hy' Hi Hc. destruct (decide (d = c)) as [->|Hd]; [by eapply HD|]. destruct (cpus s !! d) as [x|] eqn:Hx; [|by rewrite (ot_none _ _ _ O) in Hx'].
    destruct (ot_other _ _ _ O d x Hd Hx) as (x1 & Hx1 & (E1 & E2 & _)). assert (x1 = x') by congruence. subst x1.
    destruct (in_cpus _ _ GI _ _ Hx) as [(y & Hy & Hcy & _) _]. assert (HnT : c_curthread x ∉ T) by (intros HH; rewrite (HT _ _ HH Hy) in Hcy; congruence).
    destruct (K _ _ HnT Hy) as (y1 & Hy1 & K1 & K2). rewrite E1 in Hy'. assert (y1 = y') by congruence. subst y1.
    assert (E3 : c_spinlocks x' = c_spinlocks x). { specialize (HN d Hd). unfold nlocks in HN. rewrite Hx, Hx' in HN. by apply (inj Some) in HN. }
    rewrite E3. eapply (GD d x y); [done|done|congruence|]. destruct Hc as [spl Hc]. exists spl. congruence.
Qed.

(** A step of a CPU that goes on with the same thread. *)
Lemma good_busy c s s' x y x' : good s -> busy s c x y -> inv ∅ s' -> unlocked (locks s') -> others c s s' -> kept [] s s' -> (forall d, d <> c -> nlocks s' d = nlocks s d) ->
  cpus s' !! c = Some x' -> c_curthread x' = c_curthread x -> c_isidle x' = c_isidle x -> c_asleep x' = false -> good s'.
Proof.
  intros G (Hx & Hy & _ & Ha & Hb) I' U' O K HN Hx' E1 E2 E3. eapply (good_next c []); try done.
  - intros t z ?%not_elem_of_nil. done.
  - intros z Hz Ha'. congruence.
  - intros z z' Hz Hz' Hi Hc. assert (z = x') by congruence. subst z. destruct (K (c_curthread x) y) as (y1 & Hy1 & K1 & K2); [by apply not_elem_of_nil|done|].
    rewrite E1 in Hz'. assert (z' = y1) by congruence. subst z'. destruct (Hb ltac:(congruence)). destruct Hc as [spl Hc]. exists spl. congruence.
Qed.

(** A step after which the CPU holds no spinlock. *)
Lemma good_switched c s s' T : good s -> inv ∅ s' -> unlocked (locks s') -> others c s s' -> kept T s s' -> (forall t y, t ∈ T -> threads s !! t = Some y -> t_cpu y = c) ->
  (forall d, d <> c -> nlocks s' d = nlocks s d) -> nlocks s' c = Some 0 -> all_wake s' -> good s'.
Proof.
  intros G I' U' O K HT HN HN0 HW. eapply (good_next c T); try done; [intros; by apply (HW c)|]. intros z z' Hz _ _ _. unfold nlocks in HN0. rewrite Hz in HN0. by apply (inj Some) in HN0.
Qed.

End SchedMachine.
