(* ===== verification/SchedSteps.v ===== *)
(** * Every enabled operation returns and keeps the invariant *)

From S2P Require Import Prelude Cpu Sched SchedInv SchedMoves SchedWake SchedSwitch SchedPark SchedFrame SchedTrap SchedMig SchedMachine.

Module SchedSteps.
Import Cpu(splid, splx, splhigh, IPL_NONE, IPL_HIGH, spinlock_acquire, spinlock_release, cpu_wf, held).
Import Sched SchedInv SchedMoves SchedCore SchedOps SchedWake SchedSwitch SchedPark SchedFrame SchedFork SchedTrap SchedMig SchedMachine.

(** ** What a step of CPU [c] comes to *)

Record result (c : Z) (s s' : tsys) : Prop := mk_result {
  re_good : good s';
  re_others : others c s s';
  re_vict : lst s' (VICT c) = lst s (VICT c);
  re_awake d : d <> c -> awake s d = true -> awake s' d = true
}.

Lemma awake_kept c T s s' d : inv ∅ s -> others c s s' -> kept T s s' -> (forall t y, t ∈ T -> threads s !! t = Some y -> t_cpu y = c) -> d <> c -> awake s d = true -> awake s' d = true.
Proof.
  intros I O K HT Hd (x & y & Hx & Hy & Hh & Ha & Hi)%awake_busy. apply awake_busy. destruct (ot_other _ _ _ O d x Hd Hx) as (x' & Hx' & (E1 & E2 & E3 & E4 & E5 & _)).
  destruct (in_cpus _ _ I _ _ Hx) as [(y0 & Hy0 & Hcy & _) _]. assert (y0 = y) by congruence. subst y0.
  destruct (K (c_curthread x) y) as (y' & Hy' & K1 & K2); [intros HH; rewrite (HT _ _ HH Hy) in Hcy; congruence|done|].
  exists x', y'. split_and!; try congruence. intros Hi' [spl Hc]. apply Hi; [congruence|]. exists spl. congruence.
Qed.

Lemma frame_vict c s s' : frame c s s' -> lst s' (VICT c) = lst s (VICT c).
Proof. intros [_ _ E _]. unfold lst. by rewrite E. Qed.
Lemma nil_own c (s : tsys) : forall t y, t ∈ [] -> threads s !! t = Some y -> t_cpu y = c.
Proof. by intros t y ?%not_elem_of_nil. Qed.

(** The same thread goes on. *)
Lemma result_busy c s s' x y : good s -> busy s c x y -> inv ∅ s' -> unlocked (locks s') -> frame c s s' -> kept [] s s' -> (forall d, d <> c -> nlocks s' d = nlocks s d) ->
  (exists x', cpus s' !! c = Some x' /\ c_curthread x' = c_curthread x /\ c_isidle x' = c_isidle x /\ c_asleep x' = c_asleep x) -> result c s s'.
Proof.
  intros G B I' U' F K HN (x' & Hx' & E1 & E2 & E3). pose proof (frame_others _ _ _ F) as O. split; [|done|by apply frame_vict|].
  - eapply good_busy; try done. rewrite E3. by destruct B as (_ & _ & _ & ? & _).
  - intros d Hd. eapply awake_kept; try done; [apply G|apply nil_own].
Qed.

(** Only priority levels and locks change. *)
Lemma frame_like c s s' : like s s' -> frame c s s'.
Proof. intros L. apply frame_of_core. by rewrite (core_like _ _ L). Qed.
Lemma own_fields s s' c x : cpus s !! c = Some x -> cur_of s' c = cur_of s c -> own_bits s' c = own_bits s c ->
  exists x', cpus s' !! c = Some x' /\ c_curthread x' = c_curthread x /\ c_isidle x' = c_isidle x /\ c_asleep x' = c_asleep x.
Proof.
  unfold cur_of, own_bits. intros -> E1 E2. destruct (cpus s' !! c) as [x'|]; [|done]. simpl in *. apply (inj Some) in E1, E2. exists x'. split; [done|]. split; [done|]. by injection E2 as -> -> _.
Qed.

Lemma result_like c s s' x y : good s -> busy s c x y -> inv ∅ s' -> unlocked (locks s') -> like s s' -> (forall d, d <> c -> nlocks s' d = nlocks s d) -> result c s s'.
Proof.
  intros G B I' U' L HN. eapply result_busy; try done; [by apply frame_like|by apply kept_like|]. eapply own_fields; [apply B|by apply like_cur|by apply like_own].
Qed.

(** A quiet change with a known effect on the core. *)
Lemma result_quiet c s s' x y : good s -> busy s c x y -> quiet ∅ c s s' -> frame c (core s) (core s') -> kept [] (core s) (core s') ->
  own_bits (core s') c = own_bits (core s) c -> result c s s'.
Proof.
  intros G B Q F K E. eapply result_busy; try done; [apply Q|by eapply unlocked_quiet; [|apply G]|by apply frame_of_core|by apply kept_of_core|intros d _; apply Q|].
  eapply own_fields; [apply B|apply Q|by rewrite <- core_own, E, core_own].
Qed.

Lemma count_other (f : Z -> Z) (o : option Z) (d c : Z) : d <> c -> (fun k => if decide (d = c) then f k else k) <$> o = o.
Proof. intros Hd. destruct o; simpl; [by rewrite decide_False|done]. Qed.

(** ** Locks and levels *)

Section Ops.
Context (s : tsys) (c : Z) (x : cpu) (y : thread).
Context (G : good s) (B : busy s c x y).

Lemma busy_valid : 0 <= c < ncpus s.
Proof using G B. apply (in_dom _ _ (g_inv _ G)). destruct B as (? & _). eauto. Qed.
Lemma busy_at : at_cpu s c (c_curthread x) (c_isidle x) y.
Proof using B. destruct B as (Hx & Hy & _). split; [by exists x|done]. Qed.

Lemma acquire_step l : client l = true -> locks s !! l = None -> exists s', on c (spinlock_acquire l) s = Ret tt s' /\ result c s s'.
Proof using G B.
    intros Hcl Hl. destruct (acquire_inv ∅ s c l (g_inv _ G) busy_valid Hl) as (s' & E & [I' K' L' S' X' N']). exists s'. split; [done|]. eapply result_like; try done.
    - rewrite L'. intros d. apply andb_true_iff in Hcl as [H1%negb_true_iff H2%negb_true_iff]. apply bool_decide_eq_false in H1, H2. rewrite !lookup_insert_ne; [apply G|intros ->; done|intros ->; done].
    - intros d Hd. rewrite N'. by apply count_other.
Qed.

Lemma release_step l : locks s !! l = Some c -> exists s', on c (spinlock_release l) s = Ret tt s' /\ result c s s'.
Proof using G B.
    intros Hl. destruct (release_inv ∅ s c l (g_inv _ G) busy_valid Hl) as (s' & E & [I' K' L' S' X' N']). exists s'. split; [done|]. eapply result_like; try done.
    - rewrite L'. intros d. destruct (g_unlocked _ G d). split; apply lookup_delete_None; by right.
    - intros d Hd. rewrite N'. by apply count_other.
Qed.

Lemma splx_step spl : spl = IPL_HIGH \/ (spl = IPL_NONE /\ t_traps y = [] /\ c_isidle x = false) -> exists s', ignore (on c (splx spl)) s = Ret tt s' /\ result c s s'.
Proof using G B.
    intros Hs. destruct B as (Hx & Hy & _). destruct (splx_inv ∅ s c x y spl (g_inv _ G) Hx Hy) as (s' & E & I' & K' & L' & S' & N' & _).
    - destruct Hs as [->|[-> _]]; [by right|by left].
    - intros _. destruct Hs as [->|(-> & -> & ->)]; [destruct (c_isidle x); [done|by right]|by left].
    - exists s'. split; [unfold ignore; by rewrite (run_bind _ _ _ _ _ E)|]. eapply result_like; try done. rewrite L'. apply G.
Qed.

  (** ** Threads and channels *)

Lemma own_enqueue e d t s0 : own_bits (enqueue e d t s0) e = own_bits s0 e.
Proof using.
    unfold own_bits. destruct (cpus s0 !! e) as [z|] eqn:E; [|by rewrite enqueue_cpu_none]. destruct (enqueue_cpu e d t s0 e z E) as (z' & -> & _ & _ & _ & E1 & E2 & E3 & _). simpl. by rewrite E1, E2, E3.
Qed.
Lemma own_wake1 e w s0 : own_bits (wake1 e w s0) e = own_bits s0 e.
Proof using.
    unfold wake1. destruct (lst s0 (WCHAN w)) as [|t r]; [done|]. assert (E : own_bits (relist (WCHAN w) r t false s0) e = own_bits s0 e) by done.
    case_match; [|done]. by rewrite own_enqueue.
Qed.
Lemma own_iter e (f : tsys -> tsys) n s0 : (forall s, own_bits (f s) e = own_bits s e) -> own_bits (Nat.iter n f s0) e = own_bits s0 e.
Proof using. intros Hf. induction n as [|n IH]; [done|]. simpl. by rewrite Hf. Qed.

Lemma wakeone_step w lk : locks s !! lk = Some c -> exists s', wchan_wakeone c w lk s = Ret tt s' /\ result c s s'.
Proof using G B.
    intros Hl. destruct (wakeone_run s c w lk (g_inv _ G) busy_valid (g_unlocked _ G) Hl) as (s' & E & Q & C). exists s'. split; [done|].
    eapply result_quiet; try done; rewrite C; [apply frame_wake1|apply kept_wake1|apply own_wake1].
Qed.
Lemma wakeall_step w lk : locks s !! lk = Some c -> exists s', wchan_wakeall c w lk s = Ret tt s' /\ result c s s'.
Proof using G B.
    intros Hl. destruct (wakeall_run s c w lk (g_inv _ G) busy_valid (g_unlocked _ G) Hl) as (s' & E & Q & C & _). exists s'. split; [done|].
    eapply result_quiet; try done; rewrite C; [apply frame_iter; intros; apply frame_wake1|apply kept_iter; intros; apply kept_wake1|apply own_iter; intros; apply own_wake1].
Qed.

  (** Changes of memory and of wait channels only. *)
Lemma other_step s' : inv ∅ s' -> cpus s' = cpus s -> ncpus s' = ncpus s -> threads s' = threads s -> locks s' = locks s -> result c s s'.
Proof using G B.
    intros I' E1 E2 E3 E4. eapply result_busy; try done; [rewrite E4; apply G|by apply frame_same|by apply kept_same|intros d _; unfold nlocks; by rewrite E1|]. exists x. rewrite E1. by destruct B as (? & _).
Qed.

Lemma fork_step p : exists s', ignore (thread_fork c p) s = Ret tt s' /\ result c s s'.
Proof using G B.
    destruct (fork_fails s) eqn:F.
    - destruct (fork_fail s c _ y _ p (g_inv _ G) busy_at F) as (a & o & E & Ha). exists (set_mem a o s). split; [unfold ignore; by rewrite (run_bind _ _ _ _ _ E)|]. apply other_step; try done. by apply inv_mem; [apply G|].
    - destruct (fork_run s c _ y _ p (g_inv _ G) busy_at (g_unlocked _ G) F) as (s' & E & Q & C). exists s'. split; [unfold ignore; by rewrite (run_bind _ _ _ _ _ E)|].
      set (q := if p =? 0 then t_proc y else p) in *. set (f := forked c q s) in *. assert (Ht : threads (core s) !! next_addr s = None) by (rewrite core_thread, (inv_fresh_addr _ _ (g_inv _ G)); done).
      assert (Ef : threads (core f) = <[next_addr s := tcore (STARTED c q)]> (threads (core s))) by (simpl; by rewrite fmap_insert).
      eapply result_quiet; try done; rewrite C.
      + etrans; [|apply frame_enqueue]. by apply frame_same.
      + eapply kept_trans; [|apply kept_enqueue]. intros t z _ Hz. exists z. split; [|done]. rewrite Ef, lookup_insert_ne; [done|]. intros <-. congruence.
      + by rewrite own_enqueue.
Qed.

Lemma chan_create_step n : exists s', ignore (wchan_create n) s = Ret tt s' /\ result c s s'.
Proof using G B.
    destruct (chan_create_run s n (g_inv _ G)) as [[F E]|[F E]]; eexists; (split; [unfold ignore; by rewrite (run_bind _ _ _ _ _ E)|]); apply other_step; try done; [apply alloc_inv, G|by apply chan_create_inv; [apply G|]].
Qed.
Lemma chan_destroy_step w ch : wchans s !! w = Some ch -> wc_threads ch = [] -> exists s', wchan_destroy w s = Ret tt s' /\ result c s s'.
Proof using G B. intros Hw Hl. destruct (chan_destroy_run s w ch (g_inv _ G) Hw Hl) as [E I']. eexists. split; [exact E|]. by apply other_step. Qed.

  (** ** Switches *)

  (** The threads that a switch touches are on this CPU. *)
Lemma switch_own t z : t ∈ c_curthread x :: lst s (RUNQ c) ++ lst s (ZOMB c) -> threads s !! t = Some z -> t_cpu z = c.
Proof using G B.
    intros [->|[Ht|Ht]%elem_of_app]%elem_of_cons Hz.
    - eapply (current_cpu ∅ s _ _ (c_isidle x)); [apply G| |done]. destruct B as (Hx & _). by exists x.
    - apply (listed_place s (RUNQ c) t z (g_inv _ G) Ht Hz).
    - apply (listed_place s (ZOMB c) t z (g_inv _ G) Ht Hz).
Qed.

Lemma switched_result s' ns wc spl s0 : inv ∅ s' -> core s' = (switched_core c (c_curthread x) spl ns wc s0).2 -> frame c (core s) s0 -> kept [c_curthread x] (core s) s0 ->
    lst s0 (RUNQ c) = lst s (RUNQ c) -> lst s0 (ZOMB c) = lst s (ZOMB c) -> is_Some (cpus s0 !! c) ->
    unlocked (locks s') -> (forall d, nlocks s' d = (fun k => if decide (d = c) then 0 else k) <$> nlocks s d) -> result c s s'.
Proof using G B.
    intros I' C F K L1 L2 Hc0 U' N'. assert (F' : frame c s s'). { apply frame_of_core. rewrite C. etrans; [exact F|apply frame_switched]. }
    assert (K' : kept (c_curthread x :: lst s (RUNQ c) ++ lst s (ZOMB c)) s s').
    { apply kept_of_core. rewrite C. eapply kept_trans; [eapply kept_more; [exact K|]|].
      - intros t Ht%list_elem_of_singleton. subst. by left.
      - rewrite <- L1, <- L2. by apply kept_switched. }
    split; [|by apply frame_others|by apply frame_vict|].
    - eapply good_switched; try done; [by apply frame_others|apply switch_own| | |].
      + intros d Hd. rewrite N'. by apply (count_other (fun _ => 0)).
      + rewrite N'. unfold nlocks. destruct B as (-> & _). simpl. by rewrite decide_True.
      + apply core_wake. rewrite C. apply switched_wake. eapply frame_wakes; [exact F|]. intros d z _ Hz. by apply (proj2 (core_wake s) (g_wake _ G)).
    - intros d Hd. eapply awake_kept; [apply G|by apply frame_others|exact K'|apply switch_own|done].
Qed.

Lemma core_cpu_some : is_Some (cpus (core s) !! c).
Proof using B. rewrite core_cpu. destruct B as (-> & _). by eexists. Qed.

Lemma go_result s' ns wc : inv ∅ s' -> core s' = (switched_core c (c_curthread x) (t_curspl y) ns wc (core s)).2 -> unlocked (locks s') ->
    (forall d, nlocks s' d = (fun k => if decide (d = c) then 0 else k) <$> nlocks s d) -> result c s s'.
Proof using G B.
    intros I' C U' N'. eapply switched_result; try done; [by apply kept_same|apply core_lst|apply core_lst|apply core_cpu_some].
Qed.

Lemma stay_result s' : quiet ∅ c s s' -> core s' = core s -> result c s s'.
Proof using G B. intros Q C. eapply result_quiet; try done; rewrite C; [done|by apply kept_same|done]. Qed.

Lemma nlocks_busy : nlocks s c = Some (c_spinlocks x).
Proof using B. unfold nlocks. destruct B as (-> & _). done. Qed.

Lemma yield_step : c_spinlocks x = 0 -> exists s', ignore (thread_yield c) s = Ret tt s' /\ result c s s'.
Proof using G B.
    intros Hn. pose proof busy_at as A. assert (R : exists s' r, thread_yield c s = Ret r s' /\ result c s s').
    { unfold thread_yield. destruct (c_isidle x) eqn:Ei.
      - destruct (switch_idle s c _ y S_READY None (g_inv _ G) A) as (s' & E & Q & C). eexists s', _. split; [exact E|by apply stay_result].
      - destruct (lst s (RUNQ c)) as [|t r] eqn:Eq.
        + destruct (switch_stay s c _ y (g_inv _ G) A (proj1 (g_unlocked _ G c)) Eq) as (s' & E & Q & C). eexists s', _. split; [exact E|by apply stay_result].
        + destruct (switch_go s c _ y S_READY None (g_inv _ G) A (g_unlocked _ G)) as (s' & E & I' & C & L & N); [split; [by rewrite Eq|by rewrite nlocks_busy, Hn]|].
          eexists s', _. split; [exact E|]. eapply go_result; try done. rewrite L. apply G. }
    destruct R as (s' & r & E & R). exists s'. split; [unfold ignore; by rewrite (run_bind _ _ _ _ _ E)|done].
Qed.

Lemma sleep_step w lk : is_Some (wchans s !! w) -> locks s !! lk = Some c -> c_spinlocks x = 1 -> t_in_interrupt y = false -> exists s', ignore (wchan_sleep c w lk) s = Ret tt s' /\ result c s s'.
Proof using G B.
    intros Hw Hl Hn Hin. pose proof busy_at as A. pose proof B as (Hx & Hy & _ & _ & Hb).
    assert (Ei : c_isidle x = false).
    { destruct (c_isidle x) eqn:Ei; [|done]. destruct (in_roles _ _ (g_inv _ G) _ _ Hy) as (_ & _ & R3 & _ & _ & ((_ & _ & C3) & _)); [set_solver|].
      destruct (R3 c (proj1 A)) as (_ & _ & spl & d & top & base & K1 & K2 & K3 & K4 & _). rewrite Hin in C3. symmetry in C3. apply bool_decide_eq_false in C3.
      destruct (Hb eq_refl). exists spl. destruct (t_traps y); [|by destruct C3]. destruct top, base; try done. simpl in K3. by subst d. }
    rewrite Ei in A. destruct (switch_go s c _ y S_SLEEP (Some (w, lk)) (g_inv _ G) A (g_unlocked _ G)) as (s' & E & I' & C & L & N); [exists w, lk; split_and!; try done; by rewrite nlocks_busy, Hn|].
    exists s'. split.
    - assert (Ew : wchan_sleep c w lk s = thread_switch c S_SLEEP (Some (w, lk)) s); [|unfold ignore; rewrite E in Ew; by rewrite (run_bind _ _ _ _ _ Ew)]. unfold wchan_sleep. rewrite (run_bind _ _ s x s) by (by apply get_cpu_run). rewrite (run_bind _ _ s y s) by (by apply get_t_run). rewrite Hin. rewrite (run_bind _ _ s tt s) by done.
      rewrite (run_bind _ _ s true s) by (eapply wchan_held; [apply G|apply busy_valid|done]). rewrite (run_bind _ _ s tt s) by done. rewrite Hn. by rewrite (run_bind _ _ s tt s) by done.
    - eapply go_result; try done. rewrite L. intros d. destruct (g_unlocked _ G d). split; apply lookup_delete_None; by right.
Qed.

Lemma exit_step : c_isidle x = false -> c_spinlocks x = 0 -> exists s', ignore (thread_exit c) s = Ret tt s' /\ result c s s'.
Proof using G B.
    intros Ei Hn. pose proof busy_at as A. rewrite Ei in A. destruct (exit_run s c _ y (g_inv _ G) A (g_unlocked _ G)) as (s' & r & E & C & I' & L & N); [by rewrite nlocks_busy, Hn|].
    exists s'. split; [unfold ignore; by rewrite (run_bind _ _ _ _ _ E)|]. set (s0 := upd_t (c_curthread x) (set_proc 0) (core s)) in *.
    eapply (switched_result s' S_ZOMBIE None IPL_HIGH s0); try done.
    - by rewrite <- C.
    - apply frame_upd_t.
    - apply kept_upd_t. by right.
    - apply (core_lst s (RUNQ c)).
    - apply (core_lst s (ZOMB c)).
    - apply core_cpu_some.
    - rewrite L. apply G.
    - intros d. rewrite N. destruct (decide (d = c)) as [->|Hd]; [rewrite nlocks_busy, Hn; done|]. by destruct (nlocks s d).
Qed.

End Ops.

(** ** Interrupts *)

Lemma frame_upd_both c t f g s : (forall x, c_victims (f x) = c_victims x) -> frame c s (upd_t t g (upd_c c f s)).
Proof. intros Hf. etrans; [by apply (frame_upd_c c f)|apply frame_upd_t]. Qed.
Lemma nlocks_both t f g s c d : (forall x, c_spinlocks (f x) = c_spinlocks x) -> nlocks (upd_t t g (upd_c c f s)) d = nlocks s d.
Proof.
  intros Hf. unfold nlocks. change (c_spinlocks <$> cpus (upd_c c f s) !! d = c_spinlocks <$> cpus s !! d). rewrite upd_c_lookup. case_decide; [subst|done]. destruct (cpus s !! c); simpl; [by rewrite Hf|done].
Qed.

(** The CPU and its current thread change, and what they become does not sleep. *)
Lemma result_both c s x y f g : good s -> cpus s !! c = Some x -> threads s !! c_curthread x = Some y -> inv ∅ (upd_t (c_curthread x) g (upd_c c f s)) ->
  (forall z, c_victims (f z) = c_victims z) -> (forall z, c_spinlocks (f z) = c_spinlocks z) -> c_curthread (f x) = c_curthread x -> c_asleep (f x) = false ->
  (in_cpu_idle (g y) -> c_spinlocks x = 0) -> result c s (upd_t (c_curthread x) g (upd_c c f s)).
Proof.
  intros G Hx Hy I' F1 F2 F3 F4 F5. set (s' := upd_t (c_curthread x) g (upd_c c f s)). assert (F : frame c s s') by (by apply frame_upd_both).
  assert (K : kept [c_curthread x] s s').
  { eapply kept_trans; [|apply kept_upd_t; left; by left]. by apply kept_same. }
  assert (HT : forall t z, t ∈ [c_curthread x] -> threads s !! t = Some z -> t_cpu z = c).
  { intros t z ->%list_elem_of_singleton Hz. eapply (current_cpu ∅ s _ _ (c_isidle x)); [apply G| |done]. by exists x. }
  assert (Hx' : cpus s' !! c = Some (f x)) by (unfold s'; change (cpus (upd_c c f s) !! c = Some (f x)); by rewrite upd_c_lookup, decide_True, Hx).
  assert (Hy' : threads s' !! c_curthread x = Some (g y)) by (unfold s'; rewrite upd_t_lookup, decide_True by done; simpl; by rewrite Hy).
  split; [|by apply frame_others|by apply frame_vict|intros d Hd; eapply awake_kept; [apply G|by apply frame_others|exact K|exact HT|done]].
  eapply (good_next c [c_curthread x]); try done; [apply G|by apply frame_others|intros d _; by apply nlocks_both| |].
  - intros z Hz Ha. congruence.
  - intros z z' Hz Hz' _ Hi. assert (z = f x) by congruence. subst z. rewrite F3 in Hz'. assert (z' = g y) by congruence. subst z'. rewrite F2. auto.
Qed.

Lemma enter_step s c x y : good s -> cpus s !! c = Some x -> threads s !! c_curthread x = Some y -> irqs_on x = true \/ (c_isidle x = true /\ in_cpu_idle y) ->
  exists s', trap_enter c s = Ret tt s' /\ result c s s'.
Proof.
  intros G Hx Hy Hen. destruct (enter_run s c _ x y (g_inv _ G) Hx eq_refl Hy Hen) as [E I']. eexists. split; [exact E|]. eapply result_both; try done.
  intros _. destruct Hen as [Hen|[Hi Hd]]; [|by eapply g_idle]. destruct (wf_at s c x y _ ∅ (g_inv _ G) Hx eq_refl Hy) as (_ & W2 & W3 & W4 & W5). simpl in *. rewrite Hen in W5. symmetry in W5. apply Z.eqb_eq in W5.
  unfold IPL_NONE, IPL_HIGH in *. rewrite W3 in *. destruct W2 as [W2|W2]; rewrite W2 in *; lia.
Qed.

Lemma leave_step s c x y : good s -> busy s c x y -> t_traps y <> [] -> c_spinlocks x = 0 -> exists s', trap_exit c s = Ret tt s' /\ result c s s'.
Proof.
  intros G (Hx & Hy & Hh & Ha & Hb) Ht Hn. destruct (t_traps y) as [|[oi adj] l] eqn:Etr; [done|]. destruct (leave_run s c _ x y oi adj l (g_inv _ G) Hx eq_refl Hy Etr Hn Hb) as [E I'].
  eexists. split; [exact E|]. eapply result_both; try done; try (intros z; by destruct adj); by destruct adj.
Qed.

Lemma ipi_step s c x y : good s -> busy s c x y -> exists s', ignore (interprocessor_interrupt c) s = Ret tt s' /\ result c s s'.
Proof.
  intros G B. destruct (ipi_run s c (g_inv _ G) (busy_valid s c x y G B) (g_unlocked _ G)) as (s' & h & E & Q & C). exists s'. split; [unfold ignore; by rewrite (run_bind _ _ _ _ _ E)|].
  eapply result_busy; try done; [apply Q|by eapply unlocked_quiet; [|apply G]| | |intros d _; apply Q|].
  - apply frame_of_core. rewrite C. apply frame_upd_c. by destruct h.
  - apply kept_of_core. rewrite C. by apply kept_same.
  - destruct B as (Hx & _). assert (Hc : cpus (core s') !! c = Some (ipi_served h (ccore x))) by (rewrite C, upd_c_lookup, decide_True, core_cpu, Hx; done).
    apply core_cpu_inv in Hc as (x' & Hx' & Ex). exists x'. split; [done|]. destruct x', x, h; unfold ipi_served, ccore, set_splk, set_halted, set_ipi in Ex; simpl in *; injection Ex; intros; subst; done.
Qed.

Lemma tick_step s c x y : good s -> busy s c x y -> exists s', tick c s = Ret tt s' /\ result c s s'.
Proof.
  intros G B. pose proof B as (Hx & Hy & _). unfold tick. rewrite (mod_cpu_run _ _ _ x Hx). eexists. split; [done|]. set (f := fun x => set_hardclocks (u32 (c_hardclocks x + 1)) x).
  assert (I' : inv ∅ (upd_c c f s)) by (eapply (inv_neutral _ _ _ _ x); [apply G|done| |done..]; simpl; rewrite <- (shoot_empty _ _ _ _ (g_inv _ G) Hx); by destruct x).
  eapply result_busy; try done; [apply G|by apply frame_upd_c|by apply kept_same| |].
  - intros d _. unfold nlocks. rewrite upd_c_lookup. case_decide; [subst; by rewrite Hx|done].
  - exists (f x). split; [by rewrite upd_c_lookup, decide_True, Hx|done].
Qed.

(** ** Shutting the other CPUs down *)

Lemma broadcast_loop n from s c x y code : good s -> busy s c x y -> 0 <= from -> from + Z.of_nat n <= ncpus s -> 0 <= code < 32 ->
  exists s', for_loop n from (fun d => when (negb (d =? c)) (ipi_send c d code)) s = Ret tt s' /\ quiet ∅ c s s' /\ frame c (core s) (core s') /\ kept [] (core s) (core s') /\ own_bits (core s') c = own_bits (core s) c.
Proof.
  intros G B. pose proof (busy_valid _ _ _ _ G B) as Hv. pose proof (g_unlocked _ G) as U. pose proof (g_inv _ G) as I. clear G B. revert from s Hv U I. induction n as [|n IH]; intros from s Hv U I H0 Hn Hc.
  - exists s. split; [done|]. split; [by apply squiet_refl|]. split; [done|]. split; [by apply kept_same|done].
  - assert (R : exists s1, when (negb (from =? c)) (ipi_send c from code) s = Ret tt s1 /\ quiet ∅ c s s1 /\ frame c (core s) (core s1) /\ kept [] (core s) (core s1) /\ own_bits (core s1) c = own_bits (core s) c).
    { unfold when. destruct (Z.eqb_spec from c) as [->|Hne]; simpl; [exists s; split; [done|]; split; [by apply squiet_refl|]; split; [done|]; split; [by apply kept_same|done]|].
      destruct (ipi_send_run ∅ s c from code) as (s1 & E & Q & C); try done; [lia|apply U|]. exists s1. split; [done|]. split; [done|]. rewrite C. split; [apply frame_post|]. split; [by apply kept_same|].
      unfold own_bits. rewrite upd_c_lookup, decide_False by done. done. }
    destruct R as (s1 & E1 & Q1 & F1 & K1 & O1). assert (N1 : ncpus s1 = ncpus s) by apply F1.
    destruct (IH (from + 1) s1) as (s' & E' & Q' & F' & K' & O'); [by rewrite N1|by eapply unlocked_quiet|apply Q1|lia|lia|done|].
    exists s'. split; [simpl; by rewrite (run_bind _ _ _ _ _ E1)|]. split; [by eapply squiet_trans|]. split; [by etrans|]. split; [by eapply kept_trans|congruence].
Qed.

Lemma shutdown_step s c x y : good s -> busy s c x y -> exists s', thread_shutdown c s = Ret tt s' /\ result c s s'.
Proof.
  intros G B. pose proof (busy_valid _ _ _ _ G B) as Hv. destruct (broadcast_loop (Z.to_nat (ncpus s)) 0 s c x y IPI_OFFLINE G B) as (s' & E & Q & F & K & O); [lia|lia|unfold IPI_OFFLINE; lia|].
  exists s'. split; [|by eapply result_quiet]. unfold thread_shutdown, ipi_broadcast. by rewrite (run_bind _ _ s s s) by done.
Qed.

(** ** Leaving [cpu_idle] *)

Lemma poll_step s c x y : good s -> cpus s !! c = Some x -> threads s !! c_curthread x = Some y -> c_isidle x = true -> in_cpu_idle y -> exists s', ignore (idle_poll c) s = Ret tt s' /\ result c s s'.
Proof.
  intros G Hx Hy Hi [spl Hc]. assert (A : at_cpu s c (c_curthread x) true y) by (split; [by exists x|done]). assert (H0 : c_spinlocks x = 0) by (eapply (g_idle _ G); try done; by exists spl).
  assert (Hn : nlocks s c = Some 0) by (unfold nlocks; rewrite Hx; simpl; by rewrite H0).
  destruct (poll_run s c _ spl y (g_inv _ G) A Hc Hn (proj1 (g_unlocked _ G c))) as (s' & E & I' & C & L & N). exists s'. split; [unfold ignore; by rewrite (run_bind _ _ _ _ _ E)|].
  set (T := c_curthread x :: lst s (RUNQ c) ++ lst s (ZOMB c)). assert (F : frame c s s') by (apply frame_of_core; rewrite C; apply frame_picked).
  assert (K : kept T s s').
  { apply kept_of_core. rewrite C. apply kept_picked; rewrite ?core_lst; [by left|..]; intros t Ht; right; apply elem_of_app; auto. }
  assert (HT : forall t z, t ∈ T -> threads s !! t = Some z -> t_cpu z = c).
  { intros t z [->|[Ht|Ht]%elem_of_app]%elem_of_cons Hz; [by eapply (current_cpu ∅ s _ _ true); [apply G|apply A|]|apply (listed_place s (RUNQ c) t z (g_inv _ G) Ht Hz)|apply (listed_place s (ZOMB c) t z (g_inv _ G) Ht Hz)]. }
  split; [|by apply frame_others|by apply frame_vict|intros d Hd; eapply awake_kept; [apply G|by apply frame_others|exact K|exact HT|done]].
  eapply (good_switched c s s' T); try done; [rewrite L; apply G|by apply frame_others|by rewrite N|]. apply core_wake. rewrite C. apply picked_wake. intros d z _ Hz. by apply (proj2 (core_wake s) (g_wake _ G)).
Qed.

(** ** All operations *)

Lemma op_step c o s : good s -> enabled c o s = true -> exists s', run_op c o s = Ret tt s' /\ result c s s'.
Proof.
  intros G. unfold enabled. destruct (cpus s !! c) as [x|] eqn:Hx; [|done]. destruct (threads s !! c_curthread x) as [y|] eqn:Hy; [|done]. rewrite andb_true_iff, negb_true_iff. intros [Hh Ho].
  assert (Bz : negb (c_asleep x) && negb (c_isidle x && in_idle_loop y) && allowed c o s x y = true -> busy s c x y /\ allowed c o s x y = true).
  { rewrite !andb_true_iff, !negb_true_iff. intros [[H1 H2] H3]. split; [|done]. split_and!; try done. intros Hi Hd%idle_loop_spec. by rewrite Hi, Hd in H2. }
  destruct o; try (destruct (Bz Ho) as [B Al]; clear Ho); clear Bz; simpl in *.
  - apply andb_true_iff in Al as [A1 A2%bool_decide_eq_true]. by eapply acquire_step.
  - apply bool_decide_eq_true in Al. by eapply release_step.
  - eapply splx_step; try done. apply orb_true_iff in Al as [A1%Z.eqb_eq|[[A1%Z.eqb_eq A2%bool_decide_eq_true]%andb_true_iff A3%negb_true_iff]%andb_true_iff]; [by left|by right].
  - by eapply fork_step.
  - apply Z.eqb_eq in Al. by eapply yield_step.
  - apply andb_true_iff in Al as [A1%negb_true_iff A2%Z.eqb_eq]. by eapply exit_step.
  - apply andb_true_iff in Al as [[[A1%bool_decide_eq_true A2%bool_decide_eq_true]%andb_true_iff A3%Z.eqb_eq]%andb_true_iff A4%negb_true_iff]. by eapply sleep_step.
  - apply bool_decide_eq_true in Al. by eapply wakeone_step.
  - apply bool_decide_eq_true in Al. by eapply wakeall_step.
  - by eapply chan_create_step.
  - destruct (wchans s !! w) as [ch|] eqn:Hw; [|done]. apply bool_decide_eq_true in Al. by eapply chan_destroy_step.
  - eapply enter_step; try done. apply orb_true_iff in Ho as [A1|[A1 A2%idle_loop_spec]%andb_true_iff]; auto.
  - apply andb_true_iff in Al as [A1%bool_decide_eq_true A2%Z.eqb_eq]. by eapply leave_step.
  - by eapply ipi_step.
  - apply andb_true_iff in Ho as [[A1 A2%idle_loop_spec]%andb_true_iff _]. by eapply poll_step.
  - by eapply tick_step.
  - by eapply shutdown_step.
Qed.

End SchedSteps.

(** * Starting the thread system

    [thread_bootstrap] makes the boot CPU and [cpu_create] one more: the invariant holds
    from then on. *)


Module SchedBoot.
Import Cpu(splid, IPL_NONE, IPL_HIGH, cpu_wf, held).
Import Sched SchedInv SchedMoves SchedCore SchedOps SchedWake SchedSwitch SchedPark SchedFrame SchedFork SchedTrap SchedMig SchedMachine.

(** Before [thread_bootstrap]; memory does not run out. *)
Definition power_on : tsys := mk_ts ∅ 0 ∅ ∅ ∅ 1 [].

Definition boot (k : nat) : M tsys unit :=
  _ ← thread_bootstrap;
  for_loop k 0 (fun _ => ignore cpu_create).

Definition CPU0 (t : Z) : cpu := mk_cpu t [] 0 0 false [] 0 [] false false false [].
Definition FIRST (c : Z) (k : option (list Z)) : thread := mk_thread (Some "NEW"%string) S_READY false k NOCTX c kproc false IPL_HIGH 1 [].

Definition put_cpu (c t a : Z) (y : thread) (s : tsys) : tsys := mk_ts (<[c := CPU0 t]> (cpus s)) (c + 1) (<[t := y]> (threads s)) (wchans s) (locks s) a [].

Record booting (s : tsys) : Prop := mk_booting { bo_good : good s; bo_locks : locks s = ∅; bo_vict c : lst s (VICT c) = []; bo_oom : oom s = []; bo_next : 0 <= ncpus s }.

Lemma put_cpu_good s t a k : booting s -> next_addr s <= t -> t < a -> (k = None \/ k = Some (replicate 4 THREAD_STACK_MAGIC)) ->
  booting (put_cpu (ncpus s) t a (FIRST (ncpus s) k) s).
Proof.
  intros [[I W U D] HL HV Ho Hn] Ht Ha Hk. set (c := ncpus s) in *. set (s' := put_cpu c t a (FIRST c k) s). pose proof I as [Hd [L1 L2 L3 L4] Hc Hr Haddr Hw Hnx].
  assert (Hcn : cpus s !! c = None). { destruct (cpus s !! c) eqn:E; [|done]. destruct (proj1 (Hd c)); [eauto|unfold c in *; lia]. }
  assert (Htn : threads s !! t = None). { destruct (threads s !! t) eqn:E; [|done]. destruct (Haddr t); [eauto|lia]. }
  assert (Hcp : forall d, cpus s' !! d = if decide (d = c) then Some (CPU0 t) else cpus s !! d) by (intros d; simpl; case_decide; [subst; apply lookup_insert_eq|by rewrite lookup_insert_ne]).
  assert (Hth : forall u, threads s' !! u = if decide (u = t) then Some (FIRST c k) else threads s !! u) by (intros u; simpl; case_decide; [subst; apply lookup_insert_eq|by rewrite lookup_insert_ne]).
  assert (Hl : forall l, lst s' l = lst s l).
  { intros [d|d|d|w]; unfold lst; rewrite ?Hcp; [case_decide; [subst; by rewrite Hcn|done]..|done]. }
  assert (Hcur : forall u d i, u <> t -> current s' u d i <-> current s u d i).
  { intros u d i Hu. unfold current. rewrite Hcp. case_decide; [|done]. subst d. rewrite Hcn. split; [intros (z & [= <-] & E & _); by destruct Hu|intros (z & ? & _); done]. }
  assert (Hct : forall d i, current s' t d i <-> d = c /\ i = false).
  { intros d i. unfold current. rewrite Hcp. case_decide as E; [subst d; split; [intros (z & [= <-] & _ & <-); done|intros [_ ->]; by exists (CPU0 t)]|].
    split; [|intros [-> _]; done]. intros (z & Hz & Ez & _). destruct (Hc _ _ Hz) as [(u & Hu & _) _]. congruence. }
  assert (I' : inv ∅ s').
  { split.
    - intros d. rewrite Hcp. simpl. case_decide; [subst; split; [lia|by eexists]|]. rewrite Hd. unfold c in *. lia.
    - split; intros *; rewrite ?Hl; [apply L1|apply L2| |].
      + intros Hu. destruct (L3 _ _ Hu) as (z & Hz & Hz'). exists z. rewrite Hth, decide_False; [done|congruence].
      + rewrite Hth. setoid_rewrite Hl. case_decide; [intros [= <-]; done|apply L4].
    - intros d z. rewrite Hcp. case_decide.
      + subst d. intros [= <-]. split; [|done]. exists (FIRST c k). simpl. rewrite lookup_insert_eq. split; [done|]. split; [done|]. unfold cpu_wf, held, the_view. simpl. rewrite HL.
        assert (E : filter (fun kv : splid * Z => kv.2 = c) (∅ : gmap splid Z) = ∅) by apply map_filter_empty. rewrite E, map_size_empty. split_and!; try done. by right.
      + intros Hz. destruct (Hc _ _ Hz) as [(u & Hu & Hcu & Wu) Sh]. split; [|done]. exists u. rewrite Hth, decide_False; [done|congruence].
    - intros u z Hz _. rewrite Hth in Hz. destruct (decide (u = t)) as [->|Hu].
      + injection Hz as <-. unfold role. setoid_rewrite Hct. split; [done|]. split; [done|]. split; [by intros d [_ ?]|]. split; [intros d _; split_and!; try done; by right|]. split; [intros Hno; by destruct (Hno c false)|].
        split; [split_and!; try done; destruct Hk as [->| ->]; auto|]. simpl. unfold c in *. lia.
      + destruct (Hr u z Hz) as (R1 & R2 & R3 & R4 & R5 & R6 & R7); [set_solver|]. unfold role. setoid_rewrite (fun d i => Hcur u d i Hu). setoid_rewrite Hl. refine (conj R1 (conj R2 (conj R3 (conj R4 (conj R5 (conj R6 _)))))). simpl. unfold c in *. lia.
    - intros u. rewrite Hth. case_decide; [subst; intros _; simpl; lia|]. intros Hu. destruct (Haddr u Hu). simpl. lia.
    - intros w Hww. destruct (Hw w Hww). simpl. lia.
    - simpl. lia. }
  split; [|done|intros d; rewrite Hl; apply HV|done|simpl; lia]. split; [done| |done|].
  - intros d z. rewrite Hcp. case_decide; [intros [= <-]; done|apply W].
  - intros d z z'. rewrite Hcp, Hth. case_decide; [intros [= <-]; done|]. intros Hz. case_decide as Ez; [|by apply (D d)]. destruct (Hc _ _ Hz) as [(u & Hu & _) _]. congruence.
Qed.

Lemma oom_alloc s : oom s = [] -> fails s = false /\ oom (alloc s) = [].
Proof. intros E. unfold fails, alloc. simpl. rewrite E. done. Qed.

Lemma alloc_ok s : fails s = false -> next_addr (alloc s) = next_addr s + 1.
Proof. simpl. by intros ->. Qed.

(** [cpu_create] makes the next CPU. *)
Lemma cpu_create_run s : booting s -> ncpus s < MAXCPUS -> exists s', cpu_create s = Ret (ncpus s) s' /\ booting s' /\ ncpus s' = ncpus s + 1.
Proof.
  intros B Hm. pose proof B as [G HL _ Ho Hn0]. set (c := ncpus s). pose proof (in_next _ _ (g_inv _ G)) as Hn.
  destruct (oom_alloc s Ho) as [F1 O1]. destruct (oom_alloc _ O1) as [F2 O2]. destruct (oom_alloc _ O2) as [F3 O3]. destruct (oom_alloc _ O3) as [F4 O4]. destruct (oom_alloc _ O4) as [F5 O5].
  set (s2 := alloc (alloc s)) in *. set (s4 := alloc (alloc s2)) in *.
  assert (N2 : next_addr s2 = next_addr s + 2) by (unfold s2; rewrite !alloc_ok by done; lia). assert (N4 : next_addr s4 = next_addr s + 4) by (unfold s4; rewrite !alloc_ok by done; lia).
  set (t := next_addr s2) in *.
  assert (Pc : forall a x k, next_addr s4 <= a -> x = FIRST c k -> (k = None \/ k = Some (replicate 4 THREAD_STACK_MAGIC)) -> booting (put_cpu c t a x s)). { intros a x k Ha -> Hk. apply put_cpu_good; try done; lia. }
  assert (Run0 : cpu_create s = (_ ← mod_t t (set_tcpu c); _ ← (if c =? 0 then mret tt else ok ← alloc_stack t; if negb ok then panic "cpu_create: couldn't allocate stack" else thread_checkstack_init t);
    _ ← proc_addthread kproc t; _ ← KASSERT (c <? MAXCPUS); mret c) (put_cpu c t (next_addr s4) NEWTHREAD s)).
  { unfold cpu_create. rewrite (run_bind _ _ _ _ _ (tmalloc_run s)), F1. rewrite (proj2 (Z.eqb_neq (next_addr s) 0)) by lia.
    rewrite (run_bind _ _ _ _ _ (tmalloc_run (alloc s))), F2. assert (Ha : next_addr (alloc s) <> 0) by (simpl; rewrite F1; lia). rewrite (proj2 (Z.eqb_neq _ 0) Ha). fold s2.
    rewrite (run_bind _ _ s2 s2 s2) by done. pose proof (create_run s2 ltac:(lia)) as Ec. rewrite F3, F4 in Ec. rewrite (run_bind _ _ _ _ _ Ec). fold s4. rewrite (proj2 (Z.eqb_neq _ 0)) by (fold t; lia).
    rewrite (run_bind _ _ _ tt (put_cpu c t (next_addr s4) NEWTHREAD s)); [done|]. unfold modify. f_equal. unfold put_cpu. f_equal. done. }
  assert (Mod : forall a x f, mod_t t f (put_cpu c t a x s) = Ret tt (put_cpu c t a (f x) s)).
  { intros a x f. rewrite (mod_t_run _ _ _ x) by (simpl; apply lookup_insert_eq). f_equal. unfold upd_t, set_threads, put_cpu. simpl. f_equal. apply map_eq. intros u. destruct (decide (u = t)) as [->|]; [by rewrite lookup_alter_eq, !lookup_insert_eq|by rewrite lookup_alter_ne, !lookup_insert_ne]. }
  assert (Get : forall a x, get_t t (put_cpu c t a x s) = Ret x (put_cpu c t a x s)) by (intros a x; apply get_t_run; simpl; apply lookup_insert_eq).
  assert (Fin : forall a x, t_proc x = 0 -> (_ ← proc_addthread kproc t; _ ← KASSERT (c <? MAXCPUS); mret c) (put_cpu c t a x s) = Ret c (put_cpu c t a (set_proc kproc x) s)).
  { intros a x Hp. rewrite (run_bind _ _ _ tt (put_cpu c t a (set_proc kproc x) s)).
    - rewrite (proj2 (Z.ltb_lt c MAXCPUS)) by (unfold c; done). done.
    - unfold proc_addthread. rewrite (run_bind _ _ _ _ _ (Get a x)). rewrite Hp. rewrite (run_bind _ _ _ tt (put_cpu c t a x s)) by done. apply Mod. }
  rewrite Run0, (run_bind _ _ _ _ _ (Mod _ _ _)). destruct (Z.eqb_spec c 0) as [Ec|Ec].
  - rewrite (run_bind _ _ _ tt _) by done. rewrite Fin by done. eexists. split; [done|]. split; [|done]. apply (Pc _ _ None); [lia|by rewrite Ec|by left].
  - assert (Es : (ok ← alloc_stack t; if negb ok then panic "cpu_create: couldn't allocate stack" else thread_checkstack_init t) (put_cpu c t (next_addr s4) (set_tcpu c NEWTHREAD) s) =
      Ret tt (put_cpu c t (next_addr s4 + 1) (set_stack (Some (replicate 4 THREAD_STACK_MAGIC)) (set_tcpu c NEWTHREAD)) s)).
    { rewrite (run_bind _ _ _ true (put_cpu c t (next_addr s4 + 1) (set_stack (Some (replicate 4 0)) (set_tcpu c NEWTHREAD)) s)).
      - change (negb true) with false. cbv iota. unfold thread_checkstack_init. rewrite (run_bind _ _ _ _ _ (Get _ _)). rewrite (run_bind _ _ _ (replicate 4 0) _) by done. by rewrite Mod.
      - unfold alloc_stack. rewrite (run_bind _ _ _ _ _ (tmalloc_run _)). change (fails (put_cpu c t (next_addr s4) (set_tcpu c NEWTHREAD) s)) with false. cbv iota.
        assert (Ha : next_addr (put_cpu c t (next_addr s4) (set_tcpu c NEWTHREAD) s) <> 0) by (change (next_addr s4 <> 0); lia). rewrite (proj2 (Z.eqb_neq _ 0) Ha).
        change (alloc (put_cpu c t (next_addr s4) (set_tcpu c NEWTHREAD) s)) with (put_cpu c t (next_addr s4 + 1) (set_tcpu c NEWTHREAD) s). by rewrite (run_bind _ _ _ _ _ (Mod _ _ _)). }
    rewrite (run_bind _ _ _ _ _ Es). rewrite Fin by done. eexists. split; [done|]. split; [|done]. apply (Pc _ _ (Some (replicate 4 THREAD_STACK_MAGIC))); [lia|done|by right].
Qed.

Lemma power_on_booting : booting power_on.
Proof.
  split; [|done|intros c; simpl; by rewrite lookup_empty|done|done]. split; [|by intros c x|done|by intros c x y]. split; try done.
  - intros c. simpl. rewrite lookup_empty. split; [by intros [? ?]|lia].
  - split; try done.
    + intros [c|c|c|w]; simpl; rewrite lookup_empty; constructor.
    + intros l l' t Hl. exfalso. destruct l as [c|c|c|w]; simpl in Hl; rewrite lookup_empty in Hl; by apply not_elem_of_nil in Hl.
    + intros l t Hl. exfalso. destruct l as [c|c|c|w]; simpl in Hl; rewrite lookup_empty in Hl; by apply not_elem_of_nil in Hl.
  - intros t. simpl. rewrite lookup_empty. by intros [? ?].
  - intros w. simpl. rewrite lookup_empty. by intros [? ?].
Qed.

Lemma create_loop_run k from s : booting s -> ncpus s + Z.of_nat k <= MAXCPUS ->
  exists s', for_loop k from (fun _ => ignore cpu_create) s = Ret tt s' /\ booting s' /\ ncpus s' = ncpus s + Z.of_nat k.
Proof.
  revert from s. induction k as [|k IH]; intros from s B Hk; [exists s; split; [done|]; split; [done|lia]|].
  destruct (cpu_create_run s B) as (s1 & E1 & B1 & N1); [lia|]. destruct (IH (from + 1) s1 B1) as (s' & E' & B' & N'); [lia|]. exists s'. split; [|split; [done|lia]].
  simpl. rewrite (run_bind _ _ s tt s1); [done|]. unfold ignore. by rewrite (run_bind _ _ _ _ _ E1).
Qed.

Lemma boot_run k : (k < 32)%nat -> exists s, boot k power_on = Ret tt s /\ booting s /\ ncpus s = Z.of_nat k + 1.
Proof.
  intros Hk. assert (exists s, thread_bootstrap power_on = Ret tt s /\ booting s /\ ncpus s = 1) as (s1 & E1 & B1 & N1).
  { destruct (cpu_create_run power_on power_on_booting) as (s1 & E1 & B1 & N1); [done|]. exists s1. split; [|done]. unfold thread_bootstrap. rewrite (run_bind _ _ power_on tt power_on) by done. rewrite (run_bind _ _ _ _ _ E1).
    assert (Ev : s1 = put_cpu 0 3 5 (FIRST 0 None) power_on) by (vm_compute in E1; injection E1; intros <-; reflexivity). subst s1. done. }
  destruct (create_loop_run k 0 s1 B1) as (s' & E' & B' & N'); [rewrite N1; unfold MAXCPUS; lia|]. exists s'. split; [|split; [done|lia]]. unfold boot. by rewrite (run_bind _ _ _ _ _ E1).
Qed.

End SchedBoot.
