(* ===== verification/SchedTheory.v ===== *)
(** * What the thread system guarantees

    The invariant holds in every state that the CPUs reach from boot in any interleaving; no
    operation panics; a CPU that sleeps with work to do has been sent an interrupt; a run
    queue is served in order. *)

From S2P Require Import Prelude Cpu Sched SchedInv SchedMoves SchedWake SchedSwitch SchedPark SchedFrame SchedTrap SchedMig SchedMachine SchedSteps.

Module SchedTheory.
Import Cpu(splid, splx, IPL_NONE, IPL_HIGH, spinlock_acquire, spinlock_release, cpu_wf, held).
Import Sched SchedInv SchedMoves SchedCore SchedOps SchedWake SchedSwitch SchedPark SchedFrame SchedFork SchedTrap SchedMig SchedMachine SchedSteps SchedBoot.

(** ** Migration in steps *)

Lemma pc_other c s s' d pc : others c s s' -> (awake s d = true -> awake s' d = true) -> d <> c -> pc_ok s d pc -> pc_ok s' d pc.
Proof.
  intros O A Hd. destruct (cpus s !! d) as [x|] eqn:Hx.
  - destruct (ot_other _ _ _ O d x Hd Hx) as (x' & Hx' & (E1 & E2 & E3 & E4 & E5 & E6 & _)).
    assert (EV : lst s' (VICT d) = lst s (VICT d)) by (unfold lst; rewrite Hx, Hx'; simpl; by rewrite E3). pose proof (ot_ncpus _ _ _ O) as EN.
    assert (EC : cur_of s' d = cur_of s d) by (unfold cur_of; rewrite Hx, Hx'; simpl; by rewrite E1).
    assert (EQ : (length (lst s (RUNQ d)) <= length (lst s' (RUNQ d)))%nat) by (unfold lst; rewrite Hx, Hx'; simpl; by apply prefix_length).
    destruct pc as [[i my total|i share ts]|]; unfold pc_ok, victims_ok; rewrite ?EV, ?EN, ?EC; [|intros (P1 & P2 & P3 & P4 & P5); split_and!; first [done|lia|by eauto]|done].
    intros (P1 & P2 & P3 & P4 & P5 & P6). split_and!; first [done|lia|by eauto|by auto].
  - pose proof (ot_none _ _ _ O d Hx) as Hx'. destruct pc as [[i my total|i share ts]|]; unfold pc_ok.
    + rewrite Hx. intros (_ & _ & _ & _ & [? ?] & _). done.
    + rewrite Hx. intros (_ & _ & _ & [? ?] & _). done.
    + intros _. unfold lst. by rewrite Hx'.
Qed.

Lemma section_good c s s' : good s -> awake s c = true -> section c s s' -> good s' /\ forall d, awake s d = true -> awake s' d = true.
Proof.
  intros G A S. pose proof S as [Q O K B]. apply awake_busy in A as (x & y & Bz). pose proof Bz as (Hx & Hy & Hh & Ha & Hi).
  destruct (own_fields s s' c x Hx (q_cur _ _ _ _ Q) B) as (x' & Hx' & E1 & E2 & E3).
  split; [eapply good_busy; try done; [apply Q|by eapply unlocked_quiet; [|apply G]|intros d _; apply Q|congruence]|].
  intros d Hd. destruct (decide (d = c)) as [->|Hne]; [|eapply awake_kept; [apply G|exact O|exact K|apply nil_own|done|done]].
  destruct (K _ _ (not_elem_of_nil _) Hy) as (y' & Hy' & K1 & K2). apply awake_busy. exists x', y'.
  assert (E4 : c_halted x' = c_halted x) by (unfold own_bits in B; rewrite Hx, Hx' in B; simpl in B; congruence).
  split_and!; try congruence. intros Hi' [spl Hc]. apply Hi; [congruence|]. exists spl. congruence.
Qed.

Lemma section_fine c s s' P pc : fine (mk_world s P) -> awake s c = true -> section c s s' -> pc_ok s' c pc -> fine (mk_world s' (match pc with Some p => <[c := p]> P | None => delete c P end)).
Proof.
  intros [G F] A S Hpc. destruct (section_good c s s' G A S) as [G' A']. split; [done|]. intros d. simpl. destruct (decide (d = c)) as [->|Hd].
  - destruct pc; [by rewrite lookup_insert_eq|by rewrite lookup_delete_eq].
  - assert (E : (match pc with Some p => <[c := p]> P | None => delete c P end) !! d = P !! d) by (destruct pc; [by rewrite lookup_insert_ne|by rewrite lookup_delete_ne]).
    rewrite E. eapply pc_other; [apply S|apply A'|done|apply (F d)].
Qed.

(** A step keeps everything. *)
Lemma divroundup_pos total n : 0 <= total -> 0 < n -> 0 <= DIVROUNDUP total n.
Proof. intros Ht Hn. unfold DIVROUNDUP. apply Z.div_pos; [apply u32_range|lia]. Qed.

Lemma step_fine w w' : fine w -> step w w' -> fine w'.
Proof.
  intros Fw St. destruct St as [c o s s' P HP He Hr|c s P HP Ha|c i my total s s' r P HP Hi Hr|c my total s P HP Hm|c my total s s' P HP Hm Hr|c i share ts ts' s s' P HP Hi Ht Hr|c i share ts s s' P HP Hi Hr];
    pose proof Fw as [G F]; cbn [sys pcs] in G, F; pose proof (F c) as Fc; rewrite HP in Fc; unfold pc_ok in Fc.
  - destruct (op_step c o s G He) as (s1 & E1 & [R1 R2 R3 R4]). rewrite Hr in E1. injection E1 as <-. split; [done|]. intros d. cbn [sys pcs]. destruct (decide (d = c)) as [->|Hd]; [rewrite HP; unfold pc_ok; by rewrite R3|].
    eapply pc_other; [done|by apply R4|done|apply (F d)].
  - pose proof (proj1 (awake_busy s c) Ha) as (x & y & Hx & _). apply (section_fine c s s P (Some (Counting 0 0 0))); [done|done|apply section_refl, G|].
    assert (0 <= c < ncpus s) by (apply (in_dom _ _ (g_inv _ G)); eauto). split_and!; first [done|lia|by eauto].
  - destruct Fc as (P1 & P2 & P3 & P4 & P5 & P6). assert (Hv : 0 <= c < ncpus s) by (by apply (in_dom _ _ (g_inv _ G))).
    destruct (count_run s c i my total (g_inv _ G) Hv ltac:(lia) (g_unlocked _ G)) as (s1 & E1 & S1 & C1). remember (lst s (RUNQ i)) as q eqn:Eq. rewrite Hr in E1. injection E1 as -> <-. destruct (section_good c s s' G P6 S1) as [G' A'].
    apply (section_fine c s s' P (Some (Counting (i + 1) _ _))); try done. unfold pc_ok. cbn [fst snd]. rewrite <- !(core_lst s'), C1, !core_lst. assert (EN : ncpus s' = ncpus s) by apply S1. rewrite EN.
    pose proof (u32_range (total + Z.of_nat (length q))). assert (is_Some (cpus s' !! c)) by (apply (in_dom _ _ (g_inv _ G')); by rewrite EN).
    assert (0 <= (if i =? c then Z.of_nat (length q) else my) <= Z.of_nat (length (lst s (RUNQ c)))) by (destruct (Z.eqb_spec i c) as [->|]; [rewrite Eq|]; lia).
    split_and!; first [done|lia|by apply A'].
  - destruct Fc as (P1 & P2 & P3 & P4 & P5 & P6). apply (section_fine c s s P None); [done|done|apply section_refl, G|done].
  - destruct Fc as (P1 & P2 & P3 & P4 & P5 & P6). assert (Hv : 0 <= c < ncpus s) by (by apply (in_dom _ _ (g_inv _ G))). pose proof (divroundup_pos total (ncpus s) P4 ltac:(lia)) as Hd.
    set (k := my - DIVROUNDUP total (ncpus s)) in *. assert (Hk : 0 <= k <= my) by (unfold k; lia).
    destruct (take_run s c k (g_inv _ G) Hv (g_unlocked _ G)) as (s1 & E1 & S1 & L1 & L2); [lia|lia|done|]. rewrite Hr in E1. injection E1 as <-. destruct (section_good c s s' G P6 S1) as [G' A'].
    apply (section_fine c s s' P (Some (Giving 0 _ _))); try done. assert (EN : ncpus s' = ncpus s) by apply S1. unfold pc_ok. split_and!; try lia; [|apply (in_dom _ _ (g_inv _ G')); by rewrite EN|by apply A'].
    eexists _, []. rewrite app_nil_r. split; [exact L2|]. split; [|by left]. rewrite length_drop. lia.
  - destruct Fc as (P1 & P2 & P3 & P4 & P5). assert (Hv : 0 <= c < ncpus s) by (by apply (in_dom _ _ (g_inv _ G))).
    destruct (give_run s c i share ts (g_inv _ G) Hv ltac:(lia) (g_unlocked _ G) P2 P3) as (s1 & ts1 & E1 & S1 & R1 & R2 & R3). rewrite Hr in E1. injection E1 as -> <-. destruct (section_good c s s' G P5 S1) as [G' A'].
    assert (EN : ncpus s' = ncpus s) by apply S1. apply (section_fine c s s' P (Some (Giving (i + 1) share _))); try done. unfold pc_ok. split_and!; try lia; [done|apply (in_dom _ _ (g_inv _ G')); by rewrite EN|by apply A'].
  - destruct Fc as (P1 & P2 & P3 & P4 & P5). assert (Hv : 0 <= c < ncpus s) by (by apply (in_dom _ _ (g_inv _ G))).
    destruct (back_run s c (g_inv _ G) Hv (g_unlocked _ G)) as (s1 & E1 & S1 & R1 & R2). rewrite Hr in E1. injection E1 as <-. by apply (section_fine c s s' P None).
Qed.

Lemma steps_fine w w' : fine w -> rtc step w w' -> fine w'.
Proof. intros F R. induction R as [|w1 w2 w3 S R IH]; [done|]. apply IH. by eapply step_fine. Qed.

(** The states that [k + 1] CPUs reach. *)
Definition reachable (k : nat) (w : world) : Prop := exists s, boot k power_on = Ret tt s /\ rtc step (mk_world s ∅) w.

Lemma reachable_fine k w : (k < 32)%nat -> reachable k w -> fine w.
Proof.
  intros Hk (s & E & R). destruct (boot_run k Hk) as (s' & E' & [G L V O N] & _). rewrite E in E'. injection E' as <-. eapply steps_fine; [|exact R]. split; [done|]. intros c. simpl. rewrite lookup_empty. apply V.
Qed.

(** ** A yield takes the first of the queue and goes to its end *)

(** A thread runs on CPU [c], outside of [cpu_idle], and holds no spinlock. *)
Definition runs (s : tsys) (c cur : Z) : Prop :=
  exists x y, busy s c x y /\ c_curthread x = cur /\ c_isidle x = false /\ c_spinlocks x = 0.

Lemma yield_go s c cur next r : good s -> runs s c cur -> lst s (RUNQ c) = next :: r ->
  exists s', thread_yield c s = Ret (RUNS next) s' /\ good s' /\ runs s' c next /\ lst s' (RUNQ c) = r ++ [cur].
Proof.
  intros G (x & y & B & Ec & Ei & Hn) Eq. pose proof (busy_at s c x y B) as A. rewrite Ei in A. pose proof B as (Hx & Hy & Hh & Ha & Hb).
  destruct (switch_go s c _ y S_READY None (g_inv _ G) A (g_unlocked _ G)) as (s' & E & I' & C & L & N); [split; [by rewrite Eq|by rewrite (nlocks_busy s c x y B), Hn]|].
  assert (G' : good s') by (eapply re_good, (go_result s c x y G B s' S_READY None); try done; rewrite L; apply G).
  rewrite Ec in *. unfold switched_core, park, parkdone in E, C. set (s1 := upd_c c to_idle (upd_t cur (to_state S_READY) (enqueue c c cur (core s)))) in *.
  destruct (enqueue_cpu c c cur (core s) c (ccore x)) as (x1 & Hx1 & F1 & _ & _ & F2 & F3 & F4 & F5 & _); [by rewrite core_cpu, Hx|]. rewrite decide_True in F5 by done.
  assert (Hq : c_runqueue x = next :: r) by (revert Eq; simpl; by rewrite Hx).
  assert (Hs1 : cpus s1 !! c = Some (to_idle x1)) by (unfold s1; rewrite upd_c_lookup, decide_True by done; change (to_idle <$> cpus (enqueue c c cur (core s)) !! c = Some (to_idle x1)); by rewrite Hx1).
  destruct (picked_cpu c cur (t_curspl y) s1 (to_idle x1) Hs1) as (x' & Hx' & P1 & P2 & P3). change (c_runqueue (to_idle x1)) with (c_runqueue x1) in P1, P3. rewrite F5 in P1, P3. simpl c_runqueue in P1, P3. rewrite Hq in P1, P3. simpl in P1, P3.
  destruct P3 as (P3 & P4 & P5 & P6). rewrite <- C in Hx'. apply core_cpu_inv in Hx' as (z & Hz & ->). exists s'. split_and!; [by rewrite <- P3|done| |].
  - destruct (in_cpus _ _ I' _ _ Hz) as [(zy & Hzy & _) _]. exists z, zy. split; [|split; [done|split; [done|]]].
    + split; [done|]. split; [done|]. split; [change (c_halted (ccore z) = false); rewrite P2; simpl; by rewrite F4|]. split; [done|]. intros Hi. change (c_isidle (ccore z) = true) in Hi. congruence.
    + specialize (N c). unfold nlocks in N. rewrite Hx, Hz in N. simpl in N. rewrite decide_True in N by done. by apply (inj Some) in N.
  - simpl. rewrite Hz. simpl. exact P1.
Qed.

Fixpoint yields (n : nat) (c : Z) : M tsys unit :=
  match n with
  | O => mret tt
  | S n' => _ ← thread_yield c; yields n' c
  end.

Lemma yields_rotate n s c cur q : good s -> runs s c cur -> lst s (RUNQ c) = q -> (n <= length q)%nat ->
  exists s' t, yields n c s = Ret tt s' /\ (cur :: q) !! n = Some t /\ runs s' c t /\ lst s' (RUNQ c) = drop (S n) (cur :: q) ++ take n (cur :: q) /\ good s'.
Proof.
  intros G R Eq Hn. cut (forall m, (m <= n)%nat -> forall s cur q, good s -> runs s c cur -> lst s (RUNQ c) = q -> (m <= length q)%nat ->
    exists s' t, yields m c s = Ret tt s' /\ (cur :: q) !! m = Some t /\ runs s' c t /\ lst s' (RUNQ c) = drop (S m) (cur :: q) ++ take m (cur :: q) /\ good s').
  { intros Hc. by apply (Hc n). }
  clear. intros m. induction m as [|m IH]; intros Hm s cur q G R Eq Hl.
  - exists s, cur. split; [done|]. split; [done|]. split; [done|]. split; [by rewrite Eq, app_nil_r|done].
  - destruct q as [|next r]; [simpl in Hl; lia|]. destruct (yield_go s c cur next r G R Eq) as (s1 & E1 & G1 & R1 & L1).
    destruct (IH ltac:(lia) s1 next (r ++ [cur]) G1 R1 L1) as (s' & t & E' & T' & R' & L' & G'); [rewrite length_app; simpl in *; lia|]. simpl in Hl.
    exists s', t. split; [simpl; by rewrite (run_bind _ _ _ _ _ E1)|]. split; [|split; [done|split; [|done]]].
    + simpl. destruct m as [|m]; [done|]. simpl in *. rewrite lookup_app_l in T' by lia. done.
    + rewrite L'. simpl. destruct m as [|m]; [simpl; by rewrite !drop_0, app_nil_r|]. simpl. rewrite drop_app_le, take_app_le by lia. by rewrite <- app_assoc.
Qed.

(** ** Properties *)

(** A migration never gets stuck in the middle. *)
Lemma migration_goes_on w c pc : fine w -> pcs w !! c = Some pc -> exists w', step w w' /\ pcs w' !! c <> Some pc.
Proof.
  destruct w as [s P]. intros [G F] HP. simpl in G, F, HP. pose proof (F c) as Fc. rewrite HP in Fc. destruct pc as [i my total|i share ts]; unfold pc_ok in Fc.
  - destruct Fc as (P1 & P2 & P3 & P4 & P5 & P6). assert (Hv : 0 <= c < ncpus s) by (by apply (in_dom _ _ (g_inv _ G))). destruct (decide (i < ncpus s)) as [Hi|Hi].
    + destruct (count_run s c i my total (g_inv _ G) Hv ltac:(lia) (g_unlocked _ G)) as (s1 & E1 & _). eexists. split; [by eapply step_count|]. simpl. rewrite lookup_insert_eq. intros [= Hx _ _]. lia.
    + assert (i = ncpus s) as -> by lia. destruct (decide (my < DIVROUNDUP total (ncpus s))) as [Hm|Hm].
      * eexists. split; [by eapply step_enough|]. simpl. by rewrite lookup_delete_eq.
      * pose proof (divroundup_pos total (ncpus s) P4 ltac:(lia)). destruct (take_run s c (my - DIVROUNDUP total (ncpus s)) (g_inv _ G) Hv (g_unlocked _ G)) as (s1 & E1 & _); [lia|lia|done|].
        eexists. split; [eapply step_take; [done|lia|exact E1]|]. simpl. by rewrite lookup_insert_eq.
  - destruct Fc as (P1 & P2 & P3 & P4 & P5). assert (Hv : 0 <= c < ncpus s) by (by apply (in_dom _ _ (g_inv _ G))).
    destruct (decide (i = ncpus s \/ ts <= 0)) as [Hi|Hi].
    + destruct (back_run s c (g_inv _ G) Hv (g_unlocked _ G)) as (s1 & E1 & _). eexists. split; [by eapply step_back|]. simpl. by rewrite lookup_delete_eq.
    + destruct (give_run s c i share ts (g_inv _ G) Hv ltac:(lia) (g_unlocked _ G) P2 P3) as (s1 & ts1 & E1 & _). eexists. split; [eapply step_give; [done|lia|lia|exact E1]|]. simpl. rewrite lookup_insert_eq. intros [= Hx _]. lia.
Qed.

(** C12: whatever the CPUs do after boot, in any interleaving, no operation of the thread
    system that the code may run panics, fails an assertion or follows a bad pointer: forks,
    yields, exits, sleeps, wakeups, interrupts and their ends, interprocessor interrupts and
    the lock operations between them all return, and a CPU in the middle of a migration can
    always go on. *)
Theorem sched_calls_return k w : (k < 32)%nat -> reachable k w ->
  (forall c o, pcs w !! c = None -> enabled c o (sys w) = true -> exists s', run_op c o (sys w) = Ret tt s') /\
  (forall c pc, pcs w !! c = Some pc -> exists w', step w w' /\ pcs w' !! c <> Some pc).
Proof.
  intros Hk R. pose proof (reachable_fine k w Hk R) as F. split.
  - intros c o _ He. destruct (op_step c o (sys w) (f_good _ F) He) as (s' & E & _). eauto.
  - intros c pc Hp. by apply migration_goes_on.
Qed.

(** C13: in every reachable state each thread is in exactly one place: it runs on one CPU or
    it is on one list (a run queue, a wait channel, the zombies or the victims of a CPU),
    once.  No two CPUs ever run on the same thread's stack, and a thread on a run queue is
    ready and belongs to that CPU. *)
Theorem sched_one_place k w : (k < 32)%nat -> reachable k w ->
  (forall t x, threads (sys w) !! t = Some x -> (exists c, current (sys w) t c false) \/ (exists l, t ∈ lst (sys w) l)) /\
  (forall t c l, current (sys w) t c false -> t ∉ lst (sys w) l) /\
  (forall l, NoDup (lst (sys w) l)) /\ (forall t l l', t ∈ lst (sys w) l -> t ∈ lst (sys w) l' -> l = l') /\
  (forall t c d i j, current (sys w) t c i -> current (sys w) t d j -> c = d) /\
  (forall t c x, t ∈ lst (sys w) (RUNQ c) -> threads (sys w) !! t = Some x -> t_state x = S_READY /\ t_cpu x = c).
Proof.
  intros Hk R. pose proof (g_inv _ (f_good _ (reachable_fine k w Hk R))) as I. set (s := sys w) in *. pose proof (in_lists _ _ I) as L.
  assert (Hno : forall t, t ∉ (∅ : gset Z)) by (intros t; apply not_elem_of_empty). split_and!.
  - intros t x Hx. destruct (in_roles _ _ I t x Hx (Hno t)) as (R1 & R2 & _). destruct (t_linked x); [right; destruct (R1 eq_refl) as (l & Hl & _); eauto|left; eauto].
  - intros t c l Hc Hl. destruct (lo_linked _ L _ _ Hl) as (x & Hx & Hk'). destruct (in_roles _ _ I t x Hx (Hno t)) as (_ & _ & _ & R4 & _). destruct (R4 c Hc). congruence.
  - apply L.
  - intros t l l'. apply L.
  - intros t c d i j Hc Hd. assert (exists x, threads s !! t = Some x) as [x Hx]. { destruct Hc as (z & Hz & <- & _). destruct (in_cpus _ _ I _ _ Hz) as [(u & Hu & _) _]. eauto. }
    pose proof (current_cpu _ _ _ _ _ _ I Hc Hx). pose proof (current_cpu _ _ _ _ _ _ I Hd Hx). congruence.
  - intros t c x Hl Hx. apply (listed_place s (RUNQ c) t x I Hl Hx).
Qed.

(** C14: no wakeup is lost between CPUs: a CPU that sleeps in [cpu_idle] while there is a
    thread on its run queue has an IPI_UNIDLE pending, which [interprocessor_interrupt] and
    the return from [cpu_idle] will see. *)
Theorem sched_no_lost_wakeup k w c x : (k < 32)%nat -> reachable k w -> cpus (sys w) !! c = Some x -> c_asleep x = true -> c_runqueue x <> [] ->
  c_isidle x = true /\ Z.testbit (c_ipi_pending x) IPI_UNIDLE = true.
Proof. intros Hk R Hx Ha Hq. destruct (g_wake _ (f_good _ (reachable_fine k w Hk R)) c x Hx Ha) as [H1 H2]. auto. Qed.

(** The priority level and the interrupt count stay with the thread across context
    switches: on every CPU of a reachable state interrupts are on exactly when its current
    thread is at IPL_NONE and the CPU holds no spinlock, and the CPU counts its spinlocks
    right. *)
Theorem sched_interrupts k w c x y : (k < 32)%nat -> reachable k w -> cpus (sys w) !! c = Some x -> threads (sys w) !! c_curthread x = Some y ->
  (irqs_on x = true <-> t_curspl y = IPL_NONE /\ (forall l, locks (sys w) !! l <> Some c)) /\
  c_spinlocks x = Z.of_nat (size (filter (fun kv : splid * Z => kv.2 = c) (locks (sys w)))).
Proof.
  intros Hk R Hx Hy. pose proof (g_inv _ (f_good _ (reachable_fine k w Hk R))) as I. destruct (wf_at (sys w) c x y _ ∅ I Hx eq_refl Hy) as (_ & W2 & W3 & W4 & W5). unfold held in *. simpl in *. split; [|done].
  rewrite W5, Z.eqb_eq, W4, W3. unfold IPL_NONE, IPL_HIGH in *. set (m := filter (fun kv : splid * Z => kv.2 = c) (locks (sys w))) in *.
  assert (Em : size m = 0%nat <-> forall l, locks (sys w) !! l <> Some c).
  { rewrite map_size_empty_iff. split.
    - intros E l Hl. assert (Hml : m !! l = Some c) by (unfold m; by apply map_lookup_filter_Some). rewrite E in Hml. by rewrite lookup_empty in Hml.
    - intros Hl. apply map_empty. intros l. apply map_lookup_filter_None. right. intros d Hd. simpl. intros ->. by destruct (Hl l). }
  rewrite <- Em. destruct W2 as [W2|W2]; rewrite W2; lia.
Qed.

(** C15: round robin.  When a thread runs on a CPU and the threads of its run queue only
    yield, then after [n] yields (up to once around) the [n]-th thread of the queue runs and
    the threads before it wait behind the others, in order. *)
Theorem sched_round_robin k w c cur q n : (k < 32)%nat -> reachable k w -> runs (sys w) c cur -> lst (sys w) (RUNQ c) = q -> (n <= length q)%nat ->
  exists s' t, yields n c (sys w) = Ret tt s' /\ (cur :: q) !! n = Some t /\ runs s' c t /\ lst s' (RUNQ c) = drop (S n) (cur :: q) ++ take n (cur :: q).
Proof.
  intros Hk R Hr Eq Hn. destruct (yields_rotate n (sys w) c cur q (f_good _ (reachable_fine k w Hk R)) Hr Eq Hn) as (s' & t & H1 & H2 & H3 & H4 & _). by exists s', t.
Qed.

(** ** An example run *)

(** The operations in order, each when it is enabled. *)
Fixpoint run_ops (l : list (Z * op)) (s : tsys) : option tsys :=
  match l with
  | [] => Some s
  | (c, o) :: r => if enabled c o s then match run_op c o s with Ret _ s' => run_ops r s' | _ => None end else None
  end.

Lemma run_ops_steps l s s' : run_ops l s = Some s' -> rtc step (mk_world s ∅) (mk_world s' ∅).
Proof.
  revert s. induction l as [|[c o] l IH]; intros s; simpl; [by intros [= ->]|]. destruct (enabled c o s) eqn:E; [|done]. destruct (run_op c o s) as [[] s1| | | | |] eqn:R; try done.
  intros H. eapply rtc_l; [|by apply IH]. by apply (step_op c o).
Qed.

(** Two CPUs: the second one's thread goes to sleep on a channel and the CPU waits; the
    first one forks two threads and wakes the sleeper. *)
Definition demo_lock : splid := ("demo"%string, 0).
Definition demo_boot : tsys := match boot 1 power_on with Ret _ s => s | _ => power_on end.
Definition demo_ops : list (Z * op) :=
  [(0, Splx 0); (0, ChanCreate "demo"%string); (1, Splx 0); (1, Acquire demo_lock); (1, Sleep 10 demo_lock);
   (0, Fork 0); (0, Fork 0); (0, Acquire demo_lock); (0, Wakeone 10 demo_lock); (0, Release demo_lock)].
Definition demo : tsys := default power_on (run_ops demo_ops demo_boot).

Lemma demo_run : run_ops demo_ops demo_boot = Some demo.
Proof. vm_compute. reflexivity. Qed.
Lemma demo_reachable : reachable 1 (mk_world demo ∅).
Proof. exists demo_boot. split; [vm_compute; reflexivity|]. apply (run_ops_steps demo_ops), demo_run. Qed.

Definition demo_cpu (c : Z) : cpu := default (CPU0 0) (cpus demo !! c).
Definition demo_thread (t : Z) : thread := default (FIRST 0 None) (threads demo !! t).

Lemma demo_runs : runs demo 0 3.
Proof.
  exists (demo_cpu 0), (demo_thread 3). split_and!; try (vm_compute; reflexivity). split_and!; try (vm_compute; reflexivity). by vm_compute.
Qed.

Lemma sched_calls_return_witness : exists s', run_op 0 Yield demo = Ret tt s'.
Proof. apply (sched_calls_return 1 (mk_world demo ∅)); [lia|exact demo_reachable|reflexivity|vm_compute; reflexivity]. Defined.

Lemma sched_one_place_witness : (3 ∉ lst demo (RUNQ 0)) /\ (11 ∈ lst demo (RUNQ 0)).
Proof.
  split; [|vm_compute; by left]. destruct (sched_one_place 1 (mk_world demo ∅)) as (_ & H & _); [lia|exact demo_reachable|]. apply (H 3 0). exists (demo_cpu 0). split_and!; vm_compute; reflexivity.
Defined.

Lemma sched_no_lost_wakeup_witness : c_runqueue (demo_cpu 1) = [7] /\ c_asleep (demo_cpu 1) = true /\ Z.testbit (c_ipi_pending (demo_cpu 1)) IPI_UNIDLE = true.
Proof.
  split; [vm_compute; reflexivity|]. split; [vm_compute; reflexivity|].
  refine (proj2 (sched_no_lost_wakeup 1 (mk_world demo ∅) 1 (demo_cpu 1) _ demo_reachable _ _ _)); [lia|vm_compute; reflexivity|vm_compute; reflexivity|by vm_compute].
Defined.

Lemma sched_interrupts_witness : irqs_on (demo_cpu 0) = true /\ t_curspl (demo_thread 3) = IPL_NONE.
Proof.
  split; [vm_compute; reflexivity|]. refine (proj1 (proj1 (proj1 (sched_interrupts 1 (mk_world demo ∅) 0 (demo_cpu 0) (demo_thread 3) _ demo_reachable _ _)) _)); [lia|vm_compute; reflexivity..].
Defined.

Lemma sched_round_robin_witness : exists s' t, yields 2 0 demo = Ret tt s' /\ (3 :: [11; 14]) !! 2%nat = Some t /\ runs s' 0 t /\ lst s' (RUNQ 0) = [3; 11].
Proof.
  apply (sched_round_robin 1 (mk_world demo ∅) 0 3 [11; 14] 2); [lia|exact demo_reachable|exact demo_runs|vm_compute; reflexivity|simpl; lia].
Defined.

(** The second CPU starts while the first one waits for it: it is counted, the first one is
    made runnable, and the CPU waits in [cpu_idle]. *)
Example cpu_hatch_runs :
  match boot 1 power_on with
  | Ret _ s =>
      match (_ ← on 0 Cpu.spl0; w ← start_cpus_sem; r ← start_cpus_wait 0 w 0; h ← cpu_hatch 1 1 w r.2; p ← idle_poll 0; mret (r.1, h, p)) s with
      | Ret r s' => r = (Some IDLE, (1, IDLE), RUNS 3) /\ c_isidle <$> cpus s' !! 1 = Some true
      | _ => False
      end
  | _ => False
  end.
Proof. vm_compute. done. Qed.

End SchedTheory.

(** * The clock interrupt is made of steps

    [thread_consider_migration], [hardclock] and [timerclock], run to their end, are sequences
    of steps of the machine (with the steps of other CPUs anywhere in between they are the
    same steps), so they return and keep the invariant. *)


Module SchedClock.
Import Cpu(splid, splx, IPL_NONE, IPL_HIGH, spinlock_acquire, spinlock_release).
Import Sched SchedInv SchedMoves SchedCore SchedOps SchedWake SchedSwitch SchedPark SchedFrame SchedFork SchedTrap SchedMig SchedMachine SchedSteps SchedBoot SchedTheory.

Lemma mig_valid w c pc : fine w -> pcs w !! c = Some pc -> 0 <= c < ncpus (sys w).
Proof.
  intros [G F] HP. pose proof (F c) as Fc. rewrite HP in Fc. apply (in_dom _ _ (g_inv _ G)). destruct pc; unfold pc_ok in Fc; naive_solver.
Qed.

Lemma count_loop_steps n c i my total s P : fine (mk_world s (<[c := Counting i my total]> P)) -> i + Z.of_nat n = ncpus s ->
  exists my' total' s', count_loop n c i my total s = Ret (my', total') s' /\ rtc step (mk_world s (<[c := Counting i my total]> P)) (mk_world s' (<[c := Counting (ncpus s') my' total']> P)) /\ section c s s'.
Proof.
  revert i my total s. induction n as [|n IH]; intros i my total s F Hn.
  - exists my, total, s. split; [done|]. assert (i = ncpus s) as -> by lia. split; [done|]. apply section_refl, F.
  - pose proof (mig_valid _ c _ F (lookup_insert_eq _ _ _)) as Hv. simpl in Hv. pose proof (f_pcs _ F c) as Fc. cbn [sys pcs] in Fc. rewrite lookup_insert_eq in Fc. destruct Fc as (_ & Hi & _).
    destruct (count_run s c i my total (g_inv _ (f_good _ F)) Hv ltac:(lia) (g_unlocked _ (f_good _ F))) as (s1 & E1 & S1 & _). set (r := (_, _) : Z * Z) in E1.
    assert (St : step (mk_world s (<[c := Counting i my total]> P)) (mk_world s1 (<[c := Counting (i + 1) r.1 r.2]> P))).
    { rewrite <- (insert_insert_eq P c (Counting (i + 1) r.1 r.2) (Counting i my total)). eapply step_count; [apply lookup_insert_eq|lia|exact E1]. }
    assert (F1 : fine (mk_world s1 (<[c := Counting (i + 1) r.1 r.2]> P))) by (by eapply step_fine).
    destruct (IH (i + 1) r.1 r.2 s1 F1) as (my' & total' & s' & E' & R' & S'); [rewrite (ot_ncpus _ _ _ (sc_others _ _ _ S1)); lia|].
    exists my', total', s'. split; [cbn [count_loop]; by rewrite (run_bind _ _ _ _ _ E1)|]. split; [eapply rtc_l; [exact St|exact R']|by eapply section_trans].
Qed.

Lemma send_loop_steps n c i share ts s P : fine (mk_world s (<[c := Giving i share ts]> P)) -> i + Z.of_nat n = ncpus s ->
  exists i' ts' s', send_loop n c i share ts s = Ret tt s' /\ rtc step (mk_world s (<[c := Giving i share ts]> P)) (mk_world s' (<[c := Giving i' share ts']> P)) /\ (i' = ncpus s' \/ ts' <= 0) /\ section c s s'.
Proof.
  revert i ts s. induction n as [|n IH]; intros i ts s F Hn.
  - exists i, ts, s. split; [done|]. split; [done|]. split; [left; lia|]. apply section_refl, F.
  - pose proof (mig_valid _ c _ F (lookup_insert_eq _ _ _)) as Hv. simpl in Hv. pose proof (f_pcs _ F c) as Fc. cbn [sys pcs] in Fc. rewrite lookup_insert_eq in Fc. destruct Fc as (Hi & Ht & V & _).
    cbn [send_loop]. destruct (Z.ltb_spec 0 ts) as [Hp|Hp]; [|exists i, ts, s; split; [done|]; split; [done|]; split; [by right|apply section_refl, F]].
    destruct (give_run s c i share ts (g_inv _ (f_good _ F)) Hv ltac:(lia) (g_unlocked _ (f_good _ F)) Ht V) as (s1 & ts1 & E1 & S1 & _).
    assert (St : step (mk_world s (<[c := Giving i share ts]> P)) (mk_world s1 (<[c := Giving (i + 1) share ts1]> P))).
    { rewrite <- (insert_insert_eq P c (Giving (i + 1) share ts1) (Giving i share ts)). eapply step_give; [apply lookup_insert_eq|lia|lia|exact E1]. }
    assert (F1 : fine (mk_world s1 (<[c := Giving (i + 1) share ts1]> P))) by (by eapply step_fine).
    destruct (IH (i + 1) ts1 s1 F1) as (i' & ts' & s' & E' & R' & D' & S'); [rewrite (ot_ncpus _ _ _ (sc_others _ _ _ S1)); lia|].
    exists i', ts', s'. split; [by rewrite (run_bind _ _ _ _ _ E1)|]. split; [eapply rtc_l; [exact St|exact R']|split; [done|by eapply section_trans]].
Qed.

Lemma migration_steps c s P : fine (mk_world s P) -> P !! c = None -> awake s c = true ->
  exists s', thread_consider_migration c s = Ret tt s' /\ rtc step (mk_world s P) (mk_world s' P) /\ section c s s'.
Proof.
  intros F HP Ha. pose proof (step_start c s P HP Ha) as St. pose proof (step_fine _ _ F St) as F0. pose proof (mig_valid _ c _ F0 (lookup_insert_eq _ _ _)) as Hv. simpl in Hv.
  destruct (count_loop_steps (Z.to_nat (ncpus s)) c 0 0 0 s P F0 ltac:(lia)) as (my & total & s1 & E1 & R1 & S1). pose proof (steps_fine _ _ F0 R1) as F1. pose proof (ot_ncpus _ _ _ (sc_others _ _ _ S1)) as N1.
  pose proof (rtc_l _ _ _ _ St R1) as R1'. set (share := DIVROUNDUP total (ncpus s1)). unfold thread_consider_migration. rewrite (run_bind _ _ s s s) by done. rewrite (run_bind _ _ _ _ _ E1), <- N1. fold share.
  pose proof (lookup_insert_eq P c (Counting (ncpus s1) my total)) as L1. destruct (Z.ltb_spec my share) as [Hm|Hm].
  - exists s1. split; [done|]. split; [|done]. eapply rtc_r; [exact R1'|]. rewrite <- (delete_insert_id P c (Counting (ncpus s1) my total)) at 2 by done. by eapply step_enough.
  - pose proof (mig_valid _ c _ F1 L1) as Hv1. simpl in Hv1. pose proof (f_pcs _ F1 c) as Fc. cbn [sys pcs] in Fc. rewrite L1 in Fc. destruct Fc as (V1 & _ & Hmy & Ht & _). pose proof (divroundup_pos total (ncpus s1) Ht ltac:(lia)) as Hd. fold share in Hd.
    destruct (take_run s1 c (my - share) (g_inv _ (f_good _ F1)) Hv1 (g_unlocked _ (f_good _ F1))) as (s2 & E2 & S2 & _); [lia|lia|done|]. rewrite (run_bind _ _ _ _ _ E2).
    assert (St2 : step (mk_world s1 (<[c := Counting (ncpus s1) my total]> P)) (mk_world s2 (<[c := Giving 0 share (my - share)]> P))).
    { rewrite <- (insert_insert_eq P c (Giving 0 share (my - share)) (Counting (ncpus s1) my total)). by eapply step_take. }
    pose proof (step_fine _ _ F1 St2) as F2. pose proof (ot_ncpus _ _ _ (sc_others _ _ _ S2)) as N2.
    destruct (send_loop_steps (Z.to_nat (ncpus s1)) c 0 share (my - share) s2 P F2 ltac:(lia)) as (i3 & ts3 & s3 & E3 & R3 & D3 & S3). rewrite (run_bind _ _ _ _ _ E3). pose proof (steps_fine _ _ F2 R3) as F3.
    pose proof (lookup_insert_eq P c (Giving i3 share ts3)) as L3. pose proof (mig_valid _ c _ F3 L3) as Hv3. simpl in Hv3.
    destruct (back_run s3 c (g_inv _ (f_good _ F3)) Hv3 (g_unlocked _ (f_good _ F3))) as (s4 & E4 & S4 & _). exists s4. split; [exact E4|]. split.
    + etrans; [exact R1'|]. eapply rtc_l; [exact St2|]. eapply rtc_r; [exact R3|]. rewrite <- (delete_insert_id P c (Giving i3 share ts3)) at 2 by done. by eapply step_back.
    + eapply section_trans; [exact S1|]. eapply section_trans; [exact S2|]. by eapply section_trans.
Qed.

(** What an operation of the thread that runs does to it. *)
Lemma op_run c o s P : fine (mk_world s P) -> P !! c = None -> enabled c o s = true ->
  exists s', run_op c o s = Ret tt s' /\ step (mk_world s P) (mk_world s' P).
Proof. intros F HP He. destruct (op_step c o s (f_good _ F) He) as (s' & E & _). exists s'. split; [done|]. by eapply step_op. Qed.

Lemma enabled_busy c o s x y : busy s c x y -> enabled c o s = match o with TrapEnter => irqs_on x || (c_isidle x && in_idle_loop y) | Poll => c_isidle x && in_idle_loop y && negb (c_asleep x) | _ => allowed c o s x y end.
Proof.
  intros (Hx & Hy & Hh & Ha & Hi). assert (Ei : c_isidle x && in_idle_loop y = false). { destruct (c_isidle x); [|done]. apply not_true_iff_false. intros Hd%idle_loop_spec. by apply Hi. }
  unfold enabled. rewrite Hx, Hy, Hh, Ei, Ha. by destruct o.
Qed.

Lemma section_busy c s s' x y : section c s s' -> busy s c x y -> exists x' y', busy s' c x' y' /\ c_spinlocks x' = c_spinlocks x.
Proof.
  intros [Q O K B] (Hx & Hy & Hh & Ha & Hi). destruct (own_fields s s' c x Hx (q_cur _ _ _ _ Q) B) as (x' & Hx' & E1 & E2 & E3). destruct (K _ _ (not_elem_of_nil _) Hy) as (y' & Hy' & K1 & K2). exists x', y'. split.
  - assert (E4 : c_halted x' = c_halted x) by (unfold own_bits in B; rewrite Hx, Hx' in B; simpl in B; congruence). split_and!; try congruence. intros Hi' [spl Hc]. apply Hi; [congruence|]. exists spl. congruence.
  - pose proof (q_count _ _ _ _ Q c) as N. unfold nlocks in N. rewrite Hx, Hx' in N. by apply (inj Some) in N.
Qed.

Lemma yield_steps c s P x y : fine (mk_world s P) -> P !! c = None -> busy s c x y -> c_spinlocks x = 0 -> exists r s', thread_yield c s = Ret r s' /\ step (mk_world s P) (mk_world s' P).
Proof.
  intros F HP B Hn. destruct (op_run c Yield s P F HP) as (s' & E & St); [rewrite (enabled_busy c Yield s x y B); simpl; by rewrite Hn|]. simpl in E. unfold ignore, mbind, M_bind in E.
  destruct (thread_yield c s) as [r s1| | | | |]; try done. injection E as <-. by exists r, s1.
Qed.

(** ** Properties *)

(** C16: the clock interrupt of a CPU that runs and holds no spinlock, migration included,
    returns, and is a sequence of steps of the machine: it keeps all that the machine keeps. *)
Theorem hardclock_returns k w c x y : (k < 32)%nat -> reachable k w -> pcs w !! c = None -> busy (sys w) c x y -> c_spinlocks x = 0 ->
  exists r s', hardclock c (sys w) = Ret r s' /\ rtc step w (mk_world s' (pcs w)).
Proof.
  destruct w as [s P]. intros Hk R HP B Hn. cbn [sys pcs] in *. pose proof (reachable_fine k _ Hk R) as F. pose proof B as (Hx & Hy & Hh & Ha & Hi).
  destruct (op_run c Tick s P F HP) as (s1 & E1 & St1); [by rewrite (enabled_busy c Tick s x y B)|]. simpl in E1. pose proof (step_fine _ _ F St1) as F1.
  set (f := fun x => set_hardclocks (u32 (c_hardclocks x + 1)) x). assert (Es1 : s1 = upd_c c f s) by (unfold tick in E1; rewrite (mod_cpu_run _ _ _ x Hx) in E1; by injection E1 as <-).
  assert (B1 : busy s1 c (f x) y) by (rewrite Es1; split_and!; try done; by rewrite upd_c_lookup, decide_True, Hx).
  unfold hardclock. rewrite (run_bind _ _ _ _ _ E1). rewrite (run_bind _ _ s1 (f x) s1) by (apply get_cpu_run, B1).
  assert (M : exists s2, when (c_hardclocks (f x) mod MIGRATE_HARDCLOCKS =? 0) (thread_consider_migration c) s1 = Ret tt s2 /\ rtc step (mk_world s1 P) (mk_world s2 P) /\ section c s1 s2).
  { unfold when. destruct (c_hardclocks (f x) mod MIGRATE_HARDCLOCKS =? 0); [|exists s1; split; [done|]; split; [done|apply section_refl, F1]].
    apply migration_steps; [done|done|]. apply awake_busy. eauto. }
  destruct M as (s2 & E2 & R2 & S2). rewrite (run_bind _ _ _ _ _ E2). rewrite (run_bind _ _ s2 tt s2) by (unfold when; by destruct (c_hardclocks (f x) mod SCHEDULE_HARDCLOCKS =? 0)).
  destruct (section_busy c s1 s2 _ _ S2 B1) as (x2 & y2 & B2 & N2). destruct (yield_steps c s2 P x2 y2) as (r & s' & E' & St'); [by eapply steps_fine|done|done|by rewrite N2|].
  exists r, s'. split; [exact E'|]. eapply rtc_l; [exact St1|]. by eapply rtc_r.
Qed.

Lemma hardclock_returns_witness : exists r s', hardclock 0 demo = Ret r s' /\ rtc step (mk_world demo ∅) (mk_world s' ∅).
Proof.
  apply (hardclock_returns 1 (mk_world demo ∅) 0 (demo_cpu 0) (demo_thread 3)); [lia|exact demo_reachable|reflexivity| |vm_compute; reflexivity].
  split_and!; try (vm_compute; reflexivity). by vm_compute.
Defined.

End SchedClock.
