(* ===== verification/Qsort.v ===== *)
(** * Sorting: userland/lib/libc/stdlib/qsort.c

    The array is the list of its elements (of [size] bytes each) and [base] the index of
    the element the call starts at.  The comparison function is an argument; what C asks of
    it is the class [Comparator]. *)

From stdpp Require Import sorting.
From S2P Require Import Prelude.

Module Qsort.

(** What the standard asks of a comparison function: it orders the elements, and 0 means
    equal. *)
Class Comparator {A} (f : A -> A -> Z) : Prop := {
  cmp_total x y : f x y <= 0 \/ f y x <= 0;
  cmp_trans x y z : f x y <= 0 -> f y z <= 0 -> f x z <= 0;
  cmp_zero x y : f x y = 0 -> f y x <= 0
}.

Section Code.
Context {A : Type} (f : A -> A -> Z).

(** [data + i * size], read and written. *)
Definition elem (base i : Z) : M (list A) A :=
  d ← get;
  if base + i <? 0 then undef else deref (d !! Z.to_nat (base + i)).
Definition store (base i : Z) (x : A) : M (list A) unit :=
  _ ← elem base i;
  modify (fun d => <[Z.to_nat (base + i) := x]> d).

Definition COMPARE (base aa bb : Z) : M (list A) Z :=
  if aa =? bb then mret 0 else x ← elem base aa; y ← elem base bb; mret (f x y).
Definition EXCHANGE (base aa bb : Z) : M (list A) unit :=
  tmp ← elem base aa;
  y ← elem base bb;
  _ ← store base aa y;
  store base bb tmp.

(** The loop of step 2. *)
Fixpoint partition (fuel : nat) (base pivot head tail : Z) : M (list A) (Z * Z * Z) :=
  match fuel with
  | O => out_of_fuel
  | S fuel' =>
      if head <? tail then
        c ← COMPARE base head pivot;
        if c <=? 0 then partition fuel' base pivot (head + 1) tail
        else
          c' ← COMPARE base tail pivot;
          if 0 <? c' then partition fuel' base pivot head (tail - 1)
          else
            _ ← EXCHANGE base head tail;
            let pivot' := if pivot =? head then tail else if pivot =? tail then head else pivot in
            partition fuel' base pivot' (head + 1) (tail - 1)
      else mret (pivot, head, tail)
  end.

(** The loop of step 4. *)
Fixpoint lop (fuel : nat) (base tail : Z) : M (list A) Z :=
  match fuel with
  | O => out_of_fuel
  | S fuel' =>
      if 0 <? tail then
        c ← COMPARE base (tail - 1) tail;
        if c =? 0 then lop fuel' base (tail - 1) else mret tail
      else mret tail
  end.

Fixpoint qsort (fuel : nat) (base num : Z) : M (list A) unit :=
  match fuel with
  | O => out_of_fuel
  | S fuel' =>
      if num <=? 1 then mret tt
      else
        swapped ← (if num =? 2 then
                     c ← COMPARE base 0 1;
                     if 0 <? c then _ ← EXCHANGE base 0 1; mret true else mret false
                   else mret false);
        if swapped : bool then mret tt
        else
          '(pivot, head, tail) ← partition (Z.to_nat num) base (num / 2) 0 (num - 1);
          more ← (if tail <? head then mret true else c ← COMPARE base head pivot; mret (c <=? 0));
          let tail := if more : bool then tail + 1 else tail in
          if tail =? num then
            _ ← when (pivot <? num - 1)
                  (c ← COMPARE base pivot (num - 1);
                   when (0 <? c) (EXCHANGE base pivot (num - 1)));
            tail ← lop (Z.to_nat num) base (num - 1);
            when (0 <? tail) (qsort fuel' base tail)
          else
            _ ← KASSERT ((0 <? tail) && (tail <? num));
            _ ← qsort fuel' base tail;
            qsort fuel' (base + tail) (num - tail)
  end.
End Code.

(** ** Runs on a part of the array *)

Section Runs.
Context {A : Type}.
Implicit Types (l pre post : list A).

(** Element [i] of [l]. *)
Definition at_ l (i : Z) (x : A) : Prop := 0 <= i /\ l !! Z.to_nat i = Some x.

Lemma at_fun l i x y : at_ l i x -> at_ l i y -> x = y.
Proof. intros [_ H] [_ H']. congruence. Qed.
Lemma at_lt l i x : at_ l i x -> 0 <= i < Z.of_nat (length l).
Proof. intros [H H1%lookup_lt_Some]. lia. Qed.
Lemma at_some l i : 0 <= i < Z.of_nat (length l) -> exists x, at_ l i x.
Proof. intros H. destruct (lookup_lt_is_Some_2 l (Z.to_nat i)) as [x Hx]; [lia|]. exists x. split; [lia|done]. Qed.

(** The elements between [pre] and [post]. *)
Definition framed pre l post : list A := pre ++ l ++ post.

Lemma elem_run pre l post i x : at_ l i x -> elem (Z.of_nat (length pre)) i (framed pre l post) = Ret x (framed pre l post).
Proof.
  intros [Hi H]. pose proof (lookup_lt_Some _ _ _ H). unfold elem, get. msimpl. rewrite (proj2 (Z.ltb_ge _ _)) by lia.
  unfold framed. rewrite lookup_app_r, lookup_app_l by lia. replace (_ - _)%nat with (Z.to_nat i) by lia. by rewrite H.
Qed.

Lemma store_run pre l post i x y : at_ l i x -> store (Z.of_nat (length pre)) i y (framed pre l post) = Ret tt (framed pre (<[Z.to_nat i := y]> l) post).
Proof.
  intros H. unfold store. rewrite (run_bind _ _ _ _ _ (elem_run pre l post i x H)). destruct H as [Hi H]. pose proof (lookup_lt_Some _ _ _ H).
  unfold modify. f_equal. unfold framed. replace (Z.to_nat _) with (length pre + Z.to_nat i)%nat by lia. rewrite insert_app_r, insert_app_l by lia. done.
Qed.

Lemma compare_run (f : A -> A -> Z) pre l post i j x y : at_ l i x -> at_ l j y ->
  COMPARE f (Z.of_nat (length pre)) i j (framed pre l post) = Ret (if i =? j then 0 else f x y) (framed pre l post).
Proof.
  intros Hi Hj. unfold COMPARE. destruct (i =? j); [done|]. by rewrite (run_bind _ _ _ _ _ (elem_run pre l post i x Hi)), (run_bind _ _ _ _ _ (elem_run pre l post j y Hj)).
Qed.

(** [l] with two elements exchanged. *)
Definition swap l (i j : Z) (x y : A) : list A := <[Z.to_nat j := x]> (<[Z.to_nat i := y]> l).

Lemma exchange_run pre l post i j x y : at_ l i x -> at_ l j y ->
  EXCHANGE (Z.of_nat (length pre)) i j (framed pre l post) = Ret tt (framed pre (swap l i j x y) post).
Proof.
  intros Hi Hj. unfold EXCHANGE. rewrite (run_bind _ _ _ _ _ (elem_run pre l post i x Hi)), (run_bind _ _ _ _ _ (elem_run pre l post j y Hj)), (run_bind _ _ _ _ _ (store_run pre l post i x y Hi)).
  destruct (decide (i = j)) as [->|].
  - apply (store_run _ _ _ _ y). destruct Hj as [Hj Hl]. split; [done|]. rewrite list_lookup_insert_eq; [done|]. by eapply lookup_lt_Some.
  - apply (store_run _ _ _ _ y). destruct Hj as [Hj Hl], Hi as [Hi _]. split; [done|]. rewrite list_lookup_insert_ne; [done|lia].
Qed.

Lemma swap_length l i j x y : length (swap l i j x y) = length l.
Proof. unfold swap. by rewrite !length_insert. Qed.

Lemma swap_perm l i j x y : at_ l i x -> at_ l j y -> swap l i j x y ≡ₚ l.
Proof. intros [_ H1] [_ H2]. unfold swap. by apply Permutation_insert_swap. Qed.

Lemma swap_at l i j x y k z : at_ l i x -> at_ l j y -> i <> j ->
  at_ (swap l i j x y) k z <-> (k = i /\ z = y) \/ (k = j /\ z = x) \/ (k <> i /\ k <> j /\ at_ l k z).
Proof.
  intros Hi%at_lt Hj%at_lt Hn. unfold at_, swap.
  destruct (decide (0 <= k)); [|split; [|intros [?|[?|?]]]; naive_solver lia].
  destruct (decide (k = j)) as [->|]; [|destruct (decide (k = i)) as [->|]].
  - rewrite list_lookup_insert_eq by (rewrite length_insert; lia). naive_solver.
  - rewrite list_lookup_insert_ne, list_lookup_insert_eq by lia. naive_solver.
  - rewrite !list_lookup_insert_ne by lia. naive_solver.
Qed.
End Runs.

(** ** The sort *)

Section Theory.
#[local] Set Default Proof Using "Type*".
Context {A : Type} (f : A -> A -> Z) `{!Comparator f}.
Implicit Types (l pre post : list A).

Definition le_ (x y : A) : Prop := f x y <= 0.

Lemma le_refl x : le_ x x.
Proof. unfold le_. by destruct (cmp_total x x). Qed.
Lemma le_gt x y : 0 < f x y -> le_ y x.
Proof. unfold le_. destruct (cmp_total x y); [lia|done]. Qed.

(** [head] and [tail] delimit the elements still to be compared with the pivot. *)
Record split_at (p : A) (pivot head tail : Z) l : Prop := mk_split {
  sp_pivot : at_ l pivot p;
  sp_range : 0 <= head <= tail + 1 /\ tail < Z.of_nat (length l);
  sp_front i x : at_ l i x -> i < head -> le_ x p;
  sp_back i x : at_ l i x -> tail < i -> 0 < f x p
}.

Lemma partition_run fuel pre l post p pivot head tail : split_at p pivot head tail l -> tail - head < Z.of_nat fuel -> head <= tail + 1 -> (0 < fuel)%nat ->
  exists pivot' head' tail' l', partition f fuel (Z.of_nat (length pre)) pivot head tail (framed pre l post) = Ret (pivot', head', tail') (framed pre l' post) /\
    split_at p pivot' head' tail' l' /\ l' ≡ₚ l /\ tail' <= head'.
Proof.
  revert l pivot head tail. induction fuel as [|fuel IH]; intros l pivot head tail [Hp Hr Hf Hb] Hfuel Hht Hz; [lia|]. simpl.
  destruct (Z.ltb_spec head tail) as [Hlt|]; [|by exists pivot, head, tail, l].
  destruct (at_some l head) as [x Hx]; [lia|]. destruct (at_some l tail) as [y Hy]; [lia|].
  rewrite (run_bind _ _ _ _ _ (compare_run f pre l post head pivot x p Hx Hp)). destruct (Z.leb_spec (if head =? pivot then 0 else f x p) 0) as [Hc|Hc].
  - apply IH; [|lia..]. split; [done|lia| |done]. intros i z Hi Hlt'. destruct (decide (i = head)) as [->|]; [|apply (Hf i); [done|lia]].
    rewrite (at_fun _ _ _ _ Hi Hx). destruct (Z.eqb_spec head pivot) as [->|]; [|done]. rewrite (at_fun _ _ _ _ Hx Hp). apply le_refl.
  - destruct (Z.eqb_spec head pivot) as [|Hne]; [lia|].
    rewrite (run_bind _ _ _ _ _ (compare_run f pre l post tail pivot y p Hy Hp)). destruct (Z.ltb_spec 0 (if tail =? pivot then 0 else f y p)) as [Hc'|Hc'].
    + destruct (Z.eqb_spec tail pivot) as [|]; [lia|]. apply IH; [|lia..]. split; [done|lia|done|]. intros i z Hi Hlt'. destruct (decide (i = tail)) as [->|]; [|apply (Hb i); [done|lia]].
      by rewrite (at_fun _ _ _ _ Hi Hy).
    + assert (Hyp : le_ y p). { destruct (Z.eqb_spec tail pivot) as [->|]; [|done]. rewrite (at_fun _ _ _ _ Hy Hp). apply le_refl. }
      rewrite (run_bind _ _ _ _ _ (exchange_run pre l post head tail x y Hx Hy)). rewrite (proj2 (Z.eqb_neq pivot head)) by lia.
      assert (Hnt : head <> tail) by lia.
      destruct (IH (swap l head tail x y) (if pivot =? tail then head else pivot) (head + 1) (tail - 1)) as (pv & h & t & l' & E & Sp & P & Hle).
      * split.
        -- apply swap_at; [done..|]. destruct (Z.eqb_spec pivot tail) as [->|]; [left|by right; right]. split; [done|]. by rewrite (at_fun _ _ _ _ Hp Hy).
        -- rewrite swap_length. lia.
        -- intros i z Hi Hlt'. apply swap_at in Hi as [[-> ->]|[[-> ->]|(? & ? & Hi)]]; [done|lia| |done..]. apply (Hf i); [done|lia].
        -- intros i z Hi Hlt'. apply swap_at in Hi as [[-> ->]|[[-> ->]|(? & ? & Hi)]]; [lia|done| |done..]. apply (Hb i); [done|lia].
      * lia.
      * lia.
      * lia.
      * exists pv, h, t, l'. split; [done|]. split; [done|]. split; [|done]. rewrite P. by apply swap_perm.
Qed.

Definition top l (z : A) : Prop := forall x, x ∈ l -> le_ x z.

Lemma at_elem l x : x ∈ l <-> exists i, at_ l i x.
Proof.
  rewrite list_elem_of_lookup. split.
  - intros [i Hi]. exists (Z.of_nat i). split; [lia|]. by rewrite Nat2Z.id.
  - intros (i & _ & Hi). eauto.
Qed.

(** After step 4 has moved the pivot, the last element is the largest. *)
Lemma to_end_run pre l post p pivot : at_ l pivot p -> top l p ->
  let num := Z.of_nat (length l) in
  exists l' z, when (pivot <? num - 1) (c ← COMPARE f (Z.of_nat (length pre)) pivot (num - 1); when (0 <? c) (EXCHANGE (Z.of_nat (length pre)) pivot (num - 1))) (framed pre l post) = Ret tt (framed pre l' post) /\
    l' ≡ₚ l /\ at_ l' (num - 1) z /\ top l' z.
Proof.
  intros Hp Ht num. pose proof (at_lt _ _ _ Hp). destruct (at_some l (num - 1)) as [y Hy]; [lia|].
  destruct (Z.ltb_spec pivot (num - 1)) as [Hlt|]; simpl.
  2: { replace (num - 1) with pivot by lia. by exists l, p. }
  rewrite (run_bind _ _ _ _ _ (compare_run f pre l post pivot (num - 1) p y Hp Hy)). rewrite (proj2 (Z.eqb_neq _ _)) by lia.
  destruct (Z.ltb_spec 0 (f p y)) as [Hc|Hc]; simpl.
  - rewrite (exchange_run pre l post pivot (num - 1) p y Hp Hy). eexists _, p. split; [done|]. pose proof (swap_perm l _ _ _ _ Hp Hy) as P. split; [done|]. split.
    + apply swap_at; [done..|lia|]. right; left. done.
    + intros x Hx. rewrite P in Hx. by apply Ht.
  - exists l, y. split; [done|]. split; [done|]. split; [done|]. intros x Hx. apply (cmp_trans x p y); [by apply Ht|done].
Qed.

Lemma lop_run fuel pre l post z t : 0 <= t < Z.of_nat (length l) -> t < Z.of_nat fuel -> (forall i x, at_ l i x -> t <= i -> le_ z x) ->
  exists t', lop f fuel (Z.of_nat (length pre)) t (framed pre l post) = Ret t' (framed pre l post) /\ 0 <= t' <= t /\ (forall i x, at_ l i x -> t' <= i -> le_ z x).
Proof.
  revert t. induction fuel as [|fuel IH]; intros t Ht Hf Hz; [lia|]. simpl. destruct (Z.ltb_spec 0 t); [|exists t; split; [done|]; split; [lia|done]].
  destruct (at_some l (t - 1)) as [x Hx]; [lia|]. destruct (at_some l t) as [y Hy]; [lia|].
  rewrite (run_bind _ _ _ _ _ (compare_run f pre l post (t - 1) t x y Hx Hy)). rewrite (proj2 (Z.eqb_neq (t - 1) t)) by lia.
  destruct (Z.eqb_spec (f x y) 0) as [E|]; [|exists t; split; [done|]; split; [lia|done]].
  destruct (IH (t - 1)) as (t' & E' & Ht' & Hz'); [lia..| |exists t'; split; [done|]; split; [lia|done]].
  intros i w Hi Hle. destruct (decide (i = t - 1)) as [->|]; [|apply (Hz i); [done|lia]].
  rewrite (at_fun _ _ _ _ Hi Hx). apply (cmp_trans z y x); [apply (Hz t); [done|lia]|by apply cmp_zero].
Qed.

Lemma equal_sorted l : (forall x y, x ∈ l -> y ∈ l -> le_ x y) -> StronglySorted le_ l.
Proof.
  induction l as [|a l IH]; intros H; constructor.
  - apply IH. intros x y Hx Hy. apply H; by right.
  - apply Forall_forall. intros x Hx. apply H; [by left|by right].
Qed.

Lemma take_at l t i x : at_ (take (Z.to_nat t) l) i x <-> at_ l i x /\ i < t.
Proof.
  unfold at_. split.
  - intros [Hi H]. apply lookup_take_Some in H as [H ?]. split; [done|lia].
  - intros [[Hi H] Ht]. split; [done|]. apply lookup_take_Some. split; [done|lia].
Qed.
Lemma drop_at l t i x : 0 <= t -> at_ (drop (Z.to_nat t) l) i x -> at_ l (t + i) x.
Proof. unfold at_. rewrite lookup_drop. intros Ht [Hi H]. split; [lia|]. by replace (Z.to_nat (t + i)) with (Z.to_nat t + Z.to_nat i)%nat by lia. Qed.

(** What a call on [l] does, wherever [l] is in the array. *)
Definition sorts (fuel : nat) l : Prop := forall pre post,
  exists l', qsort f fuel (Z.of_nat (length pre)) (Z.of_nat (length l)) (framed pre l post) = Ret tt (framed pre l' post) /\ l' ≡ₚ l /\ StronglySorted le_ l'.

Lemma framed_take pre l post t : framed pre l post = framed pre (take t l) (drop t l ++ post).
Proof. unfold framed. by rewrite (app_assoc (take t l)), take_drop. Qed.

(** Step 5. *)
Lemma two_parts fuel pre l post t p : 0 < t < Z.of_nat (length l) -> sorts fuel (take (Z.to_nat t) l) -> sorts fuel (drop (Z.to_nat t) l) ->
  (forall i x, at_ l i x -> i < t -> le_ x p) -> (forall i x, at_ l i x -> t <= i -> le_ p x) ->
  exists l', (_ ← qsort f fuel (Z.of_nat (length pre)) t; qsort f fuel (Z.of_nat (length pre) + t) (Z.of_nat (length l) - t)) (framed pre l post) = Ret tt (framed pre l' post) /\ l' ≡ₚ l /\ StronglySorted le_ l'.
Proof.
  intros Ht S1 S2 Hlo Hhi. set (k := Z.to_nat t) in *.
  destruct (S1 pre (drop k l ++ post)) as (l1 & E1 & P1 & O1). destruct (S2 (pre ++ l1) post) as (l2 & E2 & P2 & O2).
  assert (L1 : length l1 = k). { rewrite P1, length_take. lia. }
  exists (l1 ++ l2). split; [|split].
  - rewrite (framed_take pre l post k). rewrite length_take in E1. replace (Z.of_nat (Nat.min k (length l))) with t in E1 by lia.
    rewrite (run_bind _ _ _ _ _ E1). replace (framed pre l1 (drop k l ++ post)) with (framed (pre ++ l1) (drop k l) post) by (unfold framed; by rewrite <- app_assoc).
    rewrite length_drop, length_app, L1 in E2. replace (Z.of_nat (length pre) + t) with (Z.of_nat (length pre + k)) by lia. replace (Z.of_nat (length l) - t) with (Z.of_nat (length l - k)) by lia.
    rewrite E2. f_equal. unfold framed. by rewrite <- !app_assoc.
  - rewrite P1, P2. by rewrite take_drop.
  - apply StronglySorted_app_2; [|done..]. intros x y Hx Hy. rewrite P1 in Hx. rewrite P2 in Hy.
    apply at_elem in Hx as (i & Hi). apply take_at in Hi as [Hi Hl]. apply at_elem in Hy as (j & Hj). pose proof (at_lt _ _ _ Hj). apply drop_at in Hj; [|lia].
    apply (cmp_trans x p y); [by apply (Hlo i)|apply (Hhi (t + j)); [done|lia]].
Qed.

(** Step 4. *)
Lemma one_part fuel pre l post p pivot : at_ l pivot p -> top l p -> (forall t l', (0 < t < length l)%nat -> length l' = t -> sorts fuel l') ->
  let num := Z.of_nat (length l) in
  exists l', (_ ← when (pivot <? num - 1) (c ← COMPARE f (Z.of_nat (length pre)) pivot (num - 1); when (0 <? c) (EXCHANGE (Z.of_nat (length pre)) pivot (num - 1)));
     t ← lop f (Z.to_nat num) (Z.of_nat (length pre)) (num - 1); when (0 <? t) (qsort f fuel (Z.of_nat (length pre)) t)) (framed pre l post) = Ret tt (framed pre l' post) /\ l' ≡ₚ l /\ StronglySorted le_ l'.
Proof.
  intros Hp Ht Rec num. pose proof (at_lt _ _ _ Hp). destruct (to_end_run pre l post p pivot Hp Ht) as (m & z & E & P & Hz & Tz). rewrite (run_bind _ _ _ _ _ E).
  assert (Lm : length m = length l) by (by rewrite P).
  destruct (lop_run (Z.to_nat num) pre m post z (num - 1)) as (t & E' & Ht' & Hmax); [lia|lia| |].
  { intros i x Hi Hle. pose proof (at_lt _ _ _ Hi). replace i with (num - 1) in Hi by lia. rewrite (at_fun _ _ _ _ Hi Hz). apply le_refl. }
  rewrite (run_bind _ _ _ _ _ E').
  assert (Hback : StronglySorted le_ (drop (Z.to_nat t) m)).
  { apply equal_sorted. intros x y Hx Hy. apply (cmp_trans x z y).
    - apply Tz. apply (elem_of_subseteq (drop (Z.to_nat t) m)); [apply subseteq_drop|done].
    - apply at_elem in Hy as (j & Hj). pose proof (at_lt _ _ _ Hj). apply drop_at in Hj; [|lia]. apply (Hmax (t + j)); [done|lia]. }
  destruct (Z.ltb_spec 0 t) as [Hpos|Hz0]; simpl.
  - destruct (Rec (Z.to_nat t) (take (Z.to_nat t) m)) with (pre := pre) (post := drop (Z.to_nat t) m ++ post) as (l1 & E1 & P1 & O1); [lia|rewrite length_take; lia|].
    rewrite length_take in E1. replace (Z.of_nat (Nat.min (Z.to_nat t) (length m))) with t in E1 by lia.
    exists (l1 ++ drop (Z.to_nat t) m). rewrite (framed_take pre m post (Z.to_nat t)), E1. split; [unfold framed; by rewrite <- app_assoc|]. split; [by rewrite P1, take_drop|].
    apply StronglySorted_app_2; [|done..]. intros x y Hx Hy. rewrite P1 in Hx. apply (cmp_trans x z y).
    + apply Tz. apply (elem_of_subseteq (take (Z.to_nat t) m)); [apply subseteq_take|done].
    + apply at_elem in Hy as (j & Hj). pose proof (at_lt _ _ _ Hj). apply drop_at in Hj; [|lia]. apply (Hmax (t + j)); [done|lia].
  - exists m. replace t with 0 in Hback by lia. done.
Qed.

(** After step 3, [t] elements are at most the pivot and the others are larger. *)
Lemma border_run pre l post p pivot head tail : split_at p pivot head tail l -> tail <= head ->
  exists b, (if tail <? head then mret true else c ← COMPARE f (Z.of_nat (length pre)) head pivot; mret (c <=? 0)) (framed pre l post) = Ret b (framed pre l post) /\
    let t := if b : bool then tail + 1 else tail in
    0 <= t <= Z.of_nat (length l) /\ (forall i x, at_ l i x -> i < t -> le_ x p) /\ (forall i x, at_ l i x -> t <= i -> 0 < f x p).
Proof.
  intros [Hp Hr Hf Hb] Hth. destruct (Z.ltb_spec tail head).
  - exists true. split; [done|]. split; [lia|]. split; intros i x Hi Hlt; [apply (Hf i)|apply (Hb i)]; first [done|lia].
  - replace tail with head in * by lia. destruct (at_some l head) as [x Hx]; [lia|]. exists (bool_decide (f x p <= 0)). split.
    { rewrite (run_bind _ _ _ _ _ (compare_run f pre l post head pivot x p Hx Hp)). unfold mret, M_ret. f_equal. apply eq_bool_prop_intro. rewrite bool_decide_spec, Is_true_true, Z.leb_le.
      destruct (Z.eqb_spec head pivot) as [->|]; [|done]. rewrite (at_fun _ _ _ _ Hx Hp). split; [intros _; apply le_refl|done]. }
    case_bool_decide as Hc; simpl.
    + split; [lia|]. split; intros i y Hi Hlt; [|apply (Hb i); [done|lia]].
      destruct (decide (i = head)) as [->|]; [|apply (Hf i); [done|lia]]. by rewrite (at_fun _ _ _ _ Hi Hx).
    + split; [lia|]. split; intros i y Hi Hlt; [apply (Hf i); [done|lia]|].
      destruct (decide (i = head)) as [->|]; [|apply (Hb i); [done|lia]]. rewrite (at_fun _ _ _ _ Hi Hx). by apply Z.nle_gt.
Qed.

(** The special case of two elements: they are sorted here when they are in the wrong order. *)
Lemma two_run pre l post : let num := Z.of_nat (length l) in
  exists b l', (if num =? 2 then c ← COMPARE f (Z.of_nat (length pre)) 0 1; if 0 <? c then _ ← EXCHANGE (Z.of_nat (length pre)) 0 1; mret true else mret false else mret false) (framed pre l post) = Ret b (framed pre l' post) /\
    (if b : bool then l' ≡ₚ l /\ StronglySorted le_ l' else l' = l).
Proof.
  intros num. destruct (Z.eqb_spec num 2); [|by exists false, l]. destruct l as [|x [|y [|z l]]]; simpl in *; try lia.
  rewrite (run_bind _ _ _ _ _ (compare_run f pre [x; y] post 0 1 x y (conj (Z.le_refl 0) eq_refl) (conj Z.le_0_1 eq_refl))). simpl.
  destruct (Z.ltb_spec 0 (f x y)) as [Hc|]; [|by exists false, [x; y]]. exists true, [y; x].
  rewrite (run_bind _ _ _ _ _ (exchange_run pre [x; y] post 0 1 x y (conj (Z.le_refl 0) eq_refl) (conj Z.le_0_1 eq_refl))). split; [done|]. split; [constructor|].
  apply StronglySorted_cons. split; [|by repeat constructor]. constructor; [by apply le_gt|constructor].
Qed.

Lemma qsort_sorts fuel l : (length l <= fuel)%nat -> (0 < fuel)%nat -> sorts fuel l.
Proof.
  revert l. induction fuel as [|fuel IH]; intros l Hl Hz pre post; [lia|]. simpl. set (num := Z.of_nat (length l)).
  destruct (Z.leb_spec num 1) as [H1|H1].
  { exists l. split; [done|]. split; [done|]. destruct l as [|x [|y l]]; [constructor|by repeat constructor|simpl in *; lia]. }
  destruct (two_run pre l post) as ([] & l0 & E0 & Hl0); rewrite (run_bind _ _ _ _ _ E0); [by exists l0|]. subst l0.
  assert (Hmid : 0 <= num / 2 < num). { split; [apply Z.div_pos; lia|apply Z.div_lt; lia]. }
  destruct (at_some l (num / 2)) as [p Hp]; [lia|].
  destruct (partition_run (Z.to_nat num) pre l post p (num / 2) 0 (num - 1)) as (pivot & head & tail & m & E1 & Sp & P & Hth); [|lia..|].
  { split; [done|lia| |]; intros i x Hi; pose proof (at_lt _ _ _ Hi); lia. }
  rewrite (run_bind _ _ _ _ _ E1). destruct (border_run pre m post p pivot head tail Sp Hth) as (b & E2 & Ht & Hlo & Hhi). rewrite (run_bind _ _ _ _ _ E2).
  set (t := if b then tail + 1 else tail) in *. assert (Lm : length m = length l) by (by rewrite P). destruct (sp_pivot _ _ _ _ _ Sp) as [Hpi _].
  destruct (Z.eqb_spec t num) as [Hn|Hn].
  - destruct (one_part fuel pre m post p pivot) as (l' & E3 & P3 & O3); [apply Sp| | |].
    + intros x Hx. apply at_elem in Hx as (i & Hi). pose proof (at_lt _ _ _ Hi). apply (Hlo i); [done|lia].
    + intros k l1 Hk Hk'. apply IH; lia.
    + rewrite Lm in E3. exists l'. split; [exact E3|]. split; [by rewrite P3|done].
  - assert (Hpos : 0 < t). { destruct (decide (t = 0)) as [E|]; [|lia]. pose proof (Hhi pivot p (sp_pivot _ _ _ _ _ Sp) ltac:(lia)). pose proof (le_refl p). unfold le_ in *. lia. }
    rewrite (proj2 (Z.ltb_lt 0 t)), (proj2 (Z.ltb_lt t num)) by lia. simpl.
    destruct (two_parts fuel pre m post t p) as (l' & E3 & P3 & O3); [lia|apply IH; [rewrite length_take|]; lia|apply IH; [rewrite length_drop|]; lia|done| |].
    + intros i x Hi Hle. apply le_gt. by apply (Hhi i).
    + rewrite Lm in E3. exists l'. split; [exact E3|]. split; [by rewrite P3|done].
Qed.
End Theory.

(** C38: [qsort] sorts: on any part of an array, with any comparison function that orders the
    elements, it returns (its assertion holds, no access is outside the part), the part then
    holds the same elements in order, and the rest of the array is as it was. *)
Theorem qsort_sorted {A} (f : A -> A -> Z) (pre l post : list A) : Comparator f ->
  exists l', qsort f (S (length l)) (Z.of_nat (length pre)) (Z.of_nat (length l)) (pre ++ l ++ post) = Ret tt (pre ++ l' ++ post) /\
    l' ≡ₚ l /\ StronglySorted (fun x y => f x y <= 0) l'.
Proof. intros C. apply (qsort_sorts f); lia. Qed.

#[export] Instance sub_comparator : Comparator Z.sub.
Proof. split; intros; lia. Qed.

Lemma qsort_sorted_witness : exists l', qsort Z.sub 6 1 5 (9 :: [3; 1; 2; 3; 0] ++ [7; 6]) = Ret tt (9 :: l' ++ [7; 6]) /\ l' ≡ₚ [3; 1; 2; 3; 0] /\ StronglySorted (fun x y => x - y <= 0) l'.
Proof. apply (qsort_sorted Z.sub [9] [3; 1; 2; 3; 0] [7; 6]). apply sub_comparator. Defined.

Example qsort_runs : qsort Z.sub 8 1 7 [9; 3; 1; 2; 3; 0; 3; 2; 5] = Ret tt [9; 0; 1; 2; 2; 3; 3; 3; 5].
Proof. vm_compute. reflexivity. Qed.
End Qsort.
