(* ===== verification/Umalloc.v ===== *)
(** * The allocator of user programs: userland/lib/libc/stdlib/malloc.c

    The heap of a process is the memory from [heapbase] to [heaptop], in cells of
    MBLOCKSIZE (8) bytes: a cell holds a block header or two words of data.  The call
    sbrk is an argument ([Sbrk]) with its documented behaviour ([SbrkLaws]).  errx and err
    end the process: [exited 1].  A pointer is an address and 0 is NULL. *)

From S2P Require Import Prelude.

Module Umalloc.

(** sbrk: the process state of the kernel, its break, and the call, which returns the old
    break or -1. *)
Class Sbrk (K : Type) := {
  brk : K -> Z;
  sbrk : Z -> K -> Z * K
}.
(** What the manual promises.  The amount is signed (intptr_t).  For an amount that is not
    negative, the break moves up by it, or the call fails and nothing changes; a call with 0
    reports the break.  Nothing is asked of negative amounts, which lower the break: malloc
    makes none for the sizes of the theorems ([max_request]).  User addresses end at 2^31. *)
Class SbrkLaws (K : Type) `{!Sbrk K} : Prop := {
  brk_range k : 0 < brk k <= 2 ^ 31;
  sbrk_grow k n : 0 <= n < 2 ^ 31 -> let '(r, k') := sbrk n k in (r = -1 /\ brk k' = brk k) \/ (r = brk k /\ brk k' = brk k + n);
  sbrk_zero k : (sbrk 0 k).1 = brk k
}.

(** ** Data *)

Definition MBLOCKSIZE : Z := 8.
Definition MBLOCKSHIFT : Z := 3.
Definition MMAGIC : Z := 2.

Record mheader := mk_mh {
  mh_prevblock : Z; mh_pad : Z; mh_magic1 : Z;
  mh_nextblock : Z; mh_inuse : bool; mh_magic2 : Z
}.
Definition set_prevblock (v : Z) (h : mheader) : mheader := mk_mh v (mh_pad h) (mh_magic1 h) (mh_nextblock h) (mh_inuse h) (mh_magic2 h).
Definition set_nextblock (v : Z) (h : mheader) : mheader := mk_mh (mh_prevblock h) (mh_pad h) (mh_magic1 h) v (mh_inuse h) (mh_magic2 h).
Definition set_inuse (v : bool) (h : mheader) : mheader := mk_mh (mh_prevblock h) (mh_pad h) (mh_magic1 h) (mh_nextblock h) v (mh_magic2 h).

Inductive cell := Hdr (h : mheader) | Words (w0 w1 : Z).

Definition M_NEXTOFF (mh : mheader) : Z := u32 (Z.shiftl (mh_nextblock mh) MBLOCKSHIFT).
Definition M_PREVOFF (mh : mheader) : Z := u32 (Z.shiftl (mh_prevblock mh) MBLOCKSHIFT).
Definition M_NEXT (a : Z) (mh : mheader) : Z := u32 (a + M_NEXTOFF mh).
Definition M_PREV (a : Z) (mh : mheader) : Z := u32 (a - M_PREVOFF mh).
Definition M_DATA (a : Z) : Z := u32 (a + MBLOCKSIZE).
Definition M_SIZE (mh : mheader) : Z := u32 (M_NEXTOFF mh - MBLOCKSIZE).
Definition M_OK (mh : mheader) : bool := (mh_magic1 mh =? MMAGIC) && (mh_magic2 mh =? MMAGIC).
(** The value that goes into a field of 29 bits. *)
Definition M_MKFIELD (off : Z) : Z := Z.shiftr off MBLOCKSHIFT mod 2 ^ 29.

Section Code.
Context {K : Type} `{!Sbrk K}.

Record uheap := mk_uh { heapbase : Z; heaptop : Z; cells : gmap Z cell; kern : K }.
Definition set_range (b t : Z) (s : uheap) : uheap := mk_uh b t (cells s) (kern s).
Definition set_cells (m : gmap Z cell) (s : uheap) : uheap := mk_uh (heapbase s) (heaptop s) m (kern s).
Definition set_kern (k : K) (s : uheap) : uheap := mk_uh (heapbase s) (heaptop s) (cells s) k.

Definition errx {A} : M uheap A := exited 1.

(** The amount that a size_t becomes as an intptr_t. *)
Definition intptr (n : Z) : Z := if n <? 2 ^ 31 then n else n - 2 ^ 32.

Definition sys_sbrk (n : Z) : M uheap Z := fun s => let '(r, k) := sbrk (intptr n) (kern s) in Ret r (set_kern k s).

(** Reading a header, and writing a cell of the heap. *)
Definition header (a : Z) : M uheap mheader :=
  s ← get;
  match cells s !! a with Some (Hdr h) => mret h | _ => undef end.
Definition write_cell (a : Z) (c : cell) : M uheap unit :=
  s ← get;
  if (heapbase s <=? a) && (a <? heaptop s) && (a mod MBLOCKSIZE =? 0) then put (set_cells (<[a := c]> (cells s)) s) else undef.

(** [sbrk] returns (void * ) -1 when it fails. *)
Definition __malloc_init : M uheap unit :=
  s ← get;
  if negb (heapbase s =? 0) || negb (heaptop s =? 0) then errx
  else
    x ← sys_sbrk 0;
    if x =? -1 then errx
    else if x =? 0 then errx
    else
      _ ← modify (set_range x x);
      if x mod MBLOCKSIZE =? 0 then mret tt
      else
        let adjust := MBLOCKSIZE - x mod MBLOCKSIZE in
        y ← sys_sbrk adjust;
        if y =? -1 then errx
        else if negb (y =? x) then errx
        else modify (set_range (u32 (x + adjust)) (u32 (x + adjust))).

Definition __malloc_sbrk (size : Z) : M uheap Z :=
  x ← sys_sbrk size;
  if x =? -1 then mret 0
  else
    s ← get;
    if negb (x =? heaptop s) then errx
    else
      _ ← put (set_range (heapbase s) (u32 (heaptop s + size)) s);
      mret x.

Definition __malloc_split (mh size : Z) : M uheap unit :=
  if negb (size mod MBLOCKSIZE =? 0) then errx
  else
    h ← header mh;
    if u32 (M_SIZE h - size) <? 2 * MBLOCKSIZE then mret tt
    else
      let mhnext := M_NEXT mh h in
      let oldsize := M_SIZE h in
      let h' := set_nextblock (M_MKFIELD (u32 (size + MBLOCKSIZE))) h in
      _ ← write_cell mh (Hdr h');
      let mhnew := M_NEXT mh h' in
      if mhnew =? mhnext then errx
      else
        let n := mk_mh (M_MKFIELD (u32 (size + MBLOCKSIZE))) 0 MMAGIC (M_MKFIELD (u32 (oldsize - size))) false MMAGIC in
        _ ← write_cell mhnew (Hdr n);
        s ← get;
        if negb (mhnext =? heaptop s) then
          hn ← header mhnext;
          write_cell mhnext (Hdr (set_prevblock (mh_nextblock n) hn))
        else mret tt.

(** The loop of malloc: the pointer it allocates, or the values of [i], [mh] and
    [rightprevblock] at its end. *)
Fixpoint search (fuel : nat) (size i mh rightprevblock : Z) : M uheap (Z + Z * Z * Z) :=
  match fuel with
  | O => out_of_fuel
  | S fuel' =>
      s ← get;
      if i <? heaptop s then
        h ← header i;
        if negb (M_OK h) then errx
        else if negb (mh_prevblock h =? rightprevblock) then errx
        else if mh_inuse h || (M_SIZE h <? size) then search fuel' size (u32 (i + M_NEXTOFF h)) i (mh_nextblock h)
        else
          _ ← __malloc_split i size;
          h' ← header i;
          _ ← write_cell i (Hdr (set_inuse true h'));
          mret (inl (M_DATA i))
      else mret (inr (i, mh, rightprevblock))
  end.

(** The end of malloc: the heap is expanded at its top. *)
Definition malloc_expand (size mh rightprevblock : Z) : M uheap Z :=
  expand ← (if mh =? 0 then mret None else h ← header mh; mret (if mh_inuse h then None else Some h));
  morespace ← (match expand with
               | Some h => _ ← KASSERT (M_SIZE h <? size); mret (u32 (size - M_SIZE h))
               | None => mret (u32 (MBLOCKSIZE + size))
               end);
  let morespace := u32 (PAGE_SIZE * (u32 (u32 (morespace + PAGE_SIZE) - 1) / PAGE_SIZE)) in
  p ← __malloc_sbrk morespace;
  if p =? 0 then mret 0
  else
    mh' ← (match expand with
           | Some h =>
               _ ← write_cell mh (Hdr (set_inuse true (set_nextblock (M_MKFIELD (u32 (M_NEXTOFF h + morespace))) h)));
               mret mh
           | None =>
               _ ← write_cell p (Hdr (mk_mh rightprevblock 0 MMAGIC (M_MKFIELD morespace) true MMAGIC));
               mret p
           end);
    _ ← __malloc_split mh' size;
    mret (M_DATA mh').

Definition malloc (size : Z) : M uheap Z :=
  s ← get;
  _ ← when (heapbase s =? 0) __malloc_init;
  s ← get;
  if (heapbase s =? 0) || (heaptop s =? 0) || (heaptop s <? heapbase s) then errx
  else
    let size := Z.land (u32 (u32 (size + MBLOCKSIZE) - 1)) (2 ^ 32 - MBLOCKSIZE) in
    r ← search (S (Z.to_nat ((heaptop s - heapbase s) / MBLOCKSIZE))) size (heapbase s) 0 0;
    match r with
    | inl p => mret p
    | inr (i, mh, rightprevblock) =>
        if negb (i =? heaptop s) then errx else malloc_expand size mh rightprevblock
    end.

(** [size] is a multiple of the cell here, as for all of its callers. *)
Definition __malloc_deadbeef (ptr size : Z) : M uheap unit :=
  for_loop (Z.to_nat (size / MBLOCKSIZE)) 0 (fun i => write_cell (ptr + MBLOCKSIZE * i) (Words 0xdeadbeef 0xdeadbeef)).

Definition __malloc_trymerge (mh mhnext : Z) : M uheap unit :=
  h ← header mh;
  hn ← header mhnext;
  if negb (mh_nextblock h =? mh_prevblock hn) then errx
  else if mh_inuse h || mh_inuse hn then mret tt
  else
    let mhnextnext := M_NEXT mhnext hn in
    let h' := set_nextblock (M_MKFIELD (u32 (MBLOCKSIZE + M_SIZE h + MBLOCKSIZE + M_SIZE hn))) h in
    _ ← write_cell mh (Hdr h');
    s ← get;
    _ ← (if negb (mhnextnext =? heaptop s) then
           hnn ← header mhnextnext;
           write_cell mhnextnext (Hdr (set_prevblock (mh_nextblock h') hnn))
         else mret tt);
    __malloc_deadbeef mhnext MBLOCKSIZE.

Definition free (x : Z) : M uheap unit :=
  if x =? 0 then mret tt
  else
    s ← get;
    if (heapbase s =? 0) || (heaptop s =? 0) || (heaptop s <? heapbase s) then errx
    else if (x <? heapbase s) || (heaptop s <=? x) then errx
    else
      let mh := u32 (x - MBLOCKSIZE) in
      h ← header mh;
      if negb (M_OK h) then errx
      else if negb (mh_inuse h) then errx
      else
        _ ← write_cell mh (Hdr (set_inuse false h));
        _ ← __malloc_deadbeef (M_DATA mh) (M_SIZE h);
        let mhnext := M_NEXT mh h in
        _ ← (if negb (mhnext =? heaptop s) then __malloc_trymerge mh mhnext else mret tt);
        if negb (mh =? heapbase s) then
          h' ← header mh;
          __malloc_trymerge (M_PREV mh h') mh
        else mret tt.
End Code.
Arguments uheap : clear implicits.

(** ** The heap as a list of blocks

    A block is its size in cells, header included, and whether it is in use. *)

Abbreviation ublock := (Z * bool)%type (only parsing).
Implicit Types (m : gmap Z cell) (bs l : list ublock).

Fixpoint usize bs : Z := match bs with [] => 0 | (n, _) :: bs' => n + usize bs' end.
(** The size of the last block, [p] if there is none. *)
Definition lastn (p : Z) bs : Z := default p (fst <$> last bs).

Definition hdr (p n : Z) (u : bool) : mheader := mk_mh p 0 MMAGIC n u MMAGIC.

(** The headers from address [a] to [top] describe [bs], [p] being the size of the block
    before. *)
Fixpoint layout m (a p : Z) bs (top : Z) : Prop :=
  match bs with
  | [] => a = top
  | (n, u) :: bs' => m !! a = Some (Hdr (hdr p n u)) /\ 1 <= n /\ layout m (a + 8 * n) n bs' top
  end.

(** Address [x] is in the data of a block in use. *)
Fixpoint indata (a : Z) bs (x : Z) : Prop :=
  match bs with
  | [] => False
  | (n, u) :: bs' => (u = true /\ a + 8 <= x < a + 8 * n) \/ indata (a + 8 * n) bs' x
  end.

Lemma usize_app l1 l2 : usize (l1 ++ l2) = usize l1 + usize l2.
Proof. induction l1 as [|[n u] l1 IH]; simpl; lia. Qed.
Lemma lastn_snoc p l n u : lastn p (l ++ [(n, u)]) = n.
Proof. unfold lastn. by rewrite last_snoc. Qed.
Lemma lastn_cons p n u l : lastn p ((n, u) :: l) = lastn n l.
Proof. unfold lastn. rewrite last_cons. by destruct (last l). Qed.
Lemma lastn_app p l1 l2 : lastn p (l1 ++ l2) = lastn (lastn p l1) l2.
Proof. unfold lastn. rewrite last_app. by destruct (last l2). Qed.

Lemma layout_top m a p bs top : layout m a p bs top -> top = a + 8 * usize bs.
Proof. revert a p. induction bs as [|[n u] bs IH]; intros a p H; simpl in *; [lia|]. destruct H as (_ & _ & H). apply IH in H. lia. Qed.
Lemma layout_pos m a p bs top : layout m a p bs top -> Z.of_nat (length bs) <= usize bs.
Proof. revert a p. induction bs as [|[n u] bs IH]; intros a p H; simpl in *; [lia|]. destruct H as (_ & Hn & H). apply IH in H. lia. Qed.

Lemma layout_app m a p l1 l2 top : layout m a p (l1 ++ l2) top <-> layout m a p l1 (a + 8 * usize l1) /\ layout m (a + 8 * usize l1) (lastn p l1) l2 top.
Proof.
  revert a p. induction l1 as [|[n u] l1 IH]; intros a p; simpl.
  - replace (a + 8 * 0) with a by lia. naive_solver.
  - rewrite IH, lastn_cons. replace (a + 8 * (n + usize l1)) with (a + 8 * n + 8 * usize l1) by lia. naive_solver.
Qed.

Lemma layout_ext m m' a p bs top : layout m a p bs top -> (forall x, a <= x < top -> m' !! x = m !! x) -> layout m' a p bs top.
Proof.
  revert a p. induction bs as [|[n u] bs IH]; intros a p H E; simpl in *; [done|]. destruct H as (H1 & Hn & H). pose proof (layout_top _ _ _ _ _ H). pose proof (layout_pos _ _ _ _ _ H).
  split; [rewrite E; [done|lia]|]. split; [done|]. apply IH; [done|]. intros x Hx. apply E. lia.
Qed.

(** The same blocks, the first of which has another block before it. *)
Lemma layout_reprev m m' a p q bs top : layout m a p bs top -> (forall x, a < x < top -> m' !! x = m !! x) ->
  (a < top -> forall h, m !! a = Some (Hdr h) -> m' !! a = Some (Hdr (set_prevblock q h))) -> layout m' a q bs top.
Proof.
  destruct bs as [|[n u] bs]; intros H E Ea; simpl in *; [done|]. destruct H as (H1 & Hn & H). pose proof (layout_top _ _ _ _ _ H). pose proof (layout_pos _ _ _ _ _ H).
  split; [by rewrite (Ea ltac:(lia) _ H1)|]. split; [done|]. eapply layout_ext; [done|]. intros x Hx. apply E. lia.
Qed.

Lemma indata_app a l1 l2 x : indata a (l1 ++ l2) x <-> indata a l1 x \/ indata (a + 8 * usize l1) l2 x.
Proof.
  revert a. induction l1 as [|[n u] l1 IH]; intros a; simpl.
  - replace (a + 8 * 0) with a by lia. naive_solver.
  - rewrite IH. replace (a + 8 * (n + usize l1)) with (a + 8 * n + 8 * usize l1) by lia. naive_solver.
Qed.
Lemma indata_range m a p bs top x : layout m a p bs top -> indata a bs x -> a + 8 <= x < top.
Proof.
  revert a p. induction bs as [|[n u] bs IH]; intros a p H Hx; simpl in *; [done|]. destruct H as (_ & Hn & H). pose proof (layout_top _ _ _ _ _ H). pose proof (layout_pos _ _ _ _ _ H).
  destruct Hx as [[_ Hx]|Hx]; [lia|]. specialize (IH _ _ H Hx). lia.
Qed.

(** ** Fields of a header *)

Lemma nextoff_hdr p n u : 0 <= n < 2 ^ 29 -> M_NEXTOFF (hdr p n u) = 8 * n.
Proof. intros Hn. unfold M_NEXTOFF, MBLOCKSHIFT. simpl. rewrite Z.shiftl_mul_pow2 by lia. rewrite u32_small; lia. Qed.
Lemma size_hdr p n u : 1 <= n < 2 ^ 29 -> M_SIZE (hdr p n u) = 8 * (n - 1).
Proof. intros Hn. unfold M_SIZE, MBLOCKSIZE. rewrite nextoff_hdr by lia. rewrite u32_small; lia. Qed.
Lemma next_hdr a p n u : 0 <= n < 2 ^ 29 -> 0 <= a -> a + 8 * n < 2 ^ 32 -> M_NEXT a (hdr p n u) = a + 8 * n.
Proof. intros. unfold M_NEXT. rewrite nextoff_hdr by lia. rewrite u32_small; lia. Qed.
Lemma prev_hdr a p n u : 0 <= p < 2 ^ 29 -> 0 <= a - 8 * p -> a < 2 ^ 32 -> M_PREV a (hdr p n u) = a - 8 * p.
Proof. intros. unfold M_PREV, M_PREVOFF, MBLOCKSHIFT. simpl. rewrite Z.shiftl_mul_pow2 by lia. rewrite (u32_small (_ * _)) by lia. rewrite u32_small; lia. Qed.
Lemma mkfield k : 0 <= k < 2 ^ 29 -> M_MKFIELD (8 * k) = k.
Proof. intros. unfold M_MKFIELD, MBLOCKSHIFT. rewrite Z.shiftr_div_pow2 by lia. replace (8 * k / 2 ^ 3) with k; [apply Z.mod_small; lia|]. change (2 ^ 3) with 8. rewrite Z.mul_comm, Z.div_mul; lia. Qed.

Section Runs.
Context {K : Type} `{!Sbrk K}.
Implicit Types (s : uheap K).

Lemma header_run s a h : cells s !! a = Some (Hdr h) -> header a s = Ret h s.
Proof. intros H. unfold header, get. msimpl. by rewrite H. Qed.
Lemma write_run s a c : heapbase s <= a < heaptop s -> a mod 8 = 0 -> write_cell a c s = Ret tt (set_cells (<[a := c]> (cells s)) s).
Proof.
  intros Ha Hm. unfold write_cell, get, put, MBLOCKSIZE. msimpl. rewrite (proj2 (Z.leb_le _ _)), (proj2 (Z.ltb_lt _ _)), (proj2 (Z.eqb_eq _ _)) by lia. done.
Qed.

(** Writing a header and nothing else. *)
Definition only m m' (X : Z -> Prop) : Prop := forall x, ~ X x -> m' !! x = m !! x.

Lemma deadbeef_run j s a : heapbase s <= a -> a + 8 * Z.of_nat j <= heaptop s -> a mod 8 = 0 ->
  exists m', __malloc_deadbeef a (8 * Z.of_nat j) s = Ret tt (set_cells m' s) /\ only (cells s) m' (fun x => a <= x < a + 8 * Z.of_nat j).
Proof.
  intros Hb Ht Hm. unfold __malloc_deadbeef, MBLOCKSIZE. rewrite (Z.mul_comm 8), Z.div_mul by lia. rewrite Nat2Z.id. rewrite (Z.mul_comm _ 8).
  set (I := fun (i : Z) (s' : uheap K) => exists m', s' = set_cells m' s /\ only (cells s) m' (fun x => a <= x < a + 8 * i)).
  assert (W : wp (for_loop j 0 (fun i => write_cell (a + 8 * i) (Words 0xdeadbeef 0xdeadbeef))) s (fun _ s' => I (0 + Z.of_nat j) s')).
  { apply (wp_for_loop I); [exists (cells s); by destruct s|]. intros i s' Hi (m' & -> & O). eapply wp_eq; [apply write_run; simpl; [lia|]|].
    - rewrite (Z.mul_comm 8), Z.mod_add; [done|lia].
    - eexists. split; [done|]. intros x Hx. simpl. rewrite lookup_insert_ne by lia. apply O. lia. }
  apply wp_run in W as ([] & s' & -> & m' & -> & O). eexists. split; [done|]. intros x Hx. apply O. lia.
Qed.

Record shape s bs : Prop := mk_shape {
  sh_base : 0 < heapbase s;
  sh_mod : heapbase s mod 8 = 0;
  sh_top : heaptop s <= 2 ^ 31;
  sh_lay : layout (cells s) (heapbase s) 0 bs (heaptop s)
}.

(** The block between [l1] and [l2]. *)
Record block_here s l1 (n : Z) (u : bool) l2 (a : Z) : Prop := mk_here {
  bh_addr : a = heapbase s + 8 * usize l1;
  bh_hdr : cells s !! a = Some (Hdr (hdr (lastn 0 l1) n u));
  bh_size : 1 <= n < 2 ^ 28;
  bh_mod : a mod 8 = 0;
  bh_range : 0 < heapbase s <= a /\ a + 8 * n <= heaptop s <= 2 ^ 31;
  bh_before : layout (cells s) (heapbase s) 0 l1 a;
  bh_after : layout (cells s) (a + 8 * n) n l2 (heaptop s)
}.

Lemma aligned a k : a mod 8 = 0 -> (a + 8 * k) mod 8 = 0.
Proof. intros H. rewrite (Z.mul_comm 8), Z.mod_add; [done|lia]. Qed.

Lemma here s l1 n u l2 : shape s (l1 ++ (n, u) :: l2) -> block_here s l1 n u l2 (heapbase s + 8 * usize l1).
Proof.
  intros [Hb Hm Ht L]. apply layout_app in L as [L1 (H & Hn & L2)]. pose proof (layout_top _ _ _ _ _ L2). pose proof (layout_pos _ _ _ _ _ L1). pose proof (layout_pos _ _ _ _ _ L2).
  split; try done; [lia|by apply aligned|lia].
Qed.

(** What [__malloc_split] makes of a block. *)
Definition cut (u : bool) (k n : Z) : list ublock := if n - k <? 2 then [(n, u)] else [(k, u); (n - k, false)].

Lemma split_run s l1 n u l2 k a : shape s (l1 ++ (n, u) :: l2) -> a = heapbase s + 8 * usize l1 -> 1 <= k <= n ->
  exists m', __malloc_split a (8 * (k - 1)) s = Ret tt (set_cells m' s) /\ shape (set_cells m' s) (l1 ++ cut u k n ++ l2) /\
    only (cells s) m' (fun x => x = a \/ (k + 2 <= n /\ x = a + 8 * k) \/ x = a + 8 * n).
Proof.
  intros Sh -> Hk. destruct (here _ _ _ _ _ Sh) as [_ Hh Hn Hm Hr L1 L2]. set (a := heapbase s + 8 * usize l1) in *.
  unfold __malloc_split. change MBLOCKSIZE with 8. replace (8 * (k - 1) mod 8) with 0 by (rewrite Z.mul_comm, Z.mod_mul; lia). change (negb (0 =? 0)) with false. cbv iota.
  rewrite (run_bind _ _ _ _ _ (header_run s a _ Hh)). rewrite size_hdr by lia. rewrite u32_small by lia. unfold cut.
  destruct (Z.ltb_spec (8 * (n - 1) - 8 * (k - 1)) (2 * 8)) as [Hlt|Hge].
  { rewrite (proj2 (Z.ltb_lt (n - k) 2)) by lia. exists (cells s). destruct s. split; [done|]. split; [done|]. by intros x _. }
  rewrite (proj2 (Z.ltb_ge (n - k) 2)) by lia. rewrite (u32_small (8 * (k - 1) + 8)) by lia. replace (8 * (k - 1) + 8) with (8 * k) by lia. rewrite mkfield by lia.
  rewrite (run_bind _ _ _ _ _ (write_run s a _ ltac:(lia) Hm)). change (set_nextblock k (hdr (lastn 0 l1) n u)) with (hdr (lastn 0 l1) k u).
  rewrite !next_hdr by lia. rewrite (proj2 (Z.eqb_neq (a + 8 * k) (a + 8 * n))) by lia. replace (8 * (n - 1) - 8 * (k - 1)) with (8 * (n - k)) by lia. rewrite mkfield by lia.
  rewrite (run_bind _ _ _ _ _ (write_run (set_cells _ s) (a + 8 * k) _ ltac:(simpl; lia) (aligned _ _ Hm))).
  change (mk_mh k 0 MMAGIC (n - k) false MMAGIC) with (hdr k (n - k) false). rewrite (run_bind get _ _ _ _ eq_refl). cbn [heaptop set_cells].
  set (m1 := <[a + 8 * k := _]> _).
  assert (Hm1 : forall x, x <> a -> x <> a + 8 * k -> m1 !! x = cells s !! x) by (intros x ??; unfold m1; simpl; rewrite !lookup_insert_ne; done).
  assert (Ha1 : m1 !! a = Some (Hdr (hdr (lastn 0 l1) k u))) by (unfold m1; simpl; rewrite lookup_insert_ne, lookup_insert_eq by lia; done).
  assert (Hk1 : m1 !! (a + 8 * k) = Some (Hdr (hdr k (n - k) false))) by (apply lookup_insert_eq).
  assert (Fin : forall m', only m1 m' (eq (a + 8 * n)) -> layout m' (a + 8 * n) (n - k) l2 (heaptop s) -> shape (set_cells m' s) (l1 ++ [(k, u); (n - k, false)] ++ l2) /\
    only (cells s) m' (fun x => x = a \/ (k + 2 <= n /\ x = a + 8 * k) \/ x = a + 8 * n)).
  { intros m' O L. split; [|intros x Hx; rewrite O, Hm1; [done|naive_solver lia..]].
    destruct Sh as [B1 B2 B3 _]. split; try done. simpl. apply layout_app. fold a. split; [|cbn [app layout]; split_and!].
    - eapply layout_ext; [done|]. intros x Hx. rewrite O, Hm1; [done|lia..].
    - rewrite O by lia. done.
    - lia.
    - rewrite O by lia. done.
    - lia.
    - by replace (a + 8 * k + 8 * (n - k)) with (a + 8 * n) by lia. }
  pose proof (layout_top _ _ _ _ _ L2) as Et. pose proof (layout_pos _ _ _ _ _ L2) as Ep.
  destruct (Z.eqb_spec (a + 8 * n) (heaptop s)) as [Heq|Hne]; simpl.
  - exists m1. split; [done|]. apply Fin; [done|]. destruct l2 as [|[] l2]; [done|]. simpl in *. destruct L2 as (_ & ? & L2). pose proof (layout_top _ _ _ _ _ L2). pose proof (layout_pos _ _ _ _ _ L2). lia.
  - destruct l2 as [|[n2 u2] l2]; [simpl in *; lia|]. pose proof L2 as (Hh2 & Hn2 & L3). pose proof (layout_pos _ _ _ _ _ L3). simpl usize in Et.
    assert (Hh2' : m1 !! (a + 8 * n) = Some (Hdr (hdr n n2 u2))) by (rewrite Hm1; [done|lia..]).
    rewrite (run_bind _ _ _ _ _ (header_run (set_cells m1 s) (a + 8 * n) _ Hh2')). rewrite write_run by (try (by apply aligned); simpl; lia).
    eexists. split; [done|]. simpl. apply Fin; [intros x Hx; rewrite lookup_insert_ne; [done|naive_solver]|].
    apply (layout_reprev (cells s) _ _ n); [done| |].
    + intros x Hx. rewrite lookup_insert_ne by lia. apply Hm1; lia.
    + intros _ h Hh'. rewrite lookup_insert_eq. rewrite Hh2 in Hh'. by simplify_eq.
Qed.

(** A block in which only the header changes. *)
Lemma shape_mark s l1 n u l2 u' a : shape s (l1 ++ (n, u) :: l2) -> a = heapbase s + 8 * usize l1 ->
  shape (set_cells (<[a := Hdr (hdr (lastn 0 l1) n u')]> (cells s)) s) (l1 ++ (n, u') :: l2).
Proof.
  intros Sh ->. destruct (here _ _ _ _ _ Sh) as [_ Hh Hn Hm Hr L1 L2]. destruct Sh as [B1 B2 B3 _]. set (a := heapbase s + 8 * usize l1) in *. split; try done. simpl. apply layout_app. fold a. split; [|split_and!].
  - eapply layout_ext; [done|]. intros x Hx. apply lookup_insert_ne. lia.
  - apply lookup_insert_eq.
  - lia.
  - eapply layout_ext; [done|]. intros x Hx. apply lookup_insert_ne. lia.
Qed.

Lemma data_run a : 0 <= a < 2 ^ 32 - 8 -> M_DATA a = a + 8.
Proof. intros Ha. unfold M_DATA, MBLOCKSIZE. apply u32_small. lia. Qed.

Lemma cut_head u k n : exists n' l, cut u k n = (n', u) :: l /\ cut true k n = (n', true) :: l.
Proof. unfold cut. destruct (n - k <? 2); eauto. Qed.

(** The end of the loop: the free block is split and marked. *)
Lemma claim_run s l1 n l2 k a : shape s (l1 ++ (n, false) :: l2) -> a = heapbase s + 8 * usize l1 -> 1 <= k <= n ->
  exists m', (_ ← __malloc_split a (8 * (k - 1)); h' ← header a; _ ← write_cell a (Hdr (set_inuse true h')); mret (inl (M_DATA a))) s = Ret (@inl Z (Z * Z * Z) (a + 8)) (set_cells m' s) /\
    shape (set_cells m' s) (l1 ++ cut true k n ++ l2) /\ only (cells s) m' (fun x => x = a \/ (k + 2 <= n /\ x = a + 8 * k) \/ x = a + 8 * n).
Proof.
  intros Sh Ea Hk. pose proof (here _ _ _ _ _ Sh) as [_ _ Hn Hm Hr _ _]. rewrite <- Ea in *. destruct (split_run s l1 n false l2 k a Sh Ea Hk) as (m1 & E & Sh1 & O1). rewrite (run_bind _ _ _ _ _ E).
  destruct (cut_head false k n) as (n' & l & C & C'). rewrite C in Sh1. pose proof (here _ _ _ _ _ Sh1) as [_ Hh Hn' _ Hr' _ _]. simpl heapbase in *. rewrite <- Ea in *.
  rewrite (run_bind _ _ _ _ _ (header_run _ _ _ Hh)). rewrite (run_bind _ _ _ _ _ (write_run (set_cells m1 s) a _ ltac:(simpl in *; lia) Hm)). rewrite data_run by lia.
  eexists. split; [done|]. split.
  - rewrite C'. apply (shape_mark _ _ _ _ _ true a Sh1). by simpl.
  - intros x Hx. simpl. rewrite lookup_insert_ne by naive_solver. by apply O1.
Qed.

(** The first free block of at least [k] cells. *)
Fixpoint first_fit (k : Z) bs : option (list ublock * Z * list ublock) :=
  match bs with
  | [] => None
  | (n, u) :: bs' => if u || (n <? k) then (fun '(a, n', b) => ((n, u) :: a, n', b)) <$> first_fit k bs' else Some ([], n, bs')
  end.

Lemma ufit_split k bs l1 n l2 : first_fit k bs = Some (l1, n, l2) -> bs = l1 ++ (n, false) :: l2 /\ k <= n.
Proof.
  revert l1. induction bs as [|[n' u] bs IH]; intros l1 H; simpl in H; [done|]. destruct u; simpl in H.
  2: destruct (Z.ltb_spec n' k); [|by simplify_eq].
  all: destruct (first_fit k bs) as [[[a n2] b]|]; [|done]; simplify_eq/=; destruct (IH _ eq_refl) as [-> ?]; done.
Qed.

(** The header [mh] points to when the blocks [l] were passed. *)
Definition passed s l : Z := match l with [] => 0 | _ => heapbase s + 8 * (usize l - lastn 0 l) end.

Lemma search_run fuel s l1 l2 k : shape s (l1 ++ l2) -> (length l2 < fuel)%nat -> 1 <= k ->
  let r := search fuel (8 * (k - 1)) (heapbase s + 8 * usize l1) (passed s l1) (lastn 0 l1) s in
  match first_fit k l2 with
  | Some (l2a, n, l2b) => let a := heapbase s + 8 * usize (l1 ++ l2a) in
      exists m', r = Ret (inl (a + 8)) (set_cells m' s) /\ shape (set_cells m' s) (l1 ++ l2a ++ cut true k n ++ l2b) /\ only (cells s) m' (fun x => x = a \/ (k + 2 <= n /\ x = a + 8 * k) \/ x = a + 8 * n)
  | None => r = Ret (inr (heaptop s, passed s (l1 ++ l2), lastn 0 (l1 ++ l2))) s
  end.
Proof.
  revert l1 l2. induction fuel as [|fuel IH]; intros l1 l2 Sh Hf Hk; [lia|]. cbn [search].
  rewrite (run_bind get _ _ _ _ eq_refl). destruct l2 as [|[n u] l2]; simpl.
  { rewrite app_nil_r in *. destruct Sh as [B1 B2 B3 L]. apply layout_top in L. rewrite <- L. by rewrite Z.ltb_irrefl. }
  pose proof (here _ _ _ _ _ Sh) as [_ Hh Hn Hm Hr L1 L2]. set (a := heapbase s + 8 * usize l1) in *. rewrite (proj2 (Z.ltb_lt a _)) by lia.
  rewrite (run_bind _ _ _ _ _ (header_run s a _ Hh)). simpl. rewrite Z.eqb_refl. simpl. rewrite size_hdr by lia.
  replace (8 * (n - 1) <? 8 * (k - 1)) with (n <? k) by (destruct (Z.ltb_spec n k), (Z.ltb_spec (8 * (n - 1)) (8 * (k - 1))); lia).
  destruct (u || (n <? k)) eqn:Eu.
  - rewrite nextoff_hdr by lia. rewrite u32_small by lia. specialize (IH (l1 ++ [(n, u)]) l2). rewrite <- app_assoc in IH. specialize (IH Sh ltac:(simpl in Hf; lia) Hk).
    rewrite usize_app, lastn_snoc in IH. simpl in IH. replace (heapbase s + 8 * (usize l1 + (n + 0))) with (a + 8 * n) in IH by lia.
    assert (Ep : passed s (l1 ++ [(n, u)]) = a). { unfold passed. destruct (l1 ++ [(n, u)]) eqn:El; [by destruct l1|]. rewrite <- El, usize_app, lastn_snoc. simpl. lia. }
    rewrite Ep in IH. destruct (first_fit k l2) as [[[l2a n'] l2b]|]; [|exact IH]. rewrite <- app_assoc in IH. destruct IH as (m' & E & Sh' & O). exists m'. rewrite <- app_assoc in Sh'. done.
  - apply orb_false_iff in Eu as [-> Hnk%Z.ltb_ge]. rewrite app_nil_r. destruct (claim_run s l1 n l2 k a Sh eq_refl ltac:(lia)) as (m' & E & Sh' & O). exists m'. rewrite E. done.
Qed.

(** ** What is not in a block in use *)

Lemma start_not_data s l1 l2 : shape s (l1 ++ l2) -> ~ indata (heapbase s) (l1 ++ l2) (heapbase s + 8 * usize l1).
Proof.
  intros [B1 B2 B3 L]. apply layout_app in L as [L1 L2]. rewrite indata_app. intros [H|H]; [apply (indata_range _ _ _ _ _ _ L1) in H; lia|apply (indata_range _ _ _ _ _ _ L2) in H; lia].
Qed.
Lemma top_not_data s bs x : shape s bs -> heaptop s <= x -> ~ indata (heapbase s) bs x.
Proof. intros [B1 B2 B3 L] Hx H. apply (indata_range _ _ _ _ _ _ L) in H. lia. Qed.
Lemma free_not_data s l1 n l2 x : shape s (l1 ++ (n, false) :: l2) -> heapbase s + 8 * usize l1 <= x < heapbase s + 8 * usize l1 + 8 * n -> ~ indata (heapbase s) (l1 ++ (n, false) :: l2) x.
Proof.
  intros Sh Hx. destruct (here _ _ _ _ _ Sh) as [_ _ _ _ _ L1 L2]. rewrite indata_app. simpl. intros [H|[[? _]|H]]; [apply (indata_range _ _ _ _ _ _ L1) in H; lia|done|apply (indata_range _ _ _ _ _ _ L2) in H; lia].
Qed.
Lemma next_not_data s l1 b l2 : shape s (l1 ++ b :: l2) -> ~ indata (heapbase s) (l1 ++ b :: l2) (heapbase s + 8 * usize l1 + 8 * b.1).
Proof.
  intros Sh. replace (l1 ++ b :: l2) with ((l1 ++ [b]) ++ l2) in * by (by rewrite <- app_assoc). replace (heapbase s + 8 * usize l1 + 8 * b.1) with (heapbase s + 8 * usize (l1 ++ [b])) by (rewrite usize_app; destruct b; simpl; lia). by apply start_not_data.
Qed.

(** ** free *)

(** What [__malloc_trymerge] makes of two blocks. *)
Definition join (b1 b2 : ublock) : list ublock := if b1.2 || b2.2 then [b1; b2] else [(b1.1 + b2.1, false)].

Lemma indata_join a l1 b1 b2 l2 x : indata a (l1 ++ join b1 b2 ++ l2) x <-> indata a (l1 ++ b1 :: b2 :: l2) x.
Proof.
  unfold join. destruct b1 as [n1 []], b2 as [n2 []]; simpl; try done. rewrite !indata_app. simpl. replace (a + 8 * usize l1 + 8 * (n1 + n2)) with (a + 8 * usize l1 + 8 * n1 + 8 * n2) by lia. naive_solver.
Qed.

Lemma trymerge_run s l1 b1 b2 l2 a : shape s (l1 ++ b1 :: b2 :: l2) -> a = heapbase s + 8 * usize l1 ->
  exists m', __malloc_trymerge a (a + 8 * b1.1) s = Ret tt (set_cells m' s) /\ shape (set_cells m' s) (l1 ++ join b1 b2 ++ l2) /\
    forall x, indata (heapbase s) (l1 ++ b1 :: b2 :: l2) x -> m' !! x = cells s !! x.
Proof.
  intros Sh ->. destruct b1 as [n1 u1], b2 as [n2 u2]. destruct (here _ _ _ _ _ Sh) as [_ Hh1 Hn1 Hm Hr L1 L2]. set (a := heapbase s + 8 * usize l1) in *. pose proof L2 as (Hh2 & Hn2 & L3). simpl fst. pose proof (layout_top _ _ _ _ _ L3) as Et. pose proof (layout_pos _ _ _ _ _ L3) as Ep.
  unfold __malloc_trymerge. rewrite (run_bind _ _ _ _ _ (header_run s a _ Hh1)), (run_bind _ _ _ _ _ (header_run s _ _ Hh2)). cbn [mh_nextblock mh_prevblock mh_inuse hdr]. rewrite Z.eqb_refl. cbn [negb]. unfold join. cbn [snd fst].
  destruct (u1 || u2) eqn:Eu. { exists (cells s). destruct s. done. }
  apply orb_false_iff in Eu as [-> ->]. rewrite !size_hdr by lia. change MBLOCKSIZE with 8. rewrite next_hdr by lia. rewrite (u32_small (8 + _ + _ + _)) by lia.
  replace (8 + 8 * (n1 - 1) + 8 + 8 * (n2 - 1)) with (8 * (n1 + n2)) by lia. rewrite mkfield by lia. change (set_nextblock (n1 + n2) (hdr (lastn 0 l1) n1 false)) with (hdr (lastn 0 l1) (n1 + n2) false).
  rewrite (run_bind _ _ _ _ _ (write_run s a _ ltac:(lia) Hm)), (run_bind get _ _ _ _ eq_refl). cbn [heaptop set_cells mh_nextblock hdr]. set (m1 := <[a := _]> _).
  set (mid := if negb (a + 8 * n1 + 8 * n2 =? heaptop s) then _ else _).
  assert (exists m2, mid (set_cells m1 s) = Ret tt (set_cells m2 s) /\ only m1 m2 (eq (a + 8 * n1 + 8 * n2)) /\ layout m2 (a + 8 * n1 + 8 * n2) (n1 + n2) l2 (heaptop s)) as (m2 & E2 & O2 & L2').
  { unfold mid. destruct (Z.eqb_spec (a + 8 * n1 + 8 * n2) (heaptop s)) as [Heq|Hne]; simpl.
    - exists m1. split; [done|]. split; [done|]. destruct l2 as [|[] l2]; [done|]. simpl in *. destruct L3 as (_ & ? & L3). pose proof (layout_pos _ _ _ _ _ L3). lia.
    - destruct l2 as [|[n3 u3] l2]; [simpl in *; lia|]. pose proof L3 as (Hh3 & Hn3 & L4). pose proof (layout_pos _ _ _ _ _ L4). simpl usize in Et.
      assert (Hh3' : m1 !! (a + 8 * n1 + 8 * n2) = Some (Hdr (hdr n2 n3 u3))) by (unfold m1; rewrite lookup_insert_ne; [done|lia]).
      rewrite (run_bind _ _ _ _ _ (header_run (set_cells m1 s) _ _ Hh3')). rewrite write_run by (try (by apply aligned, aligned); simpl; lia).
      eexists. split; [done|]. split; [intros x Hx; simpl; by rewrite lookup_insert_ne|]. apply (layout_reprev (cells s) _ _ n2); [done| |].
      + intros x Hx. simpl. rewrite lookup_insert_ne by lia. unfold m1. rewrite lookup_insert_ne; [done|lia].
      + intros _ h Hh'. simpl. rewrite lookup_insert_eq. rewrite Hh3 in Hh'. by simplify_eq. }
  rewrite (run_bind _ _ _ _ _ E2). destruct (deadbeef_run 1 (set_cells m2 s) (a + 8 * n1)) as (m3 & E3 & O3); [simpl; lia|simpl; lia|by apply aligned|]. change (8 * Z.of_nat 1) with 8 in *. rewrite E3. exists m3. split; [done|]. simpl in O3.
  assert (O : forall x, x <> a -> x <> a + 8 * n1 + 8 * n2 -> ~ (a + 8 * n1 <= x < a + 8 * n1 + 8) -> m3 !! x = cells s !! x).
  { intros x H1 H2 H3. rewrite O3, O2 by naive_solver. unfold m1. by rewrite lookup_insert_ne. }
  split.
  - destruct Sh as [B1 B2 B3 _]. split; try done. simpl. apply layout_app. fold a. split; [|cbn [layout]; split_and!].
    + eapply layout_ext; [done|]. intros x Hx. apply O; lia.
    + rewrite O3 by lia. rewrite O2 by lia. unfold m1. apply lookup_insert_eq.
    + lia.
    + replace (a + 8 * (n1 + n2)) with (a + 8 * n1 + 8 * n2) by lia. eapply layout_ext; [done|]. intros x Hx. apply O3. lia.
  - intros x Hx. apply O.
    + intros ->. by apply (start_not_data _ _ _ Sh) in Hx.
    + intros ->. replace (l1 ++ (n1, false) :: (n2, false) :: l2) with ((l1 ++ [(n1, false)]) ++ (n2, false) :: l2) in * by (by rewrite <- app_assoc). apply (next_not_data _ _ _ _ Sh). rewrite usize_app. simpl. by replace (heapbase s + 8 * (usize l1 + (n1 + 0)) + 8 * n2) with (a + 8 * n1 + 8 * n2) by lia.
    + intros H. replace (l1 ++ (n1, false) :: (n2, false) :: l2) with ((l1 ++ [(n1, false)]) ++ (n2, false) :: l2) in * by (by rewrite <- app_assoc). revert Hx. apply (free_not_data _ _ _ _ _ Sh). rewrite usize_app. simpl. lia.
Qed.

Lemma snoc_of bs b : last bs = Some b -> bs = removelast bs ++ [b].
Proof. intros H. apply last_Some in H as [l ->]. by rewrite removelast_last. Qed.

(** The block [n] before [l2] is free: it is merged with a free block after it, and then with
    one before it. *)
Definition after_right (n : Z) l2 : list ublock := match l2 with b2 :: l2' => join (n, false) b2 ++ l2' | [] => [(n, false)] end.
Definition ufreed l1 (n : Z) l2 : list ublock :=
  match last l1, after_right n l2 with
  | Some b1, b :: r => removelast l1 ++ join b1 b ++ r
  | _, r => r
  end.

Lemma after_right_head n l2 : exists n' r, after_right n l2 = (n', false) :: r.
Proof. unfold after_right, join. destruct l2 as [|[n2 []] l2]; simpl; eauto. Qed.

(** Marking a block free and wiping it. *)
Lemma wipe_run s l1 n l2 a : shape s (l1 ++ (n, true) :: l2) -> a = heapbase s + 8 * usize l1 ->
  exists m', (_ ← write_cell a (Hdr (set_inuse false (hdr (lastn 0 l1) n true))); __malloc_deadbeef (M_DATA a) (M_SIZE (hdr (lastn 0 l1) n true))) s = Ret tt (set_cells m' s) /\
    shape (set_cells m' s) (l1 ++ (n, false) :: l2) /\ forall x, indata (heapbase s) (l1 ++ (n, false) :: l2) x -> m' !! x = cells s !! x.
Proof.
  intros Sh Ea. pose proof (here _ _ _ _ _ Sh) as [_ _ Hn Hm Hr L1 L2]. rewrite <- Ea in *. pose proof (shape_mark s l1 n true l2 false a Sh Ea) as Sh1.
  rewrite (run_bind _ _ _ _ _ (write_run s a _ ltac:(lia) Hm)). change (set_inuse false (hdr (lastn 0 l1) n true)) with (hdr (lastn 0 l1) n false). set (s1 := set_cells _ s) in *.
  rewrite data_run, size_hdr by lia. replace (8 * (n - 1)) with (8 * Z.of_nat (Z.to_nat (n - 1))) by lia.
  destruct (deadbeef_run (Z.to_nat (n - 1)) s1 (a + 8)) as (m' & E & O); [simpl; lia|simpl; lia|by apply (aligned a 1)|]. rewrite E. exists m'. split; [done|].
  assert (O' : forall x, ~ (a <= x < a + 8 * n) -> m' !! x = cells s !! x). { intros x Hx. rewrite O by lia. simpl. apply lookup_insert_ne. lia. }
  split.
  - destruct Sh1 as [B1 B2 B3 L]. split; try done. simpl in *. apply layout_app in L as [La Lb]. apply layout_app. rewrite <- Ea in *. split; [eapply layout_ext; [done|intros x Hx; apply O; lia]|]. simpl in *. destruct Lb as (Lh & Ln & Lb).
    split; [rewrite O; [done|lia]|]. split; [done|]. eapply layout_ext; [done|]. intros x Hx. apply O. lia.
  - intros x Hx. apply O'. intros Hx'. revert Hx. apply (free_not_data s1); [done|]. simpl. lia.
Qed.

Lemma set_cells_set m1 m2 s : set_cells m2 (set_cells m1 s) = set_cells m2 s.
Proof. done. Qed.

Lemma right_run s l1 n l2 a p : shape s (l1 ++ (n, false) :: l2) -> a = heapbase s + 8 * usize l1 ->
  exists m', (if negb (M_NEXT a (hdr p n true) =? heaptop s) then __malloc_trymerge a (M_NEXT a (hdr p n true)) else mret tt) s = Ret tt (set_cells m' s) /\
    shape (set_cells m' s) (l1 ++ after_right n l2) /\ forall x, indata (heapbase s) (l1 ++ (n, false) :: l2) x -> m' !! x = cells s !! x /\ indata (heapbase s) (l1 ++ after_right n l2) x.
Proof.
  intros Sh Ea. pose proof (here _ _ _ _ _ Sh) as [_ _ Hn Hm Hr L1 L2]. rewrite <- Ea in *. rewrite next_hdr by lia. destruct l2 as [|b2 l2].
  - simpl in L2. rewrite (proj2 (Z.eqb_eq _ _)) by done. exists (cells s). destruct s. done.
  - destruct b2 as [n2 u2]. pose proof L2 as (_ & Hn2 & L3). pose proof (layout_top _ _ _ _ _ L3). pose proof (layout_pos _ _ _ _ _ L3). rewrite (proj2 (Z.eqb_neq _ _)) by lia. change (negb false) with true. cbv iota.
    destruct (trymerge_run s l1 (n, false) (n2, u2) l2 a Sh Ea) as (m' & E & Sh' & Kp). exists m'. split; [done|]. split; [done|]. intros x Hx. split; [by apply Kp|]. by apply indata_join.
Qed.

Lemma left_run s l1 n' r a : shape s (l1 ++ (n', false) :: r) -> a = heapbase s + 8 * usize l1 ->
  exists m', (if negb (a =? heapbase s) then h' ← header a; __malloc_trymerge (M_PREV a h') a else mret tt) s = Ret tt (set_cells m' s) /\
    shape (set_cells m' s) (match last l1 with Some b1 => removelast l1 ++ join b1 (n', false) ++ r | None => (n', false) :: r end) /\ forall x, indata (heapbase s) (l1 ++ (n', false) :: r) x -> m' !! x = cells s !! x.
Proof.
  intros Sh Ea. pose proof (here _ _ _ _ _ Sh) as [_ Hh Hn Hm Hr L1 L2]. rewrite <- Ea in *. destruct (last l1) as [b1|] eqn:Hl.
  - pose proof (snoc_of l1 b1 Hl) as Es. set (l0 := removelast l1) in *. destruct b1 as [n1 u1]. rewrite Es in L1. apply layout_app in L1 as [L0 (_ & Hn1 & Ht)]. pose proof (layout_pos _ _ _ _ _ L0). simpl in Ht.
    rewrite (proj2 (Z.eqb_neq _ _)) by lia. 
    change (negb false) with true. cbv iota.
    rewrite (run_bind _ _ _ _ _ (header_run s a _ Hh)). rewrite Es, lastn_snoc. rewrite prev_hdr by lia.
    assert (Sh0 : shape s (l0 ++ (n1, u1) :: (n', false) :: r)). { replace (l0 ++ (n1, u1) :: (n', false) :: r) with (l1 ++ (n', false) :: r); [done|]. rewrite Es. by rewrite <- app_assoc. }
    destruct (trymerge_run s l0 (n1, u1) (n', false) r (heapbase s + 8 * usize l0) Sh0 eq_refl) as (m' & E & Sh' & Kp). exists m'. simpl fst in E. split; [|split; [done|]].
    + replace (a - 8 * n1) with (heapbase s + 8 * usize l0) by lia. by replace a with (heapbase s + 8 * usize l0 + 8 * n1) by lia.
    + intros x Hx. apply Kp. by rewrite <- app_assoc in Hx.
  - apply last_None in Hl as ->. simpl in Ea. rewrite (proj2 (Z.eqb_eq a _)) by lia. exists (cells s). destruct s. done.
Qed.

Lemma free_run s l1 n l2 : shape s (l1 ++ (n, true) :: l2) -> (l2 = [] -> 2 <= n) ->
  exists m', free (heapbase s + 8 * usize l1 + 8) s = Ret tt (set_cells m' s) /\ shape (set_cells m' s) (ufreed l1 n l2) /\
    forall x, indata (heapbase s) (l1 ++ (n, false) :: l2) x -> m' !! x = cells s !! x.
Proof.
  intros Sh Hz. pose proof (here _ _ _ _ _ Sh) as [_ Hh Hn Hm Hr _ L2]. set (a := heapbase s + 8 * usize l1) in *. pose proof (layout_top _ _ _ _ _ L2) as Et. pose proof (layout_pos _ _ _ _ _ L2) as Ep.
  assert (Hin : a + 8 < heaptop s). { destruct l2; [specialize (Hz eq_refl)|simpl length in Ep]; lia. }
  unfold free. rewrite (proj2 (Z.eqb_neq _ _)) by lia. rewrite (run_bind get _ _ _ _ eq_refl).
  rewrite (proj2 (Z.eqb_neq (heapbase s) 0)), (proj2 (Z.eqb_neq (heaptop s) 0)), (proj2 (Z.ltb_ge (heaptop s) (heapbase s))), (proj2 (Z.ltb_ge (a + 8) (heapbase s))), (proj2 (Z.leb_gt (heaptop s) (a + 8))) by lia. cbn [orb].
  change MBLOCKSIZE with 8. rewrite (u32_small (a + 8 - 8)) by lia. replace (a + 8 - 8) with a by lia. rewrite (run_bind _ _ _ _ _ (header_run s a _ Hh)). change (M_OK (hdr (lastn 0 l1) n true)) with true. change (mh_inuse (hdr (lastn 0 l1) n true)) with true. cbn [negb].
  destruct (wipe_run s l1 n l2 a Sh eq_refl) as (m1 & E1 & Sh1 & K1). rewrite (run_bind2 _ _ _ _ _ _ E1).
  destruct (right_run (set_cells m1 s) l1 n l2 a (lastn 0 l1) Sh1 eq_refl) as (m2 & E2 & Sh2 & K2). rewrite set_cells_set in *. rewrite (run_bind _ _ _ _ _ E2). destruct (after_right_head n l2) as (n' & r & Er). rewrite Er in *.
  destruct (left_run (set_cells m2 s) l1 n' r a Sh2 eq_refl) as (m3 & E3 & Sh3 & K3). exists m3. split; [exact E3|]. split.
  - unfold ufreed. rewrite Er. rewrite set_cells_set in Sh3. by destruct (last l1).
  - intros x Hx. destruct (K2 x Hx) as [K2a K2b]. simpl in K2a, K2b. rewrite <- (K1 x Hx), <- K2a. by apply K3.
Qed.

(** ** malloc *)

Lemma round_size size : 0 <= size <= 2 ^ 31 -> Z.land (u32 (u32 (size + 8) - 1)) (2 ^ 32 - 8) = 8 * ((size + 7) / 8).
Proof.
  intros Hs. rewrite (u32_small (size + 8)), u32_small by lia. change (2 ^ 32 - 8) with (Z.shiftl (Z.ones 29) 3). rewrite land_window by lia.
  replace (size + 8 - 1) with (size + 7) by lia. change (2 ^ 3) with 8. rewrite Z.mod_small; [lia|]. split; [apply Z.div_pos; lia|]. apply Z.div_lt_upper_bound; lia.
Qed.

(** The cells a request for [x] cells takes from the system: whole pages. *)
Definition pages (x : Z) : Z := 512 * ((8 * x + 4095) / 4096).

Lemma pages_ge x : x <= pages x < x + 512.
Proof. unfold pages. pose proof (Z.div_mod (8 * x + 4095) 4096 ltac:(lia)). pose proof (Z.mod_pos_bound (8 * x + 4095) 4096 ltac:(lia)). lia. Qed.

Lemma round_pages x : 0 < x <= 2 ^ 28 + 2 -> u32 (4096 * (u32 (u32 (8 * x + 4096) - 1) / 4096)) = 8 * pages x.
Proof.
  intros Hx. rewrite (u32_small (8 * x + 4096)), (u32_small (_ - 1)) by lia. pose proof (pages_ge x). unfold pages in *. replace (8 * x + 4096 - 1) with (8 * x + 4095) by lia. rewrite u32_small; lia.
Qed.

(** Where a block of [k] cells goes: the cells the heap grows by, and the free block it is
    cut from, between the blocks before and after it. *)
Definition place (k : Z) bs : Z * list ublock * Z * list ublock :=
  match first_fit k bs with
  | Some (l1, n, l2) => (0, l1, n, l2)
  | None =>
      match last bs with
      | Some (n, false) => (pages (k - n), removelast bs, n + pages (k - n), [])
      | _ => (pages k, bs, pages k, [])
      end
  end.

(** A header written at the old top, over the last block or after it. *)
Lemma shape_grown s l1 a n g k : shape s l1 \/ (exists n', shape s (l1 ++ [(n', false)])) -> a = heapbase s + 8 * usize l1 -> 1 <= n -> a + 8 * n = heaptop s + 8 * g -> heaptop s + 8 * g <= 2 ^ 31 ->
  shape (mk_uh (heapbase s) (heaptop s + 8 * g) (<[a := Hdr (hdr (lastn 0 l1) n true)]> (cells s)) k) (l1 ++ [(n, true)]).
Proof.
  intros Sh -> Hn Et Ht. assert (L : layout (cells s) (heapbase s) 0 l1 (heapbase s + 8 * usize l1) /\ 0 < heapbase s /\ heapbase s mod 8 = 0).
  { destruct Sh as [[B1 B2 B3 L]|(n' & [B1 B2 B3 L])]; [|by apply layout_app in L as [L _]]. pose proof (layout_top _ _ _ _ _ L) as E. by rewrite <- E. }
  destruct L as (L & B1 & B2). split; try done. simpl. apply layout_app. split; [|cbn [layout]; split_and!].
  - eapply layout_ext; [done|]. intros x Hx. apply lookup_insert_ne. lia.
  - apply lookup_insert_eq.
  - done.
  - lia.
Qed.

(** The part of malloc after the loop, on the block that is to grow. *)
Definition expanding s bs : option mheader := match last bs with Some (n, false) => Some (hdr (lastn 0 (removelast bs)) n false) | _ => None end.

Lemma passed_last s bs n u : shape s bs -> last bs = Some (n, u) -> passed s bs = heapbase s + 8 * usize (removelast bs) /\ cells s !! passed s bs = Some (Hdr (hdr (lastn 0 (removelast bs)) n u)).
Proof.
  intros Sh Hl. pose proof (snoc_of _ _ Hl) as E. rewrite E in Sh. pose proof (here _ _ _ _ _ Sh) as [_ Hh _ _ _ _ _].
  assert (Ep : passed s bs = heapbase s + 8 * usize (removelast bs)). { unfold passed. destruct bs as [|b0 bs0] eqn:Eb; [done|]. rewrite <- Eb in *. rewrite E at 1 2. rewrite usize_app, lastn_snoc. simpl. lia. }
  by rewrite Ep.
Qed.

Lemma expand_run s bs : shape s bs ->
  (if passed s bs =? 0 then mret None else h ← header (passed s bs); mret (if mh_inuse h then None else Some h)) s = Ret (expanding s bs) s.
Proof.
  intros Sh. unfold expanding. destruct (last bs) as [[n u]|] eqn:Hl.
  - destruct (passed_last s bs n u Sh Hl) as [Ep Hh]. pose proof (snoc_of _ _ Hl) as E. rewrite E in Sh. pose proof (here _ _ _ _ _ Sh) as [_ _ _ _ Hr _ _].
    rewrite (proj2 (Z.eqb_neq _ _)) by lia. rewrite (run_bind _ _ _ _ _ (header_run s _ _ Hh)). by destruct u.
  - apply last_None in Hl as ->. done.
Qed.
End Runs.

Section Malloc.
Context {K : Type} `{!Sbrk K, !SbrkLaws K}.
#[local] Set Default Proof Using "Type*".
Implicit Types (s : uheap K).

Lemma intptr_small n : n < 2 ^ 31 -> intptr n = n.
Proof using Type. intros Hn. unfold intptr. by rewrite (proj2 (Z.ltb_lt _ _)). Qed.

Lemma msbrk_run s n : 0 <= n < 2 ^ 31 -> brk (kern s) = heaptop s -> exists k', brk k' = heaptop s /\ sbrk n (kern s) = (-1, k') /\ __malloc_sbrk n s = Ret 0 (set_kern k' s) \/
  brk k' = heaptop s + n /\ heaptop s + n <= 2 ^ 31 /\ sbrk n (kern s) = (heaptop s, k') /\ __malloc_sbrk n s = Ret (heaptop s) (mk_uh (heapbase s) (heaptop s + n) (cells s) k').
Proof.
  intros Hn Hb. pose proof (sbrk_grow (kern s) n Hn) as L. pose proof (brk_range (kern s)) as R0. unfold __malloc_sbrk, sys_sbrk. rewrite intptr_small by lia. unfold mbind, M_bind. destruct (sbrk n (kern s)) as [r k'] eqn:E. exists k'. pose proof (brk_range k') as R. destruct L as [[-> L]|[-> L]].
  - left. split; [congruence|]. by split.
  - right. rewrite Hb in *. split; [done|]. split; [lia|]. split; [done|]. rewrite (proj2 (Z.eqb_neq _ _)) by lia. unfold get. simpl. rewrite Z.eqb_refl. simpl. unfold put, mret, M_ret. rewrite u32_small by lia. done.
Qed.

(** The cells a new block touches. *)
Definition touched (a k n : Z) (x : Z) : Prop := x = a \/ (k + 2 <= n /\ x = a + 8 * k) \/ x = a + 8 * n.

(** What malloc leaves.  The heap has to grow by [g] cells: sbrk was asked for just that, if
    [g] is not 0, and failed, so that [r] is NULL and nothing has changed; or it succeeded,
    and the block is there.  With [g] = 0 the kernel is not called. *)
Definition placed s (k : Z) bs (r : Z) s' : Prop :=
  let '(g, l1, n, l2) := place k bs in
  let a := heapbase s + 8 * usize l1 in
  brk (kern s') = heaptop s' /\ heapbase s' = heapbase s /\
  ((r = 0 /\ 0 < g /\ sbrk (8 * g) (kern s) = (-1, kern s') /\ heaptop s' = heaptop s /\ cells s' = cells s) \/
   (r = a + 8 /\ (if decide (g = 0) then kern s' = kern s else sbrk (8 * g) (kern s) = (heaptop s, kern s')) /\ heaptop s' = heaptop s + 8 * g /\ shape s' (l1 ++ cut true k n ++ l2) /\ only (cells s) (cells s') (touched a k n))).

(** The last two steps, once the new block has its header. *)
Lemma finish_run s s1 l1 n k a : shape s1 (l1 ++ [(n, true)]) -> a = heapbase s1 + 8 * usize l1 -> 1 <= k <= n -> only (cells s) (cells s1) (eq a) ->
  exists s', (_ ← __malloc_split a (8 * (k - 1)); mret (M_DATA a)) s1 = Ret (a + 8) s' /\ heapbase s' = heapbase s1 /\ heaptop s' = heaptop s1 /\ kern s' = kern s1 /\
    shape s' (l1 ++ cut true k n) /\ only (cells s) (cells s') (touched a k n).
Proof.
  intros Sh Ea Hk O. pose proof (here _ _ _ _ _ Sh) as [_ _ Hn _ Hr _ _]. rewrite <- Ea in Hr. destruct (split_run s1 l1 n true [] k a Sh Ea Hk) as (m' & E & Sh' & O'). rewrite (run_bind _ _ _ _ _ E), data_run by lia.
  eexists. split; [done|]. rewrite app_nil_r in Sh'. split_and!; try done. intros x Hx. simpl. unfold touched in Hx. rewrite O' by naive_solver. apply O. naive_solver.
Qed.

Lemma expand_new s bs k : shape s bs -> brk (kern s) = heaptop s -> 1 <= k <= 2 ^ 28 - 512 -> first_fit k bs = None -> expanding s bs = None ->
  exists r s', malloc_expand (8 * (k - 1)) (passed s bs) (lastn 0 bs) s = Ret r s' /\ placed s k bs r s'.
Proof.
  intros Sh Hb Hk Hff Hx. unfold malloc_expand. rewrite (run_bind _ _ _ _ _ (expand_run s bs Sh)), Hx. rewrite (run_bind (mret (u32 (MBLOCKSIZE + 8 * (k - 1)))) _ _ _ _ eq_refl).
  change MBLOCKSIZE with 8. change PAGE_SIZE with 4096. rewrite (u32_small (8 + 8 * (k - 1))) by lia. replace (8 + 8 * (k - 1)) with (8 * k) by lia. rewrite round_pages by lia.
  pose proof (pages_ge k) as Hg. set (g := pages k) in *.
  assert (Ep : place k bs = (g, bs, g, [])). { unfold place. rewrite Hff. unfold expanding in Hx. by destruct (last bs) as [[? []]|]. }
  pose proof Sh as [B1 B2 B3 L]. pose proof (layout_top _ _ _ _ _ L) as Et.
  destruct (msbrk_run s (8 * g) ltac:(lia) Hb) as (k' & [(Hk' & Es0 & E)|(Hk' & Hle & Es0 & E)]); rewrite (run_bind _ _ _ _ _ E).
  - exists 0, (set_kern k' s). split; [done|]. unfold placed. rewrite Ep. split; [done|]. split; [done|]. left. split; [done|]. split; [lia|]. by split.
  - rewrite (proj2 (Z.eqb_neq _ _)) by (pose proof (layout_pos _ _ _ _ _ L); lia). rewrite mkfield by lia.
    rewrite (run_bind _ _ _ (heaptop s) (mk_uh (heapbase s) (heaptop s + 8 * g) (<[heaptop s := Hdr (hdr (lastn 0 bs) g true)]> (cells s)) k')).
    2: { rewrite (run_bind _ _ _ tt _ (write_run (mk_uh (heapbase s) (heaptop s + 8 * g) (cells s) k') (heaptop s) _ ltac:(simpl; pose proof (layout_pos _ _ _ _ _ L); lia) ltac:(rewrite Et; by apply aligned))). done. }
    pose proof (shape_grown s bs (heaptop s) g g k' (or_introl Sh) Et ltac:(lia) eq_refl Hle) as Sg.
    destruct (finish_run s _ bs g k (heaptop s) Sg Et ltac:(lia)) as (s' & E' & F1 & F2 & F3 & F4 & F5). { intros x Hx'. simpl. by rewrite lookup_insert_ne. }
    rewrite E'. eexists _, s'. split; [done|]. unfold placed. rewrite Ep. simpl in F1, F2, F3. rewrite F1, F2, F3. split; [done|]. split; [done|]. right. rewrite decide_False by lia. rewrite <- Et. rewrite app_nil_r. done.
Qed.

Lemma expand_last s bs k h : shape s bs -> brk (kern s) = heaptop s -> 1 <= k <= 2 ^ 28 - 512 -> first_fit k bs = None -> expanding s bs = Some h ->
  exists r s', malloc_expand (8 * (k - 1)) (passed s bs) (lastn 0 bs) s = Ret r s' /\ placed s k bs r s'.
Proof.
  intros Sh Hb Hk Hff Hx. unfold malloc_expand. rewrite (run_bind _ _ _ _ _ (expand_run s bs Sh)), Hx.
  unfold expanding in Hx. destruct (last bs) as [[n u]|] eqn:Hl; [|done]. destruct u; [done|]. simplify_eq. pose proof (snoc_of _ _ Hl) as Es. destruct (passed_last s bs n false Sh Hl) as [Ea _]. rewrite Ea. set (l1 := removelast bs) in *. set (a := heapbase s + 8 * usize l1) in *.
  pose proof Sh as Sh0. rewrite Es in Sh0. pose proof (here _ _ _ _ _ Sh0) as [_ _ Hn Hm Hr _ L2]. fold a in Hn, Hm, Hr, L2. simpl in L2.
  assert (Hlt : n < k). { rewrite Es in Hff. clear -Hff. induction l1 as [|[n' u'] l1 IH]; simpl in Hff; [destruct (Z.ltb_spec n k); [done|discriminate]|]. apply IH. destruct (u' || (n' <? k)); [|done]. by destruct (first_fit k (l1 ++ _)). }
  rewrite size_hdr by lia. change PAGE_SIZE with 4096. rewrite (run_bind _ _ _ (8 * (k - n)) s).
  2: { rewrite (proj2 (Z.ltb_lt _ _)) by lia. unfold KASSERT. rewrite (run_bind (mret tt) _ _ _ _ eq_refl). unfold mret, M_ret. f_equal. rewrite u32_small; lia. }
  rewrite round_pages by lia. pose proof (pages_ge (k - n)) as Hg. set (g := pages (k - n)) in *.
  assert (Ep : place k bs = (g, l1, n + g, [])) by (unfold place; by rewrite Hff, Hl).
  destruct (msbrk_run s (8 * g) ltac:(lia) Hb) as (k' & [(Hk' & Es0 & E)|(Hk' & Hle & Es0 & E)]); rewrite (run_bind _ _ _ _ _ E).
  - exists 0, (set_kern k' s). split; [done|]. unfold placed. rewrite Ep. split; [done|]. split; [done|]. left. split; [done|]. split; [lia|]. by split.
  - rewrite (proj2 (Z.eqb_neq _ _)) by lia. rewrite nextoff_hdr by lia. rewrite (u32_small (8 * n + 8 * g)) by lia. replace (8 * n + 8 * g) with (8 * (n + g)) by lia. rewrite mkfield by lia.
    rewrite (run_bind _ _ _ a (mk_uh (heapbase s) (heaptop s + 8 * g) (<[a := Hdr (hdr (lastn 0 l1) (n + g) true)]> (cells s)) k')).
    2: { rewrite (run_bind _ _ _ tt _ (write_run (mk_uh (heapbase s) (heaptop s + 8 * g) (cells s) k') a _ ltac:(simpl; lia) Hm)). done. }
    pose proof (shape_grown s l1 a (n + g) g k' (or_intror (ex_intro _ n Sh0)) eq_refl ltac:(lia) ltac:(lia) Hle) as Sg.
    destruct (finish_run s _ l1 (n + g) k a Sg eq_refl ltac:(lia)) as (s' & E' & F1 & F2 & F3 & F4 & F5). { intros x Hx'. simpl. by rewrite lookup_insert_ne. }
    rewrite E'. eexists _, s'. split; [done|]. unfold placed. rewrite Ep. simpl in F1, F2, F3. rewrite F1, F2, F3. split; [done|]. split; [done|]. right. rewrite decide_False by lia. rewrite app_nil_r. done.
Qed.

(** The cells of a request of [size] bytes. *)
Definition cells_of (size : Z) : Z := (size + 7) / 8 + 1.
(** The largest request for which the amount given to sbrk, a whole number of pages for the
    block and its header, is below 2^31. *)
Definition max_request : Z := 2 ^ 31 - 4104.

Lemma cells_of_range size : 0 <= size <= max_request -> 1 <= cells_of size <= 2 ^ 28 - 512 /\ size <= 8 * (cells_of size - 1).
Proof. unfold max_request. intros H. unfold cells_of. pose proof (Z.div_mod (size + 7) 8 ltac:(lia)). pose proof (Z.mod_pos_bound (size + 7) 8 ltac:(lia)). lia. Qed.

Lemma malloc_run s bs size : shape s bs -> brk (kern s) = heaptop s -> 0 <= size <= max_request ->
  exists r s', malloc size s = Ret r s' /\ placed s (cells_of size) bs r s'.
Proof.
  intros Sh Hb Hs. destruct (cells_of_range size Hs) as [Hk _]. set (k := cells_of size) in *. pose proof Sh as [B1 B2 B3 L]. pose proof (layout_top _ _ _ _ _ L) as Et. pose proof (layout_pos _ _ _ _ _ L).
  unfold malloc. rewrite (run_bind get _ _ _ _ eq_refl). rewrite (proj2 (Z.eqb_neq (heapbase s) 0)) by lia. cbn [when]. rewrite (run_bind (mret tt) _ _ _ _ eq_refl), (run_bind get _ _ _ _ eq_refl).
  rewrite (proj2 (Z.eqb_neq (heapbase s) 0)), (proj2 (Z.eqb_neq (heaptop s) 0)), (proj2 (Z.ltb_ge (heaptop s) (heapbase s))) by lia. cbn [orb].
  change MBLOCKSIZE with 8. rewrite round_size by (unfold max_request in Hs; lia). replace (8 * ((size + 7) / 8)) with (8 * (k - 1)) by (unfold k, cells_of; lia).
  replace ((heaptop s - heapbase s) / 8) with (usize bs) by (rewrite Et; replace (heapbase s + 8 * usize bs - heapbase s) with (usize bs * 8) by lia; by rewrite Z.div_mul).
  pose proof (search_run (S (Z.to_nat (usize bs))) s [] bs k Sh ltac:(lia) ltac:(lia)) as R. change (usize []) with 0 in R. change (lastn 0 []) with 0 in R. change (passed s []) with 0 in R. replace (heapbase s + 8 * 0) with (heapbase s) in R by lia.
  destruct (first_fit k bs) as [[[l1 n] l2]|] eqn:Hff.
  - destruct R as (m' & E & Sh' & O). rewrite (run_bind _ _ _ _ _ E). eexists _, _. split; [done|]. unfold placed, place. rewrite Hff. split; [done|]. split; [done|]. right. simpl in *. split_and!; try done. lia.
  - rewrite (run_bind _ _ _ _ _ R). rewrite Z.eqb_refl. simpl. destruct (expanding s bs) eqn:Hx; [by eapply expand_last|by eapply expand_new].
Qed.
End Malloc.

(** ** Blocks and their owners *)

(** [p] points to the data of a block in use of [n] cells. *)
Fixpoint owns (a : Z) bs (p n : Z) : Prop :=
  match bs with
  | [] => False
  | (n', u) :: bs' => (u = true /\ n = n' /\ p = a + 8) \/ owns (a + 8 * n') bs' p n
  end.

Lemma owns_app a l1 l2 p n : owns a (l1 ++ l2) p n <-> owns a l1 p n \/ owns (a + 8 * usize l1) l2 p n.
Proof.
  revert a. induction l1 as [|[n' u] l1 IH]; intros a; simpl.
  - replace (a + 8 * 0) with a by lia. naive_solver.
  - rewrite IH. replace (a + 8 * (n' + usize l1)) with (a + 8 * n' + 8 * usize l1) by lia. naive_solver.
Qed.
Lemma owns_split a bs p n : owns a bs p n -> exists l1 l2, bs = l1 ++ (n, true) :: l2 /\ p = a + 8 * usize l1 + 8.
Proof.
  revert a. induction bs as [|[n' u] bs IH]; intros a H; simpl in H; [done|]. destruct H as [(-> & -> & ->)|H]; [by exists [], bs; split; [|simpl; lia]|].
  destruct (IH _ H) as (l1 & l2 & -> & ->). exists ((n', u) :: l1), l2. split; [done|]. simpl. lia.
Qed.
Lemma owns_range m a q bs top p n : layout m a q bs top -> owns a bs p n -> a + 8 <= p /\ p + 8 * (n - 1) <= top /\ 1 <= n.
Proof.
  intros L H. destruct (owns_split _ _ _ _ H) as (l1 & l2 & -> & ->). apply layout_app in L as [L1 (_ & Hn & L2)]. pose proof (layout_pos _ _ _ _ _ L1). pose proof (layout_top _ _ _ _ _ L2). pose proof (layout_pos _ _ _ _ _ L2). lia.
Qed.
Lemma owns_indata a bs p n x : owns a bs p n -> p <= x < p + 8 * (n - 1) -> indata a bs x.
Proof.
  intros H Hx. destruct (owns_split _ _ _ _ H) as (l1 & l2 & -> & ->). apply indata_app. right. simpl. left. split; [done|]. lia.
Qed.
(** Two blocks do not overlap. *)
Lemma owns_disjoint m a q bs top p n p' n' : layout m a q bs top -> owns a bs p n -> owns a bs p' n' -> p = p' /\ n = n' \/ p + 8 * n <= p' \/ p' + 8 * n' <= p.
Proof.
  revert a q. induction bs as [|[n0 u] bs IH]; intros a q L H H'; simpl in *; [done|]. destruct L as (_ & _ & L).
  destruct H as [(-> & -> & ->)|H], H' as [(_ & -> & ->)|H'].
  - by left.
  - destruct (owns_range _ _ _ _ _ _ _ L H'). right; left. lia.
  - destruct (owns_range _ _ _ _ _ _ _ L H). right; right. lia.
  - by eapply IH.
Qed.

Lemma owns_mark a l1 n l2 p k : owns a (l1 ++ (n, true) :: l2) p k <-> owns a (l1 ++ (n, false) :: l2) p k \/ (k = n /\ p = a + 8 * usize l1 + 8).
Proof. rewrite !owns_app. simpl. naive_solver. Qed.
Lemma owns_join a l1 b1 b2 l2 p k : owns a (l1 ++ join b1 b2 ++ l2) p k <-> owns a (l1 ++ b1 :: b2 :: l2) p k.
Proof.
  unfold join. destruct b1 as [n1 []], b2 as [n2 []]; simpl; try done. rewrite !owns_app. simpl. replace (a + 8 * usize l1 + 8 * (n1 + n2)) with (a + 8 * usize l1 + 8 * n1 + 8 * n2) by lia. naive_solver.
Qed.
Lemma owns_freed a l1 n l2 p k : owns a (ufreed l1 n l2) p k <-> owns a (l1 ++ (n, false) :: l2) p k.
Proof.
  assert (R : owns a (l1 ++ after_right n l2) p k <-> owns a (l1 ++ (n, false) :: l2) p k) by (destruct l2; [done|apply owns_join]).
  rewrite <- R. unfold ufreed. destruct (after_right_head n l2) as (n' & r & ->). destruct (last l1) as [b1|] eqn:Hl; [|by apply last_None in Hl as ->].
  rewrite owns_join. rewrite (snoc_of l1 b1 Hl) at 2. by rewrite <- app_assoc.
Qed.
(** The block malloc makes of the [n] cells it found. *)
Definition given (k n : Z) : Z := if n - k <? 2 then n else k.
Lemma owns_cut a l1 k n l2 p j : owns a (l1 ++ cut true k n ++ l2) p j <-> owns a (l1 ++ (n, false) :: l2) p j \/ (j = given k n /\ p = a + 8 * usize l1 + 8).
Proof.
  unfold cut, given. destruct (n - k <? 2); [apply owns_mark|]. rewrite (owns_app a l1 (_ ++ _)), (owns_app a l1 (_ :: _)). simpl. replace (a + 8 * usize l1 + 8 * k + 8 * (n - k)) with (a + 8 * usize l1 + 8 * n) by lia. split.
  - intros [H|[(_ & -> & ->)|[(H & _)|H]]]; [by left; left|by right|done|left; right; by right].
  - intros [[H|[(H & _)|H]]|(-> & ->)]; [by left|done|by right; right; right|right; by left].
Qed.

(** ** No two free blocks are adjacent *)

Fixpoint coal bs : Prop :=
  match bs with
  | b1 :: (b2 :: _) as bs' => b1.2 || b2.2 = true /\ coal bs'
  | _ => True
  end.
Definition border (o1 o2 : option ublock) : Prop := match o1, o2 with Some b1, Some b2 => b1.2 || b2.2 = true | _, _ => True end.

Lemma coal_cons b l : coal (b :: l) <-> border (Some b) (head l) /\ coal l.
Proof. destruct l; simpl; naive_solver. Qed.
Lemma coal_app l1 l2 : coal (l1 ++ l2) <-> coal l1 /\ border (last l1) (head l2) /\ coal l2.
Proof.
  induction l1 as [|b l1 IH]; [simpl; tauto|]. cbn [app]. rewrite !coal_cons, IH. destruct l1 as [|b' l1]; [simpl; tauto|]. rewrite last_cons_cons. simpl head. tauto.
Qed.

(** The last block has room for data, so that its data begin below the top. *)
Definition tidy bs : Prop := coal bs /\ 2 <= lastn 2 bs.

Lemma lastn_pos p bs : Forall (fun b : ublock => 1 <= b.1) bs -> 1 <= p -> 1 <= lastn p bs.
Proof. intros F Hp. unfold lastn. destruct (last bs) as [b|] eqn:E; [|done]. simpl. rewrite Forall_forall in F. apply F. by apply last_Some_elem_of. Qed.
Lemma layout_all m a q bs top : layout m a q bs top -> Forall (fun b : ublock => 1 <= b.1) bs.
Proof. revert a q. induction bs as [|[n u] bs IH]; intros a q L; constructor; simpl in L; [by apply L|]. destruct L as (_ & _ & L). by eapply IH. Qed.

Lemma tidy_cut l1 k n l2 : coal l1 -> border (Some (n, false)) (head l2) -> coal l2 -> 2 <= lastn n l2 -> 1 <= k -> tidy (l1 ++ cut true k n ++ l2).
Proof.
  intros C1 B C2 Hl Hk. unfold tidy, cut. rewrite !coal_app, !lastn_app. destruct (Z.ltb_spec (n - k) 2); simpl.
  - split; [|done]. split; [done|]. split; [by destruct (last l1) as [[? []]|]|]. split; [done|]. split; [by destruct (head l2)|done].
  - split; [|unfold lastn in *; simpl; destruct (last l2); simpl in *; lia]. split; [done|]. split; [by destruct (last l1) as [[? []]|]|]. split; [done|]. split; [by destruct (head l2)|done].
Qed.

Lemma place_tidy k bs g l1 n l2 : tidy bs -> 1 <= k -> place k bs = (g, l1, n, l2) -> tidy (l1 ++ cut true k n ++ l2).
Proof.
  intros [C L] Hk. unfold place. destruct (first_fit k bs) as [[[l1' n'] l2']|] eqn:Hff.
  - intros ?; simplify_eq. apply ufit_split in Hff as [-> _]. rewrite coal_app, coal_cons in C. rewrite lastn_app, lastn_cons in L. apply tidy_cut; naive_solver.
  - pose proof (pages_ge k). destruct (last bs) as [[n' []]|] eqn:Hl; intros ?; simplify_eq.
    + apply tidy_cut; try done. unfold lastn, pages in *. simpl in *. lia.
    + pose proof (pages_ge (k - n')). rewrite (snoc_of _ _ Hl) in C. apply coal_app in C as (C & _ & _). apply tidy_cut; try done. rewrite (snoc_of _ _ Hl), lastn_snoc in L. change (2 <= n' + pages (k - n')). destruct (Z_lt_le_dec n' k); [lia|]. rewrite (snoc_of _ _ Hl) in Hff. exfalso. clear -Hff l. induction (removelast bs) as [|[n1 u1] l1 IH]; simpl in Hff; [rewrite (proj2 (Z.ltb_ge _ _)) in Hff by lia; done|]. apply IH. destruct (u1 || (n1 <? k)); [|done]. by destruct (first_fit k (l1 ++ _)).
    + apply tidy_cut; try done. unfold lastn, pages in *. simpl in *. lia.
Qed.

Lemma coal_join l1 b1 b2 l2 : coal (l1 ++ [b1]) -> coal (b2 :: l2) -> coal (l1 ++ join b1 b2 ++ l2).
Proof.
  intros H1 H2. apply coal_app in H1 as (C1 & B1 & _). apply coal_cons in H2 as (B2 & C2). rewrite !coal_app. unfold join. destruct (b1.2 || b2.2) eqn:E; simpl; rewrite ?coal_cons; simpl; [naive_solver|].
  apply orb_false_iff in E as [E1 E2]. split; [done|]. destruct b1 as [n1 u1], b2 as [n2 u2]; simpl in *; subst. split; [done|]. split; [by destruct (head l2)|done].
Qed.
Lemma lastn_join p l1 b1 b2 l2 : 1 <= b1.1 -> 2 <= lastn p (l1 ++ b1 :: b2 :: l2) -> 2 <= lastn p (l1 ++ join b1 b2 ++ l2).
Proof.
  destruct b1 as [n1 u1], b2 as [n2 u2]. unfold join. simpl. destruct (u1 || u2); [done|]. intros H. rewrite !lastn_app, !lastn_cons. unfold lastn. simpl. destruct (last l2); simpl; lia.
Qed.

Lemma freed_tidy l1 n l2 : tidy (l1 ++ (n, true) :: l2) -> Forall (fun b : ublock => 1 <= b.1) (l1 ++ (n, true) :: l2) -> tidy (ufreed l1 n l2).
Proof.
  intros [C L] F. rewrite coal_app, coal_cons in C. destruct C as (C1 & _ & B2 & C2). rewrite Forall_app, Forall_cons in F. destruct F as (F1 & Fn & F2). simpl in Fn.
  assert (T : coal (after_right n l2) /\ 2 <= lastn 2 (l1 ++ after_right n l2)).
  { destruct l2 as [|b2 l2]; [split; [done|]; simpl; by rewrite lastn_snoc in *|]. unfold after_right. split; [by apply (coal_join [] (n, false))|]. apply lastn_join; [done|]. rewrite lastn_app, !lastn_cons in *. done. }
  destruct T as [C L']. unfold ufreed. destruct (after_right_head n l2) as (n' & r & Er). rewrite Er in *. destruct (last l1) as [b1|] eqn:Hl; [|by apply last_None in Hl as ->].
  pose proof (snoc_of _ _ Hl) as Es. split; [apply coal_join; [by rewrite <- Es|done]|]. apply lastn_join.
  - rewrite Forall_forall in F1. apply F1. by apply last_Some_elem_of.
  - rewrite Es, <- app_assoc in L'. done.
Qed.

(** ** A program and its heap *)

Section Client.
Context {K : Type} `{!Sbrk K, !SbrkLaws K}.
#[local] Set Default Proof Using "Type*".
Implicit Types (s : uheap K).

(** A program that uses the heap: the blocks it has, with the sizes it asked for, and the
    values it has stored in them. *)
Record uworld := mk_uw { uh : uheap K; live : list (Z * Z); view : gmap Z (Z * Z) }.

Inductive ustep : uworld -> uworld -> Prop :=
  | u_malloc w size p h : 0 <= size <= max_request -> malloc size (uh w) = Ret p h ->
      ustep w (mk_uw h (if p =? 0 then live w else (p, size) :: live w) (view w))
  | u_free w p size h : (p, size) ∈ live w -> free p (uh w) = Ret tt h ->
      ustep w (mk_uw h (filter (fun q => q.1 <> p) (live w)) (filter (fun kv => ~ (p <= kv.1 < p + size)) (view w)))
  | u_store w p size x w0 w1 : (p, size) ∈ live w -> p <= x < p + size -> x mod 8 = 0 ->
      ustep w (mk_uw (set_cells (<[x := Words w0 w1]> (cells (uh w))) (uh w)) (live w) (<[x := (w0, w1)]> (view w))).

Definition ustart (k : K) : uworld := mk_uw (mk_uh 0 0 ∅ k) [] ∅.
Definition ureach (k : K) (w : uworld) : Prop := rtc ustep (ustart k) w.

(** A cell past the free block at the end of the heap, or in it. *)
Lemma end_not_data s l1 n x : shape s (l1 ++ [(n, false)]) -> heapbase s + 8 * usize l1 <= x -> ~ indata (heapbase s) (l1 ++ [(n, false)]) x.
Proof.
  intros Sh Hx. destruct (here _ _ _ _ _ Sh) as [_ _ _ _ _ _ L2]. simpl in L2. destruct (decide (x < heaptop s)); [apply free_not_data; [done|lia]|]. apply top_not_data; [done|lia].
Qed.

Lemma placed_kept s k bs r s' x : 1 <= k -> shape s bs -> placed s k bs r s' -> indata (heapbase s) bs x -> cells s' !! x = cells s !! x.
Proof.
  intros Hk Sh P Hx. unfold placed, place in P. pose proof (pages_ge k) as G. destruct (first_fit k bs) as [[[l1 n] l2]|] eqn:Hff.
  - destruct P as (_ & _ & [(_ & ? & _)|(_ & _ & _ & _ & O)]); [lia|]. apply ufit_split in Hff as [-> _]. apply O. intros [-> | [[Hkn ->] | ->]]; revert Hx.
    + by apply start_not_data.
    + apply free_not_data; [done|lia].
    + by apply (next_not_data s l1 (n, false) l2).
  - destruct (last bs) as [[n []]|] eqn:Hl; destruct P as (_ & _ & [(_ & _ & _ & _ & ->)|(_ & _ & _ & _ & O)]); try done; apply O; intros T; revert Hx.
    + pose proof (layout_top _ _ _ _ _ (sh_lay _ _ Sh)). apply top_not_data; [done|]. unfold touched in T. lia.
    + pose proof (pages_ge (k - n)). rewrite (snoc_of _ _ Hl) in Sh |- *. destruct (here _ _ _ _ _ Sh) as [_ _ Hn _ _ _ _]. apply end_not_data; [done|]. unfold touched in T. lia.
    + pose proof (layout_top _ _ _ _ _ (sh_lay _ _ Sh)). apply top_not_data; [done|]. unfold touched in T. lia.
Qed.

(** Who owns what after malloc: the new block is the caller's, and was nobody's. *)
Definition gives s bs (k r : Z) s' : Prop :=
  exists bs' j, shape s' bs' /\ (tidy bs -> tidy bs') /\ k <= j /\ (forall i, ~ owns (heapbase s) bs r i) /\
    forall p n, owns (heapbase s) bs' p n <-> owns (heapbase s) bs p n \/ (n = j /\ p = r).

Lemma given_ge k n : k <= n -> k <= given k n.
Proof. unfold given. destruct (n - k <? 2); lia. Qed.

Lemma owns_tail_free a l n p i : owns a (l ++ [(n, false)]) p i <-> owns a l p i.
Proof. rewrite owns_app. simpl. split; [intros [?|[[? _]|?]]; done|by left]. Qed.

Lemma free_unowned s l1 n l2 i : shape s (l1 ++ (n, false) :: l2) -> ~ owns (heapbase s) (l1 ++ (n, false) :: l2) (heapbase s + 8 * usize l1 + 8) i.
Proof.
  intros Sh H. destruct (owns_split _ _ _ _ H) as (l3 & l4 & E & Ea). pose proof (bh_hdr _ _ _ _ _ _ (here _ _ _ _ _ Sh)) as H1. rewrite E in Sh. pose proof (bh_hdr _ _ _ _ _ _ (here _ _ _ _ _ Sh)) as H2.
  replace (usize l3) with (usize l1) in H2 by lia. rewrite H1 in H2. discriminate.
Qed.

Lemma placed_gives s k bs r s' : 1 <= k -> shape s bs -> placed s k bs r s' -> (r = 0 /\ shape s' bs) \/ (r <> 0 /\ gives s bs k r s').
Proof.
  intros Hk Sh P. unfold placed in P. destruct (place k bs) as [[[g l1] n] l2] eqn:Ep. destruct P as (_ & Hb & [(-> & _ & _ & Ht & Hc)|(-> & _ & Ht & Sh' & _)]).
  { left. split; [done|]. destruct Sh as [B1 B2 B3 L]. split; rewrite ?Hb, ?Ht, ?Hc; done. }
  right. destruct Sh' as [B1' B2' B3' L']. pose proof (mk_shape s' _ B1' B2' B3' L') as Sh'. rewrite Hb in L'. pose proof L' as L1. apply layout_app in L1 as [L1 _]. pose proof (layout_pos _ _ _ _ _ L1). rewrite Hb in B1'. split; [lia|].
  exists (l1 ++ cut true k n ++ l2), (given k n). split; [done|]. split; [intros T; by eapply place_tidy|]. unfold place in Ep. destruct (first_fit k bs) as [[[l1' n'] l2']|] eqn:Hff.
  - simplify_eq. apply ufit_split in Hff as [-> Hn]. split; [by apply given_ge|]. split; [intros i; by apply free_unowned|]. intros p i. apply owns_cut.
  - pose proof (pages_ge k). assert (New : g = pages k -> l1 = bs -> n = pages k -> l2 = [] -> k <= given k n /\ (forall i, ~ owns (heapbase s) bs (heapbase s + 8 * usize l1 + 8) i) /\ forall p i, owns (heapbase s) (l1 ++ cut true k n ++ l2) p i <-> owns (heapbase s) bs p i \/ (i = given k n /\ p = heapbase s + 8 * usize l1 + 8)).
    { intros -> -> -> ->. split; [apply given_ge; lia|]. split; [|intros p i; rewrite owns_cut, owns_tail_free; done]. intros i Hi. pose proof (layout_top _ _ _ _ _ (sh_lay _ _ Sh)). apply (owns_range _ _ _ _ _ _ _ (sh_lay _ _ Sh)) in Hi. lia. }
    destruct (last bs) as [[n0 []]|] eqn:Hl; simplify_eq; try (by apply New). clear New. pose proof (snoc_of _ _ Hl) as Es. pose proof (pages_ge (k - n0)).
    split; [apply given_ge; lia|]. split; [intros i; rewrite Es at 1; rewrite Es in Sh; by apply free_unowned|]. intros p i.
    assert (Eo : owns (heapbase s) bs p i <-> owns (heapbase s) (removelast bs) p i) by (rewrite Es at 1; apply owns_tail_free). by rewrite owns_cut, owns_tail_free, Eo.
Qed.

(** Lists whose first components are distinct. *)
Lemma fst_unique (l : list (Z * Z)) p a b : NoDup l.*1 -> (p, a) ∈ l -> (p, b) ∈ l -> a = b.
Proof.
  induction l as [|[q y] l IH]; intros N Ha Hb; [by apply not_elem_of_nil in Ha|]. simpl in N. apply NoDup_cons in N as [N1 N2].
  rewrite elem_of_cons in Ha, Hb. destruct Ha as [?|Ha], Hb as [?|Hb]; simplify_eq; [done|..|by apply IH]; exfalso; apply N1; apply list_elem_of_fmap; eexists (_, _); split; try done; by simpl.
Qed.
Lemma nodup_filter_fst (l : list (Z * Z)) p : NoDup l.*1 -> NoDup (filter (fun q : Z * Z => q.1 <> p) l).*1.
Proof.
  induction l as [|q l IH]; intros N; [done|]. simpl in N. apply NoDup_cons in N as [N1 N2]. rewrite filter_cons. case_decide; [|by apply IH]. simpl. apply NoDup_cons. split; [|by apply IH].
  intros Hq. apply N1. apply list_elem_of_fmap in Hq as (z & -> & Hz). apply list_elem_of_filter in Hz as [_ Hz]. apply list_elem_of_fmap. by exists z.
Qed.

(** ** The invariant of the program *)

Record winv (w : uworld) bs : Prop := mk_winv {
  wi_shape : shape (uh w) bs;
  wi_brk : brk (kern (uh w)) = heaptop (uh w);
  wi_tidy : tidy bs;
  wi_live p size : (p, size) ∈ live w -> exists n, owns (heapbase (uh w)) bs p n /\ 0 <= size <= 8 * (n - 1);
  wi_nodup : NoDup (live w).*1;
  wi_view x v : view w !! x = Some v -> cells (uh w) !! x = Some (Words v.1 v.2) /\ exists p size, (p, size) ∈ live w /\ p <= x < p + size
}.
(** Before the first call. *)
Definition unborn (w : uworld) : Prop := heapbase (uh w) = 0 /\ heaptop (uh w) = 0 /\ live w = [] /\ view w = ∅ /\ brk (kern (uh w)) mod 8 = 0.

Lemma view_owned w bs x v : winv w bs -> view w !! x = Some v -> indata (heapbase (uh w)) bs x.
Proof.
  intros I Hv. destruct (wi_view _ _ I x v Hv) as (_ & p & size & Hl & Hx). destruct (wi_live _ _ I _ _ Hl) as (n & O & Hs). apply (owns_indata _ _ _ _ _ O). lia.
Qed.

Lemma winv_malloc w bs size p h : winv w bs -> 0 <= size <= max_request -> malloc size (uh w) = Ret p h ->
  exists bs', winv (mk_uw h (if p =? 0 then live w else (p, size) :: live w) (view w)) bs'.
Proof.
  intros I Hs E. pose proof I as [Sh Hb T L N V]. destruct (cells_of_range size Hs) as [[Hk _] Hsz]. destruct (malloc_run (uh w) bs size Sh Hb Hs) as (r & s' & E' & P). rewrite E in E'. simplify_eq.
  assert (Hb' : brk (kern s') = heaptop s' /\ heapbase s' = heapbase (uh w)). { unfold placed in P. destruct (place _ bs) as [[[g l1] n] l2]. naive_solver. }
  assert (V' : forall x v, view w !! x = Some v -> cells s' !! x = Some (Words v.1 v.2)). { intros x v Hv. rewrite (placed_kept _ _ _ _ _ x Hk Sh P); [by apply V|by eapply view_owned]. }
  destruct Hb' as [Hb1 Hb2]. destruct (placed_gives _ _ _ _ _ Hk Sh P) as [[-> Sh']|(Hr & bs' & j & Sh' & T' & Hj & Hno & O)].
  - exists bs. split; try done; simpl; [by rewrite Hb2|]. intros x v Hv. split; [by apply V'|]. by apply V in Hv as [_ Hv].
  - exists bs'. rewrite (proj2 (Z.eqb_neq r 0)) by done. split; simpl; [done|done|by apply T'|..].
    + intros q z Hin. rewrite Hb2. apply elem_of_cons in Hin as [?|Hin].
      * simplify_eq. exists j. split; [apply O; by right|lia].
      * destruct (L q z Hin) as (n & Hn & Hz). exists n. split; [apply O; by left|done].
    + apply NoDup_cons. split; [|done]. intros Hin. apply list_elem_of_fmap in Hin as ([q z] & Eq & Hin). simpl in Eq. subst q. destruct (L r z Hin) as (n & Hn & _). by apply (Hno n).
    + intros x v Hv. split; [by apply V'|]. destruct (V x v Hv) as (_ & q & z & Hin & Hx). exists q, z. split; [by apply elem_of_cons; right|done].
Qed.

Lemma winv_free_run w bs p size : winv w bs -> (p, size) ∈ live w -> exists l1 n l2 m', bs = l1 ++ (n, true) :: l2 /\ p = heapbase (uh w) + 8 * usize l1 + 8 /\ free p (uh w) = Ret tt (set_cells m' (uh w)) /\
  shape (set_cells m' (uh w)) (ufreed l1 n l2) /\ forall x, indata (heapbase (uh w)) (l1 ++ (n, false) :: l2) x -> m' !! x = cells (uh w) !! x.
Proof.
  intros [Sh Hb T L N V] Hin. destruct (L p size Hin) as (n & O & _). destruct (owns_split _ _ _ _ O) as (l1 & l2 & -> & ->). exists l1, n, l2.
  destruct (free_run (uh w) l1 n l2 Sh) as (m' & E & Sh' & Kp); [|by exists m']. intros ->. destruct T as [_ T]. by rewrite lastn_snoc in T.
Qed.

Lemma winv_free w bs p size h : winv w bs -> (p, size) ∈ live w -> free p (uh w) = Ret tt h ->
  exists bs', winv (mk_uw h (filter (fun q => q.1 <> p) (live w)) (filter (fun kv => ~ (p <= kv.1 < p + size)) (view w))) bs'.
Proof.
  intros I Hin E. destruct (winv_free_run w bs p size I Hin) as (l1 & n & l2 & m' & -> & Ep & E' & Sh' & Kp). rewrite E in E'. simplify_eq. destruct I as [Sh Hb T L N V]. set (p := heapbase (uh w) + 8 * usize l1 + 8) in *.
  assert (Keep : forall q z, (q, z) ∈ live w -> q <> p -> exists i, owns (heapbase (uh w)) (l1 ++ (n, false) :: l2) q i /\ 0 <= z <= 8 * (i - 1)).
  { intros q z Hq Hne. destruct (L q z Hq) as (i & Hi & Hz). exists i. split; [|done]. apply owns_mark in Hi as [Hi|[_ Hi]]; [done|by subst p]. }
  exists (ufreed l1 n l2). split; simpl; try done.
  - apply freed_tidy; [done|]. eapply layout_all, Sh.
  - intros q z Hq. apply list_elem_of_filter in Hq as [Hne Hq]. destruct (Keep q z Hq Hne) as (i & Hi & Hz). exists i. split; [by apply owns_freed|done].
  - by apply nodup_filter_fst.
  - intros x v Hv. apply map_lookup_filter_Some in Hv as [Hv Hx]. simpl in Hx. destruct (V x v Hv) as (Hc & q & z & Hq & Hqx).
    assert (Hne : q <> p). { intros ->. destruct (L p z Hq) as (i & Hi & _). rewrite (fst_unique _ _ _ _ N Hq Hin) in Hqx. lia. }
    split; [|exists q, z; split; [by apply list_elem_of_filter|done]]. rewrite <- Hc. apply Kp. destruct (Keep q z Hq Hne) as (i & Hi & Hz). apply (owns_indata _ _ _ _ _ Hi). lia.
Qed.

Lemma winv_store w bs p size x w0 w1 : winv w bs -> (p, size) ∈ live w -> p <= x < p + size ->
  winv (mk_uw (set_cells (<[x := Words w0 w1]> (cells (uh w))) (uh w)) (live w) (<[x := (w0, w1)]> (view w))) bs.
Proof.
  intros [Sh Hb T L N V] Hin Hx. destruct (L p size Hin) as (n & O & Hs). pose proof (owns_indata _ _ _ _ x O ltac:(lia)) as Hd. split; try done; simpl.
  - destruct Sh as [B1 B2 B3 Ly]. split; try done. simpl. clear -Ly Hd. revert Ly Hd. generalize (heapbase (uh w)) 0. induction bs as [|[n u] bs IH]; intros a q Ly Hd; simpl in *; [done|]. destruct Ly as (H1 & Hn & Ly).
    assert (Hne : x <> a). { destruct Hd as [[_ Hd]|Hd]; [lia|]. apply (indata_range _ _ _ _ _ _ Ly) in Hd. lia. }
    split; [by rewrite lookup_insert_ne|]. split; [done|]. destruct Hd as [[_ Hd]|Hd]; [|by apply IH]. eapply layout_ext; [done|]. intros y Hy. apply lookup_insert_ne. lia.
  - intros y v Hv. destruct (decide (y = x)) as [->|Hne].
    + rewrite lookup_insert_eq in Hv. rewrite lookup_insert_eq. simplify_eq. split; [done|]. eauto.
    + rewrite lookup_insert_ne in Hv by done. rewrite lookup_insert_ne by done. by apply V.
Qed.

(** The first call finds the base of the heap. *)
Lemma init_run w : unborn w -> exists s', __malloc_init (uh w) = Ret tt s' /\ winv (mk_uw s' [] ∅) [].
Proof.
  intros (Hb & Ht & Hl & Hv & Ha). pose proof (sbrk_grow (kern (uh w)) 0 ltac:(lia)) as G. pose proof (sbrk_zero (kern (uh w))) as Z0. pose proof (brk_range (kern (uh w))) as R. unfold __malloc_init. rewrite (run_bind get _ _ _ _ eq_refl), Hb, Ht. cbn [negb orb Z.eqb].
  destruct (sbrk 0 (kern (uh w))) as [r k'] eqn:E. simpl in Z0. subst r. assert (Hk : brk k' = brk (kern (uh w))) by (destruct G as [[? _]|[_ ?]]; lia).
  rewrite (run_bind (sys_sbrk 0) _ _ (brk (kern (uh w))) (set_kern k' (uh w))) by (unfold sys_sbrk; change (intptr 0) with 0; by rewrite E). set (x := brk (kern (uh w))) in *.
  rewrite (proj2 (Z.eqb_neq x (-1))), (proj2 (Z.eqb_neq x 0)) by lia. rewrite (run_bind (modify _) _ _ _ _ eq_refl). change MBLOCKSIZE with 8. rewrite Ha. eexists. split; [done|].
  split; simpl; try done; [|by intros ? ? ?%not_elem_of_nil|constructor]. split; simpl; [lia|done|lia|done].
Qed.

Lemma malloc_first w size s' : unborn w -> __malloc_init (uh w) = Ret tt s' -> heapbase s' <> 0 -> malloc size (uh w) = malloc size s'.
Proof.
  intros (Hb & _) E Hn. unfold malloc. rewrite !(run_bind get _ _ _ _ eq_refl). rewrite Hb, (proj2 (Z.eqb_neq (heapbase s') 0)) by done. cbn [when Z.eqb]. by rewrite (run_bind _ _ _ _ _ E), (run_bind (mret tt) _ _ _ _ eq_refl).
Qed.

Lemma ustep_inv w w' : (unborn w \/ exists bs, winv w bs) -> ustep w w' -> unborn w' \/ exists bs, winv w' bs.
Proof.
  intros [U|[bs I]] St; right; destruct St as [w size p h Hs E|w p size h Hin E|w p size x w0 w1 Hin Hx Hm].
  - destruct (init_run w U) as (s' & E' & I). pose proof U as (_ & _ & Hl & Hv & _). rewrite (malloc_first w size s' U E') in E by (pose proof (sh_base _ _ (wi_shape _ _ I)); simpl in *; lia). rewrite Hl, Hv. by apply (winv_malloc (mk_uw s' [] ∅) []).
  - destruct U as (_ & _ & Hl & _). rewrite Hl in Hin. by apply not_elem_of_nil in Hin.
  - destruct U as (_ & _ & Hl & _). rewrite Hl in Hin. by apply not_elem_of_nil in Hin.
  - by eapply winv_malloc.
  - by eapply winv_free.
  - exists bs. by eapply winv_store.
Qed.

Lemma ureach_inv k w : brk k mod 8 = 0 -> ureach k w -> unborn w \/ exists bs, winv w bs.
Proof.
  intros Ha R. assert (U : unborn (ustart k) \/ exists bs, winv (ustart k) bs) by (left; exact (conj eq_refl (conj eq_refl (conj eq_refl (conj eq_refl Ha))))). revert U. induction R as [x|x y z St _ IH]; intros U; [done|]. apply IH. by eapply ustep_inv.
Qed.

(** C37: malloc, for requests of up to 2^31 - 4104 bytes ([max_request]), and free on a
    well-formed heap are the operations on a list of blocks: malloc takes the first free block
    that is large enough, cut to size when the rest can hold a block, without calling the
    kernel; or asks sbrk for the whole pages that are missing, and returns NULL only when that
    call of sbrk fails, with the heap as it was; free merges the block with the free blocks next to it.  Neither ends
    the process, and no two free blocks are ever adjacent. *)
Theorem umalloc_refines_blocks s bs : shape s bs -> tidy bs -> brk (kern s) = heaptop s ->
  (forall size, 0 <= size <= max_request -> exists r s', malloc size s = Ret r s' /\ placed s (cells_of size) bs r s' /\
     let '(_, l1, n, l2) := place (cells_of size) bs in tidy (l1 ++ cut true (cells_of size) n ++ l2)) /\
  (forall l1 n l2, bs = l1 ++ (n, true) :: l2 -> exists m', free (heapbase s + 8 * usize l1 + 8) s = Ret tt (set_cells m' s) /\
     shape (set_cells m' s) (ufreed l1 n l2) /\ tidy (ufreed l1 n l2)).
Proof.
  intros Sh T Hb. split.
  - intros size Hs. destruct (malloc_run s bs size Sh Hb Hs) as (r & s' & E & P). exists r, s'. split; [done|]. split; [done|]. destruct (cells_of_range size Hs) as [[Hk _] _].
    destruct (place (cells_of size) bs) as [[[g l1] n] l2] eqn:Ep. by eapply place_tidy.
  - intros l1 n l2 ->. destruct (free_run s l1 n l2 Sh) as (m' & E & Sh' & _); [intros ->; destruct T as [_ T]; by rewrite lastn_snoc in T|].
    exists m'. split; [done|]. split; [done|]. apply freed_tidy; [done|]. eapply layout_all, Sh.
Qed.

(** C36: a program that asks for at most 2^31 - 4104 bytes at a time ([max_request]), stores
    only inside the blocks it has, and frees only those, never corrupts the heap: in every state it can reach, malloc and the free of each of its blocks
    return; its blocks are aligned, inside the heap and disjoint; and every word it stored
    in a block it still has is there. *)
Theorem umalloc_client_safe k w : brk k mod 8 = 0 -> ureach k w ->
  (forall size, 0 <= size <= max_request -> exists p h, malloc size (uh w) = Ret p h) /\
  (forall p size, (p, size) ∈ live w -> exists h, free p (uh w) = Ret tt h) /\
  (forall p size, (p, size) ∈ live w -> p mod 8 = 0 /\ heapbase (uh w) < p /\ p + size <= heaptop (uh w)) /\
  (forall i j p size p' size', i <> j -> live w !! i = Some (p, size) -> live w !! j = Some (p', size') -> p + size <= p' \/ p' + size' <= p) /\
  (forall x w0 w1, view w !! x = Some (w0, w1) -> cells (uh w) !! x = Some (Words w0 w1)).
Proof.
  intros Ha R. destruct (ureach_inv k w Ha R) as [U|[bs I]].
  - destruct (init_run w U) as (s' & E & I). pose proof U as (_ & _ & Hl & Hv & _). rewrite Hl, Hv. split_and!; try (by intros ? ? ?%not_elem_of_nil); try done.
    intros size Hs. destruct (malloc_run s' [] size (wi_shape _ _ I) (wi_brk _ _ I) Hs) as (r & s1 & E1 & _). exists r, s1. rewrite (malloc_first w size s' U E); [done|]. pose proof (sh_base _ _ (wi_shape _ _ I)). simpl in *. lia.
  - pose proof I as [Sh Hb T L N V]. split_and!.
    + intros size Hs. destruct (malloc_run (uh w) bs size Sh Hb Hs) as (r & s1 & E1 & _). by exists r, s1.
    + intros p size Hin. destruct (winv_free_run w bs p size I Hin) as (l1 & n & l2 & m' & _ & _ & E & _). eauto.
    + intros p size Hin. destruct (L p size Hin) as (n & O & Hs). destruct (owns_range _ _ _ _ _ _ _ (sh_lay _ _ Sh) O) as (H1 & H2 & H3). destruct (owns_split _ _ _ _ O) as (l1 & l2 & _ & ->). split; [|lia].
      apply (aligned _ 1), aligned, Sh.
    + intros i j p size p' size' Hij Hi Hj. destruct (L p size (list_elem_of_lookup_2 _ _ _ Hi)) as (n & O & Hs). destruct (L p' size' (list_elem_of_lookup_2 _ _ _ Hj)) as (n' & O' & Hs').
      destruct (owns_disjoint _ _ _ _ _ _ _ _ _ (sh_lay _ _ Sh) O O') as [[-> _]|?]; [|lia]. exfalso. apply Hij. apply (NoDup_lookup (live w).*1 i j p'); [done|by rewrite list_lookup_fmap, Hi|by rewrite list_lookup_fmap, Hj].
    + intros x w0 w1 Hv. by apply (V x (w0, w1)).
Qed.
End Client.
Arguments uworld : clear implicits.

(** A system whose break is a number, up to the end of user memory. *)
#[export] Instance plain_sbrk : Sbrk Z := {|
  brk k := Z.max 4096 (Z.min k (2 ^ 31));
  sbrk n k := let b := Z.max 4096 (Z.min k (2 ^ 31)) in if (4096 <=? b + n) && (b + n <=? 2 ^ 31) then (b, b + n) else (-1, k)
|}.
#[export] Instance plain_sbrk_laws : SbrkLaws Z.
Proof.
  split.
  - intros k. simpl. lia.
  - intros k n Hn. simpl. rewrite (proj2 (Z.leb_le _ _)) by lia. simpl. destruct (Z.leb_spec (Z.max 4096 (Z.min k (2 ^ 31)) + n) (2 ^ 31)); [right|left]; lia.
  - intros k. simpl. rewrite !(proj2 (Z.leb_le _ _)) by lia. done.
Qed.

(** A heap after malloc(20). *)
Definition heap20 : uheap Z := match malloc 20 (mk_uh 0 0 ∅ 8192) with Ret _ s => s | _ => mk_uh 0 0 ∅ 0 end.

Lemma umalloc_refines_blocks_witness : (exists r s', malloc 5000 heap20 = Ret r s' /\ placed heap20 626 [(4, true); (508, false)] r s') /\
  exists m', free 8200 heap20 = Ret tt (set_cells m' heap20) /\ shape (set_cells m' heap20) [(512, false)].
Proof.
  destruct (umalloc_refines_blocks heap20 [(4, true); (508, false)]) as [G H].
  - split; [vm_compute; reflexivity|vm_compute; reflexivity|vm_compute; discriminate|]. vm_compute. repeat split; discriminate.
  - split; [by split|vm_compute; discriminate].
  - vm_compute. reflexivity.
  - split.
    + destruct (G 5000 ltac:(unfold max_request; lia)) as (r & s' & E & P & _). exists r, s'. split; [exact E|exact P].
    + destruct (H [] 4 [(508, false)] eq_refl) as (m' & E & Sh & _). exists m'. by split.
Defined.

(** The same heap with a value stored. *)
Definition world20 : uworld Z := mk_uw (set_cells (<[8208 := Words 5 6]> (cells heap20)) heap20) [(8200, 20)] {[8208 := (5, 6)]}.

Lemma world20_reached : ureach 8192 world20.
Proof.
  eapply rtc_l; [apply (u_malloc (ustart 8192) 20 8200 heap20); [unfold max_request; lia|vm_compute; reflexivity]|]. apply rtc_once.
  apply (u_store (mk_uw heap20 [(8200, 20)] ∅) 8200 20 8208 5 6); [by left|lia|done].
Qed.

Lemma umalloc_client_safe_witness : exists h, free 8200 (uh world20) = Ret tt h.
Proof.
  destruct (umalloc_client_safe 8192 world20) as (_ & H & _); [vm_compute; reflexivity|exact world20_reached|]. apply (H 8200 20). by left.
Defined.

(** A request of nearly 2^32 bytes is rounded to 0 and succeeds: the caller gets a block
    without data. *)
Example umalloc_wraps : exists s', malloc (2 ^ 32 - 4) heap20 = Ret 8232 s' /\ cells s' !! 8224 = Some (Hdr (hdr 4 1 true)).
Proof. eexists. split; vm_compute; reflexivity. Qed.

(** A heap that is one block in use, of a page. *)
Definition heap4080 : uheap Z := match malloc 4080 (mk_uh 0 0 ∅ 8192) with Ret _ s => s | _ => mk_uh 0 0 ∅ 0 end.

(** A request just below 2^32 makes the amount for sbrk negative: a break that the manual
    allows to be lowered goes down by a page, under the block in use, and malloc writes the
    header of its block where the heap ended before. *)
Example umalloc_lowers : brk (kern heap4080) = 12288 /\ __malloc_sbrk (2 ^ 32 - 4096) heap4080 = Ret 12288 (mk_uh 8192 8192 (cells heap4080) 8192) /\
  malloc (2 ^ 32 - 4104) heap4080 = Undef.
Proof. repeat split; vm_compute; reflexivity. Qed.
End Umalloc.
