(* ===== verification/Mksfs.v ===== *)
(** * Making a volume: userland/sbin/mksfs

    mksfs writes the superblock, the map of blocks in use and the root directory of an empty
    SFS volume.  The disk is a file, reached through system calls ([DiskFile], with their
    documented behaviour in [DiskFileLaws]).  err, errx and a failed assert end the program:
    [exited 1].  The program is the one built for OS/161 (HOST is not defined, so SWAP32 and
    SWAP16 do nothing). *)

From S2P Require Import Prelude Bitmap Uio Lhd SfsData Sfs SfsOps SfsBlocks SfsMap SfsFile SfsReadWrite SfsSync.

Module Mksfs.
Import Bitmap(bitmap, mk_bitmap, mk_bwf, bm_range, bm_len, bm_byte, nbits, v, bit_set, bitmap_wf, byte_of, index_small, bit_land, set_byte_bit, bit_set_put).
Import SfsData.

(** open, fstat, lseek, write, read and close on the disk, and what a file is: its size, the
    position of the descriptor and its bytes. *)
Class DiskFile (F : Type) := {
  df_size : F -> Z;
  df_pos : F -> Z;
  df_byte : F -> Z -> Z;
  sys_open : F -> Z * F;
  sys_fstat : F -> option Z;
  sys_lseek : Z -> F -> Z * F;
  sys_write : list Z -> F -> Z * Z * F;
  sys_read : Z -> F -> Z * Z * list Z * F;
  sys_close : F -> Z * F
}.

Section Code.
Context {F : Type} `{!DiskFile F}.

(** ** disk.c *)

Definition BLOCKSIZE : Z := 512.
Definition EAGAIN : Z := 4.
Definition EINTR : Z := 5.

(** The static variables of the program, and the disk. *)
Record mkst := mk_mk { fd : Z; nblocks : Z; freemapbuf : list Z; disk : F }.
Definition set_fd (x : Z) (s : mkst) : mkst := mk_mk x (nblocks s) (freemapbuf s) (disk s).
Definition set_nblocks (x : Z) (s : mkst) : mkst := mk_mk (fd s) x (freemapbuf s) (disk s).
Definition set_buf (x : list Z) (s : mkst) : mkst := mk_mk (fd s) (nblocks s) x (disk s).
Definition set_disk (x : F) (s : mkst) : mkst := mk_mk (fd s) (nblocks s) (freemapbuf s) x.

Definition errx {A} : M mkst A := exited 1.
Definition assert (b : bool) : M mkst unit := if b then mret tt else errx.
(** A system call. *)
Definition call {A} (f : F -> A * F) : M mkst A := fun s => let '(a, d) := f (disk s) in Ret a (set_disk d s).

Definition opendisk : M mkst unit :=
  s ← get;
  _ ← assert (fd s <? 0);
  x ← call sys_open;
  _ ← modify (set_fd x);
  if x <? 0 then errx
  else
    s ← get;
    match sys_fstat (disk s) with
    | None => errx
    | Some size => modify (set_nblocks (u32 (size / BLOCKSIZE)))
    end.

Definition diskblocksize : M mkst Z := s ← get; _ ← assert (0 <=? fd s); mret BLOCKSIZE.
Definition diskblocks : M mkst Z := s ← get; _ ← assert (0 <=? fd s); mret (nblocks s).

(** The loop of [diskwrite]: [data] is what is left to write. *)
Fixpoint write_loop (fuel : nat) (data : list Z) : M mkst unit :=
  match fuel with
  | O => out_of_fuel
  | S fuel' =>
      match data with
      | [] => mret tt
      | _ =>
          r ← call (sys_write data);
          let '(len, errno) := r in
          if len <? 0 then (if (errno =? EINTR) || (errno =? EAGAIN) then write_loop fuel' data else errx)
          else if len =? 0 then errx
          else write_loop fuel' (drop (Z.to_nat len) data)
      end
  end.

Definition diskwrite (data : list Z) (block : Z) : M mkst unit :=
  s ← get;
  _ ← assert (0 <=? fd s);
  o ← call (sys_lseek (u32 (block * BLOCKSIZE)));
  if o <? 0 then errx else write_loop 513 data.

(** The loop of [diskread]: [want] bytes are left. *)
Fixpoint read_loop (fuel : nat) (want : Z) : M mkst (list Z) :=
  match fuel with
  | O => out_of_fuel
  | S fuel' =>
      if want <=? 0 then mret []
      else
        r ← call (sys_read want);
        let '(len, errno, data) := r in
        if len <? 0 then (if (errno =? EINTR) || (errno =? EAGAIN) then read_loop fuel' want else errx)
        else if len =? 0 then errx
        else rest ← read_loop fuel' (want - len); mret (data ++ rest)
  end.

Definition diskread (block : Z) : M mkst (list Z) :=
  s ← get;
  _ ← assert (0 <=? fd s);
  o ← call (sys_lseek (u32 (block * BLOCKSIZE)));
  if o <? 0 then errx else read_loop 513 BLOCKSIZE.

Definition closedisk : M mkst unit :=
  s ← get;
  _ ← assert (0 <=? fd s);
  r ← call sys_close;
  if negb (r =? 0) then errx else modify (set_fd (-1)).

(** ** mksfs.c *)

Definition MAXFREEMAPBLOCKS : Z := 32.

(** sizeof of the structures of SfsData.v. *)
Definition check : M mkst unit :=
  _ ← assert (4 + 4 + SFS_VOLNAME_SIZE + 4 * 118 =? SFS_BLOCKSIZE);
  _ ← assert (4 + 2 + 2 + 4 * SFS_NDIRECT + 4 + 4 * (128 - 3 - SFS_NDIRECT) =? SFS_BLOCKSIZE);
  assert (SFS_BLOCKSIZE mod (4 + SFS_NAMELEN) =? 0).

Definition allocblock (block : Z) : M mkst unit :=
  let mapbyte := block / 8 in
  let mask := Z.shiftl 1 (block mod 8) in
  s ← get;
  w ← deref (freemapbuf s !! Z.to_nat mapbyte);
  _ ← assert (Z.land w mask =? 0);
  put (set_buf (<[Z.to_nat mapbyte := Z.lor w mask]> (freemapbuf s)) s).

Definition initfreemap (fsblocks : Z) : M mkst unit :=
  let freemapbits := SFS_FREEMAPBITS fsblocks in
  let freemapblocks := SFS_FREEMAPBLOCKS fsblocks in
  if MAXFREEMAPBLOCKS <? freemapblocks then errx
  else
    _ ← allocblock SFS_SUPER_BLOCK;
    _ ← allocblock SFS_ROOTDIR_INO;
    _ ← for_loop (Z.to_nat freemapblocks) 0 (fun i => allocblock (SFS_FREEMAP_START + i));
    for_loop (Z.to_nat (freemapbits - fsblocks)) fsblocks allocblock.

(** The volume name is a C string: its bytes, without the terminator.  [strcpy] into the
    zeroed field leaves zeros after it. *)
Definition writesuper (volname : list Z) (nb : Z) : M mkst unit :=
  if SFS_VOLNAME_SIZE <=? Z.of_nat (length volname) then errx
  else
    let sb := mk_sb SFS_MAGIC nb (volname ++ replicate (32 - length volname) 0) (replicate 118 0) in
    diskwrite (bytes_of_superblock sb) SFS_SUPER_BLOCK.

Definition writefreemap (fsblocks : Z) : M mkst unit :=
  for_loop (Z.to_nat (SFS_FREEMAPBLOCKS fsblocks)) 0 (fun i =>
    s ← get;
    diskwrite (take 512 (drop (Z.to_nat (i * SFS_BLOCKSIZE)) (freemapbuf s))) (SFS_FREEMAP_START + i)).

Definition root_dinode : sfs_dinode := mk_di 0 SFS_TYPE_DIR 1 (replicate 15 0) 0 (replicate 110 0).
Definition writerootdir : M mkst unit := diskwrite (bytes_of_dinode root_dinode) SFS_ROOTDIR_INO.

(** [strchr]: the string from the first [c] on. *)
Fixpoint strchr (l : list Z) (c : Z) : option (list Z) :=
  match l with
  | [] => None
  | x :: l' => if x =? c then Some l else strchr l' c
  end.

Definition main (argc : Z) (volname : list Z) : M mkst Z :=
  if negb (argc =? 3) then errx
  else
    _ ← check;
    name ← (match strchr volname 58 with
            | Some s => if negb (Z.of_nat (length s) =? 1) then errx else mret (take (length volname - length s) volname)
            | None => mret volname
            end);
    match strchr name 47 with
    | Some _ => errx
    | None =>
        _ ← opendisk;
        blocksize ← diskblocksize;
        if negb (blocksize =? SFS_BLOCKSIZE) then errx
        else
          size ← diskblocks;
          _ ← initfreemap size;
          _ ← writesuper name size;
          _ ← writefreemap size;
          _ ← writerootdir;
          _ ← closedisk;
          mret 0
    end.
End Code.
Arguments mkst : clear implicits.

(** What the system calls promise for a disk that does not fail: a write takes at least one
    byte and at most what was asked, and changes only the bytes it takes. *)
Class DiskFileLaws (F : Type) `{!DiskFile F} : Prop := {
  df_open f : 0 <= (sys_open f).1 /\ df_size (sys_open f).2 = df_size f /\ forall x, df_byte (sys_open f).2 x = df_byte f x;
  df_fstat f : sys_fstat f = Some (df_size f);
  df_lseek f o : 0 <= o -> (sys_lseek o f).1 = o /\ df_pos (sys_lseek o f).2 = o /\ df_size (sys_lseek o f).2 = df_size f /\ forall x, df_byte (sys_lseek o f).2 x = df_byte f x;
  df_write f l : l <> [] -> 0 <= df_pos f -> df_pos f + Z.of_nat (length l) <= df_size f ->
    let '(n, _, f') := sys_write l f in 0 < n <= Z.of_nat (length l) /\ df_pos f' = df_pos f + n /\ df_size f' = df_size f /\
      forall x, df_byte f' x = if decide (df_pos f <= x < df_pos f + n) then default 0 (l !! Z.to_nat (x - df_pos f)) else df_byte f x;
  df_close f : (sys_close f).1 = 0 /\ forall x, df_byte (sys_close f).2 x = df_byte f x
}.

Section Disk.
Context {F : Type} `{!DiskFile F, !DiskFileLaws F}.
#[local] Set Default Proof Using "Type*".
Implicit Types (s : mkst F) (f : F).

(** ** Writing a block *)

Lemma write_loop_run fuel s data p0 : (length data < fuel)%nat -> df_pos (disk s) = p0 -> 0 <= p0 -> p0 + Z.of_nat (length data) <= df_size (disk s) ->
  exists f', write_loop fuel data s = Ret tt (set_disk f' s) /\ df_size f' = df_size (disk s) /\
    forall x, df_byte f' x = if decide (p0 <= x < p0 + Z.of_nat (length data)) then default 0 (data !! Z.to_nat (x - p0)) else df_byte (disk s) x.
Proof.
  revert s data p0. induction fuel as [|fuel IH]; intros s data p0 Hf Hp H0 Hsz; [lia|]. cbn [write_loop]. destruct data as [|b0 data0] eqn:Ed.
  - exists (disk s). split; [by destruct s|]. split; [done|]. intros x. rewrite decide_False; [done|]. simpl. lia.
  - rewrite <- Ed in *. pose proof (df_write (disk s) data ltac:(by subst) ltac:(lia) ltac:(lia)) as W. destruct (sys_write data (disk s)) as [[n e] f1] eqn:Ew. destruct W as (Hn & Hp1 & Hs1 & Hb1).
    rewrite (run_bind _ _ s (n, e) (set_disk f1 s)) by (unfold call; by rewrite Ew). rewrite (proj2 (Z.ltb_ge n 0)), (proj2 (Z.eqb_neq n 0)) by lia.
    assert (Hl : Z.of_nat (length (drop (Z.to_nat n) data)) = Z.of_nat (length data) - n) by (rewrite length_drop; lia).
    destruct (IH (set_disk f1 s) (drop (Z.to_nat n) data) (p0 + n)) as (f' & E & Hs' & Hb'); [lia|simpl; lia|lia|simpl; lia|].
    exists f'. split; [exact E|]. simpl in Hs', Hb'. split; [congruence|]. intros x. rewrite Hb', Hb1, Hl, Hp, lookup_drop.
    destruct (decide (p0 + n <= x < _)), (decide (p0 <= x < p0 + n)), (decide (p0 <= x < p0 + Z.of_nat (length data))); try lia; try done.
    by replace (Z.to_nat n + Z.to_nat (x - (p0 + n)))%nat with (Z.to_nat (x - p0)) by lia.
Qed.

(** Block [c] of the disk. *)
Definition blk f (c : Z) : list Z := map (fun i => df_byte f (512 * c + Z.of_nat i)) (seq 0 512).

Lemma blk_lookup f c i : (i < 512)%nat -> blk f c !! i = Some (df_byte f (512 * c + Z.of_nat i)).
Proof. intros Hi. unfold blk. rewrite list_lookup_fmap, lookup_seq_lt by done. done. Qed.
Lemma blk_length f c : length (blk f c) = 512%nat.
Proof. unfold blk. by rewrite length_map, length_seq. Qed.

(** Everything but the disk is as it was, and block [c] of the disk. *)
Definition wrote (c : Z) (data : list Z) s s' : Prop :=
  s' = set_disk (disk s') s /\ df_size (disk s') = df_size (disk s) /\ blk (disk s') c = data /\ forall c', c' <> c -> blk (disk s') c' = blk (disk s) c'.

Lemma diskwrite_spec s data c : 0 <= fd s -> length data = 512%nat -> 0 <= c < 2 ^ 23 -> 512 * (c + 1) <= df_size (disk s) ->
  wp (diskwrite data c) s (fun _ s' => wrote c data s s').
Proof.
  intros Hfd Hl Hc Hsz. unfold diskwrite. rewrite u32_small by (unfold BLOCKSIZE; lia). change (c * BLOCKSIZE) with (c * 512). apply wp_bind. eapply wp_eq; [reflexivity|]. rewrite (proj2 (Z.leb_le _ _)) by lia. apply wp_bind, wp_ret.
  destruct (df_lseek (disk s) (c * 512) ltac:(lia)) as (H1 & H2 & H3 & H4). apply wp_bind. eapply (wp_eq _ _ (c * 512) (set_disk (sys_lseek (c * 512) (disk s)).2 s)).
  { unfold call. destruct (sys_lseek (c * 512) (disk s)) as [o f1]. simpl in *. by subst o. }
  rewrite (proj2 (Z.ltb_ge _ _)) by lia. destruct (write_loop_run 513 (set_disk (sys_lseek (c * 512) (disk s)).2 s) data (c * 512)) as (f' & E & Hs & Hb); [lia|done|lia|simpl; lia|].
  eapply wp_eq; [exact E|]. clear E. cbn [disk set_disk fd nblocks freemapbuf] in Hs, Hb. unfold wrote. cbn [disk set_disk fd nblocks freemapbuf]. split; [done|]. split; [congruence|]. split.
  - apply list_eq. intros i. destruct (decide (i < 512)%nat).
    + rewrite blk_lookup by done. rewrite Hb, decide_True by lia. replace (Z.to_nat (512 * c + Z.of_nat i - c * 512)) with i by lia. destruct (lookup_lt_is_Some_2 data i) as [b ->]; [lia|done].
    + rewrite !lookup_ge_None_2; [done|lia|rewrite blk_length; lia].
  - intros c' Hne. apply list_eq. intros i. destruct (decide (i < 512)%nat).
    + rewrite !blk_lookup by done. rewrite Hb, decide_False by lia. by rewrite H4.
    + rewrite !lookup_ge_None_2; [done|rewrite blk_length; lia..].
Qed.

(** ** The map of blocks in use *)

Definition bm s : bitmap := mk_bitmap (8 * Z.of_nat (length (freemapbuf s))) (freemapbuf s).

Lemma allocblock_spec s i : bitmap_wf (bm s) -> 0 <= i < nbits (bm s) -> bit_set (bm s) i = false ->
  wp (allocblock i) s (fun _ s' => s' = set_buf (freemapbuf s') s /\ bitmap_wf (bm s') /\ length (freemapbuf s') = length (freemapbuf s) /\
    forall j, 0 <= j -> bit_set (bm s') j = if decide (j = i) then true else bit_set (bm s) j).
Proof.
  intros Hwf Hi Hc. destruct (byte_of (bm s) i Hwf (index_small (bm s) i Hwf Hi)) as (w & Hw & Hr & Hb). simpl v in Hw.
  pose proof (Z.mod_pos_bound i 8 ltac:(lia)) as Hm. unfold allocblock. apply wp_bind. eapply wp_eq; [reflexivity|]. apply wp_bind. eapply wp_deref; [exact Hw|].
  rewrite bit_land by lia. rewrite <- Hb, Hc. apply wp_bind, wp_ret. destruct (set_byte_bit w (i mod 8) Hr Hm) as [Hr' Hbits].
  destruct (bit_set_put (bm s) (i / 8) (i mod 8) w _ true Hwf ltac:(apply Z.div_pos; lia) Hm Hw Hr') as (_ & Hset & Hwf').
  { intros j Hj. rewrite Hbits by done. destruct (Z.eqb_spec (i mod 8) j), (decide (j = i mod 8)); try done; lia. }
  replace (i / 8 * 8 + i mod 8) with i in * by (Z.to_euclidean_division_equations; lia). simpl v in *. eapply wp_eq; [reflexivity|].
  assert (E : bm (set_buf (<[Z.to_nat (i / 8) := Z.lor w (Z.shiftl 1 (i mod 8))]> (freemapbuf s)) s) = mk_bitmap (nbits (bm s)) (<[Z.to_nat (i / 8) := Z.lor w (Z.shiftl 1 (i mod 8))]> (freemapbuf s))).
  { unfold bm. simpl. by rewrite length_insert. }
  rewrite E. split; [done|]. split; [apply Hwf'; lia|]. split; [simpl; by rewrite length_insert|]. exact Hset.
Qed.

(** Only the buffer has changed, to a map with the bits of [P] set. *)
Definition marked (P : Z -> bool) s s' : Prop :=
  s' = set_buf (freemapbuf s') s /\ bitmap_wf (bm s') /\ length (freemapbuf s') = length (freemapbuf s) /\ forall j, 0 <= j -> bit_set (bm s') j = P j.

Lemma alloc_one P s0 s i : marked P s0 s -> 0 <= i < nbits (bm s0) -> P i = false -> wp (allocblock i) s (fun _ s' => marked (fun j => bool_decide (j = i) || P j) s0 s').
Proof.
  intros (E & Hwf & Hl & Hb) Hi Hp. assert (Hn : nbits (bm s) = nbits (bm s0)) by (simpl; by rewrite Hl). eapply wp_mono; [apply allocblock_spec; [done|lia|rewrite Hb; [done|lia]]|].
  intros [] s' (E' & Hwf' & Hl' & Hb'). split; [rewrite E', E; done|]. split; [done|]. split; [congruence|]. intros j Hj. rewrite Hb', Hb by done. case_bool_decide; case_decide; try done.
Qed.

Lemma alloc_range off n lo P s0 s : marked P s0 s -> 0 <= off + lo -> off + lo + Z.of_nat n <= nbits (bm s0) -> (forall i, off + lo <= i < off + lo + Z.of_nat n -> P i = false) ->
  wp (for_loop n lo (fun i => allocblock (off + i))) s (fun _ s' => marked (fun j => bool_decide (off + lo <= j < off + lo + Z.of_nat n) || P j) s0 s').
Proof.
  intros Mk H0 Hn Hp. eapply wp_mono; [apply (wp_for_loop (fun i s' => marked (fun j => bool_decide (off + lo <= j < off + i) || P j) s0 s'))|].
  - destruct Mk as (E & Hwf & Hl & Hb). split; [done|]. split; [done|]. split; [done|]. intros j Hj. rewrite Hb by done. by rewrite bool_decide_eq_false_2 by lia.
  - intros i s' Hi Mk'. eapply wp_mono; [apply (alloc_one _ s0 s' (off + i) Mk'); [lia|]|].
    + rewrite bool_decide_eq_false_2 by lia. apply Hp. lia.
    + intros [] s2 (E & Hwf & Hl & Hb). split; [done|]. split; [done|]. split; [done|]. intros j Hj. rewrite Hb by done. repeat case_bool_decide; try done; lia.
  - intros [] s' (E & Hwf & Hl & Hb). split; [done|]. split; [done|]. split; [done|]. intros j Hj. rewrite Hb by done. by replace (off + (lo + Z.of_nat n)) with (off + lo + Z.of_nat n) by lia.
Qed.

(** The blocks in use on an empty volume of [nb] blocks, [k] of them for the map. *)
Definition used (nb k bits : Z) (j : Z) : bool := bool_decide (j < 2 + k \/ nb <= j < bits).

(** The buffer at the start of the program. *)
Definition zero_buf : list Z := replicate (Z.to_nat (MAXFREEMAPBLOCKS * SFS_BLOCKSIZE)) 0.

Lemma zero_buf_map s : freemapbuf s = zero_buf -> bitmap_wf (bm s) /\ nbits (bm s) = 131072 /\ forall j, 0 <= j -> bit_set (bm s) j = false.
Proof.
  intros E. assert (L : Z.of_nat (length zero_buf) = 16384) by (unfold zero_buf, MAXFREEMAPBLOCKS, SFS_BLOCKSIZE; rewrite length_replicate; lia). unfold bm. rewrite E, L.
  assert (Z0 : forall i w, zero_buf !! i = Some w -> w = 0) by (intros i w Hw; unfold zero_buf in Hw; by apply lookup_replicate in Hw as [-> _]).
  split; [|split; [done|]].
  - split; simpl nbits; simpl v; [lia|rewrite L; done| |rewrite L; lia]. intros i w Hw. rewrite (Z0 i w Hw). lia.
  - intros j Hj. unfold bit_set. simpl v. destruct (zero_buf !! Z.to_nat (j / 8)) as [w|] eqn:Ew; [|done]. rewrite (Z0 _ _ Ew). apply Z.testbit_0_l.
Qed.

Lemma initfreemap_spec s nb : freemapbuf s = zero_buf -> let k := (nb + 4095) / 4096 in 0 < nb <= 131072 -> 2 + k <= nb ->
  wp (initfreemap nb) s (fun _ s' => marked (used nb k (4096 * k)) s s').
Proof.
  intros E k Hnb Hk. destruct (zero_buf_map s E) as (Hwf & Hn & Hz). destruct (SfsSync.freemap_sizes nb ltac:(lia)) as [Fb Fk]. fold k in Fb, Fk.
  assert (Hk' : nb <= 4096 * k < nb + 4096 /\ k <= 32) by (unfold k; Z.to_euclidean_division_equations; lia).
  unfold initfreemap. rewrite Fb, Fk. unfold MAXFREEMAPBLOCKS. rewrite (proj2 (Z.ltb_ge _ _)) by lia. unfold SFS_SUPER_BLOCK, SFS_ROOTDIR_INO, SFS_FREEMAP_START.
  assert (M0 : marked (fun _ => false) s s) by (split; [by destruct s|done]).
  apply wp_bind. eapply wp_mono; [apply (alloc_one _ s s 0 M0); [lia|done]|]. intros [] s1 M1.
  apply wp_bind. eapply wp_mono; [apply (alloc_one _ s s1 1 M1); [lia|done]|]. intros [] s2 M2.
  apply wp_bind. eapply wp_mono; [apply (alloc_range 2 (Z.to_nat k) 0 _ s s2 M2); [lia|lia|]|].
  { intros i Hi. rewrite !bool_decide_eq_false_2 by lia. done. }
  intros [] s3 M3. eapply wp_mono; [apply (alloc_range 0 (Z.to_nat (k * 4096 - nb)) nb _ s s3 M3); [lia|lia|]|].
  { intros i Hi. rewrite !bool_decide_eq_false_2 by lia. done. }
  intros [] s4 (E4 & W4 & L4 & B4). split; [done|]. split; [done|]. split; [done|]. intros j Hj. rewrite B4 by done. unfold used. repeat case_bool_decide; try done; lia.
Qed.

Definition piece (buf : list Z) (j : Z) : list Z := take 512 (drop (Z.to_nat (j * SFS_BLOCKSIZE)) buf).

Lemma writefreemap_spec s nb : 0 <= fd s -> df_size (disk s) = 512 * nb -> let k := (nb + 4095) / 4096 in 0 < nb <= 131072 -> 2 + k <= nb -> Z.of_nat (length (freemapbuf s)) = 16384 ->
  wp (writefreemap nb) s (fun _ s' => s' = set_disk (disk s') s /\ df_size (disk s') = df_size (disk s) /\
    forall c, blk (disk s') c = if decide (2 <= c < 2 + k) then piece (freemapbuf s) (c - 2) else blk (disk s) c).
Proof.
  intros Hfd Hsz k Hnb Hk Hl. destruct (SfsSync.freemap_sizes nb ltac:(lia)) as [_ Fk]. fold k in Fk. assert (Hk' : 0 <= k <= 32) by (unfold k; Z.to_euclidean_division_equations; lia).
  unfold writefreemap. rewrite Fk. unfold SFS_FREEMAP_START.
  eapply wp_mono; [apply (wp_for_loop (fun i s' => s' = set_disk (disk s') s /\ df_size (disk s') = df_size (disk s) /\ forall c, blk (disk s') c = if decide (2 <= c < 2 + i) then piece (freemapbuf s) (c - 2) else blk (disk s) c))|].
  - split; [by destruct s|]. split; [done|]. intros c. by rewrite decide_False by lia.
  - intros i s' Hi (E & Hs & Hb). apply wp_bind. eapply wp_eq; [reflexivity|]. assert (Eb : freemapbuf s' = freemapbuf s) by (by rewrite E). assert (Ef : fd s' = fd s) by (by rewrite E). rewrite Eb.
    eapply wp_mono; [apply diskwrite_spec|].
    + by rewrite Ef.
    + unfold SFS_BLOCKSIZE. rewrite length_take, length_drop. lia.
    + lia.
    + rewrite Hs, Hsz. lia.
    + intros [] s2 (E2 & Hs2 & Hw & Ho). split; [rewrite E2, E; done|]. split; [congruence|]. intros c. destruct (decide (c = 2 + i)) as [->|Hne].
      * rewrite Hw, decide_True by lia. unfold piece. by replace (2 + i - 2) with i by lia.
      * rewrite Ho, Hb by done. destruct (decide (2 <= c < 2 + i)), (decide (2 <= c < 2 + (i + 1))); try done; lia.
  - intros [] s' (E & Hs & Hb). split; [done|]. split; [done|]. intros c. rewrite Hb. by replace (2 + (0 + Z.of_nat (Z.to_nat k))) with (2 + k) by lia.
Qed.

(** ** The whole program *)

Definition name_ok (name : list Z) : Prop := (length name < 32)%nat /\ Forall (fun c => 0 < c < 256 /\ c <> 58 /\ c <> 47) name.
Definition new_sb (name : list Z) (nb : Z) : sfs_superblock := mk_sb SFS_MAGIC nb (name ++ replicate (32 - length name) 0) (replicate 118 0).

Lemma strchr_none l c : Forall (fun x => x <> c) l -> strchr l c = None.
Proof. induction 1 as [|x l Hx _ IH]; [done|]. simpl. by rewrite (proj2 (Z.eqb_neq _ _)). Qed.
Lemma strchr_last l c : Forall (fun x => x <> c) l -> strchr (l ++ [c]) c = Some [c].
Proof. induction 1 as [|x l Hx _ IH]; simpl; [by rewrite Z.eqb_refl|]. by rewrite (proj2 (Z.eqb_neq _ _)). Qed.

Lemma zero_words n : Forall is_word (replicate n 0).
Proof. apply Forall_replicate. unfold is_word. lia. Qed.
Lemma root_dinode_ok : dinode_wf root_dinode.
Proof. split; cbn [root_dinode sfi_size sfi_type sfi_linkcount sfi_direct sfi_indirect sfi_waste]; unfold SFS_TYPE_DIR; try (unfold is_word; lia); (split; [done|apply zero_words]). Qed.

Lemma superblock_ok name nb : name_ok name -> 0 < nb <= 131072 -> superblock_wf (new_sb name nb) /\ sb_volname (new_sb name nb) = take 31 (sb_volname (new_sb name nb)) ++ [0].
Proof.
  intros [Hl Hf] Hnb. split.
  - split; cbn [sb_magic sb_nblocks sb_volname sb_reserved new_sb]; [unfold is_word, SFS_MAGIC; lia|unfold is_word; lia|..].
    + rewrite length_app, length_replicate. split; [lia|]. apply Forall_app. split; [|apply Forall_replicate; unfold is_byte; lia]. eapply Forall_impl; [exact Hf|]. intros c Hc. simpl in Hc. unfold is_byte. lia.
    + split; [done|]. apply zero_words.
  - unfold new_sb. cbn [sb_volname]. replace (32 - length name)%nat with ((31 - length name) + 1)%nat by lia. rewrite replicate_add, app_assoc. rewrite take_app_length'; [done|]. rewrite length_app, length_replicate. lia.
Qed.

Lemma opendisk_run f nb : df_size f = 512 * nb -> 0 < nb <= 131072 ->
  0 <= (sys_open f).1 /\ df_size (sys_open f).2 = 512 * nb /\ opendisk (mk_mk (-1) 0 zero_buf f) = Ret tt (mk_mk (sys_open f).1 nb zero_buf (sys_open f).2).
Proof.
  intros Hsz Hnb. destruct (df_open f) as (O1 & O2 & _). split; [done|]. split; [congruence|]. unfold opendisk. rewrite (run_bind get _ _ _ _ eq_refl). change (fd (mk_mk (-1) 0 zero_buf f) <? 0) with true. unfold assert. rewrite (run_bind (mret tt) _ _ _ _ eq_refl).
  rewrite (run_bind (call sys_open) _ _ (sys_open f).1 (mk_mk (-1) 0 zero_buf (sys_open f).2)) by (unfold call; cbn [disk]; by destruct (sys_open f)). rewrite (run_bind (modify _) _ _ _ _ eq_refl). rewrite (proj2 (Z.ltb_ge _ _)) by lia.
  rewrite (run_bind get _ _ _ _ eq_refl). cbn [disk set_fd]. rewrite df_fstat, O2, Hsz. unfold modify, set_nblocks, BLOCKSIZE. cbn [fd freemapbuf disk]. rewrite (Z.mul_comm 512), Z.div_mul by lia. by rewrite u32_small by lia.
Qed.

Lemma closedisk_run s : 0 <= fd s -> exists s', closedisk s = Ret tt s' /\ forall c, blk (disk s') c = blk (disk s) c.
Proof.
  intros Hfd. unfold closedisk, assert. rewrite (run_bind get _ _ _ _ eq_refl). rewrite (proj2 (Z.leb_le _ _)) by done. rewrite (run_bind (mret tt) _ _ _ _ eq_refl). destruct (df_close (disk s)) as [C1 C2].
  rewrite (run_bind (call sys_close) _ _ 0 (set_disk (sys_close (disk s)).2 s)) by (unfold call; destruct (sys_close (disk s)); simpl in *; by subst). eexists. split; [done|]. intros c. cbn [disk set_fd set_disk]. unfold blk. apply map_ext. intros i. apply C2.
Qed.

Lemma main_run f nb name vol : df_size f = 512 * nb -> let k := (nb + 4095) / 4096 in 0 < nb <= 131072 -> 2 + k <= nb -> name_ok name -> vol = name \/ vol = name ++ [58] ->
  wp (main 3 vol) (mk_mk (-1) 0 zero_buf f) (fun r s' => r = 0 /\ exists buf, length buf = length zero_buf /\ bitmap_wf (mk_bitmap 131072 buf) /\ (forall j, 0 <= j -> bit_set (mk_bitmap 131072 buf) j = used nb k (4096 * k) j) /\
    blk (disk s') 0 = bytes_of_superblock (new_sb name nb) /\ blk (disk s') 1 = bytes_of_dinode root_dinode /\ forall j, 0 <= j < k -> blk (disk s') (2 + j) = piece buf j).
Proof.
  intros Hsz k Hnb Hk Hname Hvol. destruct Hname as [Hlen Hch]. assert (Hc : Forall (fun x => x <> 58) name) by (eapply Forall_impl; [exact Hch|]; simpl; tauto). assert (Hs : Forall (fun x => x <> 47) name) by (eapply Forall_impl; [exact Hch|]; simpl; tauto).
  unfold main. change (3 =? 3) with true. cbn [negb]. apply wp_bind. eapply wp_eq; [reflexivity|].
  apply wp_bind. eapply (wp_eq _ _ name (mk_mk (-1) 0 zero_buf f)).
  { destruct Hvol as [-> | ->]; [by rewrite (strchr_none name 58)|]. rewrite strchr_last by done. cbn [length Z.of_nat]. rewrite length_app. cbn [length]. rewrite take_app_length' by lia. done. }
  rewrite (strchr_none name 47) by done. destruct (opendisk_run f nb Hsz Hnb) as (O1 & O2 & Eo). unfold diskblocksize, diskblocks. set (f1 := (sys_open f).2) in *. set (s1 := mk_mk (sys_open f).1 nb zero_buf f1) in *.
  apply wp_bind. eapply wp_eq; [exact Eo|].
  apply wp_bind. eapply (wp_eq _ _ 512 s1). { rewrite (run_bind get _ _ _ _ eq_refl). unfold assert. by rewrite (proj2 (Z.leb_le _ _)) by done. }
  change (512 =? SFS_BLOCKSIZE) with true. cbn [negb]. apply wp_bind. eapply (wp_eq _ _ nb s1). { rewrite (run_bind get _ _ _ _ eq_refl). unfold assert. by rewrite (proj2 (Z.leb_le _ _)) by done. }
  apply wp_bind. eapply wp_mono; [by apply (initfreemap_spec s1 nb)|]. fold k. intros [] s2 (E2 & W2 & L2 & B2). assert (L2' : Z.of_nat (length (freemapbuf s2)) = 16384). { rewrite L2. cbn [freemapbuf s1]. unfold zero_buf, MAXFREEMAPBLOCKS, SFS_BLOCKSIZE. rewrite length_replicate. lia. }
  assert (F2 : fd s2 = (sys_open f).1 /\ disk s2 = f1) by (by rewrite E2). destruct F2 as [F2 D2]. destruct (superblock_ok name nb (conj Hlen Hch) Hnb) as [Wsb _].
  apply wp_bind. unfold writesuper. rewrite (proj2 (Z.leb_gt _ _)) by (unfold SFS_VOLNAME_SIZE; lia). fold (new_sb name nb). unfold SFS_SUPER_BLOCK, writerootdir, SFS_ROOTDIR_INO.
  eapply wp_mono; [apply (diskwrite_spec s2 (bytes_of_superblock (new_sb name nb)) 0); [by rewrite F2|by apply superblock_roundtrip|lia|rewrite D2, O2; lia]|].
  intros [] s3 (E3 & S3 & B3 & _). rewrite D2, O2 in S3. assert (F3 : fd s3 = (sys_open f).1 /\ freemapbuf s3 = freemapbuf s2) by (by rewrite E3, <- F2). destruct F3 as [F3 Bf3].
  apply wp_bind. eapply wp_mono; [apply (writefreemap_spec s3 nb); [by rewrite F3|by rewrite S3|done|done|by rewrite Bf3]|]. fold k. intros [] s4 (E4 & S4 & B4). assert (F4 : fd s4 = (sys_open f).1) by (by rewrite E4).
  apply wp_bind. eapply wp_mono; [apply (diskwrite_spec s4 (bytes_of_dinode root_dinode) 1); [by rewrite F4|by apply length_bytes_of_dinode, root_dinode_ok|lia|rewrite S4, S3; assert (0 <= k) by (apply Z.div_pos; lia); lia]|].
  intros [] s5 (E5 & S5 & B5 & O5). assert (F5 : fd s5 = (sys_open f).1) by (by rewrite E5, <- F4).
  destruct (closedisk_run s5) as (s6 & E6 & Bc); [by rewrite F5|]. apply wp_bind. eapply wp_eq; [exact E6|]. apply wp_ret.
  split; [done|]. exists (freemapbuf s2). assert (Ebm : bm s2 = mk_bitmap 131072 (freemapbuf s2)) by (unfold bm; f_equal; lia). rewrite Ebm in *.
  rewrite !Bc. split; [exact L2|]. split; [done|]. split; [done|]. split; [rewrite O5, B4, decide_False by lia; done|]. split; [done|].
  intros j Hj. rewrite Bc, O5, B4, decide_True by lia. rewrite Bf3. by replace (2 + j - 2) with j by lia.
Qed.
End Disk.

(** ** The kernel mounts what mksfs wrote *)

Section Mount.
Import Uio Lhd Sfs SfsOps SfsBlocks SfsReadWrite SfsSync.
Context {U H : Type} `{US : UserSpace U} `{HW : LhdHw H}.
Local Abbreviation fstate := (Sfs.fstate U H) (only parsing).
Implicit Types s : fstate.

(** The map the kernel reads. *)
Definition new_map (k : Z) (buf : list Z) : bitmap := mk_bitmap (4096 * k) (take (Z.to_nat (512 * k)) buf).

Lemma new_map_ok nb k buf : Z.of_nat (length buf) = 16384 -> 1 <= k <= 32 -> bitmap_wf (mk_bitmap 131072 buf) -> (forall j, 0 <= j -> bit_set (mk_bitmap 131072 buf) j = used nb k (4096 * k) j) ->
  bitmap_wf (new_map k buf) /\ (forall j, 0 <= j < 4096 * k -> bit_set (new_map k buf) j = used nb k (4096 * k) j) /\ (forall j, 0 <= j < k -> chunk (new_map k buf) j = piece buf j) /\ Z.of_nat (length (v (new_map k buf))) = 512 * k.
Proof using Type.
  intros Hl Hk Hwf Hu. assert (Ll : Z.of_nat (length (v (new_map k buf))) = 512 * k) by (unfold new_map; cbn [v]; rewrite length_take; lia). split_and!; try done.
  - split; cbn [nbits new_map]; [lia|rewrite Ll; Z.to_euclidean_division_equations; lia| |rewrite Ll; lia]. intros i w Hw. unfold new_map in Hw. cbn [v] in Hw. apply lookup_take_Some in Hw as [Hw _]. by apply (bm_byte _ Hwf i w).
  - intros j Hj. rewrite <- Hu by lia. unfold bit_set, new_map. cbn [v]. rewrite lookup_take_lt; [done|]. Z.to_euclidean_division_equations; lia.
  - intros j Hj. unfold chunk, piece, new_map, SFS_BLOCKSIZE. cbn [v]. rewrite skipn_firstn_comm, take_take.
    f_equal. lia.
Qed.

(** The root directory of a volume that was just mounted. *)
Lemma root_loads s sb b i vn : f_held s = false -> f_depth s = 0 -> f_fs s = Some (mk_fs sb false true [] (Some b) false) -> drive_ready (locked s) (sb_nblocks sb) -> hw_good (lh_hw (ds_lhd (f_d s))) ->
  1 < sb_nblocks sb <= nbits b -> bitmap_wf b -> bit_set b 1 = true -> dinode_wf i -> sfi_type i = SFS_TYPE_DIR -> dsk s 1 = bytes_of_dinode i ->
  wp (sfs_getroot (Some vn) true) s (fun r s' => r = (0, vn) /\ f_vn s' !! vn = Some (mk_sv 1 i 1 false) /\ f_held s' = false).
Proof using Type.
  intros Hh Hd Hfs Hr Hg Hn Hwf Hb Hi Hty Hdsk. unfold sfs_getroot. change SFS_ROOTDIR_INO with 1. apply wp_bind. apply (wp_eq _ _ tt (locked s)); [unfold vfs_biglock_acquire; msimpl; by rewrite Hh|].
  set (s0 := locked s) in *. apply wp_bind. unfold sfs_loadvnode. apply wp_bind. eapply wp_eq; [by apply get_fs_eq|]. cbn [sfs_vnodes find_vnode]. apply wp_bind, wp_ret.
  destruct (Bitmap.bitmap_isset_spec b 1 Hwf ltac:(lia)) as (u & Eu & Hu). rewrite Hb in Hu. apply wp_bind. apply (wp_eq _ _ u s0).
  { unfold sfs_bused. rewrite (run_bind _ _ _ _ _ (get_fs_eq s0 _ Hfs)). cbn [sfs_sb]. rewrite (proj2 (Z.leb_gt _ _)) by lia. unfold on_freemap. rewrite (run_bind _ _ _ _ _ (get_fs_eq s0 _ Hfs)). cbn [sfs_freemap deref]. rewrite (run_bind (mret b) _ _ _ _ eq_refl). rewrite Eu. unfold put_fs. msimpl. destruct s. cbn in Hfs. by subst. }
  rewrite Hu. cbn [negb]. destruct (readblock_reliable 1 zeros s0 (sb_nblocks sb) (conj Hr Hg) ltac:(lia) eq_refl) as (d & Erd & _ & _). change (dsk s0 1) with (dsk s 1) in Erd. rewrite Hdsk in Erd. apply wp_bind. eapply wp_eq; [exact Erd|]. cbn [Z.eqb negb].
  rewrite dinode_roundtrip by done. rewrite Hty. apply wp_bind. eapply wp_eq; [reflexivity|]. cbn [Z.eqb negb orb].
  change (negb (SFS_TYPE_INVAL =? SFS_TYPE_INVAL)) with false. cbv iota. rewrite Hty. change (negb ((SFS_TYPE_DIR =? SFS_TYPE_FILE) || (SFS_TYPE_DIR =? SFS_TYPE_DIR))) with false. cbv iota.
  clear Erd Hr. subst s0. destruct s as [fs vns dk held dep]. cbn in Hfs, Hh, Hd. subst. unfold put_sv, get_fs, set_vnodes, put_fs, get_sv, vfs_biglock_release, wp, mbind, M_bind. msimpl.
  rewrite lookup_insert_eq. msimpl. rewrite Hty. msimpl.
  by rewrite lookup_insert_eq.
Qed.

Context {F : Type} `{!DiskFile F, !DiskFileLaws F}.

(** The medium that mksfs wrote holds a volume. *)
Lemma made_volume (f : F) nb name buf s : let k := (nb + 4095) / 4096 in 0 < nb <= 131072 -> 2 + k <= nb -> name_ok name -> Z.of_nat (length buf) = 16384 -> bitmap_wf (mk_bitmap 131072 buf) -> (forall j, 0 <= j -> bit_set (mk_bitmap 131072 buf) j = used nb k (4096 * k) j) ->
  blk f 0 = bytes_of_superblock (new_sb name nb) -> (forall j, 0 <= j < k -> blk f (2 + j) = piece buf j) -> nb <= d_blocks (ds_lhd (f_d s)) -> (forall c, 0 <= c < nb -> dsk s c = blk f c) ->
  volume_on s (new_sb name nb) (new_map k buf).
Proof using Type.
  intros k Hnb Hk Hname Hl Hwf Hu H0 Hm Hd Hs. destruct (freemap_sizes nb ltac:(lia)) as [Fb Fk]. fold k in Fb, Fk. assert (Hk' : 1 <= k <= 32) by (unfold k; Z.to_euclidean_division_equations; lia).
  destruct (new_map_ok nb k buf Hl Hk' Hwf Hu) as (W & B & C & L). destruct (superblock_ok name nb Hname Hnb) as [W1 W2]. split; cbn [sb_nblocks new_sb nbits new_map]; rewrite ?Fb, ?Fk; try done; try lia.
  - rewrite Hs by lia. done.
  - intros j Hj. rewrite Hs, C by lia. by apply Hm.
Qed.

(** What the kernel expects of an empty directory on the medium: its type, no bytes, no
    blocks, and the one link a root has. *)
Record empty_directory (i : sfs_dinode) : Prop := mk_empty {
  ed_type : sfi_type i = 2;
  ed_size : sfi_size i = 0;
  ed_links : sfi_linkcount i = 1;
  ed_slots : length (sfi_direct i) = 15%nat;
  ed_direct : Forall (fun b => b = 0) (sfi_direct i);
  ed_indirect : sfi_indirect i = 0
}.

Lemma root_empty : empty_directory root_dinode.
Proof using Type. split; try reflexivity. by apply Forall_replicate. Qed.

(** C35: a disk that mksfs has formatted, however short the writes it was given, is mounted by
    the kernel: the superblock has the name and the size, the map has in use exactly the
    superblock, the root directory, the map itself and what is past the end, the volume
    satisfies the invariant of the file system, and its root, as the kernel loads it, is a
    directory of size 0 with link count 1 and no direct and no indirect block. *)
Theorem mksfs_then_mount (f : F) nb name vol : df_size f = 512 * nb -> 0 < nb <= 131072 -> 2 + (nb + 4095) / 4096 <= nb -> name_ok name -> vol = name \/ vol = name ++ [58] ->
  wp (main 3 vol) (mk_mk (-1) 0 zero_buf f) (fun r (s' : mkst F) => r = 0 /\
    forall s junk vn, unmounted s -> nb <= d_blocks (ds_lhd (f_d s)) -> (forall c, 0 <= c < nb -> dsk s c = blk (disk s') c) ->
    wp (sfs_domount 512 junk true true true) s (fun r1 s1 => r1 = 0 /\ vol_idle s1 /\
      (exists b, f_fs s1 = Some (mk_fs (new_sb name nb) false true [] (Some b) false) /\ forall j, 0 <= j < nbits b -> bit_set b j = used nb ((nb + 4095) / 4096) (nbits b) j) /\
      wp (sfs_getroot (Some vn) true) s1 (fun r2 s2 => r2 = (0, vn) /\ exists i, f_vn s2 !! vn = Some (mk_sv 1 i 1 false) /\ empty_directory i))).
Proof using DiskFileLaws0.
  intros Hsz Hnb Hk Hname Hvol. eapply wp_mono; [by apply (main_run f nb name vol)|]. intros r s' (-> & buf & Hlb & Hwf & Hu & B0 & B1 & Bm). split; [done|]. set (k := (nb + 4095) / 4096) in *.
  assert (Hl : Z.of_nat (length buf) = 16384) by (rewrite Hlb; unfold zero_buf, MAXFREEMAPBLOCKS, SFS_BLOCKSIZE; rewrite length_replicate; lia). assert (Hk' : 1 <= k <= 32 /\ nb <= 4096 * k) by (unfold k; Z.to_euclidean_division_equations; lia).
  destruct (new_map_ok nb k buf Hl ltac:(lia) Hwf Hu) as (W & B & _ & _).
  intros s junk vn Um Hd Hs. eapply wp_mono; [apply (mount_good s (new_sb name nb) (new_map k buf) junk Um); by apply (made_volume (disk s') nb name buf)|].
  intros r s1 (-> & Hh & Hdp & _ & D1 & Efs & Dr & Hg). split; [done|].
  assert (U0 : forall j, 0 <= j < 2 + k \/ nb <= j < 4096 * k -> bit_set (new_map k buf) j = true) by (intros j Hj; rewrite B by lia; unfold used; apply bool_decide_eq_true_2; lia).
  split_and!.
  - split; [done|done|]. eexists _, (new_map k buf). destruct Dr as [_ R2 R3 _]. split; try done; cbn [sfs_sb sb_nblocks new_sb nbits new_map]; [lia|apply U0; lia|]. intros i Hi. apply U0. lia.
  - exists (new_map k buf). split; [done|]. exact B.
  - eapply wp_mono; [apply (root_loads s1 (new_sb name nb) (new_map k buf) root_dinode vn); try done|intros r s2 (-> & ? & _); split; [done|]; exists root_dinode; split; [done|apply root_empty]].
    + cbn [sb_nblocks new_sb nbits new_map]. lia.
    + apply U0. lia.
    + apply root_dinode_ok.
    + rewrite D1, Hs by lia. exact B1.
Qed.
End Mount.

(** ** A disk in memory that takes at most 100 bytes at a time *)

Record ramfile := mk_rf { rf_size : Z; rf_pos : Z; rf_bytes : gmap Z Z }.

Fixpoint store_bytes (x : Z) (l : list Z) (m : gmap Z Z) : gmap Z Z :=
  match l with [] => m | b :: l' => <[x := b]> (store_bytes (x + 1) l' m) end.

#[export] Instance ram_disk : DiskFile ramfile := {|
  df_size := rf_size;
  df_pos := rf_pos;
  df_byte f x := default 0 (rf_bytes f !! x);
  sys_open f := (3, f);
  sys_fstat f := Some (rf_size f);
  sys_lseek o f := (o, mk_rf (rf_size f) o (rf_bytes f));
  sys_write l f := let n := Z.min 100 (Z.of_nat (length l)) in (n, 0, mk_rf (rf_size f) (rf_pos f + n) (store_bytes (rf_pos f) (take (Z.to_nat n) l) (rf_bytes f)));
  sys_read n f := (n, 0, map (fun i => default 0 (rf_bytes f !! (rf_pos f + Z.of_nat i))) (seq 0 (Z.to_nat n)), mk_rf (rf_size f) (rf_pos f + n) (rf_bytes f));
  sys_close f := (0, f)
|}.

Lemma store_bytes_at p l m x : store_bytes p l m !! x = if decide (p <= x < p + Z.of_nat (length l)) then l !! Z.to_nat (x - p) else m !! x.
Proof.
  revert p. induction l as [|b l IH]; intros p; cbn [store_bytes length]; [rewrite decide_False; [done|lia]|]. destruct (decide (x = p)) as [->|Hne].
  - rewrite lookup_insert_eq, decide_True by lia. by rewrite Z.sub_diag.
  - rewrite lookup_insert_ne, IH by done. destruct (decide (p + 1 <= x < _)), (decide (p <= x < _)); try lia; [|done]. replace (Z.to_nat (x - p)) with (S (Z.to_nat (x - (p + 1)))) by lia. done.
Qed.

#[export] Instance ram_disk_laws : DiskFileLaws ramfile.
Proof.
  split; try done.
  intros f l Hl Hp Hs. simpl in *. destruct l as [|b l]; [done|]. remember (b :: l) as bl. assert (0 < length bl)%nat by (subst; simpl; lia). split; [lia|]. split; [done|]. split; [done|].
  intros x. rewrite store_bytes_at, length_take. destruct (decide (rf_pos f <= x < rf_pos f + Z.of_nat (_ `min` _))), (decide (rf_pos f <= x < rf_pos f + Z.min 100 (Z.of_nat (length bl)))); try lia; first [done|rewrite lookup_take_lt by lia; done].
Qed.

#[local] Existing Instance SfsToy.card_hw.
#[local] Existing Instance Uio.no_user.

(** A disk of 64 blocks, and the card that has it as its medium. *)
Definition blank : ramfile := mk_rf 32768 0 ∅.
Definition card_of (f : ramfile) : SfsToy.card := SfsToy.mk_card false (list_to_map (map (fun c => (Z.of_nat c, blk f (Z.of_nat c))) (seq 0 64))).
Definition machine_of (f : ramfile) : Sfs.fstate unit SfsToy.card := Sfs.mk_f None ∅ (Lhd.mk_d (Lhd.mk_lhd (replicate 512 0) 0 1 0 64 (card_of f)) tt) false 0.

Lemma card_of_data f c : 0 <= c < 64 -> SfsBlocks.dsk (machine_of f) c = blk f c.
Proof.
  intros Hc. unfold SfsBlocks.dsk. cbn. unfold SfsToy.card_data, card_of. cbn [SfsToy.cd_blocks].
  assert (E : (list_to_map (map (fun c => (Z.of_nat c, blk f (Z.of_nat c))) (seq 0 64)) : gmap Z (list Z)) !! c = Some (blk f c)).
  { apply elem_of_list_to_map.
    - rewrite <- list_fmap_compose. apply NoDup_fmap_2; [|apply NoDup_seq]. intros a b. simpl. lia.
    - apply list_elem_of_fmap. exists (Z.to_nat c). split; [f_equal; [lia|f_equal; lia]|]. apply elem_of_seq. lia. }
  rewrite E. simpl. apply SfsToy.norm_id, (blk_length f c).
Qed.

Lemma mksfs_then_mount_witness : wp (main 3 [118; 111; 108; 58]) (mk_mk (-1) 0 zero_buf blank) (fun r s' => r = 0 /\
  wp (SfsOps.sfs_domount 512 SfsToy.toy_sb true true true) (machine_of (disk s')) (fun r s1 => r = 0 /\ SfsReadWrite.vol_idle s1)).
Proof.
  apply (wp_mono _ _ _ _ (mksfs_then_mount (U := unit) (H := SfsToy.card) (DiskFile0 := ram_disk) (DiskFileLaws0 := ram_disk_laws) blank 64 [118; 111; 108] [118; 111; 108; 58] ltac:(reflexivity) ltac:(lia) ltac:(by vm_compute) ltac:(split; [simpl; lia|repeat constructor; lia]) (or_intror eq_refl))).
  intros r s' (-> & W). split; [reflexivity|]. apply (wp_mono _ _ _ _ (W (machine_of (disk s')) SfsToy.toy_sb 100 ltac:(split; try done; apply SfsToy.toy_idle) ltac:(simpl; lia) (card_of_data (disk s')))). by intros r s1 (-> & I & _).
Defined.
End Mksfs.
