(* ===== verification/Printf.v ===== *)
(** * Formatted printing: common/libc/printf and stdlib/atoi.c

    The printing engine that the kernel and the C library share, snprintf, and atoi.  A string
    is the list of its bytes, without the terminator.  The variable arguments are a list of
    typed values; taking an argument of another type is undefined in C and [undef] here.  int
    and long have 32 bits. *)

From S2P Require Import Prelude.

Module Printf.

Definition s32 (x : Z) : Z := if x <? 2 ^ 31 then x else x - 2 ^ 32.
Definition s64 (x : Z) : Z := if x <? 2 ^ 63 then x else x - 2 ^ 64.

(** A C string in memory. *)
Fixpoint cstring (l : list Z) : list Z :=
  match l with
  | [] => []
  | c :: l' => if c =? 0 then [] else c :: cstring l'
  end.
Definition mem (c : Z) (l : list Z) : bool := existsb (Z.eqb c) l.

(** ** The state of printf *)

Inductive intsize := INTSZ | LONGSZ | LLONGSZ | SIZETSZ.

(** An argument: the bits of a number, a pointer, a string (None: NULL). *)
Inductive arg := AInt (x : Z) | ALong (x : Z) | ALLong (x : Z) | ASize (x : Z) | APtr (x : Z) | AStr (s : option (list Z)).

Section Code.
Context {C : Type} (sendfunc : list Z -> M C unit).

Record PF := mk_pf {
  clientdata : C;
  ap : list arg;
  charcount : Z;
  in_pct : bool;
  size : intsize;
  num : Z;
  sign : Z;
  spacing : Z;
  rightspc : bool;
  fillchar : Z;
  base : Z;
  baseprefix : bool;
  altformat : bool
}.

Definition on_client (m : M C unit) : M PF unit := fun p =>
  match m (clientdata p) with
  | Ret _ c => Ret tt (mk_pf c (ap p) (charcount p) (in_pct p) (size p) (num p) (sign p) (spacing p) (rightspc p) (fillchar p) (base p) (baseprefix p) (altformat p))
  | Panic msg => Panic msg
  | _ => Undef
  end.
Definition set_count (x : Z) (p : PF) : PF := mk_pf (clientdata p) (ap p) x (in_pct p) (size p) (num p) (sign p) (spacing p) (rightspc p) (fillchar p) (base p) (baseprefix p) (altformat p).
Definition set_ap (x : list arg) (p : PF) : PF := mk_pf (clientdata p) x (charcount p) (in_pct p) (size p) (num p) (sign p) (spacing p) (rightspc p) (fillchar p) (base p) (baseprefix p) (altformat p).
Definition set_pct (x : bool) (p : PF) : PF := mk_pf (clientdata p) (ap p) (charcount p) x (size p) (num p) (sign p) (spacing p) (rightspc p) (fillchar p) (base p) (baseprefix p) (altformat p).
Definition set_size (x : intsize) (p : PF) : PF := mk_pf (clientdata p) (ap p) (charcount p) (in_pct p) x (num p) (sign p) (spacing p) (rightspc p) (fillchar p) (base p) (baseprefix p) (altformat p).
Definition set_num (x sg : Z) (p : PF) : PF := mk_pf (clientdata p) (ap p) (charcount p) (in_pct p) (size p) x sg (spacing p) (rightspc p) (fillchar p) (base p) (baseprefix p) (altformat p).
Definition set_spacing (x : Z) (p : PF) : PF := mk_pf (clientdata p) (ap p) (charcount p) (in_pct p) (size p) (num p) (sign p) x (rightspc p) (fillchar p) (base p) (baseprefix p) (altformat p).
Definition set_rightspc (x : bool) (p : PF) : PF := mk_pf (clientdata p) (ap p) (charcount p) (in_pct p) (size p) (num p) (sign p) (spacing p) x (fillchar p) (base p) (baseprefix p) (altformat p).
Definition set_fillchar (x : Z) (p : PF) : PF := mk_pf (clientdata p) (ap p) (charcount p) (in_pct p) (size p) (num p) (sign p) (spacing p) (rightspc p) x (base p) (baseprefix p) (altformat p).
Definition set_base (x : Z) (b : bool) (p : PF) : PF := mk_pf (clientdata p) (ap p) (charcount p) (in_pct p) (size p) (num p) (sign p) (spacing p) (rightspc p) (fillchar p) x b (altformat p).
Definition set_alt (x : bool) (p : PF) : PF := mk_pf (clientdata p) (ap p) (charcount p) (in_pct p) (size p) (num p) (sign p) (spacing p) (rightspc p) (fillchar p) (base p) (baseprefix p) x.

(** [va_arg]. *)
Definition va_arg : M PF arg :=
  p ← get;
  match ap p with
  | [] => undef
  | a :: r => _ ← put (set_ap r p); mret a
  end.

(** ** The functions *)

Definition __pf_print (txt : list Z) : M PF unit :=
  _ ← on_client (sendfunc txt);
  modify (fun p => set_count (s32 (u32 (charcount p + Z.of_nat (length txt)))) p).

Definition __pf_endfield : M PF unit :=
  modify (fun p => mk_pf (clientdata p) (ap p) (charcount p) false INTSZ 0 0 0 false 32 0 false false).

(** The field width is an int: it overflows without being checked. *)
Definition put_spacing (x : Z) : M PF unit := if x <? 2 ^ 31 then modify (set_spacing x) else undef.

Definition __pf_modifier (ch : Z) : M PF unit :=
  p ← get;
  if ch =? 35 then modify (set_alt true)
  else if ch =? 45 then modify (set_rightspc true)
  else if ch =? 108 then modify (set_size (match size p with LONGSZ => LLONGSZ | _ => LONGSZ end))
  else if ch =? 122 then modify (set_size SIZETSZ)
  else if ch =? 48 then
    if 0 <? spacing p then put_spacing (spacing p * 10) else modify (set_fillchar 48)
  else
    _ ← KASSERT ((48 <? ch) && (ch <=? 57));
    put_spacing (spacing p * 10 + (ch - 48)).

Definition __pf_getnum (ch : Z) : M PF unit :=
  p ← get;
  a ← va_arg;
  if ch =? 112 then (match a with APtr x => modify (set_num x (sign p)) | _ => undef end)
  else if ch =? 100 then
    signednum ← (match size p, a with
                 | INTSZ, AInt x => mret (s32 x)
                 | LONGSZ, ALong x => mret (s32 x)
                 | LLONGSZ, ALLong x => mret (s64 x)
                 | SIZETSZ, ASize x => mret (s32 x)
                 | _, _ => undef
                 end);
    if signednum <? 0 then
      (* -signednum overflows for the least long long *)
      if signednum =? - 2 ^ 63 then undef else modify (set_num (- signednum) (-1))
    else modify (set_num signednum (sign p))
  else
    match size p, a with
    | INTSZ, AInt x => modify (set_num x (sign p))
    | LONGSZ, ALong x => modify (set_num x (sign p))
    | LLONGSZ, ALLong x => modify (set_num x (sign p))
    | SIZETSZ, ASize x => modify (set_num x (sign p))
    | _, _ => undef
    end.

Definition __pf_setbase (ch : Z) : M PF unit :=
  p ← get;
  let b := if (ch =? 100) || (ch =? 117) then 10 else if (ch =? 120) || (ch =? 112) then 16 else if ch =? 111 then 8 else base p in
  put (set_base b (if altformat p || (ch =? 112) then true else baseprefix p) p).

Definition __pf_fill (spc : Z) : M PF unit :=
  p ← get;
  for_loop (Z.to_nat spc) 0 (fun _ => __pf_print [fillchar p]).

Definition __pf_printstuff (prefix prefix2 stuff : list Z) : M PF unit :=
  p ← get;
  let len := Z.of_nat (length prefix + length prefix2 + length stuff) in
  let spc := if len <? spacing p then spacing p - len else 0 in
  _ ← when ((0 <? spc) && negb (rightspc p) && negb (fillchar p =? 48)) (__pf_fill spc);
  _ ← __pf_print prefix;
  _ ← __pf_print prefix2;
  _ ← when ((0 <? spc) && negb (rightspc p) && (fillchar p =? 48)) (__pf_fill spc);
  _ ← __pf_print stuff;
  when ((0 <? spc) && rightspc p) (__pf_fill spc).

(** sizeof(long long) * CHAR_BIT / 3 + 2 *)
Definition NUMBER_BUF_SIZE : Z := 8 * 8 / 3 + 2.
Definition digits : list Z := [48; 49; 50; 51; 52; 53; 54; 55; 56; 57; 97; 98; 99; 100; 101; 102].

(** The do loop: the buffer and [x] after it. *)
Fixpoint digit_loop (fuel : nat) (buf : list Z) (x xnum b : Z) : M PF (list Z * Z) :=
  match fuel with
  | O => out_of_fuel
  | S fuel' =>
      d ← (if b =? 0 then undef else deref (digits !! Z.to_nat (xnum mod b)));
      _ ← (if (0 <=? x) && (x <? Z.of_nat (length buf)) then mret tt else undef);
      let buf' := <[Z.to_nat x := d]> buf in
      if 0 <? xnum / b then digit_loop fuel' buf' (x - 1) (xnum / b) b else mret (buf', x - 1)
  end.

(** The buffer, of NUMBER_BUF_SIZE bytes, is not initialised: [junk]. *)
Definition __pf_printnum (junk : list Z) : M PF unit :=
  p ← get;
  let x := NUMBER_BUF_SIZE - 1 in
  let buf := <[Z.to_nat x := 0]> junk in
  r ← digit_loop 65 buf (x - 1) (num p) (base p);
  let '(buf, x) := r in
  let x := x + 1 in
  let bprefix := if baseprefix p && (base p =? 16) then [48; 120] else if baseprefix p && (base p =? 8) then [48] else [] in
  let sprefix := if negb (sign p =? 0) then [45] else [] in
  __pf_printstuff sprefix bprefix (cstring (drop (Z.to_nat x) buf)).

Definition null_text : list Z := [40; 110; 117; 108; 108; 41].

Definition __pf_send (junk : list Z) (ch : Z) : M PF unit :=
  _ ← KASSERT (negb (ch =? 0));
  p ← get;
  if negb (in_pct p) && negb (ch =? 37) then __pf_print [ch]
  else if negb (in_pct p) then modify (set_pct true)
  else if mem ch [35; 45; 108; 122; 48; 49; 50; 51; 52; 53; 54; 55; 56; 57] then __pf_modifier ch
  else if mem ch [100; 111; 117; 112; 120] then
    _ ← __pf_getnum ch;
    _ ← __pf_setbase ch;
    _ ← __pf_printnum junk;
    __pf_endfield
  else if ch =? 115 then
    a ← va_arg;
    _ ← (match a with AStr s => __pf_printstuff [] [] (default null_text s) | _ => undef end);
    __pf_endfield
  else
    x ← (if ch =? 99 then a ← va_arg; match a with AInt x => mret (u8 x) | _ => undef end else mret ch);
    _ ← __pf_printstuff [] [] (cstring [x; 0]);
    __pf_endfield.

Fixpoint send_all (junk : list Z) (format : list Z) : M PF unit :=
  match format with
  | [] => mret tt
  | ch :: format' => _ ← __pf_send junk ch; send_all junk format'
  end.

Definition __vprintf (junk format : list Z) (args : list arg) (c : C) : outcome C Z :=
  match (_ ← __pf_endfield; _ ← send_all junk format; gets charcount) (mk_pf c args 0 false INTSZ 0 0 0 false 32 0 false false) with
  | Ret n p => Ret n (clientdata p)
  | Panic msg => Panic msg
  | Exited x p => Exited x (clientdata p)
  | Waiting p => Waiting (clientdata p)
  | Undef => Undef
  | OutOfFuel => OutOfFuel
  end.
End Code.
Arguments PF : clear implicits.

(** ** snprintf.c *)

Record SNP := mk_snp { snp_buf : list Z; buflen : Z; bufpos : Z }.

Definition send_char (c : Z) : M SNP unit :=
  s ← get;
  if bufpos s <? buflen s then
    if bufpos s <? Z.of_nat (length (snp_buf s)) then put (mk_snp (<[Z.to_nat (bufpos s) := c]> (snp_buf s)) (buflen s) (bufpos s + 1)) else undef
  else mret tt.

Fixpoint __snprintf_send (data : list Z) : M SNP unit :=
  match data with [] => mret tt | c :: data' => _ ← send_char c; __snprintf_send data' end.

(** The buffer and the result. *)
Definition vsnprintf (junk buf : list Z) (len : Z) (fmt : list Z) (args : list arg) : outcome (list Z) Z :=
  match __vprintf __snprintf_send junk fmt args (mk_snp buf (if len =? 0 then 0 else len - 1) 0) with
  | Ret chars s =>
      if 0 <? len then
        if bufpos s <? Z.of_nat (length (snp_buf s)) then Ret chars (<[Z.to_nat (bufpos s) := 0]> (snp_buf s)) else Undef
      else Ret chars (snp_buf s)
  | Panic msg => Panic msg
  | Exited x s => Exited x (snp_buf s)
  | Waiting s => Waiting (snp_buf s)
  | Undef => Undef
  | OutOfFuel => OutOfFuel
  end.

Definition snprintf (junk buf : list Z) (len : Z) (fmt : list Z) (args : list arg) : outcome (list Z) Z := vsnprintf junk buf len fmt args.

(** ** atoi.c *)

Fixpoint skip_white (s : list Z) : list Z :=
  match s with
  | c :: s' => if (c =? 32) || (c =? 9) then skip_white s' else s
  | [] => []
  end.
Fixpoint atoi_digits (val : Z) (s : list Z) : Z :=
  match s with
  | [] => val
  | c :: s' => if mem c (take 10 digits) then atoi_digits (u32 (u32 (val * 10) + (c - 48))) s' else val
  end.
Definition atoi (s : list Z) : Z :=
  let s := skip_white s in
  let '(neg, s) := match s with
                   | 45 :: s' => (true, s')
                   | 43 :: s' => (false, s')
                   | _ => (false, s)
                   end in
  let val := atoi_digits 0 s in
  if neg then s32 (u32 (- val)) else s32 val.

(** ** Numerals *)

Definition digit (d : Z) : Z := if d <? 10 then 48 + d else 97 + (d - 10).

(** [n] in base [b]. *)
Fixpoint numtext (fuel : nat) (b n : Z) : list Z :=
  match fuel with
  | O => []
  | S fuel' => (if 0 <? n / b then numtext fuel' b (n / b) else []) ++ [digit (n mod b)]
  end.
Definition numeral (b n : Z) : list Z := numtext 65 b n.

Definition digit_value (c : Z) : Z := if c <? 97 then c - 48 else c - 87.
(** The number a string of digits stands for, after a number [v]. *)
Definition value (b v : Z) (l : list Z) : Z := fold_left (fun v c => v * b + digit_value c) l v.

Lemma digit_lookup d : 0 <= d < 16 -> digits !! Z.to_nat d = Some (digit d) /\ digit_value (digit d) = d /\ digit d <> 0 /\ (d < 10 -> digit d = 48 + d).
Proof.
  intros Hd. assert (E : exists k : nat, d = Z.of_nat k /\ (k < 16)%nat) by (exists (Z.to_nat d); lia). destruct E as (k & -> & Hk). rewrite Nat2Z.id.
  do 16 (destruct k as [|k]; [repeat split; vm_compute; try done; intros; lia|]). lia.
Qed.

Lemma value_snoc b v l c : value b v (l ++ [c]) = value b v l * b + digit_value c.
Proof. unfold value. by rewrite fold_left_app. Qed.

Lemma numtext_value fuel b n : 2 <= b <= 16 -> 0 <= n < b ^ Z.of_nat fuel -> value b 0 (numtext fuel b n) = n.
Proof.
  intros Hb. revert n. induction fuel as [|fuel IH]; intros n Hn; [simpl in *; unfold value; simpl; lia|]. cbn [numtext]. rewrite value_snoc. pose proof (Z.mod_pos_bound n b ltac:(lia)).
  destruct (digit_lookup (n mod b) ltac:(lia)) as (_ & -> & _). rewrite Nat2Z.inj_succ, Z.pow_succ_r in Hn by lia. pose proof (Z.div_mod n b ltac:(lia)). pose proof (Z.div_pos n b ltac:(lia) ltac:(lia)).
  destruct (Z.ltb_spec 0 (n / b)).
  - rewrite IH; [lia|]. split; [lia|]. apply Z.div_lt_upper_bound; lia.
  - unfold value. simpl. nia.
Qed.

Lemma numtext_digits fuel b n : 2 <= b <= 16 -> Forall (fun c => exists d, 0 <= d < b /\ c = digit d) (numtext fuel b n).
Proof.
  intros Hb. revert n. induction fuel as [|fuel IH]; intros n; cbn [numtext]; [constructor|]. apply Forall_app. split; [destruct (0 <? n / b); [apply IH|constructor]|].
  constructor; [|constructor]. exists (n mod b). split; [apply Z.mod_pos_bound; lia|done].
Qed.

(** A positive number does not begin with a zero. *)
Lemma numtext_head fuel b n : 2 <= b <= 16 -> 0 < n < b ^ Z.of_nat fuel -> exists d l, numtext fuel b n = digit d :: l /\ 0 < d < b.
Proof.
  intros Hb. revert n. induction fuel as [|fuel IH]; intros n Hn; [simpl in Hn; lia|]. cbn [numtext]. rewrite Nat2Z.inj_succ, Z.pow_succ_r in Hn by lia. pose proof (Z.div_mod n b ltac:(lia)). pose proof (Z.mod_pos_bound n b ltac:(lia)). pose proof (Z.div_pos n b ltac:(lia) ltac:(lia)).
  destruct (Z.ltb_spec 0 (n / b)) as [Hq|].
  - destruct (IH (n / b)) as (d & l & E & Hd); [split; [done|apply Z.div_lt_upper_bound; lia]|]. rewrite E. by exists d, (l ++ [digit (n mod b)]).
  - exists (n mod b), []. split; [done|]. assert (n / b = 0) as E by lia. rewrite E in *. lia.
Qed.

Lemma cstring_full l r : Forall (fun c => c <> 0) l -> cstring (l ++ 0 :: r) = l.
Proof. induction 1 as [|c l Hc _ IH]; simpl; [done|]. rewrite (proj2 (Z.eqb_neq c 0)) by done. by rewrite IH. Qed.

Lemma numtext_nonzero fuel b n : 2 <= b <= 16 -> Forall (fun c => c <> 0) (numtext fuel b n).
Proof. intros Hb. eapply Forall_impl; [by apply numtext_digits|]. intros c (d & Hd & ->). apply digit_lookup. lia. Qed.

(** ** Printing *)

Section Theory.
(** What the client has been sent determines its state. *)
Context {C : Type} (sendfunc : list Z -> M C unit) (st : list Z -> C).
Context (sends : forall T t, sendfunc t (st T) = Ret tt (st (T ++ t))).
Implicit Types (T t : list Z) (p : PF C).
#[local] Set Default Proof Using "Type*".

Definition count T : Z := s32 (u32 (Z.of_nat (length T))).
(** The same state after the text [T]. *)
Definition out T p : PF C := mk_pf (st T) (ap p) (count T) (in_pct p) (size p) (num p) (sign p) (spacing p) (rightspc p) (fillchar p) (base p) (baseprefix p) (altformat p).

Lemma count_app T t : s32 (u32 (count T + Z.of_nat (length t))) = count (T ++ t).
Proof.
  unfold count. rewrite length_app, Nat2Z.inj_add. f_equal. unfold s32, u32. set (n := Z.of_nat (length T)). set (k := Z.of_nat (length t)). destruct (n mod 2 ^ 32 <? 2 ^ 31).
  - by rewrite Zplus_mod_idemp_l.
  - replace (n mod 2 ^ 32 - 2 ^ 32 + k) with (n mod 2 ^ 32 + k + (-1) * 2 ^ 32) by lia. rewrite Z.mod_add by lia. by rewrite Zplus_mod_idemp_l.
Qed.

Lemma print_run T t p : __pf_print sendfunc t (out T p) = Ret tt (out (T ++ t) p).
Proof. unfold __pf_print, on_client. msimpl. rewrite sends. unfold out, set_count. simpl. by rewrite count_app. Qed.

Lemma fill_loop T c n p i : for_loop n i (fun _ => __pf_print sendfunc [c]) (out T p) = Ret tt (out (T ++ replicate n c) p).
Proof.
  revert T i. induction n as [|n IH]; intros T i; cbn [for_loop replicate]; [by rewrite app_nil_r|]. rewrite (run_bind _ _ _ _ _ (print_run T [c] p)), IH. by rewrite <- app_assoc.
Qed.
Lemma fill_run T spc p : __pf_fill sendfunc spc (out T p) = Ret tt (out (T ++ replicate (Z.to_nat spc) (fillchar p)) p).
Proof. unfold __pf_fill. rewrite (run_bind get _ _ _ _ eq_refl). apply fill_loop. Qed.

(** A field of [width] characters. *)
Definition field (width : Z) (left : bool) (fill : Z) (pre stuff : list Z) : list Z :=
  let pad := replicate (Z.to_nat (width - Z.of_nat (length pre + length stuff))) fill in
  if left then pre ++ stuff ++ pad else if fill =? 48 then pre ++ pad ++ stuff else pad ++ pre ++ stuff.

Lemma printstuff_run T p pre pre2 stuff : __pf_printstuff sendfunc pre pre2 stuff (out T p) = Ret tt (out (T ++ field (spacing p) (rightspc p) (fillchar p) (pre ++ pre2) stuff) p).
Proof.
  unfold __pf_printstuff. rewrite (run_bind get _ _ _ _ eq_refl). cbn [spacing rightspc fillchar out].
  set (len := Z.of_nat (length pre + length pre2 + length stuff)). set (spc := if len <? spacing p then spacing p - len else 0). set (pad := replicate (Z.to_nat spc) (fillchar p)).
  assert (Ep : replicate (Z.to_nat (spacing p - Z.of_nat (length (pre ++ pre2) + length stuff))) (fillchar p) = pad). { unfold pad, spc. f_equal. rewrite length_app. fold len. destruct (Z.ltb_spec len (spacing p)); lia. }
  assert (P0 : (0 <? spc) = false -> pad = []) by (intros H%Z.ltb_ge; unfold pad; by replace (Z.to_nat spc) with 0%nat by lia).
  unfold field. rewrite Ep. set (c := fillchar p =? 48).
  rewrite (run_bind _ _ _ tt (out (T ++ if rightspc p then [] else if c then [] else pad) p)).
  2: { destruct (rightspc p), c; rewrite ?andb_false_r, ?app_nil_r; try done. destruct (0 <? spc) eqn:E; simpl; [apply fill_run|]. rewrite P0 by done. by rewrite app_nil_r. }
  rewrite (run_bind _ _ _ _ _ (print_run _ _ _)), (run_bind _ _ _ _ _ (print_run _ _ _)). set (T1 := (_ ++ pre) ++ pre2).
  rewrite (run_bind _ _ _ tt (out (T1 ++ if rightspc p then [] else if c then pad else []) p)).
  2: { destruct (rightspc p), c; rewrite ?andb_false_r, ?app_nil_r; try done. destruct (0 <? spc) eqn:E; simpl; [apply fill_run|]. rewrite P0 by done. by rewrite app_nil_r. }
  rewrite (run_bind _ _ _ _ _ (print_run _ _ _)). unfold T1. destruct (rightspc p); rewrite ?andb_false_r, ?andb_true_r; simpl.
  - rewrite !app_nil_r. destruct (0 <? spc) eqn:E; simpl; [rewrite fill_run; by rewrite <- !app_assoc|]. rewrite P0 by done. rewrite app_nil_r. by rewrite <- !app_assoc.
  - destruct c; rewrite ?app_nil_r, <- ?app_assoc; done.
Qed.

Lemma digit_loop_run fuel buf x n b p : 8 <= b <= 16 -> 0 <= n < 8 ^ (x + 1) -> 0 <= x < Z.of_nat (length buf) -> x + 1 < Z.of_nat fuel ->
  exists buf' x', digit_loop fuel buf x n b p = Ret (buf', x') p /\ -1 <= x' /\ drop (Z.to_nat (x' + 1)) buf' = numtext fuel b n ++ drop (Z.to_nat (x + 1)) buf.
Proof.
  intros Hb. revert buf x n. induction fuel as [|fuel IH]; intros buf x n Hn Hx Hf; [lia|]. cbn [digit_loop numtext]. pose proof (Z.mod_pos_bound n b ltac:(lia)) as Hm. destruct (digit_lookup (n mod b) ltac:(lia)) as (Hd & _).
  rewrite (proj2 (Z.eqb_neq b 0)) by lia. rewrite Hd. unfold deref. rewrite (run_bind (mret _) _ _ _ _ eq_refl), (proj2 (Z.leb_le 0 x)), (proj2 (Z.ltb_lt x _)) by lia. cbn [andb]. rewrite (run_bind (mret tt) _ _ _ _ eq_refl).
  set (buf1 := <[Z.to_nat x := digit (n mod b)]> buf). assert (D1 : drop (Z.to_nat (x - 1 + 1)) buf1 = digit (n mod b) :: drop (Z.to_nat (x + 1)) buf).
  { replace (x - 1 + 1) with x by lia. unfold buf1. rewrite (drop_S _ (digit (n mod b))) by (rewrite list_lookup_insert_eq; [done|lia]). f_equal. rewrite drop_insert_lt by lia. by replace (S (Z.to_nat x)) with (Z.to_nat (x + 1)) by lia. }
  destruct (Z.ltb_spec 0 (n / b)) as [Hq|].
  - destruct (decide (x = 0)) as [->|]. { exfalso. simpl in Hn. rewrite Z.div_small in Hq; lia. }
    destruct (IH buf1 (x - 1) (n / b)) as (buf' & x' & E & Hx' & D).
    + split; [lia|]. replace (x - 1 + 1) with x by lia. apply Z.div_lt_upper_bound; [lia|]. replace (x + 1) with (Z.succ x) in Hn by lia. rewrite Z.pow_succ_r in Hn by lia. nia.
    + unfold buf1. rewrite length_insert. lia.
    + lia.
    + exists buf', x'. split; [done|]. split; [done|]. rewrite D, D1. by rewrite <- app_assoc.
  - exists buf1, (x - 1). split; [done|]. split; [lia|]. exact D1.
Qed.

(** The signs and prefixes of a number. *)
Definition sprefix_of (sg : Z) : list Z := if negb (sg =? 0) then [45] else [].
Definition bprefix_of (pfx : bool) (b : Z) : list Z := if pfx && (b =? 16) then [48; 120] else if pfx && (b =? 8) then [48] else [].

Lemma printnum_run T p junk : length junk = 23%nat -> 8 <= base p <= 16 -> 0 <= num p < 2 ^ 64 ->
  __pf_printnum sendfunc junk (out T p) = Ret tt (out (T ++ field (spacing p) (rightspc p) (fillchar p) (sprefix_of (sign p) ++ bprefix_of (baseprefix p) (base p)) (numeral (base p) (num p))) p).
Proof.
  intros Hj Hb Hn. unfold __pf_printnum. rewrite (run_bind get _ _ _ _ eq_refl). change (NUMBER_BUF_SIZE - 1) with 22. cbn [num base sign baseprefix out].
  destruct (digit_loop_run 65 (<[Z.to_nat 22 := 0]> junk) (22 - 1) (num p) (base p) (out T p)) as (buf' & x' & E & Hx' & D); [done|split; [lia|]|rewrite length_insert; lia|lia|].
  { assert (2 ^ 64 < 8 ^ (22 - 1 + 1)) by (vm_compute; reflexivity). lia. }
  rewrite (run_bind _ _ _ _ _ E). rewrite D. replace (22 - 1 + 1) with 22 by lia.
  assert (D0 : drop (Z.to_nat 22) (<[Z.to_nat 22 := 0]> junk) = [0]). { do 23 (destruct junk as [|? junk]; [done|]). destruct junk; [done|done]. }
  rewrite D0, cstring_full by (apply numtext_nonzero; lia). rewrite printstuff_run. done.
Qed.

(** The character after which a number is printed, and its value. *)
Definition base_of (ch : Z) : Z := if (ch =? 100) || (ch =? 117) then 10 else if (ch =? 120) || (ch =? 112) then 16 else 8.
Definition arg_bits (sz : intsize) (a : arg) : option Z :=
  match sz, a with INTSZ, AInt x => Some x | LONGSZ, ALong x => Some x | SIZETSZ, ASize x => Some x | LLONGSZ, ALLong x => Some x | _, _ => None end.
(** Whether it is negative, and its magnitude. *)
Definition num_of (ch : Z) (sz : intsize) (a : arg) : option (bool * Z) :=
  if ch =? 112 then match a with APtr x => Some (false, x) | _ => None end
  else
    x ← arg_bits sz a;
    if ch =? 100 then let v := match sz with LLONGSZ => s64 x | _ => s32 x end in if v =? - 2 ^ 63 then None else Some (v <? 0, Z.abs v)
    else Some (false, x).

Lemma getnum_run T p ch a r neg n : ap p = a :: r -> num_of ch (size p) a = Some (neg, n) -> sign p = 0 ->
  __pf_getnum ch (out T p) = Ret tt (out T (set_num n (if neg then -1 else 0) (set_ap r p))).
Proof.
  intros Hap Hn Hs. unfold __pf_getnum, va_arg. rewrite (run_bind get _ _ _ _ eq_refl). rewrite (run_bind _ _ _ a (out T (set_ap r p))) by (rewrite (run_bind get _ _ _ _ eq_refl); cbn [ap out]; by rewrite Hap).
  unfold num_of in Hn. cbn [sign size out]. rewrite Hs. destruct (ch =? 112). { destruct a; simplify_eq. done. }
  destruct (arg_bits (size p) a) as [x|] eqn:Ea; [|done]. simpl in Hn. destruct (ch =? 100).
  - set (v := match size p with LLONGSZ => s64 x | _ => s32 x end) in *. rewrite (run_bind _ _ _ v (out T (set_ap r p))).
    2: { unfold arg_bits in Ea. unfold v. destruct (size p), a; simplify_eq; done. }
    destruct (Z.eqb_spec v (- 2 ^ 63)); [done|]. simplify_eq. destruct (Z.ltb_spec v 0); unfold modify, out, set_num; simpl; repeat f_equal; lia.
  - unfold arg_bits in Ea. simplify_eq. destruct (size p), a; simplify_eq; done.
Qed.

(** ** Formats *)

Record flags := mk_fl { fl_alt : bool; fl_left : bool; fl_zero : bool; fl_width : Z }.
Inductive piece :=
  | Lit (c : Z)
  | Num (f : flags) (sz : intsize) (ch : Z)
  | Str (f : flags)
  | Chr (f : flags)
  | Other (f : flags) (ch : Z).

(** The text of a format in the order C has it: flags, width, size, conversion. *)
Definition flag_text (f : flags) : list Z :=
  (if fl_alt f then [35] else []) ++ (if fl_left f then [45] else []) ++ (if fl_zero f then [48] else []) ++ (if 0 <? fl_width f then numeral 10 (fl_width f) else []).
Definition size_text (sz : intsize) : list Z := match sz with INTSZ => [] | LONGSZ => [108] | LLONGSZ => [108; 108] | SIZETSZ => [122] end.
Definition unparse (q : piece) : list Z :=
  match q with
  | Lit c => [c]
  | Num f sz ch => 37 :: flag_text f ++ size_text sz ++ [ch]
  | Str f => 37 :: flag_text f ++ [115]
  | Chr f => 37 :: flag_text f ++ [99]
  | Other f ch => 37 :: flag_text f ++ [ch]
  end.
Definition flags_ok (f : flags) : Prop := 0 <= fl_width f < 2 ^ 31.
Definition piece_ok (q : piece) : Prop :=
  match q with
  | Lit c => c <> 0 /\ c <> 37
  | Num f _ ch => flags_ok f /\ mem ch [100; 111; 117; 112; 120] = true
  | Str f | Chr f => flags_ok f
  | Other f ch => flags_ok f /\ ch <> 88 /\ mem ch ([0; 115; 99; 100; 111; 117; 112; 120] ++ [35; 45; 108; 122; 48; 49; 50; 51; 52; 53; 54; 55; 56; 57]) = false
  end.

(** What it prints, and the arguments left, from the manual: a string that is NULL prints as
    (null), a character that is null as nothing, and any other character after the percent
    sign as itself.  %X, which the manual has print uppercase hexadecimal, is left out (see
    [upper_hex_prints_letter]), and so is the least long long under %lld. *)
Definition fill_of (f : flags) : Z := if fl_zero f then 48 else 32.
Definition in_field (f : flags) (pre stuff : list Z) : list Z := field (fl_width f) (fl_left f) (fill_of f) pre stuff.
Definition render (q : piece) (args : list arg) : option (list Z * list arg) :=
  match q, args with
  | Lit c, _ => Some ([c], args)
  | Num f sz ch, a :: r =>
      '(neg, n) ← num_of ch sz a;
      if (0 <=? n) && (n <? 2 ^ 64) then
        Some (in_field f ((if neg : bool then [45] else []) ++ bprefix_of (fl_alt f || (ch =? 112)) (base_of ch)) (numeral (base_of ch) n), r)
      else None
  | Str f, AStr t :: r => Some (in_field f [] (match t with Some s => s | None => [40; 110; 117; 108; 108; 41] end), r)
  | Chr f, AInt x :: r => Some (in_field f [] (if u8 x =? 0 then [] else [u8 x]), r)
  | Other f ch, _ => Some (in_field f [] [ch], args)
  | _, _ => None
  end.
Fixpoint renders (qs : list piece) (args : list arg) : option (list Z) :=
  match qs with
  | [] => Some []
  | q :: qs' => '(t, r) ← render q args; t' ← renders qs' r; Some (t ++ t')
  end.

(** Between formats, and inside one. *)
Definition idle T (args : list arg) : PF C := mk_pf (st T) args (count T) false INTSZ 0 0 0 false 32 0 false false.
Definition pct T (args : list arg) (f : flags) (sz : intsize) : PF C := mk_pf (st T) args (count T) true sz 0 0 (fl_width f) (fl_left f) (fill_of f) 0 false (fl_alt f).

Lemma send_app junk l1 l2 p p' : send_all sendfunc junk l1 p = Ret tt p' -> send_all sendfunc junk (l1 ++ l2) p = send_all sendfunc junk l2 p'.
Proof.
  revert p. induction l1 as [|c l1 IH]; intros p H; simpl in *; [by injection H as ->|]. unfold mbind, M_bind in *. destruct (__pf_send sendfunc junk c p) as [[] p1| | | | |]; try done. by apply IH.
Qed.

Lemma send_modifier junk c p : in_pct p = true -> mem c [35; 45; 108; 122; 48; 49; 50; 51; 52; 53; 54; 55; 56; 57] = true -> __pf_send sendfunc junk c p = __pf_modifier c p.
Proof.
  intros Hp Hm. unfold __pf_send. assert (Hz : (c =? 0) = false) by (destruct (Z.eqb_spec c 0); [by subst|done]). rewrite Hz. unfold KASSERT. cbn [negb]. rewrite (run_bind (mret tt) _ _ _ _ eq_refl), (run_bind get _ _ _ _ eq_refl). rewrite Hp. cbn [negb andb]. by rewrite Hm.
Qed.

Lemma value_ge b v l : 1 <= b -> 0 <= v -> Forall (fun c => 0 <= digit_value c) l -> v <= value b v l.
Proof.
  intros Hb. revert v. induction l as [|c l IH]; intros v Hv F; [done|]. inversion F as [|? ? Hc F']; subst. change (value b v (c :: l)) with (value b (v * b + digit_value c) l). specialize (IH (v * b + digit_value c) ltac:(nia) F'). nia.
Qed.

Lemma width_digits junk l p : in_pct p = true -> 0 <= spacing p -> Forall (fun c => exists d, 0 <= d < 10 /\ c = digit d) l -> (0 < spacing p \/ exists d l', l = digit d :: l' /\ 0 < d < 10) -> value 10 (spacing p) l < 2 ^ 31 ->
  send_all sendfunc junk l p = Ret tt (set_spacing (value 10 (spacing p) l) p).
Proof.
  revert p. induction l as [|c l IH]; intros p Hp Hs F H0 Hv; [destruct p; done|]. inversion F as [|? ? (d & Hd & Ec) F']; subst. destruct (digit_lookup d ltac:(lia)) as (_ & Hdv & _ & Hc). specialize (Hc ltac:(lia)).
  change (value 10 (spacing p) (digit d :: l)) with (value 10 (spacing p * 10 + digit_value (digit d)) l) in *. rewrite Hdv in *.
  assert (Hpos : 0 < spacing p \/ 0 < d). { destruct H0 as [?|(d' & l' & E & Hd')]; [by left|right]. injection E as E _. rewrite Hc in E. destruct (digit_lookup d' ltac:(lia)) as (_ & _ & _ & Hc'). rewrite Hc' in E by lia. lia. }
  assert (Hge : spacing p * 10 + d <= value 10 (spacing p * 10 + d) l). { apply value_ge; [lia|lia|]. eapply Forall_impl; [exact F'|]. intros c (e & He & ->). destruct (digit_lookup e ltac:(lia)) as (_ & -> & _). lia. }
  assert (E1 : __pf_send sendfunc junk (digit d) p = Ret tt (set_spacing (spacing p * 10 + d) p)).
  { rewrite Hc. rewrite send_modifier; [|done|]. 2: { assert (E : exists k : nat, d = Z.of_nat k /\ (k < 10)%nat) by (exists (Z.to_nat d); lia). destruct E as (k & -> & Hk). do 10 (destruct k as [|k]; [done|]). lia. }
    unfold __pf_modifier. rewrite (run_bind get _ _ _ _ eq_refl). rewrite (proj2 (Z.eqb_neq _ 35)), (proj2 (Z.eqb_neq _ 45)), (proj2 (Z.eqb_neq _ 108)), (proj2 (Z.eqb_neq _ 122)) by lia. unfold put_spacing.
    destruct (Z.eqb_spec (48 + d) 48).
    - assert (d = 0) as -> by lia. rewrite (proj2 (Z.ltb_lt 0 _)), (proj2 (Z.ltb_lt _ (2 ^ 31))) by lia. unfold modify. by rewrite Z.add_0_r.
    - rewrite (proj2 (Z.ltb_lt 48 _)), (proj2 (Z.leb_le _ 57)) by lia. unfold KASSERT. cbn [andb]. rewrite (run_bind (mret tt) _ _ _ _ eq_refl). replace (48 + d - 48) with d by lia. by rewrite (proj2 (Z.ltb_lt _ (2 ^ 31))) by lia. }
  cbn [send_all]. rewrite (run_bind _ _ _ _ _ E1). rewrite IH; [done|done|simpl; lia|done|left; simpl; lia|done].
Qed.

Definition no_flags : flags := mk_fl false false false 0.

Lemma flags_run junk T args f : flags_ok f -> send_all sendfunc junk (flag_text f) (pct T args no_flags INTSZ) = Ret tt (pct T args f INTSZ).
Proof.
  destruct f as [al lf ze w]. intros Hw. unfold flags_ok in Hw. cbn [fl_width] in Hw. unfold flag_text. cbn [fl_alt fl_left fl_zero fl_width].
  rewrite (send_app _ _ _ _ (pct T args (mk_fl al false false 0) INTSZ)) by (by destruct al). rewrite (send_app _ _ _ _ (pct T args (mk_fl al lf false 0) INTSZ)) by (by destruct lf).
  rewrite (send_app _ _ _ _ (pct T args (mk_fl al lf ze 0) INTSZ)) by (by destruct ze). destruct (Z.ltb_spec 0 w) as [Hp|]; [|by replace w with 0 by lia].
  assert (Hb : 0 < w < 10 ^ Z.of_nat 65). { split; [done|]. apply Z.lt_trans with (2 ^ 31); [lia|by vm_compute]. }
  assert (V : value 10 0 (numeral 10 w) = w) by (apply numtext_value; lia). rewrite width_digits; [| done | done | apply numtext_digits; lia | right; apply numtext_head; [lia|exact Hb] | cbn [spacing pct fl_width]; rewrite V; lia].
  cbn [spacing pct fl_width]. by rewrite V.
Qed.

Lemma size_run junk T args f sz : send_all sendfunc junk (size_text sz) (pct T args f INTSZ) = Ret tt (pct T args f sz).
Proof. by destruct sz. Qed.

Lemma conversion_char ch : mem ch [100; 111; 117; 112; 120] = true -> ch = 100 \/ ch = 111 \/ ch = 117 \/ ch = 112 \/ ch = 120.
Proof. unfold mem. simpl. rewrite !orb_true_iff, !Z.eqb_eq. naive_solver. Qed.

Lemma base_of_range ch : 8 <= base_of ch <= 16.
Proof. unfold base_of. repeat (destruct (_ =? _); simpl; try lia). Qed.

Lemma num_run junk T args a r f sz ch neg n : length junk = 23%nat -> mem ch [100; 111; 117; 112; 120] = true -> args = a :: r -> num_of ch sz a = Some (neg, n) -> 0 <= n < 2 ^ 64 ->
  __pf_send sendfunc junk ch (pct T args f sz) = Ret tt (idle (T ++ in_field f ((if neg then [45] else []) ++ bprefix_of (fl_alt f || (ch =? 112)) (base_of ch)) (numeral (base_of ch) n)) r).
Proof.
  intros Hj Hm -> Hn Hb. set (p := pct T (a :: r) f sz).
  assert (E : __pf_send sendfunc junk ch p = (_ ← __pf_getnum ch; _ ← __pf_setbase ch; _ ← __pf_printnum sendfunc junk; __pf_endfield) p) by (apply conversion_char in Hm as [-> | [-> | [-> | [-> | ->]]]]; done).
  rewrite E. change p with (out T p). rewrite (run_bind _ _ _ _ _ (getnum_run T p ch a r neg n eq_refl Hn eq_refl)). set (p1 := set_num _ _ _).
  assert (E2 : __pf_setbase ch (out T p1) = Ret tt (out T (set_base (base_of ch) (fl_alt f || (ch =? 112)) p1))).
  { unfold __pf_setbase. rewrite (run_bind get _ _ _ _ eq_refl). apply conversion_char in Hm as [-> | [-> | [-> | [-> | ->]]]]; unfold put, out, set_base, p1; cbn; by destruct (fl_alt f). }
  rewrite (run_bind _ _ _ _ _ E2). set (p2 := set_base _ _ p1).
  assert (Hb2 : 8 <= base p2 <= 16) by (exact (base_of_range ch)).
  rewrite (run_bind _ _ _ _ _ (printnum_run T p2 junk Hj Hb2 Hb)).
  unfold __pf_endfield, modify, idle, in_field. cbn [spacing rightspc fillchar sign baseprefix base num out set_base set_num set_ap p2 p1 p pct clientdata ap charcount]. by destruct neg.
Qed.

Lemma text_run T args f sz stuff : (_ ← __pf_printstuff sendfunc [] [] stuff; __pf_endfield) (pct T args f sz) = Ret tt (idle (T ++ in_field f [] stuff) args).
Proof. change (pct T args f sz) with (out T (pct T args f sz)). rewrite (run_bind _ _ _ _ _ (printstuff_run _ _ _ _ _)). done. Qed.

Lemma other_run junk T args f ch : mem ch ([0; 115; 99; 100; 111; 117; 112; 120] ++ [35; 45; 108; 122; 48; 49; 50; 51; 52; 53; 54; 55; 56; 57]) = false -> __pf_send sendfunc junk ch (pct T args f INTSZ) = Ret tt (idle (T ++ in_field f [] [ch]) args).
Proof.
  intros Hm. unfold mem in Hm. rewrite existsb_app in Hm. apply orb_false_iff in Hm as [H1 H2]. cbn [existsb] in H1. rewrite !orb_false_iff in H1. destruct H1 as (H0 & Hs & Hc & Hd & Ho & Hu & Hp & Hx & _).
  unfold __pf_send. rewrite H0. unfold KASSERT. cbn [negb]. rewrite (run_bind (mret tt) _ _ _ _ eq_refl), (run_bind get _ _ _ _ eq_refl). cbn [in_pct pct negb andb]. unfold mem at 1. rewrite H2. unfold mem. cbn [existsb]. rewrite Hd, Ho, Hu, Hp, Hx, Hs, Hc. cbn [orb].
  rewrite (run_bind (mret ch) _ _ _ _ eq_refl). cbn [cstring]. rewrite H0. apply text_run.
Qed.

Lemma send_one junk c p p' : __pf_send sendfunc junk c p = Ret tt p' -> send_all sendfunc junk [c] p = Ret tt p'.
Proof. intros E. cbn [send_all]. by rewrite (run_bind _ _ _ _ _ E). Qed.

Lemma piece_run junk q T args t r : length junk = 23%nat -> piece_ok q -> render q args = Some (t, r) -> send_all sendfunc junk (unparse q) (idle T args) = Ret tt (idle (T ++ t) r).
Proof.
  intros Hj Hq Hr. destruct q as [c|f sz ch|f|f|f ch]; cbn [piece_ok unparse] in *.
  - destruct Hq as [H0 H37]. simpl in Hr. simplify_eq. apply send_one. unfold __pf_send. rewrite (proj2 (Z.eqb_neq c 0)), (proj2 (Z.eqb_neq c 37)) by done. unfold KASSERT. cbn [negb]. rewrite (run_bind (mret tt) _ _ _ _ eq_refl), (run_bind get _ _ _ _ eq_refl). cbn [in_pct idle negb andb].
    change (idle T r) with (out T (idle T r)). by rewrite print_run.
  - destruct Hq as [Hf Hm]. destruct args as [|a args']; [done|]. cbn [render] in Hr. destruct (num_of ch sz a) as [[neg n]|] eqn:En; [|done]. cbn in Hr. destruct ((0 <=? n) && (n <? 2 ^ 64)) eqn:Eb; [|done]. apply andb_true_iff in Eb as [Eb1%Z.leb_le Eb2%Z.ltb_lt]. simplify_eq.
    change (send_all sendfunc junk (37 :: flag_text f ++ size_text sz ++ [ch]) (idle T (a :: r))) with (send_all sendfunc junk (flag_text f ++ size_text sz ++ [ch]) (pct T (a :: r) no_flags INTSZ)).
    rewrite (send_app _ _ _ _ _ (flags_run junk T _ f Hf)), (send_app _ _ _ _ _ (size_run junk T _ f sz)). apply send_one. by eapply num_run.
  - destruct args as [|[| | | | |s] args']; try done. cbn [render] in Hr. simplify_eq.
    change (send_all sendfunc junk (37 :: flag_text f ++ [115]) (idle T (AStr s :: r))) with (send_all sendfunc junk (flag_text f ++ [115]) (pct T (AStr s :: r) no_flags INTSZ)).
    rewrite (send_app _ _ _ _ _ (flags_run junk T _ f Hq)). apply send_one. exact (text_run T r f INTSZ _).
  - destruct args as [|[x| | | | |] args']; try done. cbn [render] in Hr. simplify_eq.
    change (send_all sendfunc junk (37 :: flag_text f ++ [99]) (idle T (AInt x :: r))) with (send_all sendfunc junk (flag_text f ++ [99]) (pct T (AInt x :: r) no_flags INTSZ)).
    rewrite (send_app _ _ _ _ _ (flags_run junk T _ f Hq)). apply send_one. exact (text_run T r f INTSZ _).
  - destruct Hq as (Hf & _ & Hm). assert (t = in_field f [] [ch] /\ r = args) as [-> ->] by (cbn [render] in Hr; by simplify_eq).
    change (send_all sendfunc junk (37 :: flag_text f ++ [ch]) (idle T args)) with (send_all sendfunc junk (flag_text f ++ [ch]) (pct T args no_flags INTSZ)).
    rewrite (send_app _ _ _ _ _ (flags_run junk T _ f Hf)). apply send_one. by apply other_run.
Qed.

Definition format_of (qs : list piece) : list Z := concat (map unparse qs).

Lemma pieces_run junk qs T args t : length junk = 23%nat -> Forall piece_ok qs -> renders qs args = Some t -> exists r, send_all sendfunc junk (format_of qs) (idle T args) = Ret tt (idle (T ++ t) r).
Proof.
  intros Hj F. revert T args t. induction F as [|q qs Hq _ IH]; intros T args t Hr; [simpl in Hr; simplify_eq; exists args; by rewrite app_nil_r|].
  cbn [renders] in Hr. destruct (render q args) as [[t1 r1]|] eqn:E1; [|done]. cbn in Hr. destruct (renders qs r1) as [t2|] eqn:E2; [|done]. cbn in Hr. simplify_eq.
  destruct (IH (T ++ t1) r1 t2 E2) as (r & IHr). exists r. unfold format_of. cbn [map concat]. rewrite (send_app _ _ _ _ _ (piece_run junk q T args t1 r1 Hj Hq E1)). rewrite app_assoc. exact IHr.
Qed.

Lemma vprintf_run junk qs args t : length junk = 23%nat -> Forall piece_ok qs -> renders qs args = Some t -> __vprintf sendfunc junk (format_of qs) args (st []) = Ret (count t) (st t).
Proof.
  intros Hj F Hr. destruct (pieces_run junk qs [] args t Hj F Hr) as (r & E). unfold __vprintf. rewrite (run_bind _ _ _ tt (idle [] args)) by done. by rewrite (run_bind _ _ _ _ _ E).
Qed.
End Theory.

(** ** snprintf *)

Section Buffer.
Context (buf : list Z) (room : nat) (fits : (room <= length buf)%nat).
Implicit Types (T t : list Z).

(** The context once the text [T] was sent: the first [room] characters of it are in the buffer. *)
Definition snp_after T : SNP :=
  let k := (length T `min` room)%nat in mk_snp (take k T ++ drop k buf) (Z.of_nat room) (Z.of_nat k).

Lemma send_char_run T c : send_char c (snp_after T) = Ret tt (snp_after (T ++ [c])).
Proof using fits.
  unfold send_char. rewrite (run_bind get _ _ _ _ eq_refl). unfold snp_after. cbn [bufpos buflen snp_buf]. rewrite (length_app T [c]). cbn [length]. destruct (Z.ltb_spec (Z.of_nat (length T `min` room)) (Z.of_nat room)) as [Hlt|Hge].
  - assert (length T `min` room = length T)%nat as -> by lia. assert ((length T + 1) `min` room = length T + 1)%nat as -> by lia. rewrite length_app, length_take, length_drop. rewrite (proj2 (Z.ltb_lt _ _)) by lia.
    unfold put. f_equal. f_equal; [|lia]. rewrite Nat2Z.id, firstn_all. rewrite (take_ge (T ++ [c])) by (rewrite length_app; simpl; lia). rewrite insert_app_r_alt by lia. rewrite Nat.sub_diag.
    destruct (drop (length T) buf) as [|x l] eqn:E. { apply (f_equal length) in E. rewrite length_drop in E. simpl in E. lia. }
    rewrite <- app_assoc. f_equal. simpl. f_equal. rewrite <- drop_drop, E. done.
  - assert (length T `min` room = room)%nat as -> by lia. assert ((length T + 1) `min` room = room)%nat as -> by lia. by rewrite take_app_le by lia.
Qed.

Lemma snprintf_send_run T t : __snprintf_send t (snp_after T) = Ret tt (snp_after (T ++ t)).
Proof using fits.
  revert T. induction t as [|c t IH]; intros T; cbn [__snprintf_send]; [by rewrite app_nil_r|]. rewrite (run_bind _ _ _ _ _ (send_char_run T c)), IH. by rewrite <- app_assoc.
Qed.
End Buffer.

Lemma snp_start buf room : snp_after buf room [] = mk_snp buf (Z.of_nat room) 0.
Proof. done. Qed.

(** The buffer that holds as much of the text [t] as [len] bytes can. *)
Definition filled (buf : list Z) (len : Z) (t : list Z) : list Z :=
  let k := (length t `min` Z.to_nat (len - 1))%nat in if len =? 0 then buf else take k t ++ 0 :: drop (S k) buf.

Lemma vsnprintf_run junk buf len qs args t : length junk = 23%nat -> Forall piece_ok qs -> renders qs args = Some t -> 0 <= len <= Z.of_nat (length buf) -> vsnprintf junk buf len (format_of qs) args = Ret (count t) (filled buf len t).
Proof.
  intros Hj F Hr Hl. unfold vsnprintf. set (room := Z.to_nat (len - 1)). assert (E0 : (if len =? 0 then 0 else len - 1) = Z.of_nat room) by (unfold room; destruct (Z.eqb_spec len 0); lia).
  rewrite E0, <- snp_start. assert (Hrm : (room <= length buf)%nat) by lia. rewrite (vprintf_run _ (snp_after buf room) (snprintf_send_run buf room Hrm) junk qs args t Hj F Hr). unfold snp_after, filled. fold room. cbn [bufpos snp_buf]. set (k := (length t `min` room)%nat).
  destruct (Z.eqb_spec len 0) as [->|]; [simpl; by replace k with 0%nat by (unfold k; simpl in room; lia)|]. rewrite (proj2 (Z.ltb_lt 0 len)) by lia. rewrite length_app, length_take, length_drop. rewrite (proj2 (Z.ltb_lt _ _)) by lia.
  f_equal. rewrite insert_app_r_alt by (rewrite length_take; lia). rewrite length_take. replace (Z.to_nat (Z.of_nat k) - k `min` length t)%nat with 0%nat by lia.
  destruct (drop k buf) as [|x l] eqn:E. { apply (f_equal length) in E. rewrite length_drop in E. simpl in E. lia. }
  f_equal. simpl. f_equal. replace (S k) with (k + 1)%nat by lia. by rewrite <- drop_drop, E.
Qed.

Lemma filled_length buf len t : 0 <= len <= Z.of_nat (length buf) -> length (filled buf len t) = length buf.
Proof. intros Hl. unfold filled. destruct (Z.eqb_spec len 0); [done|]. rewrite length_app, length_take. cbn [length]. rewrite length_drop. lia. Qed.

(** The string in the buffer afterwards. *)
Lemma filled_string buf len t : 0 < len -> Forall (fun c => c <> 0) t -> cstring (filled buf len t) = take (Z.to_nat (len - 1)) t.
Proof.
  intros Hl F. unfold filled. rewrite (proj2 (Z.eqb_neq len 0)) by lia. rewrite cstring_full by (by apply Forall_take). destruct (Nat.min_spec (length t) (Z.to_nat (len - 1))) as [[Hm ->]|[Hm ->]]; [|done]. rewrite firstn_all. by rewrite take_ge by lia.
Qed.

(** ** atoi *)

Lemma s32_u32 v : - 2 ^ 31 <= v < 2 ^ 31 -> s32 (u32 v) = v.
Proof.
  intros Hv. unfold s32, u32. destruct (Z.ltb_spec v 0).
  - rewrite <- (Zmod_unique v (2 ^ 32) (-1) (v + 2 ^ 32)) by lia. destruct (Z.ltb_spec (v + 2 ^ 32) (2 ^ 31)); lia.
  - rewrite Z.mod_small by lia. destruct (Z.ltb_spec v (2 ^ 31)); lia.
Qed.

Lemma digit_mem d : 0 <= d < 10 -> mem (digit d) (take 10 digits) = true.
Proof. intros Hd. assert (E : exists k : nat, d = Z.of_nat k /\ (k < 10)%nat) by (exists (Z.to_nat d); lia). destruct E as (k & -> & Hk). do 10 (destruct k as [|k]; [done|]). lia. Qed.

Lemma atoi_digits_run v l r : Forall (fun c => exists d, 0 <= d < 10 /\ c = digit d) l -> match r with c :: _ => mem c (take 10 digits) = false | [] => True end -> atoi_digits (u32 v) (l ++ r) = u32 (value 10 v l).
Proof.
  intros F Hr. revert v. induction F as [|c l (d & Hd & ->) _ IH]; intros v.
  - destruct r as [|c r]; [done|]. simpl app. cbn [atoi_digits]. by rewrite Hr.
  - cbn [app atoi_digits]. rewrite digit_mem by done. destruct (digit_lookup d ltac:(lia)) as (_ & Hv & _ & Hc). specialize (Hc ltac:(lia)).
    replace (u32 (u32 (u32 v * 10) + (digit d - 48))) with (u32 (v * 10 + d)); [rewrite IH; unfold value; cbn [fold_left]; by rewrite Hv|].
    rewrite Hc. unfold u32. rewrite Zplus_mod_idemp_l, <- Zplus_mod_idemp_l, <- (Zplus_mod_idemp_l (v mod 2 ^ 32 * 10)), Zmult_mod_idemp_l. do 2 f_equal. lia.
Qed.

Lemma atoi_plain l r n : Forall (fun c => exists d, 0 <= d < 10 /\ c = digit d) l -> l <> [] -> match r with c :: _ => mem c (take 10 digits) = false | [] => True end -> value 10 0 l = n -> atoi (l ++ r) = s32 (u32 n).
Proof.
  intros F Hne Hr <-. rewrite <- (atoi_digits_run 0 l r F Hr). destruct F as [|c l (d & Hd & ->) F]; [done|]. assert (E : exists k : nat, d = Z.of_nat k /\ (k < 10)%nat) by (exists (Z.to_nat d); lia). destruct E as (k & -> & Hk). do 10 (destruct k as [|k]; [done|]). lia.
Qed.

Lemma atoi_minus l r n : Forall (fun c => exists d, 0 <= d < 10 /\ c = digit d) l -> match r with c :: _ => mem c (take 10 digits) = false | [] => True end -> value 10 0 l = n -> atoi (45 :: l ++ r) = s32 (u32 (- n)).
Proof.
  intros F Hr <-. transitivity (s32 (u32 (- atoi_digits 0 (l ++ r)))); [done|]. rewrite (atoi_digits_run 0 l r F Hr : atoi_digits 0 (l ++ r) = _). f_equal. unfold u32. rewrite <- Z.sub_0_l, <- (Z.sub_0_l (value 10 0 l)). by rewrite Zminus_mod_idemp_r.
Qed.

Lemma atoi_spaces k s : atoi (replicate k 32 ++ s) = atoi s.
Proof. unfold atoi. assert (E : skip_white (replicate k 32 ++ s) = skip_white s) by (induction k; done). by rewrite E. Qed.

(** The sign and digits of an int, in any field but one that pads with zeros on the right. *)
Definition signed_text (v : Z) (l : list Z) : list Z := (if v <? 0 then [45] else []) ++ l.

Lemma value_zeros k l : value 10 0 (replicate k 48 ++ l) = value 10 0 l.
Proof. unfold value. rewrite fold_left_app. f_equal. by induction k. Qed.

Lemma atoi_signed v k r : - 2 ^ 31 <= v < 2 ^ 31 -> match r with c :: _ => mem c (take 10 digits) = false | [] => True end -> atoi (signed_text v (replicate k 48 ++ numeral 10 (Z.abs v)) ++ r) = v.
Proof.
  intros Hv Hr. set (l := replicate k 48 ++ numeral 10 (Z.abs v)). assert (Hbig : 0 <= Z.abs v < 10 ^ Z.of_nat 65) by (split; [lia|]; apply Z.le_lt_trans with (2 ^ 31); [lia|by vm_compute]).
  assert (F : Forall (fun c => exists d, 0 <= d < 10 /\ c = digit d) l). { apply Forall_app. split; [|apply numtext_digits; lia]. apply Forall_replicate. exists 0. split; [lia|done]. }
  assert (V : value 10 0 l = Z.abs v). by (unfold l; rewrite value_zeros; apply (numtext_value 65); [lia|exact Hbig]).
  assert (Hne : l <> []). { unfold l, numeral. cbn [numtext]. intros H. apply app_nil in H as [_ H]. apply app_nil in H as [_ H]. done. }
  unfold signed_text. destruct (Z.ltb_spec v 0).
  - rewrite <- app_assoc. cbn [app]. rewrite (atoi_minus l r _ F Hr V). replace (- Z.abs v) with v by lia. by apply s32_u32.
  - cbn [app]. rewrite (atoi_plain l r _ F Hne Hr V). rewrite Z.abs_eq by done. by apply s32_u32.
Qed.

Lemma atoi_field v f : - 2 ^ 31 <= v < 2 ^ 31 -> fl_left f && fl_zero f = false -> atoi (in_field f (signed_text v []) (numeral 10 (Z.abs v))) = v.
Proof.
  intros Hv Hf. unfold in_field, field, fill_of. set (k := Z.to_nat _). assert (E : forall l, signed_text v [] ++ l = signed_text v l) by (intros l; unfold signed_text; by rewrite app_nil_r). destruct (fl_left f), (fl_zero f); try done; cbv match; rewrite ?E.
  - rewrite <- E, app_assoc, E. apply (atoi_signed v 0); [done|]. by destruct k.
  - rewrite <- (app_nil_r (signed_text v _)). by apply atoi_signed.
  - change (32 =? 48) with false. cbv match. rewrite atoi_spaces, <- (app_nil_r (signed_text v _)). by apply (atoi_signed v 0).
Qed.

Lemma numeral_nonzero b n : 2 <= b <= 16 -> Forall (fun c => c <> 0) (numeral b n).
Proof. apply numtext_nonzero. Qed.

Lemma field_nonzero w left fill pre stuff : fill <> 0 -> Forall (fun c => c <> 0) pre -> Forall (fun c => c <> 0) stuff -> Forall (fun c => c <> 0) (field w left fill pre stuff).
Proof. intros Hf Hp Hs. unfold field. assert (Forall (fun c => c <> 0) (replicate (Z.to_nat (w - Z.of_nat (length pre + length stuff))) fill)) by (by apply Forall_replicate). destruct left; [|destruct (fill =? 48)]; repeat (apply Forall_app; split; auto). Qed.

Lemma field_length w left fill pre stuff : length (field w left fill pre stuff) = Nat.max (length pre + length stuff) (Z.to_nat w).
Proof. unfold field. destruct left; [|destruct (fill =? 48)]; rewrite !length_app, length_replicate; lia. Qed.

Lemma numtext_length fuel b n k : 2 <= b -> 0 <= n < b ^ Z.of_nat (S k) -> (length (numtext fuel b n) <= S k)%nat.
Proof.
  intros Hb. revert n k. induction fuel as [|fuel IH]; intros n k Hn; cbn [numtext]; [simpl; lia|]. rewrite length_app. cbn [length]. destruct (Z.ltb_spec 0 (n / b)) as [Hq|]; [|simpl; lia].
  destruct k as [|k]; [exfalso; change (Z.of_nat 1) with 1 in Hn; rewrite Z.pow_1_r in Hn; rewrite Z.div_small in Hq; lia|]. specialize (IH (n / b) k). rewrite Nat2Z.inj_succ, Z.pow_succ_r in Hn by lia. pose proof (Z.div_lt_upper_bound n b (b ^ Z.of_nat (S k)) ltac:(lia) ltac:(lia)). lia.
Qed.
Lemma numeral_length n : 0 <= n < 2 ^ 32 -> (length (numeral 10 n) <= 10)%nat.
Proof. intros Hn. apply (numtext_length 65 10 n 9); [lia|]. assert (2 ^ 32 < 10 ^ Z.of_nat 10) by (by vm_compute). lia. Qed.

Lemma render_int f v : - 2 ^ 31 <= v < 2 ^ 31 -> renders [Num f INTSZ 100] [AInt (u32 v)] = Some (in_field f (signed_text v []) (numeral 10 (Z.abs v))).
Proof.
  intros Hv. pose proof (s32_u32 v Hv) as Es.
  unfold renders, render, num_of, arg_bits. cbn -[s32 u32 Z.pow numeral in_field Z.abs]. rewrite Es. rewrite (proj2 (Z.eqb_neq v _)) by lia. cbn -[s32 u32 Z.pow numeral in_field Z.abs]. rewrite (proj2 (Z.leb_le 0 (Z.abs v))), (proj2 (Z.ltb_lt (Z.abs v) _)) by lia. cbn -[s32 u32 Z.pow numeral in_field Z.abs].
  rewrite app_nil_r. unfold signed_text, bprefix_of. change (10 =? 16) with false. change (10 =? 8) with false. by rewrite !andb_false_r.
Qed.

(** ** What the users of snprintf and atoi rely on *)

(** C39: Printing into a buffer: for a format made of literal characters and conversions in the
    order flags, width, size, conversion (%X, which this code does not know, excepted), and
    arguments of the types it names (the least long long under %lld excepted, whose negation
    overflows), vsnprintf returns and its result is the length of the whole text, as an int.
    Of the bytes of the buffer it changes none at [len] or after it; when [len] is not zero
    the buffer then holds the first [len] - 1 characters of the text and a null, and when
    [len] is zero nothing is written. *)
Theorem vsnprintf_prints junk buf len qs args t :
  length junk = Z.to_nat NUMBER_BUF_SIZE -> Forall piece_ok qs -> renders qs args = Some t -> 0 <= len <= Z.of_nat (length buf) ->
  exists buf', vsnprintf junk buf len (format_of qs) args = Ret (s32 (u32 (Z.of_nat (length t)))) buf' /\
    length buf' = length buf /\ drop (Z.to_nat len) buf' = drop (Z.to_nat len) buf /\
    (0 < len -> let shown := take (Z.to_nat (len - 1)) t in take (S (length shown)) buf' = shown ++ [0]).
Proof.
  intros Hj F Hr Hl. exists (filled buf len t). split; [by apply vsnprintf_run|]. split; [by apply filled_length|]. unfold filled. destruct (Z.eqb_spec len 0) as [->|]; [split; [done|lia]|]. rewrite length_take. set (k := (length t `min` Z.to_nat (len - 1))%nat).
  assert (Hk : length (take k t) = k) by (rewrite length_take; lia). assert (Et : take (Z.to_nat (len - 1)) t = take k t). { unfold k. destruct (Nat.min_spec (length t) (Z.to_nat (len - 1))) as [[Hm ->]|[Hm ->]]; [|done]. rewrite firstn_all. by rewrite take_ge by lia. }
  split.
  - rewrite (drop_app_ge (take k t)) by lia. rewrite Hk. replace (Z.to_nat len - k)%nat with (S (Z.to_nat len - S k)) by lia. cbn [drop]. rewrite drop_drop. f_equal. lia.
  - intros _. rewrite Et. replace (Z.to_nat (len - 1) `min` length t)%nat with k by lia. rewrite (take_app_ge (take k t)) by lia. rewrite Hk. replace (S k - k)%nat with 1%nat by lia. done.
Qed.

(** "<%05d|%-4s>" of -42 and "ab" in eight of ten bytes. *)
Lemma vsnprintf_prints_witness :
  exists buf', vsnprintf (replicate 23 7) (replicate 10 1) 8 (format_of [Lit 60; Num (mk_fl false false true 5) INTSZ 100; Lit 124; Str (mk_fl false true false 4); Lit 62]) [AInt (2 ^ 32 - 42); AStr (Some [97; 98])] = Ret 12 buf' /\
    length buf' = 10%nat /\ drop 8 buf' = [1; 1] /\ (0 < 8 -> take 8 buf' = [60; 45; 48; 48; 52; 50; 124; 0]).
Proof.
  apply (vsnprintf_prints (replicate 23 7) (replicate 10 1) 8 [Lit 60; Num (mk_fl false false true 5) INTSZ 100; Lit 124; Str (mk_fl false true false 4); Lit 62] [AInt (2 ^ 32 - 42); AStr (Some [97; 98])] [60; 45; 48; 48; 52; 50; 124; 97; 98; 32; 32; 62]).
  - reflexivity.
  - repeat constructor; simpl; lia.
  - vm_compute. reflexivity.
  - simpl. lia.
Defined.

(** %X prints the letter in the field and takes no argument: "%4X|%d" of 42 and 7 prints
    "   X|42". *)
Example upper_hex_prints_letter : vsnprintf (replicate 23 7) (replicate 8 1) 8 [37; 52; 88; 124; 37; 100] [AInt 42; AInt 7] = Ret 7 [32; 32; 32; 88; 124; 52; 50; 0].
Proof. vm_compute. reflexivity. Qed.

(** C40: Printing an int with "%d", under any flags and width but '-' with '0', into a buffer
    that has room for it, and reading the buffer with atoi gives the int back. *)
Theorem print_atoi_roundtrip junk buf len f v : length junk = Z.to_nat NUMBER_BUF_SIZE -> - 2 ^ 31 <= v < 2 ^ 31 -> 0 <= fl_width f < 2 ^ 31 -> fl_left f && fl_zero f = false -> 12 <= len <= Z.of_nat (length buf) -> fl_width f < len ->
  exists n buf', snprintf junk buf len (format_of [Num f INTSZ 100]) [AInt (u32 v)] = Ret n buf' /\ atoi (cstring buf') = v.
Proof.
  intros Hj Hv Hw Hf Hl Hwl. set (t := in_field f (signed_text v []) (numeral 10 (Z.abs v))). exists (count t), (filled buf len t). split. { apply vsnprintf_run; [done|constructor; [split; [exact Hw|done]|constructor]|by apply render_int|lia]. }
  rewrite filled_string; [|lia|]. 2: { apply field_nonzero; [unfold fill_of; by destruct (fl_zero f)|unfold signed_text; destruct (v <? 0); by repeat constructor|apply numeral_nonzero; lia]. }
  rewrite take_ge; [by apply atoi_field|]. assert (Hn : (length (numeral 10 (Z.abs v)) <= 10)%nat) by (apply numeral_length; lia). assert (Hs : (length (signed_text v []) <= 1)%nat) by (unfold signed_text; destruct (v <? 0); simpl; lia).
  unfold t, in_field. rewrite field_length. lia.
Qed.

(** "%06d" of the least int. *)
Lemma print_atoi_roundtrip_witness : exists n buf', snprintf (replicate 23 7) (replicate 16 1) 16 (format_of [Num (mk_fl false false true 6) INTSZ 100]) [AInt (u32 (- 2 ^ 31))] = Ret n buf' /\ atoi (cstring buf') = - 2 ^ 31.
Proof. apply (print_atoi_roundtrip (replicate 23 7) (replicate 16 1) 16 (mk_fl false false true 6) (- 2 ^ 31)); simpl; try reflexivity; lia. Defined.

(** "%-05d" of 42 pads with zeros on the right: it prints 42000. *)
Example left_zeros_change_number : vsnprintf (replicate 23 7) (replicate 8 1) 8 [37; 45; 48; 53; 100] [AInt 42] = Ret 5 [52; 50; 48; 48; 48; 0; 1; 1] /\ atoi [52; 50; 48; 48; 48] = 42000.
Proof. split; vm_compute; reflexivity. Qed.
End Printf.
